(* ===== verification/_CoqProject ===== *)
-Q . S2P
Prelude.v
Ring.v
Kernel.v
Spinlock.v
Sleeplock.v
Bio.v
Bcache.v
Printf.v
Log.v
Redo.v
LogOps.v
Str.v
Riscv.v
Kalloc.v
Vm.v
PageTable.v
UserVm.v
Freewalk.v
UserSpace.v
Kstate.v
Proc.v
Table.v
ProcSpace.v
Pipe.v
Fifo.v
Console.v
LineDisc.v
Fs.v
Dir.v
File.v
Fork.v
Exec.v
Sysfile.v
Trap.v
Still.v
ProcTree.v
Lifecycle.v
Kill0.v
Txn.v
Alloc.v
Inode.v
Path.v
Content.v
Trunc.v
Rdwr.v
DirMap.v
Namei.v
Mkfs.v
Append.v
Image.v
ImageTree.v
Virtio.v
Vqueue.v
User.v
Ulib.v
Grep.v
GrepLoop.v
Sh.v
ShParse.v
Umalloc.v
Heap.v
Utils.v
Stress.v
TestBase.v
TestArgs.v
TestFs.v
TestProc.v
TestMem.v
TestDrive.v
Find.v
Boot.v
