(* ===== verification/Prelude.v ===== *)
(** * A verification of xv6 for RISC-V (src/xv6-OS)

    xv6 is a small Unix: a kernel (src/xv6-OS/kernel), the user programs that run
    on it (src/xv6-OS/user) and the builder of its disk image (src/xv6-OS/mkfs).
    This library models the C code of all three and proves what makes its parts
    correct.

    ** The program and its parts

    Boot leads to the scheduler, which runs processes; a process enters the
    kernel through a trap, and the trap handler dispatches system calls.  System
    calls work on open files, which are pipes, devices or inodes; inodes and
    directories live in disk blocks, which are reached through the buffer cache
    and changed through the log, over the disk driver.  Everything rests on
    page tables, the page allocator, locks, and sleep and wakeup.  User programs
    see only the system calls.  The disk's first contents come from mkfs.

    ** Which file models what

    - Prelude.v: machine integers ([u_], [s_] and their abbreviations), byte
      memory ([load8], [store64], ...), characters, generic lemmas and tactics.
      Ring.v: ring buffers with 32-bit indices.
    - Kernel.v: the context kernel code runs in and the monad [K S] (struct cpu
      of proc.h); Spinlock.v: spinlock.c; Sleeplock.v: sleeplock.c.
    - Str.v: string.c.  Riscv.v: the macros of riscv.h and memlayout.h.
      Kalloc.v: kalloc.c.  Vm.v: vm.c, with the theorems of PageTable.v (walk,
      mappages, copies), UserVm.v (uvmunmap and the pages of a range), Freewalk.v
      (uvmfree) and UserSpace.v (uvmcopy and uvmalloc).
    - Bio.v: bio.c, and Bcache.v its theorems.  Log.v: log.c, with Redo.v (crash
      and recovery) and LogOps.v (log space).  Printf.v: printf.c.
    - Kstate.v: the kernel's tables (proc.h, file.h, fs.h).  Proc.v: proc.c, with
      the theorems of Table.v and ProcSpace.v (address spaces).  Pipe.v: pipe.c, and Fifo.v its theorems.
      Console.v: console.c and uart.c, and LineDisc.v their theorems.
    - Fs.v and Dir.v: fs.c, with the theorems of Txn.v (blocks inside a
      transaction), Alloc.v (bitmap), Inode.v (inodes), Path.v (path elements),
      Content.v and Rdwr.v (bmap, readi and writei on the contents of files),
      Trunc.v (itrunc, and iput of the last reference),
      DirMap.v (directories as maps) and Namei.v (path resolution).
      File.v: file.c.  Fork.v: the rest of proc.c and the arguments of
      syscall.c.  Exec.v: exec.c.  Sysfile.v: sysfile.c.  Trap.v: sysproc.c,
      syscall.c, trap.c, plic.c.  Boot.v: start.c and main.c.
    - Still.v: the class of kernel code that leaves the process table alone,
      with an instance for nearly every kernel function; ProcTree.v: the abstract
      process table; Lifecycle.v: system calls refine it; Kill0.v: kill(0).
    - Mkfs.v: mkfs.c, with the theorems of Append.v (iappend) and Image.v (the
      whole image); ImageTree.v: files of the image read by the kernel.
    - Virtio.v: virtio_disk.c, and Vqueue.v its theorems.
    - User.v: a user process, its calls and outcomes (user.h).  Ulib.v: ulib.c
      and printf.c.  Grep.v and GrepLoop.v: grep.c.  Sh.v: sh.c, and ShParse.v
      its theorem.  Umalloc.v: umalloc.c, and Heap.v its theorem.  Utils.v: the
      small programs.  Find.v: find.c and ls.c.  Stress.v: forktest.c, stressfs.c,
      logstress.c and grind.c.
    - TestBase.v (what the tests share), TestArgs.v, TestFs.v, TestProc.v and
      TestMem.v (the tests), TestDrive.v (the driver, with its theorem):
      usertests.c.

    ** How the code is modelled

    Definitions keep the names of the C functions; a loop of a function [f] is
    usually [f_loop], and a definition that is part of a function says so.

    Kernel code over a state [S] is a computation [K S A]: it gets the CPU's
    context and the state, and returns ([Done]), panics ([Panic]), spins on a
    lock another CPU holds ([Spin]), gives up the CPU ([Sleep], with the state it
    leaves behind and the channel), or runs out of a loop's bound ([NoFuel]).
    A computation is what one CPU does between two points where another process
    may run, so a function that sleeps in a loop ends in [Sleep], and a process
    that is woken up runs the loop again from its test.  Interleavings of several
    CPUs are step relations: [lstep] of Spinlock.v for locks, [sstep] of Table.v
    for sleep and wakeup, LogOps.v for operations that overlap, Vqueue.v for
    processes, interrupts and device.  Sleep and wakeup appear at two levels: as
    events in Spinlock.v, for code whose state has no process table, and on the
    table in Proc.v.  In Lifecycle.v a step is one such stretch of code: a call
    from its start, what is left of a call that slept, or one of the three
    critical sections of fork, between which the table is unlocked.  [zoom] runs
    a component's code on its part of a larger state.

    Physical memory is a map from addresses to bytes, with page tables and the
    free list of pages in it as the hardware and the C code have them.  Objects
    that C names by address (locks, channels, table entries, buffers) are named
    by constructors or indices; the contents of a disk block are a list of bytes,
    staged in memory where the code copies from or to it.  What the linker and
    the compiler place is the record [layout] of File.v, and what the hardware
    answers in a trap is the record [hw] of Trap.v; stores to device registers
    and control registers are events.  The disk is the class [DiskDriver] with
    the laws [DiskDriverOk] for the buffer cache, and Vqueue.v shows that the
    driver completes exactly such requests with any device that follows the
    virtio specification; a request the device reports as failed makes the
    interrupt handler panic, as virtio_disk.c has it.

    User code is a computation [U W A] over the memory of the process and the
    rest of the world [W]; the kernel's answers are the class [Os], and theorems
    name the promises they need ([Streams] of User.v, [Breaks] of Heap.v).
    Arrays on stacks and static variables are addresses.

    Integers are [Z] with the wrap-around of their C type written out.

    ** What the theorems show

    - Locks and scheduling: mutual exclusion of spinlocks on any interleaving,
      restored interrupt state around critical sections, no lost wakeup, and
      what the scheduler, wakeup, kill and reparent do to the process table.
    - Processes: every system call makes at most one transition of an abstract
      process table, of the process that makes it (fork: a pid used up or a
      child; exit: itself; wait: a dead child of its own), and from boot on the
      processes form a tree rooted at init, the entries of unfinished forks
      apart; ids are distinct until the int that counts them wraps around.
    - Memory: the page allocator refines a stack of pages; walk and mappages
      change exactly the mappings they should; copyout followed by copyin is the
      identity; uvmalloc extends an address space with zeros and uvmcopy copies
      one, or they give back the frames they took and unmap them (page-table
      nodes stay in the table); the pages of a forked process all return
      to the allocator; the string routines meet their specifications.
    - Storage: the buffer cache presents the disk as a map whatever is cached;
      commit is atomic under a crash after any of its writes, recovery can be
      restarted, and the log never overflows; block allocation, and inodes
      written and read back; writei replaces and readi returns contents of files
      through direct and indirect blocks, and iput of an unlinked file frees
      exactly its blocks and its inode; directories are maps that dirlink
      extends and dirlookup reads; namei walks those maps and gives back its
      references; disk requests complete or are reported as failed.
    - The image: mkfs completes on files it can take ([file_ok]: readable, with
      names that fit and at most MAXFILE blocks) and its image holds them, and
      the kernel, resolving their names and reading their inodes, gets the bytes
      of the host's files (Image.v, ImageTree.v).
    - Pipes and console: pipes are bounded queues across counter wrap-around;
      the console implements a line editor; kernel printf prints numbers
      exactly and returns on every format.
    - User programs: grep's matcher decides the language of its pattern and grep
      prints exactly the matching lines; the shell parses back every command it
      can be given; malloc and free keep blocks disjoint and intact as long as no
      request reaches 2^31 - 64 bytes (above, sbrk's int argument truncates the
      size: [malloc_beyond_heap]); forktest
      passes on a kernel whose fork and wait keep their contract, and grind's
      generator is the one of Park and Miller; usertests exits with 0 exactly
      when every test's process did and no free page is lost.
    - Three theorems state defects: a transaction that fills the log panics for
      lack of buffers (LogOps.v), copyin above MAXVA panics (PageTable.v), and
      kill(0) dooms the next process (Kill0.v).

    ** Bounds

    Loops that the C code bounds by a constant or a length run with that number
    as bound.  Loops over C strings, directories and streams take a bound
    [fuel], and the theorems show that a bound that grows linearly with the
    input gives the result ([NoFuel] and [UFuel] do not occur).  In Sh.v,
    parse_fuel is four times the length of the line, which covers the nesting of
    the grammar; in Heap.v the bound is twice the number of calls made so far.
    namex and skipelem run with MAXPATH, more than a path has characters.

    ** Not modelled

    The assembly files (entry.S, kernelvec.S, swtch.S, trampoline.S, usys.S):
    register save and restore and mode changes; a context switch ends a
    computation.  For mkfs, the host's files are a parameter and writes to the
    image succeed.  TLB flushes and memory fences have
    no effect in the model, whose memory is sequentially consistent.  noff of
    struct cpu and the offset of loadseg are unbounded integers: locks do not
    nest 2^31 deep, and uvmalloc has refused a segment near 2^32 bytes.

    ** Further work

    Exec on whole address spaces, reference counts of open files, and the
    contracts of the remaining user programs. *)
From stdpp Require Import base numbers list gmap strings.
From Stdlib Require Import Ascii.

#[global] Open Scope Z_scope.

(** ** Machine integers

    A C integer of width [w] is a [Z]; every arithmetic result is written
    with its wrap-around.  [u_ w] is conversion to the unsigned type of width
    [w], [s_ w] conversion to the signed one. *)

Definition u_ (w x : Z) : Z := x mod 2 ^ w.
Definition s_ (w x : Z) : Z :=
  let y := x mod 2 ^ w in if y <? 2 ^ (w - 1) then y else y - 2 ^ w.

Abbreviation u8 := (u_ 8).
Abbreviation u16 := (u_ 16).
Abbreviation u32 := (u_ 32).
Abbreviation u64 := (u_ 64).
Abbreviation i8 := (s_ 8).
Abbreviation i16 := (s_ 16).
Abbreviation i32 := (s_ 32).
Abbreviation i64 := (s_ 64).

Definition in_u (w x : Z) : Prop := 0 <= x < 2 ^ w.
Definition in_s (w x : Z) : Prop := - 2 ^ (w - 1) <= x < 2 ^ (w - 1).

(** The development's hint databases: [xv6] holds the rewriting equations the
    components share, [word] the range facts of machine integers. *)
Create HintDb xv6.
Create HintDb word.

Lemma u_range w x : 0 <= w -> 0 <= u_ w x < 2 ^ w.
Proof. intros. apply Z.mod_pos_bound. by apply Z.pow_pos_nonneg. Qed.

Lemma u_small w x : 0 <= x < 2 ^ w -> u_ w x = x.
Proof. apply Z.mod_small. Qed.

Lemma u_idemp w x : u_ w (u_ w x) = u_ w x.
Proof. apply Zmod_mod. Qed.

Lemma s_range w x : 0 < w -> - 2 ^ (w - 1) <= s_ w x < 2 ^ (w - 1).
Proof.
  intros Hw. unfold s_.
  pose proof (Z.mod_pos_bound x (2 ^ w) ltac:(lia)) as H.
  assert (2 ^ w = 2 * 2 ^ (w - 1)) as E.
  { rewrite <- Z.pow_succ_r by lia. f_equal. lia. }
  destruct (Z.ltb_spec (x mod 2 ^ w) (2 ^ (w - 1))); lia.
Qed.

Lemma s_small w x : 0 < w -> in_s w x -> s_ w x = x.
Proof.
  unfold in_s, s_. intros Hw H.
  assert (2 ^ w = 2 * 2 ^ (w - 1)) as E.
  { rewrite <- Z.pow_succ_r by lia. f_equal. lia. }
  assert (0 < 2 ^ (w - 1)) by (apply Z.pow_pos_nonneg; lia).
  destruct (Z.le_gt_cases 0 x).
  - rewrite Z.mod_small by lia. destruct (Z.ltb_spec x (2 ^ (w - 1))); lia.
  - assert (x mod 2 ^ w = x + 2 ^ w) as ->.
    { symmetry. apply Z.mod_unique with (-1); lia. }
    destruct (Z.ltb_spec (x + 2 ^ w) (2 ^ (w - 1))); lia.
Qed.

#[export] Hint Resolve u_range s_range : word.

(** C truth values: comparisons return an [int]. *)
Definition b2z (b : bool) : Z := if b then 1 else 0.
Definition z2b (z : Z) : bool := negb (z =? 0).

(** Characters of the source's string literals. *)
Definition chr (a : ascii) : Z := Z.of_N (N_of_ascii a).
Definition chars (s : string) : list Z := chr <$> String.list_ascii_of_string s.

(** ** Little-endian encoding of integers as bytes *)

Fixpoint le_split (n : nat) (v : Z) : list Z :=
  match n with
  | O => []
  | S n => (v mod 256) :: le_split n (v / 256)
  end.

Fixpoint le_combine (bs : list Z) : Z :=
  match bs with
  | [] => 0
  | b :: bs => b + 256 * le_combine bs
  end.

Definition is_byte (b : Z) : Prop := 0 <= b < 256.

Lemma length_le_split n v : length (le_split n v) = n.
Proof. revert v. induction n; intros; simpl; auto. Qed.

Lemma le_split_bytes n v : Forall is_byte (le_split n v).
Proof.
  revert v. induction n; intros; simpl; constructor; auto.
  apply Z.mod_pos_bound. lia.
Qed.

Lemma le_combine_split n v : le_combine (le_split n v) = v mod 2 ^ (8 * Z.of_nat n).
Proof.
  revert v. induction n as [|n IH]; intros v.
  { simpl. by rewrite Z.mod_1_r. }
  cbn [le_split le_combine]. rewrite IH.
  replace (8 * Z.of_nat (S n)) with (8 + 8 * Z.of_nat n) by lia.
  rewrite Z.pow_add_r by lia.
  change (2 ^ 8) with 256.
  rewrite Z.rem_mul_r by lia. lia.
Qed.

Lemma le_combine_range bs :
  Forall is_byte bs -> 0 <= le_combine bs < 2 ^ (8 * Z.of_nat (length bs)).
Proof.
  induction 1 as [|b bs Hb _ IH]; simpl length; cbn [le_combine]; [lia|].
  replace (8 * Z.of_nat (S (length bs))) with (8 + 8 * Z.of_nat (length bs)) by lia.
  rewrite Z.pow_add_r by lia. change (2 ^ 8) with 256.
  unfold is_byte in Hb. lia.
Qed.

Lemma le_split_combine bs :
  Forall is_byte bs -> le_split (length bs) (le_combine bs) = bs.
Proof.
  induction 1 as [|b bs Hb _ IH]; [done|]. cbn [length le_split le_combine].
  unfold is_byte in Hb. f_equal.
  - rewrite Z.mul_comm, Z.mod_add by lia. apply Z.mod_small. lia.
  - rewrite Z.mul_comm, Z.div_add by lia. rewrite (Z.div_small b) by lia. exact IH.
Qed.

Lemma le_combine_zeros n : le_combine (replicate n 0) = 0.
Proof. induction n; simpl; lia. Qed.

(** ** Fields of a byte array

    A C structure overlaid on a buffer, such as an on-disk header, is read and
    written through the byte offsets of its fields. *)

Definition rd_bytes (off n : Z) (d : list Z) : list Z := take (Z.to_nat n) (drop (Z.to_nat off) d).
Definition wr_bytes (off : Z) (bs d : list Z) : list Z :=
  take (Z.to_nat off) d ++ bs ++ drop (Z.to_nat off + length bs) d.
Definition get_le (n off : Z) (d : list Z) : Z := le_combine (rd_bytes off n d).
Definition put_le (n off v : Z) (d : list Z) : list Z := wr_bytes off (le_split (Z.to_nat n) v) d.
Abbreviation get16 := (get_le 2).
Abbreviation get32 := (get_le 4).
Abbreviation put16 := (put_le 2).
Abbreviation put32 := (put_le 4).

Lemma length_wr_bytes off bs d : 0 <= off -> (Z.to_nat off + length bs <= length d)%nat ->
  length (wr_bytes off bs d) = length d.
Proof. intros. unfold wr_bytes. rewrite !length_app, length_take, length_drop. lia. Qed.

Lemma rd_wr_same off bs d : 0 <= off -> (Z.to_nat off + length bs <= length d)%nat ->
  rd_bytes off (Z.of_nat (length bs)) (wr_bytes off bs d) = bs.
Proof.
  intros. unfold rd_bytes, wr_bytes. rewrite Nat2Z.id.
  rewrite drop_app_ge by (rewrite length_take; lia). rewrite length_take.
  replace (Z.to_nat off - _)%nat with O by lia. rewrite drop_0, take_app_le, take_ge by lia. done.
Qed.

Lemma rd_wr_other off bs d off' n : 0 <= off -> 0 <= off' -> 0 <= n ->
  (Z.to_nat off + length bs <= length d)%nat ->
  off' + n <= off \/ off + Z.of_nat (length bs) <= off' ->
  rd_bytes off' n (wr_bytes off bs d) = rd_bytes off' n d.
Proof.
  intros H1 H2 H3 Hl Ho. apply list_eq. intros k. unfold rd_bytes.
  destruct (decide (k < Z.to_nat n)%nat) as [Hk|Hk].
  2:{ rewrite !lookup_take_ge by lia. done. }
  rewrite !lookup_take_lt by lia. rewrite !lookup_drop. unfold wr_bytes.
  destruct Ho as [Ho|Ho].
  - rewrite lookup_app_l by (rewrite length_take; lia). by rewrite lookup_take_lt by lia.
  - rewrite lookup_app_r by (rewrite length_take; lia). rewrite length_take.
    rewrite lookup_app_r by lia. rewrite lookup_drop. f_equal. lia.
Qed.

Lemma length_put_le n off v d : 0 <= off -> 0 <= n -> off + n <= Z.of_nat (length d) ->
  length (put_le n off v d) = length d.
Proof. intros. apply length_wr_bytes; [done|]. rewrite length_le_split. lia. Qed.

Lemma get_put_same n off v d : 0 <= off -> 0 <= n -> off + n <= Z.of_nat (length d) ->
  get_le n off (put_le n off v d) = v mod 2 ^ (8 * n).
Proof.
  intros. unfold get_le, put_le.
  assert (n = Z.of_nat (length (le_split (Z.to_nat n) v))) as E by (rewrite length_le_split; lia).
  rewrite E at 1. rewrite rd_wr_same by (rewrite ?length_le_split; lia).
  rewrite le_combine_split, Z2Nat.id by lia. done.
Qed.

Lemma get_put_other n off v d n' off' : 0 <= off -> 0 <= n -> 0 <= off' -> 0 <= n' ->
  off + n <= Z.of_nat (length d) -> off' + n' <= off \/ off + n <= off' ->
  get_le n' off' (put_le n off v d) = get_le n' off' d.
Proof.
  intros. unfold get_le, put_le. f_equal. apply rd_wr_other; rewrite ?length_le_split; lia.
Qed.

(** ** Byte-addressed memory

    Physical memory (and any other flat byte array) is a finite map from
    addresses to bytes; a byte never written reads as 0, as RAM does at
    reset and static storage by the language. *)

Abbreviation mem := (gmap Z Z).

Definition load8 (m : mem) (a : Z) : Z := default 0 (m !! a).
Definition store8 (m : mem) (a v : Z) : mem := <[a := v mod 256]> m.

Fixpoint load_bytes (m : mem) (a : Z) (n : nat) : list Z :=
  match n with
  | O => []
  | S n => load8 m a :: load_bytes m (a + 1) n
  end.

Fixpoint store_bytes (m : mem) (a : Z) (bs : list Z) : mem :=
  match bs with
  | [] => m
  | b :: bs => store_bytes (store8 m a b) (a + 1) bs
  end.

Definition load64 (m : mem) (a : Z) : Z := le_combine (load_bytes m a 8).
Definition store64 (m : mem) (a v : Z) : mem := store_bytes m a (le_split 8 v).

(** Every stored value is a byte. *)
Definition mem_ok (m : mem) : Prop := map_Forall (fun _ b => is_byte b) m.

(** Pointwise equality of memories: what a program can observe. *)
Definition mem_eqv (m1 m2 : mem) : Prop := forall a, load8 m1 a = load8 m2 a.

#[global] Instance mem_eqv_equiv : Equivalence mem_eqv.
Proof.
  split.
  - by intros m a.
  - intros m1 m2 H a. by rewrite (H a).
  - intros m1 m2 m3 H1 H2 a. by rewrite (H1 a), (H2 a).
Qed.

Lemma load8_store8 m a b v :
  load8 (store8 m a v) b = if a =? b then v mod 256 else load8 m b.
Proof.
  unfold load8, store8. destruct (Z.eqb_spec a b) as [->|Hne].
  - by rewrite lookup_insert_eq.
  - by rewrite lookup_insert_ne.
Qed.

Lemma load8_store8_ne m a b v : a <> b -> load8 (store8 m a v) b = load8 m b.
Proof. intros. rewrite load8_store8. by rewrite (proj2 (Z.eqb_neq a b)). Qed.

#[global] Instance store8_proper a v : Proper (mem_eqv ==> mem_eqv) (fun m => store8 m a v).
Proof. intros m1 m2 H b. rewrite !load8_store8. by rewrite (H b). Qed.

Lemma load8_range m a : mem_ok m -> is_byte (load8 m a).
Proof.
  unfold load8. intros H. destruct (m !! a) eqn:E; simpl.
  - apply (H _ _ E).
  - unfold is_byte. lia.
Qed.

Lemma mem_ok_store8 m a v : mem_ok m -> mem_ok (store8 m a v).
Proof. intros. apply map_Forall_insert_2; [apply Z.mod_pos_bound; lia|done]. Qed.

Lemma mem_ok_store_bytes bs : forall m a, mem_ok m -> mem_ok (store_bytes m a bs).
Proof. induction bs; intros; simpl; eauto using mem_ok_store8. Qed.

Lemma mem_ok_empty : mem_ok ∅.
Proof. apply map_Forall_empty. Qed.

Lemma length_load_bytes n : forall m a, length (load_bytes m a n) = n.
Proof. induction n; intros; simpl; auto. Qed.

Lemma load_bytes_lookup n : forall m a i,
  (i < n)%nat -> load_bytes m a n !! i = Some (load8 m (a + Z.of_nat i)).
Proof.
  induction n as [|n IH]; intros m a [|i] Hi; simpl; try lia.
  - by rewrite Z.add_0_r.
  - rewrite IH by lia. f_equal. f_equal. lia.
Qed.

Lemma load8_store_bytes_out bs : forall m a b,
  ~ (a <= b < a + Z.of_nat (length bs)) ->
  load8 (store_bytes m a bs) b = load8 m b.
Proof.
  induction bs as [|x bs IH]; intros m a b H; [done|]. cbn [store_bytes length] in *.
  rewrite IH by lia. apply load8_store8_ne. lia.
Qed.

Lemma load8_store_bytes_in bs : forall m a i x,
  bs !! i = Some x -> load8 (store_bytes m a bs) (a + Z.of_nat i) = x mod 256.
Proof.
  induction bs as [|y bs IH]; intros m a [|i] x H; simplify_eq/=.
  - rewrite load8_store_bytes_out by lia. rewrite load8_store8.
    by rewrite Z.add_0_r, Z.eqb_refl.
  - replace (a + Z.of_nat (S i)) with (a + 1 + Z.of_nat i) by lia. by apply IH.
Qed.

Lemma load_bytes_ext n m1 m2 a1 a2 :
  (forall i, 0 <= i < Z.of_nat n -> load8 m1 (a1 + i) = load8 m2 (a2 + i)) ->
  load_bytes m1 a1 n = load_bytes m2 a2 n.
Proof.
  intros H. apply list_eq. intros i. destruct (decide (i < n)%nat).
  - rewrite !load_bytes_lookup by done. f_equal. apply H. lia.
  - rewrite !lookup_ge_None_2; [done|rewrite length_load_bytes; lia..].
Qed.

Lemma load_store_bytes m a bs :
  Forall is_byte bs -> load_bytes (store_bytes m a bs) a (length bs) = bs.
Proof.
  intros Hb. apply list_eq. intros i. destruct (decide (i < length bs)%nat) as [Hi|Hi].
  - rewrite load_bytes_lookup by done.
    destruct (lookup_lt_is_Some_2 bs i Hi) as [x Hx].
    rewrite (load8_store_bytes_in _ _ _ _ _ Hx), Hx. f_equal.
    apply Z.mod_small. by apply (Forall_lookup_1 _ _ _ _ Hb Hx).
  - rewrite !lookup_ge_None_2; [done|lia|rewrite length_load_bytes; lia].
Qed.

Lemma load_bytes_store_out n m a b bs :
  b + Z.of_nat n <= a \/ a + Z.of_nat (length bs) <= b ->
  load_bytes (store_bytes m a bs) b n = load_bytes m b n.
Proof. intros. apply load_bytes_ext. intros. apply load8_store_bytes_out. lia. Qed.

Lemma load_bytes_bytes n m a : mem_ok m -> Forall is_byte (load_bytes m a n).
Proof.
  intros H. revert a. induction n; intros; simpl; constructor; auto using load8_range.
Qed.

Lemma load64_store64 m a v : load64 (store64 m a v) a = v mod 2 ^ 64.
Proof.
  unfold load64, store64.
  rewrite <- (length_le_split 8 v) at 2.
  rewrite load_store_bytes by apply le_split_bytes.
  apply le_combine_split.
Qed.

Lemma load64_store64_ne m a b v :
  a + 8 <= b \/ b + 8 <= a -> load64 (store64 m a v) b = load64 m b.
Proof.
  intros. unfold load64, store64. f_equal. apply load_bytes_store_out.
  rewrite length_le_split. lia.
Qed.

Lemma load64_ext m1 m2 a :
  (forall i, a <= i < a + 8 -> load8 m1 i = load8 m2 i) -> load64 m1 a = load64 m2 a.
Proof. intros H. unfold load64. f_equal. apply load_bytes_ext. intros. apply H. lia. Qed.

Lemma load8_store64_out m a b v :
  b < a \/ a + 8 <= b -> load8 (store64 m a v) b = load8 m b.
Proof.
  intros. unfold store64. apply load8_store_bytes_out. rewrite length_le_split. lia.
Qed.

Lemma load64_range m a : mem_ok m -> 0 <= load64 m a < 2 ^ 64.
Proof.
  intros. unfold load64.
  pose proof (le_combine_range (load_bytes m a 8) (load_bytes_bytes _ _ _ H)) as R.
  rewrite length_load_bytes in R. exact R.
Qed.

Lemma mem_ok_store64 m a v : mem_ok m -> mem_ok (store64 m a v).
Proof. apply mem_ok_store_bytes. Qed.

#[export] Hint Resolve mem_ok_store8 mem_ok_store64 mem_ok_store_bytes mem_ok_empty : xv6.

#[global] Instance load64_proper : Proper (mem_eqv ==> eq ==> eq) load64.
Proof. intros m1 m2 H a ? <-. apply load64_ext. intros. apply H. Qed.

#[global] Instance store_bytes_proper :
  Proper (mem_eqv ==> eq ==> eq ==> mem_eqv) store_bytes.
Proof.
  intros m1 m2 H a ? <- bs ? <-. revert m1 m2 H a.
  induction bs as [|b bs IH]; intros m1 m2 H a; simpl; [done|].
  apply IH. by apply store8_proper.
Qed.
#[global] Arguments load64 : simpl never.
#[global] Arguments store64 : simpl never.
#[global] Arguments load8 : simpl never.
#[global] Arguments store8 : simpl never.

Lemma load64_zero m a : (forall i, a <= i < a + 8 -> load8 m i = 0) -> load64 m a = 0.
Proof.
  intros H. unfold load64. replace (load_bytes m a 8) with (replicate 8 0); [done|].
  apply list_eq. intros i. destruct (decide (i < 8)%nat).
  - rewrite load_bytes_lookup, lookup_replicate_2 by done. by rewrite H by lia.
  - by rewrite !lookup_ge_None_2 by (rewrite ?length_load_bytes, ?length_replicate; lia).
Qed.

(** The memory operations are used through their lemmas. *)
#[global] Opaque load8 store8 load64 store64.
