(* ===== verification/Ring.v ===== *)
(** * Ring buffers with free-running 32-bit indices

    Pipes and the console keep bytes in an array of [N] entries and name them
    by 32-bit counters that wrap around; [N] divides 2^32, so the entry of a
    counter is its value modulo [N]. *)
From stdpp Require Import base numbers list.
From S2P Require Import Prelude.

Section Ring.
Variable (N : Z).
Hypotheses (HN : 0 < N) (Hdiv : (N | 2 ^ 32)).

Definition ring_nth (buf : list Z) (start k : Z) : Z := nth (Z.to_nat ((start + k) mod N)) buf 0.
(** The [len] entries from [start] on. *)
Definition ring (buf : list Z) (start len : Z) : list Z := ring_nth buf start <$> seqZ 0 len.

Lemma mod_u32 x : u32 x mod N = x mod N.
Proof using HN Hdiv.
  destruct Hdiv as [q Hq]. unfold u_. rewrite (Z.div_mod x (2 ^ 32)) at 2 by lia. rewrite Hq at 2.
  replace (q * N * (x / 2 ^ 32) + x mod 2 ^ 32) with (x mod 2 ^ 32 + q * (x / 2 ^ 32) * N) by ring.
  by rewrite Z.mod_add by lia.
Qed.

Lemma length_ring buf start len : 0 <= len -> Z.of_nat (length (ring buf start len)) = len.
Proof. intros. unfold ring. rewrite length_fmap, length_seqZ. lia. Qed.

Lemma ring_nth_shift buf start a k : ring_nth buf (u32 (start + a)) k = ring_nth buf start (a + k).
Proof using HN Hdiv.
  unfold ring_nth. f_equal. f_equal. rewrite <- (Zplus_mod_idemp_l (u32 _)), mod_u32, Zplus_mod_idemp_l. f_equal. lia.
Qed.

Lemma ring_app buf start a b : 0 <= a -> 0 <= b ->
  ring buf start (a + b) = ring buf start a ++ ring buf (u32 (start + a)) b.
Proof using HN Hdiv.
  intros Ha Hb. unfold ring. rewrite seqZ_app by lia. rewrite fmap_app. f_equal.
  apply list_eq. intros k. rewrite !list_lookup_fmap. destruct (decide (Z.of_nat k < b)) as [Hk|Hk].
  - rewrite !lookup_seqZ_lt by lia. simpl. by rewrite ring_nth_shift.
  - by rewrite !lookup_seqZ_ge by lia.
Qed.

Lemma ring_one buf start : ring buf start 1 = [ring_nth buf start 0].
Proof. done. Qed.

(** An entry outside the range may be overwritten. *)
Lemma ring_insert buf start len k v : length buf = Z.to_nat N -> 0 <= len <= k -> k < N ->
  ring (<[Z.to_nat (u32 (start + k) mod N) := v]> buf) start len = ring buf start len.
Proof using HN Hdiv.
  intros Hl Hlen Hk. apply list_fmap_ext. intros j i Hi%lookup_seqZ. unfold ring_nth. rewrite !nth_lookup.
  rewrite list_lookup_insert_ne; [done|]. intros E. rewrite mod_u32 in E.
  pose proof (Z.mod_pos_bound (start + k) N HN). pose proof (Z.mod_pos_bound (start + i) N HN).
  apply (f_equal Z.of_nat) in E. rewrite !Z2Nat.id in E by lia.
  assert ((k - i) mod N = 0) as E0.
  { replace (k - i) with ((start + k) - (start + i)) by lia. rewrite Zminus_mod, E, Z.sub_diag. apply Z.mod_0_l. lia. }
  rewrite Z.mod_small in E0; lia.
Qed.

Lemma ring_write buf start len v : length buf = Z.to_nat N -> 0 <= len < N ->
  ring (<[Z.to_nat (u32 (start + len) mod N) := v]> buf) start (len + 1) = ring buf start len ++ [v].
Proof using HN Hdiv.
  intros Hl Hlen. rewrite ring_app by lia. f_equal; [by apply ring_insert; lia|].
  rewrite ring_one. f_equal. unfold ring_nth. rewrite Z.add_0_r, nth_lookup.
  pose proof (Z.mod_pos_bound (u32 (start + len)) N HN). by rewrite list_lookup_insert_eq by lia.
Qed.

Lemma ring_pop buf start len : 0 < len ->
  ring buf start len = ring_nth buf start 0 :: ring buf (u32 (start + 1)) (len - 1).
Proof using HN Hdiv.
  intros Hlen. replace len with (1 + (len - 1)) at 1 by lia. rewrite ring_app by lia. by rewrite ring_one.
Qed.

Lemma ring_snoc buf start len : 0 < len ->
  ring buf start len = ring buf start (len - 1) ++ [ring_nth buf start (len - 1)].
Proof using HN Hdiv.
  intros Hlen. replace len with ((len - 1) + 1) at 1 by lia. rewrite ring_app by lia. rewrite ring_one. f_equal.
  rewrite ring_nth_shift. f_equal. f_equal. lia.
Qed.

(** An index in 32 bits is determined by its distance from another one. *)
Lemma u32_add_sub a b : in_u 32 b -> u32 (a + u32 (b - a)) = b.
Proof using.
  intros Hb. unfold u_. rewrite Zplus_mod_idemp_r. replace (a + (b - a)) with b by lia. by apply Z.mod_small.
Qed.
Lemma u32_sub_add a b d : u32 (b - a) + d < 2 ^ 32 -> 0 <= u32 (b - a) + d -> u32 (u32 (b + d) - a) = u32 (b - a) + d.
Proof using.
  intros H1 H2. unfold u_ in *. rewrite Zminus_mod_idemp_l. replace (b + d - a) with (b - a + d) by lia.
  rewrite <- Zplus_mod_idemp_l. by apply Z.mod_small.
Qed.
End Ring.
