(* ===== verification/Kernel.v ===== *)
(** * Execution context of kernel code

    The part of the machine every kernel function runs in: the CPU it runs on
    ([struct cpu] of proc.h and the [SIE] bit of [sstatus]), the kernel's
    spinlocks, and the events other processes can observe (wakeups, console
    bytes).  Kernel code over a component's state [S] is a computation in the
    monad [K S]. *)
From stdpp Require Import base numbers list gmap strings.
From S2P Require Import Prelude.

(** ** Names of locks and sleep channels

    The C code names a lock or a channel by its address; every lock and channel
    of the kernel is a static object or a field of a table entry. *)

Inductive lockid :=
  | L_kmem | L_pid | L_wait | L_proc (i : Z) | L_bcache | L_buf (i : Z)
  | L_itable | L_inode (i : Z) | L_ftable | L_log | L_pipe (a : Z)
  | L_cons | L_ticks | L_tx | L_vdisk | L_pr.

#[global] Instance lockid_eq_dec : EqDecision lockid.
Proof. solve_decision. Defined.

Definition lockid_enc (l : lockid) : Z * Z :=
  match l with
  | L_kmem => (0, 0) | L_pid => (1, 0) | L_wait => (2, 0) | L_proc i => (3, i)
  | L_bcache => (4, 0) | L_buf i => (5, i) | L_itable => (6, 0)
  | L_inode i => (7, i) | L_ftable => (8, 0) | L_log => (9, 0)
  | L_pipe a => (10, a) | L_cons => (11, 0) | L_ticks => (12, 0)
  | L_tx => (13, 0) | L_vdisk => (14, 0) | L_pr => (15, 0)
  end.

Definition lockid_dec (p : Z * Z) : lockid :=
  match p with
  | (1, _) => L_pid | (2, _) => L_wait | (3, i) => L_proc i
  | (4, _) => L_bcache | (5, i) => L_buf i | (6, _) => L_itable
  | (7, i) => L_inode i | (8, _) => L_ftable | (9, _) => L_log
  | (10, a) => L_pipe a | (11, _) => L_cons | (12, _) => L_ticks
  | (13, _) => L_tx | (14, _) => L_vdisk | (15, _) => L_pr
  | _ => L_kmem
  end.

#[global] Program Instance lockid_countable : Countable lockid :=
  inj_countable' lockid_enc lockid_dec _.
Next Obligation. by intros []. Qed.

Inductive chan :=
  | C_log | C_sleeplock (l : lockid) | C_proc (i : Z) | C_pipe_nread (a : Z)
  | C_pipe_nwrite (a : Z) | C_ticks | C_cons_r | C_tx | C_disk_free | C_buf (i : Z)
  | C_none.   (* no channel: the process gave up the CPU without sleeping *)

#[global] Instance chan_eq_dec : EqDecision chan.
Proof. solve_decision. Defined.

(** [struct spinlock]: [cpu] is [None] for the null pointer. *)
Record spinlock := Spinlock { locked : Z; lk_name : string; lk_cpu : option Z }.

(** The supervisor control registers trap handling writes. *)
Inductive csr := STVEC | SEPC | SSTATUS | STIMECMP | SATP.

(** Events visible outside the running function, in the order they happen. *)
Inductive event :=
  | Wakeup (ch : chan)
  | Putc (c : Z)
  | MMIO (a v : Z)               (* a store to another device register *)
  | Csr (r : csr) (v : Z).       (* a write to a control register *)

(** ** The context *)

Record ctx := Ctx {
  hart : Z;                        (* tp: this core's id, the index into cpus[] *)
  sie : bool;                      (* sstatus.SIE: device interrupts enabled *)
  noff : Z;                        (* cpu.noff: depth of push_off() nesting *)
  intena : bool;                   (* cpu.intena: SIE before the first push_off() *)
  curproc : Z;                     (* cpu.proc, as an index into proc[]; -1 for none *)
  curpid : Z;                      (* cpu.proc->pid, fixed while the process runs *)
  locks : gmap lockid spinlock;    (* every spinlock of the kernel *)
  evs : list event;                (* events so far, latest first *)
}.

Definition set_sie (b : bool) (c : ctx) : ctx :=
  Ctx (hart c) b (noff c) (intena c) (curproc c) (curpid c) (locks c) (evs c).
Definition set_noff (n : Z) (c : ctx) : ctx :=
  Ctx (hart c) (sie c) n (intena c) (curproc c) (curpid c) (locks c) (evs c).
Definition set_intena (b : bool) (c : ctx) : ctx :=
  Ctx (hart c) (sie c) (noff c) b (curproc c) (curpid c) (locks c) (evs c).
Definition set_locks (l : gmap lockid spinlock) (c : ctx) : ctx :=
  Ctx (hart c) (sie c) (noff c) (intena c) (curproc c) (curpid c) l (evs c).
Definition set_evs (e : list event) (c : ctx) : ctx :=
  Ctx (hart c) (sie c) (noff c) (intena c) (curproc c) (curpid c) (locks c) e.
Definition set_curproc (p pid : Z) (c : ctx) : ctx :=
  Ctx (hart c) (sie c) (noff c) (intena c) p pid (locks c) (evs c).

(** ** Outcomes and the monad

    A kernel function returns ([Done]), panics ([Panic], the [panic] of
    printf.c, which never returns), spins on a lock another CPU holds ([Spin]),
    or gives up the CPU in [sleep] on a channel ([Sleep], with the state it
    leaves behind).  [NoFuel] is the outcome of a loop whose bound ran out. *)
Inductive outcome (S A : Type) :=
  | Done (a : A) (c : ctx) (s : S)
  | Panic (msg : string)
  | Spin (l : lockid)
  | Sleep (ch : chan) (c : ctx) (s : S)
  | NoFuel.
Arguments Done {S A} _ _ _.
Arguments Panic {S A} _.
Arguments Spin {S A} _.
Arguments Sleep {S A} _ _ _.
Arguments NoFuel {S A}.

Definition K (S A : Type) : Type := ctx -> S -> outcome S A.

#[global] Instance K_ret S : MRet (K S) := fun A a c s => Done a c s.
#[global] Instance K_bind S : MBind (K S) := fun A B k m c s =>
  match m c s with
  | Done a c' s' => k a c' s'
  | Panic msg => Panic msg
  | Spin l => Spin l
  | Sleep ch c' s' => Sleep ch c' s'
  | NoFuel => NoFuel
  end.

Definition panic {S A} (msg : string) : K S A := fun _ _ => Panic msg.
Definition get {S} : K S S := fun c s => Done s c s.
Definition put {S} (s : S) : K S unit := fun c _ => Done tt c s.
Definition modify {S} (f : S -> S) : K S unit := fun c s => Done tt c (f s).
Definition gets {S A} (f : S -> A) : K S A := fun c s => Done (f s) c s.
Definition getc {S} : K S ctx := fun c s => Done c c s.
Definition modc {S} (f : ctx -> ctx) : K S unit := fun c s => Done tt (f c) s.
Definition emit {S} (e : event) : K S unit := modc (fun c => set_evs (e :: evs c) c).
Definition spin {S A} (l : lockid) : K S A := fun _ _ => Spin l.
Definition suspend {S A} (ch : chan) : K S A := fun c s => Sleep ch c s.
Definition nofuel {S A} : K S A := fun _ _ => NoFuel.

(** A statement guarded by a C condition with no else branch. *)
Definition kwhen {S} (b : bool) (m : K S unit) : K S unit := if b then m else mret tt.

(** ** Accessors

    [acc S T] is the path from a state to a part of it, as a C pointer to a
    structure embedded in another is; [zoom] runs a component's code on its
    part of a larger state. *)
Record acc (S T : Type) := Acc { aget : S -> T; aset : T -> S -> S }.
Arguments Acc {S T} _ _.
Arguments aget {S T} _ _.
Arguments aset {S T} _ _ _.

Class AccOk {S T} (a : acc S T) : Prop := {
  acc_get_set : forall t s, aget a (aset a t s) = t;
  acc_set_get : forall s, aset a (aget a s) s = s;
  acc_set_set : forall t t' s, aset a t (aset a t' s) = aset a t s;
}.

Definition zoom {S T A} (a : acc S T) (m : K T A) : K S A := fun c s =>
  match m c (aget a s) with
  | Done x c' t => Done x c' (aset a t s)
  | Panic msg => Panic msg
  | Spin l => Spin l
  | Sleep ch c' t => Sleep ch c' (aset a t s)
  | NoFuel => NoFuel
  end.

(** ** Reasoning about computations *)

Lemma bind_done {S A B} (m : K S A) (k : A -> K S B) c s a c' s' :
  m c s = Done a c' s' -> (m ≫= k) c s = k a c' s'.
Proof. intros H. unfold mbind, K_bind. by rewrite H. Qed.

Lemma bind_assoc {S A B C} (m : K S A) (f : A -> K S B) (g : B -> K S C) c s :
  ((m ≫= f) ≫= g) c s = (m ≫= (fun a => f a ≫= g)) c s.
Proof. unfold mbind, K_bind. by destruct (m c s). Qed.

Lemma zoom_done {S T A} (a : acc S T) (m : K T A) c s x c' t :
  m c (aget a s) = Done x c' t -> zoom a m c s = Done x c' (aset a t s).
Proof. intros H. unfold zoom. by rewrite H. Qed.

(** Total correctness: from a state in [P], [m] returns, in [Q]. *)
Definition triple {S A} (P : ctx -> S -> Prop) (m : K S A) (Q : A -> ctx -> S -> Prop) :=
  forall c s, P c s -> exists a c' s', m c s = Done a c' s' /\ Q a c' s'.

Lemma triple_bind {S A B} P (m : K S A) Q (k : A -> K S B) R :
  triple P m Q -> (forall a, triple (Q a) (k a) R) -> triple P (m ≫= k) R.
Proof.
  intros Hm Hk c s HP. destruct (Hm c s HP) as (a & c' & s' & E & HQ).
  rewrite (bind_done _ _ _ _ _ _ _ E). by apply Hk.
Qed.

Lemma triple_ret {S A} (a : A) (Q : A -> ctx -> S -> Prop) : triple (Q a) (mret a) Q.
Proof. intros c s H. by exists a, c, s. Qed.

Lemma triple_conseq {S A} (P P' : ctx -> S -> Prop) (m : K S A) (Q Q' : A -> ctx -> S -> Prop) :
  triple P' m Q' -> (forall c s, P c s -> P' c s) ->
  (forall a c s, Q' a c s -> Q a c s) -> triple P m Q.
Proof.
  intros H HP HQ c s Hc. destruct (H c s (HP _ _ Hc)) as (a & c' & s' & E & HQ').
  exists a, c', s'. auto.
Qed.

(** [kstep H] runs the first computation of a sequence by its equation [H]. *)
Ltac kstep H := rewrite (bind_done _ _ _ _ _ _ _ H); cbn beta iota.
(** [krun] unfolds the monad's plumbing in the goal. *)
Ltac krun :=
  cbv beta iota delta [mbind mret K_bind K_ret get put modify gets getc modc emit kwhen panic spin suspend nofuel].
