(* ===== verification/Spinlock.v ===== *)
(** * Spinlocks (kernel/spinlock.c)

    The lock operations in the kernel monad, that a critical section leaves the
    CPU as it found it, and the lock protocol run by several CPUs at once, with
    mutual exclusion and the exactness of [holding]. *)
From stdpp Require Import base numbers list gmap strings.
From S2P Require Import Prelude Kernel.

Section Ops.
Context {S : Type}.

(** riscv.h: the interrupt-enable bit of sstatus. *)
Definition intr_on : K S unit := modc (set_sie true).
Definition intr_off : K S unit := modc (set_sie false).
Definition intr_get : K S bool := c ← getc; mret (sie c).

Definition lk_get (l : lockid) (c : ctx) : spinlock :=
  default (Spinlock 0 EmptyString None) (locks c !! l).
Definition lk_set (l : lockid) (lk : spinlock) : K S unit :=
  modc (fun c => set_locks (<[l := lk]> (locks c)) c).

Definition initlock (l : lockid) (name : string) : K S unit :=
  lk_set l (Spinlock 0 name None).

Definition holding (l : lockid) : K S bool :=
  c ← getc;
  let lk := lk_get l c in
  mret (z2b (locked lk) && bool_decide (lk_cpu lk = Some (hart c))).

Definition push_off : K S unit :=
  old ← intr_get;
  intr_off;;
  c ← getc;
  kwhen (noff c =? 0) (modc (set_intena old));;
  c ← getc;
  modc (set_noff (noff c + 1)).

Definition pop_off : K S unit :=
  i ← intr_get;
  (if i : bool then panic "pop_off - interruptible" else mret tt);;
  c ← getc;
  (if noff c <? 1 then panic "pop_off" else mret tt);;
  modc (set_noff (noff c - 1));;
  c ← getc;
  kwhen ((noff c =? 0) && intena c) intr_on.

(** The loop on the atomic swap ends when the lock is free; when it is held,
    by another CPU, this CPU spins. *)
Definition acquire (l : lockid) : K S unit :=
  push_off;;
  h ← holding l;
  (if h : bool then panic "acquire" else mret tt);;
  c ← getc;
  let lk := lk_get l c in
  if z2b (locked lk) then spin l
  else
    lk_set l (Spinlock 1 (lk_name lk) (lk_cpu lk));;
    c ← getc;
    lk_set l (Spinlock 1 (lk_name lk) (Some (hart c))).

Definition release (l : lockid) : K S unit :=
  h ← holding l;
  (if h : bool then mret tt else panic "release");;
  c ← getc;
  let lk := lk_get l c in
  lk_set l (Spinlock (locked lk) (lk_name lk) None);;
  lk_set l (Spinlock 0 (lk_name lk) None);;
  pop_off.

(** proc.c: the running process, read with interrupts off. *)
Definition myproc : K S Z :=
  push_off;;
  c ← getc;
  let p := curproc c in
  pop_off;;
  mret p.

(** [wakeup] of proc.c, as the other components see it: the processes asleep
    on the channel become runnable. *)
Definition wakeup (ch : chan) : K S unit := emit (Wakeup ch).

(** [sleep] of proc.c up to the context switch: take [p->lock], give up the
    condition lock, and switch away if [sched]'s checks pass. *)
Definition sleep {A} (ch : chan) (l : lockid) : K S A :=
  p ← myproc;
  acquire (L_proc p);;
  release l;;
  h ← holding (L_proc p);
  (if h : bool then mret tt else panic "sched p->lock");;
  c ← getc;
  (if noff c =? 1 then mret tt else panic "sched locks");;
  i ← intr_get;
  (if i : bool then panic "sched interruptible" else mret tt);;
  suspend ch.

End Ops.
#[global] Arguments wakeup {S} _ : simpl never.

(** ** A critical section leaves the CPU as it found it *)

(** The state of a CPU between kernel functions: interrupts are off inside
    [push_off], and [intena] describes the interrupt state outside. *)
Record cpu_ok (c : ctx) : Prop := {
  ok_noff : 0 <= noff c;
  ok_off : 0 < noff c -> sie c = false;
  ok_ena : noff c = 0 -> intena c = sie c;
}.

Definition unlocked (l : lockid) (c : ctx) : Prop :=
  exists name, locks c !! l = Some (Spinlock 0 name None).

Definition pushed (c : ctx) : ctx :=
  Ctx (hart c) false (noff c + 1) (if noff c =? 0 then sie c else intena c)
    (curproc c) (curpid c) (locks c) (evs c).

(** The context inside a critical section of [l]. *)
Definition inside (l : lockid) (c : ctx) : ctx :=
  let c' := pushed c in
  set_locks (<[l := Spinlock 1 (lk_name (lk_get l c)) (Some (hart c))]> (locks c)) c'.

Section Critical.
Context {S : Type}.
Implicit Types (s : S) (c : ctx).

Lemma push_off_eq c s : push_off c s = Done tt (pushed c) s.
Proof. unfold push_off, intr_get, intr_off, pushed. krun. simpl. by destruct (noff c =? 0). Qed.

Lemma pop_off_pushed c s : cpu_ok c -> pop_off (pushed c) s = Done tt c s.
Proof.
  intros [Hn Hoff Hen]. unfold pop_off, intr_get, intr_on, pushed. krun. simpl.
  destruct (Z.ltb_spec (noff c + 1) 1); [lia|]. simpl.
  destruct c as [h i n e p pid l ev]. simpl in *.
  replace (n + 1 - 1) with n by lia.
  destruct (Z.eqb_spec n 0) as [->|Hne]; simpl; unfold set_noff, set_sie; simpl.
  - rewrite Hen by done. destruct i; simpl; repeat f_equal; by apply Z.eqb_eq || lia.
  - rewrite Hoff by lia. repeat f_equal; lia.
Qed.

Lemma acquire_eq l c s : unlocked l c -> acquire l c s = Done tt (inside l c) s.
Proof.
  intros [nm H]. unfold acquire. kstep (push_off_eq c s).
  unfold holding, lk_set, lk_get, inside. krun. simpl. rewrite H. simpl.
  unfold lk_get. rewrite H. simpl. unfold set_locks. simpl.
  by rewrite insert_insert_eq.
Qed.

Lemma release_eq l c s : cpu_ok c -> unlocked l c -> release l (inside l c) s = Done tt c s.
Proof.
  intros Hok [nm H]. unfold release, holding, lk_set, lk_get, inside. krun. simpl.
  rewrite lookup_insert_eq. simpl. rewrite bool_decide_eq_true_2 by done. simpl.
  unfold lk_get. rewrite H. simpl. rewrite !lookup_insert_eq. simpl.
  rewrite !insert_insert_eq. rewrite (insert_id _ _ _ H).
  exact (pop_off_pushed c s Hok).
Qed.

Lemma myproc_eq c s : cpu_ok c -> myproc c s = Done (curproc c) c s.
Proof.
  intros Hok. unfold myproc. kstep (push_off_eq c s). krun.
  change (curproc (pushed c)) with (curproc c).
  by rewrite (pop_off_pushed c s Hok).
Qed.

End Critical.

Lemma cpu_ok_inside l c : cpu_ok c -> cpu_ok (inside l c).
Proof. intros [Hn _ _]. split; simpl; intros; [lia|done|lia]. Qed.

Lemma unlocked_inside l l' c : l <> l' -> unlocked l' c -> unlocked l' (inside l c).
Proof. intros Hne [n H]. exists n. simpl. by rewrite lookup_insert_ne. Qed.

Lemma cpu_ok_evs e c : cpu_ok c -> cpu_ok (set_evs e c).
Proof. intros [? ? ?]. by split. Qed.

Lemma unlocked_evs l e c : unlocked l c -> unlocked l (set_evs e c).
Proof. done. Qed.

Lemma inside_evs l e c : set_evs e (inside l c) = inside l (set_evs e c).
Proof. done. Qed.

#[export] Hint Resolve cpu_ok_inside unlocked_inside cpu_ok_evs unlocked_evs : xv6.

(** [sleep] in a critical section that holds nothing else gives up the CPU with
    the state as it is, the condition lock released and only the lock of the
    process held. *)
Lemma sleep_inside {S A} ch l c (s : S) : cpu_ok c -> noff c = 0 -> unlocked l c ->
  L_proc (curproc c) <> l -> unlocked (L_proc (curproc c)) c ->
  sleep (A := A) ch l (inside l c) s = Sleep ch (inside (L_proc (curproc c)) c) s.
Proof.
  intros Hok Hn Hul Hne Hup. unfold sleep.
  rewrite (bind_done _ _ _ _ _ _ _ (myproc_eq (inside l c) s (cpu_ok_inside _ _ Hok))).
  change (curproc (inside l c)) with (curproc c).
  assert (unlocked (L_proc (curproc c)) (inside l c)) as Hup' by (apply unlocked_inside; auto).
  rewrite (bind_done _ _ _ _ _ _ _ (acquire_eq _ _ _ Hup')).
  destruct Hul as [nm Hnm]. unfold release, holding, lk_get, lk_set, inside, pop_off, intr_get. krun.
  simpl. rewrite lookup_insert_ne by done. rewrite lookup_insert_eq. simpl.
  rewrite bool_decide_eq_true_2 by done. simpl.
  rewrite lookup_insert_ne by done. rewrite lookup_insert_eq. simpl.
  rewrite Hn. simpl.
  rewrite !lookup_insert_ne, lookup_insert_eq by done. simpl.
  rewrite bool_decide_eq_true_2 by done. simpl. unfold suspend, lk_get. simpl. rewrite Hnm. simpl. rewrite !lookup_insert_ne by done.
  f_equal. unfold set_locks, pushed. simpl. rewrite Hn. simpl. f_equal.
  rewrite !insert_insert_eq, (insert_insert_ne _ l (L_proc (curproc c))), insert_insert_eq by done.
  by rewrite (insert_id _ _ _ Hnm).
Qed.

(** A section of code between [acquire] and [release]. *)
Lemma critical_eq {S A} l (m : K S A) c s a e s' :
  cpu_ok c -> unlocked l c ->
  m (inside l c) s = Done a (inside l (set_evs e c)) s' ->
  (acquire l;; x ← m; release l;; mret x) c s = Done a (set_evs e c) s'.
Proof.
  intros Hok Hul Hm. kstep (acquire_eq l c s Hul).
  rewrite (bind_done _ _ _ _ _ _ _ Hm).
  kstep (release_eq l (set_evs e c) s' (cpu_ok_evs _ _ Hok) (unlocked_evs _ _ _ Hul)).
  done.
Qed.

(** ** The protocol on several CPUs

    Each CPU is at one of the program points of [acquire] and [release]; a step
    is one access to the lock structure or one push/pop. *)
Inductive pc :=
  | P_out      (* outside acquire/release, not holding *)
  | P_check    (* in acquire, interrupts off, about to test holding() *)
  | P_swap     (* in acquire, at the atomic swap loop *)
  | P_record   (* swapped in 1, about to store lk->cpu *)
  | P_crit     (* acquire returned *)
  | P_word     (* in release, lk->cpu cleared, about to store locked = 0 *)
  | P_pop.     (* in release, about to pop_off *)

#[global] Instance pc_eq_dec : EqDecision pc.
Proof. solve_decision. Defined.

Record lsys := LSys { lk : spinlock; pcs : gmap Z pc }.
Definition at_ (y : lsys) (h : Z) : pc := default P_out (pcs y !! h).
Definition goto (y : lsys) (h : Z) (lk' : spinlock) (p : pc) : lsys :=
  LSys lk' (<[h := p]> (pcs y)).

(** [holding] as CPU [h] evaluates it.  Its two loads are one step: lk->cpu is
    [h] only while [h] itself has put it there, so no other CPU changes the
    answer between them. *)
Definition holding_by (lk : spinlock) (h : Z) : bool :=
  z2b (locked lk) && bool_decide (lk_cpu lk = Some h).

Inductive lstep (h : Z) (y : lsys) : lsys -> Prop :=
  | st_push : at_ y h = P_out -> lstep h y (goto y h (lk y) P_check)
  | st_check : at_ y h = P_check -> holding_by (lk y) h = false ->
      lstep h y (goto y h (lk y) P_swap)
  | st_spin : at_ y h = P_swap -> locked (lk y) <> 0 ->
      lstep h y (goto y h (Spinlock 1 (lk_name (lk y)) (lk_cpu (lk y))) P_swap)
  | st_swap : at_ y h = P_swap -> locked (lk y) = 0 ->
      lstep h y (goto y h (Spinlock 1 (lk_name (lk y)) (lk_cpu (lk y))) P_record)
  | st_record : at_ y h = P_record ->
      lstep h y (goto y h (Spinlock (locked (lk y)) (lk_name (lk y)) (Some h)) P_crit)
  | st_clear : at_ y h = P_crit -> holding_by (lk y) h = true ->
      lstep h y (goto y h (Spinlock (locked (lk y)) (lk_name (lk y)) None) P_word)
  | st_word : at_ y h = P_word ->
      lstep h y (goto y h (Spinlock 0 (lk_name (lk y)) (lk_cpu (lk y))) P_pop)
  | st_pop : at_ y h = P_pop -> lstep h y (goto y h (lk y) P_out).

Definition lany (y y' : lsys) : Prop := exists h, lstep h y y'.
Definition linit (y : lsys) : Prop :=
  locked (lk y) = 0 /\ lk_cpu (lk y) = None /\ forall h, at_ y h = P_out.

(** A CPU owns the lock word from its swap to its store of 0. *)
Definition owns (p : pc) : bool :=
  match p with P_record | P_crit | P_word => true | _ => false end.

Record linv (y : lsys) : Prop := {
  li_word : locked (lk y) = 0 \/ locked (lk y) = 1;
  li_free : locked (lk y) = 0 <-> (forall h, owns (at_ y h) = false);
  li_one : forall h h', owns (at_ y h) = true -> owns (at_ y h') = true -> h = h';
  li_cpu : forall h, lk_cpu (lk y) = Some h <-> at_ y h = P_crit;
}.

Lemma at_goto y h h' lk' p :
  at_ (goto y h lk' p) h' = if decide (h = h') then p else at_ y h'.
Proof. unfold at_, goto. simpl. rewrite lookup_insert. by destruct (decide _). Qed.

Lemma linit_linv y : linit y -> linv y.
Proof.
  intros (Hw & Hc & Hp). split; [by left|..].
  - split; [|done]. intros _ h. by rewrite Hp.
  - intros h h'. by rewrite Hp.
  - intros h. rewrite Hc, Hp. done.
Qed.

Lemma linv_owned y h : linv y -> owns (at_ y h) = true -> locked (lk y) = 1.
Proof.
  intros [Hw Hf _ _] Ho. destruct Hw as [Hw|]; [|done].
  by rewrite (proj1 Hf Hw h) in Ho.
Qed.

(** A step that changes neither ownership nor the owner record. *)
Lemma linv_move y h lk' p :
  linv y -> owns p = owns (at_ y h) -> (p = P_crit <-> at_ y h = P_crit) ->
  locked lk' = locked (lk y) -> lk_cpu lk' = lk_cpu (lk y) ->
  linv (goto y h lk' p).
Proof.
  intros [Hw Hf H1 Hc] Ho Hcr El Ec.
  assert (forall h', owns (at_ (goto y h lk' p) h') = owns (at_ y h')) as Eo.
  { intros h'. rewrite at_goto. case_decide; [by subst|done]. }
  split; simpl; rewrite ?El, ?Ec; [done|..].
  - by setoid_rewrite Eo.
  - intros ? ?. rewrite !Eo. apply H1.
  - intros h'. rewrite (Hc h'), at_goto. case_decide; [subst; by rewrite Hcr|done].
Qed.

(** A step of the owner that gives the lock its new owner record. *)
Lemma linv_owner y h lk' p :
  linv y -> owns (at_ y h) = true -> owns p = true -> locked lk' = locked (lk y) ->
  lk_cpu lk' = (if decide (p = P_crit) then Some h else None) ->
  linv (goto y h lk' p).
Proof.
  intros Hi Ho Hp El Ec. pose proof (linv_owned y h Hi Ho) as E1.
  destruct Hi as [Hw Hf H1 Hc].
  assert (forall h', owns (at_ (goto y h lk' p) h') = owns (at_ y h')) as Eo.
  { intros h'. rewrite at_goto. destruct (decide (h = h')); [subst; congruence|done]. }
  split; simpl; rewrite ?El; [done|..].
  - by setoid_rewrite Eo.
  - intros ? ?. rewrite !Eo. apply H1.
  - intros h'. rewrite at_goto, Ec. clear Ec.
    destruct (decide (h = h')) as [->|D]; [case_decide; split; congruence|]. split.
    + case_decide; congruence.
    + intros E. destruct D. apply H1; [done|by rewrite E].
Qed.

Lemma lstep_linv h y y' : lstep h y y' -> linv y -> linv y'.
Proof.
  intros St Hi. destruct St as [P|P Hh|P Hl|P Hl|P|P Hh|P|P].
  - apply linv_move; rewrite ?P; done.
  - apply linv_move; rewrite ?P; done.
  - apply linv_move; rewrite ?P; simpl; try done.
    destruct (li_word y Hi); [done|congruence].
  - destruct Hi as [Hw Hf H1 Hc]. pose proof (proj1 Hf Hl) as Hn. split; simpl.
    + by right.
    + split; [done|]. intros E. specialize (E h). rewrite at_goto, decide_True in E by done. done.
    + intros h1 h2. rewrite !at_goto. repeat case_decide; subst; rewrite ?Hn; done.
    + intros h'. rewrite Hc, at_goto. case_decide; [subst; by rewrite P|done].
  - apply linv_owner; rewrite ?P; done.
  - apply linv_owner; rewrite ?P; done.
  - assert (forall h', h' <> h -> owns (at_ y h') = false) as Hn.
    { intros h' Hne. destruct (owns (at_ y h')) eqn:E; [|done]. destruct Hne.
      apply (li_one y Hi); [done|by rewrite P]. }
    assert (lk_cpu (lk y) = None) as Ec.
    { destruct (lk_cpu (lk y)) as [z|] eqn:E; [|done]. apply (li_cpu y Hi) in E.
      destruct (decide (z = h)); [congruence|]. specialize (Hn z). rewrite E in Hn. naive_solver. }
    split; simpl; [by left|..].
    + split; [|done]. intros _ h'. rewrite at_goto. case_decide; [done|auto].
    + intros h1 h2. rewrite !at_goto. repeat case_decide; subst; try done.
      intros E. rewrite Hn in E; [done|congruence].
    + intros h'. rewrite Ec, at_goto. case_decide; [done|]. split; [done|].
      intros E. specialize (Hn h' ltac:(congruence)). by rewrite E in Hn.
  - apply linv_move; rewrite ?P; done.
Qed.

Lemma reach_linv y y' : rtc lany y y' -> linv y -> linv y'.
Proof. induction 1 as [|? ? ? [h St] _ IH]; [done|]. intros Hi. eapply IH, lstep_linv; done. Qed.

Lemma linv_holding y h : linv y -> holding_by (lk y) h = bool_decide (at_ y h = P_crit).
Proof.
  intros Hi. unfold holding_by. destruct (decide (at_ y h = P_crit)) as [E|E].
  - rewrite (bool_decide_eq_true_2 _ E).
    rewrite (linv_owned y h Hi) by by rewrite E.
    rewrite bool_decide_eq_true_2; [done|]. by apply (li_cpu y Hi).
  - rewrite (bool_decide_eq_false_2 _ E), (bool_decide_eq_false_2 (lk_cpu _ = _)).
    + apply andb_false_r.
    + by rewrite (li_cpu y Hi).
Qed.

Lemma lk_get_pushed l c : lk_get l (pushed c) = lk_get l c.
Proof. done. Qed.

(** The sequential [acquire] is a run of the protocol by its CPU. *)
Lemma acquire_steps {S} l c (s : S) c' s' y :
  acquire l c s = Done tt c' s' -> lk y = lk_get l c -> at_ y (hart c) = P_out ->
  exists y', rtc (lstep (hart c)) y y' /\ lk y' = lk_get l c' /\ at_ y' (hart c) = P_crit.
Proof.
  intros H El Ep. unfold acquire in H. rewrite (bind_done _ _ _ _ _ _ _ (push_off_eq c s)) in H.
  revert H. unfold holding, lk_set. krun. simpl.
  rewrite ?lk_get_pushed.
  destruct (z2b (locked (lk_get l c))) eqn:Ez.
  { destruct (bool_decide _); simpl; rewrite ?lk_get_pushed;
      rewrite ?Ez; by intros [=]. }
  simpl. rewrite ?lk_get_pushed. rewrite ?Ez. intros [= <- <-].
  assert (locked (lk y) = 0) as E0.
  { rewrite El. unfold z2b in Ez. apply negb_false_iff in Ez. by apply Z.eqb_eq. }
  eexists. split; [|split].
  - eapply rtc_l; [by apply st_push|].
    eapply rtc_l; [apply st_check|].
    { rewrite at_goto. by rewrite decide_True. }
    { simpl. unfold holding_by. by rewrite El, Ez. }
    eapply rtc_l; [apply st_swap|].
    { rewrite at_goto. by rewrite decide_True. }
    { done. }
    eapply rtc_l; [apply st_record; rewrite at_goto; by rewrite decide_True|].
    apply rtc_refl.
  - unfold lk_get. simpl. rewrite lookup_insert_eq. simpl. unfold lk_get in El. by rewrite El.
  - rewrite at_goto. by rewrite decide_True.
Qed.

(** C2: whatever the interleaving of CPUs running [acquire] and [release] on one
    lock, from the lock's initial state, at most one CPU is between its
    [acquire] and its [release], and [holding], which reads the lock without
    holding it, is true on a CPU exactly when that CPU is the one: so neither
    the "acquire" nor the "release" panic can fire. *)
Theorem spinlock_mutual_exclusion y y' :
  linit y -> rtc lany y y' ->
  (forall h h', at_ y' h = P_crit -> at_ y' h' = P_crit -> h = h') /\
  (forall h, holding_by (lk y') h = true <-> at_ y' h = P_crit).
Proof.
  intros Hi Hr. pose proof (reach_linv _ _ Hr (linit_linv _ Hi)) as I. split.
  - intros h h' E E'. apply (li_one _ I); by rewrite ?E, ?E'.
  - intros h. rewrite (linv_holding _ _ I). by rewrite bool_decide_eq_true.
Qed.

Definition sys0 : lsys := LSys (Spinlock 0 "kmem" None) ∅.
Definition sys1 : lsys := goto sys0 3 (lk sys0) P_check.
Lemma spinlock_mutual_exclusion_witness :
  linit sys0 /\ rtc lany sys0 sys1 /\
  forall h, holding_by (lk sys1) h = true <-> at_ sys1 h = P_crit.
Proof.
  assert (linit sys0) as Hi by (repeat split; intros; reflexivity).
  assert (rtc lany sys0 sys1) as Hr.
  { eapply rtc_l; [exists 3; by apply st_push|apply rtc_refl]. }
  split; [exact Hi|split; [exact Hr|]].
  exact (proj2 (spinlock_mutual_exclusion sys0 sys1 Hi Hr)).
Defined.

(** C15: a critical section runs its body with interrupts off, and on release
    the CPU's interrupt state, nesting depth and every lock are exactly as
    before; inside, the same lock cannot be taken again. *)
Theorem critical_section_restores {S A} l (m : K S A) c s a e s' :
  cpu_ok c -> unlocked l c ->
  m (inside l c) s = Done a (inside l (set_evs e c)) s' ->
  (acquire l;; x ← m; release l;; mret x) c s = Done a (set_evs e c) s' /\
  sie (inside l c) = false /\
  acquire l (inside l c) s = Panic "acquire" /\
  release l c s = Panic "release".
Proof.
  intros Hok Hul Hm. split; [by apply critical_eq|split; [done|split]].
  - unfold acquire. kstep (push_off_eq (inside l c) s). unfold holding, lk_get. krun.
    simpl. rewrite lookup_insert_eq. simpl. by rewrite bool_decide_eq_true_2.
  - destruct Hul as [nm H]. unfold release, holding, lk_get. krun. simpl. by rewrite H.
Qed.

Definition ctx0 : ctx :=
  Ctx 2 true 0 true 5 6 {[L_kmem := Spinlock 0 "kmem" None]} [].
Lemma ctx0_ok : cpu_ok ctx0.
Proof. split; simpl; intros; [lia|lia|reflexivity]. Qed.

Lemma critical_section_restores_witness :
  (acquire L_kmem;; x ← (modify (fun n => n + 1);; mret 7); release L_kmem;; mret x) ctx0 41
    = Done 7 ctx0 42.
Proof.
  refine (proj1 (critical_section_restores L_kmem _ ctx0 41 7 [] 42 ctx0_ok _ _)).
  - exists "kmem"%string. reflexivity.
  - reflexivity.
Defined.
