(* ===== verification/Sleeplock.v ===== *)
(** * Sleep locks (kernel/sleeplock.c)

    A sleep lock is a flag protected by its own spinlock; a process that finds
    it taken sleeps on the lock's address.  The lock is embedded in a buffer or
    an inode: the operations reach it through an accessor. *)
From stdpp Require Import base numbers list gmap strings.
From S2P Require Import Prelude Kernel Spinlock.

(** [struct sleeplock] without its spinlock, which is in the context, and its
    debugging name. *)
Record sleeplock := Sleeplock { sl_locked : Z; sl_pid : Z }.

Section Sleeplock.
Context {S : Type}.

Definition initsleeplock (l : lockid) (a : acc S sleeplock) : K S unit :=
  initlock l "sleep lock";;
  modify (aset a (Sleeplock 0 0)).

(** while(lk->locked) sleep(lk, &lk->lk): a process that is woken up holds the
    spinlock again and runs the test again. *)
Definition acquiresleep (l : lockid) (a : acc S sleeplock) : K S unit :=
  acquire l;;
  lk ← gets (aget a);
  (if z2b (sl_locked lk) then sleep (C_sleeplock l) l else mret tt);;
  c ← getc;
  modify (aset a (Sleeplock 1 (curpid c)));;
  release l.

Definition releasesleep (l : lockid) (a : acc S sleeplock) : K S unit :=
  acquire l;;
  modify (aset a (Sleeplock 0 0));;
  wakeup (C_sleeplock l);;
  release l.

Definition holdingsleep (l : lockid) (a : acc S sleeplock) : K S bool :=
  acquire l;;
  lk ← gets (aget a);
  c ← getc;
  let r := z2b (sl_locked lk) && (sl_pid lk =? curpid c) in
  release l;;
  mret r.

(** ** Equations of a running process *)
Section Eqs.
Variables (l : lockid) (a : acc S sleeplock) (c : ctx).
Hypotheses (Hok : cpu_ok c) (Hul : unlocked l c).

Lemma acquiresleep_free s : sl_locked (aget a s) = 0 ->
  acquiresleep l a c s = Done tt c (aset a (Sleeplock 1 (curpid c)) s).
Proof.
  intros E. unfold acquiresleep. kstep (acquire_eq l c s Hul). krun. rewrite E. simpl.
  exact (release_eq l c _ Hok Hul).
Qed.

Lemma acquiresleep_taken s p : curproc c = p -> L_proc p <> l -> noff c = 0 ->
  unlocked (L_proc p) c -> sl_locked (aget a s) <> 0 ->
  exists c', acquiresleep l a c s = Sleep (C_sleeplock l) c' s.
Proof.
  intros Hp Hne Hn Hup E. unfold acquiresleep. kstep (acquire_eq l c s Hul). krun.
  unfold z2b. rewrite (proj2 (Z.eqb_neq _ 0) E). simpl.
  rewrite (sleep_inside (A := unit) (C_sleeplock l) l c s Hok Hn Hul); [by eexists|by rewrite Hp|by rewrite Hp].
Qed.

Lemma releasesleep_eq s : releasesleep l a c s =
  Done tt (set_evs (Wakeup (C_sleeplock l) :: evs c) c) (aset a (Sleeplock 0 0) s).
Proof.
  unfold releasesleep. kstep (acquire_eq l c s Hul). unfold wakeup. krun.
  change (evs (inside l c)) with (evs c). rewrite inside_evs.
  exact (release_eq l (set_evs _ c) _ (cpu_ok_evs _ _ Hok) (unlocked_evs _ _ _ Hul)).
Qed.

Lemma holdingsleep_eq s : holdingsleep l a c s =
  Done (z2b (sl_locked (aget a s)) && (sl_pid (aget a s) =? curpid c)) c s.
Proof.
  unfold holdingsleep. kstep (acquire_eq l c s Hul). krun.
  change (curpid (inside l c)) with (curpid c).
  by rewrite (release_eq l c s Hok Hul).
Qed.
End Eqs.
End Sleeplock.
