(* ===== verification/Bio.v ===== *)
(** * Buffer cache (kernel/bio.c, kernel/buf.h)

    NBUF buffers on a circular doubly linked list in order of recent use, with
    the list head as one more node.  Buffers are named by their index in
    bcache.buf; index NBUF is bcache.head. *)
From stdpp Require Import base numbers list gmap strings.
From S2P Require Import Prelude Kernel Spinlock Sleeplock.

Definition BSIZE : Z := 1024.
Definition MAXOPBLOCKS : Z := 10.
Definition LOGBLOCKS : Z := MAXOPBLOCKS * 3.
Definition NBUF : Z := MAXOPBLOCKS * 3.
Definition HEAD : Z := NBUF.
Definition ROOTDEV : Z := 1.

Abbreviation block := (list Z).
Definition zero_block : block := replicate (Z.to_nat BSIZE) 0.

(** The disk, as the history of its block writes, latest first: a crash keeps
    the older part of the history. *)
Abbreviation disk := (list (Z * list Z)).
Fixpoint dget (d : disk) (b : Z) : block :=
  match d with
  | [] => zero_block
  | (b', x) :: d => if b' =? b then x else dget d b
  end.

Record buf := Buf {
  b_valid : bool;      (* has data been read from disk? *)
  b_dev : Z;
  b_blockno : Z;
  b_lock : sleeplock;
  b_refcnt : Z;
  b_prev : Z;          (* LRU cache list *)
  b_next : Z;
  b_data : block;
}.
Definition buf0 : buf := Buf false 0 0 (Sleeplock 0 0) 0 0 0 zero_block.

Definition set_valid (x : bool) (b : buf) : buf :=
  Buf x (b_dev b) (b_blockno b) (b_lock b) (b_refcnt b) (b_prev b) (b_next b) (b_data b).
Definition set_id (dev blockno : Z) (b : buf) : buf :=
  Buf (b_valid b) dev blockno (b_lock b) (b_refcnt b) (b_prev b) (b_next b) (b_data b).
Definition set_lock (x : sleeplock) (b : buf) : buf :=
  Buf (b_valid b) (b_dev b) (b_blockno b) x (b_refcnt b) (b_prev b) (b_next b) (b_data b).
Definition set_refcnt (x : Z) (b : buf) : buf :=
  Buf (b_valid b) (b_dev b) (b_blockno b) (b_lock b) x (b_prev b) (b_next b) (b_data b).
Definition set_prev (x : Z) (b : buf) : buf :=
  Buf (b_valid b) (b_dev b) (b_blockno b) (b_lock b) (b_refcnt b) x (b_next b) (b_data b).
Definition set_next (x : Z) (b : buf) : buf :=
  Buf (b_valid b) (b_dev b) (b_blockno b) (b_lock b) (b_refcnt b) (b_prev b) x (b_data b).
Definition set_data (x : block) (b : buf) : buf :=
  Buf (b_valid b) (b_dev b) (b_blockno b) (b_lock b) (b_refcnt b) (b_prev b) (b_next b) x.

(** bcache and the disk below it. *)
Record bio := Bio { bufs : gmap Z buf; dsk : disk }.
Definition buf_at (s : bio) (i : Z) : buf := default buf0 (bufs s !! i).
Definition upd_buf (i : Z) (f : buf -> buf) (s : bio) : bio :=
  Bio (<[i := f (buf_at s i)]> (bufs s)) (dsk s).
Definition gb (i : Z) : K bio buf := gets (fun s => buf_at s i).
Definition ub (i : Z) (f : buf -> buf) : K bio unit := modify (upd_buf i f).
Definition blk (i : Z) : acc bio sleeplock :=
  Acc (fun s => b_lock (buf_at s i)) (fun lk => upd_buf i (set_lock lk)).

(** The disk driver, as the buffer cache uses it: [virtio_disk_rw b write]
    returns when the device has moved the block named by the buffer. *)
Class DiskDriver := { virtio_disk_rw : Z -> bool -> K bio unit }.
Class DiskDriverOk (D : DiskDriver) : Prop := {
  rw_read : forall c s b, virtio_disk_rw b false c s =
    Done tt c (upd_buf b (set_data (dget (dsk s) (b_blockno (buf_at s b)))) s);
  rw_write : forall c s b, virtio_disk_rw b true c s =
    Done tt c (Bio (bufs s) ((b_blockno (buf_at s b), b_data (buf_at s b)) :: dsk s));
}.

Section Bio.
Context {D : DiskDriver}.

(** for(b = bcache.buf; b < bcache.buf+NBUF; b++), [n] buffers from [i] on. *)
Fixpoint binit_loop (n : nat) (i : Z) : K bio unit :=
  match n with
  | O => mret tt
  | S n =>
      h ← gb HEAD;
      ub i (set_next (b_next h));;
      ub i (set_prev HEAD);;
      initsleeplock (L_buf i) (blk i);;
      h ← gb HEAD;
      ub (b_next h) (set_prev i);;
      ub HEAD (set_next i);;
      binit_loop n (i + 1)
  end.
Definition binit : K bio unit :=
  initlock L_bcache "bcache";;
  ub HEAD (set_prev HEAD);;
  ub HEAD (set_next HEAD);;
  binit_loop (Z.to_nat NBUF) 0.

(** The first loop of bget: the buffer that caches the block, if any. *)
Fixpoint bget_cached (fuel : nat) (b dev blockno : Z) : K bio (option Z) :=
  if b =? HEAD then mret None
  else
    match fuel with
    | O => nofuel
    | S fuel =>
        x ← gb b;
        if (b_dev x =? dev) && (b_blockno x =? blockno) then mret (Some b)
        else bget_cached fuel (b_next x) dev blockno
    end.
(** The second loop: the least recently used buffer nobody refers to. *)
Fixpoint bget_unused (fuel : nat) (b : Z) : K bio (option Z) :=
  if b =? HEAD then mret None
  else
    match fuel with
    | O => nofuel
    | S fuel =>
        x ← gb b;
        if b_refcnt x =? 0 then mret (Some b) else bget_unused fuel (b_prev x)
    end.

Definition bget (dev blockno : Z) : K bio Z :=
  acquire L_bcache;;
  h ← gb HEAD;
  r ← bget_cached (Z.to_nat NBUF) (b_next h) dev blockno;
  match r with
  | Some b =>
      ub b (fun x => set_refcnt (u32 (b_refcnt x + 1)) x);;
      release L_bcache;;
      acquiresleep (L_buf b) (blk b);;
      mret b
  | None =>
      h ← gb HEAD;
      r ← bget_unused (Z.to_nat NBUF) (b_prev h);
      match r with
      | Some b =>
          ub b (set_id dev blockno);;
          ub b (set_valid false);;
          ub b (set_refcnt 1);;
          release L_bcache;;
          acquiresleep (L_buf b) (blk b);;
          mret b
      | None => panic "bget: no buffers"
      end
  end.

Definition bread (dev blockno : Z) : K bio Z :=
  b ← bget dev blockno;
  x ← gb b;
  (if negb (b_valid x) then
     virtio_disk_rw b false;;
     ub b (set_valid true)
   else mret tt);;
  mret b.

Definition bwrite (b : Z) : K bio unit :=
  h ← holdingsleep (L_buf b) (blk b);
  (if h : bool then mret tt else panic "bwrite");;
  virtio_disk_rw b true.

Definition brelse (b : Z) : K bio unit :=
  h ← holdingsleep (L_buf b) (blk b);
  (if h : bool then mret tt else panic "brelse");;
  releasesleep (L_buf b) (blk b);;
  acquire L_bcache;;
  ub b (fun x => set_refcnt (u32 (b_refcnt x - 1)) x);;
  x ← gb b;
  (if b_refcnt x =? 0 then
     ub (b_next x) (set_prev (b_prev x));;
     x ← gb b;
     ub (b_prev x) (set_next (b_next x));;
     h ← gb HEAD;
     ub b (set_next (b_next h));;
     ub b (set_prev HEAD);;
     h ← gb HEAD;
     ub (b_next h) (set_prev b);;
     ub HEAD (set_next b)
   else mret tt);;
  release L_bcache.

Definition bpin (b : Z) : K bio unit :=
  acquire L_bcache;;
  ub b (fun x => set_refcnt (u32 (b_refcnt x + 1)) x);;
  release L_bcache.

Definition bunpin (b : Z) : K bio unit :=
  acquire L_bcache;;
  ub b (fun x => set_refcnt (u32 (b_refcnt x - 1)) x);;
  release L_bcache.
End Bio.
