(* ===== verification/Bcache.v ===== *)
(** * Buffer cache: the LRU list and the block view (theorems on Bio.v)

    The pointer structure of bcache represents a list of buffers in order of
    use; on it, the cache presents a map from block numbers to contents that
    does not depend on which blocks happen to be cached. *)
From stdpp Require Import base numbers list gmap strings.
From S2P Require Import Prelude Kernel Spinlock Sleeplock Bio.

(** ** Doubly linked lists *)

Definition fupd (f : Z -> Z) (k v : Z) : Z -> Z := fun j => if j =? k then v else f j.

Fixpoint linked (nx pv : Z -> Z) (l : list Z) : Prop :=
  match l with
  | a :: r =>
      match r with
      | b :: _ => nx a = b /\ pv b = a /\ linked nx pv r
      | [] => True
      end
  | [] => True
  end.

Lemma linked_cons nx pv a b r :
  linked nx pv (a :: b :: r) <-> nx a = b /\ pv b = a /\ linked nx pv (b :: r).
Proof. done. Qed.

Lemma linked_app nx pv xs a ys :
  linked nx pv (xs ++ a :: ys) <-> linked nx pv (xs ++ [a]) /\ linked nx pv (a :: ys).
Proof.
  induction xs as [|x xs IH]; [simpl; tauto|].
  destruct xs as [|y xs]; simpl in *; tauto.
Qed.

Lemma linked_nx nx pv l k v : k ∉ removelast l -> linked nx pv l -> linked (fupd nx k v) pv l.
Proof.
  induction l as [|a l IH]; [done|]. destruct l as [|b l]; [done|].
  cbn [removelast linked]. intros Hk (H1 & H2 & H3). apply not_elem_of_cons in Hk as [Hne Hk].
  split_and!; [|done|by apply IH].
  unfold fupd. by rewrite (proj2 (Z.eqb_neq a k)) by congruence.
Qed.

Lemma linked_pv nx pv l k v : k ∉ tail l -> linked nx pv l -> linked nx (fupd pv k v) l.
Proof.
  induction l as [|a l IH]; [done|]. destruct l as [|b l]; [done|].
  cbn [tail linked]. intros Hk (H1 & H2 & H3). apply not_elem_of_cons in Hk as [Hne Hk].
  split_and!; [done| |by apply IH].
  unfold fupd. by rewrite (proj2 (Z.eqb_neq b k)) by congruence.
Qed.

Lemma linked_ext nx pv nx' pv' l :
  (forall i, i ∈ l -> nx' i = nx i /\ pv' i = pv i) -> linked nx pv l -> linked nx' pv' l.
Proof.
  induction l as [|a l IH]; [done|]. destruct l as [|b l]; [done|].
  intros H (H1 & H2 & H3). destruct (H a) as [Ea _]; [by left|].
  destruct (H b) as [_ Eb]; [right; by left|]. cbn [linked].
  rewrite Ea, Eb. split_and!; [done..|]. apply IH; [|done]. intros i Hi. apply H. by right.
Qed.

(** Taking a node out. *)
Lemma linked_unlink nx pv xs a b n ys :
  linked nx pv (xs ++ a :: b :: n :: ys) ->
  a ∉ xs -> a ∉ removelast (n :: ys) -> n ∉ tail (xs ++ [a]) -> n ∉ ys ->
  linked (fupd nx a n) (fupd pv n a) (xs ++ a :: n :: ys).
Proof.
  intros H Ha1 Ha2 Hn1 Hn2. apply linked_app in H as [H1 H2].
  destruct H2 as (_ & _ & H2). destruct H2 as (_ & _ & H2). apply linked_app. split.
  - apply linked_pv; [done|]. apply linked_nx; [by rewrite removelast_last|done].
  - apply linked_cons. split; [unfold fupd; by rewrite Z.eqb_refl|].
    split; [unfold fupd; by rewrite Z.eqb_refl|].
    apply linked_pv; [done|]. by apply linked_nx.
Qed.

(** Putting a node in after the first one. *)
Lemma linked_insert nx pv h b f ys :
  linked nx pv (h :: f :: ys) -> b <> h -> b ∉ f :: ys ->
  h ∉ removelast (f :: ys) -> f ∉ ys ->
  linked (fupd (fupd nx b f) h b) (fupd (fupd pv b h) f b) (h :: b :: f :: ys).
Proof.
  intros (H1 & H2 & H3) Hbh Hb Hh Hf. apply not_elem_of_cons in Hb as [Hbf Hb].
  apply linked_cons. split; [unfold fupd; by rewrite Z.eqb_refl|].
  split; [unfold fupd; rewrite (proj2 (Z.eqb_neq b f)) by congruence; by rewrite Z.eqb_refl|].
  apply linked_cons. split; [unfold fupd; rewrite (proj2 (Z.eqb_neq b h)) by congruence; by rewrite Z.eqb_refl|].
  split; [unfold fupd; by rewrite Z.eqb_refl|].
  apply linked_pv; [done|]. apply linked_pv; [done|].
  apply linked_nx; [done|]. apply linked_nx; [|done].
  intros Hin. assert (b ∈ f :: ys) as [?|?]%elem_of_cons; [|done|done].
  destruct (exists_last (l := f :: ys)) as (l' & z & E); [done|]. rewrite E in *.
  rewrite removelast_last in Hin. apply elem_of_app. by left.
Qed.

(** ** The LRU list of the cache *)

Definition nx (s : bio) (i : Z) : Z := b_next (buf_at s i).
Definition pv (s : bio) (i : Z) : Z := b_prev (buf_at s i).

(** [l] is the list of buffers from most to least recently used. *)
Record lru (s : bio) (l : list Z) : Prop := {
  lru_linked : linked (nx s) (pv s) (HEAD :: l ++ [HEAD]);
  lru_all : l ≡ₚ seqZ 0 NBUF;
}.

Lemma buf_at_upd i f s j :
  buf_at (upd_buf i f s) j = if i =? j then f (buf_at s i) else buf_at s j.
Proof.
  unfold buf_at, upd_buf. simpl. rewrite lookup_insert.
  destruct (Z.eqb_spec i j); [by rewrite decide_True|by rewrite decide_False].
Qed.

Lemma lru_in s l i : lru s l -> i ∈ l <-> 0 <= i < NBUF.
Proof. intros [_ H]. rewrite H. rewrite elem_of_seqZ. change NBUF with 30. lia. Qed.

Lemma lru_nodup s l : lru s l -> NoDup (HEAD :: l).
Proof.
  intros H. apply NoDup_cons. split.
  - rewrite (lru_in s l) by done. unfold HEAD. lia.
  - rewrite (lru_all _ _ H). apply NoDup_seqZ.
Qed.

(** Updates that keep the links keep the list. *)
Lemma lru_ext s s' l :
  (forall i, nx s' i = nx s i /\ pv s' i = pv s i) -> lru s l -> lru s' l.
Proof. intros H [H1 H2]. split; [|done]. eapply linked_ext; [|done]. intros i _. apply H. Qed.

Definition keeps_links (f : buf -> buf) : Prop :=
  forall b, b_next (f b) = b_next b /\ b_prev (f b) = b_prev b.

Lemma lru_upd i f s l : keeps_links f -> lru s l -> lru (upd_buf i f s) l.
Proof.
  intros Hf. apply lru_ext. intros j. unfold nx, pv. rewrite buf_at_upd.
  destruct (Z.eqb_spec i j) as [->|]; [by destruct (Hf (buf_at s j))|done].
Qed.

(** The pointer surgery at the end of brelse, on buffer [b]. *)
Definition move_front (b : Z) (s : bio) : bio :=
  let x := buf_at s b in
  let s := upd_buf (b_next x) (set_prev (b_prev x)) s in
  let x := buf_at s b in
  let s := upd_buf (b_prev x) (set_next (b_next x)) s in
  let h := buf_at s HEAD in
  let s := upd_buf b (set_next (b_next h)) s in
  let s := upd_buf b (set_prev HEAD) s in
  let h := buf_at s HEAD in
  let s := upd_buf (b_next h) (set_prev b) s in
  upd_buf HEAD (set_next b) s.

Lemma nx_set_prev i v s j : nx (upd_buf i (set_prev v) s) j = nx s j.
Proof. unfold nx. rewrite buf_at_upd. by destruct (Z.eqb_spec i j) as [->|]. Qed.
Lemma nx_set_next i v s j : nx (upd_buf i (set_next v) s) j = fupd (nx s) i v j.
Proof. unfold nx, fupd. rewrite buf_at_upd, Z.eqb_sym. by destruct (Z.eqb_spec j i). Qed.
Lemma pv_set_next i v s j : pv (upd_buf i (set_next v) s) j = pv s j.
Proof. unfold pv. rewrite buf_at_upd. by destruct (Z.eqb_spec i j) as [->|]. Qed.
Lemma pv_set_prev i v s j : pv (upd_buf i (set_prev v) s) j = fupd (pv s) i v j.
Proof. unfold pv, fupd. rewrite buf_at_upd, Z.eqb_sym. by destruct (Z.eqb_spec j i). Qed.

(** The links after the surgery, as updates of the old ones. *)
Lemma move_front_links b s a n : b <> HEAD -> pv s b = a -> nx s b = n -> n <> b -> a <> b ->
  let f := fupd (nx s) a n HEAD in
  (forall j, nx (move_front b s) j = fupd (fupd (fupd (nx s) a n) b f) HEAD b j) /\
  (forall j, pv (move_front b s) j = fupd (fupd (fupd (pv s) n a) b HEAD) f b j).
Proof.
  intros Hb Ea En Hnb Hab f. unfold move_front.
  change (b_next (buf_at s b)) with (nx s b). change (b_prev (buf_at s b)) with (pv s b).
  rewrite Ea, En. set (s1 := upd_buf n (set_prev a) s).
  change (b_prev (buf_at s1 b)) with (pv s1 b). change (b_next (buf_at s1 b)) with (nx s1 b).
  assert (pv s1 b = a) as ->.
  { unfold s1. rewrite pv_set_prev. unfold fupd. by rewrite (proj2 (Z.eqb_neq b n)). }
  assert (nx s1 b = n) as -> by (unfold s1; by rewrite nx_set_prev).
  set (s2 := upd_buf a (set_next n) s1). change (b_next (buf_at s2 HEAD)) with (nx s2 HEAD).
  assert (forall j, nx s2 j = fupd (nx s) a n j) as N2.
  { intros j. unfold s2. rewrite nx_set_next. unfold fupd, s1. by rewrite nx_set_prev. }
  assert (forall j, pv s2 j = fupd (pv s) n a j) as P2.
  { intros j. unfold s2. rewrite pv_set_next. unfold s1. by rewrite pv_set_prev. }
  rewrite N2. fold f. set (s4 := upd_buf b (set_prev HEAD) (upd_buf b (set_next f) s2)).
  change (b_next (buf_at s4 HEAD)) with (nx s4 HEAD).
  assert (forall j, nx s4 j = fupd (fupd (nx s) a n) b f j) as N4.
  { intros j. unfold s4. rewrite nx_set_prev, nx_set_next. pose proof (N2 j) as E.
    unfold fupd in *. by rewrite E. }
  assert (forall j, pv s4 j = fupd (fupd (pv s) n a) b HEAD j) as P4.
  { intros j. unfold s4. rewrite pv_set_prev. pose proof (P2 j) as E. unfold fupd in *.
    by rewrite pv_set_next, E. }
  assert (nx s4 HEAD = f) as ->.
  { rewrite N4. unfold fupd at 1. by rewrite (proj2 (Z.eqb_neq HEAD b)). }
  split; intros j.
  - rewrite nx_set_next. pose proof (N4 j) as E. unfold fupd in *. by rewrite nx_set_prev, E.
  - rewrite pv_set_next, pv_set_prev. pose proof (P4 j) as E. unfold fupd in *. by rewrite E.
Qed.

Lemma cons_snoc (h : Z) l : exists A a, h :: l = A ++ [a].
Proof. destruct (exists_last (l := h :: l)) as (A & a & E); [done|]. by exists A, a. Qed.

Lemma snoc_cons (l : list Z) h : exists n B, l ++ [h] = n :: B.
Proof. destruct l as [|n l]; [by exists h, []|by exists n, (l ++ [h])]. Qed.

Lemma removelast_snoc_eq (n : Z) B l h : n :: B = l ++ [h] -> removelast (n :: B) = l.
Proof. intros ->. apply removelast_last. Qed.

(** Moving a buffer to the front of the list. *)
Lemma linked_move_front s h l1 b l2 :
  h = HEAD -> NoDup (h :: l1 ++ b :: l2) -> linked (nx s) (pv s) (h :: (l1 ++ b :: l2) ++ [h]) ->
  linked (nx (move_front b s)) (pv (move_front b s)) (h :: (b :: l1 ++ l2) ++ [h]).
Proof.
  intros Eh Hnd HL.
  assert (NoDup (b :: (l1 ++ l2) ++ [h])) as Hnd'.
  { assert (h :: l1 ++ b :: l2 ≡ₚ b :: (l1 ++ l2) ++ [h]) as <-; [|done].
    rewrite <- Permutation_middle, <- Permutation_cons_append. constructor. }
  apply NoDup_cons in Hnd' as [Hb Hnd'].
  destruct (cons_snoc h l1) as (A & a & EA), (snoc_cons l2 h) as (n & B & EB).
  assert (h :: (l1 ++ b :: l2) ++ [h] = A ++ a :: b :: n :: B) as EL.
  { rewrite <- app_assoc. simpl. rewrite EB. rewrite app_comm_cons, EA, <- app_assoc. done. }
  assert (h :: (l1 ++ l2) ++ [h] = A ++ a :: n :: B) as EL'.
  { rewrite <- app_assoc, EB. rewrite app_comm_cons, EA, <- app_assoc. done. }
  rewrite EL in HL. pose proof HL as HL1. apply linked_app in HL1 as [_ HL1].
  destruct HL1 as (_ & Hpv_b & Hnx_b & _).
  rewrite app_comm_cons, EA, <- app_assoc in Hnd. simpl in Hnd.
  assert ((n ∉ l1) /\ (n ∉ B)) as [Hn1 HnB].
  { rewrite <- app_assoc, EB in Hnd'. apply NoDup_app in Hnd' as (_ & Hd & HnB).
    apply NoDup_cons in HnB as [HnB _]. split; [|done]. intros Hin. apply (Hd n Hin). by left. }
  assert ((a ∉ A) /\ (a ∉ b :: l2)) as [HaA Hal2].
  { apply NoDup_app in Hnd as (_ & Hd & Hnd2). apply NoDup_cons in Hnd2 as [? _].
    split; [|done]. intros Hin. apply (Hd a Hin). by left. }
  apply not_elem_of_cons in Hal2 as [Hab Hal2].
  assert (n <> b) as Hnb.
  { intros ->. apply Hb. rewrite <- app_assoc, EB. apply elem_of_app. right. by left. }
  assert (b <> h) as Hbh.
  { intros ->. apply Hb. apply elem_of_app. right. by left. }
  pose proof (linked_unlink _ _ _ _ _ _ _ HL HaA) as HU. rewrite <- EL' in HU.
  rewrite (removelast_snoc_eq n B l2 h) in HU by done. rewrite <- EA in HU. simpl in HU.
  specialize (HU Hal2 Hn1 HnB). clear HL EL EL'.
  destruct (snoc_cons (l1 ++ l2) h) as (f & ys & EF). rewrite <- app_comm_cons, EF in *.
  pose proof Hnd' as HN. apply NoDup_cons in Hnd' as [Hfys _].
  assert (f = fupd (nx s) a n HEAD) as Ef by (rewrite <- Eh; by destruct HU as [-> _]).
  destruct (move_front_links b s a n) as [MN MP]; [congruence|done|done|done|done|].
  rewrite <- Ef in MN, MP.
  eapply linked_ext; [intros i _; split; [apply MN|apply MP]|]. rewrite <- Eh.
  apply linked_insert; [done|done|done| |done].
  rewrite (removelast_snoc_eq f ys _ h) by done.
  intros Hin.
  rewrite <- EF in HN. apply NoDup_app in HN as (_ & Hd & _). apply (Hd h Hin). by left.
Qed.

Lemma lru_move_front s l1 b l2 :
  lru s (l1 ++ b :: l2) -> lru (move_front b s) (b :: l1 ++ l2).
Proof.
  intros H. split.
  - apply linked_move_front; [done|exact (lru_nodup _ _ H)|exact (lru_linked _ _ H)].
  - rewrite Permutation_middle. exact (lru_all _ _ H).
Qed.

(** ** The scans of bget *)

Lemma linked_rev nx pv l : linked nx pv l -> linked pv nx (reverse l).
Proof.
  induction l as [|a l IH]; [done|]. destruct l as [|b l]; [done|].
  intros (H1 & H2 & H3). rewrite !reverse_cons, <- app_assoc. apply linked_app. split.
  - rewrite <- reverse_cons. by apply IH.
  - by split_and!.
Qed.

Definition is_block (dev bn : Z) (s : bio) (i : Z) : bool :=
  (b_dev (buf_at s i) =? dev) && (b_blockno (buf_at s i) =? bn).
Definition is_free (s : bio) (i : Z) : bool := b_refcnt (buf_at s i) =? 0.

Lemma bget_cached_eq c s dev bn l fuel :
  linked (nx s) (pv s) (l ++ [HEAD]) -> HEAD ∉ l -> (length l <= fuel)%nat ->
  bget_cached fuel (hd HEAD l) dev bn c s = Done (List.find (is_block dev bn s) l) c s.
Proof.
  revert fuel. induction l as [|a l IH]; intros fuel HL HH Hf.
  - by destruct fuel.
  - apply not_elem_of_cons in HH as [Ha HH]. destruct fuel as [|fuel]; simpl in Hf; [lia|].
    cbn [bget_cached hd]. rewrite (proj2 (Z.eqb_neq a HEAD)) by congruence.
    unfold gb. krun. change (b_next (buf_at s a)) with (nx s a). cbn [List.find].
    fold (is_block dev bn s a). destruct (is_block dev bn s a) eqn:E; [done|].
    assert (nx s a = hd HEAD l) as -> by (destruct l as [|a' l]; by destruct HL as [-> _]).
    apply IH; [|done|lia]. destruct l as [|a' l]; [done|]. by destruct HL as (_ & _ & HL).
Qed.

Lemma bget_unused_eq c s l fuel :
  linked (pv s) (nx s) (l ++ [HEAD]) -> HEAD ∉ l -> (length l <= fuel)%nat ->
  bget_unused fuel (hd HEAD l) c s = Done (List.find (is_free s) l) c s.
Proof.
  revert fuel. induction l as [|a l IH]; intros fuel HL HH Hf.
  - by destruct fuel.
  - apply not_elem_of_cons in HH as [Ha HH]. destruct fuel as [|fuel]; simpl in Hf; [lia|].
    cbn [bget_unused hd]. rewrite (proj2 (Z.eqb_neq a HEAD)) by congruence.
    unfold gb. krun. change (b_prev (buf_at s a)) with (pv s a). cbn [List.find].
    fold (is_free s a). destruct (is_free s a) eqn:E; [done|].
    assert (pv s a = hd HEAD l) as -> by (destruct l as [|a' l]; by destruct HL as [-> _]).
    apply IH; [|done|lia]. destruct l as [|a' l]; [done|]. by destruct HL as (_ & _ & HL).
Qed.

Lemma lru_length s l : lru s l -> length l = 30%nat.
Proof. intros [_ H]. by rewrite H. Qed.

Lemma lru_head_nx s l : lru s l -> b_next (buf_at s HEAD) = hd HEAD l.
Proof.
  intros [H _]. change (b_next (buf_at s HEAD)) with (nx s HEAD).
  destruct l as [|a l]; by destruct H as [-> _].
Qed.

Lemma lru_linked_rev s l : lru s l -> linked (pv s) (nx s) (HEAD :: reverse l ++ [HEAD]).
Proof.
  intros [H _]. apply linked_rev in H. by rewrite reverse_cons, reverse_app in H.
Qed.

Lemma lru_head_pv s l : lru s l -> b_prev (buf_at s HEAD) = hd HEAD (reverse l).
Proof.
  intros H%lru_linked_rev. change (b_prev (buf_at s HEAD)) with (pv s HEAD).
  destruct (reverse l) as [|a l']; by destruct H as [-> _].
Qed.

Lemma linked_tail nx pv a l : linked nx pv (a :: l) -> linked nx pv l.
Proof. destruct l; [done|]. by intros (_ & _ & H). Qed.

Lemma lru_scan_cached c s l dev bn : lru s l ->
  bget_cached (Z.to_nat NBUF) (b_next (buf_at s HEAD)) dev bn c s =
    Done (List.find (is_block dev bn s) l) c s.
Proof.
  intros H. rewrite (lru_head_nx _ _ H). pose proof (lru_nodup _ _ H) as [? _]%NoDup_cons.
  apply bget_cached_eq; [|done|by rewrite (lru_length _ _ H)].
  eapply linked_tail, lru_linked, H.
Qed.

Lemma lru_scan_unused c s l : lru s l ->
  bget_unused (Z.to_nat NBUF) (b_prev (buf_at s HEAD)) c s =
    Done (List.find (is_free s) (reverse l)) c s.
Proof.
  intros H. rewrite (lru_head_pv _ _ H). pose proof (lru_nodup _ _ H) as [? _]%NoDup_cons.
  apply bget_unused_eq; [|by rewrite elem_of_reverse|].
  - eapply linked_tail, lru_linked_rev, H.
  - by rewrite length_reverse, (lru_length _ _ H).
Qed.

(** ** The cache as a map of blocks *)

(** Buffer [i] is the cached copy of block [x] of the root device. *)
Definition cached (s : bio) (x i : Z) : Prop :=
  0 <= i < NBUF /\ b_dev (buf_at s i) = ROOTDEV /\ b_blockno (buf_at s i) = x.

Record bc_ok (s : bio) : Prop := {
  bo_lru : exists l, lru s l;
  bo_uniq : forall i j x, cached s x i -> cached s x j -> i = j;
  bo_free : forall i, 0 <= i < NBUF -> b_refcnt (buf_at s i) = 0 ->
    b_lock (buf_at s i) = Sleeplock 0 0 /\
    (b_valid (buf_at s i) = true -> b_data (buf_at s i) = dget (dsk s) (b_blockno (buf_at s i)));
  bo_ref : forall i, 0 <= i < NBUF -> 0 <= b_refcnt (buf_at s i);
  bo_dev : forall i, 0 <= i < NBUF ->
    b_valid (buf_at s i) = true \/ b_refcnt (buf_at s i) <> 0 -> b_dev (buf_at s i) = ROOTDEV;
}.

Definition find_buf (s : bio) (x : Z) : option Z :=
  List.find (is_block ROOTDEV x s) (seqZ 0 NBUF).

(** What a reader of block [x] sees, the references to it, and its lock. *)
Definition view (s : bio) (x : Z) : block :=
  match find_buf s x with
  | Some i => if b_valid (buf_at s i) then b_data (buf_at s i) else dget (dsk s) x
  | None => dget (dsk s) x
  end.
Definition refs (s : bio) (x : Z) : Z :=
  match find_buf s x with Some i => b_refcnt (buf_at s i) | None => 0 end.
Definition blocked (s : bio) (x : Z) : sleeplock :=
  match find_buf s x with Some i => b_lock (buf_at s i) | None => Sleeplock 0 0 end.

Lemma is_block_cached s x i : 0 <= i < NBUF -> is_block ROOTDEV x s i = true <-> cached s x i.
Proof.
  unfold is_block, cached. rewrite andb_true_iff, !Z.eqb_eq. tauto.
Qed.

Lemma seqZ_range i : i ∈ seqZ 0 NBUF <-> 0 <= i < NBUF.
Proof. rewrite elem_of_seqZ. change NBUF with 30. lia. Qed.

Lemma find_elem {A} (f : A -> bool) l x : List.find f l = Some x -> x ∈ l /\ f x = true.
Proof. intros [??]%List.find_some. by rewrite list_elem_of_In. Qed.

Lemma find_buf_some s x i : bc_ok s -> find_buf s x = Some i <-> cached s x i.
Proof.
  intros Hok. split.
  - intros [Hi E]%find_elem. apply seqZ_range in Hi. by apply is_block_cached.
  - intros Hc. unfold find_buf. destruct (List.find _ _) as [j|] eqn:E.
    + apply find_elem in E as [Hj E]. apply seqZ_range in Hj. f_equal.
      eapply (bo_uniq _ Hok); [|done]. by apply is_block_cached.
    + eapply List.find_none in E; [|apply list_elem_of_In, seqZ_range, Hc].
      apply is_block_cached in Hc; [congruence|apply Hc].
Qed.

Lemma find_buf_none s x : find_buf s x = None <-> forall i, ~ cached s x i.
Proof.
  split.
  - intros E i Hc. eapply List.find_none in E; [|apply list_elem_of_In, seqZ_range, Hc].
    apply is_block_cached in Hc; [congruence|apply Hc].
  - intros H. unfold find_buf. destruct (List.find _ _) as [j|] eqn:E; [|done].
    apply find_elem in E as [Hj E]. apply seqZ_range in Hj. exfalso. apply (H j).
    by apply is_block_cached.
Qed.

(** A scan of the list in any order finds the same buffer. *)
Lemma find_lru s l x : bc_ok s -> lru s l -> List.find (is_block ROOTDEV x s) l = find_buf s x.
Proof.
  intros Hok Hl. destruct (List.find _ l) as [i|] eqn:E.
  - apply find_elem in E as [Hi E]. apply (lru_in _ _ _ Hl) in Hi. symmetry.
    apply find_buf_some; [done|]. by apply is_block_cached.
  - symmetry. apply find_buf_none. intros i Hc.
    eapply List.find_none in E; [|apply list_elem_of_In, (lru_in _ _ _ Hl), Hc].
    apply is_block_cached in Hc; [congruence|apply Hc].
Qed.

Lemma view_cached s x i : bc_ok s -> cached s x i ->
  view s x = if b_valid (buf_at s i) then b_data (buf_at s i) else dget (dsk s) x.
Proof. intros Hok Hc%find_buf_some; [|done]. unfold view. by rewrite Hc. Qed.
Lemma refs_cached s x i : bc_ok s -> cached s x i -> refs s x = b_refcnt (buf_at s i).
Proof. intros Hok Hc%find_buf_some; [|done]. unfold refs. by rewrite Hc. Qed.
Lemma blocked_cached s x i : bc_ok s -> cached s x i -> blocked s x = b_lock (buf_at s i).
Proof. intros Hok Hc%find_buf_some; [|done]. unfold blocked. by rewrite Hc. Qed.

Lemma refs_pos_cached s x : refs s x <> 0 -> exists i, cached s x i.
Proof.
  unfold refs. destruct (find_buf s x) as [i|] eqn:E; [|done]. intros _. exists i.
  apply find_elem in E as [Hi E]. apply seqZ_range in Hi. by apply is_block_cached.
Qed.

(** A buffer without its links. *)
Definition core (b : buf) : bool * Z * Z * sleeplock * Z * block :=
  (b_valid b, b_dev b, b_blockno b, b_lock b, b_refcnt b, b_data b).
Definition others_same (i : Z) (s s' : bio) : Prop :=
  forall j, 0 <= j < NBUF -> j <> i -> core (buf_at s' j) = core (buf_at s j).

Lemma core_inj b b' : core b = core b' ->
  b_valid b = b_valid b' /\ b_dev b = b_dev b' /\ b_blockno b = b_blockno b' /\
  b_lock b = b_lock b' /\ b_refcnt b = b_refcnt b' /\ b_data b = b_data b'.
Proof. unfold core. intros. by simplify_eq. Qed.

Lemma others_cached i s s' y j : others_same i s s' -> j <> i -> cached s' y j <-> cached s y j.
Proof.
  intros H Hj. unfold cached. split; intros (Hr & H1 & H2);
    destruct (core_inj _ _ (H j Hr Hj)) as (_ & E1 & E2 & _); split_and!; congruence || lia.
Qed.

Lemma option_eq_some {A} (o o' : option A) : (forall a, o = Some a <-> o' = Some a) -> o = o'.
Proof. intros H. apply option_eq. intros a. apply H. Qed.

Definition same_at (s s' : bio) (y : Z) : Prop :=
  view s' y = view s y /\ refs s' y = refs s y /\ blocked s' y = blocked s y.

(** Blocks cached elsewhere look the same. *)
Lemma same_at_find i s s' y :
  others_same i s s' -> find_buf s' y = find_buf s y ->
  find_buf s y <> Some i -> dget (dsk s') y = dget (dsk s) y -> same_at s s' y.
Proof.
  intros Ho Hf Hne Hd. unfold same_at, view, refs, blocked. rewrite Hf, Hd.
  destruct (find_buf s y) as [j|] eqn:E; [|done].
  apply find_elem in E as [Hj%seqZ_range _].
  destruct (core_inj _ _ (Ho j Hj ltac:(congruence))) as (-> & _ & _ & -> & -> & ->). done.
Qed.

(** A change of the buffer that caches [x]. *)
Section Update.
Variables (s s' : bio) (i x : Z).
Hypotheses (Hok : bc_ok s) (Hc : cached s x i) (Ho : others_same i s s')
  (Hdev : b_dev (buf_at s' i) = b_dev (buf_at s i))
  (Hbn : b_blockno (buf_at s' i) = b_blockno (buf_at s i))
  (Hl : exists l, lru s' l)
  (Hdsk : forall y, y <> x -> dget (dsk s') y = dget (dsk s) y)
  (Href : 0 <= b_refcnt (buf_at s' i))
  (Hfree : b_refcnt (buf_at s' i) = 0 -> b_lock (buf_at s' i) = Sleeplock 0 0 /\
     (b_valid (buf_at s' i) = true -> b_data (buf_at s' i) = dget (dsk s') x)).

Lemma update_cached y j : cached s' y j <-> cached s y j.
Proof.
  destruct (Z.eq_dec j i) as [->|Hj]; [|by eapply others_cached].
  unfold cached. by rewrite Hdev, Hbn.
Qed.

Lemma update_ok : bc_ok s'.
Proof.
  pose proof Hc as (Hi & Hd1 & Hb1). split; [done| | | |].
  - intros j k y H1%update_cached H2%update_cached. by eapply (bo_uniq _ Hok).
  - intros j Hj. destruct (Z.eq_dec j i) as [->|Hne]; [rewrite Hbn, Hb1; exact Hfree|].
    destruct (core_inj _ _ (Ho j Hj Hne)) as (-> & _ & -> & -> & -> & ->). intros E.
    destruct (bo_free _ Hok j Hj E) as [F1 F2]. split; [done|]. intros Hv. rewrite (F2 Hv).
    symmetry. apply Hdsk. intros Ex. apply Hne. eapply (bo_uniq _ Hok _ _ x); [|done].
    split_and!; [lia..| |done]. apply (bo_dev _ Hok j Hj). by left.
  - intros j Hj. destruct (Z.eq_dec j i) as [->|Hne]; [done|].
    destruct (core_inj _ _ (Ho j Hj Hne)) as (_ & _ & _ & _ & -> & _). by apply (bo_ref _ Hok).
  - intros j Hj. destruct (Z.eq_dec j i) as [->|Hne]; [by rewrite Hdev|].
    destruct (core_inj _ _ (Ho j Hj Hne)) as (-> & -> & _ & _ & -> & _). by apply (bo_dev _ Hok).
Qed.

Lemma update_same y : y <> x -> same_at s s' y.
Proof.
  intros Hy. apply (same_at_find i); [done| | |by apply Hdsk].
  - apply option_eq_some. intros j. rewrite !find_buf_some by (done || apply update_ok).
    apply update_cached.
  - rewrite find_buf_some by done. intros (_ & _ & E). apply Hy. destruct Hc as (_ & _ & E'). congruence.
Qed.
End Update.

(** Reuse of an unreferenced buffer for block [x], which is nowhere cached. *)
Section Recycle.
Variables (s s' : bio) (i x : Z).
Hypotheses (Hok : bc_ok s) (Hi : 0 <= i < NBUF) (Hr0 : b_refcnt (buf_at s i) = 0)
  (Hnc : find_buf s x = None) (Ho : others_same i s s')
  (Hc' : cached s' x i) (Hl : exists l, lru s' l) (Hdsk : dsk s' = dsk s)
  (Href : 0 < b_refcnt (buf_at s' i)).

Lemma recycle_cached y j : cached s' y j <-> (j = i /\ y = x) \/ (j <> i /\ cached s y j).
Proof.
  destruct (Z.eq_dec j i) as [->|Hj].
  - split; [|intros [[_ ->]|[? _]]; done]. intros (_ & _ & E). left. split; [done|].
    destruct Hc' as (_ & _ & E'). congruence.
  - rewrite (others_cached i s s') by done. intuition lia.
Qed.

Lemma recycle_ok : bc_ok s'.
Proof.
  pose proof (proj1 (find_buf_none _ _) Hnc) as Hn. split; [done| | | |].
  - intros j k y [[-> ->]|[Hj H1]]%recycle_cached [[-> ?]|[Hk H2]]%recycle_cached; subst; try done.
    + by destruct (Hn k).
    + by destruct (Hn j).
    + by eapply (bo_uniq _ Hok).
  - intros j Hj. destruct (Z.eq_dec j i) as [->|Hne]; [lia|].
    destruct (core_inj _ _ (Ho j Hj Hne)) as (-> & _ & -> & -> & -> & ->). rewrite Hdsk.
    by apply (bo_free _ Hok).
  - intros j Hj. destruct (Z.eq_dec j i) as [->|Hne]; [lia|].
    destruct (core_inj _ _ (Ho j Hj Hne)) as (_ & _ & _ & _ & -> & _). by apply (bo_ref _ Hok).
  - intros j Hj. destruct (Z.eq_dec j i) as [->|Hne]; [intros _; apply Hc'|].
    destruct (core_inj _ _ (Ho j Hj Hne)) as (-> & -> & _ & _ & -> & _). by apply (bo_dev _ Hok).
Qed.

(** The block that loses its buffer was clean: nobody sees a difference. *)
Lemma recycle_same y : y <> x -> same_at s s' y.
Proof.
  intros Hy. pose proof recycle_ok as Hok'. destruct (find_buf s y) as [j|] eqn:E.
  - apply find_buf_some in E; [|done]. destruct (Z.eq_dec j i) as [->|Hj].
    + assert (find_buf s' y = None) as E'.
      { apply find_buf_none. intros k [[-> ->]|[Hk H]]%recycle_cached; [done|].
        apply Hk. by eapply (bo_uniq _ Hok). }
      unfold same_at. rewrite (view_cached s y i), (refs_cached s y i), (blocked_cached s y i) by done.
      unfold view, refs, blocked. rewrite E', Hdsk.
      destruct (bo_free _ Hok i Hi Hr0) as [-> F]. rewrite Hr0. split_and!; [|done..].
      destruct (b_valid (buf_at s i)) eqn:Hv; [|done]. rewrite F by done.
      by destruct E as (_ & _ & ->).
    + apply (same_at_find i); [done| | |by rewrite Hdsk].
      * rewrite (proj2 (find_buf_some s y j Hok) E). apply find_buf_some; [done|].
        apply recycle_cached. by right.
      * rewrite find_buf_some by done. intros H. apply Hj. by eapply (bo_uniq _ Hok).
  - apply (same_at_find i); [done| |by rewrite E|by rewrite Hdsk].
    rewrite E. apply find_buf_none. intros k [[-> ->]|[Hk H]]%recycle_cached; [done|].
    by eapply (proj1 (find_buf_none s y) E).
Qed.
End Recycle.

(** ** The operations on blocks *)

Lemma buf_at_upd_same i f s : buf_at (upd_buf i f s) i = f (buf_at s i).
Proof. by rewrite buf_at_upd, Z.eqb_refl. Qed.

Lemma others_refl i s : others_same i s s.
Proof. done. Qed.
Lemma others_upd i f s s' : others_same i s s' -> others_same i s (upd_buf i f s').
Proof.
  intros H j Hj Hne. rewrite buf_at_upd, (proj2 (Z.eqb_neq i j)) by congruence. by apply H.
Qed.
#[export] Hint Resolve others_refl others_upd : xv6.

Lemma keeps_set_refcnt f : keeps_links (fun b => set_refcnt (f b) b).
Proof. done. Qed.
Lemma keeps_set_lock v : keeps_links (set_lock v).
Proof. done. Qed.
Lemma keeps_set_id d n : keeps_links (set_id d n).
Proof. done. Qed.
Lemma keeps_set_valid v : keeps_links (set_valid v).
Proof. done. Qed.
Lemma keeps_set_data v : keeps_links (set_data v).
Proof. done. Qed.
#[export] Hint Resolve lru_upd keeps_set_refcnt keeps_set_lock keeps_set_id keeps_set_valid keeps_set_data : xv6.

(** A running process that holds none of the cache's spinlocks. *)
Record bio_cpu (c : ctx) : Prop := {
  bp_cpu : cpu_ok c;
  bp_cache : unlocked L_bcache c;
  bp_buf : forall i, 0 <= i < NBUF -> unlocked (L_buf i) c;
}.
Lemma bio_cpu_evs e c : bio_cpu c -> bio_cpu (set_evs e c).
Proof. intros [H1 H2 H3]. split; [by apply cpu_ok_evs|done..]. Qed.

Definition room (s : bio) : Prop := exists i, 0 <= i < NBUF /\ b_refcnt (buf_at s i) = 0.

Section Ops.
Variables (c : ctx) (s : bio).
Hypotheses (Hcpu : bio_cpu c) (Hok : bc_ok s).

Lemma bget_hit x i : find_buf s x = Some i -> sl_locked (b_lock (buf_at s i)) = 0 ->
  bget ROOTDEV x c s = Done i c
    (upd_buf i (set_lock (Sleeplock 1 (curpid c)))
      (upd_buf i (fun b => set_refcnt (u32 (b_refcnt b + 1)) b) s)).
Proof.
  intros Hf Hlk. destruct Hcpu as [Hp Hbc Hbu], (bo_lru _ Hok) as [l Hl].
  pose proof Hf as [Hi _]%(find_buf_some s x i Hok).
  unfold bget. kstep (acquire_eq L_bcache c s Hbc). unfold gb, ub. krun.
  rewrite (lru_scan_cached _ _ _ _ _ Hl), (find_lru s l x Hok Hl), Hf.
  cbv beta iota.
  rewrite (release_eq L_bcache c _ Hp Hbc). cbv beta iota.
  rewrite (acquiresleep_free (L_buf i) (blk i) c Hp (Hbu i Hi)); [done|].
  simpl. by rewrite buf_at_upd_same.
Qed.

Lemma bget_miss x l i : find_buf s x = None -> lru s l -> List.find (is_free s) (reverse l) = Some i ->
  bget ROOTDEV x c s = Done i c
    (upd_buf i (set_lock (Sleeplock 1 (curpid c)))
      (upd_buf i (set_refcnt 1) (upd_buf i (set_valid false) (upd_buf i (set_id ROOTDEV x) s)))).
Proof.
  intros Hf Hl Hfi. destruct Hcpu as [Hp Hbc Hbu].
  pose proof Hfi as [Hi Hfr]%find_elem. rewrite elem_of_reverse, (lru_in _ _ _ Hl) in Hi.
  apply Z.eqb_eq in Hfr.
  unfold bget. kstep (acquire_eq L_bcache c s Hbc). unfold gb, ub. krun.
  rewrite (lru_scan_cached _ _ _ _ _ Hl), (find_lru s l x Hok Hl), Hf.
  cbv beta iota.
  rewrite (lru_scan_unused _ _ _ Hl), Hfi. cbv beta iota.
  rewrite (release_eq L_bcache c _ Hp Hbc). cbv beta iota.
  rewrite (acquiresleep_free (L_buf i) (blk i) c Hp (Hbu i Hi)); [done|].
  simpl. rewrite !buf_at_upd_same. simpl. by destruct (bo_free _ Hok i Hi Hfr) as [-> _].
Qed.

Lemma bget_full x : find_buf s x = None -> ~ room s -> bget ROOTDEV x c s = Panic "bget: no buffers".
Proof.
  intros Hf Hr. destruct Hcpu as [Hp Hbc Hbu], (bo_lru _ Hok) as [l Hl].
  unfold bget. kstep (acquire_eq L_bcache c s Hbc). unfold gb, ub. krun.
  rewrite (lru_scan_cached _ _ _ _ _ Hl), (find_lru s l x Hok Hl), Hf.
  cbv beta iota. rewrite (lru_scan_unused _ _ _ Hl).
  destruct (List.find _ _) as [i|] eqn:E; [|done].
  apply find_elem in E as [Hi Hfr]. rewrite elem_of_reverse, (lru_in _ _ _ Hl) in Hi.
  apply Z.eqb_eq in Hfr. destruct Hr. by exists i.
Qed.

Lemma room_find l : lru s l -> room s -> exists i, List.find (is_free s) (reverse l) = Some i.
Proof.
  intros Hl (i & Hi & Hr). destruct (List.find _ _) as [j|] eqn:E; [by exists j|].
  eapply List.find_none in E; [|apply list_elem_of_In, elem_of_reverse, (lru_in _ _ _ Hl), Hi].
  unfold is_free in E. by rewrite Hr in E.
Qed.
End Ops.

(** The caller holds buffer [i], a valid copy of block [x]. *)
Record holds (c : ctx) (s : bio) (x i : Z) : Prop := {
  h_cached : cached s x i;
  h_valid : b_valid (buf_at s i) = true;
  h_lock : b_lock (buf_at s i) = Sleeplock 1 (curpid c);
  h_ref : 0 < b_refcnt (buf_at s i);
}.

(** From [s] to [s'] only block [x] may look different; handles stay good. *)
Record only (x : Z) (s s' : bio) : Prop := {
  on_ok : bc_ok s';
  on_same : forall y, y <> x -> same_at s s' y;
  on_keep : forall y j, y <> x -> refs s y <> 0 -> cached s y j ->
    cached s' y j /\ core (buf_at s' j) = core (buf_at s j);
}.

Lemma upd2 i f g s : upd_buf i f (upd_buf i g s) = upd_buf i (fun b => f (g b)) s.
Proof. unfold upd_buf, buf_at. simpl. by rewrite lookup_insert_eq, insert_insert_eq. Qed.

(** A field update of the buffer of [x] that keeps its name and its links. *)
Definition keeps_id (f : buf -> buf) : Prop :=
  forall b, b_dev (f b) = b_dev b /\ b_blockno (f b) = b_blockno b.

Lemma only_upd s x i f : bc_ok s -> cached s x i -> keeps_links f -> keeps_id f ->
  0 < b_refcnt (f (buf_at s i)) ->
  only x s (upd_buf i f s) /\ cached (upd_buf i f s) x i.
Proof.
  intros Hok Hc Hl Hid Hr. destruct (bo_lru _ Hok) as [l Hlru], (Hid (buf_at s i)) as [E1 E2].
  assert (others_same i s (upd_buf i f s)) as Ho by auto with xv6.
  assert (forall y j, cached (upd_buf i f s) y j <-> cached s y j) as Hcc.
  { eapply update_cached; [done|by rewrite buf_at_upd_same..]. }
  split; [|by apply Hcc]. split.
  - eapply (update_ok s _ i x); rewrite ?buf_at_upd_same; try done || lia.
    exists l. by apply lru_upd.
  - eapply (update_same s _ i x); rewrite ?buf_at_upd_same; try done || lia.
    exists l. by apply lru_upd.
  - intros y j Hy _ Hj. split; [by apply Hcc|]. apply Ho; [apply Hj|]. intros ->.
    apply Hy. destruct Hj as (_ & _ & <-), Hc as (_ & _ & <-). done.
Qed.

Lemma only_recycle s x i f : bc_ok s -> 0 <= i < NBUF -> b_refcnt (buf_at s i) = 0 ->
  find_buf s x = None -> keeps_links f ->
  b_dev (f (buf_at s i)) = ROOTDEV -> b_blockno (f (buf_at s i)) = x ->
  0 < b_refcnt (f (buf_at s i)) ->
  only x s (upd_buf i f s) /\ cached (upd_buf i f s) x i.
Proof.
  intros Hok Hi Hr Hf Hl E1 E2 Hp. destruct (bo_lru _ Hok) as [l Hlru].
  assert (others_same i s (upd_buf i f s)) as Ho by auto with xv6.
  assert (cached (upd_buf i f s) x i) as Hc'.
  { unfold cached. by rewrite !buf_at_upd_same. }
  assert (exists l, lru (upd_buf i f s) l) as Hlru' by (exists l; by apply lru_upd).
  split; [|done]. split.
  - apply (recycle_ok s _ i x); rewrite ?buf_at_upd_same; done.
  - apply (recycle_same s _ i x); rewrite ?buf_at_upd_same; done.
  - intros y j Hy Hry Hj. assert (j <> i) as Hne.
    { intros ->. rewrite (refs_cached s y i) in Hry by done. done. }
    split; [by apply (others_cached i s)|]. by apply Ho; [apply Hj|].
Qed.

Lemma view_held c s x i : bc_ok s -> holds c s x i -> view s x = b_data (buf_at s i).
Proof. intros Hok [Hc Hv _ _]. rewrite (view_cached s x i) by done. by rewrite Hv. Qed.
Lemma refs_held c s x i : bc_ok s -> holds c s x i -> refs s x = b_refcnt (buf_at s i).
Proof. intros Hok [Hc _ _ _]. by apply refs_cached. Qed.

Lemma upd_dsk i f s : dsk (upd_buf i f s) = dsk s.
Proof. done. Qed.

Section Spec.
Context {D : DiskDriver} {DOK : DiskDriverOk D}.
Variables (c : ctx) (s : bio).
Hypotheses (Hcpu : bio_cpu c) (Hok : bc_ok s).

(** The end of bread, on the buffer bget returns: a read if it is not valid. *)
Lemma bread_eq x i f : bget ROOTDEV x c s = Done i c (upd_buf i f s) ->
  b_blockno (f (buf_at s i)) = x ->
  bread ROOTDEV x c s = Done i c
    (upd_buf i (if b_valid (f (buf_at s i)) then f
                else fun b => set_valid true (set_data (dget (dsk s) x) (f b))) s).
Proof.
  intros E Ex. unfold bread. kstep E. unfold gb, ub. krun. rewrite buf_at_upd_same.
  destruct (b_valid (f (buf_at s i))) eqn:Hv; simpl; [done|].
  rewrite rw_read. simpl. rewrite buf_at_upd_same, Ex, !upd2. done.
Qed.

Lemma refs_miss x : find_buf s x = None -> refs s x = 0.
Proof. unfold refs. by intros ->. Qed.
Lemma view_miss x : find_buf s x = None -> view s x = dget (dsk s) x.
Proof. unfold view. by intros ->. Qed.

Lemma bread_spec x :
  sl_locked (blocked s x) = 0 -> find_buf s x <> None \/ room s -> refs s x + 1 < 2 ^ 32 ->
  exists i s', bread ROOTDEV x c s = Done i c s' /\
    holds c s' x i /\ only x s s' /\ view s' x = view s x /\
    refs s' x = refs s x + 1 /\ dsk s' = dsk s.
Proof.
  intros Hlk Hroom Hr. destruct (find_buf s x) as [i|] eqn:Hf.
  - pose proof Hf as Hc%find_buf_some; [|done]. pose proof Hc as (Hi & Hd & Hb).
    rewrite (blocked_cached s x i) in Hlk by done. rewrite (refs_cached s x i) in Hr |- * by done.
    pose proof (bo_ref _ Hok i Hi) as Hge.
    pose proof (bget_hit c s Hcpu Hok x i Hf Hlk) as Hg. rewrite upd2 in Hg.
    apply bread_eq in Hg; [|done]. simpl in Hg. eexists i, _. split; [exact Hg|]. clear Hg.
    set (f := if b_valid _ then _ else _).
    assert (keeps_links f /\ keeps_id f /\ b_refcnt (f (buf_at s i)) = b_refcnt (buf_at s i) + 1 /\
      b_valid (f (buf_at s i)) = true /\ b_lock (f (buf_at s i)) = Sleeplock 1 (curpid c) /\
      b_data (f (buf_at s i)) = view s x) as (F1 & F2 & F3 & F4 & F5 & F6).
    { rewrite (view_cached s x i) by done. unfold f. destruct (b_valid (buf_at s i)) eqn:Hv; simpl;
        rewrite u_small by lia; done. }
    destruct (only_upd s x i f Hok Hc F1 F2) as [Hon Hc']; [lia|]. pose proof (on_ok _ _ _ Hon) as Hok'.
    rewrite (view_cached _ x i Hok' Hc'), (refs_cached _ x i Hok' Hc'), !buf_at_upd_same, F3, F4, F6.
    split_and!; try done. split; rewrite ?buf_at_upd_same; [done..|lia].
  - destruct Hroom as [|Hroom]; [done|]. destruct (bo_lru _ Hok) as [l Hl].
    destruct (room_find s l Hl Hroom) as [i Hfi].
    pose proof Hfi as [Hi Hfr]%find_elem. rewrite elem_of_reverse, (lru_in _ _ _ Hl) in Hi.
    apply Z.eqb_eq in Hfr.
    pose proof (bget_miss c s Hcpu Hok x l i Hf Hl Hfi) as Hg. rewrite !upd2 in Hg.
    apply bread_eq in Hg; [|done]. simpl in Hg. eexists i, _. split; [exact Hg|]. clear Hg.
    set (f := fun b => _).
    destruct (only_recycle s x i f Hok Hi Hfr Hf) as [Hon Hc']; [done..|]. pose proof (on_ok _ _ _ Hon) as Hok'.
    rewrite (view_cached _ x i Hok' Hc'), (refs_cached _ x i Hok' Hc'), !buf_at_upd_same, (refs_miss x Hf), (view_miss x Hf).
    split_and!; try done. split; rewrite ?buf_at_upd_same; done.
Qed.

(** Writing the data of a held buffer, as memmove into bp->data does. *)
Lemma set_data_spec x i d : holds c s x i ->
  let s' := upd_buf i (set_data d) s in
  holds c s' x i /\ only x s s' /\ view s' x = d /\ refs s' x = refs s x /\ dsk s' = dsk s.
Proof.
  intros [Hc Hv Hl Hr] s'. destruct (only_upd s x i (set_data d) Hok Hc) as [Hon Hc']; [done..|].
  pose proof (on_ok _ _ _ Hon) as Hok'. fold s' in Hon, Hc', Hok'.
  assert (buf_at s' i = set_data d (buf_at s i)) as E by apply buf_at_upd_same.
  rewrite (view_cached _ x i Hok' Hc'), (refs_cached _ x i Hok' Hc'), (refs_cached s x i), E by done.
  simpl. rewrite Hv. split_and!; try done. split; rewrite ?E; done.
Qed.

Definition wrote (x : Z) (s : bio) : bio := Bio (bufs s) ((x, view s x) :: dsk s).

Lemma bwrite_spec x i : holds c s x i ->
  bwrite i c s = Done tt c (wrote x s) /\ holds c (wrote x s) x i /\ only x s (wrote x s) /\
  view (wrote x s) x = view s x /\ refs (wrote x s) x = refs s x.
Proof.
  intros Hh. pose proof Hh as [Hc Hv Hl Hr]. pose proof Hc as (Hi & Hd & Hb).
  pose proof (view_held c s x i Hok Hh) as Ev. split.
  { unfold bwrite. destruct Hcpu as [Hp Hbc Hbu].
    kstep (holdingsleep_eq (L_buf i) (blk i) c Hp (Hbu i Hi) s). simpl. rewrite Hl. simpl.
    rewrite Z.eqb_refl. krun. rewrite rw_write, Hb, <- Ev. done. }
  assert (forall j, buf_at (wrote x s) j = buf_at s j) as E by done.
  assert (forall y j, cached (wrote x s) y j <-> cached s y j) as Hcc by done.
  assert (forall y, y <> x -> dget (dsk (wrote x s)) y = dget (dsk s) y) as Hdsk.
  { intros y Hy. simpl. by rewrite (proj2 (Z.eqb_neq x y)) by congruence. }
  assert (exists l, lru (wrote x s) l) as Hlru.
  { destruct (bo_lru _ Hok) as [l H]. exists l. by apply (lru_ext s). }
  assert (bc_ok (wrote x s)) as Hok'.
  { eapply (update_ok s _ i x); rewrite ?E; done || lia. }
  assert (only x s (wrote x s)) as Hon.
  { split; [done| |].
    - eapply (update_same s _ i x); rewrite ?E; done || lia.
    - intros y j _ _ Hj. done. }
  rewrite (refs_cached _ x i Hok'), (refs_cached s x i Hok), (view_cached _ x i Hok'), Ev by done.
  rewrite !E, Hv. split_and!; try done.
Qed.

Lemma refcnt_upd_spec x i d : cached s x i -> 0 < refs s x -> 0 < refs s x + d < 2 ^ 32 ->
  let s' := upd_buf i (fun b => set_refcnt (u32 (b_refcnt b + d)) b) s in
  only x s s' /\ view s' x = view s x /\ refs s' x = refs s x + d /\ dsk s' = dsk s /\
  (holds c s x i -> holds c s' x i).
Proof.
  intros Hc H0 Hd s'. rewrite (refs_cached s x i) in * by done.
  assert (u32 (b_refcnt (buf_at s i) + d) = b_refcnt (buf_at s i) + d) as Eu by (apply u_small; lia).
  destruct (only_upd s x i (fun b => set_refcnt (u32 (b_refcnt b + d)) b) Hok Hc) as [Hon Hc'];
    [done|done|simpl; lia|]. fold s' in Hon, Hc'. pose proof (on_ok _ _ _ Hon) as Hok'.
  assert (buf_at s' i = set_refcnt (b_refcnt (buf_at s i) + d) (buf_at s i)) as E.
  { unfold s'. rewrite buf_at_upd_same. by rewrite Eu. }
  rewrite (view_cached _ x i Hok' Hc'), (refs_cached _ x i Hok' Hc'), (view_cached s x i), E by done.
  simpl. split_and!; try done. intros [_ Hv Hl Hr]. split; rewrite ?E; simpl; done || lia.
Qed.

Lemma bpin_eq i : bpin i c s = Done tt c (upd_buf i (fun b => set_refcnt (u32 (b_refcnt b + 1)) b) s).
Proof.
  destruct Hcpu as [Hp Hbc Hbu]. unfold bpin, ub. kstep (acquire_eq L_bcache c s Hbc). krun.
  exact (release_eq L_bcache c _ Hp Hbc).
Qed.
Lemma bunpin_eq i : bunpin i c s = Done tt c (upd_buf i (fun b => set_refcnt (u32 (b_refcnt b + -1)) b) s).
Proof.
  destruct Hcpu as [Hp Hbc Hbu]. unfold bunpin, ub. kstep (acquire_eq L_bcache c s Hbc). krun.
  exact (release_eq L_bcache c _ Hp Hbc).
Qed.
End Spec.

(** ** brelse *)

Lemma core_links i f s j : (forall b, core (f b) = core b) ->
  core (buf_at (upd_buf i f s) j) = core (buf_at s j).
Proof. intros H. rewrite buf_at_upd. destruct (Z.eqb_spec i j) as [->|]; [apply H|done]. Qed.

Lemma core_move_front b s j : core (buf_at (move_front b s) j) = core (buf_at s j).
Proof. unfold move_front. rewrite !core_links by done. done. Qed.

Lemma dsk_move_front b s : dsk (move_front b s) = dsk s.
Proof. done. Qed.

(** The state brelse leaves: one reference less, and the buffer at the front
    of the list when that was the last one. *)
Definition released (i : Z) (s : bio) : bio :=
  let s1 := upd_buf i (fun b => set_refcnt (u32 (b_refcnt b - 1)) (set_lock (Sleeplock 0 0) b)) s in
  if b_refcnt (buf_at s1 i) =? 0 then move_front i s1 else s1.

Lemma brelse_eq c s x i : bio_cpu c -> holds c s x i ->
  brelse i c s = Done tt (set_evs (Wakeup (C_sleeplock (L_buf i)) :: evs c) c) (released i s).
Proof.
  intros Hcpu [(Hi & _ & _) _ Hl _].
  pose proof (bio_cpu_evs (Wakeup (C_sleeplock (L_buf i)) :: evs c) c Hcpu) as Hcpu'.
  destruct Hcpu as [Hp Hbc Hbu]. unfold brelse.
  kstep (holdingsleep_eq (L_buf i) (blk i) c Hp (Hbu i Hi) s). simpl. rewrite Hl. simpl.
  rewrite Z.eqb_refl. krun. rewrite (releasesleep_eq (L_buf i) (blk i) c Hp (Hbu i Hi)). cbv beta iota.
  set (c' := set_evs _ c) in *. destruct Hcpu' as [Hp' Hbc' Hbu'].
  rewrite (acquire_eq L_bcache c' _ Hbc'). unfold ub, gb. cbv beta iota delta [modify gets].
  cbn [blk aset]. rewrite upd2. unfold released. cbv zeta.
  destruct (b_refcnt _ =? 0); krun; exact (release_eq L_bcache c' _ Hp' Hbc').
Qed.

Lemma released_core i s j : core (buf_at (released i s) j) =
  core (if i =? j then set_refcnt (u32 (b_refcnt (buf_at s i) - 1)) (set_lock (Sleeplock 0 0) (buf_at s i))
        else buf_at s j).
Proof.
  unfold released. cbv zeta. destruct (b_refcnt _ =? 0); rewrite ?core_move_front, buf_at_upd; by destruct (i =? j).
Qed.

(** With the last reference gone the buffer becomes the most recently used. *)
Lemma released_lru i s l1 l2 : lru s (l1 ++ i :: l2) -> 0 < b_refcnt (buf_at s i) < 2 ^ 32 ->
  lru (released i s) (if b_refcnt (buf_at s i) =? 1 then i :: l1 ++ l2 else l1 ++ i :: l2).
Proof.
  intros Hl Hr. unfold released. cbv zeta. rewrite buf_at_upd_same. simpl.
  rewrite u_small by lia. destruct (Z.eqb_spec (b_refcnt (buf_at s i)) 1) as [E|E].
  - rewrite E. simpl. apply lru_move_front. by apply lru_upd.
  - rewrite (proj2 (Z.eqb_neq _ 0)) by lia. by apply lru_upd.
Qed.

Lemma brelse_spec c s x i : bio_cpu c -> bc_ok s -> holds c s x i -> refs s x < 2 ^ 32 ->
  (refs s x = 1 -> view s x = dget (dsk s) x) ->
  brelse i c s = Done tt (set_evs (Wakeup (C_sleeplock (L_buf i)) :: evs c) c) (released i s) /\
  only x s (released i s) /\ view (released i s) x = view s x /\
  refs (released i s) x = refs s x - 1 /\ dsk (released i s) = dsk s /\
  blocked (released i s) x = Sleeplock 0 0.
Proof.
  intros Hcpu Hok Hh Hlt Hcl. pose proof Hh as [Hc Hv Hl Hr]. pose proof Hc as (Hi & Hd & Hb).
  split; [by eapply brelse_eq|]. rewrite (view_held c s x i Hok Hh) in Hcl |- *.
  rewrite (refs_cached s x i Hok Hc) in *.
  pose proof (released_core i s i) as Ei. rewrite Z.eqb_refl in Ei.
  apply core_inj in Ei as (E1 & E2 & E3 & E4 & E5 & E6). simpl in *. rewrite u_small in E5 by lia.
  assert (others_same i s (released i s)) as Ho.
  { intros j _ Hj. by rewrite released_core, (proj2 (Z.eqb_neq i j)) by congruence. }
  assert (dsk (released i s) = dsk s) as Ed by (unfold released; cbv zeta; by destruct (_ =? 0)).
  assert (exists l, lru (released i s) l) as Hlru.
  { destruct (bo_lru _ Hok) as [l H]. pose proof Hi as Hin. apply (lru_in _ _ _ H) in Hin.
    apply list_elem_of_split in Hin as (l1 & l2 & ->). eexists. apply released_lru; [done|lia]. }
  assert (b_refcnt (buf_at (released i s) i) = 0 -> b_lock (buf_at (released i s) i) = Sleeplock 0 0 /\
    (b_valid (buf_at (released i s) i) = true -> b_data (buf_at (released i s) i) = dget (dsk (released i s)) x)) as Hfr.
  { rewrite E5, E6, Ed. intros. split; [done|]. intros _. apply Hcl. lia. }
  assert (forall y j, cached (released i s) y j <-> cached s y j) as Hcc
    by exact (update_cached s _ i Ho E2 E3).
  assert (bc_ok (released i s)) as Hok'.
  { eapply (update_ok s _ i x); try done; [by rewrite Ed|rewrite E5; lia]. }
  assert (cached (released i s) x i) as Hc' by by apply Hcc.
  rewrite (view_cached _ x i Hok' Hc'), (refs_cached _ x i Hok' Hc'), (blocked_cached _ x i Hok' Hc').
  rewrite E1, E4, E5, E6, Hv. split_and!; try done. split; [done| |].
  - eapply (update_same s _ i x); try done; [by rewrite Ed|rewrite E5; lia].
  - intros y j Hy _ Hj. split; [by apply Hcc|]. apply Ho; [apply Hj|]. intros ->.
    apply Hy. destruct Hj as (_ & _ & <-). done.
Qed.

(** ** binit *)

(** One round of binit's loop on the links. *)
Lemma binit_link s i l : i <> HEAD -> (i ∉ l) -> NoDup (HEAD :: l) ->
  linked (nx s) (pv s) (HEAD :: l ++ [HEAD]) ->
  let s1 := upd_buf i (set_prev HEAD) (upd_buf i (set_next (b_next (buf_at s HEAD))) s) in
  let s2 := upd_buf i (set_lock (Sleeplock 0 0)) s1 in
  let s3 := upd_buf (b_next (buf_at s2 HEAD)) (set_prev i) s2 in
  linked (nx (upd_buf HEAD (set_next i) s3)) (pv (upd_buf HEAD (set_next i) s3)) (HEAD :: (i :: l) ++ [HEAD]).
Proof.
  intros Hi Hil [Hh Hnd]%NoDup_cons HL s1 s2 s3.
  destruct (snoc_cons l HEAD) as (f & ys & EF). rewrite <- app_comm_cons, EF in *.
  assert (nx s HEAD = f) as Ef by by destruct HL.
  assert (forall j, nx s2 j = fupd (nx s) i f j) as N2.
  { intros j. unfold s2, nx. rewrite buf_at_upd. unfold s1.
    change (b_next (buf_at s HEAD)) with (nx s HEAD). rewrite Ef.
    assert (nx (upd_buf i (set_prev HEAD) (upd_buf i (set_next f) s)) j = fupd (nx s) i f j) as E
      by by rewrite nx_set_prev, nx_set_next.
    unfold nx in E at 1. destruct (Z.eqb_spec i j) as [->|]; exact E. }
  assert (forall j, pv s2 j = fupd (pv s) i HEAD j) as P2.
  { intros j. unfold s2, pv. rewrite buf_at_upd. unfold s1.
    assert (pv (upd_buf i (set_prev HEAD) (upd_buf i (set_next (b_next (buf_at s HEAD))) s)) j
      = fupd (pv s) i HEAD j) as E.
    { rewrite pv_set_prev. unfold fupd. by rewrite pv_set_next. }
    unfold pv in E at 1. destruct (Z.eqb_spec i j) as [->|]; exact E. }
  assert (b_next (buf_at s2 HEAD) = f) as Ef2.
  { change (nx s2 HEAD = f). rewrite N2. unfold fupd. by rewrite (proj2 (Z.eqb_neq HEAD i)) by congruence. }
  unfold s3. rewrite Ef2.
  assert (NoDup (f :: ys)) as HN.
  { rewrite <- EF, NoDup_app. split_and!; [done| |apply NoDup_singleton]. intros y Hy ->%list_elem_of_singleton. done. }
  eapply linked_ext; [|apply (linked_insert (nx s) (pv s) HEAD i f ys HL)].
  - intros j _. split.
    + rewrite nx_set_next. pose proof (N2 j) as E. unfold fupd in *. by rewrite nx_set_prev, E.
    + rewrite pv_set_next, pv_set_prev. pose proof (P2 j) as E. unfold fupd in *. by rewrite E.
  - done.
  - rewrite <- EF. intros [?|?%list_elem_of_singleton]%elem_of_app; done.
  - rewrite (removelast_snoc_eq f ys l HEAD) by done. done.
  - by apply NoDup_cons in HN as [? _].
Qed.

(** A cache that holds nothing: as in the zeroed static data, up to links. *)
Definition blank (s : bio) : Prop := forall j, core (buf_at s j) = core buf0.

Lemma blank_links i f s : (forall b, core (f b) = core b) -> blank s -> blank (upd_buf i f s).
Proof. intros H Hb j. by rewrite core_links. Qed.

Lemma set_lock_blank s i : blank s -> core (set_lock (Sleeplock 0 0) (buf_at s i)) = core (buf_at s i).
Proof. intros H. destruct (core_inj _ _ (H i)) as (_ & _ & _ & E & _). unfold core. simpl. by rewrite E. Qed.

Lemma blank_round s i : blank s ->
  let s1 := upd_buf i (set_prev HEAD) (upd_buf i (set_next (b_next (buf_at s HEAD))) s) in
  let s2 := upd_buf i (set_lock (Sleeplock 0 0)) s1 in
  let s3 := upd_buf (b_next (buf_at s2 HEAD)) (set_prev i) s2 in
  blank (upd_buf HEAD (set_next i) s3).
Proof.
  intros Hb s1 s2 s3. assert (blank s1) as H1 by by repeat apply blank_links.
  assert (blank s2) as H2.
  { intros j. unfold s2. rewrite buf_at_upd. destruct (Z.eqb_spec i j) as [->|]; [|done].
    by rewrite (set_lock_blank s1 j H1). }
  apply blank_links; [done|]. by apply blank_links.
Qed.

Definition initlocks (ls : list (lockid * string)) (c : ctx) : ctx :=
  set_locks (foldl (fun m p => <[p.1 := Spinlock 0 p.2 None]> m) (locks c) ls) c.

Lemma binit_loop_spec n : forall i c s l,
  l ≡ₚ seqZ 0 i -> 0 <= i -> i + Z.of_nat n <= NBUF ->
  linked (nx s) (pv s) (HEAD :: l ++ [HEAD]) -> blank s ->
  exists s' l', binit_loop n i c s =
      Done tt (initlocks ((fun j => (L_buf j, "sleep lock"%string)) <$> seqZ i (Z.of_nat n)) c) s' /\
    l' ≡ₚ seqZ 0 (i + Z.of_nat n) /\
    linked (nx s') (pv s') (HEAD :: l' ++ [HEAD]) /\ blank s' /\ dsk s' = dsk s.
Proof.
  induction n as [|n IH]; intros i c s l Hl Hi Hn HL Hb.
  - exists s, l. rewrite Z.add_0_r. split_and!; try done. simpl. by destruct c.
  - assert (forall j, j ∈ l -> 0 <= j < i) as Hin.
    { intros j. rewrite Hl, elem_of_seqZ. lia. }
    assert (i ∉ l) as Hil by (intros ?%Hin; lia).
    assert (NoDup (HEAD :: l)) as Hnd.
    { apply NoDup_cons. split; [intros ?%Hin; unfold HEAD in *; lia|]. rewrite Hl. apply NoDup_seqZ. }
    pose proof (binit_link s i l ltac:(unfold HEAD; lia) Hil Hnd HL) as HL'.
    pose proof (blank_round s i Hb) as Hb'. cbv zeta in HL', Hb'.
    set (s4 := upd_buf HEAD (set_next i) _) in *.
    destruct (IH (i + 1) (initlocks [(L_buf i, "sleep lock"%string)] c) s4 (i :: l))
      as (s' & l' & E & Hl' & HLl & Hbl & Ed); [|lia|lia|done|done|].
    { rewrite Hl, Permutation_cons_append. rewrite seqZ_app by lia. done. }
    exists s', l'. split_and!; [|by rewrite Hl'; f_equiv; lia|done|done|exact Ed].
    cbn [binit_loop]. unfold gb, ub, initsleeplock, initlock, lk_set. krun. cbn [blk aset].
    rewrite Nat2Z.inj_succ, seqZ_cons by lia. rewrite Z.pred_succ.
    etransitivity; [|exact E]. done.
Qed.

Definition bio_locks : list (lockid * string) :=
  (L_bcache, "bcache"%string) :: ((fun j => (L_buf j, "sleep lock"%string)) <$> seqZ 0 NBUF).

Lemma initlocks_unlocked (ls : list (lockid * string)) : forall (m : gmap lockid spinlock) l, l ∈ (fst <$> ls) ->
  exists name, foldl (fun m p => <[p.1 := Spinlock 0 p.2 None]> m) m ls !! l = Some (Spinlock 0 name None).
Proof.
  induction ls as [|[l' nm] ls IH] using rev_ind; intros m l; [by intros ?%elem_of_nil|].
  rewrite fmap_app, foldl_app. simpl. intros Hl. rewrite lookup_insert.
  destruct (decide (l' = l)) as [->|Hne]; [by exists nm|].
  apply IH. apply elem_of_app in Hl as [|Hl]; [done|]. by apply list_elem_of_singleton in Hl.
Qed.

Lemma bio_cpu_init c : cpu_ok c -> bio_cpu (initlocks bio_locks c).
Proof.
  intros [H1 H2 H3]. split; [by split| |].
  - apply initlocks_unlocked. by left.
  - intros i Hi. apply initlocks_unlocked. unfold bio_locks. rewrite fmap_cons. right.
    rewrite <- list_fmap_compose. apply list_elem_of_fmap. exists i. split; [done|].
    by apply seqZ_range.
Qed.

Lemma blank_ok s l : lru s l -> blank s -> bc_ok s.
Proof.
  intros Hl Hb. split; [by exists l| | | |].
  - intros i j x (_ & E & _). destruct (core_inj _ _ (Hb i)) as (_ & E' & _). by rewrite E' in E.
  - intros i _ _. destruct (core_inj _ _ (Hb i)) as (-> & _ & _ & -> & _). done.
  - intros i _. destruct (core_inj _ _ (Hb i)) as (_ & _ & _ & _ & -> & _). done.
  - intros i _. destruct (core_inj _ _ (Hb i)) as (-> & _ & _ & _ & -> & _). intros [?|?]; done.
Qed.

Lemma blank_find s x : blank s -> find_buf s x = None.
Proof.
  intros Hb. apply find_buf_none. intros i (_ & E & _).
  destruct (core_inj _ _ (Hb i)) as (_ & E' & _). by rewrite E' in E.
Qed.

Lemma blank_use s x : blank s ->
  refs s x = 0 /\ blocked s x = Sleeplock 0 0 /\ view s x = dget (dsk s) x.
Proof. intros H%(blank_find s x). unfold refs, blocked, view. by rewrite H. Qed.

Lemma binit_spec c d : exists s', binit c (Bio ∅ d) = Done tt (initlocks bio_locks c) s' /\
  bc_ok s' /\ blank s' /\ dsk s' = d.
Proof.
  set (s1 := upd_buf HEAD (set_next HEAD) (upd_buf HEAD (set_prev HEAD) (Bio ∅ d))).
  assert (blank s1) as Hb.
  { repeat (apply blank_links; [done|]). intros j. unfold buf_at. simpl. by rewrite lookup_empty. }
  destruct (binit_loop_spec (Z.to_nat NBUF) 0 (initlocks [(L_bcache, "bcache"%string)] c) s1 [])
    as (s' & l' & E & Hl' & HL & Hb' & Ed); [done|lia|done|done|done|].
  exists s'. split_and!; [|apply (blank_ok s' l'); [by split|done]|done|by rewrite Ed].
  unfold binit, initlock, lk_set, ub. krun. fold s1. etransitivity; [exact E|]. done.
Qed.

(** ** Properties *)

(** C19: bget hands out the buffer that already caches the block, else the least
    recently used one among those nobody refers to (the last free one of the
    list from most to least recent use), and panics exactly when every buffer
    is referenced; brelse drops a reference, makes the buffer whose last one it
    drops the most recently used one, and otherwise leaves the order alone. *)
Theorem bget_recycles_least_recent c s x l :
  bio_cpu c -> bc_ok s -> lru s l ->
  (sl_locked (blocked s x) = 0 ->
   match find_buf s x, List.find (is_free s) (reverse l) with
   | Some i, _ => exists s', bget ROOTDEV x c s = Done i c s' /\ lru s' l
   | None, Some i => b_refcnt (buf_at s i) = 0 /\
       exists s', bget ROOTDEV x c s = Done i c s' /\ lru s' l /\ cached s' x i /\
         forall y, y <> x -> view s' y = view s y
   | None, None => (forall i, 0 <= i < NBUF -> b_refcnt (buf_at s i) <> 0) /\
       bget ROOTDEV x c s = Panic "bget: no buffers"
   end) /\
  (forall i l1 l2, l = l1 ++ i :: l2 -> holds c s x i -> b_refcnt (buf_at s i) < 2 ^ 32 ->
     exists c' s', brelse i c s = Done tt c' s' /\ b_refcnt (buf_at s' i) = b_refcnt (buf_at s i) - 1 /\
       lru s' (if b_refcnt (buf_at s i) =? 1 then i :: l1 ++ l2 else l)).
Proof.
  intros Hcpu Hok Hl. split.
  - intros Hlk. destruct (find_buf s x) as [i|] eqn:Hf.
    + pose proof Hf as Hc%find_buf_some; [|done]. rewrite (blocked_cached s x i) in Hlk by done.
      rewrite (bget_hit c s Hcpu Hok x i Hf Hlk). eexists. split; [done|]. auto with xv6.
    + destruct (List.find _ _) as [i|] eqn:Hfi.
      * pose proof Hfi as [Hi Hfr]%find_elem. rewrite elem_of_reverse, (lru_in _ _ _ Hl) in Hi.
        apply Z.eqb_eq in Hfr. split; [done|].
        rewrite (bget_miss c s Hcpu Hok x l i Hf Hl Hfi). eexists. split; [done|].
        split; [auto 10 with xv6|]. rewrite !upd2.
        edestruct only_recycle as [Hon Hc]; [exact Hok|exact Hi|exact Hfr|exact Hf| | | | |].
        5:{ split; [exact Hc|]. intros y Hy. by destruct (on_same _ _ _ Hon y Hy). }
        all: done.
      * assert (~ room s) as Hr.
        { intros Hr. destruct (room_find s l Hl Hr) as [j Hj]. congruence. }
        split; [|by apply bget_full]. intros i Hi E. apply Hr. by exists i.
  - intros i l1 l2 -> Hh Hlt. pose proof (h_ref _ _ _ _ Hh) as Hpos. eexists _, _. split; [by eapply brelse_eq|].
    split; [|apply released_lru; [exact Hl|lia]].
    pose proof (released_core i s i) as E. rewrite Z.eqb_refl in E. apply core_inj in E as (_ & _ & _ & _ & -> & _).
    simpl. apply u_small. lia.
Qed.

(** C18: the buffer cache presents the disk as a map of blocks: a block that is
    read has the contents last written to it, whatever was evicted in between,
    and reading changes no other block; data written to a held buffer with
    bwrite is on the disk, and is what the next reader sees after brelse. *)
Theorem bcache_write_then_read {D : DiskDriver} {DOK : DiskDriverOk D} c s x d :
  bio_cpu c -> bc_ok s -> room s -> refs s x = 0 ->
  exists i s1 c2 s2 j s3,
    bread ROOTDEV x c s = Done i c s1 /\ b_data (buf_at s1 i) = view s x /\
    (bwrite i;; brelse i) c (upd_buf i (set_data d) s1) = Done tt c2 s2 /\
    dget (dsk s2) x = d /\ view s2 x = d /\ (forall y, y <> x -> view s2 y = view s y) /\
    bread ROOTDEV x c2 s2 = Done j c2 s3 /\ b_data (buf_at s3 j) = d.
Proof.
  intros Hcpu Hok Hroom Hr0.
  assert (sl_locked (blocked s x) = 0) as Hlk.
  { unfold blocked, refs in *. destruct (find_buf s x) as [i|] eqn:E; [|done].
    apply find_buf_some in E; [|done]. by destruct (bo_free _ Hok i (proj1 E) Hr0) as [-> _]. }
  destruct (bread_spec c s Hcpu Hok x Hlk (or_intror Hroom)) as (i & s1 & E1 & Hh1 & On1 & V1 & R1 & D1); [lia|].
  pose proof (on_ok _ _ _ On1) as Hok1.
  destruct (set_data_spec c s1 Hok1 x i d Hh1) as (Hh2 & On2 & V2 & R2 & D2).
  set (t := upd_buf i (set_data d) s1) in *. pose proof (on_ok _ _ _ On2) as Hok2.
  destruct (bwrite_spec c t Hcpu Hok2 x i Hh2) as (E3 & Hh3 & On3 & V3 & R3).
  pose proof (on_ok _ _ _ On3) as Hok3.
  destruct (brelse_spec c (wrote x t) x i Hcpu Hok3 Hh3) as (E4 & On4 & V4 & R4 & D4 & L4); [lia| |].
  { intros _. simpl. by rewrite Z.eqb_refl, V3. }
  set (c2 := set_evs _ c) in *. set (s2 := released i _) in *.
  pose proof (on_ok _ _ _ On4) as Hok4.
  assert (cached s2 x i) as Hc2.
  { pose proof (released_core i (wrote x t) i) as E. rewrite Z.eqb_refl in E.
    apply core_inj in E as (_ & F1 & F2 & _). destruct (h_cached _ _ _ _ Hh3) as (? & ? & ?).
    unfold cached, s2. rewrite F1, F2. done. }
  destruct (bread_spec c2 s2 (bio_cpu_evs _ _ Hcpu) Hok4 x) as (j & s3 & E5 & Hh5 & On5 & V5 & R5 & D5).
  { by rewrite L4. } { left. by rewrite (proj2 (find_buf_some s2 x i Hok4) Hc2). } { lia. }
  exists i, s1, c2, s2, j, s3. split; [done|]. split; [by rewrite <- V1, (view_held c s1 x i)|].
  split; [exact (eq_trans (bind_done _ _ _ _ _ _ _ E3) E4)|].
  split; [rewrite D4; simpl; by rewrite Z.eqb_refl|]. split; [by rewrite V4, V3|].
  split.
  { intros y Hy. destruct (on_same _ _ _ On4 y Hy) as [-> _], (on_same _ _ _ On3 y Hy) as [-> _],
      (on_same _ _ _ On2 y Hy) as [-> _], (on_same _ _ _ On1 y Hy) as [-> _]. done. }
  split; [done|]. by rewrite <- (view_held c2 s3 x j (on_ok _ _ _ On5) Hh5), V5, V4, V3.
Qed.

(** ** A concrete cache *)

(** A disk that moves blocks at once. *)
Definition ram_disk : DiskDriver := {|
  virtio_disk_rw b write :=
    if write : bool
    then modify (fun s => Bio (bufs s) ((b_blockno (buf_at s b), b_data (buf_at s b)) :: dsk s))
    else modify (fun s => upd_buf b (set_data (dget (dsk s) (b_blockno (buf_at s b)))) s)
|}.
Lemma ram_disk_ok : DiskDriverOk ram_disk.
Proof. by split. Qed.

Definition boot_ctx : ctx := initlocks bio_locks ctx0.
Definition boot_bio : bio :=
  match binit ctx0 (Bio ∅ []) with Done _ _ s => s | _ => Bio ∅ [] end.

Lemma boot_bio_eq : binit ctx0 (Bio ∅ []) = Done tt boot_ctx boot_bio /\ bc_ok boot_bio /\
  blank boot_bio /\ dsk boot_bio = [].
Proof.
  unfold boot_bio. destruct (binit_spec ctx0 []) as (s' & -> & Hok & Hb & Hd). done.
Qed.
Lemma boot_cpu : bio_cpu boot_ctx.
Proof. apply bio_cpu_init, ctx0_ok. Qed.

Lemma boot_room : room boot_bio.
Proof.
  exists 0. split; [done|]. destruct boot_bio_eq as (_ & _ & Hb & _).
  by destruct (core_inj _ _ (Hb 0)) as (_ & _ & _ & _ & -> & _).
Qed.

Lemma boot_lru : lru boot_bio (reverse (seqZ 0 NBUF)).
Proof.
  split; [|by rewrite reverse_Permutation].
  vm_compute. repeat (split; [reflexivity|]). exact I.
Qed.

Lemma bget_recycles_least_recent_witness :
  (exists s', bget ROOTDEV 7 boot_ctx boot_bio = Done 0 boot_ctx s' /\ cached s' 7 0) /\
  (exists i s l1 l2 c' s', @bread ram_disk ROOTDEV 7 boot_ctx boot_bio = Done i boot_ctx s /\ lru s (l1 ++ i :: l2) /\
     brelse i boot_ctx s = Done tt c' s' /\ lru s' (i :: l1 ++ l2)).
Proof.
  assert (find_buf boot_bio 7 = None) as E
    by exact (blank_find boot_bio 7 (proj1 (proj2 (proj2 boot_bio_eq)))).
  assert (sl_locked (blocked boot_bio 7) = 0) as Hlk by (unfold blocked; rewrite E; reflexivity).
  split.
  - destruct (bget_recycles_least_recent boot_ctx boot_bio 7 (reverse (seqZ 0 NBUF))
      boot_cpu (proj1 (proj2 boot_bio_eq)) boot_lru) as [H _]. specialize (H Hlk). rewrite E in H.
    assert (List.find (is_free boot_bio) (reverse (reverse (seqZ 0 NBUF))) = Some 0) as E2
      by (vm_compute; reflexivity).
    rewrite E2 in H. destruct H as (_ & s' & H1 & _ & H2 & _). exists s'. exact (conj H1 H2).
  - destruct (@bread_spec ram_disk ram_disk_ok boot_ctx boot_bio boot_cpu (proj1 (proj2 boot_bio_eq)) 7 Hlk (or_intror boot_room))
      as (i & s & E1 & Hh & On & _ & R & _); [unfold refs; rewrite E; reflexivity|].
    assert (refs boot_bio 7 = 0) as R0 by (unfold refs; rewrite E; reflexivity). rewrite R0 in R.
    rewrite (refs_cached s 7 i (on_ok _ _ _ On) (h_cached _ _ _ _ Hh)) in R.
    destruct (bo_lru _ (on_ok _ _ _ On)) as [l Hl].
    destruct (list_elem_of_split l i (proj2 (lru_in _ _ i Hl) (proj1 (h_cached _ _ _ _ Hh)))) as (l1 & l2 & ->).
    destruct (bget_recycles_least_recent boot_ctx s 7 (l1 ++ i :: l2) boot_cpu (on_ok _ _ _ On) Hl) as [_ H].
    destruct (H i l1 l2 eq_refl Hh) as (c' & s' & E2 & _ & L); [rewrite R; reflexivity|]. rewrite R in L.
    exists i, s, l1, l2, c', s'. exact (conj E1 (conj Hl (conj E2 L))).
Defined.

Lemma bcache_write_then_read_witness :
  exists i s1 c2 s2,
    @bread ram_disk ROOTDEV 7 boot_ctx boot_bio = Done i boot_ctx s1 /\
    (@bwrite ram_disk i;; brelse i) boot_ctx (upd_buf i (set_data [1; 2; 3]) s1) = Done tt c2 s2 /\
    dget (dsk s2) 7 = [1; 2; 3].
Proof.
  destruct (@bcache_write_then_read ram_disk ram_disk_ok boot_ctx boot_bio 7 [1; 2; 3]
    boot_cpu (proj1 (proj2 boot_bio_eq)) boot_room) as (i & s1 & c2 & s2 & j & s3 & H1 & _ & H2 & H3 & _).
  - unfold refs. rewrite (blank_find boot_bio 7 (proj1 (proj2 (proj2 boot_bio_eq)))). reflexivity.
  - exists i, s1, c2, s2. exact (conj H1 (conj H2 H3)).
Defined.
