(* ===== verification/Printf.v ===== *)
(** * Console output (kernel/printf.c, and the output paths of uart.c, console.c)

    Characters leave the kernel as writes to the UART's transmit register, the
    [Putc] events of the context.  [panicking] is the flag of printf.c: while it
    is set, output takes no locks. *)
From stdpp Require Import base numbers list gmap strings.
From Stdlib Require Import Ascii.
From S2P Require Import Prelude Kernel Spinlock.

Definition BACKSPACE : Z := 256.

(** Variable arguments: an integer of any width, or a string ([None] is the
    null pointer). *)
Inductive varg := VInt (x : Z) | VStr (s : option (list Z)).
Definition va_int (ap : list varg) : Z :=
  match ap with VInt x :: _ => x | _ => 0 end.
Definition va_str (ap : list varg) : option (list Z) :=
  match ap with VStr s :: _ => s | _ => None end.

Definition digits : list Z := chars "0123456789abcdef".
Definition digit (d : Z) : Z := nth (Z.to_nat d) digits 0.

(** The do-while of printint: the digits of [x], least significant first. *)
Fixpoint printint_digits (fuel : nat) (x base : Z) : list Z :=
  match fuel with
  | O => []
  | S fuel =>
      digit (x mod base) ::
      (if x / base =? 0 then [] else printint_digits fuel (x / base) base)
  end.

(** buf[] of printint when the printing starts. *)
Definition printint_buf (xx base : Z) (sign : bool) : list Z :=
  let neg := sign && (xx <? 0) in
  let x := if neg then u64 (- xx) else u64 xx in
  printint_digits 64 x base ++ (if neg then [chr "-"] else []).

Section Printf.
Context {S : Type}.
Variable panicking : bool.

Definition uartputc_sync (c : Z) : K S unit :=
  kwhen (negb panicking) push_off;;
  emit (Putc (u8 c));;
  kwhen (negb panicking) pop_off.

Definition consputc (c : Z) : K S unit :=
  if c =? BACKSPACE then
    uartputc_sync 8;; uartputc_sync (chr " ");; uartputc_sync 8
  else uartputc_sync c.

Fixpoint consputs (cs : list Z) : K S unit :=
  match cs with
  | [] => mret tt
  | c :: cs => consputc c;; consputs cs
  end.

(** while(--i >= 0) consputc(buf[i]): the buffer backwards. *)
Definition printint (xx base : Z) (sign : bool) : K S unit :=
  consputs (reverse (printint_buf xx base sign)).

Fixpoint printptr_loop (n : nat) (x : Z) : K S unit :=
  match n with
  | O => mret tt
  | Datatypes.S n => consputc (digit (Z.shiftr x 60));; printptr_loop n (u64 (Z.shiftl x 4))
  end.
Definition printptr (x : Z) : K S unit :=
  consputc (chr "0");; consputc (chr "x");; printptr_loop 16 x.

(** The loop over the format; [fmt] is what is left of it, without its NUL. *)
Fixpoint printf_loop (fuel : nat) (fmt : list Z) (ap : list varg) : K S unit :=
  match fuel with
  | O => nofuel
  | Datatypes.S fuel =>
    match fmt with
    | [] => mret tt
    | cx :: fmt =>
      if negb (cx =? chr "%") then consputc cx;; printf_loop fuel fmt ap
      else
        let c0 := nth 0 fmt 0 in
        let c1 := if z2b c0 then nth 1 fmt 0 else 0 in
        let c2 := if z2b c1 then nth 2 fmt 0 else 0 in
        let next k := printf_loop fuel (drop k fmt) (tail ap) in
        if c0 =? chr "d" then
          printint (i32 (va_int ap)) 10 true;; next 1%nat
        else if (c0 =? chr "l") && (c1 =? chr "d") then
          printint (i64 (va_int ap)) 10 true;; next 2%nat
        else if (c0 =? chr "l") && (c1 =? chr "l") && (c2 =? chr "d") then
          printint (i64 (va_int ap)) 10 true;; next 3%nat
        else if c0 =? chr "u" then
          printint (u32 (va_int ap)) 10 false;; next 1%nat
        else if (c0 =? chr "l") && (c1 =? chr "u") then
          printint (i64 (va_int ap)) 10 false;; next 2%nat
        else if (c0 =? chr "l") && (c1 =? chr "l") && (c2 =? chr "u") then
          printint (i64 (va_int ap)) 10 false;; next 3%nat
        else if c0 =? chr "x" then
          printint (u32 (va_int ap)) 16 false;; next 1%nat
        else if (c0 =? chr "l") && (c1 =? chr "x") then
          printint (i64 (va_int ap)) 16 false;; next 2%nat
        else if (c0 =? chr "l") && (c1 =? chr "l") && (c2 =? chr "x") then
          printint (i64 (va_int ap)) 16 false;; next 3%nat
        else if c0 =? chr "p" then
          printptr (u64 (va_int ap));; next 1%nat
        else if c0 =? chr "c" then
          consputc (u32 (va_int ap));; next 1%nat
        else if c0 =? chr "s" then
          consputs (match va_str ap with None => chars "(null)" | Some s => s end);; next 1%nat
        else if c0 =? chr "%" then
          consputc (chr "%");; printf_loop fuel (drop 1 fmt) ap
        else if c0 =? 0 then mret tt
        else
          consputc (chr "%");; consputc c0;; printf_loop fuel (drop 1 fmt) ap
    end
  end.

Definition printf (fmt : list Z) (ap : list varg) : K S Z :=
  kwhen (negb panicking) (acquire L_pr);;
  printf_loop (Datatypes.S (length fmt)) fmt ap;;
  kwhen (negb panicking) (release L_pr);;
  mret 0.
End Printf.

Definition printfinit {S} : K S unit := initlock L_pr "pr".

(** What panic prints, with [panicking] set, before its endless loop. *)
Definition panic_report {S} (s : list Z) : K S unit :=
  _ ← printf true (chars "panic: ") [];
  _ ← printf true (chars "%s" ++ [10]) [VStr (Some s)];
  mret tt.

(** ** What is printed *)

(** The context after [out] has been sent. *)
Definition sent (out : list Z) (c : ctx) : ctx :=
  set_evs (reverse (Putc <$> out) ++ evs c) c.

Lemma sent_nil c : sent [] c = c.
Proof. by destruct c. Qed.
Lemma sent_sent o1 o2 c : sent o2 (sent o1 c) = sent (o1 ++ o2) c.
Proof. unfold sent. simpl. by rewrite fmap_app, reverse_app, <- app_assoc. Qed.
Lemma sent_ok out c : cpu_ok c -> cpu_ok (sent out c).
Proof. apply cpu_ok_evs. Qed.
Lemma sent_inside l out c : sent out (inside l c) = inside l (sent out c).
Proof. done. Qed.
#[export] Hint Resolve sent_ok : xv6.

(** The bytes consputc sends for a character. *)
Definition echo_of (c : Z) : list Z := if c =? BACKSPACE then [8; 32; 8] else [u8 c].

Section Out.
Context {S : Type} (panicking : bool).
Implicit Types (c : ctx) (s : S).

Lemma uartputc_sync_eq ch c s : cpu_ok c ->
  uartputc_sync panicking ch c s = Done tt (sent [u8 ch] c) s.
Proof.
  intros Hok. unfold uartputc_sync, kwhen. destruct panicking; simpl; [done|].
  kstep (push_off_eq c s). krun.
  exact (pop_off_pushed (sent [u8 ch] c) s (sent_ok _ _ Hok)).
Qed.

Lemma consputc_eq ch c s : cpu_ok c -> consputc panicking ch c s = Done tt (sent (echo_of ch) c) s.
Proof.
  intros Hok. unfold consputc, echo_of. destruct (ch =? BACKSPACE); [|by apply uartputc_sync_eq].
  kstep (uartputc_sync_eq 8 c s Hok). kstep (uartputc_sync_eq (chr " ") (sent [u8 8] c) s (sent_ok _ _ Hok)).
  rewrite uartputc_sync_eq by (by repeat apply sent_ok). by rewrite !sent_sent.
Qed.

Lemma consputs_eq cs : forall c s, cpu_ok c ->
  consputs panicking cs c s = Done tt (sent (cs ≫= echo_of) c) s.
Proof.
  induction cs as [|x cs IH]; intros c s Hok; [by rewrite sent_nil|]. cbn [consputs].
  kstep (consputc_eq x c s Hok). rewrite IH by auto with xv6. by rewrite sent_sent.
Qed.

Lemma printptr_loop_eq n : forall x c s, cpu_ok c -> exists out,
  printptr_loop panicking n x c s = Done tt (sent out c) s.
Proof.
  induction n as [|n IH]; intros x c s Hok; [exists []; by rewrite sent_nil|]. cbn [printptr_loop].
  kstep (consputc_eq (digit (Z.shiftr x 60)) c s Hok).
  destruct (IH (u64 (Z.shiftl x 4)) (sent (echo_of (digit (Z.shiftr x 60))) c) s) as [out ->]; [auto with xv6|].
  eexists. by rewrite sent_sent.
Qed.

(** Code that only prints. *)
Definition prints (m : K S unit) : Prop :=
  forall c s, cpu_ok c -> exists out, m c s = Done tt (sent out c) s.

Lemma prints_bind m k : prints m -> prints k -> prints (m;; k).
Proof.
  intros Hm Hk c s Hok. destruct (Hm c s Hok) as [o1 E1]. kstep E1.
  destruct (Hk (sent o1 c) s) as [o2 E2]; [auto with xv6|]. exists (o1 ++ o2).
  by rewrite E2, sent_sent.
Qed.
Lemma prints_ret : prints (mret tt).
Proof. intros c s _. exists []. by rewrite sent_nil. Qed.
Lemma prints_putc ch : prints (consputc panicking ch).
Proof. intros c s Hok. eexists. by apply consputc_eq. Qed.
Lemma prints_puts cs : prints (consputs panicking cs).
Proof. intros c s Hok. eexists. by apply consputs_eq. Qed.
Lemma prints_int x b sg : prints (printint panicking x b sg).
Proof. apply prints_puts. Qed.
Lemma prints_ptr x : prints (printptr panicking x).
Proof.
  unfold printptr. apply prints_bind; [apply prints_putc|]. apply prints_bind; [apply prints_putc|].
  intros c s Hok. by apply printptr_loop_eq.
Qed.
Create HintDb prints.
Hint Resolve prints_bind prints_ret prints_putc prints_puts prints_int prints_ptr : prints.

Lemma printf_loop_prints fuel : forall fmt ap, (length fmt < fuel)%nat ->
  prints (printf_loop panicking fuel fmt ap).
Proof.
  induction fuel as [|fuel IH]; intros fmt ap Hf; [lia|]. cbn [printf_loop].
  destruct fmt as [|cx fmt]; [auto with prints|]. simpl in Hf.
  assert (forall k ap', prints (printf_loop panicking fuel (drop k fmt) ap')) as Hn.
  { intros k ap'. apply IH. rewrite length_drop. lia. }
  assert (prints (printf_loop panicking fuel fmt ap)) as Hr by (apply IH; lia).
  repeat case_match; auto with prints.
Qed.

(** printf prints and gives its lock back. *)
Lemma printf_prints fmt ap c s : cpu_ok c -> unlocked L_pr c ->
  exists out, printf panicking fmt ap c s = Done 0 (sent out c) s.
Proof.
  intros Hok Hul. unfold printf.
  assert (prints (printf_loop panicking (Datatypes.S (length fmt)) fmt ap)) as Hp
    by (apply printf_loop_prints; lia).
  unfold kwhen. destruct panicking; cbn [negb].
  - destruct (Hp c s Hok) as [out E]. exists out. krun. by rewrite E.
  - kstep (acquire_eq L_pr c s Hul).
    destruct (Hp (inside L_pr c) s (cpu_ok_inside _ _ Hok)) as [out E]. exists out. kstep E.
    rewrite sent_inside. kstep (release_eq L_pr (sent out c) s (sent_ok out c Hok) Hul). done.
Qed.
End Out.

(** ** The digits *)

(** The number a digit string of [base] denotes, most significant first. *)
Definition digit_val (ch : Z) : Z := if ch <? 97 then ch - 48 else ch - 87.
Definition num_val (base : Z) (ds : list Z) : Z :=
  foldr (fun ch a => digit_val ch + base * a) 0 (reverse ds).

Lemma digit_val_digit d : 0 <= d < 16 -> digit_val (digit d) = d.
Proof.
  intros H. assert (d ∈ seqZ 0 16) as Hin by (apply elem_of_seqZ; lia).
  assert (Forall (fun d => digit_val (digit d) = d) (seqZ 0 16)) as F by (vm_compute; repeat constructor).
  by apply (proj1 (Forall_forall _ _) F).
Qed.

Lemma digit_zero d : 0 <= d < 16 -> digit d = 48 -> d = 0.
Proof. intros H E. pose proof (digit_val_digit d H) as E'. rewrite E in E'. done. Qed.

Section Digits.
Variables (base : Z).
Hypothesis (Hb : 2 <= base <= 16).

Lemma printint_digits_val fuel : forall x, 0 <= x < base ^ Z.of_nat fuel ->
  foldr (fun ch a => digit_val ch + base * a) 0 (printint_digits fuel x base) = x.
Proof.
  induction fuel as [|fuel IH]; intros x Hx; [simpl in *; lia|].
  rewrite Nat2Z.inj_succ, Z.pow_succ_r in Hx by lia. cbn [printint_digits foldr].
  pose proof (Z.mod_pos_bound x base ltac:(lia)) as Hm.
  rewrite digit_val_digit by lia. pose proof (Z.div_mod x base ltac:(lia)) as Hd.
  destruct (Z.eqb_spec (x / base) 0) as [E|E]; simpl; [lia|].
  rewrite IH; [lia|]. split; [apply Z.div_pos; lia|]. apply Z.div_lt_upper_bound; lia.
Qed.

Lemma printint_digits_len n : forall fuel x, 0 <= x < base ^ Z.of_nat n -> (0 < n)%nat ->
  (length (printint_digits fuel x base) <= n)%nat.
Proof.
  induction n as [|n IH]; intros fuel x Hx Hn; [lia|]. destruct fuel as [|fuel]; simpl; [lia|].
  destruct (Z.eqb_spec (x / base) 0) as [E|E]; simpl; [lia|].
  rewrite Nat2Z.inj_succ, Z.pow_succ_r in Hx by lia. destruct n as [|n].
  - simpl in Hx. rewrite Z.div_small in E by lia. done.
  - apply le_n_S, IH; [|lia]. split; [apply Z.div_pos; lia|]. apply Z.div_lt_upper_bound; lia.
Qed.

(** No leading zero: the last digit produced is 0 only for the number 0. *)
Lemma printint_digits_last fuel : forall x, 0 <= x -> (0 < fuel)%nat -> x < base ^ Z.of_nat fuel ->
  exists ds ch, printint_digits fuel x base = ds ++ [ch] /\ (ch = 48 -> x = 0 /\ ds = []).
Proof.
  induction fuel as [|fuel IH]; intros x Hx Hf Hlt; [lia|]. cbn [printint_digits].
  pose proof (Z.mod_pos_bound x base ltac:(lia)) as Hm. pose proof (Z.div_mod x base ltac:(lia)) as Hd.
  destruct (Z.eqb_spec (x / base) 0) as [E|E].
  - exists [], (digit (x mod base)). split; [done|]. intros H%digit_zero; [|lia]. split; [lia|done].
  - rewrite Nat2Z.inj_succ, Z.pow_succ_r in Hlt by lia.
    assert (0 <= x / base) by (apply Z.div_pos; lia).
    destruct fuel as [|fuel]; [simpl in Hlt; rewrite Z.div_small in E by lia; done|].
    destruct (IH (x / base)) as (ds & ch & -> & H0); [done|lia|apply Z.div_lt_upper_bound; lia|].
    exists (digit (x mod base) :: ds), ch. split; [done|]. intros [? _]%H0. done.
Qed.
End Digits.

Lemma echo_bytes cs : Forall is_byte cs -> cs ≫= echo_of = cs.
Proof.
  induction 1 as [|x cs Hx _ IH]; [done|]. rewrite bind_cons, IH. unfold echo_of, BACKSPACE, is_byte in *.
  rewrite (proj2 (Z.eqb_neq x 256)) by lia. simpl. by rewrite u_small.
Qed.

Lemma digits_bytes fuel base : forall x, Forall is_byte (printint_digits fuel x base).
Proof.
  assert (forall d, is_byte (digit d)) as Hd.
  { intros d. assert (Forall is_byte digits) as F by (repeat constructor; done).
    unfold digit. destruct (Nat.lt_ge_cases (Z.to_nat d) (length digits)) as [H|H].
    - by apply (proj1 (List.Forall_forall _ _) F), List.nth_In.
    - by rewrite List.nth_overflow. }
  induction fuel as [|fuel IH]; intros x; simpl; [done|]. constructor; [done|]. by destruct (_ =? 0).
Qed.

#[local] Opaque printint_digits.

(** Printint prints the number it is given: an optional minus sign and the
    digits of the absolute value in the base, without leading zeros, never more
    than the 20 bytes of its buffer, and leaves the CPU as it was. *)
Theorem printint_prints_number {S} (panicking sign : bool) xx base c (s : S) :
  base = 10 \/ base = 16 -> in_s 64 xx -> cpu_ok c -> (base = 16 -> sign = false) ->
  let neg := sign && (xx <? 0) in
  exists ds,
    let out := (if neg then chars "-" else []) ++ ds in
    printint panicking xx base sign c s = Done tt (sent out c) s /\
    num_val base ds = (if neg then - xx else xx mod 2 ^ 64) /\
    (hd 0 ds = 48 -> ds = [48]) /\ (length out <= 20)%nat.
Proof.
  intros Hb Hx Hok Hs neg. unfold in_s in Hx.
  set (x := if neg then u64 (- xx) else u64 xx).
  assert (x = if neg then - xx else xx mod 2 ^ 64) as Ex.
  { unfold x, neg. destruct sign; simpl; [|done]. destruct (Z.ltb_spec xx 0); [|done]. apply u_small. lia. }
  assert (0 <= x < 2 ^ 64) as Hr by (unfold x; destruct neg; apply u_range; lia).
  exists (reverse (printint_digits 64 x base)). split_and!.
  - unfold printint, printint_buf. fold neg. fold x. rewrite consputs_eq by done. f_equal. f_equal.
    rewrite echo_bytes.
    + rewrite reverse_app. by destruct neg.
    + apply Forall_reverse, Forall_app. split; [apply digits_bytes|]. destruct neg; by repeat constructor.
  - rewrite <- Ex. unfold num_val. rewrite reverse_involutive. apply printint_digits_val; [lia|].
    split; [lia|]. destruct Hb as [-> | ->]; lia.
  - destruct (printint_digits_last base ltac:(lia) 64 x) as (ds & ch & E & H0);
      [lia|lia|destruct Hb as [-> | ->]; lia|].
    rewrite E, reverse_app. simpl. intros H. destruct (H0 H) as [_ ->]. by rewrite H.
  - rewrite length_app, length_reverse. unfold neg in *. destruct Hb as [-> | ->].
    + destruct (sign && (xx <? 0)) eqn:En.
      * change (length (chars "-")) with 1%nat. cbn [Nat.add]. apply andb_true_iff in En as [_ En%Z.ltb_lt].
        apply le_n_S, printint_digits_len; [lia| |lia]. lia.
      * apply printint_digits_len; [lia| |lia]. lia.
    + rewrite (Hs eq_refl). cbn [andb length Nat.add]. etransitivity; [apply (printint_digits_len 16 ltac:(lia) 16); [|lia]|lia]. lia.
Qed.

#[local] Transparent printint_digits.
Lemma printint_prints_number_witness :
  printint false (- 2 ^ 63) 10 true ctx0 tt = Done tt (sent (chars "-9223372036854775808") ctx0) tt /\
  num_val 10 (chars "9223372036854775808") = 2 ^ 63.
Proof.
  destruct (printint_prints_number false true (- 2 ^ 63) 10 ctx0 tt) as (ds & E & V & _).
  - left. reflexivity.
  - unfold in_s. lia.
  - exact ctx0_ok.
  - discriminate.
  - split; [|vm_compute; reflexivity]. vm_compute. reflexivity.
Defined.

(** [printf] returns for every format and every argument list, having only
    sent characters: the console lock is free again, interrupts and nesting are
    as before, and no other state has changed. *)
Theorem printf_total {S} (panicking : bool) fmt ap c (s : S) :
  cpu_ok c -> unlocked L_pr c ->
  exists out, printf panicking fmt ap c s = Done 0 (sent out c) s.
Proof. apply printf_prints. Qed.

Definition initlocks1 (l : lockid) (c : ctx) : ctx :=
  set_locks (<[l := Spinlock 0 "pr" None]> (locks c)) c.

Lemma printf_total_witness :
  exists out, printf false (chars "recovering tail %d dst %d") [VInt 3; VInt 42]
    (initlocks1 L_pr ctx0) tt = Done 0 (sent out (initlocks1 L_pr ctx0)) tt.
Proof.
  apply (printf_total false).
  - destruct ctx0_ok as [H1 H2 H3]. split; [exact H1|exact H2|exact H3].
  - exists "pr"%string. vm_compute. reflexivity.
Defined.
