(* ===== verification/Log.v ===== *)
(** * Logging (kernel/log.c)

    The redo log that makes a file-system operation atomic with respect to
    crashes.  The state is the in-memory log over the buffer cache and its disk. *)
From stdpp Require Import base numbers list gmap strings.
From S2P Require Import Prelude Kernel Spinlock Sleeplock Bio Printf.

(** [struct log] with its [struct logheader]; [lh_block] is the array of
    LOGBLOCKS ints. *)
Record log := Log {
  lg_start : Z;
  lg_outstanding : Z;    (* how many FS sys calls are executing. *)
  lg_committing : Z;     (* in commit(), please wait. *)
  lg_dev : Z;
  lh_n : Z;
  lh_block : list Z;
}.
Definition log_init : log := Log 0 0 0 0 0 (replicate (Z.to_nat LOGBLOCKS) 0).

Definition set_lstart (start dev : Z) (l : log) : log :=
  Log start (lg_outstanding l) (lg_committing l) dev (lh_n l) (lh_block l).
Definition set_outstanding (v : Z) (l : log) : log :=
  Log (lg_start l) v (lg_committing l) (lg_dev l) (lh_n l) (lh_block l).
Definition set_committing (v : Z) (l : log) : log :=
  Log (lg_start l) (lg_outstanding l) v (lg_dev l) (lh_n l) (lh_block l).
Definition set_n (v : Z) (l : log) : log :=
  Log (lg_start l) (lg_outstanding l) (lg_committing l) (lg_dev l) v (lh_block l).
Definition set_block (i v : Z) (l : log) : log :=
  Log (lg_start l) (lg_outstanding l) (lg_committing l) (lg_dev l) (lh_n l)
    (<[Z.to_nat i := v]> (lh_block l)).
Definition lblk (l : log) (i : Z) : Z := nth (Z.to_nat i) (lh_block l) 0.

Record lst := Lst { l_bio : bio; l_log : log }.
Definition bioA : acc lst bio := Acc l_bio (fun b s => Lst b (l_log s)).
Definition glog : K lst log := gets l_log.
Definition ulog (f : log -> log) : K lst unit := modify (fun s => Lst (l_bio s) (f (l_log s))).
(** The bytes of a buffer. *)
Definition bdata (b : Z) : K lst block := gets (fun s => b_data (buf_at (l_bio s) b)).
Definition set_bdata (b : Z) (d : block) : K lst unit := zoom bioA (ub b (set_data d)).

Section Log.
Context {D : DiskDriver}.

(** for (tail = 0; tail < log.lh.n; tail++) of install_trans; [n] rounds left. *)
Fixpoint install_loop (n : nat) (tail : Z) (recovering : bool) : K lst unit :=
  match n with
  | O => mret tt
  | S n =>
      l ← glog;
      (if recovering
       then (_ ← printf false (chars "recovering tail %d dst %d" ++ [10]) [VInt tail; VInt (lblk l tail)]; mret tt)
       else mret tt);;
      lbuf ← zoom bioA (bread (u32 (lg_dev l)) (u32 (lg_start l + tail + 1)));
      dbuf ← zoom bioA (bread (u32 (lg_dev l)) (u32 (lblk l tail)));
      d ← bdata lbuf;
      set_bdata dbuf d;;
      zoom bioA (bwrite dbuf);;
      (if recovering then mret tt else zoom bioA (bunpin dbuf));;
      zoom bioA (brelse lbuf);;
      zoom bioA (brelse dbuf);;
      install_loop n (tail + 1) recovering
  end.
Definition install_trans (recovering : bool) : K lst unit :=
  l ← glog;
  install_loop (Z.to_nat (lh_n l)) 0 recovering.

(** The header block: n at offset 0, block[i] at offset 4 + 4*i. *)
Fixpoint read_head_loop (n : nat) (i : Z) (d : block) : K lst unit :=
  match n with
  | O => mret tt
  | S n => ulog (set_block i (i32 (get32 (4 + 4 * i) d)));; read_head_loop n (i + 1) d
  end.
Definition read_head : K lst unit :=
  l ← glog;
  buf ← zoom bioA (bread (u32 (lg_dev l)) (u32 (lg_start l)));
  d ← bdata buf;
  ulog (set_n (i32 (get32 0 d)));;
  l ← glog;
  read_head_loop (Z.to_nat (lh_n l)) 0 d;;
  zoom bioA (brelse buf).

Fixpoint write_head_loop (n : nat) (i : Z) (l : log) (d : block) : block :=
  match n with
  | O => d
  | S n => write_head_loop n (i + 1) l (put32 (4 + 4 * i) (lblk l i) d)
  end.
Definition write_head : K lst unit :=
  l ← glog;
  buf ← zoom bioA (bread (u32 (lg_dev l)) (u32 (lg_start l)));
  d ← bdata buf;
  set_bdata buf (write_head_loop (Z.to_nat (lh_n l)) 0 l (put32 0 (lh_n l) d));;
  zoom bioA (bwrite buf);;
  zoom bioA (brelse buf).

Definition recover_from_log : K lst unit :=
  read_head;;
  install_trans true;;
  ulog (set_n 0);;
  write_head.

(** [logstart] is sb->logstart; sizeof(struct logheader) is 4 * (1 + LOGBLOCKS). *)
Definition initlog (dev logstart : Z) : K lst unit :=
  (if 4 * (1 + LOGBLOCKS) >=? BSIZE then panic "initlog: too big logheader" else mret tt);;
  initlock L_log "log";;
  ulog (set_lstart (i32 logstart) dev);;
  recover_from_log.

(** while(1): a process that is woken up runs the tests again. *)
Definition begin_op : K lst unit :=
  acquire L_log;;
  l ← glog;
  if z2b (lg_committing l) then sleep C_log L_log
  else if lh_n l + (lg_outstanding l + 1) * MAXOPBLOCKS >? LOGBLOCKS then sleep C_log L_log
  else
    ulog (set_outstanding (lg_outstanding l + 1));;
    release L_log.

Fixpoint write_log_loop (n : nat) (tail : Z) : K lst unit :=
  match n with
  | O => mret tt
  | S n =>
      l ← glog;
      to ← zoom bioA (bread (u32 (lg_dev l)) (u32 (lg_start l + tail + 1)));
      from ← zoom bioA (bread (u32 (lg_dev l)) (u32 (lblk l tail)));
      d ← bdata from;
      set_bdata to d;;
      zoom bioA (bwrite to);;
      zoom bioA (brelse from);;
      zoom bioA (brelse to);;
      write_log_loop n (tail + 1)
  end.
Definition write_log : K lst unit :=
  l ← glog;
  write_log_loop (Z.to_nat (lh_n l)) 0.

Definition commit : K lst unit :=
  l ← glog;
  if lh_n l >? 0 then
    write_log;;
    write_head;;
    install_trans false;;
    ulog (set_n 0);;
    write_head
  else mret tt.

Definition end_op : K lst unit :=
  acquire L_log;;
  l ← glog;
  ulog (set_outstanding (lg_outstanding l - 1));;
  l ← glog;
  (if z2b (lg_committing l) then panic "log.committing" else mret tt);;
  do_commit ←
    (if lg_outstanding l =? 0 then ulog (set_committing 1);; mret true
     else wakeup C_log;; mret false);
  release L_log;;
  if do_commit : bool then
    commit;;
    acquire L_log;;
    ulog (set_committing 0);;
    wakeup C_log;;
    release L_log
  else mret tt.

(** The search of log_write: the first i with block[i] == blockno, else lh.n. *)
Fixpoint log_find (n : nat) (i : Z) (l : log) (blockno : Z) : Z :=
  match n with
  | O => i
  | S n => if u32 (lblk l i) =? blockno then i else log_find n (i + 1) l blockno
  end.
Definition log_write (b : Z) : K lst unit :=
  acquire L_log;;
  l ← glog;
  (if lh_n l >=? LOGBLOCKS then panic "too big a transaction" else mret tt);;
  (if lg_outstanding l <? 1 then panic "log_write outside of trans" else mret tt);;
  blockno ← gets (fun s => b_blockno (buf_at (l_bio s) b));
  let i := log_find (Z.to_nat (lh_n l)) 0 l blockno in
  ulog (set_block i (i32 blockno));;
  (if i =? lh_n l then
     zoom bioA (bpin b);;
     ulog (set_n (lh_n l + 1))
   else mret tt);;
  release L_log.
End Log.
