(* ===== verification/Redo.v ===== *)
(** * The log makes operations atomic (theorems on Log.v)

    What commit writes to the disk and in which order, and that recovery from
    any prefix of those writes yields the file system as it was before or as it
    is after the transaction. *)
From stdpp Require Import base numbers list gmap strings.
From S2P Require Import Prelude Kernel Spinlock Sleeplock Bio Bcache Printf Log.

(** ** Buffers enough *)

Definition refs_in (s : bio) (P : list Z) : Prop := forall x, refs s x <> 0 -> x ∈ P.

Lemma busy_block s i : bc_ok s -> 0 <= i < NBUF -> b_refcnt (buf_at s i) <> 0 ->
  cached s (b_blockno (buf_at s i)) i.
Proof. intros Hok Hi Hr. split_and!; [lia..| |done]. apply (bo_dev _ Hok i Hi). by right. Qed.

Lemma room_from_refs s P : bc_ok s -> refs_in s P -> (length P < 30)%nat -> room s.
Proof.
  intros Hok HP Hlen. destruct (decide (Forall (fun i => b_refcnt (buf_at s i) <> 0) (seqZ 0 NBUF))) as [HF|HF].
  - exfalso. assert (forall i, 0 <= i < NBUF -> b_refcnt (buf_at s i) <> 0) as Hb.
    { intros i Hi. by apply (proj1 (Forall_forall _ _) HF), seqZ_range. }
    assert (NoDup ((fun i => b_blockno (buf_at s i)) <$> seqZ 0 NBUF)) as Hnd.
    { apply NoDup_fmap_2_strong; [|apply NoDup_seqZ]. intros i j Hi%seqZ_range Hj%seqZ_range E.
      eapply (bo_uniq _ Hok _ _ (b_blockno (buf_at s i))); [by apply busy_block; auto|].
      rewrite E. by apply busy_block; auto. }
    assert (length ((fun i => b_blockno (buf_at s i)) <$> seqZ 0 NBUF) <= length P)%nat as Hle.
    { apply submseteq_length, NoDup_submseteq; [done|]. intros x (i & -> & Hi%seqZ_range)%list_elem_of_fmap.
      apply HP. rewrite (refs_cached s _ i Hok (busy_block s i Hok Hi (Hb i Hi))). by apply Hb. }
    rewrite length_fmap in Hle. change (length (seqZ 0 NBUF)) with 30%nat in Hle. lia.
  - apply not_Forall_Exists in HF; [|apply _]. apply Exists_exists in HF as (i & Hi%seqZ_range & H).
    exists i. split; [done|]. destruct (decide (b_refcnt (buf_at s i) = 0)); [done|]. by destruct H.
Qed.

(** ** Moving a block between the log and its home *)

Lemma holds_only c s s' x y i : bc_ok s -> holds c s x i -> only y s s' -> y <> x -> holds c s' x i.
Proof.
  intros Hok Hh Hon Hne. pose proof Hh as [Hc Hv Hl Hr].
  destruct (on_keep _ _ _ Hon x i) as [Hc' E]; [congruence| |done|].
  - rewrite (refs_held c s x i) by done. lia.
  - apply core_inj in E as (E1 & E2 & E3 & E4 & E5 & E6). split; [done|congruence|congruence|lia].
Qed.

Lemma only_refl x s : bc_ok s -> only x s s.
Proof. intros H. split; [done| |by intros]. by intros y _. Qed.

Lemma holds_evs e c s x i : holds c s x i -> holds (set_evs e c) s x i.
Proof. intros [H1 H2 H3 H4]. by split. Qed.

Lemma holds_blocked c s x i : bc_ok s -> holds c s x i -> blocked s x = Sleeplock 1 (curpid c).
Proof. intros Hok [H1 H2 H3 H4]. by rewrite (blocked_cached s x i). Qed.

(** From [s] to [s'] only the blocks of [X] may look different. *)
Record evolves (X : list Z) (s s' : bio) : Prop := {
  ev_ok : bc_ok s';
  ev_same : forall y, (y ∉ X) -> same_at s s' y;
}.
Lemma evolves_only x X s s' : only x s s' -> x ∈ X -> evolves X s s'.
Proof.
  intros [H1 H2 _] Hx. split; [done|]. intros y Hy. apply H2. intros ->. done.
Qed.
Lemma evolves_trans X s s' s'' : evolves X s s' -> evolves X s' s'' -> evolves X s s''.
Proof.
  intros [_ H1] [H2 H3]. split; [done|]. intros y Hy.
  destruct (H1 y Hy) as (E1 & E2 & E3), (H3 y Hy) as (F1 & F2 & F3). repeat split; congruence.
Qed.
Lemma evolves_weaken X Y s s' : evolves X s s' -> X ⊆ Y -> evolves Y s s'.
Proof. intros [H1 H2] Hs. split; [done|]. intros y Hy. apply H2. set_solver. Qed.

Definition free_lock : sleeplock := Sleeplock 0 0.
Definition small (s : bio) (x : Z) : Prop := 0 <= refs s x < 2 ^ 31.

Section Move.
Context {D : DiskDriver} {DOK : DiskDriverOk D}.
Variables (c : ctx) (s : bio) (P : list Z) (a b : Z).
Hypotheses (Hcpu : bio_cpu c) (Hok : bc_ok s) (Hab : a <> b)
  (Hla : blocked s a = free_lock) (Hlb : blocked s b = free_lock)
  (Hsa : small s a) (Hsb : small s b) (HP : refs_in s P) (Hlen : (length P < 29)%nat).

(** Two blocks held at the same time. *)
Lemma bread_two : exists i j s1 s2,
  bread ROOTDEV a c s = Done i c s1 /\ bread ROOTDEV b c s1 = Done j c s2 /\
  holds c s2 a i /\ holds c s2 b j /\ evolves [a; b] s s2 /\
  view s2 a = view s a /\ view s2 b = view s b /\
  refs s2 a = refs s a + 1 /\ refs s2 b = refs s b + 1 /\ dsk s2 = dsk s.
Proof.
  unfold small in *.
  destruct (bread_spec c s Hcpu Hok a) as (i & s1 & E1 & Hh1 & On1 & V1 & R1 & D1).
  { by rewrite Hla. } { right. apply (room_from_refs s P); [done|done|lia]. } { lia. }
  pose proof (on_ok _ _ _ On1) as Hok1.
  destruct (on_same _ _ _ On1 b ltac:(congruence)) as (Vb & Rb & Lb).
  destruct (bread_spec c s1 Hcpu Hok1 b) as (j & s2 & E2 & Hh2 & On2 & V2 & R2 & D2).
  { by rewrite Lb, Hlb. }
  { right. apply (room_from_refs s1 (a :: P)); [done| |simpl; lia]. intros x Hx.
    destruct (Z.eq_dec x a) as [->|Hne]; [by left|]. right. apply HP.
    by destruct (on_same _ _ _ On1 x Hne) as (_ & <- & _). }
  { lia. }
  destruct (on_same _ _ _ On2 a Hab) as (Va & Ra & La).
  exists i, j, s1, s2. split_and!; [exact E1|exact E2| |exact Hh2| |congruence..|lia|lia|congruence].
  - exact (holds_only c s1 s2 a b i Hok1 Hh1 On2 ltac:(congruence)).
  - eapply evolves_trans; eapply evolves_only; [exact On1| |exact On2|]; set_solver-.
Qed.

Definition moved (s' : bio) (w v : Z) (da db : Z) : Prop :=
  evolves [a; b] s s' /\ view s' w = view s v /\ view s' v = view s v /\
  refs s' a = refs s a + da /\ refs s' b = refs s b + db /\
  blocked s' a = free_lock /\ blocked s' b = free_lock /\ dsk s' = (w, view s v) :: dsk s.

(** The body of write_log's loop: block [b] of the cache to block [a] of the log. *)
Lemma copy_to_log : 0 < refs s b -> exists i j s1 s2 c5 s5 c' s',
  bread ROOTDEV a c s = Done i c s1 /\ bread ROOTDEV b c s1 = Done j c s2 /\
  let s3 := upd_buf i (set_data (b_data (buf_at s2 j))) s2 in
  bwrite i c s3 = Done tt c (wrote a s3) /\ brelse j c (wrote a s3) = Done tt c5 s5 /\
  brelse i c5 s5 = Done tt c' s' /\ (exists e, c' = set_evs e c) /\ moved s' a b 0 0.
Proof.
  intros Hpin. unfold small in *.
  destruct bread_two as (i & j & s1 & s2 & E1 & E2 & Ha & Hb & Ev & Va & Vb & Ra & Rb & Dk).
  exists i, j, s1, s2. pose proof (ev_ok _ _ _ Ev) as Hok2.
  destruct (set_data_spec c s2 Hok2 a i (b_data (buf_at s2 j)) Ha) as (Ha3 & On3 & V3 & R3 & D3).
  set (s3 := upd_buf i _ s2) in *. pose proof (on_ok _ _ _ On3) as Hok3.
  pose proof (holds_only c s2 s3 b a j Hok2 Hb On3 Hab) as Hb3.
  destruct (bwrite_spec c s3 Hcpu Hok3 a i Ha3) as (E4 & Ha4 & On4 & V4 & R4).
  set (s4 := wrote a s3) in *. pose proof (on_ok _ _ _ On4) as Hok4.
  pose proof (holds_only c s3 s4 b a j Hok3 Hb3 On4 Hab) as Hb4.
  destruct (on_same _ _ _ On3 b ltac:(congruence)) as (Vb3 & Rb3 & Lb3).
  destruct (on_same _ _ _ On4 b ltac:(congruence)) as (Vb4 & Rb4 & Lb4).
  destruct (brelse_spec c s4 b j Hcpu Hok4 Hb4) as (E5 & On5 & V5 & R5 & D5 & L5); [lia|lia|].
  set (c5 := set_evs _ c) in *. set (s5 := released j s4) in *. pose proof (on_ok _ _ _ On5) as Hok5.
  pose proof (holds_only c s4 s5 a b i Hok4 Ha4 On5 ltac:(congruence)) as Ha5.
  destruct (on_same _ _ _ On5 a Hab) as (Va5 & Ra5 & La5).
  assert (dget (dsk s5) a = view s5 a) as Hclean.
  { rewrite D5. simpl. rewrite Z.eqb_refl. congruence. }
  destruct (brelse_spec c5 s5 a i (bio_cpu_evs _ _ Hcpu) Hok5 (holds_evs _ _ _ _ _ Ha5))
    as (E6 & On6 & V6 & R6 & D6 & L6); [lia|done|].
  destruct (on_same _ _ _ On6 b ltac:(congruence)) as (Vb6 & Rb6 & Lb6).
  exists c5, s5. eexists _, (released i s5).
  split; [exact E1|]. split; [exact E2|]. split; [exact E4|]. split; [exact E5|].
  split; [exact E6|]. split; [eexists; reflexivity|].
  assert (view s3 a = view s b) as Eab by (rewrite V3, <- (view_held c s2 b j Hok2 Hb); exact Vb).
  split_and!; [|congruence|congruence|lia|lia|exact L6|rewrite Lb6; exact L5|].
  - eapply evolves_trans; [exact Ev|]. eapply evolves_trans; [eapply (evolves_only a); [done|set_solver-]|].
    eapply evolves_trans; [eapply (evolves_only a); [done|set_solver-]|].
    eapply evolves_trans; [eapply (evolves_only b); [done|set_solver-]|].
    eapply (evolves_only a); [done|set_solver-].
  - rewrite D6, D5. change (dsk s4) with ((a, view s3 a) :: dsk s3). by rewrite Eab, D3, Dk.
Qed.

(** The body of install_trans's loop: block [a] of the log to its home [b]; a
    committed block is unpinned, a recovered one was not pinned. *)
Lemma copy_home (pinned : bool) : (pinned = true -> 0 < refs s b) ->
  exists i j s1 s2 s4 s5 c6 s6 c' s',
  bread ROOTDEV a c s = Done i c s1 /\ bread ROOTDEV b c s1 = Done j c s2 /\
  let s3 := upd_buf j (set_data (b_data (buf_at s2 i))) s2 in
  bwrite j c s3 = Done tt c s4 /\
  (if pinned then bunpin j c s4 = Done tt c s5 else s5 = s4) /\
  brelse i c s5 = Done tt c6 s6 /\ brelse j c6 s6 = Done tt c' s' /\
  (refs s a = 0 -> view s a = dget (dsk s) a) /\
  (exists e, c' = set_evs e c) /\ moved s' b a 0 (if pinned then -1 else 0).
Proof.
  intros Hpin. unfold small in *.
  assert (refs s a = 0 -> view s a = dget (dsk s) a) as Hca.
  { intros H0. unfold view, refs in *. destruct (find_buf s a) as [k|] eqn:F; [|done].
    apply find_buf_some in F as Fc; [|done]. destruct (b_valid (buf_at s k)) eqn:Hv; [|done].
    pose proof Fc as (Hk & _ & Ek). destruct (bo_free _ Hok k Hk H0) as [_ Hd]. by rewrite (Hd Hv), Ek. }
  destruct bread_two as (i & j & s1 & s2 & E1 & E2 & Ha & Hb & Ev & Va & Vb & Ra & Rb & Dk).
  exists i, j, s1, s2. pose proof (ev_ok _ _ _ Ev) as Hok2.
  destruct (set_data_spec c s2 Hok2 b j (b_data (buf_at s2 i)) Hb) as (Hb3 & On3 & V3 & R3 & D3).
  set (s3 := upd_buf j _ s2) in *. pose proof (on_ok _ _ _ On3) as Hok3.
  pose proof (holds_only c s2 s3 a b i Hok2 Ha On3 ltac:(congruence)) as Ha3.
  destruct (bwrite_spec c s3 Hcpu Hok3 b j Hb3) as (E4 & Hb4 & On4 & V4 & R4).
  set (s4 := wrote b s3) in *. pose proof (on_ok _ _ _ On4) as Hok4.
  pose proof (holds_only c s3 s4 a b i Hok3 Ha3 On4 ltac:(congruence)) as Ha4.
  destruct (on_same _ _ _ On3 a Hab) as (Va3 & Ra3 & La3).
  destruct (on_same _ _ _ On4 a Hab) as (Va4 & Ra4 & La4).
  assert (exists s5, (if pinned then bunpin j c s4 = Done tt c s5 else s5 = s4) /\
    only b s4 s5 /\ holds c s5 b j /\ view s5 b = view s4 b /\
    refs s5 b = refs s4 b + (if pinned then -1 else 0) /\ dsk s5 = dsk s4) as
    (s5 & E5 & On5 & Hb5 & V5 & R5 & D5).
  { destruct pinned.
    - eexists. split; [by apply bunpin_eq|].
      destruct (refcnt_upd_spec c s4 Hok4 b j (-1) (h_cached _ _ _ _ Hb4)) as (O & V & R & Dd & H);
        [lia|lia|]. split; [exact O|]. split; [exact (H Hb4)|]. split; [exact V|].
      split; [exact R|exact Dd].
    - exists s4. split; [reflexivity|]. split; [exact (only_refl b s4 Hok4)|]. split; [exact Hb4|].
      split; [reflexivity|]. split; [lia|reflexivity]. }
  pose proof (on_ok _ _ _ On5) as Hok5.
  pose proof (holds_only c s4 s5 a b i Hok4 Ha4 On5 ltac:(congruence)) as Ha5.
  destruct (on_same _ _ _ On5 a Hab) as (Va5 & Ra5 & La5).
  destruct (brelse_spec c s5 a i Hcpu Hok5 Ha5) as (E6 & On6 & V6 & R6 & D6 & L6); [lia| |].
  { intros Hone. rewrite D5. change (dsk s4) with ((b, view s3 b) :: dsk s3). cbn [dget].
    rewrite (proj2 (Z.eqb_neq b a)) by congruence. rewrite D3, Dk, <- Hca by lia. congruence. }
  set (c6 := set_evs _ c) in *. set (s6 := released i s5) in *. pose proof (on_ok _ _ _ On6) as Hok6.
  pose proof (holds_only c s5 s6 b a j Hok5 Hb5 On6 Hab) as Hb6.
  destruct (on_same _ _ _ On6 b ltac:(congruence)) as (Vb6 & Rb6 & Lb6).
  destruct (brelse_spec c6 s6 b j (bio_cpu_evs _ _ Hcpu) Hok6 (holds_evs _ _ _ _ _ Hb6))
    as (E7 & On7 & V7 & R7 & D7 & L7); [destruct pinned; lia| |].
  { intros _. rewrite D6, D5. simpl. rewrite Z.eqb_refl. congruence. }
  destruct (on_same _ _ _ On7 a Hab) as (Va7 & Ra7 & La7).
  exists s4, s5, c6, s6. eexists _, (released j s6).
  split; [exact E1|]. split; [exact E2|]. split; [exact E4|]. split; [exact E5|].
  split; [exact E6|]. split; [exact E7|]. split; [exact Hca|]. split; [eexists; reflexivity|].
  assert (view s3 b = view s a) as Eab by (rewrite V3, <- (view_held c s2 a i Hok2 Ha); exact Va).
  split_and!; [|congruence|congruence|lia|lia|rewrite La7; exact L6|exact L7|].
  - eapply evolves_trans; [exact Ev|]. eapply evolves_trans; [eapply (evolves_only b); [done|set_solver-]|].
    eapply evolves_trans; [eapply (evolves_only b); [done|set_solver-]|].
    eapply evolves_trans; [eapply (evolves_only b); [done|set_solver-]|].
    eapply evolves_trans; [eapply (evolves_only a); [done|set_solver-]|].
    eapply (evolves_only b); [done|set_solver-].
  - rewrite D7, D6, D5. change (dsk s4) with ((b, view s3 b) :: dsk s3). by rewrite Eab, D3, Dk.
Qed.
End Move.

(** ** The loops of the log *)

(** References and locks are as before. *)
Definition same_use (s s' : bio) : Prop :=
  forall y, refs s' y = refs s y /\ blocked s' y = blocked s y.
Lemma same_use_refl s : same_use s s.
Proof. done. Qed.
Lemma same_use_trans s s' s'' : same_use s s' -> same_use s' s'' -> same_use s s''.
Proof. intros H1 H2 y. destruct (H1 y) as [<- <-]. apply H2. Qed.

Definition later (c c' : ctx) : Prop := exists e, c' = set_evs e c.
Lemma later_refl c : later c c.
Proof. exists (evs c). by destruct c. Qed.
Lemma later_trans c c' c'' : later c c' -> later c' c'' -> later c c''.
Proof. intros [e ->] [e' ->]. by exists e'. Qed.
Lemma later_cpu c c' : later c c' -> bio_cpu c -> bio_cpu c'.
Proof. intros [e ->]. apply bio_cpu_evs. Qed.
Lemma later_unlocked l c c' : later c c' -> unlocked l c -> unlocked l c'.
Proof. by intros [e ->]. Qed.
Lemma later_cpu_ok c c' : later c c' -> cpu_ok c -> cpu_ok c'.
Proof. intros [e ->]. apply cpu_ok_evs. Qed.
#[export] Hint Resolve same_use_refl later_refl later_cpu later_unlocked later_cpu_ok : xv6.

Lemma zoom_bio {A} (m : K bio A) c s l x c' s' :
  m c s = Done x c' s' -> zoom bioA m c (Lst s l) = Done x c' (Lst s' l).
Proof. intros H. unfold zoom. simpl. by rewrite H. Qed.

(** A transaction in the in-memory log: [n] distinct home blocks outside the
    log, whose header block is [st]. *)
Record txn (l : log) (st n : Z) : Prop := {
  tx_dev : lg_dev l = ROOTDEV;
  tx_start : lg_start l = st;
  tx_st : 0 <= st < 2 ^ 30;
  tx_n : 0 <= n <= LOGBLOCKS;
  tx_home : forall i, 0 <= i < n -> 0 <= lblk l i < 2 ^ 31 /\ ~ (st <= lblk l i <= st + LOGBLOCKS);
  tx_nodup : forall i j, 0 <= i < n -> 0 <= j < n -> lblk l i = lblk l j -> i = j;
}.

Section Loops.
Context {D : DiskDriver} {DOK : DiskDriverOk D}.
Variables (l : log) (st n : Z) (P : list Z).
Hypotheses (HT : txn l st n) (Hlen : (length P < 29)%nat).

(** The log's own blocks and the home blocks can be taken. *)
Definition takeable (s : bio) : Prop :=
  (forall i, 0 <= i < n -> blocked s (st + i + 1) = free_lock /\ small s (st + i + 1)) /\
  (forall i, 0 <= i < n -> blocked s (lblk l i) = free_lock /\ small s (lblk l i)).

Lemma takeable_same s s' : same_use s s' -> takeable s -> takeable s'.
Proof.
  intros Hu [H1 H2]. split; intros i Hi; unfold small.
  - destruct (Hu (st + i + 1)) as [-> ->]. by apply H1.
  - destruct (Hu (lblk l i)) as [-> ->]. by apply H2.
Qed.

Lemma refs_in_same s s' : same_use s s' -> refs_in s P -> refs_in s' P.
Proof. intros Hu H x. destruct (Hu x) as [-> _]. apply H. Qed.

Lemma log_ne_home i j : 0 <= i < n -> 0 <= j < n -> st + i + 1 <> lblk l j.
Proof using HT. clear Hlen.
  intros Hi Hj E. destruct (tx_home _ _ _ HT j Hj) as [_ H]. pose proof (tx_n _ _ _ HT). lia.
Qed.

Lemma log_dev_addr : u32 (lg_dev l) = ROOTDEV.
Proof using HT. clear Hlen. by rewrite (tx_dev _ _ _ HT). Qed.
Lemma log_addr i : 0 <= i < n -> u32 (lg_start l + i + 1) = st + i + 1.
Proof using HT. clear Hlen.
  intros Hi. rewrite (tx_start _ _ _ HT). pose proof (tx_n _ _ _ HT) as Hn. pose proof (tx_st _ _ _ HT).
  change LOGBLOCKS with 30 in Hn. apply u_small. lia.
Qed.
Lemma home_addr i : 0 <= i < n -> u32 (lblk l i) = lblk l i.
Proof using HT. clear Hlen. intros Hi. destruct (tx_home _ _ _ HT i Hi). apply u_small. lia. Qed.

Lemma write_log_loop_spec k : forall t c s,
  0 <= t -> t + Z.of_nat k = n -> bio_cpu c -> bc_ok s -> takeable s -> refs_in s P ->
  (forall i, 0 <= i < n -> 0 < refs s (lblk l i)) ->
  exists c' s', write_log_loop k t c (Lst s l) = Done tt c' (Lst s' l) /\
    later c c' /\ bc_ok s' /\ same_use s s' /\
    (forall i, t <= i < n -> view s' (st + i + 1) = view s (lblk l i)) /\
    (forall y, (forall i, t <= i < n -> y <> st + i + 1) -> view s' y = view s y) /\
    dsk s' = reverse ((fun i => (st + i + 1, view s (lblk l i))) <$> seqZ t (Z.of_nat k)) ++ dsk s.
Proof.
  induction k as [|k IH]; intros t c s Ht Hk Hcpu Hok Htk HP Hpin.
  - exists c, s. split; [done|]. split; [apply later_refl|]. split; [done|]. split; [done|].
    split; [intros; lia|]. done.
  - assert (0 <= t < n) as Htn by lia. pose proof Htk as [Hl Hh].
    destruct (Hl t Htn) as [La Sa], (Hh t Htn) as [Lb Sb].
    destruct (copy_to_log c s P (st + t + 1) (lblk l t) Hcpu Hok (log_ne_home t t Htn Htn) La Lb Sa Sb HP Hlen
      (Hpin t Htn)) as (i & j & s1 & s2 & c5 & s5 & c6 & s6 & E1 & E2 & E3 & E5 & E6 & Hlt & Hm).
    set (s3 := upd_buf i _ s2) in *.
    destruct Hm as (Ev & Va & Vb & Ra & Rb & La6 & Lb6 & D6).
    assert (same_use s s6) as Hu.
    { intros y. destruct (decide (y ∈ [st + t + 1; lblk l t])) as [Hy|Hy].
      - apply elem_of_cons in Hy as [-> | ->%list_elem_of_singleton].
        + rewrite La6, La. split; [lia|done].
        + rewrite Lb6, Lb. split; [lia|done].
      - destruct (ev_same _ _ _ Ev y Hy) as (_ & E & F). done. }
    assert (forall y, y <> st + t + 1 -> view s6 y = view s y) as Hv.
    { intros y Hy. destruct (Z.eq_dec y (lblk l t)) as [->|Hy']; [done|].
      apply (ev_same _ _ _ Ev). clear -Hy Hy'. rewrite !not_elem_of_cons. split_and!; [done..|apply not_elem_of_nil]. }
    destruct (IH (t + 1) c6 s6) as (c' & s' & E & Hlt' & Hok' & Hu' & V1 & V2 & D').
    { lia. } { lia. } { eauto with xv6. } { apply (ev_ok _ _ _ Ev). }
    { exact (takeable_same s s6 Hu Htk). } { exact (refs_in_same s s6 Hu HP). }
    { intros i' Hi'. destruct (Hu (lblk l i')) as [-> _]. by apply Hpin. }
    exists c', s'. split; [|split; [by eapply later_trans|split; [done|split; [by eapply same_use_trans|]]]].
    + cbn [write_log_loop]. unfold glog at 1. krun. cbn [l_log].
      rewrite log_dev_addr, log_addr, home_addr by done.
      rewrite (zoom_bio _ _ _ l _ _ _ E1). cbv beta iota.
      rewrite (zoom_bio _ _ _ l _ _ _ E2). cbv beta iota. unfold bdata, set_bdata, gets.
      cbn [l_bio]. unfold ub. rewrite (zoom_bio (modify _) c s2 l tt c s3) by reflexivity. cbv beta iota.
      rewrite (zoom_bio _ _ _ l _ _ _ E3). cbv beta iota.
      rewrite (zoom_bio _ _ _ l _ _ _ E5). cbv beta iota.
      rewrite (zoom_bio _ _ _ l _ _ _ E6). exact E.
    + split; [|split].
      * intros i' Hi'. destruct (Z.eq_dec i' t) as [->|Hne].
        -- rewrite V2 by (intros; lia). exact Va.
        -- rewrite V1 by lia. apply Hv. intros E'. apply (log_ne_home t i'); [done|lia|done].
      * intros y Hy. rewrite V2 by (intros ? ?; apply Hy; lia). apply Hv, Hy. lia.
      * rewrite D', D6. rewrite (seqZ_cons t) by lia. rewrite fmap_cons, reverse_cons, <- app_assoc.
        replace (Z.pred (Z.of_nat (S k))) with (Z.of_nat k) by lia. simpl.
        f_equal. f_equal. replace (Z.succ t) with (t + 1) by lia. apply list_fmap_ext.
        intros m i' Hi'%lookup_seqZ. f_equal. apply Hv. intros E'. apply (log_ne_home t i'); [done|lia|done].
Qed.

Lemma printf_later {S} fmt ap c (s : S) : cpu_ok c -> unlocked L_pr c ->
  exists c', printf false fmt ap c s = Done 0 c' s /\ later c c'.
Proof.
  intros Hok Hul. destruct (printf_prints false fmt ap c s Hok Hul) as [out E].
  eexists. split; [exact E|]. by eexists.
Qed.

(** What a pass of install_trans over the entries from [t] on leaves. *)
Record installed (recovering : bool) (t : Z) (s s' : bio) : Prop := {
  in_ok : bc_ok s';
  in_lock : forall y, blocked s' y = blocked s y;
  in_ref : forall i, t <= i < n -> refs s' (lblk l i) = refs s (lblk l i) + (if recovering then 0 else -1);
  in_ref_other : forall y, (forall i, t <= i < n -> y <> lblk l i) -> refs s' y = refs s y;
  in_view : forall i, t <= i < n -> view s' (lblk l i) = view s (st + i + 1);
  in_view_other : forall y, (forall i, t <= i < n -> y <> lblk l i) -> view s' y = view s y;
}.

Lemma moved_installed recovering t s s' : 0 <= t < n -> takeable s ->
  moved s (st + t + 1) (lblk l t) s' (lblk l t) (st + t + 1) 0 (if negb recovering then -1 else 0) ->
  bc_ok s' /\ (forall y, blocked s' y = blocked s y) /\
  refs s' (lblk l t) = refs s (lblk l t) + (if recovering then 0 else -1) /\
  (forall y, y <> lblk l t -> refs s' y = refs s y /\ view s' y = view s y) /\
  view s' (lblk l t) = view s (st + t + 1) /\ dsk s' = (lblk l t, view s (st + t + 1)) :: dsk s.
Proof.
  intros Ht [Hl Hh] (Ev & Va & Vb & Ra & Rb & La & Lb & Dk).
  destruct (Hl t Ht) as [Fa _], (Hh t Ht) as [Fb _].
  assert (forall y, (y ∉ [st + t + 1; lblk l t]) -> same_at s s' y) as Hsame by apply (ev_same _ _ _ Ev).
  split; [exact (ev_ok _ _ _ Ev)|]. split.
  { intros y. destruct (decide (y ∈ [st + t + 1; lblk l t])) as [Hy|Hy].
    - apply elem_of_cons in Hy as [-> | ->%list_elem_of_singleton]; congruence.
    - by destruct (Hsame y Hy) as (_ & _ & E). }
  split; [destruct recovering; exact Rb|]. split; [|split; [exact Va|exact Dk]].
  intros y Hy. destruct (Z.eq_dec y (st + t + 1)) as [->|Hy']; [split; [lia|exact Vb]|].
  destruct (Hsame y) as (E & F & _); [|done]. rewrite !not_elem_of_cons. split_and!; [done..|apply not_elem_of_nil].
Qed.

Lemma install_step recovering t c s : 0 <= t < n -> bio_cpu c -> unlocked L_pr c -> bc_ok s ->
  takeable s -> refs_in s P -> (recovering = false -> 0 < refs s (lblk l t)) ->
  exists c' s', later c c' /\
    (forall k, install_loop (S k) t recovering c (Lst s l) = install_loop k (t + 1) recovering c' (Lst s' l)) /\
    bc_ok s' /\ (forall y, blocked s' y = blocked s y) /\
    refs s' (lblk l t) = refs s (lblk l t) + (if recovering then 0 else -1) /\
    (forall y, y <> lblk l t -> refs s' y = refs s y /\ view s' y = view s y) /\
    view s' (lblk l t) = view s (st + t + 1) /\ dsk s' = (lblk l t, view s (st + t + 1)) :: dsk s.
Proof.
  intros Htn Hcpu Hpr Hok Htk HP Hpin. pose proof Htk as [Hl Hh].
  destruct (Hl t Htn) as [La Sa], (Hh t Htn) as [Lb Sb].
  assert (exists c0, later c c0 /\
    (if recovering
     then (_ ← printf false (chars "recovering tail %d dst %d" ++ [10]) [VInt t; VInt (lblk l t)]; mret tt)
     else mret tt) c (Lst s l) = Done tt c0 (Lst s l)) as (c0 & Hlt0 & E0).
  { destruct recovering; [|by exists c; split; [apply later_refl|]].
    destruct (printf_later (chars "recovering tail %d dst %d" ++ [10]) [VInt t; VInt (lblk l t)] c (Lst s l)
      (bp_cpu _ Hcpu) Hpr) as (c0 & E & Hlt). exists c0. split; [done|]. by rewrite (bind_done _ _ _ _ _ _ _ E). }
  destruct (copy_home c0 s P (st + t + 1) (lblk l t) (later_cpu _ _ Hlt0 Hcpu) Hok (log_ne_home t t Htn Htn)
    La Lb Sa Sb HP Hlen (negb recovering)) as
    (i & j & s1 & s2 & s4 & s5 & c6 & s6 & c7 & s7 & E1 & E2 & E4 & E5 & E6 & E7 & _ & Hlt & Hm).
  { destruct recovering; [done|]. intros _. by apply Hpin. }
  exists c7, s7. split; [by eapply later_trans|]. split; [|by apply moved_installed].
  intros k. cbn [install_loop]. unfold glog at 1. cbv beta iota delta [mbind K_bind gets]. cbn [l_log].
  unfold mbind, K_bind in E0. rewrite E0. cbv beta iota. rewrite log_dev_addr, log_addr, home_addr by done.
  rewrite (zoom_bio _ _ _ l _ _ _ E1). cbv beta iota.
  rewrite (zoom_bio _ _ _ l _ _ _ E2). cbv beta iota. unfold bdata, set_bdata, gets.
  cbn [l_bio]. set (s3 := upd_buf j _ s2) in *. unfold ub.
  rewrite (zoom_bio (modify _) c0 s2 l tt c0 s3) by reflexivity. cbv beta iota.
  rewrite (zoom_bio _ _ _ l _ _ _ E4). cbv beta iota.
  assert ((if recovering then mret tt else zoom bioA (bunpin j)) c0 (Lst s4 l) = Done tt c0 (Lst s5 l)) as ->.
  { destruct recovering; simpl in E5; [by subst s5|]. by apply zoom_bio. }
  cbv beta iota. rewrite (zoom_bio _ _ _ l _ _ _ E6). cbv beta iota.
  by rewrite (zoom_bio _ _ _ l _ _ _ E7).
Qed.

Lemma install_loop_spec recovering k : forall t c s,
  0 <= t -> t + Z.of_nat k = n -> bio_cpu c -> unlocked L_pr c -> bc_ok s -> takeable s -> refs_in s P ->
  (recovering = false -> forall i, t <= i < n -> 0 < refs s (lblk l i)) ->
  exists c' s', install_loop k t recovering c (Lst s l) = Done tt c' (Lst s' l) /\
    later c c' /\ installed recovering t s s' /\
    dsk s' = reverse ((fun i => (lblk l i, view s (st + i + 1))) <$> seqZ t (Z.of_nat k)) ++ dsk s.
Proof.
  induction k as [|k IH]; intros t c s Ht Hk Hcpu Hpr Hok Htk HP Hpin.
  - exists c, s. split; [done|]. split; [apply later_refl|]. split; [|done].
    split; [done|done|intros; lia|done|intros; lia|done].
  - assert (0 <= t < n) as Htn by lia.
    destruct (install_step recovering t c s Htn Hcpu Hpr Hok Htk HP) as
      (c1 & s1 & Hlt & E & Hok1 & L1 & R1 & O1 & V1 & D1).
    { intros Hr. apply Hpin; [done|lia]. }
    assert (forall i, t + 1 <= i < n -> lblk l i <> lblk l t) as Hd.
    { intros i Hi E'. apply (tx_nodup _ _ _ HT) in E'; lia. }
    pose proof Htk as [Hl Hh].
    destruct (IH (t + 1) c1 s1) as (c' & s' & E' & Hlt' & Hin & D').
    { lia. } { lia. } { eauto with xv6. } { eauto with xv6. } { done. }
    { split; intros i Hi; rewrite L1.
      - destruct (Hl i Hi) as [? Hs]. split; [done|]. unfold small.
        destruct (O1 (st + i + 1)) as [-> _]; [by apply log_ne_home|exact Hs].
      - destruct (Hh i Hi) as [? Hs]. split; [done|]. unfold small in *.
        destruct (Z.eq_dec (lblk l i) (lblk l t)) as [Ei|Ei].
        + rewrite Ei in *. rewrite R1. destruct recovering; [lia|]. pose proof (Hpin eq_refl t). lia.
        + destruct (O1 (lblk l i) Ei) as [-> _]. done. }
    { intros x Hx. apply HP. destruct (Z.eq_dec x (lblk l t)) as [->|Hne].
      - rewrite R1 in Hx. destruct recovering; [lia|]. pose proof (Hpin eq_refl t). lia.
      - by destruct (O1 x Hne) as [<- _]. }
    { intros Hr i Hi. destruct (O1 (lblk l i) (Hd i Hi)) as [-> _]. apply Hpin; [done|lia]. }
    destruct Hin as [I1 I2 I3 I4 I5 I6].
    exists c', s'. split; [by rewrite E|]. split; [by eapply later_trans|]. split; [split|].
    + done.
    + intros y. by rewrite I2.
    + intros i Hi. destruct (Z.eq_dec i t) as [->|Hne].
      * rewrite I4; [exact R1|]. intros j Hj. by apply not_eq_sym, Hd.
      * rewrite I3 by lia. destruct (O1 (lblk l i)) as [-> _]; [apply Hd; lia|reflexivity].
    + intros y Hy. rewrite I4 by (intros ? ?; apply Hy; lia). apply O1, Hy. lia.
    + intros i Hi. destruct (Z.eq_dec i t) as [->|Hne].
      * rewrite I6; [exact V1|]. intros j Hj. by apply not_eq_sym, Hd.
      * rewrite I5 by lia. apply O1, log_ne_home; lia.
    + intros y Hy. rewrite I6 by (intros ? ?; apply Hy; lia). apply O1, Hy. lia.
    + rewrite D', D1. rewrite (seqZ_cons t) by lia. rewrite fmap_cons, reverse_cons, <- app_assoc.
      replace (Z.pred (Z.of_nat (S k))) with (Z.of_nat k) by lia. simpl.
      f_equal. f_equal. replace (Z.succ t) with (t + 1) by lia. apply list_fmap_ext.
      intros m i Hi%lookup_seqZ. f_equal. apply O1, log_ne_home; lia.
Qed.
End Loops.

(** ** The header block *)

(** A block nobody refers to is as on the disk. *)
Lemma view_unreferenced s x : bc_ok s -> refs s x = 0 -> view s x = dget (dsk s) x.
Proof.
  intros Hok H0. unfold view, refs in *. destruct (find_buf s x) as [k|] eqn:F; [|done].
  apply find_buf_some in F as Fc; [|done]. destruct (b_valid (buf_at s k)) eqn:Hv; [|done].
  pose proof Fc as (Hk & _ & Ek). destruct (bo_free _ Hok k Hk H0) as [_ Hd]. by rewrite (Hd Hv), Ek.
Qed.

Lemma same_use_one x s s' : (forall y, y <> x -> same_at s s' y) ->
  refs s' x = refs s x -> blocked s' x = blocked s x -> same_use s s'.
Proof.
  intros H R L y. destruct (Z.eq_dec y x) as [->|Hy]; [done|]. by destruct (H y Hy) as (_ & ? & ?).
Qed.

Section One.
Context {D : DiskDriver} {DOK : DiskDriverOk D}.
Variables (c : ctx) (s : bio) (P : list Z) (x : Z).
Hypotheses (Hcpu : bio_cpu c) (Hok : bc_ok s) (Hl : blocked s x = free_lock) (Hs : small s x)
  (HP : refs_in s P) (Hlen : (length P < 30)%nat).

Lemma write_one : exists i s1, bread ROOTDEV x c s = Done i c s1 /\ b_data (buf_at s1 i) = view s x /\
  forall d, exists c' s',
    let s2 := upd_buf i (set_data d) s1 in
    bwrite i c s2 = Done tt c (wrote x s2) /\ brelse i c (wrote x s2) = Done tt c' s' /\
    later c c' /\ bc_ok s' /\ same_use s s' /\ view s' x = d /\
    (forall y, y <> x -> view s' y = view s y) /\ dsk s' = (x, d) :: dsk s.
Proof.
  unfold small in *.
  destruct (bread_spec c s Hcpu Hok x) as (i & s1 & E1 & H1 & On1 & V1 & R1 & D1).
  { by rewrite Hl. } { right. by apply (room_from_refs s P). } { lia. }
  pose proof (on_ok _ _ _ On1) as Hok1. exists i, s1. split; [exact E1|].
  split; [by rewrite <- (view_held c s1 x i Hok1 H1)|]. intros d.
  destruct (set_data_spec c s1 Hok1 x i d H1) as (H2 & On2 & V2 & R2 & D2).
  set (s2 := upd_buf i _ s1) in *. pose proof (on_ok _ _ _ On2) as Hok2.
  destruct (bwrite_spec c s2 Hcpu Hok2 x i H2) as (E3 & H3 & On3 & V3 & R3).
  pose proof (on_ok _ _ _ On3) as Hok3.
  destruct (brelse_spec c (wrote x s2) x i Hcpu Hok3 H3) as (E4 & On4 & V4 & R4 & D4 & L4); [lia| |].
  { intros _. simpl. by rewrite Z.eqb_refl, V3. }
  eexists _, (released i (wrote x s2)). split; [exact E3|]. split; [exact E4|].
  split; [eexists; reflexivity|]. split; [exact (on_ok _ _ _ On4)|].
  assert (forall y, y <> x -> same_at s (released i (wrote x s2)) y) as Hsame.
  { intros y Hy. destruct (on_same _ _ _ On1 y Hy) as (? & ? & ?), (on_same _ _ _ On2 y Hy) as (? & ? & ?),
      (on_same _ _ _ On3 y Hy) as (? & ? & ?), (on_same _ _ _ On4 y Hy) as (? & ? & ?). repeat split; congruence. }
  split; [apply (same_use_one x); [exact Hsame|lia|by rewrite L4, Hl]|].
  split; [congruence|]. split; [intros y Hy; apply Hsame, Hy|].
  rewrite D4. change (dsk (wrote x s2)) with ((x, view s2 x) :: dsk s2). by rewrite V2, D2, D1.
Qed.

Lemma read_one : exists i s1 c' s', bread ROOTDEV x c s = Done i c s1 /\ b_data (buf_at s1 i) = view s x /\
  brelse i c s1 = Done tt c' s' /\ later c c' /\ bc_ok s' /\ same_use s s' /\
  (forall y, view s' y = view s y) /\ dsk s' = dsk s.
Proof.
  unfold small in *.
  destruct (bread_spec c s Hcpu Hok x) as (i & s1 & E1 & H1 & On1 & V1 & R1 & D1).
  { by rewrite Hl. } { right. by apply (room_from_refs s P). } { lia. }
  pose proof (on_ok _ _ _ On1) as Hok1.
  destruct (brelse_spec c s1 x i Hcpu Hok1 H1) as (E4 & On4 & V4 & R4 & D4 & L4); [lia| |].
  { intros H0. rewrite D1, V1. apply view_unreferenced; [done|lia]. }
  exists i, s1. eexists _, (released i s1). split; [exact E1|].
  split; [by rewrite <- (view_held c s1 x i Hok1 H1)|]. split; [exact E4|].
  split; [eexists; reflexivity|]. split; [exact (on_ok _ _ _ On4)|].
  assert (forall y, y <> x -> same_at s (released i s1) y) as Hsame.
  { intros y Hy. destruct (on_same _ _ _ On1 y Hy) as (? & ? & ?), (on_same _ _ _ On4 y Hy) as (? & ? & ?).
    repeat split; congruence. }
  split; [apply (same_use_one x); [exact Hsame|lia|by rewrite L4, Hl]|].
  split; [|congruence]. intros y. destruct (Z.eq_dec y x) as [->|Hy]; [congruence|]. apply Hsame, Hy.
Qed.
End One.

#[global] Opaque find_buf view refs blocked.

(** The header write_head produces from the bytes [d] of the block. *)
Definition header (l : log) (d : block) : block :=
  write_head_loop (Z.to_nat (lh_n l)) 0 l (put32 0 (lh_n l) d).

Lemma length_write_head_loop k : forall i l d, 0 <= i -> i + Z.of_nat k <= LOGBLOCKS ->
  length d = 1024%nat -> length (write_head_loop k i l d) = 1024%nat.
Proof.
  induction k as [|k IH]; intros i l d Hi Hk Hd; [done|]. cbn [write_head_loop].
  change LOGBLOCKS with 30 in *. apply IH; [lia|lia|]. rewrite length_put_le; lia.
Qed.

Lemma write_head_loop_other k : forall i l d off, 0 <= i -> i + Z.of_nat k <= LOGBLOCKS ->
  length d = 1024%nat -> 0 <= off -> off + 4 <= 4 + 4 * i ->
  get32 off (write_head_loop k i l d) = get32 off d.
Proof.
  induction k as [|k IH]; intros i l d off Hi Hk Hd Ho Hlt; [done|]. cbn [write_head_loop].
  change LOGBLOCKS with 30 in *.
  rewrite IH by (rewrite ?length_put_le; lia). apply get_put_other; lia.
Qed.

Lemma write_head_loop_get k : forall i l d j, 0 <= i -> i + Z.of_nat k <= LOGBLOCKS ->
  length d = 1024%nat -> i <= j < i + Z.of_nat k ->
  get32 (4 + 4 * j) (write_head_loop k i l d) = u32 (lblk l j).
Proof.
  induction k as [|k IH]; intros i l d j Hi Hk Hd Hj; [lia|]. cbn [write_head_loop].
  change LOGBLOCKS with 30 in *. destruct (Z.eq_dec j i) as [->|Hne].
  - rewrite write_head_loop_other by (change LOGBLOCKS with 30; rewrite ?length_put_le; lia).
    apply get_put_same; lia.
  - apply IH; try lia. rewrite length_put_le; lia.
Qed.

(** Decoding, as read_head does. *)
Definition hdr_n (d : block) : Z := i32 (get32 0 d).
Definition hdr_block (d : block) (i : Z) : Z := i32 (get32 (4 + 4 * i) d).

Lemma i32_small x : 0 <= x < 2 ^ 31 -> i32 x = x.
Proof. intros. apply s_small; [lia|]. unfold in_s. lia. Qed.

Lemma header_spec l d st n : txn l st n -> lh_n l = n -> length d = 1024%nat ->
  length (header l d) = 1024%nat /\ hdr_n (header l d) = n /\
  forall i, 0 <= i < n -> hdr_block (header l d) i = lblk l i.
Proof.
  intros HT Hn Hd. pose proof (tx_n _ _ _ HT) as Hr. unfold header, hdr_n, hdr_block. rewrite Hn.
  assert (length (put32 0 n d) = 1024%nat) as Hp by (rewrite length_put_le; lia).
  split; [apply length_write_head_loop; [lia|lia|done]|]. split.
  - rewrite write_head_loop_other by lia. rewrite get_put_same by lia. change LOGBLOCKS with 30 in Hr.
    rewrite Z.mod_small by lia. apply i32_small. lia.
  - intros i Hi. rewrite write_head_loop_get by lia. destruct (tx_home _ _ _ HT i Hi) as [Hh _].
    rewrite u_small by lia. apply i32_small. lia.
Qed.

Lemma header_empty l d : lh_n l = 0 -> length d = 1024%nat ->
  length (header l d) = 1024%nat /\ hdr_n (header l d) = 0.
Proof.
  intros Hn Hd. unfold header, hdr_n. rewrite Hn. change (Z.to_nat 0) with O. cbn [write_head_loop].
  split; [rewrite length_put_le; lia|].
  rewrite get_put_same by lia. done.
Qed.

Lemma head_addr l st : lg_dev l = ROOTDEV -> lg_start l = st -> 0 <= st < 2 ^ 30 ->
  u32 (lg_dev l) = ROOTDEV /\ u32 (lg_start l) = st.
Proof. intros -> -> H. split; [done|]. apply u_small. lia. Qed.

Section Head.
Context {D : DiskDriver} {DOK : DiskDriverOk D}.
Variables (c : ctx) (s : bio) (l : log) (P : list Z) (st : Z).
Hypotheses (Hdev : lg_dev l = ROOTDEV) (Hst : lg_start l = st) (Hst' : 0 <= st < 2 ^ 30)
  (Hcpu : bio_cpu c) (Hok : bc_ok s) (Hl : blocked s st = free_lock) (Hs : small s st)
  (HP : refs_in s P) (Hlen : (length P < 30)%nat).

Lemma write_head_spec : exists c' s', write_head c (Lst s l) = Done tt c' (Lst s' l) /\
  later c c' /\ bc_ok s' /\ same_use s s' /\ view s' st = header l (view s st) /\
  (forall y, y <> st -> view s' y = view s y) /\ dsk s' = (st, header l (view s st)) :: dsk s.
Proof.
  destruct (write_one c s P st Hcpu Hok Hl Hs HP Hlen) as (i & s1 & E1 & Ed & H).
  destruct (H (header l (view s st))) as (c' & s' & E2 & E3 & Hlt & Hok' & Hu & V & Vo & Dk).
  exists c', s'. split; [|by split_and!].
  destruct (head_addr l st Hdev Hst Hst') as [A1 A2]. unfold write_head, glog. krun. cbn [l_log]. rewrite A1, A2.
  rewrite (zoom_bio _ _ _ l _ _ _ E1). cbv beta iota. unfold bdata, set_bdata, gets. cbn [l_bio].
  rewrite Ed. fold (header l (view s st)). set (s2 := upd_buf i _ s1) in *. unfold ub.
  rewrite (zoom_bio (modify _) c s1 l tt c s2) by reflexivity. cbv beta iota.
  rewrite (zoom_bio _ _ _ l _ _ _ E2). cbv beta iota. exact (zoom_bio _ _ _ l _ _ _ E3).
Qed.
End Head.

(** The block numbers as read_head leaves them in the log. *)
Lemma read_head_loop_spec k : forall i d c s l, length (lh_block l) = 30%nat ->
  0 <= i -> i + Z.of_nat k <= LOGBLOCKS ->
  exists l', read_head_loop k i d c (Lst s l) = Done tt c (Lst s l') /\
    length (lh_block l') = 30%nat /\ lg_start l' = lg_start l /\ lg_dev l' = lg_dev l /\ lh_n l' = lh_n l /\
    lg_outstanding l' = lg_outstanding l /\ lg_committing l' = lg_committing l /\
    (forall j, i <= j < i + Z.of_nat k -> lblk l' j = hdr_block d j) /\
    (forall j, 0 <= j < i -> lblk l' j = lblk l j).
Proof.
  change LOGBLOCKS with 30. induction k as [|k IH]; intros i d c s l Hl Hi Hk.
  - exists l. split; [done|]. split_and!; try done. intros; lia.
  - destruct (IH (i + 1) d c s (set_block i (hdr_block d i) l)) as
      (l' & E & H1 & H2 & H3 & H4 & H5 & H6 & H7 & H8); [simpl; by rewrite length_insert|lia|lia|].
    assert (forall j, 0 <= j < 30 -> lblk (set_block i (hdr_block d i) l) j = if j =? i then hdr_block d i else lblk l j) as Hb.
    { intros j Hj. unfold lblk. simpl. rewrite !nth_lookup.
      destruct (Z.eqb_spec j i) as [->|Hne].
      - rewrite list_lookup_insert_eq by lia. done.
      - rewrite list_lookup_insert_ne by lia. done. }
    exists l'. split; [exact E|]. split_and!; try done.
    + intros j Hj. destruct (Z.eq_dec j i) as [->|Hne]; [|apply H7; lia].
      rewrite H8 by lia. rewrite Hb by lia. by rewrite Z.eqb_refl.
    + intros j Hj. rewrite H8 by lia. rewrite Hb by lia. by rewrite (proj2 (Z.eqb_neq j i)) by lia.
Qed.

(** A header that names at most LOGBLOCKS distinct blocks outside the log. *)
Record hdr_ok (st : Z) (h : block) : Prop := {
  ho_len : length h = 1024%nat;
  ho_n : 0 <= hdr_n h <= LOGBLOCKS;
  ho_home : forall i, 0 <= i < hdr_n h ->
    0 <= hdr_block h i < 2 ^ 31 /\ ~ (st <= hdr_block h i <= st + LOGBLOCKS);
  ho_nodup : forall i j, 0 <= i < hdr_n h -> 0 <= j < hdr_n h -> hdr_block h i = hdr_block h j -> i = j;
}.

Section ReadHead.
Context {D : DiskDriver} {DOK : DiskDriverOk D}.
Variables (c : ctx) (s : bio) (l : log) (P : list Z) (st : Z).
Hypotheses (Hdev : lg_dev l = ROOTDEV) (Hst : lg_start l = st) (Hst' : 0 <= st < 2 ^ 30)
  (Hcpu : bio_cpu c) (Hok : bc_ok s) (Hl : blocked s st = free_lock) (Hs : small s st)
  (HP : refs_in s P) (Hlen : (length P < 30)%nat) (Hblk : length (lh_block l) = 30%nat)
  (Hh : hdr_ok st (view s st)).

Lemma read_head_spec : exists c' s' l', read_head c (Lst s l) = Done tt c' (Lst s' l') /\
  later c c' /\ bc_ok s' /\ same_use s s' /\ (forall y, view s' y = view s y) /\ dsk s' = dsk s /\
  txn l' st (hdr_n (view s st)) /\ lh_n l' = hdr_n (view s st) /\ length (lh_block l') = 30%nat /\
  (forall i, 0 <= i < hdr_n (view s st) -> lblk l' i = hdr_block (view s st) i) /\
  lg_outstanding l' = lg_outstanding l /\ lg_committing l' = lg_committing l.
Proof.
  destruct (read_one c s P st Hcpu Hok Hl Hs HP Hlen) as (i & s1 & c' & s' & E1 & Ed & E2 & Hlt & Hok' & Hu & V & Dk).
  set (h := view s st) in *. pose proof (ho_n _ _ Hh) as Hn.
  destruct (read_head_loop_spec (Z.to_nat (hdr_n h)) 0 h c s1 (set_n (hdr_n h) l)) as
    (l' & E & H1 & H2 & H3 & H4 & H5 & H6 & H7 & H8); [done|lia|lia|].
  exists c', s', l'. split.
  { destruct (head_addr l st Hdev Hst Hst') as [A1 A2]. unfold read_head, glog, ulog. krun. cbn [l_log].
    rewrite A1, A2. rewrite (zoom_bio _ _ _ l _ _ _ E1). cbv beta iota. unfold bdata, gets. cbn [l_bio l_log].
    rewrite Ed. fold (hdr_n h). change (lh_n (set_n (hdr_n h) l)) with (hdr_n h). rewrite E. cbv beta iota.
    exact (zoom_bio _ _ _ l' _ _ _ E2). }
  assert (forall i, 0 <= i < hdr_n h -> lblk l' i = hdr_block h i) as Hb by (intros k Hk; apply H7; lia).
  split; [done|]. split; [done|]. split; [done|]. split; [done|]. split; [done|].
  split; [|by split_and!]. split; [by rewrite H3|by rewrite H2|done|done| |].
  - intros k Hk. rewrite Hb by done. by apply (ho_home _ _ Hh).
  - intros k k' Hk Hk'. rewrite !Hb by done. by apply (ho_nodup _ _ Hh).
Qed.
End ReadHead.

(** ** commit *)

Definition log_part (l : log) (st n : Z) (v : Z -> block) : list (Z * block) :=
  (fun i => (st + i + 1, v (lblk l i))) <$> seqZ 0 n.
Definition home_part (l : log) (n : Z) (v : Z -> block) : list (Z * block) :=
  (fun i => (lblk l i, v (lblk l i))) <$> seqZ 0 n.
(** The disk writes of commit, in order: the blocks to the log, the header, the
    blocks to their homes, the erased header. *)
Definition commit_writes (l : log) (st n : Z) (v : Z -> block) : list (Z * block) :=
  log_part l st n v ++ [(st, header l (v st))] ++
  home_part l n v ++ [(st, header (set_n 0 l) (header l (v st)))].

Record can_commit (c : ctx) (s : bio) (l : log) (st n : Z) (P : list Z) : Prop := {
  cc_cpu : bio_cpu c;
  cc_pr : unlocked L_pr c;
  cc_ok : bc_ok s;
  cc_take : takeable l st n s;
  cc_head : blocked s st = free_lock /\ small s st;
  cc_refs : refs_in s P;
  cc_pin : forall i, 0 <= i < n -> 0 < refs s (lblk l i);
}.

Section Commit.
Context {D : DiskDriver} {DOK : DiskDriverOk D}.

Lemma commit_spec c s l st n P : txn l st n -> lh_n l = n -> 0 < n -> (length P < 29)%nat ->
  can_commit c s l st n P ->
  exists c' s', commit c (Lst s l) = Done tt c' (Lst s' (set_n 0 l)) /\ later c c' /\ bc_ok s' /\
    dsk s' = reverse (commit_writes l st n (view s)) ++ dsk s /\
    (forall y, blocked s' y = blocked s y) /\
    (forall i, 0 <= i < n -> refs s' (lblk l i) = refs s (lblk l i) - 1) /\
    (forall y, (forall i, 0 <= i < n -> y <> lblk l i) -> refs s' y = refs s y) /\
    (forall y, ~ (st <= y <= st + n) -> view s' y = view s y).
Proof.
  intros HT Hn H0 HP [Hcpu Hpr Hok Htk [Hhl Hhs] Hri Hpin].
  pose proof (tx_dev _ _ _ HT) as Hdev. pose proof (tx_start _ _ _ HT) as Hst. pose proof (tx_st _ _ _ HT) as Hst'.
  (* write_log *)
  destruct (write_log_loop_spec l st n P HT HP (Z.to_nat n) 0 c s) as (c1 & s1 & E1 & L1 & Ok1 & U1 & V1 & O1 & D1);
    [lia|lia|done..|]. rewrite Z2Nat.id in D1 by lia.
  (* write_head *)
  assert (view s1 st = view s st) as Es by (apply O1; intros i Hi; lia).
  destruct (write_head_spec c1 s1 l P st Hdev Hst Hst') as (c2 & s2 & E2 & L2 & Ok2 & U2 & V2 & O2 & D2).
  { eauto with xv6. } { done. } { by destruct (U1 st) as [_ ->]. } { unfold small. by destruct (U1 st) as [-> _]. }
  { exact (refs_in_same P s s1 U1 Hri). } { lia. }
  pose proof (same_use_trans _ _ _ U1 U2) as U12. rewrite Es in V2, D2.
  (* install_trans *)
  destruct (install_loop_spec l st n P HT HP false (Z.to_nat n) 0 c2 s2) as (c3 & s3 & E3 & L3 & I3 & D3).
  { lia. } { lia. } { eauto with xv6. } { eauto with xv6. } { done. }
  { exact (takeable_same l st n s s2 U12 Htk). } { exact (refs_in_same P s s2 U12 Hri). }
  { intros _ i Hi. destruct (U12 (lblk l i)) as [-> _]. by apply Hpin. }
  rewrite Z2Nat.id in D3 by lia. destruct I3 as [Ok3 Lk3 R3 Ro3 V3 Vo3].
  assert (forall i, 0 <= i < n -> st <> lblk l i) as Hsh.
  { intros i Hi E. destruct (tx_home _ _ _ HT i Hi) as [_ H]. pose proof (tx_n _ _ _ HT). lia. }
  assert (forall i, 0 <= i < n -> view s2 (st + i + 1) = view s (lblk l i)) as Vlog.
  { intros i Hi. rewrite O2 by lia. by apply V1. }
  (* write_head, empty *)
  destruct (write_head_spec c3 s3 (set_n 0 l) P st Hdev Hst Hst') as (c4 & s4 & E4 & L4 & Ok4 & U4 & V4 & O4 & D4).
  { eauto 10 with xv6. } { done. } { rewrite Lk3. by destruct (U12 st) as [_ ->]. }
  { unfold small. rewrite Ro3 by (intros ? ?; by apply Hsh). by destruct (U12 st) as [-> _]. }
  { intros x Hx. destruct (decide (Exists (fun i => x = lblk l i) (seqZ 0 n))) as [He|He].
    - apply Exists_exists in He as (i & Hi%elem_of_seqZ & ->). apply Hri. pose proof (Hpin i). lia.
    - apply Hri. destruct (U12 x) as [<- _]. rewrite <- Ro3; [done|]. intros i Hi E. apply He, Exists_exists.
      exists i. split; [apply elem_of_seqZ; lia|done]. }
  { lia. }
  exists c4, s4. split; [|split; [|split; [done|split; [|split; [|split; [|split]]]]]].
  - unfold commit, glog. krun. cbn [l_log]. rewrite Hn. rewrite (proj2 (Z.gtb_lt n 0)) by lia.
    unfold write_log, install_trans, glog, ulog. krun. cbn [l_log]. rewrite Hn, E1, E2. cbv beta iota. cbn [l_log].
    rewrite Hn, E3. cbv beta iota. cbn [l_log l_bio]. exact E4.
  - eapply later_trans; [|exact L4]. eapply later_trans; [|exact L3]. by eapply later_trans.
  - rewrite D4, D3, D2, D1. rewrite Vo3 by (intros ? ?; by apply Hsh). rewrite V2.
    unfold commit_writes, log_part, home_part. rewrite !reverse_app. simpl. rewrite <- !app_assoc. simpl.
    f_equal. f_equal. f_equal. apply list_fmap_ext. intros k i Hi%lookup_seqZ. f_equal. apply Vlog. lia.
  - intros y. destruct (U4 y) as [_ ->]. rewrite Lk3. by destruct (U12 y) as [_ ->].
  - intros i Hi. destruct (U4 (lblk l i)) as [-> _]. rewrite R3 by lia. destruct (U12 (lblk l i)) as [-> _]. lia.
  - intros y Hy. destruct (U4 y) as [-> _]. rewrite Ro3 by done. by destruct (U12 y) as [-> _].
  - intros y Hy. pose proof (tx_n _ _ _ HT) as Hn30. rewrite O4 by lia.
    destruct (decide (Exists (fun i => y = lblk l i) (seqZ 0 n))) as [He|He].
    + apply Exists_exists in He as (i & Hi%elem_of_seqZ & ->). rewrite V3 by lia. apply Vlog. lia.
    + rewrite Vo3, O2, O1; [done|intros i Hi; lia|lia|]. intros i Hi E. apply He, Exists_exists.
      exists i. split; [apply elem_of_seqZ; lia|done].
Qed.
End Commit.

(** ** Crashes *)

(** The blocks of the file system a disk stands for: what recovery would make
    of it.  A block named by the header is in the log. *)
Definition log_abs (st : Z) (d : disk) (x : Z) : block :=
  let h := dget d st in
  match List.find (fun i => hdr_block h i =? x) (seqZ 0 (hdr_n h)) with
  | Some i => dget d (st + i + 1)
  | None => dget d x
  end.

(** Blocks of the file system proper. *)
Definition home (st x : Z) : Prop := ~ (st <= x <= st + LOGBLOCKS).

Lemma dget_app_other ws d x : (forall y v, (y, v) ∈ ws -> y <> x) -> dget (reverse ws ++ d) x = dget d x.
Proof.
  induction ws as [|[y v] ws IH] using rev_ind; intros H; [done|].
  rewrite reverse_app. simpl. rewrite (proj2 (Z.eqb_neq y x)).
  - apply IH. intros y' v' Hin. apply (H y' v'), elem_of_app. by left.
  - apply (H y v), elem_of_app. right. by left.
Qed.

Lemma dget_app_in ws d x v : (x, v) ∈ ws -> (forall v', (x, v') ∈ ws -> v' = v) ->
  dget (reverse ws ++ d) x = v.
Proof.
  induction ws as [|[y w] ws IH] using rev_ind; intros Hin Hu; [by apply elem_of_nil in Hin|].
  rewrite reverse_app. simpl. destruct (Z.eqb_spec y x) as [->|Hne].
  - apply Hu, elem_of_app. right. by left.
  - apply IH; [|intros v' Hv'; apply Hu, elem_of_app; by left].
    apply elem_of_app in Hin as [|[= -> ->]%list_elem_of_singleton]; done.
Qed.

Lemma log_abs_empty st d x : hdr_n (dget d st) = 0 -> log_abs st d x = dget d x.
Proof. unfold log_abs. intros ->. done. Qed.

(** A committed header: log blocks stand for their homes. *)
Lemma log_abs_in st d i : hdr_ok st (dget d st) -> 0 <= i < hdr_n (dget d st) ->
  log_abs st d (hdr_block (dget d st) i) = dget d (st + i + 1).
Proof.
  intros Hh Hi. unfold log_abs. destruct (List.find _ _) as [j|] eqn:E.
  - apply find_elem in E as [Hj%elem_of_seqZ E%Z.eqb_eq]. f_equal.
    assert (j = i); [|lia]. apply (ho_nodup _ _ Hh); [lia|done|done].
  - exfalso. eapply List.find_none in E; [|apply list_elem_of_In, (elem_of_seqZ _ _ i); lia].
    by rewrite Z.eqb_refl in E.
Qed.
Lemma log_abs_out st d x : (forall i, 0 <= i < hdr_n (dget d st) -> hdr_block (dget d st) i <> x) ->
  log_abs st d x = dget d x.
Proof.
  intros H. unfold log_abs. destruct (List.find _ _) as [j|] eqn:E; [|done].
  apply find_elem in E as [Hj%elem_of_seqZ E%Z.eqb_eq]. exfalso. apply (H j); [lia|done].
Qed.

Lemma take_elem {A} (x : A) k l : x ∈ take k l -> x ∈ l.
Proof. intros (i & Hi & _)%elem_of_take. by eapply list_elem_of_lookup_2. Qed.

Section Crash.
Variables (l : log) (st n : Z) (v : Z -> block) (d0 : disk).
Hypotheses (HT : txn l st n) (Hn : lh_n l = n) (Hlen : length (v st) = 1024%nat)
  (Hempty : hdr_n (dget d0 st) = 0).

(** The contents after the transaction. *)
Definition txn_new (x : Z) : block :=
  if decide (Exists (fun i => x = lblk l i) (seqZ 0 n)) then v x else dget d0 x.

Lemma log_part_addr y w : (y, w) ∈ log_part l st n v -> st < y <= st + n /\ w = v (lblk l (y - st - 1)).
Proof.
  intros (i & [= -> ->] & Hi%elem_of_seqZ)%list_elem_of_fmap. split; [lia|]. do 2 f_equal. lia.
Qed.
Lemma home_part_addr y w : (y, w) ∈ home_part l n v -> home st y /\ w = v y /\ Exists (fun i => y = lblk l i) (seqZ 0 n).
Proof.
  intros (i & [= -> ->] & Hi)%list_elem_of_fmap. pose proof Hi as Hi'%elem_of_seqZ.
  split; [apply (tx_home _ _ _ HT); lia|]. split; [done|]. apply Exists_exists. by exists i.
Qed.

(** Before the header is written: only blocks of the log have changed. *)
Lemma crash_before ws x : (forall y w, (y, w) ∈ ws -> (y, w) ∈ log_part l st n v) -> home st x ->
  log_abs st (reverse ws ++ d0) x = dget d0 x.
Proof.
  intros Hws Hx. pose proof (tx_n _ _ _ HT) as Hr. unfold home in Hx.
  assert (forall z, ~ (st < z <= st + n) -> dget (reverse ws ++ d0) z = dget d0 z) as Hd.
  { intros z Hz. apply dget_app_other. intros y w Hin%Hws%log_part_addr ->. lia. }
  rewrite log_abs_empty by (rewrite Hd by lia; done). apply Hd. lia.
Qed.

Let d1 : disk := (st, header l (v st)) :: reverse (log_part l st n v) ++ d0.

(** Once the header is on the disk, and while the blocks go home. *)
Lemma crash_after ws x : (forall y w, (y, w) ∈ ws -> (y, w) ∈ home_part l n v) -> home st x ->
  log_abs st (reverse ws ++ d1) x = txn_new x.
Proof.
  intros Hws Hx. pose proof (tx_n _ _ _ HT) as Hr.
  destruct (header_spec l (v st) st n HT Hn Hlen) as (Hl1 & Hl2 & Hl3).
  assert (forall z, ~ home st z -> dget (reverse ws ++ d1) z = dget d1 z) as Hd.
  { intros z Hz. apply dget_app_other. intros y w Hin%Hws%home_part_addr ->. by destruct Hin as (? & _). }
  assert (dget (reverse ws ++ d1) st = header l (v st)) as Eh.
  { rewrite Hd by (unfold home; change LOGBLOCKS with 30 in *; lia). simpl. by rewrite Z.eqb_refl. }
  assert (forall i, 0 <= i < n -> dget (reverse ws ++ d1) (st + i + 1) = v (lblk l i)) as El.
  { intros i Hi. rewrite Hd by (unfold home; lia). simpl. rewrite (proj2 (Z.eqb_neq st _)) by lia.
    apply dget_app_in.
    - apply list_elem_of_fmap. exists i. split; [done|]. apply elem_of_seqZ. lia.
    - intros w [_ ->]%log_part_addr. do 2 f_equal. lia. }
  unfold txn_new. destruct (decide _) as [He|He].
  - apply Exists_exists in He as (i & Hi%elem_of_seqZ & ->).
    rewrite <- (Hl3 i) by lia. rewrite <- Eh. rewrite log_abs_in; [rewrite El by lia; by rewrite Eh, Hl3 by lia| |by rewrite Eh, Hl2; lia].
    rewrite Eh. split; [done|by rewrite Hl2| |]; rewrite Hl2.
    + intros j Hj. rewrite Hl3 by done. by apply (tx_home _ _ _ HT).
    + intros j j' Hj Hj'. rewrite !Hl3 by done. by apply (tx_nodup _ _ _ HT).
  - rewrite log_abs_out.
    + unfold d1. change (reverse ws ++ (st, header l (v st)) :: reverse (log_part l st n v) ++ d0)
        with (reverse ws ++ [(st, header l (v st))] ++ reverse (log_part l st n v) ++ d0).
      rewrite dget_app_other. 2:{ intros y w (_ & _ & ?)%Hws%home_part_addr ->. done. }
      simpl. unfold home in Hx. rewrite (proj2 (Z.eqb_neq st x)) by (change LOGBLOCKS with 30 in *; lia).
      apply dget_app_other. intros y w [? _]%log_part_addr ->. lia.
    + rewrite Eh, Hl2. intros i Hi E. rewrite Hl3 in E by done. apply He, Exists_exists. exists i.
      split; [apply elem_of_seqZ; lia|done].
Qed.

(** When the header is erased the homes hold the new contents. *)
Lemma crash_end x : home st x ->
  log_abs st ((st, header (set_n 0 l) (header l (v st))) :: reverse (home_part l n v) ++ d1) x = txn_new x.
Proof.
  intros Hx. pose proof (tx_n _ _ _ HT) as Hr. destruct (header_spec l (v st) st n HT Hn Hlen) as (Hl1 & _ & _).
  assert (st <> x) as Hne by (unfold home in Hx; change LOGBLOCKS with 30 in *; lia).
  rewrite log_abs_empty.
  - cbn [dget]. rewrite (proj2 (Z.eqb_neq st x)) by done. unfold txn_new. destruct (decide _) as [He|He].
    + apply dget_app_in.
      * apply Exists_exists in He as (i & Hi & ->). apply list_elem_of_fmap. by exists i.
      * intros w (_ & -> & _)%home_part_addr. done.
    + rewrite dget_app_other by (intros y w (_ & _ & ?)%home_part_addr ->; done).
      unfold d1. cbn [dget]. rewrite (proj2 (Z.eqb_neq st x)) by done.
      apply dget_app_other. intros y w [? _]%log_part_addr ->. unfold home in Hx. lia.
  - cbn [dget]. rewrite Z.eqb_refl. by apply header_empty.
Qed.

(** Every prefix of the writes of commit stands for the old or the new
    contents; the write of the header, after the [n] log blocks, is the switch. *)
Lemma commit_prefix k x : home st x ->
  log_abs st (reverse (take k (commit_writes l st n v)) ++ d0) x =
    if (k <=? Z.to_nat n)%nat then dget d0 x else txn_new x.
Proof.
  intros Hx. pose proof (tx_n _ _ _ HT) as Hr. unfold commit_writes.
  set (A := log_part l st n v) in *. set (B := home_part l n v) in *.
  assert (length A = Z.to_nat n) as <- by (unfold A, log_part; by rewrite length_fmap, length_seqZ).
  destruct (Nat.leb_spec k (length A)) as [Hk|Hk].
  - rewrite take_app_le by done. apply crash_before; [|done].
    intros y w Hin. by apply take_elem in Hin.
  - rewrite take_app_ge by lia.
    destruct (k - length A)%nat as [|m] eqn:Em; [lia|]. cbn [app take].
    destruct (le_gt_dec m (length B)) as [Hm|Hm].
    + rewrite take_app_le by done. rewrite reverse_app, reverse_cons, <- !app_assoc. apply crash_after; [|done].
      intros y w Hin. by apply take_elem in Hin.
    + rewrite take_app_ge by lia. destruct (m - length B)%nat as [|m'] eqn:Em'; [lia|]. cbn [take].
      rewrite take_nil. rewrite reverse_app, reverse_cons, reverse_app, <- !app_assoc. by apply crash_end.
Qed.

Lemma hdr_ok_empty h : length h = 1024%nat -> hdr_n h = 0 -> hdr_ok st h.
Proof. intros H1 H2. split; [done|rewrite H2; change LOGBLOCKS with 30; lia|intros; lia|intros; lia]. Qed.

Lemma hdr_ok_header : hdr_ok st (header l (v st)).
Proof.
  destruct (header_spec l (v st) st n HT Hn Hlen) as (Hl1 & Hl2 & Hl3).
  split; [done|rewrite Hl2; apply (tx_n _ _ _ HT)| |]; rewrite Hl2.
  - intros j Hj. rewrite Hl3 by done. by apply (tx_home _ _ _ HT).
  - intros j j' Hj Hj'. rewrite !Hl3 by done. by apply (tx_nodup _ _ _ HT).
Qed.

(** At every point the header on the disk is one recovery can follow. *)
Lemma commit_prefix_hdr k : length (dget d0 st) = 1024%nat ->
  hdr_ok st (dget (reverse (take k (commit_writes l st n v)) ++ d0) st).
Proof.
  intros H0. assert (Forall (fun p => p.1 = st -> hdr_ok st p.2) (take k (commit_writes l st n v))) as HF.
  { apply Forall_take. unfold commit_writes. apply Forall_app. split.
    { apply Forall_forall. intros [y w] [? _]%log_part_addr. simpl. lia. }
    apply Forall_cons. split; [intros _; apply hdr_ok_header|]. apply Forall_app. split.
    { apply Forall_forall. intros [y w] (Hh & _)%home_part_addr. simpl. intros ->. exfalso. apply Hh.
      change LOGBLOCKS with 30. lia. }
    apply Forall_singleton. intros _. simpl. destruct hdr_ok_header as [HL _ _ _].
    destruct (header_empty (set_n 0 l) (header l (v st)) eq_refl HL). by apply hdr_ok_empty. }
  revert HF. generalize (take k (commit_writes l st n v)). intros ws.
  induction ws as [|[y w] ws IH] using rev_ind; intros HF; [by apply hdr_ok_empty|].
  apply Forall_app in HF as [HF Hw]. apply Forall_inv in Hw. rewrite reverse_app. simpl.
  destruct (Z.eqb_spec y st) as [->|]; [by apply Hw|by apply IH].
Qed.
End Crash.

(** ** Recovery *)

(** The writes of recovery before it erases the header. *)
Definition recovery_writes (st : Z) (d : disk) : list (Z * block) :=
  (fun i => (hdr_block (dget d st) i, dget d (st + i + 1))) <$> seqZ 0 (hdr_n (dget d st)).

Lemma recovery_prefix st d k x : hdr_ok st (dget d st) -> home st x ->
  log_abs st (reverse (take k (recovery_writes st d)) ++ d) x = log_abs st d x.
Proof.
  intros Hh Hx. set (h := dget d st) in *. set (ws := take k _). pose proof (ho_n _ _ Hh) as Hr.
  assert (forall y w, (y, w) ∈ ws -> exists i, 0 <= i < hdr_n h /\ y = hdr_block h i /\ w = dget d (st + i + 1)) as Hws.
  { intros y w Hin%take_elem. apply list_elem_of_fmap in Hin as (i & [= -> ->] & Hi%elem_of_seqZ). exists i.
    unfold h. split; [lia|done]. }
  assert (forall z, ~ home st z -> dget (reverse ws ++ d) z = dget d z) as Hd.
  { intros z Hz. apply dget_app_other. intros y w (i & Hi & -> & _)%Hws <-. apply Hz, (ho_home _ _ Hh i Hi). }
  assert (dget (reverse ws ++ d) st = h) as Eh by (apply Hd; unfold home; change LOGBLOCKS with 30; lia).
  unfold log_abs. rewrite Eh. destruct (List.find _ _) as [i|] eqn:E.
  - apply find_elem in E as [Hi%elem_of_seqZ _]. apply Hd. unfold home. lia.
  - apply dget_app_other. intros y w (i & Hi & -> & _)%Hws <-. fold h in E.
    eapply List.find_none in E; [|apply list_elem_of_In, (elem_of_seqZ _ _ i); lia]. by rewrite Z.eqb_refl in E.
Qed.

Lemma recovery_end st d x H : hdr_ok st (dget d st) -> home st x -> hdr_n H = 0 ->
  log_abs st ((st, H) :: reverse (recovery_writes st d) ++ d) x = log_abs st d x /\
  dget ((st, H) :: reverse (recovery_writes st d) ++ d) x = log_abs st d x.
Proof.
  intros Hh Hx H0. rewrite log_abs_empty by (cbn [dget]; by rewrite Z.eqb_refl).
  assert (st <> x) as Hne by (unfold home in Hx; change LOGBLOCKS with 30 in *; lia).
  cbn [dget]. rewrite (proj2 (Z.eqb_neq st x)) by done. apply and_comm, and_comm.
  assert (dget (reverse (recovery_writes st d) ++ d) x = log_abs st d x); [|done].
  set (h := dget d st) in *. unfold log_abs. fold h. destruct (List.find _ _) as [i|] eqn:E.
  - apply find_elem in E as [Hi E%Z.eqb_eq]. pose proof Hi as Hi'%elem_of_seqZ. apply dget_app_in.
    + apply list_elem_of_fmap. exists i. by rewrite <- E.
    + intros w (j & [= Ej ->] & Hj%elem_of_seqZ)%list_elem_of_fmap. do 2 f_equal.
      assert (j = i); [|lia]. unfold h in *. apply (ho_nodup _ _ Hh); [lia|lia|congruence].
  - apply dget_app_other. intros y w (j & [= -> ->] & Hj)%list_elem_of_fmap Ej.
    eapply List.find_none in E; [|apply list_elem_of_In, Hj]. unfold h in *. by rewrite Ej, Z.eqb_refl in E.
Qed.

Definition with_lock (lk : lockid) (name : string) (c : ctx) : ctx :=
  set_locks (<[lk := Spinlock 0 name None]> (locks c)) c.
Lemma bio_cpu_with_lock lk nm c : lk <> L_bcache -> (forall i, lk <> L_buf i) ->
  bio_cpu c -> bio_cpu (with_lock lk nm c).
Proof.
  intros Hb Hi [[H1 H2 H3] [n H4] H5]. split; [by split| |].
  - exists n. simpl. by rewrite lookup_insert_ne.
  - intros i Hr. destruct (H5 i Hr) as [n' Hn]. exists n'. simpl. by rewrite lookup_insert_ne by apply Hi.
Qed.

Section Recover.
Context {D : DiskDriver} {DOK : DiskDriverOk D}.

Lemma initlog_spec c s l st : bio_cpu c -> unlocked L_pr c -> bc_ok s -> blank s ->
  length (lh_block l) = 30%nat -> 0 <= st < 2 ^ 30 -> hdr_ok st (dget (dsk s) st) ->
  exists c' s' l' H, initlog ROOTDEV st c (Lst s l) = Done tt c' (Lst s' l') /\
    later (with_lock L_log "log" c) c' /\ bc_ok s' /\
    (forall x, refs s' x = 0 /\ blocked s' x = free_lock) /\
    dsk s' = (st, H) :: reverse (recovery_writes st (dsk s)) ++ dsk s /\ hdr_n H = 0 /\ length H = 1024%nat /\
    lh_n l' = 0 /\ lg_start l' = st /\ lg_dev l' = ROOTDEV /\
    lg_outstanding l' = lg_outstanding l /\ lg_committing l' = lg_committing l /\ length (lh_block l') = 30%nat.
Proof.
  intros Hcpu Hpr Hok Hb Hl30 Hst Hh. set (c0 := with_lock L_log "log" c).
  assert (bio_cpu c0) as Hcpu0 by by apply bio_cpu_with_lock.
  assert (unlocked L_pr c0) as Hpr0.
  { destruct Hpr as [nm Hp]. exists nm. simpl. by rewrite lookup_insert_ne. }
  set (l0 := set_lstart st ROOTDEV l).
  assert (forall x, refs s x = 0 /\ blocked s x = free_lock /\ view s x = dget (dsk s) x) as Hbl
    by (intros x; by apply blank_use).
  assert (refs_in s []) as Hri by (intros x Hx; by destruct (Hbl x) as [? _]).
  assert (view s st = dget (dsk s) st) as Ev by apply Hbl. rewrite <- Ev in Hh.
  destruct (read_head_spec c0 s l0 [] st) as (c1 & s1 & l1 & E1 & L1 & Ok1 & U1 & V1 & D1 & T1 & N1 & B1 & Hb1 & O1 & C1);
    [done|done|done|done|done|apply Hbl|unfold small; by rewrite (proj1 (Hbl st))|done|simpl; lia|done|done|].
  set (n := hdr_n (view s st)) in *. pose proof (tx_n _ _ _ T1) as Hn.
  assert (forall x, refs s1 x = 0 /\ blocked s1 x = free_lock) as Hu1.
  { intros x. destruct (U1 x) as [-> ->], (Hbl x) as (-> & -> & _). done. }
  destruct (install_loop_spec l1 st n [] T1 ltac:(simpl; lia) true (Z.to_nat n) 0 c1 s1)
    as (c2 & s2 & E2 & L2 & I2 & D2).
  { lia. } { lia. } { eauto with xv6. } { eauto with xv6. } { done. }
  { split; intros i Hi; (split; [apply Hu1|]); unfold small; by rewrite (proj1 (Hu1 _)). }
  { intros x Hx. by destruct (Hu1 x) as [? _]. } { done. }
  rewrite Z2Nat.id in D2 by lia. destruct I2 as [Ok2 Lk2 R2 Ro2 V2 Vo2].
  assert (forall x, refs s2 x = 0 /\ blocked s2 x = free_lock) as Hu2.
  { intros x. rewrite Lk2. split; [|apply Hu1].
    destruct (decide (Exists (fun i => x = lblk l1 i) (seqZ 0 n))) as [He|He].
    - apply Exists_exists in He as (i & Hi%elem_of_seqZ & ->). rewrite R2 by lia. by rewrite (proj1 (Hu1 _)).
    - rewrite Ro2; [apply Hu1|]. intros i Hi E. apply He, Exists_exists. exists i. split; [apply elem_of_seqZ; lia|done]. }
  destruct (write_head_spec c2 s2 (set_n 0 l1) [] st) as (c3 & s3 & E3 & L3 & Ok3 & U3 & V3 & O3 & D3);
    [apply (tx_dev _ _ _ T1)|apply (tx_start _ _ _ T1)|done|eauto 10 with xv6|done|apply Hu2
    |unfold small; by rewrite (proj1 (Hu2 st))|intros x Hx; by destruct (Hu2 x) as [? _]|simpl; lia|].
  assert (view s2 st = view s st) as E2s.
  { rewrite Vo2, V1; [done|]. intros i Hi E. destruct (tx_home _ _ _ T1 i Hi) as [_ H].
    apply H. rewrite <- E. change LOGBLOCKS with 30. lia. }
  exists c3, s3, (set_n 0 l1), (header (set_n 0 l1) (view s2 st)).
  destruct (header_empty (set_n 0 l1) (view s2 st)) as [HL HN]; [done|rewrite E2s; apply (ho_len _ _ Hh)|].
  split; [|split; [|split; [done|split; [|split; [|by split_and!; try done; apply T1]]]]].
  - unfold initlog. change (4 * (1 + LOGBLOCKS) >=? BSIZE) with false. unfold initlock, lk_set, ulog.
    cbv beta iota delta [mbind mret K_bind K_ret modify modc]. cbn [l_bio l_log].
    rewrite i32_small by lia. fold l0. unfold recover_from_log. fold (with_lock L_log "log" c). fold c0.
    kstep E1. unfold install_trans, glog, ulog. krun. cbn [l_log]. rewrite N1, E2. cbv beta iota.
    cbn [l_log l_bio]. exact E3.
  - eapply later_trans; [|exact L3]. by eapply later_trans.
  - intros x. destruct (U3 x) as [-> ->]. apply Hu2.
  - rewrite D3, D2, D1. f_equal. f_equal. f_equal. unfold recovery_writes. rewrite <- Ev. fold n.
    apply list_fmap_ext. intros k i Hi%lookup_seqZ. rewrite Hb1 by lia. f_equal. rewrite V1. apply Hbl.
Qed.
End Recover.

(** ** Properties *)

Section Claims.
Context {D : DiskDriver} {DOK : DiskDriverOk D}.

(** A boot from disk [d]: a fresh cache, then recovery. *)
Definition reboot (c : ctx) (st : Z) (d : disk) : outcome lst unit :=
  (zoom bioA binit;; initlog ROOTDEV st) c (Lst (Bio ∅ d) log_init).

Lemma initlocks_keeps (ls : list (lockid * string)) : forall (m : gmap lockid spinlock) lk,
  (exists nm, m !! lk = Some (Spinlock 0 nm None)) ->
  exists nm, foldl (fun (m : gmap lockid spinlock) p => <[p.1 := Spinlock 0 p.2 None]> m) m ls !! lk
    = Some (Spinlock 0 nm None).
Proof.
  induction ls as [|[l' n'] ls IH]; intros m lk Hm; [done|]. cbn [foldl]. apply IH.
  rewrite lookup_insert. case_decide; [by eexists|done].
Qed.

Lemma unlocked_bio_locks (lk : lockid) c : unlocked lk c -> unlocked lk (initlocks bio_locks c).
Proof. apply (initlocks_keeps bio_locks (locks c)). Qed.

Lemma reboot_spec c st d : cpu_ok c -> unlocked L_pr c -> 0 <= st < 2 ^ 30 -> hdr_ok st (dget d st) ->
  exists c' b l' H, reboot c st d = Done tt c' (Lst b l') /\ bc_ok b /\ lh_n l' = 0 /\
    dsk b = (st, H) :: reverse (recovery_writes st d) ++ d /\ hdr_n H = 0 /\
    forall x, home st x -> dget (dsk b) x = log_abs st d x.
Proof.
  intros Hok Hpr Hst Hh. destruct (binit_spec c d) as (b0 & E0 & Ok0 & Bl0 & D0). subst d.
  destruct (initlog_spec (initlocks bio_locks c) b0 log_init st) as
    (c' & b & l' & H & E & _ & Ok & _ & Db & Hn & _ & Hl & _);
    [by apply bio_cpu_init|by apply unlocked_bio_locks|done|done|done|done|done|].
  exists c', b, l', H. split.
  { unfold reboot. rewrite (bind_done _ _ _ _ _ _ _ (zoom_bio _ _ _ log_init _ _ _ E0)). exact E. }
  split_and!; try done. intros x Hx. rewrite Db. by apply recovery_end.
Qed.

(** C1: a transaction is atomic with respect to crashes.  commit writes the disk
    in a fixed order; if the machine stops after any number of those writes and
    boots again, recovery returns and every block of the file system has the
    contents from before the transaction, when the stop was at or before the
    write of the log header, or else the contents the transaction gave it. *)
Theorem commit_crash_atomic c s l st n P c0 :
  txn l st n -> lh_n l = n -> 0 < n -> (length P < 29)%nat -> can_commit c s l st n P ->
  length (view s st) = 1024%nat ->
  hdr_n (dget (dsk s) st) = 0 -> length (dget (dsk s) st) = 1024%nat ->
  cpu_ok c0 -> unlocked L_pr c0 ->
  exists c' s' ws, commit c (Lst s l) = Done tt c' (Lst s' (set_n 0 l)) /\
    dsk s' = reverse ws ++ dsk s /\ length ws = Z.to_nat (2 * n + 2) /\
    forall k, exists c'' b l', reboot c0 st (reverse (take k ws) ++ dsk s) = Done tt c'' (Lst b l') /\
      forall x, home st x -> dget (dsk b) x =
        if (k <=? Z.to_nat n)%nat then dget (dsk s) x
        else if decide (Exists (fun i => x = lblk l i) (seqZ 0 n)) then view s x else dget (dsk s) x.
Proof.
  intros HT Hn H0 HP Hcc HL Hd0 HL0 Hok0 Hpr0.
  destruct (commit_spec c s l st n P HT Hn H0 HP Hcc) as (c' & s' & E & _ & _ & Ed & _).
  exists c', s', (commit_writes l st n (view s)). split; [exact E|]. split; [exact Ed|]. split.
  { unfold commit_writes, log_part, home_part. rewrite !length_app, !length_fmap, !length_seqZ. simpl. lia. }
  intros k. destruct (reboot_spec c0 st (reverse (take k (commit_writes l st n (view s))) ++ dsk s)) as
    (c'' & b & l' & H & Er & _ & _ & _ & _ & Hx); [done|done|apply (tx_st _ _ _ HT)| |].
  { by apply commit_prefix_hdr. }
  exists c'', b, l'. split; [exact Er|]. intros x Hh. rewrite (Hx x Hh).
  apply commit_prefix; [exact HT|exact Hn|exact HL|exact Hd0|exact Hh].
Qed.

(** C23: recovery may itself be interrupted any number of times: it returns with
    the file system the disk stood for, and after each prefix of its own writes
    the disk still stands for the same file system. *)
Theorem recovery_restartable c st d :
  cpu_ok c -> unlocked L_pr c -> 0 <= st < 2 ^ 30 -> hdr_ok st (dget d st) ->
  exists c' b l' ws, reboot c st d = Done tt c' (Lst b l') /\
    dsk b = reverse ws ++ d /\ lh_n l' = 0 /\ hdr_n (dget (dsk b) st) = 0 /\
    (forall x, home st x -> dget (dsk b) x = log_abs st d x) /\
    (forall k x, home st x -> log_abs st (reverse (take k ws) ++ d) x = log_abs st d x).
Proof.
  intros Hok Hpr Hst Hh. destruct (reboot_spec c st d Hok Hpr Hst Hh) as (c' & b & l' & H & E & _ & Hl & Db & Hn & Hx).
  exists c', b, l', (recovery_writes st d ++ [(st, H)]). split; [exact E|].
  assert (reverse (recovery_writes st d ++ [(st, H)]) ++ d = (st, H) :: reverse (recovery_writes st d) ++ d) as Er
    by by rewrite reverse_app.
  split; [by rewrite Er|]. split; [exact Hl|].
  split; [rewrite Db; cbn [dget]; rewrite Z.eqb_refl; exact Hn|]. split; [exact Hx|].
  intros k x Hhx. destruct (le_gt_dec k (length (recovery_writes st d))) as [Hk|Hk].
  - rewrite take_app_le by done. by apply recovery_prefix.
  - rewrite take_ge by (rewrite length_app; simpl; lia). rewrite Er. by apply recovery_end.
Qed.
End Claims.

(** ** A concrete transaction: block 40 in a log at block 2 *)

Definition pr_ctx : ctx := with_lock L_pr "pr" boot_ctx.
Definition blk40 : block := replicate (Z.to_nat BSIZE) 7.
Definition set40 (b : buf) : buf := Buf true ROOTDEV 40 free_lock 1 (b_prev b) (b_next b) blk40.
#[local] Opaque boot_bio.
Definition bio40 : bio := upd_buf 0 set40 boot_bio.
Definition log40 : log := Log 2 0 1 ROOTDEV 1 (40 :: replicate 29 0).

Lemma boot_use x : refs boot_bio x = 0 /\ blocked boot_bio x = free_lock /\ view boot_bio x = zero_block.
Proof.
  destruct boot_bio_eq as (_ & _ & Hb & Hd). destruct (blank_use boot_bio x Hb) as (H1 & H2 & H3).
  rewrite Hd in H3. by split_and!.
Qed.

Lemma bio40_facts : bc_ok bio40 /\ refs bio40 40 = 1 /\ blocked bio40 40 = free_lock /\
  view bio40 40 = blk40 /\ forall x, x <> 40 ->
    refs bio40 x = 0 /\ blocked bio40 x = free_lock /\ view bio40 x = zero_block.
Proof.
  destruct boot_bio_eq as (_ & Hok & Hb & Hd). destruct (core_inj _ _ (Hb 0)) as (_ & _ & _ & _ & Hr & _).
  assert (0 <= 0 < NBUF) as A1 by (split; reflexivity || (intro; discriminate)).
  assert (keeps_links set40) as A2 by (intros b; split; reflexivity).
  destruct (only_recycle boot_bio 40 0 set40 Hok A1 Hr (blank_find _ 40 Hb) A2 eq_refl eq_refl Z.lt_0_1) as [Hon Hc].
  fold bio40 in Hon, Hc. pose proof (on_ok _ _ _ Hon) as Hok'. split; [exact Hok'|].
  assert (buf_at bio40 0 = set40 (buf_at boot_bio 0)) as E by apply buf_at_upd_same.
  split; [by rewrite (refs_cached _ 40 0 Hok' Hc), E|]. split; [by rewrite (blocked_cached _ 40 0 Hok' Hc), E|].
  split; [by rewrite (view_cached _ 40 0 Hok' Hc), E|]. intros x Hx.
  destruct (on_same _ _ _ Hon x Hx) as (-> & -> & ->), (boot_use x) as (-> & -> & ->). split_and!; reflexivity.
Qed.

#[local] Opaque bio40.
Lemma log40_txn : txn log40 2 1.
Proof.
  split; [done|done|lia|done| |].
  - intros i Hi. replace i with 0 by lia. change (lblk log40 0) with 40. change LOGBLOCKS with 30. lia.
  - intros i j Hi Hj _. lia.
Qed.

Lemma pr_ctx_cpu : bio_cpu pr_ctx /\ unlocked L_pr pr_ctx.
Proof.
  split; [apply bio_cpu_with_lock; [done|done|exact boot_cpu]|]. exists "pr"%string. apply lookup_insert_eq.
Qed.

Lemma log40_commit : can_commit pr_ctx bio40 log40 2 1 [40].
Proof.
  destruct bio40_facts as (Hok & R & L & V & Ho). destruct pr_ctx_cpu as [H1 H2].
  split; [done|done|done| |split; [apply Ho; lia|unfold small; rewrite (proj1 (Ho 2 ltac:(lia))); lia]| |].
  - split; intros i Hi; replace i with 0 by lia.
    + split; [apply Ho; lia|]. unfold small. change (2 + 0 + 1) with 3. rewrite (proj1 (Ho 3 ltac:(lia))). lia.
    + change (lblk log40 0) with 40. unfold small. rewrite R, L. split; [done|lia].
  - intros x Hx. destruct (Z.eq_dec x 40) as [->|Hne]; [by left|].
    destruct (Ho x Hne) as [E _]. destruct (Hx E).
  - intros i Hi. replace i with 0 by lia. change (lblk log40 0) with 40. lia.
Qed.

Lemma ctx0_pr : cpu_ok (with_lock L_pr "pr" ctx0) /\ unlocked L_pr (with_lock L_pr "pr" ctx0).
Proof.
  split; [destruct ctx0_ok as [H1 H2 H3]; by split|]. exists "pr"%string. apply lookup_insert_eq.
Qed.

Lemma commit_crash_atomic_witness : exists c' s' ws,
  @commit ram_disk pr_ctx (Lst bio40 log40) = Done tt c' (Lst s' (set_n 0 log40)) /\
  forall k, exists c'' b l',
    @reboot ram_disk (with_lock L_pr "pr" ctx0) 2 (reverse (take k ws) ++ dsk bio40) = Done tt c'' (Lst b l') /\
    dget (dsk b) 40 = if (k <=? 1)%nat then zero_block else blk40.
Proof.
  destruct bio40_facts as (Hok & R & L & V & Ho).
  destruct (@commit_crash_atomic ram_disk ram_disk_ok pr_ctx bio40 log40 2 1 [40] (with_lock L_pr "pr" ctx0)
    log40_txn eq_refl) as (c' & s' & ws & E & _ & _ & H).
  - lia.
  - simpl. lia.
  - exact log40_commit.
  - rewrite (proj2 (proj2 (Ho 2 ltac:(lia)))). reflexivity.
  - vm_compute. reflexivity.
  - reflexivity.
  - exact (proj1 ctx0_pr).
  - exact (proj2 ctx0_pr).
  - exists c', s', ws. split; [exact E|]. intros k. destruct (H k) as (c'' & b & l' & Eb & Hx).
    exists c'', b, l'. split; [exact Eb|]. rewrite (Hx 40) by (unfold home; change LOGBLOCKS with 30; lia).
    rewrite V. change (Z.to_nat 1) with 1%nat. destruct (k <=? 1)%nat; reflexivity.
Defined.

(** A disk caught between the header write and the installation. *)
Definition hdr40 : block := header log40 zero_block.
Definition disk40 : disk := [(2, hdr40); (3, blk40)].

Lemma recovery_restartable_witness :
  hdr_n hdr40 = 1 /\ hdr_block hdr40 0 = 40 /\
  exists c' b l', @reboot ram_disk (with_lock L_pr "pr" ctx0) 2 disk40 = Done tt c' (Lst b l') /\
    dget (dsk b) 40 = log_abs 2 disk40 40.
Proof.
  split; [vm_compute; reflexivity|]. split; [vm_compute; reflexivity|].
  destruct (@recovery_restartable ram_disk ram_disk_ok (with_lock L_pr "pr" ctx0) 2 disk40
    (proj1 ctx0_pr) (proj2 ctx0_pr)) as (c' & b & l' & ws & E & _ & _ & _ & H & _).
  - lia.
  - exact (hdr_ok_header log40 2 1 (fun _ => zero_block) log40_txn eq_refl eq_refl).
  - exists c', b, l'. split; [exact E|]. apply H. unfold home. change LOGBLOCKS with 30. lia.
Defined.
