(* ===== verification/LogOps.v ===== *)
(** * Operations in progress (begin_op, log_write, end_op of log.c)

    The reservation of log space: with at most MAXOPBLOCKS blocks written by
    each operation the log never overflows, log_write absorbs repeated writes
    and pins each block once; and what happens when a log that is full to
    LOGBLOCKS is committed. *)
From stdpp Require Import base numbers list gmap strings.
From S2P Require Import Prelude Kernel Spinlock Sleeplock Bio Bcache Printf Log Redo.

(** ** Code that leaves the in-memory log alone *)

Definition keeps_log {A} (m : K lst A) : Prop :=
  forall c s a c' s', m c s = Done a c' s' -> l_log s' = l_log s.

Lemma keeps_ret {A} (a : A) : keeps_log (mret a).
Proof. by intros c s a' c' s' [= _ _ ->]. Qed.
Lemma keeps_bind {A B} (m : K lst A) (k : A -> K lst B) :
  keeps_log m -> (forall a, keeps_log (k a)) -> keeps_log (m ≫= k).
Proof.
  intros Hm Hk c s b c' s' E. unfold mbind, K_bind in E. destruct (m c s) as [a c1 s1|?|?|? ? ?|] eqn:E1; try done.
  rewrite (Hk a _ _ _ _ _ E). by eapply Hm.
Qed.
Lemma keeps_zoom {A} (m : K bio A) : keeps_log (zoom bioA m).
Proof. intros c s a c' s' E. unfold zoom in E. destruct (m c (aget bioA s)); by simplify_eq/=. Qed.
Lemma keeps_gets {A} (f : lst -> A) : keeps_log (gets f).
Proof. by intros c s a c' s' [= _ _ ->]. Qed.
Lemma keeps_panic {A} m : keeps_log (A := A) (panic m).
Proof. by intros c s a c' s' E. Qed.
Create HintDb keeps.
#[export] Hint Resolve keeps_ret keeps_bind keeps_zoom keeps_gets keeps_panic : keeps.

Section Keeps.
Context {D : DiskDriver}.

Lemma write_log_loop_keeps n : forall t, keeps_log (write_log_loop n t).
Proof.
  induction n as [|n IH]; intros t; simpl; [auto with keeps|].
  unfold glog, bdata, set_bdata. repeat (apply keeps_bind; [auto with keeps|intros ?]). apply IH.
Qed.
Lemma install_loop_keeps n : forall t, keeps_log (install_loop n t false).
Proof.
  induction n as [|n IH]; intros t; simpl; [auto with keeps|].
  unfold glog, bdata, set_bdata. repeat (apply keeps_bind; [auto with keeps|intros ?]). apply IH.
Qed.
Lemma write_head_keeps : keeps_log write_head.
Proof. unfold write_head, glog, bdata, set_bdata. repeat (apply keeps_bind; [auto with keeps|intros ?]). auto with keeps. Qed.

(** commit empties the log and changes nothing else of it. *)
Lemma commit_log c s c' s' : commit c s = Done tt c' s' -> 0 <= lh_n (l_log s) ->
  l_log s' = set_n 0 (l_log s).
Proof.
  unfold commit, glog. krun. intros E Hn. destruct (Z.gtb_spec (lh_n (l_log s)) 0) as [H|H].
  - destruct (write_log c s) as [[] c1 s1|?|?|? ? ?|] eqn:E1; try done.
    destruct (write_head c1 s1) as [[] c2 s2|?|?|? ? ?|] eqn:E2; try done.
    destruct (install_trans false c2 s2) as [[] c3 s3|?|?|? ? ?|] eqn:E3; try done.
    unfold ulog, modify in E. apply write_head_keeps in E. simpl in E. rewrite E. f_equal.
    unfold install_trans, glog in E3. unfold write_log, glog in E1.
    apply (keeps_bind (gets l_log) _ (keeps_gets _) (fun _ => install_loop_keeps _ _)) in E3.
    apply (keeps_bind (gets l_log) _ (keeps_gets _) (fun _ => write_log_loop_keeps _ _)) in E1.
    apply write_head_keeps in E2. congruence.
  - simplify_eq. destruct (l_log s') as [a b d e n bl]; unfold set_n; simpl in *. f_equal. lia.
Qed.

(** ** log_write *)

Lemma log_find_range n : forall i l b, i <= log_find n i l b <= i + Z.of_nat n.
Proof.
  induction n as [|n IH]; intros i l b; [simpl; lia|]. cbn [log_find].
  destruct (_ =? b); [lia|]. specialize (IH (i + 1) l b). lia.
Qed.

Section Write.
Variables (c : ctx) (s : bio) (l : log) (b : Z).
Hypotheses (Hcpu : bio_cpu c) (Hul : unlocked L_log c).

Lemma bio_cpu_inside_log : bio_cpu (inside L_log c).
Proof.
  destruct Hcpu as [H1 H2 H3]. split; [by apply cpu_ok_inside|by apply unlocked_inside|].
  intros i Hi. apply unlocked_inside; [done|by apply H3].
Qed.

Definition logged (i : Z) : lst :=
  if i =? lh_n l
  then Lst (upd_buf b (fun x => set_refcnt (u32 (b_refcnt x + 1)) x) s)
         (set_n (lh_n l + 1) (set_block i (i32 (b_blockno (buf_at s b))) l))
  else Lst s (set_block i (i32 (b_blockno (buf_at s b))) l).

Lemma log_write_eq : lh_n l < LOGBLOCKS -> 1 <= lg_outstanding l ->
  log_write b c (Lst s l) =
    Done tt c (logged (log_find (Z.to_nat (lh_n l)) 0 l (b_blockno (buf_at s b)))).
Proof.
  intros Hn Ho. unfold log_write. kstep (acquire_eq L_log c (Lst s l) Hul). unfold glog, ulog. krun. cbn [l_log l_bio].
  rewrite Z.geb_leb. rewrite (proj2 (Z.leb_gt LOGBLOCKS (lh_n l))) by lia.
  rewrite (proj2 (Z.ltb_ge (lg_outstanding l) 1)) by lia. cbv beta iota. cbn [l_log l_bio].
  set (i := log_find _ _ _ _). unfold logged. destruct (i =? lh_n l).
  - rewrite (zoom_bio _ _ _ _ _ _ _ (bpin_eq (inside L_log c) s bio_cpu_inside_log b)). cbv beta iota. cbn [l_log l_bio].
    exact (release_eq L_log c _ (bp_cpu _ Hcpu) Hul).
  - cbv beta iota. exact (release_eq L_log c _ (bp_cpu _ Hcpu) Hul).
Qed.
End Write.
End Keeps.

(** ** Reservations *)

(** Lock operations do not touch the state they protect. *)
Definition same_state {S A} (m : K S A) : Prop := forall c s a c' s', m c s = Done a c' s' -> s' = s.
Lemma same_bind {S A B} (m : K S A) (k : A -> K S B) :
  same_state m -> (forall a, same_state (k a)) -> same_state (m ≫= k).
Proof.
  intros Hm Hk c s b c' s' E. unfold mbind, K_bind in E. destruct (m c s) as [a c1 s1|?|?|? ? ?|] eqn:E1; try done.
  rewrite (Hk a _ _ _ _ _ E). by eapply Hm.
Qed.
Lemma same_acquire {S} l : same_state (S := S) (acquire l).
Proof.
  unfold acquire. apply same_bind; [|intros _].
  { intros c s a c' s' E. rewrite push_off_eq in E. by simplify_eq. }
  unfold holding, lk_set. intros c s a c' s'. krun. repeat case_match; intros; by simplify_eq.
Qed.
Lemma same_release {S} l : same_state (S := S) (release l).
Proof.
  unfold release, holding, lk_set, pop_off, intr_get, intr_on. intros c s a c' s'. krun.
  repeat case_match; intros; by simplify_eq.
Qed.

(** The fields of the log after an operation ends. *)
Lemma end_op_log {D : DiskDriver} c s c' s' : end_op c s = Done tt c' s' -> 0 <= lh_n (l_log s) ->
  lg_committing (l_log s) = 0 /\ lg_committing (l_log s') = 0 /\
  lg_outstanding (l_log s') = lg_outstanding (l_log s) - 1 /\
  lh_n (l_log s') = (if lg_outstanding (l_log s) =? 1 then 0 else lh_n (l_log s)).
Proof.
  intros E Hn. unfold end_op in E. unfold mbind at 1, K_bind at 1 in E.
  destruct (acquire L_log c s) as [[] c1 s1|?|?|? ? ?|] eqn:E1; try done. apply same_acquire in E1 as ->.
  unfold glog, ulog, z2b, wakeup in E. revert E. krun. cbn [l_log l_bio lg_committing lg_outstanding set_outstanding].
  destruct (Z.eqb_spec (lg_committing (l_log s)) 0) as [Hc|Hc]; cbn [negb]; [|done]. cbv beta iota. cbn [l_log l_bio].
  destruct (Z.eqb_spec (lg_outstanding (l_log s) - 1) 0) as [Ho|Ho]; cbn [l_log l_bio].
  - rewrite (proj2 (Z.eqb_eq (lg_outstanding (l_log s)) 1)) by lia.
    destruct (release _ c1 _) as [[] c2 s2|?|?|? ? ?|] eqn:E2; try done. apply same_release in E2 as ->.
    destruct (commit c2 _) as [[] c3 s3|?|?|? ? ?|] eqn:E3; try done. apply commit_log in E3; [|done].
    destruct (acquire L_log c3 s3) as [[] c4 s4|?|?|? ? ?|] eqn:E4; try done. apply same_acquire in E4 as ->.
    intros E5%same_release. subst s'. cbn [l_log]. rewrite E3. by cbn.
  - rewrite (proj2 (Z.eqb_neq (lg_outstanding (l_log s)) 1)) by lia.
    destruct (release _ _ _) as [[] c2 s2|?|?|? ? ?|] eqn:E2; try done. apply same_release in E2 as ->.
    intros E5. by simplify_eq/=.
Qed.

Lemma begin_op_log c s c' s' : begin_op c s = Done tt c' s' ->
  lg_committing (l_log s) = 0 /\ lh_n (l_log s) + (lg_outstanding (l_log s) + 1) * MAXOPBLOCKS <= LOGBLOCKS /\
  l_bio s' = l_bio s /\ l_log s' = set_outstanding (lg_outstanding (l_log s) + 1) (l_log s).
Proof.
  assert (forall c (s : lst) c' s', sleep (A := unit) C_log L_log c s <> Done tt c' s') as Hns.
  { intros c0 s0 c0' s0'. unfold sleep. unfold mbind, K_bind, suspend. repeat case_match; done. }
  intros E. unfold begin_op in E. unfold mbind at 1, K_bind at 1 in E.
  destruct (acquire L_log c s) as [[] c1 s1|?|?|? ? ?|] eqn:E1; try done. apply same_acquire in E1 as ->.
  unfold glog, ulog, z2b in E. revert E. cbv beta iota delta [mbind K_bind gets modify].
  destruct (Z.eqb_spec (lg_committing (l_log s)) 0) as [Hc|Hc]; cbn [negb]; [|by intros ?%Hns].
  destruct (Z.gtb_spec (lh_n (l_log s) + (lg_outstanding (l_log s) + 1) * MAXOPBLOCKS) LOGBLOCKS) as [Hg|Hg];
    [by intros ?%Hns|]. intros E%same_release. by subst s'.
Qed.

(** Runs of the file-system operations, each with the number of blocks it has
    written so far; operations may overlap in any way. *)
Section Runs.
Context {D : DiskDriver}.

Inductive fsrun : list Z -> lst -> Prop :=
  | run_init s : lh_n (l_log s) = 0 -> lg_outstanding (l_log s) = 0 -> fsrun [] s
  | run_begin us c s c' s' : fsrun us s -> begin_op c s = Done tt c' s' -> fsrun (us ++ [0]) s'
  | run_write us1 u us2 b c s c' s' : fsrun (us1 ++ u :: us2) s -> u < MAXOPBLOCKS ->
      log_write b c s = Done tt c' s' -> fsrun (us1 ++ (u + 1) :: us2) s'
  | run_end us1 u us2 c s c' s' : fsrun (us1 ++ u :: us2) s ->
      end_op c s = Done tt c' s' -> fsrun (us1 ++ us2) s'
  | run_other us s s' : fsrun us s -> l_log s' = l_log s -> fsrun us s'.

(** Space still promised to the operations in progress. *)
Definition reserved (us : list Z) : Z := foldr (fun u a => MAXOPBLOCKS - u + a) 0 us.
Lemma reserved_app us1 us2 : reserved (us1 ++ us2) = reserved us1 + reserved us2.
Proof. induction us1 as [|u us1 IH]; simpl; [done|]. unfold reserved in *. lia. Qed.
Lemma reserved_bounds us : Forall (fun u => 0 <= u <= MAXOPBLOCKS) us ->
  0 <= reserved us <= Z.of_nat (length us) * MAXOPBLOCKS.
Proof. induction 1 as [|u us Hu _ IH]; unfold reserved in *; simpl; [lia|]. lia. Qed.

Record run_inv (us : list Z) (l : log) : Prop := {
  ri_out : lg_outstanding l = Z.of_nat (length us);
  ri_n : 0 <= lh_n l;
  ri_us : Forall (fun u => 0 <= u <= MAXOPBLOCKS) us;
  ri_space : lh_n l + reserved us <= LOGBLOCKS;
}.

Lemma log_write_log b c s c' s' : log_write b c s = Done tt c' s' -> 0 <= lh_n (l_log s) ->
  lg_outstanding (l_log s') = lg_outstanding (l_log s) /\
  (lh_n (l_log s') = lh_n (l_log s) \/ lh_n (l_log s') = lh_n (l_log s) + 1).
Proof.
  intros E Hn. unfold log_write in E. unfold mbind at 1, K_bind at 1 in E.
  destruct (acquire L_log c s) as [[] c1 s1|?|?|? ? ?|] eqn:E1; try done. apply same_acquire in E1 as ->.
  unfold glog, ulog in E. revert E. krun. destruct (_ >=? _); [done|]. destruct (_ <? 1); [done|].
  cbv beta iota. cbn [l_log l_bio]. set (i := log_find _ _ _ _). destruct (i =? _).
  - unfold zoom. cbn [aget bioA l_bio]. destruct (bpin b c1 (l_bio s)) as [[] c2 b2|?|?|? ? ?|] eqn:E2; try done.
    intros E%same_release. subst s'. simpl. split; [done|by right].
  - intros E%same_release. subst s'. simpl. split; [done|by left].
Qed.

Lemma fsrun_inv us s : fsrun us s -> run_inv us (l_log s).
Proof.
  induction 1 as [s H1 H2|us c s c' s' _ IH E|us1 u us2 b c s c' s' _ IH Hu E|us1 u us2 c s c' s' _ IH E|us s s' _ IH E].
  - split; [done|lia|done|rewrite H1; done].
  - apply begin_op_log in E as (_ & Hg & _ & ->). destruct IH as [H1 H2 H3 H4]. pose proof (reserved_bounds us H3).
    split; cbn [lg_outstanding lh_n set_outstanding]; [rewrite length_app; simpl; lia|done| |].
    + apply Forall_app. split; [done|]. apply Forall_singleton. done.
    + rewrite reserved_app. change (reserved [0]) with MAXOPBLOCKS. lia.
  - destruct IH as [H1 H2 H3 H4]. destruct (log_write_log b c s c' s' E H2) as [E1 E2].
    rewrite reserved_app in H4. cbn [reserved foldr] in H4. fold (reserved us2) in H4.
    apply Forall_app in H3 as [H3a H3b]. apply Forall_cons in H3b as [H3u H3b].
    split; [rewrite E1, H1, !length_app; simpl; lia|lia| |].
    + apply Forall_app. split; [done|]. apply Forall_cons. split; [lia|done].
    + rewrite reserved_app. cbn [reserved foldr]. fold (reserved us2). lia.
  - destruct IH as [H1 H2 H3 H4]. destruct (end_op_log c s c' s' E H2) as (_ & _ & E2 & E3).
    rewrite reserved_app in H4. cbn [reserved foldr] in H4. fold (reserved us2) in H4.
    apply Forall_app in H3 as [H3a H3b]. apply Forall_cons in H3b as [H3u H3b].
    pose proof (reserved_bounds us1 H3a). pose proof (reserved_bounds us2 H3b).
    rewrite length_app in H1. simpl in H1.
    split; [rewrite E2, H1, length_app; lia|destruct (_ =? 1) in E3; lia|by apply Forall_app|].
    rewrite reserved_app, E3. destruct (Z.eqb_spec (lg_outstanding (l_log s)) 1); lia.
  - by rewrite E.
Qed.
End Runs.

(** ** Properties *)

(** C22: the log never overflows.  However operations overlap, while each writes
    at most MAXOPBLOCKS blocks, log_write finds room (it neither panics with
    "too big a transaction" nor outside a transaction), and the blocks logged
    plus the blocks still promised stay within LOGBLOCKS. *)
Theorem log_space_suffices {D : DiskDriver} us1 u us2 s b c :
  fsrun (us1 ++ u :: us2) s -> u < MAXOPBLOCKS -> bio_cpu c -> unlocked L_log c ->
  lh_n (l_log s) + reserved (us1 ++ u :: us2) <= LOGBLOCKS /\
  exists s', log_write b c s = Done tt c s' /\
    (lh_n (l_log s') = lh_n (l_log s) \/ lh_n (l_log s') = lh_n (l_log s) + 1).
Proof.
  intros Hrun Hu Hcpu Hul. pose proof (fsrun_inv _ _ Hrun) as [H1 H2 H3 H4]. split; [done|].
  rewrite reserved_app in H4. cbn [reserved foldr] in H4. fold (reserved us2) in H4.
  apply Forall_app in H3 as [H3a H3b]. apply Forall_cons in H3b as [H3u H3b].
  pose proof (reserved_bounds us1 H3a). pose proof (reserved_bounds us2 H3b).
  rewrite length_app in H1. simpl in H1. destruct s as [s l]. simpl in *.
  pose proof (log_write_eq c s l b Hcpu Hul ltac:(lia) ltac:(lia)) as E. eexists. split; [exact E|].
  by apply log_write_log in E as [_ E].
Qed.

Lemma begin_op_eq c s l : cpu_ok c -> unlocked L_log c -> lg_committing l = 0 ->
  lh_n l + (lg_outstanding l + 1) * MAXOPBLOCKS <= LOGBLOCKS ->
  begin_op c (Lst s l) = Done tt c (Lst s (set_outstanding (lg_outstanding l + 1) l)).
Proof.
  intros Hok Hul Hc Hg. unfold begin_op. kstep (acquire_eq L_log c (Lst s l) Hul). unfold glog, ulog. krun. cbn [l_log l_bio].
  rewrite Hc. change (z2b 0) with false. cbv beta iota.
  destruct (Z.gtb_spec (lh_n l + (lg_outstanding l + 1) * MAXOPBLOCKS) LOGBLOCKS); [lia|].
  exact (release_eq L_log c _ Hok Hul).
Qed.

(** Every buffer is taken when LOGBLOCKS blocks are pinned. *)
Lemma full_no_room s l st : bc_ok s -> txn l st LOGBLOCKS ->
  (forall i, 0 <= i < LOGBLOCKS -> 0 < refs s (lblk l i)) ->
  ~ room s /\ forall x, (forall i, 0 <= i < LOGBLOCKS -> x <> lblk l i) -> find_buf s x = None.
Proof.
  intros Hok HT Hpin. set (idx := fun i => default 0 (find_buf s (lblk l i))).
  assert (forall i, 0 <= i < LOGBLOCKS -> cached s (lblk l i) (idx i)) as Hidx.
  { intros i Hi. destruct (refs_pos_cached s (lblk l i)) as [k Hk]; [pose proof (Hpin i Hi); lia|].
    unfold idx. by rewrite (proj2 (find_buf_some s _ k Hok) Hk). }
  assert (seqZ 0 NBUF ≡ₚ idx <$> seqZ 0 LOGBLOCKS) as HP.
  { symmetry. apply submseteq_length_Permutation; [|by rewrite length_fmap].
    apply NoDup_submseteq.
    - apply NoDup_fmap_2_strong; [|apply NoDup_seqZ]. intros i j Hi%elem_of_seqZ Hj%elem_of_seqZ E.
      apply (tx_nodup _ _ _ HT); [lia|lia|].
      destruct (Hidx i ltac:(lia)) as (_ & _ & <-), (Hidx j ltac:(lia)) as (_ & _ & <-). by rewrite E.
    - intros k (i & -> & Hi%elem_of_seqZ)%list_elem_of_fmap. apply seqZ_range, Hidx. lia. }
  assert (forall k, 0 <= k < NBUF -> exists i, 0 <= i < LOGBLOCKS /\ cached s (lblk l i) k) as Hall.
  { intros k Hk%seqZ_range. rewrite HP in Hk. apply list_elem_of_fmap in Hk as (i & -> & Hi%elem_of_seqZ).
    exists i. split; [lia|]. apply Hidx. lia. }
  split.
  - intros (k & Hk & E). destruct (Hall k Hk) as (i & Hi & Hc). pose proof (Hpin i Hi) as Hp.
    rewrite (refs_cached s _ k Hok Hc) in Hp. lia.
  - intros x Hx. apply find_buf_none. intros k Hc. destruct (Hall k (proj1 Hc)) as (i & Hi & Hc').
    apply (Hx i Hi). destruct Hc as (_ & _ & <-), Hc' as (_ & _ & <-). done.
Qed.

(** C24: a transaction that fills the log to LOGBLOCKS blocks, which begin_op and
    log_write allow, cannot be committed: its blocks pin all NBUF buffers, and
    commit panics when write_log asks for a buffer for the first log block. *)
Theorem full_log_commit_panics {D : DiskDriver} c s l st :
  bio_cpu c -> bc_ok s -> txn l st LOGBLOCKS -> lh_n l = LOGBLOCKS ->
  (forall i, 0 <= i < LOGBLOCKS -> 0 < refs s (lblk l i)) ->
  commit c (Lst s l) = Panic "bget: no buffers".
Proof.
  intros Hcpu Hok HT Hn Hpin. destruct (full_no_room s l st Hok HT Hpin) as [Hr Hf].
  assert (forall m, write_log_loop (S m) 0 c (Lst s l) = Panic "bget: no buffers") as E.
  { intros m. cbn [write_log_loop]. unfold glog. cbv beta iota delta [mbind K_bind gets]. cbn [l_log].
    rewrite (log_dev_addr l st LOGBLOCKS HT), (log_addr l st LOGBLOCKS HT 0) by done.
    unfold zoom at 1. cbn [aget bioA l_bio]. unfold bread, mbind, K_bind.
    rewrite (bget_full c s Hcpu Hok (st + 0 + 1)); [done| |done].
    apply Hf. intros i Hi. by apply (log_ne_home l st LOGBLOCKS HT). }
  unfold commit, write_log, glog. krun. cbn [l_log]. rewrite Hn. change (LOGBLOCKS >? 0) with true. cbv beta iota.
  cbn [l_log]. rewrite Hn. change (Z.to_nat LOGBLOCKS) with (S 29). by rewrite E.
Qed.

(** ** Concrete runs *)

Definition log_ctx : ctx := with_lock L_log "log" boot_ctx.
Lemma log_ctx_cpu : bio_cpu log_ctx /\ unlocked L_log log_ctx.
Proof.
  split; [apply bio_cpu_with_lock; [done|done|exact boot_cpu]|]. exists "log"%string. apply lookup_insert_eq.
Qed.

Lemma log_space_suffices_witness :
  fsrun (D := ram_disk) [0] (Lst boot_bio (set_outstanding 1 log_init)) /\
  exists s', log_write 3 log_ctx (Lst boot_bio (set_outstanding 1 log_init)) = Done tt log_ctx s'.
Proof.
  assert (fsrun (D := ram_disk) ([] ++ 0 :: []) (Lst boot_bio (set_outstanding 1 log_init))) as H.
  { apply (run_begin (D := ram_disk) [] log_ctx (Lst boot_bio log_init) log_ctx).
    - apply run_init; reflexivity.
    - apply begin_op_eq; [exact (bp_cpu _ (proj1 log_ctx_cpu))|exact (proj2 log_ctx_cpu)|reflexivity|].
      change (10 <= 30). lia. }
  split; [exact H|].
  destruct (log_space_suffices (D := ram_disk) [] 0 [] _ 3 log_ctx H) as (_ & s' & E & _).
  - reflexivity.
  - exact (proj1 log_ctx_cpu).
  - exact (proj2 log_ctx_cpu).
  - exists s'. exact E.
Defined.

(** A cache with a pinned block 100 + i in each buffer. *)
Definition pin_at (i : Z) (b : buf) : buf :=
  Buf true ROOTDEV (100 + i) free_lock 1 (b_prev b) (b_next b) zero_block.
Fixpoint pin_upto (k : nat) : bio :=
  match k with
  | O => boot_bio
  | S k => upd_buf (Z.of_nat k) (pin_at (Z.of_nat k)) (pin_upto k)
  end.

#[local] Opaque boot_bio.
Lemma pin_upto_spec k : (k <= 30)%nat ->
  bc_ok (pin_upto k) /\
  (forall i, 0 <= i < Z.of_nat k -> buf_at (pin_upto k) i = pin_at i (buf_at boot_bio i)) /\
  (forall i, Z.of_nat k <= i -> buf_at (pin_upto k) i = buf_at boot_bio i).
Proof.
  destruct boot_bio_eq as (_ & Hok & Hb & _).
  induction k as [|k IH]; intros Hk; [split; [exact Hok|]; split; [intros; lia|reflexivity]|].
  destruct IH as (Ok & Hlt & Hge); [lia|]. cbn [pin_upto].
  assert (buf_at (pin_upto k) (Z.of_nat k) = buf_at boot_bio (Z.of_nat k)) as Ek by (apply Hge; lia).
  destruct (core_inj _ _ (Hb (Z.of_nat k))) as (_ & _ & _ & _ & Hr & _).
  destruct (only_recycle (pin_upto k) (100 + Z.of_nat k) (Z.of_nat k) (pin_at (Z.of_nat k)) Ok) as [Hon Hc].
  { change NBUF with 30. lia. } { rewrite Ek. exact Hr. }
  { apply find_buf_none. intros i (Hi & E1 & E2). destruct (Z.lt_ge_cases i (Z.of_nat k)) as [H|H].
    - rewrite Hlt in E2 by lia. simpl in E2. lia.
    - rewrite Hge in E1 by lia. destruct (core_inj _ _ (Hb i)) as (_ & E & _). rewrite E in E1. change (0 = 1) in E1. discriminate E1. }
  { intros b. split; reflexivity. } { reflexivity. } { reflexivity. } { exact Z.lt_0_1. }
  split; [exact (on_ok _ _ _ Hon)|]. split; intros i Hi; rewrite buf_at_upd.
  - destruct (Z.eqb_spec (Z.of_nat k) i) as [<-|Hne]; [rewrite Ek; reflexivity|]. apply Hlt. lia.
  - rewrite (proj2 (Z.eqb_neq (Z.of_nat k) i)) by lia. apply Hge. lia.
Qed.

Definition full_bio : bio := pin_upto 30.
Definition full_log : log := Log 2 0 1 ROOTDEV LOGBLOCKS (seqZ 100 LOGBLOCKS).

Lemma full_lblk i : 0 <= i < LOGBLOCKS -> lblk full_log i = 100 + i.
Proof.
  change LOGBLOCKS with 30. intros Hi. unfold lblk. rewrite nth_lookup.
  change (lh_block full_log) with (seqZ 100 30). rewrite lookup_seqZ_lt by lia. simpl. lia.
Qed.

Lemma full_txn : txn full_log 2 LOGBLOCKS.
Proof.
  split; [done|done|lia|done| |].
  - intros i Hi. rewrite full_lblk by done. change LOGBLOCKS with 30 in *. lia.
  - intros i j Hi Hj. rewrite !full_lblk by done. lia.
Qed.

Lemma full_pins i : 0 <= i < LOGBLOCKS -> 0 < refs full_bio (lblk full_log i).
Proof.
  intros Hi. destruct (pin_upto_spec 30 ltac:(lia)) as (Ok & Hlt & _). rewrite full_lblk by done.
  change LOGBLOCKS with 30 in Hi. specialize (Hlt i ltac:(lia)).
  rewrite (refs_cached full_bio (100 + i) i Ok); unfold full_bio; [rewrite Hlt; exact Z.lt_0_1|].
  unfold cached. rewrite Hlt. split_and!; [lia|change NBUF with 30; lia|reflexivity|reflexivity].
Qed.

Lemma full_log_commit_panics_witness :
  lh_n full_log = LOGBLOCKS /\ @commit ram_disk boot_ctx (Lst full_bio full_log) = Panic "bget: no buffers".
Proof.
  split; [reflexivity|].
  apply (full_log_commit_panics (D := ram_disk) boot_ctx full_bio full_log 2).
  - exact boot_cpu.
  - exact (proj1 (pin_upto_spec 30 ltac:(lia))).
  - exact full_txn.
  - reflexivity.
  - exact full_pins.
Defined.
