(* ===== verification/Str.v ===== *)
(** * Byte and string routines (kernel/string.c)

    Each routine works on the byte memory of the prelude; [char] is unsigned on
    RISC-V.  A pointer is an address in [Z]: the C code never forms a pointer
    that wraps around. *)
From stdpp Require Import base numbers list gmap.
From S2P Require Import Prelude.

(** for(i = 0; i < n; i++) cdst[i] = c; *)
Fixpoint memset_loop (k : nat) (m : mem) (p c : Z) : mem :=
  match k with
  | O => m
  | S k => memset_loop k (store8 m p c) (p + 1) c
  end.
Definition memset (m : mem) (dst c n : Z) : mem := memset_loop (Z.to_nat (u32 n)) m dst c.

Fixpoint memcmp_loop (k : nat) (m : mem) (s1 s2 : Z) : Z :=
  match k with
  | O => 0
  | S k =>
      if negb (load8 m s1 =? load8 m s2) then load8 m s1 - load8 m s2
      else memcmp_loop k m (s1 + 1) (s2 + 1)
  end.
Definition memcmp (m : mem) (v1 v2 n : Z) : Z := memcmp_loop (Z.to_nat (u32 n)) m v1 v2.

(** while(n-- > 0) *--d = *--s; *)
Fixpoint memmove_down (k : nat) (m : mem) (d s : Z) : mem :=
  match k with
  | O => m
  | S k => let d := d - 1 in let s := s - 1 in memmove_down k (store8 m d (load8 m s)) d s
  end.
(** while(n-- > 0) *d++ = *s++; *)
Fixpoint memmove_up (k : nat) (m : mem) (d s : Z) : mem :=
  match k with
  | O => m
  | S k => memmove_up k (store8 m d (load8 m s)) (d + 1) (s + 1)
  end.
Definition memmove (m : mem) (dst src n : Z) : mem :=
  let n := u32 n in
  if n =? 0 then m
  else if (src <? dst) && (dst <? src + n)
  then memmove_down (Z.to_nat n) m (dst + n) (src + n)
  else memmove_up (Z.to_nat n) m dst src.

Definition memcpy (m : mem) (dst src n : Z) : mem := memmove m dst src n.

Fixpoint strncmp_loop (k : nat) (m : mem) (p q : Z) : Z :=
  match k with
  | O => 0
  | S k' =>
      if z2b (load8 m p) && (load8 m p =? load8 m q)
      then strncmp_loop k' m (p + 1) (q + 1)
      else load8 m p - load8 m q
  end.
Definition strncmp (m : mem) (p q n : Z) : Z := strncmp_loop (Z.to_nat (u32 n)) m p q.

(** while(n-- > 0 && ( *s++ = *t++ ) != 0): the memory, the advanced [s] and the
    count left when the loop stops. *)
Fixpoint strncpy_copy (k : nat) (m : mem) (s t : Z) : mem * Z * nat :=
  match k with
  | O => (m, s, O)
  | S k =>
      let b := load8 m t in
      let m := store8 m s b in
      if b =? 0 then (m, s + 1, k) else strncpy_copy k m (s + 1) (t + 1)
  end.
Definition strncpy (m : mem) (s t n : Z) : mem :=
  let '(m, s, k) := strncpy_copy (Z.to_nat n) m s t in
  memset_loop k m s 0.

(** while(--n > 0 && ( *s++ = *t++ ) != 0); *s = 0; *)
Definition safestrcpy (m : mem) (s t n : Z) : mem :=
  if n <=? 0 then m
  else
    let '(m, s, _) := strncpy_copy (Z.to_nat (n - 1)) m s t in
    store8 m s 0.

(** for(n = 0; s[n]; n++): [fuel] bounds the scan, [None] if no NUL was met. *)
Fixpoint strlen_loop (fuel : nat) (m : mem) (s n : Z) : option Z :=
  match fuel with
  | O => None
  | S fuel => if load8 m (s + n) =? 0 then Some n else strlen_loop fuel m s (n + 1)
  end.
Definition strlen (fuel : nat) (m : mem) (s : Z) : option Z := strlen_loop fuel m s 0.

(** The C string at [p], cut at [n] bytes: what the routines are about. *)
Fixpoint cstr (n : nat) (m : mem) (p : Z) : list Z :=
  match n with
  | O => []
  | S n => if load8 m p =? 0 then [] else load8 m p :: cstr n m (p + 1)
  end.

(** ** C strings in memory

    [str_at m p cs]: the bytes [cs] and then a NUL are at [p]. *)

Fixpoint str_at (m : mem) (p : Z) (cs : list Z) : Prop :=
  match cs with
  | [] => load8 m p = 0
  | c :: cs => load8 m p = c /\ c <> 0 /\ str_at m (p + 1) cs
  end.

Lemma str_at_drop m k : forall p cs, (k <= length cs)%nat -> str_at m p cs -> str_at m (p + Z.of_nat k) (drop k cs).
Proof.
  induction k as [|k IH]; intros p cs Hk Hs; [by rewrite Z.add_0_r|].
  destruct cs as [|c cs]; simpl in Hk; [lia|]. destruct Hs as (_ & _ & Hs). simpl.
  replace (p + Z.of_nat (S k)) with (p + 1 + Z.of_nat k) by lia. apply IH; [lia|done].
Qed.
Lemma str_at_ext m m' cs : forall p, (forall i, 0 <= i <= Z.of_nat (length cs) -> load8 m' (p + i) = load8 m (p + i)) ->
  str_at m p cs -> str_at m' p cs.
Proof.
  induction cs as [|c cs IH]; intros p He Hs; simpl in *.
  - specialize (He 0 ltac:(lia)). rewrite Z.add_0_r in He. congruence.
  - destruct Hs as (H1 & H2 & H3). pose proof (He 0 ltac:(lia)) as E0. rewrite Z.add_0_r in E0.
    split; [congruence|]. split; [done|]. apply IH; [|done]. intros i Hi. rewrite <- !Z.add_assoc. apply He. lia.
Qed.
Lemma str_at_lookup m cs : forall p i c, str_at m p cs -> cs !! i = Some c -> load8 m (p + Z.of_nat i) = c.
Proof.
  induction cs as [|d cs IH]; intros p i c Hs Hc; [done|]. destruct Hs as (H1 & _ & H3). destruct i as [|i].
  - rewrite Z.add_0_r. simpl in Hc. congruence.
  - replace (p + Z.of_nat (S i)) with (p + 1 + Z.of_nat i) by lia. by apply IH.
Qed.

(** The bytes [l] are at [a]. *)
Definition holds (m : mem) (a : Z) (l : list Z) : Prop :=
  forall i x, l !! i = Some x -> load8 m (a + Z.of_nat i) = x.

Lemma holds_ext m m' a l : (forall i, 0 <= i < Z.of_nat (length l) -> load8 m' (a + i) = load8 m (a + i)) ->
  holds m a l -> holds m' a l.
Proof. intros He Hh i x Hx. rewrite He; [by apply Hh|]. apply lookup_lt_Some in Hx. lia. Qed.
Lemma holds_app m a l1 l2 : holds m a (l1 ++ l2) <-> holds m a l1 /\ holds m (a + Z.of_nat (length l1)) l2.
Proof.
  split.
  - intros Hh. split; intros i x Hx.
    + apply Hh. by apply lookup_app_l_Some.
    + rewrite <- Z.add_assoc, <- Nat2Z.inj_add. apply Hh. rewrite lookup_app_r by lia. by replace (_ + i - _)%nat with i by lia.
  - intros [H1 H2] i x [Hx|[Hl Hx]]%lookup_app_Some; [by apply H1|].
    apply H2 in Hx. rewrite <- Hx. f_equal. lia.
Qed.
Lemma holds_store m a bs : Forall is_byte bs -> holds (store_bytes m a bs) a bs.
Proof.
  intros Hb i x Hx. rewrite (load8_store_bytes_in _ _ _ _ _ Hx). apply Z.mod_small. by apply (Forall_lookup_1 _ _ _ _ Hb Hx).
Qed.
Lemma holds_bytes m a l : holds m a l -> load_bytes m a (length l) = l.
Proof.
  intros Hh. apply list_eq. intros i. destruct (decide (i < length l)%nat) as [Hi|Hi].
  - rewrite load_bytes_lookup by done. destruct (lookup_lt_is_Some_2 l i Hi) as [x Hx]. rewrite Hx. f_equal. by apply Hh.
  - rewrite !lookup_ge_None_2; [done|lia|rewrite length_load_bytes; lia].
Qed.
Lemma str_holds m a l : str_at m a l <-> holds m a l /\ Forall (fun x => x <> 0) l /\ load8 m (a + Z.of_nat (length l)) = 0.
Proof.
  revert a. induction l as [|x l IH]; intros a; cbn [str_at length].
  - rewrite Z.add_0_r. split; [|tauto]. intros H0. split; [by intros []|done].
  - rewrite IH, Forall_cons. replace (a + 1 + Z.of_nat (length l)) with (a + Z.of_nat (S (length l))) by lia.
    change (x :: l) with ([x] ++ l). rewrite holds_app. simpl length. split.
    + intros (H1 & H2 & H3 & H4 & H5). split; [|done]. split; [|done]. intros [|i] y [= <-]. by rewrite Z.add_0_r.
    + intros ((H1 & H2) & (H3 & H4) & H5). split; [|done]. rewrite <- (Z.add_0_r a). by apply (H1 O).
Qed.

(** ** memset *)

Lemma load8_memset_loop k : forall m p c a,
  load8 (memset_loop k m p c) a =
  if bool_decide (p <= a < p + Z.of_nat k) then c mod 256 else load8 m a.
Proof.
  induction k as [|k IH]; intros m p c a; cbn [memset_loop].
  - by rewrite bool_decide_eq_false_2 by lia.
  - rewrite IH, load8_store8. destruct (Z.eqb_spec p a) as [->|Hne].
    + rewrite (bool_decide_eq_true_2 (a <= a < _)) by lia. by case_bool_decide.
    + repeat case_bool_decide; try done; lia.
Qed.

Lemma load8_memset m p c n a : in_u 32 n ->
  load8 (memset m p c n) a = if bool_decide (p <= a < p + n) then c mod 256 else load8 m a.
Proof.
  intros [H0 H1]. unfold memset. rewrite u_small by lia.
  rewrite load8_memset_loop. by rewrite Z2Nat.id by lia.
Qed.

Lemma mem_ok_memset_loop k : forall m p c, mem_ok m -> mem_ok (memset_loop k m p c).
Proof. induction k; intros; simpl; auto with xv6. Qed.
Lemma mem_ok_memset m p c n : mem_ok m -> mem_ok (memset m p c n).
Proof. apply mem_ok_memset_loop. Qed.

(** ** memmove *)

Lemma load8_memmove_up k : forall m d s a,
  mem_ok m -> (d <= s \/ s + Z.of_nat k <= d) ->
  load8 (memmove_up k m d s) a =
  if bool_decide (d <= a < d + Z.of_nat k) then load8 m (s + (a - d)) else load8 m a.
Proof.
  induction k as [|k IH]; intros m d s a Hm Hd; cbn [memmove_up].
  - by rewrite bool_decide_eq_false_2 by lia.
  - rewrite IH by (auto with xv6; lia). rewrite !load8_store8.
    rewrite (Z.mod_small (load8 m s)) by by apply load8_range.
    repeat case_bool_decide; destruct (Z.eqb_spec d a);
      destruct (Z.eqb_spec d (s + 1 + (a - (d + 1)))); try lia; try done; f_equal; lia.
Qed.

Lemma load8_memmove_down k : forall m d s a,
  mem_ok m -> (s <= d \/ d + Z.of_nat k <= s) ->
  load8 (memmove_down k m d s) a =
  if bool_decide (d - Z.of_nat k <= a < d) then load8 m (s + (a - d)) else load8 m a.
Proof.
  induction k as [|k IH]; intros m d s a Hm Hd; cbn [memmove_down].
  - by rewrite bool_decide_eq_false_2 by lia.
  - rewrite IH by (auto with xv6; lia). rewrite !load8_store8.
    rewrite (Z.mod_small (load8 m (s - 1))) by by apply load8_range.
    repeat case_bool_decide; destruct (Z.eqb_spec (d - 1) a);
      destruct (Z.eqb_spec (d - 1) (s - 1 + (a - (d - 1)))); try lia; try done; f_equal; lia.
Qed.

Lemma load8_memmove m d s n a :
  mem_ok m -> in_u 32 n ->
  load8 (memmove m d s n) a =
  if bool_decide (d <= a < d + n) then load8 m (s + (a - d)) else load8 m a.
Proof.
  intros Hm [H0 H1]. unfold memmove. rewrite u_small by lia.
  destruct (Z.eqb_spec n 0) as [->|Hn].
  { by rewrite bool_decide_eq_false_2 by lia. }
  destruct (Z.ltb_spec s d), (Z.ltb_spec d (s + n)); cbn [andb];
    rewrite ?load8_memmove_up, ?load8_memmove_down by (auto; lia).
  all: repeat case_bool_decide; try lia; try done; f_equal; lia.
Qed.

Lemma mem_ok_memmove_up k : forall m d s, mem_ok m -> mem_ok (memmove_up k m d s).
Proof. induction k; intros; simpl; auto with xv6. Qed.
Lemma mem_ok_memmove_down k : forall m d s, mem_ok m -> mem_ok (memmove_down k m d s).
Proof. induction k; intros; simpl; auto with xv6. Qed.
Lemma mem_ok_memmove m d s n : mem_ok m -> mem_ok (memmove m d s n).
Proof.
  intros Hm. unfold memmove.
  repeat case_match; auto using mem_ok_memmove_up, mem_ok_memmove_down.
Qed.
#[export] Hint Resolve mem_ok_memset mem_ok_memmove : xv6.
#[global] Opaque memset memmove.

(** ** Strings *)

Lemma cstr_ext n : forall m1 m2 p1 p2,
  (forall i, 0 <= i < Z.of_nat n -> load8 m1 (p1 + i) = load8 m2 (p2 + i)) ->
  cstr n m1 p1 = cstr n m2 p2.
Proof.
  induction n as [|n IH]; intros m1 m2 p1 p2 H; [done|]. cbn [cstr].
  pose proof (H 0 ltac:(lia)) as H0. rewrite !Z.add_0_r in H0. rewrite H0.
  destruct (load8 m2 p2 =? 0); [done|]. f_equal. apply IH. intros i Hi.
  specialize (H (i + 1) ltac:(lia)). by replace (p1 + 1 + i) with (p1 + (i + 1)) by lia;
    replace (p2 + 1 + i) with (p2 + (i + 1)) by lia.
Qed.

Lemma length_cstr n : forall m p, (length (cstr n m p) <= n)%nat.
Proof. induction n; intros; simpl; [lia|]. case_match; simpl; [lia|]. specialize (IHn m (p + 1)). lia. Qed.

Lemma strncmp_loop_spec k : forall m p q,
  mem_ok m -> strncmp_loop k m p q = 0 <-> cstr k m p = cstr k m q.
Proof.
  induction k as [|k IH]; intros m p q Hm; cbn [strncmp_loop cstr]; [done|].
  unfold z2b. destruct (Z.eqb_spec (load8 m p) 0) as [E|E]; cbn [negb andb].
  - rewrite E. destruct (Z.eqb_spec (load8 m q) 0) as [E'|E'].
    + split; [done|lia].
    + split; [lia|done].
  - destruct (Z.eqb_spec (load8 m p) (load8 m q)) as [E'|E'].
    + rewrite <- E'. rewrite (proj2 (Z.eqb_neq _ _) E). rewrite IH by done.
      split; [by intros ->|by intros [=]].
    + split; [lia|]. destruct (Z.eqb_spec (load8 m q) 0); [done|]. intros [=]. lia.
Qed.

(** What [strncpy_copy] leaves: the copied prefix, with its NUL if one was met. *)
Lemma strncpy_copy_spec k : forall m s t m' s' r,
  mem_ok m -> strncpy_copy k m s t = (m', s', r) ->
  (s + Z.of_nat k <= t \/ t + Z.of_nat k <= s) ->
  let bs := cstr k m t in
  s' = s + Z.of_nat (k - r) /\ (r <= k)%nat /\ mem_ok m' /\
  (forall a, ~ (s <= a < s') -> load8 m' a = load8 m a) /\
  (length bs = k /\ r = O \/ (length bs < k)%nat /\ (k - r = length bs + 1)%nat) /\
  (forall i x, bs !! i = Some x -> load8 m' (s + Z.of_nat i) = x) /\
  ((length bs < k)%nat -> load8 m' (s + Z.of_nat (length bs)) = 0).
Proof.
  induction k as [|k IH]; intros m s t m' s' r Hm E Hd; cbn [strncpy_copy cstr] in *.
  { injection E as <- <- <-. simpl. split_and!; auto; try lia; done. }
  pose proof (load8_range m t Hm) as Hb. unfold is_byte in Hb.
  destruct (Z.eqb_spec (load8 m t) 0) as [E0|E0].
  - injection E as <- <- <-. simpl length. split_and!; auto with xv6; try lia; try done.
    + intros a Ha. apply load8_store8_ne. lia.
    + intros _. rewrite Z.add_0_r, load8_store8, Z.eqb_refl, E0. done.
  - set (m1 := store8 m s (load8 m t)) in *.
    assert (cstr k m1 (t + 1) = cstr k m (t + 1)) as Ec.
    { apply cstr_ext. intros i Hi. apply load8_store8_ne. lia. }
    assert (mem_ok m1) as Hm1 by (subst m1; auto with xv6).
    specialize (IH m1 (s + 1) (t + 1) m' s' r Hm1 E ltac:(lia)). rewrite Ec in IH.
    cbn zeta in IH. destruct IH as (Es & Hr & Hok & Hout & Hlen & Hin & Hnul).
    cbn [length]. split_and!; auto; try lia.
    + intros a Ha. rewrite Hout by lia. apply load8_store8_ne. lia.
    + intros [|i] x Hx; simplify_eq/=.
      * rewrite Z.add_0_r, Hout by lia. subst m1. rewrite load8_store8, Z.eqb_refl.
        apply Z.mod_small. lia.
      * rewrite <- (Hin i x Hx). f_equal. lia.
    + intros Hl. rewrite <- Hnul by lia. f_equal. lia.
Qed.

Lemma cstr_nonzero n : forall m p x, x ∈ cstr n m p -> x <> 0.
Proof.
  induction n as [|n IH]; intros m p x Hx; cbn [cstr] in Hx; [by apply elem_of_nil in Hx|].
  destruct (Z.eqb_spec (load8 m p) 0); [by apply elem_of_nil in Hx|].
  apply elem_of_cons in Hx as [->|Hx]; [done|by eapply IH].
Qed.

Lemma cstr_lookup n : forall m p i x, cstr n m p !! i = Some x -> load8 m (p + Z.of_nat i) = x.
Proof.
  induction n as [|n IH]; intros m p i x H; cbn [cstr] in H; [done|].
  destruct (load8 m p =? 0); [done|]. destruct i as [|i]; simplify_eq/=.
  - by rewrite Z.add_0_r.
  - replace (p + Z.of_nat (S i)) with (p + 1 + Z.of_nat i) by lia. by apply IH.
Qed.

(** A string is determined by its non-zero bytes and its terminator. *)
Lemma cstr_intro n : forall m p bs,
  (forall i x, bs !! i = Some x -> load8 m (p + Z.of_nat i) = x /\ x <> 0) ->
  load8 m (p + Z.of_nat (length bs)) = 0 -> (length bs < n)%nat -> cstr n m p = bs.
Proof.
  induction n as [|n IH]; intros m p bs Hb Hz Hl; [lia|]. cbn [cstr].
  destruct bs as [|b bs]; cbn [length] in *.
  - rewrite Z.add_0_r in Hz. by rewrite Hz.
  - destruct (Hb O b eq_refl) as [E Hne]. rewrite Z.add_0_r in E. rewrite E.
    rewrite (proj2 (Z.eqb_neq b 0) Hne). f_equal. apply IH; [|rewrite <- Hz; f_equal; lia|lia].
    intros i x Hx. destruct (Hb (S i) x Hx) as [E' ?]. split; [|done]. rewrite <- E'. f_equal. lia.
Qed.

Lemma strlen_loop_spec f : forall m s n,
  strlen_loop f m s n =
  if bool_decide (length (cstr f m (s + n)) < f)%nat
  then Some (n + Z.of_nat (length (cstr f m (s + n)))) else None.
Proof.
  induction f as [|f IH]; intros m s n; cbn [strlen_loop cstr]; [done|].
  destruct (load8 m (s + n) =? 0) eqn:E; cbn [length].
  - by rewrite Z.add_0_r.
  - rewrite IH. replace (s + (n + 1)) with (s + n + 1) by lia.
    repeat case_bool_decide; try lia; try done. f_equal. lia.
Qed.

(** [memmove] copies correctly even when source and destination overlap:
    afterwards the destination holds the bytes the source held before, and
    every other byte is untouched. *)
Theorem memmove_overlap_correct m d s n :
  mem_ok m -> in_u 32 n ->
  (forall i, 0 <= i < n -> load8 (memmove m d s n) (d + i) = load8 m (s + i)) /\
  (forall a, ~ (d <= a < d + n) -> load8 (memmove m d s n) a = load8 m a).
Proof.
  intros Hm Hn. split; intros; rewrite load8_memmove by done.
  - rewrite bool_decide_eq_true_2 by lia. f_equal. lia.
  - by rewrite bool_decide_eq_false_2.
Qed.

Lemma memmove_overlap_correct_witness :
  let m := store_bytes ∅ 100 [1; 2; 3; 4] in
  load_bytes (memmove m 102 100 4) 102 4 = [1; 2; 3; 4] /\
  load8 (memmove m 102 100 4) (102 + 3) = load8 m (100 + 3).
Proof.
  intros m. split; [vm_compute; reflexivity|].
  apply (memmove_overlap_correct m 102 100 4); [|unfold in_u; lia|lia].
  unfold m. apply mem_ok_store_bytes, mem_ok_empty.
Defined.

(** [strncmp] returns 0 exactly when the two strings, each cut at its NUL or
    at [n] bytes, are equal. *)
Theorem strncmp_zero_iff m p q n :
  mem_ok m -> in_u 32 n ->
  strncmp m p q n = 0 <-> cstr (Z.to_nat n) m p = cstr (Z.to_nat n) m q.
Proof. intros Hm [H0 H1]. unfold strncmp. rewrite u_small by lia. by apply strncmp_loop_spec. Qed.

Lemma strncmp_zero_iff_witness :
  let m := store_bytes ∅ 100 [97; 98; 0; 9; 97; 98; 0; 7] in
  strncmp m 100 104 14 = 0 <-> cstr 14 m 100 = cstr 14 m 104.
Proof.
  intros m. apply (strncmp_zero_iff m 100 104 14); [|unfold in_u; lia].
  apply mem_ok_store_bytes, mem_ok_empty.
Defined.

(** C16: [safestrcpy] always leaves a NUL-terminated string in the [n] bytes it is
    given, equal to the source cut at [n - 1] bytes, and writes nothing outside
    them. *)
Theorem safestrcpy_bounded m s t n :
  mem_ok m -> 0 < n -> (s + n <= t \/ t + n <= s) ->
  let m' := safestrcpy m s t n in
  cstr (Z.to_nat n) m' s = cstr (Z.to_nat (n - 1)) m t /\
  (length (cstr (Z.to_nat n) m' s) < Z.to_nat n)%nat /\
  (forall a, ~ (s <= a < s + n) -> load8 m' a = load8 m a).
Proof.
  intros Hm Hn Hd m'. unfold m', safestrcpy. clear m'.
  destruct (Z.leb_spec n 0); [lia|].
  destruct (strncpy_copy (Z.to_nat (n - 1)) m s t) as [[m1 s1] r] eqn:E.
  destruct (strncpy_copy_spec _ _ _ _ _ _ _ Hm E ltac:(lia)) as (Es & Hr & Hok & Hout & Hl & Hin & Hz).
  set (bs := cstr (Z.to_nat (n - 1)) m t) in *.
  assert (s1 = s + n - 1 - Z.of_nat r) by lia.
  assert (cstr (Z.to_nat n) (store8 m1 s1 0) s = bs) as Ec.
  { apply cstr_intro; [| |lia].
    - intros i x Hx. pose proof (lookup_lt_Some _ _ _ Hx). split.
      + rewrite load8_store8_ne by lia. by apply Hin.
      + eapply cstr_nonzero, list_elem_of_lookup_2, Hx.
    - rewrite load8_store8. case_match; [done|]. apply Hz.
      destruct (Z.eqb_spec s1 (s + Z.of_nat (length bs))); [done|]. lia. }
  rewrite Ec. split_and!; [done|lia|].
  intros a Ha. rewrite load8_store8_ne by lia. apply Hout. lia.
Qed.

Lemma safestrcpy_bounded_witness :
  let m := store_bytes ∅ 100 [115; 104; 101; 108; 108; 0] in
  cstr 4 (safestrcpy m 200 100 4) 200 = [115; 104; 101].
Proof.
  intros m.
  pose proof (safestrcpy_bounded m 200 100 4
    (mem_ok_store_bytes _ _ _ mem_ok_empty) ltac:(lia) ltac:(lia)) as [E _].
  exact E.
Defined.
