(* ===== verification/Riscv.v ===== *)
(** * Address arithmetic (kernel/riscv.h, kernel/memlayout.h)

    The macros on pages, page-table entries and the address-space layout, on
    64-bit values, with the arithmetic facts that the memory code rests on. *)
From stdpp Require Import base numbers list.
From S2P Require Import Prelude.

Definition PGSIZE : Z := 4096.
Definition PGSHIFT : Z := 12.

Definition PGROUNDUP (sz : Z) : Z := Z.land (u64 (sz + PGSIZE - 1)) (Z.lnot (PGSIZE - 1)).
Definition PGROUNDDOWN (a : Z) : Z := Z.land a (Z.lnot (PGSIZE - 1)).

Definition PTE_V : Z := Z.shiftl 1 0.
Definition PTE_R : Z := Z.shiftl 1 1.
Definition PTE_W : Z := Z.shiftl 1 2.
Definition PTE_X : Z := Z.shiftl 1 3.
Definition PTE_U : Z := Z.shiftl 1 4.

Definition PA2PTE (pa : Z) : Z := u64 (Z.shiftl (Z.shiftr pa 12) 10).
Definition PTE2PA (pte : Z) : Z := u64 (Z.shiftl (Z.shiftr pte 10) 12).
Definition PTE_FLAGS (pte : Z) : Z := Z.land pte 0x3FF.

Definition PXMASK : Z := 0x1FF.
Definition PXSHIFT (level : Z) : Z := PGSHIFT + 9 * level.
Definition PX (level va : Z) : Z := Z.land (Z.shiftr va (PXSHIFT level)) PXMASK.

Definition MAXVA : Z := Z.shiftl 1 (9 + 9 + 9 + 12 - 1).

Definition SATP_SV39 : Z := u64 (Z.shiftl 8 60).
Definition MAKE_SATP (pagetable : Z) : Z := Z.lor SATP_SV39 (Z.shiftr pagetable 12).

Definition UART0 : Z := 0x10000000.
Definition VIRTIO0 : Z := 0x10001000.
Definition PLIC : Z := 0x0c000000.
Definition KERNBASE : Z := 0x80000000.
Definition PHYSTOP : Z := KERNBASE + 128 * 1024 * 1024.
Definition TRAMPOLINE : Z := MAXVA - PGSIZE.
Definition KSTACK (p : Z) : Z := TRAMPOLINE - (p + 1) * 2 * PGSIZE.
Definition TRAPFRAME : Z := TRAMPOLINE - PGSIZE.

(** ** Facts *)

Lemma land_lnot_page x : Z.land x (Z.lnot (PGSIZE - 1)) = x - x mod PGSIZE.
Proof.
  change (PGSIZE - 1) with (Z.ones 12). rewrite <- Z.ldiff_land, Z.ldiff_ones_r by lia.
  rewrite Z.shiftl_mul_pow2, Z.shiftr_div_pow2 by lia.
  change (2 ^ 12) with PGSIZE. pose proof (Z.div_mod x PGSIZE ltac:(done)). lia.
Qed.

Lemma PGROUNDDOWN_eq a : PGROUNDDOWN a = a - a mod PGSIZE.
Proof. apply land_lnot_page. Qed.

Lemma PGROUNDUP_eq sz :
  0 <= sz <= 2 ^ 64 - PGSIZE -> PGROUNDUP sz = (sz + (PGSIZE - 1)) - (sz + (PGSIZE - 1)) mod PGSIZE.
Proof.
  intros H. unfold PGROUNDUP. rewrite land_lnot_page, u_small by (unfold PGSIZE in *; lia).
  unfold PGSIZE. replace (sz + 4096 - 1) with (sz + (4096 - 1)) by lia. done.
Qed.

Lemma PGROUNDUP_spec sz : 0 <= sz <= 2 ^ 64 - PGSIZE ->
  PGROUNDUP sz mod PGSIZE = 0 /\ sz <= PGROUNDUP sz < sz + PGSIZE.
Proof.
  intros H. rewrite PGROUNDUP_eq by done. unfold PGSIZE in *.
  pose proof (Z.mod_pos_bound (sz + (4096 - 1)) 4096 ltac:(lia)). split; [|lia].
  rewrite Zminus_mod_idemp_r, Z.sub_diag. done.
Qed.

Lemma PGROUNDUP_aligned sz :
  0 <= sz <= 2 ^ 64 - PGSIZE -> sz mod PGSIZE = 0 -> PGROUNDUP sz = sz.
Proof.
  intros H Hm. destruct (PGROUNDUP_spec sz H) as [H1 H2]. unfold PGSIZE in *.
  apply Z.mod_divide in Hm as [k ->]; [|lia]. apply Z.mod_divide in H1 as [j E]; [|lia]. lia.
Qed.

Lemma PGROUNDDOWN_spec a :
  PGROUNDDOWN a mod PGSIZE = 0 /\ PGROUNDDOWN a <= a < PGROUNDDOWN a + PGSIZE.
Proof.
  rewrite PGROUNDDOWN_eq. unfold PGSIZE.
  pose proof (Z.mod_pos_bound a 4096 ltac:(lia)). split; [|lia].
  rewrite Zminus_mod_idemp_r, Z.sub_diag. done.
Qed.

Lemma PX_eq l va : 0 <= l -> PX l va = (va / 2 ^ (12 + 9 * l)) mod 512.
Proof.
  intros. unfold PX, PXMASK, PXSHIFT, PGSHIFT. change 0x1FF with (Z.ones 9).
  rewrite Z.land_ones by lia. rewrite Z.shiftr_div_pow2 by lia. done.
Qed.

Lemma PX_range l va : 0 <= l -> 0 <= PX l va < 512.
Proof. intros. rewrite PX_eq by done. apply Z.mod_pos_bound. lia. Qed.

(** The three indices and the offset determine an address below MAXVA. *)
Lemma va_decompose va : 0 <= va < MAXVA ->
  va = PX 2 va * 2 ^ 30 + PX 1 va * 2 ^ 21 + PX 0 va * 2 ^ 12 + va mod PGSIZE.
Proof.
  intros [H0 H1]. rewrite !PX_eq by lia. change (12 + 9 * 2) with 30.
  change (12 + 9 * 1) with 21. change (12 + 9 * 0) with 12.
  change MAXVA with (2 ^ 38) in H1. unfold PGSIZE.
  assert (va / 2 ^ 30 = va / 4096 / 512 / 512) as -> by (rewrite !Z.div_div by lia; done).
  assert (va / 2 ^ 21 = va / 4096 / 512) as -> by (rewrite !Z.div_div by lia; done).
  change (2 ^ 12) with 4096. change (2 ^ 21) with (4096 * 512).
  change (2 ^ 30) with (4096 * 512 * 512).
  pose proof (Z.div_mod va 4096 ltac:(lia)).
  pose proof (Z.div_mod (va / 4096) 512 ltac:(lia)).
  pose proof (Z.div_mod (va / 4096 / 512) 512 ltac:(lia)).
  assert (va / 4096 / 512 / 512 < 512).
  { rewrite !Z.div_div by lia. apply Z.div_lt_upper_bound; lia. }
  assert (0 <= va / 4096 / 512 / 512) by (repeat apply Z.div_pos; lia).
  rewrite (Z.mod_small (va / 4096 / 512 / 512)) by lia. lia.
Qed.

(** A page-table entry built from a page-aligned physical address of at most 56
    bits and ten flag bits gives both back. *)
Lemma PA2PTE_eq pa : 0 <= pa < 2 ^ 56 -> pa mod PGSIZE = 0 -> PA2PTE pa = pa / 4.
Proof.
  intros Hr Hm. unfold PA2PTE, PGSIZE in *. rewrite Z.shiftl_mul_pow2, Z.shiftr_div_pow2 by lia.
  apply Z.mod_divide in Hm as [k ->]; [|lia]. change (2 ^ 12) with 4096. rewrite Z.div_mul by lia.
  replace (k * 4096) with (k * 1024 * 4) by lia. rewrite Z.div_mul by lia.
  apply u_small. lia.
Qed.

Lemma land_shift_low k f : 0 <= f < 1024 -> Z.land (Z.shiftl k 10) f = 0.
Proof.
  intros Hf. apply Z.bits_inj'. intros n Hn.
  rewrite Z.land_spec, Z.bits_0, Z.shiftl_spec by done.
  destruct (Z.lt_ge_cases n 10).
  - rewrite (Z.testbit_neg_r k) by lia. done.
  - rewrite (Z.bits_above_log2 f); [apply andb_false_r|lia|].
    destruct (Z.eq_dec f 0) as [->|]; [simpl; lia|]. apply Z.log2_lt_pow2; [lia|].
    apply Z.lt_le_trans with (2 ^ 10); [lia|]. apply Z.pow_le_mono_r; lia.
Qed.

Lemma PA2PTE_shift pa : 0 <= pa < 2 ^ 56 -> pa mod PGSIZE = 0 ->
  exists k, PA2PTE pa = Z.shiftl k 10 /\ pa = k * 4096.
Proof.
  intros Hr Hm. rewrite PA2PTE_eq by done. unfold PGSIZE in *.
  apply Z.mod_divide in Hm as [k ->]; [|lia]. exists k. split; [|done].
  rewrite Z.shiftl_mul_pow2 by lia. replace (k * 4096) with (k * 1024 * 4) by lia.
  rewrite Z.div_mul by lia. lia.
Qed.

(** The flag bits of an entry are those it was built with. *)
Lemma land_pte pa f b : 0 <= pa < 2 ^ 56 -> pa mod PGSIZE = 0 -> 0 <= b < 1024 ->
  Z.land (Z.lor (PA2PTE pa) f) b = Z.land f b.
Proof.
  intros Hr Hm Hb. destruct (PA2PTE_shift pa Hr Hm) as (k & -> & _).
  by rewrite Z.land_lor_distr_l, land_shift_low.
Qed.

Lemma lor_flags pa f : 0 <= pa < 2 ^ 56 -> pa mod PGSIZE = 0 -> 0 <= f < 1024 ->
  Z.lor (PA2PTE pa) f = pa / 4 + f.
Proof.
  intros Hr Hm Hf. rewrite <- (PA2PTE_eq pa Hr Hm).
  destruct (PA2PTE_shift pa Hr Hm) as (k & -> & _).
  by rewrite Z.add_nocarry_lxor, Z.lxor_lor by by apply land_shift_low.
Qed.

Lemma PTE2PA_lor pa f : 0 <= pa < 2 ^ 56 -> pa mod PGSIZE = 0 -> 0 <= f < 1024 ->
  PTE2PA (Z.lor (PA2PTE pa) f) = pa.
Proof.
  intros Hr Hm Hf. rewrite lor_flags by done. unfold PTE2PA, PGSIZE in *.
  rewrite Z.shiftl_mul_pow2, Z.shiftr_div_pow2 by lia.
  apply Z.mod_divide in Hm as [k ->]; [|lia].
  replace (k * 4096 / 4) with (k * 2 ^ 10) by (replace (k * 4096) with (k * 1024 * 4) by lia;
    rewrite Z.div_mul by lia; lia).
  rewrite Z.add_comm, Z.div_add, (Z.div_small f) by lia.
  apply u_small. lia.
Qed.

Lemma pte_bits : PTE_V = 1 /\ PTE_R = 2 /\ PTE_W = 4 /\ PTE_X = 8 /\ PTE_U = 16.
Proof. done. Qed.

Lemma lor_low a b : 0 <= a < 1024 -> 0 <= b < 1024 -> 0 <= Z.lor a b < 1024.
Proof.
  intros Ha Hb. split; [apply Z.lor_nonneg; lia|].
  destruct (Z.eq_dec (Z.lor a b) 0) as [->|Hne]; [lia|].
  assert (0 <= Z.lor a b) by (apply Z.lor_nonneg; lia).
  change 1024 with (2 ^ 10). apply Z.log2_lt_pow2; [lia|].
  rewrite Z.log2_lor by lia. apply Z.max_lub_lt.
  - destruct (Z.eq_dec a 0) as [->|]; [simpl; lia|]. apply Z.log2_lt_pow2; lia.
  - destruct (Z.eq_dec b 0) as [->|]; [simpl; lia|]. apply Z.log2_lt_pow2; lia.
Qed.

#[global] Opaque PX PA2PTE PTE2PA PGROUNDUP PGROUNDDOWN.
