(* ===== verification/Kalloc.v ===== *)
(** * Physical page allocator (kernel/kalloc.c)

    The free list is threaded through the free pages themselves: the first
    eight bytes of a free page hold the address of the next one.  The model
    keeps that representation in the byte memory; the theorems relate it to the
    abstract stack of free pages. *)
From stdpp Require Import base numbers list gmap strings.
From S2P Require Import Prelude Kernel Spinlock Str Riscv.

(** Physical memory and [kmem.freelist] (0 is the null pointer). *)
Record pmem := PMem { memory : mem; freelist : Z }.
Definition set_memory (m : mem) (s : pmem) : pmem := PMem m (freelist s).
Definition set_freelist (p : Z) (s : pmem) : pmem := PMem (memory s) p.

Section Kalloc.
(** [end]: the first address after the kernel, placed by the linker script. *)
Variable end_ : Z.

Definition kfree (pa : Z) : K pmem unit :=
  (if negb (pa mod PGSIZE =? 0) || (pa <? end_) || (PHYSTOP <=? pa)
   then panic "kfree" else mret tt);;
  modify (fun s => set_memory (memset (memory s) pa 1 PGSIZE) s);;
  acquire L_kmem;;
  modify (fun s => set_memory (store64 (memory s) pa (freelist s)) s);;
  modify (set_freelist pa);;
  release L_kmem.

Definition kalloc : K pmem Z :=
  acquire L_kmem;;
  r ← gets freelist;
  kwhen (z2b r) (modify (fun s => set_freelist (load64 (memory s) r) s));;
  release L_kmem;;
  kwhen (z2b r) (modify (fun s => set_memory (memset (memory s) r 5 PGSIZE) s));;
  mret r.

(** for(; p + PGSIZE <= pa_end; p += PGSIZE) kfree(p); *)
Fixpoint freerange_loop (fuel : nat) (p pa_end : Z) : K pmem unit :=
  match fuel with
  | O => nofuel
  | S fuel =>
      if p + PGSIZE <=? pa_end then kfree p;; freerange_loop fuel (p + PGSIZE) pa_end
      else mret tt
  end.
Definition freerange (pa_start pa_end : Z) : K pmem unit :=
  let p := PGROUNDUP pa_start in
  freerange_loop (S (Z.to_nat ((pa_end - p) / PGSIZE))) p pa_end.

Definition kinit : K pmem unit :=
  initlock L_kmem "kmem";;
  freerange end_ PHYSTOP.

(** ** The allocator's invariant *)

(** A page the allocator may own. *)
Definition page (p : Z) : Prop := p mod PGSIZE = 0 /\ end_ <= p < PHYSTOP.

(** [chain m p l]: following [next] pointers from [p] visits the pages [l]. *)
Fixpoint chain (m : mem) (p : Z) (l : list Z) : Prop :=
  match l with
  | [] => p = 0
  | x :: l => p = x /\ page x /\ chain m (load64 m x) l
  end.

Record kmem_rep (s : pmem) (l : list Z) : Prop := {
  kr_chain : chain (memory s) (freelist s) l;
  kr_nodup : NoDup l;
  kr_mem : mem_ok (memory s);
}.

(** Addresses inside a page. *)
Definition in_page (p a : Z) : Prop := p <= a < p + PGSIZE.

(** Two memories that agree outside the page [p]. *)
Definition same_but (p : Z) (m m' : mem) : Prop :=
  forall a, ~ in_page p a -> load8 m' a = load8 m a.

Hypothesis end_pos : 0 < end_.

Lemma page_range p : page p -> 0 < p < 2 ^ 56 /\ p mod PGSIZE = 0 /\ p + PGSIZE <= PHYSTOP.
Proof.
  intros [Hm Hr]. assert (PHYSTOP = 0x88000000) as E by done.
  unfold PGSIZE in *. apply Z.mod_divide in Hm as Hd; [|lia]. destruct Hd as [k ->]. lia.
Qed.

Lemma page_disjoint p q a : page p -> page q -> p <> q -> in_page p a -> ~ in_page q a.
Proof.
  intros [Hp _] [Hq _] Hne H1 H2. unfold in_page, PGSIZE in *.
  apply Z.mod_divide in Hp as [j ->]; [|lia]. apply Z.mod_divide in Hq as [k ->]; lia.
Qed.

Lemma chain_pages m p l : chain m p l -> Forall page l.
Proof.
  revert p. induction l as [|x l IH]; intros p H; constructor; destruct H as (-> & Hx & H).
  - done.
  - by eapply IH.
Qed.

Lemma load64_same_but p q m m' :
  same_but p m m' -> page p -> page q -> p <> q -> load64 m' q = load64 m q.
Proof.
  intros Hs Hp Hq Hne. apply load64_ext. intros a Ha. apply Hs.
  intros Hin. apply (page_disjoint p q a); auto. unfold in_page, PGSIZE. lia.
Qed.

(** The free list does not depend on pages that are not free. *)
Lemma chain_frame p m m' l : forall h,
  same_but p m m' -> page p -> p ∉ l -> chain m h l -> chain m' h l.
Proof.
  induction l as [|x l IH]; intros h Hs Hp Hn H; [done|].
  destruct H as (-> & Hx & H). apply not_elem_of_cons in Hn as [Hne Hn].
  split_and!; auto. rewrite (load64_same_but p x m m') by done. by apply IH.
Qed.

Lemma same_but_memset p m c : same_but p m (memset m p c PGSIZE).
Proof.
  intros a Ha. rewrite load8_memset by (unfold in_u, PGSIZE; lia).
  by rewrite bool_decide_eq_false_2.
Qed.

Lemma same_but_store64 p m v : same_but p m (store64 m p v).
Proof. intros a Ha. apply load8_store64_out. unfold in_page, PGSIZE in Ha. lia. Qed.

Lemma same_but_trans p m1 m2 m3 : same_but p m1 m2 -> same_but p m2 m3 -> same_but p m1 m3.
Proof. intros H1 H2 a Ha. by rewrite H2, H1. Qed.

(** ** Behaviour of the operations *)

Lemma kalloc_empty c s :
  cpu_ok c -> unlocked L_kmem c -> kmem_rep s [] -> kalloc c s = Done 0 c s.
Proof.
  intros Hok Hul [Hc _ _]. simpl in Hc. unfold kalloc. kstep (acquire_eq L_kmem c s Hul).
  krun. rewrite Hc. simpl. by rewrite (release_eq L_kmem c s Hok Hul).
Qed.

Lemma kalloc_cons c s x l :
  cpu_ok c -> unlocked L_kmem c -> kmem_rep s (x :: l) ->
  exists s', kalloc c s = Done x c s' /\ kmem_rep s' l /\ page x /\ (x ∉ l) /\
    same_but x (memory s) (memory s') /\
    (forall a, in_page x a -> load8 (memory s') a = 5).
Proof.
  intros Hok Hul [Hc Hnd Hm]. simpl in Hc. destruct Hc as (Ef & Hx & Hc).
  apply NoDup_cons in Hnd as [Hn Hnd].
  assert (z2b x = true) as Ez.
  { destruct (page_range x Hx). unfold z2b. apply negb_true_iff, Z.eqb_neq. lia. }
  eexists. split.
  { unfold kalloc. kstep (acquire_eq L_kmem c s Hul). krun. rewrite Ef, Ez.
    rewrite (release_eq L_kmem c _ Hok Hul). reflexivity. }
  simpl. split; [|split_and!; auto].
  - split; [|done|by apply mem_ok_memset].
    apply (chain_frame x (memory s)); [apply same_but_memset|done..].
  - apply same_but_memset.
  - intros a Ha. rewrite load8_memset by (unfold in_u, PGSIZE; lia).
    by rewrite bool_decide_eq_true_2.
Qed.

Lemma kfree_page c s p l :
  cpu_ok c -> unlocked L_kmem c -> kmem_rep s l -> page p -> p ∉ l ->
  exists s', kfree p c s = Done tt c s' /\ kmem_rep s' (p :: l) /\
    same_but p (memory s) (memory s').
Proof.
  intros Hok Hul [Hc Hnd Hm] Hp Hn. destruct (page_range p Hp) as (Hr & Hal & Hend).
  assert (negb (p mod PGSIZE =? 0) || (p <? end_) || (PHYSTOP <=? p) = false) as Ec.
  { destruct Hp as [? [? ?]]. rewrite Hal. simpl. apply orb_false_iff.
    split; [apply Z.ltb_ge|apply Z.leb_gt]; lia. }
  assert (same_but p (memory s)
    (store64 (memset (memory s) p 1 PGSIZE) p (freelist s))) as Hsb.
  { eapply same_but_trans; [apply same_but_memset|apply same_but_store64]. }
  eexists. split.
  { unfold kfree. rewrite Ec. krun. rewrite (acquire_eq L_kmem c _ Hul).
    rewrite (release_eq L_kmem c _ Hok Hul). reflexivity. }
  split; [|exact Hsb]. split; [|by apply NoDup_cons|by apply mem_ok_store64, mem_ok_memset].
  simpl. split_and!; [done..|]. rewrite load64_store64.
  assert (0 <= freelist s < 2 ^ 64) as Hfr.
  { destruct l as [|y l]; simpl in Hc; [lia|]. destruct Hc as (-> & Hy & _).
    apply page_range in Hy. lia. }
  rewrite Z.mod_small by lia. by apply (chain_frame p (memory s)).
Qed.

Lemma kfree_bad c s p : ~ page p -> kfree p c s = Panic "kfree".
Proof.
  intros Hn. unfold kfree.
  assert (negb (p mod PGSIZE =? 0) || (p <? end_) || (PHYSTOP <=? p) = true) as ->; [|done].
  destruct (negb (p mod PGSIZE =? 0) || (p <? end_) || (PHYSTOP <=? p)) eqn:E; [done|].
  destruct Hn. apply orb_false_iff in E as [E E3]. apply orb_false_iff in E as [E1 E2].
  apply negb_false_iff, Z.eqb_eq in E1. apply Z.ltb_ge in E2. apply Z.leb_gt in E3.
  split; [done|lia].
Qed.

(** The pages [freerange] frees, first freed last in the list. *)
Definition pages_from (p : Z) (k : nat) : list Z := (fun i => p + PGSIZE * Z.of_nat i) <$> seq 0 k.

Lemma pages_from_S p k : pages_from p (S k) = p :: pages_from (p + PGSIZE) k.
Proof.
  unfold pages_from. cbn [seq fmap list_fmap]. f_equal; [lia|].
  rewrite <- fmap_S_seq. rewrite <- list_fmap_compose. apply list_fmap_ext. intros. simpl. lia.
Qed.

Lemma pages_from_in p k q : q ∈ pages_from p k -> p <= q.
Proof. unfold pages_from. intros (i & -> & _)%list_elem_of_fmap. unfold PGSIZE. lia. Qed.

Lemma freerange_loop_spec fuel : forall p pa_end c s l,
  cpu_ok c -> unlocked L_kmem c -> kmem_rep s l ->
  p mod PGSIZE = 0 -> end_ <= p -> pa_end <= PHYSTOP ->
  (forall q, q ∈ l -> q < p) -> (Z.to_nat ((pa_end - p) / PGSIZE) < fuel)%nat ->
  exists s', freerange_loop fuel p pa_end c s = Done tt c s' /\
    kmem_rep s' (rev (pages_from p (Z.to_nat ((pa_end - p) / PGSIZE))) ++ l).
Proof.
  induction fuel as [|fuel IH]; intros p pa_end c s l Hok Hul Hrep Hal Hend Htop Hlt Hf; [lia|].
  cbn [freerange_loop]. unfold PGSIZE in *.
  destruct (Z.leb_spec (p + 4096) pa_end) as [Hle|Hgt].
  - destruct (kfree_page c s p l Hok Hul Hrep) as (s1 & E1 & Hrep1 & _).
    { split; [done|]. unfold PGSIZE in *. lia. }
    { intros Hin. specialize (Hlt p Hin). lia. }
    rewrite (bind_done _ _ _ _ _ _ _ E1).
    assert ((pa_end - p) / 4096 = (pa_end - (p + 4096)) / 4096 + 1) as Ed.
    { replace (pa_end - p) with (pa_end - (p + 4096) + 1 * 4096) by lia. rewrite Z.div_add by lia. done. }
    assert (0 <= (pa_end - (p + 4096)) / 4096) by (apply Z.div_pos; lia).
    destruct (IH (p + 4096) pa_end c s1 (p :: l)) as (s2 & E2 & Hrep2); auto; try lia.
    { rewrite Z.add_mod, Hal by lia. done. }
    { intros q [->|Hq]%elem_of_cons; [lia|]. specialize (Hlt q Hq). lia. }
    exists s2. split; [done|].
    replace (Z.to_nat ((pa_end - p) / 4096)) with (S (Z.to_nat ((pa_end - (p + 4096)) / 4096))) by lia.
    rewrite pages_from_S. simpl. rewrite <- app_assoc. exact Hrep2.
  - assert (Z.to_nat ((pa_end - p) / 4096) = 0)%nat as ->.
    { destruct (Z.le_gt_cases (pa_end - p) 0).
      - assert ((pa_end - p) / 4096 <= 0); [|lia]. apply Z.div_le_upper_bound; lia.
      - rewrite Z.div_small by lia. done. }
    exists s. split; [done|]. exact Hrep.
Qed.
End Kalloc.

Lemma kinit_spec end_ c m :
  0 < end_ <= PHYSTOP -> cpu_ok c -> mem_ok m ->
  let first := PGROUNDUP end_ in
  let npages := Z.to_nat ((PHYSTOP - first) / PGSIZE) in
  exists c' s', kinit end_ c (PMem m 0) = Done tt c' s' /\ cpu_ok c' /\
    unlocked L_kmem c' /\ kmem_rep end_ s' (rev (pages_from first npages)).
Proof.
  intros He Hok Hm first npages. assert (PHYSTOP = 0x88000000) as Et by done.
  destruct (PGROUNDUP_spec end_) as [Ha [Hb Hc]]; [unfold PGSIZE; lia|].
  set (c' := set_locks (<[L_kmem := Spinlock 0 "kmem" None]> (locks c)) c).
  assert (cpu_ok c') as Hok' by (destruct Hok; by split).
  assert (unlocked L_kmem c') as Hul.
  { exists "kmem"%string. simpl. by rewrite lookup_insert_eq. }
  destruct (freerange_loop_spec end_ (proj1 He) (S npages) first PHYSTOP c' (PMem m 0) [] Hok' Hul)
    as (s' & E & Hr); auto; try lia.
  { split; simpl; auto. apply NoDup_nil_2. }
  { by intros q Hq%elem_of_nil. }
  exists c', s'. split_and!; auto. by rewrite app_nil_r in Hr.
Qed.

(** C12: on a well-formed free list [kalloc] is the pop of the abstract stack of
    free pages: it returns 0 and changes nothing when the stack is empty, and
    otherwise returns a valid page that is no longer free, filled with 5s,
    without touching a byte outside it; the lock and the interrupt state are as
    before the call. *)
Theorem kalloc_refines_pop end_ c s l :
  0 < end_ -> cpu_ok c -> unlocked L_kmem c -> kmem_rep end_ s l ->
  match l with
  | [] => kalloc c s = Done 0 c s
  | x :: l' => exists s', kalloc c s = Done x c s' /\ kmem_rep end_ s' l' /\
      page end_ x /\ (x ∉ l') /\ same_but x (memory s) (memory s') /\
      (forall a, in_page x a -> load8 (memory s') a = 5)
  end.
Proof.
  intros He Hok Hul Hrep. destruct l as [|x l'].
  - by apply (kalloc_empty end_).
  - by apply kalloc_cons.
Qed.

(** C13: freeing a page that is not free pushes it on the stack (a second free
    of the same page is outside this contract), and any other address,
    misaligned or outside [end, PHYSTOP), panics without touching memory; the
    page freed last is allocated first. *)
Theorem kfree_refines_push end_ c s l p :
  0 < end_ -> cpu_ok c -> unlocked L_kmem c -> kmem_rep end_ s l -> p ∉ l ->
  (page end_ p -> exists s', kfree end_ p c s = Done tt c s' /\ kmem_rep end_ s' (p :: l) /\
     same_but p (memory s) (memory s') /\
     exists s'', kalloc c s' = Done p c s'' /\ kmem_rep end_ s'' l) /\
  (~ page end_ p -> kfree end_ p c s = Panic "kfree").
Proof.
  intros He Hok Hul Hrep Hn. split; [|apply kfree_bad]. intros Hp.
  destruct (kfree_page end_ He c s p l Hok Hul Hrep Hp Hn) as (s' & E & Hr & Hs).
  exists s'. split_and!; auto.
  destruct (kalloc_cons end_ He c s' p l Hok Hul Hr) as (s'' & E' & Hr' & _). by exists s''.
Qed.

(** C14: [kinit] returns, and the free list is then exactly the pages between the
    end of the kernel and PHYSTOP, each once. *)
Theorem kinit_frees_all end_ c m :
  0 < end_ <= PHYSTOP -> cpu_ok c -> mem_ok m ->
  let first := PGROUNDUP end_ in
  let npages := Z.to_nat ((PHYSTOP - first) / PGSIZE) in
  exists c' s', kinit end_ c (PMem m 0) = Done tt c' s' /\ cpu_ok c' /\
    unlocked L_kmem c' /\ kmem_rep end_ s' (rev (pages_from first npages)).
Proof. apply kinit_spec. Qed.

(** A five-page heap for the witnesses. *)
Definition end5 : Z := PHYSTOP - 5 * PGSIZE.
Definition heap5 : pmem :=
  match kinit end5 ctx0 (PMem ∅ 0) with Done _ _ s => s | _ => PMem ∅ 0 end.

Lemma kinit_frees_all_witness :
  exists c' s', kinit end5 ctx0 (PMem ∅ 0) = Done tt c' s' /\
    kmem_rep end5 s' (rev (pages_from end5 5)).
Proof.
  destruct (kinit_frees_all end5 ctx0 ∅) as (c' & s' & E & _ & _ & Hr).
  - unfold end5. vm_compute. split; [reflexivity|discriminate].
  - exact ctx0_ok.
  - apply mem_ok_empty.
  - exists c', s'. split; [exact E|].
    assert (PGROUNDUP end5 = end5) as E1 by (vm_compute; reflexivity).
    rewrite E1 in Hr. exact Hr.
Defined.

Lemma heap5_rep : kmem_rep end5 heap5 (rev (pages_from end5 5)).
Proof.
  destruct (kinit_spec end5 ctx0 ∅) as (c' & s' & E & _ & _ & Hr);
    [by vm_compute|exact ctx0_ok|apply mem_ok_empty|].
  unfold heap5. rewrite E. exact Hr.
Qed.

#[global] Opaque heap5.

Lemma ctx0_unlocked : unlocked L_kmem ctx0.
Proof. by exists "kmem"%string. Qed.

Lemma kalloc_refines_pop_witness :
  exists s', kalloc ctx0 heap5 = Done (PHYSTOP - PGSIZE) ctx0 s' /\
    kmem_rep end5 s' (rev (pages_from end5 4)).
Proof.
  destruct (kalloc_refines_pop end5 ctx0 heap5 (rev (pages_from end5 5)))
    as (s' & E & Hr & _).
  - by vm_compute.
  - exact ctx0_ok.
  - exact ctx0_unlocked.
  - exact heap5_rep.
  - exists s'. split; [exact E|exact Hr].
Defined.

Lemma kfree_refines_push_witness :
  exists s s', kfree end5 (PHYSTOP - PGSIZE) ctx0 s = Done tt ctx0 s' /\
    kfree end5 12345 ctx0 s = Panic "kfree".
Proof.
  destruct (kalloc_cons end5 eq_refl ctx0 heap5 _ _ ctx0_ok ctx0_unlocked heap5_rep)
    as (s & _ & Hr & Hp & Hn & _).
  exists s. destruct (proj1 (kfree_refines_push end5 ctx0 s _ _ eq_refl
    ctx0_ok ctx0_unlocked Hr Hn) Hp) as (s' & E & _).
  exists s'. split; [exact E|]. vm_compute. reflexivity.
Defined.
