(* ===== verification/Vm.v ===== *)
(** * Virtual memory (kernel/vm.c)

    Page tables live in physical memory as the hardware reads them: a page of
    512 little-endian 64-bit entries per node, three levels (Sv39).  The kernel
    runs with physical memory mapped one to one, so a kernel pointer is a
    physical address. *)
From stdpp Require Import base numbers list gmap strings.
From S2P Require Import Prelude Kernel Spinlock Str Riscv Kalloc.

(** Access to memory in the monad. *)
Definition ld64 (a : Z) : K pmem Z := gets (fun s => load64 (memory s) a).
Definition st64 (a v : Z) : K pmem unit := modify (fun s => set_memory (store64 (memory s) a v) s).
Definition ld8 (a : Z) : K pmem Z := gets (fun s => load8 (memory s) a).
Definition st8 (a v : Z) : K pmem unit := modify (fun s => set_memory (store8 (memory s) a v) s).
Definition kmemset (p c n : Z) : K pmem unit :=
  modify (fun s => set_memory (memset (memory s) p c n) s).
Definition kmemmove (d s n : Z) : K pmem unit :=
  modify (fun st => set_memory (memmove (memory st) d s n) st).

(** [x & flag] as a condition. *)
Definition flag (x f : Z) : bool := z2b (Z.land x f).

Section Vm.
(** [end], [etext] and [trampoline] are placed by the linker script. *)
Variables (end_ etext trampoline : Z).
(** [myproc()->sz] and [myproc()->pagetable], which [vmfault] reads. *)
Variables (proc_sz proc_pagetable : Z).

(** for(level = 2; level > 0; level--) { ... } return &pagetable[PX(0, va)]; *)
Fixpoint walk_loop (level : nat) (pagetable va : Z) (alloc : bool) : K pmem Z :=
  match level with
  | O => mret (pagetable + 8 * PX 0 va)
  | S level' =>
      let pte := pagetable + 8 * PX (Z.of_nat level) va in
      e ← ld64 pte;
      if flag e PTE_V then walk_loop level' (PTE2PA e) va alloc
      else if negb alloc then mret 0
      else
        pagetable' ← kalloc;
        if pagetable' =? 0 then mret 0
        else
          kmemset pagetable' 0 PGSIZE;;
          st64 pte (Z.lor (PA2PTE pagetable') PTE_V);;
          walk_loop level' pagetable' va alloc
  end.

Definition walk (pagetable va : Z) (alloc : bool) : K pmem Z :=
  (if MAXVA <=? va then panic "walk" else mret tt);;
  walk_loop 2 pagetable va alloc.

Definition walkaddr (pagetable va : Z) : K pmem Z :=
  if MAXVA <=? va then mret 0
  else
    pte ← walk pagetable va false;
    if pte =? 0 then mret 0
    else
      e ← ld64 pte;
      if negb (flag e PTE_V) then mret 0
      else if negb (flag e PTE_U) then mret 0
      else mret (PTE2PA e).

(** The for(;;) loop of mappages; [fuel] is at least the number of pages. *)
Fixpoint mappages_loop (fuel : nat) (pagetable a last pa perm : Z) : K pmem Z :=
  match fuel with
  | O => nofuel
  | S fuel =>
      pte ← walk pagetable a true;
      if pte =? 0 then mret (-1)
      else
        e ← ld64 pte;
        (if flag e PTE_V then panic "mappages: remap" else mret tt);;
        st64 pte (Z.lor (Z.lor (PA2PTE pa) perm) PTE_V);;
        if a =? last then mret 0
        else mappages_loop fuel pagetable (u64 (a + PGSIZE)) last (u64 (pa + PGSIZE)) perm
  end.

Definition mappages (pagetable va size pa perm : Z) : K pmem Z :=
  (if negb (va mod PGSIZE =? 0) then panic "mappages: va not aligned" else mret tt);;
  (if negb (size mod PGSIZE =? 0) then panic "mappages: size not aligned" else mret tt);;
  (if size =? 0 then panic "mappages: size" else mret tt);;
  mappages_loop (Z.to_nat (size / PGSIZE)) pagetable va (u64 (va + size - PGSIZE)) pa perm.

Definition kvmmap (kpgtbl va pa sz perm : Z) : K pmem unit :=
  r ← mappages kpgtbl va sz pa perm;
  if negb (r =? 0) then panic "kvmmap" else mret tt.

(** proc.c: a kernel stack for each process, with a guard page below. *)
Definition NPROC : Z := 64.
Fixpoint proc_mapstacks_loop (n : nat) (i : Z) (kpgtbl : Z) : K pmem unit :=
  match n with
  | O => mret tt
  | S n =>
      pa ← kalloc;
      (if pa =? 0 then panic "kalloc" else mret tt);;
      kvmmap kpgtbl (KSTACK i) pa PGSIZE (Z.lor PTE_R PTE_W);;
      proc_mapstacks_loop n (i + 1) kpgtbl
  end.
Definition proc_mapstacks (kpgtbl : Z) : K pmem unit :=
  proc_mapstacks_loop (Z.to_nat NPROC) 0 kpgtbl.

Definition kvmmake : K pmem Z :=
  kpgtbl ← kalloc;
  kmemset kpgtbl 0 PGSIZE;;
  kvmmap kpgtbl UART0 UART0 PGSIZE (Z.lor PTE_R PTE_W);;
  kvmmap kpgtbl VIRTIO0 VIRTIO0 PGSIZE (Z.lor PTE_R PTE_W);;
  kvmmap kpgtbl PLIC PLIC 0x4000000 (Z.lor PTE_R PTE_W);;
  kvmmap kpgtbl KERNBASE KERNBASE (u64 (etext - KERNBASE)) (Z.lor PTE_R PTE_X);;
  kvmmap kpgtbl etext etext (u64 (PHYSTOP - etext)) (Z.lor PTE_R PTE_W);;
  kvmmap kpgtbl TRAMPOLINE trampoline PGSIZE (Z.lor PTE_R PTE_X);;
  proc_mapstacks kpgtbl;;
  mret kpgtbl.

Definition uvmcreate : K pmem Z :=
  pagetable ← kalloc;
  if pagetable =? 0 then mret 0
  else
    kmemset pagetable 0 PGSIZE;;
    mret pagetable.

(** for(a = va; a < va + npages*PGSIZE; a += PGSIZE) *)
Fixpoint uvmunmap_loop (fuel : nat) (pagetable a stop : Z) (do_free : bool) : K pmem unit :=
  if stop <=? a then mret tt
  else
    match fuel with
    | O => nofuel
    | S fuel =>
        pte ← walk pagetable a false;
        (if pte =? 0 then mret tt
         else
           e ← ld64 pte;
           if negb (flag e PTE_V) then mret tt
           else
             kwhen do_free (kfree end_ (PTE2PA e));;
             st64 pte 0);;
        uvmunmap_loop fuel pagetable (u64 (a + PGSIZE)) stop do_free
    end.

Definition uvmunmap (pagetable va npages : Z) (do_free : bool) : K pmem unit :=
  (if negb (va mod PGSIZE =? 0) then panic "uvmunmap: not aligned" else mret tt);;
  uvmunmap_loop (Z.to_nat npages) pagetable va (u64 (va + u64 (npages * PGSIZE))) do_free.

(** [npages] is an int: the page count is truncated to 32 bits, then sign
    extended when passed as the uint64 argument of uvmunmap. *)
Definition uvmdealloc (pagetable oldsz newsz : Z) : K pmem Z :=
  if oldsz <=? newsz then mret oldsz
  else
    kwhen (PGROUNDUP newsz <? PGROUNDUP oldsz)
      (let npages := i32 (u64 (PGROUNDUP oldsz - PGROUNDUP newsz) / PGSIZE) in
       uvmunmap pagetable (PGROUNDUP newsz) (u64 npages) true);;
    mret newsz.

(** for(a = oldsz; a < newsz; a += PGSIZE); [oldsz] is already rounded up. *)
Fixpoint uvmalloc_loop (fuel : nat) (pagetable a oldsz newsz xperm : Z) : K pmem Z :=
  if newsz <=? a then mret newsz
  else
    match fuel with
    | O => nofuel
    | S fuel =>
        m ← kalloc;
        if m =? 0 then
          uvmdealloc pagetable a oldsz;;
          mret 0
        else
          kmemset m 0 PGSIZE;;
          r ← mappages pagetable a PGSIZE m (Z.lor (Z.lor PTE_R PTE_U) xperm);
          if negb (r =? 0) then
            kfree end_ m;;
            uvmdealloc pagetable a oldsz;;
            mret 0
          else uvmalloc_loop fuel pagetable (u64 (a + PGSIZE)) oldsz newsz xperm
    end.

Definition uvmalloc (pagetable oldsz newsz xperm : Z) : K pmem Z :=
  if newsz <? oldsz then mret oldsz
  else
    let oldsz := PGROUNDUP oldsz in
    uvmalloc_loop (Z.to_nat ((newsz - oldsz) / PGSIZE + 1)) pagetable oldsz oldsz newsz xperm.

(** The loop over the 512 entries of a node, [i] counting up; the recursion on
    a child is bounded by the number of levels. *)
Fixpoint freewalk_entries (freewalk : Z -> K pmem unit) (n : nat) (i pagetable : Z) : K pmem unit :=
  match n with
  | O => mret tt
  | S n =>
      pte ← ld64 (pagetable + 8 * i);
      (if flag pte PTE_V && (Z.land pte (Z.lor (Z.lor PTE_R PTE_W) PTE_X) =? 0) then
         freewalk (PTE2PA pte);;
         st64 (pagetable + 8 * i) 0
       else if flag pte PTE_V then panic "freewalk: leaf" else mret tt);;
      freewalk_entries freewalk n (i + 1) pagetable
  end.
Fixpoint freewalk (depth : nat) (pagetable : Z) : K pmem unit :=
  match depth with
  | O => nofuel
  | S depth =>
      freewalk_entries (freewalk depth) 512 0 pagetable;;
      kfree end_ pagetable
  end.

Definition uvmfree (pagetable sz : Z) : K pmem unit :=
  kwhen (0 <? sz) (uvmunmap pagetable 0 (PGROUNDUP sz / PGSIZE) true);;
  freewalk 3 pagetable.

(** for(i = 0; i < sz; i += PGSIZE), with the error exit at the label err. *)
Fixpoint uvmcopy_loop (fuel : nat) (old new sz i : Z) : K pmem Z :=
  if sz <=? i then mret 0
  else
    match fuel with
    | O => nofuel
    | S fuel =>
        let next := uvmcopy_loop fuel old new sz (u64 (i + PGSIZE)) in
        pte ← walk old i false;
        if pte =? 0 then next
        else
          e ← ld64 pte;
          if negb (flag e PTE_V) then next
          else
            let pa := PTE2PA e in
            let flags := PTE_FLAGS e in
            m ← kalloc;
            if m =? 0 then
              uvmunmap new 0 (i / PGSIZE) true;;
              mret (-1)
            else
              kmemmove m pa PGSIZE;;
              r ← mappages new i PGSIZE m flags;
              if negb (r =? 0) then
                kfree end_ m;;
                uvmunmap new 0 (i / PGSIZE) true;;
                mret (-1)
              else next
    end.
Definition uvmcopy (old new sz : Z) : K pmem Z :=
  uvmcopy_loop (Z.to_nat (sz / PGSIZE + 1)) old new sz 0.

Definition uvmclear (pagetable va : Z) : K pmem unit :=
  pte ← walk pagetable va false;
  (if pte =? 0 then panic "uvmclear" else mret tt);;
  e ← ld64 pte;
  st64 pte (Z.land e (Z.lnot PTE_U)).

Definition ismapped (pagetable va : Z) : K pmem bool :=
  pte ← walk pagetable va false;
  if pte =? 0 then mret false
  else
    e ← ld64 pte;
    mret (flag e PTE_V).

Definition vmfault (pagetable va : Z) (read : bool) : K pmem Z :=
  if proc_sz <=? va then mret 0
  else
    let va := PGROUNDDOWN va in
    mapped ← ismapped pagetable va;
    if mapped : bool then mret 0
    else
      m ← kalloc;
      if m =? 0 then mret 0
      else
        kmemset m 0 PGSIZE;;
        r ← mappages proc_pagetable va PGSIZE m (Z.lor (Z.lor PTE_W PTE_U) PTE_R);
        if negb (r =? 0) then
          kfree end_ m;;
          mret 0
        else mret m.

(** while(len > 0); each round but the last ends at a page boundary. *)
Fixpoint copyout_loop (fuel : nat) (pagetable dstva src len : Z) : K pmem Z :=
  if len <=? 0 then mret 0
  else
    match fuel with
    | O => nofuel
    | S fuel =>
        let va0 := PGROUNDDOWN dstva in
        if MAXVA <=? va0 then mret (-1)
        else
          pa ← walkaddr pagetable va0;
          pa0 ← (if pa =? 0 then vmfault pagetable va0 false else mret pa);
          if pa0 =? 0 then mret (-1)
          else
            pte ← walk pagetable va0 false;
            (if pte =? 0 then panic "kerneltrap" else mret tt);;   (* *pte of a null pointer *)
            e ← ld64 pte;
            if negb (flag e PTE_W) then mret (-1)
            else
              let n := PGSIZE - (dstva - va0) in
              let n := if len <? n then len else n in
              kmemmove (pa0 + (dstva - va0)) src n;;
              copyout_loop fuel pagetable (u64 (va0 + PGSIZE)) (src + n) (len - n)
    end.
Definition copyout (pagetable dstva src len : Z) : K pmem Z :=
  copyout_loop (Z.to_nat (len / PGSIZE + 2)) pagetable dstva src len.

Fixpoint copyin_loop (fuel : nat) (pagetable dst srcva len : Z) : K pmem Z :=
  if len <=? 0 then mret 0
  else
    match fuel with
    | O => nofuel
    | S fuel =>
        let va0 := PGROUNDDOWN srcva in
        pa ← walkaddr pagetable va0;
        pa0 ← (if pa =? 0 then vmfault pagetable va0 false else mret pa);
        if pa0 =? 0 then mret (-1)
        else
          let n := PGSIZE - (srcva - va0) in
          let n := if len <? n then len else n in
          kmemmove dst (pa0 + (srcva - va0)) n;;
          copyin_loop fuel pagetable (dst + n) (u64 (va0 + PGSIZE)) (len - n)
    end.
Definition copyin (pagetable dst srcva len : Z) : K pmem Z :=
  copyin_loop (Z.to_nat (len / PGSIZE + 2)) pagetable dst srcva len.

(** The inner loop of copyinstr on one page: true if it met the NUL.  [n] bytes
    of the page are left to scan. *)
Fixpoint copyinstr_page (n : nat) (p dst : Z) : K pmem bool :=
  match n with
  | O => mret false
  | S n =>
      b ← ld8 p;
      if b =? 0 then
        st8 dst 0;;
        mret true
      else
        st8 dst b;;
        copyinstr_page n (p + 1) (dst + 1)
  end.
(** while(got_null == 0 && max > 0) *)
Fixpoint copyinstr_loop (fuel : nat) (pagetable dst srcva max : Z) : K pmem Z :=
  if max <=? 0 then mret (-1)
  else
    match fuel with
    | O => nofuel
    | S fuel =>
        let va0 := PGROUNDDOWN srcva in
        pa0 ← walkaddr pagetable va0;
        if pa0 =? 0 then mret (-1)
        else
          let n := PGSIZE - (srcva - va0) in
          let n := if max <? n then max else n in
          got_null ← copyinstr_page (Z.to_nat n) (pa0 + (srcva - va0)) dst;
          if got_null : bool then mret 0
          else copyinstr_loop fuel pagetable (dst + n) (u64 (va0 + PGSIZE)) (max - n)
    end.
Definition copyinstr (pagetable dst srcva max : Z) : K pmem Z :=
  copyinstr_loop (Z.to_nat (max / PGSIZE + 2)) pagetable dst srcva max.
End Vm.
