(* ===== verification/PageTable.v ===== *)
(** * Page tables: representation, walk and mappages (theorems on Vm.v)

    A page table is described by its set of node pages, indexed by the path of
    entry indices from the root; the abstract content is [pte_of], the leaf
    entry of a virtual address.  [walk] finds the leaf without changing any
    mapping, and [mappages] changes exactly the leaves of its range. *)
From stdpp Require Import base numbers list gmap strings.
From S2P Require Import Prelude Kernel Spinlock Str Riscv Kalloc Vm.

Section PageTable.
Variable end_ : Z.
Hypothesis end_pos : 0 < end_.

(** The paths of the two interior steps of a virtual address. *)
Definition leaf_path (va : Z) : list Z := [PX 2 va; PX 1 va].

Record pt_rep (m : mem) (root : Z) (nodes : gmap (list Z) Z) : Prop := {
  pr_root : nodes !! [] = Some root;
  pr_page : forall π p, nodes !! π = Some p -> page end_ p /\ (length π <= 2)%nat;
  pr_inj : forall π π' p, nodes !! π = Some p -> nodes !! π' = Some p -> π = π';
  pr_path : forall π p, nodes !! π = Some p -> exists va, 0 <= va < MAXVA /\ π `prefix_of` leaf_path va;
  pr_closed : forall π i q, nodes !! (π ++ [i]) = Some q -> is_Some (nodes !! π);
  pr_entry : forall π p i, nodes !! π = Some p -> (length π < 2)%nat -> 0 <= i < 512 ->
    match nodes !! (π ++ [i]) with
    | Some q => load64 m (p + 8 * i) = Z.lor (PA2PTE q) PTE_V
    | None => flag (load64 m (p + 8 * i)) PTE_V = false
    end;
}.

(** The leaf entry of [va]; 0, which is invalid, where the table has no leaf. *)
Definition pte_of (m : mem) (nodes : gmap (list Z) Z) (va : Z) : Z :=
  match nodes !! leaf_path va with
  | Some p => load64 m (p + 8 * PX 0 va)
  | None => 0
  end.

(** Memory, free list [fl] and page table [root] together: no node is free. *)
Record vm_ok (s : pmem) (fl : list Z) (root : Z) (nodes : gmap (list Z) Z) : Prop := {
  vo_kmem : kmem_rep end_ s fl;
  vo_pt : pt_rep (memory s) root nodes;
  vo_free : forall π p, nodes !! π = Some p -> p ∉ fl;
}.

(** ** Memory facts *)

Lemma in_page_entry p i a : 0 <= i < 512 -> p + 8 * i <= a < p + 8 * i + 8 -> in_page p a.
Proof. unfold in_page, PGSIZE. lia. Qed.

Lemma entry_frame x p i m m' :
  same_but x m m' -> page end_ x -> page end_ p -> x <> p -> 0 <= i < 512 ->
  load64 m' (p + 8 * i) = load64 m (p + 8 * i).
Proof.
  intros Hs Hx Hp Hne Hi. apply load64_ext. intros a Ha. apply Hs. intros Hin.
  eapply (page_disjoint end_ x p a); eauto using in_page_entry.
Qed.

Lemma entry_store_ne p i q j m v :
  page end_ p -> page end_ q -> 0 <= i < 512 -> 0 <= j < 512 -> (p, i) <> (q, j) ->
  load64 (store64 m (p + 8 * i) v) (q + 8 * j) = load64 m (q + 8 * j).
Proof.
  intros [Hp _] [Hq _] Hi Hj Hne. apply load64_store64_ne. unfold PGSIZE in *.
  apply Z.mod_divide in Hp as [a ->]; [|lia]. apply Z.mod_divide in Hq as [b ->]; [|lia].
  destruct (Z.eq_dec a b) as [->|]; [|lia].
  assert (i <> j) by congruence. lia.
Qed.

Lemma flag_zero f : flag 0 f = false.
Proof. unfold flag. by rewrite Z.land_0_l. Qed.

Lemma entry_valid x : page end_ x ->
  flag (Z.lor (PA2PTE x) PTE_V) PTE_V = true /\
  PTE2PA (Z.lor (PA2PTE x) PTE_V) = x /\ 0 <= Z.lor (PA2PTE x) PTE_V < 2 ^ 64.
Proof.
  intros Hx. destruct (page_range end_ end_pos x Hx) as (Hr & Ha & _). split_and!.
  - unfold flag. rewrite land_pte; [done|lia|done|done].
  - by apply PTE2PA_lor; [lia|done|].
  - rewrite lor_flags; [|lia|done|done]. change PTE_V with 1.
    assert (0 <= x / 4) by (apply Z.div_pos; lia). lia.
  - rewrite lor_flags; [|lia|done|done]. change PTE_V with 1.
    assert (x / 4 < 2 ^ 56) by (apply Z.div_lt_upper_bound; lia). lia.
Qed.

(** ** Growing the table by one node *)

Definition is_node (nodes : gmap (list Z) Z) (p : Z) : Prop := exists π, nodes !! π = Some p.

Lemma is_node_insert nodes π x p : nodes !! π = None ->
  is_node (<[π := x]> nodes) p <-> is_node nodes p \/ p = x.
Proof.
  intros Hn. split.
  - intros [π' H]. rewrite lookup_insert in H. case_decide; [right; by simplify_eq|left; by exists π'].
  - intros [[π' H]| ->]; [exists π'; rewrite lookup_insert_ne; [done|congruence]|].
    exists π. by rewrite lookup_insert_eq.
Qed.

Lemma pt_rep_extend m m' root nodes π p i x :
  pt_rep m root nodes -> nodes !! π = Some p -> (length π < 2)%nat -> 0 <= i < 512 ->
  nodes !! (π ++ [i]) = None -> page end_ x -> ~ is_node nodes x ->
  (exists va, 0 <= va < MAXVA /\ (π ++ [i]) `prefix_of` leaf_path va) ->
  load64 m' (p + 8 * i) = Z.lor (PA2PTE x) PTE_V ->
  (forall j, 0 <= j < 512 -> load64 m' (x + 8 * j) = 0) ->
  (forall q j, is_node nodes q -> 0 <= j < 512 -> (q, j) <> (p, i) ->
     load64 m' (q + 8 * j) = load64 m (q + 8 * j)) ->
  pt_rep m' root (<[π ++ [i] := x]> nodes) /\
  (forall va, pte_of m' (<[π ++ [i] := x]> nodes) va = pte_of m nodes va).
Proof.
  intros [Hroot Hpage Hinj Hpath Hcl Hent] Hp Hl Hi Hnone Hx Hnx Hpx Hnew Hzero Hold. split.
  - split.
    + rewrite lookup_insert_ne; [done|]. by destruct π.
    + intros π' p'. rewrite lookup_insert. case_decide as E; [|apply Hpage].
      intros [= <-]. subst π'. rewrite length_app. simpl. split; [done|lia].
    + intros π1 π2 q. rewrite !lookup_insert. repeat case_decide; subst; try done.
      * intros [= ->] H2. destruct Hnx. by exists π2.
      * intros H1 [= ->]. destruct Hnx. by exists π1.
      * apply Hinj.
    + intros π' p'. rewrite lookup_insert. case_decide as E; [by subst π'|apply Hpath].
    + intros π' j q. rewrite !lookup_insert. case_decide as E.
      * apply app_inj_tail in E as [-> ->]. intros _.
        case_decide; [by subst|]. rewrite Hp. done.
      * intros H. case_decide; [done|]. by eapply Hcl.
    + intros π' p' j. rewrite !lookup_insert. case_decide as E.
      * intros [= <-] Hl' Hj. subst π'. rewrite decide_False.
        2:{ intros E%(f_equal length). rewrite !length_app in E. simpl in E. lia. }
        destruct (nodes !! ((π ++ [i]) ++ [j])) as [q|] eqn:Eq.
        { apply Hcl in Eq. rewrite Hnone in Eq. by destruct Eq. }
        rewrite Hzero by done. apply flag_zero.
      * intros Hp' Hl' Hj. case_decide as E2.
        { apply app_inj_tail in E2 as [-> ->]. by simplify_eq. }
        rewrite Hold; [|by exists π'|done|].
        { by apply Hent. }
        intros [= -> ->]. rewrite (Hinj _ _ _ Hp' Hp) in E2. done.
  - intros va. unfold pte_of. rewrite lookup_insert. case_decide as E.
    + rewrite <- E, Hnone. apply Hzero, PX_range. lia.
    + destruct (nodes !! leaf_path va) as [q|] eqn:Eq; [|done].
      apply Hold; [by exists (leaf_path va)|apply PX_range; lia|].
      intros [= -> _]. rewrite <- (Hinj _ _ _ Eq Hp) in Hl. simpl in Hl. lia.
Qed.

(** ** walk *)

(** The path of the node [walk] is at when it is about to index level [k]. *)
Definition path_at (va : Z) (k : nat) : list Z := take (2 - k) (leaf_path va).

Lemma path_at_S va k : (S k <= 2)%nat -> path_at va k = path_at va (S k) ++ [PX (Z.of_nat (S k)) va].
Proof. intros H. destruct k as [|[|k]]; [done|done|lia]. Qed.

Lemma path_at_len va k : (S k <= 2)%nat -> (length (path_at va (S k)) < 2)%nat.
Proof. intros H. destruct k as [|[|k]]; simpl; lia. Qed.

(** A missing interior node means there is no leaf. *)
Lemma leaf_none m root nodes va k : pt_rep m root nodes -> (k <= 2)%nat ->
  nodes !! path_at va k = None -> nodes !! leaf_path va = None.
Proof.
  intros Hr Hk Hn. destruct (nodes !! leaf_path va) as [q|] eqn:E; [|done].
  change (leaf_path va) with ([PX 2 va] ++ [PX 1 va]) in E.
  pose proof (pr_closed _ _ _ Hr _ _ _ E) as [q1 E1].
  pose proof (pr_closed _ _ _ Hr [] _ _ E1) as [q2 E2].
  destruct k as [|[|[|k]]]; [..|lia]; unfold path_at, leaf_path in Hn; simpl in *; congruence.
Qed.

Lemma walk_loop_ro va c s root nodes k : forall pt,
  pt_rep (memory s) root nodes -> (k <= 2)%nat -> nodes !! path_at va k = Some pt ->
  walk_loop k pt va false c s =
    Done (match nodes !! leaf_path va with Some p => p + 8 * PX 0 va | None => 0 end) c s.
Proof.
  induction k as [|k IH]; intros pt Hr Hk Hpt.
  { cbn [walk_loop]. unfold path_at in Hpt. simpl in Hpt. unfold leaf_path. by rewrite Hpt. }
  cbn [walk_loop]. unfold ld64. krun.
  pose proof (pr_entry _ _ _ Hr _ _ (PX (Z.of_nat (S k)) va) Hpt
    (path_at_len va k Hk) (PX_range (Z.of_nat (S k)) va (Nat2Z.is_nonneg _))) as He.
  rewrite <- path_at_S in He by lia.
  destruct (nodes !! path_at va k) as [q|] eqn:Eq.
  - rewrite He. destruct (pr_page _ _ _ Hr _ _ Eq) as [Hq _].
    destruct (entry_valid q Hq) as (-> & -> & _). apply IH; [done|lia|done].
  - rewrite He. cbn [negb]. by rewrite (leaf_none _ _ _ _ _ Hr (Nat.lt_le_incl _ _ Hk) Eq).
Qed.

(** The new memory after one node has been added by [walk]. *)
Lemma grow_node c s fl root nodes va k pt x fl' s1 : 0 <= va < MAXVA ->
  vm_ok s fl root nodes -> (S k <= 2)%nat -> nodes !! path_at va (S k) = Some pt ->
  nodes !! path_at va k = None ->
  fl = x :: fl' -> kmem_rep end_ s1 fl' -> page end_ x -> x ∉ fl' ->
  same_but x (memory s) (memory s1) ->
  let pte := pt + 8 * PX (Z.of_nat (S k)) va in
  exists s2, (kmemset x 0 PGSIZE;; st64 pte (Z.lor (PA2PTE x) PTE_V)) c s1 = Done tt c s2 /\
    vm_ok s2 fl' root (<[path_at va k := x]> nodes) /\
    (forall va', pte_of (memory s2) (<[path_at va k := x]> nodes) va' = pte_of (memory s) nodes va') /\
    (forall b, ~ in_page x b -> ~ in_page pt b -> load8 (memory s2) b = load8 (memory s) b).
Proof.
  intros Hva [Hk Hr Hf] Hk2 Hpt Hnone -> Hk1 Hx Hn Hsb pte.
  set (i := PX (Z.of_nat (S k)) va) in *.
  assert (0 <= i < 512) as Hi by (apply PX_range; lia).
  destruct (pr_page _ _ _ Hr _ _ Hpt) as [Hptp _].
  assert (~ is_node nodes x) as Hnx.
  { intros [π Hπ]. apply (Hf _ _ Hπ). by left. }
  assert (x <> pt) as Hne by (intros ->; apply Hnx; by exists (path_at va (S k))).
  assert (pt ∉ fl') as Hptf by (intros Hin; apply (Hf _ _ Hpt); by right).
  set (m1 := memset (memory s1) x 0 PGSIZE).
  assert (same_but x (memory s) m1) as Hsb1.
  { eapply same_but_trans; [exact Hsb|apply same_but_memset]. }
  exists (PMem (store64 m1 pte (Z.lor (PA2PTE x) PTE_V)) (freelist s1)). cbn [memory].
  assert (forall q, is_node nodes q -> page end_ q /\ q <> x) as Hnode.
  { intros q [π Hπ]. split; [by apply (pr_page _ _ _ Hr _ _ Hπ)|].
    intros ->. apply Hnx. by exists π. }
  split; [done|].
  assert (same_but pt m1 (store64 m1 pte (Z.lor (PA2PTE x) PTE_V))) as Hsb2.
  { intros b Hb. apply load8_store64_out. unfold pte, in_page, PGSIZE in *. lia. }
  destruct (pt_rep_extend (memory s) (store64 m1 pte (Z.lor (PA2PTE x) PTE_V)) root nodes
    (path_at va (S k)) pt i x) as [Hr2 Hpte];
    [exact Hr|exact Hpt|by apply path_at_len|exact Hi|by rewrite <- path_at_S
    |exact Hx|exact Hnx|rewrite <- path_at_S by lia; exists va; split; [done|apply prefix_take]|..].
  { unfold pte. rewrite load64_store64. apply Z.mod_small. by apply entry_valid. }
  { intros j Hj. unfold pte. rewrite entry_store_ne; [|done..|congruence].
    apply load64_zero. intros a Ha. unfold m1. rewrite load8_memset by (unfold in_u, PGSIZE; lia).
    rewrite bool_decide_eq_true_2; [done|]. unfold PGSIZE. lia. }
  { intros q j Hq Hj Hqj. destruct (Hnode q Hq). unfold pte. rewrite entry_store_ne by done.
    by apply (entry_frame x). }
  rewrite <- path_at_S in Hr2, Hpte by lia. split_and!; [|done|].
  - split; [|exact Hr2|].
    + destruct Hk1 as [Hc1 Hnd1 Hm1]. split; [|done|by apply mem_ok_store64, mem_ok_memset].
      apply (chain_frame end_ pt m1); [done..|].
      apply (chain_frame end_ x (memory s1)); [apply same_but_memset|done..].
    + intros π p. rewrite lookup_insert. case_decide; [by intros [= <-]|].
      intros Hp Hin. apply (Hf _ _ Hp). by right.
  - intros b Hbx Hbp. cbn [memory]. rewrite (Hsb2 b Hbp). by apply Hsb1.
Qed.

(** What changes when [walk] may allocate: the table only grows, by pages taken
    from the free list, and memory outside its nodes is kept. *)
Record grown (s : pmem) (fl : list Z) (nodes : gmap (list Z) Z)
    (s' : pmem) (fl' : list Z) (nodes' : gmap (list Z) Z) : Prop := {
  gr_fl : exists used, fl = used ++ fl' /\
    forall p, is_node nodes' p <-> is_node nodes p \/ p ∈ used;
  gr_nodes : nodes ⊆ nodes';
  gr_mem : forall b, (forall p, is_node nodes' p -> ~ in_page p b) ->
    load8 (memory s') b = load8 (memory s) b;
}.

Lemma grown_refl s fl nodes : grown s fl nodes s fl nodes.
Proof. split; auto. exists []. split; [done|]. intros p. set_solver. Qed.

Lemma grown_new s fl nodes s' fl' nodes' p :
  grown s fl nodes s' fl' nodes' -> is_node nodes' p -> is_node nodes p \/ p ∈ fl.
Proof. intros [(u & -> & Hu) _ _] [H|H]%Hu; [by left|right]. apply elem_of_app. by left. Qed.

Lemma grown_trans s fl n s1 fl1 n1 s2 fl2 n2 :
  grown s fl n s1 fl1 n1 -> grown s1 fl1 n1 s2 fl2 n2 -> grown s fl n s2 fl2 n2.
Proof.
  intros [(u & -> & Hu) Hn Hm] [(u' & -> & Hu') Hn' Hm']. split.
  - exists (u ++ u'). split; [by rewrite app_assoc|]. intros p. rewrite Hu', Hu, elem_of_app. tauto.
  - by etrans.
  - intros b Hb. rewrite Hm' by done. apply Hm. intros p [π Hπ]. apply Hb.
    exists π. by eapply lookup_weaken.
Qed.

Lemma walk_loop_alloc va c root k : forall s fl nodes pt, 0 <= va < MAXVA ->
  cpu_ok c -> unlocked L_kmem c -> vm_ok s fl root nodes -> (k <= 2)%nat ->
  nodes !! path_at va k = Some pt ->
  exists a s' fl' nodes', walk_loop k pt va true c s = Done a c s' /\
    vm_ok s' fl' root nodes' /\ grown s fl nodes s' fl' nodes' /\
    (length fl <= length fl' + k)%nat /\
    (forall va', pte_of (memory s') nodes' va' = pte_of (memory s) nodes va') /\
    (a = 0 /\ fl' = [] \/
     exists p, nodes' !! leaf_path va = Some p /\ a = p + 8 * PX 0 va).
Proof.
  induction k as [|k IH]; intros s fl nodes pt Hva Hok Hul Hv Hk Hpt.
  { exists (pt + 8 * PX 0 va), s, fl, nodes. split_and!; [done|done|apply grown_refl|lia|done|].
    right. exists pt. split; [|done]. exact Hpt. }
  cbn [walk_loop]. pose proof (vo_pt _ _ _ _ Hv) as Hr.
  pose proof (pr_entry _ _ _ Hr _ _ (PX (Z.of_nat (S k)) va) Hpt
    (path_at_len va k Hk) (PX_range (Z.of_nat (S k)) va (Nat2Z.is_nonneg _))) as He.
  rewrite <- path_at_S in He by lia.
  set (pte := pt + 8 * PX (Z.of_nat (S k)) va) in *.
  assert (ld64 pte c s = Done (load64 (memory s) pte) c s) as Eld by done.
  rewrite (bind_done _ _ _ _ _ _ _ Eld).
  destruct (nodes !! path_at va k) as [q|] eqn:Eq.
  - rewrite He. destruct (pr_page _ _ _ Hr _ _ Eq) as [Hq _].
    destruct (entry_valid q Hq) as (-> & -> & _).
    destruct (IH s fl nodes q Hva Hok Hul Hv ltac:(lia) Eq) as (a & s' & fl' & n' & E & Hv' & Hg & Hlen & H).
    exists a, s', fl', n'. split_and!; [done|done|done|lia|apply H|apply H].
  - rewrite He. cbn [negb]. destruct fl as [|x fl'].
    + rewrite (bind_done _ _ _ _ _ _ _ (kalloc_empty end_ c s Hok Hul (vo_kmem _ _ _ _ Hv))).
      rewrite Z.eqb_refl. exists 0, s, [], nodes.
      split_and!; [done|done|apply grown_refl|lia|done|by left].
    + destruct (kalloc_cons end_ end_pos c s x fl' Hok Hul (vo_kmem _ _ _ _ Hv))
        as (s1 & E1 & Hk1 & Hx & Hn & Hsb & _).
      rewrite (bind_done _ _ _ _ _ _ _ E1).
      destruct (page_range end_ end_pos x Hx) as (Hx0 & _).
      rewrite (proj2 (Z.eqb_neq x 0)) by lia.
      destruct (grow_node c s _ root nodes va k pt x fl' s1 Hva Hv Hk Hpt Eq eq_refl Hk1 Hx Hn Hsb)
        as (s2 & E2 & Hv2 & Hp2 & Hm2). fold pte in E2.
      rewrite <- bind_assoc. rewrite (bind_done _ _ _ _ _ _ _ E2).
      destruct (IH s2 fl' (<[path_at va k := x]> nodes) x) as (a & s3 & fl3 & n3 & E3 & Hv3 & Hg3 & Hl3 & Hp3 & Ha);
        [done|done|done|done|lia|by rewrite lookup_insert_eq|].
      exists a, s3, fl3, n3. split_and!; [done|done| |simpl; lia|intros va'; by rewrite Hp3|done].
      eapply grown_trans; [|exact Hg3]. split; [|by apply insert_subseteq|].
      * exists [x]. split; [done|]. intros p. rewrite list_elem_of_singleton. by apply is_node_insert.
      * intros b Hb. apply Hm2; apply Hb.
        -- exists (path_at va k). by rewrite lookup_insert_eq.
        -- exists (path_at va (S k)). rewrite lookup_insert_ne; [done|]. congruence.
Qed.

Lemma path_at_2 va : path_at va 2 = [].
Proof. done. Qed.

Lemma walk_ro va c s root nodes :
  va < MAXVA -> pt_rep (memory s) root nodes ->
  walk root va false c s =
    Done (match nodes !! leaf_path va with Some p => p + 8 * PX 0 va | None => 0 end) c s.
Proof.
  intros Hva Hr. unfold walk. destruct (Z.leb_spec MAXVA va); [lia|]. krun.
  apply (walk_loop_ro va c s root nodes 2 root Hr (Nat.le_refl _)). apply (pr_root _ _ _ Hr).
Qed.

Lemma walk_alloc va c root s fl nodes :
  0 <= va < MAXVA -> cpu_ok c -> unlocked L_kmem c -> vm_ok s fl root nodes ->
  exists a s' fl' nodes', walk root va true c s = Done a c s' /\
    vm_ok s' fl' root nodes' /\ grown s fl nodes s' fl' nodes' /\
    (length fl <= length fl' + 2)%nat /\
    (forall va', pte_of (memory s') nodes' va' = pte_of (memory s) nodes va') /\
    (a = 0 /\ fl' = [] \/
     exists p, nodes' !! leaf_path va = Some p /\ a = p + 8 * PX 0 va).
Proof.
  intros Hva Hok Hul Hv. unfold walk. destruct (Z.leb_spec MAXVA va); [lia|]. krun.
  apply (walk_loop_alloc va c root 2 s fl nodes root Hva Hok Hul Hv (Nat.le_refl _)).
  apply (pr_root _ _ _ (vo_pt _ _ _ _ Hv)).
Qed.

(** ** mappages *)

(** Two addresses on different pages have different leaves. *)
Lemma leaf_ne va va' : 0 <= va < MAXVA -> 0 <= va' < MAXVA ->
  va / PGSIZE <> va' / PGSIZE ->
  (leaf_path va, PX 0 va) <> (leaf_path va', PX 0 va').
Proof.
  intros Hva Hva' Hne E. apply Hne. unfold leaf_path in E.
  injection E as E2 E1 E0.
  pose proof (va_decompose va Hva) as D. pose proof (va_decompose va' Hva') as D'.
  rewrite E2, E1, E0 in D. unfold PGSIZE in *.
  pose proof (Z.div_mod va 4096 ltac:(lia)). pose proof (Z.div_mod va' 4096 ltac:(lia)). lia.
Qed.

Lemma set_leaf s fl root nodes va p e :
  vm_ok s fl root nodes -> nodes !! leaf_path va = Some p -> 0 <= e < 2 ^ 64 ->
  let s' := set_memory (store64 (memory s) (p + 8 * PX 0 va) e) s in
  vm_ok s' fl root nodes /\ pte_of (memory s') nodes va = e /\
  (forall va', (leaf_path va, PX 0 va) <> (leaf_path va', PX 0 va') ->
     pte_of (memory s') nodes va' = pte_of (memory s) nodes va') /\
  grown s fl nodes s' fl nodes.
Proof.
  intros [Hk Hr Hf] Hp He s'. destruct (pr_page _ _ _ Hr _ _ Hp) as [Hpp _].
  assert (0 <= PX 0 va < 512) as Hi by (apply PX_range; lia).
  assert (same_but p (memory s) (memory s')) as Hsb.
  { intros b Hb. apply load8_store64_out. unfold in_page, PGSIZE in *. lia. }
  split_and!.
  - split; [| |exact Hf].
    + destruct Hk as [Hc Hnd Hm]. split; [|done|by apply mem_ok_store64].
      apply (chain_frame end_ p (memory s)); [done|done|by apply (Hf _ _ Hp)|done].
    + destruct Hr as [Hroot Hpage Hinj Hpath Hcl Hent]. split; try done.
      intros π q i Hq Hl Hi'. cbn [memory set_memory s'].
      rewrite entry_store_ne; [by apply Hent|done|by apply (Hpage _ _ Hq)|done|done|].
      intros [= <- _]. rewrite (Hinj _ _ _ Hq Hp) in Hl. simpl in Hl. lia.
  - unfold pte_of. rewrite Hp. cbn [memory set_memory s']. rewrite load64_store64.
    by apply Z.mod_small.
  - intros va' Hne. unfold pte_of. destruct (nodes !! leaf_path va') as [q|] eqn:Eq; [|done].
    cbn [memory set_memory s']. apply entry_store_ne; [done|by apply (pr_page _ _ _ Hr _ _ Eq)|done| |].
    + apply PX_range. lia.
    + intros [= -> E0]. apply Hne. by rewrite (pr_inj _ _ _ Hr _ _ _ Hp Eq), E0.
  - split; [apply (gr_fl _ _ _ _ _ _ (grown_refl s fl nodes))|done|].
    intros b Hb. apply Hsb, Hb. by exists (leaf_path va).
Qed.

Definition mk_pte (pa perm : Z) : Z := Z.lor (Z.lor (PA2PTE pa) perm) PTE_V.

Lemma mk_pte_spec pa perm : 0 <= pa < 2 ^ 56 -> pa mod PGSIZE = 0 -> 0 <= perm < 1024 ->
  0 <= mk_pte pa perm < 2 ^ 64 /\ flag (mk_pte pa perm) PTE_V = true /\
  PTE2PA (mk_pte pa perm) = pa /\
  forall b, 0 <= b < 1024 -> Z.land (mk_pte pa perm) b = Z.land (Z.lor perm PTE_V) b.
Proof.
  intros Hr Ha Hp. unfold mk_pte. rewrite <- Z.lor_assoc.
  assert (0 <= Z.lor perm PTE_V < 1024) as Hl by by apply lor_low.
  assert (forall b, 0 <= b < 1024 ->
    Z.land (Z.lor (PA2PTE pa) (Z.lor perm PTE_V)) b = Z.land (Z.lor perm PTE_V) b) as Hb.
  { intros b Hb. by apply land_pte. }
  split; [|split_and!].
  - rewrite lor_flags by done. assert (0 <= pa / 4) by (apply Z.div_pos; lia).
    assert (pa / 4 < 2 ^ 56) by (apply Z.div_lt_upper_bound; lia). lia.
  - unfold flag. rewrite Hb by done. rewrite Z.land_lor_distr_l.
    change (Z.land PTE_V PTE_V) with 1. unfold z2b. apply negb_true_iff, Z.eqb_neq.
    intros E. apply (f_equal (fun z => Z.testbit z 0)) in E.
    rewrite Z.lor_spec in E. simpl in E. by rewrite orb_true_r in E.
  - by apply PTE2PA_lor.
  - exact Hb.
Qed.

(** The leaves after [j] pages from [a] have been mapped to frames from [pa]. *)
Definition remap (m : mem) (nodes : gmap (list Z) Z) (a pa perm : Z) (j : nat)
    (m' : mem) (nodes' : gmap (list Z) Z) : Prop :=
  forall va, 0 <= va < MAXVA ->
    pte_of m' nodes' va =
    if bool_decide (a <= va < a + PGSIZE * Z.of_nat j)
    then mk_pte (pa + (va - va mod PGSIZE - a)) perm
    else pte_of m nodes va.

(** One round of the loop when the walk succeeds. *)
Lemma map_one c s fl root nodes a pa perm :
  cpu_ok c -> unlocked L_kmem c -> vm_ok s fl root nodes ->
  0 <= a < MAXVA -> a mod PGSIZE = 0 -> 0 <= pa < 2 ^ 56 -> pa mod PGSIZE = 0 -> 0 <= perm < 1024 ->
  flag (pte_of (memory s) nodes a) PTE_V = false ->
  exists pte s' fl' nodes',
    walk root a true c s = Done pte c s' /\ vm_ok s' fl' root nodes' /\
    grown s fl nodes s' fl' nodes' /\
    (length fl <= length fl' + 2)%nat /\
    ((pte = 0 /\ fl' = [] /\
      forall va, pte_of (memory s') nodes' va = pte_of (memory s) nodes va) \/
     (pte =? 0) = false /\ flag (load64 (memory s') pte) PTE_V = false /\
     exists s2, st64 pte (mk_pte pa perm) c s' = Done tt c s2 /\ vm_ok s2 fl' root nodes' /\
       grown s fl nodes s2 fl' nodes' /\ remap (memory s) nodes a pa perm 1 (memory s2) nodes').
Proof.
  intros Hok Hul Hv Ha Haa Hpa Hpaa Hperm Hinv.
  destruct (walk_alloc a c root s fl nodes Ha Hok Hul Hv)
    as (pte & s' & fl' & nodes' & E & Hv' & Hg & Hlen & Hp & Hres).
  exists pte, s', fl', nodes'. split_and!; [done..|].
  destruct Hres as [[-> Hf]|(p & Hleaf & ->)]; [by left|right].
  destruct (page_range end_ end_pos p) as (Hp0 & _).
  { by apply (pr_page _ _ _ (vo_pt _ _ _ _ Hv') _ _ Hleaf). }
  pose proof (PX_range 0 a ltac:(lia)) as Hi.
  assert (pte_of (memory s') nodes' a = load64 (memory s') (p + 8 * PX 0 a)) as Epte.
  { unfold pte_of. by rewrite Hleaf. }
  split; [apply Z.eqb_neq; lia|]. split; [by rewrite <- Epte, Hp|].
  destruct (mk_pte_spec pa perm Hpa Hpaa Hperm) as (Hmk & _).
  destruct (set_leaf s' fl' root nodes' a p (mk_pte pa perm) Hv' Hleaf Hmk)
    as (Hv2 & Hnew & Hother & Hg2).
  eexists. split; [reflexivity|]. split; [exact Hv2|].
  split; [by eapply grown_trans|]. intros va Hva. unfold PGSIZE in *.
  case_bool_decide as Hin.
  - assert (va / 4096 = a / 4096) as Ed.
    { apply Z.mod_divide in Haa as [k ->]; [|lia]. rewrite Z.div_mul by lia.
      symmetry. apply Z.div_unique with (va - k * 4096); lia. }
    pose proof (Z.div_mod va 4096 ltac:(lia)). pose proof (Z.div_mod a 4096 ltac:(lia)).
    replace (pa + (va - va mod 4096 - a)) with pa by lia.
    assert (leaf_path va = leaf_path a /\ PX 0 va = PX 0 a) as [El E0].
    { unfold leaf_path. rewrite !PX_eq by lia.
      assert (forall k, 0 <= k -> va / 2 ^ (12 + k) = a / 2 ^ (12 + k)) as Ek.
      { intros k Hk. rewrite Z.pow_add_r by lia. change (2 ^ 12) with 4096.
        rewrite <- !Z.div_div by lia. by rewrite Ed. }
      rewrite !Ek by lia. done. }
    unfold pte_of at 1. unfold pte_of in Hnew. by rewrite El, E0.
  - rewrite Hother; [apply Hp|]. apply leaf_ne; [done|done|]. unfold PGSIZE.
    intros Ed. apply Hin. pose proof (Z.div_mod va 4096 ltac:(lia)).
    pose proof (Z.div_mod a 4096 ltac:(lia)). pose proof (Z.mod_pos_bound va 4096 ltac:(lia)). lia.
Qed.

Lemma remap_S m n a pa perm m1 n1 j m2 n2 :
  a mod PGSIZE = 0 -> remap m n a pa perm 1 m1 n1 ->
  remap m1 n1 (a + PGSIZE) (pa + PGSIZE) perm j m2 n2 ->
  remap m n a pa perm (S j) m2 n2.
Proof.
  intros Ha H1 H2 va Hva. rewrite (H2 va Hva). unfold PGSIZE in *.
  case_bool_decide as D2.
  - rewrite bool_decide_eq_true_2 by lia. f_equal. lia.
  - rewrite (H1 va Hva). case_bool_decide as D1.
    + rewrite bool_decide_eq_true_2 by (unfold PGSIZE in *; lia). done.
    + rewrite bool_decide_eq_false_2 by (unfold PGSIZE in *; lia). done.
Qed.

Lemma mappages_loop_spec c root perm n : forall s fl nodes a pa,
  cpu_ok c -> unlocked L_kmem c -> vm_ok s fl root nodes -> (0 < n)%nat ->
  0 <= a -> a + PGSIZE * Z.of_nat n <= MAXVA -> a mod PGSIZE = 0 ->
  0 <= pa -> pa + PGSIZE * Z.of_nat n <= 2 ^ 56 -> pa mod PGSIZE = 0 -> 0 <= perm < 1024 ->
  (forall va, a <= va < a + PGSIZE * Z.of_nat n -> flag (pte_of (memory s) nodes va) PTE_V = false) ->
  exists r s' fl' nodes' j,
    mappages_loop n root a (a + PGSIZE * (Z.of_nat n - 1)) pa perm c s = Done r c s' /\
    vm_ok s' fl' root nodes' /\ grown s fl nodes s' fl' nodes' /\
    (length fl <= length fl' + 2 * n)%nat /\
    remap (memory s) nodes a pa perm j (memory s') nodes' /\
    (r = 0 /\ j = n \/ r = -1 /\ (j < n)%nat /\ fl' = []).
Proof.
  induction n as [|n IH]; intros s fl nodes a pa Hok Hul Hv Hn Ha Hmax Haa Hpa Hpmax Hpaa Hperm Hinv; [lia|].
  assert (MAXVA < 2 ^ 56) as HM by done. unfold PGSIZE in *.
  destruct (map_one c s fl root nodes a pa perm Hok Hul Hv)
    as (pte & s1 & fl1 & n1 & E1 & Hv1 & Hg1 & Hl1 & Hres); [lia|done|lia|done|done|apply Hinv; lia|].
  cbn [mappages_loop]. rewrite (bind_done _ _ _ _ _ _ _ E1).
  destruct Hres as [(-> & Hf & Hsame)|(Hne & Hfl & s2 & E2 & Hv2 & Hg2 & Hrm)].
  - exists (-1), s1, fl1, n1, O. split_and!; [done|done|done|lia| |right; split_and!; [done|lia|done]].
    intros va Hva. rewrite bool_decide_eq_false_2 by (unfold PGSIZE; lia). apply Hsame.
  - rewrite Hne.
    assert (ld64 pte c s1 = Done (load64 (memory s1) pte) c s1) as Eld by done.
    rewrite (bind_done _ _ _ _ _ _ _ Eld), Hfl.
    change (Z.lor (Z.lor (PA2PTE pa) perm) PTE_V) with (mk_pte pa perm).
    assert ((mret tt : K pmem unit) c s1 = Done tt c s1) as Er by done.
    rewrite (bind_done _ _ _ _ _ _ _ Er), (bind_done _ _ _ _ _ _ _ E2).
    destruct (Z.eqb_spec a (a + 4096 * (Z.of_nat (S n) - 1))) as [El|El].
    + assert (n = O) as -> by lia. exists 0, s2, fl1, n1, 1%nat.
      split_and!; [done|done|done|lia|done|by left].
    + rewrite !u_small by (unfold PGSIZE; lia). unfold PGSIZE.
      destruct (IH s2 fl1 n1 (a + 4096) (pa + 4096))
        as (r & s3 & fl3 & n3 & j & E3 & Hv3 & Hg3 & Hl3 & Hr3 & Hj);
        [done|done|done|lia|lia|lia| |lia|lia| |done| |].
      * rewrite Z.add_mod, Haa by lia. done.
      * rewrite Z.add_mod, Hpaa by lia. done.
      * intros va Hva. rewrite Hrm by lia. unfold PGSIZE.
        rewrite bool_decide_eq_false_2 by lia. apply Hinv. lia.
      * exists r, s3, fl3, n3, (S j).
        replace (a + 4096 * (Z.of_nat (S n) - 1)) with (a + 4096 + 4096 * (Z.of_nat n - 1)) by lia.
        split_and!; [done|done|by eapply grown_trans|lia|by eapply remap_S|].
        destruct Hj as [[-> ->]|(-> & ? & ->)]; [by left|right; split_and!; [done|lia|done]].
Qed.

Lemma mappages_spec c s fl root nodes va size pa perm :
  cpu_ok c -> unlocked L_kmem c -> vm_ok s fl root nodes ->
  0 < size -> size mod PGSIZE = 0 -> 0 <= va -> va + size <= MAXVA -> va mod PGSIZE = 0 ->
  0 <= pa -> pa + size <= 2 ^ 56 -> pa mod PGSIZE = 0 -> 0 <= perm < 1024 ->
  (forall a, va <= a < va + size -> flag (pte_of (memory s) nodes a) PTE_V = false) ->
  exists r s' fl' nodes' j,
    mappages root va size pa perm c s = Done r c s' /\
    vm_ok s' fl' root nodes' /\ grown s fl nodes s' fl' nodes' /\
    Z.of_nat (length fl) <= Z.of_nat (length fl') + 2 * (size / PGSIZE) /\
    remap (memory s) nodes va pa perm j (memory s') nodes' /\
    (r = 0 /\ PGSIZE * Z.of_nat j = size \/
     r = -1 /\ PGSIZE * Z.of_nat j < size /\ fl' = []).
Proof.
  intros Hok Hul Hv Hsz Hsm Hva Hmax Hvm Hpa Hpmax Hpm Hperm Hinv.
  assert (MAXVA < 2 ^ 56) as HM by done.
  unfold mappages. rewrite Hvm, Hsm, (proj2 (Z.eqb_neq size 0)) by lia. krun. simpl.
  apply Z.mod_divide in Hsm as [k ->]; [|done]. unfold PGSIZE in *. rewrite Z.div_mul by lia.
  destruct (mappages_loop_spec c root perm (Z.to_nat k) s fl nodes va pa)
    as (r & s' & fl' & n' & j & E & Hv' & Hg & Hlen & Hr & Hj); [done|done|done|lia|lia|unfold PGSIZE; lia|done|lia|unfold PGSIZE; lia|done|done| |].
  { intros a Ha. apply Hinv. unfold PGSIZE in Ha. lia. }
  exists r, s', fl', n', j. rewrite u_small by (unfold PGSIZE; lia).
  replace (va + k * 4096 - 4096) with (va + PGSIZE * (Z.of_nat (Z.to_nat k) - 1)) by (unfold PGSIZE; lia).
  rewrite ?Z.div_mul by lia. split_and!; [done|done|done|lia|done|].
  destruct Hj as [[-> ->]|(-> & ? & ->)]; [left|right]; split_and!; try done; lia.
Qed.

(** ** Copying through a page table *)

(** The physical address of a mapped virtual address. *)
Definition pa_of (m : mem) (nodes : gmap (list Z) Z) (va : Z) : Z :=
  PTE2PA (pte_of m nodes va) + va mod PGSIZE.

(** The range [lo, hi) is user memory: valid user leaves, on pages that are not
    page-table nodes, no page mapped twice; writable if [w]. *)
Record user_range (m : mem) (nodes : gmap (list Z) Z) (lo hi : Z) (w : bool) : Prop := {
  ur_lo : 0 <= lo;
  ur_hi : hi <= MAXVA;
  ur_v : forall va, lo <= va < hi -> flag (pte_of m nodes va) PTE_V = true;
  ur_u : forall va, lo <= va < hi -> flag (pte_of m nodes va) PTE_U = true;
  ur_w : w = true -> forall va, lo <= va < hi -> flag (pte_of m nodes va) PTE_W = true;
  ur_page : forall va, lo <= va < hi -> page end_ (PTE2PA (pte_of m nodes va));
  ur_node : forall va, lo <= va < hi -> ~ is_node nodes (PTE2PA (pte_of m nodes va));
  ur_inj : forall va va', lo <= va < hi -> lo <= va' < hi -> va / PGSIZE <> va' / PGSIZE ->
    PTE2PA (pte_of m nodes va) <> PTE2PA (pte_of m nodes va');
}.

(** The table is read only through its nodes. *)
Definition nodes_same (nodes : gmap (list Z) Z) (m m' : mem) : Prop :=
  forall p b, is_node nodes p -> in_page p b -> load8 m' b = load8 m b.

Lemma nodes_same_load nodes m m' p i :
  nodes_same nodes m m' -> is_node nodes p -> 0 <= i < 512 ->
  load64 m' (p + 8 * i) = load64 m (p + 8 * i).
Proof. intros H Hp Hi. apply load64_ext. intros a Ha. eapply H; eauto using in_page_entry. Qed.

Lemma pte_of_same nodes m m' va : nodes_same nodes m m' -> pte_of m' nodes va = pte_of m nodes va.
Proof.
  intros H. unfold pte_of. destruct (nodes !! leaf_path va) as [p|] eqn:E; [|done].
  apply (nodes_same_load nodes); [done|by exists (leaf_path va)|apply PX_range; lia].
Qed.

Lemma pt_rep_same nodes m m' root : nodes_same nodes m m' -> pt_rep m root nodes -> pt_rep m' root nodes.
Proof.
  intros H [Hroot Hpage Hinj Hpath Hcl Hent]. split; try done.
  intros π p i Hp Hl Hi. rewrite (nodes_same_load nodes m m') by (try done; by exists π).
  by apply Hent.
Qed.

Lemma user_range_same nodes m m' lo hi w :
  nodes_same nodes m m' -> user_range m nodes lo hi w -> user_range m' nodes lo hi w.
Proof.
  intros H [? ? Hv Hu Hw Hp Hn Hi].
  split; try done; intros; rewrite ?(pte_of_same nodes m m') by done; auto.
Qed.

Lemma user_range_mono m nodes lo lo' hi hi' w :
  lo <= lo' -> hi' <= hi -> user_range m nodes lo hi w -> user_range m nodes lo' hi' w.
Proof.
  intros H1 H2 [? ? Hv Hu Hw Hp Hn Hi].
  split; [lia|lia|..]; intros; auto with lia.
Qed.

Lemma walkaddr_eq c s root nodes va : 0 <= va < MAXVA -> pt_rep (memory s) root nodes ->
  walkaddr root va c s =
  let e := pte_of (memory s) nodes va in
  Done (if flag e PTE_V && flag e PTE_U then PTE2PA e else 0) c s.
Proof.
  intros Hva Hr. unfold walkaddr. destruct (Z.leb_spec MAXVA va); [lia|].
  rewrite (bind_done _ _ _ _ _ _ _ (walk_ro va c s root nodes (proj2 Hva) Hr)).
  unfold pte_of. destruct (nodes !! leaf_path va) as [p|] eqn:E.
  - destruct (page_range end_ end_pos p) as (Hp0 & _).
    { by apply (pr_page _ _ _ Hr _ _ E). }
    pose proof (PX_range 0 va ltac:(lia)). rewrite (proj2 (Z.eqb_neq _ 0)) by lia.
    unfold ld64. krun. cbn zeta.
    by destruct (flag _ PTE_V), (flag _ PTE_U).
  - cbn zeta. by rewrite flag_zero.
Qed.

(** Reading and writing a leaf entry through [walk]. *)
Lemma walk_leaf c s root nodes va : 0 <= va < MAXVA -> pt_rep (memory s) root nodes ->
  flag (pte_of (memory s) nodes va) PTE_V = true ->
  exists p, nodes !! leaf_path va = Some p /\
    walk root va false c s = Done (p + 8 * PX 0 va) c s /\
    load64 (memory s) (p + 8 * PX 0 va) = pte_of (memory s) nodes va /\
    (p + 8 * PX 0 va =? 0) = false.
Proof.
  intros Hva Hr Hf. rewrite (walk_ro va c s root nodes (proj2 Hva) Hr). unfold pte_of in *.
  destruct (nodes !! leaf_path va) as [p|] eqn:E; [|by rewrite flag_zero in Hf].
  exists p. split_and!; [done..|]. destruct (page_range end_ end_pos p) as (Hp0 & _).
  { by apply (pr_page _ _ _ Hr _ _ E). }
  pose proof (PX_range 0 va ltac:(lia)). apply Z.eqb_neq. lia.
Qed.

(** Pages and offsets. *)
Lemma va_page va n : 0 <= va -> 0 <= n -> n <= PGSIZE - va mod PGSIZE ->
  forall i, 0 <= i < n -> (va + i) / PGSIZE = va / PGSIZE /\ (va + i) mod PGSIZE = va mod PGSIZE + i.
Proof.
  intros Hva Hn Hle i Hi. unfold PGSIZE in *.
  pose proof (Z.div_mod va 4096 ltac:(lia)). pose proof (Z.mod_pos_bound va 4096 ltac:(lia)).
  split; [symmetry; apply Z.div_unique with (va mod 4096 + i)|
          symmetry; apply Z.mod_unique with (va / 4096)]; lia.
Qed.

Lemma pte_of_page m nodes va va' : va / PGSIZE = va' / PGSIZE -> pte_of m nodes va = pte_of m nodes va'.
Proof.
  intros Ed. unfold pte_of, leaf_path. rewrite !PX_eq by lia. unfold PGSIZE in Ed.
  assert (forall k, 0 <= k -> va / 2 ^ (12 + k) = va' / 2 ^ (12 + k)) as Ek.
  { intros k Hk. rewrite Z.pow_add_r by lia. change (2 ^ 12) with 4096.
    rewrite <- !Z.div_div by lia. by rewrite Ed. }
  by rewrite !Ek by lia.
Qed.

Lemma rounddown_page va : 0 <= va ->
  0 <= PGROUNDDOWN va <= va /\ PGROUNDDOWN va / PGSIZE = va / PGSIZE /\
  va - PGROUNDDOWN va = va mod PGSIZE.
Proof.
  intros H. rewrite PGROUNDDOWN_eq. unfold PGSIZE.
  pose proof (Z.div_mod va 4096 ltac:(lia)). pose proof (Z.mod_pos_bound va 4096 ltac:(lia)).
  assert (0 <= va / 4096) by (apply Z.div_pos; lia). split; [lia|]. split; [|lia].
  symmetry. apply Z.div_unique with 0; lia.
Qed.

(** Different bytes of a user range are different bytes of memory. *)
Lemma pa_of_inj m nodes lo hi w va va' :
  user_range m nodes lo hi w -> lo <= va < hi -> lo <= va' < hi -> va <> va' ->
  pa_of m nodes va <> pa_of m nodes va'.
Proof.
  intros Hu Hva Hva' Hne. unfold pa_of.
  pose proof (Z.div_mod va PGSIZE ltac:(done)). pose proof (Z.div_mod va' PGSIZE ltac:(done)).
  pose proof (Z.mod_pos_bound va PGSIZE ltac:(done)). pose proof (Z.mod_pos_bound va' PGSIZE ltac:(done)).
  destruct (Z.eq_dec (va / PGSIZE) (va' / PGSIZE)) as [E|E].
  - rewrite (pte_of_page m nodes va va' E). rewrite E in *. lia.
  - pose proof (ur_inj _ _ _ _ _ Hu va va' Hva Hva' E) as Hd.
    destruct (ur_page _ _ _ _ _ Hu va Hva) as [Hp _]. destruct (ur_page _ _ _ _ _ Hu va' Hva') as [Hp' _].
    unfold PGSIZE in *. apply Z.mod_divide in Hp as [k Hk]; [|lia].
    apply Z.mod_divide in Hp' as [k' Hk']; [|lia]. lia.
Qed.

(** A byte of user memory is not in a page-table node. *)
Lemma pa_of_not_node m nodes lo hi w va p root :
  user_range m nodes lo hi w -> pt_rep m root nodes -> lo <= va < hi -> is_node nodes p ->
  ~ in_page p (pa_of m nodes va).
Proof.
  intros Hu Hr Hva Hp.
  apply (page_disjoint end_ (PTE2PA (pte_of m nodes va)) p).
  - apply (ur_page _ _ _ _ _ Hu va Hva).
  - destruct Hp as [π Hπ]. apply (pr_page _ _ _ Hr _ _ Hπ).
  - intros E. apply (ur_node _ _ _ _ _ Hu va Hva). by rewrite E.
  - unfold in_page, pa_of. pose proof (Z.mod_pos_bound va PGSIZE ltac:(done)). lia.
Qed.

Section Copy.
Variables (psz ppt root : Z) (nodes : gmap (list Z) Z) (c : ctx).

(** What a chunk of a copy sees of a mapped page. *)
Lemma mapped_page s va lo hi w :
  pt_rep (memory s) root nodes -> user_range (memory s) nodes lo hi w -> lo <= va < hi ->
  let va0 := PGROUNDDOWN va in
  walkaddr root va0 c s = Done (PTE2PA (pte_of (memory s) nodes va)) c s /\
  (PTE2PA (pte_of (memory s) nodes va) =? 0) = false /\
  va0 < MAXVA /\
  exists pte, walk root va0 false c s = Done pte c s /\
    (pte =? 0) = false /\ load64 (memory s) pte = pte_of (memory s) nodes va.
Proof.
  intros Hr Hu Hva va0. pose proof (ur_lo _ _ _ _ _ Hu). pose proof (ur_hi _ _ _ _ _ Hu).
  destruct (rounddown_page va ltac:(lia)) as (Hr1 & Hr2 & _). fold va0 in Hr1, Hr2.
  assert (pte_of (memory s) nodes va0 = pte_of (memory s) nodes va) as Ee by by apply pte_of_page.
  pose proof (ur_v _ _ _ _ _ Hu va Hva) as Hv. pose proof (ur_u _ _ _ _ _ Hu va Hva) as Huu.
  rewrite (walkaddr_eq c s root nodes va0) by (lia || done). cbn zeta. rewrite Ee, Hv, Huu.
  destruct (page_range end_ end_pos _ (ur_page _ _ _ _ _ Hu va Hva)) as (Hp0 & _).
  split; [done|]. split; [apply Z.eqb_neq; lia|]. split; [lia|].
  destruct (walk_leaf c s root nodes va0) as (p & _ & E & El & Ep); [lia|done|by rewrite Ee|].
  eexists. split; [exact E|]. split; [exact Ep|]. by rewrite El.
Qed.

(** The number of bytes of a chunk. *)
Definition chunk (va len : Z) : Z :=
  let n := PGSIZE - (va - PGROUNDDOWN va) in if len <? n then len else n.

Lemma chunk_spec va len : 0 <= va -> 0 < len ->
  0 < chunk va len <= len /\ chunk va len <= PGSIZE - va mod PGSIZE /\
  (chunk va len < len -> PGROUNDDOWN va + PGSIZE = va + chunk va len).
Proof.
  intros Hva Hl. unfold chunk. destruct (rounddown_page va Hva) as (? & _ & E). rewrite E.
  pose proof (Z.mod_pos_bound va PGSIZE ltac:(done)).
  destruct (Z.ltb_spec len (PGSIZE - va mod PGSIZE)); lia.
Qed.

Lemma chunk_fuel va len : 0 <= va -> 0 < len -> chunk va len < len ->
  (va + chunk va len) mod PGSIZE = 0.
Proof.
  intros Hva Hl Hc. destruct (chunk_spec va len Hva Hl) as (_ & _ & E).
  rewrite <- (E Hc). destruct (PGROUNDDOWN_spec va) as [Hm _].
  rewrite Z.add_mod, Hm by done. done.
Qed.

(** Fuel bound of the copy loops: one unit per page touched. *)
Definition enough (fuel : nat) (va len : Z) : Prop :=
  len <= 0 \/ len + va mod PGSIZE <= PGSIZE * Z.of_nat fuel.

Lemma enough_step fuel va len : 0 <= va -> 0 < len -> enough (S fuel) va len ->
  enough fuel (va + chunk va len) (len - chunk va len).
Proof.
  intros Hva Hl [H|H]; [lia|]. unfold enough.
  destruct (chunk_spec va len Hva Hl) as (Hc & _ & Hc3).
  destruct (Z.eq_dec (chunk va len) len); [left; lia|right].
  rewrite chunk_fuel by lia. specialize (Hc3 ltac:(lia)).
  destruct (rounddown_page va Hva) as (_ & _ & E). unfold PGSIZE in *. lia.
Qed.

Lemma enough_start va len : 0 <= len -> enough (Z.to_nat (len / PGSIZE + 2)) va len.
Proof.
  intros Hl. right. pose proof (Z.mod_pos_bound va PGSIZE ltac:(done)).
  assert (0 <= len / PGSIZE) by (apply Z.div_pos; [lia|done]).
  pose proof (Z.div_mod len PGSIZE ltac:(done)). pose proof (Z.mod_pos_bound len PGSIZE ltac:(done)).
  rewrite Z2Nat.id by lia. unfold PGSIZE in *. lia.
Qed.

(** The bytes of the range [va, va + len) after copying [len] bytes of [src]. *)
Definition copied_out (m m' : mem) (va src len : Z) : Prop :=
  (forall i, 0 <= i < len -> load8 m' (pa_of m nodes (va + i)) = load8 m (src + i)) /\
  (forall b, (forall i, 0 <= i < len -> b <> pa_of m nodes (va + i)) -> load8 m' b = load8 m b).

(** One chunk: [memmove] into the frame of the page. *)
Lemma copy_chunk m va src n hi w :
  mem_ok m -> user_range m nodes va hi w -> 0 < n -> va + n <= hi ->
  n <= PGSIZE - va mod PGSIZE ->
  copied_out m (memmove m (PTE2PA (pte_of m nodes va) + va mod PGSIZE) src n) va src n.
Proof.
  intros Hm Hu Hn Hhi Hle. pose proof (ur_lo _ _ _ _ _ Hu).
  pose proof (Z.mod_pos_bound va PGSIZE ltac:(done)).
  assert (forall i, 0 <= i < n ->
    pa_of m nodes (va + i) = PTE2PA (pte_of m nodes va) + va mod PGSIZE + i) as Hpa.
  { intros i Hi. destruct (va_page va n) with (i := i) as [E1 E2]; [lia..|].
    unfold pa_of. rewrite E2, (pte_of_page m nodes (va + i) va E1). lia. }
  assert (in_u 32 n) by (unfold in_u, PGSIZE in *; lia). split.
  - intros i Hi. rewrite Hpa, load8_memmove by done. rewrite bool_decide_eq_true_2 by lia.
    f_equal. lia.
  - intros b Hb. rewrite load8_memmove by done.
    rewrite bool_decide_eq_false_2; [done|]. intros Hin.
    apply (Hb (b - (PTE2PA (pte_of m nodes va) + va mod PGSIZE))); [lia|]. rewrite Hpa by lia. lia.
Qed.

Lemma copied_out_nodes m m' va src len hi w :
  pt_rep m root nodes -> user_range m nodes va hi w -> va + len <= hi ->
  copied_out m m' va src len -> nodes_same nodes m m'.
Proof.
  intros Hr Hu Hhi [_ Hc] p b Hp Hb. apply Hc. intros i Hi ->.
  eapply pa_of_not_node; [exact Hu|exact Hr| |exact Hp|exact Hb]. lia.
Qed.

(** The source buffer is not part of the destination. *)
Definition src_apart (m : mem) (va src len : Z) : Prop :=
  forall i j, 0 <= i < len -> 0 <= j < len -> pa_of m nodes (va + i) <> src + j.

Lemma pa_of_same m m' va : nodes_same nodes m m' -> pa_of m' nodes va = pa_of m nodes va.
Proof. intros H. unfold pa_of. by rewrite (pte_of_same nodes m m'). Qed.

Lemma copied_out_app m m1 m2 va src n len hi w :
  pt_rep m root nodes -> user_range m nodes va hi w -> 0 <= n <= len -> va + len <= hi ->
  src_apart m va src len ->
  copied_out m m1 va src n -> copied_out m1 m2 (va + n) (src + n) (len - n) ->
  copied_out m m2 va src len.
Proof.
  intros Hr Hu Hn Hhi Hap H1 H2.
  assert (nodes_same nodes m m1) as Hs by (eapply (copied_out_nodes m m1 va src n hi w); eauto with lia).
  destruct H1 as [H1 H1']. destruct H2 as [H2 H2']. setoid_rewrite (pa_of_same m m1 _ Hs) in H2.
  setoid_rewrite (pa_of_same m m1 _ Hs) in H2'. split.
  - intros i Hi. destruct (Z.lt_ge_cases i n).
    + rewrite H2'; [apply H1; lia|]. intros j Hj.
      apply (pa_of_inj m nodes va hi w); [done|lia|lia|lia].
    + replace (va + i) with (va + n + (i - n)) by lia. rewrite H2 by lia.
      replace (src + n + (i - n)) with (src + i) by lia. apply H1'. intros j Hj.
      apply not_eq_sym, Hap; lia.
  - intros b Hb. rewrite H2', H1'; [done| |].
    + intros i Hi. apply Hb. lia.
    + intros i Hi. replace (va + n + i) with (va + (n + i)) by lia. apply Hb. lia.
Qed.

Lemma copyout_loop_spec fuel : forall s va src len,
  mem_ok (memory s) -> pt_rep (memory s) root nodes ->
  user_range (memory s) nodes va (va + len) true -> src_apart (memory s) va src len ->
  enough fuel va len ->
  exists s', copyout_loop end_ psz ppt fuel root va src len c s = Done 0 c s' /\
    freelist s' = freelist s /\ mem_ok (memory s') /\
    copied_out (memory s) (memory s') va src (Z.max 0 len).
Proof.
  induction fuel as [|fuel IH]; intros s va src len Hm Hr Hu Hap Hen; cbn [copyout_loop];
    destruct (Z.leb_spec len 0) as [Hl|Hl].
  1, 3: exists s; split_and!; [done|done|done|]; split; [intros; lia|done].
  { destruct Hen as [?|Hen]; [lia|]. pose proof (Z.mod_pos_bound va PGSIZE ltac:(done)). lia. }
  pose proof (ur_lo _ _ _ _ _ Hu) as Hva. pose proof (ur_hi _ _ _ _ _ Hu).
  destruct (mapped_page s va va (va + len) true Hr Hu ltac:(lia)) as (E1 & E0 & Hmax & pte & E2 & Ep & Ee).
  destruct (Z.leb_spec MAXVA (PGROUNDDOWN va)); [lia|].
  rewrite (bind_done _ _ _ _ _ _ _ E1), E0.
  assert (forall x, (mret x : K pmem Z) c s = Done x c s) as Er by done.
  rewrite (bind_done _ _ _ _ _ _ _ (Er _)), E0, (bind_done _ _ _ _ _ _ _ E2), Ep.
  rewrite (bind_done (mret tt) _ _ _ tt c s eq_refl).
  assert (ld64 pte c s = Done (load64 (memory s) pte) c s) as Eld by done.
  rewrite (bind_done _ _ _ _ _ _ _ Eld), Ee, (ur_w _ _ _ _ _ Hu eq_refl va) by lia. cbn [negb].
  destruct (rounddown_page va Hva) as (Hrd & _ & Ero).
  change (if len <? PGSIZE - (va - PGROUNDDOWN va) then len else PGSIZE - (va - PGROUNDDOWN va))
    with (chunk va len). rewrite Ero.
  set (n := chunk va len). destruct (chunk_spec va len Hva Hl) as (Hc & Hc2 & Hc3). fold n in Hc, Hc2, Hc3.
  set (m1 := memmove (memory s) (PTE2PA (pte_of (memory s) nodes va) + va mod PGSIZE) src n).
  assert (kmemmove (PTE2PA (pte_of (memory s) nodes va) + va mod PGSIZE) src n c s =
    Done tt c (set_memory m1 s)) as Emm by done.
  rewrite (bind_done _ _ _ _ _ _ _ Emm).
  pose proof (copy_chunk (memory s) va src n (va + len) true Hm Hu (proj1 Hc) ltac:(lia) Hc2) as Hcp.
  fold m1 in Hcp.
  assert (nodes_same nodes (memory s) m1) as Hs.
  { eapply copied_out_nodes; [exact Hr|exact Hu| |exact Hcp]. lia. }
  destruct (Z.eq_dec n len) as [En|En].
  - exists (set_memory m1 s). rewrite En, Z.sub_diag.
    split; [destruct fuel; done|]. split_and!; [done|by apply mem_ok_memmove|].
    rewrite Z.max_r by lia. by rewrite <- En.
  - rewrite Hc3 by lia. rewrite u_small by (assert (MAXVA < 2 ^ 64) by done; lia).
    destruct (IH (set_memory m1 s) (va + n) (src + n) (len - n)) as (s' & E' & Hf' & Hm' & Hc').
    + by apply mem_ok_memmove.
    + by apply (pt_rep_same nodes (memory s)).
    + apply (user_range_same nodes (memory s)); [done|].
      eapply user_range_mono; [| |exact Hu]; lia.
    + intros i j Hi Hj. cbn [memory set_memory]. rewrite (pa_of_same (memory s) m1 _ Hs).
      rewrite <- !Z.add_assoc. apply Hap; lia.
    + by apply enough_step.
    + exists s'. split_and!; [done|done|done|]. rewrite Z.max_r in * by lia.
      eapply copied_out_app; [exact Hr|exact Hu| | |exact Hap|exact Hcp|exact Hc']; lia.
Qed.

(** The kernel buffer [dst] after copying [len] bytes from [va]. *)
Definition copied_in (m m' : mem) (dst va len : Z) : Prop :=
  (forall i, 0 <= i < len -> load8 m' (dst + i) = load8 m (pa_of m nodes (va + i))) /\
  (forall b, ~ (dst <= b < dst + len) -> load8 m' b = load8 m b).

(** The buffer is neither user memory of the range nor part of the table. *)
Definition dst_apart (m : mem) (dst va len : Z) : Prop :=
  src_apart m va dst len /\
  (forall p i, is_node nodes p -> 0 <= i < len -> ~ in_page p (dst + i)).

Lemma copied_in_nodes m m' dst va n len :
  dst_apart m dst va len -> n <= len -> copied_in m m' dst va n -> nodes_same nodes m m'.
Proof.
  intros [_ Hn] Hle [_ Hc] p b Hp Hb. apply Hc. intros Hin. apply (Hn p (b - dst) Hp); [lia|].
  by replace (dst + (b - dst)) with b by lia.
Qed.

Lemma read_chunk m dst va n hi w :
  mem_ok m -> user_range m nodes va hi w -> 0 < n -> va + n <= hi ->
  n <= PGSIZE - va mod PGSIZE ->
  copied_in m (memmove m dst (PTE2PA (pte_of m nodes va) + va mod PGSIZE) n) dst va n.
Proof.
  intros Hm Hu Hn Hhi Hle. pose proof (ur_lo _ _ _ _ _ Hu).
  pose proof (Z.mod_pos_bound va PGSIZE ltac:(done)).
  assert (in_u 32 n) by (unfold in_u, PGSIZE in *; lia). split.
  - intros i Hi. destruct (va_page va n) with (i := i) as [E1 E2]; [lia..|].
    unfold pa_of. rewrite E2, (pte_of_page m nodes (va + i) va E1).
    rewrite load8_memmove by done. rewrite bool_decide_eq_true_2 by lia. f_equal. lia.
  - intros b Hb. rewrite load8_memmove by done. by rewrite bool_decide_eq_false_2.
Qed.

Lemma copied_in_app m m1 m2 dst va n len :
  0 <= n <= len -> dst_apart m dst va len ->
  copied_in m m1 dst va n -> copied_in m1 m2 (dst + n) (va + n) (len - n) ->
  copied_in m m2 dst va len.
Proof.
  intros Hn Hap H1 H2.
  assert (nodes_same nodes m m1) as Hs by (eapply copied_in_nodes; [exact Hap| |exact H1]; lia).
  destruct Hap as [Hap _]. destruct H1 as [H1 H1']. destruct H2 as [H2 H2'].
  setoid_rewrite (pa_of_same m m1 _ Hs) in H2. split.
  - intros i Hi. destruct (Z.lt_ge_cases i n).
    + rewrite H2' by lia. apply H1. lia.
    + replace (dst + i) with (dst + n + (i - n)) by lia. rewrite H2 by lia.
      replace (va + n + (i - n)) with (va + i) by lia. apply H1'. intros Hin.
      apply (Hap i (pa_of m nodes (va + i) - dst)); lia.
  - intros b Hb. rewrite H2', H1' by lia. done.
Qed.

Lemma copyin_loop_spec fuel : forall s dst va len w,
  mem_ok (memory s) -> pt_rep (memory s) root nodes ->
  user_range (memory s) nodes va (va + len) w -> dst_apart (memory s) dst va len ->
  enough fuel va len ->
  exists s', copyin_loop end_ psz ppt fuel root dst va len c s = Done 0 c s' /\
    freelist s' = freelist s /\ mem_ok (memory s') /\
    copied_in (memory s) (memory s') dst va (Z.max 0 len).
Proof.
  induction fuel as [|fuel IH]; intros s dst va len w Hm Hr Hu Hap Hen; cbn [copyin_loop];
    destruct (Z.leb_spec len 0) as [Hl|Hl].
  1, 3: exists s; split_and!; [done|done|done|]; split; [intros; lia|done].
  { destruct Hen as [?|Hen]; [lia|]. pose proof (Z.mod_pos_bound va PGSIZE ltac:(done)). lia. }
  pose proof (ur_lo _ _ _ _ _ Hu) as Hva. pose proof (ur_hi _ _ _ _ _ Hu).
  destruct (mapped_page s va va (va + len) w Hr Hu ltac:(lia)) as (E1 & E0 & Hmax & _).
  rewrite (bind_done _ _ _ _ _ _ _ E1), E0.
  assert (forall x, (mret x : K pmem Z) c s = Done x c s) as Er by done.
  rewrite (bind_done _ _ _ _ _ _ _ (Er _)), E0.
  destruct (rounddown_page va Hva) as (Hrd & _ & Ero).
  change (if len <? PGSIZE - (va - PGROUNDDOWN va) then len else PGSIZE - (va - PGROUNDDOWN va))
    with (chunk va len). rewrite Ero.
  set (n := chunk va len). destruct (chunk_spec va len Hva Hl) as (Hc & Hc2 & Hc3). fold n in Hc, Hc2, Hc3.
  set (m1 := memmove (memory s) dst (PTE2PA (pte_of (memory s) nodes va) + va mod PGSIZE) n).
  assert (kmemmove dst (PTE2PA (pte_of (memory s) nodes va) + va mod PGSIZE) n c s =
    Done tt c (set_memory m1 s)) as Emm by done.
  rewrite (bind_done _ _ _ _ _ _ _ Emm).
  pose proof (read_chunk (memory s) dst va n (va + len) w Hm Hu (proj1 Hc) ltac:(lia) Hc2) as Hcp.
  fold m1 in Hcp.
  assert (nodes_same nodes (memory s) m1) as Hs.
  { eapply copied_in_nodes; [exact Hap| |exact Hcp]. lia. }
  destruct (Z.eq_dec n len) as [En|En].
  - exists (set_memory m1 s). rewrite En, Z.sub_diag.
    split; [destruct fuel; done|]. split_and!; [done|by apply mem_ok_memmove|].
    rewrite Z.max_r by lia. by rewrite <- En.
  - rewrite Hc3 by lia. rewrite u_small by (assert (MAXVA < 2 ^ 64) by done; lia).
    destruct (IH (set_memory m1 s) (dst + n) (va + n) (len - n) w) as (s' & E' & Hf' & Hm' & Hc').
    + by apply mem_ok_memmove.
    + by apply (pt_rep_same nodes (memory s)).
    + apply (user_range_same nodes (memory s)); [done|].
      eapply user_range_mono; [| |exact Hu]; lia.
    + destruct Hap as [Ha1 Ha2]. split.
      * intros i j Hi Hj. cbn [memory set_memory]. rewrite (pa_of_same (memory s) m1 _ Hs).
        rewrite <- !Z.add_assoc. apply Ha1; lia.
      * intros p i Hp Hi. rewrite <- Z.add_assoc. apply Ha2; [done|lia].
    + by apply enough_step.
    + exists s'. split_and!; [done|done|done|]. rewrite Z.max_r in * by lia.
      eapply copied_in_app; [|exact Hap|exact Hcp|exact Hc']. lia.
Qed.
End Copy.

(** A new page table: one zeroed node. *)
Lemma uvmcreate_spec c s x fl :
  cpu_ok c -> unlocked L_kmem c -> kmem_rep end_ s (x :: fl) ->
  exists s', uvmcreate c s = Done x c s' /\ vm_ok s' fl x {[ [] := x ]} /\
    (forall va, pte_of (memory s') {[ [] := x ]} va = 0) /\
    same_but x (memory s) (memory s').
Proof.
  intros Hok Hul Hk.
  destruct (kalloc_cons end_ end_pos c s x fl Hok Hul Hk) as (s1 & E1 & Hk1 & Hx & Hn & Hsb & _).
  destruct (page_range end_ end_pos x Hx) as (Hx0 & _).
  unfold uvmcreate. rewrite (bind_done _ _ _ _ _ _ _ E1), (proj2 (Z.eqb_neq x 0)) by lia.
  eexists. split; [reflexivity|]. cbn [memory set_memory].
  assert (forall j, 0 <= j < 512 -> load64 (memset (memory s1) x 0 PGSIZE) (x + 8 * j) = 0) as Hz.
  { intros j Hj. apply load64_zero. intros a Ha. rewrite load8_memset by (unfold in_u, PGSIZE; lia).
    rewrite bool_decide_eq_true_2; [done|]. unfold PGSIZE. lia. }
  split_and!.
  - split.
    + destruct Hk1 as [Hc1 Hnd1 Hm1]. split; [|done|by apply mem_ok_memset].
      apply (chain_frame end_ x (memory s1)); [apply same_but_memset|done..].
    + split.
      * by rewrite lookup_singleton_eq.
      * intros π p [<- <-]%lookup_singleton_Some. split; [done|simpl; lia].
      * intros π π' p [<- _]%lookup_singleton_Some [<- _]%lookup_singleton_Some. done.
      * intros π p [<- _]%lookup_singleton_Some. exists 0. split; [done|apply prefix_nil].
      * intros π i q [E _]%lookup_singleton_Some. by destruct π.
      * intros π p i [<- <-]%lookup_singleton_Some _ Hi. simpl.
        rewrite lookup_singleton_ne by done. cbn [memory set_memory]. rewrite Hz by done. apply flag_zero.
    + by intros π p [<- <-]%lookup_singleton_Some.
  - intros va. unfold pte_of. by rewrite lookup_singleton_ne.
  - eapply same_but_trans; [exact Hsb|apply same_but_memset].
Qed.
End PageTable.

(** Taking a frame leaves the table alone. *)
Lemma kalloc_frame end_ c s x fl root nodes :
  0 < end_ -> cpu_ok c -> unlocked L_kmem c -> vm_ok end_ s (x :: fl) root nodes ->
  exists s', kalloc c s = Done x c s' /\ vm_ok end_ s' fl root nodes /\ page end_ x /\
    ~ is_node nodes x /\ same_but x (memory s) (memory s') /\
    (forall va, pte_of (memory s') nodes va = pte_of (memory s) nodes va).
Proof.
  intros He Hok Hul [Hk Hr Hf].
  destruct (kalloc_cons end_ He c s x fl Hok Hul Hk) as (s1 & E1 & Hk1 & Hx & Hn & Hsb & _).
  assert (~ is_node nodes x) as Hnx by (intros [π Hπ]; apply (Hf _ _ Hπ); by left).
  assert (nodes_same nodes (memory s) (memory s1)) as Hs.
  { intros p b [π Hπ] Hb. apply Hsb. intros Hin.
    eapply (page_disjoint end_ x p b); [done| |intros ->; apply Hnx; by exists π|done..].
    apply (pr_page _ _ _ _ Hr _ _ Hπ). }
  exists s1. split_and!; [done| |done|done|done|].
  - split; [done|by apply (pt_rep_same end_ nodes (memory s))|].
    intros π p Hp Hin. apply (Hf _ _ Hp). by right.
  - intros va. by apply pte_of_same.
Qed.

(** [walk] with allocation never changes a mapping: every leaf entry reads as
    before, at most two new nodes come from the free list, memory outside the nodes is
    untouched, and the result is the address of the leaf entry of [va], or 0
    only with the free list exhausted; without allocation it changes nothing at
    all. *)
Theorem walk_preserves_mappings end_ va c root s fl nodes :
  0 < end_ -> 0 <= va < MAXVA -> cpu_ok c -> unlocked L_kmem c -> vm_ok end_ s fl root nodes ->
  (exists a s' fl' nodes', walk root va true c s = Done a c s' /\
    vm_ok end_ s' fl' root nodes' /\ grown s fl nodes s' fl' nodes' /\
    (length fl <= length fl' + 2)%nat /\
    (forall va', pte_of (memory s') nodes' va' = pte_of (memory s) nodes va') /\
    (a = 0 /\ fl' = [] \/
     exists p, nodes' !! leaf_path va = Some p /\ a = p + 8 * PX 0 va)) /\
  walk root va false c s =
    Done (match nodes !! leaf_path va with Some p => p + 8 * PX 0 va | None => 0 end) c s.
Proof.
  intros He Hva Hok Hul Hv. split; [by apply walk_alloc|].
  apply (walk_ro end_); [done|lia|]. apply (vo_pt _ _ _ _ _ Hv).
Qed.

(** C6: [mappages] on a page-aligned range whose leaves are all invalid either
    maps every page of the range to consecutive frames with the permissions
    asked for and PTE_V, or returns -1 with memory exhausted and a prefix of the
    range mapped; it takes at most two pages for nodes per page mapped; every
    other leaf of the table is unchanged, and so is all memory outside the
    table's nodes. *)
Theorem mappages_maps_range end_ c s fl root nodes va size pa perm :
  0 < end_ -> cpu_ok c -> unlocked L_kmem c -> vm_ok end_ s fl root nodes ->
  0 < size -> size mod PGSIZE = 0 -> 0 <= va -> va + size <= MAXVA -> va mod PGSIZE = 0 ->
  0 <= pa -> pa + size <= 2 ^ 56 -> pa mod PGSIZE = 0 -> 0 <= perm < 1024 ->
  (forall a, va <= a < va + size -> flag (pte_of (memory s) nodes a) PTE_V = false) ->
  exists r s' fl' nodes' j,
    mappages root va size pa perm c s = Done r c s' /\
    vm_ok end_ s' fl' root nodes' /\ grown s fl nodes s' fl' nodes' /\
    Z.of_nat (length fl) <= Z.of_nat (length fl') + 2 * (size / PGSIZE) /\
    remap (memory s) nodes va pa perm j (memory s') nodes' /\
    (r = 0 /\ PGSIZE * Z.of_nat j = size \/
     r = -1 /\ PGSIZE * Z.of_nat j < size /\ fl' = []).
Proof. intros. by apply mappages_spec. Qed.

(** C7: bytes copied out to mapped, writable user memory come back by [copyin]:
    both calls return 0, the destination buffer then holds the source bytes,
    and no byte outside the user range and the buffer changes. *)
Theorem copyout_copyin_roundtrip end_ psz ppt c s root nodes va src dst len :
  0 < end_ -> 0 <= len -> mem_ok (memory s) -> pt_rep end_ (memory s) root nodes ->
  user_range end_ (memory s) nodes va (va + len) true ->
  src_apart nodes (memory s) va src len -> dst_apart nodes (memory s) dst va len ->
  exists s1 s2, copyout end_ psz ppt root va src len c s = Done 0 c s1 /\
    copyin end_ psz ppt root dst va len c s1 = Done 0 c s2 /\
    (forall i, 0 <= i < len -> load8 (memory s2) (dst + i) = load8 (memory s) (src + i)) /\
    (forall b, ~ (dst <= b < dst + len) ->
       (forall i, 0 <= i < len -> b <> pa_of (memory s) nodes (va + i)) ->
       load8 (memory s2) b = load8 (memory s) b).
Proof.
  intros He Hl Hm Hr Hu Hsrc Hdst.
  destruct (copyout_loop_spec end_ He psz ppt root nodes c _ s va src len Hm Hr Hu Hsrc
    (enough_start va len Hl)) as (s1 & E1 & _ & Hm1 & Hc1). rewrite Z.max_r in Hc1 by done.
  assert (nodes_same nodes (memory s) (memory s1)) as Hs.
  { eapply copied_out_nodes; [exact Hr|exact Hu| |exact Hc1]. lia. }
  destruct (copyin_loop_spec end_ He psz ppt root nodes c (Z.to_nat (len / PGSIZE + 2))
    s1 dst va len true Hm1) as (s2 & E2 & _ & _ & Hc2).
  - by apply (pt_rep_same end_ nodes (memory s)).
  - by apply (user_range_same end_ nodes (memory s)).
  - destruct Hdst as [H1 H2]. split; [|done]. intros i j Hi Hj.
    rewrite (pa_of_same nodes (memory s) _ _ Hs). by apply H1.
  - by apply enough_start.
  - rewrite Z.max_r in Hc2 by done. exists s1, s2.
    destruct Hc1 as [Ho Ho']. destruct Hc2 as [Hi Hi'].
    split_and!; [done|done| |].
    + intros i Hir. rewrite Hi, (pa_of_same nodes (memory s) _ _ Hs) by done. by apply Ho.
    + intros b Hb Hb'. rewrite Hi' by done. by apply Ho'.
Qed.

(** A process image with one writable user page, for the witnesses. *)
Definition demo : K pmem Z :=
  root ← uvmcreate;
  x ← kalloc;
  mappages root 0 PGSIZE x (Z.lor (Z.lor PTE_R PTE_W) PTE_U).

Lemma demo_ok : match demo ctx0 heap5 with Done r _ _ => r = 0 | _ => False end.
Proof. vm_compute. reflexivity. Qed.

Lemma demo_space : exists s fl root nodes,
  vm_ok end5 s fl root nodes /\ user_range end5 (memory s) nodes 0 PGSIZE true.
Proof.
  assert (0 <= Z.lor (Z.lor PTE_R PTE_W) PTE_U < 1024) as Hperm by done.
  destruct (uvmcreate_spec end5 eq_refl ctx0 heap5 _ _ ctx0_ok ctx0_unlocked heap5_rep)
    as (s1 & E1 & Hv1 & Hp1 & _).
  destruct (kalloc_frame end5 ctx0 s1 _ _ _ _ eq_refl ctx0_ok ctx0_unlocked Hv1)
    as (s2 & E2 & Hv2 & Hx & Hnx & _ & Hp2).
  match type of Hx with page _ ?p => set (x := p) in * end.
  destruct (page_range end5 eq_refl x Hx) as (Hx0 & Hxa & Hxe).
  assert (PHYSTOP < 2 ^ 56) as HP by done.
  destruct (mappages_spec end5 eq_refl ctx0 s2 _ _ _ 0 PGSIZE x (Z.lor (Z.lor PTE_R PTE_W) PTE_U)
    ctx0_ok ctx0_unlocked Hv2) as (r & s3 & fl3 & n3 & j & E3 & Hv3 & Hg3 & _ & Hr3 & Hj);
    [done|done|done|done|done|lia|lia|done|done| |].
  { intros a Ha. by rewrite Hp2, Hp1, flag_zero. }
  assert (r = 0) as ->.
  { assert (demo ctx0 heap5 = Done r ctx0 s3) as Ed.
    { unfold demo. etransitivity; [exact (bind_done _ _ _ _ _ _ _ E1)|].
      etransitivity; [exact (bind_done _ _ _ _ _ _ _ E2)|]. exact E3. }
    pose proof demo_ok as Hd. rewrite Ed in Hd. exact Hd. }
  clear E1 E2 E3.
  assert (PGSIZE * Z.of_nat j = PGSIZE) as Hj' by (destruct Hj as [[_ ?]|[? _]]; [done|lia]).
  eexists s3, fl3, _, n3. split; [exact Hv3|].
  assert (forall va, 0 <= va < PGSIZE -> pte_of (memory s3) n3 va = mk_pte x (Z.lor (Z.lor PTE_R PTE_W) PTE_U)) as Hp3.
  { intros va Hva. rewrite Hr3 by (assert (PGSIZE < MAXVA) by done; lia). rewrite Hj'.
    rewrite bool_decide_eq_true_2 by lia. f_equal. rewrite (Z.mod_small va) by done. lia. }
  destruct (mk_pte_spec x _ ltac:(lia) Hxa Hperm) as (_ & HV & HPA & Hland).
  split; [done|done|..]; intros; rewrite ?Hp3, ?HPA by done.
  - done.
  - unfold flag. by rewrite Hland.
  - unfold flag. by rewrite Hland.
  - done.
  - intros Hin. apply (grown_new _ _ _ _ _ _ _ Hg3) in Hin as [Hin|Hin]; [exact (Hnx Hin)|].
    pose proof (kr_nodup _ _ _ (vo_kmem _ _ _ _ _ Hv1)) as Hnd. by apply NoDup_cons in Hnd as [? _].
  - rewrite !Z.div_small in * by done. done.
Qed.

Lemma walk_preserves_mappings_witness :
  exists s root a s', walk root 0x12345000 true ctx0 s = Done a ctx0 s' /\
    walk root 0x12345000 false ctx0 s = Done 0 ctx0 s.
Proof.
  destruct (uvmcreate_spec end5 eq_refl ctx0 heap5 _ _ ctx0_ok ctx0_unlocked heap5_rep)
    as (s1 & E1 & Hv1 & Hp1 & _).
  destruct (walk_preserves_mappings end5 0x12345000 ctx0 _ s1 _ _ eq_refl ltac:(split; [discriminate|reflexivity])
    ctx0_ok ctx0_unlocked Hv1) as [(a & s' & fl' & n' & E & _) E0].
  eexists s1, _, a, s'. split; [exact E|]. rewrite E0.
  by rewrite lookup_singleton_ne.
Defined.

Lemma mappages_maps_range_witness :
  exists r s s' root, mappages root 0x4000 0x2000 UART0 (Z.lor PTE_R PTE_W) ctx0 s = Done r ctx0 s'.
Proof.
  destruct (uvmcreate_spec end5 eq_refl ctx0 heap5 _ _ ctx0_ok ctx0_unlocked heap5_rep)
    as (s1 & E1 & Hv1 & Hp1 & _).
  destruct (mappages_maps_range end5 ctx0 s1 _ _ _ 0x4000 0x2000 UART0 (Z.lor PTE_R PTE_W)
    eq_refl ctx0_ok ctx0_unlocked Hv1) as (r & s' & fl' & n' & j & E & _);
    [reflexivity|reflexivity|discriminate|discriminate|reflexivity|discriminate|discriminate
    |reflexivity|split; [discriminate|reflexivity]| |].
  - intros a Ha. rewrite Hp1. apply flag_zero.
  - eexists r, s1, s', _; exact E.
Defined.

Lemma copyout_copyin_roundtrip_witness :
  exists s root s1 s2,
    copyout end5 0 0 root 16 1000 100 ctx0 s = Done 0 ctx0 s1 /\
    copyin end5 0 0 root 2000 16 100 ctx0 s1 = Done 0 ctx0 s2 /\
    load8 (memory s2) (2000 + 7) = load8 (memory s) (1000 + 7).
Proof.
  destruct demo_space as (s & fl & root & nodes & Hv & Hu).
  assert (user_range end5 (memory s) nodes 16 (16 + 100) true) as Hu'.
  { eapply user_range_mono; [| |exact Hu]; [discriminate|discriminate]. }
  assert (forall i, 0 <= i < 100 -> end5 <= pa_of (memory s) nodes (16 + i)) as Hge.
  { intros i Hi. destruct (ur_page _ _ _ _ _ _ Hu' (16 + i) ltac:(lia)) as [_ [H _]].
    unfold pa_of. pose proof (Z.mod_pos_bound (16 + i) PGSIZE eq_refl). lia. }
  assert (end5 = 0x87ffb000) as E5 by reflexivity.
  destruct (copyout_copyin_roundtrip end5 0 0 ctx0 s root nodes 16 1000 2000 100 eq_refl
    ltac:(discriminate) (kr_mem _ _ _ (vo_kmem _ _ _ _ _ Hv)) (vo_pt _ _ _ _ _ Hv) Hu')
    as (s1 & s2 & E1 & E2 & H & _).
  - intros i j Hi Hj. specialize (Hge i Hi). lia.
  - split.
    + intros i j Hi Hj. specialize (Hge i Hi). lia.
    + intros p i [π Hπ] Hi Hin. destruct (pr_page _ _ _ _ (vo_pt _ _ _ _ _ Hv) _ _ Hπ) as [[_ Hp] _].
      unfold in_page in Hin. lia.
  - exists s, root, s1, s2. split; [exact E1|split; [exact E2|apply H; lia]].
Defined.

(** C17: [copyin] has no bound check of its own (unlike [copyout]): for a process
    whose size exceeds MAXVA, reading user memory at an address between MAXVA
    and that size panics the kernel in [walk] instead of returning -1. *)
Theorem copyin_above_maxva_panics end_ psz ppt c s root dst srcva len :
  MAXVA <= srcva < psz -> 0 < len ->
  copyin end_ psz ppt root dst srcva len c s = Panic "walk".
Proof.
  intros [Hmax Hsz] Hl. unfold copyin.
  assert (0 <= len / PGSIZE) by (apply Z.div_pos; [lia|done]).
  destruct (Z.to_nat (len / PGSIZE + 2)) as [|fuel] eqn:Ef; [lia|]. cbn [copyin_loop].
  destruct (Z.leb_spec len 0); [lia|].
  assert (MAXVA <= PGROUNDDOWN srcva <= srcva) as Hrd.
  { rewrite PGROUNDDOWN_eq. pose proof (Z.mod_pos_bound srcva PGSIZE ltac:(done)).
    pose proof (Z.div_mod srcva PGSIZE ltac:(done)).
    assert (MAXVA = 2 ^ 26 * PGSIZE) as EM by done. unfold PGSIZE in *.
    assert (2 ^ 26 <= srcva / 4096) by (apply Z.div_le_lower_bound; lia). lia. }
  assert (forall va, MAXVA <= va -> walkaddr root va c s = Done 0 c s) as Ew.
  { intros va Hva. unfold walkaddr. by destruct (Z.leb_spec MAXVA va); [|lia]. }
  rewrite (bind_done _ _ _ _ _ _ _ (Ew _ (proj1 Hrd))). rewrite Z.eqb_refl.
  unfold vmfault. destruct (Z.leb_spec psz (PGROUNDDOWN srcva)); [lia|].
  assert (PGROUNDDOWN (PGROUNDDOWN srcva) = PGROUNDDOWN srcva) as ->.
  { destruct (PGROUNDDOWN_spec srcva) as [Hm _]. rewrite (PGROUNDDOWN_eq (PGROUNDDOWN srcva)), Hm. lia. }
  unfold ismapped, walk. destruct (Z.leb_spec MAXVA (PGROUNDDOWN srcva)); [done|lia].
Qed.

Lemma copyin_above_maxva_panics_witness :
  copyin end5 (2 ^ 39) 0 4096 0 (2 ^ 38 + 5) 8 ctx0 (PMem ∅ 0) = Panic "walk".
Proof.
  apply (copyin_above_maxva_panics end5 (2 ^ 39) 0 ctx0 (PMem ∅ 0) 4096 0 (2 ^ 38 + 5) 8).
  - split; [discriminate|reflexivity].
  - reflexivity.
Defined.
