(* ===== verification/UserVm.v ===== *)
(** * Address spaces: unmapping, freeing, growing and copying (theorems on Vm.v)

    The pages of an address space are accounted for exactly: [uvmunmap] gives
    the frames of its range back to the allocator, [uvmfree] the frames and the
    nodes of the table, [uvmalloc] and [uvmcopy] take fresh frames for the new
    pages or, when memory runs out, return every frame they took. *)
From stdpp Require Import base numbers list gmap strings.
From S2P Require Import Prelude Kernel Spinlock Str Riscv Kalloc Vm PageTable.

(** The frames mapped by the [n] pages from page number [k]. *)
Fixpoint frames (m : mem) (nodes : gmap (list Z) Z) (k : Z) (n : nat) : list Z :=
  match n with
  | O => []
  | S n =>
      let e := pte_of m nodes (PGSIZE * k) in
      (if flag e PTE_V then [PTE2PA e] else []) ++ frames m nodes (k + 1) n
  end.

(** The leaves after the pages [k, k+n) have been unmapped. *)
Definition cleared (m : mem) (nodes : gmap (list Z) Z) (k : Z) (n : nat) (m' : mem) : Prop :=
  forall va, 0 <= va < MAXVA ->
    pte_of m' nodes va =
    if bool_decide (PGSIZE * k <= va < PGSIZE * (k + Z.of_nat n)) && flag (pte_of m nodes va) PTE_V
    then 0 else pte_of m nodes va.

(** What a process sees at an address: the permission bits and the byte, if
    there is a mapping. *)
Definition view (m : mem) (nodes : gmap (list Z) Z) (va : Z) : option (Z * Z) :=
  let e := pte_of m nodes va in
  if flag e PTE_V then Some (PTE_FLAGS e, load8 m (pa_of m nodes va)) else None.

(** An entry up to the contents of an invalid one. *)
Definition live (e : Z) : option Z := if flag e PTE_V then Some e else None.

(** The pages [0, n) cover the [sz] bytes of a process. *)
Definition covers (n : nat) (sz : Z) : Prop :=
  0 <= sz /\ PGSIZE * (Z.of_nat n - 1) < sz <= PGSIZE * Z.of_nat n.

Lemma covers_roundup n sz : covers n sz -> PGSIZE * Z.of_nat n <= MAXVA -> PGROUNDUP sz = PGSIZE * Z.of_nat n.
Proof.
  intros Hc Hm. assert (MAXVA < 2 ^ 39) as HM by done.
  destruct (PGROUNDUP_spec sz) as [Ha Hr]; [unfold covers, PGSIZE in *; lia|].
  unfold covers, PGSIZE in *. apply Z.mod_divide in Ha as [k Hk]; lia.
Qed.

Section UserVm.
Variable end_ : Z.

(** Pages that are neither free nor nodes of the table, each once. *)
Record owned (fl : list Z) (nodes : gmap (list Z) Z) (l : list Z) : Prop := {
  ow_nodup : NoDup l;
  ow_page : forall p, p ∈ l -> page end_ p;
  ow_free : forall p, p ∈ l -> p ∉ fl;
  ow_node : forall p, p ∈ l -> ~ is_node nodes p;
}.

Lemma owned_nil fl nodes : owned fl nodes [].
Proof. split; [constructor|set_solver..]. Qed.

Lemma owned_cons fl nodes p l : owned fl nodes (p :: l) ->
  page end_ p /\ p ∉ fl /\ ~ is_node nodes p /\ owned (p :: fl) nodes l.
Proof.
  intros [Hnd Hp Hf Hn]. apply NoDup_cons in Hnd as [Hpl Hnd].
  split_and!; [apply Hp; by left|apply Hf; by left|apply Hn; by left|].
  split; [done|set_solver|set_solver|set_solver].
Qed.

Lemma owned_app fl nodes l l' : owned fl nodes (l ++ l') -> owned fl nodes l /\ owned (l ++ fl) nodes l'.
Proof.
  intros [Hnd Hp Hf Hn]. apply NoDup_app in Hnd as (H1 & H12 & H2).
  split; split; try done; set_solver.
Qed.

Hypothesis end_pos : 0 < end_.

Lemma page_pos p : page end_ p -> 0 < p.
Proof. intros H. by destruct (page_range end_ end_pos p H) as [[? ?] _]. Qed.

(** ** Frames *)

Lemma frames_ext m nodes m' nodes' n : forall k,
  (forall i, k <= i < k + Z.of_nat n -> pte_of m' nodes' (PGSIZE * i) = pte_of m nodes (PGSIZE * i)) ->
  frames m' nodes' k n = frames m nodes k n.
Proof.
  induction n as [|n IH]; intros k H; [done|]. cbn [frames].
  rewrite (H k) by lia. rewrite (IH (k + 1)); [done|]. intros i Hi. apply H. lia.
Qed.

Lemma frames_app m nodes n n' : forall k,
  frames m nodes k (n + n') = frames m nodes k n ++ frames m nodes (k + Z.of_nat n) n'.
Proof.
  induction n as [|n IH]; intros k; cbn [frames Nat.add app].
  - by rewrite Z.add_0_r.
  - rewrite IH, app_assoc. do 2 f_equal. lia.
Qed.

Lemma elem_of_frames m nodes n p : forall k,
  p ∈ frames m nodes k n <-> exists i, k <= i < k + Z.of_nat n /\
    flag (pte_of m nodes (PGSIZE * i)) PTE_V = true /\ p = PTE2PA (pte_of m nodes (PGSIZE * i)).
Proof.
  induction n as [|n IH]; intros k; cbn [frames].
  - rewrite elem_of_nil. split; [done|]. intros (i & ? & _). lia.
  - rewrite elem_of_app, IH. split.
    + intros [H|(i & ? & H)]; [|exists i; split; [lia|done]]. exists k.
      destruct (flag _ PTE_V); [|by apply elem_of_nil in H]. apply list_elem_of_singleton in H.
      split; [lia|done].
    + intros (i & Hi & Hv & ->). destruct (Z.eq_dec i k) as [->|]; [left|right].
      * rewrite Hv. by left.
      * exists i. split; [lia|done].
Qed.

Lemma frames_invalid m nodes k n :
  (forall i, k <= i < k + Z.of_nat n -> flag (pte_of m nodes (PGSIZE * i)) PTE_V = false) ->
  frames m nodes k n = [].
Proof.
  intros H. destruct (frames m nodes k n) as [|p l] eqn:E; [done|].
  assert (p ∈ frames m nodes k n) as Hp by (rewrite E; by left).
  apply elem_of_frames in Hp as (i & Hi & Hv & _). by rewrite H in Hv.
Qed.

(** ** uvmunmap *)

(** A write into a page that is no node leaves the table alone. *)
Lemma same_but_nodes m m' root nodes x : pt_rep end_ m root nodes -> page end_ x ->
  ~ is_node nodes x -> same_but x m m' -> nodes_same nodes m m'.
Proof.
  intros Hr Hx Hn Hs p b [π Hπ] Hb. apply Hs. intros Hin.
  eapply (page_disjoint end_ x p b); [done| |intros ->; apply Hn; by exists π|done..].
  apply (pr_page _ _ _ _ Hr _ _ Hπ).
Qed.

Lemma kfree_frame c s fl root nodes x : cpu_ok c -> unlocked L_kmem c ->
  vm_ok end_ s fl root nodes -> page end_ x -> x ∉ fl -> ~ is_node nodes x ->
  exists s', kfree end_ x c s = Done tt c s' /\ vm_ok end_ s' (x :: fl) root nodes /\
    nodes_same nodes (memory s) (memory s') /\ same_but x (memory s) (memory s').
Proof.
  intros Hok Hul [Hk Hr Hf] Hx Hxf Hxn.
  destruct (kfree_page end_ end_pos c s x fl Hok Hul Hk Hx Hxf) as (s' & E & Hk' & Hs).
  pose proof (same_but_nodes _ _ _ _ _ Hr Hx Hxn Hs) as Hns.
  exists s'. split_and!; [done| |done|done].
  split; [done|by apply (pt_rep_same end_ nodes (memory s))|].
  intros π p Hπ [->|Hin]%elem_of_cons; [apply Hxn; by exists π|by eapply Hf].
Qed.

(** Storing 0 in the leaf of a page unmaps that page. *)
Lemma clear_leaf s fl root nodes k p : vm_ok end_ s fl root nodes -> 0 <= k -> PGSIZE * k < MAXVA ->
  nodes !! leaf_path (PGSIZE * k) = Some p -> flag (pte_of (memory s) nodes (PGSIZE * k)) PTE_V = true ->
  let s' := set_memory (store64 (memory s) (p + 8 * PX 0 (PGSIZE * k)) 0) s in
  vm_ok end_ s' fl root nodes /\ cleared (memory s) nodes k 1 (memory s') /\
  (forall b, ~ in_page p b -> load8 (memory s') b = load8 (memory s) b).
Proof.
  intros Hv Hk Hmax Hp Hf s'.
  destruct (set_leaf end_ end_pos s fl root nodes (PGSIZE * k) p 0 Hv Hp ltac:(lia)) as (Hv' & H0 & Hne & _).
  pose proof (PX_range 0 (PGSIZE * k) ltac:(lia)) as Hi. split_and!; [done| |].
  - intros va Hva. unfold PGSIZE in *. case_bool_decide as Hin.
    + assert (va / 4096 = (4096 * k) / 4096) as Ed.
      { rewrite (Z.mul_comm 4096 k), Z.div_mul by lia. symmetry. apply Z.div_unique with (va - 4096 * k); lia. }
      rewrite !(pte_of_page _ nodes va (4096 * k)) by done. rewrite Hf. exact H0.
    + cbn [andb]. apply Hne. apply leaf_ne; [lia|done|]. unfold PGSIZE. intros Ed. apply Hin.
      rewrite (Z.mul_comm 4096 k), Z.div_mul in Ed by lia.
      pose proof (Z.div_mod va 4096 ltac:(lia)). pose proof (Z.mod_pos_bound va 4096 ltac:(lia)). lia.
  - intros b Hb. apply load8_store64_out. unfold in_page, PGSIZE in *. lia.
Qed.

Lemma cleared_refl m nodes k m' : nodes_same nodes m m' -> cleared m nodes k 0 m'.
Proof.
  intros H va Hva. rewrite bool_decide_eq_false_2 by lia. by apply pte_of_same.
Qed.

Lemma cleared_S m nodes k n m1 m2 :
  cleared m nodes k 1 m1 -> cleared m1 nodes (k + 1) n m2 -> cleared m nodes k (S n) m2.
Proof.
  intros H1 H2 va Hva. rewrite (H2 va Hva), (H1 va Hva). unfold PGSIZE.
  destruct (flag (pte_of m nodes va) PTE_V) eqn:Ef; rewrite ?andb_true_r, ?andb_false_r.
  - destruct (decide (4096 * k <= va < 4096 * (k + Z.of_nat 1))) as [D|D].
    + rewrite (bool_decide_eq_true_2 _ D), (bool_decide_eq_true_2 (4096 * k <= va < 4096 * (k + Z.of_nat (S n)))) by lia.
      by rewrite flag_zero, andb_false_r.
    + rewrite (bool_decide_eq_false_2 _ D), Ef, andb_true_r.
      destruct (decide (4096 * (k + 1) <= va < 4096 * (k + 1 + Z.of_nat n))) as [D'|D'].
      * rewrite !bool_decide_eq_true_2 by lia. done.
      * rewrite !bool_decide_eq_false_2 by lia. done.
  - by rewrite Ef, andb_false_r.
Qed.

(** What [uvmunmap] leaves: memory outside the nodes and the frames freed. *)
Definition kept_but (nodes : gmap (list Z) Z) (l : list Z) (m m' : mem) : Prop :=
  forall b, (forall p, is_node nodes p \/ p ∈ l -> ~ in_page p b) -> load8 m' b = load8 m b.

Definition freed (do_free : bool) (l : list Z) : list Z := if do_free then l else [].

(** The pattern of the loops over a table: a page without a valid leaf is
    passed over, the others are handled with their entry. *)
Lemma walk_invalid {A} c s root nodes va (skip : K pmem A) (f : Z -> Z -> K pmem A) :
  va < MAXVA -> pt_rep end_ (memory s) root nodes -> flag (pte_of (memory s) nodes va) PTE_V = false ->
  (pte ← walk root va false;
   if pte =? 0 then skip else e ← ld64 pte; if negb (flag e PTE_V) then skip else f pte e) c s = skip c s.
Proof.
  intros Hmax Hr Ef. rewrite (bind_done _ _ _ _ _ _ _ (walk_ro end_ end_pos va c s root nodes Hmax Hr)).
  unfold pte_of in Ef. destruct (nodes !! leaf_path va) as [p|] eqn:Ep; [|done].
  destruct (pr_page _ _ _ _ Hr _ _ Ep) as [Hpp%page_pos _].
  pose proof (PX_range 0 va ltac:(lia)). rewrite (proj2 (Z.eqb_neq _ 0)) by lia.
  unfold ld64. krun. by rewrite Ef.
Qed.

Lemma walk_valid {A} c s root nodes va (skip : K pmem A) (f : Z -> Z -> K pmem A) :
  0 <= va < MAXVA -> pt_rep end_ (memory s) root nodes -> flag (pte_of (memory s) nodes va) PTE_V = true ->
  exists p, nodes !! leaf_path va = Some p /\
  (pte ← walk root va false;
   if pte =? 0 then skip else e ← ld64 pte; if negb (flag e PTE_V) then skip else f pte e) c s =
  f (p + 8 * PX 0 va) (pte_of (memory s) nodes va) c s.
Proof.
  intros Hva Hr Ef. destruct (walk_leaf end_ end_pos c s root nodes va Hva Hr Ef) as (p & Hp & Ew & El & Ez).
  exists p. split; [done|]. rewrite (bind_done _ _ _ _ _ _ _ Ew), Ez.
  assert (ld64 (p + 8 * PX 0 va) c s = Done (pte_of (memory s) nodes va) c s) as Eld by (rewrite <- El; done).
  by rewrite (bind_done _ _ _ _ _ _ _ Eld), Ef.
Qed.

Lemma unmap_one c s fl root nodes k do_free : cpu_ok c -> unlocked L_kmem c ->
  vm_ok end_ s fl root nodes -> 0 <= k -> PGSIZE * k < MAXVA ->
  owned fl nodes (freed do_free (frames (memory s) nodes k 1)) ->
  exists s', (pte ← walk root (PGSIZE * k) false;
     if pte =? 0 then mret tt
     else e ← ld64 pte;
       if negb (flag e PTE_V) then mret tt
       else kwhen do_free (kfree end_ (PTE2PA e));; st64 pte 0) c s = Done tt c s' /\
    vm_ok end_ s' (freed do_free (frames (memory s) nodes k 1) ++ fl) root nodes /\
    cleared (memory s) nodes k 1 (memory s') /\
    kept_but nodes (freed do_free (frames (memory s) nodes k 1)) (memory s) (memory s').
Proof.
  intros Hok Hul Hv Hk Hmax. pose proof (vo_pt _ _ _ _ _ Hv) as Hr. cbn [frames].
  destruct (flag (pte_of (memory s) nodes (PGSIZE * k)) PTE_V) eqn:Ef.
  - destruct (walk_valid c s root nodes (PGSIZE * k) (mret tt)
      (fun pte e => kwhen do_free (kfree end_ (PTE2PA e));; st64 pte 0)) as (p & Hp & ->);
      [unfold PGSIZE in *; lia|done|done|]. cbn [app]. set (x := PTE2PA _).
    assert (is_node nodes p) as Hnp by by exists (leaf_path (PGSIZE * k)).
    destruct do_free; cbn [freed kwhen]; intros Ho.
    + apply owned_cons in Ho as (Hx & Hxf & Hxn & _).
      destruct (kfree_frame c s fl root nodes x Hok Hul Hv Hx Hxf Hxn) as (s1 & E1 & Hv1 & Hns & Hsb).
      rewrite (bind_done _ _ _ _ _ _ _ E1). eexists. split; [reflexivity|].
      destruct (clear_leaf s1 (x :: fl) root nodes k p Hv1 Hk Hmax Hp) as (Hv2 & Hc & Hm);
        [by rewrite (pte_of_same nodes (memory s))|].
      split_and!; [exact Hv2| |].
      * intros va Hva. rewrite (Hc va Hva), !(pte_of_same nodes (memory s) (memory s1)) by done. done.
      * intros b Hb. rewrite Hm by (apply Hb; by left). apply Hsb, Hb. right. by left.
    + assert ((mret tt : K pmem unit) c s = Done tt c s) as Er by done.
      rewrite (bind_done _ _ _ _ _ _ _ Er). eexists. split; [reflexivity|].
      destruct (clear_leaf s fl root nodes k p Hv Hk Hmax Hp Ef) as (Hv2 & Hc & Hm).
      split_and!; [exact Hv2|exact Hc|]. intros b Hb. apply Hm, Hb. by left.
  - intros _. exists s. replace (freed do_free ([] ++ [])) with (@nil Z) by (by destruct do_free).
    split_and!; [|done| |done].
    + rewrite (walk_invalid c s root nodes (PGSIZE * k) (mret tt)
        (fun pte e => kwhen do_free (kfree end_ (PTE2PA e));; st64 pte 0)) by done. done.
    + intros va Hva. case_bool_decide as Hin; [|done].
      rewrite (pte_of_page _ nodes va (PGSIZE * k)); [by rewrite Ef|].
      unfold PGSIZE in *. rewrite (Z.mul_comm 4096 k), Z.div_mul by lia.
      symmetry. apply Z.div_unique with (va - k * 4096); lia.
Qed.

Lemma freed_app do_free l l' : freed do_free (l ++ l') = freed do_free l ++ freed do_free l'.
Proof. by destruct do_free. Qed.

Lemma frames_cleared m nodes k k' n n' m' : cleared m nodes k n m' -> 0 <= k' ->
  PGSIZE * (k' + Z.of_nat n') <= MAXVA -> (k' + Z.of_nat n' <= k \/ k + Z.of_nat n <= k') ->
  frames m' nodes k' n' = frames m nodes k' n'.
Proof.
  intros H Hk Hm Hd. apply frames_ext. intros i Hi. unfold PGSIZE in *. rewrite H by lia.
  rewrite bool_decide_eq_false_2; [done|]. unfold PGSIZE. lia.
Qed.

Lemma length_frames_1 m nodes k : (length (frames m nodes k 1) <= 1)%nat.
Proof. cbn [frames]. destruct (flag _ _); simpl; lia. Qed.

Lemma elem_of_rev {A} (x : A) l : x ∈ rev l <-> x ∈ l.
Proof. rewrite !list_elem_of_In. symmetry. apply in_rev. Qed.

Lemma rev_short {A} (l : list A) : (length l <= 1)%nat -> rev l = l.
Proof. destruct l as [|? [|? ?]]; [done|done|]. simpl. lia. Qed.

Lemma uvmunmap_loop_spec c root nodes do_free n : forall s fl k,
  cpu_ok c -> unlocked L_kmem c -> vm_ok end_ s fl root nodes -> 0 <= k ->
  PGSIZE * (k + Z.of_nat n) <= MAXVA ->
  owned fl nodes (freed do_free (frames (memory s) nodes k n)) ->
  exists s', uvmunmap_loop end_ n root (PGSIZE * k) (PGSIZE * (k + Z.of_nat n)) do_free c s = Done tt c s' /\
    vm_ok end_ s' (rev (freed do_free (frames (memory s) nodes k n)) ++ fl) root nodes /\
    cleared (memory s) nodes k n (memory s') /\
    kept_but nodes (freed do_free (frames (memory s) nodes k n)) (memory s) (memory s').
Proof.
  assert (MAXVA < 2 ^ 63) as HM by done.
  induction n as [|n IH]; intros s fl k Hok Hul Hv Hk Hmax Ho.
  { exists s. cbn [uvmunmap_loop]. rewrite Z.add_0_r, Z.leb_refl.
    split_and!; [done|by destruct do_free|by apply cleared_refl|done]. }
  change (S n) with (1 + n)%nat in *. rewrite frames_app, freed_app in Ho |- *.
  apply owned_app in Ho as [Ho1 Ho2]. change (k + Z.of_nat 1) with (k + 1) in *.
  destruct (unmap_one c s fl root nodes k do_free Hok Hul Hv Hk) as (s1 & E1 & Hv1 & Hc1 & Hm1);
    [unfold PGSIZE in *; lia|done|].
  assert (frames (memory s1) nodes (k + 1) n = frames (memory s) nodes (k + 1) n) as Ef.
  { apply (frames_cleared _ _ k _ 1); [done|lia| |lia]. unfold PGSIZE in *. lia. }
  destruct (IH s1 (freed do_free (frames (memory s) nodes k 1) ++ fl) (k + 1))
    as (s2 & E2 & Hv2 & Hc2 & Hm2);
    [done|done|done|lia|unfold PGSIZE in *; lia|by rewrite Ef|]. rewrite Ef in *.
  exists s2. split_and!.
  - cbn [uvmunmap_loop Nat.add].
    rewrite (proj2 (Z.leb_gt _ _)) by (unfold PGSIZE; lia).
    rewrite <- bind_assoc, (bind_done _ _ _ _ _ _ _ E1), u_small by (unfold PGSIZE in *; lia).
    replace (PGSIZE * k + PGSIZE) with (PGSIZE * (k + 1)) by lia.
    replace (k + Z.of_nat (S n)) with (k + 1 + Z.of_nat n) by lia. exact E2.
  - rewrite rev_app_distr, <- app_assoc, (rev_short (freed do_free (frames (memory s) nodes k 1))); [done|].
    destruct do_free; [apply length_frames_1|simpl; lia].
  - by eapply cleared_S.
  - intros b Hb. rewrite Hm2; [apply Hm1|]; intros p [Hp|Hp]; apply Hb; set_solver.
Qed.

(** [uvmunmap] of [n] pages: it returns, their leaves are invalid, and with
    [do_free] the free list has their frames on top, the last freed first. *)
Lemma uvmunmap_spec c s fl root nodes do_free k n :
  cpu_ok c -> unlocked L_kmem c -> vm_ok end_ s fl root nodes -> 0 <= k ->
  PGSIZE * (k + Z.of_nat n) <= MAXVA ->
  owned fl nodes (freed do_free (frames (memory s) nodes k n)) ->
  exists s', uvmunmap end_ root (PGSIZE * k) (Z.of_nat n) do_free c s = Done tt c s' /\
    vm_ok end_ s' (rev (freed do_free (frames (memory s) nodes k n)) ++ fl) root nodes /\
    cleared (memory s) nodes k n (memory s') /\
    kept_but nodes (freed do_free (frames (memory s) nodes k n)) (memory s) (memory s').
Proof.
  intros Hok Hul Hv Hk Hmax Ho. assert (MAXVA < 2 ^ 63) as HM by done.
  destruct (uvmunmap_loop_spec c root nodes do_free n s fl k Hok Hul Hv Hk Hmax Ho) as (s' & E & H).
  exists s'. split; [|exact H]. unfold uvmunmap.
  assert ((PGSIZE * k) mod PGSIZE = 0) as -> by (rewrite Z.mul_comm; apply Z.mod_mul; done).
  rewrite Nat2Z.id. unfold PGSIZE in *.
  rewrite (u_small 64 (Z.of_nat n * 4096)), u_small by lia.
  replace (4096 * k + Z.of_nat n * 4096) with (4096 * (k + Z.of_nat n)) by lia. exact E.
Qed.

(** ** Adding pages one by one

    [uvmalloc] and [uvmcopy] build a range of pages from page number [k0] on;
    [want] is what the range is to show.  At every moment the pages that were
    free or nodes of the table at the start are exactly those that are free,
    nodes, in hand ([h]) or frames of the range now. *)
Section Build.
Variables (root k0 : Z) (s0 : pmem) (fl0 : list Z) (nodes0 : gmap (list Z) Z).
Variable (want : Z -> option (Z * Z)).
Hypothesis k0_pos : 0 <= k0.

Record building (n : nat) (h : list Z) (s : pmem) (fl : list Z) (nodes : gmap (list Z) Z) : Prop := {
  bl_vm : vm_ok end_ s fl root nodes;
  bl_max : PGSIZE * (k0 + Z.of_nat n) <= MAXVA;
  bl_own : owned fl nodes (h ++ frames (memory s) nodes k0 n);
  bl_pages : forall p, p ∈ fl0 \/ is_node nodes0 p <->
    p ∈ fl \/ is_node nodes p \/ p ∈ h \/ p ∈ frames (memory s) nodes k0 n;
  bl_kept : forall b, (forall p, p ∈ fl0 \/ is_node nodes0 p -> ~ in_page p b) ->
    load8 (memory s) b = load8 (memory s0) b;
  bl_else : forall va, 0 <= va < MAXVA -> ~ (PGSIZE * k0 <= va < PGSIZE * (k0 + Z.of_nat n)) ->
    live (pte_of (memory s) nodes va) = live (pte_of (memory s0) nodes0 va);
  bl_view : forall va, PGSIZE * k0 <= va < PGSIZE * (k0 + Z.of_nat n) ->
    view (memory s) nodes va = want va;
}.

Lemma building_start : vm_ok end_ s0 fl0 root nodes0 -> PGSIZE * k0 <= MAXVA -> building 0 [] s0 fl0 nodes0.
Proof.
  intros Hv Hm. split; try done.
  - by rewrite Z.add_0_r.
  - apply owned_nil.
  - intros p. set_solver.
  - intros va H. lia.
Qed.

Lemma free_page s fl nodes p : vm_ok end_ s fl root nodes -> p ∈ fl \/ is_node nodes p -> page end_ p.
Proof.
  intros [Hk Hr _] [Hp|[π Hp]]; [|by apply (pr_page _ _ _ _ Hr _ _ Hp)].
  pose proof (chain_pages _ _ _ _ (kr_chain _ _ _ Hk)) as H. rewrite Forall_forall in H. by apply H.
Qed.

Lemma in_frames m nodes n va : PGSIZE * k0 <= va < PGSIZE * (k0 + Z.of_nat n) ->
  flag (pte_of m nodes va) PTE_V = true -> PTE2PA (pte_of m nodes va) ∈ frames m nodes k0 n.
Proof.
  intros Hva Hf. apply elem_of_frames. exists (va / PGSIZE).
  rewrite (pte_of_page m nodes (PGSIZE * (va / PGSIZE)) va) by (rewrite Z.mul_comm; by apply Z.div_mul).
  split; [|done]. unfold PGSIZE in *.
  pose proof (Z.div_mod va 4096 ltac:(lia)). pose proof (Z.mod_pos_bound va 4096 ltac:(lia)). lia.
Qed.

Lemma in_frame m nodes va : in_page (PTE2PA (pte_of m nodes va)) (pa_of m nodes va).
Proof. unfold in_page, pa_of. pose proof (Z.mod_pos_bound va PGSIZE ltac:(done)). lia. Qed.

(** A step that changes only pages outside the range keeps the range. *)
Lemma building_move n h s fl nodes h' s' fl' nodes' :
  building n h s fl nodes -> vm_ok end_ s' fl' root nodes' ->
  (forall va, 0 <= va < MAXVA -> pte_of (memory s') nodes' va = pte_of (memory s) nodes va) ->
  owned fl' nodes' (h' ++ frames (memory s) nodes k0 n) ->
  (forall p, p ∈ fl' \/ is_node nodes' p \/ p ∈ h' <-> p ∈ fl \/ is_node nodes p \/ p ∈ h) ->
  (forall b, (forall p, p ∈ fl \/ is_node nodes p \/ p ∈ h -> ~ in_page p b) ->
     load8 (memory s') b = load8 (memory s) b) ->
  building n h' s' fl' nodes'.
Proof.
  intros B Hv' Hp Ho Hset Hm. pose proof (bl_max _ _ _ _ _ B) as Hmax.
  assert (frames (memory s') nodes' k0 n = frames (memory s) nodes k0 n) as Ef.
  { apply frames_ext. intros i Hi. apply Hp. unfold PGSIZE in *. lia. }
  split; [done|done|..].
  - by rewrite Ef.
  - intros p. rewrite (bl_pages _ _ _ _ _ B p), Ef. specialize (Hset p). tauto.
  - intros b Hb. rewrite Hm; [by apply B|]. intros p Hin. apply Hb, (bl_pages _ _ _ _ _ B p). tauto.
  - intros va Hva Hout. rewrite Hp by done. by apply B.
  - intros va Hva. rewrite <- (bl_view _ _ _ _ _ B va Hva). unfold view, pa_of.
    rewrite Hp by (unfold PGSIZE in *; lia).
    destruct (flag (pte_of (memory s) nodes va) PTE_V) eqn:Ev; [|done]. do 2 f_equal.
    apply Hm. intros p Hin. pose proof (in_frames _ _ _ _ Hva Ev) as Hfr.
    apply (page_disjoint end_ (PTE2PA (pte_of (memory s) nodes va))).
    + apply (ow_page _ _ _ (bl_own _ _ _ _ _ B)). set_solver.
    + destruct Hin as [Hin|[Hin|Hin]]; [eapply free_page; [apply B|by left]|eapply free_page; [apply B|by right]|].
      apply (ow_page _ _ _ (bl_own _ _ _ _ _ B)). set_solver.
    + intros <-. pose proof (bl_own _ _ _ _ _ B) as [Hnd _ Hof Hon]. apply NoDup_app in Hnd as (_ & Hd & _).
      destruct Hin as [Hin|[Hin|Hin]]; [eapply Hof; [|exact Hin]|eapply Hon; [|exact Hin]|by eapply Hd]; set_solver.
    + apply in_frame.
Qed.

(** [kalloc] puts a page in hand. *)
Lemma building_take c n s x fl nodes : cpu_ok c -> unlocked L_kmem c -> building n [] s (x :: fl) nodes ->
  exists s', kalloc c s = Done x c s' /\ building n [x] s' fl nodes /\
    same_but x (memory s) (memory s').
Proof.
  intros Hok Hul B.
  destruct (kalloc_frame end_ c s x fl root nodes end_pos Hok Hul (bl_vm _ _ _ _ _ B))
    as (s' & E & Hv & Hx & Hn & Hs & Hp).
  exists s'. split_and!; [done| |done]. eapply building_move; [exact B|done|done| | |].
  - pose proof (bl_own _ _ _ _ _ B) as [Hnd Hop Hof Hon]. cbn [app] in *.
    pose proof (kr_nodup _ _ _ (vo_kmem _ _ _ _ _ (bl_vm _ _ _ _ _ B))) as [Hxf _]%NoDup_cons. split.
    + apply NoDup_cons. split; [|done]. intros Hin. apply (Hof _ Hin). by left.
    + by intros p [->|Hin]%elem_of_cons; [|apply Hop].
    + intros p [->|Hin]%elem_of_cons; [done|]. intros Hin'. apply (Hof _ Hin). by right.
    + by intros p [->|Hin]%elem_of_cons; [|apply Hon].
  - intros p. rewrite !elem_of_cons, elem_of_nil. tauto.
  - intros b Hb. apply Hs, Hb. left. by left.
Qed.

(** A page in hand may be filled. *)
Lemma building_fill n x s fl nodes m' : building n [x] s fl nodes -> mem_ok m' ->
  same_but x (memory s) m' -> building n [x] (set_memory m' s) fl nodes.
Proof.
  intros B Hm Hs. pose proof (bl_vm _ _ _ _ _ B) as [[Hc Hnd _] Hr Hf].
  pose proof (bl_own _ _ _ _ _ B) as Ho. apply owned_cons in Ho as (Hx & Hxf & Hxn & _).
  pose proof (same_but_nodes _ _ _ _ _ Hr Hx Hxn Hs) as Hns.
  eapply building_move; [exact B| |intros va _; by apply pte_of_same|apply B|done|].
  - split; [|by apply (pt_rep_same end_ nodes (memory s))|done].
    split; [by apply (chain_frame end_ x (memory s))|done|done].
  - intros b Hb. apply Hs, Hb. right; right. by left.
Qed.

(** [kfree] puts the page in hand back. *)
Lemma building_put c n x s fl nodes : cpu_ok c -> unlocked L_kmem c -> building n [x] s fl nodes ->
  exists s', kfree end_ x c s = Done tt c s' /\ building n [] s' (x :: fl) nodes.
Proof.
  intros Hok Hul B. pose proof (owned_cons _ _ _ _ (bl_own _ _ _ _ _ B)) as (Hx & Hxf & Hxn & Ho).
  destruct (kfree_frame c s fl root nodes x Hok Hul (bl_vm _ _ _ _ _ B) Hx Hxf Hxn) as (s' & E & Hv & Hns & Hs).
  exists s'. split; [done|].
  eapply building_move; [exact B|done|intros va _; by apply pte_of_same|done| |].
  - intros p. rewrite !elem_of_cons, elem_of_nil. tauto.
  - intros b Hb. apply Hs, Hb. right; right. by left.
Qed.

(** The table may grow by free pages; with the free list exhausted this is all
    that happened. *)
Lemma building_grow n x s fl nodes s' fl' nodes' : building n [x] s fl nodes ->
  vm_ok end_ s' fl' root nodes' -> grown s fl nodes s' fl' nodes' ->
  (forall va, 0 <= va < MAXVA -> pte_of (memory s') nodes' va = pte_of (memory s) nodes va) ->
  building n [x] s' fl' nodes'.
Proof.
  intros B Hv' G Hp. pose proof (gr_fl _ _ _ _ _ _ G) as (u & -> & Hu).
  eapply building_move; [exact B|done|done| | |].
  - pose proof (bl_own _ _ _ _ _ B) as [Hnd Hop Hof Hon]. split; [done|done| |].
    + intros p Hin Hin'. apply (Hof _ Hin). apply elem_of_app. by right.
    + intros p Hin [Hn|Hn]%Hu; [by apply (Hon _ Hin)|]. apply (Hof _ Hin). apply elem_of_app. by left.
  - intros p. rewrite Hu, elem_of_app. tauto.
  - intros b Hb. apply (gr_mem _ _ _ _ _ _ G). intros p [Hn|Hn]%Hu; apply Hb; [by right; left|].
    left. apply elem_of_app. by left.
Qed.

(** A grown table keeps the bytes of the pages in hand and in the range. *)
Lemma grown_bytes n h s fl nodes s' fl' nodes' p b : building n h s fl nodes ->
  vm_ok end_ s' fl' root nodes' -> grown s fl nodes s' fl' nodes' ->
  p ∈ h ++ frames (memory s) nodes k0 n -> in_page p b -> load8 (memory s') b = load8 (memory s) b.
Proof.
  intros B Hv' G Hp Hb. pose proof (bl_own _ _ _ _ _ B) as [_ Hop Hof Hon].
  apply (gr_mem _ _ _ _ _ _ G). intros q Hq. pose proof (grown_new _ _ _ _ _ _ _ G Hq) as Hq'.
  apply (page_disjoint end_ p q); [by apply Hop|eapply free_page; [exact Hv'|by right]| |done].
  intros ->. destruct Hq' as [Hq'|Hq']; [by apply (Hon q)|by apply (Hof q)].
Qed.

Lemma frames_remap m nodes n x perm m' nodes' : PGSIZE * (k0 + Z.of_nat (S n)) <= MAXVA -> page end_ x ->
  0 <= perm < 1024 -> remap m nodes (PGSIZE * (k0 + Z.of_nat n)) x perm 1 m' nodes' ->
  frames m' nodes' k0 (S n) = frames m nodes k0 n ++ [x].
Proof.
  intros Hmax Hx Hperm Hr. destruct (page_range end_ end_pos x Hx) as (Hx0 & Hxa & _).
  replace (S n) with (n + 1)%nat by lia. rewrite frames_app. f_equal.
  - apply frames_ext. intros i Hi. unfold PGSIZE in *. rewrite Hr by lia.
    rewrite bool_decide_eq_false_2; [done|]. unfold PGSIZE. lia.
  - cbn [frames]. destruct (mk_pte_spec x perm ltac:(lia) Hxa Hperm) as (_ & Hf & Hpa & _).
    assert (pte_of m' nodes' (PGSIZE * (k0 + Z.of_nat n)) = mk_pte x perm) as ->.
    { unfold PGSIZE in *. rewrite Hr by lia. rewrite bool_decide_eq_true_2 by (unfold PGSIZE; lia).
      f_equal. unfold PGSIZE. rewrite (Z.mul_comm 4096), Z.mod_mul by lia. lia. }
    by rewrite Hf, Hpa.
Qed.

(** Mapping the page in hand adds it to the range. *)
Lemma building_map n x s fl nodes perm s' fl' nodes' : building n [x] s fl nodes ->
  PGSIZE * (k0 + Z.of_nat (S n)) <= MAXVA -> 0 <= perm < 1024 ->
  vm_ok end_ s' fl' root nodes' -> grown s fl nodes s' fl' nodes' ->
  remap (memory s) nodes (PGSIZE * (k0 + Z.of_nat n)) x perm 1 (memory s') nodes' ->
  (forall i, 0 <= i < PGSIZE -> want (PGSIZE * (k0 + Z.of_nat n) + i) =
     Some (PTE_FLAGS (mk_pte x perm), load8 (memory s) (x + i))) ->
  building (S n) [] s' fl' nodes'.
Proof.
  intros B Hmax Hperm Hv' G Hr Hw. pose proof (bl_own _ _ _ _ _ B) as [Hnd Hop Hof Hon].
  assert (page end_ x) as Hx by (apply Hop; by left).
  destruct (page_range end_ end_pos x Hx) as (Hx0 & Hxa & _).
  pose proof (frames_remap _ _ _ _ _ _ _ Hmax Hx Hperm Hr) as Hfr.
  pose proof (fun p b => grown_bytes _ _ _ _ _ _ _ _ p b B Hv' G) as Hbytes.
  pose proof (gr_fl _ _ _ _ _ _ G) as (u & Efl & Hu).
  assert (forall p, p ∈ frames (memory s) nodes k0 n ++ [x] <-> p ∈ [x] ++ frames (memory s) nodes k0 n) as Hsw.
  { intros p. rewrite !elem_of_app. tauto. }
  split; [done|done|..].
  - rewrite Hfr. cbn [app]. split.
    + rewrite Permutation_app_comm. exact Hnd.
    + intros p Hp%Hsw. by apply Hop.
    + intros p Hp%Hsw Hin. apply (Hof p Hp). rewrite Efl. apply elem_of_app. by right.
    + intros p Hp%Hsw [Hin|Hin]%Hu; [by apply (Hon p Hp)|]. apply (Hof p Hp). rewrite Efl. apply elem_of_app. by left.
  - intros p. rewrite (bl_pages _ _ _ _ _ B p), Hfr, Efl, Hu, !elem_of_app, elem_of_nil. tauto.
  - intros b Hb. rewrite (gr_mem _ _ _ _ _ _ G); [by apply B|]. intros p Hp. apply Hb, (bl_pages _ _ _ _ _ B p).
    destruct (grown_new _ _ _ _ _ _ _ G Hp); tauto.
  - intros va Hva Hout. rewrite Hr by done. unfold PGSIZE in *.
    rewrite bool_decide_eq_false_2 by lia. apply B; [done|]. unfold PGSIZE. lia.
  - intros va Hva. destruct (decide (PGSIZE * (k0 + Z.of_nat n) <= va)) as [Hge|Hlt].
    + assert (pte_of (memory s') nodes' va = mk_pte x perm) as Ee.
      { unfold PGSIZE in *. rewrite Hr by lia. rewrite bool_decide_eq_true_2 by (unfold PGSIZE; lia). f_equal.
        assert (va mod 4096 = va - 4096 * (k0 + Z.of_nat n)) as Em; [|unfold PGSIZE; lia].
        symmetry. apply Z.mod_unique with (k0 + Z.of_nat n); lia. }
      destruct (mk_pte_spec x perm ltac:(lia) Hxa Hperm) as (_ & Hf & Hpa & _).
      unfold view, pa_of. rewrite Ee, Hf, Hpa.
      assert (va mod PGSIZE = va - PGSIZE * (k0 + Z.of_nat n)) as Em.
      { unfold PGSIZE in *. symmetry. apply Z.mod_unique with (k0 + Z.of_nat n); lia. }
      pose proof (Z.mod_pos_bound va PGSIZE ltac:(done)).
      rewrite (Hbytes x); [|by left|unfold in_page; lia].
      rewrite <- (Hw (va mod PGSIZE)) by lia. f_equal. lia.
    + assert (pte_of (memory s') nodes' va = pte_of (memory s) nodes va) as Ee.
      { unfold PGSIZE in *. rewrite Hr by lia. rewrite bool_decide_eq_false_2; [done|unfold PGSIZE; lia]. }
      assert (PGSIZE * k0 <= va < PGSIZE * (k0 + Z.of_nat n)) as Hva' by lia.
      rewrite <- (bl_view _ _ _ _ _ B va Hva'). unfold view, pa_of. rewrite Ee.
      destruct (flag (pte_of (memory s) nodes va) PTE_V) eqn:Ev; [|done]. do 2 f_equal.
      apply (Hbytes (PTE2PA (pte_of (memory s) nodes va))); [|apply in_frame].
      apply elem_of_app. right. by apply in_frames.
Qed.

(** Pages of the range still to be built are not mapped yet. *)
Lemma building_unmapped n h s fl nodes va : building n h s fl nodes -> 0 <= va < MAXVA ->
  PGSIZE * (k0 + Z.of_nat n) <= va -> flag (pte_of (memory s0) nodes0 va) PTE_V = false ->
  flag (pte_of (memory s) nodes va) PTE_V = false.
Proof.
  intros B Hva Hge Hf. pose proof (bl_else _ _ _ _ _ B va Hva ltac:(lia)) as H. unfold live in H.
  rewrite Hf in H. by destruct (flag (pte_of (memory s) nodes va) PTE_V).
Qed.

(** A page may be left out of the range. *)
Lemma building_skip n h s fl nodes : building n h s fl nodes -> PGSIZE * (k0 + Z.of_nat (S n)) <= MAXVA ->
  (forall i, 0 <= i < PGSIZE -> flag (pte_of (memory s0) nodes0 (PGSIZE * (k0 + Z.of_nat n) + i)) PTE_V = false /\
     want (PGSIZE * (k0 + Z.of_nat n) + i) = None) ->
  building (S n) h s fl nodes.
Proof.
  intros B Hmax Hn.
  assert (forall i, 0 <= i < PGSIZE -> flag (pte_of (memory s) nodes (PGSIZE * (k0 + Z.of_nat n) + i)) PTE_V = false) as Hi.
  { intros i Hi. apply (building_unmapped n h s fl nodes); [done|unfold PGSIZE in *; lia|lia|by apply Hn]. }
  assert (frames (memory s) nodes k0 (S n) = frames (memory s) nodes k0 n) as Ef.
  { replace (S n) with (n + 1)%nat by lia. rewrite frames_app. cbn [frames].
    specialize (Hi 0 ltac:(unfold PGSIZE; lia)). rewrite Z.add_0_r in Hi. rewrite Hi. by rewrite !app_nil_r. }
  destruct B as [Hv _ Ho Hp Hk He Hw]. split; [done|done|by rewrite Ef|by rewrite Ef|done| |].
  - intros va Hva Hout. apply He; [done|]. unfold PGSIZE in *. lia.
  - intros va Hva. destruct (decide (va < PGSIZE * (k0 + Z.of_nat n))) as [Hlt|Hge]; [apply Hw; lia|].
    replace va with (PGSIZE * (k0 + Z.of_nat n) + (va - PGSIZE * (k0 + Z.of_nat n))) by lia.
    unfold view. rewrite Hi by (unfold PGSIZE in *; lia). symmetry. apply Hn. unfold PGSIZE in *. lia.
Qed.

Lemma building_mappages c n x s fl nodes perm : cpu_ok c -> unlocked L_kmem c -> building n [x] s fl nodes ->
  PGSIZE * (k0 + Z.of_nat (S n)) <= MAXVA -> 0 <= perm < 1024 ->
  (forall i, 0 <= i < PGSIZE -> flag (pte_of (memory s0) nodes0 (PGSIZE * (k0 + Z.of_nat n) + i)) PTE_V = false) ->
  (forall i, 0 <= i < PGSIZE -> want (PGSIZE * (k0 + Z.of_nat n) + i) =
     Some (PTE_FLAGS (mk_pte x perm), load8 (memory s) (x + i))) ->
  exists r s' fl' nodes', mappages root (PGSIZE * (k0 + Z.of_nat n)) PGSIZE x perm c s = Done r c s' /\
    (length fl <= length fl' + 2)%nat /\
    (r = 0 /\ building (S n) [] s' fl' nodes' \/ r = -1 /\ fl' = [] /\ building n [x] s' fl' nodes').
Proof.
  intros Hok Hul B Hmax Hperm Hinv Hw.
  pose proof (owned_cons _ _ _ _ (bl_own _ _ _ _ _ B)) as (Hx & _).
  destruct (page_range end_ end_pos x Hx) as (Hx0 & Hxa & Hxe). assert (PHYSTOP < 2 ^ 56) as HP by done.
  destruct (mappages_spec end_ end_pos c s fl root nodes (PGSIZE * (k0 + Z.of_nat n)) PGSIZE x perm Hok Hul (bl_vm _ _ _ _ _ B))
    as (r & s' & fl' & nodes' & j & E & Hv' & G & Hlen & Hr & Hj);
    [done|done|unfold PGSIZE; lia|unfold PGSIZE in *; lia|rewrite Z.mul_comm; by apply Z.mod_mul|lia|lia|done|done| |].
  { intros a Ha. apply (building_unmapped n [x] s fl nodes); [done|unfold PGSIZE in *; lia|lia|].
    replace a with (PGSIZE * (k0 + Z.of_nat n) + (a - PGSIZE * (k0 + Z.of_nat n))) by lia. apply Hinv. lia. }
  exists r, s', fl', nodes'. split; [done|]. split; [rewrite Z.div_same in Hlen by done; lia|].
  destruct Hj as [[-> Hj]|(-> & Hj & ->)]; [left; split; [done|]|right; split_and!; [done|done|]].
  - assert (j = 1%nat) as -> by (unfold PGSIZE in Hj; lia). by apply (building_map n x s fl nodes perm).
  - assert (j = 0%nat) as -> by (unfold PGSIZE in Hj; lia). apply (building_grow n x s fl nodes); [done..|].
    intros va Hva. rewrite Hr by done. rewrite bool_decide_eq_false_2; [done|lia].
Qed.

(** Undoing: unmapping the range gives every frame of it back. *)
Lemma building_undo c n s fl nodes : cpu_ok c -> unlocked L_kmem c -> building n [] s fl nodes ->
  (forall va, PGSIZE * k0 <= va < PGSIZE * (k0 + Z.of_nat n) -> flag (pte_of (memory s0) nodes0 va) PTE_V = false) ->
  exists s' fl', uvmunmap end_ root (PGSIZE * k0) (Z.of_nat n) true c s = Done tt c s' /\
    building 0 [] s' fl' nodes.
Proof.
  intros Hok Hul B Hinv. pose proof (bl_max _ _ _ _ _ B) as Hmax.
  destruct (uvmunmap_spec c s fl root nodes true k0 n Hok Hul (bl_vm _ _ _ _ _ B) k0_pos Hmax (bl_own _ _ _ _ _ B))
    as (s' & E & Hv & Hc & Hk). cbn [freed] in *.
  eexists s', _. split; [exact E|]. split; [exact Hv|unfold PGSIZE in *; lia|apply owned_nil|..].
  - intros p. rewrite (bl_pages _ _ _ _ _ B p), elem_of_app, elem_of_rev, elem_of_nil. cbn [frames].
    rewrite elem_of_nil. tauto.
  - intros b Hb. rewrite Hk; [by apply B|]. intros p Hp. apply Hb, (bl_pages _ _ _ _ _ B p). tauto.
  - intros va Hva _. rewrite (Hc va Hva). case_bool_decide as Hin; [|by apply B].
    assert (live (pte_of (memory s0) nodes0 va) = None) as -> by (unfold live; by rewrite Hinv).
    cbn [andb]. destruct (flag (pte_of (memory s) nodes va) PTE_V) eqn:Ef; [|unfold live; by rewrite Ef].
    unfold live. by rewrite flag_zero.
  - intros va Hva. lia.
Qed.
End Build.

(** ** uvmcopy *)

Lemma flags_mk_pte x perm : page end_ x -> 0 <= perm < 1024 -> PTE_FLAGS (mk_pte x perm) = Z.lor perm PTE_V.
Proof.
  intros Hx Hp. destruct (page_range end_ end_pos x Hx) as (Hx0 & Hxa & _).
  destruct (mk_pte_spec x perm ltac:(lia) Hxa Hp) as (_ & _ & _ & Hl). unfold PTE_FLAGS.
  rewrite Hl by lia. change 0x3FF with (Z.ones 10). rewrite Z.land_ones by lia.
  apply Z.mod_small. by apply lor_low.
Qed.

Lemma flags_valid e : flag e PTE_V = true -> Z.lor (PTE_FLAGS e) PTE_V = PTE_FLAGS e.
Proof.
  intros Hf. apply Z.bits_inj'. intros n Hn. unfold PTE_FLAGS. rewrite Z.lor_spec, Z.land_spec.
  change PTE_V with (Z.ones 1) in *. change 0x3FF with (Z.ones 10).
  destruct (decide (n = 0)) as [->|].
  - unfold flag in Hf. rewrite Z.land_ones in Hf by lia. change (2 ^ 1) with 2 in Hf.
    rewrite Zmod_odd in Hf. rewrite Z.bit0_odd. by destruct (Z.odd e).
  - rewrite (Z.ones_spec_high 1 n) by lia. by rewrite orb_false_r.
Qed.

Lemma flags_range e : 0 <= PTE_FLAGS e < 1024.
Proof. unfold PTE_FLAGS. change 0x3FF with (Z.ones 10). rewrite Z.land_ones by lia. apply Z.mod_pos_bound. lia. Qed.
End UserVm.
