(* ===== verification/Freewalk.v ===== *)
(** * Freeing a page table: freewalk and uvmfree (theorems on Vm.v)

    The nodes of a table form a tree of depth three; [freewalk] frees the
    children of a node before the node itself.  The argument works on the
    subtree below a path, because the pages of a freed node no longer hold
    entries. *)
From stdpp Require Import base numbers list gmap strings.
From S2P Require Import Prelude Kernel Spinlock Str Riscv Kalloc Vm PageTable UserVm.

(** The nodes at and below a path. *)
Definition below (nodes : gmap (list Z) Z) (π : list Z) (p : Z) : Prop :=
  exists π', nodes !! (π ++ π') = Some p.

Section Freewalk.
Variables (end_ : Z) (c : ctx) (nodes : gmap (list Z) Z).
Hypothesis end_pos : 0 < end_.
Hypotheses (Hok : cpu_ok c) (Hul : unlocked L_kmem c).
(** What the shape of the tree gives, whatever memory holds. *)
Hypothesis Hpage : forall π p, nodes !! π = Some p -> page end_ p /\ (length π <= 2)%nat.
Hypothesis Hinj : forall π π' p, nodes !! π = Some p -> nodes !! π' = Some p -> π = π'.
Hypothesis Hclosed : forall π i q, nodes !! (π ++ [i]) = Some q -> is_Some (nodes !! π).

(** The entries of a node: those of its children, and nothing else valid. *)
Definition entry_ok (m : mem) (π : list Z) (p i : Z) : Prop :=
  match nodes !! (π ++ [i]) with
  | Some q => load64 m (p + 8 * i) = Z.lor (PA2PTE q) PTE_V
  | None => flag (load64 m (p + 8 * i)) PTE_V = false
  end.

Definition subtree (m : mem) (π : list Z) : Prop :=
  forall π' p i, nodes !! (π ++ π') = Some p -> 0 <= i < 512 -> entry_ok m (π ++ π') p i.

Lemma below_page π p : below nodes π p -> page end_ p.
Proof. intros [π' H]. by apply (Hpage _ _ H). Qed.

Lemma below_self π p : nodes !! π = Some p -> below nodes π p.
Proof. intros H. exists []. by rewrite app_nil_r. Qed.

Lemma below_child π i p : below nodes (π ++ [i]) p -> below nodes π p.
Proof. intros [π' H]. exists ([i] ++ π'). by rewrite app_assoc. Qed.

(** Paths that disagree lead to different nodes. *)
Lemma below_apart π i j p : i <> j -> below nodes (π ++ [i]) p -> ~ below nodes (π ++ [j]) p.
Proof.
  intros Hne [π1 H1] [π2 H2]. pose proof (Hinj _ _ _ H1 H2) as E.
  rewrite <- !app_assoc in E. apply app_inv_head in E. by injection E.
Qed.

Lemma self_not_below π i p : nodes !! π = Some p -> ~ below nodes (π ++ [i]) p.
Proof.
  intros H [π' H']. pose proof (Hinj _ _ _ H H') as E%(f_equal length). rewrite !length_app in E. simpl in E. lia.
Qed.

Lemma below_some π p : below nodes π p -> is_Some (nodes !! π).
Proof.
  intros [π' H]. revert p H. induction π' as [|i π' IH] using rev_ind; intros p H; [by rewrite app_nil_r in H|].
  rewrite app_assoc in H. apply Hclosed in H as [q H]. by apply (IH q).
Qed.

Lemma subtree_child m π i : subtree m π -> subtree m (π ++ [i]).
Proof. intros H π' p j Hp Hj. rewrite <- app_assoc in *. by apply H. Qed.

Lemma subtree_same m m' π : (forall p b, below nodes π p -> in_page p b -> load8 m' b = load8 m b) ->
  subtree m π -> subtree m' π.
Proof.
  intros Hs H π' p i Hp Hi. specialize (H π' p i Hp Hi). unfold entry_ok in *.
  assert (load64 m' (p + 8 * i) = load64 m (p + 8 * i)) as ->; [|done].
  apply load64_ext. intros a Ha. apply (Hs p); [by exists π'|by eapply in_page_entry].
Qed.

(** [freewalk] on a subtree frees exactly its nodes. *)
Definition frees_below (π : list Z) (s : pmem) (fl : list Z) (s' : pmem) (fl' : list Z) : Prop :=
  kmem_rep end_ s' fl' /\
  (forall q, q ∈ fl' <-> q ∈ fl \/ below nodes π q) /\
  (forall b, (forall q, below nodes π q -> ~ in_page q b) -> load8 (memory s') b = load8 (memory s) b).

Definition freewalk_ok (d : nat) : Prop := forall π p s fl,
  (length π + d = 3)%nat -> nodes !! π = Some p -> subtree (memory s) π -> kmem_rep end_ s fl ->
  (forall q, below nodes π q -> q ∉ fl) ->
  exists s' fl', freewalk end_ d p c s = Done tt c s' /\ frees_below π s fl s' fl'.

Lemma kmem_store s fl p i v : kmem_rep end_ s fl -> page end_ p -> p ∉ fl -> 0 <= i < 512 ->
  kmem_rep end_ (set_memory (store64 (memory s) (p + 8 * i) v) s) fl /\
  same_but p (memory s) (store64 (memory s) (p + 8 * i) v).
Proof.
  intros [Hc Hnd Hm] Hp Hn Hi.
  assert (same_but p (memory s) (store64 (memory s) (p + 8 * i) v)) as Hs.
  { intros b Hb. apply load8_store64_out. unfold in_page, PGSIZE in Hb. lia. }
  split; [|done]. split; [by apply (chain_frame end_ p (memory s))|done|by apply mem_ok_store64].
Qed.

(** One entry of a node. *)
Lemma freewalk_entry d π p i s fl : freewalk_ok d -> (length π + S d = 3)%nat -> nodes !! π = Some p ->
  0 <= i < 512 -> entry_ok (memory s) π p i -> subtree (memory s) (π ++ [i]) -> kmem_rep end_ s fl ->
  p ∉ fl -> (forall q, below nodes (π ++ [i]) q -> q ∉ fl) ->
  exists s' fl', (pte ← ld64 (p + 8 * i);
    if flag pte PTE_V && (Z.land pte (Z.lor (Z.lor PTE_R PTE_W) PTE_X) =? 0) then
      freewalk end_ d (PTE2PA pte);; st64 (p + 8 * i) 0
    else if flag pte PTE_V then panic "freewalk: leaf" else mret tt) c s = Done tt c s' /\
    kmem_rep end_ s' fl' /\
    (forall q, q ∈ fl' <-> q ∈ fl \/ below nodes (π ++ [i]) q) /\
    (forall b, ~ (p + 8 * i <= b < p + 8 * i + 8) -> (forall q, below nodes (π ++ [i]) q -> ~ in_page q b) ->
       load8 (memory s') b = load8 (memory s) b).
Proof.
  intros IH Hd Hp Hi He Hsub Hk Hpf Hdis. unfold entry_ok in He. destruct (Hpage _ _ Hp) as [Hpp _].
  assert (ld64 (p + 8 * i) c s = Done (load64 (memory s) (p + 8 * i)) c s) as Eld by reflexivity.
  rewrite (bind_done _ _ _ _ _ _ _ Eld). clear Eld.
  destruct (nodes !! (π ++ [i])) as [q|] eqn:Eq.
  - destruct (Hpage _ _ Eq) as [Hq Hlen]. destruct (entry_valid end_ end_pos q Hq) as (Hv & Hpa & _).
    destruct (page_range end_ end_pos q Hq) as (Hq0 & Hqa & _).
    rewrite He, Hv, Hpa, (land_pte q PTE_V (Z.lor (Z.lor PTE_R PTE_W) PTE_X)) by (done || lia).
    change (Z.land PTE_V (Z.lor (Z.lor PTE_R PTE_W) PTE_X) =? 0) with true. cbn [andb].
    destruct (IH (π ++ [i]) q s fl) as (s1 & fl1 & E1 & Hk1 & Hfl1 & Hm1);
      [rewrite length_app; simpl; lia|exact Eq|exact Hsub|exact Hk|exact Hdis|].
    assert (p ∉ fl1) as Hpf1.
    { intros [H|H]%Hfl1; [exact (Hpf H)|]. exact (self_not_below _ _ _ Hp H). }
    destruct (kmem_store s1 fl1 p i 0 Hk1 Hpp Hpf1 Hi) as [Hk2 _].
    eexists _, fl1. split; [rewrite (bind_done _ _ _ _ _ _ _ E1); reflexivity|].
    split; [exact Hk2|]. split; [exact Hfl1|]. intros b Hb Hb'. cbn [memory set_memory].
    rewrite load8_store64_out by lia. by apply Hm1.
  - rewrite He. exists s, fl. split_and!; [done|done| |done].
    intros q. split; [by left|]. intros [H|H]; [done|]. apply below_some in H. rewrite Eq in H. by destruct H.
Qed.

Lemma freewalk_entries_spec d π p : freewalk_ok d -> (length π + S d = 3)%nat -> nodes !! π = Some p ->
  forall n i s fl, i + Z.of_nat n = 512 -> 0 <= i ->
  (forall j, i <= j < 512 -> entry_ok (memory s) π p j /\ subtree (memory s) (π ++ [j])) ->
  kmem_rep end_ s fl -> p ∉ fl -> (forall j q, i <= j < 512 -> below nodes (π ++ [j]) q -> q ∉ fl) ->
  exists s' fl', freewalk_entries (freewalk end_ d) n i p c s = Done tt c s' /\ kmem_rep end_ s' fl' /\
    (forall q, q ∈ fl' <-> q ∈ fl \/ exists j, i <= j < 512 /\ below nodes (π ++ [j]) q) /\
    (forall b, ~ in_page p b -> (forall j q, i <= j < 512 -> below nodes (π ++ [j]) q -> ~ in_page q b) ->
       load8 (memory s') b = load8 (memory s) b).
Proof.
  intros IH Hd Hp. destruct (Hpage _ _ Hp) as [Hpp _].
  induction n as [|n IHn]; intros i s fl Hn Hi He Hk Hpf Hdis.
  { exists s, fl. split_and!; [done|done| |done]. intros q. split; [by left|]. intros [H|(j & Hj & _)]; [done|lia]. }
  destruct (He i ltac:(lia)) as [Hei Hsi].
  destruct (freewalk_entry d π p i s fl IH Hd Hp ltac:(lia) Hei Hsi Hk Hpf) as (s1 & fl1 & E1 & Hk1 & Hfl1 & Hm1);
    [intros q Hq; apply (Hdis i q); [lia|done]|].
  destruct (IHn (i + 1) s1 fl1) as (s2 & fl2 & E2 & Hk2 & Hfl2 & Hm2); [lia|lia| |exact Hk1| | |].
  - intros j Hj. destruct (He j ltac:(lia)) as [Hej Hsj]. split.
    + unfold entry_ok in *.
      assert (load64 (memory s1) (p + 8 * j) = load64 (memory s) (p + 8 * j)) as ->; [|done].
      apply load64_ext. intros a Ha. apply Hm1; [lia|]. intros q Hq.
      apply (page_disjoint end_ p q); [done|by eapply below_page| |by apply (in_page_entry p j); lia].
      intros <-. by eapply self_not_below.
    + apply (subtree_same (memory s)); [|done]. intros q b Hq Hb. apply Hm1.
      * intros Hb'. eapply (page_disjoint end_ p q b); [done|by eapply below_page| |apply (in_page_entry p i); lia|done].
        intros <-. by eapply self_not_below.
      * intros q' Hq'. apply (page_disjoint end_ q q'); [by eapply below_page|by eapply below_page| |done].
        intros <-. by apply (below_apart π i j q); [lia|..].
  - intros [H|H]%Hfl1; [done|]. by eapply self_not_below.
  - intros j q Hj Hq [H|H]%Hfl1; [apply (Hdis j q); [lia|done|done]|]. by apply (below_apart π i j q); [lia|..].
  - exists s2, fl2. split; [|split_and!; [done| |]].
    + cbn [freewalk_entries]. rewrite <- bind_assoc, (bind_done _ _ _ _ _ _ _ E1). exact E2.
    + intros q. rewrite Hfl2, Hfl1. split.
      * intros [[H|H]|(j & Hj & H)]; [by left|right; exists i; split; [lia|done]|right; exists j; split; [lia|done]].
      * intros [H|(j & Hj & H)]; [by left; left|]. destruct (Z.eq_dec j i) as [->|]; [by left; right|].
        right. exists j. split; [lia|done].
    + intros b Hb Hb'. rewrite Hm2; [|done|intros j q Hj; apply Hb'; lia]. apply Hm1; [|intros q; apply Hb'; lia].
      intros Hin. apply Hb, (in_page_entry p i); lia.
Qed.

Hypothesis Hidx : forall π i p, nodes !! (π ++ [i]) = Some p -> 0 <= i < 512.

(** The subtree of a node: the node and the subtrees of its entries. *)
Lemma below_cases π p q : nodes !! π = Some p ->
  below nodes π q <-> q = p \/ exists j, 0 <= j < 512 /\ below nodes (π ++ [j]) q.
Proof.
  intros Hp. split.
  - intros [π' H]. destruct π' as [|j π']; [rewrite app_nil_r in H; left; congruence|right].
    exists j. change (j :: π') with ([j] ++ π') in H. rewrite app_assoc in H.
    assert (below nodes (π ++ [j]) q) as Hb by by exists π'. split; [|done].
    apply below_some in Hb as [r Hr]. by apply Hidx in Hr.
  - intros [->|(j & _ & H)]; [by apply below_self|by eapply below_child].
Qed.

Lemma freewalk_all d : freewalk_ok d.
Proof.
  induction d as [|d IH]; intros π p s fl Hd Hp Hsub Hk Hdis.
  { destruct (Hpage _ _ Hp) as [_ ?]. lia. }
  destruct (Hpage _ _ Hp) as [Hpp _].
  destruct (freewalk_entries_spec d π p IH Hd Hp 512 0 s fl) as (s1 & fl1 & E1 & Hk1 & Hfl1 & Hm1);
    [done|lia| |exact Hk|apply Hdis; by apply below_self| |].
  { intros j Hj. split; [|by apply subtree_child]. pose proof (Hsub [] p j) as H. rewrite app_nil_r in H. by apply H. }
  { intros j q _ Hq. by apply Hdis, (below_child π j). }
  assert (p ∉ fl1) as Hpf.
  { intros [H|(j & _ & H)]%Hfl1; [|by eapply self_not_below]. by apply (Hdis p (below_self _ _ Hp)). }
  destruct (kfree_page end_ end_pos c s1 p fl1 Hok Hul Hk1 Hpp Hpf) as (s2 & E2 & Hk2 & Hs2).
  exists s2, (p :: fl1). split; [|split; [exact Hk2|split]].
  - cbn [freewalk]. rewrite (bind_done _ _ _ _ _ _ _ E1). exact E2.
  - intros q. rewrite elem_of_cons, Hfl1, (below_cases π p q Hp). tauto.
  - intros b Hb. rewrite Hs2 by by apply Hb, below_self. apply Hm1; [by apply Hb, below_self|].
    intros j q _ Hq. by apply Hb, (below_child π j).
Qed.
End Freewalk.

(** ** uvmfree *)

(** Every entry of a leaf node is the leaf of some address. *)
Lemma leaf_entry va i : 0 <= va < MAXVA -> 0 <= i < 512 ->
  exists va', 0 <= va' < MAXVA /\ leaf_path va' = leaf_path va /\ PX 0 va' = i.
Proof.
  intros Hva Hi. change MAXVA with (2 ^ 38) in *. exists (va / 2 ^ 21 * 2 ^ 21 + i * 2 ^ 12).
  pose proof (Z.div_mod va (2 ^ 21) ltac:(lia)). pose proof (Z.mod_pos_bound va (2 ^ 21) ltac:(lia)).
  assert (0 <= va / 2 ^ 21) by (apply Z.div_pos; lia).
  assert (va / 2 ^ 21 < 2 ^ 17) by (apply Z.div_lt_upper_bound; lia).
  assert ((va / 2 ^ 21 * 2 ^ 21 + i * 2 ^ 12) / 2 ^ 21 = va / 2 ^ 21) as E1.
  { symmetry. apply Z.div_unique with (i * 2 ^ 12); lia. }
  split; [lia|]. unfold leaf_path. rewrite !PX_eq by lia. change (12 + 9 * 1) with 21. split.
  - change (2 ^ (12 + 9 * 2)) with (2 ^ 21 * 2 ^ 9). rewrite <- !Z.div_div by lia. by rewrite E1.
  - change (12 + 9 * 0) with 12.
    assert ((va / 2 ^ 21 * 2 ^ 21 + i * 2 ^ 12) / 2 ^ 12 = va / 2 ^ 21 * 512 + i) as ->.
    { symmetry. apply Z.div_unique with 0; lia. }
    symmetry. apply Z.mod_unique with (va / 2 ^ 21); lia.
Qed.

Lemma path_index end_ m root nodes π i p : pt_rep end_ m root nodes -> nodes !! (π ++ [i]) = Some p -> 0 <= i < 512.
Proof.
  intros Hr Hp. destruct (pr_path _ _ _ _ Hr _ _ Hp) as (va & _ & [π' E]). unfold leaf_path in E.
  assert (i ∈ [PX 2 va; PX 1 va]) as Hi.
  { rewrite E, <- app_assoc. apply elem_of_app. right. apply elem_of_app. left. by left. }
  apply elem_of_cons in Hi as [->|Hi]; [apply PX_range; lia|].
  apply list_elem_of_singleton in Hi as ->. apply PX_range; lia.
Qed.

(** Without valid leaves the whole tree is interior. *)
Lemma subtree_root end_ m root nodes : pt_rep end_ m root nodes ->
  (forall va, 0 <= va < MAXVA -> flag (pte_of m nodes va) PTE_V = false) -> subtree nodes m [].
Proof.
  intros Hr Hinv π p i Hp Hi. cbn [app] in *. unfold entry_ok.
  destruct (pr_page _ _ _ _ Hr _ _ Hp) as [_ Hlen].
  destruct (decide (length π < 2)%nat) as [Hl|Hl]; [by apply (pr_entry _ _ _ _ Hr)|].
  destruct (nodes !! (π ++ [i])) as [q|] eqn:Eq.
  { destruct (pr_page _ _ _ _ Hr _ _ Eq) as [_ Hl']. rewrite length_app in Hl'. simpl in Hl'. lia. }
  destruct (pr_path _ _ _ _ Hr _ _ Hp) as (va & Hva & [π' E]).
  destruct (leaf_entry va i Hva Hi) as (va' & Hva' & El & E0). specialize (Hinv va' Hva').
  assert (π' = []) as ->.
  { pose proof (f_equal length E) as Hlen'. rewrite length_app in Hlen'. simpl in Hlen'.
    destruct π'; [done|]. simpl in Hlen'. lia. }
  rewrite app_nil_r in E. unfold pte_of in Hinv. rewrite El, E, Hp, E0 in Hinv. exact Hinv.
Qed.

Lemma freewalk_spec end_ c s fl root nodes :
  0 < end_ -> cpu_ok c -> unlocked L_kmem c -> vm_ok end_ s fl root nodes ->
  (forall va, 0 <= va < MAXVA -> flag (pte_of (memory s) nodes va) PTE_V = false) ->
  exists s' fl', freewalk end_ 3 root c s = Done tt c s' /\ kmem_rep end_ s' fl' /\
    (forall q, q ∈ fl' <-> q ∈ fl \/ is_node nodes q) /\ kept_but nodes [] (memory s) (memory s').
Proof.
  intros He Hok Hul [Hk Hr Hf] Hinv.
  destruct (freewalk_all end_ c nodes He Hok Hul (pr_page _ _ _ _ Hr) (pr_inj _ _ _ _ Hr) (pr_closed _ _ _ _ Hr)
    (fun π i p => path_index end_ _ root nodes π i p Hr) 3 [] root s fl) as (s' & fl' & E & Hk' & Hfl & Hm);
    [done|apply (pr_root _ _ _ _ Hr)|by apply (subtree_root end_ _ root)|done|intros q [π Hq]; by apply (Hf π)|].
  exists s', fl'. split_and!; [done|done|done|]. intros b Hb. apply Hm. intros q Hq. apply Hb. by left.
Qed.

Lemma uvmfree_spec end_ c s fl root nodes sz n :
  0 < end_ -> cpu_ok c -> unlocked L_kmem c -> vm_ok end_ s fl root nodes ->
  covers n sz -> PGSIZE * Z.of_nat n <= MAXVA -> owned end_ fl nodes (frames (memory s) nodes 0 n) ->
  (forall va, PGSIZE * Z.of_nat n <= va < MAXVA -> flag (pte_of (memory s) nodes va) PTE_V = false) ->
  exists s' fl', uvmfree end_ root sz c s = Done tt c s' /\ kmem_rep end_ s' fl' /\
    (forall q, q ∈ fl' <-> q ∈ fl \/ is_node nodes q \/ q ∈ frames (memory s) nodes 0 n) /\
    kept_but nodes (frames (memory s) nodes 0 n) (memory s) (memory s').
Proof.
  intros He Hok Hul Hv Hc Hmax Ho Hinv. unfold uvmfree. destruct (Z.ltb_spec 0 sz) as [Hsz|Hsz]; cbn [kwhen].
  - destruct (uvmunmap_spec end_ He c s fl root nodes true 0 n Hok Hul Hv ltac:(lia) Hmax Ho) as (s1 & E1 & Hv1 & Hc1 & Hk1).
    cbn [freed] in *.
    destruct (freewalk_spec end_ c s1 _ root nodes He Hok Hul Hv1) as (s2 & fl2 & E2 & Hk2 & Hfl2 & Hm2).
    { intros va Hva. rewrite (Hc1 va Hva). change (0 + Z.of_nat n) with (Z.of_nat n). rewrite Z.mul_0_r.
      destruct (decide (va < PGSIZE * Z.of_nat n)) as [Hlt|Hge].
      - rewrite bool_decide_eq_true_2 by lia. cbn [andb].
        destruct (flag (pte_of (memory s) nodes va) PTE_V) eqn:Ef; [apply flag_zero|done].
      - rewrite bool_decide_eq_false_2 by lia. apply Hinv. lia. }
    exists s2, fl2. split_and!; [|done| |].
    + rewrite (covers_roundup n sz Hc Hmax), (Z.mul_comm PGSIZE), Z.div_mul by done.
      rewrite Z.mul_0_r in E1. rewrite (bind_done _ _ _ _ _ _ _ E1). exact E2.
    + intros q. rewrite Hfl2, elem_of_app, elem_of_rev. tauto.
    + intros b Hb. rewrite Hm2; [by apply Hk1|]. intros p [Hp|Hp%elem_of_nil]; [apply Hb; by left|done].
  - assert (n = 0%nat) as -> by (unfold covers, PGSIZE in *; lia). cbn [frames].
    destruct (freewalk_spec end_ c s fl root nodes He Hok Hul Hv) as (s2 & fl2 & E2 & Hk2 & Hfl2 & Hm2);
      [intros va Hva; apply Hinv; lia|].
    exists s2, fl2. split_and!; [exact E2|done| |done]. intros q. rewrite Hfl2, elem_of_nil. tauto.
Qed.
