(* ===== verification/UserSpace.v ===== *)
(** * The address-space operations: uvmcopy, uvmalloc, uvmfree (theorems on Vm.v)

    An address space is what [view] shows: at each virtual address the
    permission bits and the byte.  [uvmcopy] gives the child the view of the
    parent, [uvmalloc] extends a view with zeros, [uvmfree] returns every page;
    each accounts for all the pages it took. *)
From stdpp Require Import base numbers list gmap strings.
From S2P Require Import Prelude Kernel Spinlock Str Riscv Kalloc Vm PageTable UserVm Freewalk.

Section UserSpace.
Variables (end_ : Z) (c : ctx).
Hypothesis end_pos : 0 < end_.
Hypotheses (Hok : cpu_ok c) (Hul : unlocked L_kmem c).

Section Copy.
Variables (old new sz : Z) (nodesO : gmap (list Z) Z).
Variables (s0 : pmem) (fl0 : list Z) (nodes0 : gmap (list Z) Z) (np : nat).
Hypothesis Hsz : covers np sz.
Hypothesis Hmax : PGSIZE * Z.of_nat np <= MAXVA.
Hypothesis Hold : pt_rep end_ (memory s0) old nodesO.
Hypothesis Hv0 : vm_ok end_ s0 fl0 new nodes0.
Hypothesis Hempty : forall va, 0 <= va < PGSIZE * Z.of_nat np -> flag (pte_of (memory s0) nodes0 va) PTE_V = false.
Hypothesis Hapart : forall p, is_node nodesO p \/ p ∈ frames (memory s0) nodesO 0 np ->
  page end_ p /\ p ∉ fl0 /\ ~ is_node nodes0 p.

Let B := building end_ new 0 s0 fl0 nodes0 (view (memory s0) nodesO).

(** All pages built, or none and few free pages to start with. *)
Let outcome (r : Z) (s' : pmem) (fl' : list Z) (nodes' : gmap (list Z) Z) : Prop :=
  r = 0 /\ B np [] s' fl' nodes' \/
  r = -1 /\ (length fl0 <= 3 * np)%nat /\ B 0 [] s' fl' nodes'.

(** The pages of the parent keep their contents. *)
Lemma old_bytes n h s fl nodes p b : B n h s fl nodes ->
  is_node nodesO p \/ p ∈ frames (memory s0) nodesO 0 np -> in_page p b ->
  load8 (memory s) b = load8 (memory s0) b.
Proof.
  intros HB Hp Hb. destruct (Hapart p Hp) as (Hpp & Hpf & Hpn).
  apply (bl_kept _ _ _ _ _ _ _ _ _ _ _ _ HB). intros q Hq.
  apply (page_disjoint end_ p q); [done|by eapply free_page| |done].
  intros ->. by destruct Hq.
Qed.

Lemma old_same n h s fl nodes : B n h s fl nodes -> nodes_same nodesO (memory s0) (memory s).
Proof. intros HB p b Hp Hb. eapply old_bytes; [exact HB|by left|exact Hb]. Qed.

(** The view of page [n] of the parent. *)
Lemma old_page n i : (n < np)%nat -> 0 <= i < PGSIZE ->
  let e := pte_of (memory s0) nodesO (PGSIZE * Z.of_nat n) in
  view (memory s0) nodesO (PGSIZE * Z.of_nat n + i) =
  if flag e PTE_V then Some (PTE_FLAGS e, load8 (memory s0) (PTE2PA e + i)) else None.
Proof.
  intros Hn Hi e. unfold view, pa_of. unfold PGSIZE in *.
  assert ((4096 * Z.of_nat n + i) / 4096 = (4096 * Z.of_nat n) / 4096) as Ed.
  { rewrite (Z.mul_comm 4096), Z.div_mul by lia. symmetry. apply Z.div_unique with i; lia. }
  rewrite (pte_of_page _ nodesO _ _ Ed). fold e.
  replace ((4096 * Z.of_nat n + i) mod 4096) with i; [done|]. apply Z.mod_unique with (Z.of_nat n); lia.
Qed.

Lemma undo n s fl nodes : B n [] s fl nodes -> (n <= np)%nat ->
  exists s' fl', (uvmunmap end_ new 0 (PGSIZE * Z.of_nat n / PGSIZE) true;; mret (-1)) c s = Done (-1) c s' /\
    B 0 [] s' fl' nodes.
Proof.
  intros HB Hn.
  destruct (building_undo end_ end_pos new 0 s0 fl0 nodes0 _ ltac:(lia) c n s fl nodes Hok Hul HB)
    as (s' & fl' & E & HB').
  { intros va Hva. apply Hempty. unfold PGSIZE in *. lia. }
  exists s', fl'. split; [|exact HB'].
  rewrite (Z.mul_comm PGSIZE), Z.div_mul by done. by rewrite (bind_done _ _ _ _ _ _ _ E).
Qed.

Lemma copy_fill n x s fl nodes : B n [x] s fl nodes -> (n < np)%nat ->
  let e := pte_of (memory s0) nodesO (PGSIZE * Z.of_nat n) in
  let m' := memmove (memory s) x (PTE2PA e) PGSIZE in
  flag e PTE_V = true -> B n [x] (set_memory m' s) fl nodes /\
  forall i, 0 <= i < PGSIZE -> view (memory s0) nodesO (PGSIZE * (0 + Z.of_nat n) + i) =
    Some (PTE_FLAGS (mk_pte x (PTE_FLAGS e)), load8 m' (x + i)).
Proof.
  intros HB Hn e m' He. pose proof (kr_mem _ _ _ (vo_kmem _ _ _ _ _ (bl_vm _ _ _ _ _ _ _ _ _ _ _ _ HB))) as Hm.
  pose proof (owned_cons _ _ _ _ _ (bl_own _ _ _ _ _ _ _ _ _ _ _ _ HB)) as (Hx & _).
  assert (forall a, load8 m' a = if bool_decide (x <= a < x + PGSIZE)
    then load8 (memory s) (PTE2PA e + (a - x)) else load8 (memory s) a) as Hl.
  { intros a. apply load8_memmove; [done|]. unfold in_u, PGSIZE. lia. }
  split.
  - apply building_fill; [done|lia|exact HB|by apply mem_ok_memmove|]. intros a Ha. rewrite Hl.
    by rewrite bool_decide_eq_false_2.
  - intros i Hi. change (0 + Z.of_nat n) with (Z.of_nat n). rewrite old_page by done. fold e. rewrite He.
    rewrite (flags_mk_pte end_) by (done || apply flags_range). rewrite flags_valid by done.
    rewrite Hl, bool_decide_eq_true_2 by lia. do 2 f_equal. replace (x + i - x) with i by lia.
    symmetry. apply (old_bytes n [x] s fl nodes (PTE2PA e)); [exact HB|right|unfold in_page; lia].
    apply elem_of_frames. exists (Z.of_nat n). split; [lia|done].
Qed.

(** The body of the loop for a mapped page. *)
Lemma copy_round n s fl nodes (next : K pmem Z) : B n [] s fl nodes -> (n < np)%nat ->
  let i := PGSIZE * Z.of_nat n in
  let e := pte_of (memory s0) nodesO i in
  flag e PTE_V = true ->
  (forall j, 0 <= j < PGSIZE -> flag (pte_of (memory s0) nodes0 (PGSIZE * (0 + Z.of_nat n) + j)) PTE_V = false) ->
  (length fl0 <= length fl + 3 * n)%nat ->
  (forall s1 fl1 nodes1, B (S n) [] s1 fl1 nodes1 -> (length fl0 <= length fl1 + 3 * S n)%nat ->
     exists r s' fl' nodes', next c s1 = Done r c s' /\ outcome r s' fl' nodes') ->
  exists r s' fl' nodes',
    (m ← kalloc;
     if m =? 0 then uvmunmap end_ new 0 (i / PGSIZE) true;; mret (-1)
     else kmemmove m (PTE2PA e) PGSIZE;;
       r ← mappages new i PGSIZE m (PTE_FLAGS e);
       if negb (r =? 0) then kfree end_ m;; uvmunmap end_ new 0 (i / PGSIZE) true;; mret (-1)
       else next) c s = Done r c s' /\
    outcome r s' fl' nodes'.
Proof.
  intros HB Hn i e He Hinv Hlen Hnext. destruct fl as [|x fl].
  - rewrite (bind_done _ _ _ _ _ _ _ (kalloc_empty end_ c s Hok Hul (vo_kmem _ _ _ _ _ (bl_vm _ _ _ _ _ _ _ _ _ _ _ _ HB)))).
    destruct (undo n s [] nodes HB ltac:(lia)) as (s' & fl' & E & HB'). exists (-1), s', fl', nodes.
    split; [exact E|right]. simpl in Hlen. split_and!; [done|lia|done].
  - destruct (building_take end_ end_pos new 0 s0 fl0 nodes0 _ ltac:(lia) c n s x fl nodes Hok Hul HB) as (s1 & E1 & HB1 & _).
    rewrite (bind_done _ _ _ _ _ _ _ E1).
    pose proof (owned_cons _ _ _ _ _ (bl_own _ _ _ _ _ _ _ _ _ _ _ _ HB1)) as (Hx & _).
    pose proof (page_pos end_ end_pos x Hx). rewrite (proj2 (Z.eqb_neq x 0)) by lia.
    destruct (copy_fill n x s1 fl nodes HB1 Hn He) as (HB2 & Hw). fold i e in HB2, Hw.
    set (s2 := set_memory _ s1) in HB2.
    assert (kmemmove x (PTE2PA e) PGSIZE c s1 = Done tt c s2) as E2 by reflexivity.
    rewrite (bind_done _ _ _ _ _ _ _ E2).
    destruct (building_mappages end_ end_pos new 0 s0 fl0 nodes0 _ ltac:(lia) c n x s2 fl nodes (PTE_FLAGS e) Hok Hul HB2)
      as (r & s3 & fl3 & n3 & E3 & Hl3 & Hr); [unfold PGSIZE in *; lia|apply flags_range|exact Hinv|exact Hw|].
    change (0 + Z.of_nat n) with (Z.of_nat n) in E3. fold i in E3. rewrite (bind_done _ _ _ _ _ _ _ E3).
    simpl in Hlen. destruct Hr as [[-> HB3]|(-> & Efl & HB3)]; cbn [negb Z.eqb]; [apply (Hnext s3 fl3 n3); [exact HB3|lia]|].
    destruct (building_put end_ end_pos new 0 s0 fl0 nodes0 _ ltac:(lia) c n x s3 fl3 n3 Hok Hul HB3) as (s4 & E4 & HB4).
    rewrite (bind_done _ _ _ _ _ _ _ E4).
    destruct (undo n s4 (x :: fl3) n3 HB4 ltac:(lia)) as (s' & fl' & E & HB'). exists (-1), s', fl', n3.
    split; [exact E|right]. rewrite Efl in Hl3. simpl in Hl3. split; [reflexivity|split; [lia|exact HB']].
Qed.

Lemma uvmcopy_loop_spec j : forall n s fl nodes fuel, B n [] s fl nodes -> (n + j = np)%nat -> (j <= fuel)%nat ->
  (length fl0 <= length fl + 3 * n)%nat ->
  exists r s' fl' nodes', uvmcopy_loop end_ fuel old new sz (PGSIZE * Z.of_nat n) c s = Done r c s' /\
    outcome r s' fl' nodes'.
Proof.
  assert (MAXVA < 2 ^ 63) as HM by done.
  induction j as [|j IH]; intros n s fl nodes fuel HB Hn Hf Hlen.
  { assert (n = np) as -> by lia. exists 0, s, fl, nodes. split; [|by left].
    unfold covers in Hsz. destruct fuel; cbn [uvmcopy_loop]; rewrite (proj2 (Z.leb_le _ _)) by (unfold PGSIZE in *; lia); done. }
  destruct fuel as [|fuel]; [lia|].
  set (next := uvmcopy_loop end_ fuel old new sz (PGSIZE * Z.of_nat (S n))).
  set (copy := fun (pte e : Z) => m ← kalloc;
    if m =? 0 then uvmunmap end_ new 0 (PGSIZE * Z.of_nat n / PGSIZE) true;; mret (-1)
    else kmemmove m (PTE2PA e) PGSIZE;;
      r ← mappages new (PGSIZE * Z.of_nat n) PGSIZE m (PTE_FLAGS e);
      if negb (r =? 0) then kfree end_ m;; uvmunmap end_ new 0 (PGSIZE * Z.of_nat n / PGSIZE) true;; mret (-1)
      else next : K pmem Z).
  assert (uvmcopy_loop end_ (S fuel) old new sz (PGSIZE * Z.of_nat n) c s =
    (pte ← walk old (PGSIZE * Z.of_nat n) false;
     if pte =? 0 then next else e ← ld64 pte; if negb (flag e PTE_V) then next else copy pte e) c s) as ->.
  { cbn [uvmcopy_loop]. rewrite (proj2 (Z.leb_gt _ _)) by (unfold covers, PGSIZE in *; lia).
    rewrite u_small by (unfold PGSIZE in *; lia).
    by replace (PGSIZE * Z.of_nat n + PGSIZE) with (PGSIZE * Z.of_nat (S n)) by lia. }
  assert (forall i, 0 <= i < PGSIZE -> flag (pte_of (memory s0) nodes0 (PGSIZE * (0 + Z.of_nat n) + i)) PTE_V = false) as Hinv.
  { intros i Hi. apply Hempty. unfold PGSIZE in *. lia. }
  pose proof (old_same _ _ _ _ _ HB) as Hs.
  pose proof (pt_rep_same end_ nodesO _ _ old Hs Hold) as Hr.
  pose proof (pte_of_same nodesO _ _ (PGSIZE * Z.of_nat n) Hs) as Ee.
  destruct (flag (pte_of (memory s) nodesO (PGSIZE * Z.of_nat n)) PTE_V) eqn:Ef.
  - destruct (walk_valid end_ end_pos c s old nodesO (PGSIZE * Z.of_nat n) next copy) as (p & _ & ->);
      [unfold PGSIZE in *; lia|done|done|].
    unfold copy. rewrite Ee in Ef |- *.
    apply (copy_round n s fl nodes); [exact HB|lia|exact Ef|exact Hinv|done|]. intros s1 fl1 n1 HB1 Hl1. eapply IH; [exact HB1|lia|lia|exact Hl1].
  - rewrite (walk_invalid end_ end_pos c s old nodesO (PGSIZE * Z.of_nat n) next copy);
      [|unfold PGSIZE in *; lia|done|done].
    eapply (IH (S n) s fl nodes); [|lia|lia|lia]. eapply building_skip; [lia|exact HB|unfold PGSIZE in *; lia|].
    intros i Hi. split; [by apply Hinv|]. change (0 + Z.of_nat n) with (Z.of_nat n).
    rewrite (old_page n i) by (done || lia). by rewrite <- Ee, Ef.
Qed.

(** The parent sees what it saw. *)
Lemma parent_kept n h s fl nodes : B n h s fl nodes -> pt_rep end_ (memory s) old nodesO /\
  forall va, 0 <= va < PGSIZE * Z.of_nat np -> view (memory s) nodesO va = view (memory s0) nodesO va.
Proof.
  intros HB. pose proof (old_same _ _ _ _ _ HB) as Hs. split; [by apply (pt_rep_same end_ nodesO (memory s0))|].
  intros va Hva. unfold view, pa_of. rewrite (pte_of_same nodesO _ _ va Hs).
  destruct (flag (pte_of (memory s0) nodesO va) PTE_V) eqn:Ef; [|done]. do 2 f_equal.
  eapply old_bytes; [exact HB|right; apply (in_frames 0); [|exact Ef]|apply in_frame].
  unfold PGSIZE in *. lia.
Qed.

Lemma uvmcopy_spec : exists r s' fl' nodes', uvmcopy end_ old new sz c s0 = Done r c s' /\
  (r = 0 /\ B np [] s' fl' nodes' \/ r = -1 /\ (length fl0 <= 3 * np)%nat /\ B 0 [] s' fl' nodes').
Proof.
  unfold uvmcopy. change 0 with (PGSIZE * Z.of_nat 0) at 1.
  apply (uvmcopy_loop_spec np 0 s0 fl0 nodes0); [|lia| |lia].
  - apply building_start; [done|lia|done|unfold PGSIZE in *; lia].
  - unfold covers, PGSIZE in *. assert (Z.of_nat np - 1 <= sz / 4096); [|lia].
    apply Z.div_le_lower_bound; lia.
Qed.
End Copy.

(** ** uvmalloc *)

Section Grow.
Variables (root xperm newsz k0 : Z) (s0 : pmem) (fl0 : list Z) (nodes0 : gmap (list Z) Z) (np : nat).
Hypothesis k0_pos : 0 <= k0.
Hypothesis Hsz : PGSIZE * (k0 + Z.of_nat np - 1) < newsz <= PGSIZE * (k0 + Z.of_nat np).
Hypothesis Hmax : PGSIZE * (k0 + Z.of_nat np) <= MAXVA.
Hypothesis Hperm : 0 <= xperm < 1024.
Hypothesis Hv0 : vm_ok end_ s0 fl0 root nodes0.
Hypothesis Hempty : forall va, PGSIZE * k0 <= va < PGSIZE * (k0 + Z.of_nat np) ->
  flag (pte_of (memory s0) nodes0 va) PTE_V = false.

Definition grow_perm : Z := Z.lor (Z.lor (Z.lor PTE_R PTE_U) xperm) PTE_V.
Definition zeros (va : Z) : option (Z * Z) := Some (grow_perm, 0).
Let B := building end_ root k0 s0 fl0 nodes0 zeros.

Lemma dealloc_undo n s fl nodes : B n [] s fl nodes -> (n <= np)%nat ->
  exists s' fl', (uvmdealloc end_ root (PGSIZE * (k0 + Z.of_nat n)) (PGSIZE * k0);; mret 0) c s = Done 0 c s' /\
    B 0 [] s' fl' nodes.
Proof.
  intros HB Hn. assert (MAXVA < 2 ^ 39) as HM by done. unfold uvmdealloc.
  destruct (Z.leb_spec (PGSIZE * (k0 + Z.of_nat n)) (PGSIZE * k0)) as [Hle|Hgt].
  { assert (n = 0%nat) as -> by (unfold PGSIZE in *; lia). by exists s, fl. }
  assert (forall k, 0 <= k -> PGSIZE * k <= MAXVA -> PGROUNDUP (PGSIZE * k) = PGSIZE * k) as Hru.
  { intros k Hk Hkm. apply PGROUNDUP_aligned; [unfold PGSIZE in *; lia|]. rewrite Z.mul_comm. by apply Z.mod_mul. }
  rewrite !Hru by (unfold PGSIZE in *; lia). rewrite (proj2 (Z.ltb_lt _ _)) by lia. cbn [kwhen].
  assert (u64 (i32 (u64 (PGSIZE * (k0 + Z.of_nat n) - PGSIZE * k0) / PGSIZE)) = Z.of_nat n) as ->.
  { replace (PGSIZE * (k0 + Z.of_nat n) - PGSIZE * k0) with (Z.of_nat n * PGSIZE) by lia. unfold PGSIZE in *.
    rewrite (u_small 64 (Z.of_nat n * 4096)), Z.div_mul by lia.
    rewrite s_small, u_small; [done|lia|done|unfold in_s; lia]. }
  destruct (building_undo end_ end_pos root k0 s0 fl0 nodes0 _ k0_pos c n s fl nodes Hok Hul HB) as (s' & fl' & E & HB').
  { intros va Hva. apply Hempty. unfold PGSIZE in *. lia. }
  exists s', fl'. split; [|exact HB']. unfold mbind, K_bind. by rewrite E.
Qed.

Lemma grow_fill n x s fl nodes : B n [x] s fl nodes ->
  let s' := set_memory (memset (memory s) x 0 PGSIZE) s in
  B n [x] s' fl nodes /\
  forall va i, 0 <= i < PGSIZE -> zeros va =
    Some (PTE_FLAGS (mk_pte x (Z.lor (Z.lor PTE_R PTE_U) xperm)), load8 (memory s') (x + i)).
Proof.
  intros HB s'. pose proof (kr_mem _ _ _ (vo_kmem _ _ _ _ _ (bl_vm _ _ _ _ _ _ _ _ _ _ _ _ HB))) as Hm.
  pose proof (owned_cons _ _ _ _ _ (bl_own _ _ _ _ _ _ _ _ _ _ _ _ HB)) as (Hx & _). split.
  - apply building_fill; [done|lia|exact HB|by apply mem_ok_memset|apply same_but_memset].
  - intros va i Hi. rewrite (flags_mk_pte end_) by (done || by apply lor_low).
    unfold s'. cbn [memory set_memory]. rewrite load8_memset by (unfold in_u, PGSIZE; lia). by rewrite bool_decide_eq_true_2 by lia.
Qed.

Let outcome (r : Z) (s' : pmem) (fl' : list Z) (nodes' : gmap (list Z) Z) : Prop :=
  r = newsz /\ B np [] s' fl' nodes' \/
  r = 0 /\ (length fl0 <= 3 * np)%nat /\ B 0 [] s' fl' nodes'.

Lemma uvmalloc_loop_spec j : forall n s fl nodes fuel, B n [] s fl nodes -> (n + j = np)%nat -> (j <= fuel)%nat ->
  (length fl0 <= length fl + 3 * n)%nat ->
  exists r s' fl' nodes',
    uvmalloc_loop end_ fuel root (PGSIZE * (k0 + Z.of_nat n)) (PGSIZE * k0) newsz xperm c s = Done r c s' /\
    outcome r s' fl' nodes'.
Proof.
  assert (MAXVA < 2 ^ 63) as HM by done.
  assert (0 <= Z.lor (Z.lor PTE_R PTE_U) xperm < 1024) as Hp by by apply lor_low.
  induction j as [|j IH]; intros n s fl nodes fuel HB Hn Hf Hlen.
  { assert (n = np) as -> by lia. exists newsz, s, fl, nodes. split; [|by left].
    destruct fuel; cbn [uvmalloc_loop]; rewrite (proj2 (Z.leb_le _ _)) by lia; done. }
  destruct fuel as [|fuel]; [lia|]. cbn [uvmalloc_loop].
  rewrite (proj2 (Z.leb_gt _ _)) by (unfold PGSIZE in *; lia). rewrite u_small by (unfold PGSIZE in *; lia).
  replace (PGSIZE * (k0 + Z.of_nat n) + PGSIZE) with (PGSIZE * (k0 + Z.of_nat (S n))) by lia.
  destruct fl as [|x fl]; simpl in Hlen.
  - rewrite (bind_done _ _ _ _ _ _ _ (kalloc_empty end_ c s Hok Hul (vo_kmem _ _ _ _ _ (bl_vm _ _ _ _ _ _ _ _ _ _ _ _ HB)))).
    destruct (dealloc_undo n s [] nodes HB ltac:(lia)) as (s' & fl' & E & HB'). exists 0, s', fl', nodes.
    split; [exact E|right]. split_and!; [done|lia|done].
  - destruct (building_take end_ end_pos root k0 s0 fl0 nodes0 _ k0_pos c n s x fl nodes Hok Hul HB) as (s1 & E1 & HB1 & _).
    rewrite (bind_done _ _ _ _ _ _ _ E1).
    pose proof (owned_cons _ _ _ _ _ (bl_own _ _ _ _ _ _ _ _ _ _ _ _ HB1)) as (Hx & _).
    pose proof (page_pos end_ end_pos x Hx). rewrite (proj2 (Z.eqb_neq x 0)) by lia.
    destruct (grow_fill n x s1 fl nodes HB1) as (HB2 & Hw). set (s2 := set_memory _ s1) in HB2.
    assert (kmemset x 0 PGSIZE c s1 = Done tt c s2) as E2 by reflexivity. rewrite (bind_done _ _ _ _ _ _ _ E2).
    destruct (building_mappages end_ end_pos root k0 s0 fl0 nodes0 _ k0_pos c n x s2 fl nodes
      (Z.lor (Z.lor PTE_R PTE_U) xperm) Hok Hul HB2) as (r & s3 & fl3 & n3 & E3 & Hl3 & Hr);
      [unfold PGSIZE in *; lia|exact Hp|intros i Hi; apply Hempty; unfold PGSIZE in *; lia|intros i Hi; exact (Hw _ i Hi)|].
    rewrite (bind_done _ _ _ _ _ _ _ E3).
    destruct Hr as [[-> HB3]|(-> & Efl & HB3)]; cbn [negb Z.eqb]; [apply (IH (S n) s3 fl3 n3); [exact HB3|lia|lia|lia]|].
    destruct (building_put end_ end_pos root k0 s0 fl0 nodes0 _ k0_pos c n x s3 fl3 n3 Hok Hul HB3) as (s4 & E4 & HB4).
    rewrite (bind_done _ _ _ _ _ _ _ E4).
    destruct (dealloc_undo n s4 (x :: fl3) n3 HB4 ltac:(lia)) as (s' & fl' & E & HB'). exists 0, s', fl', n3.
    split; [exact E|right]. rewrite Efl in Hl3. simpl in Hl3. split; [reflexivity|split; [lia|exact HB']].
Qed.

(** Memory the process already has keeps its view. *)
Lemma rest_kept n s fl nodes : B n [] s fl nodes ->
  owned end_ fl0 nodes0 (frames (memory s0) nodes0 0 (Z.to_nat k0)) ->
  forall va, 0 <= va < PGSIZE * k0 -> view (memory s) nodes va = view (memory s0) nodes0 va.
Proof.
  intros HB Ho va Hva.
  assert (0 <= va < MAXVA) as Hva' by (unfold PGSIZE in *; lia).
  pose proof (bl_else _ _ _ _ _ _ _ _ _ _ _ _ HB va Hva' ltac:(lia)) as Hl. unfold live in Hl. unfold view, pa_of.
  destruct (flag (pte_of (memory s0) nodes0 va) PTE_V) eqn:Ef;
    destruct (flag (pte_of (memory s) nodes va) PTE_V) eqn:Ef'; [|congruence|congruence|done].
  injection Hl as ->. do 2 f_equal. apply (bl_kept _ _ _ _ _ _ _ _ _ _ _ _ HB). intros q Hq.
  assert (PTE2PA (pte_of (memory s0) nodes0 va) ∈ frames (memory s0) nodes0 0 (Z.to_nat k0)) as Hin.
  { apply (in_frames 0); [|done]. unfold PGSIZE in *. lia. }
  apply (page_disjoint end_ (PTE2PA (pte_of (memory s0) nodes0 va))).
  - by apply (ow_page _ _ _ _ Ho).
  - by eapply free_page.
  - intros <-. destruct Hq as [Hq|Hq]; [by eapply (ow_free _ _ _ _ Ho)|by eapply (ow_node _ _ _ _ Ho)].
  - apply in_frame.
Qed.
End Grow.

Lemma uvmalloc_spec root xperm oldsz newsz s fl nodes k np :
  covers k oldsz -> oldsz <= newsz -> (k <= np)%nat -> covers np newsz -> PGSIZE * Z.of_nat np <= MAXVA ->
  0 <= xperm < 1024 -> vm_ok end_ s fl root nodes ->
  (forall va, PGSIZE * Z.of_nat k <= va < PGSIZE * Z.of_nat np -> flag (pte_of (memory s) nodes va) PTE_V = false) ->
  exists r s' fl' nodes', uvmalloc end_ root oldsz newsz xperm c s = Done r c s' /\
    (r = newsz /\ building end_ root (Z.of_nat k) s fl nodes (zeros xperm) (np - k) [] s' fl' nodes' \/
     r = 0 /\ (length fl <= 3 * (np - k))%nat /\ building end_ root (Z.of_nat k) s fl nodes (zeros xperm) 0 [] s' fl' nodes').
Proof.
  intros Hk Hle Hkn Hn Hmax Hperm Hv Hinv. unfold uvmalloc. rewrite (proj2 (Z.ltb_ge _ _)) by lia.
  rewrite (covers_roundup k oldsz Hk) by (unfold PGSIZE in *; lia).
  destruct (uvmalloc_loop_spec root xperm newsz (Z.of_nat k) s fl nodes (np - k)) with
    (j := (np - k)%nat) (n := 0%nat) (s := s) (fl := fl) (nodes := nodes)
    (fuel := Z.to_nat ((newsz - PGSIZE * Z.of_nat k) / PGSIZE + 1)) as (r & s' & fl' & nodes' & E & Ho);
    [lia|unfold covers, PGSIZE in *; lia|unfold PGSIZE in *; lia|done| | |lia| |lia|].
  - intros va Hva. apply Hinv. unfold PGSIZE in *. lia.
  - apply building_start; [done|lia|done|unfold PGSIZE in *; lia].
  - assert (Z.of_nat (np - k) - 1 <= (newsz - PGSIZE * Z.of_nat k) / PGSIZE); [|lia].
    apply Z.div_le_lower_bound; [done|]. unfold covers, PGSIZE in *. lia.
  - rewrite Z.add_0_r in E. by exists r, s', fl', nodes'.
Qed.
End UserSpace.

(** The pages that were free or nodes of a table are the ones that are free,
    nodes, or in [l] now; they are in one place each. *)
Record accounted (end_ : Z) (fl : list Z) (nodes : gmap (list Z) Z)
    (fl' : list Z) (nodes' : gmap (list Z) Z) (l : list Z) : Prop := {
  ac_pages : forall p, p ∈ fl \/ is_node nodes p <-> p ∈ fl' \/ is_node nodes' p \/ p ∈ l;
  ac_own : owned end_ fl' nodes' l;
}.

Lemma building_accounted end_ root k0 s0 fl0 nodes0 want n s fl nodes :
  building end_ root k0 s0 fl0 nodes0 want n [] s fl nodes ->
  accounted end_ fl0 nodes0 fl nodes (frames (memory s) nodes k0 n).
Proof.
  intros B. split; [|exact (bl_own _ _ _ _ _ _ _ _ _ _ _ _ B)].
  intros p. rewrite (bl_pages _ _ _ _ _ _ _ _ _ _ _ _ B p), elem_of_nil. tauto.
Qed.

Lemma unmapped_view m nodes va e : live (pte_of m nodes va) = live e -> flag e PTE_V = false -> view m nodes va = None.
Proof. unfold live, view. intros H Hf. rewrite Hf in H. by destruct (flag (pte_of m nodes va) PTE_V). Qed.

(** C9: [uvmcopy] gives the child the parent's address space: it returns, and
    either the child sees at every address of the process the permissions and
    the byte the parent sees, in frames of its own, or memory ran out (which
    needs at most three free pages per page copied), -1 is returned and the
    child has no page of the range mapped.  In both cases the parent sees what
    it saw, the rest of the child's table is as before, memory outside the
    pages that were free or the child's nodes is unchanged, and every page
    taken is accounted for: it is a frame of the copy or a page-table node of
    the child.  On the error path all the frames are free again; the nodes
    that mappages took stay in the child's table, and are freed with it
    (C8). *)
Theorem uvmcopy_copies_space end_ c old new sz np nodesO s fl nodes :
  0 < end_ -> cpu_ok c -> unlocked L_kmem c -> covers np sz -> PGSIZE * Z.of_nat np <= MAXVA ->
  pt_rep end_ (memory s) old nodesO -> vm_ok end_ s fl new nodes ->
  (forall va, 0 <= va < PGSIZE * Z.of_nat np -> flag (pte_of (memory s) nodes va) PTE_V = false) ->
  (forall p, is_node nodesO p \/ p ∈ frames (memory s) nodesO 0 np ->
     page end_ p /\ p ∉ fl /\ ~ is_node nodes p) ->
  exists r s' fl' nodes', uvmcopy end_ old new sz c s = Done r c s' /\
    vm_ok end_ s' fl' new nodes' /\ pt_rep end_ (memory s') old nodesO /\
    (forall va, 0 <= va < PGSIZE * Z.of_nat np -> view (memory s') nodesO va = view (memory s) nodesO va) /\
    (forall va, PGSIZE * Z.of_nat np <= va < MAXVA ->
       live (pte_of (memory s') nodes' va) = live (pte_of (memory s) nodes va)) /\
    (forall b, (forall p, p ∈ fl \/ is_node nodes p -> ~ in_page p b) ->
       load8 (memory s') b = load8 (memory s) b) /\
    (r = 0 /\
       (forall va, 0 <= va < PGSIZE * Z.of_nat np -> view (memory s') nodes' va = view (memory s) nodesO va) /\
       accounted end_ fl nodes fl' nodes' (frames (memory s') nodes' 0 np) \/
     r = -1 /\ (length fl <= 3 * np)%nat /\
       (forall va, 0 <= va < PGSIZE * Z.of_nat np -> view (memory s') nodes' va = None) /\
       accounted end_ fl nodes fl' nodes' []).
Proof.
  intros He Hok Hul Hsz Hmax Hold Hv Hempty Hapart.
  destruct (uvmcopy_spec end_ c He Hok Hul old new sz nodesO s fl nodes np Hsz Hmax Hold Hv Hempty Hapart)
    as (r & s' & fl' & nodes' & E & Ho). exists r, s', fl', nodes'. split; [exact E|]. clear E.
  destruct Ho as [[-> B]|(-> & Hlen & B)].
  - destruct (parent_kept end_ old new nodesO s fl nodes np Hold Hv Hapart _ _ _ _ _ B) as [Hp1 Hp2].
    split_and!; [apply B|exact Hp1|exact Hp2| |apply B|left; split_and!; [done| |by eapply building_accounted]].
    + intros va Hva. apply B; unfold PGSIZE in *; lia.
    + intros va Hva. apply B. unfold PGSIZE in *; lia.
  - destruct (parent_kept end_ old new nodesO s fl nodes np Hold Hv Hapart _ _ _ _ _ B) as [Hp1 Hp2].
    split_and!; [apply B|exact Hp1|exact Hp2| |apply B|right; split_and!; [done|exact Hlen| |by apply building_accounted in B]].
    + intros va Hva. apply B; unfold PGSIZE in *; lia.
    + intros va Hva. eapply unmapped_view; [apply B|by apply Hempty]; unfold PGSIZE in *; lia.
Qed.

(** C10: [uvmalloc] grows a process: it returns, and either the new pages are
    mapped with the permissions asked for and read as zeros, or memory ran out
    (which needs at most three free pages per page), 0 is returned and none of
    them is mapped.  In both cases the process keeps what it saw below the old
    size, the leaves above are as before, and every page taken is accounted for:
    it is the frame of a new page or a page-table node.  On the error path all
    the frames are free again; the nodes that mappages took stay in the table.
    A request to shrink changes nothing. *)
Theorem uvmalloc_grows_space end_ c root xperm oldsz newsz k np s fl nodes :
  0 < end_ -> cpu_ok c -> unlocked L_kmem c -> covers k oldsz -> (k <= np)%nat -> covers np newsz ->
  PGSIZE * Z.of_nat np <= MAXVA -> 0 <= xperm < 1024 -> vm_ok end_ s fl root nodes ->
  owned end_ fl nodes (frames (memory s) nodes 0 k) ->
  (forall va, PGSIZE * Z.of_nat k <= va < PGSIZE * Z.of_nat np -> flag (pte_of (memory s) nodes va) PTE_V = false) ->
  (newsz < oldsz -> uvmalloc end_ root oldsz newsz xperm c s = Done oldsz c s) /\
  (oldsz <= newsz -> exists r s' fl' nodes', uvmalloc end_ root oldsz newsz xperm c s = Done r c s' /\
    vm_ok end_ s' fl' root nodes' /\
    (forall va, 0 <= va < PGSIZE * Z.of_nat k -> view (memory s') nodes' va = view (memory s) nodes va) /\
    (forall va, PGSIZE * Z.of_nat np <= va < MAXVA ->
       live (pte_of (memory s') nodes' va) = live (pte_of (memory s) nodes va)) /\
    (r = newsz /\
       (forall va, PGSIZE * Z.of_nat k <= va < PGSIZE * Z.of_nat np ->
          view (memory s') nodes' va = Some (Z.lor (Z.lor (Z.lor PTE_R PTE_U) xperm) PTE_V, 0)) /\
       accounted end_ fl nodes fl' nodes' (frames (memory s') nodes' (Z.of_nat k) (np - k)) \/
     r = 0 /\ (length fl <= 3 * (np - k))%nat /\
       (forall va, PGSIZE * Z.of_nat k <= va < PGSIZE * Z.of_nat np -> view (memory s') nodes' va = None) /\
       accounted end_ fl nodes fl' nodes' [])).
Proof.
  intros He Hok Hul Hk Hkn Hn Hmax Hperm Hv Ho Hinv. split.
  { intros Hlt. unfold uvmalloc. by rewrite (proj2 (Z.ltb_lt _ _) Hlt). }
  intros Hle. destruct (uvmalloc_spec end_ c He Hok Hul root xperm oldsz newsz s fl nodes k np Hk Hle Hkn Hn Hmax Hperm Hv Hinv)
    as (r & s' & fl' & nodes' & E & Hr). exists r, s', fl', nodes'. split; [exact E|]. clear E.
  rewrite <- (Nat2Z.id k) in Ho.
  assert (forall m, building end_ root (Z.of_nat k) s fl nodes (zeros xperm) m [] s' fl' nodes' ->
    forall va, 0 <= va < PGSIZE * Z.of_nat k -> view (memory s') nodes' va = view (memory s) nodes va) as Hkeep.
  { intros m B. apply (rest_kept end_ root xperm (Z.of_nat k) s fl nodes (np - k)) with (n := m) (fl := fl');
      [unfold PGSIZE in *; lia|exact Hv|exact B|exact Ho]. }
  destruct Hr as [[-> B]|(-> & Hlen & B)].
  - split_and!; [apply B|exact (Hkeep _ B)| |left; split_and!; [done| |by eapply building_accounted]].
    + intros va Hva. apply B; unfold PGSIZE in *; lia.
    + intros va Hva. apply B. unfold PGSIZE in *; lia.
  - split_and!; [apply B|exact (Hkeep _ B)| |right; split_and!; [done|exact Hlen| |by apply building_accounted in B]].
    + intros va Hva. apply B; unfold PGSIZE in *; lia.
    + intros va Hva. eapply unmapped_view; [apply B|by apply Hinv]; unfold PGSIZE in *; lia.
Qed.

(** ** A process with one page, for the witnesses *)

Definition end24 : Z := PHYSTOP - 24 * PGSIZE.
Definition heap24 : pmem :=
  match kinit end24 ctx0 (PMem ∅ 0) with Done _ _ s => s | _ => PMem ∅ 0 end.

Lemma heap24_rep : kmem_rep end24 heap24 (rev (pages_from end24 24)).
Proof.
  destruct (kinit_spec end24 ctx0 ∅) as (c' & s' & E & _ & _ & Hr);
    [by vm_compute|exact ctx0_ok|apply mem_ok_empty|].
  unfold heap24. rewrite E. exact Hr.
Qed.

#[global] Opaque heap24.

Lemma one_page : exists s fl root nodes,
  vm_ok end24 s fl root nodes /\ (20 <= length fl)%nat /\ owned end24 fl nodes (frames (memory s) nodes 0 1) /\
  flag (pte_of (memory s) nodes 0) PTE_V = true /\
  (forall va, PGSIZE <= va < MAXVA -> flag (pte_of (memory s) nodes va) PTE_V = false).
Proof.
  assert (0 <= Z.lor (Z.lor PTE_R PTE_W) PTE_U < 1024) as Hperm by done.
  assert (0 < end24) as He by done. assert (PGSIZE < MAXVA) as HPM by done.
  pose proof heap24_rep as Hk0. assert (length (rev (pages_from end24 24)) = 24%nat) as Hl0 by done.
  destruct (rev (pages_from end24 24)) as [|x1 [|x2 fl]] eqn:Efl; [done|done|]. simpl in Hl0.
  destruct (uvmcreate_spec end24 He ctx0 heap24 x1 (x2 :: fl) ctx0_ok ctx0_unlocked Hk0) as (s1 & E1 & Hv1 & Hp1 & _).
  destruct (kalloc_frame end24 ctx0 s1 x2 fl x1 _ He ctx0_ok ctx0_unlocked Hv1) as (s2 & E2 & Hv2 & Hx & Hnx & _ & Hp2).
  clear E1 E2. destruct (page_range end24 He x2 Hx) as (Hx0 & Hxa & Hxe). assert (PHYSTOP < 2 ^ 56) as HP by done.
  destruct (mappages_spec end24 He ctx0 s2 fl x1 _ 0 PGSIZE x2 (Z.lor (Z.lor PTE_R PTE_W) PTE_U)
    ctx0_ok ctx0_unlocked Hv2) as (r & s3 & fl3 & n3 & j & E3 & Hv3 & Hg3 & Hlen & Hr3 & Hj);
    [done|done|done|done|done|lia|lia|done|done|intros a _; by rewrite Hp2, Hp1, flag_zero|].
  clear E3. rewrite Z.div_same in Hlen by done.
  assert (j = 1%nat) as ->.
  { destruct Hj as [[_ Hj]|(_ & _ & Hj)]; [unfold PGSIZE in Hj; lia|]. rewrite Hj in Hlen. simpl in Hlen. lia. }
  assert (remap (memory s2) {[ [] := x1 ]} (PGSIZE * (0 + Z.of_nat 0)) x2 (Z.lor (Z.lor PTE_R PTE_W) PTE_U) 1 (memory s3) n3) as Hr by exact Hr3.
  exists s3, fl3, x1, n3. split; [exact Hv3|]. split; [lia|].
  pose proof (frames_remap end24 He 0 ltac:(lia) (memory s2) _ 0 x2 _ (memory s3) n3 ltac:(unfold PGSIZE in *; lia) Hx Hperm Hr) as Hfr.
  pose proof (kr_nodup _ _ _ (vo_kmem _ _ _ _ _ Hv1)) as [Hx2 _]%NoDup_cons.
  split_and!.
  - rewrite Hfr. cbn [frames app]. split; [apply NoDup_singleton|..]; intros p ->%list_elem_of_singleton; [done| |].
    + destruct (gr_fl _ _ _ _ _ _ Hg3) as (u & Eu & _). intros Hin. apply Hx2. rewrite Eu. apply elem_of_app. by right.
    + intros Hin. destruct (grown_new _ _ _ _ _ _ _ Hg3 Hin) as [H|H]; [exact (Hnx H)|exact (Hx2 H)].
  - rewrite Hr3 by (unfold PGSIZE in *; lia). rewrite bool_decide_eq_true_2 by (unfold PGSIZE; lia).
    by apply mk_pte_spec; [rewrite Z.mod_0_l by done; lia|rewrite Z.mod_0_l by done; replace (x2 + (0 - 0 - 0)) with x2 by lia|].
  - intros va Hva. rewrite Hr3 by (unfold PGSIZE in *; lia). rewrite bool_decide_eq_false_2 by (unfold PGSIZE in *; lia).
    by rewrite Hp2, Hp1, flag_zero.
Qed.

Lemma covers_page : covers 1 PGSIZE.
Proof. unfold covers, PGSIZE. lia. Qed.

Lemma uvmcopy_copies_space_witness : exists s s' old new nodesO nodes',
  uvmcopy end24 old new PGSIZE ctx0 s = Done 0 ctx0 s' /\
  (forall va, 0 <= va < PGSIZE -> view (memory s') nodes' va = view (memory s) nodesO va) /\
  is_Some (view (memory s) nodesO 0).
Proof.
  destruct one_page as (s & fl & old & nodesO & Hv & Hlen & Ho & Hf & _). assert (0 < end24) as He by reflexivity.
  destruct fl as [|x fl]; [simpl in Hlen; lia|]. simpl in Hlen.
  destruct (uvmcreate_spec end24 He ctx0 s x fl ctx0_ok ctx0_unlocked (vo_kmem _ _ _ _ _ Hv)) as (s1 & E1 & Hv1 & Hp1 & Hs1).
  clear E1. pose proof (vo_pt _ _ _ _ _ Hv) as Hr.
  assert (page end24 x) as Hx.
  { apply (pr_page _ _ _ _ (vo_pt _ _ _ _ _ Hv1) []), lookup_singleton_eq. }
  assert (~ is_node nodesO x) as Hnx by (intros [π H]; apply (vo_free _ _ _ _ _ Hv _ _ H); left).
  pose proof (same_but_nodes end24 _ _ _ _ _ Hr Hx Hnx Hs1) as Hns.
  assert (frames (memory s1) nodesO 0 1 = frames (memory s) nodesO 0 1) as Efr.
  { apply frames_ext. intros i _. by apply pte_of_same. }
  destruct (uvmcopy_copies_space end24 ctx0 old x PGSIZE 1 nodesO s1 fl {[ [] := x ]} He ctx0_ok ctx0_unlocked covers_page)
    as (r & s2 & fl2 & n2 & E2 & _ & _ & _ & _ & _ & Hres);
    [discriminate|exact (pt_rep_same end24 nodesO _ _ old Hns Hr)|exact Hv1|intros va _; rewrite Hp1; apply flag_zero| |].
  - intros p Hp. rewrite Efr in Hp.
    assert (page end24 p /\ p ∉ x :: fl) as [Hpp Hpf].
    { destruct Hp as [[π H]|H]; [split; [exact (proj1 (pr_page _ _ _ _ Hr _ _ H))|exact (vo_free _ _ _ _ _ Hv _ _ H)]|].
      split; [exact (ow_page _ _ _ _ Ho p H)|exact (ow_free _ _ _ _ Ho p H)]. }
    apply not_elem_of_cons in Hpf as [Hne Hpf]. split; [exact Hpp|]. split; [exact Hpf|].
    intros [π H]. apply lookup_singleton_Some in H as [_ H]. by apply Hne.
  - destruct Hres as [(Er & Hc & _)|(_ & Hl & _)]; [|lia]. subst r.
    exists s1, s2, old, x, nodesO, n2. split; [exact E2|]. split; [intros va Hva; apply Hc; unfold PGSIZE in *; lia|].
    unfold view. rewrite (pte_of_same nodesO _ _ 0 Hns), Hf. eexists. reflexivity.
Defined.

Lemma uvmalloc_grows_space_witness : exists s s' root nodes',
  uvmalloc end24 root PGSIZE (3 * PGSIZE - 1) PTE_W ctx0 s = Done (3 * PGSIZE - 1) ctx0 s' /\
  view (memory s') nodes' (2 * PGSIZE + 5) = Some (Z.lor (Z.lor (Z.lor PTE_R PTE_U) PTE_W) PTE_V, 0).
Proof.
  destruct one_page as (s & fl & root & nodes & Hv & Hlen & Ho & _ & Hinv). assert (0 < end24) as He by reflexivity.
  assert (PGSIZE * 3 <= MAXVA) as Hm by discriminate.
  destruct (uvmalloc_grows_space end24 ctx0 root PTE_W PGSIZE (3 * PGSIZE - 1) 1 3 s fl nodes He ctx0_ok ctx0_unlocked covers_page)
    as [_ H]; [lia|unfold covers, PGSIZE; lia|exact Hm|split; [discriminate|reflexivity]|exact Hv|exact Ho| |].
  - intros va Hva. apply Hinv. unfold PGSIZE in *. lia.
  - destruct (H ltac:(discriminate)) as (r & s' & fl' & n' & E & _ & _ & _ & Hres).
    destruct Hres as [(Er & Hz & _)|(_ & Hl & _)]; [|simpl in Hl; lia]. subst r.
    exists s, s', root, n'. split; [exact E|]. apply Hz. unfold PGSIZE. lia.
Defined.
