(* ===== verification/Kstate.v ===== *)
(** * The kernel's state (proc.h, file.h, fs.h, and the statics of the .c files)

    One record holds what the kernel keeps in memory above the page allocator
    and the log: the process table, the open files, the pipes, the inode table,
    the superblock, the console and the clock.  Table entries are named by their
    index; a pointer that may be null is an option. *)
From stdpp Require Import base numbers list gmap strings.
From S2P Require Import Prelude Kernel Spinlock Sleeplock Riscv Kalloc Vm Bio Log.

(** ** Processes *)

Inductive procstate := UNUSED | USED | SLEEPING | RUNNABLE | RUNNING | ZOMBIE.
#[global] Instance procstate_eq_dec : EqDecision procstate.
Proof. solve_decision. Defined.

Definition NOFILE : Z := 16.

(** [struct proc] without its lock; [p_ra] and [p_sp] are the two registers of
    the saved context that kernel code sets. *)
Record proc := Proc {
  p_state : procstate;
  p_chan : option chan;
  p_killed : Z;
  p_xstate : Z;
  p_pid : Z;
  p_parent : option Z;
  p_kstack : Z;
  p_sz : Z;
  p_pagetable : Z;
  p_trapframe : Z;
  p_ra : Z;
  p_sp : Z;
  p_ofile : list (option Z);
  p_cwd : option Z;
  p_name : list Z;
}.
Definition proc0 : proc :=
  Proc UNUSED None 0 0 0 None 0 0 0 0 0 0 (replicate 16 None) None (replicate 16 0).

Section ProcSetters.
Variable p : proc.
Definition set_pstate (x : procstate) : proc :=
  Proc x (p_chan p) (p_killed p) (p_xstate p) (p_pid p) (p_parent p) (p_kstack p) (p_sz p)
    (p_pagetable p) (p_trapframe p) (p_ra p) (p_sp p) (p_ofile p) (p_cwd p) (p_name p).
Definition set_pchan (x : option chan) : proc :=
  Proc (p_state p) x (p_killed p) (p_xstate p) (p_pid p) (p_parent p) (p_kstack p) (p_sz p)
    (p_pagetable p) (p_trapframe p) (p_ra p) (p_sp p) (p_ofile p) (p_cwd p) (p_name p).
Definition set_pkilled (x : Z) : proc :=
  Proc (p_state p) (p_chan p) x (p_xstate p) (p_pid p) (p_parent p) (p_kstack p) (p_sz p)
    (p_pagetable p) (p_trapframe p) (p_ra p) (p_sp p) (p_ofile p) (p_cwd p) (p_name p).
Definition set_pxstate (x : Z) : proc :=
  Proc (p_state p) (p_chan p) (p_killed p) x (p_pid p) (p_parent p) (p_kstack p) (p_sz p)
    (p_pagetable p) (p_trapframe p) (p_ra p) (p_sp p) (p_ofile p) (p_cwd p) (p_name p).
Definition set_ppid (x : Z) : proc :=
  Proc (p_state p) (p_chan p) (p_killed p) (p_xstate p) x (p_parent p) (p_kstack p) (p_sz p)
    (p_pagetable p) (p_trapframe p) (p_ra p) (p_sp p) (p_ofile p) (p_cwd p) (p_name p).
Definition set_pparent (x : option Z) : proc :=
  Proc (p_state p) (p_chan p) (p_killed p) (p_xstate p) (p_pid p) x (p_kstack p) (p_sz p)
    (p_pagetable p) (p_trapframe p) (p_ra p) (p_sp p) (p_ofile p) (p_cwd p) (p_name p).
Definition set_pkstack (x : Z) : proc :=
  Proc (p_state p) (p_chan p) (p_killed p) (p_xstate p) (p_pid p) (p_parent p) x (p_sz p)
    (p_pagetable p) (p_trapframe p) (p_ra p) (p_sp p) (p_ofile p) (p_cwd p) (p_name p).
Definition set_psz (x : Z) : proc :=
  Proc (p_state p) (p_chan p) (p_killed p) (p_xstate p) (p_pid p) (p_parent p) (p_kstack p) x
    (p_pagetable p) (p_trapframe p) (p_ra p) (p_sp p) (p_ofile p) (p_cwd p) (p_name p).
Definition set_ppagetable (x : Z) : proc :=
  Proc (p_state p) (p_chan p) (p_killed p) (p_xstate p) (p_pid p) (p_parent p) (p_kstack p) (p_sz p)
    x (p_trapframe p) (p_ra p) (p_sp p) (p_ofile p) (p_cwd p) (p_name p).
Definition set_ptrapframe (x : Z) : proc :=
  Proc (p_state p) (p_chan p) (p_killed p) (p_xstate p) (p_pid p) (p_parent p) (p_kstack p) (p_sz p)
    (p_pagetable p) x (p_ra p) (p_sp p) (p_ofile p) (p_cwd p) (p_name p).
Definition set_pcontext (ra sp : Z) : proc :=
  Proc (p_state p) (p_chan p) (p_killed p) (p_xstate p) (p_pid p) (p_parent p) (p_kstack p) (p_sz p)
    (p_pagetable p) (p_trapframe p) ra sp (p_ofile p) (p_cwd p) (p_name p).
Definition set_pofile (x : list (option Z)) : proc :=
  Proc (p_state p) (p_chan p) (p_killed p) (p_xstate p) (p_pid p) (p_parent p) (p_kstack p) (p_sz p)
    (p_pagetable p) (p_trapframe p) (p_ra p) (p_sp p) x (p_cwd p) (p_name p).
Definition set_pcwd (x : option Z) : proc :=
  Proc (p_state p) (p_chan p) (p_killed p) (p_xstate p) (p_pid p) (p_parent p) (p_kstack p) (p_sz p)
    (p_pagetable p) (p_trapframe p) (p_ra p) (p_sp p) (p_ofile p) x (p_name p).
Definition set_pname (x : list Z) : proc :=
  Proc (p_state p) (p_chan p) (p_killed p) (p_xstate p) (p_pid p) (p_parent p) (p_kstack p) (p_sz p)
    (p_pagetable p) (p_trapframe p) (p_ra p) (p_sp p) (p_ofile p) (p_cwd p) x.
End ProcSetters.

(** ** Files, pipes and inodes *)

Inductive ftype := FD_NONE | FD_PIPE | FD_INODE | FD_DEVICE.
#[global] Instance ftype_eq_dec : EqDecision ftype.
Proof. solve_decision. Defined.

Record file := File {
  f_type : ftype;
  f_ref : Z;
  f_readable : bool;
  f_writable : bool;
  f_pipe : Z;        (* FD_PIPE: address of the pipe's page *)
  f_ip : Z;          (* FD_INODE and FD_DEVICE: index in the inode table *)
  f_off : Z;         (* FD_INODE *)
  f_major : Z;       (* FD_DEVICE *)
}.
Definition file0 : file := File FD_NONE 0 false false 0 0 0 0.

(** [struct pipe] without its lock. *)
Record pipe := Pipe {
  pi_data : list Z;
  pi_nread : Z;
  pi_nwrite : Z;
  pi_readopen : bool;
  pi_writeopen : bool;
}.
Definition PIPESIZE : Z := 512.

Definition NDIRECT : Z := 12.
(** [struct inode]: the in-memory copy of an on-disk inode. *)
Record inode := Inode {
  i_dev : Z;
  i_inum : Z;
  i_ref : Z;
  i_lock : sleeplock;
  i_valid : bool;
  i_type : Z;
  i_major : Z;
  i_minor : Z;
  i_nlink : Z;
  i_size : Z;
  i_addrs : list Z;
}.
Definition inode0 : inode := Inode 0 0 0 (Sleeplock 0 0) false 0 0 0 0 0 (replicate 13 0).

Record superblock := SuperBlock {
  sb_magic : Z; sb_size : Z; sb_nblocks : Z; sb_ninodes : Z;
  sb_nlog : Z; sb_logstart : Z; sb_inodestart : Z; sb_bmapstart : Z;
}.

(** ** The console and the UART *)

Record console := Console {
  cn_buf : list Z;
  cn_r : Z;          (* Read index *)
  cn_w : Z;          (* Write index *)
  cn_e : Z;          (* Edit index *)
}.

(** ** All of it *)

Record kst := Kst {
  k_mem : pmem;
  k_log : lst;
  k_sb : superblock;
  k_itable : gmap Z inode;
  k_ftable : gmap Z file;
  k_pipes : gmap Z pipe;
  k_procs : gmap Z proc;
  k_nextpid : Z;
  k_initproc : Z;
  k_cons : console;
  k_tx_busy : bool;
  k_ticks : Z;
}.

Section Parts.
Variable s : kst.
Definition set_kmem (x : pmem) : kst :=
  Kst x (k_log s) (k_sb s) (k_itable s) (k_ftable s) (k_pipes s) (k_procs s) (k_nextpid s)
    (k_initproc s) (k_cons s) (k_tx_busy s) (k_ticks s).
Definition set_klog (x : lst) : kst :=
  Kst (k_mem s) x (k_sb s) (k_itable s) (k_ftable s) (k_pipes s) (k_procs s) (k_nextpid s)
    (k_initproc s) (k_cons s) (k_tx_busy s) (k_ticks s).
Definition set_ksb (x : superblock) : kst :=
  Kst (k_mem s) (k_log s) x (k_itable s) (k_ftable s) (k_pipes s) (k_procs s) (k_nextpid s)
    (k_initproc s) (k_cons s) (k_tx_busy s) (k_ticks s).
Definition set_kitable (x : gmap Z inode) : kst :=
  Kst (k_mem s) (k_log s) (k_sb s) x (k_ftable s) (k_pipes s) (k_procs s) (k_nextpid s)
    (k_initproc s) (k_cons s) (k_tx_busy s) (k_ticks s).
Definition set_kftable (x : gmap Z file) : kst :=
  Kst (k_mem s) (k_log s) (k_sb s) (k_itable s) x (k_pipes s) (k_procs s) (k_nextpid s)
    (k_initproc s) (k_cons s) (k_tx_busy s) (k_ticks s).
Definition set_kpipes (x : gmap Z pipe) : kst :=
  Kst (k_mem s) (k_log s) (k_sb s) (k_itable s) (k_ftable s) x (k_procs s) (k_nextpid s)
    (k_initproc s) (k_cons s) (k_tx_busy s) (k_ticks s).
Definition set_kprocs (x : gmap Z proc) : kst :=
  Kst (k_mem s) (k_log s) (k_sb s) (k_itable s) (k_ftable s) (k_pipes s) x (k_nextpid s)
    (k_initproc s) (k_cons s) (k_tx_busy s) (k_ticks s).
Definition set_knextpid (x : Z) : kst :=
  Kst (k_mem s) (k_log s) (k_sb s) (k_itable s) (k_ftable s) (k_pipes s) (k_procs s) x
    (k_initproc s) (k_cons s) (k_tx_busy s) (k_ticks s).
Definition set_kinitproc (x : Z) : kst :=
  Kst (k_mem s) (k_log s) (k_sb s) (k_itable s) (k_ftable s) (k_pipes s) (k_procs s) (k_nextpid s)
    x (k_cons s) (k_tx_busy s) (k_ticks s).
Definition set_kcons (x : console) : kst :=
  Kst (k_mem s) (k_log s) (k_sb s) (k_itable s) (k_ftable s) (k_pipes s) (k_procs s) (k_nextpid s)
    (k_initproc s) x (k_tx_busy s) (k_ticks s).
Definition set_ktx (x : bool) : kst :=
  Kst (k_mem s) (k_log s) (k_sb s) (k_itable s) (k_ftable s) (k_pipes s) (k_procs s) (k_nextpid s)
    (k_initproc s) (k_cons s) x (k_ticks s).
Definition set_kticks (x : Z) : kst :=
  Kst (k_mem s) (k_log s) (k_sb s) (k_itable s) (k_ftable s) (k_pipes s) (k_procs s) (k_nextpid s)
    (k_initproc s) (k_cons s) (k_tx_busy s) x.
End Parts.

(** Paths to the parts that have code of their own. *)
Definition memA : acc kst pmem := Acc k_mem (fun x s => set_kmem s x).
Definition logA : acc kst lst := Acc k_log (fun x s => set_klog s x).
Definition kbioA : acc kst bio :=
  Acc (fun s => l_bio (k_log s)) (fun x s => set_klog s (Lst x (l_log (k_log s)))).

#[global] Instance memA_ok : AccOk memA.
Proof. split; [done| |done]. by intros []. Qed.
#[global] Instance logA_ok : AccOk logA.
Proof. split; [done| |done]. by intros []. Qed.
#[global] Instance kbioA_ok : AccOk kbioA.
Proof. split; [done| |done]. by intros [? [] ? ? ? ? ? ? ? ? ? ?]. Qed.

(** Table entries. *)
Definition proc_at (s : kst) (i : Z) : proc := default proc0 (k_procs s !! i).
Definition upd_proc (i : Z) (f : proc -> proc) (s : kst) : kst :=
  set_kprocs s (<[i := f (proc_at s i)]> (k_procs s)).
Definition file_at (s : kst) (i : Z) : file := default file0 (k_ftable s !! i).
Definition upd_file (i : Z) (f : file -> file) (s : kst) : kst :=
  set_kftable s (<[i := f (file_at s i)]> (k_ftable s)).
Definition pipe0 : pipe := Pipe (replicate (Z.to_nat PIPESIZE) 0) 0 0 false false.
Definition pipe_at (s : kst) (a : Z) : pipe := default pipe0 (k_pipes s !! a).
Definition upd_pipe (a : Z) (f : pipe -> pipe) (s : kst) : kst :=
  set_kpipes s (<[a := f (pipe_at s a)]> (k_pipes s)).
Definition inode_at (s : kst) (i : Z) : inode := default inode0 (k_itable s !! i).
Definition upd_inode (i : Z) (f : inode -> inode) (s : kst) : kst :=
  set_kitable s (<[i := f (inode_at s i)]> (k_itable s)).

Definition gp (i : Z) : K kst proc := gets (fun s => proc_at s i).
Definition up (i : Z) (f : proc -> proc) : K kst unit := modify (upd_proc i f).
Definition gf (i : Z) : K kst file := gets (fun s => file_at s i).
Definition uf (i : Z) (f : file -> file) : K kst unit := modify (upd_file i f).
Definition gpi (a : Z) : K kst pipe := gets (fun s => pipe_at s a).
Definition upi (a : Z) (f : pipe -> pipe) : K kst unit := modify (upd_pipe a f).
Definition gi (i : Z) : K kst inode := gets (fun s => inode_at s i).
Definition ui (i : Z) (f : inode -> inode) : K kst unit := modify (upd_inode i f).

Lemma proc_at_upd i f s j : proc_at (upd_proc i f s) j = if i =? j then f (proc_at s i) else proc_at s j.
Proof.
  unfold proc_at, upd_proc. simpl. rewrite lookup_insert.
  destruct (Z.eqb_spec i j); [by rewrite decide_True|by rewrite decide_False].
Qed.
Lemma file_at_upd i f s j : file_at (upd_file i f s) j = if i =? j then f (file_at s i) else file_at s j.
Proof.
  unfold file_at, upd_file. simpl. rewrite lookup_insert.
  destruct (Z.eqb_spec i j); [by rewrite decide_True|by rewrite decide_False].
Qed.
Lemma pipe_at_upd i f s j : pipe_at (upd_pipe i f s) j = if i =? j then f (pipe_at s i) else pipe_at s j.
Proof.
  unfold pipe_at, upd_pipe. simpl. rewrite lookup_insert.
  destruct (Z.eqb_spec i j); [by rewrite decide_True|by rewrite decide_False].
Qed.
Lemma inode_at_upd i f s j : inode_at (upd_inode i f s) j = if i =? j then f (inode_at s i) else inode_at s j.
Proof.
  unfold inode_at, upd_inode. simpl. rewrite lookup_insert.
  destruct (Z.eqb_spec i j); [by rewrite decide_True|by rewrite decide_False].
Qed.
