(* ===== verification/Proc.v ===== *)
(** * Processes (kernel/proc.c)

    The process table and the functions of proc.c that do not touch the file
    system: allocation and release of processes, sleep and wakeup on the table,
    the scheduler's choice, kill, wait, and copies to and from user memory. *)
From stdpp Require Import base numbers list gmap strings.
From S2P Require Import Prelude Kernel Spinlock Sleeplock Str Riscv Kalloc Vm Bio Log Printf Kstate.

Section Proc.
(** [end] and [trampoline] are placed by the linker script, [forkret] by the
    compiler; [xstate_addr i] is &proc[i].xstate. *)
Variables (end_ trampoline forkret_pc : Z) (xstate_addr : Z -> Z).

Fixpoint procinit_loop (n : nat) (i : Z) : K kst unit :=
  match n with
  | O => mret tt
  | S n =>
      initlock (L_proc i) "proc";;
      up i (fun p => set_pstate p UNUSED);;
      up i (fun p => set_pkstack p (KSTACK i));;
      procinit_loop n (i + 1)
  end.
Definition procinit : K kst unit :=
  initlock L_pid "nextpid";;
  initlock L_wait "wait_lock";;
  procinit_loop (Z.to_nat NPROC) 0.

Definition allocpid : K kst Z :=
  acquire L_pid;;
  pid ← gets k_nextpid;
  modify (fun s => set_knextpid s (i32 (pid + 1)));;
  release L_pid;;
  mret pid.

(** ** User page tables *)

Definition proc_pagetable (trapframe : Z) : K kst Z :=
  pagetable ← zoom memA uvmcreate;
  if pagetable =? 0 then mret 0
  else
    r ← zoom memA (mappages pagetable TRAMPOLINE PGSIZE trampoline (Z.lor PTE_R PTE_X));
    if r <? 0 then
      zoom memA (uvmfree end_ pagetable 0);;
      mret 0
    else
      r ← zoom memA (mappages pagetable TRAPFRAME PGSIZE trapframe (Z.lor PTE_R PTE_W));
      if r <? 0 then
        zoom memA (uvmunmap end_ pagetable TRAMPOLINE 1 false);;
        zoom memA (uvmfree end_ pagetable 0);;
        mret 0
      else mret pagetable.

Definition proc_freepagetable (pagetable sz : Z) : K kst unit :=
  zoom memA (uvmunmap end_ pagetable TRAMPOLINE 1 false);;
  zoom memA (uvmunmap end_ pagetable TRAPFRAME 1 false);;
  zoom memA (uvmfree end_ pagetable sz).

(** ** Allocation and release *)

Definition freeproc (i : Z) : K kst unit :=
  p ← gp i;
  (if z2b (p_trapframe p) then zoom memA (kfree end_ (p_trapframe p)) else mret tt);;
  up i (fun p => set_ptrapframe p 0);;
  p ← gp i;
  (if z2b (p_pagetable p) then proc_freepagetable (p_pagetable p) (p_sz p) else mret tt);;
  up i (fun p => set_ppagetable p 0);;
  up i (fun p => set_psz p 0);;
  up i (fun p => set_ppid p 0);;
  up i (fun p => set_pparent p None);;
  up i (fun p => set_pname p (<[0%nat := 0]> (p_name p)));;
  up i (fun p => set_pchan p None);;
  up i (fun p => set_pkilled p 0);;
  up i (fun p => set_pxstate p 0);;
  up i (fun p => set_pstate p UNUSED).

(** The scan of allocproc; on success the process's lock stays held. *)
Fixpoint alloc_scan (n : nat) (i : Z) : K kst (option Z) :=
  match n with
  | O => mret None
  | S n =>
      acquire (L_proc i);;
      p ← gp i;
      if decide (p_state p = UNUSED) then mret (Some i)
      else release (L_proc i);; alloc_scan n (i + 1)
  end.

Definition allocproc : K kst (option Z) :=
  r ← alloc_scan (Z.to_nat NPROC) 0;
  match r with
  | None => mret None
  | Some i =>
      pid ← allocpid;
      up i (fun p => set_ppid p pid);;
      up i (fun p => set_pstate p USED);;
      tf ← zoom memA kalloc;
      up i (fun p => set_ptrapframe p tf);;
      if tf =? 0 then
        freeproc i;; release (L_proc i);; mret None
      else
        pt ← proc_pagetable tf;
        up i (fun p => set_ppagetable p pt);;
        if pt =? 0 then
          freeproc i;; release (L_proc i);; mret None
        else
          up i (fun p => set_pcontext p forkret_pc (p_kstack p + PGSIZE));;
          mret (Some i)
  end.

Definition growproc (n : Z) : K kst Z :=
  i ← myproc;
  p ← gp i;
  let sz := p_sz p in
  if n >? 0 then
    sz' ← zoom memA (uvmalloc end_ (p_pagetable p) sz (u64 (sz + n)) PTE_W);
    if sz' =? 0 then mret (-1)
    else up i (fun p => set_psz p sz');; mret 0
  else if n <? 0 then
    sz' ← zoom memA (uvmdealloc end_ (p_pagetable p) sz (u64 (sz + n)));
    up i (fun p => set_psz p sz');; mret 0
  else up i (fun p => set_psz p sz);; mret 0.

(** ** Children *)

Fixpoint reparent_loop (n : nat) (i p : Z) : K kst unit :=
  match n with
  | O => mret tt
  | S n =>
      pp ← gp i;
      (if bool_decide (p_parent pp = Some p) then
         ini ← gets k_initproc;
         up i (fun x => set_pparent x (Some ini));;
         wakeup (C_proc ini)
       else mret tt);;
      reparent_loop n (i + 1) p
  end.
Definition reparent (p : Z) : K kst unit := reparent_loop (Z.to_nat NPROC) 0 p.

Definition killed (i : Z) : K kst Z :=
  acquire (L_proc i);;
  p ← gp i;
  release (L_proc i);;
  mret (p_killed p).

Definition setkilled (i : Z) : K kst unit :=
  acquire (L_proc i);;
  up i (fun p => set_pkilled p 1);;
  release (L_proc i).

Fixpoint kkill_loop (n : nat) (i pid : Z) : K kst Z :=
  match n with
  | O => mret (-1)
  | S n =>
      acquire (L_proc i);;
      p ← gp i;
      if p_pid p =? pid then
        up i (fun p => set_pkilled p 1);;
        (if decide (p_state p = SLEEPING) then up i (fun p => set_pstate p RUNNABLE) else mret tt);;
        release (L_proc i);;
        mret 0
      else
        release (L_proc i);;
        kkill_loop n (i + 1) pid
  end.
Definition kkill (pid : Z) : K kst Z := kkill_loop (Z.to_nat NPROC) 0 pid.

(** The scan of kwait: the result of the call if a zombie child is found, else
    whether there are children at all. *)
Fixpoint wait_scan (n : nat) (i p addr : Z) (havekids : bool) : K kst (Z + bool) :=
  match n with
  | O => mret (inr havekids)
  | S n =>
      pp ← gp i;
      if bool_decide (p_parent pp = Some p) then
        acquire (L_proc i);;
        pp ← gp i;
        if decide (p_state pp = ZOMBIE) then
          let pid := p_pid pp in
          me ← gp p;
          r ← (if z2b addr then
                 zoom memA (modify (fun m => set_memory
                   (store_bytes (memory m) (xstate_addr i) (le_split 4 (p_xstate pp))) m));;
                 zoom memA (copyout end_ (p_sz me) (p_pagetable me) (p_pagetable me) addr (xstate_addr i) 4)
               else mret 0);
          if r <? 0 then
            release (L_proc i);;
            release L_wait;;
            mret (inl (-1))
          else
            freeproc i;;
            release (L_proc i);;
            release L_wait;;
            mret (inl pid)
        else
          release (L_proc i);;
          wait_scan n (i + 1) p addr true
      else wait_scan n (i + 1) p addr havekids
  end.

(** for(;;): a process that is woken up scans again. *)
Definition kwait (addr : Z) : K kst Z :=
  p ← myproc;
  acquire L_wait;;
  r ← wait_scan (Z.to_nat NPROC) 0 p addr false;
  match r with
  | inl v => mret v
  | inr havekids =>
      k ← (if havekids : bool then killed p else mret 1);
      if negb havekids || z2b k then
        release L_wait;;
        mret (-1)
      else sleep (C_proc p) L_wait
  end.

(** ** The scheduler *)

(** The inner loop of scheduler() from entry [i] on, up to the switch to the
    chosen process, whose lock is held. *)
Fixpoint scheduler_scan (n : nat) (i : Z) : K kst (option Z) :=
  match n with
  | O => mret None
  | S n =>
      acquire (L_proc i);;
      p ← gp i;
      if decide (p_state p = RUNNABLE) then
        up i (fun p => set_pstate p RUNNING);;
        modc (set_curproc i (p_pid p));;
        mret (Some i)
      else
        release (L_proc i);;
        scheduler_scan n (i + 1)
  end.
(** After the switch back from process [i]. *)
Definition scheduler_back (i : Z) : K kst unit :=
  modc (set_curproc (-1) 0);;
  release (L_proc i).

(** A round of scheduler()'s loop, up to the switch to a process: from the top,
    and from the process that switched back.  A round that finds none waits for
    an interrupt and starts again. *)
Definition scheduler_round : K kst (option Z) :=
  intr_on;; intr_off;;
  scheduler_scan (Z.to_nat NPROC) 0.
Definition scheduler_resume (i : Z) : K kst (option Z) :=
  scheduler_back i;;
  scheduler_scan (Z.to_nat (NPROC - (i + 1))) (i + 1).

(** sched() up to its swtch. *)
Definition sched {A} (ch : chan) : K kst A :=
  i ← myproc;
  h ← holding (L_proc i);
  (if h : bool then mret tt else panic "sched p->lock");;
  c ← getc;
  (if noff c =? 1 then mret tt else panic "sched locks");;
  p ← gp i;
  (if decide (p_state p = RUNNING) then panic "sched RUNNING" else mret tt);;
  b ← intr_get;
  (if b : bool then panic "sched interruptible" else mret tt);;
  suspend ch.

Definition yield : K kst unit :=
  i ← myproc;
  acquire (L_proc i);;
  up i (fun p => set_pstate p RUNNABLE);;
  sched C_none.

(** sleep() on the table, up to the switch. *)
Definition sleep_on {A} (ch : chan) (lk : lockid) : K kst A :=
  i ← myproc;
  acquire (L_proc i);;
  release lk;;
  up i (fun p => set_pchan p (Some ch));;
  up i (fun p => set_pstate p SLEEPING);;
  sched ch.

(** wakeup() on the table. *)
Fixpoint wakeup_loop (n : nat) (i : Z) (ch : chan) : K kst unit :=
  match n with
  | O => mret tt
  | S n =>
      me ← myproc;
      (if negb (i =? me) then
         acquire (L_proc i);;
         p ← gp i;
         (if bool_decide (p_state p = SLEEPING /\ p_chan p = Some ch)
          then up i (fun p => set_pstate p RUNNABLE) else mret tt);;
         release (L_proc i)
       else mret tt);;
      wakeup_loop n (i + 1) ch
  end.
Definition wakeup_on (ch : chan) : K kst unit := wakeup_loop (Z.to_nat NPROC) 0 ch.

(** ** Copies to and from user memory *)

Definition either_copyout (user_dst : bool) (dst src len : Z) : K kst Z :=
  i ← myproc;
  p ← gp i;
  if user_dst then zoom memA (copyout end_ (p_sz p) (p_pagetable p) (p_pagetable p) dst src len)
  else zoom memA (kmemmove dst src len);; mret 0.

Definition either_copyin (dst : Z) (user_src : bool) (src len : Z) : K kst Z :=
  i ← myproc;
  p ← gp i;
  if user_src then zoom memA (copyin end_ (p_sz p) (p_pagetable p) (p_pagetable p) dst src len)
  else zoom memA (kmemmove dst src len);; mret 0.

(** ** The process listing *)

Definition state_name (st : procstate) : list Z :=
  match st with
  | UNUSED => chars "unused" | USED => chars "used" | SLEEPING => chars "sleep "
  | RUNNABLE => chars "runble" | RUNNING => chars "run   " | ZOMBIE => chars "zombie"
  end.
(** A name field as the C string it holds. *)
Fixpoint cstr_of (cs : list Z) : list Z :=
  match cs with
  | [] => []
  | c :: cs => if c =? 0 then [] else c :: cstr_of cs
  end.
Fixpoint procdump_loop (n : nat) (i : Z) : K kst unit :=
  match n with
  | O => mret tt
  | S n =>
      p ← gp i;
      (if decide (p_state p = UNUSED) then mret tt
       else
         _ ← printf false (chars "%d %s %s")
               [VInt (p_pid p); VStr (Some (state_name (p_state p))); VStr (Some (cstr_of (p_name p)))];
         _ ← printf false [10] [];
         mret tt);;
      procdump_loop n (i + 1)
  end.
Definition procdump : K kst unit :=
  _ ← printf false [10] [];
  procdump_loop (Z.to_nat NPROC) 0.
End Proc.
