(* ===== verification/Table.v ===== *)
(** * The process table (theorems on Proc.v)

    What wakeup, the scheduler, kill and reparent do to the table, and the
    sleep/wakeup protocol between several CPUs: a wakeup is never lost. *)
From stdpp Require Import base numbers list gmap strings relations.
From S2P Require Import Prelude Kernel Spinlock Sleeplock Str Riscv Kalloc Vm Bio Log Printf Kstate Proc.

(** A CPU that holds none of the process locks. *)
Record proc_cpu (c : ctx) : Prop := {
  pc_ok : cpu_ok c;
  pc_free : forall i, 0 <= i < NPROC -> unlocked (L_proc i) c;
}.
Lemma proc_cpu_evs e c : proc_cpu c -> proc_cpu (set_evs e c).
Proof. intros [H1 H2]. split; [by apply cpu_ok_evs|done]. Qed.

(** From [s] to [s'] only the process table changes, entry [i] by [f i]. *)
Record table_map (f : Z -> proc -> proc) (s s' : kst) : Prop := {
  tm_procs : forall i, proc_at s' i = f i (proc_at s i);
  tm_rest : s' = set_kprocs s (k_procs s');
}.

Lemma table_map_refl s : table_map (fun _ p => p) s s.
Proof. split; [done|]. by destruct s. Qed.
Lemma table_map_trans f g s s' s'' : table_map f s s' -> table_map g s' s'' ->
  table_map (fun i p => g i (f i p)) s s''.
Proof.
  intros [F1 F2] [G1 G2]. split; [intros i; by rewrite G1, F1|]. rewrite G2 at 1. by rewrite F2 at 1.
Qed.
Lemma table_map_ext f g s s' : (forall i, f i (proc_at s i) = g i (proc_at s i)) ->
  table_map f s s' -> table_map g s s'.
Proof. intros H [F1 F2]. split; [|done]. intros i. by rewrite F1. Qed.
Lemma table_map_upd i f s : table_map (fun j p => if i =? j then f p else p) s (upd_proc i f s).
Proof.
  split; [|done]. intros j. rewrite proc_at_upd. by destruct (Z.eqb_spec i j) as [->|].
Qed.

(** A loop over the table that treats the entries one after the other. *)
Lemma table_loop (loop : nat -> Z -> K kst unit) (body : Z -> K kst unit) (f : Z -> proc -> proc) (c : ctx) :
  (forall i, loop O i = mret tt) ->
  (forall n i s, loop (S n) i c s = (body i;; loop n (i + 1)) c s) ->
  (forall i s, 0 <= i < NPROC -> exists s', body i c s = Done tt c s' /\
     table_map (fun j p => if i =? j then f i p else p) s s') ->
  forall n i s, 0 <= i -> i + Z.of_nat n <= NPROC ->
  exists s', loop n i c s = Done tt c s' /\
    table_map (fun j p => if (i <=? j) && (j <? i + Z.of_nat n) then f j p else p) s s'.
Proof.
  intros H0 HS Hb. induction n as [|n IH]; intros i s Hi Hn.
  - exists s. rewrite H0. split; [done|]. eapply table_map_ext; [|apply table_map_refl].
    intros j. destruct (Z.leb_spec i j), (Z.ltb_spec j (i + Z.of_nat 0)); simpl; done || lia.
  - destruct (Hb i s) as (s1 & E1 & T1); [lia|]. destruct (IH (i + 1) s1) as (s2 & E2 & T2); [lia|lia|].
    exists s2. rewrite HS, (bind_done _ _ _ _ _ _ _ E1). split; [done|].
    eapply table_map_ext; [|by eapply table_map_trans]. intros j. cbn beta.
    destruct (Z.eqb_spec i j) as [->|Hne].
    + destruct (Z.leb_spec (j + 1) j), (Z.leb_spec j j), (Z.ltb_spec j (j + Z.of_nat (S n))); simpl; done || lia.
    + destruct (Z.leb_spec (i + 1) j), (Z.leb_spec i j), (Z.ltb_spec j (i + 1 + Z.of_nat n)),
        (Z.ltb_spec j (i + Z.of_nat (S n))); simpl; done || lia.
Qed.

(** ** wakeup *)

Definition wake1 (ch : chan) (p : proc) : proc :=
  if bool_decide (p_state p = SLEEPING /\ p_chan p = Some ch) then set_pstate p RUNNABLE else p.

(** The body of wakeup's loop. *)
Definition wake_at (ch : chan) (i : Z) : K kst unit :=
  me ← myproc;
  if negb (i =? me) then
    acquire (L_proc i);;
    p ← gp i;
    (if bool_decide (p_state p = SLEEPING /\ p_chan p = Some ch)
     then up i (fun p => set_pstate p RUNNABLE) else mret tt);;
    release (L_proc i)
  else mret tt.

Lemma wake_at_spec ch i c s : proc_cpu c -> 0 <= i < NPROC ->
  exists s', wake_at ch i c s = Done tt c s' /\
    table_map (fun j p => if i =? j then (if i =? curproc c then p else wake1 ch p) else p) s s'.
Proof.
  intros [Hok Hul] Hi. unfold wake_at. rewrite (bind_done _ _ _ _ _ _ _ (myproc_eq c s Hok)).
  assert (forall f, (forall p, p = proc_at s i -> f p = p) ->
    table_map (fun j p => if i =? j then f p else p) s s) as Hsame.
  { intros f Hf. eapply table_map_ext; [|apply table_map_refl]. intros j. cbn beta.
    destruct (Z.eqb_spec i j) as [->|]; [|done]. by rewrite Hf. }
  destruct (Z.eqb_spec i (curproc c)) as [E|E]; cbn [negb].
  - exists s. split; [done|]. by apply Hsame.
  - rewrite (bind_done _ _ _ _ _ _ _ (acquire_eq _ _ _ (Hul i Hi))). unfold gp, up. krun.
    destruct (bool_decide _) eqn:Hb; rewrite (release_eq _ c _ Hok (Hul i Hi)); eexists; (split; [done|]).
    + eapply table_map_ext; [|apply table_map_upd]. intros j. cbn beta.
      destruct (Z.eqb_spec i j) as [->|]; [|done]. unfold wake1. by rewrite Hb.
    + apply Hsame. intros p ->. unfold wake1. by rewrite Hb.
Qed.

Lemma in_table i : (0 <=? i) && (i <? 0 + Z.of_nat (Z.to_nat NPROC)) = (0 <=? i) && (i <? NPROC).
Proof. done. Qed.

Lemma wakeup_on_spec ch c s : proc_cpu c -> exists s', wakeup_on ch c s = Done tt c s' /\
  table_map (fun i p => if (0 <=? i) && (i <? NPROC)
                        then (if i =? curproc c then p else wake1 ch p) else p) s s'.
Proof.
  intros Hc. unfold wakeup_on.
  apply (table_loop (fun n i => wakeup_loop n i ch) (wake_at ch) (fun i p => if i =? curproc c then p else wake1 ch p));
    [done| |by intros; apply wake_at_spec|lia|done].
  intros n i s0. unfold wake_at. cbn [wakeup_loop]. by rewrite bind_assoc.
Qed.

(** The events of the other components are deliveries to the table. *)
Definition deliver (me : Z) (ch : chan) (i : Z) (p : proc) : proc :=
  if (0 <=? i) && (i <? NPROC) then (if i =? me then p else wake1 ch p) else p.

(** ** The scheduler *)

Definition is_state (st : procstate) (s : kst) (i : Z) : bool := bool_decide (p_state (proc_at s i) = st).

Lemma scheduler_scan_spec c n : forall i s, proc_cpu c -> 0 <= i -> i + Z.of_nat n <= NPROC ->
  scheduler_scan n i c s =
    match List.find (is_state RUNNABLE s) (seqZ i (Z.of_nat n)) with
    | Some j => Done (Some j) (set_curproc j (p_pid (proc_at s j)) (inside (L_proc j) c))
                  (upd_proc j (fun p => set_pstate p RUNNING) s)
    | None => Done None c s
    end.
Proof.
  induction n as [|n IH]; intros i s Hc Hi Hn; [done|]. destruct Hc as [Hok Hul].
  assert (unlocked (L_proc i) c) as Hu by (apply Hul; lia).
  rewrite seqZ_cons by lia. replace (Z.pred (Z.of_nat (S n))) with (Z.of_nat n) by lia.
  cbn [scheduler_scan List.find]. kstep (acquire_eq _ _ s Hu). unfold gp, up. krun.
  unfold is_state at 1. destruct (decide (p_state (proc_at s i) = RUNNABLE)) as [E|E].
  - rewrite bool_decide_eq_true_2 by done. done.
  - rewrite bool_decide_eq_false_2 by done. rewrite (release_eq _ c s Hok Hu). cbv beta iota.
    replace (Z.succ i) with (i + 1) by lia. apply IH; [done|lia|lia].
Qed.

(** ** kill *)

Definition kill1 (p : proc) : proc :=
  let p := set_pkilled p 1 in if decide (p_state p = SLEEPING) then set_pstate p RUNNABLE else p.

Lemma upd_upd i f g s : upd_proc i f (upd_proc i g s) = upd_proc i (fun p => f (g p)) s.
Proof. unfold upd_proc, proc_at, set_kprocs. simpl. by rewrite lookup_insert_eq, insert_insert_eq. Qed.

Lemma kkill_loop_spec c pid n : forall i s, proc_cpu c -> 0 <= i -> i + Z.of_nat n <= NPROC ->
  kkill_loop n i pid c s =
    match List.find (fun i => p_pid (proc_at s i) =? pid) (seqZ i (Z.of_nat n)) with
    | Some j => Done 0 c (upd_proc j kill1 s)
    | None => Done (-1) c s
    end.
Proof.
  induction n as [|n IH]; intros i s Hc Hi Hn; [done|]. destruct Hc as [Hok Hul].
  assert (unlocked (L_proc i) c) as Hu by (apply Hul; lia).
  rewrite seqZ_cons by lia. replace (Z.pred (Z.of_nat (S n))) with (Z.of_nat n) by lia.
  cbn [kkill_loop List.find]. kstep (acquire_eq _ _ s Hu). unfold gp, up. krun.
  destruct (Z.eqb_spec (p_pid (proc_at s i)) pid) as [E|E].
  - assert (upd_proc i kill1 s = if decide (p_state (proc_at s i) = SLEEPING)
      then upd_proc i (fun p => set_pstate p RUNNABLE) (upd_proc i (fun p => set_pkilled p 1) s)
      else upd_proc i (fun p => set_pkilled p 1) s) as ->.
    { rewrite upd_upd. unfold upd_proc, kill1. simpl. by destruct (decide _). }
    destruct (decide (p_state (proc_at s i) = SLEEPING)) as [F|F]; by rewrite (release_eq _ c _ Hok Hu).
  - rewrite (release_eq _ c s Hok Hu). cbv beta iota.
    replace (Z.succ i) with (i + 1) by lia. apply IH; [done|lia|lia].
Qed.

(** ** reparent *)

Definition adopt (p ini : Z) (q : proc) : proc :=
  if bool_decide (p_parent q = Some p) then set_pparent q (Some ini) else q.

Lemma reparent_loop_spec p ini n : forall i c s, k_initproc s = ini -> 0 <= i -> i + Z.of_nat n <= NPROC ->
  exists e s', reparent_loop n i p c s = Done tt (set_evs e c) s' /\
    table_map (fun j q => if (i <=? j) && (j <? i + Z.of_nat n) then adopt p ini q else q) s s'.
Proof.
  induction n as [|n IH]; intros i c s Hini Hi Hn.
  - exists (evs c), s. split; [by destruct c|]. eapply table_map_ext; [|apply table_map_refl].
    intros j. destruct (Z.leb_spec i j), (Z.ltb_spec j (i + Z.of_nat 0)); simpl; done || lia.
  - cbn [reparent_loop]. unfold gp, up, wakeup. krun.
    set (b := bool_decide _).
    assert (exists e1 s1, (if b then
        fun (c0 : ctx) s0 => Done tt (set_evs (Wakeup (C_proc (k_initproc s0)) :: evs c0) c0)
          (upd_proc i (fun x => set_pparent x (Some (k_initproc s0))) s0)
        else fun c0 s0 => Done tt c0 s0) c s = Done tt (set_evs e1 c) s1 /\ k_initproc s1 = ini /\
      table_map (fun j q => if i =? j then adopt p ini q else q) s s1) as (e1 & s1 & E1 & Hi1 & T1).
    { destruct b eqn:Hb; subst b.
      - eexists _, _. split; [done|]. split; [done|]. eapply table_map_ext; [|apply table_map_upd].
        intros j. cbn beta. destruct (Z.eqb_spec i j) as [->|]; [|done]. unfold adopt. by rewrite Hb, Hini.
      - exists (evs c), s. split; [by destruct c|]. split; [done|]. eapply table_map_ext; [|apply table_map_refl].
        intros j. cbn beta. destruct (Z.eqb_spec i j) as [->|]; [|done]. unfold adopt. by rewrite Hb. }
    destruct (IH (i + 1) (set_evs e1 c) s1) as (e2 & s2 & E2 & T2); [done|lia|lia|].
    exists e2, s2. split.
    + destruct b; unfold mret, K_ret in *; simplify_eq/=; [exact E2|]. rewrite <- E1 in E2. exact E2.
    + eapply table_map_ext; [|by eapply table_map_trans]. intros j. cbn beta.
      destruct (Z.eqb_spec i j) as [->|Hne].
      * destruct (Z.leb_spec (j + 1) j), (Z.leb_spec j j), (Z.ltb_spec j (j + Z.of_nat (S n))); simpl; done || lia.
      * destruct (Z.leb_spec (i + 1) j), (Z.leb_spec i j), (Z.ltb_spec j (i + 1 + Z.of_nat n)),
          (Z.ltb_spec j (i + Z.of_nat (S n))); simpl; done || lia.
Qed.

(** ** Sleep and wakeup on several CPUs

    One process that waits for a condition under a lock, as in
    acquire(lk); while(!cond) sleep(chan, lk); and any number of CPUs that make
    the condition true and call wakeup(chan) with the lock held.  Each step is
    one access to shared memory; a lock can be taken when it is free. *)
Module SleepWakeup.

(** The waiting process. *)
Inductive spc :=
  | S_start      (* before acquire(lk) *)
  | S_check      (* lk held: while(!cond) *)
  | S_sleep      (* in sleep(): before acquire(&p->lock) *)
  | S_locked     (* p->lock held: before release(lk) *)
  | S_mark       (* before p->chan = chan; p->state = SLEEPING *)
  | S_switch     (* in sched(): p->lock is released by the scheduler *)
  | S_asleep     (* not running *)
  | S_wake       (* back in sleep() with p->lock: release(&p->lock) *)
  | S_relock     (* before acquire(lk) *)
  | S_done.      (* cond was true, lk held *)
(** A CPU that makes the condition true. *)
Inductive wpc :=
  | W_start      (* before acquire(lk) *)
  | W_set        (* lk held: before cond = 1 *)
  | W_lock       (* in wakeup(): before acquire(&p->lock) *)
  | W_test       (* p->lock held: if(p->state == SLEEPING && p->chan == chan) *)
  | W_unlock     (* before release(&p->lock) *)
  | W_release    (* before release(lk) *)
  | W_done.

(** Who holds a lock. *)
Inductive holder := Nobody | Sleeper | Waker (w : Z).

Record sys := Sys {
  cond : bool;
  pst : procstate;
  lk : holder;
  plk : holder;
  spos : spc;
  wpos : gmap Z wpc;
}.
Definition wat (y : sys) (w : Z) : wpc := default W_start (wpos y !! w).
Definition wgo (w : Z) (p : wpc) (y : sys) : gmap Z wpc := <[w := p]> (wpos y).

Inductive sstep : sys -> sys -> Prop :=
  | s_acquire y : spos y = S_start \/ spos y = S_relock -> lk y = Nobody ->
      sstep y (Sys (cond y) (pst y) Sleeper (plk y) S_check (wpos y))
  | s_true y : spos y = S_check -> cond y = true ->
      sstep y (Sys (cond y) (pst y) (lk y) (plk y) S_done (wpos y))
  | s_false y : spos y = S_check -> cond y = false ->
      sstep y (Sys (cond y) (pst y) (lk y) (plk y) S_sleep (wpos y))
  | s_plock y : spos y = S_sleep -> plk y = Nobody ->
      sstep y (Sys (cond y) (pst y) (lk y) Sleeper S_locked (wpos y))
  | s_release y : spos y = S_locked ->
      sstep y (Sys (cond y) (pst y) Nobody (plk y) S_mark (wpos y))
  | s_mark y : spos y = S_mark ->
      sstep y (Sys (cond y) SLEEPING (lk y) (plk y) S_switch (wpos y))
  | s_switch y : spos y = S_switch ->
      sstep y (Sys (cond y) (pst y) (lk y) Nobody S_asleep (wpos y))
  | s_run y : spos y = S_asleep -> plk y = Nobody -> pst y = RUNNABLE ->
      sstep y (Sys (cond y) RUNNING (lk y) Sleeper S_wake (wpos y))
  | s_woken y : spos y = S_wake ->
      sstep y (Sys (cond y) (pst y) (lk y) Nobody S_relock (wpos y))
  | w_acquire y w : wat y w = W_start -> lk y = Nobody ->
      sstep y (Sys (cond y) (pst y) (Waker w) (plk y) (spos y) (wgo w W_set y))
  | w_set y w : wat y w = W_set ->
      sstep y (Sys true (pst y) (lk y) (plk y) (spos y) (wgo w W_lock y))
  | w_lock y w : wat y w = W_lock -> plk y = Nobody ->
      sstep y (Sys (cond y) (pst y) (lk y) (Waker w) (spos y) (wgo w W_test y))
  | w_test y w : wat y w = W_test ->
      sstep y (Sys (cond y) (if decide (pst y = SLEEPING) then RUNNABLE else pst y)
                 (lk y) (plk y) (spos y) (wgo w W_unlock y))
  | w_unlock y w : wat y w = W_unlock ->
      sstep y (Sys (cond y) (pst y) (lk y) Nobody (spos y) (wgo w W_release y))
  | w_release y w : wat y w = W_release ->
      sstep y (Sys (cond y) (pst y) Nobody (plk y) (spos y) (wgo w W_done y)).

Definition init (y : sys) : Prop :=
  cond y = false /\ pst y = RUNNING /\ lk y = Nobody /\ plk y = Nobody /\
  spos y = S_start /\ forall w, wat y w = W_start.

Definition s_has_lk (p : spc) : bool :=
  match p with S_check | S_sleep | S_locked | S_done => true | _ => false end.
Definition s_has_plk (p : spc) : bool :=
  match p with S_locked | S_mark | S_switch | S_wake => true | _ => false end.
Definition w_has_lk (p : wpc) : bool :=
  match p with W_start | W_done => false | _ => true end.
Definition w_has_plk (p : wpc) : bool :=
  match p with W_test | W_unlock => true | _ => false end.

(** A process that is going to sleep, or asleep and not yet made runnable. *)
Definition going (y : sys) : bool :=
  match spos y with
  | S_mark | S_switch => true
  | S_asleep => bool_decide (pst y = SLEEPING)
  | _ => false
  end.

Record inv (y : sys) : Prop := {
  i_lk_s : lk y = Sleeper <-> s_has_lk (spos y) = true;
  i_lk_w : forall w, lk y = Waker w <-> w_has_lk (wat y w) = true;
  i_plk_s : plk y = Sleeper <-> s_has_plk (spos y) = true;
  i_plk_w : forall w, plk y = Waker w <-> w_has_plk (wat y w) = true;
  i_false : spos y = S_sleep \/ spos y = S_locked -> cond y = false;
  i_asleep : spos y = S_switch -> pst y = SLEEPING;
  i_state : spos y = S_asleep -> pst y = SLEEPING \/ pst y = RUNNABLE;
  i_promise : going y = true -> cond y = true ->
    exists w, lk y = Waker w /\ (wat y w = W_lock \/ wat y w = W_test);
}.

Lemma wat_go y w p w' c st l pl sp :
  wat (Sys c st l pl sp (wgo w p y)) w' = if decide (w = w') then p else wat y w'.
Proof. unfold wat, wgo. simpl. rewrite lookup_insert. by destruct (decide _). Qed.

Lemma wat_same y w c st l pl sp : wat (Sys c st l pl sp (wpos y)) w = wat y w.
Proof. done. Qed.

Lemma init_inv y : init y -> inv y.
Proof.
  intros (H1 & H2 & H3 & H4 & H5 & H6). split; intros; rewrite ?H3, ?H4, ?H5, ?H6 in *; simpl; try naive_solver.
  unfold going in *. rewrite H5 in *. done.
Qed.

(** Steps of the waiting process: the wakers stay where they are. *)
Lemma sleeper_inv y st l pl sp :
  inv y ->
  (l = lk y \/ (l = Sleeper /\ lk y = Nobody) \/ (l = Nobody /\ lk y = Sleeper)) ->
  (pl = plk y \/ (pl = Sleeper /\ plk y = Nobody) \/ (pl = Nobody /\ plk y = Sleeper)) ->
  (l = Sleeper <-> s_has_lk sp = true) -> (pl = Sleeper <-> s_has_plk sp = true) ->
  (sp = S_sleep \/ sp = S_locked -> cond y = false) -> (sp = S_switch -> st = SLEEPING) ->
  (sp = S_asleep -> st = SLEEPING \/ st = RUNNABLE) ->
  (going (Sys (cond y) st l pl sp (wpos y)) = true -> cond y = true ->
     l = lk y /\ going y = true) ->
  inv (Sys (cond y) st l pl sp (wpos y)).
Proof.
  intros [I1 I2 I3 I4 I5 I6 I7 I8] Hl Hpl H1 H2 H3 H4 H5 H6.
  split; cbn [cond pst lk plk spos wpos]; try done.
  - intros w. rewrite wat_same, <- (I2 w). destruct Hl as [->|[[-> ->]|[-> ->]]]; [done|by split..].
  - intros w. rewrite wat_same, <- (I4 w). destruct Hpl as [->|[[-> ->]|[-> ->]]]; [done|by split..].
  - intros Hg Hc. destruct (H6 Hg Hc) as [-> Hg']. by apply I8.
Qed.

(** Facts of the invariant at a known position of the process. *)
Lemma inv_lk_s y b : inv y -> s_has_lk (spos y) = b -> if b then lk y = Sleeper else lk y <> Sleeper.
Proof. intros I <-. pose proof (i_lk_s y I) as H. destruct (s_has_lk (spos y)); [by apply H|]. by intros ?%H. Qed.
Lemma inv_plk_s y b : inv y -> s_has_plk (spos y) = b -> if b then plk y = Sleeper else plk y <> Sleeper.
Proof. intros I <-. pose proof (i_plk_s y I) as H. destruct (s_has_plk (spos y)); [by apply H|]. by intros ?%H. Qed.

Ltac side := first
  [ done | by left | by right | by right; left | by right; right | by (split; congruence)
  | by (intros [?|?]; congruence) | by (intros; congruence) | by (intros; split; congruence) ].

Lemma sleeper_step_inv y y' : sstep y y' -> wpos y' = wpos y -> inv y -> inv y'.
Proof.
  intros St Hw I. destruct St as [y Hp Hl|y Hp Hc|y Hp Hc|y Hp Hl|y Hp|y Hp|y Hp|y Hp Hl Hs|y Hp|y w Hp Hl|y w Hp|y w Hp Hl|y w Hp|y w Hp|y w Hp];
    try (exfalso; cbn [wpos] in Hw; unfold wat in Hp; rewrite <- Hw in Hp; unfold wgo in Hp;
         rewrite lookup_insert_eq in Hp; discriminate).
  - assert (plk y <> Sleeper) by (apply (inv_plk_s y false I); destruct Hp as [-> | ->]; done).
    apply sleeper_inv; simpl; side.
  - pose proof (inv_lk_s y true I ltac:(by rewrite Hp)). pose proof (inv_plk_s y false I ltac:(by rewrite Hp)).
    apply sleeper_inv; simpl; side.
  - pose proof (inv_lk_s y true I ltac:(by rewrite Hp)). pose proof (inv_plk_s y false I ltac:(by rewrite Hp)).
    apply sleeper_inv; simpl; side.
  - pose proof (inv_lk_s y true I ltac:(by rewrite Hp)). pose proof (i_false y I ltac:(by left)) as Hf.
    apply sleeper_inv; simpl; side.
  - pose proof (inv_lk_s y true I ltac:(by rewrite Hp)). pose proof (inv_plk_s y true I ltac:(by rewrite Hp)).
    pose proof (i_false y I ltac:(by right)) as Hf. apply sleeper_inv; simpl; side.
  - pose proof (inv_lk_s y false I ltac:(by rewrite Hp)). pose proof (inv_plk_s y true I ltac:(by rewrite Hp)).
    apply sleeper_inv; simpl; try side. intros _ _. split; [done|]. unfold going. by rewrite Hp.
  - pose proof (inv_lk_s y false I ltac:(by rewrite Hp)). pose proof (inv_plk_s y true I ltac:(by rewrite Hp)).
    pose proof (i_asleep y I Hp). apply sleeper_inv; simpl; try side.
    intros _ _. split; [done|]. unfold going. by rewrite Hp.
  - pose proof (inv_lk_s y false I ltac:(by rewrite Hp)). apply sleeper_inv; simpl; side.
  - pose proof (inv_lk_s y false I ltac:(by rewrite Hp)). pose proof (inv_plk_s y true I ltac:(by rewrite Hp)).
    apply sleeper_inv; simpl; side.
Qed.

(** Steps of a waker. *)
Section WakerStep.
Variables (y : sys) (w : Z) (p : wpc) (c' : bool) (st' : procstate) (l' pl' : holder).
Hypotheses (I : inv y)
  (Hl : l' = lk y \/ (l' = Waker w /\ lk y = Nobody) \/ (l' = Nobody /\ lk y = Waker w))
  (Hl' : l' = Waker w <-> w_has_lk p = true)
  (Hpl : pl' = plk y \/ (pl' = Waker w /\ plk y = Nobody) \/ (pl' = Nobody /\ plk y = Waker w))
  (Hpl' : pl' = Waker w <-> w_has_plk p = true)
  (Hc : c' = cond y \/ lk y = Waker w)
  (Hst : st' = pst y \/ (st' = RUNNABLE /\ plk y = Waker w)).
Let y' := Sys c' st' l' pl' (spos y) (wgo w p y).

Lemma waker_inv :
  (going y' = true -> c' = true -> exists w, l' = Waker w /\ (wat y' w = W_lock \/ wat y' w = W_test)) ->
  inv y'.
Proof.
  intros H8. destruct I as [I1 I2 I3 I4 I5 I6 I7 I8]. split; cbn [y' cond pst lk plk spos wpos]; try done.
  - rewrite <- I1. destruct Hl as [->|[[-> ->]|[-> ->]]]; [done|by split..].
  - intros w'. unfold y'. rewrite wat_go. destruct (decide (w = w')) as [<-|Hne]; [done|]. rewrite <- (I2 w').
    destruct Hl as [->|[[-> ->]|[-> ->]]]; [done|by (split; congruence)..].
  - rewrite <- I3. destruct Hpl as [->|[[-> ->]|[-> ->]]]; [done|by split..].
  - intros w'. unfold y'. rewrite wat_go. destruct (decide (w = w')) as [<-|Hne]; [done|]. rewrite <- (I4 w').
    destruct Hpl as [->|[[-> ->]|[-> ->]]]; [done|by (split; congruence)..].
  - intros Hs. destruct Hc as [->|E]; [by apply I5|].
    assert (lk y = Sleeper) as E' by (apply I1; destruct Hs as [-> | ->]; done). congruence.
  - intros Hs. destruct Hst as [->|[_ E]]; [by apply I6|].
    assert (plk y = Sleeper) as E' by (apply I3; by rewrite Hs). congruence.
  - intros Hs. destruct Hst as [->|[-> _]]; [by apply I7|by right].
Qed.
End WakerStep.

Lemma inv_lk_w y w b : inv y -> w_has_lk (wat y w) = b -> if b then lk y = Waker w else lk y <> Waker w.
Proof. intros I <-. pose proof (i_lk_w y I w) as H. destruct (w_has_lk (wat y w)); [by apply H|]. by intros ?%H. Qed.
Lemma inv_plk_w y w b : inv y -> w_has_plk (wat y w) = b -> if b then plk y = Waker w else plk y <> Waker w.
Proof. intros I <-. pose proof (i_plk_w y I w) as H. destruct (w_has_plk (wat y w)); [by apply H|]. by intros ?%H. Qed.

Lemma going_ext y c l pl m : going (Sys c (pst y) l pl (spos y) m) = going y.
Proof. done. Qed.

(** While a waker holds the lock past its test, no sleeper depends on it. *)
Lemma promise_at y w : inv y -> lk y = Waker w -> going y = true -> cond y = true ->
  wat y w = W_lock \/ wat y w = W_test.
Proof. intros I Hl Hg Hc. destruct (i_promise y I Hg Hc) as (w' & E & H). assert (w' = w) as <- by congruence. done. Qed.

Lemma sstep_inv y y' : sstep y y' -> inv y -> inv y'.
Proof.
  intros St I. pose proof (fun H => sleeper_step_inv y y' St H I) as HS.
  destruct St as [y Hp Hl|y Hp Hc|y Hp Hc|y Hp Hl|y Hp|y Hp|y Hp|y Hp Hl Hs|y Hp|y v Hp Hl|y v Hp|y v Hp Hl|y v Hp|y v Hp|y v Hp];
    try (by apply HS); clear HS.
  - pose proof (inv_plk_w y v false I ltac:(by rewrite Hp)).
    apply waker_inv; cbn [w_has_lk w_has_plk]; try side. rewrite going_ext. intros Hg Hc.
    destruct (i_promise y I Hg Hc) as (? & ? & _). congruence.
  - pose proof (inv_lk_w y v true I ltac:(by rewrite Hp)). pose proof (inv_plk_w y v false I ltac:(by rewrite Hp)).
    apply waker_inv; cbn [w_has_lk w_has_plk]; try side. intros _ _. exists v. split; [done|]. rewrite wat_go, decide_True by done. by left.
  - pose proof (inv_lk_w y v true I ltac:(by rewrite Hp)).
    apply waker_inv; cbn [w_has_lk w_has_plk]; try side. intros _ _. exists v. split; [done|]. rewrite wat_go, decide_True by done. by right.
  - pose proof (inv_lk_w y v true I ltac:(by rewrite Hp)). pose proof (inv_plk_w y v true I ltac:(by rewrite Hp)) as Hpl.
    apply waker_inv; cbn [w_has_lk w_has_plk]; try side.
    + destruct (decide (pst y = SLEEPING)); [by right|by left].
    + unfold going. cbn [spos pst]. pose proof (i_plk_s y I) as HS. rewrite Hpl in HS. intros Hg Hc. exfalso. revert HS Hg.
      destruct (spos y); intros HS Hg; try done;
        [discriminate (proj2 HS eq_refl)|discriminate (proj2 HS eq_refl)|].
      apply bool_decide_eq_true in Hg. destruct (decide (pst y = SLEEPING)); done.
  - pose proof (inv_lk_w y v true I ltac:(by rewrite Hp)) as Hl. pose proof (inv_plk_w y v true I ltac:(by rewrite Hp)).
    apply waker_inv; cbn [w_has_lk w_has_plk]; try side. rewrite going_ext. intros Hg Hc.
    destruct (promise_at y v I Hl Hg Hc); congruence.
  - pose proof (inv_lk_w y v true I ltac:(by rewrite Hp)) as Hl. pose proof (inv_plk_w y v false I ltac:(by rewrite Hp)).
    apply waker_inv; cbn [w_has_lk w_has_plk]; try side. rewrite going_ext. intros Hg Hc.
    destruct (promise_at y v I Hl Hg Hc); congruence.
Qed.

Lemma reach_inv y y' : rtc sstep y y' -> inv y -> inv y'.
Proof. induction 1 as [|? ? ? St _ IH]; [done|]. intros I. eapply IH, sstep_inv; done. Qed.

(** C20: no wakeup is lost.  In every state the waiting process and the wakers
    can reach, if the condition holds and every waker that made it true has
    returned from wakeup, the process is not left asleep: when it is off the
    CPU in sleep() it has been made runnable. *)
Theorem no_lost_wakeup y y' :
  init y -> rtc sstep y y' -> cond y' = true ->
  (forall w, wat y' w <> W_lock /\ wat y' w <> W_test) ->
  (spos y' = S_asleep -> pst y' = RUNNABLE) /\ spos y' <> S_mark /\ spos y' <> S_switch /\
  spos y' <> S_sleep /\ spos y' <> S_locked.
Proof.
  intros Hi Hr Hc Hw. pose proof (reach_inv y y' Hr (init_inv y Hi)) as I.
  assert (going y' = false) as Hg.
  { destruct (going y') eqn:E; [|done]. destruct (i_promise y' I E Hc) as (w & _ & [H|H]); by destruct (Hw w). }
  unfold going in Hg. split.
  - intros Hs. rewrite Hs in Hg. apply bool_decide_eq_false in Hg. destruct (i_state y' I Hs); done.
  - split_and!; intros Hs; try (by rewrite Hs in Hg); rewrite (i_false y' I) in Hc; tauto || done.
Qed.

(** A run: the process goes to sleep, then waker 1 runs. *)
Definition start : sys := Sys false RUNNING Nobody Nobody S_start ∅.
Definition asleep : sys := Sys false SLEEPING Nobody Nobody S_asleep ∅.
Lemma start_asleep : rtc sstep start asleep.
Proof.
  eapply rtc_l; [apply s_acquire; [by left|reflexivity]|].
  eapply rtc_l; [apply s_false; reflexivity|]. eapply rtc_l; [apply s_plock; reflexivity|].
  eapply rtc_l; [apply s_release; reflexivity|]. eapply rtc_l; [apply s_mark; reflexivity|].
  eapply rtc_l; [apply s_switch; reflexivity|]. apply rtc_refl.
Qed.
Definition woken : sys :=
  Sys true RUNNABLE Nobody Nobody S_asleep
    (<[1 := W_done]> (<[1 := W_release]> (<[1 := W_unlock]> (<[1 := W_test]> (<[1 := W_lock]> (<[1 := W_set]> ∅)))))).
Lemma asleep_woken : rtc sstep asleep woken.
Proof.
  eapply rtc_l; [apply (w_acquire asleep 1); reflexivity|]. eapply rtc_l; [apply w_set with (w := 1); reflexivity|].
  eapply rtc_l; [apply w_lock with (w := 1); reflexivity|]. eapply rtc_l; [apply w_test with (w := 1); reflexivity|].
  eapply rtc_l; [apply w_unlock with (w := 1); reflexivity|]. eapply rtc_l; [apply w_release with (w := 1); reflexivity|].
  apply rtc_refl.
Qed.

Lemma no_lost_wakeup_witness : rtc sstep start woken /\ pst woken = RUNNABLE.
Proof.
  assert (rtc sstep start woken) as Hr by (etrans; [exact start_asleep|exact asleep_woken]).
  split; [exact Hr|]. apply (no_lost_wakeup start woken).
  - split_and!; reflexivity.
  - exact Hr.
  - reflexivity.
  - intros w. unfold wat, woken. cbn [wpos]. rewrite !insert_insert_eq, lookup_insert.
    destruct (decide (1 = w)); [split; discriminate|]. rewrite lookup_empty. split; discriminate.
  - reflexivity.
Defined.
End SleepWakeup.

(** ** Properties of the table operations *)

(** Wakeup(chan) returns with exactly the processes asleep on [chan], other
    than the caller, made runnable; every other process, every other field and
    all other kernel state is unchanged, and no lock is left held. *)
Theorem wakeup_wakes_exactly_sleepers ch c s :
  proc_cpu c ->
  exists s', wakeup_on ch c s = Done tt c s' /\ s' = set_kprocs s (k_procs s') /\
    forall i, 0 <= i < NPROC ->
      (i <> curproc c /\ p_state (proc_at s i) = SLEEPING /\ p_chan (proc_at s i) = Some ch ->
         proc_at s' i = set_pstate (proc_at s i) RUNNABLE) /\
      (~ (i <> curproc c /\ p_state (proc_at s i) = SLEEPING /\ p_chan (proc_at s i) = Some ch) ->
         proc_at s' i = proc_at s i).
Proof.
  intros Hc. destruct (wakeup_on_spec ch c s Hc) as (s' & E & [T1 T2]). exists s'. split; [done|]. split; [done|].
  intros i Hi. rewrite T1. rewrite (proj2 (Z.leb_le 0 i)), (proj2 (Z.ltb_lt i NPROC)) by lia. cbn [andb].
  unfold wake1. destruct (Z.eqb_spec i (curproc c)) as [Ec|Ec]; [split; [by intros []|done]|].
  destruct (bool_decide _) eqn:Hb; [apply bool_decide_eq_true in Hb|apply bool_decide_eq_false in Hb]; split; intros H;
    tauto || done.
Qed.

(** The scheduler picks the first runnable process of the table, marks it
    running and switches to it with its lock held and interrupts off; when none
    is runnable it leaves the table and the locks as they were. *)
Theorem scheduler_picks_first_runnable c s :
  proc_cpu c ->
  match List.find (is_state RUNNABLE s) (seqZ 0 NPROC) with
  | Some i =>
      p_state (proc_at s i) = RUNNABLE /\ (forall j, 0 <= j < i -> p_state (proc_at s j) <> RUNNABLE) /\
      exists c', scheduler_scan (Z.to_nat NPROC) 0 c s = Done (Some i) c' (upd_proc i (fun p => set_pstate p RUNNING) s) /\
        curproc c' = i /\ curpid c' = p_pid (proc_at s i) /\ sie c' = false /\
        lk_cpu (lk_get (L_proc i) c') = Some (hart c)
  | None => (forall j, 0 <= j < NPROC -> p_state (proc_at s j) <> RUNNABLE) /\
      scheduler_scan (Z.to_nat NPROC) 0 c s = Done None c s
  end.
Proof.
  intros Hc. pose proof (scheduler_scan_spec c (Z.to_nat NPROC) 0 s Hc ltac:(lia) ltac:(done)) as E.
  change (Z.of_nat (Z.to_nat NPROC)) with NPROC in E. rewrite E. clear E.
  destruct (List.find _ _) as [i|] eqn:F.
  - pose proof F as [Hi Hr]%List.find_some. apply bool_decide_eq_true in Hr. split; [done|]. split.
    + assert (forall l, List.find (is_state RUNNABLE s) l = Some i -> forall l1 l2, l = l1 ++ i :: l2 -> i ∉ l1 ->
        Forall (fun j => p_state (proc_at s j) <> RUNNABLE) l1) as HF.
      { intros l Hl l1. revert l Hl. induction l1 as [|a l1 IH]; intros l Hl l2 -> Hn; [done|].
        apply not_elem_of_cons in Hn as [Hne Hn]. simpl in Hl. unfold is_state at 1 in Hl.
        case_bool_decide; [congruence|]. constructor; [done|]. by eapply IH. }
      intros j Hj. assert (seqZ 0 NPROC = seqZ 0 i ++ i :: seqZ (i + 1) (NPROC - i - 1)) as ES.
      { apply list_elem_of_In, elem_of_seqZ in Hi. replace NPROC with (i + (NPROC - i)) at 1 by lia. rewrite seqZ_app by lia. f_equal.
        rewrite seqZ_cons by lia. f_equal; f_equal; lia. }
      specialize (HF _ F _ _ ES). rewrite Forall_forall in HF. apply HF; [|apply elem_of_seqZ; lia].
      rewrite elem_of_seqZ. lia.
    + eexists. split; [done|]. split_and!; try done. unfold lk_get. cbn. by rewrite lookup_insert_eq.
  - split; [|done]. intros j Hj Hs. eapply List.find_none in F; [|apply list_elem_of_In, (elem_of_seqZ _ _ j); lia].
    unfold is_state in F. by rewrite bool_decide_eq_true_2 in F.
Qed.

(** kill(pid) marks the first process with that pid as killed and makes it
    runnable if it was asleep, so that it will notice; it fails exactly when no
    process has the pid, and then changes nothing. *)
Theorem kkill_marks_and_wakes pid c s :
  proc_cpu c ->
  match List.find (fun i => p_pid (proc_at s i) =? pid) (seqZ 0 NPROC) with
  | Some i => kkill pid c s = Done 0 c (upd_proc i kill1 s) /\ p_pid (proc_at s i) = pid /\
      p_killed (kill1 (proc_at s i)) = 1 /\ p_state (kill1 (proc_at s i)) <> SLEEPING
  | None => kkill pid c s = Done (-1) c s /\ forall i, 0 <= i < NPROC -> p_pid (proc_at s i) <> pid
  end.
Proof.
  intros Hc. pose proof (kkill_loop_spec c pid (Z.to_nat NPROC) 0 s Hc ltac:(lia) ltac:(done)) as E.
  change (Z.of_nat (Z.to_nat NPROC)) with NPROC in E. unfold kkill. rewrite E. clear E.
  destruct (List.find _ _) as [i|] eqn:F.
  - apply List.find_some in F as [_ F%Z.eqb_eq]. split; [done|]. split; [done|].
    unfold kill1. simpl. destruct (decide _); done.
  - split; [done|]. intros i Hi Hs. eapply List.find_none in F; [|apply list_elem_of_In, (elem_of_seqZ _ _ i); lia].
    by rewrite Hs, Z.eqb_refl in F.
Qed.

(** Reparent(p) hands every child of [p] to init and nothing else: afterwards
    [p] has no children (unless it is init itself), and processes that were not
    its children keep their parents. *)
Theorem reparent_leaves_no_children p c s :
  k_initproc s <> p ->
  exists c' s', reparent p c s = Done tt c' s' /\
    (forall i, 0 <= i < NPROC -> p_parent (proc_at s' i) <> Some p) /\
    (forall i, 0 <= i < NPROC -> p_parent (proc_at s i) = Some p -> p_parent (proc_at s' i) = Some (k_initproc s)) /\
    (forall i, p_parent (proc_at s i) <> Some p -> proc_at s' i = proc_at s i) /\
    s' = set_kprocs s (k_procs s').
Proof.
  intros Hne. unfold reparent.
  destruct (reparent_loop_spec p (k_initproc s) (Z.to_nat NPROC) 0 c s) as (e & s' & E & [T1 T2]); [done|lia|done|].
  exists (set_evs e c), s'. split; [done|].
  assert (forall i, 0 <= i < NPROC -> proc_at s' i = adopt p (k_initproc s) (proc_at s i)) as HT.
  { intros i Hi. rewrite T1. rewrite in_table. by rewrite (proj2 (Z.leb_le 0 i)), (proj2 (Z.ltb_lt i NPROC)) by lia. }
  split_and!; [| | |done].
  - intros i Hi. rewrite HT by done. unfold adopt. case_bool_decide as Hb; [simpl; congruence|done].
  - intros i Hi Hp. rewrite HT by done. unfold adopt. by rewrite bool_decide_eq_true_2.
  - intros i Hp. rewrite T1. destruct (_ && _); [|done]. unfold adopt. by rewrite bool_decide_eq_false_2.
Qed.

(** ** A concrete table: process 5 runs, 7 sleeps on the clock, 9 is runnable *)

Definition sb0 : superblock := SuperBlock 0 0 0 0 0 0 0 0.
Definition kst0 : kst :=
  Kst (PMem ∅ 0) (Lst (Bio ∅ []) log_init) sb0 ∅ ∅ ∅ ∅ 1 1 (Console (replicate 128 0) 0 0 0) false 0.
Definition proc_ctx : ctx := match procinit ctx0 kst0 with Done _ c _ => c | _ => ctx0 end.
Definition procs0 : gmap Z proc :=
  <[5 := set_ppid (set_pstate proc0 RUNNING) 6]>
  (<[7 := set_pparent (set_ppid (set_pchan (set_pstate proc0 SLEEPING) (Some C_ticks)) 8) (Some 5)]>
  (<[9 := set_ppid (set_pstate proc0 RUNNABLE) 10]> ∅)).
Definition kst1 : kst := set_kprocs kst0 procs0.

Lemma proc_ctx_cpu : proc_cpu proc_ctx.
Proof.
  split; [split; vm_compute; congruence|]. intros i Hi. exists "proc"%string.
  assert (Forall (fun i => locks proc_ctx !! L_proc i = Some (Spinlock 0 "proc" None)) (seqZ 0 NPROC)) as F
    by (vm_compute; repeat constructor).
  rewrite Forall_forall in F. apply F, elem_of_seqZ. lia.
Qed.

Lemma wakeup_wakes_exactly_sleepers_witness :
  exists s', wakeup_on C_ticks proc_ctx kst1 = Done tt proc_ctx s' /\ p_state (proc_at s' 7) = RUNNABLE.
Proof.
  destruct (wakeup_wakes_exactly_sleepers C_ticks proc_ctx kst1 proc_ctx_cpu) as (s' & E & _ & H).
  exists s'. split; [exact E|]. rewrite (proj1 (H 7 ltac:(split; reflexivity || (intro; discriminate)))); [reflexivity|].
  vm_compute. split; [discriminate|]. split; reflexivity.
Defined.

Lemma scheduler_picks_first_runnable_witness :
  exists c', scheduler_scan (Z.to_nat NPROC) 0 proc_ctx kst1 =
    Done (Some 9) c' (upd_proc 9 (fun p => set_pstate p RUNNING) kst1) /\ curproc c' = 9.
Proof.
  pose proof (scheduler_picks_first_runnable proc_ctx kst1 proc_ctx_cpu) as H.
  assert (List.find (is_state RUNNABLE kst1) (seqZ 0 NPROC) = Some 9) as E by (vm_compute; reflexivity).
  rewrite E in H. destruct H as (_ & _ & c' & H1 & H2 & _). exists c'. exact (conj H1 H2).
Defined.

Lemma kkill_marks_and_wakes_witness :
  kkill 8 proc_ctx kst1 = Done 0 proc_ctx (upd_proc 7 kill1 kst1) /\ p_state (kill1 (proc_at kst1 7)) = RUNNABLE.
Proof.
  pose proof (kkill_marks_and_wakes 8 proc_ctx kst1 proc_ctx_cpu) as H.
  assert (List.find (fun i => p_pid (proc_at kst1 i) =? 8) (seqZ 0 NPROC) = Some 7) as E by (vm_compute; reflexivity).
  rewrite E in H. split; [exact (proj1 H)|]. vm_compute. reflexivity.
Defined.

Lemma reparent_leaves_no_children_witness :
  exists c' s', reparent 5 proc_ctx kst1 = Done tt c' s' /\ p_parent (proc_at s' 7) = Some 1.
Proof.
  destruct (reparent_leaves_no_children 5 proc_ctx kst1) as (c' & s' & E & _ & H & _).
  - vm_compute. discriminate.
  - exists c', s'. split; [exact E|]. apply (H 7); [split; reflexivity || (intro; discriminate)|].
    vm_compute. reflexivity.
Defined.
