(* ===== verification/ProcSpace.v ===== *)
(** * The life of a process's address space (theorems on Proc.v)

    [proc_pagetable] makes the table of a new process, with the trampoline and
    the trap frame at the top; [uvmcopy] fills it when the process is forked;
    [proc_freepagetable] takes it apart when the process is gone.  Over such a
    life, errors included, every page returns to the allocator. *)
From stdpp Require Import base numbers list gmap strings.
From S2P Require Import Prelude Kernel Spinlock Str Riscv Kalloc Vm Kstate Proc Table PageTable UserVm Freewalk UserSpace.

Section ProcSpace.
Variables (end_ : Z) (c : ctx).
Hypothesis end_pos : 0 < end_.
Hypotheses (Hok : cpu_ok c) (Hul : unlocked L_kmem c).
(** Memory and the free list when the life begins. *)
Variables (s0 : pmem) (fl0 : list Z).

(** The pages lent so far: nodes of the table and the frames [l]. *)
Record lends (root : Z) (l : list Z) (s : pmem) (fl : list Z) (nodes : gmap (list Z) Z) : Prop := {
  ld_vm : vm_ok end_ s fl root nodes;
  ld_pages : accounted end_ fl0 ∅ fl nodes l;
  ld_kept : forall b, (forall p, p ∈ fl0 -> ~ in_page p b) -> load8 (memory s) b = load8 (memory s0) b;
}.

(** All of them returned. *)
Definition settled (s : pmem) : Prop := exists fl, kmem_rep end_ s fl /\ (forall p, p ∈ fl <-> p ∈ fl0) /\
  forall b, (forall p, p ∈ fl0 -> ~ in_page p b) -> load8 (memory s) b = load8 (memory s0) b.

Lemma no_node p : ~ is_node ∅ p.
Proof. intros [π H]. by rewrite lookup_empty in H. Qed.

Lemma lent_page root l s fl nodes p : lends root l s fl nodes -> p ∈ fl \/ is_node nodes p \/ p ∈ l -> p ∈ fl0.
Proof. intros [_ [H _] _] Hp%H. destruct Hp as [Hp|Hp]; [done|]. by apply no_node in Hp. Qed.

Lemma lends_start root s fl : (forall p, p ∈ fl0 <-> p = root \/ p ∈ fl) -> same_but root (memory s0) (memory s) ->
  vm_ok end_ s fl root {[ [] := root ]} -> lends root [] s fl {[ [] := root ]}.
Proof.
  intros Hfl Hs Hv. split; [done| |].
  - split; [|apply owned_nil]. intros p. rewrite Hfl, elem_of_nil. split.
    + intros [[->|H]|H]; [right; left; exists []; by rewrite lookup_singleton_eq|by left|by apply no_node in H].
    + intros [H|[[π H]|H]]; [by left; right| |done]. apply lookup_singleton_Some in H as [_ ->]. by left; left.
  - intros b Hb. apply Hs, Hb, Hfl. by left.
Qed.

Lemma lends_grown root s fl nodes s' fl' nodes' : lends root [] s fl nodes ->
  vm_ok end_ s' fl' root nodes' -> grown s fl nodes s' fl' nodes' -> lends root [] s' fl' nodes'.
Proof.
  intros L Hv G. pose proof (gr_fl _ _ _ _ _ _ G) as (u & -> & Hu). split; [done| |].
  - split; [|apply owned_nil]. intros p. rewrite (ac_pages _ _ _ _ _ _ (ld_pages _ _ _ _ _ L) p), elem_of_app, Hu. tauto.
  - intros b Hb. rewrite (gr_mem _ _ _ _ _ _ G); [by apply L|]. intros p Hp. apply Hb.
    apply (lent_page _ _ _ _ _ p L). apply Hu in Hp as [Hp|Hp]; [by right; left|left]. apply elem_of_app. by left.
Qed.

(** Unmapping a page that is not to be freed lends nothing. *)
Lemma lends_unmap root n s fl nodes k : lends root (frames (memory s) nodes 0 n) s fl nodes ->
  Z.of_nat n <= k -> PGSIZE * (k + 1) <= MAXVA ->
  exists s', uvmunmap end_ root (PGSIZE * k) 1 false c s = Done tt c s' /\
    lends root (frames (memory s') nodes 0 n) s' fl nodes /\ cleared (memory s) nodes k 1 (memory s').
Proof.
  intros L Hn Hmax. pose proof L as [Hv Ha Hk].
  destruct (uvmunmap_spec end_ end_pos c s fl root nodes false k 1 Hok Hul Hv) as (s' & E & Hv' & Hc & Hm);
    [lia|exact Hmax|apply owned_nil|]. exists s'. split; [exact E|]. split; [|exact Hc].
  assert (frames (memory s') nodes 0 n = frames (memory s) nodes 0 n) as Ef.
  { apply (frames_cleared (memory s) nodes k 0 1); [exact Hc|lia|unfold PGSIZE in *; lia|lia]. }
  rewrite Ef. split; [exact Hv'|exact Ha|]. intros b Hb. rewrite Hm; [by apply Hk|]. intros p [Hp|Hp]; [|by apply elem_of_nil in Hp].
  apply Hb, (lent_page _ _ _ _ _ p L). by right; left.
Qed.

Lemma lends_free root n sz s fl nodes : lends root (frames (memory s) nodes 0 n) s fl nodes ->
  covers n sz -> PGSIZE * Z.of_nat n <= MAXVA ->
  (forall va, PGSIZE * Z.of_nat n <= va < MAXVA -> flag (pte_of (memory s) nodes va) PTE_V = false) ->
  exists s', uvmfree end_ root sz c s = Done tt c s' /\ settled s'.
Proof.
  intros L Hc Hmax Hinv. pose proof L as [Hv [Hp Ho] Hk].
  destruct (uvmfree_spec end_ c s fl root nodes sz n end_pos Hok Hul Hv Hc Hmax Ho Hinv) as (s' & fl' & E & Hk' & Hfl & Hm).
  exists s'. split; [exact E|]. exists fl'. split_and!; [exact Hk'| |].
  - intros q. rewrite Hfl, <- Hp. split; [intros [H|H]; [done|by apply no_node in H]|by left].
  - intros b Hb. rewrite Hm; [by apply Hk|]. intros p Hp'. apply Hb, (lent_page _ _ _ _ _ p L). tauto.
Qed.

(** ** proc_freepagetable *)

Variable k : kst.

Lemma zoom_mem {A} (m : K pmem A) s x s' :
  m c s = Done x c s' -> zoom memA m c (set_kmem k s) = Done x c (set_kmem k s').
Proof. intros H. exact (zoom_done memA m c (set_kmem k s) x c s' H). Qed.

Definition top_page : Z := 2 ^ 26 - 1.

Lemma proc_freepagetable_spec root n sz s fl nodes : lends root (frames (memory s) nodes 0 n) s fl nodes ->
  covers n sz -> PGSIZE * Z.of_nat n <= TRAPFRAME ->
  (forall va, PGSIZE * Z.of_nat n <= va < TRAPFRAME -> flag (pte_of (memory s) nodes va) PTE_V = false) ->
  exists s', proc_freepagetable end_ root sz c (set_kmem k s) = Done tt c (set_kmem k s') /\ settled s'.
Proof.
  intros L Hc Hn Hinv. assert (TRAPFRAME = PGSIZE * (top_page - 1)) as EF by reflexivity.
  assert (TRAMPOLINE = PGSIZE * top_page) as ET by reflexivity.
  assert (MAXVA = PGSIZE * (top_page + 1)) as EM by reflexivity.
  destruct (lends_unmap root n s fl nodes top_page L) as (s1 & E1 & L1 & C1); [unfold PGSIZE in *; lia|lia|].
  destruct (lends_unmap root n s1 fl nodes (top_page - 1) L1) as (s2 & E2 & L2 & C2);
    [unfold PGSIZE in *; lia|unfold PGSIZE in *; lia|].
  destruct (lends_free root n sz s2 fl nodes L2 Hc) as (s3 & E3 & Hs); [unfold PGSIZE in *; lia| |].
  - intros va Hva. assert (0 <= va < MAXVA) as Hva' by (unfold PGSIZE in *; lia).
    rewrite (C2 va Hva'), (C1 va Hva'). unfold PGSIZE in *.
    destruct (decide (va < 4096 * (top_page - 1))) as [Hlt|Hge].
    + rewrite !bool_decide_eq_false_2 by lia. cbn [andb]. apply Hinv. lia.
    + destruct (decide (va < 4096 * top_page)) as [Hlt|Hge'].
      * rewrite (bool_decide_eq_false_2 (4096 * top_page <= va < _)) by lia.
        rewrite (bool_decide_eq_true_2 (4096 * (top_page - 1) <= va < _)) by lia. cbn [andb].
        destruct (flag (pte_of (memory s) nodes va) PTE_V) eqn:Ef; [apply flag_zero|done].
      * rewrite (bool_decide_eq_false_2 (4096 * (top_page - 1) <= va < _)) by lia.
        rewrite (bool_decide_eq_true_2 (4096 * top_page <= va < _)) by lia. cbn [andb].
        destruct (flag (pte_of (memory s) nodes va) PTE_V) eqn:Ef; [apply flag_zero|done].
  - exists s3. split; [|exact Hs]. unfold proc_freepagetable. rewrite ET, EF.
    rewrite (bind_done _ _ _ _ _ _ _ (zoom_mem _ _ _ _ E1)), (bind_done _ _ _ _ _ _ _ (zoom_mem _ _ _ _ E2)).
    exact (zoom_mem _ _ _ _ E3).
Qed.

(** ** proc_pagetable *)

(** Mapping one page at page number [j]. *)
Lemma lends_map root s fl nodes j pa perm : lends root [] s fl nodes -> 0 <= j -> PGSIZE * (j + 1) <= MAXVA ->
  0 <= pa -> pa + PGSIZE <= 2 ^ 56 -> pa mod PGSIZE = 0 -> 0 <= perm < 1024 ->
  (forall va, PGSIZE * j <= va < PGSIZE * (j + 1) -> flag (pte_of (memory s) nodes va) PTE_V = false) ->
  exists r s' fl' nodes', mappages root (PGSIZE * j) PGSIZE pa perm c s = Done r c s' /\
    lends root [] s' fl' nodes' /\ (length fl <= length fl' + 2)%nat /\
    (forall va, 0 <= va < MAXVA -> ~ (PGSIZE * j <= va < PGSIZE * (j + 1)) ->
       pte_of (memory s') nodes' va = pte_of (memory s) nodes va) /\
    (r = 0 /\ (forall va, PGSIZE * j <= va < PGSIZE * (j + 1) -> pte_of (memory s') nodes' va = mk_pte pa perm) \/
     r = -1 /\ fl' = [] /\ forall va, PGSIZE * j <= va < PGSIZE * (j + 1) ->
       pte_of (memory s') nodes' va = pte_of (memory s) nodes va).
Proof.
  intros L Hj Hmax Hpa Hpm Hpaa Hperm Hinv.
  destruct (mappages_spec end_ end_pos c s fl root nodes (PGSIZE * j) PGSIZE pa perm Hok Hul (ld_vm _ _ _ _ _ L))
    as (r & s' & fl' & nodes' & i & E & Hv' & G & Hlen & Hr & Hi);
    [done|done|unfold PGSIZE; lia|unfold PGSIZE in *; lia|rewrite Z.mul_comm; by apply Z.mod_mul|done|done|done|done| |].
  { intros a Ha. apply Hinv. unfold PGSIZE in *. lia. }
  exists r, s', fl', nodes'. split; [exact E|]. split; [by apply (lends_grown root s fl nodes)|].
  split; [rewrite Z.div_same in Hlen by done; lia|].
  assert (i = 1%nat /\ r = 0 \/ i = 0%nat /\ r = -1 /\ fl' = []) as Hcase.
  { unfold PGSIZE in Hi. destruct Hi as [[-> ?]|(-> & ? & ->)]; [left; split; [lia|done]|right; split_and!; [lia|done|done]]. }
  unfold PGSIZE in *. split.
  - intros va Hva Hout. rewrite Hr by done. rewrite bool_decide_eq_false_2; [done|]. unfold PGSIZE. destruct Hcase as [[-> _]|[-> _]]; lia.
  - destruct Hcase as [[-> ->]|(-> & -> & ->)]; [left; split; [done|]|right; split_and!; [done|done|]].
    + intros va Hva. rewrite Hr by lia. rewrite bool_decide_eq_true_2 by (unfold PGSIZE; lia). f_equal.
      unfold PGSIZE. assert (va mod 4096 = va - 4096 * j); [|lia]. symmetry. apply Z.mod_unique with j; lia.
    + intros va Hva. rewrite Hr by lia. rewrite bool_decide_eq_false_2; [done|]. unfold PGSIZE. lia.
Qed.

Variables (trampoline trapframe : Z).
Hypothesis Htramp : 0 <= trampoline /\ trampoline + PGSIZE <= 2 ^ 56 /\ trampoline mod PGSIZE = 0.
Hypothesis Hframe : page end_ trapframe.

(** The table [proc_pagetable] makes: the two top pages and nothing else. *)
Definition fresh_table (m : mem) (nodes : gmap (list Z) Z) : Prop :=
  (forall va, 0 <= va < TRAPFRAME -> flag (pte_of m nodes va) PTE_V = false) /\
  (forall va, TRAPFRAME <= va < TRAMPOLINE -> pte_of m nodes va = mk_pte trapframe (Z.lor PTE_R PTE_W)) /\
  (forall va, TRAMPOLINE <= va < MAXVA -> pte_of m nodes va = mk_pte trampoline (Z.lor PTE_R PTE_X)).

Lemma covers_0 : covers 0 0.
Proof. unfold covers, PGSIZE. lia. Qed.

Lemma free_empty root s fl nodes : lends root [] s fl nodes ->
  (forall va, 0 <= va < MAXVA -> flag (pte_of (memory s) nodes va) PTE_V = false) ->
  exists s', uvmfree end_ root 0 c s = Done tt c s' /\ settled s'.
Proof. intros L Hinv. apply (lends_free root 0 0 s fl nodes L covers_0); [discriminate|exact Hinv]. Qed.

Lemma pagetable_rest root s1 fl1 : (length fl0 <= length fl1 + 1)%nat -> 0 < root -> lends root [] s1 fl1 {[ [] := root ]} ->
  (forall va, pte_of (memory s1) {[ [] := root ]} va = 0) ->
  exists pt s', (r ← zoom memA (mappages root TRAMPOLINE PGSIZE trampoline (Z.lor PTE_R PTE_X));
    if r <? 0 then zoom memA (uvmfree end_ root 0);; mret 0
    else r ← zoom memA (mappages root TRAPFRAME PGSIZE trapframe (Z.lor PTE_R PTE_W));
      if r <? 0 then zoom memA (uvmunmap end_ root TRAMPOLINE 1 false);; zoom memA (uvmfree end_ root 0);; mret 0
      else mret root) c (set_kmem k s1) = Done pt c (set_kmem k s') /\
    (pt = 0 /\ (length fl0 <= 5)%nat /\ settled s' \/
     0 < pt /\ exists fl' nodes', lends pt [] s' fl' nodes' /\ fresh_table (memory s') nodes' /\
       (length fl0 <= length fl' + 5)%nat).
Proof.
  intros Hlen Hroot L1 Hz. assert (TRAPFRAME = PGSIZE * (top_page - 1)) as EF by reflexivity.
  assert (TRAMPOLINE = PGSIZE * top_page) as ET by reflexivity.
  assert (MAXVA = PGSIZE * (top_page + 1)) as EM by reflexivity.
  assert (0 < top_page - 1) as Htop by reflexivity.
  destruct (page_range end_ end_pos trapframe Hframe) as (Hf0 & Hfa & Hfe). assert (PHYSTOP < 2 ^ 56) as HP by reflexivity.
  unfold fresh_table. rewrite EM, EF, ET.
  destruct (lends_map root s1 fl1 {[ [] := root ]} top_page trampoline (Z.lor PTE_R PTE_X) L1)
    as (r & s2 & fl2 & n2 & E2 & L2 & Hl2 & Hout2 & Hr);
    [lia|lia|apply Htramp|apply Htramp|apply Htramp|split; [discriminate|reflexivity]|intros va _; rewrite Hz; apply flag_zero|].
  rewrite (bind_done _ _ _ _ _ _ _ (zoom_mem _ _ _ _ E2)). clear E2. rewrite EM in Hout2.
  destruct Hr as [[-> Hin2]|(-> & -> & Hin2)]; cbn [Z.ltb Z.compare].
  2:{ destruct (free_empty root s2 [] n2 L2) as (s3 & E3 & Hs).
      { intros va Hva. rewrite EM in Hva. destruct (decide (PGSIZE * top_page <= va)); [rewrite Hin2 by lia|rewrite Hout2 by lia]; rewrite Hz; apply flag_zero. }
      exists 0, s3. split; [rewrite (bind_done _ _ _ _ _ _ _ (zoom_mem _ _ _ _ E3)); reflexivity|].
      left. simpl in Hl2. split; [reflexivity|split; [lia|exact Hs]]. }
  assert (forall va, 0 <= va < PGSIZE * top_page -> flag (pte_of (memory s2) n2 va) PTE_V = false) as Hz2.
  { intros va Hva. rewrite Hout2 by (unfold PGSIZE in *; lia). rewrite Hz. apply flag_zero. }
  destruct (lends_map root s2 fl2 n2 (top_page - 1) trapframe (Z.lor PTE_R PTE_W) L2)
    as (r & s3 & fl3 & n3 & E3 & L3 & Hl3 & Hout3 & Hr);
    [lia|unfold PGSIZE in *; lia|lia|lia|exact Hfa|split; [discriminate|reflexivity]|intros va Hva; apply Hz2; unfold PGSIZE in *; lia|].
  rewrite (bind_done _ _ _ _ _ _ _ (zoom_mem _ _ _ _ E3)). clear E3. rewrite EM in Hout3.
  replace (top_page - 1 + 1) with top_page in * by lia.
  destruct Hr as [[-> Hin3]|(-> & -> & Hin3)]; cbn [Z.ltb Z.compare].
  - exists root, s3. split; [reflexivity|]. right. split; [exact Hroot|]. exists fl3, n3. split; [exact L3|]. split; [|lia].
    split; [|split; [exact Hin3|]].
    + intros va Hva. rewrite Hout3 by (unfold PGSIZE in *; lia). apply Hz2. unfold PGSIZE in *; lia.
    + intros va Hva. rewrite Hout3 by (unfold PGSIZE in *; lia). apply Hin2. lia.
  - destruct (lends_unmap root 0 s3 [] n3 top_page L3) as (s4 & E4 & L4 & C4); [lia|lia|].
    destruct (free_empty root s4 [] n3 L4) as (s5 & E5 & Hs).
    { intros va Hva. rewrite (C4 va Hva). rewrite EM in Hva. destruct (decide (PGSIZE * top_page <= va)).
      - rewrite bool_decide_eq_true_2 by (unfold PGSIZE in *; lia). cbn [andb].
        destruct (flag (pte_of (memory s3) n3 va) PTE_V) eqn:Ef; [apply flag_zero|exact Ef].
      - rewrite bool_decide_eq_false_2 by lia. cbn [andb]. destruct (decide (PGSIZE * (top_page - 1) <= va)).
        + rewrite Hin3 by lia. apply Hz2. lia.
        + rewrite Hout3 by lia. apply Hz2. lia. }
    exists 0, s5. split.
    + rewrite (bind_done _ _ _ _ _ _ _ (zoom_mem _ _ _ _ E4)), (bind_done _ _ _ _ _ _ _ (zoom_mem _ _ _ _ E5)). reflexivity.
    + left. simpl in Hl3. split; [reflexivity|split; [lia|exact Hs]].
Qed.

Hypothesis Hk0 : kmem_rep end_ s0 fl0.

Lemma proc_pagetable_spec : exists pt s',
  proc_pagetable end_ trampoline trapframe c (set_kmem k s0) = Done pt c (set_kmem k s') /\
  (pt = 0 /\ (length fl0 <= 5)%nat /\ settled s' \/
   0 < pt /\ exists fl' nodes', lends pt [] s' fl' nodes' /\ fresh_table (memory s') nodes' /\
     (length fl0 <= length fl' + 5)%nat).
Proof.
  unfold proc_pagetable. destruct fl0 as [|x fl] eqn:Efl.
  - exists 0, s0. split.
    + assert (uvmcreate c s0 = Done 0 c s0) as E.
      { unfold uvmcreate. rewrite (bind_done _ _ _ _ _ _ _ (kalloc_empty end_ c s0 Hok Hul Hk0)). reflexivity. }
      rewrite (bind_done _ _ _ _ _ _ _ (zoom_mem _ _ _ _ E)). reflexivity.
    + left. split; [done|]. split; [simpl; lia|]. exists []. by rewrite Efl.
  - destruct (uvmcreate_spec end_ end_pos c s0 x fl Hok Hul Hk0) as (s1 & E1 & Hv1 & Hz & Hs).
    rewrite (bind_done _ _ _ _ _ _ _ (zoom_mem _ _ _ _ E1)). clear E1.
    assert (0 < x) as Hx.
    { apply (page_pos end_ end_pos), (pr_page _ _ _ _ (vo_pt _ _ _ _ _ Hv1) []), lookup_singleton_eq. }
    rewrite (proj2 (Z.eqb_neq x 0)) by lia. rewrite <- Efl. apply (pagetable_rest x s1 fl); [rewrite Efl; simpl; lia|done| |done].
    apply lends_start; [|done|done]. intros p. by rewrite Efl, elem_of_cons.
Qed.

(** ** The whole life *)

Variables (old sz : Z) (np : nat) (nodesO : gmap (list Z) Z).
Hypothesis Hsz : covers np sz.
Hypothesis Hmax : PGSIZE * Z.of_nat np <= TRAPFRAME.
Hypothesis Hold : pt_rep end_ (memory s0) old nodesO.
Hypothesis Hapart : forall p, is_node nodesO p \/ p ∈ frames (memory s0) nodesO 0 np -> page end_ p /\ p ∉ fl0.

(** The parent's memory is outside what is lent. *)
Lemma parent_same s : (forall b, (forall p, p ∈ fl0 -> ~ in_page p b) -> load8 (memory s) b = load8 (memory s0) b) ->
  nodes_same nodesO (memory s0) (memory s) /\
  forall va, 0 <= va < PGSIZE * Z.of_nat np -> view (memory s) nodesO va = view (memory s0) nodesO va.
Proof.
  intros Hk. pose proof (chain_pages _ _ _ _ (kr_chain _ _ _ Hk0)) as Hpg. rewrite Forall_forall in Hpg.
  assert (forall p b, is_node nodesO p \/ p ∈ frames (memory s0) nodesO 0 np -> in_page p b ->
    load8 (memory s) b = load8 (memory s0) b) as Hb.
  { intros p b Hp Hin. destruct (Hapart p Hp) as [Hpp Hpf]. apply Hk. intros q Hq.
    apply (page_disjoint end_ p q); [done|by apply Hpg|by intros ->|done]. }
  assert (nodes_same nodesO (memory s0) (memory s)) as Hns by (intros p b Hp; apply Hb; by left).
  split; [done|]. intros va Hva. unfold view, pa_of. rewrite (pte_of_same nodesO _ _ va Hns).
  destruct (flag (pte_of (memory s0) nodesO va) PTE_V) eqn:Ef; [|done]. do 2 f_equal.
  apply (Hb (PTE2PA (pte_of (memory s0) nodesO va))); [right|apply in_frame].
  apply (in_frames 0); [unfold PGSIZE in *; lia|done].
Qed.

Lemma lends_copied pt s fl nodes s' fl' nodes' l : lends pt [] s fl nodes -> vm_ok end_ s' fl' pt nodes' ->
  accounted end_ fl nodes fl' nodes' l ->
  (forall b, (forall p, p ∈ fl \/ is_node nodes p -> ~ in_page p b) -> load8 (memory s') b = load8 (memory s) b) ->
  lends pt l s' fl' nodes'.
Proof.
  intros L Hv [Hp Ho] Hk. split; [done| |].
  - split; [|done]. intros p. rewrite (ac_pages _ _ _ _ _ _ (ld_pages _ _ _ _ _ L) p), <- Hp, elem_of_nil. tauto.
  - intros b Hb. rewrite Hk; [by apply L|]. intros p Hin. apply Hb, (lent_page _ _ _ _ _ p L). tauto.
Qed.

(** [uvmcopy] into a fresh table, then [proc_freepagetable] with the size the
    child has by then. *)
Lemma copy_then_free pt s1 fl1 n1 : lends pt [] s1 fl1 n1 -> fresh_table (memory s1) n1 ->
  exists r s2 s3, zoom memA (uvmcopy end_ old pt sz) c (set_kmem k s1) = Done r c (set_kmem k s2) /\
    (r = 0 /\ (exists n2, pt_rep end_ (memory s2) pt n2 /\
       forall va, 0 <= va < PGSIZE * Z.of_nat np -> view (memory s2) n2 va = view (memory s0) nodesO va) \/
     r = -1 /\ (length fl1 <= 3 * np)%nat) /\
    proc_freepagetable end_ pt (if r =? 0 then sz else 0) c (set_kmem k s2) = Done tt c (set_kmem k s3) /\ settled s3.
Proof.
  intros L1 [Hlow _]. assert (TRAPFRAME < MAXVA) as HTM by reflexivity.
  destruct (parent_same s1 (ld_kept _ _ _ _ _ L1)) as [Hns Hview].
  assert (frames (memory s1) nodesO 0 np = frames (memory s0) nodesO 0 np) as Efr.
  { apply frames_ext. intros i _. by apply pte_of_same. }
  destruct (uvmcopy_copies_space end_ c old pt sz np nodesO s1 fl1 n1 end_pos Hok Hul Hsz ltac:(lia))
    as (r & s2 & fl2 & n2 & E2 & Hv2 & _ & _ & Habove & Hkept & Hr).
  { by apply (pt_rep_same end_ nodesO (memory s0)). }
  { apply (ld_vm _ _ _ _ _ L1). }
  { intros va Hva. apply Hlow. lia. }
  { intros p Hp. rewrite Efr in Hp. destruct (Hapart p Hp) as [Hpp Hpf]. split; [done|].
    split; intros Hin; apply Hpf, (lent_page _ _ _ _ _ p L1); tauto. }
  assert (forall va, PGSIZE * Z.of_nat np <= va < TRAPFRAME -> flag (pte_of (memory s2) n2 va) PTE_V = false) as Hmid.
  { intros va Hva. pose proof (Habove va ltac:(lia)) as H. unfold live in H. rewrite Hlow in H by (unfold PGSIZE in *; lia).
    by destruct (flag (pte_of (memory s2) n2 va) PTE_V). }
  exists r, s2. destruct Hr as [(-> & Hch & Hac)|(-> & Hlen & Hch & Hac)].
  - destruct (proc_freepagetable_spec pt np sz s2 fl2 n2) as (s3 & E3 & Hs); [by eapply lends_copied|done|done|done|].
    exists s3. split; [exact (zoom_mem _ _ _ _ E2)|]. split; [left; split; [reflexivity|]|split; [exact E3|exact Hs]].
    exists n2. split; [apply (vo_pt _ _ _ _ _ Hv2)|]. intros va Hva. rewrite Hch by exact Hva. by apply Hview.
  - destruct (proc_freepagetable_spec pt 0 0 s2 fl2 n2) as (s3 & E3 & Hs);
      [by eapply lends_copied|apply covers_0|discriminate| |].
    { intros va Hva. destruct (decide (va < PGSIZE * Z.of_nat np)) as [Hlt|Hge]; [|apply Hmid; lia].
      pose proof (Hch va ltac:(lia)) as H. unfold view in H. by destruct (flag (pte_of (memory s2) n2 va) PTE_V). }
    exists s3. split; [exact (zoom_mem _ _ _ _ E2)|]. split; [right; split; [reflexivity|exact Hlen]|split; [exact E3|exact Hs]].
Qed.
End ProcSpace.

(** C8: over the life of a forked process's address space, as [kfork] and
    [freeproc] go through it (make the table, copy the parent's memory, take
    the table apart with the size recorded by then), nothing panics; the child
    sees the parent's memory unless pages ran out, and at the end of every
    path, errors included, the free list holds exactly the pages it held before
    and the parent sees what it saw. *)
Theorem fork_space_lifecycle end_ c k fl trampoline trapframe old sz np nodesO :
  0 < end_ -> cpu_ok c -> unlocked L_kmem c -> kmem_rep end_ (k_mem k) fl ->
  0 <= trampoline /\ trampoline + PGSIZE <= 2 ^ 56 /\ trampoline mod PGSIZE = 0 -> page end_ trapframe ->
  covers np sz -> PGSIZE * Z.of_nat np <= TRAPFRAME -> pt_rep end_ (memory (k_mem k)) old nodesO ->
  (forall p, is_node nodesO p \/ p ∈ frames (memory (k_mem k)) nodesO 0 np -> page end_ p /\ p ∉ fl) ->
  let done_with s := settled end_ (k_mem k) fl s /\ pt_rep end_ (memory s) old nodesO /\
    forall va, 0 <= va < PGSIZE * Z.of_nat np -> view (memory s) nodesO va = view (memory (k_mem k)) nodesO va in
  exists pt s1, proc_pagetable end_ trampoline trapframe c k = Done pt c (set_kmem k s1) /\
    (pt = 0 /\ (length fl <= 5)%nat /\ done_with s1 \/
     0 < pt /\ exists r s2 s3,
       zoom memA (uvmcopy end_ old pt sz) c (set_kmem k s1) = Done r c (set_kmem k s2) /\
       (r = 0 /\ (exists nodes, pt_rep end_ (memory s2) pt nodes /\
          forall va, 0 <= va < PGSIZE * Z.of_nat np -> view (memory s2) nodes va = view (memory (k_mem k)) nodesO va) \/
        r = -1 /\ (length fl <= 3 * np + 5)%nat) /\
       proc_freepagetable end_ pt (if r =? 0 then sz else 0) c (set_kmem k s2) = Done tt c (set_kmem k s3) /\
       done_with s3).
Proof.
  intros He Hok Hul Hk Ht Hf Hsz Hmax Hold Hap done_with.
  assert (forall s, settled end_ (k_mem k) fl s -> done_with s) as Hdone.
  { intros s Hs. pose proof Hs as (fl' & _ & _ & Hkept).
    destruct (parent_same end_ (k_mem k) fl Hk np nodesO Hap s Hkept) as [Hns Hv].
    split; [exact Hs|]. split; [by apply (pt_rep_same end_ nodesO (memory (k_mem k)))|exact Hv]. }
  destruct (proc_pagetable_spec end_ c He Hok Hul (k_mem k) fl k trampoline trapframe Ht Hf Hk)
    as (pt & s1 & E1 & H1).
  replace (set_kmem k (k_mem k)) with k in E1 by (by destruct k).
  exists pt, s1. split; [exact E1|].
  destruct H1 as [(-> & Hlen & Hs)|(Hpt & fl1 & n1 & L1 & Hfresh & Hlen)]; [left|right].
  { split; [reflexivity|]. split; [exact Hlen|by apply Hdone]. }
  destruct (copy_then_free end_ c He Hok Hul (k_mem k) fl k trampoline trapframe Ht Hk old sz np nodesO Hsz Hmax Hold Hap
    pt s1 fl1 n1 L1 Hfresh) as (r & s2 & s3 & E2 & Hr & E3 & Hs).
  split; [exact Hpt|]. exists r, s2, s3. split; [exact E2|]. split; [|split; [exact E3|by apply Hdone]].
  destruct Hr as [Hr|[-> Hr]]; [by left|right]. split; [reflexivity|lia].
Qed.

Lemma fork_space_lifecycle_witness : exists k old pt s1 s2 s3,
  proc_pagetable end24 0x80007000 end24 ctx0 k = Done pt ctx0 (set_kmem k s1) /\
  zoom memA (uvmcopy end24 old pt PGSIZE) ctx0 (set_kmem k s1) = Done 0 ctx0 (set_kmem k s2) /\
  proc_freepagetable end24 pt PGSIZE ctx0 (set_kmem k s2) = Done tt ctx0 (set_kmem k s3).
Proof.
  destruct one_page as (s & fl & old & nodesO & Hv & Hlen & Ho & _). assert (0 < end24) as He by reflexivity.
  pose proof (vo_pt _ _ _ _ _ Hv) as Hr.
  destruct (fork_space_lifecycle end24 ctx0 (set_kmem kst0 s) fl 0x80007000 end24 old PGSIZE 1 nodesO He ctx0_ok ctx0_unlocked)
    as (pt & s1 & E1 & H); [exact (vo_kmem _ _ _ _ _ Hv)| | |exact covers_page|discriminate|exact Hr| |].
  - split; [discriminate|split; [discriminate|reflexivity]].
  - split; [reflexivity|split; [discriminate|reflexivity]].
  - intros p Hp. cbn [k_mem set_kmem] in Hp. destruct Hp as [[π H]|H].
    + split; [exact (proj1 (pr_page _ _ _ _ Hr _ _ H))|exact (vo_free _ _ _ _ _ Hv _ _ H)].
    + split; [exact (ow_page _ _ _ _ Ho p H)|exact (ow_free _ _ _ _ Ho p H)].
  - destruct H as [(_ & Hl & _)|(_ & r & s2 & s3 & E2 & Hr' & E3 & _)]; [lia|].
    assert (r = 0) as -> by (destruct Hr' as [[-> _]|[_ Hl]]; [reflexivity|lia]).
    eexists (set_kmem kst0 s), old, pt, s1, s2, s3. split; [exact E1|]. split; [exact E2|exact E3].
Defined.
