(* ===== verification/Pipe.v ===== *)
(** * Pipes (kernel/pipe.c)

    A pipe is a ring of PIPESIZE bytes with two free-running 32-bit counters.
    The functions of pipe.c, except pipealloc, which needs the file table. *)
From stdpp Require Import base numbers list gmap strings.
From S2P Require Import Prelude Kernel Spinlock Sleeplock Str Riscv Kalloc Vm Bio Log Printf Kstate Proc.

Definition set_nread (x : Z) (p : pipe) : pipe := Pipe (pi_data p) x (pi_nwrite p) (pi_readopen p) (pi_writeopen p).
Definition set_nwrite (x : Z) (p : pipe) : pipe := Pipe (pi_data p) (pi_nread p) x (pi_readopen p) (pi_writeopen p).
Definition set_pdata (i x : Z) (p : pipe) : pipe :=
  Pipe (<[Z.to_nat i := x]> (pi_data p)) (pi_nread p) (pi_nwrite p) (pi_readopen p) (pi_writeopen p).
Definition set_readopen (x : bool) (p : pipe) : pipe := Pipe (pi_data p) (pi_nread p) (pi_nwrite p) x (pi_writeopen p).
Definition set_writeopen (x : bool) (p : pipe) : pipe := Pipe (pi_data p) (pi_nread p) (pi_nwrite p) (pi_readopen p) x.

Section Pipe.
(** [end] is placed by the linker script; [ch_addr] is the address of the local
    [ch] on the process's kernel stack. *)
Variables (end_ ch_addr : Z).

Definition pipeclose (pi : Z) (writable : bool) : K kst unit :=
  acquire (L_pipe pi);;
  (if writable then
     upi pi (set_writeopen false);;
     wakeup (C_pipe_nread pi)
   else
     upi pi (set_readopen false);;
     wakeup (C_pipe_nwrite pi));;
  p ← gpi pi;
  if negb (pi_readopen p) && negb (pi_writeopen p) then
    release (L_pipe pi);;
    zoom memA (kfree end_ pi)
  else release (L_pipe pi).

(** while(i < n), [k] rounds left; a writer that finds the pipe full sleeps. *)
Fixpoint pipewrite_loop (k : nat) (pi addr i n pr : Z) : K kst (Z + Z) :=
  if negb (i <? n) then mret (inr i)
  else
    match k with
    | O => nofuel
    | S k =>
        p ← gpi pi;
        kl ← (if pi_readopen p then killed pr else mret 1);
        if negb (pi_readopen p) || z2b kl then
          release (L_pipe pi);;
          mret (inl (-1))
        else if pi_nwrite p =? u32 (pi_nread p + PIPESIZE) then
          wakeup (C_pipe_nread pi);;
          sleep (C_pipe_nwrite pi) (L_pipe pi)
        else
          me ← gp pr;
          r ← zoom memA (copyin end_ (p_sz me) (p_pagetable me) (p_pagetable me) ch_addr (u64 (addr + i)) 1);
          if r =? -1 then mret (inr i)
          else
            ch ← zoom memA (ld8 ch_addr);
            p ← gpi pi;
            upi pi (set_pdata (pi_nwrite p mod PIPESIZE) ch);;
            upi pi (set_nwrite (u32 (pi_nwrite p + 1)));;
            pipewrite_loop k pi addr (i + 1) n pr
    end.

Definition pipewrite (pi addr n : Z) : K kst Z :=
  pr ← myproc;
  acquire (L_pipe pi);;
  r ← pipewrite_loop (Z.to_nat n) pi addr 0 n pr;
  match r with
  | inl v => mret v
  | inr i =>
      wakeup (C_pipe_nread pi);;
      release (L_pipe pi);;
      mret i
  end.

Fixpoint piperead_loop (k : nat) (pi addr i n pr : Z) : K kst Z :=
  match k with
  | O => mret i
  | S k =>
      p ← gpi pi;
      if pi_nread p =? pi_nwrite p then mret i
      else
        let ch := nth (Z.to_nat (pi_nread p mod PIPESIZE)) (pi_data p) 0 in
        upi pi (set_nread (u32 (pi_nread p + 1)));;
        zoom memA (st8 ch_addr ch);;
        me ← gp pr;
        r ← zoom memA (copyout end_ (p_sz me) (p_pagetable me) (p_pagetable me) (u64 (addr + i)) ch_addr 1);
        if r =? -1 then mret i
        else piperead_loop k pi addr (i + 1) n pr
  end.

(** while(pi->nread == pi->nwrite && pi->writeopen): a reader that is woken up
    runs the test again. *)
Definition piperead (pi addr n : Z) : K kst Z :=
  pr ← myproc;
  acquire (L_pipe pi);;
  p ← gpi pi;
  w ← (if (pi_nread p =? pi_nwrite p) && pi_writeopen p then
         kl ← killed pr;
         if z2b kl then release (L_pipe pi);; mret (Some (-1))
         else sleep (C_pipe_nread pi) (L_pipe pi)
       else mret None);
  match w with
  | Some v => mret v
  | None =>
      i ← piperead_loop (Z.to_nat n) pi addr 0 n pr;
      wakeup (C_pipe_nwrite pi);;
      release (L_pipe pi);;
      mret i
  end.
End Pipe.
