(* ===== verification/Fifo.v ===== *)
(** * A pipe is a bounded queue of bytes (theorems on Pipe.v)

    The ring and its counters represent a list of at most PIPESIZE bytes, also
    when the 32-bit counters wrap around; pipewrite appends the bytes of user
    memory to it and piperead takes them off its front. *)
From stdpp Require Import base numbers list gmap strings.
From S2P Require Import Prelude Ring Kernel Spinlock Sleeplock Str Riscv Kalloc Vm PageTable Bio Log Printf Kstate Proc Table Pipe.

(** ** The ring as a queue *)

Record pipe_ok (p : pipe) : Prop := {
  po_data : length (pi_data p) = Z.to_nat PIPESIZE;
  po_r : 0 <= pi_nread p < 2 ^ 32;
  po_w : 0 <= pi_nwrite p < 2 ^ 32;
  po_len : u32 (pi_nwrite p - pi_nread p) <= PIPESIZE;
}.

Definition ring_at (p : pipe) (k : Z) : Z := ring_nth PIPESIZE (pi_data p) (pi_nread p) k.
Definition qlen (p : pipe) : Z := u32 (pi_nwrite p - pi_nread p).
Definition queue (p : pipe) : list Z := ring PIPESIZE (pi_data p) (pi_nread p) (qlen p).

Lemma qlen_nonneg p : 0 <= qlen p.
Proof. apply u_range. lia. Qed.
Lemma length_queue p : Z.of_nat (length (queue p)) = qlen p.
Proof. apply length_ring, qlen_nonneg. Qed.

Lemma PIPESIZE_pos : 0 < PIPESIZE.
Proof. done. Qed.
Lemma PIPESIZE_div : (PIPESIZE | 2 ^ 32).
Proof. by exists 8388608. Qed.

Lemma qlen_push p : pipe_ok p -> qlen p < PIPESIZE ->
  u32 (u32 (pi_nwrite p + 1) - pi_nread p) = qlen p + 1.
Proof.
  intros [_ Hr Hw _] Hl. unfold qlen, u_, PIPESIZE in *.
  rewrite Zminus_mod_idemp_l. replace (pi_nwrite p + 1 - pi_nread p) with (pi_nwrite p - pi_nread p + 1) by lia.
  rewrite <- Zplus_mod_idemp_l. apply Z.mod_small.
  pose proof (Z.mod_pos_bound (pi_nwrite p - pi_nread p) (2 ^ 32) ltac:(lia)). lia.
Qed.
Lemma qlen_pop p : pipe_ok p -> 0 < qlen p ->
  u32 (pi_nwrite p - u32 (pi_nread p + 1)) = qlen p - 1.
Proof.
  intros [_ Hr Hw _] Hl. unfold qlen, u_, PIPESIZE in *.
  rewrite Zminus_mod_idemp_r. replace (pi_nwrite p - (pi_nread p + 1)) with (pi_nwrite p - pi_nread p - 1) by lia.
  rewrite <- Zminus_mod_idemp_l. apply Z.mod_small.
  pose proof (Z.mod_pos_bound (pi_nwrite p - pi_nread p) (2 ^ 32) ltac:(lia)). lia.
Qed.

Lemma full_iff p : pipe_ok p -> pi_nwrite p =? u32 (pi_nread p + PIPESIZE) = (qlen p =? PIPESIZE).
Proof.
  intros [_ Hr Hw Hl]. unfold qlen, u_, PIPESIZE in *. apply eq_true_iff_eq. rewrite !Z.eqb_eq. split; intros E.
  - rewrite E, Zminus_mod_idemp_l. replace (pi_nread p + 512 - pi_nread p) with 512 by lia. done.
  - rewrite <- (Z.mod_small (pi_nwrite p) (2 ^ 32)) by done.
    replace (pi_nwrite p) with (pi_nread p + (pi_nwrite p - pi_nread p)) by lia.
    rewrite <- Zplus_mod_idemp_r, E. done.
Qed.
Lemma empty_iff p : pipe_ok p -> pi_nread p =? pi_nwrite p = (qlen p =? 0).
Proof.
  intros [_ Hr Hw Hl]. unfold qlen, u_ in *. apply eq_true_iff_eq. rewrite !Z.eqb_eq. split; intros E.
  - rewrite E, Z.sub_diag. done.
  - rewrite <- (Z.mod_small (pi_nwrite p) (2 ^ 32)), <- (Z.mod_small (pi_nread p) (2 ^ 32)) by done.
    replace (pi_nwrite p) with (pi_nread p + (pi_nwrite p - pi_nread p)) by lia.
    rewrite <- Zplus_mod_idemp_r, E. by rewrite Z.add_0_r.
Qed.

Definition push (ch : Z) (p : pipe) : pipe :=
  set_nwrite (u32 (pi_nwrite p + 1)) (set_pdata (pi_nwrite p mod PIPESIZE) ch p).
Definition pop (p : pipe) : pipe := set_nread (u32 (pi_nread p + 1)) p.

Lemma push_ok ch p : pipe_ok p -> qlen p < PIPESIZE ->
  pipe_ok (push ch p) /\ queue (push ch p) = queue p ++ [ch].
Proof.
  intros Hok Hl. pose proof Hok as [Hd Hr Hw _]. pose proof (qlen_push p Hok Hl) as Eq.
  pose proof (qlen_nonneg p) as H0. split.
  - split; simpl; [by rewrite length_insert|done|apply u_range; lia|]. rewrite Eq. lia.
  - unfold queue, qlen at 1. cbn [push pi_data pi_nread pi_nwrite set_nwrite set_pdata]. rewrite Eq.
    rewrite <- (u32_add_sub (pi_nread p) (pi_nwrite p) Hw) at 1. fold (qlen p).
    apply (ring_write PIPESIZE PIPESIZE_pos PIPESIZE_div); [done|lia].
Qed.

Lemma pop_ok p : pipe_ok p -> 0 < qlen p -> pipe_ok (pop p) /\ queue p = ring_at p 0 :: queue (pop p).
Proof.
  intros Hok Hl. pose proof Hok as [Hd Hr Hw Hle]. pose proof (qlen_pop p Hok Hl) as Eq. fold (qlen p) in Hle. split.
  - split; simpl; [done|apply u_range; lia|done|]. rewrite Eq. lia.
  - unfold queue, qlen at 2. cbn [pop pi_data pi_nread pi_nwrite set_nread]. rewrite Eq.
    by apply (ring_pop PIPESIZE PIPESIZE_pos PIPESIZE_div).
Qed.

(** ** User memory of the calling process *)

Section Code.
Variables (end_ ch_addr pr root : Z) (nodes : gmap (list Z) Z).
Hypothesis (He : 0 < end_).

(** Virtual addresses [lo, hi) of process [pr] are mapped, and the local [ch]
    is neither there nor in the page table. *)
Record user_buf (s : kst) (lo hi : Z) (w : bool) : Prop := {
  ub_root : p_pagetable (proc_at s pr) = root;
  ub_mem : mem_ok (memory (k_mem s));
  ub_rep : pt_rep end_ (memory (k_mem s)) root nodes;
  ub_range : user_range end_ (memory (k_mem s)) nodes lo hi w;
  ub_node : forall p, is_node nodes p -> ~ in_page p ch_addr;
  ub_apart : forall va, lo <= va < hi -> pa_of (memory (k_mem s)) nodes va <> ch_addr;
}.
(** The byte user code sees at [va]. *)
Definition ubyte (s : kst) (va : Z) : Z := load8 (memory (k_mem s)) (pa_of (memory (k_mem s)) nodes va).

(** Memory that differs only in [ch], as far as the process can tell. *)
Lemma user_buf_mem s s' lo hi w : proc_at s' pr = proc_at s pr -> mem_ok (memory (k_mem s')) ->
  nodes_same nodes (memory (k_mem s)) (memory (k_mem s')) -> user_buf s lo hi w -> user_buf s' lo hi w.
Proof.
  intros Hp Hm Hn [H1 H2 H3 H4 H5 H6]. split; [by rewrite Hp|done| | |done|].
  - by apply (pt_rep_same end_ nodes (memory (k_mem s))).
  - by apply (user_range_same end_ nodes (memory (k_mem s))).
  - intros va Hva. rewrite (pa_of_same nodes _ _ va Hn). by apply H6.
Qed.

Lemma copyin1 c s lo hi w va : user_buf s lo hi w -> lo <= va < hi ->
  exists m, zoom memA (copyin end_ (p_sz (proc_at s pr)) (p_pagetable (proc_at s pr)) (p_pagetable (proc_at s pr))
                        ch_addr va 1) c s = Done 0 c (set_kmem s m) /\
    load8 (memory m) ch_addr = ubyte s va /\
    nodes_same nodes (memory (k_mem s)) (memory m) /\ mem_ok (memory m) /\
    (forall x, lo <= x < hi -> ubyte (set_kmem s m) x = ubyte s x).
Proof.
  intros [H1 H2 H3 H4 H5 H6] Hva. rewrite H1.
  destruct (copyin_loop_spec end_ He (p_sz (proc_at s pr)) root root nodes c (Z.to_nat (1 / PGSIZE + 2))
    (k_mem s) ch_addr va 1 w H2 H3) as (m & E & _ & Hm & Hc).
  - eapply user_range_mono; [| |exact H4]; lia.
  - split.
    + intros i j Hi Hj. replace (va + i) with va by lia. replace (ch_addr + j) with ch_addr by lia. apply H6. lia.
    + intros p i Hp Hi. replace (ch_addr + i) with ch_addr by lia. by apply H5.
  - apply enough_start. lia.
  - assert (nodes_same nodes (memory (k_mem s)) (memory m)) as Hn.
    { eapply (copied_in_nodes nodes _ _ ch_addr va 1 1); [|lia|exact Hc]. split.
      - intros i j Hi Hj. replace (va + i) with va by lia. replace (ch_addr + j) with ch_addr by lia. apply H6. lia.
      - intros p i Hp Hi. replace (ch_addr + i) with ch_addr by lia. by apply H5. }
    exists m. destruct Hc as [C1 C2]. split; [unfold zoom, copyin; cbn [aget memA]; by rewrite E|].
    split; [|split; [done|split; [done|]]].
    + specialize (C1 0 ltac:(lia)). rewrite !Z.add_0_r in C1. exact C1.
    + intros x Hx. unfold ubyte. cbn [k_mem set_kmem]. rewrite (pa_of_same nodes _ _ x Hn). apply C2.
      specialize (H6 x Hx). lia.
Qed.

Lemma copyout1 c s lo hi va v : user_buf s lo hi true -> lo <= va < hi ->
  let s1 := set_kmem s (set_memory (store8 (memory (k_mem s)) ch_addr v) (k_mem s)) in
  exists m, zoom memA (copyout end_ (p_sz (proc_at s pr)) (p_pagetable (proc_at s pr)) (p_pagetable (proc_at s pr))
                        va ch_addr 1) c s1 = Done 0 c (set_kmem s m) /\
    nodes_same nodes (memory (k_mem s)) (memory m) /\ mem_ok (memory m) /\
    ubyte (set_kmem s m) va = v mod 256 /\
    (forall x, lo <= x < hi -> x <> va -> ubyte (set_kmem s m) x = ubyte s x).
Proof.
  intros Hb Hva s1. pose proof Hb as [H1 H2 H3 H4 H5 H6].
  assert (nodes_same nodes (memory (k_mem s)) (memory (k_mem s1))) as Hn1.
  { intros p b Hp Hin. simpl. apply load8_store8_ne. intros <-. by apply (H5 p). }
  assert (user_buf s1 lo hi true) as Hb1.
  { apply (user_buf_mem s); [done| |done|done]. simpl. by apply mem_ok_store8. }
  rewrite H1.
  assert (user_range end_ (memory (k_mem s1)) nodes va (va + 1) true) as Hu1.
  { eapply user_range_mono; [| |exact (ub_range _ _ _ _ Hb1)]; lia. }
  destruct (copyout_loop_spec end_ He (p_sz (proc_at s pr)) root root nodes c (Z.to_nat (1 / PGSIZE + 2))
    (k_mem s1) va ch_addr 1 (ub_mem _ _ _ _ Hb1) (ub_rep _ _ _ _ Hb1) Hu1) as (m & E & _ & Hm & Hc).
  - intros i j Hi Hj. replace (va + i) with va by lia. replace (ch_addr + j) with ch_addr by lia.
    apply (ub_apart _ _ _ _ Hb1). lia.
  - apply enough_start. lia.
  - assert (nodes_same nodes (memory (k_mem s1)) (memory m)) as Hn2.
    { eapply (copied_out_nodes end_ root nodes); [exact (ub_rep _ _ _ _ Hb1)|exact Hu1| |exact Hc]. lia. }
    exists m. destruct Hc as [C1 C2]. split; [unfold zoom, copyout; cbn [aget memA]; by rewrite E|].
    assert (nodes_same nodes (memory (k_mem s)) (memory m)) as Hn.
    { intros p b Hp Hin. by rewrite (Hn2 p b Hp Hin), (Hn1 p b Hp Hin). }
    split; [done|]. split; [done|]. split.
    + unfold ubyte. cbn [k_mem set_kmem]. rewrite (pa_of_same nodes _ _ va Hn2).
      specialize (C1 0 ltac:(lia)). rewrite !Z.add_0_r in C1. rewrite C1. simpl.
      rewrite load8_store8, Z.eqb_refl. done.
    + intros x Hx Hne. unfold ubyte. cbn [k_mem set_kmem]. rewrite (pa_of_same nodes _ _ x Hn).
      rewrite C2.
      * simpl. apply load8_store8_ne. specialize (H6 x Hx). congruence.
      * intros i Hi. replace (va + i) with va by lia. rewrite (pa_of_same nodes _ _ va Hn1).
        exact (pa_of_inj end_ _ nodes lo hi true x va H4 Hx Hva Hne).
Qed.

(** ** The loops *)

Variables (pi : Z) (c : ctx).
Hypotheses (Hcpu : cpu_ok c) (Hpr : unlocked (L_proc pr) c).

Lemma killed_eq s : killed pr c s = Done (p_killed (proc_at s pr)) c s.
Proof.
  unfold killed, gp. kstep (acquire_eq _ _ s Hpr). krun. by rewrite (release_eq _ c s Hcpu Hpr).
Qed.

Lemma user_buf_kmem s m lo hi w : nodes_same nodes (memory (k_mem s)) (memory m) -> mem_ok (memory m) ->
  user_buf s lo hi w -> user_buf (set_kmem s m) lo hi w.
Proof. intros Hn Hm. by apply user_buf_mem. Qed.

Lemma user_buf_pipe s f lo hi w : user_buf s lo hi w -> user_buf (upd_pipe pi f s) lo hi w.
Proof. intros [H1 H2 H3 H4 H5 H6]. by split. Qed.

Lemma upd_pipe2 f g s : upd_pipe pi f (upd_pipe pi g s) = upd_pipe pi (fun p => f (g p)) s.
Proof. unfold upd_pipe, pipe_at, set_kpipes. simpl. by rewrite lookup_insert_eq, insert_insert_eq. Qed.
Lemma pipe_at_same f s : pipe_at (upd_pipe pi f s) pi = f (pipe_at s pi).
Proof. by rewrite pipe_at_upd, Z.eqb_refl. Qed.

(** The kernel's state apart from memory and the pipe. *)
Definition only_pipe (s s' : kst) : Prop :=
  s' = set_kmem (set_kpipes s (k_pipes s')) (k_mem s') /\
  (forall a, a <> pi -> pipe_at s' a = pipe_at s a).

Lemma only_pipe_refl s : only_pipe s s.
Proof. split; [by destruct s|done]. Qed.
Lemma only_pipe_trans s s' s'' : only_pipe s s' -> only_pipe s' s'' -> only_pipe s s''.
Proof.
  intros [H1 H2] [H3 H4]. split; [|intros a Ha; by rewrite H4, H2]. rewrite H3 at 1. by rewrite H1 at 1.
Qed.
Lemma only_pipe_step s m f : only_pipe s (upd_pipe pi f (set_kmem s m)).
Proof.
  split; [by destruct s|]. intros a Ha. rewrite pipe_at_upd.
  rewrite (proj2 (Z.eqb_neq pi a)) by congruence. done.
Qed.
Lemma only_pipe_proc s s' i : only_pipe s s' -> proc_at s' i = proc_at s i.
Proof. intros [H _]. rewrite H. done. Qed.

(** pipewrite with room for everything. *)
Lemma pipewrite_loop_spec k : forall i n addr s, 0 <= i -> i + Z.of_nat k = n ->
  user_buf s addr (addr + n) false -> pipe_ok (pipe_at s pi) -> pi_readopen (pipe_at s pi) = true ->
  p_killed (proc_at s pr) = 0 -> qlen (pipe_at s pi) + Z.of_nat k <= PIPESIZE ->
  exists s', pipewrite_loop end_ ch_addr k pi addr i n pr c s = Done (inr n) c s' /\ only_pipe s s' /\
    pipe_ok (pipe_at s' pi) /\
    pi_readopen (pipe_at s' pi) = true /\ pi_writeopen (pipe_at s' pi) = pi_writeopen (pipe_at s pi) /\
    queue (pipe_at s' pi) = queue (pipe_at s pi) ++ ((fun j => ubyte s (addr + j)) <$> seqZ i (Z.of_nat k)) /\
    nodes_same nodes (memory (k_mem s)) (memory (k_mem s')) /\ mem_ok (memory (k_mem s')) /\
    (Forall is_byte (pi_data (pipe_at s pi)) -> Forall is_byte (pi_data (pipe_at s' pi))).
Proof.
  induction k as [|k IH]; intros i n addr s Hi Hk Hb Hok Hro Hkl Hroom.
  - exists s. cbn [pipewrite_loop]. rewrite (proj2 (Z.ltb_ge i n)) by lia. cbn [negb].
    replace i with n by lia. split; [done|]. split; [apply only_pipe_refl|]. rewrite app_nil_r.
    by split_and!; try done; apply (ub_mem _ _ _ _ Hb).
  - cbn [pipewrite_loop]. rewrite (proj2 (Z.ltb_lt i n)) by lia. cbn [negb]. unfold gpi, gp at 1. krun. rewrite Hro.
    rewrite killed_eq, Hkl. cbv beta iota. change (negb true || z2b 0) with false. cbv iota.
    rewrite (full_iff _ Hok), (proj2 (Z.eqb_neq (qlen (pipe_at s pi)) PIPESIZE)) by lia.
    pose proof (ur_lo _ _ _ _ _ _ (ub_range _ _ _ _ Hb)). pose proof (ur_hi _ _ _ _ _ _ (ub_range _ _ _ _ Hb)).
    assert (MAXVA = 274877906944) as EM by done.
    assert (u64 (addr + i) = addr + i) as Eu by (apply u_small; lia).
    destruct (copyin1 c s addr (addr + n) false (addr + i) Hb) as (m & E1 & E2 & Hn & Hm & Hx); [lia|].
    unfold mbind, K_bind in E1. rewrite Eu, E1. change (0 =? -1) with false. cbv beta iota.
    assert (zoom memA (ld8 ch_addr) c (set_kmem s m) = Done (ubyte s (addr + i)) c (set_kmem s m)) as ->.
    { unfold zoom, ld8, gets. cbn [aget memA k_mem set_kmem]. rewrite E2. done. }
    cbv beta iota. unfold upi. cbv beta iota delta [modify]. rewrite upd_pipe2.
    set (p := pipe_at s pi) in *.
    change (pipe_at (set_kmem s m) pi) with p.
    set (s1 := upd_pipe pi _ (set_kmem s m)).
    assert (pipe_at s1 pi = push (ubyte s (addr + i)) p) as Ep by (unfold s1; by rewrite pipe_at_same).
    destruct (push_ok (ubyte s (addr + i)) p Hok) as [Hok1 Eq1]; [lia|].
    assert (qlen (push (ubyte s (addr + i)) p) = qlen p + 1) as El.
    { rewrite <- !length_queue, Eq1, length_app. simpl. lia. }
    destruct (IH (i + 1) n addr s1) as (s' & E & Ho & Hok' & Hro' & Hwo' & Eq' & Hn' & Hm' & Hby'); rewrite ?Ep, ?El;
      [lia|lia|by apply user_buf_pipe, user_buf_kmem|done|done|done|lia|].
    exists s'. split; [exact E|]. split; [eapply only_pipe_trans; [apply only_pipe_step|exact Ho]|].
    split; [done|]. split; [done|]. split; [by rewrite Hwo', Ep|]. split; [|split; [|split; [done|]]].
    2:{ intros q b Hq Hin. rewrite (Hn' q b Hq Hin). exact (Hn q b Hq Hin). }
    2:{ intros HF. apply Hby'. rewrite Ep. unfold push. simpl. apply Forall_insert; [done|].
        apply load8_range, (ub_mem _ _ _ _ Hb). }
    rewrite Eq', Ep, Eq1, <- app_assoc. f_equal. rewrite (seqZ_cons i) by lia. rewrite fmap_cons. cbn [app]. f_equal.
    replace (Z.pred (Z.of_nat (S k))) with (Z.of_nat k) by lia. replace (Z.succ i) with (i + 1) by lia.
    apply list_fmap_ext. intros q j Hj%lookup_seqZ. change (ubyte s1 (addr + j)) with (ubyte (set_kmem s m) (addr + j)).
    apply Hx. lia.
Qed.

(** piperead of everything that is there, up to [n] bytes. *)
Lemma piperead_loop_spec k : forall i n addr s, 0 <= i -> i + Z.of_nat k = n ->
  user_buf s addr (addr + n) true -> pipe_ok (pipe_at s pi) -> Forall is_byte (pi_data (pipe_at s pi)) ->
  let m := Z.min (Z.of_nat k) (qlen (pipe_at s pi)) in
  exists s', piperead_loop end_ ch_addr k pi addr i n pr c s = Done (i + m) c s' /\ only_pipe s s' /\
    pipe_ok (pipe_at s' pi) /\ queue (pipe_at s' pi) = drop (Z.to_nat m) (queue (pipe_at s pi)) /\
    pi_readopen (pipe_at s' pi) = pi_readopen (pipe_at s pi) /\
    pi_writeopen (pipe_at s' pi) = pi_writeopen (pipe_at s pi) /\
    (forall j, 0 <= j < m -> ubyte s' (addr + i + j) = nth (Z.to_nat j) (queue (pipe_at s pi)) 0) /\
    (forall x, addr <= x < addr + n -> ~ (addr + i <= x < addr + i + m) -> ubyte s' x = ubyte s x).
Proof.
  induction k as [|k IH]; intros i n addr s Hi Hk Hb Hok Hby m0.
  - exists s. assert (0 <= qlen (pipe_at s pi)) by (apply u_range; lia). replace m0 with 0 by (unfold m0; lia).
    rewrite Z.add_0_r. split; [done|]. split; [apply only_pipe_refl|]. split; [done|]. split; [done|]. split; [done|].
    split; [done|]. split; [intros; lia|done].
  - cbn [piperead_loop]. unfold gpi, gp. krun. rewrite (empty_iff _ Hok).
    assert (0 <= qlen (pipe_at s pi)) as Hq0 by (apply u_range; lia).
    destruct (Z.eqb_spec (qlen (pipe_at s pi)) 0) as [E0|E0].
    { exists s. replace m0 with 0 by (unfold m0; lia). rewrite Z.add_0_r. split; [done|].
      split; [apply only_pipe_refl|]. split; [done|]. split; [done|]. split; [done|]. split; [done|].
      split; [intros; lia|done]. }
    pose proof (ur_lo _ _ _ _ _ _ (ub_range _ _ _ _ Hb)). pose proof (ur_hi _ _ _ _ _ _ (ub_range _ _ _ _ Hb)).
    assert (MAXVA = 274877906944) as EM by done.
    assert (u64 (addr + i) = addr + i) as Eu by (apply u_small; lia).
    set (p := pipe_at s pi) in *. destruct (pop_ok p Hok) as [Hok1 Eq1]; [lia|].
    set (ch := nth _ _ _). assert (ch = ring_at p 0) as Ech by (unfold ch, ring_at, ring_nth; by rewrite Z.add_0_r).
    assert (is_byte ch) as Hch.
    { unfold ch. apply (proj1 (List.Forall_forall _ _) Hby), List.nth_In. rewrite (po_data _ Hok).
      pose proof (Z.mod_pos_bound (pi_nread p) PIPESIZE ltac:(done)). unfold PIPESIZE in *. lia. }
    unfold upi. cbv beta iota delta [modify]. set (s1 := upd_pipe pi _ s).
    assert (user_buf s1 addr (addr + n) true) as Hb1 by by apply user_buf_pipe.
    destruct (copyout1 c s1 addr (addr + n) (addr + i) ch Hb1) as (mm & E1 & Hn & Hm & Hx & Hy); [lia|].
    cbv zeta in E1.
    assert (zoom memA (st8 ch_addr ch) c s1 =
      Done tt c (set_kmem s1 (set_memory (store8 (memory (k_mem s1)) ch_addr ch) (k_mem s1)))) as -> by done.
    cbv beta iota. change (proc_at (set_kmem s1 (set_memory (store8 (memory (k_mem s1)) ch_addr ch) (k_mem s1))) pr)
      with (proc_at s1 pr). rewrite Eu, E1. change (0 =? -1) with false. cbv beta iota.
    set (s2 := set_kmem s1 mm) in *.
    assert (pipe_at s2 pi = pop p) as Ep by (unfold s2, s1; change (pipe_at (set_kmem (upd_pipe pi _ s) mm) pi) with
      (pipe_at (upd_pipe pi (set_nread (u32 (pi_nread p + 1))) s) pi); by rewrite pipe_at_same).
    assert (qlen (pop p) = qlen p - 1) as El.
    { assert (qlen p = qlen (pop p) + 1); [|lia]. rewrite <- !length_queue, Eq1. simpl. lia. }
    destruct (IH (i + 1) n addr s2) as (s' & E & Ho & Hok' & Eq' & Hro' & Hwo' & Hu' & Hv'); rewrite ?Ep; [lia|lia| |done|done|].
    { by apply user_buf_kmem. }
    rewrite Ep, El in *. replace (Z.min (Z.of_nat k) (qlen p - 1)) with (m0 - 1) in * by (unfold m0; lia).
    assert (1 <= m0) as Hm0 by (unfold m0; lia).
    exists s'. split; [rewrite E; f_equal; lia|].
    split; [eapply only_pipe_trans; [|exact Ho]; unfold s2, s1; split; [by destruct s|]; intros a Ha;
      change (pipe_at (set_kmem (upd_pipe pi (set_nread (u32 (pi_nread p + 1))) s) mm) a)
        with (pipe_at (upd_pipe pi (set_nread (u32 (pi_nread p + 1))) s) a);
      rewrite pipe_at_upd, (proj2 (Z.eqb_neq pi a)) by congruence; done|].
    split; [done|]. split.
    { rewrite Eq', Eq1. replace (Z.to_nat m0) with (S (Z.to_nat (m0 - 1))) by lia. done. }
    split; [done|]. split; [done|]. split.
    + intros j Hj. destruct (Z.eq_dec j 0) as [->|Hne].
      * rewrite Z.add_0_r, Hv' by lia. rewrite Hx, Eq1, <- Ech. simpl. apply Z.mod_small. exact Hch.
      * replace (addr + i + j) with (addr + (i + 1) + (j - 1)) by lia. rewrite Hu' by lia. rewrite Eq1.
        replace (Z.to_nat j) with (S (Z.to_nat (j - 1))) by lia. done.
    + intros x Hxr Hnx. rewrite Hv' by lia. rewrite Hy by lia. done.
Qed.
End Code.

(** ** The system-call bodies *)

Section Calls.
Variables (end_ ch_addr pr root : Z) (nodes : gmap (list Z) Z) (pi : Z) (c : ctx).
Hypotheses (He : 0 < end_) (Hcpu : cpu_ok c) (Hpr : unlocked (L_proc pr) c) (Hpi : unlocked (L_pipe pi) c)
  (Hcur : curproc c = pr).

Lemma in_pipe_cpu : cpu_ok (inside (L_pipe pi) c) /\ unlocked (L_proc pr) (inside (L_pipe pi) c).
Proof. split; [by apply cpu_ok_inside|by apply unlocked_inside]. Qed.

Definition after (ch : chan) : ctx := set_evs (Wakeup ch :: evs c) c.
Lemma release_after ch s : release (L_pipe pi) (set_evs (Wakeup ch :: evs (inside (L_pipe pi) c)) (inside (L_pipe pi) c)) s
  = Done tt (after ch) (s : kst).
Proof. exact (release_eq (L_pipe pi) (after ch) s (cpu_ok_evs _ _ Hcpu) Hpi). Qed.

Lemma pipewrite_eq s addr n : 0 <= n ->
  user_buf end_ ch_addr pr root nodes s addr (addr + n) false ->
  pipe_ok (pipe_at s pi) -> pi_readopen (pipe_at s pi) = true -> p_killed (proc_at s pr) = 0 ->
  qlen (pipe_at s pi) + n <= PIPESIZE ->
  exists s', pipewrite end_ ch_addr pi addr n c s = Done n (after (C_pipe_nread pi)) s' /\ only_pipe pi s s' /\
    pipe_ok (pipe_at s' pi) /\ pi_readopen (pipe_at s' pi) = true /\
    pi_writeopen (pipe_at s' pi) = pi_writeopen (pipe_at s pi) /\
    queue (pipe_at s' pi) = queue (pipe_at s pi) ++ ((fun j => ubyte nodes s (addr + j)) <$> seqZ 0 n) /\
    nodes_same nodes (memory (k_mem s)) (memory (k_mem s')) /\ mem_ok (memory (k_mem s')) /\
    (Forall is_byte (pi_data (pipe_at s pi)) -> Forall is_byte (pi_data (pipe_at s' pi))).
Proof.
  intros Hn Hb Hok Hro Hkl Hroom. destruct in_pipe_cpu as [H1 H2].
  destruct (pipewrite_loop_spec end_ ch_addr pr root nodes He pi _ H1 H2 (Z.to_nat n) 0 n addr s)
    as (s' & E & Ho & Hok' & Hro' & Hwo' & Eq & Hns & Hms & Hbs); [lia|lia|done|done|done|done|lia|].
  rewrite Z2Nat.id in Eq by done. exists s'. split; [|done].
  unfold pipewrite. rewrite (bind_done _ _ _ _ _ _ _ (myproc_eq c s Hcpu)), Hcur.
  kstep (acquire_eq _ _ s Hpi). kstep E. unfold wakeup. krun. by rewrite release_after.
Qed.

Lemma piperead_eq s addr n : 0 <= n ->
  user_buf end_ ch_addr pr root nodes s addr (addr + n) true ->
  pipe_ok (pipe_at s pi) -> Forall is_byte (pi_data (pipe_at s pi)) ->
  0 < qlen (pipe_at s pi) \/ pi_writeopen (pipe_at s pi) = false ->
  let m := Z.min n (qlen (pipe_at s pi)) in
  exists s', piperead end_ ch_addr pi addr n c s = Done m (after (C_pipe_nwrite pi)) s' /\ only_pipe pi s s' /\
    pipe_ok (pipe_at s' pi) /\ queue (pipe_at s' pi) = drop (Z.to_nat m) (queue (pipe_at s pi)) /\
    (forall j, 0 <= j < m -> ubyte nodes s' (addr + j) = nth (Z.to_nat j) (queue (pipe_at s pi)) 0) /\
    (forall x, addr <= x < addr + n -> ~ (addr <= x < addr + m) -> ubyte nodes s' x = ubyte nodes s x).
Proof.
  intros Hn Hb Hok Hby Hne m. destruct in_pipe_cpu as [H1 H2].
  destruct (piperead_loop_spec end_ ch_addr pr root nodes He pi (inside (L_pipe pi) c) (Z.to_nat n) 0 n addr s)
    as (s' & E & Ho & Hok' & Eq & _ & _ & Hu & Hv); [lia|lia|done|done|done|].
  rewrite Z2Nat.id in * by done. fold m in E, Eq, Hu, Hv. rewrite Z.add_0_r in Hu, Hv. exists s'. split; [|done].
  unfold piperead. rewrite (bind_done _ _ _ _ _ _ _ (myproc_eq c s Hcpu)), Hcur.
  kstep (acquire_eq _ _ s Hpi). unfold gpi. krun. rewrite (empty_iff _ Hok).
  assert ((qlen (pipe_at s pi) =? 0) && pi_writeopen (pipe_at s pi) = false) as ->.
  { destruct Hne as [Hne|Hne]; [by rewrite (proj2 (Z.eqb_neq _ 0)) by lia|by rewrite Hne, andb_false_r]. }
  cbv beta iota. rewrite E. cbv beta iota. unfold wakeup. krun. by rewrite release_after.
Qed.
End Calls.

(** ** Properties *)

(** C21: a pipe is a first-in first-out queue of bytes.  A write of [n] bytes for
    which there is room returns [n] and appends the bytes at [src]; a read of
    [m] bytes then returns the [m] oldest bytes of the pipe, in order, at [dst],
    and leaves the rest queued; nothing else in the kernel changes.  This holds
    also when the counters wrap around at 2^32. *)
Theorem pipe_write_read_fifo end_ ch_addr root nodes pi c s src n dst m :
  0 < end_ -> cpu_ok c -> unlocked (L_proc (curproc c)) c -> unlocked (L_pipe pi) c ->
  0 <= n -> 0 <= m <= qlen (pipe_at s pi) + n -> 0 < qlen (pipe_at s pi) + n ->
  user_buf end_ ch_addr (curproc c) root nodes s src (src + n) false ->
  user_buf end_ ch_addr (curproc c) root nodes s dst (dst + m) true ->
  pipe_ok (pipe_at s pi) -> Forall is_byte (pi_data (pipe_at s pi)) ->
  pi_readopen (pipe_at s pi) = true -> p_killed (proc_at s (curproc c)) = 0 ->
  qlen (pipe_at s pi) + n <= PIPESIZE ->
  exists c1 s1 c2 s2,
    pipewrite end_ ch_addr pi src n c s = Done n c1 s1 /\
    piperead end_ ch_addr pi dst m c1 s1 = Done m c2 s2 /\
    let data := queue (pipe_at s pi) ++ ((fun j => ubyte nodes s (src + j)) <$> seqZ 0 n) in
    (forall j, 0 <= j < m -> ubyte nodes s2 (dst + j) = nth (Z.to_nat j) data 0) /\
    queue (pipe_at s2 pi) = drop (Z.to_nat m) data /\ only_pipe pi s s2.
Proof.
  intros He Hcpu Hpr Hpi Hn Hm H0 Hsrc Hdst Hok Hby Hro Hkl Hroom.
  destruct (pipewrite_eq end_ ch_addr (curproc c) root nodes pi c He Hcpu Hpr Hpi eq_refl s src n)
    as (s1 & E1 & O1 & Ok1 & _ & _ & Q1 & N1 & M1 & B1); [done..|].
  assert (qlen (pipe_at s1 pi) = qlen (pipe_at s pi) + n) as El.
  { rewrite <- !length_queue, Q1, length_app, length_fmap, length_seqZ. lia. }
  destruct (piperead_eq end_ ch_addr (curproc c) root nodes pi (after c (C_pipe_nread pi)) He
    (cpu_ok_evs _ _ Hcpu) Hpr Hpi eq_refl s1 dst m) as (s2 & E2 & O2 & _ & Q2 & U2 & _); [lia| |done|by apply B1|left; lia|].
  { apply (user_buf_mem end_ ch_addr (curproc c) root nodes s); [by apply (only_pipe_proc pi)|done|done|done]. }
  rewrite El in *. rewrite Z.min_l in * by lia. rewrite Q1 in Q2, U2.
  eexists _, s1, _, s2. split; [exact E1|]. split; [exact E2|]. split; [exact U2|]. split; [exact Q2|].
  by eapply only_pipe_trans.
Qed.

(** C25: the branches on which a pipe call does not transfer data.  A write fails
    with -1 when the read end is closed or the process has been killed; a write
    to a full pipe wakes the readers and then sleeps until a reader wakes it,
    with the lock of the pipe released and only its own process lock held; a
    read of an empty pipe sleeps in the same way while the write end is open,
    waking nobody, fails with -1 if the process has been killed, and returns 0
    (end of file), after waking the writers, once the write end is closed.
    The state is unchanged on all of them, and so are the locks when the call
    returns. *)
Theorem pipe_blocks_and_ends end_ ch_addr pi c s addr n :
  cpu_ok c -> noff c = 0 -> unlocked (L_proc (curproc c)) c -> unlocked (L_pipe pi) c ->
  0 < n -> pipe_ok (pipe_at s pi) ->
  (pi_readopen (pipe_at s pi) = false \/ p_killed (proc_at s (curproc c)) <> 0 ->
     pipewrite end_ ch_addr pi addr n c s = Done (-1) c s) /\
  (pi_readopen (pipe_at s pi) = true -> p_killed (proc_at s (curproc c)) = 0 -> qlen (pipe_at s pi) = PIPESIZE ->
     pipewrite end_ ch_addr pi addr n c s =
       Sleep (C_pipe_nwrite pi) (inside (L_proc (curproc c)) (after c (C_pipe_nread pi))) s) /\
  (qlen (pipe_at s pi) = 0 -> pi_writeopen (pipe_at s pi) = true -> p_killed (proc_at s (curproc c)) = 0 ->
     piperead end_ ch_addr pi addr n c s = Sleep (C_pipe_nread pi) (inside (L_proc (curproc c)) c) s) /\
  (qlen (pipe_at s pi) = 0 -> pi_writeopen (pipe_at s pi) = true -> p_killed (proc_at s (curproc c)) <> 0 ->
     piperead end_ ch_addr pi addr n c s = Done (-1) c s) /\
  (qlen (pipe_at s pi) = 0 -> pi_writeopen (pipe_at s pi) = false ->
     piperead end_ ch_addr pi addr n c s = Done 0 (after c (C_pipe_nwrite pi)) s).
Proof.
  intros Hcpu Hn0 Hpr Hpi Hn Hok. destruct (in_pipe_cpu (curproc c) pi c Hcpu Hpr) as [H1 H2].
  assert (exists k, Z.to_nat n = S k) as [k Ek] by (exists (Z.to_nat (n - 1)); lia).
  split_and!.
  - intros Hro. unfold pipewrite. rewrite (bind_done _ _ _ _ _ _ _ (myproc_eq c s Hcpu)).
    kstep (acquire_eq _ _ s Hpi). rewrite Ek. cbn [pipewrite_loop]. rewrite (proj2 (Z.ltb_lt 0 n)) by lia. cbn [negb].
    unfold gpi. krun. destruct (pi_readopen _) eqn:E.
    + destruct Hro as [?|Hkl]; [done|]. rewrite (killed_eq (curproc c) _ H1 H2). cbv beta iota. unfold z2b.
      rewrite (proj2 (Z.eqb_neq _ 0) Hkl). cbn [negb orb]. by rewrite (release_eq _ c s Hcpu Hpi).
    + cbn [negb orb]. by rewrite (release_eq _ c s Hcpu Hpi).
  - intros Hro Hkl Hq. unfold pipewrite. rewrite (bind_done _ _ _ _ _ _ _ (myproc_eq c s Hcpu)).
    kstep (acquire_eq _ _ s Hpi). rewrite Ek. cbn [pipewrite_loop]. rewrite (proj2 (Z.ltb_lt 0 n)) by lia. cbn [negb].
    unfold gpi. krun. rewrite Hro. rewrite (killed_eq (curproc c) _ H1 H2), Hkl. cbv beta iota.
    change (negb true || z2b 0) with false. cbv beta iota. rewrite (full_iff _ Hok), Hq, Z.eqb_refl. unfold wakeup. krun.
    rewrite inside_evs. change (evs (inside (L_pipe pi) c)) with (evs c). fold (after c (C_pipe_nread pi)).
    rewrite (sleep_inside (A := (Z + Z)%type) (C_pipe_nwrite pi) (L_pipe pi) (after c (C_pipe_nread pi)) s); [done| |done..].
    by apply cpu_ok_evs.
  - intros Hq Hwo Hkl. unfold piperead. rewrite (bind_done _ _ _ _ _ _ _ (myproc_eq c s Hcpu)).
    kstep (acquire_eq _ _ s Hpi). unfold gpi. krun. rewrite (empty_iff _ Hok), Hq, Hwo. cbn [Z.eqb andb].
    rewrite (killed_eq (curproc c) _ H1 H2), Hkl. cbv beta iota. change (z2b 0) with false. cbv beta iota.
    by rewrite (sleep_inside (A := option Z) (C_pipe_nread pi) (L_pipe pi) c s).
  - intros Hq Hwo Hkl. unfold piperead. rewrite (bind_done _ _ _ _ _ _ _ (myproc_eq c s Hcpu)).
    kstep (acquire_eq _ _ s Hpi). unfold gpi. krun. rewrite (empty_iff _ Hok), Hq, Hwo. cbn [Z.eqb andb].
    rewrite (killed_eq (curproc c) _ H1 H2). cbv beta iota. unfold z2b. rewrite (proj2 (Z.eqb_neq _ 0) Hkl). cbn [negb].
    by rewrite (release_eq _ c s Hcpu Hpi).
  - intros Hq Hwo. unfold piperead. rewrite (bind_done _ _ _ _ _ _ _ (myproc_eq c s Hcpu)).
    kstep (acquire_eq _ _ s Hpi). unfold gpi. krun. rewrite (empty_iff _ Hok), Hq, Hwo. cbn [Z.eqb andb].
    cbv beta iota. rewrite Ek. cbn [piperead_loop]. unfold gpi. krun. rewrite (empty_iff _ Hok), Hq. cbn [Z.eqb].
    unfold wakeup. krun. by rewrite (release_after pi c Hcpu Hpi).
Qed.

(** ** A process with one page of memory and a pipe whose counters are about to wrap *)

Definition pipe_ctx : ctx :=
  Ctx 0 false 0 false 5 6 (<[L_proc 5 := Spinlock 0 "proc" None]> (<[L_pipe 64 := Spinlock 0 "pipe" None]> ∅)) [].
Definition pipe_near : pipe := Pipe (replicate (Z.to_nat PIPESIZE) 0) (2 ^ 32 - 3) (2 ^ 32 - 1) true true.
Definition pipe_state (root : Z) (m : pmem) : kst :=
  set_kmem (set_kpipes (set_kprocs kst0 {[ 5 := set_ppagetable (set_ppid (set_pstate proc0 RUNNING) 6) root ]})
    {[ 64 := pipe_near ]}) m.

Lemma pipe_ctx_ok : cpu_ok pipe_ctx /\ unlocked (L_proc 5) pipe_ctx /\ unlocked (L_pipe 64) pipe_ctx.
Proof.
  split; [split; simpl; congruence || lia|].
  split; [exists "proc"%string|exists "pipe"%string]; vm_compute; reflexivity.
Qed.
Lemma pipe_near_ok : pipe_ok pipe_near.
Proof. split; vm_compute; repeat split; congruence. Qed.
Lemma pipe_near_bytes : Forall is_byte (pi_data pipe_near).
Proof. apply Forall_replicate. unfold is_byte. lia. Qed.

Lemma demo_user_buf s fl root nodes lo hi w :
  vm_ok end5 s fl root nodes -> user_range end5 (memory s) nodes 0 PGSIZE true ->
  0 <= lo -> hi <= PGSIZE -> user_range end5 (memory s) nodes lo hi w ->
  user_buf end5 1000 5 root nodes (pipe_state root s) lo hi w.
Proof.
  intros Hv Hu Hlo Hhi Hr. assert (end5 = 0x87ffb000) as E5 by reflexivity. split.
  - reflexivity.
  - exact (kr_mem _ _ _ (vo_kmem _ _ _ _ _ Hv)).
  - exact (vo_pt _ _ _ _ _ Hv).
  - exact Hr.
  - intros p [π Hπ] Hin. destruct (pr_page _ _ _ _ (vo_pt _ _ _ _ _ Hv) _ _ Hπ) as [[_ Hp] _].
    unfold in_page in Hin. lia.
  - intros va Hva E. change (memory (k_mem (pipe_state root s))) with (memory s) in E.
    destruct (ur_page _ _ _ _ _ _ Hu va ltac:(lia)) as [_ [H _]].
    unfold pa_of in E. pose proof (Z.mod_pos_bound va PGSIZE eq_refl). lia.
Qed.

Lemma pipe_write_read_fifo_witness : exists s root nodes c1 s1 c2 s2,
  pipewrite end5 1000 64 16 10 pipe_ctx (pipe_state root s) = Done 10 c1 s1 /\
  piperead end5 1000 64 500 4 c1 s1 = Done 4 c2 s2 /\
  ubyte nodes s2 502 = ubyte nodes (pipe_state root s) 16.
Proof.
  destruct demo_space as (s & fl & root & nodes & Hv & Hu). destruct pipe_ctx_ok as (H1 & H2 & H3).
  exists s, root, nodes.
  destruct (pipe_write_read_fifo end5 1000 root nodes 64 pipe_ctx (pipe_state root s) 16 10 500 4)
    as (c1 & s1 & c2 & s2 & E1 & E2 & H & _).
  - reflexivity.
  - exact H1.
  - exact H2.
  - exact H3.
  - discriminate.
  - split; vm_compute; discriminate.
  - reflexivity.
  - apply (demo_user_buf s fl); [exact Hv|exact Hu|discriminate|discriminate|].
    destruct (user_range_mono end5 (memory s) nodes 0 16 PGSIZE (16 + 10) true ltac:(discriminate) ltac:(discriminate) Hu).
    split; [done..|]; intros; by auto.
  - apply (demo_user_buf s fl); [exact Hv|exact Hu|discriminate|discriminate|].
    eapply user_range_mono; [| |exact Hu]; discriminate.
  - exact pipe_near_ok.
  - exact pipe_near_bytes.
  - reflexivity.
  - reflexivity.
  - vm_compute. discriminate.
  - exists c1, s1, c2, s2. split; [exact E1|]. split; [exact E2|].
    specialize (H 2 ltac:(split; [discriminate|reflexivity])). exact H.
Defined.

Definition pipe_full : kst :=
  set_kpipes (pipe_state 0 (PMem ∅ 0)) {[ 64 := Pipe (replicate 512 0) (2 ^ 32 - 7) 505 true true ]}.
Lemma pipe_blocks_and_ends_witness :
  pipewrite end5 1000 64 0 8 pipe_ctx pipe_full =
    Sleep (C_pipe_nwrite 64) (inside (L_proc 5) (after pipe_ctx (C_pipe_nread 64))) pipe_full.
Proof.
  destruct pipe_ctx_ok as (H1 & H2 & H3).
  destruct (pipe_blocks_and_ends end5 1000 64 pipe_ctx pipe_full 0 8) as (_ & H & _).
  - exact H1.
  - reflexivity.
  - exact H2.
  - exact H3.
  - reflexivity.
  - split; vm_compute; repeat split; congruence.
  - apply H; reflexivity.
Defined.
