(* ===== verification/Console.v ===== *)
(** * Console and UART (kernel/console.c, kernel/uart.c)

    The line discipline of the console: typed characters are edited in the ring
    cons.buf between the indices w and e, and lines that have ended, between r
    and w, are handed to consoleread.  Device registers are outside the kernel:
    what they answer (pending input, an idle transmitter) is an argument. *)
From stdpp Require Import base numbers list gmap strings.
From Stdlib Require Import Ascii.
From S2P Require Import Prelude Kernel Spinlock Sleeplock Str Riscv Kalloc Vm Bio Log Printf Kstate Proc.

Definition INPUT_BUF_SIZE : Z := 128.
Definition ctrl (c : Z) : Z := c - 64.
Definition DEL : Z := 127.
Definition NL : Z := 10.

Definition set_cr (x : Z) (c : console) : console := Console (cn_buf c) x (cn_w c) (cn_e c).
Definition set_cw (x : Z) (c : console) : console := Console (cn_buf c) (cn_r c) x (cn_e c).
Definition set_ce (x : Z) (c : console) : console := Console (cn_buf c) (cn_r c) (cn_w c) x.
Definition set_cbuf (i x : Z) (c : console) : console :=
  Console (<[Z.to_nat i := x]> (cn_buf c)) (cn_r c) (cn_w c) (cn_e c).
(** cons.buf[i % INPUT_BUF_SIZE], [i] a uint. *)
Definition cbuf_at (c : console) (i : Z) : Z := nth (Z.to_nat (u32 i mod INPUT_BUF_SIZE)) (cn_buf c) 0.

(** ** The UART *)

Definition RHR : Z := 0.
Definition THR : Z := 0.
Definition IER : Z := 1.
Definition IER_RX_ENABLE : Z := 1.
Definition IER_TX_ENABLE : Z := 2.
Definition FCR : Z := 2.
Definition FCR_FIFO_ENABLE : Z := 1.
Definition FCR_FIFO_CLEAR : Z := 6.
Definition ISR : Z := 2.
Definition LCR : Z := 3.
Definition LCR_EIGHT_BITS : Z := 3.
Definition LCR_BAUD_LATCH : Z := 128.
Definition LSR : Z := 5.
Definition LSR_RX_READY : Z := 1.
Definition LSR_TX_IDLE : Z := 32.

Definition WriteReg {S} (reg v : Z) : K S unit := emit (MMIO (UART0 + reg) v).

Definition uartinit : K kst unit :=
  WriteReg IER 0;;
  WriteReg LCR LCR_BAUD_LATCH;;
  WriteReg 0 3;;
  WriteReg 1 0;;
  WriteReg LCR LCR_EIGHT_BITS;;
  WriteReg FCR (Z.lor FCR_FIFO_ENABLE FCR_FIFO_CLEAR);;
  WriteReg IER (Z.lor IER_TX_ENABLE IER_RX_ENABLE);;
  initlock L_tx "uart".

Section Console.
(** [end] is placed by the linker script; [cbuf_addr] and [obuf_addr] are the
    addresses of the locals [cbuf] of consoleread and [buf] of consolewrite. *)
Variables (end_ cbuf_addr obuf_addr : Z).

Definition gcons : K kst console := gets k_cons.
Definition ucons (f : console -> console) : K kst unit := modify (fun s => set_kcons s (f (k_cons s))).

(** while(i < n): a writer that finds the transmitter busy sleeps; one that is
    woken up goes on with the characters that are left. *)
Fixpoint uartwrite_loop (cs : list Z) : K kst unit :=
  match cs with
  | [] => mret tt
  | c :: cs =>
      busy ← gets k_tx_busy;
      (if busy : bool then sleep C_tx L_tx else mret tt);;
      emit (Putc c);;
      modify (fun s => set_ktx s true);;
      uartwrite_loop cs
  end.
(** [cs] are the n bytes at buf. *)
Definition uartwrite (cs : list Z) : K kst unit :=
  acquire L_tx;;
  uartwrite_loop cs;;
  release L_tx.

(** ** The console *)

Fixpoint consolewrite_loop (fuel : nat) (user_src : bool) (src i n : Z) : K kst Z :=
  if negb (i <? n) then mret i
  else
    match fuel with
    | O => nofuel
    | S fuel =>
        let nn := if 32 >? n - i then n - i else 32 in
        r ← either_copyin end_ obuf_addr user_src (u64 (src + i)) nn;
        if r =? -1 then mret i
        else
          m ← zoom memA (gets memory);
          uartwrite (load_bytes m obuf_addr (Z.to_nat nn));;
          consolewrite_loop fuel user_src src (i + nn) n
    end.
Definition consolewrite (user_src : bool) (src n : Z) : K kst Z :=
  consolewrite_loop (Z.to_nat (n / 32 + 1)) user_src src 0 n.

(** while(n > 0), [k] bytes left; [inl] is an early return, [inr] the final n.
    A reader that is woken up tests cons.r == cons.w again. *)
Fixpoint consoleread_loop (k : nat) (user_dst : bool) (dst n target : Z) : K kst (Z + Z) :=
  match k with
  | O => mret (inr n)
  | S k =>
      c ← gcons;
      w ← (if cn_r c =? cn_w c then
             i ← myproc;
             kl ← killed i;
             if z2b kl then release L_cons;; mret true
             else sleep C_cons_r L_cons
           else mret false);
      if w : bool then mret (inl (-1))
      else
        let ch := cbuf_at c (cn_r c) in
        ucons (set_cr (u32 (cn_r c + 1)));;
        if ch =? ctrl (chr "D") then
          (if n <? target then ucons (set_cr (cn_r c)) else mret tt);;
          mret (inr n)
        else
          zoom memA (st8 cbuf_addr ch);;
          r ← either_copyout end_ user_dst dst cbuf_addr 1;
          if r =? -1 then mret (inr n)
          else if ch =? NL then mret (inr (n - 1))
          else consoleread_loop k user_dst (u64 (dst + 1)) (n - 1) target
  end.
Definition consoleread (user_dst : bool) (dst n : Z) : K kst Z :=
  let target := u32 n in
  acquire L_cons;;
  r ← consoleread_loop (Z.to_nat n) user_dst dst n target;
  match r with
  | inl v => mret v
  | inr n => release L_cons;; mret (i32 (target - n))
  end.

(** case C('U'): erase back to the start of the line. *)
Fixpoint kill_line (fuel : nat) : K kst unit :=
  c ← gcons;
  if negb (cn_e c =? cn_w c) && negb (cbuf_at c (cn_e c - 1) =? NL) then
    match fuel with
    | O => nofuel
    | S fuel =>
        ucons (set_ce (u32 (cn_e c - 1)));;
        consputc false BACKSPACE;;
        kill_line fuel
    end
  else mret tt.

Definition consoleintr (ch : Z) : K kst unit :=
  acquire L_cons;;
  (if ch =? ctrl (chr "P") then procdump
   else if ch =? ctrl (chr "U") then kill_line (Z.to_nat INPUT_BUF_SIZE)
   else if (ch =? ctrl (chr "H")) || (ch =? DEL) then
     c ← gcons;
     if negb (cn_e c =? cn_w c) then
       ucons (set_ce (u32 (cn_e c - 1)));;
       consputc false BACKSPACE
     else mret tt
   else
     c ← gcons;
     if negb (ch =? 0) && (u32 (cn_e c - cn_r c) <? INPUT_BUF_SIZE) then
       let ch := if ch =? 13 then NL else ch in
       consputc false ch;;
       ucons (set_cbuf (cn_e c mod INPUT_BUF_SIZE) (u8 ch));;
       ucons (set_ce (u32 (cn_e c + 1)));;
       c ← gcons;
       if (ch =? NL) || (ch =? ctrl (chr "D")) || (u32 (cn_e c - cn_r c) =? INPUT_BUF_SIZE) then
         ucons (set_cw (cn_e c));;
         wakeup C_cons_r
       else mret tt
     else mret tt);;
  release L_cons.

(** uartgetc, for what the status and the receive register read. *)
Definition uartgetc (lsr rhr : Z) : Z := if z2b (Z.land lsr LSR_RX_READY) then rhr else -1.
(** The characters waiting in the receive register, until uartgetc returns -1. *)
Fixpoint uart_input (rx : list Z) : K kst unit :=
  match rx with
  | [] => mret tt
  | c :: rx => consoleintr c;; uart_input rx
  end.
(** [lsr] is what the line status register reads, [rx] the pending input. *)
Definition uartintr (lsr : Z) (rx : list Z) : K kst unit :=
  acquire L_tx;;
  (if z2b (Z.land lsr LSR_TX_IDLE) then
     modify (fun s => set_ktx s false);;
     wakeup C_tx
   else mret tt);;
  release L_tx;;
  uart_input rx.

Definition consoleinit : K kst unit :=
  initlock L_cons "cons";;
  uartinit.

(** devsw: consoleinit connects the console; no other device has an entry. *)
Definition CONSOLE : Z := 1.
Definition NDEV : Z := 10.
Definition devsw_read (major : Z) : option (bool -> Z -> Z -> K kst Z) :=
  if major =? CONSOLE then Some consoleread else None.
Definition devsw_write (major : Z) : option (bool -> Z -> Z -> K kst Z) :=
  if major =? CONSOLE then Some consolewrite else None.
End Console.
