(* ===== verification/LineDisc.v ===== *)
(** * The console's line discipline (theorems on Console.v)

    The ring of the console stands for two lists: the characters of finished
    lines that consoleread has not taken yet, and the line being typed.
    consoleintr implements the abstract line editor [typed] on them. *)
From stdpp Require Import base numbers list gmap strings.
From Stdlib Require Import Ascii.
From S2P Require Import Prelude Ring Kernel Spinlock Sleeplock Str Riscv Kalloc Vm Bio Bcache Log Redo Printf Kstate Proc Table Console.

Definition ready (c : console) : list Z := ring INPUT_BUF_SIZE (cn_buf c) (cn_r c) (u32 (cn_w c - cn_r c)).
Definition edit (c : console) : list Z := ring INPUT_BUF_SIZE (cn_buf c) (cn_w c) (u32 (cn_e c - cn_w c)).

Record cons_ok (c : console) : Prop := {
  co_buf : length (cn_buf c) = Z.to_nat INPUT_BUF_SIZE;
  co_r : in_u 32 (cn_r c);
  co_w : in_u 32 (cn_w c);
  co_e : in_u 32 (cn_e c);
  co_len : u32 (cn_w c - cn_r c) + u32 (cn_e c - cn_w c) <= INPUT_BUF_SIZE;
  co_line : NL ∉ edit c;
}.

(** The abstract editor: what a character does to the finished input and to the
    line being typed. *)
Definition typed (ch : Z) (q : list Z * list Z) : list Z * list Z :=
  let '(rd, ed) := q in
  if ch =? ctrl (chr "P") then q
  else if ch =? ctrl (chr "U") then (rd, [])
  else if (ch =? ctrl (chr "H")) || (ch =? DEL) then (rd, removelast ed)
  else
    let n := Z.of_nat (length rd + length ed) in
    if (ch =? 0) || (INPUT_BUF_SIZE <=? n) then q
    else
      let ch := if ch =? 13 then NL else ch in
      if (ch =? NL) || (ch =? ctrl (chr "D")) || (n + 1 =? INPUT_BUF_SIZE)
      then (rd ++ ed ++ [ch], [])
      else (rd, ed ++ [ch]).

Lemma IBS_pos : 0 < INPUT_BUF_SIZE.
Proof. done. Qed.
Lemma IBS_div : (INPUT_BUF_SIZE | 2 ^ 32).
Proof. by exists 33554432. Qed.

Section Abs.
Variables (c : console).
Hypothesis (Hok : cons_ok c).
Let nr := u32 (cn_w c - cn_r c).
Let ne := u32 (cn_e c - cn_w c).

Lemma dist_range : 0 <= nr /\ 0 <= ne.
Proof. split; apply u_range; lia. Qed.
Lemma length_ready : Z.of_nat (length (ready c)) = nr.
Proof. apply length_ring, dist_range. Qed.
Lemma length_edit : Z.of_nat (length (edit c)) = ne.
Proof. apply length_ring, dist_range. Qed.

Lemma dist_all : u32 (cn_e c - cn_r c) = nr + ne.
Proof.
  destruct dist_range. pose proof (co_len _ Hok) as Hl. fold nr ne in Hl. change INPUT_BUF_SIZE with 128 in Hl.
  rewrite <- (u32_add_sub (cn_w c) (cn_e c) (co_e _ Hok)). fold ne.
  apply (u32_sub_add (cn_r c) (cn_w c) ne); fold nr; lia.
Qed.

(** The whole ring from the read index on. *)
Lemma ready_edit : ready c ++ edit c = ring INPUT_BUF_SIZE (cn_buf c) (cn_r c) (nr + ne).
Proof.
  destruct dist_range. rewrite (ring_app INPUT_BUF_SIZE IBS_pos IBS_div) by done. unfold nr at 2.
  by rewrite (u32_add_sub (cn_r c) (cn_w c) (co_w _ Hok)).
Qed.

(** Erasing the last character of the line. *)
Lemma back_ok : cn_e c <> cn_w c ->
  let c' := set_ce (u32 (cn_e c - 1)) c in
  cons_ok c' /\ ready c' = ready c /\ edit c = edit c' ++ [cbuf_at c (cn_e c - 1)].
Proof.
  intros Hne c'. destruct dist_range as [Hr He]. pose proof (co_len _ Hok) as Hlen. fold nr ne in Hlen.
  change INPUT_BUF_SIZE with 128 in Hlen.
  assert (0 < ne) as Hpos.
  { destruct (Z.eq_dec ne 0) as [E|]; [|lia]. exfalso. apply Hne.
    rewrite <- (u32_add_sub (cn_w c) (cn_e c) (co_e _ Hok)). fold ne. rewrite E, Z.add_0_r. apply u_small, (co_w _ Hok). }
  assert (u32 (u32 (cn_e c - 1) - cn_w c) = ne - 1) as Ed by (apply (u32_sub_add (cn_w c) (cn_e c) (-1)); fold ne; lia).
  assert (edit c = edit c' ++ [cbuf_at c (cn_e c - 1)]) as Ee.
  { unfold edit at 1. fold ne. rewrite (ring_snoc INPUT_BUF_SIZE IBS_pos IBS_div) by done. f_equal.
    - unfold edit, c'. cbn [cn_buf cn_w cn_e set_ce]. by rewrite Ed.
    - f_equal. unfold ring_nth, cbuf_at. f_equal. f_equal. rewrite (mod_u32 INPUT_BUF_SIZE IBS_pos IBS_div).
      rewrite <- (mod_u32 INPUT_BUF_SIZE IBS_pos IBS_div (cn_e c - 1)).
      rewrite <- (mod_u32 INPUT_BUF_SIZE IBS_pos IBS_div (cn_w c + (ne - 1))). f_equal.
      rewrite <- (u32_add_sub (cn_w c) (cn_e c) (co_e _ Hok)). fold ne. unfold u_.
      rewrite Zminus_mod_idemp_l. f_equal. lia. }
  split; [|split; [done|done]].
  split; cbn [cn_buf cn_r cn_w cn_e set_ce c']; try apply Hok.
  - apply u_range. lia.
  - rewrite Ed. fold nr. change INPUT_BUF_SIZE with 128. lia.
  - intros Hin. apply (co_line _ Hok). rewrite Ee. apply elem_of_app. by left.
Qed.

(** Typing a character. *)
Lemma type_ok ch : nr + ne < INPUT_BUF_SIZE ->
  let c' := set_ce (u32 (cn_e c + 1)) (set_cbuf (cn_e c mod INPUT_BUF_SIZE) ch c) in
  ready c' = ready c /\ edit c' = edit c ++ [ch] /\
  u32 (cn_e c' - cn_r c') = nr + ne + 1 /\
  (ch <> NL -> cons_ok c') /\
  let c'' := set_cw (cn_e c') c' in
  cons_ok c'' /\ ready c'' = ready c ++ edit c ++ [ch] /\ edit c'' = [].
Proof.
  intros Hlt c'. destruct dist_range as [Hr He]. pose proof Hlt as Hlt'. change INPUT_BUF_SIZE with 128 in Hlt'.
  assert (u32 (u32 (cn_e c + 1) - cn_w c) = ne + 1) as Ed by (apply (u32_sub_add (cn_w c) (cn_e c) 1); fold ne; lia).
  assert (u32 (u32 (cn_e c + 1) - cn_r c) = nr + ne + 1) as Er.
  { rewrite (u32_sub_add (cn_r c) (cn_e c) 1); rewrite dist_all; lia. }
  assert (Z.to_nat (cn_e c mod INPUT_BUF_SIZE) = Z.to_nat (u32 (cn_r c + (nr + ne)) mod INPUT_BUF_SIZE)) as Ei.
  { f_equal. rewrite <- dist_all. by rewrite (u32_add_sub (cn_r c) (cn_e c) (co_e _ Hok)). }
  assert (ready c' = ready c) as E1.
  { unfold ready, c'. cbn [cn_buf cn_r cn_w set_ce set_cbuf]. rewrite Ei.
    apply (ring_insert INPUT_BUF_SIZE IBS_pos IBS_div); [apply Hok|fold nr; lia|done]. }
  assert (edit c' = edit c ++ [ch]) as E2.
  { unfold edit, c'. cbn [cn_buf cn_w cn_e set_ce set_cbuf]. rewrite Ed.
    rewrite <- (u32_add_sub (cn_w c) (cn_e c) (co_e _ Hok)) at 1. fold ne.
    apply (ring_write INPUT_BUF_SIZE IBS_pos IBS_div); [apply Hok|lia]. }
  split; [done|]. split; [done|]. split; [done|]. split.
  - intros Hnl. split; cbn [cn_buf cn_r cn_w cn_e set_ce set_cbuf c']; try apply Hok.
    + rewrite length_insert. apply Hok.
    + apply u_range. lia.
    + rewrite Ed. fold nr. lia.
    + fold c'. rewrite E2. intros [Hin|Hin%list_elem_of_singleton]%elem_of_app; [by apply (co_line _ Hok)|]. by apply Hnl.
  - intros c''. assert (edit c'' = []) as E3.
    { unfold edit, c''. cbn [cn_buf cn_w cn_e set_cw]. rewrite Z.sub_diag. done. }
    split; [|split; [|done]].
    + split; cbn [cn_buf cn_r cn_w cn_e set_cw set_ce set_cbuf c'' c']; try apply Hok.
      * rewrite length_insert. apply Hok.
      * apply u_range. lia.
      * apply u_range. lia.
      * rewrite Er, Z.sub_diag. change (u32 0) with 0. lia.
      * fold c' c''. rewrite E3. set_solver.
    + change (ready c'') with (ring INPUT_BUF_SIZE (<[Z.to_nat (cn_e c mod INPUT_BUF_SIZE) := ch]> (cn_buf c)) (cn_r c)
        (u32 (u32 (cn_e c + 1) - cn_r c))). rewrite Er, app_assoc, ready_edit, Ei.
      apply (ring_write INPUT_BUF_SIZE IBS_pos IBS_div); [apply Hok|lia].
Qed.
End Abs.

(** ** The code *)

Lemma procdump_loop_later n : forall i c s, cpu_ok c -> unlocked L_pr c ->
  exists c', procdump_loop n i c s = Done tt c' s /\ later c c'.
Proof.
  induction n as [|n IH]; intros i c s Hc Hu; cbn [procdump_loop]; [exists c; split; [done|apply later_refl]|].
  unfold gp. krun. destruct (decide _); [by apply IH|].
  edestruct (printf_later (S := kst)) as (c1 & -> & H1); [exact Hc|exact Hu|]. cbv beta iota.
  edestruct (printf_later (S := kst)) as (c2 & -> & H2); [by apply (later_cpu_ok c)|by apply (later_unlocked L_pr c)|].
  cbv beta iota. pose proof (later_trans _ _ _ H1 H2) as H12.
  destruct (IH (i + 1) c2 s) as (c3 & E3 & H3); [by apply (later_cpu_ok c)|by apply (later_unlocked L_pr c)|].
  exists c3. split; [exact E3|]. by eapply later_trans.
Qed.
Lemma procdump_later c s : cpu_ok c -> unlocked L_pr c -> exists c', procdump c s = Done tt c' s /\ later c c'.
Proof.
  intros Hc Hu. unfold procdump. krun.
  edestruct (printf_later (S := kst)) as (c1 & -> & H1); [exact Hc|exact Hu|]. cbv beta iota.
  destruct (procdump_loop_later (Z.to_nat NPROC) 0 c1 s) as (c2 & E2 & H2);
    [by apply (later_cpu_ok c)|by apply (later_unlocked L_pr c)|].
  exists c2. split; [exact E2|]. by eapply later_trans.
Qed.

Lemma echo_later ch c (s : kst) : cpu_ok c -> exists c', consputc false ch c s = Done tt c' s /\ later c c'.
Proof. intros Hc. eexists. split; [by apply consputc_eq|]. by eexists. Qed.

Lemma kill_line_spec n : forall fuel c s, (n <= fuel)%nat -> cpu_ok c -> cons_ok (k_cons s) ->
  length (edit (k_cons s)) = n ->
  exists c' k, kill_line fuel c s = Done tt c' (set_kcons s k) /\ later c c' /\ cons_ok k /\
    ready k = ready (k_cons s) /\ edit k = [].
Proof.
  induction n as [|n IH]; intros fuel c s Hf Hc Hok Hn.
  - apply nil_length_inv in Hn as Hnil. destruct (Z.eq_dec (cn_e (k_cons s)) (cn_w (k_cons s))) as [E|E].
    + exists c, (k_cons s). split; [|split; [apply later_refl|done]].
      destruct fuel; cbn [kill_line]; unfold gcons; krun; rewrite E, Z.eqb_refl; by destruct s.
    + destruct (back_ok _ Hok E) as (_ & _ & Ee). rewrite Hnil in Ee. by apply app_cons_not_nil in Ee.
  - destruct fuel as [|fuel]; [lia|]. cbn [kill_line]. unfold gcons. krun.
    assert (cn_e (k_cons s) <> cn_w (k_cons s)) as Hne.
    { intros E. apply (f_equal Z.of_nat) in Hn. rewrite length_edit in Hn. rewrite E, Z.sub_diag in Hn. done. }
    destruct (back_ok _ Hok Hne) as (Hok' & Er & Ee). rewrite (proj2 (Z.eqb_neq _ _) Hne).
    assert (cbuf_at (k_cons s) (cn_e (k_cons s) - 1) <> NL) as Hnl.
    { intros E. apply (co_line _ Hok). rewrite Ee, E. set_solver. }
    rewrite (proj2 (Z.eqb_neq _ _) Hnl). cbn [negb andb]. unfold ucons. cbv beta iota delta [modify].
    set (s1 := set_kcons s _). destruct (echo_later BACKSPACE c s1 Hc) as (c1 & -> & H1). cbv beta iota.
    destruct (IH fuel c1 s1) as (c2 & k & E2 & H2 & Hk & Hr & He); [lia|by apply (later_cpu_ok c)|done| |].
    { apply (f_equal length) in Ee. rewrite length_app in Ee. simpl in Ee. unfold s1. cbn [k_cons set_kcons]. lia. }
    exists c2, k. split; [exact E2|]. split; [by eapply later_trans|]. split; [done|]. split; [by rewrite Hr|done].
Qed.

(** ** Properties *)

(** C26: the interrupt handler of the console implements the line editor: each
    input byte acts on the finished input and on the line being typed as
    [typed] says (erase, kill line, end of line or of file, a full buffer),
    whatever the 32-bit indices of the ring are; the handler always returns,
    keeps the ring well-formed, and changes nothing else in the kernel. *)
Theorem consoleintr_refines_editor ch c s :
  cpu_ok c -> unlocked L_cons c -> unlocked L_pr c -> cons_ok (k_cons s) -> is_byte ch ->
  exists c' s', consoleintr ch c s = Done tt c' s' /\ s' = set_kcons s (k_cons s') /\ cons_ok (k_cons s') /\
    (ready (k_cons s'), edit (k_cons s')) = typed ch (ready (k_cons s), edit (k_cons s)).
Proof.
  intros Hc Hul Hpr Hok Hby. unfold consoleintr. kstep (acquire_eq L_cons c s Hul). set (ci := inside L_cons c).
  assert (cpu_ok ci) as Hci by by apply cpu_ok_inside.
  assert (forall c1 s1, later ci c1 -> exists c', release L_cons c1 s1 = Done tt c' (s1 : kst)) as Hrel.
  { intros c1 s1 [e ->]. unfold ci. rewrite inside_evs. eexists. apply release_eq; [by apply cpu_ok_evs|done]. }
  pose proof (length_ready (k_cons s)) as Lr. pose proof (length_edit (k_cons s)) as Le.
  assert (length (edit (k_cons s)) <= Z.to_nat INPUT_BUF_SIZE)%nat as Hle.
  { destruct (dist_range (k_cons s)) as [? ?]. pose proof (co_len _ Hok) as Hl. unfold INPUT_BUF_SIZE in *. lia. }
  unfold typed. destruct (ch =? ctrl (chr "P")).
  { destruct (procdump_later ci s Hci) as (c1 & E1 & H1); [by apply unlocked_inside|].
    destruct (Hrel c1 s H1) as [c' E']. exists c', s. split; [kstep E1; exact E'|]. split; [by destruct s|done]. }
  destruct (ch =? ctrl (chr "U")).
  { destruct (kill_line_spec _ (Z.to_nat INPUT_BUF_SIZE) ci s Hle Hci Hok eq_refl)
      as (c1 & k & E1 & H1 & Hk & Er & Ee).
    destruct (Hrel c1 (set_kcons s k) H1) as [c' E']. exists c', (set_kcons s k). split; [kstep E1; exact E'|].
    split; [done|]. split; [done|]. cbn [k_cons set_kcons]. by rewrite Er, Ee. }
  destruct ((ch =? ctrl (chr "H")) || (ch =? DEL)).
  { unfold gcons. krun. destruct (Z.eqb_spec (cn_e (k_cons s)) (cn_w (k_cons s))) as [E|E]; cbn [negb].
    - destruct (Hrel ci s (later_refl _)) as [c' E']. exists c', s. split; [exact E'|]. split; [by destruct s|].
      split; [done|]. f_equal. rewrite E, Z.sub_diag in Le. by destruct (edit (k_cons s)).
    - destruct (back_ok _ Hok E) as (Hok' & Er & Ee). unfold ucons. cbv beta iota delta [modify].
      set (s1 := set_kcons s _). destruct (echo_later BACKSPACE ci s1 Hci) as (c1 & -> & H1). cbv beta iota.
      destruct (Hrel c1 s1 H1) as [c' E']. exists c', s1. split; [exact E'|]. split; [done|]. split; [done|].
      unfold s1. cbn [k_cons set_kcons]. rewrite Er, Ee. by rewrite removelast_last. }
  unfold gcons, ucons. krun. cbn [k_cons set_kcons]. rewrite (dist_all _ Hok), Nat2Z.inj_add, Lr, Le.
  set (n := u32 (cn_w (k_cons s) - cn_r (k_cons s)) + u32 (cn_e (k_cons s) - cn_w (k_cons s))).
  destruct (Z.eqb_spec ch 0) as [E0|E0]; cbn [negb andb orb].
  { destruct (Hrel ci s (later_refl _)) as [c' E']. exists c', s. split; [exact E'|]. split; [by destruct s|done]. }
  rewrite Z.leb_antisym. destruct (Z.ltb_spec n INPUT_BUF_SIZE) as [Hlt|Hge]; cbn [negb].
  2:{ destruct (Hrel ci s (later_refl _)) as [c' E']. exists c', s. split; [exact E'|]. split; [by destruct s|done]. }
  set (ch1 := if ch =? 13 then NL else ch). destruct (echo_later ch1 ci s Hci) as (c1 & -> & H1). cbv beta iota.
  unfold ucons, gcons. cbv beta iota delta [modify gets].
  assert (u8 ch1 = ch1) as Eu by (apply u_small; unfold ch1; destruct (ch =? 13); [done|exact Hby]).
  rewrite Eu. destruct (type_ok _ Hok ch1 Hlt) as (Er & Ee & Ed & Hok1 & Hok2 & Er2 & Ee2).
  cbn [k_cons set_kcons]. cbn [cn_e set_cbuf]. fold n in Ed. rewrite Ed.
  destruct ((ch1 =? NL) || (ch1 =? ctrl (chr "D")) || (n + 1 =? INPUT_BUF_SIZE)) eqn:Eend.
  - unfold wakeup, emit, modc. cbv beta iota.
    edestruct (Hrel (set_evs (Wakeup C_cons_r :: evs c1) c1)) as [c' E'].
    { eapply later_trans; [exact H1|]. by eexists. }
    eexists c', _. split; [exact E'|]. split; [done|]. cbn [k_cons set_kcons]. split; [exact Hok2|]. by rewrite Er2, Ee2.
  - edestruct (Hrel c1) as [c' E']; [exact H1|]. eexists c', _. split; [exact E'|]. split; [done|].
    cbn [k_cons set_kcons]. split; [|by rewrite Er, Ee]. apply Hok1. intros E.
    apply orb_false_iff in Eend as [[E1 _]%orb_false_iff _]. by rewrite E in E1.
Qed.

(** The indices of this console are about to wrap around. *)
Definition cons_wrap : console :=
  Console (replicate (Z.to_nat INPUT_BUF_SIZE) 0) (2 ^ 32 - 1) (2 ^ 32 - 1) (2 ^ 32 - 1).
Definition cons_ctx : ctx := with_lock L_pr "pr" (with_lock L_cons "cons" ctx0).

Lemma consoleintr_refines_editor_witness :
  exists c' s', consoleintr 13 cons_ctx (set_kcons kst0 cons_wrap) = Done tt c' s' /\
    ready (k_cons s') = [NL] /\ edit (k_cons s') = [].
Proof.
  destruct (consoleintr_refines_editor 13 cons_ctx (set_kcons kst0 cons_wrap)) as (c' & s' & E & _ & _ & H).
  - destruct ctx0_ok as [H1 H2 H3]. split; assumption.
  - exists "cons"%string. reflexivity.
  - exists "pr"%string. reflexivity.
  - split; try (split; reflexivity || (intro; discriminate)); [vm_compute; discriminate|].
    change (edit cons_wrap) with (@nil Z). apply not_elem_of_nil.
  - split; [discriminate|reflexivity].
  - exists c', s'. split; [exact E|]. injection H as Hr He. split; [exact Hr|exact He].
Defined.
