(* ===== verification/Fs.v ===== *)
(** * The file system (kernel/fs.c, kernel/fs.h): blocks and inodes

    Allocation of disk blocks and inodes, the inode table, and the contents of
    files, over the log and the buffer cache.  Directories and paths are in
    Dir.v. *)
From stdpp Require Import base numbers list gmap strings.
From S2P Require Import Prelude Kernel Spinlock Sleeplock Str Riscv Kalloc Vm Bio Log Printf Kstate Proc.

Definition ROOTINO : Z := 1.
Definition FSMAGIC : Z := 0x10203040.
Definition NINDIRECT : Z := BSIZE / 4.
Definition MAXFILE : Z := NDIRECT + NINDIRECT.
Definition NINODE : Z := 50.
(** [struct dinode] is 64 bytes: four shorts, the size and NDIRECT+1 addresses. *)
Definition DINODE : Z := 64.
Definition IPB : Z := BSIZE / DINODE.
Definition BPB : Z := BSIZE * 8.
Definition IBLOCK (i : Z) (sb : superblock) : Z := u32 (i / IPB + sb_inodestart sb).
Definition BBLOCK (b : Z) (sb : superblock) : Z := u32 (b / BPB + sb_bmapstart sb).
Definition T_DIR : Z := 1.
Definition T_FILE : Z := 2.
Definition T_DEVICE : Z := 3.

(** ** Setters of the in-memory inode *)

Definition set_iid (dev inum ref : Z) (valid : bool) (x : inode) : inode :=
  Inode dev inum ref (i_lock x) valid (i_type x) (i_major x) (i_minor x) (i_nlink x) (i_size x) (i_addrs x).
Definition set_iref (r : Z) (x : inode) : inode :=
  Inode (i_dev x) (i_inum x) r (i_lock x) (i_valid x) (i_type x) (i_major x) (i_minor x) (i_nlink x) (i_size x) (i_addrs x).
Definition set_ilock (lk : sleeplock) (x : inode) : inode :=
  Inode (i_dev x) (i_inum x) (i_ref x) lk (i_valid x) (i_type x) (i_major x) (i_minor x) (i_nlink x) (i_size x) (i_addrs x).
Definition set_ivalid (v : bool) (x : inode) : inode :=
  Inode (i_dev x) (i_inum x) (i_ref x) (i_lock x) v (i_type x) (i_major x) (i_minor x) (i_nlink x) (i_size x) (i_addrs x).
Definition set_itype (t : Z) (x : inode) : inode :=
  Inode (i_dev x) (i_inum x) (i_ref x) (i_lock x) (i_valid x) t (i_major x) (i_minor x) (i_nlink x) (i_size x) (i_addrs x).
Definition set_imeta (major minor nlink : Z) (x : inode) : inode :=
  Inode (i_dev x) (i_inum x) (i_ref x) (i_lock x) (i_valid x) (i_type x) major minor nlink (i_size x) (i_addrs x).
Definition set_isize (n : Z) (x : inode) : inode :=
  Inode (i_dev x) (i_inum x) (i_ref x) (i_lock x) (i_valid x) (i_type x) (i_major x) (i_minor x) (i_nlink x) n (i_addrs x).
Definition set_iaddr (k a : Z) (x : inode) : inode :=
  Inode (i_dev x) (i_inum x) (i_ref x) (i_lock x) (i_valid x) (i_type x) (i_major x) (i_minor x) (i_nlink x) (i_size x)
    (<[Z.to_nat k := a]> (i_addrs x)).
Definition addr_at (x : inode) (k : Z) : Z := nth (Z.to_nat k) (i_addrs x) 0.

Definition ilk (i : Z) : acc kst sleeplock :=
  Acc (fun s => i_lock (inode_at s i)) (fun lk => upd_inode i (set_ilock lk)).

(** ** On-disk inodes *)

(** The fields of the [k]-th dinode of a block. *)
Definition di_type (k : Z) (d : block) : Z := i16 (get16 (DINODE * k) d).
Definition di_nlink (k : Z) (d : block) : Z := i16 (get16 (DINODE * k + 6) d).
Definition di_addrs (k : Z) (d : block) : list Z := (fun j => get32 (DINODE * k + 12 + 4 * j) d) <$> seqZ 0 13.
(** dip->type = ip->type; ...; memmove(dip->addrs, ip->addrs, sizeof(ip->addrs)) *)
Fixpoint put_addrs (off : Z) (l : list Z) (d : block) : block :=
  match l with
  | [] => d
  | a :: l => put_addrs (off + 4) l (put32 off a d)
  end.
Definition put_dinode (k : Z) (x : inode) (d : block) : block :=
  let o := DINODE * k in
  let d := put16 o (i_type x) d in
  let d := put16 (o + 2) (i_major x) d in
  let d := put16 (o + 4) (i_minor x) d in
  let d := put16 (o + 6) (i_nlink x) d in
  let d := put32 (o + 8) (i_size x) d in
  put_addrs (o + 12) (i_addrs x) d.
(** ip->type = dip->type; ...; memmove(ip->addrs, dip->addrs, sizeof(ip->addrs)) *)
Definition get_dinode (k : Z) (d : block) (x : inode) : inode :=
  let o := DINODE * k in
  Inode (i_dev x) (i_inum x) (i_ref x) (i_lock x) (i_valid x)
    (di_type k d) (i16 (get16 (o + 2) d)) (i16 (get16 (o + 4) d)) (di_nlink k d) (get32 (o + 8) d) (di_addrs k d).

Section Fs.
Context {D : DiskDriver}.
(** [end] is placed by the linker script; [buf_addr b] is the address of
    bcache.buf[b].data. *)
Variables (end_ : Z) (buf_addr : Z -> Z).

Definition kdata (b : Z) : K kst block := zoom logA (bdata b).
Definition set_kdata (b : Z) (d : block) : K kst unit := zoom logA (set_bdata b d).
Definition gsb : K kst superblock := gets k_sb.

(** memmove(sb, bp->data, sizeof( *sb)) *)
Definition get_sb (d : block) : superblock :=
  SuperBlock (get32 0 d) (get32 4 d) (get32 8 d) (get32 12 d) (get32 16 d) (get32 20 d) (get32 24 d) (get32 28 d).
Definition readsb (dev : Z) : K kst unit :=
  bp ← zoom kbioA (bread (u32 dev) 1);
  d ← kdata bp;
  modify (fun s => set_ksb s (get_sb d));;
  zoom kbioA (brelse bp).

(** ** Blocks *)

Definition bzero (dev bno : Z) : K kst unit :=
  bp ← zoom kbioA (bread (u32 dev) (u32 bno));
  set_kdata bp zero_block;;
  zoom logA (log_write bp);;
  zoom kbioA (brelse bp).

Definition bit_free (d : block) (bi : Z) : bool :=
  Z.land (nth (Z.to_nat (bi / 8)) d 0) (Z.shiftl 1 (bi mod 8)) =? 0.
Definition bit_set (bi : Z) (d : block) : block :=
  <[Z.to_nat (bi / 8) := u8 (Z.lor (nth (Z.to_nat (bi / 8)) d 0) (Z.shiftl 1 (bi mod 8)))]> d.
Definition bit_clear (bi : Z) (d : block) : block :=
  <[Z.to_nat (bi / 8) := u8 (Z.land (nth (Z.to_nat (bi / 8)) d 0) (Z.lnot (Z.shiftl 1 (bi mod 8))))]> d.

(** for(bi = 0; bi < BPB && b + bi < sb.size; bi++): the first free bit. *)
Fixpoint bit_scan (n : nat) (bi b size : Z) (d : block) : option Z :=
  match n with
  | O => None
  | S n =>
      if negb (b + bi <? size) then None
      else if bit_free d bi then Some bi
      else bit_scan n (bi + 1) b size d
  end.
(** for(b = 0; b < sb.size; b += BPB), at most [fuel] bitmap blocks. *)
Fixpoint balloc_loop (fuel : nat) (b dev : Z) : K kst (option Z) :=
  sb ← gsb;
  if negb (b <? sb_size sb) then mret None
  else
    match fuel with
    | O => nofuel
    | S fuel =>
        bp ← zoom kbioA (bread dev (BBLOCK b sb));
        d ← kdata bp;
        match bit_scan (Z.to_nat BPB) 0 b (sb_size sb) d with
        | Some bi =>
            set_kdata bp (bit_set bi d);;
            zoom logA (log_write bp);;
            zoom kbioA (brelse bp);;
            bzero dev (b + bi);;
            mret (Some (b + bi))
        | None =>
            zoom kbioA (brelse bp);;
            balloc_loop fuel (b + BPB) dev
        end
    end.
Definition balloc (dev : Z) : K kst Z :=
  sb ← gsb;
  r ← balloc_loop (Z.to_nat (sb_size sb / BPB + 1)) 0 dev;
  match r with
  | Some b => mret b
  | None => _ ← printf false (chars "balloc: out of blocks" ++ [10]) []; mret 0
  end.

Definition bfree (dev b : Z) : K kst unit :=
  sb ← gsb;
  bp ← zoom kbioA (bread (u32 dev) (BBLOCK b sb));
  let bi := b mod BPB in
  d ← kdata bp;
  (if bit_free d bi then panic "freeing free block" else mret tt);;
  set_kdata bp (bit_clear bi d);;
  zoom logA (log_write bp);;
  zoom kbioA (brelse bp).

(** ** The inode table *)

Fixpoint iinit_loop (n : nat) (i : Z) : K kst unit :=
  match n with
  | O => mret tt
  | S n => initsleeplock (L_inode i) (ilk i);; iinit_loop n (i + 1)
  end.
Definition iinit : K kst unit :=
  initlock L_itable "itable";;
  iinit_loop (Z.to_nat NINODE) 0.

(** The scan of iget: the entry of the inode if it is there ([inl]), else the
    first empty entry seen. *)
Fixpoint iget_scan (n : nat) (ip dev inum : Z) (empty : option Z) : K kst (Z + option Z) :=
  match n with
  | O => mret (inr empty)
  | S n =>
      x ← gi ip;
      if (i_ref x >? 0) && (i_dev x =? dev) && (i_inum x =? inum) then mret (inl ip)
      else
        let empty := match empty with
                     | None => if i_ref x =? 0 then Some ip else None
                     | Some e => Some e
                     end in
        iget_scan n (ip + 1) dev inum empty
  end.
Definition iget (dev inum : Z) : K kst Z :=
  acquire L_itable;;
  r ← iget_scan (Z.to_nat NINODE) 0 dev inum None;
  match r with
  | inl ip =>
      ui ip (fun x => set_iref (i32 (i_ref x + 1)) x);;
      release L_itable;;
      mret ip
  | inr None => panic "iget: no inodes"
  | inr (Some ip) =>
      ui ip (set_iid dev inum 1 false);;
      release L_itable;;
      mret ip
  end.

Definition idup (ip : Z) : K kst Z :=
  acquire L_itable;;
  ui ip (fun x => set_iref (i32 (i_ref x + 1)) x);;
  release L_itable;;
  mret ip.

(** for(inum = 1; inum < sb.ninodes; inum++), [n] inodes left. *)
Fixpoint ialloc_loop (n : nat) (inum dev type : Z) : K kst (option Z) :=
  match n with
  | O => mret None
  | S n =>
      sb ← gsb;
      bp ← zoom kbioA (bread dev (IBLOCK inum sb));
      d ← kdata bp;
      let k := inum mod IPB in
      if di_type k d =? 0 then
        set_kdata bp (put16 (DINODE * k) type (wr_bytes (DINODE * k) (replicate (Z.to_nat DINODE) 0) d));;
        zoom logA (log_write bp);;
        zoom kbioA (brelse bp);;
        ip ← iget dev inum;
        mret (Some ip)
      else
        zoom kbioA (brelse bp);;
        ialloc_loop n (inum + 1) dev type
  end.
Definition ialloc (dev type : Z) : K kst (option Z) :=
  sb ← gsb;
  r ← ialloc_loop (Z.to_nat (sb_ninodes sb - 1)) 1 dev type;
  match r with
  | Some ip => mret (Some ip)
  | None => _ ← printf false (chars "ialloc: no inodes" ++ [10]) []; mret None
  end.

Definition iupdate (ip : Z) : K kst unit :=
  sb ← gsb;
  x ← gi ip;
  bp ← zoom kbioA (bread (i_dev x) (IBLOCK (i_inum x) sb));
  d ← kdata bp;
  set_kdata bp (put_dinode (i_inum x mod IPB) x d);;
  zoom logA (log_write bp);;
  zoom kbioA (brelse bp).

(** [None] is the null pointer. *)
Definition ilock (ip : option Z) : K kst unit :=
  match ip with
  | None => panic "ilock"
  | Some ip =>
      x ← gi ip;
      (if i_ref x <? 1 then panic "ilock" else mret tt);;
      acquiresleep (L_inode ip) (ilk ip);;
      x ← gi ip;
      if negb (i_valid x) then
        sb ← gsb;
        bp ← zoom kbioA (bread (i_dev x) (IBLOCK (i_inum x) sb));
        d ← kdata bp;
        ui ip (get_dinode (i_inum x mod IPB) d);;
        zoom kbioA (brelse bp);;
        ui ip (set_ivalid true);;
        x ← gi ip;
        if i_type x =? 0 then panic "ilock: no type" else mret tt
      else mret tt
  end.

Definition iunlock (ip : option Z) : K kst unit :=
  match ip with
  | None => panic "iunlock"
  | Some ip =>
      h ← holdingsleep (L_inode ip) (ilk ip);
      (if negb h then panic "iunlock" else mret tt);;
      x ← gi ip;
      (if i_ref x <? 1 then panic "iunlock" else mret tt);;
      releasesleep (L_inode ip) (ilk ip)
  end.

(** ** Contents *)

Fixpoint itrunc_direct (n : nat) (i ip : Z) : K kst unit :=
  match n with
  | O => mret tt
  | S n =>
      x ← gi ip;
      (if z2b (addr_at x i) then
         bfree (i_dev x) (addr_at x i);;
         ui ip (set_iaddr i 0)
       else mret tt);;
      itrunc_direct n (i + 1) ip
  end.
Fixpoint itrunc_indirect (n : nat) (j ip bp : Z) : K kst unit :=
  match n with
  | O => mret tt
  | S n =>
      x ← gi ip;
      a ← kdata bp;
      (if z2b (get32 (4 * j) a) then bfree (i_dev x) (get32 (4 * j) a) else mret tt);;
      itrunc_indirect n (j + 1) ip bp
  end.
Definition itrunc (ip : Z) : K kst unit :=
  itrunc_direct (Z.to_nat NDIRECT) 0 ip;;
  x ← gi ip;
  (if z2b (addr_at x NDIRECT) then
     bp ← zoom kbioA (bread (i_dev x) (addr_at x NDIRECT));
     itrunc_indirect (Z.to_nat NINDIRECT) 0 ip bp;;
     zoom kbioA (brelse bp);;
     x ← gi ip;
     bfree (i_dev x) (addr_at x NDIRECT);;
     ui ip (set_iaddr NDIRECT 0)
   else mret tt);;
  ui ip (set_isize 0);;
  iupdate ip.

Definition iput (ip : Z) : K kst unit :=
  acquire L_itable;;
  x ← gi ip;
  (if (i_ref x =? 1) && i_valid x && (i_nlink x =? 0) then
     acquiresleep (L_inode ip) (ilk ip);;
     release L_itable;;
     itrunc ip;;
     ui ip (set_itype 0);;
     iupdate ip;;
     ui ip (set_ivalid false);;
     releasesleep (L_inode ip) (ilk ip);;
     acquire L_itable
   else mret tt);;
  ui ip (fun x => set_iref (i32 (i_ref x - 1)) x);;
  release L_itable.

Definition iunlockput (ip : Z) : K kst unit :=
  iunlock (Some ip);;
  iput ip.

Fixpoint ireclaim_loop (n : nat) (inum dev : Z) : K kst unit :=
  match n with
  | O => mret tt
  | S n =>
      sb ← gsb;
      bp ← zoom kbioA (bread (u32 dev) (IBLOCK inum sb));
      d ← kdata bp;
      let k := inum mod IPB in
      ip ← (if negb (di_type k d =? 0) && (di_nlink k d =? 0) then
              _ ← printf false (chars "ireclaim: orphaned inode %d" ++ [10]) [VInt inum];
              ip ← iget (u32 dev) inum;
              mret (Some ip)
            else mret None);
      zoom kbioA (brelse bp);;
      (match ip with
       | Some ip =>
           zoom logA begin_op;;
           ilock (Some ip);;
           iunlock (Some ip);;
           iput ip;;
           zoom logA end_op
       | None => mret tt
       end);;
      ireclaim_loop n (inum + 1) dev
  end.
Definition ireclaim (dev : Z) : K kst unit :=
  sb ← gsb;
  ireclaim_loop (Z.to_nat (sb_ninodes sb - 1)) 1 dev.

Definition fsinit (dev : Z) : K kst unit :=
  readsb dev;;
  sb ← gsb;
  (if negb (sb_magic sb =? FSMAGIC) then panic "invalid file system" else mret tt);;
  zoom logA (initlog dev (sb_logstart sb));;
  ireclaim dev.

Definition bmap (ip bn : Z) : K kst Z :=
  if bn <? NDIRECT then
    x ← gi ip;
    if addr_at x bn =? 0 then
      addr ← balloc (i_dev x);
      if addr =? 0 then mret 0
      else ui ip (set_iaddr bn addr);; mret addr
    else mret (addr_at x bn)
  else
    let bn := bn - NDIRECT in
    if bn <? NINDIRECT then
      x ← gi ip;
      addr ← (if addr_at x NDIRECT =? 0 then
                addr ← balloc (i_dev x);
                (if addr =? 0 then mret tt else ui ip (set_iaddr NDIRECT addr));;
                mret addr
              else mret (addr_at x NDIRECT));
      if addr =? 0 then mret 0
      else
        bp ← zoom kbioA (bread (i_dev x) addr);
        a ← kdata bp;
        addr ← (if get32 (4 * bn) a =? 0 then
                  addr ← balloc (i_dev x);
                  (if z2b addr then
                     a ← kdata bp;
                     set_kdata bp (put32 (4 * bn) addr a);;
                     zoom logA (log_write bp)
                   else mret tt);;
                  mret addr
                else mret (get32 (4 * bn) a));
        zoom kbioA (brelse bp);;
        mret addr
    else panic "bmap: out of range".

(** stati fills in the [struct stat] at address [st]: dev, ino, type, nlink and,
    after four bytes of padding, size. *)
Definition st_le (n : nat) (a v : Z) : K kst unit :=
  zoom memA (modify (fun m => set_memory (store_bytes (memory m) a (le_split n v)) m)).
Definition stati (ip st : Z) : K kst unit :=
  x ← gi ip;
  st_le 4 st (i_dev x);;
  st_le 4 (st + 4) (i_inum x);;
  st_le 2 (st + 8) (i_type x);;
  st_le 2 (st + 10) (i_nlink x);;
  st_le 8 (st + 16) (i_size x).

(** A buffer's bytes are memory at [buf_addr b]: the copy routines reach them
    there. *)
Definition buf_to_mem (b : Z) : K kst unit :=
  d ← kdata b;
  zoom memA (modify (fun m => set_memory (store_bytes (memory m) (buf_addr b) d) m)).
Definition mem_to_buf (b : Z) : K kst unit :=
  m ← zoom memA (gets memory);
  set_kdata b (load_bytes m (buf_addr b) (Z.to_nat BSIZE)).

(** for(tot=0; tot<n; tot+=m, off+=m, dst+=m) *)
Fixpoint readi_loop (fuel : nat) (ip : Z) (user_dst : bool) (dst off tot n : Z) : K kst Z :=
  if negb (tot <? n) then mret tot
  else
    match fuel with
    | O => nofuel
    | S fuel =>
        addr ← bmap ip (off / BSIZE);
        if addr =? 0 then mret tot
        else
          x ← gi ip;
          bp ← zoom kbioA (bread (i_dev x) addr);
          let m := Z.min (n - tot) (BSIZE - off mod BSIZE) in
          buf_to_mem bp;;
          r ← either_copyout end_ user_dst dst (buf_addr bp + off mod BSIZE) m;
          if r =? -1 then
            zoom kbioA (brelse bp);;
            mret (u32 (-1))
          else
            zoom kbioA (brelse bp);;
            readi_loop fuel ip user_dst (u64 (dst + m)) (u32 (off + m)) (u32 (tot + m)) n
    end.
Definition readi (ip : Z) (user_dst : bool) (dst off n : Z) : K kst Z :=
  x ← gi ip;
  if (off >? i_size x) || (u32 (off + n) <? off) then mret 0
  else
    let n := if u32 (off + n) >? i_size x then u32 (i_size x - off) else n in
    tot ← readi_loop (Z.to_nat (n / BSIZE + 2)) ip user_dst dst off 0 n;
    mret (i32 tot).

(** for(tot=0; tot<n; tot+=m, off+=m, src+=m): the pair of tot and off. *)
Fixpoint writei_loop (fuel : nat) (ip : Z) (user_src : bool) (src off tot n : Z) : K kst (Z * Z) :=
  if negb (tot <? n) then mret (tot, off)
  else
    match fuel with
    | O => nofuel
    | S fuel =>
        addr ← bmap ip (off / BSIZE);
        if addr =? 0 then mret (tot, off)
        else
          x ← gi ip;
          bp ← zoom kbioA (bread (i_dev x) addr);
          let m := Z.min (n - tot) (BSIZE - off mod BSIZE) in
          buf_to_mem bp;;
          r ← either_copyin end_ (buf_addr bp + off mod BSIZE) user_src src m;
          mem_to_buf bp;;
          if r =? -1 then
            zoom kbioA (brelse bp);;
            mret (tot, off)
          else
            zoom logA (log_write bp);;
            zoom kbioA (brelse bp);;
            writei_loop fuel ip user_src (u64 (src + m)) (u32 (off + m)) (u32 (tot + m)) n
    end.
Definition writei (ip : Z) (user_src : bool) (src off n : Z) : K kst Z :=
  x ← gi ip;
  if (off >? i_size x) || (u32 (off + n) <? off) then mret (-1)
  else if u32 (off + n) >? MAXFILE * BSIZE then mret (-1)
  else
    r ← writei_loop (Z.to_nat (n / BSIZE + 2)) ip user_src src off 0 n;
    let '(tot, off) := r in
    x ← gi ip;
    (if off >? i_size x then ui ip (set_isize off) else mret tt);;
    iupdate ip;;
    mret (i32 tot).
End Fs.
