(* ===== verification/Dir.v ===== *)
(** * Directories and paths (kernel/fs.c)

    A directory is a file of 16-byte entries; a path is a C string in kernel
    memory, taken apart by skipelem. *)
From stdpp Require Import base numbers list gmap strings.
From S2P Require Import Prelude Kernel Spinlock Sleeplock Str Riscv Kalloc Vm Bio Log Printf Kstate Proc Fs.

Definition DIRSIZ : Z := 14.
(** sizeof(struct dirent): a ushort and a name. *)
Definition DIRENT : Z := 2 + DIRSIZ.
Definition MAXPATH : Z := 128.

Definition load16 (m : mem) (a : Z) : Z := le_combine (load_bytes m a 2).

Definition namecmp (m : mem) (s t : Z) : Z := strncmp m s t DIRSIZ.

(** ** Paths *)

(** while( *path == '/' ) path++;  [None] when the bound runs out. *)
Fixpoint skip_slashes (fuel : nat) (m : mem) (path : Z) : option Z :=
  match fuel with
  | O => None
  | S fuel => if load8 m path =? 47 then skip_slashes fuel m (path + 1) else Some path
  end.
(** while( *path != '/' && *path != 0 ) path++; *)
Fixpoint skip_name (fuel : nat) (m : mem) (path : Z) : option Z :=
  match fuel with
  | O => None
  | S fuel =>
      if negb (load8 m path =? 47) && negb (load8 m path =? 0) then skip_name fuel m (path + 1) else Some path
  end.

(** The result: [None] when a bound ran out, else the memory with the element
    in [name] and the rest of the path, or the null pointer. *)
Definition skipelem (fuel : nat) (m : mem) (path name : Z) : option (mem * option Z) :=
  match skip_slashes fuel m path with
  | None => None
  | Some path =>
      if load8 m path =? 0 then Some (m, None)
      else
        let s := path in
        match skip_name fuel m path with
        | None => None
        | Some path =>
            let len := path - s in
            let m := if len >=? DIRSIZ then memmove m name s DIRSIZ
                     else store8 (memmove m name s len) (name + len) 0 in
            match skip_slashes fuel m path with
            | None => None
            | Some path => Some (m, Some path)
            end
        end
  end.

Section Dir.
Context {D : DiskDriver}.
(** [de_addr] and [de2_addr] are the addresses of the local [de] of dirlookup
    and of dirlink, [nm_addr] that of the local [name] of namei. *)
Variables (end_ : Z) (buf_addr : Z -> Z) (de_addr de2_addr nm_addr : Z).

Definition kmem : K kst mem := zoom memA (gets memory).
Definition put_kmem (m : mem) : K kst unit := zoom memA (modify (set_memory m)).

(** for(off = 0; off < dp->size; off += sizeof(de)): the inode and the offset
    stored through [poff]. *)
Fixpoint dirlookup_loop (fuel : nat) (dp name off : Z) : K kst (option (Z * Z)) :=
  x ← gi dp;
  if negb (off <? i_size x) then mret None
  else
    match fuel with
    | O => nofuel
    | S fuel =>
        r ← readi end_ buf_addr dp false de_addr off DIRENT;
        (if negb (r =? DIRENT) then panic "dirlookup read" else mret tt);;
        m ← kmem;
        if load16 m de_addr =? 0 then dirlookup_loop fuel dp name (u32 (off + DIRENT))
        else if namecmp m name (de_addr + 2) =? 0 then
          let inum := load16 m de_addr in
          ip ← iget (i_dev x) inum;
          mret (Some (ip, off))
        else dirlookup_loop fuel dp name (u32 (off + DIRENT))
    end.
Definition dirlookup (dp name : Z) : K kst (option (Z * Z)) :=
  x ← gi dp;
  (if negb (i_type x =? T_DIR) then panic "dirlookup not DIR" else mret tt);;
  dirlookup_loop (Z.to_nat (i_size x / DIRENT + 1)) dp name 0.

(** The search for an empty entry: its offset, or the end of the directory. *)
Fixpoint dirlink_loop (fuel : nat) (dp off : Z) : K kst Z :=
  x ← gi dp;
  if negb (off <? i_size x) then mret off
  else
    match fuel with
    | O => nofuel
    | S fuel =>
        r ← readi end_ buf_addr dp false de2_addr off DIRENT;
        (if negb (r =? DIRENT) then panic "dirlink read" else mret tt);;
        m ← kmem;
        if load16 m de2_addr =? 0 then mret off
        else dirlink_loop fuel dp (off + DIRENT)
    end.
Definition dirlink (dp name inum : Z) : K kst Z :=
  r ← dirlookup dp name;
  match r with
  | Some (ip, _) => iput ip;; mret (-1)
  | None =>
      x ← gi dp;
      off ← dirlink_loop (Z.to_nat (i_size x / DIRENT + 1)) dp 0;
      m ← kmem;
      put_kmem (store_bytes (strncpy m (de2_addr + 2) name DIRSIZ) de2_addr (le_split 2 inum));;
      r ← writei end_ buf_addr dp false de2_addr (u32 off) DIRENT;
      if negb (r =? DIRENT) then mret (-1) else mret 0
  end.

(** while((path = skipelem(path, name)) != 0), at most [fuel] elements. *)
Fixpoint namex_loop (fuel : nat) (ip path : Z) (nameiparent : bool) (name : Z) : K kst (option Z) :=
  m ← kmem;
  match skipelem (Z.to_nat MAXPATH) m path name with
  | None => nofuel
  | Some (m, None) =>
      if nameiparent then iput ip;; mret None else mret (Some ip)
  | Some (m, Some path) =>
      match fuel with
      | O => nofuel
      | S fuel =>
          put_kmem m;;
          ilock (Some ip);;
          x ← gi ip;
          if negb (i_type x =? T_DIR) then iunlockput ip;; mret None
          else
            m ← kmem;
            if nameiparent && (load8 m path =? 0) then
              iunlock (Some ip);;
              mret (Some ip)
            else
              r ← dirlookup ip name;
              match r with
              | None => iunlockput ip;; mret None
              | Some (next, _) =>
                  iunlockput ip;;
                  namex_loop fuel next path nameiparent name
              end
      end
  end.
(** A null cwd faults in the kernel (trap.c). *)
Definition namex (path : Z) (nameiparent : bool) (name : Z) : K kst (option Z) :=
  m ← kmem;
  ip ← (if load8 m path =? 47 then iget ROOTDEV ROOTINO
        else
          i ← myproc;
          p ← gp i;
          match p_cwd p with
          | Some cwd => idup cwd
          | None => panic "kerneltrap"
          end);
  namex_loop (Z.to_nat MAXPATH) ip path nameiparent name.

Definition namei (path : Z) : K kst (option Z) := namex path false nm_addr.
Definition nameiparent (path name : Z) : K kst (option Z) := namex path true name.
End Dir.
