(* ===== verification/File.v ===== *)
(** * Open files (kernel/file.c, and pipealloc of kernel/pipe.c)

    The table of open files, and reading, writing and closing through it. *)
From stdpp Require Import base numbers list gmap strings.
From S2P Require Import Prelude Kernel Spinlock Sleeplock Str Riscv Kalloc Vm Bio Log Printf Kstate Proc Pipe Console Fs Dir.

(** Addresses the linker and the compiler choose: the end of the kernel image,
    the trampoline page, forkret, usertrap, uservec, the fields of static tables
    whose address is taken, and locals of system calls on the kernel stack. *)
Record layout := Layout {
  l_end : Z;
  l_trampoline : Z;
  l_uservec : Z;
  l_usertrap : Z;
  l_kernelvec : Z;
  l_forkret : Z;
  l_xstate : Z -> Z;     (* &proc[i].xstate *)
  l_buf : Z -> Z;        (* bcache.buf[b].data *)
  l_ch : Z;              (* ch of pipewrite and piperead *)
  l_cbuf : Z;            (* cbuf of consoleread *)
  l_obuf : Z;            (* buf of consolewrite *)
  l_st : Z;              (* st of filestat *)
  l_de : Z;              (* de of dirlookup *)
  l_de2 : Z;             (* de of dirlink *)
  l_de3 : Z;             (* de of isdirempty *)
  l_de4 : Z;             (* de of sys_unlink *)
  l_nm : Z;              (* name of namei *)
  l_name : Z;            (* name of sys_link, sys_unlink and create *)
  l_path : Z;            (* path of the system calls that take one *)
  l_path2 : Z;           (* new of sys_link *)
  l_uarg : Z;            (* uarg of sys_exec *)
  l_fd : Z;              (* fd0 and fd1 of sys_pipe *)
  l_elf : Z;             (* elf of kexec *)
  l_ph : Z;              (* ph of kexec *)
  l_ustack : Z;          (* ustack of kexec *)
  l_dot : Z;             (* the string literal . *)
  l_dotdot : Z;          (* the string literal .. *)
  l_root : Z;            (* the string literal / *)
  l_init : Z;            (* the string literal /init *)
}.

Definition NFILE : Z := 100.

Definition set_ftype (t : ftype) (f : file) : file :=
  File t (f_ref f) (f_readable f) (f_writable f) (f_pipe f) (f_ip f) (f_off f) (f_major f).
Definition set_fref (r : Z) (f : file) : file :=
  File (f_type f) r (f_readable f) (f_writable f) (f_pipe f) (f_ip f) (f_off f) (f_major f).
Definition set_fmode (r w : bool) (f : file) : file :=
  File (f_type f) (f_ref f) r w (f_pipe f) (f_ip f) (f_off f) (f_major f).
Definition set_fpipe (p : Z) (f : file) : file :=
  File (f_type f) (f_ref f) (f_readable f) (f_writable f) p (f_ip f) (f_off f) (f_major f).
Definition set_fip (ip : Z) (f : file) : file :=
  File (f_type f) (f_ref f) (f_readable f) (f_writable f) (f_pipe f) ip (f_off f) (f_major f).
Definition set_foff (o : Z) (f : file) : file :=
  File (f_type f) (f_ref f) (f_readable f) (f_writable f) (f_pipe f) (f_ip f) o (f_major f).
Definition set_fmajor (m : Z) (f : file) : file :=
  File (f_type f) (f_ref f) (f_readable f) (f_writable f) (f_pipe f) (f_ip f) (f_off f) m.

Definition fileinit : K kst unit := initlock L_ftable "ftable".

(** for(f = ftable.file; f < ftable.file + NFILE; f++), [n] entries left. *)
Fixpoint file_scan (n : nat) (f : Z) : K kst (option Z) :=
  match n with
  | O => mret None
  | S n =>
      x ← gf f;
      if f_ref x =? 0 then mret (Some f) else file_scan n (f + 1)
  end.
Definition filealloc : K kst (option Z) :=
  acquire L_ftable;;
  r ← file_scan (Z.to_nat NFILE) 0;
  match r with
  | Some f => uf f (set_fref 1);; release L_ftable;; mret (Some f)
  | None => release L_ftable;; mret None
  end.

Definition filedup (f : Z) : K kst Z :=
  acquire L_ftable;;
  x ← gf f;
  (if f_ref x <? 1 then panic "filedup" else mret tt);;
  uf f (set_fref (i32 (f_ref x + 1)));;
  release L_ftable;;
  mret f.

Section File.
Context {D : DiskDriver} (L : layout).

Definition fileclose (f : Z) : K kst unit :=
  acquire L_ftable;;
  x ← gf f;
  (if f_ref x <? 1 then panic "fileclose" else mret tt);;
  uf f (set_fref (f_ref x - 1));;
  if f_ref x - 1 >? 0 then release L_ftable
  else
    ff ← gf f;
    uf f (set_fref 0);;
    uf f (set_ftype FD_NONE);;
    release L_ftable;;
    match f_type ff with
    | FD_PIPE => pipeclose (l_end L) (f_pipe ff) (f_writable ff)
    | FD_INODE | FD_DEVICE =>
        zoom logA begin_op;;
        iput (f_ip ff);;
        zoom logA end_op
    | FD_NONE => mret tt
    end.

Definition STAT : Z := 24.
Definition filestat (f addr : Z) : K kst Z :=
  i ← myproc;
  p ← gp i;
  x ← gf f;
  match f_type x with
  | FD_INODE | FD_DEVICE =>
      ilock (Some (f_ip x));;
      stati (f_ip x) (l_st L);;
      iunlock (Some (f_ip x));;
      r ← zoom memA (copyout (l_end L) (p_sz p) (p_pagetable p) (p_pagetable p) addr (l_st L) STAT);
      if r <? 0 then mret (-1) else mret 0
  | _ => mret (-1)
  end.

Definition fileread (f addr n : Z) : K kst Z :=
  x ← gf f;
  if negb (f_readable x) then mret (-1)
  else
    match f_type x with
    | FD_PIPE => piperead (l_end L) (l_ch L) (f_pipe x) addr n
    | FD_DEVICE =>
        if (f_major x <? 0) || (f_major x >=? NDEV) then mret (-1)
        else
          match devsw_read (l_end L) (l_cbuf L) (f_major x) with
          | None => mret (-1)
          | Some read => read true addr n
          end
    | FD_INODE =>
        ilock (Some (f_ip x));;
        r ← readi (l_end L) (l_buf L) (f_ip x) true addr (f_off x) (u32 n);
        (if r >? 0 then uf f (fun x => set_foff (u32 (f_off x + r)) x) else mret tt);;
        iunlock (Some (f_ip x));;
        mret r
    | FD_NONE => panic "fileread"
    end.

Definition FILEMAX : Z := (MAXOPBLOCKS - 1 - 1 - 2) / 2 * BSIZE.
(** while(i < n): the final i. *)
Fixpoint filewrite_loop (fuel : nat) (f addr i n : Z) : K kst Z :=
  if negb (i <? n) then mret i
  else
    match fuel with
    | O => nofuel
    | S fuel =>
        let n1 := if n - i >? FILEMAX then FILEMAX else n - i in
        zoom logA begin_op;;
        x ← gf f;
        ilock (Some (f_ip x));;
        x ← gf f;
        r ← writei (l_end L) (l_buf L) (f_ip x) true (u64 (addr + i)) (f_off x) n1;
        (if r >? 0 then uf f (fun x => set_foff (u32 (f_off x + r)) x) else mret tt);;
        iunlock (Some (f_ip x));;
        zoom logA end_op;;
        if negb (r =? n1) then mret i
        else filewrite_loop fuel f addr (i + r) n
    end.
Definition filewrite (f addr n : Z) : K kst Z :=
  x ← gf f;
  if negb (f_writable x) then mret (-1)
  else
    match f_type x with
    | FD_PIPE => pipewrite (l_end L) (l_ch L) (f_pipe x) addr n
    | FD_DEVICE =>
        if (f_major x <? 0) || (f_major x >=? NDEV) then mret (-1)
        else
          match devsw_write (l_end L) (l_obuf L) (f_major x) with
          | None => mret (-1)
          | Some write => write true addr n
          end
    | FD_INODE =>
        i ← filewrite_loop (Z.to_nat (n / FILEMAX + 1)) f addr 0 n;
        mret (if i =? n then n else -1)
    | FD_NONE => panic "filewrite"
    end.

(** The two files of a new pipe, or [None] for -1.  The data bytes, at offset 24
    of the page, are not initialised. *)
Definition close_opt (f : option Z) : K kst unit :=
  match f with Some f => fileclose f | None => mret tt end.
Definition pipealloc : K kst (option (Z * Z)) :=
  f0 ← filealloc;
  f1 ← (match f0 with Some _ => filealloc | None => mret None end);
  pi ← (match f1 with Some _ => zoom memA kalloc | None => mret 0 end);
  match f0, f1 with
  | Some f0, Some f1 =>
      if pi =? 0 then close_opt (Some f0);; close_opt (Some f1);; mret None
      else
        m ← zoom memA (gets memory);
        upi pi (fun _ => Pipe (load_bytes m (pi + 24) (Z.to_nat PIPESIZE)) 0 0 true true);;
        initlock (L_pipe pi) "pipe";;
        uf f0 (fun f => set_fpipe pi (set_fmode true false (set_ftype FD_PIPE f)));;
        uf f1 (fun f => set_fpipe pi (set_fmode false true (set_ftype FD_PIPE f)));;
        mret (Some (f0, f1))
  | _, _ => close_opt f0;; close_opt f1;; mret None
  end.
End File.
