(* ===== verification/Fork.v ===== *)
(** * Process creation and exit (kernel/proc.c), and system-call arguments
    (kernel/syscall.c) *)
From stdpp Require Import base numbers list gmap strings.
From S2P Require Import Prelude Kernel Spinlock Sleeplock Str Riscv Kalloc Vm Bio Log Printf Kstate Proc Pipe Console Fs Dir File.

(** ** The trapframe *)

Definition TF_SIZE : Z := 288.
Definition tf_kernel_satp : Z := 0.
Definition tf_kernel_sp : Z := 8.
Definition tf_kernel_trap : Z := 16.
Definition tf_epc : Z := 24.
Definition tf_kernel_hartid : Z := 32.
Definition tf_sp : Z := 48.
Definition tf_a0 : Z := 112.
Definition tf_a1 : Z := 120.
Definition tf_a7 : Z := 168.

Definition ld_tf (i field : Z) : K kst Z := p ← gp i; zoom memA (ld64 (p_trapframe p + field)).
Definition st_tf (i field v : Z) : K kst unit := p ← gp i; zoom memA (st64 (p_trapframe p + field) v).

(** safestrcpy on the name fields of the process table. *)
Definition copy_name (dst src : list Z) : list Z :=
  let n := take 15 (cstr_of src) in
  n ++ [0] ++ drop (length n + 1) dst.

Section Fork.
Context {D : DiskDriver} (L : layout).

Definition userinit : K kst unit :=
  r ← allocproc (l_end L) (l_trampoline L) (l_forkret L);
  match r with
  | None => panic "kerneltrap"
  | Some p =>
      modify (fun s => set_kinitproc s p);;
      cwd ← namei (l_end L) (l_buf L) (l_de L) (l_nm L) (l_root L);
      up p (fun x => set_pcwd x cwd);;
      up p (fun x => set_pstate x RUNNABLE);;
      release (L_proc p)
  end.

(** for(i = 0; i < NOFILE; i++) if(p->ofile[i]) np->ofile[i] = filedup(p->ofile[i]); *)
Fixpoint dup_files (n : nat) (i p np : Z) : K kst unit :=
  match n with
  | O => mret tt
  | S n =>
      x ← gp p;
      (match nth (Z.to_nat i) (p_ofile x) None with
       | Some f =>
           f ← filedup f;
           up np (fun y => set_pofile y (<[Z.to_nat i := Some f]> (p_ofile y)))
       | None => mret tt
       end);;
      dup_files n (i + 1) p np
  end.

(** The three critical sections of kfork.  The first, up to the first
    release(&np->lock), makes the entry of the child: [None] is the failure in
    which kfork returns -1, [Some (np, pid)] the new entry and its pid. *)
Definition fork_new (p : Z) : K kst (option (Z * Z)) :=
  r ← allocproc (l_end L) (l_trampoline L) (l_forkret L);
  match r with
  | None => mret None
  | Some np =>
      x ← gp p;
      y ← gp np;
      r ← zoom memA (uvmcopy (l_end L) (p_pagetable x) (p_pagetable y) (p_sz x));
      if r <? 0 then
        freeproc (l_end L) np;;
        release (L_proc np);;
        mret None
      else
        up np (fun y => set_psz y (p_sz x));;
        zoom memA (modify (fun m => set_memory
          (store_bytes (memory m) (p_trapframe y)
             (load_bytes (memory m) (p_trapframe x) (Z.to_nat TF_SIZE))) m));;
        st_tf np tf_a0 0;;
        dup_files (Z.to_nat NOFILE) 0 p np;;
        cwd ← (match p_cwd x with Some ip => idup ip | None => panic "kerneltrap" end);
        up np (fun y => set_pcwd y (Some cwd));;
        up np (fun y => set_pname y (copy_name (p_name y) (p_name x)));;
        y ← gp np;
        let pid := p_pid y in
        release (L_proc np);;
        mret (Some (np, pid))
  end.
Definition fork_parent (p np : Z) : K kst unit :=
  acquire L_wait;;
  up np (fun y => set_pparent y (Some p));;
  release L_wait.
Definition fork_start (np : Z) : K kst unit :=
  acquire (L_proc np);;
  up np (fun y => set_pstate y RUNNABLE);;
  release (L_proc np).
Definition kfork : K kst Z :=
  p ← myproc;
  r ← fork_new p;
  match r with
  | None => mret (-1)
  | Some (np, pid) =>
      fork_parent p np;;
      fork_start np;;
      mret pid
  end.

(** for(int fd = 0; fd < NOFILE; fd++): close what is open. *)
Fixpoint close_files (n : nat) (fd p : Z) : K kst unit :=
  match n with
  | O => mret tt
  | S n =>
      x ← gp p;
      (match nth (Z.to_nat fd) (p_ofile x) None with
       | Some f =>
           fileclose L f;;
           up p (fun y => set_pofile y (<[Z.to_nat fd := None]> (p_ofile y)))
       | None => mret tt
       end);;
      close_files n (fd + 1) p
  end.

(** kexit from acquire(&wait_lock) on.  It does not return: it ends in sched(),
    switched away for good. *)
Definition exit_table {A} (p status : Z) : K kst A :=
  acquire L_wait;;
  reparent p;;
  x ← gp p;
  (match p_parent x with Some pp => wakeup (C_proc pp) | None => wakeup C_none end);;
  acquire (L_proc p);;
  up p (fun y => set_pxstate y status);;
  up p (fun y => set_pstate y ZOMBIE);;
  release L_wait;;
  sched C_none.
Definition kexit {A} (status : Z) : K kst A :=
  p ← myproc;
  ini ← gets k_initproc;
  (if p =? ini then panic "init exiting" else mret tt);;
  close_files (Z.to_nat NOFILE) 0 p;;
  zoom logA begin_op;;
  x ← gp p;
  (match p_cwd x with Some ip => iput ip | None => panic "kerneltrap" end);;
  zoom logA end_op;;
  up p (fun y => set_pcwd y None);;
  exit_table p status.

(** ** Arguments of system calls (syscall.c) *)

Definition fetchaddr (addr ip : Z) : K kst Z :=
  i ← myproc;
  p ← gp i;
  if (addr >=? p_sz p) || (u64 (addr + 8) >? p_sz p) then mret (-1)
  else
    r ← zoom memA (copyin (l_end L) (p_sz p) (p_pagetable p) (p_pagetable p) ip addr 8);
    if negb (r =? 0) then mret (-1) else mret 0.

Definition kstrlen (s max : Z) : K kst Z :=
  m ← kmem;
  match strlen (Z.to_nat max) m s with Some n => mret n | None => nofuel end.

Definition fetchstr (addr buf max : Z) : K kst Z :=
  i ← myproc;
  p ← gp i;
  r ← zoom memA (copyinstr (p_pagetable p) buf addr max);
  if r <? 0 then mret (-1) else kstrlen buf max.

Definition argraw (n : Z) : K kst Z :=
  i ← myproc;
  if (0 <=? n) && (n <=? 5) then ld_tf i (tf_a0 + 8 * n) else panic "argraw".
Definition argint (n : Z) : K kst Z := x ← argraw n; mret (i32 x).
Definition argaddr (n : Z) : K kst Z := argraw n.
Definition argstr (n buf max : Z) : K kst Z :=
  addr ← argaddr n;
  fetchstr addr buf max.
End Fork.
