(* ===== verification/Exec.v ===== *)
(** * exec (kernel/exec.c, kernel/elf.h) *)
From stdpp Require Import base numbers list gmap strings.
From S2P Require Import Prelude Kernel Spinlock Sleeplock Str Riscv Kalloc Vm Bio Log Printf Kstate Proc Pipe Console Fs Dir File Fork.

Definition ELF_MAGIC : Z := 0x464C457F.
Definition ELF_PROG_LOAD : Z := 1.
(** sizeof(struct elfhdr), sizeof(struct proghdr). *)
Definition ELFHDR : Z := 64.
Definition PROGHDR : Z := 56.
Definition MAXARG : Z := 32.
Definition USERSTACK : Z := 2.

Definition ld_le (n : nat) (a : Z) : K kst Z := m ← kmem; mret (le_combine (load_bytes m a n)).

Record proghdr := ProgHdr {
  ph_type : Z; ph_flags : Z; ph_off : Z; ph_vaddr : Z; ph_filesz : Z; ph_memsz : Z;
}.
(** The fields at their offsets in memory. *)
Definition ld_proghdr (a : Z) : K kst proghdr :=
  type ← ld_le 4 a;
  flags ← ld_le 4 (a + 4);
  off ← ld_le 8 (a + 8);
  vaddr ← ld_le 8 (a + 16);
  filesz ← ld_le 8 (a + 32);
  memsz ← ld_le 8 (a + 40);
  mret (ProgHdr type flags off vaddr filesz memsz).

Definition flags2perm (flags : Z) : Z :=
  let perm := 0 in
  let perm := if z2b (Z.land flags 1) then PTE_X else perm in
  if z2b (Z.land flags 2) then Z.lor perm PTE_W else perm.

(** The checks of the loading loop on a segment to load. *)
Definition ph_ok (ph : proghdr) : bool :=
  negb (ph_memsz ph <? ph_filesz ph) &&
  negb (u64 (ph_vaddr ph + ph_memsz ph) <? ph_vaddr ph) &&
  (ph_vaddr ph mod PGSIZE =? 0).

(** for(last=s=path; *s; s++) if( *s == '/' ) last = s+1; *)
Fixpoint last_elem (fuel : nat) (m : mem) (s last : Z) : option Z :=
  match fuel with
  | O => None
  | S fuel =>
      if load8 m s =? 0 then Some last
      else last_elem fuel m (s + 1) (if load8 m s =? 47 then s + 1 else last)
  end.

Section Exec.
Context {D : DiskDriver} (L : layout).

(** for(i = 0; i < sz; i += PGSIZE) *)
Fixpoint loadseg_loop (fuel : nat) (pagetable va ip offset i sz : Z) : K kst Z :=
  if negb (i <? sz) then mret 0
  else
    match fuel with
    | O => nofuel
    | S fuel =>
        pa ← zoom memA (walkaddr pagetable (u64 (va + i)));
        (if pa =? 0 then panic "loadseg: address should exist" else mret tt);;
        let n := if sz - i <? PGSIZE then sz - i else PGSIZE in
        r ← readi (l_end L) (l_buf L) ip false pa (u32 (offset + i)) n;
        if negb (u32 r =? n) then mret (-1)
        else loadseg_loop fuel pagetable va ip offset (i + PGSIZE) sz
    end.
Definition loadseg (pagetable va ip offset sz : Z) : K kst Z :=
  loadseg_loop (Z.to_nat (sz / PGSIZE + 1)) pagetable va ip offset 0 sz.

(** The loading loop, [n] headers left: whether it succeeded, and sz. *)
Fixpoint load_segments (n : nat) (off pagetable ip sz : Z) : K kst (bool * Z) :=
  match n with
  | O => mret (true, sz)
  | S n =>
      r ← readi (l_end L) (l_buf L) ip false (l_ph L) (u32 off) PROGHDR;
      if negb (r =? PROGHDR) then mret (false, sz)
      else
        ph ← ld_proghdr (l_ph L);
        if negb (ph_type ph =? ELF_PROG_LOAD) then load_segments n (off + PROGHDR) pagetable ip sz
        else if negb (ph_ok ph) then mret (false, sz)
        else
          sz1 ← zoom memA (uvmalloc (l_end L) pagetable sz (u64 (ph_vaddr ph + ph_memsz ph))
                             (flags2perm (i32 (ph_flags ph))));
          if sz1 =? 0 then mret (false, sz)
          else
            r ← loadseg pagetable (ph_vaddr ph) ip (u32 (ph_off ph)) (u32 (ph_filesz ph));
            if r <? 0 then mret (false, sz1)
            else load_segments n (off + PROGHDR) pagetable ip sz1
  end.

(** for(argc = 0; argv[argc]; argc++): whether it succeeded, argc and sp. *)
Fixpoint push_args (n : nat) (argc : Z) (argv : list Z) (psz ppt pagetable sp stackbase : Z) : K kst (bool * Z * Z) :=
  let a := nth (Z.to_nat argc) argv 0 in
  if a =? 0 then mret (true, argc, sp)
  else
    match n with
    | O => mret (false, argc, sp)
    | S n =>
        len ← kstrlen a PGSIZE;
        let sp := u64 (sp - (len + 1)) in
        let sp := sp - sp mod 16 in
        if sp <? stackbase then mret (false, argc, sp)
        else
          r ← zoom memA (copyout (l_end L) psz ppt pagetable sp a (len + 1));
          if r <? 0 then mret (false, argc, sp)
          else
            zoom memA (st64 (l_ustack L + 8 * argc) sp);;
            push_args n (argc + 1) argv psz ppt pagetable sp stackbase
    end.

(** The label bad: [pagetable] may be 0 and [ip] null. *)
Definition exec_bad (pagetable sz : Z) (ip : option Z) : K kst Z :=
  (if z2b pagetable then proc_freepagetable (l_end L) pagetable sz else mret tt);;
  (match ip with
   | Some ip => iunlockput ip;; zoom logA end_op
   | None => mret tt
   end);;
  mret (-1).

(** After the program is loaded: the stack, the arguments, and the commit. *)
Definition exec_stack (path : Z) (argv : list Z) (i pagetable sz entry : Z) : K kst Z :=
  p ← gp i;
  let oldsz := p_sz p in
  let sz := PGROUNDUP sz in
  sz1 ← zoom memA (uvmalloc (l_end L) pagetable sz (u64 (sz + (USERSTACK + 1) * PGSIZE)) PTE_W);
  if sz1 =? 0 then exec_bad pagetable sz None
  else
    let sz := sz1 in
    zoom memA (uvmclear pagetable (u64 (sz - (USERSTACK + 1) * PGSIZE)));;
    let stackbase := sz - USERSTACK * PGSIZE in
    r ← push_args (Z.to_nat MAXARG) 0 argv (p_sz p) (p_pagetable p) pagetable sz stackbase;
    let '(ok, argc, sp) := r in
    if negb ok then exec_bad pagetable sz None
    else
      zoom memA (st64 (l_ustack L + 8 * argc) 0);;
      let sp := u64 (sp - (argc + 1) * 8) in
      let sp := sp - sp mod 16 in
      if sp <? stackbase then exec_bad pagetable sz None
      else
        r ← zoom memA (copyout (l_end L) (p_sz p) (p_pagetable p) pagetable sp (l_ustack L) ((argc + 1) * 8));
        if r <? 0 then exec_bad pagetable sz None
        else
          st_tf i tf_a1 sp;;
          m ← kmem;
          match last_elem (Z.to_nat MAXPATH) m path path with
          | None => nofuel
          | Some last =>
              up i (fun p => set_pname p (copy_name (p_name p) (cstr 15 m last)));;
              p ← gp i;
              let oldpagetable := p_pagetable p in
              up i (fun p => set_ppagetable p pagetable);;
              up i (fun p => set_psz p sz);;
              st_tf i tf_epc entry;;
              st_tf i tf_sp sp;;
              proc_freepagetable (l_end L) oldpagetable oldsz;;
              mret argc
          end.

Definition kexec (path : Z) (argv : list Z) : K kst Z :=
  i ← myproc;
  zoom logA begin_op;;
  r ← namei (l_end L) (l_buf L) (l_de L) (l_nm L) path;
  match r with
  | None => zoom logA end_op;; mret (-1)
  | Some ip =>
      ilock (Some ip);;
      r ← readi (l_end L) (l_buf L) ip false (l_elf L) 0 ELFHDR;
      if negb (r =? ELFHDR) then exec_bad 0 0 (Some ip)
      else
        magic ← ld_le 4 (l_elf L);
        if negb (magic =? ELF_MAGIC) then exec_bad 0 0 (Some ip)
        else
          p ← gp i;
          pagetable ← proc_pagetable (l_end L) (l_trampoline L) (p_trapframe p);
          if pagetable =? 0 then exec_bad 0 0 (Some ip)
          else
            phoff ← ld_le 8 (l_elf L + 32);
            phnum ← ld_le 2 (l_elf L + 56);
            entry ← ld_le 8 (l_elf L + 24);
            r ← load_segments (Z.to_nat phnum) (i32 phoff) pagetable ip 0;
            let '(ok, sz) := r in
            if negb ok then exec_bad pagetable sz (Some ip)
            else
              iunlockput ip;;
              zoom logA end_op;;
              i ← myproc;
              exec_stack path argv i pagetable sz entry
  end.
End Exec.
