(* ===== verification/Sysfile.v ===== *)
(** * File system calls (kernel/sysfile.c) *)
From stdpp Require Import base numbers list gmap strings.
From S2P Require Import Prelude Kernel Spinlock Sleeplock Str Riscv Kalloc Vm Bio Log Printf Kstate Proc Pipe Console Fs Dir File Fork Exec.

Definition O_RDONLY : Z := 0.
Definition O_WRONLY : Z := 1.
Definition O_RDWR : Z := 2.
Definition O_CREATE : Z := 512.
Definition O_TRUNC : Z := 1024.

(** ** File descriptors *)

(** The descriptor and its file, or [None] for -1. *)
Definition argfd (n : Z) : K kst (option (Z * Z)) :=
  fd ← argint n;
  if (fd <? 0) || (fd >=? NOFILE) then mret None
  else
    i ← myproc;
    p ← gp i;
    match nth (Z.to_nat fd) (p_ofile p) None with
    | None => mret None
    | Some f => mret (Some (fd, f))
    end.

(** for(fd = 0; fd < NOFILE; fd++): the first free descriptor. *)
Fixpoint fd_scan (n : nat) (fd : Z) (ofile : list (option Z)) : Z :=
  match n with
  | O => -1
  | S n =>
      match nth (Z.to_nat fd) ofile None with
      | None => fd
      | Some _ => fd_scan n (fd + 1) ofile
      end
  end.
Definition fdalloc (f : Z) : K kst Z :=
  i ← myproc;
  p ← gp i;
  let fd := fd_scan (Z.to_nat NOFILE) 0 (p_ofile p) in
  (if fd <? 0 then mret tt
   else up i (fun p => set_pofile p (<[Z.to_nat fd := Some f]> (p_ofile p))));;
  mret fd.
(** p->ofile[fd] = 0 *)
Definition fdclear (fd : Z) : K kst unit :=
  i ← myproc;
  up i (fun p => set_pofile p (<[Z.to_nat fd := None]> (p_ofile p))).

Section Sysfile.
Context {D : DiskDriver} (L : layout).

Abbreviation namei := (Dir.namei (l_end L) (l_buf L) (l_de L) (l_nm L)).
Abbreviation nameiparent := (Dir.nameiparent (l_end L) (l_buf L) (l_de L)).
Abbreviation dirlookup := (Dir.dirlookup (l_end L) (l_buf L) (l_de L)).
Abbreviation dirlink := (Dir.dirlink (l_end L) (l_buf L) (l_de L) (l_de2 L)).
Abbreviation readi := (Fs.readi (l_end L) (l_buf L)).
Abbreviation writei := (Fs.writei (l_end L) (l_buf L)).
Abbreviation begin_op := (zoom logA Log.begin_op).
Abbreviation end_op := (zoom logA Log.end_op).

Definition sys_dup : K kst Z :=
  r ← argfd 0;
  match r with
  | None => mret (-1)
  | Some (_, f) =>
      fd ← fdalloc f;
      if fd <? 0 then mret (-1)
      else _ ← filedup f; mret fd
  end.

Definition sys_read : K kst Z :=
  p ← argaddr 1;
  n ← argint 2;
  r ← argfd 0;
  match r with
  | None => mret (-1)
  | Some (_, f) => fileread L f p n
  end.

Definition sys_write : K kst Z :=
  p ← argaddr 1;
  n ← argint 2;
  r ← argfd 0;
  match r with
  | None => mret (-1)
  | Some (_, f) => filewrite L f p n
  end.

Definition sys_close : K kst Z :=
  r ← argfd 0;
  match r with
  | None => mret (-1)
  | Some (fd, f) =>
      fdclear fd;;
      fileclose L f;;
      mret 0
  end.

Definition sys_fstat : K kst Z :=
  st ← argaddr 1;
  r ← argfd 0;
  match r with
  | None => mret (-1)
  | Some (_, f) => filestat L f st
  end.

(** ** Links *)

(** ip->nlink += d *)
Definition add_nlink (ip d : Z) : K kst unit :=
  ui ip (fun x => set_imeta (i_major x) (i_minor x) (i16 (i_nlink x + d)) x).

(** The label bad of sys_link. *)
Definition link_bad (ip : Z) : K kst Z :=
  ilock (Some ip);;
  add_nlink ip (-1);;
  iupdate ip;;
  iunlockput ip;;
  end_op;;
  mret (-1).

Definition sys_link : K kst Z :=
  r0 ← argstr 0 (l_path L) MAXPATH;
  r1 ← (if r0 <? 0 then mret (-1) else argstr 1 (l_path2 L) MAXPATH);
  if r1 <? 0 then mret (-1)
  else
    begin_op;;
    r ← namei (l_path L);
    match r with
    | None => end_op;; mret (-1)
    | Some ip =>
        ilock (Some ip);;
        x ← gi ip;
        if i_type x =? T_DIR then
          iunlockput ip;;
          end_op;;
          mret (-1)
        else
          add_nlink ip 1;;
          iupdate ip;;
          iunlock (Some ip);;
          r ← nameiparent (l_path2 L) (l_name L);
          match r with
          | None => link_bad ip
          | Some dp =>
              ilock (Some dp);;
              d ← gi dp;
              x ← gi ip;
              r ← (if negb (i_dev d =? i_dev x) then mret (-1) else dirlink dp (l_name L) (i_inum x));
              if r <? 0 then
                iunlockput dp;;
                link_bad ip
              else
                iunlockput dp;;
                iput ip;;
                end_op;;
                mret 0
          end
    end.

(** for(off=2*sizeof(de); off<dp->size; off+=sizeof(de)) *)
Fixpoint isdirempty_loop (fuel : nat) (dp off : Z) : K kst bool :=
  x ← gi dp;
  if negb (off <? i_size x) then mret true
  else
    match fuel with
    | O => nofuel
    | S fuel =>
        r ← readi dp false (l_de3 L) (u32 off) DIRENT;
        (if negb (r =? DIRENT) then panic "isdirempty: readi" else mret tt);;
        m ← kmem;
        if negb (load16 m (l_de3 L) =? 0) then mret false
        else isdirempty_loop fuel dp (off + DIRENT)
    end.
Definition isdirempty (dp : Z) : K kst bool :=
  x ← gi dp;
  isdirempty_loop (Z.to_nat (i_size x / DIRENT + 1)) dp (2 * DIRENT).

(** The label bad of sys_unlink. *)
Definition unlink_bad (dp : Z) : K kst Z :=
  iunlockput dp;;
  end_op;;
  mret (-1).

Definition sys_unlink : K kst Z :=
  r ← argstr 0 (l_path L) MAXPATH;
  if r <? 0 then mret (-1)
  else
    begin_op;;
    r ← nameiparent (l_path L) (l_name L);
    match r with
    | None => end_op;; mret (-1)
    | Some dp =>
        ilock (Some dp);;
        m ← kmem;
        if (namecmp m (l_name L) (l_dot L) =? 0) || (namecmp m (l_name L) (l_dotdot L) =? 0) then unlink_bad dp
        else
          r ← dirlookup dp (l_name L);
          match r with
          | None => unlink_bad dp
          | Some (ip, off) =>
              ilock (Some ip);;
              x ← gi ip;
              (if i_nlink x <? 1 then panic "unlink: nlink < 1" else mret tt);;
              e ← (if i_type x =? T_DIR then isdirempty ip else mret true);
              if negb e then
                iunlockput ip;;
                unlink_bad dp
              else
                zoom memA (kmemset (l_de4 L) 0 DIRENT);;
                r ← writei dp false (l_de4 L) off DIRENT;
                (if negb (r =? DIRENT) then panic "unlink: writei" else mret tt);;
                x ← gi ip;
                (if i_type x =? T_DIR then
                   add_nlink dp (-1);;
                   iupdate dp
                 else mret tt);;
                iunlockput dp;;
                add_nlink ip (-1);;
                iupdate ip;;
                iunlockput ip;;
                end_op;;
                mret 0
          end
    end.

(** ** Creation *)

(** The label fail of create. *)
Definition create_fail (ip dp : Z) : K kst (option Z) :=
  ui ip (fun x => set_imeta (i_major x) (i_minor x) 0 x);;
  iupdate ip;;
  iunlockput ip;;
  iunlockput dp;;
  mret None.

Definition create (path type major minor : Z) : K kst (option Z) :=
  r ← nameiparent path (l_name L);
  match r with
  | None => mret None
  | Some dp =>
      ilock (Some dp);;
      r ← dirlookup dp (l_name L);
      match r with
      | Some (ip, _) =>
          iunlockput dp;;
          ilock (Some ip);;
          x ← gi ip;
          if (type =? T_FILE) && ((i_type x =? T_FILE) || (i_type x =? T_DEVICE)) then mret (Some ip)
          else
            iunlockput ip;;
            mret None
      | None =>
          d ← gi dp;
          r ← ialloc (i_dev d) type;
          match r with
          | None => iunlockput dp;; mret None
          | Some ip =>
              ilock (Some ip);;
              ui ip (set_imeta major minor 1);;
              iupdate ip;;
              x ← gi ip;
              d ← gi dp;
              dots ← (if type =? T_DIR then
                        r ← dirlink ip (l_dot L) (i_inum x);
                        if r <? 0 then mret false
                        else r ← dirlink ip (l_dotdot L) (i_inum d); mret (negb (r <? 0))
                      else mret true);
              if negb dots then create_fail ip dp
              else
                r ← dirlink dp (l_name L) (i_inum x);
                if r <? 0 then create_fail ip dp
                else
                  (if type =? T_DIR then
                     add_nlink dp 1;;
                     iupdate dp
                   else mret tt);;
                  iunlockput dp;;
                  mret (Some ip)
          end
      end
  end.

(** The end of sys_open, with the inode locked. *)
Definition open_bad (ip : Z) : K kst Z :=
  iunlockput ip;;
  end_op;;
  mret (-1).
Definition open_file (ip omode : Z) : K kst Z :=
  x ← gi ip;
  if (i_type x =? T_DEVICE) && ((i_major x <? 0) || (i_major x >=? NDEV)) then open_bad ip
  else
    f ← filealloc;
    match f with
    | None => open_bad ip
    | Some f =>
        fd ← fdalloc f;
        if fd <? 0 then
          fileclose L f;;
          open_bad ip
        else
          x ← gi ip;
          (if i_type x =? T_DEVICE then
             uf f (fun f => set_fmajor (i_major x) (set_ftype FD_DEVICE f))
           else uf f (fun f => set_foff 0 (set_ftype FD_INODE f)));;
          uf f (set_fip ip);;
          uf f (set_fmode (negb (z2b (Z.land omode O_WRONLY)))
                  (z2b (Z.land omode O_WRONLY) || z2b (Z.land omode O_RDWR)));;
          (if z2b (Z.land omode O_TRUNC) && (i_type x =? T_FILE) then itrunc ip else mret tt);;
          iunlock (Some ip);;
          end_op;;
          mret fd
    end.
Definition sys_open : K kst Z :=
  omode ← argint 1;
  n ← argstr 0 (l_path L) MAXPATH;
  if n <? 0 then mret (-1)
  else
    begin_op;;
    if z2b (Z.land omode O_CREATE) then
      r ← create (l_path L) T_FILE 0 0;
      match r with
      | None => end_op;; mret (-1)
      | Some ip => open_file ip omode
      end
    else
      r ← namei (l_path L);
      match r with
      | None => end_op;; mret (-1)
      | Some ip =>
          ilock (Some ip);;
          x ← gi ip;
          if (i_type x =? T_DIR) && negb (omode =? O_RDONLY) then open_bad ip
          else open_file ip omode
      end.

Definition sys_mkdir : K kst Z :=
  begin_op;;
  r ← argstr 0 (l_path L) MAXPATH;
  ip ← (if r <? 0 then mret None else create (l_path L) T_DIR 0 0);
  match ip with
  | None => end_op;; mret (-1)
  | Some ip => iunlockput ip;; end_op;; mret 0
  end.

Definition sys_mknod : K kst Z :=
  begin_op;;
  major ← argint 1;
  minor ← argint 2;
  r ← argstr 0 (l_path L) MAXPATH;
  ip ← (if r <? 0 then mret None else create (l_path L) T_DEVICE (i16 major) (i16 minor));
  match ip with
  | None => end_op;; mret (-1)
  | Some ip => iunlockput ip;; end_op;; mret 0
  end.

Definition sys_chdir : K kst Z :=
  i ← myproc;
  begin_op;;
  r ← argstr 0 (l_path L) MAXPATH;
  ip ← (if r <? 0 then mret None else namei (l_path L));
  match ip with
  | None => end_op;; mret (-1)
  | Some ip =>
      ilock (Some ip);;
      x ← gi ip;
      if negb (i_type x =? T_DIR) then
        iunlockput ip;;
        end_op;;
        mret (-1)
      else
        iunlock (Some ip);;
        p ← gp i;
        (match p_cwd p with Some cwd => iput cwd | None => panic "kerneltrap" end);;
        end_op;;
        up i (fun p => set_pcwd p (Some ip));;
        mret 0
  end.

(** ** exec *)

(** for(i=0;; i++): whether it got to the end of the vector, and argv[]. *)
Fixpoint fetch_args (n : nat) (i uargv : Z) (argv : list Z) : K kst (bool * list Z) :=
  match n with
  | O => mret (false, argv)
  | S n =>
      r ← fetchaddr L (u64 (uargv + 8 * i)) (l_uarg L);
      if r <? 0 then mret (false, argv)
      else
        uarg ← ld_le 8 (l_uarg L);
        if uarg =? 0 then mret (true, <[Z.to_nat i := 0]> argv)
        else
          a ← zoom memA kalloc;
          let argv := <[Z.to_nat i := a]> argv in
          if a =? 0 then mret (false, argv)
          else
            r ← fetchstr uarg a PGSIZE;
            if r <? 0 then mret (false, argv)
            else fetch_args n (i + 1) uargv argv
  end.
(** for(i = 0; i < NELEM(argv) && argv[i] != 0; i++) kfree(argv[i]); *)
Fixpoint free_args (argv : list Z) : K kst unit :=
  match argv with
  | [] => mret tt
  | a :: argv => if a =? 0 then mret tt else zoom memA (kfree (l_end L) a);; free_args argv
  end.
Definition sys_exec : K kst Z :=
  uargv ← argaddr 1;
  r ← argstr 0 (l_path L) MAXPATH;
  if r <? 0 then mret (-1)
  else
    r ← fetch_args (Z.to_nat MAXARG) 0 uargv (replicate (Z.to_nat MAXARG) 0);
    let '(ok, argv) := r in
    if negb ok then free_args argv;; mret (-1)
    else
      ret ← kexec L (l_path L) argv;
      free_args argv;;
      mret ret.

(** ** pipe *)

Definition sys_pipe : K kst Z :=
  i ← myproc;
  fdarray ← argaddr 0;
  r ← pipealloc L;
  match r with
  | None => mret (-1)
  | Some (rf, wf) =>
      fd0 ← fdalloc rf;
      fd1 ← (if fd0 <? 0 then mret (-1) else fdalloc wf);
      if (fd0 <? 0) || (fd1 <? 0) then
        (if fd0 >=? 0 then fdclear fd0 else mret tt);;
        fileclose L rf;;
        fileclose L wf;;
        mret (-1)
      else
        st_le 4 (l_fd L) fd0;;
        st_le 4 (l_fd L + 4) fd1;;
        p ← gp i;
        r0 ← zoom memA (copyout (l_end L) (p_sz p) (p_pagetable p) (p_pagetable p) fdarray (l_fd L) 4);
        r1 ← (if r0 <? 0 then mret (-1)
              else zoom memA (copyout (l_end L) (p_sz p) (p_pagetable p) (p_pagetable p)
                                (u64 (fdarray + 4)) (l_fd L + 4) 4));
        if r1 <? 0 then
          fdclear fd0;;
          fdclear fd1;;
          fileclose L rf;;
          fileclose L wf;;
          mret (-1)
        else mret 0
  end.
End Sysfile.
