(* ===== verification/Trap.v ===== *)
(** * Process system calls, dispatch and traps
    (kernel/sysproc.c, kernel/syscall.c, kernel/trap.c, kernel/plic.c, and
    forkret of kernel/proc.c) *)
From stdpp Require Import base numbers list gmap strings.
From S2P Require Import Prelude Kernel Spinlock Sleeplock Str Riscv Kalloc Vm Bio Log Printf Kstate Proc Pipe Console Fs Dir File Fork Exec Sysfile.

Definition SBRK_EAGER : Z := 1.
Definition SBRK_LAZY : Z := 2.
Definition UART0_IRQ : Z := 10.
Definition VIRTIO0_IRQ : Z := 1.
Definition PLIC_SENABLE (hart : Z) : Z := PLIC + 0x2080 + hart * 0x100.
Definition PLIC_SPRIORITY (hart : Z) : Z := PLIC + 0x201000 + hart * 0x2000.
Definition PLIC_SCLAIM (hart : Z) : Z := PLIC + 0x201004 + hart * 0x2000.
Definition SSTATUS_SPP : Z := 256.
Definition SSTATUS_SPIE : Z := 32.
Definition SSTATUS_SIE : Z := 2.

(** What the hardware answers while a trap is handled: the control registers at
    entry, the time, the interrupt the PLIC hands out (0 for none), and the
    UART's status and pending input. *)
Record hw := Hw {
  r_sstatus : Z; r_sepc : Z; r_scause : Z; r_stval : Z; r_satp : Z; r_time : Z;
  r_irq : Z; r_lsr : Z; r_rx : list Z;
}.

(** ** The interrupt controller *)

Definition plicinit : K kst unit :=
  emit (MMIO (PLIC + UART0_IRQ * 4) 1);;
  emit (MMIO (PLIC + VIRTIO0_IRQ * 4) 1).
Definition plicinithart : K kst unit :=
  c ← getc;
  emit (MMIO (PLIC_SENABLE (hart c)) (Z.lor (Z.shiftl 1 UART0_IRQ) (Z.shiftl 1 VIRTIO0_IRQ)));;
  emit (MMIO (PLIC_SPRIORITY (hart c)) 0).
Definition plic_complete (irq : Z) : K kst unit :=
  c ← getc;
  emit (MMIO (PLIC_SCLAIM (hart c)) irq).

Section Trap.
Context {D : DiskDriver} (L : layout).

(** ** sysproc.c *)

Definition sys_exit : K kst Z := n ← argint 0; kexit L n.
Definition sys_getpid : K kst Z := i ← myproc; p ← gp i; mret (p_pid p).
Definition sys_fork : K kst Z := kfork L.
Definition sys_wait : K kst Z := p ← argaddr 0; kwait (l_end L) (l_xstate L) p.

Definition sys_sbrk : K kst Z :=
  n ← argint 0;
  t ← argint 1;
  i ← myproc;
  p ← gp i;
  let addr := p_sz p in
  if (t =? SBRK_EAGER) || (n <? 0) then
    r ← growproc (l_end L) n;
    if r <? 0 then mret (-1) else mret addr
  else if u64 (addr + n) <? addr then mret (-1)
  else up i (fun p => set_psz p (u64 (p_sz p + n)));; mret addr.

(** while(ticks - ticks0 < n): run again, with the same [ticks0], when the
    process is woken up. *)
Definition pause_loop (ticks0 n : Z) : K kst Z :=
  t ← gets k_ticks;
  if u32 (t - ticks0) <? u32 n then
    i ← myproc;
    k ← killed i;
    if z2b k then release L_ticks;; mret (-1)
    else sleep C_ticks L_ticks
  else release L_ticks;; mret 0.
Definition sys_pause : K kst Z :=
  n ← argint 0;
  let n := if n <? 0 then 0 else n in
  acquire L_ticks;;
  ticks0 ← gets k_ticks;
  pause_loop ticks0 n.

Definition sys_kill : K kst Z := pid ← argint 0; kkill pid.

Definition sys_uptime : K kst Z :=
  acquire L_ticks;;
  xticks ← gets k_ticks;
  release L_ticks;;
  mret xticks.

(** ** syscall.c: syscalls[] and syscall() *)

Definition syscalls (num : Z) : option (K kst Z) :=
  match num with
  | 1 => Some sys_fork
  | 2 => Some sys_exit
  | 3 => Some sys_wait
  | 4 => Some (sys_pipe L)
  | 5 => Some (sys_read L)
  | 6 => Some sys_kill
  | 7 => Some (sys_exec L)
  | 8 => Some (sys_fstat L)
  | 9 => Some (sys_chdir L)
  | 10 => Some sys_dup
  | 11 => Some sys_getpid
  | 12 => Some sys_sbrk
  | 13 => Some sys_pause
  | 14 => Some sys_uptime
  | 15 => Some (sys_open L)
  | 16 => Some (sys_write L)
  | 17 => Some (sys_mknod L)
  | 18 => Some (sys_unlink L)
  | 19 => Some (sys_link L)
  | 20 => Some (sys_mkdir L)
  | 21 => Some (sys_close L)
  | _ => None
  end.

Definition syscall : K kst unit :=
  i ← myproc;
  a7 ← ld_tf i tf_a7;
  let num := i32 a7 in
  match syscalls num with
  | Some f =>
      r ← f;
      st_tf i tf_a0 r
  | None =>
      p ← gp i;
      _ ← printf false (chars "%d %s: unknown sys call %d" ++ [10])
            [VInt (p_pid p); VStr (Some (cstr_of (p_name p))); VInt num];
      st_tf i tf_a0 (-1)
  end.

(** ** trap.c *)

Definition trapinit : K kst unit := initlock L_ticks "time".
Definition trapinithart : K kst unit := emit (Csr STVEC (l_kernelvec L)).

Definition clockintr (h : hw) : K kst unit :=
  c ← getc;
  (if hart c =? 0 then
     acquire L_ticks;;
     modify (fun s => set_kticks s (u32 (k_ticks s + 1)));;
     wakeup C_ticks;;
     release L_ticks
   else mret tt);;
  emit (Csr STIMECMP (u64 (r_time h + 1000000))).

(** The disk's interrupt handler. *)
Variable virtio_disk_intr : K kst unit.

Definition devintr (h : hw) : K kst Z :=
  if r_scause h =? 0x8000000000000009 then
    let irq := r_irq h in
    (if irq =? UART0_IRQ then uartintr (r_lsr h) (r_rx h)
     else if irq =? VIRTIO0_IRQ then virtio_disk_intr
     else if z2b irq then
       _ ← printf false (chars "unexpected interrupt irq=%d" ++ [10]) [VInt irq]; mret tt
     else mret tt);;
    (if z2b irq then plic_complete irq else mret tt);;
    mret 1
  else if r_scause h =? 0x8000000000000005 then
    clockintr h;;
    mret 2
  else mret 0.

(** sstatus as it reads now: SIE is the CPU's interrupt flag. *)
Definition sstatus_now (h : hw) (c : ctx) : Z :=
  Z.lor (Z.land (r_sstatus h) (Z.lnot SSTATUS_SIE)) (if sie c then SSTATUS_SIE else 0).

Definition prepare_return (h : hw) : K kst unit :=
  i ← myproc;
  intr_off;;
  emit (Csr STVEC (TRAMPOLINE + (l_uservec L - l_trampoline L)));;
  p ← gp i;
  st_tf i tf_kernel_satp (r_satp h);;
  st_tf i tf_kernel_sp (p_kstack p + PGSIZE);;
  st_tf i tf_kernel_trap (l_usertrap L);;
  c ← getc;
  st_tf i tf_kernel_hartid (hart c);;
  let x := sstatus_now h c in
  let x := Z.land x (Z.lnot SSTATUS_SPP) in
  let x := Z.lor x SSTATUS_SPIE in
  emit (Csr SSTATUS x);;
  epc ← ld_tf i tf_epc;
  emit (Csr SEPC epc).

Definition usertrap (h : hw) : K kst Z :=
  (if z2b (Z.land (r_sstatus h) SSTATUS_SPP) then panic "usertrap: not from user mode" else mret tt);;
  emit (Csr STVEC (l_kernelvec L));;
  i ← myproc;
  st_tf i tf_epc (r_sepc h);;
  which_dev ←
    (if r_scause h =? 8 then
       k ← killed i;
       (if z2b k then kexit L (-1) else mret tt);;
       epc ← ld_tf i tf_epc;
       st_tf i tf_epc (epc + 4);;
       intr_on;;
       syscall;;
       mret 0
     else
       d ← devintr h;
       if negb (d =? 0) then mret d
       else
         p ← gp i;
         f ← (if (r_scause h =? 15) || (r_scause h =? 13)
              then zoom memA (vmfault (l_end L) (p_sz p) (p_pagetable p) (p_pagetable p) (r_stval h) (r_scause h =? 13))
              else mret 0);
         if negb (f =? 0) then mret 0
         else
           _ ← printf false (chars "usertrap(): unexpected scause 0x%lx pid=%d" ++ [10])
                 [VInt (r_scause h); VInt (p_pid p)];
           _ ← printf false (chars "            sepc=0x%lx stval=0x%lx" ++ [10])
                 [VInt (r_sepc h); VInt (r_stval h)];
           setkilled i;;
           mret 0);
  k ← killed i;
  (if z2b k then kexit L (-1) else mret tt);;
  (if which_dev =? 2 then yield else mret tt);;
  prepare_return h;;
  p ← gp i;
  mret (MAKE_SATP (p_pagetable p)).

Definition kerneltrap (h : hw) : K kst unit :=
  (if negb (z2b (Z.land (r_sstatus h) SSTATUS_SPP)) then panic "kerneltrap: not from supervisor mode" else mret tt);;
  b ← intr_get;
  (if b : bool then panic "kerneltrap: interrupts enabled" else mret tt);;
  which_dev ← devintr h;
  (if which_dev =? 0 then
     _ ← printf false (chars "scause=0x%lx sepc=0x%lx stval=0x%lx" ++ [10])
           [VInt (r_scause h); VInt (r_sepc h); VInt (r_stval h)];
     panic "kerneltrap"
   else mret tt);;
  i ← myproc;
  (if (which_dev =? 2) && negb (i =? -1) then yield else mret tt);;
  emit (Csr SEPC (r_sepc h));;
  emit (Csr SSTATUS (r_sstatus h)).

(** forkret up to its jump to userret; [first] is its static flag. *)
Definition forkret (first : bool) (h : hw) : K kst Z :=
  i ← myproc;
  release (L_proc i);;
  (if first then
     fsinit ROOTDEV;;
     r ← kexec L (l_init L) [l_init L; 0];
     st_tf i tf_a0 r;;
     a0 ← ld_tf i tf_a0;
     if a0 =? u64 (-1) then panic "exec" else mret tt
   else mret tt);;
  prepare_return h;;
  p ← gp i;
  mret (MAKE_SATP (p_pagetable p)).
End Trap.
