(* ===== verification/Still.v ===== *)
(** * Kernel code that leaves the process table alone

    Most of the kernel never changes which processes exist.  [Still m] says so
    of a computation, and is found by instance resolution: a computation is
    still when its parts are.  This file has the rules and the instances of the
    code below the system calls; Lifecycle.v uses them. *)
From stdpp Require Import base numbers list gmap strings.
From S2P Require Import Prelude Kernel Spinlock Sleeplock Str Riscv Kalloc Vm Bio Log Printf Kstate Proc Pipe Console Fs Dir File Fork Exec Sysfile.

(** Resolution compares computations by their names only. *)
#[local] Hint Constants Opaque : typeclass_instances.

(** ** The stage of a process, and what the rest of the kernel cannot change *)

Inductive stage := Free | Embryo | Alive | Dead.
#[global] Instance stage_eq_dec : EqDecision stage.
Proof. solve_decision. Defined.
Definition stage_of (st : procstate) : stage :=
  match st with UNUSED => Free | USED => Embryo | ZOMBIE => Dead | SLEEPING | RUNNABLE | RUNNING => Alive end.
(** The stage, the pid, the parent, and whether there are a trapframe and a
    page table. *)
Record vit := Vit { v_stage : stage; v_pid : Z; v_parent : option Z; v_owns : bool * bool }.
Definition vitals (p : proc) : vit :=
  Vit (stage_of (p_state p)) (p_pid p) (p_parent p) (z2b (p_trapframe p), z2b (p_pagetable p)).
Record same_table (s s' : kst) : Prop := {
  st_pid : k_nextpid s' = k_nextpid s;
  st_init : k_initproc s' = k_initproc s;
  st_vitals : forall i, vitals (proc_at s' i) = vitals (proc_at s i);
}.
(** ** The class

    What there is to watch in a state. *)
Class Watch (S : Type) := {
  same : S -> S -> Prop;
  same_refl : forall s, same s s;
  same_trans : forall s s' s'', same s s' -> same s' s'' -> same s s'';
}.
(** From [c] and [s], [m] returns or sleeps with the watched part unchanged, on
    behalf of the same process. *)
Definition still_at {S A} `{Watch S} (m : K S A) (c : ctx) (s : S) : Prop :=
  match m c s with
  | Done _ c' s' | Sleep _ c' s' => same s s' /\ curproc c' = curproc c
  | _ => True
  end.
Class Still {S A} `{Watch S} (m : K S A) : Prop := still : forall c s, still_at m c s.
(** States without a process table. *)
Class Blind (S : Type) `{Watch S} : Prop := blind : forall s s' : S, same s s'.
(** A part of the state that can be replaced. *)
Class StillAcc {S T} `{Watch S} (a : acc S T) : Prop := still_acc : forall x s, same s (aset a x s).

#[global] Program Instance watch_kst : Watch kst := { same := same_table }.
Next Obligation. by split. Qed.
Next Obligation. intros s s' s'' [H1 H2 H3] [H4 H5 H6]. split; congruence. Qed.
Program Definition watch_nothing (S : Type) : Watch S := {| same := fun _ _ => True |}.
Solve Obligations with done.
#[global] Instance watch_pmem : Watch pmem := watch_nothing pmem.
#[global] Instance watch_bio : Watch bio := watch_nothing bio.
#[global] Instance watch_lst : Watch lst := watch_nothing lst.
#[global] Instance blind_pmem : Blind pmem. Proof. done. Qed.
#[global] Instance blind_bio : Blind bio. Proof. done. Qed.
#[global] Instance blind_lst : Blind lst. Proof. done. Qed.
#[global] Instance still_memA : StillAcc memA. Proof. intros x s. by split. Qed.
#[global] Instance still_logA : StillAcc logA. Proof. intros x s. by split. Qed.
#[global] Instance still_kbioA : StillAcc kbioA. Proof. intros x s. by split. Qed.
#[global] Instance still_bioA : StillAcc bioA. Proof. done. Qed.
#[global] Instance still_ilk i : StillAcc (ilk i). Proof. intros x s. by split. Qed.
#[global] Instance still_blk i : StillAcc (blk i). Proof. done. Qed.

Section Rules.
Context {S : Type} `{Watch S}.

Lemma still_at_bind {A B} (m : K S A) (k : A -> K S B) c s : still_at m c s ->
  (forall a c' s', m c s = Done a c' s' -> same s s' -> curproc c' = curproc c -> still_at (k a) c' s') -> still_at (m ≫= k) c s.
Proof.
  unfold still_at, mbind, K_bind. intros Hm Hk. destruct (m c s) as [a c1 s1| | | |]; try exact I; [|exact Hm].
  destruct Hm as [H1 E1]. specialize (Hk a c1 s1 eq_refl H1 E1).
  destruct (k a c1 s1); first [exact I|destruct Hk as [H2 E2]; split; [exact (same_trans _ _ _ H1 H2)|congruence]].
Qed.
Lemma still_bind {A B} (m : K S A) (k : A -> K S B) : Still m -> (forall a, Still (k a)) -> Still (m ≫= k).
Proof. intros Hm Hk c s. apply still_at_bind; [apply Hm|intros; apply Hk]. Qed.
Lemma still_modify (f : S -> S) : (forall s, same s (f s)) -> Still (modify f).
Proof. intros Hf c s. by split. Qed.
Lemma still_modc (f : ctx -> ctx) : (forall c, curproc (f c) = curproc c) -> Still (modc f : K S unit).
Proof. intros Hf c s. split; [apply same_refl|apply Hf]. Qed.
#[global] Instance still_ret {A} (a : A) : Still (mret a : K S A).
Proof. intros c s. split; [apply same_refl|done]. Qed.
#[global] Instance still_panic {A} msg : Still (panic msg : K S A). Proof. by intros c s. Qed.
#[global] Instance still_spin {A} l : Still (spin l : K S A). Proof. by intros c s. Qed.
#[global] Instance still_nofuel {A} : Still (nofuel : K S A). Proof. by intros c s. Qed.
#[global] Instance still_suspend {A} ch : Still (suspend ch : K S A).
Proof. intros c s. split; [apply same_refl|done]. Qed.
#[global] Instance still_gets {A} (f : S -> A) : Still (gets f).
Proof. intros c s. split; [apply same_refl|done]. Qed.
#[global] Instance still_getc : Still (getc : K S ctx).
Proof. intros c s. split; [apply same_refl|done]. Qed.
#[global] Instance still_emit e : Still (emit e : K S unit). Proof. by apply still_modc. Qed.
#[global] Instance still_kwhen b (m : K S unit) : Still m -> Still (kwhen b m).
Proof. intros Hm. destruct b; [exact Hm|apply still_ret]. Qed.
#[global] Instance still_zoom {T A} `{Watch T, !Blind T} (a : acc S T) (m : K T A) : StillAcc a -> Still m -> Still (zoom a m).
Proof.
  intros Ha Hm c s. specialize (Hm c (aget a s)). unfold still_at, zoom in *.
  destruct (m c (aget a s)); first [exact I|split; [apply Ha|apply Hm]].
Qed.
End Rules.


(** [vitals_same] for a change of the state that keeps the vital fields. *)
Ltac vitals_same := intros; try exact I; split; intros; reflexivity.
Ltac still_step :=
  match goal with
  | |- Still (mbind _ _) => apply still_bind; [|intros ?]
  | |- Still (modify _) => apply still_modify; vitals_same
  | |- Still (modc _) => apply still_modc; reflexivity
  | |- Still (if ?x =? ?y then _ else _) => destruct (Z.eqb_spec x y)
  | |- Still (if ?b then _ else _) => destruct b
  | |- Still (match (if ?b then _ else _) with _ => _ end) => destruct b
  | |- Still (match ?x with _ => _ end) => destruct x
  | |- Still (kwhen _ _) => apply still_kwhen
  | |- Still (zoom _ _) => first [apply _|apply still_zoom; [apply _|]]
  | |- Still (let _ := _ in _) => cbv zeta
  | |- Still _ => apply _
  end.
(** [stills f] for a computation [f] that is not a loop. *)
Ltac stills := repeat still_step.

(** ** Locks and output *)

Section Locks.
Context {S : Type} `{Watch S}.

#[global] Instance still_lk_set l lk : Still (lk_set l lk : K S unit). Proof. unfold lk_set. stills. Qed.
#[global] Instance still_initlock l nm : Still (initlock l nm : K S unit). Proof. unfold initlock. stills. Qed.
#[global] Instance still_intr_on : Still (intr_on : K S unit). Proof. unfold intr_on. stills. Qed.
#[global] Instance still_intr_off : Still (intr_off : K S unit). Proof. unfold intr_off. stills. Qed.
#[global] Instance still_intr_get : Still (intr_get : K S bool). Proof. unfold intr_get. stills. Qed.
#[global] Instance still_holding l : Still (holding l : K S bool). Proof. unfold holding. stills. Qed.
#[global] Instance still_push_off : Still (push_off : K S unit). Proof. unfold push_off, kwhen. stills. Qed.
#[global] Instance still_pop_off : Still (pop_off : K S unit). Proof. unfold pop_off. stills. Qed.
#[global] Instance still_acquire l : Still (acquire l : K S unit). Proof. unfold acquire. stills. Qed.
#[global] Instance still_release l : Still (release l : K S unit). Proof. unfold release. stills. Qed.
#[global] Instance still_myproc : Still (myproc : K S Z). Proof. unfold myproc. stills. Qed.
#[global] Instance still_wakeup ch : Still (wakeup ch : K S unit). Proof. unfold wakeup. stills. Qed.
#[global] Instance still_sleep {A} ch l : Still (sleep ch l : K S A). Proof. unfold sleep. stills. Qed.
#[global] Instance still_initsleeplock l (a : acc S sleeplock) : StillAcc a -> Still (initsleeplock l a).
Proof. intros Ha. unfold initsleeplock. stills. apply still_modify, Ha. Qed.
#[global] Instance still_acquiresleep l (a : acc S sleeplock) : StillAcc a -> Still (acquiresleep l a).
Proof. intros Ha. unfold acquiresleep. stills. apply still_modify, Ha. Qed.
#[global] Instance still_releasesleep l (a : acc S sleeplock) : StillAcc a -> Still (releasesleep l a).
Proof. intros Ha. unfold releasesleep. stills. apply still_modify, Ha. Qed.
#[global] Instance still_holdingsleep l (a : acc S sleeplock) : Still (holdingsleep l a).
Proof. unfold holdingsleep. stills. Qed.
#[global] Instance still_uartputc_sync b c : Still (uartputc_sync b c : K S unit).
Proof. unfold uartputc_sync. stills. Qed.
#[global] Instance still_consputc b c : Still (consputc b c : K S unit).
Proof. unfold consputc. stills. Qed.
#[global] Instance still_consputs b cs : Still (consputs b cs : K S unit).
Proof. induction cs; cbn [consputs]; stills. Qed.
#[global] Instance still_printint b x base sg : Still (Printf.printint b x base sg : K S unit).
Proof. unfold Printf.printint. stills. Qed.
#[global] Instance still_printptr_loop : forall n b x, Still (printptr_loop b n x : K S unit).
Proof. induction n; intros; cbn [printptr_loop]; stills. Qed.
#[global] Instance still_printptr b x : Still (printptr b x : K S unit).
Proof. unfold printptr. stills. Qed.
#[global] Instance still_printf_loop : forall n b fmt ap, Still (printf_loop b n fmt ap : K S unit).
Proof. induction n; intros; cbn [printf_loop]; stills. Qed.
#[global] Instance still_printf b fmt ap : Still (printf b fmt ap : K S Z).
Proof. unfold printf. stills. Qed.
End Locks.

(** ** Memory *)

#[global] Instance still_kfree e pa : Still (kfree e pa).
Proof. unfold kfree. stills. Qed.
#[global] Instance still_kalloc : Still (kalloc).
Proof. unfold kalloc. stills. Qed.
#[global] Instance still_ld64 a : Still (ld64 a).
Proof. unfold ld64. stills. Qed.
#[global] Instance still_st64 a v : Still (st64 a v).
Proof. unfold st64. stills. Qed.
#[global] Instance still_ld8 a : Still (ld8 a).
Proof. unfold ld8. stills. Qed.
#[global] Instance still_st8 a v : Still (st8 a v).
Proof. unfold st8. stills. Qed.
#[global] Instance still_kmemset p c n : Still (kmemset p c n).
Proof. unfold kmemset. stills. Qed.
#[global] Instance still_kmemmove d s n : Still (kmemmove d s n).
Proof. unfold kmemmove. stills. Qed.
#[global] Instance still_walk_loop : forall n pt va al, Still (walk_loop n pt va al).
Proof. induction n; intros; cbn [walk_loop]; stills. Qed.
#[global] Instance still_walk pt va al : Still (walk pt va al).
Proof. unfold walk. stills. Qed.
#[global] Instance still_walkaddr pt va : Still (walkaddr pt va).
Proof. unfold walkaddr. stills. Qed.
#[global] Instance still_mappages_loop : forall n pt a last pa perm, Still (mappages_loop n pt a last pa perm).
Proof. induction n; intros; cbn [mappages_loop]; stills. Qed.
#[global] Instance still_mappages pt va sz pa perm : Still (mappages pt va sz pa perm).
Proof. unfold mappages. stills. Qed.
#[global] Instance still_uvmcreate : Still (uvmcreate).
Proof. unfold uvmcreate. stills. Qed.
#[global] Instance still_uvmunmap_loop : forall n e pt a stop fr, Still (uvmunmap_loop e n pt a stop fr).
Proof. induction n; intros; cbn [uvmunmap_loop]; stills. Qed.
#[global] Instance still_uvmunmap e pt va n fr : Still (uvmunmap e pt va n fr).
Proof. unfold uvmunmap. stills. Qed.
#[global] Instance still_uvmdealloc e pt o n : Still (uvmdealloc e pt o n).
Proof. unfold uvmdealloc. stills. Qed.
#[global] Instance still_uvmalloc_loop : forall n e pt a o nw x, Still (uvmalloc_loop e n pt a o nw x).
Proof. induction n; intros; cbn [uvmalloc_loop]; stills. Qed.
#[global] Instance still_uvmalloc e pt o n x : Still (uvmalloc e pt o n x).
Proof. unfold uvmalloc. stills. Qed.
#[global] Instance still_freewalk_entries f n i pt : (forall a, Still (f a)) -> Still (freewalk_entries f n i pt).
Proof. intros Hf. revert i. induction n; intros; cbn [freewalk_entries]; stills. Qed.
#[global] Instance still_freewalk : forall n e pt, Still (freewalk e n pt).
Proof. induction n; intros; cbn [freewalk]; stills. Qed.
#[global] Instance still_uvmfree e pt sz : Still (uvmfree e pt sz).
Proof. unfold uvmfree. stills. Qed.
#[global] Instance still_uvmcopy_loop : forall n e o nw sz i, Still (uvmcopy_loop e n o nw sz i).
Proof. induction n; intros; cbn [uvmcopy_loop]; stills. Qed.
#[global] Instance still_uvmcopy e o n sz : Still (uvmcopy e o n sz).
Proof. unfold uvmcopy. stills. Qed.
#[global] Instance still_uvmclear pt va : Still (uvmclear pt va).
Proof. unfold uvmclear. stills. Qed.
#[global] Instance still_ismapped pt va : Still (ismapped pt va).
Proof. unfold ismapped. stills. Qed.
#[global] Instance still_vmfault e a b pt va rd : Still (vmfault e a b pt va rd).
Proof. unfold vmfault. stills. Qed.
#[global] Instance still_copyout_loop : forall n e a b pt d s len, Still (copyout_loop e a b n pt d s len).
Proof. induction n; intros; cbn [copyout_loop]; stills. Qed.
#[global] Instance still_copyout e a b pt d s len : Still (Vm.copyout e a b pt d s len).
Proof. unfold Vm.copyout. stills. Qed.
#[global] Instance still_copyin_loop : forall n e a b pt d s len, Still (copyin_loop e a b n pt d s len).
Proof. induction n; intros; cbn [copyin_loop]; stills. Qed.
#[global] Instance still_copyin e a b pt d s len : Still (Vm.copyin e a b pt d s len).
Proof. unfold Vm.copyin. stills. Qed.
#[global] Instance still_copyinstr_page : forall n p d, Still (copyinstr_page n p d).
Proof. induction n; intros; cbn [copyinstr_page]; stills. Qed.
#[global] Instance still_copyinstr_loop : forall n pt d s mx, Still (copyinstr_loop n pt d s mx).
Proof. induction n; intros; cbn [copyinstr_loop]; stills. Qed.
#[global] Instance still_copyinstr pt d s mx : Still (copyinstr pt d s mx).
Proof. unfold copyinstr. stills. Qed.

(** ** The buffer cache and the log *)

Section Blocks.
Context {D : DiskDriver} `{!DiskDriverOk D}.

#[global] Instance still_disk b w : Still (virtio_disk_rw b w).
Proof. intros c s. unfold still_at. destruct w; [rewrite rw_write|rewrite rw_read]; by split. Qed.
#[global] Instance still_gb i : Still (gb i).
Proof. unfold gb. stills. Qed.
#[global] Instance still_ub i f : Still (ub i f).
Proof. unfold ub. stills. Qed.
#[global] Instance still_bget_cached : forall n b dev bn, Still (bget_cached n b dev bn).
Proof. induction n; intros; cbn [bget_cached]; stills. Qed.
#[global] Instance still_bget_unused : forall n b, Still (bget_unused n b).
Proof. induction n; intros; cbn [bget_unused]; stills. Qed.
#[global] Instance still_bget dev bn : Still (bget dev bn).
Proof. unfold bget. stills. Qed.
#[global] Instance still_bread dev bn : Still (bread dev bn).
Proof. unfold bread. stills. Qed.
#[global] Instance still_bwrite b : Still (bwrite b).
Proof. unfold bwrite. stills. Qed.
#[global] Instance still_brelse b : Still (brelse b).
Proof. unfold brelse. stills. Qed.
#[global] Instance still_bpin b : Still (bpin b).
Proof. unfold bpin. stills. Qed.
#[global] Instance still_bunpin b : Still (bunpin b).
Proof. unfold bunpin. stills. Qed.
#[global] Instance still_glog : Still (glog).
Proof. unfold glog. stills. Qed.
#[global] Instance still_ulog f : Still (ulog f).
Proof. unfold ulog. stills. Qed.
#[global] Instance still_bdata b : Still (bdata b).
Proof. unfold bdata. stills. Qed.
#[global] Instance still_set_bdata b d : Still (set_bdata b d).
Proof. unfold set_bdata. stills. Qed.
#[global] Instance still_install_loop : forall n t r, Still (install_loop n t r).
Proof. induction n; intros; cbn [install_loop]; stills. Qed.
#[global] Instance still_install_trans r : Still (install_trans r).
Proof. unfold install_trans. stills. Qed.
#[global] Instance still_read_head_loop : forall n i d, Still (read_head_loop n i d).
Proof. induction n; intros; cbn [read_head_loop]; stills. Qed.
#[global] Instance still_read_head : Still (read_head).
Proof. unfold read_head. stills. Qed.
#[global] Instance still_write_head : Still (write_head).
Proof. unfold write_head. stills. Qed.
#[global] Instance still_recover_from_log : Still (recover_from_log).
Proof. unfold recover_from_log. stills. Qed.
#[global] Instance still_initlog dev st : Still (initlog dev st).
Proof. unfold initlog. stills. Qed.
#[global] Instance still_begin_op : Still (begin_op).
Proof. unfold begin_op. stills. Qed.
#[global] Instance still_write_log_loop : forall n t, Still (write_log_loop n t).
Proof. induction n; intros; cbn [write_log_loop]; stills. Qed.
#[global] Instance still_write_log : Still (write_log).
Proof. unfold write_log. stills. Qed.
#[global] Instance still_commit : Still (commit).
Proof. unfold commit. stills. Qed.
#[global] Instance still_end_op : Still (end_op).
Proof. unfold end_op. stills. Qed.
#[global] Instance still_log_write b : Still (log_write b).
Proof. unfold log_write. stills. Qed.
End Blocks.

(** ** The tables *)

Lemma still_up i f : (forall p, vitals (f p) = vitals p) -> Still (up i f).
Proof.
  intros Hf. apply still_modify. intros s. split; [done..|]. intros j. rewrite proc_at_upd. by destruct (Z.eqb_spec i j) as [->|].
Qed.
#[global] Instance still_gp i : Still (gp i). Proof. unfold gp. apply _. Qed.
#[global] Instance still_gf i : Still (gf i). Proof. unfold gf. apply _. Qed.
#[global] Instance still_gpi i : Still (gpi i). Proof. unfold gpi. apply _. Qed.
#[global] Instance still_gi i : Still (gi i). Proof. unfold gi. apply _. Qed.
#[global] Instance still_uf i f : Still (uf i f). Proof. unfold uf. stills. Qed.
#[global] Instance still_upi i f : Still (upi i f). Proof. unfold upi. stills. Qed.
#[global] Instance still_ui i f : Still (ui i f). Proof. unfold ui. stills. Qed.
Ltac still_step ::=
  match goal with
  | |- Still (mbind _ _) => apply still_bind; [|intros ?]
  | |- Still (modify _) => apply still_modify; vitals_same
  | |- Still (modc _) => apply still_modc; reflexivity
  | |- Still (up _ _) => apply still_up; reflexivity
  | |- Still (if ?x =? ?y then _ else _) => destruct (Z.eqb_spec x y)
  | |- Still (if ?b then _ else _) => destruct b
  | |- Still (match (if ?b then _ else _) with _ => _ end) => destruct b
  | |- Still (match ?x with _ => _ end) => destruct x
  | |- Still (kwhen _ _) => apply still_kwhen
  | |- Still (zoom _ _) => first [apply _|apply still_zoom; [apply _|]]
  | |- Still (let _ := _ in _) => cbv zeta
  | |- Still _ => apply _
  end.

#[global] Instance still_proc_pagetable e t tf : Still (Proc.proc_pagetable e t tf).
Proof. unfold Proc.proc_pagetable. stills. Qed.
#[global] Instance still_proc_freepagetable e pt sz : Still (proc_freepagetable e pt sz).
Proof. unfold proc_freepagetable. stills. Qed.
#[global] Instance still_growproc e n : Still (growproc e n).
Proof. unfold growproc. stills. Qed.
#[global] Instance still_killed i : Still (killed i).
Proof. unfold killed. stills. Qed.
#[global] Instance still_setkilled i : Still (setkilled i).
Proof. unfold setkilled. stills. Qed.
#[global] Instance still_either_copyout e u d s n : Still (either_copyout e u d s n).
Proof. unfold either_copyout. stills. Qed.
#[global] Instance still_either_copyin e d u s n : Still (either_copyin e d u s n).
Proof. unfold either_copyin. stills. Qed.
#[global] Instance still_procdump_loop : forall n i, Still (procdump_loop n i).
Proof. induction n; intros; cbn [procdump_loop]; stills. Qed.
#[global] Instance still_procdump : Still (procdump).
Proof. unfold procdump. stills. Qed.

(** ** Pipes and the console *)

#[global] Instance still_pipeclose e pi w : Still (pipeclose e pi w).
Proof. unfold pipeclose. stills. Qed.
#[global] Instance still_pipewrite_loop : forall n e ch pi a i k pr, Still (pipewrite_loop e ch n pi a i k pr).
Proof. induction n; intros; cbn [pipewrite_loop]; stills. Qed.
#[global] Instance still_pipewrite e ch pi a n : Still (pipewrite e ch pi a n).
Proof. unfold pipewrite. stills. Qed.
#[global] Instance still_piperead_loop : forall n e ch pi a i k pr, Still (piperead_loop e ch n pi a i k pr).
Proof. induction n; intros; cbn [piperead_loop]; stills. Qed.
#[global] Instance still_piperead e ch pi a n : Still (piperead e ch pi a n).
Proof. unfold piperead. stills. Qed.
#[global] Instance still_gcons : Still (gcons).
Proof. unfold gcons. stills. Qed.
#[global] Instance still_ucons f : Still (ucons f).
Proof. unfold ucons. stills. Qed.
#[global] Instance still_uartwrite_loop cs : Still (uartwrite_loop cs).
Proof. induction cs; cbn [uartwrite_loop]; stills. Qed.
#[global] Instance still_uartwrite cs : Still (uartwrite cs).
Proof. unfold uartwrite. stills. Qed.
#[global] Instance still_consolewrite_loop : forall n e o u s i k, Still (consolewrite_loop e o n u s i k).
Proof. induction n; intros; cbn [consolewrite_loop]; stills. Qed.
#[global] Instance still_consolewrite e o u s n : Still (consolewrite e o u s n).
Proof. unfold consolewrite. stills. Qed.
#[global] Instance still_consoleread_loop : forall n e o u d k t, Still (consoleread_loop e o n u d k t).
Proof. induction n; intros; cbn [consoleread_loop]; stills. Qed.
#[global] Instance still_consoleread e o u d n : Still (consoleread e o u d n).
Proof. unfold consoleread. stills. Qed.

(** ** The file system *)

Section Files.
Context {D : DiskDriver} `{!DiskDriverOk D}.

#[global] Instance still_kdata b : Still (kdata b).
Proof. unfold kdata. stills. Qed.
#[global] Instance still_set_kdata b d : Still (set_kdata b d).
Proof. unfold set_kdata. stills. Qed.
#[global] Instance still_gsb : Still (gsb).
Proof. unfold gsb. stills. Qed.
#[global] Instance still_bzero dev b : Still (bzero dev b).
Proof. unfold bzero. stills. Qed.
#[global] Instance still_balloc_loop : forall n b dev, Still (balloc_loop n b dev).
Proof. induction n; intros; cbn [balloc_loop]; stills. Qed.
#[global] Instance still_balloc dev : Still (balloc dev).
Proof. unfold balloc. stills. Qed.
#[global] Instance still_bfree dev b : Still (bfree dev b).
Proof. unfold bfree. stills. Qed.
#[global] Instance still_iget_scan : forall n ip dev inum em, Still (iget_scan n ip dev inum em).
Proof. induction n; intros; cbn [iget_scan]; stills. Qed.
#[global] Instance still_iget dev inum : Still (iget dev inum).
Proof. unfold iget. stills. Qed.
#[global] Instance still_idup ip : Still (idup ip).
Proof. unfold idup. stills. Qed.
#[global] Instance still_ialloc_loop : forall n inum dev ty, Still (ialloc_loop n inum dev ty).
Proof. induction n; intros; cbn [ialloc_loop]; stills. Qed.
#[global] Instance still_ialloc dev ty : Still (ialloc dev ty).
Proof. unfold ialloc. stills. Qed.
#[global] Instance still_iupdate ip : Still (iupdate ip).
Proof. unfold iupdate. stills. Qed.
#[global] Instance still_ilock ip : Still (ilock ip).
Proof. unfold ilock. stills. Qed.
#[global] Instance still_iunlock ip : Still (iunlock ip).
Proof. unfold iunlock. stills. Qed.
#[global] Instance still_itrunc_direct : forall n i ip, Still (itrunc_direct n i ip).
Proof. induction n; intros; cbn [itrunc_direct]; stills. Qed.
#[global] Instance still_itrunc_indirect : forall n j ip bp, Still (itrunc_indirect n j ip bp).
Proof. induction n; intros; cbn [itrunc_indirect]; stills. Qed.
#[global] Instance still_itrunc ip : Still (itrunc ip).
Proof. unfold itrunc. stills. Qed.
#[global] Instance still_iput ip : Still (iput ip).
Proof. unfold iput. stills. Qed.
#[global] Instance still_iunlockput ip : Still (iunlockput ip).
Proof. unfold iunlockput. stills. Qed.
#[global] Instance still_ireclaim_loop : forall n inum dev, Still (ireclaim_loop n inum dev).
Proof. induction n; intros; cbn [ireclaim_loop]; stills. Qed.
#[global] Instance still_ireclaim dev : Still (ireclaim dev).
Proof. unfold ireclaim. stills. Qed.
#[global] Instance still_readsb dev : Still (readsb dev).
Proof. unfold readsb. stills. Qed.
#[global] Instance still_fsinit dev : Still (fsinit dev).
Proof. unfold fsinit. stills. Qed.
#[global] Instance still_bmap ip bn : Still (bmap ip bn).
Proof. unfold bmap. stills. Qed.
#[global] Instance still_st_le n a v : Still (st_le n a v).
Proof. unfold st_le. stills. Qed.
#[global] Instance still_stati ip st : Still (stati ip st).
Proof. unfold stati. stills. Qed.
#[global] Instance still_buf_to_mem ba b : Still (buf_to_mem ba b).
Proof. unfold buf_to_mem. stills. Qed.
#[global] Instance still_mem_to_buf ba b : Still (mem_to_buf ba b).
Proof. unfold mem_to_buf. stills. Qed.
#[global] Instance still_readi_loop : forall n e ba ip u d o t k, Still (readi_loop e ba n ip u d o t k).
Proof. induction n; intros; cbn [readi_loop]; stills. Qed.
#[global] Instance still_readi e ba ip u d o n : Still (Fs.readi e ba ip u d o n).
Proof. unfold Fs.readi. stills. Qed.
#[global] Instance still_writei_loop : forall n e ba ip u d o t k, Still (writei_loop e ba n ip u d o t k).
Proof. induction n; intros; cbn [writei_loop]; stills. Qed.
#[global] Instance still_writei e ba ip u d o n : Still (Fs.writei e ba ip u d o n).
Proof. unfold Fs.writei. stills. Qed.
#[global] Instance still_kmem : Still (kmem).
Proof. unfold kmem. stills. Qed.
#[global] Instance still_put_kmem m : Still (put_kmem m).
Proof. unfold put_kmem. stills. Qed.
#[global] Instance still_dirlookup_loop : forall n e ba de dp nm o, Still (dirlookup_loop e ba de n dp nm o).
Proof. induction n; intros; cbn [dirlookup_loop]; stills. Qed.
#[global] Instance still_dirlookup e ba de dp nm : Still (Dir.dirlookup e ba de dp nm).
Proof. unfold Dir.dirlookup. stills. Qed.
#[global] Instance still_dirlink_loop : forall n e ba de dp o, Still (dirlink_loop e ba de n dp o).
Proof. induction n; intros; cbn [dirlink_loop]; stills. Qed.
#[global] Instance still_dirlink e ba de de2 dp nm i : Still (Dir.dirlink e ba de de2 dp nm i).
Proof. unfold Dir.dirlink. stills. Qed.
#[global] Instance still_namex_loop : forall n e ba de ip p np nm, Still (namex_loop e ba de n ip p np nm).
Proof. induction n; intros; cbn [namex_loop]; stills. Qed.
#[global] Instance still_namex e ba de p np nm : Still (namex e ba de p np nm).
Proof. unfold namex. stills. Qed.
#[global] Instance still_namei e ba de nm p : Still (Dir.namei e ba de nm p).
Proof. unfold Dir.namei. stills. Qed.
#[global] Instance still_nameiparent e ba de p nm : Still (Dir.nameiparent e ba de p nm).
Proof. unfold Dir.nameiparent. stills. Qed.

(** ** Open files *)

#[global] Instance still_file_scan : forall n f, Still (file_scan n f).
Proof. induction n; intros; cbn [file_scan]; stills. Qed.
#[global] Instance still_filealloc : Still (filealloc).
Proof. unfold filealloc. stills. Qed.
#[global] Instance still_filedup f : Still (filedup f).
Proof. unfold filedup. stills. Qed.
#[global] Instance still_fileclose L f : Still (fileclose L f).
Proof. unfold fileclose. stills. Qed.
#[global] Instance still_filestat L f a : Still (filestat L f a).
Proof. unfold filestat. stills. Qed.
#[global] Instance still_fileread L f a n : Still (fileread L f a n).
Proof. unfold fileread, devsw_read. stills. Qed.
#[global] Instance still_filewrite_loop : forall n L f a i k, Still (filewrite_loop L n f a i k).
Proof. induction n; intros; cbn [filewrite_loop]; stills. Qed.
#[global] Instance still_filewrite L f a n : Still (filewrite L f a n).
Proof. unfold filewrite, devsw_write. stills. Qed.
#[global] Instance still_close_opt L f : Still (close_opt L f).
Proof. unfold close_opt. stills. Qed.
#[global] Instance still_pipealloc L : Still (pipealloc L).
Proof. unfold pipealloc. stills. Qed.

(** ** Arguments of system calls, and the loops of fork and exit *)

#[global] Instance still_ld_tf i f : Still (ld_tf i f).
Proof. unfold ld_tf. stills. Qed.
#[global] Instance still_st_tf i f v : Still (st_tf i f v).
Proof. unfold st_tf. stills. Qed.
#[global] Instance still_dup_files : forall n i p np, Still (dup_files n i p np).
Proof. induction n; intros; cbn [dup_files]; stills. Qed.
#[global] Instance still_close_files : forall n L fd p, Still (close_files L n fd p).
Proof. induction n; intros; cbn [close_files]; stills. Qed.
#[global] Instance still_fetchaddr L a ip : Still (fetchaddr L a ip).
Proof. unfold fetchaddr. stills. Qed.
#[global] Instance still_kstrlen a m : Still (kstrlen a m).
Proof. unfold kstrlen. stills. Qed.
#[global] Instance still_fetchstr a b m : Still (fetchstr a b m).
Proof. unfold fetchstr. stills. Qed.
#[global] Instance still_argraw n : Still (argraw n).
Proof. unfold argraw. stills. Qed.
#[global] Instance still_argint n : Still (argint n).
Proof. unfold argint. stills. Qed.
#[global] Instance still_argaddr n : Still (argaddr n).
Proof. unfold argaddr. stills. Qed.
#[global] Instance still_argstr n b m : Still (argstr n b m).
Proof. unfold argstr. stills. Qed.

(** ** System calls on files *)

#[global] Instance still_argfd n : Still (argfd n).
Proof. unfold argfd. stills. Qed.
#[global] Instance still_fdalloc f : Still (fdalloc f).
Proof. unfold fdalloc. stills. Qed.
#[global] Instance still_fdclear fd : Still (fdclear fd).
Proof. unfold fdclear. stills. Qed.
#[global] Instance still_sys_dup : Still (sys_dup).
Proof. unfold sys_dup. stills. Qed.
#[global] Instance still_sys_read L : Still (sys_read L).
Proof. unfold sys_read. stills. Qed.
#[global] Instance still_sys_write L : Still (sys_write L).
Proof. unfold sys_write. stills. Qed.
#[global] Instance still_sys_close L : Still (sys_close L).
Proof. unfold sys_close. stills. Qed.
#[global] Instance still_sys_fstat L : Still (sys_fstat L).
Proof. unfold sys_fstat. stills. Qed.
#[global] Instance still_add_nlink ip d : Still (add_nlink ip d).
Proof. unfold add_nlink. stills. Qed.
#[global] Instance still_link_bad ip : Still (link_bad ip).
Proof. unfold link_bad. stills. Qed.
#[global] Instance still_sys_link L : Still (sys_link L).
Proof. unfold sys_link. stills. Qed.
#[global] Instance still_isdirempty_loop : forall n L dp off, Still (isdirempty_loop L n dp off).
Proof. induction n; intros; cbn [isdirempty_loop]; stills. Qed.
#[global] Instance still_isdirempty L dp : Still (isdirempty L dp).
Proof. unfold isdirempty. stills. Qed.
#[global] Instance still_unlink_bad dp : Still (unlink_bad dp).
Proof. unfold unlink_bad. stills. Qed.
#[global] Instance still_sys_unlink L : Still (sys_unlink L).
Proof. unfold sys_unlink. stills. Qed.
#[global] Instance still_create_fail ip dp : Still (create_fail ip dp).
Proof. unfold create_fail. stills. Qed.
#[global] Instance still_create L p t a b : Still (create L p t a b).
Proof. unfold create. stills. Qed.
#[global] Instance still_open_bad ip : Still (open_bad ip).
Proof. unfold open_bad. stills. Qed.
#[global] Instance still_open_file L ip om : Still (open_file L ip om).
Proof. unfold open_file. stills. Qed.
#[global] Instance still_sys_open L : Still (sys_open L).
Proof. unfold sys_open. stills. Qed.
#[global] Instance still_sys_mkdir L : Still (sys_mkdir L).
Proof. unfold sys_mkdir. stills. Qed.
#[global] Instance still_sys_mknod L : Still (sys_mknod L).
Proof. unfold sys_mknod. stills. Qed.
#[global] Instance still_sys_chdir L : Still (sys_chdir L).
Proof. unfold sys_chdir. stills. Qed.
#[global] Instance still_sys_pipe L : Still (sys_pipe L).
Proof. unfold sys_pipe. stills. Qed.
#[global] Instance still_ld_le n a : Still (ld_le n a).
Proof. unfold ld_le. stills. Qed.
#[global] Instance still_fetch_args : forall n L i u av, Still (fetch_args L n i u av).
Proof. induction n; intros; cbn [fetch_args]; stills. Qed.
#[global] Instance still_free_args L av : Still (free_args L av).
Proof. induction av; cbn [free_args]; stills. Qed.
#[global] Instance still_ld_proghdr a : Still (ld_proghdr a).
Proof. unfold ld_proghdr. stills. Qed.
#[global] Instance still_loadseg_loop : forall n L pt va ip o i sz, Still (loadseg_loop L n pt va ip o i sz).
Proof. induction n; intros; cbn [loadseg_loop]; stills. Qed.
#[global] Instance still_loadseg L pt va ip o sz : Still (loadseg L pt va ip o sz).
Proof. unfold loadseg. stills. Qed.
#[global] Instance still_load_segments : forall n L o pt ip sz, Still (load_segments L n o pt ip sz).
Proof. induction n; intros; cbn [load_segments]; stills. Qed.
#[global] Instance still_push_args : forall n L ac av a b pt sp sb, Still (push_args L n ac av a b pt sp sb).
Proof. induction n; intros; cbn [push_args]; stills. Qed.
#[global] Instance still_exec_bad L pt sz ip : Still (exec_bad L pt sz ip).
Proof. unfold exec_bad. stills. Qed.
End Files.

(** ** Under a condition

    Some code is still because of what it knows about an entry. *)
Class Stable (P : ctx -> kst -> Prop) : Prop :=
  stable : forall c s c' s', same s s' -> curproc c' = curproc c -> P c s -> P c' s'.
Definition still_if (P : ctx -> kst -> Prop) {A} (m : K kst A) : Prop := forall c s, P c s -> still_at m c s.

(** The vital fields of entry [i] are [v]. *)
Definition has (i : Z) (v : vit) : ctx -> kst -> Prop := fun _ s => vitals (proc_at s i) = v.
(** The CPU runs process [i], which is alive and has its memory. *)
Definition runs (i : Z) : ctx -> kst -> Prop :=
  fun c s => curproc c = i /\ exists pid pp, vitals (proc_at s i) = Vit Alive pid pp (true, true).
Definition running : ctx -> kst -> Prop := fun c s => runs (curproc c) c s.
#[global] Instance stable_has i v : Stable (has i v).
Proof. intros c s c' s' [_ _ H] _ E. unfold has. by rewrite H. Qed.
#[global] Instance stable_runs i : Stable (runs i).
Proof. intros c s c' s' [_ _ H] Hc (E & pid & pp & Hv). split; [congruence|]. exists pid, pp. by rewrite H. Qed.
#[global] Instance stable_running : Stable running.
Proof. intros c s c' s' Hs Hc Hr. unfold running. rewrite Hc. by eapply stable. Qed.

Lemma if_bind P {A B} (m : K kst A) (k : A -> K kst B) : Stable P -> still_if P m -> (forall a, still_if P (k a)) -> still_if P (m ≫= k).
Proof.
  intros HP Hm Hk c s Hc. apply still_at_bind; [by apply Hm|]. intros a c' s' _ Hs Ec. apply Hk. exact (HP _ _ _ _ Hs Ec Hc).
Qed.
Lemma if_still P {A} (m : K kst A) : Still m -> still_if P m.
Proof. intros Hm c s _. apply Hm. Qed.
Lemma still_gp_if {A} i (k : proc -> K kst A) : (forall p, still_if (has i (vitals p)) (k p)) -> Still (gp i ≫= k).
Proof. intros Hk c s. exact (Hk (proc_at s i) c s eq_refl). Qed.
Lemma myproc_curproc {S} c (s : S) i c' s' : myproc c s = Done i c' s' -> i = curproc c /\ s' = s /\ curproc c' = curproc c.
Proof.
  unfold myproc. rewrite (bind_done _ _ _ _ _ _ _ (push_off_eq c s)). unfold pop_off, intr_get, intr_on. krun. unfold pushed at 1. cbn [sie].
  cbn [noff pushed]. destruct (noff c + 1 <? 1); [discriminate|]. cbn. destruct ((noff c + 1 - 1 =? 0) && _); intros E; injection E as <- <- <-; done.
Qed.
Lemma running_myproc {A} (k : Z -> K kst A) : (forall i, still_if (runs i) (k i)) -> still_if running (myproc ≫= k).
Proof.
  intros Hk c s Hr. apply still_at_bind; [apply still_myproc|]. intros i c' s' E Hs Ec.
  apply myproc_curproc in E as (-> & -> & _). apply Hk. by apply (stable c s).
Qed.
(** Changing the state of a process that stays alive. *)
Lemma up_alive i f v : v_stage v = Alive -> (forall p, stage_of (p_state p) = Alive -> vitals (f p) = vitals p) -> still_if (has i v) (up i f).
Proof.
  intros Ev Hf c s Hv. unfold still_at, up, modify. split; [|done]. split; [done..|]. intros j. rewrite proc_at_upd.
  destruct (Z.eqb_spec i j) as [->|]; [|done]. apply Hf. unfold has in Hv. by rewrite <- Hv in Ev.
Qed.
Lemma runs_has i A (m : K kst A) : (forall pid pp, still_if (has i (Vit Alive pid pp (true, true))) m) -> still_if (runs i) m.
Proof. intros Hm c s (_ & pid & pp & Hv). by apply (Hm pid pp). Qed.

(** [if_stills] is [stills] under a condition. *)
Ltac if_step :=
  match goal with
  | |- still_if running (mbind _ myproc) => apply running_myproc; intros ?
  | |- still_if _ (mbind _ _) => apply if_bind; [apply _| |intros ?]
  | |- still_if _ (if ?x =? ?y then _ else _) => destruct (Z.eqb_spec x y)
  | |- still_if _ (if ?b then _ else _) => destruct b
  | |- still_if _ (match ?x with _ => _ end) => destruct x
  | |- still_if _ (let _ := _ in _) => cbv zeta
  | |- still_if _ _ => solve [apply if_still; stills]
  end.
Ltac if_stills := repeat if_step.

(** A process that was asleep, made runnable. *)
Lemma wake_if i p : p_state p = SLEEPING -> still_if (has i (vitals p)) (up i (fun q => set_pstate q RUNNABLE)).
Proof. intros E. apply up_alive; [unfold vitals; simpl; by rewrite E|]. intros q Hq. unfold vitals. simpl. by rewrite Hq. Qed.
#[global] Instance still_kkill_loop : forall n i pid, Still (kkill_loop n i pid).
Proof.
  induction n; intros; cbn [kkill_loop]; [apply _|]. apply still_bind; [apply _|intros _]. apply still_gp_if. intros p. if_stills. by apply wake_if.
Qed.
#[global] Instance still_kkill pid : Still (kkill pid). Proof. unfold kkill. stills. Qed.
#[global] Instance still_wakeup_loop : forall n i ch, Still (wakeup_loop n i ch).
Proof.
  induction n; intros; cbn [wakeup_loop]; [apply _|]. apply still_bind; [apply _|intros me]. apply still_bind; [|intros _; apply IHn].
  destruct (negb _); [|apply _]. apply still_bind; [apply _|intros _]. apply still_gp_if. intros p.
  destruct (bool_decide _) eqn:E; if_stills. apply bool_decide_eq_true in E as [E _]. by apply wake_if.
Qed.
#[global] Instance still_wakeup_on ch : Still (wakeup_on ch). Proof. unfold wakeup_on. stills. Qed.

(** The state of a running process as yield and sleep leave it. *)
Lemma up_state_if i st : stage_of st = Alive -> still_if (runs i) (up i (fun q => set_pstate q st)).
Proof.
  intros E. apply runs_has. intros pid pp. apply up_alive; [done|]. intros q Hq. unfold vitals. simpl. by rewrite Hq, E.
Qed.
#[global] Instance still_sched {A} ch : Still (sched ch : K kst A). Proof. unfold sched. stills. Qed.
Lemma yield_running : still_if running yield.
Proof. unfold yield. if_stills. by apply up_state_if. Qed.
Lemma sleep_on_running {A} ch lk : still_if running (sleep_on ch lk : K kst A).
Proof. unfold sleep_on. if_stills. all: by apply up_state_if. Qed.

(** *** exec: a page table takes the place of another *)

Lemma up_pagetable i pt : pt <> 0 -> still_if (runs i) (up i (fun p => set_ppagetable p pt)).
Proof.
  intros Hpt c s (_ & pid & pp & Hv). unfold still_at, up, modify. split; [|done]. split; [done..|]. intros j. rewrite proc_at_upd.
  destruct (Z.eqb_spec i j) as [->|]; [|done]. unfold vitals in *. simpl. injection Hv as -> -> -> -> ->. by destruct pt.
Qed.

Section Exec.
Context {D : DiskDriver} `{!DiskDriverOk D} (L : layout).

Lemma exec_stack_runs path argv i pt sz entry : pt <> 0 -> still_if (runs i) (exec_stack L path argv i pt sz entry).
Proof. intros Hpt. unfold exec_stack. if_stills. by apply up_pagetable. Qed.
Lemma kexec_running path argv : still_if running (kexec L path argv).
Proof.
  unfold kexec. apply if_bind; [apply _|apply if_still; apply _|intros p]. if_stills. by apply exec_stack_runs.
Qed.
Lemma sys_exec_running : still_if running (sys_exec L).
Proof. unfold sys_exec. if_stills. apply kexec_running. Qed.
End Exec.
