(* ===== verification/ProcTree.v ===== *)
(** * The process tree

    An abstract process table, the transitions a process makes in it (a process
    id is used up, a child is made, linked to its parent and started, the
    process dies, it reaps a dead child), and two invariants: the processes form
    a tree whose root is init and a free entry owns nothing; and, as long as the
    counter of process ids has not wrapped around, ids are distinct.
    Lifecycle.v shows that kernel code refines it. *)
From stdpp Require Import base numbers list gmap strings relations.
From S2P Require Import Prelude Vm Kstate Still.

(** ** The abstract table *)

Record tab := Tab { t_next : Z; t_init : Z; t_entry : Z -> vit }.
Definition vit0 : vit := Vit Free 0 None (false, false).
Definition view (s : kst) : tab := Tab (k_nextpid s) (k_initproc s) (fun i => vitals (proc_at s i)).

Section Tab.
Variable t : tab.
Definition used (i : Z) : Prop := v_stage (t_entry t i) <> Free.
Definition alive (i : Z) : Prop := v_stage (t_entry t i) = Alive.
Definition embryo (i : Z) : Prop := v_stage (t_entry t i) = Embryo.
Definition pid_of (i : Z) : Z := v_pid (t_entry t i).
Definition child_of (i j : Z) : Prop := v_parent (t_entry t i) = Some j.
End Tab.

(** The processes inside fork: the entry of the child a process is making, and
    whether it is linked to its parent yet. *)
Abbreviation forks := (gmap Z (Z * bool)).

Record tree_ok (F : forks) (t : tab) : Prop := {
  tk_range : forall i, used t i -> 0 <= i < NPROC;
  tk_free : forall i, ~ used t i -> t_entry t i = vit0;
  tk_owns : forall i, used t i -> v_owns (t_entry t i) = (true, true);
  tk_embryo : forall i, embryo t i -> exists p l, F !! p = Some (i, l);
  tk_fork : forall p i l, F !! p = Some (i, l) -> alive t p /\ embryo t i /\ v_parent (t_entry t i) = if l : bool then Some p else None;
  tk_fork_inj : forall p q i l l', F !! p = Some (i, l) -> F !! q = Some (i, l') -> p = q;
  tk_parent : forall i j, child_of t i j -> alive t j;
  tk_root : alive t (t_init t) /\ v_parent (t_entry t (t_init t)) = None;
  tk_linked : forall i, used t i -> ~ embryo t i -> rtc (child_of t) i (t_init t);
}.
(** Process ids, while the counter has not wrapped around. *)
Record ids_ok (t : tab) : Prop := {
  id_next : 0 < t_next t < 2 ^ 31;
  id_pos : forall i, used t i -> 0 < pid_of t i < t_next t;
  id_inj : forall i j, used t i -> used t j -> pid_of t i = pid_of t j -> i = j;
}.
Definition tab_ok (F : forks) (t : tab) : Prop := tree_ok F t /\ ids_ok t.

(** ** The transitions *)

(** Entry [j] when entry [i] is replaced by [v]. *)
Definition but (t : tab) (i : Z) (v : vit) (j : Z) : vit := if j =? i then v else t_entry t j.
(** The entry of [j] once [p] has died and init has its children. *)
Definition bereft (t : tab) (p j : Z) : vit :=
  let v := t_entry t j in
  if j =? p then Vit Dead (v_pid v) (v_parent v) (v_owns v)
  else if bool_decide (v_parent v = Some p) then Vit (v_stage v) (v_pid v) (Some (t_init t)) (v_owns v)
  else v.
(** nextpid is an int. *)
Definition next_pid (t : tab) : Z := i32 (t_next t + 1).
Definition embryo_of (t : tab) : vit := Vit Embryo (t_next t) None (true, true).
Definition child_vit (t : tab) (p : Z) : vit := Vit Alive (t_next t) (Some p) (true, true).

(** The system calls that change the table. *)
Definition SYS_fork : Z := 1.
Definition SYS_exit : Z := 2.
Definition SYS_wait : Z := 3.

(** What system call [n] of process [p] does from start to end. *)
Inductive change (n p : Z) (t t' : tab) : Prop :=
  | ch_none : t_next t' = t_next t -> t_init t' = t_init t -> (forall j, t_entry t' j = t_entry t j) -> change n p t t'
  | ch_pid : n = SYS_fork -> t_next t' = next_pid t -> t_init t' = t_init t -> (forall j, t_entry t' j = t_entry t j) ->
      change n p t t'
  | ch_fork i : n = SYS_fork -> alive t p -> ~ used t i -> 0 <= i < NPROC -> t_next t' = next_pid t -> t_init t' = t_init t ->
      (forall j, t_entry t' j = but t i (child_vit t p) j) -> change n p t t'
  | ch_exit : n = SYS_exit -> alive t p -> p <> t_init t -> t_next t' = t_next t -> t_init t' = t_init t ->
      (forall j, t_entry t' j = bereft t p j) -> change n p t t'
  | ch_reap i : n = SYS_wait -> child_of t i p -> v_stage (t_entry t i) = Dead -> t_next t' = t_next t -> t_init t' = t_init t ->
      (forall j, t_entry t' j = but t i vit0 j) -> change n p t t'.

(** The three parts of fork, which other processes may see apart. *)
Inductive begins (p i : Z) (t t' : tab) : Prop :=
  | fork_begins : alive t p -> ~ used t i -> 0 <= i < NPROC -> t_next t' = next_pid t -> t_init t' = t_init t ->
      (forall j, t_entry t' j = but t i (embryo_of t) j) -> begins p i t t'.
Inductive links (p i : Z) (t t' : tab) : Prop :=
  | fork_links : t_next t' = t_next t -> t_init t' = t_init t ->
      (forall j, t_entry t' j = but t i (Vit Embryo (pid_of t i) (Some p) (true, true)) j) -> links p i t t'.
Inductive starts (p i : Z) (t t' : tab) : Prop :=
  | fork_starts : t_next t' = t_next t -> t_init t' = t_init t ->
      (forall j, t_entry t' j = but t i (Vit Alive (pid_of t i) (Some p) (true, true)) j) -> starts p i t t'.

(** ** Entries that were and were not replaced *)

Section But.
Variables (t t' : tab) (i : Z) (v : vit).
Hypothesis He : forall j, t_entry t' j = but t i v j.
Lemma but_here : t_entry t' i = v.
Proof. rewrite He. unfold but. by rewrite Z.eqb_refl. Qed.
Lemma but_else j : j <> i -> t_entry t' j = t_entry t j.
Proof. intros Hj. rewrite He. unfold but. by rewrite (proj2 (Z.eqb_neq j i)). Qed.
Lemma but_used j : v_stage v <> Free -> used t' j <-> j = i \/ used t j.
Proof.
  intros Hv. unfold used. destruct (decide (j = i)) as [->|Hj]; [rewrite but_here|rewrite but_else by done]; tauto.
Qed.
End But.

(** ** The tree *)

Section Inv.
Variables (F : forks) (t : tab).
Hypothesis Hok : tree_ok F t.

Lemma used_alive i : alive t i -> used t i.
Proof. unfold alive, used. congruence. Qed.
Lemma used_embryo i : embryo t i -> used t i.
Proof. unfold embryo, used. congruence. Qed.
Lemma alive_grown i : alive t i -> ~ embryo t i.
Proof. unfold alive, embryo. congruence. Qed.
Lemma child_used i j : child_of t i j -> used t i.
Proof.
  intros Hc. destruct (decide (v_stage (t_entry t i) = Free)) as [E|]; [|done].
  unfold child_of in Hc. rewrite (tk_free _ _ Hok i) in Hc; [discriminate|]. unfold used. tauto.
Qed.
Lemma dead_childless i j : v_stage (t_entry t i) = Dead -> ~ child_of t j i.
Proof. intros Hd Hc. pose proof (tk_parent _ _ Hok j i Hc) as Ha. unfold alive in Ha. congruence. Qed.
Lemma init_used : used t (t_init t).
Proof. apply used_alive, (tk_root _ _ Hok). Qed.
(** Nobody is its own parent: the way from a process to init would not end. *)
Lemma rtc_not_self i r : rtc (child_of t) i r -> v_parent (t_entry t r) = None -> ~ child_of t i i.
Proof.
  intros Hr H0. induction Hr as [i|i j k Hij _ IH]; unfold child_of in *; [congruence|].
  intros Hii. rewrite Hij in Hii. injection Hii as ->. by apply IH.
Qed.
Lemma not_own_parent i : alive t i -> ~ child_of t i i.
Proof.
  intros Ha. apply (rtc_not_self i (t_init t)); [|apply (tk_root _ _ Hok)]. apply (tk_linked _ _ Hok); [by apply used_alive|by apply alive_grown].
Qed.
Lemma forking_alive p i l : F !! p = Some (i, l) -> p <> i.
Proof. intros Hp ->. destruct (tk_fork _ _ Hok _ _ _ Hp) as (Ha & He & _). by apply (alive_grown i). Qed.

Lemma same_ok t' : t_init t' = t_init t -> (forall j, t_entry t' j = t_entry t j) -> tree_ok F t'.
Proof.
  intros Hi He. destruct Hok as [H1 H2 H3 H4 H5 H6 H7 H8 H9].
  split; unfold used, alive, embryo, child_of in *; rewrite ?Hi.
  - intros i. rewrite He. apply H1.
  - intros i. rewrite He. apply H2.
  - intros i. rewrite He. apply H3.
  - intros i. rewrite He. apply H4.
  - intros p i l Hp. rewrite !He. by apply H5.
  - exact H6.
  - intros i j. rewrite !He. apply H7.
  - by rewrite He.
  - intros i. rewrite He. intros Hu Hm. eapply rtc_subrel; [|by apply H9]. intros x y Hxy. by rewrite He.
Qed.

(** A path to init stays one in a relation that leads its steps on or ends them
    in init. *)
Lemma rtc_avoid (P : Z -> Prop) (R : Z -> Z -> Prop) i r : rtc (child_of t) i r -> P i ->
  (forall x y, P x -> child_of t x y -> P y /\ R x y \/ R x r) -> rtc R i r.
Proof.
  intros Hr Hi HR. induction Hr as [i|i j k Hij _ IH]; [apply rtc_refl|]. destruct (HR i j Hi Hij) as [[H1 H2]|H].
  - eapply rtc_l; [exact H2|]. by apply IH.
  - eapply rtc_l; [exact H|]. apply rtc_refl.
Qed.
Lemma rtc_keep (R : Z -> Z -> Prop) i r : rtc (child_of t) i r -> (forall x y, child_of t x y -> R x y) -> rtc R i r.
Proof. intros Hr HR. apply (rtc_subrel (child_of t)); [exact HR|exact Hr]. Qed.

(** *** Each transition keeps it *)

Lemma begins_ok p i t' : F !! p = None -> begins p i t t' -> tree_ok (<[p := (i, false)]> F) t'.
Proof.
  intros HF [Hp Hi Hr _ Hinit He]. pose proof (but_here _ _ _ _ He) as Hnew. pose proof (but_else _ _ _ _ He) as Hsame.
  assert (forall j, used t' j <-> j = i \/ used t j) as Hu by (intros j; by apply (but_used _ _ _ _ He)).
  assert (forall j, used t j -> j <> i) as Hni by (intros j Hj ->; done).
  assert (forall q j l, F !! q = Some (j, l) -> j <> i) as HFi by (intros q j l Hq; apply Hni, used_embryo, (tk_fork _ _ Hok q j l Hq)).
  assert (forall j k, child_of t' j k -> j <> i /\ child_of t j k) as Hc.
  { intros j k Hjk. unfold child_of in Hjk. destruct (decide (j = i)) as [->|Hj]; [by rewrite Hnew in Hjk|]. split; [done|]. by rewrite Hsame in Hjk. }
  assert (forall j, alive t j -> alive t' j) as Ha by (intros j Hj; unfold alive; rewrite Hsame by (by apply Hni, used_alive); done).
  split; try rewrite Hinit.
  - intros j [-> |Hj]%Hu; [done|]. by apply (tk_range _ _ Hok).
  - intros j Hj. rewrite Hu in Hj. rewrite Hsame by tauto. apply (tk_free _ _ Hok). tauto.
  - intros j [-> |Hj]%Hu; [by rewrite Hnew|]. rewrite Hsame by by apply Hni. by apply (tk_owns _ _ Hok).
  - intros j Hj. destruct (decide (j = i)) as [->|Hne]; [exists p, false; by rewrite lookup_insert_eq|].
    unfold embryo in Hj. rewrite Hsame in Hj by done. destruct (tk_embryo _ _ Hok j Hj) as (q & l & Hq). exists q, l.
    rewrite lookup_insert_ne; [done|congruence].
  - intros q j l [[<- [= <- <-]]|[Hne Hq]]%lookup_insert_Some; [split; [by apply Ha|]; unfold embryo; by rewrite Hnew|].
    destruct (tk_fork _ _ Hok q j l Hq) as (H1 & H2 & H3). split; [by apply Ha|]. unfold embryo. by rewrite Hsame by (by eapply HFi).
  - intros q q' j l l' [[<- [= <- <-]]|[Hne Hq]]%lookup_insert_Some [[<- [= Ei]]|[Hne' Hq']]%lookup_insert_Some; [done| | |by eapply (tk_fork_inj _ _ Hok)].
    + by apply HFi in Hq'.
    + by apply HFi in Hq.
  - intros j k [_ Hjk]%Hc. by apply Ha, (tk_parent _ _ Hok j).
  - destruct (tk_root _ _ Hok) as [H1 H2]. split; [by apply Ha|]. by rewrite Hsame by by apply Hni, used_alive.
  - intros j [-> |Hj]%Hu Hm; [by destruct Hm; unfold embryo; rewrite Hnew|].
    apply rtc_keep; [apply (tk_linked _ _ Hok j Hj); unfold embryo in *; by rewrite Hsame in Hm by by apply Hni|].
    intros x y Hxy. unfold child_of in *. by rewrite Hsame by by apply Hni; eapply child_used.
Qed.

Lemma links_ok p i t' : F !! p = Some (i, false) -> links p i t t' -> tree_ok (<[p := (i, true)]> F) t'.
Proof.
  intros HF [_ Hinit He]. pose proof (but_here _ _ _ _ He) as Hnew. pose proof (but_else _ _ _ _ He) as Hsame.
  destruct (tk_fork _ _ Hok _ _ _ HF) as (Hp & Hi & Hpar). pose proof (used_embryo i Hi) as Hiu.
  assert (forall j, used t' j <-> used t j) as Hu by (intros j; rewrite (but_used _ _ _ _ He) by done; split; [intros [->|?]|]; tauto).
  assert (forall j, embryo t' j <-> embryo t j) as Hm.
  { intros j. unfold embryo. destruct (decide (j = i)) as [->|Hj]; [by rewrite Hnew|by rewrite Hsame]. }
  assert (forall j, alive t j -> alive t' j) as Ha.
  { intros j Hj. unfold alive. rewrite Hsame; [done|]. intros ->. by apply (alive_grown i). }
  assert (forall j k, child_of t' j k -> j = i /\ k = p \/ child_of t j k) as Hc.
  { intros j k Hjk. unfold child_of in Hjk. destruct (decide (j = i)) as [->|Hj]; [left; rewrite Hnew in Hjk; by injection Hjk|right]. by rewrite Hsame in Hjk. }
  split; try rewrite Hinit.
  - intros j Hj%Hu. by apply (tk_range _ _ Hok).
  - intros j Hj. rewrite Hu in Hj. rewrite Hsame; [by apply (tk_free _ _ Hok)|by intros ->].
  - intros j Hj%Hu. destruct (decide (j = i)) as [->|Hne]; [by rewrite Hnew|]. rewrite Hsame by done. by apply (tk_owns _ _ Hok).
  - intros j Hj%Hm. destruct (tk_embryo _ _ Hok j Hj) as (q & l & Hq). destruct (decide (q = p)) as [->|Hne].
    + exists p, true. rewrite lookup_insert_eq. congruence.
    + exists q, l. by rewrite lookup_insert_ne.
  - intros q j l [[<- [= <- <-]]|[Hne Hq]]%lookup_insert_Some; [split; [by apply Ha|]; split; [by apply Hm|by rewrite Hnew]|].
    destruct (tk_fork _ _ Hok q j l Hq) as (H1 & H2 & H3). split; [by apply Ha|]. split; [by apply Hm|].
    rewrite Hsame; [done|]. intros ->. destruct Hne. by eapply (tk_fork_inj _ _ Hok).
  - intros q q' j l l' [[<- [= <- <-]]|[Hne Hq]]%lookup_insert_Some [[<- [= Ei]]|[Hne' Hq']]%lookup_insert_Some; subst; [done|..];
      by eapply (tk_fork_inj _ _ Hok).
  - intros j k [[-> ->]|Hjk]%Hc; [by apply Ha|]. by apply Ha, (tk_parent _ _ Hok j).
  - destruct (tk_root _ _ Hok) as [H1 H2]. split; [by apply Ha|]. rewrite Hsame; [done|]. intros E. rewrite <- E in Hi. by apply (alive_grown _ H1).
  - intros j Hj%Hu Hjm. rewrite Hm in Hjm. apply rtc_keep; [by apply (tk_linked _ _ Hok)|]. intros x y Hxy. unfold child_of in *.
    rewrite Hsame; [done|]. intros ->. congruence.
Qed.

Lemma starts_ok p i t' : F !! p = Some (i, true) -> starts p i t t' -> tree_ok (delete p F) t'.
Proof.
  intros HF [_ Hinit He]. pose proof (but_here _ _ _ _ He) as Hnew. pose proof (but_else _ _ _ _ He) as Hsame.
  destruct (tk_fork _ _ Hok _ _ _ HF) as (Hp & Hi & Hpar). pose proof (used_embryo i Hi) as Hiu.
  assert (forall j, used t' j <-> used t j) as Hu by (intros j; rewrite (but_used _ _ _ _ He) by done; split; [intros [->|?]|]; tauto).
  assert (forall j, embryo t' j <-> j <> i /\ embryo t j) as Hm.
  { intros j. unfold embryo. destruct (decide (j = i)) as [->|Hj]; [rewrite Hnew; simpl; split; [discriminate|tauto]|rewrite Hsame by done; tauto]. }
  assert (forall j, alive t j -> alive t' j) as Ha.
  { intros j Hj. unfold alive. rewrite Hsame; [done|]. intros ->. by apply (alive_grown i). }
  assert (forall j, v_parent (t_entry t' j) = v_parent (t_entry t j)) as Hc.
  { intros j. destruct (decide (j = i)) as [->|Hj]; [by rewrite Hnew, Hpar|by rewrite Hsame]. }
  assert (forall j, rtc (child_of t) j (t_init t) -> rtc (child_of t') j (t_init t)) as Hr.
  { intros j Hj. apply rtc_keep; [done|]. intros x y Hxy. unfold child_of in *. by rewrite Hc. }
  split; try rewrite Hinit.
  - intros j Hj%Hu. by apply (tk_range _ _ Hok).
  - intros j Hj. rewrite Hu in Hj. rewrite Hsame; [by apply (tk_free _ _ Hok)|by intros ->].
  - intros j Hj%Hu. destruct (decide (j = i)) as [->|Hne]; [by rewrite Hnew|]. rewrite Hsame by done. by apply (tk_owns _ _ Hok).
  - intros j [Hne Hj]%Hm. destruct (tk_embryo _ _ Hok j Hj) as (q & l & Hq). exists q, l. rewrite lookup_delete_ne; [done|]. congruence.
  - intros q j l [Hne Hq]%lookup_delete_Some. destruct (tk_fork _ _ Hok q j l Hq) as (H1 & H2 & H3). rewrite Hc. split; [by apply Ha|].
    split; [|done]. apply Hm. split; [|done]. intros ->. destruct Hne. by eapply (tk_fork_inj _ _ Hok).
  - intros q q' j l l' [_ Hq]%lookup_delete_Some [_ Hq']%lookup_delete_Some. by eapply (tk_fork_inj _ _ Hok).
  - intros j k Hjk. unfold child_of in Hjk. rewrite Hc in Hjk. by apply Ha, (tk_parent _ _ Hok j).
  - destruct (tk_root _ _ Hok) as [H1 H2]. split; [by apply Ha|by rewrite Hc].
  - intros j Hj%Hu Hjm. apply Hr. destruct (decide (j = i)) as [->|Hne]; [|apply (tk_linked _ _ Hok); [done|]; rewrite Hm in Hjm; tauto].
    eapply rtc_l; [unfold child_of; rewrite Hpar; reflexivity|]. apply (tk_linked _ _ Hok); [by apply used_alive|by apply alive_grown].
Qed.

Lemma exit_ok p t' : F !! p = None -> alive t p -> p <> t_init t -> t_init t' = t_init t -> (forall j, t_entry t' j = bereft t p j) -> tree_ok F t'.
Proof.
  intros HF Hp Hpr Hinit He. pose proof (used_alive p Hp) as Hup. destruct (tk_root _ _ Hok) as [Hra Hrp].
  assert (forall j, j <> p -> v_stage (t_entry t' j) = v_stage (t_entry t j)) as Hst.
  { intros j Hj. rewrite He. unfold bereft. rewrite (proj2 (Z.eqb_neq j p)) by done. by destruct (bool_decide _). }
  assert (v_stage (t_entry t' p) = Dead) as Hdead by (rewrite He; unfold bereft; by rewrite Z.eqb_refl).
  assert (forall j, used t' j <-> used t j) as Hu.
  { intros j. unfold used. destruct (decide (j = p)) as [->|Hj]; [rewrite Hdead; split; [intros _; exact Hup|done]|by rewrite Hst]. }
  assert (forall j, embryo t' j <-> embryo t j) as Hm.
  { intros j. unfold embryo. destruct (decide (j = p)) as [->|Hj]; [rewrite Hdead, Hp; split; discriminate|by rewrite Hst]. }
  assert (forall j, alive t j -> j <> p -> alive t' j) as Ha by (intros j Hj Hne; unfold alive; by rewrite Hst).
  assert (forall j, v_parent (t_entry t' j) = if bool_decide (v_parent (t_entry t j) = Some p) then Some (t_init t) else v_parent (t_entry t j)) as Hpar.
  { intros j. rewrite He. unfold bereft. destruct (Z.eqb_spec j p) as [->|]; [|by case_bool_decide].
    rewrite bool_decide_eq_false_2; [done|]. by apply not_own_parent. }
  assert (forall q i l, F !! q = Some (i, l) -> q <> p /\ i <> p) as HFp.
  { intros q i l Hq. split; [congruence|]. intros ->. destruct (tk_fork _ _ Hok q p l Hq) as (_ & H & _). by apply (alive_grown p). }
  split; try rewrite Hinit.
  - intros j Hj%Hu. by apply (tk_range _ _ Hok).
  - intros j Hj. rewrite Hu in Hj. rewrite He. unfold bereft. destruct (Z.eqb_spec j p) as [->|]; [done|]. by rewrite (tk_free _ _ Hok j Hj).
  - intros j Hj%Hu. rewrite He. unfold bereft. destruct (j =? p); [|destruct (bool_decide _)]; by apply (tk_owns _ _ Hok).
  - intros j Hj%Hm. by apply (tk_embryo _ _ Hok).
  - intros q i l Hq. destruct (HFp q i l Hq) as [Hqp Hip]. destruct (tk_fork _ _ Hok q i l Hq) as (H1 & H2 & H3).
    split; [by apply Ha|]. split; [by apply Hm|]. rewrite Hpar, H3. destruct l; [|done]. rewrite bool_decide_eq_false_2; [done|congruence].
  - apply (tk_fork_inj _ _ Hok).
  - intros j k Hjk. unfold child_of in Hjk. rewrite Hpar in Hjk. case_bool_decide as E; [injection Hjk as <-; by apply Ha|].
    apply Ha; [by apply (tk_parent _ _ Hok j)|congruence].
  - split; [by apply Ha|]. by rewrite Hpar, Hrp.
  - intros j Hj%Hu Hjm. rewrite Hm in Hjm. apply (rtc_avoid (fun _ => True)); [by apply (tk_linked _ _ Hok)|done|].
    intros x y _ Hxy. unfold child_of in *. rewrite Hpar. case_bool_decide; [by right|by left].
Qed.

Lemma reap_ok i t' : v_stage (t_entry t i) = Dead -> t_init t' = t_init t -> (forall j, t_entry t' j = but t i vit0 j) -> tree_ok F t'.
Proof.
  intros Hd Hinit He. pose proof (but_here _ _ _ _ He) as Hi. pose proof (but_else _ _ _ _ He) as Hsame.
  assert (forall j, used t' j -> j <> i /\ used t j) as Hu.
  { intros j Hj. destruct (decide (j = i)) as [->|Hne]; [by unfold used in Hj; rewrite Hi in Hj|]. split; [done|]. unfold used in *. by rewrite <- Hsame. }
  assert (forall j k, child_of t' j k -> j <> i /\ k <> i /\ child_of t j k) as Hc.
  { intros j k Hjk. unfold child_of in Hjk. destruct (decide (j = i)) as [->|Hne]; [by rewrite Hi in Hjk|]. rewrite Hsame in Hjk by done.
    split; [done|]. split; [|done]. intros ->. by apply (dead_childless i j). }
  assert (forall j, alive t j -> j <> i) as Hai by (unfold alive; congruence).
  assert (forall j, embryo t j -> j <> i) as Hmi by (unfold embryo; congruence).
  split; try rewrite Hinit.
  - intros j [_ Hj]%Hu. by apply (tk_range _ _ Hok).
  - intros j Hj. destruct (decide (j = i)) as [->|Hne]; [done|]. rewrite Hsame by done. apply (tk_free _ _ Hok). unfold used in *. by rewrite <- Hsame.
  - intros j [Hne Hj]%Hu. rewrite Hsame by done. by apply (tk_owns _ _ Hok).
  - intros j Hj. unfold embryo in Hj. destruct (decide (j = i)) as [->|Hne]; [by rewrite Hi in Hj|]. rewrite Hsame in Hj by done. by apply (tk_embryo _ _ Hok).
  - intros p j l Hp. destruct (tk_fork _ _ Hok p j l Hp) as (H1 & H2 & H3). unfold alive, embryo. rewrite !Hsame; [done|by apply Hmi|by apply Hai].
  - apply (tk_fork_inj _ _ Hok).
  - intros j k (Hj & Hk & Hjk)%Hc. unfold alive. rewrite Hsame by done. by apply (tk_parent _ _ Hok j).
  - destruct (tk_root _ _ Hok) as [H1 H2]. unfold alive. rewrite !Hsame by by apply Hai. done.
  - intros j [Hne Hj]%Hu Hjm. apply (rtc_avoid (fun x => x <> i)); [|done|].
    + apply (tk_linked _ _ Hok); [done|]. unfold embryo in *. by rewrite Hsame in Hjm.
    + intros x y Hx Hxy. left. split; [intros ->; by apply (dead_childless i x)|]. unfold child_of in *. by rewrite Hsame.
Qed.
End Inv.

(** fork in one go is its three parts. *)
Lemma fork_parts F p i t t' : tree_ok F t -> F !! p = None -> alive t p -> ~ used t i -> 0 <= i < NPROC -> t_next t' = next_pid t ->
  t_init t' = t_init t -> (forall j, t_entry t' j = but t i (child_vit t p) j) -> tree_ok F t'.
Proof.
  intros Hok HF Hp Hi Hr Hn Hinit He.
  set (t1 := Tab (next_pid t) (t_init t) (but t i (embryo_of t))).
  set (t2 := Tab (next_pid t) (t_init t) (but t1 i (Vit Embryo (pid_of t1 i) (Some p) (true, true)))).
  assert (pid_of t1 i = t_next t) as E1 by (unfold pid_of, t1, but; simpl; by rewrite Z.eqb_refl).
  assert (tree_ok (<[p := (i, false)]> F) t1) as H1 by by apply (begins_ok F t Hok).
  assert (tree_ok (<[p := (i, true)]> (<[p := (i, false)]> F)) t2) as H2 by (apply (links_ok _ t1 H1 p i); [by rewrite lookup_insert_eq|by split]).
  assert (pid_of t2 i = t_next t) as E2 by (unfold pid_of, t2, but; simpl; by rewrite Z.eqb_refl).
  rewrite insert_insert_eq in H2. assert (F = delete p (<[p := (i, true)]> F)) as -> by by rewrite delete_insert_id.
  apply (starts_ok _ t2 H2 p i); [by rewrite lookup_insert_eq|]. split; [done|done|]. intros j. rewrite He, E2. unfold but, t2, t1. simpl.
  unfold but. simpl. unfold child_vit. by destruct (j =? i).
Qed.

Lemma change_ok F n p t t' : tree_ok F t -> F !! p = None -> change n p t t' -> tree_ok F t'.
Proof.
  intros Hok HF [_ Hi He|_ _ Hi He|i _ Hp Hf Hr Hn Hi He|_ Hp Hpr _ Hi He|i _ _ Hd _ Hi He].
  - by apply (same_ok F t Hok).
  - by apply (same_ok F t Hok).
  - by apply (fork_parts F p i t t').
  - by apply (exit_ok F t Hok p).
  - by apply (reap_ok F t Hok i).
Qed.

(** ** Process ids *)

Lemma next_pid_range t : in_s 32 (next_pid t).
Proof. apply s_range. lia. Qed.
Lemma next_pid_up t : 0 < t_next t < 2 ^ 31 -> t_next t <= next_pid t -> next_pid t = t_next t + 1.
Proof.
  intros Hn Hle. unfold next_pid in *. destruct (decide (t_next t = 2 ^ 31 - 1)) as [E|E]; [by rewrite E in Hle|].
  apply s_small; [done|]. unfold in_s. lia.
Qed.

Section Ids.
Variables (t t' : tab).
Hypotheses (Hok : ids_ok t) (Hup : t_next t <= t_next t').

(** No new process. *)
Lemma ids_old : (t_next t' = t_next t \/ t_next t' = next_pid t) -> (forall j, used t' j -> used t j /\ pid_of t' j = pid_of t j) -> ids_ok t'.
Proof.
  intros Hn He. destruct Hok as [H1 H2 H3]. split.
  - destruct Hn as [->|E]; [done|]. pose proof (next_pid_range t) as Hr. unfold in_s in Hr. change (2 ^ (32 - 1)) with (2 ^ 31) in Hr. lia.
  - intros i Hi. destruct (He i Hi) as [Hu ->]. specialize (H2 i Hu). lia.
  - intros i j Hi Hj. destruct (He i Hi) as [Hu ->], (He j Hj) as [Hu' ->]. by apply H3.
Qed.
(** A new one, with the next id. *)
Lemma ids_new i v : ~ used t i -> v_stage v <> Free -> v_pid v = t_next t -> t_next t' = next_pid t ->
  (forall j, t_entry t' j = but t i v j) -> ids_ok t'.
Proof.
  intros Hi Hv Hpv Hn He. destruct Hok as [H1 H2 H3]. rewrite Hn in Hup. pose proof (next_pid_up t H1 Hup) as Ep.
  pose proof (but_here _ _ _ _ He) as Hnew. pose proof (but_else _ _ _ _ He) as Hsame.
  assert (forall j, used t' j -> j = i \/ j <> i /\ used t j) as Hu.
  { intros j Hj. apply (but_used _ _ _ _ He j Hv) in Hj. destruct (decide (j = i)); [by left|]. right. tauto. }
  assert (pid_of t' i = t_next t) as Ei by (unfold pid_of; by rewrite Hnew).
  assert (forall j, j <> i -> pid_of t' j = pid_of t j) as Ej by (intros j Hj; unfold pid_of; by rewrite Hsame).
  split.
  - rewrite Hn. pose proof (next_pid_range t) as Hr. unfold in_s in Hr. change (2 ^ (32 - 1)) with (2 ^ 31) in Hr. lia.
  - intros j [-> |[Hj Hj']]%Hu; [rewrite Ei; lia|]. rewrite Ej by done. specialize (H2 j Hj'). lia.
  - intros j k [-> |[Hj Hj']]%Hu [-> |[Hk Hk']]%Hu; [done| | |].
    + rewrite Ei, Ej by done. pose proof (H2 k Hk'). lia.
    + rewrite Ei, Ej by done. pose proof (H2 j Hj'). lia.
    + rewrite !Ej by done. by apply H3.
Qed.
Lemma ids_same : t_next t' = t_next t -> (forall j, t_entry t' j = t_entry t j) -> ids_ok t'.
Proof. intros Hn He. apply ids_old; [by left|]. intros j. unfold used, pid_of. by rewrite He. Qed.

Lemma change_ids n p : change n p t t' -> ids_ok t'.
Proof.
  intros [Hn _ He|_ Hn _ He|i _ _ Hf _ Hn _ He|_ Hp _ Hn _ He|i _ _ _ Hn _ He].
  - by apply ids_same.
  - apply ids_old; [by right|]. intros j. unfold used, pid_of. by rewrite He.
  - by apply (ids_new i (child_vit t p)).
  - apply ids_old; [by left|]. intros j. unfold used, pid_of. rewrite He. unfold bereft. destruct (Z.eqb_spec j p) as [->|].
    + intros _. split; [|done]. by apply used_alive.
    + by destruct (bool_decide _).
  - apply ids_old; [by left|]. intros j. unfold used, pid_of. rewrite He. unfold but. by destruct (j =? i).
Qed.
Lemma begins_ids p i : begins p i t t' -> ids_ok t'.
Proof. intros [_ Hi _ Hn _ He]. by apply (ids_new i (embryo_of t)). Qed.
Lemma restage_ids i v : used t i -> v_pid v = pid_of t i -> t_next t' = t_next t -> (forall j, t_entry t' j = but t i v j) -> ids_ok t'.
Proof.
  intros Hu Hv Hn He. apply ids_old; [by left|]. intros j. unfold used, pid_of in *. rewrite He. unfold but.
  destruct (Z.eqb_spec j i) as [->|]; done.
Qed.
End Ids.

(** ** States that look the same make the same transitions *)

Definition same_tab (t t' : tab) : Prop :=
  t_next t' = t_next t /\ t_init t' = t_init t /\ forall j, t_entry t' j = t_entry t j.
Lemma same_view s s' : same s s' -> same_tab (view s) (view s').
Proof. intros [H1 H2 H3]. by split. Qed.
Lemma change_same n p t t' : same_tab t t' -> change n p t t'.
Proof. intros (H1 & H2 & H3). by apply ch_none. Qed.
Lemma change_after n p t t' t2 : change n p t t' -> same_tab t' t2 -> change n p t t2.
Proof.
  intros Hc (En & Ei & Ee). destruct Hc as [Hn Hi He|Hs Hn Hi He|i Hs Hp Hf Hr Hn Hi He|Hs Hp Hpr Hn Hi He|i Hs Hc Hd Hn Hi He];
    [apply ch_none|apply ch_pid|apply (ch_fork _ _ _ _ i)|apply ch_exit|apply (ch_reap _ _ _ _ i)]; try done; try congruence;
    intros j; by rewrite Ee, He.
Qed.
