(* ===== verification/Lifecycle.v ===== *)
(** * The life of processes

    What fork, exit, wait and every other system call do to the process table:
    one transition of ProcTree.v at most.  Code that leaves the table alone is
    found by the instances of Still.v; this file treats the rest. *)
From stdpp Require Import base numbers list gmap strings relations.
From S2P Require Import Prelude Kernel Spinlock Sleeplock Str Riscv Kalloc Vm Bio Log Printf Kstate Proc Table Bcache Pipe Console Fs Dir File Fork Exec Sysfile Trap Still ProcTree.

#[local] Hint Constants Opaque : typeclass_instances.

(** ** Code that never gives up the CPU *)

Class Swift {S A} (m : K S A) : Prop := swift : forall c s, match m c s with Sleep _ _ _ => False | _ => True end.

Section Swift.
Context {S : Type}.
Lemma swift_bind {A B} (m : K S A) (k : A -> K S B) : Swift m -> (forall a, Swift (k a)) -> Swift (m ≫= k).
Proof. intros Hm Hk c s. specialize (Hm c s). unfold mbind, K_bind. destruct (m c s); try exact I; [apply Hk|exact Hm]. Qed.
#[global] Instance swift_ret {A} (a : A) : Swift (mret a : K S A). Proof. exact (fun c s => I). Qed.
#[global] Instance swift_panic {A} msg : Swift (panic msg : K S A). Proof. exact (fun c s => I). Qed.
#[global] Instance swift_spin {A} l : Swift (spin l : K S A). Proof. exact (fun c s => I). Qed.
#[global] Instance swift_nofuel {A} : Swift (nofuel : K S A). Proof. exact (fun c s => I). Qed.
#[global] Instance swift_gets {A} (f : S -> A) : Swift (gets f). Proof. exact (fun c s => I). Qed.
#[global] Instance swift_modify (f : S -> S) : Swift (modify f). Proof. exact (fun c s => I). Qed.
#[global] Instance swift_getc : Swift (getc : K S ctx). Proof. exact (fun c s => I). Qed.
#[global] Instance swift_modc f : Swift (modc f : K S unit). Proof. exact (fun c s => I). Qed.
#[global] Instance swift_emit e : Swift (emit e : K S unit). Proof. exact (fun c s => I). Qed.
#[global] Instance swift_kwhen b (m : K S unit) : Swift m -> Swift (kwhen b m).
Proof. intros Hm. destruct b; [exact Hm|exact (fun c s => I)]. Qed.
#[global] Instance swift_zoom {T A} (a : acc S T) (m : K T A) : Swift m -> Swift (zoom a m).
Proof. intros Hm c s. specialize (Hm c (aget a s)). unfold zoom. destruct (m c (aget a s)); (exact I || exact Hm). Qed.
End Swift.

Ltac swift_step :=
  match goal with
  | |- Swift (mbind _ _) => apply swift_bind; [|intros ?]
  | |- Swift (if ?b then _ else _) => destruct b
  | |- Swift (match ?x with _ => _ end) => destruct x
  | |- Swift (let _ := _ in _) => cbv zeta
  | |- Swift _ => apply _
  end.
Ltac swifts := repeat swift_step.

Section SwiftLocks.
Context {S : Type}.
#[global] Instance swift_lk_set l lk : Swift (lk_set l lk : K S unit).
Proof. unfold lk_set. swifts. Qed.
#[global] Instance swift_intr_get : Swift (intr_get : K S bool).
Proof. unfold intr_get. swifts. Qed.
#[global] Instance swift_intr_off : Swift (intr_off : K S unit).
Proof. unfold intr_off. swifts. Qed.
#[global] Instance swift_intr_on : Swift (intr_on : K S unit).
Proof. unfold intr_on. swifts. Qed.
#[global] Instance swift_push_off : Swift (push_off : K S unit).
Proof. unfold push_off. swifts. Qed.
#[global] Instance swift_pop_off : Swift (pop_off : K S unit).
Proof. unfold pop_off. swifts. Qed.
#[global] Instance swift_holding l : Swift (holding l : K S bool).
Proof. unfold holding. swifts. Qed.
#[global] Instance swift_acquire l : Swift (acquire l : K S unit).
Proof. unfold acquire. swifts. Qed.
#[global] Instance swift_release l : Swift (release l : K S unit).
Proof. unfold release. swifts. Qed.
#[global] Instance swift_myproc : Swift (myproc : K S Z).
Proof. unfold myproc. swifts. Qed.
#[global] Instance swift_wakeup ch : Swift (wakeup ch : K S unit).
Proof. unfold wakeup. swifts. Qed.
End SwiftLocks.
#[global] Instance swift_kfree e pa : Swift (kfree e pa).
Proof. unfold kfree. swifts. Qed.
#[global] Instance swift_kalloc : Swift (kalloc).
Proof. unfold kalloc. swifts. Qed.
#[global] Instance swift_ld64 a : Swift (ld64 a).
Proof. unfold ld64. swifts. Qed.
#[global] Instance swift_st64 a v : Swift (st64 a v).
Proof. unfold st64. swifts. Qed.
#[global] Instance swift_kmemset p c n : Swift (kmemset p c n).
Proof. unfold kmemset. swifts. Qed.
#[global] Instance swift_kmemmove d s n : Swift (kmemmove d s n).
Proof. unfold kmemmove. swifts. Qed.
#[global] Instance swift_walk_loop : forall n pt va al, Swift (walk_loop n pt va al).
Proof. induction n; intros; cbn [walk_loop]; swifts. Qed.
#[global] Instance swift_walk pt va al : Swift (walk pt va al).
Proof. unfold walk. swifts. Qed.
#[global] Instance swift_walkaddr pt va : Swift (walkaddr pt va).
Proof. unfold walkaddr. swifts. Qed.
#[global] Instance swift_mappages_loop : forall n pt a last pa perm, Swift (mappages_loop n pt a last pa perm).
Proof. induction n; intros; cbn [mappages_loop]; swifts. Qed.
#[global] Instance swift_mappages pt va sz pa perm : Swift (mappages pt va sz pa perm).
Proof. unfold mappages. swifts. Qed.
#[global] Instance swift_uvmcreate : Swift (uvmcreate).
Proof. unfold uvmcreate. swifts. Qed.
#[global] Instance swift_uvmunmap_loop : forall n e pt a stop fr, Swift (uvmunmap_loop e n pt a stop fr).
Proof. induction n; intros; cbn [uvmunmap_loop]; swifts. Qed.
#[global] Instance swift_uvmunmap e pt va n fr : Swift (uvmunmap e pt va n fr).
Proof. unfold uvmunmap. swifts. Qed.
#[global] Instance swift_freewalk_entries f n i pt : (forall a, Swift (f a)) -> Swift (freewalk_entries f n i pt).
Proof. intros Hf. revert i. induction n; intros; cbn [freewalk_entries]; swifts. Qed.
#[global] Instance swift_freewalk : forall n e pt, Swift (freewalk e n pt).
Proof. induction n; intros; cbn [freewalk]; swifts. Qed.
#[global] Instance swift_uvmfree e pt sz : Swift (uvmfree e pt sz).
Proof. unfold uvmfree. swifts. Qed.
#[global] Instance swift_uvmcopy_loop : forall n e o nw sz i, Swift (uvmcopy_loop e n o nw sz i).
Proof. induction n; intros; cbn [uvmcopy_loop]; swifts. Qed.
#[global] Instance swift_uvmcopy e o n sz : Swift (uvmcopy e o n sz).
Proof. unfold uvmcopy. swifts. Qed.
#[global] Instance swift_ismapped pt va : Swift (ismapped pt va).
Proof. unfold ismapped. swifts. Qed.
#[global] Instance swift_vmfault e a b pt va rd : Swift (vmfault e a b pt va rd).
Proof. unfold vmfault. swifts. Qed.
#[global] Instance swift_copyout_loop : forall n e a b pt d s len, Swift (copyout_loop e a b n pt d s len).
Proof. induction n; intros; cbn [copyout_loop]; swifts. Qed.
#[global] Instance swift_copyout e a b pt d s len : Swift (Vm.copyout e a b pt d s len).
Proof. unfold Vm.copyout. swifts. Qed.
#[global] Instance swift_gp i : Swift (gp i).
Proof. unfold gp. swifts. Qed.
#[global] Instance swift_up i f : Swift (up i f).
Proof. unfold up. swifts. Qed.
#[global] Instance swift_gf i : Swift (gf i).
Proof. unfold gf. swifts. Qed.
#[global] Instance swift_uf i f : Swift (uf i f).
Proof. unfold uf. swifts. Qed.
#[global] Instance swift_gi i : Swift (gi i).
Proof. unfold gi. swifts. Qed.
#[global] Instance swift_ui i f : Swift (ui i f).
Proof. unfold ui. swifts. Qed.
#[global] Instance swift_proc_pagetable e t tf : Swift (Proc.proc_pagetable e t tf).
Proof. unfold Proc.proc_pagetable. swifts. Qed.
#[global] Instance swift_proc_freepagetable e pt sz : Swift (proc_freepagetable e pt sz).
Proof. unfold proc_freepagetable. swifts. Qed.
#[global] Instance swift_ld_tf i f : Swift (ld_tf i f).
Proof. unfold ld_tf. swifts. Qed.
#[global] Instance swift_st_tf i f v : Swift (st_tf i f v).
Proof. unfold st_tf. swifts. Qed.
#[global] Instance swift_filedup f : Swift (filedup f).
Proof. unfold filedup. swifts. Qed.
#[global] Instance swift_idup ip : Swift (idup ip).
Proof. unfold idup. swifts. Qed.
#[global] Instance swift_dup_files : forall n i p np, Swift (dup_files n i p np).
Proof. induction n; intros; cbn [dup_files]; swifts. Qed.

(** ** What runs without a switch does to the table *)

Definition to {A} (P : ctx -> kst -> Prop) (m : K kst A) (Q : A -> ctx -> kst -> Prop) : Prop :=
  forall c s, P c s -> match m c s with Done a c' s' => Q a c' s' | Sleep _ _ _ => False | _ => True end.
(** The table is [t]; the table is [t] with an entry [i] in [phi]. *)
Definition looks (t : tab) : ctx -> kst -> Prop := fun _ s => same_tab t (view s).
Definition mid (t : tab) (i : Z) (phi : vit -> Prop) : ctx -> kst -> Prop := fun _ s =>
  t_next (view s) = t_next t /\ t_init (view s) = t_init t /\ (forall j, j <> i -> t_entry (view s) j = t_entry t j) /\
  phi (t_entry (view s) i).
#[global] Instance stable_looks t : Stable (looks t).
Proof. intros c s c' s' [H1 H2 H3] _ (E1 & E2 & E3). unfold looks, same_tab in *. cbn in *. split; [congruence|]. split; [congruence|]. intros j. by rewrite H3. Qed.
#[global] Instance stable_mid t i phi : Stable (mid t i phi).
Proof.
  intros c s c' s' [H1 H2 H3] _ (E1 & E2 & E3 & E4). unfold mid in *. cbn in *. rewrite H3. split; [congruence|]. split; [congruence|]. split; [|done].
  intros j Hj. rewrite H3. by apply E3.
Qed.
#[global] Instance stable_and P Q : Stable P -> Stable Q -> Stable (fun c s => P c s /\ Q c s).
Proof. intros HP HQ c s c' s' Hs Hc [H1 H2]. split; [by eapply HP|by eapply HQ]. Qed.

Lemma to_bind {A B} P (m : K kst A) Q (k : A -> K kst B) R : to P m Q -> (forall a, to (Q a) (k a) R) -> to P (m ≫= k) R.
Proof. intros Hm Hk c s Hc. specialize (Hm c s Hc). unfold mbind, K_bind. destruct (m c s); try done. by apply Hk. Qed.
Lemma to_still {A} P (m : K kst A) : Still m -> Swift m -> Stable P -> to P m (fun _ => P).
Proof.
  intros H1 H2 HP c s Hc. specialize (H1 c s). specialize (H2 c s). unfold still_at in H1. destruct (m c s); try done.
  destruct H1 as [H1 E1]. exact (HP _ _ _ _ H1 E1 Hc).
Qed.
Lemma to_conseq {A} (P P' : ctx -> kst -> Prop) (m : K kst A) (Q Q' : A -> ctx -> kst -> Prop) :
  to P' m Q' -> (forall c s, P c s -> P' c s) -> (forall a c s, Q' a c s -> Q a c s) -> to P m Q.
Proof. intros Hm HP HQ c s Hc. specialize (Hm c s (HP c s Hc)). destruct (m c s); try done. by apply HQ. Qed.
Lemma to_ret {A} (P : ctx -> kst -> Prop) (a : A) Q : (forall c s, P c s -> Q a c s) -> to P (mret a) Q.
Proof. intros HQ c s Hc. by apply HQ. Qed.
Lemma to_pure {A} (phi : Prop) P (m : K kst A) Q : (phi -> to P m Q) -> to (fun c s => phi /\ P c s) m Q.
Proof. intros Hm c s [Hp Hc]. by apply Hm. Qed.
Lemma to_gp {A} (P : ctx -> kst -> Prop) i (k : proc -> K kst A) R :
  (forall p, to (fun c s => P c s /\ has i (vitals p) c s) (k p) R) -> to P (gp i ≫= k) R.
Proof. intros Hk c s Hc. exact (Hk (proc_at s i) c s (conj Hc eq_refl)). Qed.
Lemma to_up t i f (phi psi : vit -> Prop) : (forall p, phi (vitals p) -> psi (vitals (f p))) -> to (mid t i phi) (up i f) (fun _ => mid t i psi).
Proof.
  intros Hf c s (E1 & E2 & E3 & E4). unfold up, modify. split; [done|]. split; [done|]. split.
  - intros j Hj. cbn. rewrite proc_at_upd, (proj2 (Z.eqb_neq i j)) by done. by apply E3.
  - cbn. rewrite proc_at_upd, Z.eqb_refl. by apply Hf.
Qed.

(** [to_stills] passes the code that leaves the table alone. *)
Tactic Notation "to_pass" "as" ident(x) := eapply to_bind; [apply to_still; [stills|swifts|apply _]|intros x; cbv beta].
Tactic Notation "to_pass" := let x := fresh "u" in to_pass as x.
(** The effect of a setter on an entry known in full. *)
Ltac vital_step := let q := fresh in let E := fresh in intros q E; unfold vitals, vit0 in *; simpl in *; injection E as ?E ?E ?E ?E ?E; repeat match goal with H : _ = _ |- _ => rewrite H end.
Ltac to_set psi := eapply to_bind; [apply (to_up _ _ _ _ psi)|intros ?; cbv beta].

(** *** allocproc and freeproc *)

Section Alloc.
Variables (e tr fk : Z).

Lemma freeproc_to t i : to (mid t i (fun _ => True)) (freeproc e i) (fun _ => mid t i (fun v => v = vit0)).
Proof.
  unfold freeproc. do 2 to_pass. to_set (fun v => (v_owns v).1 = false); [done|]. do 2 to_pass.
  to_set (fun v => v_owns v = (false, false)); [intros p E; simpl in *; by rewrite E|]. to_pass.
  to_set (fun v => v_owns v = (false, false) /\ v_pid v = 0); [done|].
  to_set (fun v => v_owns v = (false, false) /\ v_pid v = 0 /\ v_parent v = None); [by intros p [H1 H2]|]. do 4 to_pass.
  apply to_up. intros p (H1 & H2 & H3). unfold vitals in *. simpl in *. by rewrite H1, H2, H3.
Qed.

Lemma alloc_scan_to t n : forall i, to (looks t) (alloc_scan n i) (fun r c s => looks t c s /\
  match r with Some j => i <= j < i + Z.of_nat n /\ ~ used t j /\ forall k, i <= k < j -> used t k | None => True end).
Proof.
  induction n as [|n IH]; intros i; cbn [alloc_scan]; [by apply to_ret|]. to_pass. apply to_gp. intros p.
  destruct (decide (p_state p = UNUSED)) as [E|E].
  - apply to_ret. intros c s [Hl Hh]. split; [done|]. split; [lia|]. destruct Hl as (_ & _ & Hl). unfold used. rewrite <- Hl.
    change (t_entry (view s) i) with (vitals (proc_at s i)). rewrite Hh. unfold vitals. simpl. rewrite E. split; [tauto|lia].
  - apply (to_conseq _ (fun c s => used t i /\ looks t c s) _ _ (fun r c s => looks t c s /\
      match r with Some j => i <= j < i + Z.of_nat (S n) /\ ~ used t j /\ forall k, i <= k < j -> used t k | None => True end)); [| |done].
    2: { intros c s [Hl Hh]. split; [|done]. destruct Hl as (_ & _ & Hl). unfold used. rewrite <- Hl.
      change (t_entry (view s) i) with (vitals (proc_at s i)). rewrite Hh. unfold vitals. simpl. by destruct (p_state p). }
    apply to_pure. intros Hi. to_pass. eapply to_conseq; [apply IH|by intros c s H; exact H|]. intros r c s [Hl Hr]. split; [done|].
    destruct r as [j|]; [|done]. destruct Hr as (H1 & H2 & H3). split; [lia|]. split; [done|]. intros k Hk. destruct (decide (k = i)) as [->|]; [done|]. apply H3. lia.
Qed.

(** The entry allocproc takes. *)
Definition first_free (t : tab) (i : Z) : Prop := 0 <= i < NPROC /\ ~ used t i /\ forall k, 0 <= k < i -> used t k.
Definition bump (t : tab) : tab := Tab (next_pid t) (t_init t) (t_entry t).
Lemma allocpid_to t : to (looks t) allocpid (fun pid c s => pid = t_next t /\ looks (bump t) c s).
Proof.
  unfold allocpid. to_pass. intros c s (E1 & E2 & E3). cbn in E1. krun.
  assert (looks (bump t) c (set_knextpid s (i32 (k_nextpid s + 1)))) as Hl.
  { split; [cbn; by rewrite E1|]. by split. }
  pose proof (to_still (looks (bump t)) (release L_pid) _ _ _ c _ Hl) as Hr.
  destruct (release L_pid c (set_knextpid s (i32 (k_nextpid s + 1)))); try done.
Qed.

(** Entries that are not in use hold nothing. *)
Definition clean (t : tab) : Prop := forall i, ~ used t i -> t_entry t i = vit0.
Lemma looks_mid t i c s : clean t -> ~ used t i -> looks (bump t) c s -> mid (bump t) i (fun v => v = vit0) c s.
Proof. intros Hok Hi (E1 & E2 & E3). split; [done|]. split; [done|]. split; [intros j _; apply E3|]. rewrite E3. by apply Hok. Qed.
Lemma mid_looks t i c s : clean t -> ~ used t i -> mid (bump t) i (fun v => v = vit0) c s -> looks (bump t) c s.
Proof.
  intros Hok Hi (E1 & E2 & E3 & E4). split; [done|]. split; [done|]. intros j. destruct (decide (j = i)) as [->|Hj]; [|by apply E3].
  rewrite E4. symmetry. by apply Hok.
Qed.
(** The error exits of allocproc and fork. *)
Lemma undo_to {A} t i (a : A) : clean t -> ~ used t i -> to (mid (bump t) i (fun _ => True)) (freeproc e i;; release (L_proc i);; mret a)
  (fun r c s => r = a /\ looks (bump t) c s).
Proof.
  intros Hok Hi. eapply to_bind; [apply freeproc_to|]. intros ?. cbv beta. to_pass. apply to_ret. intros c s Hm. split; [done|]. by eapply mid_looks.
Qed.

Lemma allocproc_to t : clean t -> to (looks t) (allocproc e tr fk) (fun r c s =>
  match r with
  | Some i => first_free t i /\ mid (bump t) i (fun v => v = embryo_of t) c s
  | None => looks t c s \/ looks (bump t) c s
  end).
Proof.
  intros Hok. unfold allocproc. eapply to_bind; [apply alloc_scan_to|]. intros [i|]; cbv beta.
  2: { apply to_ret. intros c s [Hl _]. by left. }
  eapply to_conseq with (P' := fun c s => first_free t i /\ looks t c s); [|intros c s [H1 H2]; split; [exact H2|done]|intros r c s H; exact H].
  apply to_pure. intros Hfirst. pose proof Hfirst as (Hi & Hu & _). eapply to_bind; [apply allocpid_to|]. intros pid. cbv beta. apply to_pure. intros ->.
  eapply to_conseq with (P' := mid (bump t) i (fun v => v = vit0)); [|by intros c s; apply looks_mid|intros r c s H; exact H].
  to_set (fun v => v = Vit Free (t_next t) None (false, false)); [by vital_step|].
  to_set (fun v => v = Vit Embryo (t_next t) None (false, false)); [by vital_step|].
  to_pass as tf. to_set (fun v => v = Vit Embryo (t_next t) None (z2b tf, false)); [by vital_step|].
  assert (forall phi, to (mid (bump t) i phi) (freeproc e i;; release (L_proc i);; mret None) (fun r c s =>
    match r with
    | Some j => first_free t j /\ mid (bump t) j (fun v => v = embryo_of t) c s
    | None => looks t c s \/ looks (bump t) c s
    end)) as Hundo.
  { intros phi. eapply to_conseq; [by apply (undo_to t i None)|by intros c s (? & ? & ? & _)|]. intros r c s [-> Hl]. by right. }
  destruct (Z.eqb_spec tf 0) as [->|Htf]; [apply Hundo|]. to_pass as pt.
  to_set (fun v => v = Vit Embryo (t_next t) None (z2b tf, z2b pt)); [by vital_step|].
  destruct (Z.eqb_spec pt 0) as [->|Hpt]; [apply Hundo|]. to_pass. apply to_ret. intros c s Hm. split; [done|].
  assert (z2b tf = true) as E1 by (by destruct tf). assert (z2b pt = true) as E2 by (by destruct pt). by rewrite E1, E2 in Hm.
Qed.
End Alloc.

(** ** fork *)

Lemma to_myproc {A} (P : ctx -> kst -> Prop) p (k : Z -> K kst A) R : Stable P -> (forall c s, P c s -> curproc c = p) -> to P (k p) R -> to P (myproc ≫= k) R.
Proof.
  intros HP Hp Hk c s Hc. pose proof (swift_myproc c s) as Hs. unfold mbind, K_bind. destruct (myproc c s) as [i c' s'| | | |] eqn:E; try done.
  apply myproc_curproc in E as (-> & -> & Ec). rewrite (Hp c s Hc). apply Hk. by apply (HP c s c' s); [apply same_refl| |].
Qed.

Section Calls.
Context {D : DiskDriver} `{!DiskDriverOk D} (L : layout).
Variables (F : forks) (t : tab) (p : Z).
Hypotheses (Hok : tree_ok F t) (Halive : alive t p).

(** Process [p] runs, and the table is [t]. *)
Definition in_call : ctx -> kst -> Prop := fun c s => looks t c s /\ runs p c s.
#[local] Instance stable_in_call : Stable in_call. Proof. unfold in_call. apply _. Qed.

(** The three parts of fork: the first fails and at most uses up a pid, or makes
    the entry of the child. *)
Definition conceived (r : option (Z * Z)) (s : kst) : Prop :=
  match r with
  | None => same_tab t (view s) \/ same_tab (bump t) (view s)
  | Some (np, pid) => pid = t_next t /\ first_free t np /\ begins p np t (view s)
  end.
Lemma fork_new_mid : to (looks t) (fork_new L p) (fun r c s =>
  match r with
  | None => same_tab t (view s) \/ same_tab (bump t) (view s)
  | Some (np, pid) => pid = t_next t /\ first_free t np /\ mid (bump t) np (fun v => v = embryo_of t) c s
  end).
Proof.
  pose proof (tk_free F t Hok) as Hcl. unfold fork_new.
  eapply to_bind; [apply (allocproc_to (l_end L) (l_trampoline L) (l_forkret L) t Hcl)|].
  intros [np|]; cbv beta; [|apply to_ret; intros c s H; exact H].
  apply to_pure. intros Hfirst. pose proof Hfirst as (_ & Hu & _). to_pass as x. to_pass as y. to_pass as r. destruct (r <? 0).
  { eapply to_conseq; [by apply (undo_to (l_end L) t np)|by intros c s (? & ? & ? & _)|]. intros a c s (-> & H1). by right. }
  do 7 to_pass. apply to_gp. intros z. cbv zeta.
  eapply to_conseq with (P' := fun c s => p_pid z = t_next t /\ mid (bump t) np (fun v => v = embryo_of t) c s); [| |intros a c s H; exact H].
  2: { intros c s [H Hh]. split; [|done]. destruct H as (_ & _ & _ & H). unfold has in Hh. cbn in H. rewrite Hh in H. unfold vitals in H. by injection H. }
  apply to_pure. intros ->. to_pass. by apply to_ret.
Qed.
Lemma mid_begins np c s : first_free t np -> mid (bump t) np (fun v => v = embryo_of t) c s -> begins p np t (view s).
Proof.
  intros (Hi & Hu & _) (H1 & H2 & H3 & H4). split; [done|done|done|done|done|]. intros j. unfold but.
  destruct (Z.eqb_spec j np) as [->|Hj]; [done|]. by apply H3.
Qed.
Lemma fork_new_to : to (looks t) (fork_new L p) (fun r _ s => conceived r s).
Proof.
  eapply to_conseq; [exact fork_new_mid|done|]. intros [[np pid]|] c s; [|done]. intros (H1 & H2 & H3). split; [done|]. split; [done|].
  by eapply mid_begins.
Qed.
End Calls.

Section Parts.
Variables (t : tab) (p np q : Z).
(** The other two parts change only the child's entry. *)
Lemma fork_parent_to pr : to (mid t np (fun v => v = Vit Embryo q pr (true, true))) (fork_parent p np)
  (fun _ => mid t np (fun v => v = Vit Embryo q (Some p) (true, true))).
Proof.
  unfold fork_parent. to_pass. to_set (fun v => v = Vit Embryo q (Some p) (true, true)); [by vital_step|].
  apply to_still; [stills|swifts|apply _].
Qed.
Lemma fork_start_to : to (mid t np (fun v => v = Vit Embryo q (Some p) (true, true))) (fork_start np)
  (fun _ => mid t np (fun v => v = Vit Alive q (Some p) (true, true))).
Proof.
  unfold fork_start. to_pass. to_set (fun v => v = Vit Alive q (Some p) (true, true)); [by vital_step|].
  apply to_still; [stills|swifts|apply _].
Qed.
Lemma mid_but v c s : mid t np (fun w => w = v) c s -> t_next (view s) = t_next t /\ t_init (view s) = t_init t /\
  forall j, t_entry (view s) j = but t np v j.
Proof.
  intros (H1 & H2 & H3 & H4). split; [done|]. split; [done|]. intros j. unfold but. destruct (Z.eqb_spec j np) as [->|Hj]; [done|]. by apply H3.
Qed.
End Parts.

Section Calls.
Context {D : DiskDriver} `{!DiskDriverOk D} (L : layout).
Variables (F : forks) (t : tab) (p : Z).
Hypotheses (Hok : tree_ok F t) (Halive : alive t p).
#[local] Existing Instance stable_in_call.
Notation in_call := (in_call t p).

(** fork fails and at most uses up a pid, or it returns the pid of the new
    child of [p]. *)
Definition forked (r : Z) (s : kst) : Prop :=
  r = -1 /\ (same_tab t (view s) \/ same_tab (bump t) (view s)) \/
  r = t_next t /\ exists i, first_free t i /\ same_tab (Tab (next_pid t) (t_init t) (but t i (child_vit t p))) (view s).
Lemma kfork_to : to in_call (kfork L) (fun r _ s => forked r s).
Proof.
  unfold kfork. apply (to_myproc _ p); [apply _|by intros c s (_ & E & _)|].
  eapply to_bind; [eapply to_conseq; [apply (fork_new_mid L F t p Hok)|by intros c s []|intros r c s H; exact H]|].
  intros [[np pid]|]; cbv beta; [|apply to_ret; intros c s H; by left].
  apply to_pure. intros ->. apply to_pure. intros Hfirst.
  eapply to_bind; [apply (fork_parent_to _ p)|]. intros ?. cbv beta. eapply to_bind; [apply fork_start_to|]. intros ?. cbv beta.
  apply to_ret. intros c s (H1 & H2 & H3)%mid_but. right. split; [done|]. exists np. split; [done|]. split; [done|]. split; [done|].
  intros j. rewrite H3. unfold but. simpl. by destruct (j =? np).
Qed.
Lemma forked_change r s : forked r s -> change SYS_fork p t (view s).
Proof.
  intros [[_ [(H1 & H2 & H3)|(H1 & H2 & H3)]]|(_ & i & (Hi & Hu & _) & H1 & H2 & H3)];
    [by apply ch_none|by apply ch_pid|by apply (ch_fork _ _ _ _ i)].
Qed.

(** ** Computations that may sleep

    When [m] returns or sleeps, the table has made at most one transition, which
    is one of system call [n] of [p]. *)
Definition lifts {A} (n : Z) (P : ctx -> kst -> Prop) (m : K kst A) : Prop := forall c s, P c s ->
  match m c s with Done _ _ s' | Sleep _ _ s' => change n p t (view s') | _ => True end.

Lemma lifts_bind {A B} n P (m : K kst A) (k : A -> K kst B) : Still m -> Stable P -> (forall c s, P c s -> looks t c s) ->
  (forall a, lifts n P (k a)) -> lifts n P (m ≫= k).
Proof.
  intros Hm HP Hl Hk c s Hc. specialize (Hm c s). unfold still_at, mbind, K_bind in *. destruct (m c s) as [a c1 s1| |l|ch c1 s1|]; try exact I.
  - destruct Hm as [H1 E1]. apply Hk. exact (HP _ _ _ _ H1 E1 Hc).
  - destruct Hm as [H1 E1]. destruct (Hl _ _ (HP _ _ _ _ H1 E1 Hc)) as (? & ? & ?). by apply ch_none.
Qed.
Lemma lifts_then {A B} n P (m : K kst A) (k : A -> K kst B) : lifts n P m -> (forall a, Still (k a)) -> lifts n P (m ≫= k).
Proof.
  intros Hm Hk c s Hc. specialize (Hm c s Hc). unfold mbind, K_bind. destruct (m c s) as [a c1 s1| | | |]; try done.
  specialize (Hk a c1 s1). unfold still_at in Hk. destruct (k a c1 s1); try exact I; (eapply change_after; [exact Hm|]; by apply same_view, Hk).
Qed.
Lemma lifts_still {A} n P (m : K kst A) : Still m -> Stable P -> (forall c s, P c s -> change n p t (view s)) -> lifts n P m.
Proof.
  intros Hm HP Hl c s Hc. specialize (Hm c s). unfold still_at in Hm. destruct (m c s); try exact I; destruct Hm as [H1 E1];
    by eapply Hl, (HP _ _ _ _ H1 E1).
Qed.
Lemma lifts_to {A} n P (m : K kst A) : to P m (fun _ _ s => change n p t (view s)) -> lifts n P m.
Proof. intros Hm c s Hc. specialize (Hm c s Hc). destruct (m c s); try exact I; [exact Hm|done]. Qed.
Lemma lifts_conseq {A} n (P P' : ctx -> kst -> Prop) (m : K kst A) : lifts n P' m -> (forall c s, P c s -> P' c s) -> lifts n P m.
Proof. intros Hm HP c s Hc. by apply Hm, HP. Qed.
Lemma lifts_after {A B} n P (m : K kst A) Q (k : A -> K kst B) : to P m Q -> (forall a, lifts n (Q a) (k a)) -> lifts n P (m ≫= k).
Proof. intros Hm Hk c s Hc. specialize (Hm c s Hc). unfold mbind, K_bind. destruct (m c s); try done. by apply Hk. Qed.
Lemma looks_none n c s : looks t c s -> change n p t (view s).
Proof. intros (? & ? & ?). by apply ch_none. Qed.

(** ** wait *)

Lemma lifts_gp {A} n P i (k : proc -> K kst A) : (forall q, lifts n (fun c s => P c s /\ has i (vitals q) c s) (k q)) -> lifts n P (gp i ≫= k).
Proof. intros Hk c s Hc. exact (Hk (proc_at s i) c s (conj Hc eq_refl)). Qed.
Lemma looks_here i c s : looks t c s -> mid t i (fun v => v = t_entry t i) c s.
Proof. intros (E1 & E2 & E3). split; [done|]. split; [done|]. split; [intros j _; apply E3|apply E3]. Qed.

Lemma lifts_myproc {A} n (k : Z -> K kst A) : lifts n in_call (k p) -> lifts n in_call (myproc ≫= k).
Proof.
  intros Hk c s Hc. pose proof (swift_myproc c s) as Hs. unfold mbind, K_bind. destruct (myproc c s) as [i c' s'| | | |] eqn:E; try done.
  apply myproc_curproc in E as (-> & -> & Ec). destruct Hc as [Hl [Hp Hr]]. rewrite Hp. apply Hk. split; [done|]. split; [congruence|done].
Qed.
Lemma lifts_pure {A} n (phi : Prop) P (m : K kst A) : (phi -> lifts n P m) -> lifts n (fun c s => phi /\ P c s) m.
Proof. intros Hm c s [Hp Hc]. by apply Hm. Qed.

Lemma wait_scan_lifts e xa n : forall i addr hk, lifts SYS_wait (looks t) (wait_scan e xa n i p addr hk).
Proof.
  induction n as [|n IH]; intros i addr hk; cbn [wait_scan].
  { apply lifts_still; [apply _|apply _|by apply looks_none]. }
  apply lifts_gp. intros pp. case_bool_decide as Epp; [|eapply lifts_conseq; [apply IH|by intros c s []]].
  eapply lifts_conseq with (P' := fun c s => child_of t i p /\ looks t c s).
  2: { intros c s [Hl Hh]. split; [|done]. destruct Hl as (_ & _ & Hl). unfold child_of. rewrite <- Hl.
    change (t_entry (view s) i) with (vitals (proc_at s i)). by rewrite Hh. }
  apply lifts_pure. intros Hchild. apply lifts_bind; [apply _|apply _|done|]. intros _. apply lifts_gp. intros q'.
  destruct (decide (p_state q' = ZOMBIE)) as [Ez|_].
  2: { eapply lifts_conseq; [|by intros c s [H _]; exact H]. apply lifts_bind; [apply _|apply _|done|]. intros _. apply IH. }
  cbv zeta. apply lifts_bind; [apply _|apply _|by intros c s []|]. intros me. apply lifts_bind; [stills|apply _|by intros c s []|]. intros r.
  destruct (r <? 0); [apply lifts_still; [stills|apply _|by intros c s [H _]; eapply looks_none]|].
  apply lifts_to. intros c s [Hl Hh].
  assert (v_stage (t_entry t i) = Dead) as Hd.
  { destruct Hl as (_ & _ & Hl). rewrite <- Hl. change (t_entry (view s) i) with (vitals (proc_at s i)). rewrite Hh. unfold vitals. simpl. by rewrite Ez. }
  revert c s Hl Hh. enough (to (mid t i (fun _ => True)) (freeproc e i;; release (L_proc i);; release L_wait;; mret (inl (p_pid q') : Z + bool))
    (fun _ _ s => change SYS_wait p t (view s))) as Hto.
  { intros c s Hl _. apply Hto. apply (looks_here i) in Hl as (H1 & H2 & H3 & _). by split. }
  eapply to_bind; [apply freeproc_to|]. intros ?. cbv beta. do 2 to_pass. apply to_ret. intros c s (H1 & H2 & H3 & H4).
  apply (ch_reap _ _ _ _ i); try done. intros j. unfold but. destruct (Z.eqb_spec j i) as [->|Hj]; [done|]. by apply H3.
Qed.
Lemma kwait_lifts e xa addr : lifts SYS_wait in_call (kwait e xa addr).
Proof.
  unfold kwait. apply lifts_myproc. apply lifts_bind; [apply _|apply _|by intros c s []|]. intros _.
  apply lifts_then; [|intros; stills]. eapply lifts_conseq; [apply wait_scan_lifts|by intros c s []].
Qed.

(** ** exit *)

(** The table once init has taken the children of [p]. *)
Definition orphaned : tab := Tab (t_next t) (t_init t) (fun j =>
  let v := t_entry t j in if bool_decide (v_parent v = Some p) then Vit (v_stage v) (v_pid v) (Some (t_init t)) (v_owns v) else v).
Lemma vitals_adopt q ini x : vitals (adopt q ini x) =
  let v := vitals x in if bool_decide (v_parent v = Some q) then Vit (v_stage v) (v_pid v) (Some ini) (v_owns v) else v.
Proof. unfold adopt, vitals. simpl. by destruct (bool_decide _). Qed.
Lemma reparent_to : to (looks t) (reparent p) (fun _ => looks orphaned).
Proof.
  intros c s (E1 & E2 & E3). unfold reparent.
  destruct (reparent_loop_spec p (k_initproc s) (Z.to_nat NPROC) 0 c s) as (ev & s' & E & [T1 T2]); [done|lia|done|].
  rewrite E. cbn in E1, E2, E3. split; [cbn; rewrite T2; exact E1|]. split; [cbn; rewrite T2; exact E2|]. intros j. cbn.
  rewrite T1. destruct ((0 <=? j) && (j <? 0 + Z.of_nat (Z.to_nat NPROC))) eqn:Ej; [by rewrite vitals_adopt, E2, E3|].
  rewrite in_table in Ej. rewrite E3. assert (~ used t j) as Hj.
  { intros Hj. apply (tk_range F t Hok) in Hj. apply andb_false_iff in Ej as [Ej%Z.leb_gt|Ej%Z.ltb_ge]; lia. }
  rewrite (tk_free F t Hok j Hj). done.
Qed.
Lemma exit_table_lifts {A} status : p <> t_init t -> lifts SYS_exit (looks t) (exit_table p status : K kst A).
Proof.
  intros Hpr. unfold exit_table. apply lifts_bind; [apply _|apply _|done|]. intros _. eapply lifts_after; [apply reparent_to|]. intros ?. cbv beta.
  pose (v := Vit Dead (pid_of t p) (v_parent (t_entry t p)) (v_owns (t_entry t p))).
  assert (forall c s, looks orphaned c s -> mid orphaned p (fun w => w = t_entry t p) c s) as Hl.
  { intros c s (E1 & E2 & E3). split; [done|]. split; [done|]. split; [intros j _; apply E3|]. rewrite E3. cbn.
    case_bool_decide as E; [|done]. by destruct (not_own_parent F t Hok p Halive). }
  eapply lifts_conseq; [|exact Hl]. eapply lifts_after; [apply to_still; [apply _|apply _|apply _]|]. intros x. cbv beta.
  eapply lifts_after; [apply to_still; [stills|swifts|apply _]|]. intros ?. cbv beta.
  eapply lifts_after; [apply to_still; [stills|swifts|apply _]|]. intros ?. cbv beta.
  eapply lifts_after; [apply to_still; [stills|swifts|apply _]|]. intros ?. cbv beta.
  eapply lifts_after; [apply (to_up _ _ _ _ (fun w => w = v))|]. { intros q E. unfold v, pid_of. rewrite <- E. done. }
  intros ?. cbv beta. apply lifts_still; [stills|apply _|]. intros c s (E1 & E2 & E3 & E4). apply ch_exit; try done.
  intros j. unfold bereft. destruct (Z.eqb_spec j p) as [->|Hj]; [exact E4|]. by apply E3.
Qed.
Lemma lifts_init {A} n P (k : Z -> K kst A) : (forall c s, P c s -> looks t c s) -> lifts n P (k (t_init t)) -> lifts n P (gets k_initproc ≫= k).
Proof. intros Hl Hk c s Hc. specialize (Hk c s Hc). destruct (Hl c s Hc) as (_ & E & _). cbn in E. krun. by rewrite E. Qed.
Lemma kexit_lifts {A} status : lifts SYS_exit in_call (kexit L status : K kst A).
Proof.
  assert (forall c s, in_call c s -> looks t c s) as Hl by by intros c s [].
  unfold kexit. apply lifts_myproc. apply lifts_init; [done|]. destruct (Z.eqb_spec p (t_init t)) as [_|Hpr].
  - intros c s _. exact I.
  - do 7 (apply lifts_bind; [stills|apply _|done|]; intros ?). eapply lifts_conseq; [by apply exit_table_lifts|done].
Qed.

(** ** Every system call *)

Lemma lifts_running {A} n (m : K kst A) : still_if running m -> lifts n in_call m.
Proof.
  intros Hm c s [Hl Hr]. assert (running c s) as Hrun by (destruct Hr as [E Hr]; split; [done|by rewrite E]).
  specialize (Hm c s Hrun). unfold still_at in Hm. destruct (m c s); try exact I; (eapply change_after; [by eapply looks_none|]; by apply same_view, Hm).
Qed.
Lemma lifts_call {A} n (m : K kst A) : Still m -> lifts n in_call m.
Proof. intros Hm. apply lifts_still; [done|apply _|]. intros c s [Hl _]. by eapply looks_none. Qed.

#[local] Instance still_sys_getpid : Still sys_getpid. Proof. unfold sys_getpid. stills. Qed.
#[local] Instance still_sys_sbrk : Still (sys_sbrk L). Proof. unfold sys_sbrk. stills. Qed.
#[local] Instance still_pause_loop t0 n : Still (pause_loop t0 n). Proof. unfold pause_loop. stills. Qed.
#[local] Instance still_sys_pause : Still sys_pause. Proof. unfold sys_pause. stills. Qed.
#[local] Instance still_sys_kill : Still sys_kill. Proof. unfold sys_kill. stills. Qed.
#[local] Instance still_sys_uptime : Still sys_uptime. Proof. unfold sys_uptime. stills. Qed.
Lemma sys_exit_lifts : lifts SYS_exit in_call (sys_exit L).
Proof. unfold sys_exit. apply lifts_bind; [apply _|apply _|by intros c s []|]. intros n. apply kexit_lifts. Qed.
Lemma sys_fork_lifts : lifts SYS_fork in_call (sys_fork L).
Proof. apply lifts_to. eapply to_conseq; [apply kfork_to|done|intros r c s; apply forked_change]. Qed.
Lemma sys_wait_lifts : lifts SYS_wait in_call (sys_wait L).
Proof. unfold sys_wait. apply lifts_bind; [apply _|apply _|by intros c s []|]. intros a. apply kwait_lifts. Qed.

Lemma syscalls_lifts num f : syscalls L num = Some f -> lifts num in_call f.
Proof.
  unfold syscalls. intros E. repeat match type of E with match ?x with _ => _ end = _ => destruct x; try discriminate E end;
    injection E as <-; try (apply lifts_call; apply _).
  all: first [apply sys_exit_lifts|apply sys_fork_lifts|apply sys_wait_lifts|apply lifts_running, sys_exec_running].
Qed.
(** The number a process left in a7 of its trapframe. *)
Definition call_number (i : Z) (s : kst) : Z := i32 (load64 (memory (k_mem s)) (p_trapframe (proc_at s i) + tf_a7)).
Lemma lifts_number (k : Z -> Z -> K kst unit) : (forall a7, lifts (i32 a7) in_call (k p a7)) -> forall num,
  lifts num (fun c s => in_call c s /\ call_number p s = num) (i ← myproc; a7 ← ld_tf i tf_a7; k i a7).
Proof.
  intros Hk num c s [Hc <-]. pose proof (swift_myproc c s) as Hs. unfold mbind at 1, K_bind at 1.
  destruct (myproc c s) as [i c' s'| | | |] eqn:E; try done. apply myproc_curproc in E as (-> & -> & Ec).
  pose proof Hc as [Hl [Hp Hr]]. rewrite Hp.
  assert (ld_tf p tf_a7 c' s = Done (load64 (memory (k_mem s)) (p_trapframe (proc_at s p) + tf_a7)) c' s) as Ea by by destruct s.
  unfold mbind, K_bind. rewrite Ea. apply Hk. split; [done|]. split; [congruence|done].
Qed.
Lemma syscall_lifts num : lifts num (fun c s => in_call c s /\ call_number p s = num) (syscall L).
Proof.
  apply (lifts_number (fun i a7 => match syscalls L (i32 a7) with Some f => r ← f; st_tf i tf_a0 r | None => _ end)). intros a7. cbv zeta. destruct (syscalls L (i32 a7)) as [f|] eqn:E; [|apply lifts_call; stills].
  apply lifts_then; [by eapply syscalls_lifts|intros; stills].
Qed.
End Calls.

(** ** Steps of the kernel *)

(** The state a computation leaves when it returns or gives up the CPU. *)
Definition left_by {A} (o : outcome kst A) : option kst :=
  match o with Done _ _ s | Sleep _ _ s => Some s | _ => None end.
(** The CPU runs a process. *)
Definition on_cpu (c : ctx) (s : kst) : Prop := p_state (proc_at s (curproc c)) = RUNNING.

(** The kernel, with the processes that are inside fork. *)
Abbreviation sys := (kst * forks)%type.

(** A step is what a process does between two points where another may see the
    table.  The parts of fork are steps of their own, for kfork gives up all
    locks between them and can be preempted there; a process that has begun a
    fork makes only the other parts of it, and gives up the CPU.  The rest: a
    system call from its start (fork without preemption included); what exit,
    exec and wait still do when they go on after having slept, and code that
    leaves the table alone (the rest of the other calls, wakeup, interrupt
    handlers); exit of a killed process; a process that gives up the CPU; the
    scheduler. *)
Inductive kernel_step {D : DiskDriver} (L : layout) : sys -> sys -> Prop :=
  | k_syscall c s s' F : on_cpu c s -> F !! curproc c = None -> left_by (syscall L c s) = Some s' -> kernel_step L (s, F) (s', F)
  | k_fork_new c s c' s' F r : on_cpu c s -> F !! curproc c = None -> fork_new L (curproc c) c s = Done r c' s' ->
      kernel_step L (s, F) (s', match r with Some (np, _) => <[curproc c := (np, false)]> F | None => F end)
  | k_fork_parent c s c' s' F np : on_cpu c s -> F !! curproc c = Some (np, false) ->
      fork_parent (curproc c) np c s = Done tt c' s' -> kernel_step L (s, F) (s', <[curproc c := (np, true)]> F)
  | k_fork_start c s c' s' F np : on_cpu c s -> F !! curproc c = Some (np, true) ->
      fork_start np c s = Done tt c' s' -> kernel_step L (s, F) (s', delete (curproc c) F)
  | k_exit c s s' F status : on_cpu c s -> F !! curproc c = None ->
      left_by (kexit L status c s : outcome kst unit) = Some s' -> kernel_step L (s, F) (s', F)
  | k_exit_rest c s s' F status : on_cpu c s -> F !! curproc c = None -> curproc c <> k_initproc s ->
      left_by (exit_table (curproc c) status c s : outcome kst unit) = Some s' -> kernel_step L (s, F) (s', F)
  | k_exec_rest c s s' F path argv pt sz entry : on_cpu c s -> F !! curproc c = None -> pt <> 0 ->
      left_by (exec_stack L path argv (curproc c) pt sz entry c s) = Some s' -> kernel_step L (s, F) (s', F)
  | k_wait c s s' F addr : on_cpu c s -> F !! curproc c = None ->
      left_by (kwait (l_end L) (l_xstate L) addr c s) = Some s' -> kernel_step L (s, F) (s', F)
  | k_yield c s s' F : on_cpu c s -> left_by (yield c s) = Some s' -> kernel_step L (s, F) (s', F)
  | k_sleep c s s' F ch lk : on_cpu c s -> left_by (sleep_on ch lk c s : outcome kst unit) = Some s' -> kernel_step L (s, F) (s', F)
  | k_schedule c s s' F : left_by (scheduler_round c s) = Some s' -> kernel_step L (s, F) (s', F)
  | k_resume c s s' F i : left_by (scheduler_resume i c s) = Some s' -> kernel_step L (s, F) (s', F)
  | k_still A (m : K kst A) c s s' F : Still m -> left_by (m c s) = Some s' -> kernel_step L (s, F) (s', F).

Lemma scheduler_scan_same n : forall i c s s', left_by (scheduler_scan n i c s) = Some s' -> same s s'.
Proof.
  induction n as [|n IH]; intros i c s s'; cbn [scheduler_scan]; [by intros [= <-]|].
  pose proof (still_acquire (L_proc i) c s) as H1. unfold still_at in H1. unfold mbind at 1, K_bind at 1.
  destruct (acquire (L_proc i) c s) as [u c1 s1| | |ch c1 s1|]; try discriminate; destruct H1 as [H1 _].
  2: by intros [= <-].
  unfold gp. krun. destruct (decide (p_state (proc_at s1 i) = RUNNABLE)) as [E|E].
  - intros [= <-]. eapply same_trans; [exact H1|].
    refine (proj1 (up_alive i (fun p => set_pstate p RUNNING) (vitals (proc_at s1 i)) _ _ c1 s1 eq_refl)).
    + unfold vitals. simpl. by rewrite E.
    + intros q Hq. unfold vitals. simpl. by rewrite Hq.
  - pose proof (still_release (L_proc i) c1 s1) as H2. unfold still_at in H2.
    destruct (release (L_proc i) c1 s1) as [u' c2 s2| | |ch c2 s2|]; try discriminate; destruct H2 as [H2 _].
    + intros Hs. eapply same_trans; [exact H1|]. eapply same_trans; [exact H2|]. by eapply IH.
    + intros [= <-]. by eapply same_trans.
Qed.

Lemma still_left {A} (m : K kst A) c s s' : Still m -> left_by (m c s) = Some s' -> same s s'.
Proof. intros Hm. specialize (Hm c s). unfold still_at in Hm. destruct (m c s); try discriminate; intros [= <-]; apply Hm. Qed.
Lemma scheduler_round_same c s s' : left_by (scheduler_round c s) = Some s' -> same s s'.
Proof. unfold scheduler_round, intr_on, intr_off. krun. apply scheduler_scan_same. Qed.
Lemma scheduler_resume_same i c s s' : left_by (scheduler_resume i c s) = Some s' -> same s s'.
Proof.
  unfold scheduler_resume, scheduler_back. krun. pose proof (still_release (L_proc i) (set_curproc (-1) 0 c) s) as H2. unfold still_at in H2.
  destruct (release (L_proc i) (set_curproc (-1) 0 c) s) as [u' c2 s2| | |ch c2 s2|]; try discriminate; destruct H2 as [H2 _].
  - intros Hs. eapply same_trans; [exact H2|]. by eapply scheduler_scan_same.
  - by intros [= <-].
Qed.

Section Steps.
Context {D : DiskDriver} `{!DiskDriverOk D} (L : layout).

Lemma on_cpu_runs F c s : tree_ok F (view s) -> on_cpu c s -> alive (view s) (curproc c) /\ in_call (view s) (curproc c) c s.
Proof.
  intros Hok Hc. assert (alive (view s) (curproc c)) as Ha by (unfold alive; cbn; by rewrite Hc). split; [done|]. split; [done|]. split; [done|].
  pose proof (tk_owns _ _ Hok _ (used_alive _ _ Ha)) as Ho. cbn in Ho. exists (p_pid (proc_at s (curproc c))), (p_parent (proc_at s (curproc c))).
  unfold vitals in *. cbn in *. rewrite Hc. by rewrite Ho.
Qed.
Lemma lifts_left {A} t p n P (m : K kst A) c s s' : lifts t p n P m -> P c s -> left_by (m c s) = Some s' -> change n p t (view s').
Proof. intros Hm Hc. specialize (Hm c s Hc). destruct (m c s); try discriminate; by intros [= <-]. Qed.
Lemma still_if_left {A} (P : ctx -> kst -> Prop) (m : K kst A) c s s' : still_if P m -> P c s -> left_by (m c s) = Some s' -> same s s'.
Proof. intros Hm Hc. specialize (Hm c s Hc). unfold still_at in Hm. destruct (m c s); try discriminate; intros [= <-]; apply Hm. Qed.
Lemma to_done {A} P (m : K kst A) Q c s a c' s' : to P m Q -> P c s -> m c s = Done a c' s' -> Q a c' s'.
Proof. intros Hm Hc E. specialize (Hm c s Hc). by rewrite E in Hm. Qed.

(** The table makes a transition of the process that runs, the steps of fork
    one each. *)
Definition moves (y y' : sys) : Prop :=
  (exists n p, y'.2 = y.2 /\ y.2 !! p = None /\ change n p (view y.1) (view y'.1)) \/
  (y'.2 = y.2 /\ same_tab (view y.1) (view y'.1)) \/
  (exists p i, y.2 !! p = None /\ y'.2 = <[p := (i, false)]> y.2 /\ begins p i (view y.1) (view y'.1)) \/
  (exists p i, y.2 !! p = Some (i, false) /\ y'.2 = <[p := (i, true)]> y.2 /\ links p i (view y.1) (view y'.1)) \/
  (exists p i, y.2 !! p = Some (i, true) /\ y'.2 = delete p y.2 /\ starts p i (view y.1) (view y'.1)).
Lemma moves_change n p s s' F : F !! p = None -> change n p (view s) (view s') -> moves (s, F) (s', F).
Proof. left. by exists n, p. Qed.
Lemma moves_same s s' F : same s s' -> moves (s, F) (s', F).
Proof. intros Hs. right. left. split; [done|]. by apply same_view. Qed.

Lemma fork_new_moves c s c' s' F r : tree_ok F (view s) -> on_cpu c s -> F !! curproc c = None -> fork_new L (curproc c) c s = Done r c' s' ->
  moves (s, F) (s', match r with Some (np, _) => <[curproc c := (np, false)]> F | None => F end).
Proof.
  intros Hok Hc HF E. destruct (on_cpu_runs F c s Hok Hc) as [Ha [Hl _]].
  pose proof (to_done _ _ _ _ _ _ _ _ (fork_new_to L F (view s) (curproc c) Hok Ha) Hl E) as Hr. destruct r as [[np pid]|]; cbn in Hr.
  - destruct Hr as (_ & _ & Hb). right. right. left. by exists (curproc c), np.
  - destruct Hr as [Hs|(H1 & H2 & H3)]; [right; by left|]. left. exists SYS_fork, (curproc c). split; [done|]. split; [done|]. by apply ch_pid.
Qed.
Lemma fork_entry F s p np (l : bool) : tree_ok F (view s) -> F !! p = Some (np, l) ->
  mid (view s) np (fun v => v = Vit Embryo (pid_of (view s) np) (if l then Some p else None) (true, true)) ctx0 s.
Proof.
  intros Hok HF. destruct (tk_fork _ _ Hok p np l HF) as (_ & Hm & Hp). split; [done|]. split; [done|]. split; [done|].
  pose proof (tk_owns _ _ Hok np (used_embryo _ _ Hm)) as Ho. unfold embryo, pid_of in *. destruct (t_entry (view s) np). cbn in *. congruence.
Qed.
Lemma fork_parent_moves c s c' s' F np : tree_ok F (view s) -> F !! curproc c = Some (np, false) ->
  fork_parent (curproc c) np c s = Done tt c' s' -> moves (s, F) (s', <[curproc c := (np, true)]> F).
Proof.
  intros Hok HF E. pose proof (fork_entry F s _ np false Hok HF) as Hm.
  apply (to_done _ _ _ c s _ _ _ (fork_parent_to _ _ _ _ _) Hm), mid_but in E as (H1 & H2 & H3).
  right. right. right. left. by exists (curproc c), np.
Qed.
Lemma fork_start_moves c s c' s' F np : tree_ok F (view s) -> F !! curproc c = Some (np, true) ->
  fork_start np c s = Done tt c' s' -> moves (s, F) (s', delete (curproc c) F).
Proof.
  intros Hok HF E. pose proof (fork_entry F s _ np true Hok HF) as Hm.
  apply (to_done _ _ _ c s _ _ _ (fork_start_to _ _ _ _) Hm), mid_but in E as (H1 & H2 & H3).
  right. right. right. right. by exists (curproc c), np.
Qed.
Lemma syscall_change F c s s' : tree_ok F (view s) -> on_cpu c s -> left_by (syscall L c s) = Some s' ->
  change (call_number (curproc c) s) (curproc c) (view s) (view s').
Proof.
  intros Hok Hc. destruct (on_cpu_runs F c s Hok Hc) as [Ha Hin]. apply (lifts_left _ _ _ _ _ _ _ _ (syscall_lifts L F (view s) (curproc c) Hok Ha _)).
  by split.
Qed.

Lemma kernel_step_moves y y' : tree_ok y.2 (view y.1) -> kernel_step L y y' -> moves y y'.
Proof.
  intros Hok Hs. destruct Hs as [c s s' F Hc HF E|c s c' s' F r Hc HF E|c s c' s' F np Hc HF E|c s c' s' F np Hc HF E|c s s' F st Hc HF E|
    c s s' F st Hc HF Hne E|c s s' F path argv pt sz entry Hc HF Hpt E|c s s' F a Hc HF E|c s s' F Hc E|c s s' F ch lk Hc E|c s s' F E|
    c s s' F i E|A m c s s' F Hm E]; cbn [fst snd] in Hok;
    try destruct (on_cpu_runs F c s Hok Hc) as [Ha Hin]; try (assert (running c s) as Hrun by apply Hin).
  - eapply moves_change; [exact HF|]. by apply (syscall_change F).
  - by eapply fork_new_moves.
  - by eapply fork_parent_moves.
  - by eapply fork_start_moves.
  - eapply moves_change; [exact HF|]. by apply (lifts_left _ _ _ _ _ c s s' (kexit_lifts (A := unit) L F (view s) (curproc c) Hok Ha st)).
  - eapply moves_change; [exact HF|]. by apply (lifts_left _ _ _ (looks (view s)) _ c s s' (exit_table_lifts (A := unit) F (view s) (curproc c) Hok Ha st Hne)).
  - apply moves_same. by apply (still_if_left _ _ _ _ _ (exec_stack_runs L path argv (curproc c) pt sz entry Hpt) Hrun).
  - eapply moves_change; [exact HF|]. by apply (lifts_left _ _ _ _ _ c s s' (kwait_lifts (view s) (curproc c) (l_end L) (l_xstate L) a)).
  - apply moves_same. by apply (still_if_left _ _ _ _ _ yield_running Hrun).
  - apply moves_same. by apply (still_if_left _ _ _ _ _ (sleep_on_running (A := unit) ch lk) Hrun).
  - by eapply moves_same, scheduler_round_same.
  - by eapply moves_same, scheduler_resume_same.
  - by eapply moves_same, still_left.
Qed.

Lemma moves_ok y y' : tree_ok y.2 (view y.1) -> moves y y' -> tree_ok y'.2 (view y'.1) /\ t_init (view y'.1) = t_init (view y.1).
Proof.
  destruct y as [s F], y' as [s' F']. unfold moves. cbn [fst snd].
  intros Hok [(n & p & -> & HF & Hc)|[(-> & _ & H2 & H3)|[(p & i & HF & -> & Hb)|[(p & i & HF & -> & Hl)|(p & i & HF & -> & Hs)]]]]; cbn [fst snd] in *.
  - split; [by eapply change_ok|]. by destruct Hc.
  - split; [|done]. by apply (same_ok F (view s) Hok).
  - split; [by apply (begins_ok F (view s) Hok p i)|]. by destruct Hb.
  - split; [by apply (links_ok F (view s) Hok p i)|]. by destruct Hl.
  - split; [by apply (starts_ok F (view s) Hok p i)|]. by destruct Hs.
Qed.
Lemma moves_ids y y' : tree_ok y.2 (view y.1) -> ids_ok (view y.1) -> moves y y' -> k_nextpid y.1 <= k_nextpid y'.1 -> ids_ok (view y'.1).
Proof.
  destruct y as [s F], y' as [s' F']. unfold moves. cbn [fst snd].
  intros Hok Hid [(n & p & -> & HF & Hc)|[(-> & H1 & _ & H3)|[(p & i & HF & -> & Hb)|[(p & i & HF & -> & Hl)|(p & i & HF & -> & Hs)]]]] Hup; cbn [fst snd] in *.
  - by eapply change_ids.
  - by eapply ids_same.
  - by eapply begins_ids.
  - destruct (tk_fork _ _ Hok _ _ _ HF) as (_ & Hm & _), Hl as [Hn _ He]. by eapply (restage_ids (view s) (view s') Hid Hup i); [apply used_embryo| |exact Hn|exact He].
  - destruct (tk_fork _ _ Hok _ _ _ HF) as (_ & Hm & _), Hs as [Hn _ He]. by eapply (restage_ids (view s) (view s') Hid Hup i); [apply used_embryo| |exact Hn|exact He].
Qed.
End Steps.

(** ** Boot *)

Lemma bind_inv {A B} (m : K kst A) (k : A -> K kst B) c s b c2 s2 : (m ≫= k) c s = Done b c2 s2 ->
  exists a c1 s1, m c s = Done a c1 s1 /\ k a c1 s1 = Done b c2 s2.
Proof. unfold mbind, K_bind. destruct (m c s) as [a c1 s1| | | |]; try discriminate. by exists a, c1, s1. Qed.
Lemma still_inv {A} (m : K kst A) c s a c' s' : Still m -> m c s = Done a c' s' -> same s s'.
Proof. intros Hm E. specialize (Hm c s). unfold still_at in Hm. rewrite E in Hm. apply Hm. Qed.

Lemma view_entry s i : t_entry (view s) i = vitals (proc_at s i). Proof. done. Qed.
Section Boot.
Context {D : DiskDriver} `{!DiskDriverOk D} (L : layout).

(** userinit makes the first process of an empty table its root. *)
Lemma userinit_first c s c' s' : (forall i, vitals (proc_at s i) = vit0) -> k_nextpid s = 1 -> userinit L c s = Done tt c' s' ->
  exists p, 0 <= p < NPROC /\ same_tab (Tab 2 p (fun j => if j =? p then Vit Alive 1 None (true, true) else vit0)) (view s').
Proof.
  intros H0 Hn E. unfold userinit in E.
  assert (clean (view s)) as Hcl by (intros i _; apply H0).
  apply bind_inv in E as (r & c1 & s1 & E1 & E).
  pose proof (allocproc_to (l_end L) (l_trampoline L) (l_forkret L) (view s) Hcl c s (conj eq_refl (conj eq_refl (fun j => eq_refl)))) as Ha.
  rewrite E1 in Ha. destruct r as [p|]; [|discriminate]. destruct Ha as [(Hp & _) Hm]. clear E1.
  apply bind_inv in E as (u1 & c2 & s2 & E2 & E). injection E2 as <- <- <-.
  apply bind_inv in E as (cwd & c3 & s3 & E3 & E). apply still_inv in E3; [|apply _].
  apply bind_inv in E as (u4 & c4 & s4 & E4 & E). apply still_inv in E4; [|apply still_up; reflexivity].
  apply bind_inv in E as (u5 & c5 & s5 & E5 & E). injection E5 as <- <- <-. apply still_inv in E; [|apply _].
  destruct Hm as (M1 & M2 & M3 & M4). pose proof (same_trans _ _ _ E3 E4) as [F1 F2 F3]. destruct E as [G1 G2 G3].
  unfold embryo_of, bump, next_pid in *. cbn [t_next t_init view k_nextpid set_kinitproc] in *. rewrite Hn in *.
  exists p. split; [done|]. split; [simpl in F1, G1, M1 |- *; rewrite G1, F1, M1; reflexivity|]. split; [simpl in F2, G2 |- *; congruence|].
  intros j. cbn [t_entry]. rewrite view_entry, G3, proc_at_upd. rewrite (Z.eqb_sym p j). destruct (Z.eqb_spec j p) as [->|Hj].
  - specialize (F3 p). change (vitals (proc_at (set_kinitproc s1 p) p)) with (t_entry (view s1) p) in F3. rewrite M4 in F3.
    unfold vitals in *. simpl in *. injection F3 as _ -> -> -> ->. done.
  - rewrite F3. change (vitals (proc_at (set_kinitproc s1 p) j)) with (t_entry (view s1) j). rewrite M3 by done. cbn [t_entry]. by rewrite view_entry.
Qed.
Lemma userinit_roots c s c' s' : (forall i, vitals (proc_at s i) = vit0) -> k_nextpid s = 1 -> userinit L c s = Done tt c' s' -> tab_ok ∅ (view s').
Proof.
  intros H0 Hn E. destruct (userinit_first c s c' s' H0 Hn E) as (p & Hp & Hv). clear H0 Hn E. set (t := Tab 2 p _) in Hv.
  assert (forall j, used t j <-> j = p) as Hu.
  { intros j. unfold used, t. cbn. destruct (Z.eqb_spec j p); [by split|]. split; [by intros []|done]. }
  assert (t_entry t p = Vit Alive 1 None (true, true)) as Ep by (unfold t; cbn; by rewrite Z.eqb_refl).
  assert (tree_ok ∅ t) as Ht.
  { split.
    - by intros i ->%Hu.
    - intros i Hi. assert (i <> p) as Hne by (intros ->; by apply Hi, Hu). unfold t. cbn. by rewrite (proj2 (Z.eqb_neq i p)).
    - intros i ->%Hu. by rewrite Ep.
    - intros i Hi. exfalso. pose proof (proj1 (Hu i) (used_embryo t i Hi)) as ->. unfold embryo in Hi. by rewrite Ep in Hi.
    - done.
    - done.
    - intros i j Hc. exfalso. unfold child_of, t in Hc. cbn in Hc. by destruct (i =? p).
    - unfold alive. change (t_init t) with p. by rewrite Ep.
    - intros i ->%Hu _. apply rtc_refl. }
  assert (ids_ok t) as Hid.
  { split; [done| |by intros i j ->%Hu ->%Hu]. intros i ->%Hu. unfold pid_of. by rewrite Ep. }
  destruct Hv as (V1 & V2 & V3). split; [by apply (same_ok _ t Ht)|]. apply (ids_same t _ Hid); [rewrite V1; done|done|done].
Qed.
End Boot.

(** ** The theorems *)

Section Theorems.
Context {D : DiskDriver} `{!DiskDriverOk D} (L : layout).

(** C4: a system call refines the abstract table.  Let [n] be the number in a7 of
    the process that makes the call, which is not inside fork.  Whether the
    call returns or goes to sleep, the table makes at most one transition, one
    of that process and of that call: fork (1) uses up a pid and fails, or gives
    the caller a child with the next pid in a free entry; exit (2) makes the
    caller a zombie, never init, and init inherits its children; wait (3) frees
    the entry of a zombie child of the caller; every other number leaves the
    table as it is.  The table stays well formed.  The counter of pids is an
    int and wraps around. *)
Theorem syscall_refines_table F c s s' : tree_ok F (view s) -> on_cpu c s -> F !! curproc c = None ->
  left_by (syscall L c s) = Some s' ->
  change (call_number (curproc c) s) (curproc c) (view s) (view s') /\ tree_ok F (view s').
Proof.
  intros Hok Hc HF E. pose proof (syscall_change L F c s s' Hok Hc E) as Hch. split; [done|]. by eapply change_ok.
Qed.

Lemma steps_ok y y' : tree_ok y.2 (view y.1) -> rtc (kernel_step L) y y' -> tree_ok y'.2 (view y'.1) /\ t_init (view y'.1) = t_init (view y.1).
Proof.
  intros Hok Hr. induction Hr as [y|y y1 y2 H1 _ IH]; [done|]. destruct (moves_ok _ _ Hok (kernel_step_moves L y y1 Hok H1)) as [Hok1 Hi].
  destruct (IH Hok1) as [H2 H3]. split; [done|]. by rewrite H3.
Qed.
(** Steps in which the counter of pids does not wrap around. *)
Definition unwrapped_step (y y' : sys) : Prop := kernel_step L y y' /\ k_nextpid y.1 <= k_nextpid y'.1.
Lemma steps_ids y y' : tab_ok y.2 (view y.1) -> rtc unwrapped_step y y' -> ids_ok (view y'.1).
Proof.
  intros Hok Hr. induction Hr as [y|y y1 y2 [H1 Hup] _ IH]; [by destruct Hok|]. destruct Hok as [Hok Hid].
  pose proof (kernel_step_moves L y y1 Hok H1) as Hm. apply IH. split; [by apply (moves_ok _ _ Hok Hm)|by apply (moves_ids _ _ Hok Hid Hm)].
Qed.

(** C3: from boot on, in every state that the steps of [kernel_step] reach, the
    processes form a tree: following parents from any process that is not still
    being made leads to the one userinit made; the entries being made (USED) are
    exactly those of the processes inside fork, with no parent until fork links
    them to it; a zombie has no children, so wait frees an entry nobody points
    to; every process has a trapframe and a page table, and a free entry has
    neither, no id and no parent.  As long as the counter of ids has not wrapped
    around, ids are distinct. *)
Theorem process_tree c0 s0 c1 s1 s F :
  (forall i, vitals (proc_at s0 i) = vit0) -> k_nextpid s0 = 1 ->
  userinit L c0 s0 = Done tt c1 s1 -> rtc (kernel_step L) (s1, ∅) (s, F) ->
  (forall i, used (view s) i -> p_state (proc_at s i) <> USED -> rtc (child_of (view s)) i (k_initproc s1)) /\
  (forall i, p_state (proc_at s i) = USED <-> exists p l, F !! p = Some (i, l)) /\
  (forall p i (l : bool), F !! p = Some (i, l) -> alive (view s) p /\ p_parent (proc_at s i) = if l then Some p else None) /\
  (forall i, p_state (proc_at s i) = ZOMBIE -> forall j, p_parent (proc_at s j) <> Some i) /\
  (forall i, used (view s) i -> p_trapframe (proc_at s i) <> 0 /\ p_pagetable (proc_at s i) <> 0) /\
  (forall i, p_state (proc_at s i) = UNUSED -> p_pid (proc_at s i) = 0 /\ p_parent (proc_at s i) = None /\
     p_trapframe (proc_at s i) = 0 /\ p_pagetable (proc_at s i) = 0) /\
  (rtc unwrapped_step (s1, ∅) (s, F) -> forall i j, used (view s) i -> used (view s) j ->
     p_pid (proc_at s i) = p_pid (proc_at s j) -> i = j).
Proof.
  intros H0 Hn E Hr. pose proof (userinit_roots L c0 s0 c1 s1 H0 Hn E) as Hok1.
  destruct (steps_ok (s1, ∅) (s, F) (proj1 Hok1) Hr) as [Hok Hi]. cbn [fst snd] in *.
  assert (forall i, embryo (view s) i <-> p_state (proc_at s i) = USED) as Hem.
  { intros i. unfold embryo. rewrite view_entry. unfold vitals. cbn. destruct (p_state (proc_at s i)); split; done. }
  split_and!.
  - intros i Hu Hm. replace (k_initproc s1) with (t_init (view s)) by (rewrite Hi; done). apply (tk_linked _ _ Hok); [done|]. by intros He%Hem.
  - intros i. split; [intros He%Hem; by apply (tk_embryo _ _ Hok)|]. intros (p & l & Hp). apply Hem. by apply (tk_fork _ _ Hok p i l).
  - intros p i l Hp. destruct (tk_fork _ _ Hok p i l Hp) as (H1 & _ & H2). by split.
  - intros i Hz j Hj. refine (dead_childless _ _ Hok i j _ Hj). rewrite view_entry. unfold vitals. simpl. by rewrite Hz.
  - intros i Hu. pose proof (tk_owns _ _ Hok i Hu) as Ho. rewrite view_entry in Ho. unfold vitals in Ho. simpl in Ho.
    injection Ho as H1 H2. split; intros H; by rewrite H in *.
  - intros i Hf. assert (~ used (view s) i) as Hu by (unfold used; rewrite view_entry; unfold vitals; simpl; rewrite Hf; tauto).
    pose proof (tk_free _ _ Hok i Hu) as Hv. rewrite view_entry in Hv. unfold vitals, vit0 in Hv. injection Hv as _ H1 H2 H3 H4.
    apply negb_false_iff, Z.eqb_eq in H3, H4. done.
  - intros Hur. apply (id_inj _ (steps_ids (s1, ∅) (s, F) Hok1 Hur)).
Qed.
End Theorems.

(** ** A concrete machine

    Eight pages, the path of the root directory in memory; the first process
    is made and scheduled, and calls fork. *)
Definition lay : layout :=
  Layout 0x87FF8000 0x80007000 0 0 0 0 (fun i => 9000 + 8 * i) (fun b => 100000 + 1024 * b) 1000 1100 1200 1300
    1400 1500 1600 1700 1800 1900 2000 3000 4000 4100 4200 4300 4400 4500 4510 4520 4530.
Definition cold : kst := set_kmem kst0
  (match kinit (l_end lay) ctx0 (PMem (store_bytes ∅ (l_root lay) [47; 0]) 0) with Done _ _ m => m | _ => PMem ∅ 0 end).
Definition state_of {A} (o : outcome kst A) (s : kst) : kst := default s (left_by o).
Definition ctx_of {A} (o : outcome kst A) (c : ctx) : ctx := match o with Done _ c _ => c | _ => c end.
Definition warm : kst := state_of (userinit (D := ram_disk) lay ctx0 cold) cold.
(** The CPU in process 0, whose pid is 1. *)
Definition cpu0 : ctx := set_curproc 0 1 ctx0.
Definition running0 : kst := state_of (scheduler_round ctx0 warm) warm.
(** fork is system call 1. *)
Definition calling : kst := state_of (st_tf 0 tf_a7 1 cpu0 running0) running0.
Definition after_fork : kst := state_of (syscall (D := ram_disk) lay cpu0 calling) calling.


(** The first part of the fork. *)
Definition after_new : kst := state_of (fork_new lay 0 cpu0 calling) calling.

(** The whole run, checked in one evaluation. *)
Definition made_1 (o : outcome kst (option (Z * Z))) : bool := match o with Done (Some (np, _)) _ _ => np =? 1 | _ => false end.
Definition returned {A} (o : outcome kst A) : bool := match o with Done _ _ _ => true | _ => false end.
Definition run_ok (boot : outcome kst unit) : bool :=
  let w := state_of boot cold in
  let o1 := scheduler_round ctx0 w in let r := state_of o1 w in
  let o2 := st_tf 0 tf_a7 1 cpu0 r in let k := state_of o2 r in
  let o3 := syscall (D := ram_disk) lay cpu0 k in let f := state_of o3 k in
  (returned boot && returned o1) && (returned o2 && (returned o3 && made_1 (fork_new lay 0 cpu0 k))) &&
  ((k_initproc w =? 0) && forallb (fun x => x =? 2) [k_nextpid w; k_nextpid r; k_nextpid k] && (k_nextpid f =? 3) &&
   (call_number 0 k =? SYS_fork)) &&
  (bool_decide (p_state (proc_at k 0) = RUNNING) &&
   (bool_decide (p_state (proc_at k 1) = UNUSED) && bool_decide (p_state (proc_at f 1) = RUNNABLE))).
Lemma run_is_ok : run_ok (userinit (D := ram_disk) lay ctx0 cold) = true.
Proof. vm_compute. reflexivity. Qed.
(** The states of the run that [run_ok] looks at. *)
Definition run_states (boot : outcome kst unit) (w r k f : kst) : Prop :=
  returned boot = true /\ returned (scheduler_round ctx0 w) = true /\
  returned (st_tf 0 tf_a7 1 cpu0 r) = true /\ returned (syscall (D := ram_disk) lay cpu0 k) = true /\
  k_initproc w = 0 /\ (k_nextpid w = 2 /\ k_nextpid r = 2 /\ k_nextpid k = 2 /\ k_nextpid f = 3) /\ call_number 0 k = SYS_fork /\
  p_state (proc_at k 0) = RUNNING /\ p_state (proc_at k 1) = UNUSED /\
  p_state (proc_at f 1) = RUNNABLE /\ made_1 (fork_new lay 0 cpu0 k) = true.
Lemma run_ok_states boot w r k f : w = state_of boot cold -> r = state_of (scheduler_round ctx0 w) w ->
  k = state_of (st_tf 0 tf_a7 1 cpu0 r) r -> f = state_of (syscall (D := ram_disk) lay cpu0 k) k ->
  run_ok boot = true -> run_states boot w r k f.
Proof.
  intros Ew Er Ek Ef H. unfold run_ok in H. cbv zeta in H. rewrite <- Ew, <- Er, <- Ek, <- Ef in H. clear Ew Er Ek Ef.
  apply andb_true_iff in H as [H H4]. apply andb_true_iff in H as [H H3]. apply andb_true_iff in H as [H1 H2].
  apply andb_true_iff in H1 as [? ?], H2 as [? [? ?]%andb_true_iff], H3 as [H3 ?%Z.eqb_eq], H4 as [?%bool_decide_eq_true H4]. apply andb_true_iff in H4 as [?%bool_decide_eq_true ?%bool_decide_eq_true].
  apply andb_true_iff in H3 as [H3 ?%Z.eqb_eq]. apply andb_true_iff in H3 as [?%Z.eqb_eq H3]. cbn [forallb] in H3.
  apply andb_true_iff in H3 as [?%Z.eqb_eq H3]. apply andb_true_iff in H3 as [?%Z.eqb_eq H3]. apply andb_true_iff in H3 as [?%Z.eqb_eq _].
  unfold run_states. tauto.
Qed.
Lemma returned_left {A} (o : outcome kst A) s : returned o = true -> left_by o = Some (state_of o s).
Proof. by destruct o. Qed.
Lemma made_1_done o s : made_1 o = true -> exists pid c', o = Done (Some (1, pid)) c' (state_of o s).
Proof. destruct o as [[[np pid]|] c' s'| | | |]; try discriminate. intros ->%Z.eqb_eq. by exists pid, c'. Qed.
Lemma run_facts : run_states (userinit (D := ram_disk) lay ctx0 cold) warm running0 calling after_fork.
Proof. exact (run_ok_states _ _ _ _ _ eq_refl eq_refl eq_refl eq_refl run_is_ok). Qed.
Lemma userinit_warm : userinit (D := ram_disk) lay ctx0 cold = Done tt (ctx_of (userinit (D := ram_disk) lay ctx0 cold) ctx0) warm.
Proof.
  destruct run_facts as [H _]. unfold warm, state_of, ctx_of. destruct (userinit lay ctx0 cold) as [[] | | | |]; [reflexivity|discriminate..].
Qed.
Lemma cold_empty i : vitals (proc_at cold i) = vit0.
Proof. reflexivity. Qed.
Lemma warm_steps : unwrapped_step (D := ram_disk) lay (warm, ∅) (running0, ∅) /\
  unwrapped_step (D := ram_disk) lay (running0, ∅) (calling, ∅) /\ unwrapped_step (D := ram_disk) lay (calling, ∅) (after_fork, ∅).
Proof.
  destruct run_facts as (_ & H1 & H2 & H3 & _ & (N1 & N2 & N3 & N4) & _ & Hs & _). split; [|split].
  - split; [exact (k_schedule (D := ram_disk) lay ctx0 warm running0 ∅ (returned_left _ warm H1))|]. cbn [fst]. rewrite N1, N2. apply Z.le_refl.
  - split; [exact (k_still (D := ram_disk) lay unit (st_tf 0 tf_a7 1) cpu0 running0 calling ∅ (still_st_tf 0 tf_a7 1) (returned_left _ running0 H2))|].
    cbn [fst]. rewrite N2, N3. apply Z.le_refl.
  - split; [exact (k_syscall (D := ram_disk) lay cpu0 calling after_fork ∅ Hs (lookup_empty _) (returned_left _ calling H3))|].
    cbn [fst]. rewrite N3, N4. discriminate.
Qed.
Lemma warm_calling : rtc (kernel_step (D := ram_disk) lay) (warm, ∅) (calling, ∅).
Proof.
  destruct warm_steps as ([H1 _] & [H2 _] & _). exact (rtc_l _ _ _ _ H1 (rtc_l _ _ _ _ H2 (rtc_refl _ _))).
Qed.
Lemma boot_warm : tab_ok ∅ (view warm).
Proof.
  exact (userinit_roots (DiskDriverOk0 := ram_disk_ok) lay ctx0 cold _ warm cold_empty eq_refl userinit_warm).
Qed.
Lemma calling_ok : tab_ok ∅ (view calling).
Proof.
  destruct warm_steps as (H1 & H2 & _). split.
  - exact (proj1 (steps_ok (DiskDriverOk0 := ram_disk_ok) lay (warm, ∅) (calling, ∅) (proj1 boot_warm) warm_calling)).
  - exact (steps_ids (DiskDriverOk0 := ram_disk_ok) lay (warm, ∅) (calling, ∅) boot_warm (rtc_l _ _ _ _ H1 (rtc_l _ _ _ _ H2 (rtc_refl _ _)))).
Qed.

Lemma process_tree_witness : rtc (kernel_step (D := ram_disk) lay) (warm, ∅) (after_fork, ∅) /\
  rtc (child_of (view after_fork)) 1 0 /\ p_pid (proc_at after_fork 1) <> p_pid (proc_at after_fork 0) /\
  rtc (kernel_step (D := ram_disk) lay) (warm, ∅) (after_new, <[0 := (1, false)]> ∅) /\
  p_state (proc_at after_new 1) = USED /\ p_parent (proc_at after_new 1) = None.
Proof.
  destruct run_facts as (_ & _ & _ & _ & Hi & _ & _ & Hs & _ & Hf & Hmade). destruct warm_steps as (W1 & W2 & W3).
  assert (rtc (unwrapped_step (D := ram_disk) lay) (warm, ∅) (after_fork, ∅)) as Hu
    by exact (rtc_l _ _ _ _ W1 (rtc_l _ _ _ _ W2 (rtc_l _ _ _ _ W3 (rtc_refl _ _)))).
  assert (rtc (kernel_step (D := ram_disk) lay) (warm, ∅) (after_fork, ∅)) as Hr
    by exact (rtc_l _ _ _ _ (proj1 W1) (rtc_l _ _ _ _ (proj1 W2) (rtc_l _ _ _ _ (proj1 W3) (rtc_refl _ _)))).
  destruct (process_tree (DiskDriverOk0 := ram_disk_ok) lay ctx0 cold _ warm after_fork ∅ cold_empty eq_refl userinit_warm Hr)
    as (H & _ & _ & _ & _ & _ & Hid).
  assert (used (view after_fork) 1) as H1 by (unfold used; rewrite view_entry; unfold vitals; cbn [v_stage]; rewrite Hf; discriminate).
  assert (used (view after_fork) 0) as H0.
  { destruct (steps_ok (DiskDriverOk0 := ram_disk_ok) lay (warm, ∅) (after_fork, ∅) (proj1 boot_warm) Hr) as [Hok Hin].
    pose proof (init_used _ _ Hok) as Hk. rewrite Hin in Hk. change (t_init (view (warm, ∅ : forks).1)) with (k_initproc warm) in Hk. rewrite Hi in Hk. exact Hk. }
  split; [exact Hr|]. rewrite Hi in H. split; [apply H; [exact H1|rewrite Hf; discriminate]|].
  split; [intros E; discriminate (Hid Hu 1 0 H1 H0 E)|]. clear H Hid Hf Hu Hr H1 H0.
  destruct (made_1_done _ calling Hmade) as (pid & c' & En).
  assert (rtc (kernel_step (D := ram_disk) lay) (warm, ∅) (after_new, <[0 := (1, false)]> ∅)) as Hr.
  { eapply rtc_r; [exact warm_calling|]. exact (k_fork_new lay cpu0 calling c' after_new ∅ (Some (1, pid)) Hs (lookup_empty _) En). }
  destruct (process_tree (DiskDriverOk0 := ram_disk_ok) lay ctx0 cold _ warm after_new (<[0 := (1, false)]> ∅) cold_empty eq_refl userinit_warm Hr)
    as (_ & Hem & Hfk & _).
  assert ((<[0 := (1, false)]> ∅ : forks) !! 0 = Some (1, false)) as H0 by apply lookup_insert_eq.
  split; [exact Hr|]. split; [apply Hem; exists 0, false; exact H0|exact (proj2 (Hfk 0 1 false H0))].
Defined.

Lemma syscall_refines_table_witness : change SYS_fork 0 (view calling) (view after_fork) /\ tree_ok ∅ (view after_fork).
Proof.
  destruct run_facts as (_ & _ & _ & H3 & _ & _ & Hn & Hs & _).
  pose proof (syscall_refines_table (DiskDriverOk0 := ram_disk_ok) lay ∅ cpu0 calling after_fork (proj1 calling_ok) Hs (lookup_empty _)
    (returned_left _ calling H3)) as H.
  change (curproc cpu0) with 0 in H. rewrite Hn in H. exact H.
Defined.
