(* ===== verification/Kill0.v ===== *)
(** * kill(0) (kernel/proc.c)

    A free entry of the process table has pid 0, and kkill does not look at the
    state: kill(0) marks the first free entry as killed and reports success, and
    allocproc does not clear the mark, so the next process is born killed and
    exits at its first trap. *)
From stdpp Require Import base numbers list gmap strings.
From S2P Require Import Prelude Kernel Spinlock Sleeplock Str Riscv Kalloc Vm Bio Log Printf Kstate Proc Table Bcache Pipe Console Fs Dir File Fork Exec Sysfile Trap Still ProcTree Lifecycle.

#[local] Hint Constants Opaque : typeclass_instances.

(** What is watched here is the field killed of every entry. *)
Definition same_killed (s s' : kst) : Prop := forall i, p_killed (proc_at s' i) = p_killed (proc_at s i).
#[local] Program Instance watch_killed : Watch kst | 0 := { same := same_killed }.
Next Obligation. done. Qed.
Next Obligation. intros s s' s'' H1 H2 i. by rewrite H2. Qed.
#[local] Instance killed_memA : StillAcc memA. Proof. by intros x s i. Qed.

Lemma killed_up i f : (forall p, p_killed (f p) = p_killed p) -> Still (up i f).
Proof. intros Hf. apply still_modify. intros s j. rewrite proc_at_upd. by destruct (Z.eqb_spec i j) as [->|]. Qed.
Ltac killed_step :=
  match goal with
  | |- Still (mbind _ _) => apply still_bind; [|intros ?]
  | |- Still (modify _) => apply still_modify; intros ? ?; reflexivity
  | |- Still (up _ _) => apply killed_up; reflexivity
  | |- Still (if ?b then _ else _) => destruct b
  | |- Still (match ?x with _ => _ end) => destruct x
  | |- Still (zoom _ _) => first [apply _|apply still_zoom; [apply _|stills]]
  | |- Still _ => apply _
  end.
Ltac killeds := repeat killed_step.
#[local] Instance killed_gp i : Still (gp i). Proof. unfold gp. apply _. Qed.
#[local] Instance killed_gf i : Still (gf i). Proof. unfold gf. apply _. Qed.
#[local] Instance killed_uf i f : Still (uf i f). Proof. unfold uf. killeds. Qed.
#[local] Instance killed_ui i f : Still (ui i f). Proof. unfold ui. killeds. Qed.
#[local] Instance killed_filedup f : Still (filedup f). Proof. unfold filedup. killeds. Qed.
#[local] Instance killed_idup ip : Still (idup ip). Proof. unfold idup. killeds. Qed.
#[local] Instance killed_dup_files : forall n i p np, Still (dup_files n i p np).
Proof. induction n; intros; cbn [dup_files]; killeds. Qed.
#[local] Instance killed_st_tf i f v : Still (st_tf i f v). Proof. unfold st_tf. killeds. Qed.
#[local] Instance killed_allocpid : Still allocpid. Proof. unfold allocpid. killeds. Qed.
#[local] Instance killed_pagetable e tr tf : Still (Proc.proc_pagetable e tr tf). Proof. unfold Proc.proc_pagetable. killeds. Qed.
#[local] Instance killed_alloc_scan : forall n i, Still (alloc_scan n i).
Proof. induction n; intros; cbn [alloc_scan]; killeds. Qed.

(** A result that is not [bad] comes with every mark as it was. *)
Definition spares {A} (bad : A -> Prop) (m : K kst A) : Prop :=
  forall c s r c' s', m c s = Done r c' s' -> bad r \/ same_killed s s'.
Lemma spares_bind {A B} (bad : B -> Prop) (m : K kst A) (k : A -> K kst B) : Still m -> (forall a, spares bad (k a)) -> spares bad (m ≫= k).
Proof.
  intros Hm Hk c s r c' s' E. apply bind_inv in E as (a & c1 & s1 & E1 & E2). destruct (Hk a c1 s1 r c' s' E2) as [H|H]; [by left|right].
  specialize (Hm c s). unfold still_at in Hm. rewrite E1 in Hm. destruct Hm as [Hm _]. intros i. by rewrite H, Hm.
Qed.
Lemma spares_still {A} (bad : A -> Prop) (m : K kst A) : Still m -> spares bad m.
Proof. intros Hm c s r c' s' E. right. specialize (Hm c s). unfold still_at in Hm. rewrite E in Hm. apply Hm. Qed.
Lemma spares_bad {A} (bad : A -> Prop) (a : A) (m1 m2 : K kst unit) : bad a -> spares bad (m1;; m2;; mret a).
Proof. intros Ha c s r c' s' E. apply bind_inv in E as (? & ? & ? & _ & E). apply bind_inv in E as (? & ? & ? & _ & E). injection E as <- _ _. by left. Qed.
Lemma spares_then {A B} (bad : A -> Prop) (bad' : B -> Prop) (m : K kst A) (k : A -> K kst B) :
  spares bad m -> (forall a, bad a -> forall c s r c' s', k a c s = Done r c' s' -> bad' r) -> (forall a, spares bad' (k a)) -> spares bad' (m ≫= k).
Proof.
  intros Hm Hb Hk c s r c' s' E. apply bind_inv in E as (a & c1 & s1 & E1 & E2). destruct (Hm _ _ _ _ _ E1) as [H|H]; [left; by eapply Hb|].
  destruct (Hk a _ _ _ _ _ E2) as [H2|H2]; [by left|right]. intros i. by rewrite H2, H.
Qed.

Lemma allocproc_spares e tr fk : spares (fun r => r = None) (allocproc e tr fk).
Proof.
  unfold allocproc. apply spares_bind; [apply _|]. intros [i|]; [|apply spares_still; apply _].
  do 3 (apply spares_bind; [killeds|intros ?]). apply spares_bind; [killeds|intros tf]. apply spares_bind; [killeds|intros _].
  destruct (tf =? 0); [by apply spares_bad|]. apply spares_bind; [killeds|intros pt]. apply spares_bind; [killeds|intros _].
  destruct (pt =? 0); [by apply spares_bad|]. apply spares_still. killeds.
Qed.
Lemma fork_new_spares L p : spares (fun r => r = None) (fork_new L p).
Proof.
  unfold fork_new. apply (spares_then (fun r => r = None)); [apply allocproc_spares| |].
  - intros a -> c s r c' s' E. by injection E as <- _ _.
  - intros [np|]; [|apply spares_still; apply _]. do 3 (apply spares_bind; [killeds|intros ?]). destruct (_ <? 0); [by apply spares_bad|].
    apply spares_still. killeds.
Qed.
Lemma kfork_spares L : spares (fun r => r = -1) (kfork L).
Proof.
  unfold kfork. apply spares_bind; [apply _|]. intros p. apply (spares_then (fun r => r = None)); [apply fork_new_spares| |].
  - intros a -> c s r c' s' E. by injection E as <- _ _.
  - intros [[np pid]|]; [|apply spares_still; apply _]. unfold fork_parent, fork_start. apply spares_still. killeds.
Qed.

(** ** kkill *)

Lemma find_seqZ f n : forall a i, a <= i < a + Z.of_nat n -> (forall k, a <= k < i -> f k = false) -> f i = true ->
  List.find f (seqZ a (Z.of_nat n)) = Some i.
Proof.
  induction n as [|n IH]; intros a i Hi Hk Hf; [lia|]. rewrite seqZ_cons by lia. cbn [List.find].
  destruct (decide (a = i)) as [->|Hne]; [by rewrite Hf|]. rewrite Hk by lia. replace (Z.pred (Z.of_nat (S n))) with (Z.of_nat n) by lia.
  apply IH; [lia|intros; apply Hk; lia|done].
Qed.
(** kill(0) finds the first free entry. *)
Lemma kkill_zero F c s i : tab_ok F (view s) -> proc_cpu c -> first_free (view s) i -> kkill 0 c s = Done 0 c (upd_proc i kill1 s).
Proof.
  intros [Hok Hid] Hc (Hi & Hu & Hfirst). unfold kkill. rewrite (kkill_loop_spec c 0 _ 0 s Hc) by (done || lia).
  rewrite (find_seqZ _ _ _ i); [done|done| |].
  - intros k Hk. apply Z.eqb_neq. pose proof (id_pos _ Hid k (Hfirst k Hk)) as Hp. unfold pid_of in Hp. rewrite view_entry in Hp. simpl in Hp. lia.
  - apply Z.eqb_eq. pose proof (tk_free _ _ Hok i Hu) as Hv. rewrite view_entry in Hv. by injection Hv.
Qed.

(** C5: kill(0) returns 0, as if there were such a process, and the next fork that
    succeeds, by whatever process, makes a child that is already killed. *)
Theorem kill_zero_dooms_next_child {D : DiskDriver} `{!DiskDriverOk D} L F c s i : tab_ok F (view s) -> proc_cpu c -> first_free (view s) i ->
  exists s1, kkill 0 c s = Done 0 c s1 /\ same_tab (view s) (view s1) /\
    forall p c1 r c2 s2, alive (view s1) p -> runs p c1 s1 -> kfork L c1 s1 = Done r c2 s2 -> r <> -1 ->
      p_pid (proc_at s2 i) = r /\ p_parent (proc_at s2 i) = Some p /\ p_killed (proc_at s2 i) = 1.
Proof.
  intros Hok Hc Hi. exists (upd_proc i kill1 s). pose proof (kkill_zero F c s i Hok Hc Hi) as E. split; [exact E|].
  pose proof (@still_kkill 0 c s) as Hs. unfold still_at in Hs. rewrite E in Hs. destruct Hs as [Hs _].
  pose proof (same_view _ _ Hs) as Hv. split; [exact Hv|].
  intros p c1 r c2 s2 Ha Hr Ef Hne. set (s1 := upd_proc i kill1 s) in *.
  assert (tree_ok F (view s1)) as Hok1 by (destruct Hv as (E1 & E2 & E3); by apply (same_ok F (view s) (proj1 Hok))).
  pose proof (kfork_to L F (view s1) p Hok1 c1 s1 (conj (conj eq_refl (conj eq_refl (fun j => eq_refl))) Hr)) as Hf. rewrite Ef in Hf.
  destruct Hf as [[-> _]|(-> & j & Hj & _ & _ & Hent)]; [done|].
  assert (j = i) as ->.
  { destruct Hv as (_ & _ & Hv). destruct Hi as (Hi & Hu & Hf), Hj as (Hj & Hu' & Hf').
    assert (forall k, used (view s1) k <-> used (view s) k) as Hus by (intros k; unfold used; by rewrite Hv).
    destruct (Z.lt_trichotomy i j) as [H|[H|H]]; [|done|].
    - destruct Hu. apply Hus, Hf'. lia.
    - destruct Hu'. apply Hus, Hf. lia. }
  specialize (Hent i). cbn [t_entry] in Hent. unfold but in Hent. rewrite Z.eqb_refl, view_entry in Hent. injection Hent as _ Hp Hq _ _.
  split; [exact Hp|]. split; [exact Hq|]. destruct (kfork_spares L _ _ _ _ _ Ef) as [H|H]; [done|]. rewrite H.
  unfold s1. rewrite proc_at_upd, Z.eqb_refl. unfold kill1. by destruct (decide _).
Qed.

(** On the machine of Lifecycle.v, whose entry 1 is free: kill(0), by process 0. *)
Definition cpu1 : ctx := set_curproc 0 1 proc_ctx.
Lemma cpu1_ok : proc_cpu cpu1.
Proof. destruct proc_ctx_cpu as [[H1 H2 H3] H4]. split; [by split|exact H4]. Qed.
Lemma calling_free : first_free (view calling) 1.
Proof.
  split; [split; [discriminate|reflexivity]|]. destruct run_facts as (_ & _ & _ & _ & _ & _ & _ & H0 & H1 & _). split.
  - unfold used. rewrite view_entry. unfold vitals. cbn [v_stage]. rewrite H1. exact (fun H => H eq_refl).
  - intros k Hk. assert (k = 0) as -> by (clear - Hk; lia). unfold used. rewrite view_entry. unfold vitals. cbn [v_stage]. rewrite H0. discriminate.
Qed.
Lemma kill_zero_dooms_next_child_witness : exists s1, kkill 0 cpu1 calling = Done 0 cpu1 s1 /\ same_tab (view calling) (view s1).
Proof.
  destruct (kill_zero_dooms_next_child (DiskDriverOk0 := ram_disk_ok) lay ∅ cpu1 calling 1 calling_ok cpu1_ok calling_free) as (s1 & E & Hv & _).
  exists s1. exact (conj E Hv).
Defined.
(** The fork that follows succeeds, and its child is killed. *)
Example kill_zero_then_fork :
  match kkill 0 cpu0 calling with
  | Done r c s => match kfork lay c s with Done pid _ s' => (r, pid, p_killed (proc_at s' 1)) | _ => (r, 0, 0) end
  | _ => (-1, 0, 0)
  end = (0, 2, 1).
Proof. vm_compute. reflexivity. Qed.
