(* ===== verification/Txn.v ===== *)
(** * Blocks inside a transaction (theorems on Bio.v and Log.v)

    What the log and the buffer cache promise the file system: inside an
    operation, the disk is a map from block numbers to blocks; a block can be
    read, and changed by writing its buffer and calling log_write. *)
From stdpp Require Import base numbers list gmap strings.
From S2P Require Import Prelude Kernel Spinlock Sleeplock Bio Bcache Printf Log Redo LogOps Riscv Kalloc Vm Kstate Proc Fs.

(** The blocks of the current transaction. *)
Definition logl (l : log) : list Z := lblk l <$> seqZ 0 (lh_n l).
Definition lview (s : lst) (x : Z) : block := view (l_bio s) x.

(** The state of an operation that holds the buffers [H], a map from block
    numbers to buffers: every logged block is pinned once, every held one
    referenced once more and locked, and nothing else is in use. *)
Record tx (c : ctx) (H : gmap Z Z) (s : lst) : Prop := {
  t_bc : bc_ok (l_bio s);
  t_held : forall x i, H !! x = Some i -> holds c (l_bio s) x i;
  t_lock : forall x, H !! x = None -> blocked (l_bio s) x = free_lock;
  t_refs : forall x, refs (l_bio s) x =
    b2z (bool_decide (x ∈ logl (l_log s))) + b2z (bool_decide (is_Some (H !! x)));
  t_n : 0 <= lh_n (l_log s) <= LOGBLOCKS;
  t_len : length (lh_block (l_log s)) = Z.to_nat LOGBLOCKS;
  t_blk : Forall (fun x => 0 <= x < 2 ^ 31) (logl (l_log s));
  t_out : 1 <= lg_outstanding (l_log s);
}.

(** From [s] to [s'] the disk does not change and at most [k] blocks join the
    transaction. *)
Record moved (k : Z) (s s' : lst) : Prop := {
  mv_dsk : dsk (l_bio s') = dsk (l_bio s);
  mv_n : lh_n (l_log s') <= lh_n (l_log s) + k;
  mv_log : logl (l_log s) ⊆ logl (l_log s');
}.
Lemma moved_refl s : moved 0 s s.
Proof. split; [done|lia|done]. Qed.
Lemma moved_trans j k s s' s'' : moved j s s' -> moved k s' s'' -> moved (j + k) s s''.
Proof. intros [H1 H2 H3] [H4 H5 H6]. split; [congruence|lia|by etrans]. Qed.
Lemma moved_log k s s' : 0 <= k -> dsk (l_bio s') = dsk (l_bio s) -> l_log s' = l_log s -> moved k s s'.
Proof. intros Hk Hd Hl. split; [done|rewrite Hl; lia|by rewrite Hl]. Qed.
Lemma moved_le j k s s' : j <= k -> moved j s s' -> moved k s s'.
Proof. intros Hk [H1 H2 H3]. split; [done|lia|done]. Qed.

(** Block [x] was logged: it joins the transaction, or is absorbed. *)
Record logs (x : Z) (s s' : lst) : Prop := {
  lo_moved : moved 1 s s';
  lo_in : x ∈ logl (l_log s');
  lo_absorb : x ∈ logl (l_log s) -> lh_n (l_log s') = lh_n (l_log s);
}.

Lemma tx_later c c' H s : later c c' -> tx c H s -> tx c' H s.
Proof.
  intros [e ->] [H1 H2 H3 H4 H5 H6 H7 H8]. split; try done. intros x i Hx. by apply holds_evs, H2.
Qed.

Lemma length_logl l : 0 <= lh_n l -> Z.of_nat (length (logl l)) = lh_n l.
Proof. intros. unfold logl. rewrite length_fmap, length_seqZ. lia. Qed.

Lemma elem_logl l x : x ∈ logl l <-> exists i, 0 <= i < lh_n l /\ lblk l i = x.
Proof.
  unfold logl. rewrite list_elem_of_fmap. setoid_rewrite elem_of_seqZ. split.
  - intros (i & -> & Hi). exists i. split; [lia|done].
  - intros (i & Hi & <-). exists i. split; [done|lia].
Qed.

(** ** log_write's search *)

Lemma log_find_spec k : forall i l b, 0 <= i -> (forall j, i <= j < i + Z.of_nat k -> u32 (lblk l j) = lblk l j) ->
  let r := log_find k i l b in
  (r = i + Z.of_nat k /\ forall j, i <= j < i + Z.of_nat k -> lblk l j <> b) \/
  (i <= r < i + Z.of_nat k /\ lblk l r = b).
Proof.
  induction k as [|k IH]; intros i l b Hi Hu.
  - left. simpl. split; [lia|intros; lia].
  - cbn [log_find]. rewrite Hu by lia. destruct (Z.eqb_spec (lblk l i) b) as [E|E]; [right; split; [lia|done]|].
    destruct (IH (i + 1) l b) as [[E1 H1]|[E1 H1]]; [lia|intros; apply Hu; lia| |].
    + left. split; [lia|]. intros j Hj. destruct (Z.eq_dec j i) as [->|]; [done|]. apply H1. lia.
    + right. split; [lia|done].
Qed.

Section Ops.
Context {D : DiskDriver} {DOK : DiskDriverOk D}.
Variables (c : ctx) (H : gmap Z Z) (s : lst).
Hypotheses (Hcpu : bio_cpu c) (HT : tx c H s).

Lemma tx_room : lh_n (l_log s) + Z.of_nat (size H) < NBUF -> room (l_bio s).
Proof.
  intros Hlt. apply (room_from_refs _ (logl (l_log s) ++ (map_to_list H).*1)); [apply (t_bc _ _ _ HT)| |].
  - intros x Hx. rewrite (t_refs _ _ _ HT) in Hx. apply elem_of_app.
    destruct (decide (x ∈ logl (l_log s))) as [|Hn]; [by left|right].
    rewrite (bool_decide_eq_false_2 _ Hn) in Hx. simpl in Hx.
    destruct (decide (is_Some (H !! x))) as [[i Hi]|Hn']; [|by rewrite bool_decide_eq_false_2 in Hx].
    apply list_elem_of_fmap. exists (x, i). split; [done|]. by apply elem_of_map_to_list.
  - rewrite length_app, length_fmap, length_map_to_list.
    pose proof (length_logl (l_log s) ltac:(apply (t_n _ _ _ HT))). change NBUF with 30 in Hlt. lia.
Qed.

Lemma tx_data x i : H !! x = Some i -> b_data (buf_at (l_bio s) i) = lview s x.
Proof.
  intros Hx. symmetry. apply (view_held c); [apply (t_bc _ _ _ HT)|]. by apply (t_held _ _ _ HT).
Qed.

(** Only block [x] was touched, and its use became [r] references. *)
Lemma tx_step H' b' l' x :
  only x (l_bio s) b' ->
  (forall y, y <> x -> H' !! y = H !! y) ->
  (forall i, H' !! x = Some i -> holds c b' x i) ->
  (H' !! x = None -> blocked b' x = free_lock) ->
  refs b' x = b2z (bool_decide (x ∈ logl l')) + b2z (bool_decide (is_Some (H' !! x))) ->
  (forall y, y <> x -> y ∈ logl l' <-> y ∈ logl (l_log s)) ->
  0 <= lh_n l' <= LOGBLOCKS -> length (lh_block l') = Z.to_nat LOGBLOCKS ->
  Forall (fun x => 0 <= x < 2 ^ 31) (logl l') -> lg_outstanding l' = lg_outstanding (l_log s) ->
  tx c H' (Lst b' l').
Proof.
  intros On HH Hh Hb Hr Hl Hn Hlen HF Ho. destruct HT as [H1 H2 H3 H4 H5 H6 H7 H8].
  split; cbn [l_bio l_log]; [apply (on_ok _ _ _ On)| | | |done|done|done|by rewrite Ho].
  - intros y i Hy. destruct (Z.eq_dec y x) as [->|Hne]; [by apply Hh|].
    rewrite HH in Hy by done. by eapply (holds_only c (l_bio s) b' y x); [|apply H2| |].
  - intros y Hy. destruct (Z.eq_dec y x) as [->|Hne]; [by apply Hb|].
    rewrite HH in Hy by done. destruct (on_same _ _ _ On y Hne) as (_ & _ & ->). by apply H3.
  - intros y. destruct (Z.eq_dec y x) as [->|Hne]; [done|].
    destruct (on_same _ _ _ On y Hne) as (_ & -> & _). rewrite H4, HH by done. do 2 f_equal.
    apply bool_decide_ext. by rewrite Hl.
Qed.

Lemma tx_step_log H' b' x :
  only x (l_bio s) b' ->
  (forall y, y <> x -> H' !! y = H !! y) ->
  (forall i, H' !! x = Some i -> holds c b' x i) ->
  (H' !! x = None -> blocked b' x = free_lock) ->
  refs b' x = b2z (bool_decide (x ∈ logl (l_log s))) + b2z (bool_decide (is_Some (H' !! x))) ->
  tx c H' (Lst b' (l_log s)).
Proof. intros. eapply tx_step; try done; apply HT. Qed.

Lemma tx_bread x : H !! x = None -> lh_n (l_log s) + Z.of_nat (size H) < NBUF ->
  exists i s', zoom bioA (bread ROOTDEV x) c s = Done i c s' /\ tx c (<[x := i]> H) s' /\
    l_log s' = l_log s /\ dsk (l_bio s') = dsk (l_bio s) /\ forall y, lview s' y = lview s y.
Proof.
  intros Hx Hr. pose proof (t_refs _ _ _ HT x) as Er.
  destruct (bread_spec c (l_bio s) Hcpu (t_bc _ _ _ HT) x) as (i & b' & E & Hh & On & V & R & Dk).
  { by rewrite (t_lock _ _ _ HT x Hx). } { right. by apply tx_room. }
  { rewrite Er. repeat destruct (bool_decide _); simpl; lia. }
  exists i, (Lst b' (l_log s)). split; [destruct s; by apply zoom_bio|].
  split; [|split; [done|split; [done|]]].
  - eapply tx_step_log; [done| | | |].
    + intros y Hy. by rewrite lookup_insert_ne by done.
    + intros j. rewrite lookup_insert_eq. intros [= <-]. done.
    + by rewrite lookup_insert_eq.
    + rewrite R, Er, Hx, lookup_insert_eq. rewrite (bool_decide_eq_true_2 (is_Some (Some i))) by done.
      rewrite (bool_decide_eq_false_2 (is_Some None)) by (by intros []). simpl. lia.
  - intros y. destruct (Z.eq_dec y x) as [->|Hne]; [done|]. by destruct (on_same _ _ _ On y Hne).
Qed.

Lemma tx_set x i d : H !! x = Some i ->
  exists s', set_bdata i d c s = Done tt c s' /\ tx c H s' /\ l_log s' = l_log s /\
    dsk (l_bio s') = dsk (l_bio s) /\ lview s' x = d /\ forall y, y <> x -> lview s' y = lview s y.
Proof.
  intros Hx. pose proof (t_held _ _ _ HT x i Hx) as Hh.
  destruct (set_data_spec c (l_bio s) (t_bc _ _ _ HT) x i d Hh) as (Hh' & On & V & R & Dk).
  exists (Lst (upd_buf i (set_data d) (l_bio s)) (l_log s)). split; [by destruct s|].
  split; [|split; [done|split; [done|split; [done|]]]].
  - eapply tx_step_log; [done|done| | |].
    + intros j Hj. assert (i = j) as -> by congruence. done.
    + congruence.
    + by rewrite R, (t_refs _ _ _ HT x).
  - intros y Hy. by destruct (on_same _ _ _ On y Hy).
Qed.

Lemma tx_brelse x i : H !! x = Some i ->
  x ∈ logl (l_log s) \/ lview s x = dget (dsk (l_bio s)) x ->
  exists c' s', zoom bioA (brelse i) c s = Done tt c' s' /\ later c c' /\ tx c' (delete x H) s' /\
    l_log s' = l_log s /\ dsk (l_bio s') = dsk (l_bio s) /\ forall y, lview s' y = lview s y.
Proof.
  intros Hx Hcl. pose proof (t_held _ _ _ HT x i Hx) as Hh. pose proof (t_refs _ _ _ HT x) as Er.
  rewrite (bool_decide_eq_true_2 (is_Some (H !! x))) in Er by (by rewrite Hx).
  destruct (brelse_spec c (l_bio s) x i Hcpu (t_bc _ _ _ HT) Hh) as (E & On & V & R & Dk & Lk).
  { rewrite Er. destruct (bool_decide _); simpl; lia. }
  { intros E1. destruct Hcl as [Hcl|]; [|done]. rewrite (bool_decide_eq_true_2 _ Hcl) in Er. simpl in Er. lia. }
  set (e := Wakeup (C_sleeplock (L_buf i)) :: evs c) in *.
  assert (later c (set_evs e c)) as Hlt by by eexists.
  exists (set_evs e c), (Lst (released i (l_bio s)) (l_log s)). split; [destruct s; by apply zoom_bio|].
  split; [done|]. split; [|split; [done|split; [done|]]].
  - apply (tx_later c); [done|]. eapply tx_step_log; [done| | | |].
    + intros y Hy. by rewrite lookup_delete_ne by done.
    + by rewrite lookup_delete_eq.
    + by intros _.
    + rewrite R, Er, lookup_delete_eq. rewrite (bool_decide_eq_false_2 (is_Some None)) by (by intros []). simpl. lia.
  - intros y. destruct (Z.eq_dec y x) as [->|Hne]; [done|]. by destruct (on_same _ _ _ On y Hne).
Qed.

Lemma logl_u32 j : 0 <= j < lh_n (l_log s) -> u32 (lblk (l_log s) j) = lblk (l_log s) j.
Proof.
  intros Hj. apply u_small. pose proof (t_blk _ _ _ HT) as HF. rewrite Forall_forall in HF.
  assert (lblk (l_log s) j ∈ logl (l_log s)) as Hin by (apply elem_logl; eauto). specialize (HF _ Hin). lia.
Qed.

(** A block that is already in the log is absorbed. *)
Lemma set_block_same l r : 0 <= r -> (Z.to_nat r < length (lh_block l))%nat -> set_block r (lblk l r) l = l.
Proof.
  intros Hr Hl. destruct l as [a b d e n bl]. unfold set_block, lblk in *. cbn [lh_block] in *. f_equal.
  apply list_insert_id. apply lookup_lt_is_Some_2 in Hl as [y Hy]. rewrite Hy. f_equal.
  symmetry. rewrite nth_lookup, Hy. done.
Qed.

(** A new one is appended. *)
Lemma logl_snoc l x : 0 <= lh_n l -> (Z.to_nat (lh_n l) < length (lh_block l))%nat ->
  logl (set_n (lh_n l + 1) (set_block (lh_n l) x l)) = logl l ++ [x].
Proof.
  intros Hn Hl. unfold logl. cbn [lh_n set_n]. rewrite seqZ_app by lia. rewrite fmap_app. f_equal.
  - apply list_fmap_ext. intros k i Hi%lookup_seqZ. unfold lblk. cbn [lh_block set_n set_block].
    rewrite !nth_lookup, list_lookup_insert_ne by lia. done.
  - simpl. f_equal. unfold lblk. cbn [lh_block set_n set_block]. rewrite nth_lookup, Z.add_0_l.
    by rewrite list_lookup_insert_eq by done.
Qed.

Lemma tx_log x i : H !! x = Some i -> 0 <= x < 2 ^ 31 -> lh_n (l_log s) < LOGBLOCKS -> unlocked L_log c ->
  exists s', log_write i c s = Done tt c s' /\ tx c H s' /\ logs x s s' /\ forall y, lview s' y = lview s y.
Proof.
  intros Hx Hb Hn Hul. pose proof (t_held _ _ _ HT x i Hx) as Hh. pose proof (h_cached _ _ _ _ Hh) as (Hi & _ & Ebn).
  pose proof (t_n _ _ _ HT) as Hn0. pose proof (t_len _ _ _ HT) as Hlen.
  pose proof (log_write_eq c (l_bio s) (l_log s) i Hcpu Hul Hn (t_out _ _ _ HT)) as E.
  rewrite Ebn in E. set (r := log_find _ _ _ _) in E.
  replace (Lst (l_bio s) (l_log s)) with s in E by by destruct s.
  destruct (log_find_spec (Z.to_nat (lh_n (l_log s))) 0 (l_log s) x) as [[Er Hne]|[Er Ebl]]; [done| | |]; try fold r in Er.
  { intros j Hj. apply logl_u32. lia. }
  - (* a new block *)
    rewrite Z2Nat.id in Er, Hne by lia. rewrite Z.add_0_l in Er, Hne.
    assert (x ∉ logl (l_log s)) as Hni by (intros (j & Hj & Ej)%elem_logl; by apply (Hne j)).
    pose proof (t_refs _ _ _ HT x) as Ef. rewrite (bool_decide_eq_false_2 _ Hni) in Ef.
    rewrite (bool_decide_eq_true_2 (is_Some (H !! x))) in Ef by (by rewrite Hx). simpl in Ef.
    destruct (refcnt_upd_spec c (l_bio s) (t_bc _ _ _ HT) x i 1 (h_cached _ _ _ _ Hh)) as (On & V & R & Dk & Hh'); [lia|lia|].
    unfold logged in E. rewrite Er, Z.eqb_refl, Ebn, (i32_small x Hb) in E.
    eexists. split; [exact E|].
    assert (logl (set_n (lh_n (l_log s) + 1) (set_block (lh_n (l_log s)) x (l_log s))) = logl (l_log s) ++ [x]) as El.
    { apply logl_snoc; [lia|]. rewrite Hlen. lia. }
    split; [|split; [split|]].
    + eapply (tx_step H _ _ x); [exact On|done| | | | | | | |done].
      * intros j Hj. assert (i = j) as <- by congruence. by apply Hh'.
      * congruence.
      * rewrite R, Ef, El, Hx. rewrite bool_decide_eq_true_2 by set_solver.
        rewrite bool_decide_eq_true_2 by done. done.
      * intros y Hy. rewrite El, elem_of_app, list_elem_of_singleton. tauto.
      * cbn [lh_n set_n]. lia.
      * cbn [lh_block set_n set_block]. by rewrite length_insert.
      * rewrite El. apply Forall_app. split; [apply (t_blk _ _ _ HT)|]. by apply Forall_singleton.
    + split; [done|cbn [l_log lh_n set_n]; lia|cbn [l_log]; rewrite El; set_solver].
    + cbn [l_log]. rewrite El. set_solver.
    + done.
    + intros y. destruct (Z.eq_dec y x) as [->|Hy]; [done|]. by destruct (on_same _ _ _ On y Hy).
  - (* absorbed *)
    rewrite Z2Nat.id in Er by lia. exists s. split; [|split; [done|split; [split|]]].
    + unfold logged in E. rewrite (proj2 (Z.eqb_neq r (lh_n (l_log s)))), Ebn, (i32_small x Hb) in E by lia.
      rewrite E. f_equal. assert (set_block r x (l_log s) = l_log s) as ->; [|by destruct s].
      pose proof (set_block_same (l_log s) r) as Es. change (lblk (l_log s) r = x) in Ebl. rewrite Ebl in Es. apply Es; rewrite ?Hlen; lia.
    + apply (moved_le 0); [lia|apply moved_refl].
    + apply elem_logl. eauto with lia.
    + done.
    + done.
Qed.
End Ops.

(** ** The same operations in the kernel's state *)

Definition kview (s : kst) (x : Z) : block := lview (k_log s) x.

Lemma kzoom_bio {A} (m : K bio A) c s a c' l' :
  zoom bioA m c (k_log s) = Done a c' l' -> zoom kbioA m c s = Done a c' (set_klog s l').
Proof.
  unfold zoom. simpl. destruct (m c (l_bio (k_log s))); try done. intros [= <- <- <-]. by destruct s.
Qed.
Lemma kzoom_log {A} (m : K lst A) c s a c' l' :
  m c (k_log s) = Done a c' l' -> zoom logA m c s = Done a c' (set_klog s l').
Proof. intros E. unfold zoom. simpl. by rewrite E. Qed.

Section Use.
Context {D : DiskDriver} {DOK : DiskDriverOk D}.
Variables (c : ctx) (H : gmap Z Z) (s : kst) (x : Z).
Hypotheses (Hcpu : bio_cpu c) (Hul : unlocked L_log c) (HT : tx c H (k_log s)) (Hx : H !! x = None)
  (Hr : lh_n (l_log (k_log s)) + Z.of_nat (size H) < NBUF).

(** A block is read; it can be released as it is, or changed, logged and
    released. *)
Lemma block_use : exists i l1,
  zoom kbioA (bread ROOTDEV x) c s = Done i c (set_klog s l1) /\
  kdata i c (set_klog s l1) = Done (kview s x) c (set_klog s l1) /\
  (exists c' l2, zoom kbioA (brelse i) c (set_klog s l1) = Done tt c' (set_klog s l2) /\ later c c' /\
     tx c' H l2 /\ moved 0 (k_log s) l2 /\ forall y, lview l2 y = kview s y) /\
  (0 <= x < 2 ^ 31 -> lh_n (l_log (k_log s)) < LOGBLOCKS ->
   forall d, exists l3 l4 c' l5, set_kdata i d c (set_klog s l1) = Done tt c (set_klog s l3) /\
     zoom logA (log_write i) c (set_klog s l3) = Done tt c (set_klog s l4) /\
     zoom kbioA (brelse i) c (set_klog s l4) = Done tt c' (set_klog s l5) /\ later c c' /\
     tx c' H l5 /\ logs x (k_log s) l5 /\ lview l5 x = d /\ forall y, y <> x -> lview l5 y = kview s y).
Proof.
  destruct (tx_bread c H (k_log s) Hcpu HT x Hx Hr) as (i & l1 & E1 & T1 & L1 & D1 & V1).
  assert (<[x:=i]> H !! x = Some i) as Hi by apply lookup_insert_eq.
  assert (delete x (<[x:=i]> H) = H) as Hdel by by apply delete_insert_id.
  exists i, l1. split; [by apply kzoom_bio|]. split.
  { unfold kdata, zoom, bdata, gets. simpl. rewrite (tx_data c _ l1 T1 x i Hi), V1. done. }
  split.
  - destruct (tx_brelse c _ l1 Hcpu T1 x i Hi) as (c' & l2 & E2 & Hc & T2 & L2 & D2 & V2).
    { destruct (decide (x ∈ logl (l_log l1))) as [|Hn]; [by left|right]. rewrite V1, D1. rewrite L1 in Hn.
      apply view_unreferenced; [apply (t_bc _ _ _ HT)|]. rewrite (t_refs _ _ _ HT), Hx.
      rewrite (bool_decide_eq_false_2 _ Hn), (bool_decide_eq_false_2 (is_Some None)) by (by intros []). done. }
    exists c', l2. split; [exact (kzoom_bio _ c (set_klog s l1) _ _ _ E2)|]. rewrite Hdel in T2.
    split; [done|]. split; [done|]. split; [apply moved_log; [lia|congruence|congruence]|].
    intros y. by rewrite V2, V1.
  - intros Hxr Hn d. destruct (tx_set c _ l1 T1 x i d Hi) as (l3 & E3 & T3 & L3 & D3 & V3 & V3').
    destruct (tx_log c _ l3 Hcpu T3 x i Hi Hxr ltac:(rewrite L3, L1; done) Hul) as (l4 & E4 & T4 & [M4 I4 A4] & V4).
    destruct (tx_brelse c _ l4 Hcpu T4 x i Hi (or_introl I4)) as (c' & l5 & E5 & Hc & T5 & L5 & D5 & V5).
    rewrite Hdel in T5. exists l3, l4, c', l5.
    split; [exact (kzoom_log _ c (set_klog s l1) _ _ _ E3)|].
    split; [exact (kzoom_log _ c (set_klog s l3) _ _ _ E4)|].
    split; [exact (kzoom_bio _ c (set_klog s l4) _ _ _ E5)|]. split; [done|]. split; [done|].
    split; [|split].
    + rewrite L3, L1 in A4. destruct M4 as [M1 M2 M3]. split; [split; [congruence| |]|by rewrite L5|by rewrite L5].
      * rewrite L5. etrans; [exact M2|]. by rewrite L3, L1.
      * rewrite L5. etrans; [|exact M3]. by rewrite L3, L1.
    + by rewrite V5, V4, V3.
    + intros y Hy. by rewrite V5, V4, V3', V1.
Qed.
End Use.

(** ** A concrete operation: one has begun, on a freshly booted cache over [d] *)

Definition op_ctx : ctx :=
  with_lock (L_inode 0) "sleep lock" (with_lock L_itable "itable" (with_lock L_log "log" (with_lock L_pr "pr" boot_ctx))).
Definition op_bio (d : disk) : bio := match binit ctx0 (Bio ∅ d) with Done _ _ s => s | _ => Bio ∅ d end.
Definition op_state (d : disk) (sb : superblock) : kst :=
  Kst (PMem ∅ 0) (Lst (op_bio d) (set_outstanding 1 log_init)) sb ∅ ∅ ∅ ∅ 1 0 (Console [] 0 0 0) false 0.

Lemma op_ctx_cpu : bio_cpu op_ctx /\ unlocked L_log op_ctx /\ unlocked L_pr op_ctx /\ unlocked L_itable op_ctx /\
  unlocked (L_inode 0) op_ctx.
Proof.
  split; [repeat (apply bio_cpu_with_lock; [done|done|]); exact boot_cpu|].
  split_and!; [exists "log"%string|exists "pr"%string|exists "itable"%string|exists "sleep lock"%string];
    unfold op_ctx, with_lock; cbn [locks set_locks]; rewrite ?lookup_insert_ne by done; apply lookup_insert_eq.
Qed.

Lemma op_bio_blank d : bc_ok (op_bio d) /\ blank (op_bio d) /\ dsk (op_bio d) = d.
Proof. unfold op_bio. destruct (binit_spec ctx0 d) as (s' & -> & Hok & Hb & Hd). done. Qed.
#[global] Opaque op_bio.

Lemma op_tx d sb : tx op_ctx ∅ (k_log (op_state d sb)) /\ forall y, kview (op_state d sb) y = dget d y.
Proof.
  destruct (op_bio_blank d) as (Hok & Hb & Hd). split.
  - split; cbn [k_log op_state l_bio l_log]; [exact Hok|by intros x i ?| | | |done|by apply Forall_nil|done].
    + intros x _. by destruct (blank_use (op_bio d) x Hb) as (_ & -> & _).
    + intros x. destruct (blank_use (op_bio d) x Hb) as (-> & _ & _). rewrite lookup_empty.
      rewrite !bool_decide_eq_false_2; [done|by intros []|]. change (logl _) with (@nil Z). set_solver.
    + done.
  - intros y. unfold kview, lview. cbn [k_log op_state l_bio]. destruct (blank_use (op_bio d) y Hb) as (_ & _ & ->).
    by rewrite Hd.
Qed.
