(* ===== verification/Alloc.v ===== *)
(** * The block allocator (theorems on balloc and bfree of Fs.v)

    The bitmap blocks represent the set of blocks in use; balloc takes the
    lowest free one and zeroes it, bfree gives a block back. *)
From stdpp Require Import base numbers list gmap strings.
From S2P Require Import Prelude Kernel Spinlock Sleeplock Bio Bcache Printf Log Redo LogOps Riscv Kalloc Vm Kstate Proc Fs Txn.

(** ** Bits *)

Definition is_blk (d : block) : Prop := length d = Z.to_nat BSIZE /\ Forall is_byte d.

Lemma blk_byte d k : is_blk d -> is_byte (nth k d 0).
Proof.
  intros [_ HF]. destruct (decide (k < length d)%nat) as [Hk|Hk].
  - apply (proj1 (List.Forall_forall _ _) HF), List.nth_In. done.
  - rewrite nth_overflow by lia. unfold is_byte. lia.
Qed.

Lemma bit_free_eq d bi : 0 <= bi -> bit_free d bi = negb (Z.testbit (nth (Z.to_nat (bi / 8)) d 0) (bi mod 8)).
Proof.
  intros Hb. unfold bit_free. pose proof (Z.mod_pos_bound bi 8 ltac:(lia)) as Hm.
  set (x := nth _ _ _). rewrite Z.shiftl_1_l. destruct (Z.testbit x (bi mod 8)) eqn:E; cbn [negb].
  - apply Z.eqb_neq. intros E0. assert (Z.testbit (Z.land x (2 ^ (bi mod 8))) (bi mod 8) = true) as Ht.
    { rewrite Z.land_spec, E, Z.pow2_bits_true by lia. done. }
    rewrite E0, Z.bits_0 in Ht. done.
  - apply Z.eqb_eq. apply Z.bits_inj'. intros k Hk. rewrite Z.land_spec, Z.bits_0.
    destruct (Z.eq_dec k (bi mod 8)) as [->|Hne]; [by rewrite E|].
    rewrite Z.pow2_bits_false by lia. apply andb_false_r.
Qed.

Lemma byte_testbit x j : is_byte x -> 8 <= j -> Z.testbit x j = false.
Proof.
  intros [H1 H2] Hj. apply Z.testbit_false; [lia|]. rewrite Z.div_small; [done|]. split; [done|].
  eapply Z.lt_le_trans; [exact H2|]. change 256 with (2 ^ 8). apply Z.pow_le_mono_r; lia.
Qed.

Lemma u8_testbit x j : 0 <= j < 8 -> Z.testbit (u8 x) j = Z.testbit x j.
Proof. intros Hj. unfold u_. by rewrite Z.mod_pow2_bits_low by lia. Qed.
Lemma u8_byte x : is_byte (u8 x).
Proof. unfold is_byte. change 256 with (2 ^ 8). apply u_range. lia. Qed.

(** The bit of [bj] after byte [bi/8] was replaced by one that differs from it
    only in bit [bi mod 8], which is now [v]. *)
Lemma bit_free_upd d bi bj y v : is_blk d -> 0 <= bi < BPB -> 0 <= bj < BPB ->
  (forall j, 0 <= j < 8 -> Z.testbit y j =
     if j =? bi mod 8 then v else Z.testbit (nth (Z.to_nat (bi / 8)) d 0) j) ->
  bit_free (<[Z.to_nat (bi / 8) := y]> d) bj = if bi =? bj then negb v else bit_free d bj.
Proof.
  intros [Hl _] Hi Hj Hy. change BPB with 8192 in *. change (Z.to_nat BSIZE) with 1024%nat in Hl.
  rewrite !bit_free_eq by lia. pose proof (Z.mod_pos_bound bj 8 ltac:(lia)) as Hm.
  pose proof (Z.div_mod bi 8 ltac:(lia)) as E1. pose proof (Z.div_mod bj 8 ltac:(lia)) as E2.
  pose proof (Z.mod_pos_bound bi 8 ltac:(lia)) as Hm'.
  rewrite !nth_lookup. destruct (Z.eq_dec (bi / 8) (bj / 8)) as [E|E].
  - rewrite E, list_lookup_insert_eq by lia. cbn [default from_option id].
    rewrite Hy by done. rewrite E, nth_lookup.
    destruct (Z.eqb_spec (bj mod 8) (bi mod 8)), (Z.eqb_spec bi bj); try lia; done.
  - rewrite list_lookup_insert_ne by lia. rewrite (proj2 (Z.eqb_neq bi bj)); [done|congruence].
Qed.

Lemma is_blk_insert d k y : is_blk d -> is_byte y -> is_blk (<[k := y]> d).
Proof. intros [Hl HF] Hy. split; [by rewrite length_insert|by apply Forall_insert]. Qed.

Lemma bit_set_spec d bi : is_blk d -> 0 <= bi < BPB ->
  is_blk (bit_set bi d) /\ forall bj, 0 <= bj < BPB ->
    bit_free (bit_set bi d) bj = if bi =? bj then false else bit_free d bj.
Proof.
  intros Hd Hi. split; [apply is_blk_insert; [done|apply u8_byte]|]. intros bj Hj.
  apply (bit_free_upd d bi bj _ true); [done..|]. intros j H8. rewrite u8_testbit, Z.lor_spec, Z.shiftl_1_l by done.
  pose proof (Z.mod_pos_bound bi 8 ltac:(lia)). destruct (Z.eqb_spec j (bi mod 8)) as [->|Hne].
  - rewrite Z.pow2_bits_true by lia. apply orb_true_r.
  - rewrite Z.pow2_bits_false by lia. apply orb_false_r.
Qed.

Lemma bit_clear_spec d bi : is_blk d -> 0 <= bi < BPB ->
  is_blk (bit_clear bi d) /\ forall bj, 0 <= bj < BPB ->
    bit_free (bit_clear bi d) bj = if bi =? bj then true else bit_free d bj.
Proof.
  intros Hd Hi. split; [apply is_blk_insert; [done|apply u8_byte]|]. intros bj Hj.
  apply (bit_free_upd d bi bj _ false); [done..|]. intros j H8.
  rewrite u8_testbit, Z.land_spec, Z.lnot_spec, Z.shiftl_1_l by lia.
  pose proof (Z.mod_pos_bound bi 8 ltac:(lia)). destruct (Z.eqb_spec j (bi mod 8)) as [->|Hne].
  - rewrite Z.pow2_bits_true by lia. apply andb_false_r.
  - rewrite Z.pow2_bits_false by lia. apply andb_true_r.
Qed.

(** Taking a free bit and giving it back restores the block exactly. *)
Lemma bit_clear_set d bi : is_blk d -> 0 <= bi < BPB -> bit_free d bi = true -> bit_clear bi (bit_set bi d) = d.
Proof.
  intros Hd Hi Hf. pose proof Hd as [Hl _]. change BPB with 8192 in Hi. change (Z.to_nat BSIZE) with 1024%nat in Hl.
  unfold bit_clear, bit_set. set (k := Z.to_nat (bi / 8)).
  assert (k < length d)%nat as Hk by (unfold k; assert (bi / 8 < 1024) by (apply Z.div_lt_upper_bound; lia); lia).
  rewrite list_insert_insert_eq. apply lookup_lt_is_Some_2 in Hk as Hs. destruct Hs as [x Hx].
  apply list_insert_id. rewrite Hx. f_equal. rewrite !nth_lookup.
  rewrite list_lookup_insert_eq by done. rewrite Hx. cbn [default from_option id].
  rewrite bit_free_eq in Hf by lia. fold k in Hf. rewrite nth_lookup, Hx in Hf. cbn in Hf.
  pose proof (blk_byte d k Hd) as Hb. rewrite nth_lookup, Hx in Hb. cbn in Hb.
  pose proof (Z.mod_pos_bound bi 8 ltac:(lia)) as Hm.
  apply Z.bits_inj'. intros j Hj. destruct (Z.lt_ge_cases j 8) as [H8|H8].
  - rewrite u8_testbit, Z.land_spec, Z.lnot_spec, u8_testbit, Z.lor_spec, Z.shiftl_1_l by lia.
    destruct (Z.eq_dec j (bi mod 8)) as [->|Hne].
    + rewrite Z.pow2_bits_true by lia. rewrite andb_false_r. apply negb_true_iff in Hf. done.
    + rewrite Z.pow2_bits_false by lia. by rewrite orb_false_r, andb_true_r.
  - by rewrite (byte_testbit _ j (u8_byte _) H8), (byte_testbit x j Hb H8).
Qed.

(** ** The allocator *)

Definition used (sb : superblock) (v : Z -> block) (b : Z) : bool := negb (bit_free (v (BBLOCK b sb)) (b mod BPB)).

(** The bitmap is a range of whole blocks that does not contain free blocks. *)
Record bitmap_ok (sb : superblock) (v : Z -> block) : Prop := {
  bm_size : 0 < sb_size sb < 2 ^ 31;
  bm_start : 0 <= sb_bmapstart sb < 2 ^ 30;
  bm_blk : forall b, 0 <= b < sb_size sb -> is_blk (v (BBLOCK b sb));
  bm_free : forall b b', 0 <= b < sb_size sb -> 0 <= b' < sb_size sb -> used sb v b = false -> b <> BBLOCK b' sb;
}.

Section Bitmap.
Variables (sb : superblock) (v : Z -> block).
Hypothesis (Hbm : bitmap_ok sb v).

Lemma BBLOCK_eq b : 0 <= b < sb_size sb -> BBLOCK b sb = b / BPB + sb_bmapstart sb.
Proof.
  intros Hb. destruct (bm_size _ _ Hbm), (bm_start _ _ Hbm). unfold BBLOCK. apply u_small.
  assert (0 <= b / BPB) by (apply Z.div_pos; [lia|done]).
  assert (b / BPB < 2 ^ 18) by (apply Z.div_lt_upper_bound; [done|]; change BPB with (2 ^ 13); lia). lia.
Qed.
Lemma BBLOCK_range b : 0 <= b < sb_size sb -> 0 <= BBLOCK b sb < 2 ^ 31.
Proof.
  intros Hb. rewrite BBLOCK_eq by done. destruct (bm_size _ _ Hbm), (bm_start _ _ Hbm).
  assert (0 <= b / BPB) by (apply Z.div_pos; [lia|done]).
  assert (b / BPB < 2 ^ 18) by (apply Z.div_lt_upper_bound; [done|]; change BPB with (2 ^ 13); lia). lia.
Qed.
(** The bits of two blocks are in the same bitmap block when their quotients are. *)
Lemma BBLOCK_same b b' : 0 <= b < sb_size sb -> 0 <= b' < sb_size sb ->
  BBLOCK b sb = BBLOCK b' sb -> b / BPB = b' / BPB.
Proof. intros Hb Hb'. rewrite !BBLOCK_eq by done. lia. Qed.
End Bitmap.

(** The scan of a bitmap block. *)
Lemma bit_scan_spec n : forall bi b size d, 0 <= bi ->
  match bit_scan n bi b size d with
  | Some r => bi <= r < bi + Z.of_nat n /\ b + r < size /\ bit_free d r = true /\
      forall j, bi <= j < r -> bit_free d j = false
  | None => forall j, bi <= j < bi + Z.of_nat n -> b + j < size -> bit_free d j = false
  end.
Proof.
  induction n as [|n IH]; intros bi b size d Hbi; cbn [bit_scan]; [intros; lia|].
  destruct (Z.ltb_spec (b + bi) size) as [Hlt|Hge]; cbn [negb]; [|intros; lia].
  destruct (bit_free d bi) eqn:E; [split_and!; try lia; done|].
  specialize (IH (bi + 1) b size d ltac:(lia)). destruct (bit_scan n (bi + 1) b size d) as [r|].
  - destruct IH as (H1 & H2 & H3 & H4). split_and!; try lia; [done|].
    intros j Hj. destruct (Z.eq_dec j bi) as [->|]; [done|]. apply H4. lia.
  - intros j Hj Hs. destruct (Z.eq_dec j bi) as [->|]; [done|]. apply IH; lia.
Qed.

Section Balloc.
Context {D : DiskDriver} {DOK : DiskDriverOk D}.

Lemma bzero_spec c H s b : bio_cpu c -> unlocked L_log c -> tx c H (k_log s) -> H !! b = None -> 0 <= b < 2 ^ 31 ->
  lh_n (l_log (k_log s)) + Z.of_nat (size H) < NBUF ->
  exists c' l', bzero ROOTDEV b c s = Done tt c' (set_klog s l') /\ later c c' /\ tx c' H l' /\
    moved 1 (k_log s) l' /\ lview l' b = zero_block /\ forall y, y <> b -> lview l' y = kview s y.
Proof.
  intros Hcpu Hul HT Hb Hr Hn. assert (lh_n (l_log (k_log s)) < LOGBLOCKS) as Hn' by (change LOGBLOCKS with NBUF; lia).
  destruct (block_use c H s b Hcpu Hul HT Hb Hn) as (i & l1 & E1 & _ & _ & HW).
  destruct (HW Hr Hn' zero_block) as (l3 & l4 & c' & l5 & E3 & E4 & E5 & Hc & T & [M _ _] & V).
  exists c', l5. split; [|done]. unfold bzero. change (u32 ROOTDEV) with ROOTDEV.
  rewrite (u_small 32 b) by lia. kstep E1. kstep E3. kstep E4. exact E5.
Qed.

Variables (sb : superblock) (v : Z -> block) (H : gmap Z Z).
Hypotheses (Hbm : bitmap_ok sb v)
  (HH : forall b, 0 <= b < sb_size sb -> H !! BBLOCK b sb = None /\ (used sb v b = false -> H !! b = None)).

(** What balloc leaves when it has taken block [b]. *)
Record taken (b : Z) (l : lst) : Prop := {
  tk_free : used sb v b = false;
  tk_least : forall b', 0 <= b' < b -> used sb v b' = true;
  tk_zero : lview l b = zero_block;
  tk_bit : lview l (BBLOCK b sb) = bit_set (b mod BPB) (v (BBLOCK b sb));
  tk_rest : forall y, y <> b -> y <> BBLOCK b sb -> lview l y = v y;
}.

Lemma balloc_loop_spec fuel : forall b c s, 0 <= b -> b mod BPB = 0 -> sb_size sb <= b + BPB * Z.of_nat fuel ->
  bio_cpu c -> unlocked L_log c -> tx c H (k_log s) -> k_sb s = sb -> (forall y, kview s y = v y) ->
  lh_n (l_log (k_log s)) + Z.of_nat (size H) + 1 < NBUF ->
  (forall b', 0 <= b' < b -> b' < sb_size sb -> used sb v b' = true) ->
  exists c' l' r, balloc_loop fuel b ROOTDEV c s = Done r c' (set_klog s l') /\ later c c' /\ tx c' H l' /\
    moved 2 (k_log s) l' /\
    match r with
    | Some x => 0 <= x < sb_size sb /\ taken x l'
    | None => (forall b', 0 <= b' < sb_size sb -> used sb v b' = true) /\ forall y, lview l' y = v y
    end.
Proof.
  induction fuel as [|fuel IH]; intros b c s Hb Hm Hf Hcpu Hul HT Es Hv Hn Hprev; cbn [balloc_loop]; unfold gsb; krun;
    rewrite Es; destruct (Z.ltb_spec b (sb_size sb)) as [Hlt|Hge]; cbn [negb]; try lia.
  1, 3: exists c, (k_log s), None; split; [by destruct s|]; split; [apply later_refl|]; split; [done|];
    split; [apply moved_log; done|]; split; [intros b' Hb'; apply Hprev; lia|done].
  pose proof (bm_size _ _ Hbm) as Hsz. destruct (HH b) as [Hbb _]; [lia|].
  pose proof (BBLOCK_range sb v Hbm b ltac:(lia)) as Hbr.
  destruct (block_use c H s (BBLOCK b sb) Hcpu Hul HT Hbb ltac:(lia)) as (i & l1 & E1 & Ed & HR & HW).
  rewrite E1. cbv beta iota. rewrite Ed. cbv beta iota. rewrite Hv.
  pose proof (bit_scan_spec (Z.to_nat BPB) 0 b (sb_size sb) (v (BBLOCK b sb)) ltac:(lia)) as Hs.
  rewrite Z2Nat.id in Hs by done.
  assert (forall j, 0 <= j < BPB -> b + j < sb_size sb -> used sb v (b + j) = negb (bit_free (v (BBLOCK b sb)) j)) as Hu.
  { intros j Hj Hjs. unfold used. rewrite !(BBLOCK_eq sb v Hbm) by lia.
    assert (b = BPB * (b / BPB)) as Eb by (pose proof (Z.div_mod b BPB ltac:(done)); lia).
    replace (b + j) with (j + b / BPB * BPB) by lia. rewrite Z.div_add by done. rewrite Z.mod_add by done.
    rewrite Z.div_small, Z.mod_small by lia. done. }
  destruct (bit_scan _ _ _ _ _) as [bi|].
  - destruct Hs as (Hbi & Hbs & Hfree & Hleast). rewrite Z.add_0_l in Hbi.
    assert (lh_n (l_log (k_log s)) < LOGBLOCKS) as Hn' by (change LOGBLOCKS with NBUF; lia).
    destruct (HW Hbr Hn' (bit_set bi (v (BBLOCK b sb)))) as (l3 & l4 & c4 & l5 & E3 & E4 & E5 & Hc4 & T5 & [M5 _ _] & V5 & V5').
    rewrite E3. cbv beta iota. rewrite E4. cbv beta iota. rewrite E5. cbv beta iota.
    assert (used sb v (b + bi) = false) as Hnu by (rewrite Hu by lia; by rewrite Hfree).
    destruct (HH (b + bi) ltac:(lia)) as [_ Hb1]. specialize (Hb1 Hnu).
    assert (b + bi <> BBLOCK b sb) as Hneq by (apply (bm_free _ _ Hbm); [lia|lia|done]).
    destruct (bzero_spec c4 H (set_klog s l5) (b + bi)) as (c6 & l6 & E6 & Hc6 & T6 & M6 & V6 & V6');
      [by apply (later_cpu c)|by apply (later_unlocked L_log c)|done|done|lia|pose proof (mv_n _ _ _ M5); simpl; lia|].
    rewrite E6. cbv beta iota. exists c6, l6, (Some (b + bi)). split; [by destruct s|].
    split; [by eapply later_trans|]. split; [done|]. split; [by apply (moved_trans 1 1 _ l5)|]. split; [lia|].
    assert ((b + bi) mod BPB = bi) as Emod.
    { rewrite Z.add_mod, Hm, Z.add_0_l, Z.mod_mod, Z.mod_small by done || lia. done. }
    assert (BBLOCK (b + bi) sb = BBLOCK b sb) as EB.
    { rewrite !(BBLOCK_eq sb v Hbm) by lia. f_equal. pose proof (Z.div_mod b BPB ltac:(done)) as Eb. rewrite Hm in Eb.
      replace (b + bi) with (bi + b / BPB * BPB) by lia. rewrite Z.div_add by done. rewrite Z.div_small by lia. lia. }
    split; [done| |done| |].
    + intros b' Hb'. destruct (Z.lt_ge_cases b' b) as [Hl|Hl]; [apply Hprev; lia|].
      replace b' with (b + (b' - b)) by lia. rewrite Hu by lia. by rewrite Hleast by lia.
    + rewrite EB, Emod, V6' by congruence. done.
    + intros y Hy1 Hy2. rewrite EB in Hy2. rewrite V6' by done. etrans; [by apply V5'|]. done.
  - destruct HR as (c2 & l2 & E2 & Hc2 & T2 & M2 & V2). rewrite E2. cbv beta iota.
    destruct (IH (b + BPB) c2 (set_klog s l2)) as (c' & l' & r & E & Hc & T & M & Hr);
      [unfold BPB, BSIZE; lia| |lia|by apply (later_cpu c)|by apply (later_unlocked L_log c)|done|done| | | |].
    + rewrite Z.add_mod, Hm, Z.mod_same by done. done.
    + intros y. etrans; [apply V2|]. done.
    + pose proof (mv_n _ _ _ M2). simpl. lia.
    + intros b' Hb' Hs'. destruct (Z.lt_ge_cases b' b) as [Hl|Hl]; [apply Hprev; lia|].
      replace b' with (b + (b' - b)) by lia. rewrite Hu by lia. by rewrite Hs by lia.
    + exists c', l', r. split; [exact E|]. split; [by eapply later_trans|]. split; [done|].
      split; [apply (moved_trans 0 2 _ l2); done|done].
Qed.

Lemma balloc_spec c s : bio_cpu c -> unlocked L_log c -> unlocked L_pr c -> tx c H (k_log s) -> k_sb s = sb ->
  (forall y, kview s y = v y) -> lh_n (l_log (k_log s)) + Z.of_nat (size H) + 1 < NBUF ->
  exists c' l' r, balloc ROOTDEV c s = Done r c' (set_klog s l') /\ later c c' /\ tx c' H l' /\ moved 2 (k_log s) l' /\
    ((0 <= r < sb_size sb /\ taken r l') \/
     (r = 0 /\ (forall b, 0 <= b < sb_size sb -> used sb v b = true) /\ forall y, lview l' y = v y)).
Proof.
  intros Hcpu Hul Hpr HT Es Hv Hn. pose proof (bm_size _ _ Hbm) as Hsz.
  destruct (balloc_loop_spec (Z.to_nat (sb_size sb / BPB + 1)) 0 c s) as (c' & l' & r & E & Hc & T & M & Hr);
    [lia|done| |done|done|done|done|done|done|intros; lia|].
  { rewrite Z2Nat.id by (assert (0 <= sb_size sb / BPB) by (apply Z.div_pos; [lia|done]); lia).
    pose proof (Z.div_mod (sb_size sb) BPB ltac:(done)).
    pose proof (Z.mod_pos_bound (sb_size sb) BPB ltac:(done)). lia. }
  unfold balloc, gsb. krun. rewrite Es, E. cbv beta iota. destruct r as [x|].
  - exists c', l', x. split; [done|]. split; [done|]. split; [done|]. split; [done|]. by left.
  - assert (cpu_ok c') as Hc' by (apply (later_cpu_ok c); [done|apply Hcpu]).
    destruct (printf_later (chars "balloc: out of blocks" ++ [10]) [] c' (set_klog s l') Hc') as (c2 & E2 & Hc2);
      [by apply (later_unlocked L_pr c)|].
    rewrite E2. exists c2, l', 0. split; [done|]. split; [by eapply later_trans|].
    split; [by apply (tx_later c')|]. split; [done|]. by right.
Qed.

(** bfree of a block in use. *)
Lemma bfree_spec c s b : bio_cpu c -> unlocked L_log c -> tx c H (k_log s) -> k_sb s = sb ->
  (forall y, kview s y = v y) -> lh_n (l_log (k_log s)) + Z.of_nat (size H) < NBUF ->
  0 <= b < sb_size sb -> used sb v b = true ->
  exists c' l', bfree ROOTDEV b c s = Done tt c' (set_klog s l') /\ later c c' /\ tx c' H l' /\
    logs (BBLOCK b sb) (k_log s) l' /\
    lview l' (BBLOCK b sb) = bit_clear (b mod BPB) (v (BBLOCK b sb)) /\
    forall y, y <> BBLOCK b sb -> lview l' y = v y.
Proof.
  intros Hcpu Hul HT Es Hv Hn Hb Hu. destruct (HH b Hb) as [Hbb _].
  assert (lh_n (l_log (k_log s)) < LOGBLOCKS) as Hn' by (change LOGBLOCKS with NBUF; lia).
  destruct (block_use c H s (BBLOCK b sb) Hcpu Hul HT Hbb Hn) as (i & l1 & E1 & Ed & _ & HW).
  destruct (HW (BBLOCK_range sb v Hbm b Hb) Hn' (bit_clear (b mod BPB) (v (BBLOCK b sb))))
    as (l3 & l4 & c' & l5 & E3 & E4 & E5 & Hc & T & M & V & V').
  exists c', l5. split; [|split; [done|split; [done|split; [done|split; [done|]]]]].
  - unfold bfree, gsb. krun. rewrite Es. change (u32 ROOTDEV) with ROOTDEV. rewrite E1. cbv beta iota.
    rewrite Ed. cbv beta iota. rewrite Hv. unfold used in Hu. apply negb_true_iff in Hu. rewrite Hu.
    cbv beta iota. rewrite E3. cbv beta iota. rewrite E4. cbv beta iota. exact E5.
  - intros y Hy. rewrite V' by done. apply Hv.
Qed.
End Balloc.

(** The bitmap after a block is taken. *)
Lemma taken_used sb v b l b' : bitmap_ok sb v -> 0 <= b < sb_size sb -> 0 <= b' < sb_size sb -> taken sb v b l ->
  used sb (lview l) b' = (b' =? b) || used sb v b'.
Proof.
  intros Hbm Hb Hb' [Hf _ _ Hbit Hrest]. pose proof (bm_free _ _ Hbm b b' Hb Hb' Hf) as Hne.
  assert (forall z, 0 <= z mod BPB < BPB) as Hmod by (intros; by apply Z.mod_pos_bound).
  unfold used. destruct (Z.eq_dec (BBLOCK b' sb) (BBLOCK b sb)) as [E|E].
  - rewrite E, Hbit. destruct (bit_set_spec (v (BBLOCK b sb)) (b mod BPB)) as [_ Hs]; [by apply (bm_blk _ _ Hbm)|done|].
    rewrite Hs by done. pose proof (BBLOCK_same sb v Hbm b' b Hb' Hb E) as Ed.
    pose proof (Z.div_mod b BPB ltac:(done)). pose proof (Z.div_mod b' BPB ltac:(done)). rewrite Ed in *.
    destruct (Z.eqb_spec (b mod BPB) (b' mod BPB)), (Z.eqb_spec b' b); try lia; done.
  - rewrite Hrest by congruence. rewrite (proj2 (Z.eqb_neq b' b)) by congruence. done.
Qed.

Lemma taken_bitmap sb v b l : bitmap_ok sb v -> 0 <= b < sb_size sb -> taken sb v b l -> bitmap_ok sb (lview l).
Proof.
  intros Hbm Hb Ht. pose proof Ht as [Hu _ _ Hbit Hrest]. assert (0 <= b mod BPB < BPB) as Hmod by by apply Z.mod_pos_bound.
  split; [apply Hbm|apply Hbm| |].
  - intros b' Hb'. destruct (Z.eq_dec (BBLOCK b' sb) (BBLOCK b sb)) as [E|E].
    + rewrite E, Hbit. apply bit_set_spec; [by apply (bm_blk _ _ Hbm)|done].
    + pose proof (bm_free _ _ Hbm b b' Hb Hb' Hu). rewrite Hrest by congruence. by apply (bm_blk _ _ Hbm).
  - intros b' b2 Hb' Hb2 Hub. rewrite (taken_used sb v b l) in Hub by done.
    apply orb_false_iff in Hub as [_ Hub]. by apply (bm_free _ _ Hbm).
Qed.

(** bfree looks at the bit before it clears it. *)
Lemma bfree_free_panics {D : DiskDriver} {DOK : DiskDriverOk D} M c s b :
  bio_cpu c -> unlocked L_log c -> tx c M (k_log s) -> M !! BBLOCK b (k_sb s) = None ->
  used (k_sb s) (kview s) b = false -> Z.of_nat (size M) + lh_n (l_log (k_log s)) + 1 <= NBUF ->
  bfree ROOTDEV b c s = Panic "freeing free block".
Proof.
  intros Hcpu Hul HT HM Hf Hn.
  destruct (block_use c M s (BBLOCK b (k_sb s)) Hcpu Hul HT HM) as (i & l3 & E3 & Ed & _ & _); [lia|].
  unfold bfree, gsb. krun. change (u32 ROOTDEV) with ROOTDEV. rewrite E3. cbv beta iota.
  rewrite Ed. cbv beta iota. unfold used in Hf. apply negb_false_iff in Hf. by rewrite Hf.
Qed.

(** ** Properties *)

(** C27: balloc returns the lowest-numbered free block, zeroed, and marks exactly
    that block in the bitmap; no other block of the file system changes.  It
    returns 0, and changes nothing, exactly when no block is free. *)
Theorem balloc_takes_lowest_free {D : DiskDriver} {DOK : DiskDriverOk D} c s :
  bio_cpu c -> unlocked L_log c -> unlocked L_pr c -> tx c ∅ (k_log s) ->
  bitmap_ok (k_sb s) (kview s) -> used (k_sb s) (kview s) 0 = true ->
  lh_n (l_log (k_log s)) + 2 <= LOGBLOCKS ->
  exists c' s' r, balloc ROOTDEV c s = Done r c' s' /\ tx c' ∅ (k_log s') /\ s' = set_klog s (k_log s') /\
    (r <> 0 ->
       0 < r < sb_size (k_sb s) /\ used (k_sb s) (kview s) r = false /\
       (forall b, 0 <= b < r -> used (k_sb s) (kview s) b = true) /\
       kview s' r = zero_block /\
       (forall b, 0 <= b < sb_size (k_sb s) ->
          used (k_sb s) (kview s') b = (b =? r) || used (k_sb s) (kview s) b) /\
       (forall y, y <> r -> y <> BBLOCK r (k_sb s) -> kview s' y = kview s y)) /\
    (r = 0 ->
       (forall b, 0 <= b < sb_size (k_sb s) -> used (k_sb s) (kview s) b = true) /\
       forall y, kview s' y = kview s y).
Proof.
  intros Hcpu Hul Hpr HT Hbm H0 Hn. change LOGBLOCKS with NBUF in Hn.
  destruct (balloc_spec (k_sb s) (kview s) ∅ Hbm ltac:(done) c s) as (c' & l' & r & E & _ & T & _ & Hr);
    [done..|rewrite map_size_empty; lia|].
  exists c', (set_klog s l'), r. split; [exact E|]. split; [exact T|]. split; [done|]. split.
  - intros Hne. destruct Hr as [[Hrr Ht]|[? _]]; [|done]. pose proof Ht as [H1 H2 H3 H4 H5].
    split_and!; try done; try lia. intros b Hb. by apply taken_used.
  - intros ->. destruct Hr as [[_ Ht]|[_ Hr]]; [|done]. destruct Ht as [H1 _ _ _ _]. congruence.
Qed.

(** C28: a block that balloc hands out and bfree takes back leaves every block of
    the file system as it was, but for the block itself, which is zero; bfree
    of any block that is free panics. *)
Theorem balloc_bfree_roundtrip {D : DiskDriver} {DOK : DiskDriverOk D} c s :
  bio_cpu c -> unlocked L_log c -> unlocked L_pr c -> tx c ∅ (k_log s) ->
  bitmap_ok (k_sb s) (kview s) -> used (k_sb s) (kview s) 0 = true ->
  lh_n (l_log (k_log s)) + 3 <= LOGBLOCKS ->
  (exists b, 0 <= b < sb_size (k_sb s) /\ used (k_sb s) (kview s) b = false) ->
  exists r c1 s1 c2 s2, balloc ROOTDEV c s = Done r c1 s1 /\ bfree ROOTDEV r c1 s1 = Done tt c2 s2 /\
    kview s2 r = zero_block /\ (forall y, y <> r -> kview s2 y = kview s y) /\
    forall b, 0 <= b < sb_size (k_sb s) -> used (k_sb s) (kview s) b = false ->
      bfree ROOTDEV b c s = Panic "freeing free block".
Proof.
  intros Hcpu Hul Hpr HT Hbm H0 Hn (b0 & Hb0 & Hf0). change LOGBLOCKS with NBUF in Hn. set (sb := k_sb s) in *.
  destruct (balloc_spec sb (kview s) ∅ Hbm ltac:(done) c s) as (c1 & l1 & r & E1 & Hc1 & T1 & M1 & Hr);
    [done..|rewrite map_size_empty; lia|].
  destruct Hr as [[Hrr Ht]|(_ & Hall & _)]; [|by rewrite Hall in Hf0].
  pose proof Ht as [Hu Hl Hz Hbit Hrest]. pose proof (bm_free _ _ Hbm r r Hrr Hrr Hu) as Hne.
  assert (0 <= r mod BPB < BPB) as Hmod by by apply Z.mod_pos_bound.
  pose proof (taken_bitmap sb (kview s) r l1 Hbm Hrr Ht) as Hbm1.
  destruct (bfree_spec sb (lview l1) ∅ Hbm1 ltac:(done) c1 (set_klog s l1) r) as (c2 & l2 & E2 & _ & _ & _ & V2 & V2');
    [by apply (later_cpu c)|by apply (later_unlocked L_log c)|done|done|done| |done| |].
  { pose proof (mv_n _ _ _ M1). rewrite map_size_empty. simpl. lia. }
  { rewrite (taken_used sb (kview s) r l1) by done. by rewrite Z.eqb_refl. }
  exists r, c1, (set_klog s l1), c2, (set_klog s l2). split; [exact E1|]. split; [exact E2|].
  split; [etrans; [by apply V2'|done]|]. split.
  - intros y Hy. destruct (Z.eq_dec y (BBLOCK r sb)) as [->|Hy'].
    + etrans; [exact V2|]. rewrite Hbit. apply bit_clear_set; [by apply (bm_blk _ _ Hbm)|done|].
      unfold used in Hu. by apply negb_false_iff in Hu.
    + etrans; [by apply V2'|]. by apply Hrest.
  - intros b _ Hf. apply (bfree_free_panics ∅); [done..|rewrite map_size_empty; lia].
Qed.

(** ** A file system of 100 blocks whose first five are in use *)

Definition bitmap100 : block := 31 :: replicate 1023 0.
Definition sb100 : superblock := SuperBlock FSMAGIC 100 95 16 0 2 4 3.
Definition fs100 : kst := op_state [(3, bitmap100)] sb100.

Lemma fs100_used b : 0 <= b < 100 -> used sb100 (kview fs100) b = (b <? 5).
Proof.
  intros Hb. unfold used. assert (BBLOCK b sb100 = 3) as ->.
  { unfold BBLOCK. rewrite Z.div_small by (change BPB with 8192; lia). reflexivity. }
  unfold fs100. rewrite (proj2 (op_tx _ _)). change (dget [(3, bitmap100)] 3) with bitmap100.
  rewrite Z.mod_small by (change BPB with 8192; lia).
  assert (Forall (fun b => negb (bit_free bitmap100 b) = (b <? 5)) (seqZ 0 100)) as HF.
  { vm_compute. repeat constructor. }
  rewrite Forall_forall in HF. apply HF, elem_of_seqZ. lia.
Qed.

Lemma fs100_bitmap : bitmap_ok sb100 (kview fs100).
Proof.
  assert (forall b, 0 <= b < 100 -> BBLOCK b sb100 = 3) as EB.
  { intros b Hb. unfold BBLOCK. rewrite Z.div_small by (change BPB with 8192; lia). reflexivity. }
  split; [done|done| |].
  - intros b Hb. rewrite EB by done. unfold fs100. rewrite (proj2 (op_tx _ _)).
    split; [reflexivity|]. apply Forall_cons. split; [done|]. apply Forall_replicate. done.
  - intros b b' Hb Hb' Hu. rewrite fs100_used in Hu by done. rewrite EB by done. apply Z.ltb_ge in Hu. lia.
Qed.

Lemma balloc_takes_lowest_free_witness :
  exists c' s', @balloc ram_disk ROOTDEV op_ctx fs100 = Done 5 c' s' /\ kview s' 5 = zero_block.
Proof.
  destruct op_ctx_cpu as (H1 & H2 & H3 & _ & _).
  destruct (@balloc_takes_lowest_free ram_disk ram_disk_ok op_ctx fs100 H1 H2 H3 (proj1 (op_tx _ _)) fs100_bitmap)
    as (c' & s' & r & E & _ & _ & Hr & H0).
  - exact (fs100_used 0 ltac:(lia)).
  - discriminate.
  - assert (r <> 0) as Hne.
    { intros E0. destruct (H0 E0) as [Hall _]. specialize (Hall 5 ltac:(split; [discriminate|reflexivity])).
      change (k_sb fs100) with sb100 in Hall. rewrite (fs100_used 5) in Hall by lia. discriminate. }
    destruct (Hr Hne) as (Hrr & Hu & Hl & Hz & _). change (k_sb fs100) with sb100 in *.
    change (sb_size sb100) with 100 in Hrr. rewrite (fs100_used r) in Hu by lia. apply Z.ltb_ge in Hu.
    assert (r = 5) as ->.
    { destruct (Z.lt_ge_cases 5 r) as [Hlt|]; [|lia]. specialize (Hl 5 ltac:(lia)).
      rewrite (fs100_used 5) in Hl by lia. discriminate. }
    exists c', s'. split; [exact E|exact Hz].
Defined.

Lemma balloc_bfree_roundtrip_witness :
  exists r c1 s1 c2 s2, @balloc ram_disk ROOTDEV op_ctx fs100 = Done r c1 s1 /\
    @bfree ram_disk ROOTDEV r c1 s1 = Done tt c2 s2 /\ @bfree ram_disk ROOTDEV 50 op_ctx fs100 = Panic "freeing free block".
Proof.
  destruct op_ctx_cpu as (H1 & H2 & H3 & _ & _).
  destruct (@balloc_bfree_roundtrip ram_disk ram_disk_ok op_ctx fs100 H1 H2 H3 (proj1 (op_tx _ _)) fs100_bitmap)
    as (r & c1 & s1 & c2 & s2 & E1 & E2 & _ & _ & E3).
  - exact (fs100_used 0 ltac:(lia)).
  - discriminate.
  - exists 7. split; [split; [discriminate|reflexivity]|exact (fs100_used 7 ltac:(lia))].
  - exists r, c1, s1, c2, s2. split; [exact E1|]. split; [exact E2|].
    apply E3; [split; [discriminate|reflexivity]|exact (fs100_used 50 ltac:(lia))].
Defined.
