(* ===== verification/Inode.v ===== *)
(** * Inodes on disk and in the table (theorems on Fs.v)

    An inode that is written with iupdate is read back by ilock, next to the
    other inodes of its block; the inode table never holds an inode twice. *)
From stdpp Require Import base numbers list gmap strings.
From S2P Require Import Prelude Kernel Spinlock Sleeplock Bio Bcache Printf Log Redo LogOps Riscv Kalloc Vm Kstate Proc Fs Txn Alloc.

(** ** Encoding *)

Record inode_ok (x : inode) : Prop := {
  io_type : in_s 16 (i_type x);
  io_major : in_s 16 (i_major x);
  io_minor : in_s 16 (i_minor x);
  io_nlink : in_s 16 (i_nlink x);
  io_size : in_u 32 (i_size x);
  io_len : length (i_addrs x) = 13%nat;
  io_addrs : Forall (in_u 32) (i_addrs x);
}.

Lemma put_addrs_length l : forall off d, 0 <= off -> off + 4 * Z.of_nat (length l) <= Z.of_nat (length d) ->
  length (put_addrs off l d) = length d.
Proof.
  induction l as [|a l IH]; intros off d H0 Hl; cbn [put_addrs length] in *; [done|].
  rewrite IH; rewrite ?length_put_le; lia || done.
Qed.
Lemma put_addrs_other l : forall off d n' off', 0 <= off -> off + 4 * Z.of_nat (length l) <= Z.of_nat (length d) ->
  0 <= n' -> 0 <= off' -> off' + n' <= off \/ off + 4 * Z.of_nat (length l) <= off' ->
  get_le n' off' (put_addrs off l d) = get_le n' off' d.
Proof.
  induction l as [|a l IH]; intros off d n' off' H0 Hl Hn Ho Hd; cbn [put_addrs length] in *; [done|].
  rewrite IH; rewrite ?length_put_le; try lia. apply get_put_other; lia.
Qed.
Lemma put_addrs_same l : forall off d j, 0 <= off -> off + 4 * Z.of_nat (length l) <= Z.of_nat (length d) ->
  (j < length l)%nat -> Forall (in_u 32) l ->
  get32 (off + 4 * Z.of_nat j) (put_addrs off l d) = nth j l 0.
Proof.
  induction l as [|a l IH]; intros off d j H0 Hl Hj HF; cbn [put_addrs length nth] in *; [lia|].
  apply Forall_cons in HF as [Ha HF]. destruct j as [|j].
  - rewrite Z.add_0_r, put_addrs_other; rewrite ?length_put_le; try lia.
    rewrite get_put_same by lia. apply Z.mod_small. exact Ha.
  - replace (off + 4 * Z.of_nat (S j)) with (off + 4 + 4 * Z.of_nat j) by lia.
    apply IH; rewrite ?length_put_le; try lia. done.
Qed.

Lemma i16_get off v d : in_s 16 v -> 0 <= off -> off + 2 <= Z.of_nat (length d) -> i16 (get16 off (put16 off v d)) = v.
Proof.
  intros Hv H0 Hl. rewrite get_put_same by lia. unfold s_. change (8 * 2) with 16. rewrite Zmod_mod.
  fold (s_ 16 v). apply s_small; [lia|done].
Qed.

(** Lengths of blocks with fields stored in them. *)
Ltac blk_len := repeat (rewrite length_put_le); try lia.

Lemma length_put_dinode k x d : 0 <= k < IPB -> length d = Z.to_nat BSIZE -> length (i_addrs x) = 13%nat ->
  length (put_dinode k x d) = length d.
Proof.
  intros Hk Hl Ha. change IPB with 16 in Hk. change (Z.to_nat BSIZE) with 1024%nat in Hl. unfold put_dinode, DINODE.
  rewrite put_addrs_length; blk_len.
Qed.

(** Bytes outside inode [k] of the block are not touched. *)
Lemma put_dinode_other k x d n off : 0 <= k < IPB -> length d = Z.to_nat BSIZE -> length (i_addrs x) = 13%nat ->
  0 <= n -> 0 <= off -> off + n <= DINODE * k \/ DINODE * k + DINODE <= off ->
  get_le n off (put_dinode k x d) = get_le n off d.
Proof.
  intros Hk Hl Ha Hn Ho Hd. change IPB with 16 in Hk. change (Z.to_nat BSIZE) with 1024%nat in Hl.
  unfold put_dinode, DINODE in *. rewrite put_addrs_other by blk_len. rewrite !get_put_other by blk_len. done.
Qed.

(** The fields that live on disk. *)
Definition disk_part (x : inode) : Z * Z * Z * Z * Z * list Z :=
  (i_type x, i_major x, i_minor x, i_nlink x, i_size x, i_addrs x).

Lemma get_put_dinode k x d y : inode_ok x -> 0 <= k < IPB -> length d = Z.to_nat BSIZE ->
  disk_part (get_dinode k (put_dinode k x d) y) = disk_part x.
Proof.
  intros [H1 H2 H3 H4 H5 Ha H6] Hk Hl. change IPB with 16 in Hk. change (Z.to_nat BSIZE) with 1024%nat in Hl.
  unfold disk_part, get_dinode, put_dinode, di_type, di_nlink, di_addrs, DINODE. cbn [i_type i_major i_minor i_nlink i_size i_addrs].
  rewrite !(put_addrs_other (i_addrs x)) by blk_len.
  rewrite (get_put_same 4) by blk_len. repeat rewrite (get_put_other 4) by blk_len.
  rewrite (i16_get _ (i_nlink x)) by (done || blk_len). rewrite !(get_put_other 2 (64 * k + 6)) by blk_len.
  rewrite (i16_get _ (i_minor x)) by (done || blk_len). rewrite !(get_put_other 2 (64 * k + 4)) by blk_len.
  rewrite (i16_get _ (i_major x)) by (done || blk_len). rewrite !(get_put_other 2 (64 * k + 2)) by blk_len.
  rewrite (i16_get _ (i_type x)) by (done || blk_len).
  rewrite (Z.mod_small (i_size x)) by exact H5. f_equal.
  apply list_eq. intros j. rewrite list_lookup_fmap. destruct (decide (j < 13)%nat) as [Hj|Hj].
  - rewrite lookup_seqZ_lt by lia. cbn [fmap option_fmap option_map]. rewrite Z.add_0_l.
    rewrite put_addrs_same; [|lia|blk_len|lia|done]. rewrite nth_lookup.
    rewrite <- Ha in Hj. apply lookup_lt_is_Some_2 in Hj as [a ->]. done.
  - rewrite lookup_seqZ_ge by lia. rewrite lookup_ge_None_2 by lia. done.
Qed.

Lemma get_put_dinode_other k k' x d y : 0 <= k < IPB -> 0 <= k' < IPB -> k <> k' -> length d = Z.to_nat BSIZE ->
  length (i_addrs x) = 13%nat -> get_dinode k' (put_dinode k x d) y = get_dinode k' d y.
Proof.
  intros Hk Hk' Hne Hl Ha.
  assert (forall n o, 0 <= n -> 0 <= o -> o + n <= 64 ->
    get_le n (DINODE * k' + o) (put_dinode k x d) = get_le n (DINODE * k' + o) d) as HO.
  { intros n o Hn Ho Hs. apply put_dinode_other; try done; unfold DINODE; lia. }
  unfold get_dinode, di_type, di_nlink, di_addrs. rewrite !HO by lia.
  pose proof (HO 2 0 ltac:(lia) ltac:(lia) ltac:(lia)) as E0. rewrite Z.add_0_r in E0. rewrite E0. f_equal.
  apply list_fmap_ext. intros i j Hj%lookup_seqZ. rewrite <- !Z.add_assoc. apply HO; lia.
Qed.

(** ** iupdate and ilock *)

Lemma inode_upd2 ip f g s : upd_inode ip f (upd_inode ip g s) = upd_inode ip (fun x => f (g x)) s.
Proof. unfold upd_inode, inode_at, set_kitable. simpl. by rewrite lookup_insert_eq, insert_insert_eq. Qed.
Lemma inode_at_same ip f s : inode_at (upd_inode ip f s) ip = f (inode_at s ip).
Proof. by rewrite inode_at_upd, Z.eqb_refl. Qed.

Definition inum_ok (sb : superblock) (i : Z) : Prop := 0 <= i < 2 ^ 20 /\ 0 <= sb_inodestart sb < 2 ^ 30.
Lemma IBLOCK_eq sb i : inum_ok sb i -> IBLOCK i sb = i / IPB + sb_inodestart sb /\ 0 <= IBLOCK i sb < 2 ^ 31.
Proof.
  intros [Hi Hs]. assert (0 <= i / IPB) by (apply Z.div_pos; [lia|done]).
  assert (i / IPB < 2 ^ 16) by (apply Z.div_lt_upper_bound; [done|]; change IPB with 16; lia).
  unfold IBLOCK. rewrite u_small by lia. lia.
Qed.

Section Inode.
Context {D : DiskDriver} {DOK : DiskDriverOk D}.

Lemma iupdate_spec c H s ip : bio_cpu c -> unlocked L_log c -> tx c H (k_log s) ->
  i_dev (inode_at s ip) = ROOTDEV -> inum_ok (k_sb s) (i_inum (inode_at s ip)) ->
  H !! IBLOCK (i_inum (inode_at s ip)) (k_sb s) = None ->
  lh_n (l_log (k_log s)) + Z.of_nat (size H) < NBUF ->
  let b := IBLOCK (i_inum (inode_at s ip)) (k_sb s) in
  exists c' l', iupdate ip c s = Done tt c' (set_klog s l') /\ later c c' /\ tx c' H l' /\ moved 1 (k_log s) l' /\
    lview l' b = put_dinode (i_inum (inode_at s ip) mod IPB) (inode_at s ip) (kview s b) /\
    forall y, y <> b -> lview l' y = kview s y.
Proof.
  intros Hcpu Hul HT Hdev Hin HH Hn b. assert (lh_n (l_log (k_log s)) < LOGBLOCKS) as Hn' by (change LOGBLOCKS with NBUF; lia).
  destruct (IBLOCK_eq _ _ Hin) as [_ Hr].
  destruct (block_use c H s b Hcpu Hul HT HH Hn) as (i & l1 & E1 & Ed & _ & HW).
  destruct (HW Hr Hn' (put_dinode (i_inum (inode_at s ip) mod IPB) (inode_at s ip) (kview s b)))
    as (l3 & l4 & c' & l5 & E3 & E4 & E5 & Hc & T & [M _ _] & V).
  exists c', l5. split; [|done]. unfold iupdate, gsb, gi. krun. rewrite Hdev. fold b.
  rewrite E1. cbv beta iota. rewrite Ed. cbv beta iota. rewrite E3. cbv beta iota. rewrite E4. exact E5.
Qed.

(** ilock of an entry whose inode has to be read. *)
Lemma ilock_spec c H s ip : bio_cpu c -> unlocked L_log c -> unlocked (L_inode ip) c -> tx c H (k_log s) ->
  let x := inode_at s ip in
  let b := IBLOCK (i_inum x) (k_sb s) in
  i_dev x = ROOTDEV -> 1 <= i_ref x -> sl_locked (i_lock x) = 0 -> i_valid x = false ->
  H !! b = None -> lh_n (l_log (k_log s)) + Z.of_nat (size H) < NBUF ->
  di_type (i_inum x mod IPB) (kview s b) <> 0 ->
  exists c' s', ilock (Some ip) c s = Done tt c' s' /\ later c c' /\ tx c' H (k_log s') /\
    (forall y, kview s' y = kview s y) /\
    inode_at s' ip = set_ivalid true (get_dinode (i_inum x mod IPB) (kview s b) (set_ilock (Sleeplock 1 (curpid c)) x)) /\
    (forall j, j <> ip -> inode_at s' j = inode_at s j) /\
    exists it l, s' = set_klog (set_kitable s it) l /\ moved 0 (k_log s) l.
Proof.
  intros Hcpu Hul Hlk HT x b Hdev Href Hfree Hval HH Hn Hty.
  unfold ilock, gi. krun. fold x. rewrite (proj2 (Z.ltb_ge (i_ref x) 1)) by lia. cbv beta iota.
  rewrite (acquiresleep_free (L_inode ip) (ilk ip) c (bp_cpu _ Hcpu) Hlk s Hfree). cbv beta iota.
  cbn [ilk aset]. set (s1 := upd_inode ip _ s). assert (inode_at s1 ip = set_ilock (Sleeplock 1 (curpid c)) x) as Ex.
  { unfold s1. by rewrite inode_at_same. }
  rewrite Ex. cbn [i_valid set_ilock i_dev i_inum]. rewrite Hval. cbn [negb]. unfold gsb. krun.
  change (k_sb s1) with (k_sb s). fold b. rewrite Hdev.
  destruct (block_use c H s1 b Hcpu Hul HT HH Hn) as (i & l1 & E1 & Ed & (c' & l2 & E2 & Hc & T2 & M2 & V2) & _).
  rewrite E1. cbv beta iota. rewrite Ed. cbv beta iota. change (kview s1 b) with (kview s b).
  unfold ui. cbv beta iota delta [modify].
  change (upd_inode ip (get_dinode (i_inum x mod IPB) (kview s b)) (set_klog s1 l1))
    with (set_klog (upd_inode ip (get_dinode (i_inum x mod IPB) (kview s b)) s1) l1).
  unfold zoom in E2 |- *. cbn [aget aset kbioA k_log set_klog l_bio] in E2 |- *.
  destruct (brelse i c (l_bio l1)) as [[] c2 t2|?|?|? ? ?|]; try done.
  assert (c2 = c' /\ l2 = Lst t2 (l_log l1)) as [-> ->].
  { by injection E2 as -> <-. }
  cbv beta iota. set (s3 := upd_inode ip (set_ivalid true) _).
  assert (inode_at s3 ip = set_ivalid true (get_dinode (i_inum x mod IPB) (kview s b) (set_ilock (Sleeplock 1 (curpid c)) x))) as E3.
  { unfold s3. rewrite inode_at_same.
    change (inode_at (set_klog (set_klog (upd_inode ip (get_dinode (i_inum x mod IPB) (kview s b)) s1) l1) (Lst t2 (l_log l1))) ip)
      with (inode_at (upd_inode ip (get_dinode (i_inum x mod IPB) (kview s b)) s1) ip). by rewrite inode_at_same, Ex. }
  rewrite E3. cbn [i_type set_ivalid get_dinode]. rewrite (proj2 (Z.eqb_neq _ 0) Hty).
  exists c', s3. split; [done|]. split; [done|]. split; [exact T2|]. split; [exact V2|]. split; [exact E3|].
  split; [|eexists _, (Lst t2 (l_log l1)); split; [unfold s3, s1; destruct s; reflexivity|exact M2]].
  intros j Hj. unfold s3, s1.
  rewrite inode_at_upd, (proj2 (Z.eqb_neq ip j)) by congruence.
  change (inode_at (upd_inode ip (get_dinode (i_inum x mod IPB) (kview s b)) (upd_inode ip (set_ilock (Sleeplock 1 (curpid c))) s)) j
    = inode_at s j).
  by rewrite !inode_at_upd, !(proj2 (Z.eqb_neq ip j)) by congruence.
Qed.
End Inode.

(** ** The inode table *)

Definition is_inode (s : kst) (dev inum i : Z) : bool :=
  (i_ref (inode_at s i) >? 0) && (i_dev (inode_at s i) =? dev) && (i_inum (inode_at s i) =? inum).
Definition is_empty (s : kst) (i : Z) : bool := i_ref (inode_at s i) =? 0.
Definition find_inode (s : kst) (dev inum : Z) : option Z := List.find (is_inode s dev inum) (seqZ 0 NINODE).
Definition find_empty (s : kst) : option Z := List.find (is_empty s) (seqZ 0 NINODE).

(** No inode is in the table twice. *)
Definition itable_ok (s : kst) : Prop := forall i j dev inum, 0 <= i < NINODE -> 0 <= j < NINODE ->
  is_inode s dev inum i = true -> is_inode s dev inum j = true -> i = j.

Lemma iget_scan_eq n : forall i dev inum e c s, iget_scan n i dev inum e c s =
  Done (match List.find (is_inode s dev inum) (seqZ i (Z.of_nat n)) with
        | Some j => inl j
        | None => inr (match e with Some _ => e | None => List.find (is_empty s) (seqZ i (Z.of_nat n)) end)
        end) c s.
Proof.
  induction n as [|n IH]; intros i dev inum e c s; cbn [iget_scan]; [by destruct e|].
  unfold gi. krun. rewrite seqZ_cons by lia. cbn [List.find]. fold (is_inode s dev inum i).
  destruct (is_inode s dev inum i); [done|]. rewrite IH.
  replace (Z.pred (Z.of_nat (S n))) with (Z.of_nat n) by lia. replace (Z.succ i) with (i + 1) by lia.
  destruct (List.find (is_inode s dev inum) (seqZ (i + 1) (Z.of_nat n))); [done|].
  fold (is_empty s i). by destruct e, (is_empty s i).
Qed.

Lemma find_seq (f : Z -> bool) n i : List.find f (seqZ 0 n) = Some i -> 0 <= i < n /\ f i = true.
Proof. intros [Hi Hf]%find_elem. split; [|done]. apply elem_of_seqZ in Hi. lia. Qed.
Lemma find_seq_none (f : Z -> bool) n i : List.find f (seqZ 0 n) = None -> 0 <= i < n -> f i = false.
Proof. intros Hf Hi. apply (List.find_none _ _ Hf). apply list_elem_of_In, elem_of_seqZ. lia. Qed.
(** With a unique match, find returns it. *)
Lemma find_seq_uniq (f : Z -> bool) n i : 0 <= i < n -> f i = true ->
  (forall j, 0 <= j < n -> f j = true -> j = i) -> List.find f (seqZ 0 n) = Some i.
Proof.
  intros Hi Hf Hu. destruct (List.find f (seqZ 0 n)) as [j|] eqn:E.
  - apply find_seq in E as [Hj Hfj]. f_equal. by apply Hu.
  - by rewrite (find_seq_none f n i E Hi) in Hf.
Qed.

(** The table with entry [ip] now standing for the inode. *)
Lemma itable_upd s dev inum ip f : itable_ok s -> 0 <= ip < NINODE ->
  let s' := upd_inode ip f s in
  is_inode s' dev inum ip = true ->
  (forall j, 0 <= j < NINODE -> j <> ip -> is_inode s dev inum j = false) ->
  itable_ok s' /\ find_inode s' dev inum = Some ip /\ forall j, j <> ip -> inode_at s' j = inode_at s j.
Proof.
  intros Hok Hip s' Hm Hno.
  assert (forall j, j <> ip -> inode_at s' j = inode_at s j) as Hoth.
  { intros j Hj. unfold s'. by rewrite inode_at_upd, (proj2 (Z.eqb_neq ip j)) by congruence. }
  assert (forall j d n, j <> ip -> is_inode s' d n j = is_inode s d n j) as Ho.
  { intros j d n Hj. unfold is_inode. by rewrite Hoth. }
  assert (forall d n, is_inode s' d n ip = true -> d = dev /\ n = inum) as Hid.
  { intros d n Hd. unfold is_inode in Hm, Hd. rewrite !andb_true_iff, !Z.eqb_eq in Hm, Hd. split; destruct Hm as [[? ?] ?], Hd as [[? ?] ?]; congruence. }
  assert (forall j, 0 <= j < NINODE -> is_inode s' dev inum j = true -> j = ip) as Hu.
  { intros j Hj Hmj. destruct (Z.eq_dec j ip) as [|Hne]; [done|]. rewrite Ho, Hno in Hmj; done. }
  split; [|split; [by apply find_seq_uniq|done]].
  intros i j d n Hi Hj Hmi Hmj. destruct (Z.eq_dec i ip) as [->|Hi'].
  - destruct (Hid _ _ Hmi) as [-> ->]. symmetry. by apply Hu.
  - destruct (Z.eq_dec j ip) as [->|Hj'].
    + destruct (Hid _ _ Hmj) as [-> ->]. by apply Hu.
    + rewrite Ho in Hmi, Hmj by done. by apply (Hok i j d n).
Qed.

Lemma iget_eq dev inum c s : cpu_ok c -> unlocked L_itable c ->
  match find_inode s dev inum, find_empty s with
  | Some ip, _ => iget dev inum c s = Done ip c (upd_inode ip (fun x => set_iref (i32 (i_ref x + 1)) x) s)
  | None, Some ip => iget dev inum c s = Done ip c (upd_inode ip (set_iid dev inum 1 false) s)
  | None, None => iget dev inum c s = Panic "iget: no inodes"
  end.
Proof.
  intros Hcpu Hul. pose proof (iget_scan_eq (Z.to_nat NINODE) 0 dev inum None (inside L_itable c) s) as E.
  change (Z.of_nat (Z.to_nat NINODE)) with NINODE in E. fold (find_inode s dev inum) (find_empty s) in E.
  unfold iget. rewrite (bind_done _ _ _ _ _ _ _ (acquire_eq L_itable c s Hul)).
  rewrite (bind_done _ _ _ _ _ _ _ E). destruct (find_inode s dev inum) as [ip|].
  - unfold ui. krun. by rewrite (release_eq L_itable c _ Hcpu Hul).
  - destruct (find_empty s) as [ip|]; [|done]. unfold ui. krun. by rewrite (release_eq L_itable c _ Hcpu Hul).
Qed.

(** ** Properties *)

(** C29: an inode that iupdate writes is the inode ilock reads when the table
    entry has to be loaded again, and the other inodes of the disk, also those
    in the same block, are untouched. *)
Theorem iupdate_ilock_roundtrip {D : DiskDriver} {DOK : DiskDriverOk D} c s ip :
  bio_cpu c -> unlocked L_log c -> unlocked (L_inode ip) c -> tx c ∅ (k_log s) ->
  inode_ok (inode_at s ip) -> i_type (inode_at s ip) <> 0 -> 1 <= i_ref (inode_at s ip) ->
  i_dev (inode_at s ip) = ROOTDEV -> inum_ok (k_sb s) (i_inum (inode_at s ip)) ->
  sl_locked (i_lock (inode_at s ip)) = 0 ->
  length (kview s (IBLOCK (i_inum (inode_at s ip)) (k_sb s))) = Z.to_nat BSIZE ->
  lh_n (l_log (k_log s)) + 2 <= LOGBLOCKS ->
  exists c1 s1 c2 s2,
    iupdate ip c s = Done tt c1 s1 /\
    ilock (Some ip) c1 (upd_inode ip (set_ivalid false) s1) = Done tt c2 s2 /\
    disk_part (inode_at s2 ip) = disk_part (inode_at s ip) /\ i_valid (inode_at s2 ip) = true /\
    (forall n y, inum_ok (k_sb s) n -> n <> i_inum (inode_at s ip) ->
       get_dinode (n mod IPB) (kview s2 (IBLOCK n (k_sb s))) y = get_dinode (n mod IPB) (kview s (IBLOCK n (k_sb s))) y).
Proof.
  intros Hcpu Hul Hlk HT Hino Hty Href Hdev Hin Hfree Hlen Hn. change LOGBLOCKS with NBUF in Hn.
  set (x := inode_at s ip) in *. set (b := IBLOCK (i_inum x) (k_sb s)) in *.
  destruct (iupdate_spec c ∅ s ip Hcpu Hul HT Hdev Hin ltac:(done) ltac:(rewrite map_size_empty; lia))
    as (c1 & l1 & E1 & Hc1 & T1 & M1 & V1 & V1'). fold x b in V1, V1'.
  assert (0 <= i_inum x mod IPB < IPB) as Hk by by apply Z.mod_pos_bound.
  set (s1 := upd_inode ip (set_ivalid false) (set_klog s l1)).
  assert (inode_at s1 ip = set_ivalid false x) as Ex by (unfold s1; by rewrite inode_at_same).
  destruct (ilock_spec c1 ∅ s1 ip) as (c2 & s2 & E2 & _ & _ & V2 & E3 & _);
    rewrite ?Ex; cbn [i_dev i_ref i_lock i_valid i_inum set_ivalid]; try done.
  - by apply (later_cpu c).
  - by apply (later_unlocked L_log c).
  - by apply (later_unlocked (L_inode ip) c).
  - pose proof (mv_n _ _ _ M1). rewrite map_size_empty. simpl. lia.
  - change (di_type (i_inum x mod IPB) (lview l1 b) <> 0). rewrite V1.
    pose proof (get_put_dinode (i_inum x mod IPB) x (kview s b) x Hino Hk Hlen) as Eg.
    unfold disk_part in Eg. injection Eg as Eg _ _ _ _ _. cbn [i_type get_dinode] in Eg. congruence.
  - exists c1, (set_klog s l1), c2, s2. split; [exact E1|]. split; [exact E2|]. rewrite E3, Ex.
    cbn [i_inum set_ivalid i_valid]. change (kview s1 (IBLOCK (i_inum x) (k_sb s1))) with (lview l1 b).
    rewrite V1. split; [|split; [done|]].
    + exact (get_put_dinode (i_inum x mod IPB) x (kview s b) (set_ilock (Sleeplock 1 (curpid c1)) (set_ivalid false x)) Hino Hk Hlen).
    + intros n y Hnk Hne. rewrite V2. change (kview s1 (IBLOCK n (k_sb s))) with (lview l1 (IBLOCK n (k_sb s))).
      destruct (Z.eq_dec (IBLOCK n (k_sb s)) b) as [E|E]; [|by rewrite V1'].
      rewrite E, V1. apply get_put_dinode_other; [done|by apply Z.mod_pos_bound| |done|apply Hino].
      unfold b in E. rewrite (proj1 (IBLOCK_eq _ _ Hnk)), (proj1 (IBLOCK_eq _ _ Hin)) in E.
      intros Em. apply Hne. pose proof (Z.div_mod n IPB ltac:(done)). pose proof (Z.div_mod (i_inum x) IPB ltac:(done)).
      rewrite Em in *. lia.
Qed.

(** C30: iget returns the table entry of the inode if there is one, with one more
    reference, else the first empty entry, set up for it, and panics exactly
    when there is neither.  It never gives one inode two entries, and a second
    iget finds the entry of the first. *)
Theorem iget_unique_entry dev inum c s : cpu_ok c -> unlocked L_itable c ->
  match find_inode s dev inum, find_empty s with
  | Some ip, _ => iget dev inum c s = Done ip c (upd_inode ip (fun x => set_iref (i32 (i_ref x + 1)) x) s)
  | None, Some ip => iget dev inum c s = Done ip c (upd_inode ip (set_iid dev inum 1 false) s)
  | None, None => iget dev inum c s = Panic "iget: no inodes"
  end /\
  (itable_ok s -> (forall i, 0 <= i < NINODE -> i_ref (inode_at s i) < 2 ^ 31 - 1) ->
   forall ip c' s', iget dev inum c s = Done ip c' s' ->
     itable_ok s' /\ find_inode s' dev inum = Some ip /\ forall j, j <> ip -> inode_at s' j = inode_at s j).
Proof.
  intros Hcpu Hul. pose proof (iget_eq dev inum c s Hcpu Hul) as Heq.
  split; [exact Heq|]. intros Hok Href ip c' s' E.
  destruct (find_inode s dev inum) as [j|] eqn:F.
  - rewrite Heq in E. injection E as -> <- <-. apply find_seq in F as [Hi Hm].
    apply itable_upd; [done|done| |].
    + unfold is_inode in Hm |- *. rewrite inode_at_same. cbn [i_ref i_dev i_inum set_iref].
      rewrite !andb_true_iff, !Z.eqb_eq, Z.gtb_lt in Hm |- *. destruct Hm as [[? ?] ?]. specialize (Href ip Hi).
      rewrite i32_small by lia. split_and!; lia || done.
    + intros k Hk Hne. apply not_true_is_false. intros Hmk. apply Hne. by apply (Hok k ip dev inum).
  - destruct (find_empty s) as [j|] eqn:G; [|congruence]. rewrite Heq in E. injection E as -> <- <-.
    apply find_seq in G as [Hi Hm].
    apply itable_upd; [done|done| |].
    + unfold is_inode. rewrite inode_at_same. cbn [i_ref i_dev i_inum set_iid]. by rewrite !Z.eqb_refl.
    + intros k Hk _. by apply (find_seq_none _ NINODE).
Qed.

(** ** Inode 5 of a small file system, in entry 0 of the table *)

Definition inode5 : inode := Inode ROOTDEV 5 1 (Sleeplock 0 0) true T_FILE 0 0 1 3000 (seqZ 50 13).
Definition fs_inode5 : kst := set_kitable (op_state [] sb100) {[ 0 := inode5 ]}.

Lemma inode5_ok : inode_ok inode5.
Proof.
  split; try (split; reflexivity || (intro; discriminate)).
  apply Forall_forall. intros x Hx%elem_of_seqZ. unfold in_u. lia.
Qed.

Lemma iupdate_ilock_roundtrip_witness : exists c1 s1 c2 s2,
  @iupdate ram_disk 0 op_ctx fs_inode5 = Done tt c1 s1 /\
  @ilock ram_disk (Some 0) c1 (upd_inode 0 (set_ivalid false) s1) = Done tt c2 s2 /\
  i_size (inode_at s2 0) = 3000.
Proof.
  destruct op_ctx_cpu as (H1 & H2 & _ & _ & H5).
  destruct (@iupdate_ilock_roundtrip ram_disk ram_disk_ok op_ctx fs_inode5 0 H1 H2 H5 (proj1 (op_tx _ _)) inode5_ok)
    as (c1 & s1 & c2 & s2 & E1 & E2 & Ed & _).
  - discriminate.
  - discriminate.
  - reflexivity.
  - split; split; reflexivity || (intro; discriminate).
  - reflexivity.
  - pose proof (proj2 (op_tx [] sb100) (IBLOCK 5 sb100)) as Ev. exact (f_equal length Ev).
  - discriminate.
  - exists c1, s1, c2, s2. split; [exact E1|]. split; [exact E2|].
    exact (f_equal (fun p => snd (fst p)) Ed).
Defined.

Lemma iget_unique_entry_witness :
  iget ROOTDEV 7 op_ctx fs_inode5 = Done 1 op_ctx (upd_inode 1 (set_iid ROOTDEV 7 1 false) fs_inode5).
Proof.
  destruct op_ctx_cpu as (H1 & _ & _ & H4 & _).
  exact (proj1 (iget_unique_entry ROOTDEV 7 op_ctx fs_inode5 (bp_cpu _ H1) H4)).
Defined.
