(* ===== verification/Path.v ===== *)
(** * Path names (theorems on skipelem of Dir.v)

    The elements of a path are the maximal runs of characters other than '/';
    skipelem takes off the first one. *)
From stdpp Require Import base numbers list gmap strings.
From S2P Require Import Prelude Kernel Spinlock Sleeplock Str Riscv Kalloc Vm Bio Log Printf Kstate Proc Fs Dir.

(** The reference: elements collected in one pass, [cur] being the one under way. *)
Fixpoint elems (cur l : list Z) : list (list Z) :=
  match l with
  | [] => match cur with [] => [] | _ => [cur] end
  | c :: l =>
      if c =? 47 then match cur with [] => elems [] l | _ => cur :: elems [] l end
      else elems (cur ++ [c]) l
  end.

Fixpoint strip (l : list Z) : list Z :=
  match l with
  | [] => []
  | c :: r => if c =? 47 then strip r else l
  end.
Fixpoint run (l : list Z) : list Z :=
  match l with
  | [] => []
  | c :: r => if c =? 47 then [] else c :: run r
  end.

Lemma elems_strip l : elems [] (strip l) = elems [] l.
Proof. induction l as [|c l IH]; [done|]. simpl. destruct (Z.eqb_spec c 47); [done|]. simpl. by destruct (Z.eqb_spec c 47). Qed.
Lemma elems_run l : forall cur, cur ++ run l <> [] ->
  elems cur l = (cur ++ run l) :: elems [] (drop (length (run l)) l).
Proof.
  induction l as [|c l IH]; intros cur Hne; simpl in *.
  - rewrite app_nil_r in *. by destruct cur.
  - destruct (Z.eqb_spec c 47) as [->|Hc]; simpl in *.
    + rewrite app_nil_r in *. by destruct cur.
    + rewrite IH, <- app_assoc by (by destruct cur). done.
Qed.
Lemma strip_head l c r : strip l = c :: r -> c <> 47.
Proof. induction l as [|d l IH]; simpl; [done|]. destruct (Z.eqb_spec d 47); [done|]. by intros [= <- <-]. Qed.
Lemma strip_length l : (length (strip l) <= length l)%nat.
Proof. induction l as [|d l IH]; simpl; [done|]. destruct (_ =? _); simpl; lia. Qed.
Lemma run_length l : (length (run l) <= length l)%nat.
Proof. induction l as [|d l IH]; simpl; [done|]. destruct (_ =? _); simpl; lia. Qed.
Lemma run_prefix l i : (i < length (run l))%nat -> run l !! i = l !! i.
Proof.
  revert i. induction l as [|c l IH]; intros i Hi; [simpl in Hi; lia|]. simpl in *.
  destruct (c =? 47); simpl in *; [lia|]. destruct i as [|i]; [done|]. simpl. apply IH. lia.
Qed.

Lemma skip_slashes_spec m cs : forall fuel p, str_at m p cs -> (length cs < fuel)%nat ->
  exists k, skip_slashes fuel m p = Some (p + Z.of_nat k) /\ (k <= length cs)%nat /\ strip cs = drop k cs.
Proof.
  induction cs as [|c cs IH]; intros fuel p Hs Hf; (destruct fuel as [|fuel]; simpl in Hf; [lia|]); cbn [skip_slashes].
  - simpl in Hs. rewrite Hs. exists O. rewrite Z.add_0_r. done.
  - destruct Hs as (-> & H2 & H3). simpl. destruct (Z.eqb_spec c 47).
    + destruct (IH fuel (p + 1) H3 ltac:(lia)) as (k & E & Hk & Ed). exists (S k). simpl.
      split; [rewrite E; f_equal; lia|]. split; [lia|done].
    + exists O. rewrite Z.add_0_r. split; [done|]. split; [lia|done].
Qed.
Lemma skip_name_spec m cs : forall fuel p, str_at m p cs -> (length cs < fuel)%nat ->
  skip_name fuel m p = Some (p + Z.of_nat (length (run cs))).
Proof.
  induction cs as [|c cs IH]; intros fuel p Hs Hf; (destruct fuel as [|fuel]; simpl in Hf; [lia|]); cbn [skip_name].
  - simpl in Hs. rewrite Hs. by rewrite Z.add_0_r.
  - destruct Hs as (-> & H2 & H3). simpl. destruct (Z.eqb_spec c 47); simpl; [by rewrite Z.add_0_r|].
    rewrite (proj2 (Z.eqb_neq c 0) H2). simpl. rewrite (IH fuel (p + 1)) by (done || lia). f_equal. lia.
Qed.

(** The bytes of name[DIRSIZ] that hold element [e]. *)
Definition name_holds (m : mem) (name : Z) (e : list Z) : Prop :=
  cstr (Z.to_nat DIRSIZ) m name = take (Z.to_nat DIRSIZ) e.

Lemma copy_name_spec m name s e : mem_ok m -> Forall (fun c => c <> 0) e -> Z.of_nat (length e) < 2 ^ 32 ->
  (forall i c, e !! i = Some c -> load8 m (s + Z.of_nat i) = c) ->
  let len := Z.of_nat (length e) in
  let m' := if len >=? DIRSIZ then memmove m name s DIRSIZ else store8 (memmove m name s len) (name + len) 0 in
  mem_ok m' /\ name_holds m' name e /\ forall a, ~ (name <= a < name + DIRSIZ) -> load8 m' a = load8 m a.
Proof.
  intros Hm Hnz Hl He len m'. assert (forall i c, e !! i = Some c -> c <> 0) as Hnz'.
  { intros i c Hc. rewrite Forall_forall in Hnz. apply Hnz. by eapply list_elem_of_lookup_2. }
  unfold m', name_holds, DIRSIZ. rewrite Z.geb_leb. destruct (Z.leb_spec 14 len) as [H14|H14].
  - split; [auto with xv6|]. split.
    + assert (forall n k, (n + k <= 14)%nat -> cstr n (memmove m name s 14) (name + Z.of_nat k) = take n (drop k e)) as Hc.
      { induction n as [|n IH]; intros k Hk; [done|]. cbn [cstr].
        assert (k < length e)%nat as Hke by lia. apply lookup_lt_is_Some_2 in Hke as [c Hc].
        rewrite load8_memmove, bool_decide_eq_true_2 by (done || lia).
        replace (s + (name + Z.of_nat k - name)) with (s + Z.of_nat k) by lia. rewrite (He k c Hc).
        rewrite (proj2 (Z.eqb_neq c 0) (Hnz' k c Hc)). rewrite (drop_S e c k Hc). cbn [take]. f_equal.
        replace (name + Z.of_nat k + 1) with (name + Z.of_nat (S k)) by lia. apply IH. lia. }
      specialize (Hc 14%nat O ltac:(lia)). rewrite Z.add_0_r in Hc. exact Hc.
    + intros a Ha. rewrite load8_memmove, bool_decide_eq_false_2 by (done || lia). done.
  - assert (in_u 32 len) as Hu by (unfold in_u; lia). split; [auto with xv6|]. split.
    + rewrite take_ge by lia. apply cstr_intro; [| |lia].
      * intros i c Hc. split; [|by eapply Hnz']. pose proof (lookup_lt_Some _ _ _ Hc).
        rewrite load8_store8_ne by lia. rewrite load8_memmove, bool_decide_eq_true_2 by (done || lia).
        replace (s + (name + Z.of_nat i - name)) with (s + Z.of_nat i) by lia. by apply He.
      * rewrite load8_store8, Z.eqb_refl. done.
    + intros a Ha. rewrite load8_store8_ne by lia. rewrite load8_memmove, bool_decide_eq_false_2 by (done || lia). done.
Qed.

(** ** Properties *)

(** skipelem takes a path apart.  For a C string in memory apart from the
    buffer [name], it returns the null pointer exactly when the path has no
    element; otherwise [name] holds the first element, cut at DIRSIZ bytes, and
    the path it returns is a C string with the remaining elements and no
    leading slash.  It always returns when the string is shorter than the
    bound, and writes only to [name]. *)
Theorem skipelem_takes_first m path name cs fuel :
  mem_ok m -> str_at m path cs -> (length cs < fuel)%nat -> Z.of_nat fuel < 2 ^ 31 ->
  (path + Z.of_nat (length cs) < name \/ name + DIRSIZ <= path) ->
  exists m' r, skipelem fuel m path name = Some (m', r) /\ mem_ok m' /\
    (forall a, ~ (name <= a < name + DIRSIZ) -> load8 m' a = load8 m a) /\
    match elems [] cs, r with
    | [], None => m' = m
    | e :: es, Some path' =>
        name_holds m' name e /\ exists cs', str_at m' path' cs' /\ elems [] cs' = es /\ strip cs' = cs' /\
          path < path' <= path + Z.of_nat (length cs) /\ path' + Z.of_nat (length cs') = path + Z.of_nat (length cs)
    | _, _ => False
    end.
Proof.
  intros Hm Hs Hf Hf2 Hsep. unfold skipelem.
  destruct (skip_slashes_spec m cs fuel path Hs Hf) as (k & -> & Hk & Ek).
  pose proof (str_at_drop m k path cs Hk Hs) as Hs1. rewrite <- Ek in Hs1. pose proof (strip_length cs) as Hsl.
  assert (length (strip cs) + k = length cs)%nat as Hlen by (rewrite Ek, length_drop; lia).
  rewrite <- (elems_strip cs). destruct (strip cs) as [|c cs1] eqn:Est.
  { simpl in Hs1. rewrite Hs1. exists m, None. done. }
  pose proof (strip_head _ _ _ Est) as Hc. pose proof Hs1 as (E1 & E2 & _). rewrite E1, (proj2 (Z.eqb_neq c 0) E2).
  rewrite (skip_name_spec m (c :: cs1) fuel _ Hs1) by lia.
  assert (run (c :: cs1) = c :: run cs1) as Er by (simpl; by rewrite (proj2 (Z.eqb_neq c 47) Hc)).
  set (e := run (c :: cs1)) in *. replace (_ + _ - _) with (Z.of_nat (length e)) by lia.
  pose proof (run_length (c :: cs1)) as Hrl. fold e in Hrl.
  assert (forall i x, e !! i = Some x -> load8 m (path + Z.of_nat k + Z.of_nat i) = x) as He.
  { intros i x Hx. apply (str_at_lookup m (c :: cs1)); [done|]. rewrite <- Hx. symmetry. apply run_prefix.
    apply lookup_lt_Some in Hx. exact Hx. }
  assert (Forall (fun x => x <> 0) (c :: cs1)) as Hnz.
  { clear - Hs1. revert Hs1. generalize (path + Z.of_nat k). generalize (c :: cs1) as l. induction l as [|x l IH]; intros q Hq.
    - by apply Forall_nil.
    - destruct Hq as (_ & Hx & Hq). apply Forall_cons. split; [done|]. by eapply IH. }
  destruct (copy_name_spec m name (path + Z.of_nat k) e Hm) as (Hm' & Hn & Hout); [| |done|].
  { apply Forall_lookup. intros i x Hx. rewrite Forall_lookup in Hnz. apply (Hnz i). rewrite <- Hx. symmetry.
    apply run_prefix. apply lookup_lt_Some in Hx. exact Hx. }
  { lia. }
  cbv zeta in Hm', Hn, Hout |- *. set (m' := if Z.of_nat (length e) >=? DIRSIZ then _ else store8 _ _ _) in *.
  assert (str_at m' (path + Z.of_nat k) (c :: cs1)) as Hs2.
  { apply (str_at_ext m); [|done]. intros i Hi. apply Hout. lia. }
  pose proof (str_at_drop m' (length e) _ _ Hrl Hs2) as Hs3.
  destruct (skip_slashes_spec m' _ fuel _ Hs3) as (j & -> & Hj & Ej); [rewrite length_drop; simpl in *; lia|].
  pose proof (str_at_drop m' j _ _ Hj Hs3) as Hs4. rewrite <- Ej in Hs4.
  eexists m', _. split; [reflexivity|]. split; [done|]. split; [done|].
  rewrite (elems_run (c :: cs1) []) by (fold e; by rewrite Er). fold e. cbn [app].
  split; [done|]. eexists. split; [exact Hs4|]. split; [by rewrite elems_strip|].
  split; [clear; induction (drop _ _) as [|x l IH]; simpl; [done|]; destruct (Z.eqb_spec x 47) as [|Hx]; [done|];
    simpl; by rewrite (proj2 (Z.eqb_neq x 47) Hx)|].
  rewrite Ej. rewrite !length_drop in *. rewrite Er in *. cbn [length] in *. lia.
Qed.

Definition path_usr : list Z := chars "/usr//bin".
Definition mem_usr : mem := store_bytes ∅ 1000 (path_usr ++ [0]).

Lemma skipelem_takes_first_witness :
  elems [] path_usr = [chars "usr"; chars "bin"] /\
  exists m' p', skipelem (Z.to_nat MAXPATH) mem_usr 1000 2000 = Some (m', Some p') /\ name_holds m' 2000 (chars "usr").
Proof.
  split; [reflexivity|].
  destruct (skipelem_takes_first mem_usr 1000 2000 path_usr (Z.to_nat MAXPATH)) as (m' & r & E & _ & _ & H).
  - apply mem_ok_store_bytes, mem_ok_empty.
  - vm_compute. repeat split; discriminate.
  - apply Nat.ltb_lt. reflexivity.
  - reflexivity.
  - left. reflexivity.
  - change (elems [] path_usr) with [chars "usr"; chars "bin"] in H. destruct r as [p'|]; [|destruct H].
    exists m', p'. split; [exact E|exact (proj1 H)].
Defined.
