(* ===== verification/Content.v ===== *)
(** * Contents of files (theorems on bmap, readi and writei of Fs.v)

    The blocks an inode names, directly or through its indirect block, stand for
    a function from offsets to bytes.  bmap allocates without changing it,
    writei overwrites a range of it, and readi copies a range of it out. *)
From stdpp Require Import base numbers list gmap strings.
From S2P Require Import Prelude Kernel Spinlock Sleeplock Bio Bcache Printf Log Redo LogOps Str Riscv Kalloc Vm Kstate Proc Fs Txn Alloc Inode.

(** ** Operations on a held buffer, in the kernel's state *)
Section Held.
Context {D : DiskDriver} {DOK : DiskDriverOk D}.
Variables (c : ctx) (H : gmap Z Z) (s : kst).
Hypotheses (Hcpu : bio_cpu c) (HT : tx c H (k_log s)).

(** Nothing moved but the cache. *)
Definition same_log (l l' : lst) : Prop := l_log l' = l_log l /\ dsk (l_bio l') = dsk (l_bio l).
(** A block that may be released: it is in the log or as on disk. *)
Definition clean (l : lst) (x : Z) : Prop := x ∈ logl (l_log l) \/ lview l x = dget (dsk (l_bio l)) x.

Lemma kbread x : H !! x = None -> lh_n (l_log (k_log s)) + Z.of_nat (size H) < NBUF ->
  exists i l, zoom kbioA (bread ROOTDEV x) c s = Done i c (set_klog s l) /\ tx c (<[x := i]> H) l /\
    same_log (k_log s) l /\ (forall y, lview l y = kview s y) /\ clean l x /\ 0 <= i < NBUF.
Proof.
  intros Hx Hr. destruct (tx_bread c H (k_log s) Hcpu HT x Hx Hr) as (i & l & E & T & L & Dk & V).
  exists i, l. split; [by apply kzoom_bio|]. split; [done|]. split; [done|]. split; [done|]. split.
  - unfold clean. rewrite L, Dk, V. destruct (decide (x ∈ logl (l_log (k_log s)))) as [|Hn]; [by left|right].
    apply view_unreferenced; [apply (t_bc _ _ _ HT)|]. rewrite (t_refs _ _ _ HT), Hx.
    rewrite (bool_decide_eq_false_2 _ Hn), (bool_decide_eq_false_2 (is_Some None)) by (by intros []). done.
  - pose proof (t_held _ _ _ T x i ltac:(apply lookup_insert_eq)) as Hh. apply (h_cached _ _ _ _ Hh).
Qed.
Lemma kdata_held x i : H !! x = Some i -> kdata i c s = Done (kview s x) c s.
Proof.
  intros Hx. unfold kdata, zoom, bdata, gets. simpl. rewrite (tx_data c H (k_log s) HT x i Hx). by destruct s.
Qed.
Lemma kset x i d : H !! x = Some i ->
  exists l, set_kdata i d c s = Done tt c (set_klog s l) /\ tx c H l /\ same_log (k_log s) l /\
    lview l x = d /\ forall y, y <> x -> lview l y = kview s y.
Proof.
  intros Hx. destruct (tx_set c H (k_log s) HT x i d Hx) as (l & E & T & L & Dk & V & V').
  exists l. split; [by apply kzoom_log|done].
Qed.
Lemma klog_write x i : H !! x = Some i -> 0 <= x < 2 ^ 31 -> lh_n (l_log (k_log s)) < LOGBLOCKS -> unlocked L_log c ->
  exists l, zoom logA (log_write i) c s = Done tt c (set_klog s l) /\ tx c H l /\ x ∈ logl (l_log l) /\
    moved 1 (k_log s) l /\ forall y, lview l y = kview s y.
Proof.
  intros Hx Hr Hn Hul. destruct (tx_log c H (k_log s) Hcpu HT x i Hx Hr Hn Hul) as (l & E & T & [M I _] & V).
  exists l. split; [by apply kzoom_log|done].
Qed.
Lemma kbrelse x i : H !! x = Some i -> clean (k_log s) x ->
  exists c' l, zoom kbioA (brelse i) c s = Done tt c' (set_klog s l) /\ later c c' /\ tx c' (delete x H) l /\
    same_log (k_log s) l /\ forall y, lview l y = kview s y.
Proof.
  intros Hx Hc. destruct (tx_brelse c H (k_log s) Hcpu HT x i Hx Hc) as (c' & l & E & Hl & T & L & Dk & V).
  exists c', l. split; [by apply kzoom_bio|done].
Qed.
End Held.

Lemma same_moved l l' : same_log l l' -> moved 0 l l'.
Proof. intros [H1 H2]. by apply moved_log. Qed.
Lemma same_n l l' : same_log l l' -> lh_n (l_log l') = lh_n (l_log l).
Proof. by intros [-> _]. Qed.

(** ** The blocks of a file *)

(** The address of block [bn] of a file, 0 when it has none. *)
Definition baddr (v : Z -> block) (x : inode) (bn : Z) : Z :=
  if bn <? NDIRECT then addr_at x bn
  else if addr_at x NDIRECT =? 0 then 0 else get32 (4 * (bn - NDIRECT)) (v (addr_at x NDIRECT)).
(** The byte at offset [o]. *)
Definition content (v : Z -> block) (x : inode) (o : Z) : Z :=
  let a := baddr v x (o / BSIZE) in if a =? 0 then 0 else nth (Z.to_nat (o mod BSIZE)) (v a) 0.

(** The blocks of the file, the indirect one included. *)
Definition owns (v : Z -> block) (x : inode) (a : Z) : Prop :=
  a <> 0 /\ (a = addr_at x NDIRECT \/ exists bn, 0 <= bn < MAXFILE /\ baddr v x bn = a).

(** A block of the file system that is in use and not part of the bitmap. *)
Definition data_block (sb : superblock) (v : Z -> block) (a : Z) : Prop :=
  0 <= a < sb_size sb /\ used sb v a = true /\ forall b, 0 <= b < sb_size sb -> a <> BBLOCK b sb.

Record file_wf (sb : superblock) (v : Z -> block) (x : inode) : Prop := {
  fw_len : length (i_addrs x) = 13%nat;
  fw_own : forall a, owns v x a -> data_block sb v a /\ is_blk (v a);
  fw_inj : forall bn bn', 0 <= bn < MAXFILE -> 0 <= bn' < MAXFILE ->
    baddr v x bn = baddr v x bn' -> baddr v x bn <> 0 -> bn = bn';
  fw_ind : forall bn, 0 <= bn < MAXFILE -> baddr v x bn <> 0 -> baddr v x bn <> addr_at x NDIRECT;
}.

Lemma addr_at_set x k a j : length (i_addrs x) = 13%nat -> 0 <= k <= 12 -> 0 <= j ->
  addr_at (set_iaddr k a x) j = if j =? k then a else addr_at x j.
Proof.
  intros Hl Hk Hj. unfold addr_at. cbn [i_addrs set_iaddr]. rewrite !nth_lookup. destruct (Z.eqb_spec j k) as [->|Hne].
  - by rewrite list_lookup_insert_eq by lia.
  - by rewrite list_lookup_insert_ne by lia.
Qed.

(** Taking a block leaves the blocks in use as they are. *)
Lemma taken_data sb v r l a : bitmap_ok sb v -> 0 <= r < sb_size sb -> taken sb v r l -> data_block sb v a ->
  a <> r /\ lview l a = v a /\ data_block sb (lview l) a.
Proof.
  intros Hbm Hr Ht (Ha & Hu & Hb). pose proof Ht as [Hf _ _ _ Hrest]. assert (a <> r) as Hne by congruence.
  split; [done|]. split; [apply Hrest; [done|by apply Hb]|]. split; [done|]. split; [|done].
  rewrite (taken_used sb v r l a) by done. by rewrite Hu, orb_true_r.
Qed.
Lemma taken_new sb v r l : bitmap_ok sb v -> 0 <= r < sb_size sb -> taken sb v r l ->
  data_block sb (lview l) r /\ is_blk (lview l r).
Proof.
  intros Hbm Hr Ht. pose proof Ht as [Hf _ Hz _ _]. split; [split; [done|split]|].
  - rewrite (taken_used sb v r l r) by done. by rewrite Z.eqb_refl.
  - intros b Hb. by apply (bm_free _ _ Hbm).
  - rewrite Hz. split; [done|]. apply Forall_replicate. done.
Qed.

(** ** Allocation keeps the contents *)

Lemma owns_block v x bn : 0 <= bn < MAXFILE -> baddr v x bn <> 0 -> owns v x (baddr v x bn).
Proof. intros Hb Hn. split; [done|right]. by exists bn. Qed.

Lemma zero_addrs v x : i_addrs x = replicate 13 0 -> (forall k, addr_at x k = 0) /\ (forall k, baddr v x k = 0) /\ forall a, ~ owns v x a.
Proof.
  intros Ha. assert (forall k, addr_at x k = 0) as Hk.
  { intros k. unfold addr_at. rewrite Ha, nth_lookup. destruct (_ !! _) eqn:E; [|done]. by apply lookup_replicate in E as [-> _]. }
  assert (forall k, baddr v x k = 0) as Hb by (intros k; unfold baddr; rewrite !Hk; by destruct (_ <? _)).
  split; [done|]. split; [done|]. intros a [Hn [E|(k & _ & E)]]; [by rewrite Hk in E|by rewrite Hb in E].
Qed.
Lemma nth_zero k : nth k zero_block 0 = 0.
Proof. rewrite nth_lookup. destruct (zero_block !! k) eqn:E; [|done]. by apply lookup_replicate in E as [-> _]. Qed.

(** The file gets block [r], which is zero, at [bn], where it had none. *)
Lemma wf_add_block sb v x v' x' bn r : file_wf sb v x -> 0 <= bn < MAXFILE -> baddr v x bn = 0 -> r <> 0 ->
  (forall k, 0 <= k < MAXFILE -> baddr v' x' k = if k =? bn then r else baddr v x k) ->
  addr_at x' NDIRECT = addr_at x NDIRECT -> length (i_addrs x') = 13%nat ->
  (forall a, data_block sb v a -> a <> r /\ data_block sb v' a) -> data_block sb v' r -> v' r = zero_block ->
  (forall k, 0 <= k < MAXFILE -> baddr v x k <> 0 -> v' (baddr v x k) = v (baddr v x k)) ->
  (addr_at x NDIRECT <> 0 -> is_blk (v' (addr_at x NDIRECT))) ->
  file_wf sb v' x' /\ forall o, 0 <= o < MAXFILE * BSIZE -> content v' x' o = content v x o.
Proof.
  intros Wf Hbn Hz Hr Hba Hind Hlen Hdata Hrd Hrz Hsame Hib.
  assert (is_blk zero_block) as Hzb by (split; [done|apply Forall_replicate; done]).
  assert (forall k, 0 <= k < MAXFILE -> baddr v x k <> 0 -> baddr v x k <> r) as Hne.
  { intros k Hk Hn. apply Hdata. by apply (fw_own _ _ _ Wf), owns_block. }
  split; [split|].
  - done.
  - intros a [Ha [->|(k & Hk & E)]].
    + rewrite Hind in *. split; [|by apply Hib]. apply Hdata. apply (fw_own _ _ _ Wf). split; [done|by left].
    + rewrite Hba in E by done. destruct (Z.eqb_spec k bn); [subst a; split; [done|by rewrite Hrz]|].
      subst a. split; [apply Hdata; by apply (fw_own _ _ _ Wf), owns_block|]. rewrite Hsame by done. by apply (fw_own _ _ _ Wf), owns_block.
  - intros k k' Hk Hk'. rewrite !Hba by done. destruct (Z.eqb_spec k bn), (Z.eqb_spec k' bn); [congruence| | |by apply (fw_inj _ _ _ Wf)].
    + intros E _. exfalso. apply (Hne k' Hk'); congruence.
    + intros E Hn. exfalso. apply (Hne k Hk); congruence.
  - intros k Hk. rewrite Hba, Hind by done. destruct (Z.eqb_spec k bn); [|by apply (fw_ind _ _ _ Wf)].
    intros _ E. destruct (Z.eq_dec (addr_at x NDIRECT) 0); [congruence|].
    destruct (Hdata (addr_at x NDIRECT)) as [Hx _]; [apply (fw_own _ _ _ Wf); split; [done|by left]|congruence].
  - intros o Ho. assert (0 <= o / BSIZE < MAXFILE) as Hq by (split; [apply Z.div_pos; [lia|done]|apply Z.div_lt_upper_bound; [done|lia]]).
    unfold content. rewrite Hba by done. destruct (Z.eqb_spec (o / BSIZE) bn) as [->|Hn].
    + rewrite Hz, Z.eqb_refl, Hrz, (proj2 (Z.eqb_neq r 0)) by done. apply nth_zero.
    + destruct (Z.eqb_spec (baddr v x (o / BSIZE)) 0); [done|]. by rewrite Hsame.
Qed.
Lemma get_le_zero n k : get_le n k zero_block = 0.
Proof.
  unfold get_le, rd_bytes, zero_block. rewrite drop_replicate, take_replicate.
  generalize (Z.to_nat n `min` (Z.to_nat BSIZE - Z.to_nat k))%nat. intros m. by induction m as [|m IH]; [|simpl; rewrite IH].
Qed.
(** The file gets a zero indirect block. *)
Lemma wf_add_ind sb v x l r : file_wf sb v x -> bitmap_ok sb v -> addr_at x NDIRECT = 0 -> 0 < r < sb_size sb -> taken sb v r l ->
  let x' := set_iaddr NDIRECT r x in
  file_wf sb (lview l) x' /\ (forall k, 0 <= k < MAXFILE -> baddr (lview l) x' k = baddr v x k) /\
  forall o, 0 <= o < MAXFILE * BSIZE -> content (lview l) x' o = content v x o.
Proof.
  intros Wf Hbm Hz Hr Ht x'. pose proof (fw_len _ _ _ Wf) as Hlen. destruct (taken_new sb v r l Hbm ltac:(lia) Ht) as [Hrd Hrb].
  assert (forall j, 0 <= j -> addr_at x' j = if j =? NDIRECT then r else addr_at x j) as Hat by (intros; by apply addr_at_set).
  assert (addr_at x' NDIRECT = r) as Hi by (by rewrite Hat).
  assert (forall k, 0 <= k < MAXFILE -> baddr (lview l) x' k = baddr v x k) as Hba.
  { intros k Hk. unfold baddr. rewrite Hi, Hz, (proj2 (Z.eqb_neq r 0)) by lia. destruct (Z.ltb_spec k NDIRECT) as [Hl|Hl].
    - rewrite Hat, (proj2 (Z.eqb_neq k NDIRECT)) by lia. done.
    - rewrite (tk_zero _ _ _ _ Ht). change (0 =? 0) with true. apply get_le_zero. }
  assert (forall k, 0 <= k < MAXFILE -> baddr v x k <> 0 ->
    baddr v x k <> r /\ lview l (baddr v x k) = v (baddr v x k) /\ data_block sb (lview l) (baddr v x k)) as Hold.
  { intros k Hk Hn. apply (taken_data sb v r l); [done|lia|done|]. by apply (fw_own _ _ _ Wf), owns_block. }
  split; [split|split; [done|]].
  - cbn [i_addrs set_iaddr x']. by rewrite length_insert.
  - intros a [Ha [->|(k & Hk & E)]]; [by rewrite Hi|]. rewrite Hba in E by done. subst a.
    destruct (Hold k Hk Ha) as (_ & -> & ?). split; [done|]. by apply (fw_own _ _ _ Wf), owns_block.
  - intros k k' Hk Hk'. rewrite !Hba by done. by apply (fw_inj _ _ _ Wf).
  - intros k Hk. rewrite Hba, Hi by done. intros Hn. by apply Hold.
  - intros o Ho. assert (0 <= o / BSIZE < MAXFILE) as Hq by (split; [apply Z.div_pos; [lia|done]|apply Z.div_lt_upper_bound; [done|lia]]).
    unfold content. rewrite Hba by done. destruct (Z.eqb_spec (baddr v x (o / BSIZE)) 0); [done|].
    by destruct (Hold _ Hq n) as (_ & -> & _).
Qed.

(** Views that agree on the bitmap agree on what is in use. *)
Definition same_bitmap (sb : superblock) (v v' : Z -> block) : Prop :=
  forall b, 0 <= b < sb_size sb -> v' (BBLOCK b sb) = v (BBLOCK b sb).
Lemma used_ext sb v v' b : same_bitmap sb v v' -> 0 <= b < sb_size sb -> used sb v' b = used sb v b.
Proof. intros He Hb. unfold used. by rewrite He. Qed.
Lemma data_ext sb v v' a : same_bitmap sb v v' -> data_block sb v a -> data_block sb v' a.
Proof. intros He (H1 & H2 & H3). split; [done|]. split; [by rewrite (used_ext sb v v')|done]. Qed.
Lemma bitmap_ext sb v v' : same_bitmap sb v v' -> bitmap_ok sb v -> bitmap_ok sb v'.
Proof.
  intros He Hbm. split; [apply Hbm|apply Hbm|intros b Hb; rewrite He by done; by apply Hbm|].
  intros b b' Hb Hb'. rewrite (used_ext sb v v') by done. by apply Hbm.
Qed.
Lemma is_blk_put32 d off a : is_blk d -> 0 <= off -> off + 4 <= BSIZE -> is_blk (put32 off a d).
Proof.
  intros [Hl HF] H0 Ho. change (Z.to_nat BSIZE) with 1024%nat in Hl. change BSIZE with 1024 in Ho. split; [rewrite length_put_le; [exact Hl|lia..]|].
  unfold put_le, wr_bytes. apply Forall_app. split; [by apply Forall_take|]. apply Forall_app. split; [apply le_split_bytes|by apply Forall_drop].
Qed.

(** ** bmap *)

(** Only the log and inode [ip] may differ. *)
Definition kept (ip : Z) (s s' : kst) : Prop :=
  exists it l, s' = set_klog (set_kitable s it) l /\ forall j, j <> ip -> it !! j = k_itable s !! j.
(** What an inode says besides its addresses. *)
Definition meta (x : inode) :=
  (i_dev x, i_inum x, i_ref x, i_lock x, i_valid x, (i_type x, i_major x, i_minor x, i_nlink x, i_size x)).

(** The file has the same contents in possibly more blocks. *)
Record grown (ip : Z) (s s' : kst) : Prop := {
  gw_kept : kept ip s s';
  gw_meta : meta (inode_at s' ip) = meta (inode_at s ip);
  gw_bm : bitmap_ok (k_sb s) (kview s');
  gw_wf : file_wf (k_sb s) (kview s') (inode_at s' ip);
  gw_content : forall o, 0 <= o < MAXFILE * BSIZE -> content (kview s') (inode_at s' ip) o = content (kview s) (inode_at s ip) o;
  gw_owns : forall a, owns (kview s') (inode_at s' ip) a ->
    owns (kview s) (inode_at s ip) a \/ ~ data_block (k_sb s) (kview s) a;
  gw_data : forall a, data_block (k_sb s) (kview s) a -> data_block (k_sb s) (kview s') a /\
    (~ owns (kview s) (inode_at s ip) a -> kview s' a = kview s a);
  gw_used : forall b, 0 <= b < sb_size (k_sb s) -> used (k_sb s) (kview s) b = true -> used (k_sb s) (kview s') b = true;
  gw_baddr : forall k, 0 <= k < MAXFILE -> baddr (kview s) (inode_at s ip) k <> 0 ->
    baddr (kview s') (inode_at s' ip) k = baddr (kview s) (inode_at s ip) k;
}.

Lemma kept_refl ip s l : kept ip s (set_klog s l).
Proof. exists (k_itable s), l. split; [by destruct s|done]. Qed.
Lemma kept_sb ip s s' : kept ip s s' -> k_sb s' = k_sb s.
Proof. by intros (it & l & -> & _). Qed.
Lemma kept_mem ip s s' : kept ip s s' -> k_mem s' = k_mem s.
Proof. by intros (it & l & -> & _). Qed.
Lemma kept_trans ip s s' s'' : kept ip s s' -> kept ip s' s'' -> kept ip s s''.
Proof.
  intros (it & l & -> & Hj) (it' & l' & -> & Hj'). exists it', l'. split; [by destruct s|].
  intros j Hne. rewrite Hj' by done. by apply Hj.
Qed.
Lemma file_grown_refl ip s l : bitmap_ok (k_sb s) (kview s) -> file_wf (k_sb s) (kview s) (inode_at s ip) ->
  (forall y, lview l y = kview s y) -> grown ip s (set_klog s l).
Proof.
  intros Hbm Wf V. change (inode_at (set_klog s l) ip) with (inode_at s ip).
  assert (forall b, used (k_sb s) (lview l) b = used (k_sb s) (kview s) b) as Hu by (intros; unfold used; by rewrite V).
  assert (forall a, data_block (k_sb s) (kview s) a -> data_block (k_sb s) (lview l) a) as Hd.
  { intros a (H1 & H2 & H3). split; [done|]. by rewrite Hu. }
  assert (forall k, baddr (lview l) (inode_at s ip) k = baddr (kview s) (inode_at s ip) k) as Hb by (intros; unfold baddr; by rewrite V).
  assert (forall a, owns (lview l) (inode_at s ip) a -> owns (kview s) (inode_at s ip) a) as Hown.
  { intros a [Ha Ho]. split; [done|]. destruct Ho as [?|(k & Hk & E)]; [by left|right]. exists k. by rewrite <- Hb. }
  split; try (change (kview (set_klog s l)) with (lview l)); [apply kept_refl|done| | | |intros a Ha; left; by apply Hown| | |intros k _ _; apply Hb].
  - split; [apply Hbm|apply Hbm|intros b Hb'; rewrite V; by apply Hbm|]. intros b b' H1 H2. rewrite Hu. by apply Hbm.
  - split; [apply Wf| | |].
    + intros a Ha. rewrite V. destruct (fw_own _ _ _ Wf a (Hown a Ha)) as [Hx Hy]. split; [by apply Hd|done].
    + intros k k'. rewrite !Hb. apply Wf.
    + intros k. rewrite Hb. apply Wf.
  - intros o Ho. unfold content. by rewrite Hb, V.
  - intros a Ha. split; [by apply Hd|intros _; apply V].
  - intros b Hr. by rewrite Hu.
Qed.
Lemma file_grown_trans ip s s' s'' : grown ip s s' -> grown ip s' s'' -> grown ip s s''.
Proof.
  intros G1 G2. pose proof (kept_sb _ _ _ (gw_kept _ _ _ G1)) as Es. destruct G2 as [A1 A2 A3 A4 A5 A6 A7 A8 A9]. rewrite Es in *.
  destruct G1 as [B1 B2 B3 B4 B5 B6 B7 B8 B9]. split; [by eapply kept_trans|congruence|done|done| | | | |].
  - intros o Ho. rewrite A5 by done. by apply B5.
  - intros a Ha. destruct (A6 a Ha) as [Ho|Hn]; [by apply B6|right]. intros Hd. by apply Hn, B7.
  - intros a Ha. destruct (B7 a Ha) as [Hd Hv]. destruct (A7 a Hd) as [Hd' Hv']. split; [done|]. intros Hne.
    rewrite Hv'; [by apply Hv|]. intros Ho. by destruct (B6 a Ho).
  - intros b Hb Hu. apply A8; [done|]. by apply B8.
  - intros k Hk Hn. rewrite A9; [by apply B9|done|by rewrite B9].
Qed.

Section Bmap.
Context {D : DiskDriver} {DOK : DiskDriverOk D}.
Variable ip : Z.

(** A block that is there. *)
Lemma bmap_found c s bn : bio_cpu c -> tx c ∅ (k_log s) -> i_dev (inode_at s ip) = ROOTDEV ->
  0 <= bn < MAXFILE -> baddr (kview s) (inode_at s ip) bn <> 0 -> lh_n (l_log (k_log s)) < NBUF ->
  exists c' l, bmap ip bn c s = Done (baddr (kview s) (inode_at s ip) bn) c' (set_klog s l) /\ later c c' /\ tx c' ∅ l /\
    same_log (k_log s) l /\ forall y, lview l y = kview s y.
Proof.
  intros Hcpu HT Hdev Hbn Hne Hn. set (x := inode_at s ip) in *. unfold baddr in *. unfold bmap, gi. krun. fold x.
  destruct (Z.ltb_spec bn NDIRECT) as [Hd|Hd]; cbv beta; fold x.
  - rewrite (proj2 (Z.eqb_neq _ 0) Hne). exists c, (k_log s). split; [by destruct s|]. split; [apply later_refl|]. done.
  - destruct (Z.eqb_spec (addr_at x NDIRECT) 0) as [E0|E0]; [done|].
    rewrite (proj2 (Z.ltb_lt (bn - NDIRECT) NINDIRECT)) by (change MAXFILE with (NDIRECT + NINDIRECT) in Hbn; lia).
    cbv beta iota. fold x. rewrite (proj2 (Z.eqb_neq _ 0) E0), Hdev. cbv beta iota. rewrite (proj2 (Z.eqb_neq _ 0) E0). cbv beta iota.
    destruct (kbread c ∅ s Hcpu HT (addr_at x NDIRECT)) as (i & l1 & E1 & T1 & S1 & V1 & C1 & _); [done|rewrite map_size_empty; lia|].
    rewrite E1. cbv beta iota. rewrite (kdata_held c _ (set_klog s l1) T1 (addr_at x NDIRECT) i) by apply lookup_insert_eq.
    cbv beta iota. change (kview (set_klog s l1)) with (lview l1). rewrite V1. rewrite (proj2 (Z.eqb_neq _ 0) Hne).
    destruct (kbrelse c _ (set_klog s l1) Hcpu T1 (addr_at x NDIRECT) i) as (c2 & l2 & E2 & Hc & T2 & S2 & V2); [apply lookup_insert_eq|done|].
    rewrite E2. cbv beta iota. exists c2, l2. split; [by destruct s|]. split; [done|].
    rewrite delete_insert_id in T2 by done. split; [done|]. destruct S1, S2. split; [split; [|]; cbn [k_log set_klog] in *; congruence|].
    intros y. rewrite V2. apply V1.
Qed.

(** No block is free. *)
Definition full (s : kst) : Prop := forall b, 0 <= b < sb_size (k_sb s) -> used (k_sb s) (kview s) b = true.

(** What the allocating lemmas need. *)
Record ready (c : ctx) (s : kst) : Prop := {
  rd_cpu : bio_cpu c;
  rd_log : unlocked L_log c;
  rd_pr : unlocked L_pr c;
  rd_bm : bitmap_ok (k_sb s) (kview s);
  rd_zero : used (k_sb s) (kview s) 0 = true;
  rd_wf : file_wf (k_sb s) (kview s) (inode_at s ip);
  rd_dev : i_dev (inode_at s ip) = ROOTDEV;
}.
Lemma ready_grown c s c' s' : ready c s -> later c c' -> grown ip s s' -> ready c' s'.
Proof.
  intros [H1 H2 H3 H4 H5 H6 H7] Hl G. pose proof (kept_sb _ _ _ (gw_kept _ _ _ G)) as Es.
  split; rewrite ?Es; [by apply (later_cpu c)|by apply (later_unlocked L_log c)|by apply (later_unlocked L_pr c)|apply G| |apply G|].
  - apply (gw_used _ _ _ G); [|done]. pose proof (bm_size _ _ H4). lia.
  - pose proof (gw_meta _ _ _ G) as E. unfold meta in E. congruence.
Qed.
Lemma full_grown s s' : grown ip s s' -> full s -> full s'.
Proof. intros G Hf b. rewrite (kept_sb _ _ _ (gw_kept _ _ _ G)). intros Hb. apply (gw_used _ _ _ G); [done|]. by apply Hf. Qed.

(** The inode after address [k] was set to the block just taken. *)
Lemma grown_taken s l k r : bitmap_ok (k_sb s) (kview s) -> 0 <= r < sb_size (k_sb s) -> taken (k_sb s) (kview s) r l ->
  length (i_addrs (inode_at s ip)) = 13%nat -> 0 <= k <= NDIRECT ->
  (forall j, 0 <= j < MAXFILE ->
     baddr (kview s) (inode_at s ip) j = 0 /\ baddr (lview l) (set_iaddr k r (inode_at s ip)) j = r \/
     baddr (lview l) (set_iaddr k r (inode_at s ip)) j = baddr (kview s) (inode_at s ip) j) ->
  file_wf (k_sb s) (lview l) (set_iaddr k r (inode_at s ip)) ->
  (forall o, 0 <= o < MAXFILE * BSIZE -> content (lview l) (set_iaddr k r (inode_at s ip)) o = content (kview s) (inode_at s ip) o) ->
  grown ip s (upd_inode ip (set_iaddr k r) (set_klog s l)).
Proof.
  intros Hbm Hr Ht Hlen Hk Hj Wf Hc. set (s' := upd_inode ip (set_iaddr k r) (set_klog s l)).
  assert (inode_at s' ip = set_iaddr k r (inode_at s ip)) as Ex by (unfold s'; by rewrite inode_at_same).
  split; try rewrite Ex; try (change (kview s') with (lview l)).
  - exists (k_itable s'), l. split; [by destruct s|]. intros j Hne. unfold s', upd_inode. simpl. by rewrite lookup_insert_ne.
  - done.
  - by apply (taken_bitmap (k_sb s) (kview s) r l).
  - done.
  - done.
  - assert (~ data_block (k_sb s) (kview s) r) as Hnr by (intros (_ & Hu & _); by rewrite (tk_free _ _ _ _ Ht) in Hu).
    intros a [Ha [->|(j & Hj' & E)]].
    + rewrite addr_at_set in Ha |- * by (done || change NDIRECT with 12; lia).
      destruct (Z.eqb_spec NDIRECT k) as [|]; [by right|left]. split; [done|by left].
    + destruct (Hj j Hj') as [[_ E']|E']; [right; congruence|left]. split; [done|right]. exists j. split; [done|congruence].
  - intros a Ha. destruct (taken_data (k_sb s) (kview s) r l a Hbm Hr Ht Ha) as (_ & ? & ?). done.
  - intros b Hb Hu. change (used (k_sb s) (lview l) b = true). rewrite (taken_used (k_sb s) (kview s) r l b) by done. by rewrite Hu, orb_true_r.
  - intros j Hj' Hn. by destruct (Hj j Hj') as [[E _]|E].
Qed.

(** balloc in a state that holds no bitmap block. *)
Lemma balloc_ready c s H : ready c s -> tx c H (k_log s) -> lh_n (l_log (k_log s)) + Z.of_nat (size H) + 1 < NBUF ->
  (forall a i, H !! a = Some i -> data_block (k_sb s) (kview s) a) ->
  exists c' l r, balloc ROOTDEV c s = Done r c' (set_klog s l) /\ later c c' /\ tx c' H l /\ moved 2 (k_log s) l /\
    ((0 < r < sb_size (k_sb s) /\ taken (k_sb s) (kview s) r l) \/ (r = 0 /\ full s /\ forall y, lview l y = kview s y)).
Proof.
  intros R HT Hn HH. destruct (balloc_spec (k_sb s) (kview s) H (rd_bm _ _ R)) with (c := c) (s := s)
    as (c' & l & r & E & Hl & T & M & Hr); [|apply R|apply R|apply R|done|done|done|done|].
  - intros b Hb. split.
    + destruct (H !! BBLOCK b (k_sb s)) as [i|] eqn:E; [|done]. destruct (HH _ _ E) as (_ & _ & Hne). by destruct (Hne b Hb).
    + intros Hu. destruct (H !! b) as [i|] eqn:E; [|done]. destruct (HH _ _ E) as (_ & Hu' & _). congruence.
  - exists c', l, r. split; [done|]. split; [done|]. split; [done|]. split; [done|].
    destruct Hr as [[Hr Ht]|Hr]; [left|by right]. split; [|done]. destruct (Z.eq_dec r 0) as [->|]; [|lia].
    pose proof (tk_free _ _ _ _ Ht). pose proof (rd_zero _ _ R). congruence.
Qed.

(** The indirect block, allocated when there is none. *)
Definition ind_part (x : inode) : K kst Z :=
  if addr_at x NDIRECT =? 0 then
    addr ← balloc (i_dev x);
    (if addr =? 0 then mret tt else ui ip (set_iaddr NDIRECT addr));;
    mret addr
  else mret (addr_at x NDIRECT).
Lemma ind_spec c s : ready c s -> tx c ∅ (k_log s) -> lh_n (l_log (k_log s)) + 1 < NBUF ->
  exists c' s' r, ind_part (inode_at s ip) c s = Done r c' s' /\ later c c' /\ tx c' ∅ (k_log s') /\ grown ip s s' /\
    moved 2 (k_log s) (k_log s') /\ r = addr_at (inode_at s' ip) NDIRECT /\ (r = 0 -> full s') /\
    forall k, 0 <= k < MAXFILE -> baddr (kview s') (inode_at s' ip) k = baddr (kview s) (inode_at s ip) k.
Proof.
  intros R HT Hn. set (x := inode_at s ip). unfold ind_part. destruct (Z.eqb_spec (addr_at x NDIRECT) 0) as [E0|E0].
  - unfold x. rewrite (rd_dev _ _ R).
    destruct (balloc_ready c s ∅ R HT) as (c' & l & r & E & Hl & T & M & Hr); [rewrite map_size_empty; lia|done|].
    kstep E. destruct Hr as [[Hr Ht]|(-> & Hf & V)].
    + rewrite (proj2 (Z.eqb_neq r 0)) by lia. set (s' := upd_inode ip (set_iaddr NDIRECT r) (set_klog s l)).
      destruct (wf_add_ind (k_sb s) (kview s) x l r (rd_wf _ _ R) (rd_bm _ _ R) E0 Hr Ht) as (Wf & Hb & Hc).
      assert (inode_at s' ip = set_iaddr NDIRECT r x) as Ex by (unfold s'; by rewrite inode_at_same).
      exists c', s', r. split; [done|]. split; [done|]. split; [done|].
      split; [apply grown_taken; [apply R|lia|done|apply (fw_len _ _ _ (rd_wf _ _ R))|done|intros j Hj; right; by apply Hb|done|done]|].
      split; [done|]. split; [rewrite Ex, addr_at_set; [done|apply (fw_len _ _ _ (rd_wf _ _ R))|done|done]|].
      split; [lia|]. intros k Hk. rewrite Ex. by apply Hb.
    + exists c', (set_klog s l), 0. split; [done|]. split; [done|]. split; [done|].
      assert (grown ip s (set_klog s l)) as G by (apply file_grown_refl; [apply R|apply R|done]).
      split; [done|]. split; [done|]. split; [done|]. split; [intros _; by apply (full_grown s)|].
      intros k Hk. change (inode_at (set_klog s l) ip) with x. unfold baddr. change (kview (set_klog s l)) with (lview l). by rewrite V.
  - exists c, s, (addr_at x NDIRECT). split; [done|]. split; [apply later_refl|]. split; [done|].
    split; [replace s with (set_klog s (k_log s)) at 2 by (by destruct s); apply file_grown_refl; [apply R|apply R|done]|].
    split; [apply (moved_le 0); [lia|apply moved_refl]|]. done.
Qed.

(** An entry of the indirect block, allocated when there is none. *)
Definition entry_part (dev addr bn : Z) : K kst Z :=
  bp ← zoom kbioA (bread dev addr);
  a ← kdata bp;
  addr ← (if get32 (4 * bn) a =? 0 then
            addr ← balloc dev;
            (if z2b addr then
               a ← kdata bp;
               set_kdata bp (put32 (4 * bn) addr a);;
               zoom logA (log_write bp)
             else mret tt);;
            mret addr
          else mret (get32 (4 * bn) a));
  zoom kbioA (brelse bp);;
  mret addr.

(** The state after the entry was set to the block just taken. *)
Lemma grown_entry s l2 l5 bn r : let x := inode_at s ip in let ind := addr_at x NDIRECT in
  bitmap_ok (k_sb s) (kview s) -> file_wf (k_sb s) (kview s) x -> NDIRECT <= bn < MAXFILE -> ind <> 0 ->
  baddr (kview s) x bn = 0 -> 0 < r < sb_size (k_sb s) -> taken (k_sb s) (kview s) r l2 ->
  lview l5 ind = put32 (4 * (bn - NDIRECT)) r (kview s ind) -> (forall y, y <> ind -> lview l5 y = lview l2 y) ->
  grown ip s (set_klog s l5) /\ baddr (lview l5) x bn = r.
Proof.
  intros x ind Hbm Wf Hbn Hind Hz Hr Ht Hi Hv. change MAXFILE with 268 in *. change NDIRECT with 12 in *.
  assert (data_block (k_sb s) (kview s) ind /\ is_blk (kview s ind)) as [Hid Hib] by (apply (fw_own _ _ _ Wf); split; [done|by left]).
  pose proof (bm_size _ _ Hbm) as Hsz. pose proof Hib as [Hil _]. change (Z.to_nat BSIZE) with 1024%nat in Hil.
  assert (same_bitmap (k_sb s) (lview l2) (lview l5)) as Hbs.
  { intros b Hb. apply Hv. destruct Hid as (_ & _ & Hne). intros E. by apply (Hne b Hb). }
  destruct (taken_new (k_sb s) (kview s) r l2 Hbm ltac:(lia) Ht) as [Hrd _].
  assert (forall a, data_block (k_sb s) (kview s) a -> a <> r /\ lview l2 a = kview s a /\ data_block (k_sb s) (lview l5) a) as Hdata.
  { intros a Ha. destruct (taken_data (k_sb s) (kview s) r l2 a Hbm ltac:(lia) Ht Ha) as (H1 & H2 & H3). split; [done|]. split; [done|].
    by apply (data_ext _ (lview l2)). }
  assert (forall k, 0 <= k < 268 -> baddr (lview l5) x k = if k =? bn then r else baddr (kview s) x k) as Hba.
  { intros k Hk. unfold baddr. change NDIRECT with 12. fold ind. rewrite Hi, (proj2 (Z.eqb_neq ind 0)) by done.
    destruct (Z.ltb_spec k 12), (Z.eqb_spec k bn); [lia|done| |].
    - subst k. rewrite get_put_same by lia. apply Z.mod_small. lia.
    - apply get_put_other; lia. }
  destruct (wf_add_block (k_sb s) (kview s) x (lview l5) x bn r Wf) as [Wf' Hc]; try done.
  - change MAXFILE with 268. lia.
  - lia.
  - apply (fw_len _ _ _ Wf).
  - intros a Ha. by destruct (Hdata a Ha) as (? & _ & ?).
  - by apply (data_ext _ (lview l2)).
  - rewrite Hv; [apply (tk_zero _ _ _ _ Ht)|]. intros ->. by destruct (Hdata _ Hid) as [? _].
  - intros k Hk Hn. rewrite Hv by (by apply (fw_ind _ _ _ Wf)). apply Hdata. by apply (fw_own _ _ _ Wf), owns_block.
  - intros _. change NDIRECT with 12. fold ind. rewrite Hi. apply is_blk_put32; [done|lia|change BSIZE with 1024; lia].
  - split; [|rewrite Hba, Z.eqb_refl by lia; done].
    split; change (kview (set_klog s l5)) with (lview l5); change (inode_at (set_klog s l5) ip) with x; [apply kept_refl|done| |done|done| | | |].
    + apply (bitmap_ext _ (lview l2)); [done|]. apply (taken_bitmap _ (kview s) r); [done|lia|done].
    + intros a [Ha [E|(k & Hk & E)]]; [left; split; [done|by left]|]. rewrite Hba in E by done. destruct (Z.eqb_spec k bn).
      * right. subst r. intros Hd. by destruct (Hdata a Hd).
      * left. split; [done|right]. by exists k.
    + intros a Ha. destruct (Hdata a Ha) as (_ & H2 & H3). split; [done|]. intros Hne. rewrite Hv; [done|].
      intros ->. apply Hne. split; [done|by left].
    + intros b Hb Hu. rewrite (used_ext _ (lview l2)) by done. rewrite (taken_used _ (kview s) r l2 b) by (done || lia). by rewrite Hu, orb_true_r.
    + intros k Hk Hn. rewrite Hba by done. destruct (Z.eqb_spec k bn) as [->|]; [done|done].
Qed.

(** A block that could be released still can after others were taken. *)
Lemma clean_moved k l l' x : clean l x -> moved k l l' -> lview l' x = lview l x -> clean l' x.
Proof. intros [Hc|Hc] [M1 M2 M3] V; [left; by apply M3|right]. by rewrite V, M1. Qed.

Lemma entry_spec c s bn : let x := inode_at s ip in let ind := addr_at x NDIRECT in
  ready c s -> tx c ∅ (k_log s) -> NDIRECT <= bn < MAXFILE -> ind <> 0 -> baddr (kview s) x bn = 0 ->
  lh_n (l_log (k_log s)) + 3 < NBUF ->
  exists c' l r, entry_part ROOTDEV ind (bn - NDIRECT) c s = Done r c' (set_klog s l) /\ later c c' /\ tx c' ∅ l /\
    grown ip s (set_klog s l) /\ moved 3 (k_log s) l /\ r = baddr (lview l) x bn /\ (r = 0 -> full s).
Proof.
  intros x ind R HT Hbn Hind Hz Hn. pose proof (rd_wf _ _ R) as Wf. pose proof (rd_cpu _ _ R) as Hcpu.
  assert (data_block (k_sb s) (kview s) ind) as Hid by (apply (fw_own _ _ _ Wf); split; [done|by left]).
  destruct (kbread c ∅ s Hcpu HT ind) as (i & l1 & E1 & T1 & S1 & V1 & C1 & _); [done|rewrite map_size_empty; lia|].
  set (s1 := set_klog s l1). assert (grown ip s s1) as G1 by (apply file_grown_refl; [apply R|done|done]).
  pose proof (ready_grown c s c s1 R (later_refl c) G1) as R1. set (H := <[ind:=i]> ∅ : gmap Z Z) in *.
  assert (H !! ind = Some i) as Hi by apply lookup_insert_eq. assert (size H = 1%nat) as HsH by (unfold H; by rewrite map_size_insert_None).
  unfold entry_part. kstep E1. rewrite (bind_done _ _ _ _ _ _ _ (kdata_held c H s1 T1 ind i Hi)). cbv beta.
  assert (get32 (4 * (bn - NDIRECT)) (kview s1 ind) = 0) as Ez.
  { change (kview s1) with (lview l1). rewrite V1. unfold baddr in Hz. rewrite (proj2 (Z.ltb_ge bn NDIRECT)) in Hz by lia.
    fold ind in Hz. by rewrite (proj2 (Z.eqb_neq ind 0) Hind) in Hz. }
  rewrite Ez. change (0 =? 0) with true. cbv iota. rewrite bind_assoc.
  destruct (balloc_ready c s1 H R1 T1) as (c2 & l2 & r & E2 & Hl2 & T2 & M2 & Hr).
  { rewrite HsH. cbn [k_log s1 set_klog]. rewrite (same_n _ _ S1). lia. }
  { intros a j Ha. apply lookup_insert_Some in Ha as [[<- _]|[_ Ha]]; [|done]. by apply (gw_data _ _ _ G1). }
  kstep E2. change (set_klog s1 l2) with (set_klog s l2).
  pose proof (moved_trans 0 2 _ _ _ (same_moved _ _ S1) M2) as M02.
  assert (bio_cpu c2) as Hcpu2 by by apply (later_cpu c). destruct Hr as [[Hr Ht]|(-> & Hf & V2)].
  - assert (z2b r = true) as -> by (unfold z2b; by rewrite (proj2 (Z.eqb_neq r 0)) by lia).
    rewrite !bind_assoc. rewrite (bind_done _ _ _ _ _ _ _ (kdata_held c2 H (set_klog s l2) T2 ind i Hi)). cbv beta. rewrite !bind_assoc.
    destruct (kset c2 H (set_klog s l2) T2 ind i (put32 (4 * (bn - NDIRECT)) r (kview (set_klog s l2) ind)) Hi) as (l3 & E3 & T3 & S3 & V3 & V3').
    kstep E3. destruct (klog_write c2 H (set_klog s l3) Hcpu2 T3 ind i Hi) as (l4 & E4 & T4 & I4 & M4 & V4).
    { pose proof (bm_size _ _ (rd_bm _ _ R)). destruct Hid as ((? & ?) & _). lia. }
    { change LOGBLOCKS with NBUF. cbn [k_log set_klog]. rewrite (same_n _ _ S3). cbn [k_log set_klog]. pose proof (mv_n _ _ _ M02). lia. }
    { apply (later_unlocked L_log c); [done|apply R]. }
    kstep E4. destruct (kbrelse c2 H (set_klog s l4) Hcpu2 T4 ind i Hi) as (c5 & l5 & E5 & Hl5 & T5 & S5 & V5); [by left|].
    change (set_klog (set_klog s l3) l4) with (set_klog s l4). rewrite ?bind_assoc. rewrite (bind_done (mret r) _ c2 _ r c2 _ eq_refl). cbv beta. kstep E5.
    assert (delete ind H = ∅) as Hdel by (unfold H; by apply delete_insert_id).
    destruct (grown_entry s1 l2 l5 bn r) as [G2 Hb]; [apply R1|apply R1|done|done| |done|done| | |].
    + rewrite <- Hz. unfold baddr. change (kview s1) with (lview l1). by rewrite V1.
    + etrans; [apply V5|]. etrans; [apply V4|]. etrans; [apply V3|]. f_equal.
      destruct (taken_data (k_sb s1) (kview s1) r l2 ind (rd_bm _ _ R1) ltac:(lia) Ht) as (_ & ? & _); [|done]. by apply (gw_data _ _ _ G1).
    + intros y Hy. etrans; [apply V5|]. etrans; [apply V4|]. by apply V3'.
    + exists c5, l5, r. split; [done|]. split; [by eapply later_trans|]. rewrite Hdel in T5. split; [done|].
      split; [by apply (file_grown_trans ip s s1)|]. split; [|split; [done|lia]].
      pose proof (moved_trans 2 0 _ _ _ M02 (same_moved _ _ S3)) as M3. pose proof (moved_trans _ 1 _ _ _ M3 M4) as M5.
      apply (moved_trans 3 0 _ l4); [exact M5|apply same_moved; done].
  - change (z2b 0) with false. cbv iota.
    destruct (kbrelse c2 H (set_klog s l2) Hcpu2 T2 ind i Hi) as (c5 & l5 & E5 & Hl5 & T5 & S5 & V5).
    { apply (clean_moved 2 l1); [done|done|apply V2]. }
    assert (delete ind H = ∅) as Hdel by (unfold H; by apply delete_insert_id). rewrite Hdel in T5.
    assert (forall y, lview l5 y = kview s y) as V by (intros y; etrans; [apply V5|]; etrans; [apply V2|]; apply V1).
    exists c5, l5, 0. split; [rewrite bind_assoc; krun; krun; rewrite E5; done|]. split; [by eapply later_trans|]. split; [done|].
    split; [apply file_grown_refl; [apply R|done|done]|]. split; [apply (moved_le (2 + 0)); [lia|]; apply (moved_trans 2 0 _ l2); [done|apply same_moved; done]|].
    split; [unfold baddr; fold ind; rewrite V; symmetry; exact Hz|]. intros _ b Hb. rewrite <- (Hf b Hb). unfold used. symmetry. f_equal. f_equal. apply V1.
Qed.

Lemma bmap_direct c s bn : ready c s -> tx c ∅ (k_log s) -> 0 <= bn < NDIRECT -> baddr (kview s) (inode_at s ip) bn = 0 ->
  lh_n (l_log (k_log s)) + 1 < NBUF ->
  exists c' s' r, bmap ip bn c s = Done r c' s' /\ later c c' /\ tx c' ∅ (k_log s') /\ grown ip s s' /\
    moved 2 (k_log s) (k_log s') /\ r = baddr (kview s') (inode_at s' ip) bn /\ (r = 0 -> full s').
Proof.
  intros R HT Hbn Hz Hn. set (x := inode_at s ip) in *. pose proof (rd_wf _ _ R) as Wf. pose proof (fw_len _ _ _ Wf) as Hlen.
  assert (addr_at x bn = 0) as Ha by (unfold baddr in Hz; by rewrite (proj2 (Z.ltb_lt bn NDIRECT)) in Hz by lia).
  unfold bmap. rewrite (proj2 (Z.ltb_lt bn NDIRECT)) by lia. unfold gi. rewrite (bind_done (gets (fun s => inode_at s ip)) _ c s x c s eq_refl). cbv beta.
  rewrite Ha. change (0 =? 0) with true. cbv iota. unfold x. rewrite (rd_dev _ _ R). fold x.
  destruct (balloc_ready c s ∅ R HT) as (c' & l & r & E & Hl & T & M & Hr); [rewrite map_size_empty; lia|done|].
  kstep E. destruct Hr as [[Hr Ht]|(-> & Hf & V)].
  - rewrite (proj2 (Z.eqb_neq r 0)) by lia. set (s' := upd_inode ip (set_iaddr bn r) (set_klog s l)).
    assert (inode_at s' ip = set_iaddr bn r x) as Ex by (unfold s'; by rewrite inode_at_same).
    change NDIRECT with 12 in *. assert (addr_at (set_iaddr bn r x) 12 = addr_at x 12) as Hi.
    { rewrite addr_at_set by (done || lia). by rewrite (proj2 (Z.eqb_neq 12 bn)) by lia. }
    destruct (taken_new (k_sb s) (kview s) r l (rd_bm _ _ R) ltac:(lia) Ht) as [Hrd _].
    assert (forall a, data_block (k_sb s) (kview s) a -> a <> r /\ lview l a = kview s a /\ data_block (k_sb s) (lview l) a) as Hdata.
    { intros a Hd. apply (taken_data (k_sb s) (kview s) r l a); [apply R|lia|done|done]. }
    assert (forall k, 0 <= k < MAXFILE -> baddr (lview l) (set_iaddr bn r x) k = if k =? bn then r else baddr (kview s) x k) as Hba.
    { intros k Hk. unfold baddr. change NDIRECT with 12. rewrite Hi. destruct (Z.ltb_spec k 12); [by apply addr_at_set; try lia|].
      rewrite (proj2 (Z.eqb_neq k bn)) by lia. destruct (Z.eqb_spec (addr_at x 12) 0); [done|]. f_equal. apply Hdata.
      apply (fw_own _ _ _ Wf). split; [done|by left]. }
    destruct (wf_add_block (k_sb s) (kview s) x (lview l) (set_iaddr bn r x) bn r Wf) as [Wf' Hc]; try done.
    + change MAXFILE with 268. lia.
    + lia.
    + cbn [i_addrs set_iaddr]. by rewrite length_insert.
    + intros a Hd. by destruct (Hdata a Hd) as (? & _ & ?).
    + apply Ht.
    + intros k Hk Hne. apply Hdata. by apply (fw_own _ _ _ Wf), owns_block.
    + intros Hne. change NDIRECT with 12 in *. assert (owns (kview s) x (addr_at x 12)) as Ho by (split; [done|by left]).
      destruct (fw_own _ _ _ Wf _ Ho) as [Hd Hb]. by destruct (Hdata _ Hd) as (_ & -> & _).
    + exists c', s', r. split; [done|]. split; [done|]. split; [done|].
      split; [apply grown_taken; [apply R|lia|done|done|change NDIRECT with 12; lia| |done|done]|].
      { intros j Hj. fold x. rewrite Hba by done. destruct (Z.eqb_spec j bn) as [->|]; [by left|by right]. }
      split; [done|].
      rewrite Ex. change (kview s') with (lview l). rewrite Hba, Z.eqb_refl by (change MAXFILE with 268; lia). split; [done|lia].
  - assert (grown ip s (set_klog s l)) as G by (apply file_grown_refl; [apply R|apply R|done]).
    exists c', (set_klog s l), 0. split; [done|]. split; [done|]. split; [done|]. split; [done|]. split; [done|].
    split; [|intros _; by apply (full_grown s)]. change (inode_at (set_klog s l) ip) with x. unfold baddr.
    rewrite (proj2 (Z.ltb_lt bn NDIRECT)) by lia. done.
Qed.

Lemma bmap_spec c s bn : ready c s -> tx c ∅ (k_log s) -> 0 <= bn < MAXFILE -> lh_n (l_log (k_log s)) + 5 < NBUF ->
  exists c' s' r, bmap ip bn c s = Done r c' s' /\ later c c' /\ tx c' ∅ (k_log s') /\ grown ip s s' /\
    moved 5 (k_log s) (k_log s') /\ r = baddr (kview s') (inode_at s' ip) bn /\ (r = 0 -> full s').
Proof.
  intros R HT Hbn Hn. set (x := inode_at s ip). destruct (decide (baddr (kview s) x bn = 0)) as [Hz|Hz].
  - destruct (decide (bn < NDIRECT)) as [Hd|Hd].
    + destruct (bmap_direct c s bn R HT ltac:(lia) Hz ltac:(lia)) as (c' & s' & r & E & Hl & T & G & M & Hr).
      exists c', s', r. split; [done|]. split; [done|]. split; [done|]. split; [done|]. split; [by apply (moved_le 2)|done].
    + assert (bmap ip bn c s = (addr ← ind_part x; if addr =? 0 then mret 0 else entry_part (i_dev x) addr (bn - NDIRECT)) c s) as ->.
      { unfold bmap. rewrite (proj2 (Z.ltb_ge bn NDIRECT)) by lia.
        rewrite (proj2 (Z.ltb_lt (bn - NDIRECT) NINDIRECT)) by (change MAXFILE with (NDIRECT + NINDIRECT) in Hbn; lia). reflexivity. }
      destruct (ind_spec c s R HT ltac:(lia)) as (c1 & s1 & r1 & E1 & Hl1 & T1 & G1 & M1 & Hr1 & Hf1 & Hb1). kstep E1.
      pose proof (ready_grown c s c1 s1 R Hl1 G1) as R1. pose proof (mv_n _ _ _ M1) as Hn1.
      assert (baddr (kview s1) (inode_at s1 ip) bn = 0) as Hz1 by (by rewrite Hb1).
      destruct (Z.eqb_spec r1 0) as [E0|E0].
      * exists c1, s1, 0. split; [done|]. split; [done|]. split; [done|]. split; [done|]. split; [by apply (moved_le 2)|].
        split; [done|]. intros _. by apply Hf1.
      * unfold x. rewrite (rd_dev _ _ R). subst r1.
        destruct (entry_spec c1 s1 bn R1 T1 ltac:(lia) E0 Hz1 ltac:(lia)) as (c2 & l2 & r & E2 & Hl2 & T2 & G2 & M2 & Hr & Hf).
        exists c2, (set_klog s1 l2), r. split; [done|]. split; [by eapply later_trans|]. split; [done|].
        split; [by apply (file_grown_trans ip s s1)|]. split; [by apply (moved_trans 2 3 _ (k_log s1))|]. split; [done|].
        intros Hr0. apply (full_grown s1); [done|]. by apply Hf.
  - destruct (bmap_found c s bn (rd_cpu _ _ R) HT (rd_dev _ _ R) Hbn Hz ltac:(lia)) as (c' & l & E & Hl & T & S & V).
    exists c', (set_klog s l), (baddr (kview s) x bn). split; [done|]. split; [done|]. split; [done|].
    split; [apply file_grown_refl; [apply R|apply R|done]|]. split; [apply (moved_le 0); [lia|by apply same_moved]|].
    split; [|done]. change (inode_at (set_klog s l) ip) with x. unfold baddr. change (kview (set_klog s l)) with (lview l). by rewrite V.
Qed.
End Bmap.
