(* ===== verification/Trunc.v ===== *)
(** * Deleting files (theorems on itrunc and iput of Fs.v)

    itrunc gives the blocks of a file back to the bitmap, exactly those, and
    iput of the last reference to an unlinked inode also frees the inode. *)
From stdpp Require Import base numbers list gmap strings.
From S2P Require Import Prelude Kernel Spinlock Sleeplock Bio Bcache Printf Log Redo LogOps Riscv Kalloc Vm Kstate Proc Fs Txn Alloc Inode Content.

(** ** Log space for the bitmap

    Frees that fall into one bitmap block share its entry in the log, so the
    entries in use together with the bitmap blocks that are not yet among them
    bound what any number of frees needs. *)

(** The number of bitmap blocks. *)
Definition bitmap_count (sb : superblock) : Z := (sb_size sb - 1) / BPB + 1.
Definition bitmap_blocks (sb : superblock) : list Z := seqZ (sb_bmapstart sb) (bitmap_count sb).
Definition unlogged (sb : superblock) (l : log) : list Z := filter (fun x => x ∉ logl l) (bitmap_blocks sb).
Definition demand (sb : superblock) (l : log) : Z := lh_n l + Z.of_nat (length (unlogged sb l)).

Lemma demand_bound sb l : 0 <= bitmap_count sb -> lh_n l <= demand sb l <= lh_n l + bitmap_count sb.
Proof.
  intros H. unfold demand. split; [lia|]. pose proof (length_filter (fun x => x ∉ logl l) (bitmap_blocks sb)) as Hl.
  unfold bitmap_blocks in Hl at 2. rewrite length_seqZ in Hl. unfold unlogged. lia.
Qed.

Lemma unlogged_mono sb l l' : logl l ⊆ logl l' -> unlogged sb l' ⊆+ unlogged sb l.
Proof.
  intros Hs. apply NoDup_submseteq; [apply NoDup_filter, NoDup_seqZ|]. intros x.
  unfold unlogged. rewrite !list_elem_of_filter. set_solver.
Qed.

Lemma demand_moved sb k s s' : moved k s s' -> demand sb (l_log s') <= demand sb (l_log s) + k.
Proof.
  intros [_ H2 H3]. pose proof (submseteq_length _ _ (unlogged_mono sb _ _ H3)). unfold demand. lia.
Qed.

(** Logging a bitmap block leaves the demand as it is. *)
Lemma demand_logs sb x s s' : logs x s s' -> x ∈ bitmap_blocks sb -> demand sb (l_log s') <= demand sb (l_log s).
Proof.
  intros [[_ H2 H3] Hin Habs] Hx. unfold demand. destruct (decide (x ∈ logl (l_log s))) as [Hl|Hl].
  - rewrite Habs by done. pose proof (submseteq_length _ _ (unlogged_mono sb _ _ H3)). lia.
  - assert (x :: unlogged sb (l_log s') ⊆+ unlogged sb (l_log s)) as Hs%submseteq_length; [|simpl in Hs; lia].
    apply NoDup_submseteq.
    + apply NoDup_cons. split; [|apply NoDup_filter, NoDup_seqZ]. unfold unlogged. rewrite list_elem_of_filter. tauto.
    + intros y. unfold unlogged. rewrite elem_of_cons, !list_elem_of_filter. intros [->|[Hy ?]]; [done|].
      split; [|done]. intros Hn. by apply Hy, H3.
Qed.

Lemma BBLOCK_bitmap sb v b : bitmap_ok sb v -> 0 <= b < sb_size sb -> BBLOCK b sb ∈ bitmap_blocks sb.
Proof.
  intros Hbm Hb. rewrite (BBLOCK_eq sb v Hbm b Hb). unfold bitmap_blocks, bitmap_count. rewrite elem_of_seqZ.
  assert (0 <= b / BPB) by (apply Z.div_pos; [lia|done]).
  assert (b / BPB <= (sb_size sb - 1) / BPB) by (apply Z.div_le_mono; [done|lia]). lia.
Qed.
Lemma nbitmap_pos sb v : bitmap_ok sb v -> 1 <= bitmap_count sb.
Proof.
  intros Hbm. pose proof (bm_size _ _ Hbm). unfold bitmap_count.
  assert (0 <= (sb_size sb - 1) / BPB) by (apply Z.div_pos; [lia|done]). lia.
Qed.

(** ** Freeing blocks *)

(** From [v] to [v'] exactly the blocks in [F] became free. *)
Record emptied (sb : superblock) (v : Z -> block) (F : Z -> Prop) (v' : Z -> block) : Prop := {
  em_bm : bitmap_ok sb v';
  em_used : forall b, 0 <= b < sb_size sb -> used sb v' b = true <-> used sb v b = true /\ ~ F b;
  em_rest : forall y, (forall b, 0 <= b < sb_size sb -> y <> BBLOCK b sb) -> v' y = v y;
}.

Lemma emptied_refl sb v : bitmap_ok sb v -> emptied sb v (fun _ => False) v.
Proof. intros Hbm. split; [done|tauto|done]. Qed.
Lemma emptied_iff sb v F F' v' : (forall a, F a <-> F' a) -> emptied sb v F v' -> emptied sb v F' v'.
Proof. intros HF [H1 H2 H3]. split; [done| |done]. intros b Hb. rewrite <- HF. by apply H2. Qed.
Lemma emptied_view sb v F v1 v2 : (forall y, v2 y = v1 y) -> emptied sb v F v1 -> emptied sb v F v2.
Proof.
  intros He [H1 H2 H3]. assert (same_bitmap sb v1 v2) as Hs by (intros b Hb; apply He).
  split; [by apply (bitmap_ext sb v1)| |].
  - intros b Hb. rewrite (used_ext sb v1 v2 b Hs Hb). by apply H2.
  - intros y Hy. rewrite He. by apply H3.
Qed.

(** The bitmap after bfree of block [a]. *)
Lemma freed_used sb v v' a b : bitmap_ok sb v -> 0 <= a < sb_size sb -> 0 <= b < sb_size sb ->
  v' (BBLOCK a sb) = bit_clear (a mod BPB) (v (BBLOCK a sb)) -> (forall y, y <> BBLOCK a sb -> v' y = v y) ->
  used sb v' b = negb (b =? a) && used sb v b.
Proof.
  intros Hbm Ha Hb Hbit Hrest. assert (forall z, 0 <= z mod BPB < BPB) as Hmod by (intros; by apply Z.mod_pos_bound).
  unfold used. destruct (Z.eq_dec (BBLOCK b sb) (BBLOCK a sb)) as [E|E].
  - rewrite E, Hbit. destruct (bit_clear_spec (v (BBLOCK a sb)) (a mod BPB)) as [_ Hs]; [by apply (bm_blk _ _ Hbm)|done|].
    rewrite Hs by done. pose proof (BBLOCK_same sb v Hbm b a Hb Ha E) as Ed.
    pose proof (Z.div_mod a BPB ltac:(done)). pose proof (Z.div_mod b BPB ltac:(done)). rewrite Ed in *.
    destruct (Z.eqb_spec (a mod BPB) (b mod BPB)), (Z.eqb_spec b a); try lia; done.
  - rewrite Hrest by done. rewrite (proj2 (Z.eqb_neq b a)) by congruence. done.
Qed.

Lemma emptied_more sb v F v1 v2 a : emptied sb v F v1 -> data_block sb v a -> ~ F a ->
  v2 (BBLOCK a sb) = bit_clear (a mod BPB) (v1 (BBLOCK a sb)) -> (forall y, y <> BBLOCK a sb -> v2 y = v1 y) ->
  emptied sb v (fun b => F b \/ b = a) v2.
Proof.
  intros [H1 H2 H3] (Ha & _ & Hnb) HF Hbit Hrest. assert (0 <= a mod BPB < BPB) as Hmod by by apply Z.mod_pos_bound.
  assert (forall b, 0 <= b < sb_size sb -> used sb v2 b = negb (b =? a) && used sb v1 b) as Hu
    by (intros; by apply freed_used).
  split; [split|..].
  - apply H1.
  - apply H1.
  - intros b Hb. destruct (Z.eq_dec (BBLOCK b sb) (BBLOCK a sb)) as [E|E].
    + rewrite E, Hbit. apply bit_clear_spec; [by apply (bm_blk _ _ H1)|done].
    + rewrite Hrest by done. by apply (bm_blk _ _ H1).
  - intros b b' Hb Hb' Hub. rewrite Hu in Hub by done. apply andb_false_iff in Hub as [Hub|Hub]; [|by apply (bm_free _ _ H1)].
    apply negb_false_iff, Z.eqb_eq in Hub as ->. by apply Hnb.
  - intros b Hb. rewrite Hu by done. rewrite andb_true_iff, negb_true_iff, Z.eqb_neq, H2 by done. tauto.
  - intros y Hy. rewrite Hrest by (by apply Hy). by apply H3.
Qed.

(** ** itrunc *)

(** The data blocks a file names at indices below [n]. *)
Definition below (v : Z -> block) (x : inode) (n a : Z) : Prop :=
  a <> 0 /\ exists bn, 0 <= bn < n /\ baddr v x bn = a.

Section Trunc.
Context {D : DiskDriver} {DOK : DiskDriverOk D}.
Variables (ip : Z) (c0 : ctx) (s0 : kst).
Local Abbreviation sb := (k_sb s0).
Local Abbreviation v := (kview s0).
Local Abbreviation x := (inode_at s0 ip).
Hypotheses (Hcpu : bio_cpu c0) (Hul : unlocked L_log c0) (Hwf : file_wf sb v x) (Hdev : i_dev x = ROOTDEV)
  (Hroom : demand sb (l_log (k_log s0)) + 1 < NBUF).

(** While the file is cut: the blocks in [F] are free, the addresses of the
    inode are [A], the buffers in [H] are held, and all else is as it was. *)
Record freeing (H : gmap Z Z) (F : Z -> Prop) (A : Z -> Z) (c : ctx) (s : kst) : Prop := {
  fr_later : later c0 c;
  fr_tx : tx c H (k_log s);
  fr_held : forall y i, H !! y = Some i -> data_block sb v y /\ ~ F y;
  fr_size : (size H <= 1)%nat;
  fr_kept : kept ip s0 s;
  fr_meta : meta (inode_at s ip) = meta x;
  fr_len : length (i_addrs (inode_at s ip)) = 13%nat;
  fr_addr : forall k, 0 <= k <= NDIRECT -> addr_at (inode_at s ip) k = A k;
  fr_em : emptied sb v F (kview s);
  fr_demand : demand sb (l_log (k_log s)) <= demand sb (l_log (k_log s0));
  fr_clean : forall y i, H !! y = Some i -> clean (k_log s) y;
  fr_moved : dsk (l_bio (k_log s)) = dsk (l_bio (k_log s0)) /\ logl (l_log (k_log s0)) ⊆ logl (l_log (k_log s));
}.

Lemma freeing_iff H F F' A A' c s : (forall a, F a <-> F' a) -> (forall k, 0 <= k <= NDIRECT -> A k = A' k) ->
  freeing H F A c s -> freeing H F' A' c s.
Proof.
  intros HF HA [H1 H2 H3 H4 H5 H6 H7 H8 H9 H10 H11 H12]. split; try done.
  - intros y i Hy. rewrite <- HF. by apply (H3 y i).
  - intros k Hk. rewrite <- HA by done. by apply H8.
  - by apply (emptied_iff _ _ F).
Qed.

(** A free of a block of the file. *)
Lemma freeing_bfree H F A c s a : freeing H F A c s -> data_block sb v a -> ~ F a -> H !! a = None ->
  exists c' s', bfree (i_dev (inode_at s ip)) a c s = Done tt c' s' /\
    freeing H (fun b => F b \/ b = a) A c' s' /\ inode_at s' ip = inode_at s ip.
Proof.
  intros Fr Ha HF HH. pose proof (fr_em _ _ _ _ _ Fr) as Em. pose proof (kept_sb _ _ _ (fr_kept _ _ _ _ _ Fr)) as Es.
  pose proof (fr_size _ _ _ _ _ Fr) as Hs. pose proof (fr_demand _ _ _ _ _ Fr) as Hd. pose proof Ha as (Hr & Hu & Hnb).
  pose proof (fr_meta _ _ _ _ _ Fr) as Em'. pose proof (nbitmap_pos _ _ (em_bm _ _ _ _ Em)) as Hnbm.
  destruct (demand_bound sb (l_log (k_log s)) ltac:(lia)) as [Hlow _].
  assert (i_dev (inode_at s ip) = ROOTDEV) as -> by (unfold meta in Em'; congruence).
  destruct (bfree_spec sb (kview s) H (em_bm _ _ _ _ Em)) with (c := c) (s := s) (b := a)
    as (c' & l' & E & Hc & T & L & V & V');
    [|by apply (later_cpu c0); [apply Fr|]|by apply (later_unlocked L_log c0); [apply Fr|]|apply Fr|done|done|lia|done| |].
  - intros b Hb. split.
    + destruct (H !! BBLOCK b sb) as [i|] eqn:Eh; [|done]. destruct (fr_held _ _ _ _ _ Fr _ _ Eh) as [(_ & _ & Hn) _]. by destruct (Hn b Hb).
    + intros Hub. destruct (H !! b) as [i|] eqn:Eh; [|done]. destruct (fr_held _ _ _ _ _ Fr _ _ Eh) as [(_ & Hn & _) Hf].
      assert (used sb (kview s) b = true) as Ht by (by apply (em_used _ _ _ _ Em)). congruence.
  - apply (em_used _ _ _ _ Em); done.
  - exists c', (set_klog s l'). split; [exact E|]. split; [|done]. destruct Fr as [H1 H2 H3 H4 H5 H6 H7 H8 H9 H10 Hcl [H11 H12]].
    pose proof (lo_moved _ _ _ L) as M. split; try done.
    + by eapply later_trans.
    + intros y i Hy. destruct (H3 y i Hy) as [Hy1 Hy2]. split; [done|]. intros [Hf|E1]; [done|congruence].
    + eapply kept_trans; [exact H5|]. apply kept_refl.
    + by apply (emptied_more sb v F (kview s)).
    + etrans; [|exact H10]. apply (demand_logs sb (BBLOCK a sb)); [exact L|]. apply (BBLOCK_bitmap sb (kview s)); [apply H9|done].
    + intros y i Hy. destruct (H3 y i Hy) as [(_ & _ & Hyb) _]. apply (clean_moved 1 (k_log s)); [by apply (Hcl y i)|exact M|].
      apply V'. by apply Hyb.
    + split; [rewrite <- H11; apply M|]. etrans; [exact H12|]. apply M.
Qed.

(** An address of the inode cleared. *)
Lemma freeing_clear H F A c s k : freeing H F A c s -> 0 <= k <= NDIRECT ->
  freeing H F (fun j => if j =? k then 0 else A j) c (upd_inode ip (set_iaddr k 0) s).
Proof.
  intros [H1 H2 H3 H4 H5 H6 H7 H8 H9 H10 H11 H12] Hk. split; try done; rewrite ?inode_at_same.
  - eapply kept_trans; [exact H5|]. exists (k_itable (upd_inode ip (set_iaddr k 0) s)), (k_log s). split; [by destruct s|].
    intros j Hj. unfold upd_inode. simpl. by rewrite lookup_insert_ne.
  - exact H6.
  - cbn [i_addrs set_iaddr]. by rewrite length_insert.
  - intros j Hj. change NDIRECT with 12 in *. rewrite addr_at_set by lia. destruct (j =? k); [done|]. by apply H8.
Qed.

Lemma below_next n a : 0 <= n -> below v x (n + 1) a <-> below v x n a \/ (baddr v x n <> 0 /\ a = baddr v x n).
Proof.
  intros Hn. unfold below. split.
  - intros [Ha (bn & Hbn & E)]. destruct (Z.eq_dec bn n) as [->|]; [right; by subst a|left]. split; [done|]. exists bn. split; [lia|done].
  - intros [[Ha (bn & Hbn & E)]|[Ha ->]]; (split; [done|]); [exists bn; split; [lia|done]|]. exists n. split; [lia|done].
Qed.

(** Block [n] of the file is freed, if it has one. *)
Lemma freeing_entry H A c s n a : freeing H (below v x n) A c s -> 0 <= n < MAXFILE -> a = baddr v x n -> H !! a = None ->
  exists c' s', (if z2b a then bfree (i_dev (inode_at s ip)) a else mret tt) c s = Done tt c' s' /\
    freeing H (below v x (n + 1)) A c' s' /\ inode_at s' ip = inode_at s ip.
Proof.
  intros Fr Hn -> Hh. unfold z2b. destruct (Z.eqb_spec (baddr v x n) 0) as [E|E]; cbn [negb].
  - exists c, s. split; [done|]. split; [|done]. eapply freeing_iff; [|done|exact Fr]. intros a. rewrite below_next by lia. tauto.
  - destruct (freeing_bfree H (below v x n) A c s (baddr v x n) Fr) as (c' & s' & Eb & Fr' & Ex); [| |done|].
    + by apply (fw_own _ _ _ Hwf), owns_block.
    + intros [_ (bn & Hbn & Eq)]. enough (bn = n) by lia. by apply (fw_inj _ _ _ Hwf); [lia|lia| |rewrite Eq].
    + exists c', s'. split; [exact Eb|]. split; [|done]. eapply freeing_iff; [|done|exact Fr']. intros a. rewrite below_next by lia. tauto.
Qed.

(** The addresses after the first [n] direct ones were cleared. *)
Definition cleared (n k : Z) : Z := if k <? n then 0 else addr_at x k.

Lemma itrunc_direct_spec n : forall i c s, freeing ∅ (below v x i) (cleared i) c s -> 0 <= i -> i + Z.of_nat n = NDIRECT ->
  exists c' s', itrunc_direct n i ip c s = Done tt c' s' /\ freeing ∅ (below v x NDIRECT) (cleared NDIRECT) c' s'.
Proof.
  induction n as [|n IH]; intros i c s Fr Hi Hn; cbn [itrunc_direct].
  - replace i with NDIRECT in Fr by lia. by exists c, s.
  - change NDIRECT with 12 in *. assert (addr_at (inode_at s ip) i = baddr v x i) as Ea.
    { rewrite (fr_addr _ _ _ _ _ Fr) by (change NDIRECT with 12; lia). unfold cleared, baddr. change NDIRECT with 12.
      rewrite (proj2 (Z.ltb_ge i i)), (proj2 (Z.ltb_lt i 12)) by lia. done. }
    destruct (freeing_entry ∅ (cleared i) c s i _ Fr ltac:(change MAXFILE with 268; lia) Ea ltac:(done)) as (c1 & s1 & E1 & Fr1 & Ex).
    unfold gi. krun. rewrite Ea in *. destruct (z2b (baddr v x i)) eqn:Eb.
    + rewrite E1. cbv beta iota. unfold ui. krun. apply (IH (i + 1)); [|lia|lia].
      eapply freeing_iff; [done| |apply (freeing_clear _ _ _ _ _ i Fr1); change NDIRECT with 12; lia].
      intros k Hk. unfold cleared. destruct (Z.eqb_spec k i), (Z.ltb_spec k i), (Z.ltb_spec k (i + 1)); lia || done.
    + injection E1 as <- <-. krun. apply (IH (i + 1)); [|lia|lia].
      eapply freeing_iff; [done| |exact Fr1]. intros k Hk. unfold cleared.
      destruct (Z.ltb_spec k i), (Z.ltb_spec k (i + 1)); try lia. assert (k = i) as -> by lia.
      apply negb_false_iff, Z.eqb_eq in Eb. unfold baddr in Eb. by rewrite (proj2 (Z.ltb_lt i NDIRECT)) in Eb by (change NDIRECT with 12; lia).
Qed.

Lemma itrunc_indirect_spec n : forall j bp c s, let ind := addr_at x NDIRECT in ind <> 0 ->
  freeing {[ ind := bp ]} (below v x (NDIRECT + j)) (cleared NDIRECT) c s -> 0 <= j -> j + Z.of_nat n = NINDIRECT ->
  exists c' s', itrunc_indirect n j ip bp c s = Done tt c' s' /\ freeing {[ ind := bp ]} (below v x MAXFILE) (cleared NDIRECT) c' s'.
Proof.
  induction n as [|n IH]; intros j bp c s ind Hind Fr Hj Hn; cbn [itrunc_indirect].
  - replace (NDIRECT + j) with MAXFILE in Fr by (change MAXFILE with (NDIRECT + NINDIRECT); lia). by exists c, s.
  - change NINDIRECT with 256 in *. unfold gi. rewrite (bind_done (gets (fun s => inode_at s ip)) _ c s (inode_at s ip) c s eq_refl). cbv beta.
    destruct (fr_held _ _ _ _ _ Fr ind bp ltac:(apply lookup_singleton_eq)) as [(_ & _ & Hnb) _].
    assert (kview s ind = v ind) as Ev by (by apply (em_rest _ _ _ _ (fr_em _ _ _ _ _ Fr))).
    kstep (kdata_held c _ s (fr_tx _ _ _ _ _ Fr) ind bp ltac:(apply lookup_singleton_eq)). rewrite Ev.
    assert (get32 (4 * j) (v ind) = baddr v x (NDIRECT + j)) as Ea.
    { unfold baddr. fold ind. rewrite (proj2 (Z.ltb_ge _ NDIRECT)), (proj2 (Z.eqb_neq ind 0) Hind) by lia. do 2 f_equal. lia. }
    assert (NDIRECT + j < MAXFILE) as Hm by (change NDIRECT with 12; change MAXFILE with 268; lia).
    destruct (freeing_entry _ _ c s (NDIRECT + j) _ Fr ltac:(change NDIRECT with 12 in *; lia) Ea) as (c1 & s1 & E1 & Fr1 & Ex).
    { apply lookup_singleton_ne. rewrite Ea. intros E. apply (fw_ind _ _ _ Hwf (NDIRECT + j)); [change NDIRECT with 12 in *; lia|congruence|done]. }
    kstep E1. apply (IH (j + 1)); [done| |lia|lia]. by rewrite Z.add_assoc.
Qed.

(** The indirect block is read and held. *)
Lemma freeing_hold F A c s a : freeing ∅ F A c s -> data_block sb v a -> ~ F a ->
  exists i s', zoom kbioA (bread ROOTDEV a) c s = Done i c s' /\ freeing {[ a := i ]} F A c s' /\ inode_at s' ip = inode_at s ip.
Proof.
  intros Fr Ha HF. pose proof (fr_demand _ _ _ _ _ Fr) as Hd.
  destruct (demand_bound sb (l_log (k_log s))) as [Hlow _]; [pose proof (nbitmap_pos _ _ (em_bm _ _ _ _ (fr_em _ _ _ _ _ Fr))); lia|].
  destruct Fr as [H1 H2 H3 H4 H5 H6 H7 H8 H9 H10 H11 H12].
  destruct (kbread c ∅ s (later_cpu _ _ H1 Hcpu) H2 a) as (i & l & E & T & [S1 S2] & V & C & _); [done|rewrite map_size_empty; lia|].
  exists i, (set_klog s l). split; [exact E|]. split; [|done]. rewrite insert_empty in T. split; try done.
  - intros y j [<- <-]%lookup_singleton_Some. done.
  - by rewrite map_size_singleton.
  - eapply kept_trans; [exact H5|apply kept_refl].
  - by apply (emptied_view _ _ _ (kview s)).
  - cbn [k_log set_klog]. by rewrite S1.
  - intros y j [<- <-]%lookup_singleton_Some. exact C.
  - cbn [k_log set_klog]. by rewrite S1, S2.
Qed.
Lemma freeing_release F A c s a i : freeing {[ a := i ]} F A c s ->
  exists c' s', zoom kbioA (brelse i) c s = Done tt c' s' /\ freeing ∅ F A c' s' /\ inode_at s' ip = inode_at s ip.
Proof.
  intros [H1 H2 H3 H4 H5 H6 H7 H8 H9 H10 H11 H12].
  destruct (kbrelse c _ s (later_cpu _ _ H1 Hcpu) H2 a i) as (c' & l & E & Hc & T & [S1 S2] & V);
    [apply lookup_singleton_eq|apply (H11 a i), lookup_singleton_eq|].
  exists c', (set_klog s l). split; [exact E|]. split; [|done]. rewrite delete_singleton_eq in T. split; try done.
  - by eapply later_trans.
  - by rewrite map_size_empty; lia.
  - eapply kept_trans; [exact H5|apply kept_refl].
  - by apply (emptied_view _ _ _ (kview s)).
  - cbn [k_log set_klog]. by rewrite S1.
  - cbn [k_log set_klog]. by rewrite S1, S2.
Qed.

(** The blocks of a file, as the two loops meet them. *)
Lemma owns_below a : owns v x a <-> below v x MAXFILE a \/ (addr_at x NDIRECT <> 0 /\ a = addr_at x NDIRECT).
Proof. unfold owns, below. split; [intros [Ha [->|?]]; tauto|intros [[? ?]|[? ->]]; tauto]. Qed.
Lemma below_direct a : addr_at x NDIRECT = 0 -> below v x MAXFILE a <-> below v x NDIRECT a.
Proof.
  intros E. unfold below. split; intros [Ha (bn & Hbn & Eb)]; (split; [done|]); exists bn; (split; [|done]).
  - destruct (Z.lt_ge_cases bn NDIRECT) as [Hl|Hl]; [lia|]. unfold baddr in Eb. rewrite (proj2 (Z.ltb_ge _ _) Hl), E in Eb. by subst a.
  - change MAXFILE with 268. change NDIRECT with 12 in *. lia.
Qed.

Definition trunc_ind (y : inode) : K kst unit :=
  if z2b (addr_at y NDIRECT) then
    bp ← zoom kbioA (bread (i_dev y) (addr_at y NDIRECT));
    itrunc_indirect (Z.to_nat NINDIRECT) 0 ip bp;;
    zoom kbioA (brelse bp);;
    y ← gi ip;
    bfree (i_dev y) (addr_at y NDIRECT);;
    ui ip (set_iaddr NDIRECT 0)
  else mret tt.
Lemma trunc_ind_spec c s : freeing ∅ (below v x NDIRECT) (cleared NDIRECT) c s ->
  exists c' s', trunc_ind (inode_at s ip) c s = Done tt c' s' /\ freeing ∅ (owns v x) (fun _ => 0) c' s'.
Proof.
  intros Fr. assert (forall c s H F, freeing H F (cleared NDIRECT) c s -> addr_at (inode_at s ip) NDIRECT = addr_at x NDIRECT) as Ha.
  { intros c1 s1 H F Fr1. rewrite (fr_addr _ _ _ _ _ Fr1) by done. unfold cleared. by rewrite Z.ltb_irrefl. }
  assert (forall k, 0 <= k <= NDIRECT -> (if k =? NDIRECT then 0 else cleared NDIRECT k) = 0) as Hz.
  { intros k Hk. unfold cleared. destruct (Z.eqb_spec k NDIRECT); [done|]. by rewrite (proj2 (Z.ltb_lt k NDIRECT)) by lia. }
  unfold trunc_ind, z2b. rewrite (Ha _ _ _ _ Fr). set (ind := addr_at x NDIRECT) in *. destruct (Z.eqb_spec ind 0) as [E|E]; cbn [negb].
  - exists c, s. split; [done|]. eapply freeing_iff; [| |exact Fr].
    + intros a. rewrite owns_below. rewrite (below_direct a E). fold ind. tauto.
    + intros k Hk. rewrite <- (Hz k Hk). destruct (Z.eqb_spec k NDIRECT) as [->|]; [|done]. unfold cleared. by rewrite Z.ltb_irrefl.
  - assert (data_block sb v ind) as Hd by (apply (fw_own _ _ _ Hwf); split; [done|by left]).
    assert (forall n, n <= MAXFILE -> ~ below v x n ind) as Hn.
    { intros n Hn [_ (bn & Hbn & Eb)]. apply (fw_ind _ _ _ Hwf bn); [lia|congruence|done]. }
    assert (i_dev (inode_at s ip) = ROOTDEV) as -> by (pose proof (fr_meta _ _ _ _ _ Fr) as Em; unfold meta in Em; congruence).
    destruct (freeing_hold _ _ c s ind Fr Hd (Hn NDIRECT ltac:(done))) as (bp & s1 & E1 & Fr1 & _). kstep E1.
    destruct (itrunc_indirect_spec (Z.to_nat NINDIRECT) 0 bp c s1 E) as (c2 & s2 & E2 & Fr2); [by rewrite Z.add_0_r|done|done|].
    kstep E2. destruct (freeing_release _ _ c2 s2 ind bp Fr2) as (c3 & s3 & E3 & Fr3 & _). kstep E3.
    unfold gi. rewrite (bind_done (gets (fun s => inode_at s ip)) _ c3 s3 (inode_at s3 ip) c3 s3 eq_refl). cbv beta. rewrite (Ha _ _ _ _ Fr3).
    destruct (freeing_bfree _ _ _ c3 s3 ind Fr3 Hd (Hn MAXFILE ltac:(done)) ltac:(done)) as (c4 & s4 & E4 & Fr4 & _). kstep E4.
    eexists c4, _. split; [reflexivity|]. eapply freeing_iff; [|exact Hz|exact (freeing_clear _ _ _ _ _ NDIRECT Fr4 ltac:(done))].
    intros a. rewrite owns_below. fold ind. tauto.
Qed.

(** The inode of an empty file. *)
Definition wiped (y : inode) : inode :=
  Inode (i_dev y) (i_inum y) (i_ref y) (i_lock y) (i_valid y) (i_type y) (i_major y) (i_minor y) (i_nlink y) 0 (replicate 13 0).

Lemma wiped_eq y z : meta y = meta z -> length (i_addrs y) = 13%nat -> (forall k, 0 <= k <= NDIRECT -> addr_at y k = 0) ->
  set_isize 0 y = wiped z.
Proof.
  intros Hm Hl Ha. destruct y as [y1 y2 y3 y4 y5 y6 y7 y8 y9 y10 y11]. unfold meta in Hm. cbn in Hm, Hl.
  injection Hm as -> -> -> -> -> -> -> -> -> _. unfold set_isize, wiped. cbn -[replicate]. f_equal.
  symmetry. apply replicate_as_elem_of. split; [done|]. intros a [k Hk]%list_elem_of_lookup_1. pose proof (lookup_lt_Some _ _ _ Hk) as Hlt.
  specialize (Ha (Z.of_nat k)). unfold addr_at in Ha. cbn [i_addrs] in Ha. rewrite Nat2Z.id, nth_lookup, Hk in Ha. simpl in Ha.
  apply Ha. change NDIRECT with 12. lia.
Qed.

(** What a step leaves that frees the blocks of the file and writes inode [y] to
    its place on disk. *)
Record truncated (y : inode) (c : ctx) (s : kst) : Prop := {
  tr_later : later c0 c;
  tr_tx : tx c ∅ (k_log s);
  tr_kept : kept ip s0 s;
  tr_inode : inode_at s ip = y;
  tr_bm : bitmap_ok sb (kview s);
  tr_used : forall b, 0 <= b < sb_size sb -> used sb (kview s) b = true <-> used sb v b = true /\ ~ owns v x b;
  tr_rest : forall a, (forall b, 0 <= b < sb_size sb -> a <> BBLOCK b sb) -> a <> IBLOCK (i_inum x) sb -> kview s a = v a;
  tr_block : kview s (IBLOCK (i_inum x) sb) = put_dinode (i_inum x mod IPB) y (v (IBLOCK (i_inum x) sb));
  tr_demand : demand sb (l_log (k_log s)) <= demand sb (l_log (k_log s0)) + 1;
}.

Lemma itrunc_spec : let b := IBLOCK (i_inum x) sb in
  bitmap_ok sb v -> tx c0 ∅ (k_log s0) -> inum_ok sb (i_inum x) -> (forall a, 0 <= a < sb_size sb -> b <> BBLOCK a sb) ->
  exists c s, itrunc ip c0 s0 = Done tt c s /\ truncated (wiped x) c s.
Proof.
  intros b Hbm HT Hin Hb. assert (freeing ∅ (below v x 0) (cleared 0) c0 s0) as Fr0.
  { split; try done.
    - apply later_refl.
    - rewrite map_size_empty. lia.
    - exists (k_itable s0), (k_log s0). split; [by destruct s0|done].
    - apply (fw_len _ _ _ Hwf).
    - intros k Hk. unfold cleared. by rewrite (proj2 (Z.ltb_ge k 0)) by lia.
    - eapply emptied_iff; [|by apply emptied_refl]. intros a. split; [done|]. intros [_ (bn & Hbn & _)]. lia. }
  destruct (itrunc_direct_spec (Z.to_nat NDIRECT) 0 c0 s0 Fr0 ltac:(lia) ltac:(done)) as (c1 & s1 & E1 & Fr1).
  destruct (trunc_ind_spec c1 s1 Fr1) as (c2 & s2 & E2 & [H1 H2 H3 H4 H5 H6 H7 H8 H9 H10 H11 H12]).
  set (s3 := upd_inode ip (set_isize 0) s2). pose proof (kept_sb _ _ _ H5) as Es.
  assert (inode_at s3 ip = wiped x) as Ex3 by (unfold s3; rewrite inode_at_same; by apply wiped_eq).
  destruct (demand_bound sb (l_log (k_log s2))) as [Hlow _]; [pose proof (nbitmap_pos _ _ Hbm); lia|].
  destruct (iupdate_spec c2 ∅ s3 ip) as (c4 & l4 & E4 & Hc4 & T4 & M4 & V4 & V4');
    rewrite ?Ex3; try done; [by apply (later_cpu c0)|by apply (later_unlocked L_log c0)|by change (k_sb s3) with (k_sb s2); rewrite Es|
      rewrite map_size_empty; change (k_log s3) with (k_log s2); lia|].
  rewrite Ex3 in V4, V4'. change (k_sb s3) with (k_sb s2) in V4, V4'. rewrite Es in V4, V4'. cbn [i_inum wiped] in V4, V4'. fold b in V4, V4'.
  exists c4, (set_klog s3 l4). split.
  { unfold itrunc. kstep E1. unfold gi. rewrite (bind_done (gets (fun s => inode_at s ip)) _ c1 s1 (inode_at s1 ip) c1 s1 eq_refl). cbv beta.
    fold (trunc_ind (inode_at s1 ip)). kstep E2. exact E4. }
  assert (forall z, z <> b -> lview l4 z = kview s2 z) as V by exact V4'.
  assert (same_bitmap sb (kview s2) (lview l4)) as Hsb by (intros a Ha; apply V; by apply not_eq_sym, Hb).
  split; try done.
  - by eapply later_trans.
  - eapply kept_trans; [exact H5|]. exists (k_itable s3), l4. split; [by destruct s2|]. intros j Hj.
    unfold s3, upd_inode. simpl. by rewrite lookup_insert_ne.
  - apply (bitmap_ext sb (kview s2)); [done|apply H9].
  - intros a Ha. change (used sb (lview l4) a = true <-> used sb v a = true /\ ~ owns v x a).
    rewrite (used_ext sb (kview s2) (lview l4)) by done. by apply (em_used _ _ _ _ H9).
  - intros a Ha Hne. etrans; [by apply V|]. by apply (em_rest _ _ _ _ H9).
  - etrans; [exact V4|]. change (kview s3 b) with (kview s2 b). by rewrite (em_rest _ _ _ _ H9) by (by apply Hb).
  - pose proof (demand_moved sb 1 _ _ M4) as Hm. change (k_log s3) with (k_log s2) in Hm. cbn [k_log set_klog]. lia.
Qed.
End Trunc.

(** ** iput *)

(** The inode of a file that is gone, on disk and in the table. *)
Definition freed_inode (y : inode) : inode := set_itype 0 (wiped y).
Lemma freed_inode_ok y : inode_ok y -> inode_ok (wiped y) /\ inode_ok (freed_inode y).
Proof.
  intros [H1 H2 H3 H4 H5 H6 H7]. assert (Forall (in_u 32) (replicate 13 0)) as HF by (apply Forall_replicate; unfold in_u; lia).
  split; (split; [..|done|exact HF]); cbn [wiped freed_inode set_itype i_type i_major i_minor i_nlink i_size];
    done || (unfold in_u, in_s; lia).
Qed.

(** iput's branch for the last reference to an unlinked inode. *)
Definition iput_free (ip : Z) `{DiskDriver} : K kst unit :=
  itrunc ip;;
  ui ip (set_itype 0);;
  iupdate ip.
Lemma iput_free_seq (ip : Z) `{DiskDriver} (m : K kst unit) {A} (k : K kst A) c s :
  ((itrunc ip;; ui ip (set_itype 0);; iupdate ip;; m);; k) c s = (iput_free ip;; m;; k) c s.
Proof.
  unfold iput_free, mbind, K_bind. destruct (itrunc ip c s) as [[] c1 s1| | | |]; [|done..].
  destruct (ui _ _ c1 s1) as [[] c2 s2| | | |]; [|done..]. by destruct (iupdate ip c2 s2).
Qed.

Section Iput.
Context {D : DiskDriver} {DOK : DiskDriverOk D}.

Lemma iput_free_spec c s ip : let x := inode_at s ip in let sb := k_sb s in let v := kview s in
  let b := IBLOCK (i_inum x) sb in let k := i_inum x mod IPB in
  bio_cpu c -> unlocked L_log c -> file_wf sb v x -> i_dev x = ROOTDEV -> demand sb (l_log (k_log s)) + 1 < NBUF ->
  bitmap_ok sb v -> tx c ∅ (k_log s) -> inum_ok sb (i_inum x) -> (forall a, 0 <= a < sb_size sb -> b <> BBLOCK a sb) ->
  exists c' s', iput_free ip c s = Done tt c' s' /\ later c c' /\ tx c' ∅ (k_log s') /\ kept ip s s' /\
    inode_at s' ip = freed_inode x /\ bitmap_ok sb (kview s') /\
    (forall a, 0 <= a < sb_size sb -> used sb (kview s') a = true <-> used sb v a = true /\ ~ owns v x a) /\
    (forall a, (forall b, 0 <= b < sb_size sb -> a <> BBLOCK b sb) -> a <> b -> kview s' a = v a) /\
    kview s' b = put_dinode k (freed_inode x) (put_dinode k (wiped x) (v b)) /\
    lh_n (l_log (k_log s')) <= demand sb (l_log (k_log s)) + 2.
Proof.
  intros x sb v b k Hcpu Hul Hwf Hdev Hroom Hbm HT Hin Hb.
  destruct (itrunc_spec ip c s Hcpu Hul Hwf Hdev Hroom Hbm HT Hin Hb) as (c1 & s1 & E1 & [H1 H2 H3 H4 H5 H6 H7 H8 H9]).
  fold x sb v b k in H4, H5, H6, H7, H8, H9. pose proof (kept_sb _ _ _ H3) as Es. fold sb in Es.
  set (s2 := upd_inode ip (set_itype 0) s1). assert (inode_at s2 ip = freed_inode x) as Ex by (unfold s2; by rewrite inode_at_same, H4).
  destruct (demand_bound sb (l_log (k_log s1))) as [Hlow _]; [pose proof (nbitmap_pos _ _ Hbm); lia|].
  destruct (iupdate_spec c1 ∅ s2 ip) as (c3 & l3 & E3 & Hc3 & T3 & M3 & V3 & V3');
    rewrite ?Ex; try done; [by apply (later_cpu c)|by apply (later_unlocked L_log c)|by change (k_sb s2) with (k_sb s1); rewrite Es|
      rewrite map_size_empty; change (k_log s2) with (k_log s1); lia|].
  rewrite Ex in V3, V3'. change (k_sb s2) with (k_sb s1) in V3, V3'. rewrite Es in V3, V3'.
  change (i_inum (freed_inode x)) with (i_inum x) in V3, V3'. fold b k in V3, V3'.
  assert (forall z, z <> b -> lview l3 z = kview s1 z) as V by exact V3'.
  assert (same_bitmap sb (kview s1) (lview l3)) as Hsb by (intros a Ha; apply V; by apply not_eq_sym, Hb).
  exists c3, (set_klog s2 l3). split; [unfold iput_free; kstep E1; exact E3|]. split; [by eapply later_trans|]. split; [exact T3|].
  split; [|split; [exact Ex|split; [by apply (bitmap_ext sb (kview s1))|split; [|split; [|split]]]]].
  - eapply kept_trans; [exact H3|]. exists (k_itable s2), l3. split; [by destruct s1|]. intros j Hj.
    unfold s2, upd_inode. simpl. by rewrite lookup_insert_ne.
  - intros a Ha. change (kview (set_klog s2 l3)) with (lview l3). rewrite (used_ext sb (kview s1) (lview l3)) by done. by apply H6.
  - intros a Ha Hne. etrans; [by apply V|]. by apply H7.
  - etrans; [exact V3|]. change (kview s2 b) with (kview s1 b). by rewrite H8.
  - pose proof (mv_n _ _ _ M3) as Hn. change (k_log s2) with (k_log s1) in Hn. cbn [k_log set_klog]. lia.
Qed.

(** The path of iput that deletes the file, around the steps of
    [iput_free_spec]: locks taken and released, and the reference dropped. *)
Definition dropped (ip : Z) (s2 : kst) : kst :=
  upd_inode ip (fun x => set_iref (i32 (i_ref x - 1)) x) (upd_inode ip (set_ilock (Sleeplock 0 0)) (upd_inode ip (set_ivalid false) s2)).
Lemma iput_last_run c s ip c2 s2 : let x := inode_at s ip in
  cpu_ok c -> unlocked L_itable c -> unlocked (L_inode ip) c ->
  i_ref x = 1 -> i_valid x = true -> i_nlink x = 0 -> sl_locked (i_lock x) = 0 ->
  iput_free ip c (upd_inode ip (set_ilock (Sleeplock 1 (curpid c))) s) = Done tt c2 s2 -> later c c2 ->
  iput ip c s = Done tt (set_evs (Wakeup (C_sleeplock (L_inode ip)) :: evs c2) c2) (dropped ip s2).
Proof.
  intros x Hc Hit Hlk Href Hval Hnl Hfree E2 Hc2.
  assert (cpu_ok c2) as Hcpu2 by by apply (later_cpu_ok c).
  assert (unlocked (L_inode ip) c2 /\ unlocked L_itable c2) as [Hlk2 Hit2] by (split; by apply (later_unlocked _ c)).
  set (s1 := upd_inode ip (set_ilock (Sleeplock 1 (curpid c))) s) in *. set (s3 := upd_inode ip (set_ivalid false) s2).
  set (s4 := upd_inode ip (set_ilock (Sleeplock 0 0)) s3). set (c4 := set_evs (Wakeup (C_sleeplock (L_inode ip)) :: evs c2) c2).
  assert (unlocked L_itable c4 /\ cpu_ok c4) as [Hit4 Hcpu4] by (split; [by apply unlocked_evs|by apply cpu_ok_evs]).
  unfold iput. rewrite (bind_done _ _ _ _ _ _ _ (acquire_eq L_itable c s Hit)). unfold gi.
  rewrite (bind_done (gets (fun s => inode_at s ip)) _ (inside L_itable c) s x (inside L_itable c) s eq_refl). cbv beta.
  rewrite Href, Hval, Hnl. cbv beta iota delta [andb Z.eqb Pos.eqb].
  assert (unlocked (L_inode ip) (inside L_itable c)) as Hlk' by by apply unlocked_inside.
  assert (cpu_ok (inside L_itable c)) as Hc' by by apply cpu_ok_inside.
  rewrite bind_assoc. kstep (acquiresleep_free (L_inode ip) (ilk ip) (inside L_itable c) Hc' Hlk' s Hfree).
  change (curpid (inside L_itable c)) with (curpid c). cbn [ilk aset]. fold s1.
  rewrite bind_assoc. kstep (release_eq L_itable c s1 Hc Hit). rewrite iput_free_seq. kstep E2. rewrite bind_assoc.
  kstep (eq_refl : ui ip (set_ivalid false) c2 s2 = Done tt c2 s3).
  rewrite bind_assoc. kstep (releasesleep_eq (L_inode ip) (ilk ip) c2 Hcpu2 Hlk2 s3). cbn [ilk aset]. fold c4 s4.
  kstep (acquire_eq L_itable c4 s4 Hit4).
  kstep (eq_refl : ui ip (fun x => set_iref (i32 (i_ref x - 1)) x) (inside L_itable c4) s4 = Done tt (inside L_itable c4) (dropped ip s2)).
  exact (release_eq L_itable c4 (dropped ip s2) Hcpu4 Hit4).
Qed.
(** Two inodes in the same block have different places in it. *)
Lemma same_block_apart sb n m : inum_ok sb n -> inum_ok sb m -> n <> m -> IBLOCK n sb = IBLOCK m sb -> m mod IPB <> n mod IPB.
Proof.
  intros Hn Hm Hne E Em. rewrite (proj1 (IBLOCK_eq _ _ Hn)), (proj1 (IBLOCK_eq _ _ Hm)) in E. apply Hne.
  pose proof (Z.div_mod n IPB ltac:(done)). pose proof (Z.div_mod m IPB ltac:(done)). rewrite Em in *. lia.
Qed.

(** C11: iput of the last reference to an inode without links deletes the file.
    Exactly the blocks of the file, its indirect block included, are free
    afterwards, every other block in use keeps its contents but for the one
    with the inode, where only this inode changes and becomes free.  The entry
    of the inode table is empty and the others are untouched, and the
    transaction has grown by at most two blocks and the bitmap. *)
Theorem iput_deletes_file c s ip : let x := inode_at s ip in let sb := k_sb s in let v := kview s in
  let b := IBLOCK (i_inum x) sb in
  bio_cpu c -> unlocked L_log c -> unlocked L_itable c -> unlocked (L_inode ip) c -> tx c ∅ (k_log s) ->
  bitmap_ok sb v -> file_wf sb v x -> inode_ok x -> inum_ok sb (i_inum x) -> i_dev x = ROOTDEV ->
  data_block sb v b -> length (v b) = Z.to_nat BSIZE ->
  i_ref x = 1 -> i_valid x = true -> i_nlink x = 0 -> sl_locked (i_lock x) = 0 ->
  lh_n (l_log (k_log s)) + bitmap_count sb + 2 <= LOGBLOCKS ->
  exists c' s', iput ip c s = Done tt c' s' /\ later c c' /\ tx c' ∅ (k_log s') /\
    (forall a, 0 <= a < sb_size sb -> used sb (kview s') a = true <-> used sb v a = true /\ ~ owns v x a) /\
    (forall a, data_block sb v a -> a <> b -> kview s' a = v a) /\
    di_type (i_inum x mod IPB) (kview s' b) = 0 /\
    (forall n y, inum_ok sb n -> n <> i_inum x -> data_block sb v (IBLOCK n sb) ->
       get_dinode (n mod IPB) (kview s' (IBLOCK n sb)) y = get_dinode (n mod IPB) (v (IBLOCK n sb)) y) /\
    i_ref (inode_at s' ip) = 0 /\ i_valid (inode_at s' ip) = false /\
    (forall j, j <> ip -> inode_at s' j = inode_at s j) /\
    lh_n (l_log (k_log s')) <= lh_n (l_log (k_log s)) + bitmap_count sb + 2.
Proof.
  intros x sb v b Hcpu Hul Hit Hlk HT Hbm Hwf Hok Hin Hdev Hbd Hlen Href Hval Hnl Hfree Hn. change LOGBLOCKS with NBUF in Hn.
  pose proof (bp_cpu _ Hcpu) as Hc. destruct (demand_bound sb (l_log (k_log s))) as [_ Hup]; [pose proof (nbitmap_pos _ _ Hbm); lia|].
  set (s1 := upd_inode ip (set_ilock (Sleeplock 1 (curpid c))) s).
  assert (inode_at s1 ip = set_ilock (Sleeplock 1 (curpid c)) x) as Ex1 by (unfold s1; by rewrite inode_at_same).
  destruct (iput_free_spec c s1 ip) as (c2 & s2 & E2 & Hc2 & T2 & K2 & Ex2 & Hbm2 & Hu2 & Hr2 & Hb2 & Hn2); rewrite ?Ex1; try done.
  { destruct Hwf as [A1 A2 A3 A4]. by split. } { change (demand sb (l_log (k_log s)) + 1 < NBUF). lia. } { apply Hbd. }
  rewrite Ex1 in Ex2, Hu2, Hr2, Hb2. change (k_sb s1) with sb in *. change (kview s1) with v in *.
  change (i_inum (set_ilock _ x)) with (i_inum x) in *. fold b in Hr2, Hb2.
  set (y := set_ilock (Sleeplock 1 (curpid c)) x) in *.
  assert (inode_ok y) as Hoky by (destruct Hok; by split). destruct (freed_inode_ok y Hoky) as [Hwo Hfo].
  assert (0 <= i_inum x mod IPB < IPB) as Hk by by apply Z.mod_pos_bound.
  assert (length (put_dinode (i_inum x mod IPB) (wiped y) (v b)) = Z.to_nat BSIZE) as Hlen'
    by (rewrite length_put_dinode; [exact Hlen|done|exact Hlen|apply Hwo]).
  set (s5 := dropped ip s2). set (c4 := set_evs (Wakeup (C_sleeplock (L_inode ip)) :: evs c2) c2).
  assert (inode_at s5 ip = set_iref (i32 (i_ref x - 1)) (set_ilock (Sleeplock 0 0) (set_ivalid false (freed_inode y)))) as Ex5.
  { unfold s5, dropped. by rewrite !inode_at_same, Ex2. }
  exists c4, s5. split; [by apply iput_last_run|]. split; [|split; [|split; [exact Hu2|split; [|split; [|split; [|split; [|split; [|split]]]]]]]].
  - eapply later_trans; [exact Hc2|]. by eexists.
  - apply (tx_later c2); [by eexists|exact T2].
  - intros a (Ha1 & Ha2 & Ha3) Hne. by apply Hr2.
  - change (kview s5 b) with (kview s2 b). rewrite Hb2. pose proof (get_put_dinode (i_inum x mod IPB) (freed_inode y) _ x Hfo Hk Hlen') as Eg.
    unfold disk_part in Eg. injection Eg as Eg _ _ _ _ _. exact Eg.
  - intros n z Hnk Hne (Hn1 & Hn2' & Hn3). change (kview s5) with (kview s2). destruct (Z.eq_dec (IBLOCK n sb) b) as [E|E]; [|by rewrite Hr2].
    rewrite E, Hb2. assert (i_inum x mod IPB <> n mod IPB) as Hmod by by apply (same_block_apart sb).
    rewrite (get_put_dinode_other _ _ (freed_inode y)) by (done || apply Hfo || by apply Z.mod_pos_bound).
    by rewrite (get_put_dinode_other _ _ (wiped y)) by (done || apply Hwo || by apply Z.mod_pos_bound).
  - rewrite Ex5. cbn [i_ref set_iref]. by rewrite Href.
  - by rewrite Ex5.
  - intros j Hj. destruct K2 as (it & l & Es2 & Hit').
    unfold s5, dropped. rewrite !inode_at_upd, !(proj2 (Z.eqb_neq ip j)) by congruence. rewrite Es2. unfold inode_at. simpl.
    rewrite Hit' by done. unfold s1, upd_inode. simpl. by rewrite lookup_insert_ne.
  - change (lh_n (l_log (k_log s2)) <= lh_n (l_log (k_log s)) + bitmap_count sb + 2). etrans; [exact Hn2|].
    change (demand sb (l_log (k_log s)) + 2 <= lh_n (l_log (k_log s)) + bitmap_count sb + 2). lia.
Qed.
End Iput.

(** ** A file of three data blocks and an indirect one, unlinked *)

Definition bitmap10 : block := 255 :: 3 :: replicate 1022 0.
Definition indirect8 : block := 8 :: replicate 1023 0.
Definition disk8 : disk := [(3, bitmap10); (7, indirect8)].
Definition inode8 : inode := Inode ROOTDEV 1 1 (Sleeplock 0 0) true T_FILE 0 0 0 13312 ([5; 6] ++ replicate 10 0 ++ [7]).
Definition fs_unlinked : kst := set_kitable (op_state disk8 sb100) {[ 0 := inode8 ]}.

Lemma disk8_view y : kview fs_unlinked y = dget disk8 y.
Proof. exact (proj2 (op_tx disk8 sb100) y). Qed.
Lemma disk8_bblock b : 0 <= b < 100 -> BBLOCK b sb100 = 3.
Proof. intros Hb. unfold BBLOCK. rewrite Z.div_small by (change BPB with 8192; lia). reflexivity. Qed.
Lemma disk8_used b : 0 <= b < 100 -> used sb100 (kview fs_unlinked) b = (b <? 10).
Proof.
  intros Hb. unfold used. rewrite disk8_bblock, disk8_view by done. change (dget disk8 3) with bitmap10.
  rewrite Z.mod_small by (change BPB with 8192; lia).
  assert (Forall (fun b => negb (bit_free bitmap10 b) = (b <? 10)) (seqZ 0 100)) as HF by (vm_compute; repeat constructor).
  rewrite Forall_forall in HF. apply HF, elem_of_seqZ. lia.
Qed.
Lemma disk8_bitmap : bitmap_ok sb100 (kview fs_unlinked).
Proof.
  split; [done|done| |].
  - intros b Hb. rewrite disk8_bblock, disk8_view by done. split; [reflexivity|].
    apply Forall_cons. split; [done|]. apply Forall_cons. split; [done|]. apply Forall_replicate. done.
  - intros b b' Hb Hb' Hu. rewrite disk8_used in Hu by done. rewrite disk8_bblock by done. apply Z.ltb_ge in Hu. lia.
Qed.
Lemma disk8_data b : 0 <= b < 10 -> b <> 3 -> data_block sb100 (kview fs_unlinked) b.
Proof.
  intros Hb Hne. split; [change (sb_size sb100) with 100; lia|]. split; [rewrite disk8_used by lia; apply Z.ltb_lt; lia|].
  intros a Ha. by rewrite disk8_bblock by done.
Qed.
Lemma disk8_baddr bn : 0 <= bn < MAXFILE -> baddr (kview fs_unlinked) inode8 bn =
  if bn =? 0 then 5 else if bn =? 1 then 6 else if bn =? NDIRECT then 8 else 0.
Proof.
  intros Hb. unfold baddr. rewrite disk8_view. change (addr_at inode8 NDIRECT) with 7. change (dget disk8 7) with indirect8. change (7 =? 0) with false.
  assert (Forall (fun bn => (if bn <? NDIRECT then addr_at inode8 bn else get32 (4 * (bn - NDIRECT)) indirect8) =
    if bn =? 0 then 5 else if bn =? 1 then 6 else if bn =? NDIRECT then 8 else 0) (seqZ 0 MAXFILE)) as HF by (vm_compute; repeat constructor).
  rewrite Forall_forall in HF. apply HF, elem_of_seqZ. lia.
Qed.
Lemma disk8_owns a : owns (kview fs_unlinked) inode8 a <-> a = 5 \/ a = 6 \/ a = 7 \/ a = 8.
Proof.
  unfold owns. change (addr_at inode8 NDIRECT) with 7. split.
  - intros [Ha [->|(bn & Hbn & E)]]; [tauto|]. rewrite disk8_baddr in E by done.
    destruct (bn =? 0); [lia|]. destruct (bn =? 1); [lia|]. destruct (bn =? NDIRECT); lia.
  - intros Ha. split; [lia|]. destruct Ha as [->|[->|[->| ->]]]; [|right; exists 1|by left|right; exists 12]; [right; exists 0|..];
      (split; [done|]); by rewrite disk8_baddr by done.
Qed.
Lemma disk8_wf : file_wf sb100 (kview fs_unlinked) inode8.
Proof.
  split; [done| | |].
  - intros a Ha. apply disk8_owns in Ha. split; [apply disk8_data; lia|]. rewrite disk8_view.
    assert (is_blk zero_block) as Hz by (split; [done|apply Forall_replicate; done]).
    destruct Ha as [->|[->|[->| ->]]]; [exact Hz|exact Hz| |exact Hz].
    split; [reflexivity|]. apply Forall_cons. split; [done|]. apply Forall_replicate. done.
  - intros bn bn' Hb Hb'. rewrite !disk8_baddr by done. change NDIRECT with 12.
    destruct (Z.eqb_spec bn 0), (Z.eqb_spec bn' 0), (Z.eqb_spec bn 1), (Z.eqb_spec bn' 1), (Z.eqb_spec bn 12), (Z.eqb_spec bn' 12); lia.
  - intros bn Hb. rewrite disk8_baddr by done. change (addr_at inode8 NDIRECT) with 7. change NDIRECT with 12.
    destruct (Z.eqb_spec bn 0), (Z.eqb_spec bn 1), (Z.eqb_spec bn 12); lia.
Qed.

Lemma iput_deletes_file_witness : exists c' s', @iput ram_disk 0 op_ctx fs_unlinked = Done tt c' s' /\
  used sb100 (kview s') 8 = false /\ used sb100 (kview s') 9 = true /\ i_ref (inode_at s' 0) = 0.
Proof.
  destruct op_ctx_cpu as (H1 & H2 & _ & H4 & H5).
  destruct (@iput_deletes_file ram_disk ram_disk_ok op_ctx fs_unlinked 0 H1 H2 H4 H5 (proj1 (op_tx _ _)) disk8_bitmap disk8_wf)
    as (c' & s' & E & _ & _ & Hu & _ & _ & _ & Hr & _).
  - split; try (split; reflexivity || (intro; discriminate)).
    repeat (apply Forall_cons; split; [split; reflexivity || (intro; discriminate)|]). apply Forall_nil. exact I.
  - split; split; reflexivity || (intro; discriminate).
  - reflexivity.
  - exact (disk8_data 4 ltac:(lia) ltac:(discriminate)).
  - exact (f_equal length (disk8_view 4)).
  - reflexivity.
  - reflexivity.
  - reflexivity.
  - reflexivity.
  - vm_compute. discriminate.
  - exists c', s'. split; [exact E|]. split; [|split; [|exact Hr]].
    + apply not_true_is_false. intros Ht. apply (Hu 8) in Ht; [|split; [discriminate|reflexivity]]. destruct Ht as [_ Hn].
      apply Hn. apply (disk8_owns 8). tauto.
    + apply (Hu 9); [split; [discriminate|reflexivity]|]. split; [exact (disk8_used 9 ltac:(lia))|].
      intros Ho. apply (disk8_owns 9) in Ho. lia.
Defined.
