(* ===== verification/Rdwr.v ===== *)
(** * Reading and writing files (theorems on readi and writei of Fs.v)

    For transfers between files and kernel memory: writei replaces a range of
    the contents of the file, and readi copies a range of the contents out. *)
From stdpp Require Import base numbers list gmap strings.
From S2P Require Import Prelude Kernel Spinlock Sleeplock Bio Bcache Printf Log Redo LogOps Str Riscv Kalloc Vm Kstate Proc Fs Txn Alloc Inode Content.

Definition with_mem (s : kst) (m : mem) : kst := set_kmem s (set_memory m (k_mem s)).
Definition kmem (s : kst) : mem := memory (k_mem s).

Section Rdwr.
Context {D : DiskDriver} {DOK : DiskDriverOk D}.
(** The addresses of the kernel's end and of the buffers. *)
Variables (end_ : Z) (buf_addr : Z -> Z) (ip : Z).

(** The memory of the buffers. *)
Definition in_buf (a : Z) : Prop := exists i, 0 <= i < NBUF /\ buf_addr i <= a < buf_addr i + BSIZE.

Lemma copyout_kernel dst src n c s : cpu_ok c ->
  either_copyout end_ false dst src n c s = Done 0 c (with_mem s (memmove (kmem s) dst src n)).
Proof. intros Hc. unfold either_copyout. kstep (myproc_eq c s Hc). done. Qed.
Lemma copyin_kernel dst src n c s : cpu_ok c ->
  either_copyin end_ dst false src n c s = Done 0 c (with_mem s (memmove (kmem s) dst src n)).
Proof. intros Hc. unfold either_copyin. kstep (myproc_eq c s Hc). done. Qed.
Lemma buf_to_mem_held c H s x i : tx c H (k_log s) -> H !! x = Some i ->
  buf_to_mem buf_addr i c s = Done tt c (with_mem s (store_bytes (kmem s) (buf_addr i) (kview s x))).
Proof. intros HT Hx. unfold buf_to_mem. kstep (kdata_held c H s HT x i Hx). done. Qed.

(** A piece of a buffer copied out. *)
Lemma read_piece m i d dst o k a : mem_ok m -> is_blk d -> 0 <= i < NBUF -> 0 <= o -> 0 <= k -> o + k <= BSIZE ->
  ~ in_buf a -> let m' := memmove (store_bytes m (buf_addr i) d) dst (buf_addr i + o) k in
  mem_ok m' /\ load8 m' a = if bool_decide (dst <= a < dst + k) then nth (Z.to_nat (o + (a - dst))) d 0 else load8 m a.
Proof.
  intros Hm [Hl HF] Hi Ho Hk Hb Ha. change (Z.to_nat BSIZE) with 1024%nat in Hl. change BSIZE with 1024 in *. cbv zeta.
  split; [by apply mem_ok_memmove, mem_ok_store_bytes|]. rewrite load8_memmove; [|by apply mem_ok_store_bytes|unfold in_u; lia].
  destruct (bool_decide_reflect (dst <= a < dst + k)) as [Hin|Hin].
  - replace (buf_addr i + o + (a - dst)) with (buf_addr i + Z.of_nat (Z.to_nat (o + (a - dst)))) by lia.
    destruct (lookup_lt_is_Some_2 d (Z.to_nat (o + (a - dst))) ltac:(lia)) as [y Hy]. rewrite (load8_store_bytes_in d _ _ _ y Hy).
    rewrite nth_lookup, Hy. simpl. rewrite Forall_lookup in HF. apply Z.mod_small. exact (HF _ _ Hy).
  - apply load8_store_bytes_out. rewrite Hl. intros Hin'. apply Ha. exists i. split; [done|]. change BSIZE with 1024. lia.
Qed.

(** Offsets within one block. *)
Lemma block_off off j : 0 <= off -> 0 <= j -> off mod BSIZE + j < BSIZE ->
  (off + j) / BSIZE = off / BSIZE /\ (off + j) mod BSIZE = off mod BSIZE + j.
Proof.
  intros H0 Hj Hlt. pose proof (Z.div_mod off BSIZE ltac:(done)) as E. pose proof (Z.mod_pos_bound off BSIZE ltac:(done)) as Hm.
  assert (off + j = BSIZE * (off / BSIZE) + (off mod BSIZE + j)) as E' by lia.
  split; [symmetry; apply (Z.div_unique _ _ _ (off mod BSIZE + j)); [lia|done]|symmetry; apply (Z.mod_unique _ _ (off / BSIZE)); [lia|done]].
Qed.
Lemma block_range off n : 0 <= off -> 0 < n -> off + n <= MAXFILE * BSIZE -> 0 <= off / BSIZE < MAXFILE.
Proof. intros. split; [apply Z.div_pos; [lia|done]|apply Z.div_lt_upper_bound; [done|lia]]. Qed.

(** After a piece that does not end the transfer, one block less is left. *)
Lemma next_piece off n tot fuel : 0 <= off -> tot <= n -> off mod 1024 + (n - tot) <= 1024 * Z.of_nat (S fuel) ->
  let k := Z.min (n - tot) (1024 - off mod 1024) in
  tot + k = n \/ (off + k) mod 1024 + (n - (tot + k)) <= 1024 * Z.of_nat fuel.
Proof.
  intros H0 Ht Hf k. destruct (Z.min_spec (n - tot) (1024 - off mod 1024)) as [[Hs E]|[Hs E]]; fold k in E; [left; lia|right].
  rewrite E. assert ((off + (1024 - off mod 1024)) mod 1024 = 0) as ->; [|lia].
  rewrite (Z.div_mod off 1024) at 1 by lia. replace (1024 * (off / 1024) + off mod 1024 + (1024 - off mod 1024)) with ((off / 1024 + 1) * 1024) by lia.
  apply Z.mod_mul. lia.
Qed.

(** ** readi *)

Lemma readi_loop_spec fuel : forall c s dst off tot n, let v := kview s in let x := inode_at s ip in
  bio_cpu c -> tx c ∅ (k_log s) -> i_dev x = ROOTDEV -> lh_n (l_log (k_log s)) < NBUF -> mem_ok (kmem s) ->
  0 <= tot <= n -> n < 2 ^ 32 -> 0 <= off -> off + (n - tot) <= MAXFILE * BSIZE -> 0 <= dst -> dst + (n - tot) < 2 ^ 64 ->
  (forall o, off <= o < off + (n - tot) -> baddr v x (o / BSIZE) <> 0) -> (forall a, owns v x a -> is_blk (v a)) ->
  (forall a, dst <= a < dst + (n - tot) -> ~ in_buf a) -> tot = n \/ off mod BSIZE + (n - tot) <= BSIZE * Z.of_nat fuel ->
  exists c' l m, readi_loop end_ buf_addr fuel ip false dst off tot n c s = Done n c' (set_klog (with_mem s m) l) /\ later c c' /\
    tx c' ∅ l /\ (forall y, lview l y = kview s y) /\ same_log (k_log s) l /\ mem_ok m /\
    forall a, ~ in_buf a -> load8 m a = if bool_decide (dst <= a < dst + (n - tot)) then content v x (off + (a - dst)) else load8 (kmem s) a.
Proof.
  induction fuel as [|fuel IH]; intros c s dst off tot n v x Hcpu HT Hdev Hlog Hm Htot Hn Hoff Hend Hdst Hdend Hall Hblk Hdis Hfu;
    cbn [readi_loop]; pose proof (Z.mod_pos_bound off BSIZE ltac:(done)) as Hmod; destruct (Z.ltb_spec tot n) as [Hlt|Hge]; cbn [negb].
  1: { change BSIZE with 1024 in *. lia. }
  1, 3: assert (tot = n) as -> by lia; exists c, (k_log s), (kmem s); split; [by destruct s as [[]]|]; split; [apply later_refl|];
    split; [done|]; split; [done|]; split; [done|]; split; [done|]; intros a Ha; rewrite bool_decide_eq_false_2 by lia; done.
  assert (baddr v x (off / BSIZE) <> 0) as Hb by (apply Hall; lia).
  pose proof (block_range off (n - tot) Hoff ltac:(lia) Hend) as Hbr.
  destruct (bmap_found ip c s (off / BSIZE) Hcpu HT Hdev Hbr Hb Hlog) as (c1 & l1 & E1 & Hc1 & T1 & S1 & V1). fold v x in E1.
  kstep E1. rewrite (proj2 (Z.eqb_neq _ 0) Hb). unfold gi. set (a := baddr v x (off / BSIZE)) in *. set (s1 := set_klog s l1).
  rewrite (bind_done (gets (fun s => inode_at s ip)) _ c1 s1 x c1 s1 eq_refl). cbv beta. rewrite Hdev.
  assert (bio_cpu c1) as Hcpu1 by by apply (later_cpu c).
  destruct (kbread c1 ∅ s1 Hcpu1 T1 a) as (i & l2 & E2 & T2 & S2 & V2 & C2 & Hi); [done|cbn [s1 k_log set_klog]; rewrite map_size_empty, (same_n _ _ S1); lia|].
  kstep E2. set (k := Z.min (n - tot) (BSIZE - off mod BSIZE)). set (s2 := set_klog s1 l2).
  kstep (buf_to_mem_held c1 _ s2 a i T2 ltac:(apply lookup_insert_eq)).
  kstep (copyout_kernel dst (buf_addr i + off mod BSIZE) k c1 (with_mem s2 (store_bytes (kmem s2) (buf_addr i) (kview s2 a))) (bp_cpu _ Hcpu1)).
  change (0 =? -1) with false. cbv iota.
  set (m3 := memmove _ _ _ _). set (s3 := with_mem _ m3).
  destruct (kbrelse c1 _ s3 Hcpu1 T2 a i ltac:(apply lookup_insert_eq) C2) as (c4 & l4 & E4 & Hc4 & T4 & S4 & V4). kstep E4.
  rewrite delete_insert_id in T4 by done.
  assert (forall y, lview l4 y = v y) as Vv by (intros y; etrans; [apply V4|]; etrans; [apply V2|]; apply V1).
  assert (is_blk (v a)) as Hba by (apply Hblk; by apply owns_block).
  assert (kview s2 a = v a) as Ev by (etrans; [apply V2|apply V1]).
  assert (0 < k /\ k <= n - tot /\ off mod BSIZE + k <= BSIZE) as (Hk1 & Hk2 & Hk3) by (unfold k; lia).
  assert (forall b, ~ in_buf b -> mem_ok m3 /\ load8 m3 b =
    if bool_decide (dst <= b < dst + k) then nth (Z.to_nat (off mod BSIZE + (b - dst))) (v a) 0 else load8 (kmem s) b) as Hm3.
  { intros b Hnb. unfold m3, s2. rewrite <- Ev. apply read_piece; [done|by rewrite Ev|done|lia|lia|done|done]. }
  assert (mem_ok m3) as Hmok by (apply mem_ok_memmove, mem_ok_store_bytes; exact Hm).
  change MAXFILE with 268 in Hend. change BSIZE with 1024 in *.
  rewrite (u_small 64), (u_small 32 (off + k)), (u_small 32 (tot + k)) by lia.
  set (s4 := set_klog s3 l4). assert (kview s4 = lview l4) as Es4 by done.
  assert (forall kk, baddr (lview l4) x kk = baddr v x kk) as Hbeq by (intros; unfold baddr; by rewrite Vv).
  destruct (IH c4 s4 (dst + k) (off + k) (tot + k) n) as (c5 & l5 & m5 & E5 & Hc5 & T5 & V5 & S5 & Hm5 & Hr5); try done; try lia.
  - by apply (later_cpu c1).
  - change (k_log s4) with l4. destruct S4 as [S4 _], S2 as [S2 _], S1 as [S1 _]. cbn [k_log set_klog with_mem set_kmem s3 s2 s1] in *. rewrite S4, S2, S1. done.
  - change MAXFILE with 268. lia.
  - intros o Ho. change (inode_at s4 ip) with x. rewrite Es4, Hbeq. apply Hall. lia.
  - intros b [Hb0 Ho]. rewrite Es4, Vv. apply Hblk. split; [done|]. destruct Ho as [?|(kk & Hkk & E)]; [by left|right]. exists kk. split; [done|].
    rewrite <- Hbeq. done.
  - intros b Hb'. apply Hdis. lia.
  - destruct Hfu as [|Hfu]; [lia|]. exact (next_piece off n tot fuel Hoff ltac:(lia) Hfu).
  - exists c5, l5, m5. split; [etrans; [exact E5|by destruct s as [[]]]|]. split; [by eapply later_trans; [|eapply later_trans]|].
    split; [done|]. split; [intros y; rewrite V5; apply Vv|].
    split; [destruct S5, S4, S2, S1; cbn in *; split; congruence|]. split; [done|]. intros b Hnb. rewrite Hr5 by done.
    change (inode_at s4 ip) with x. rewrite Es4. destruct (Hm3 b Hnb) as [_ Hmb]. change (kmem s4) with m3. rewrite Hmb.
    destruct (bool_decide_reflect (dst <= b < dst + (n - tot))) as [Hin|Hin].
    + destruct (decide (b < dst + k)).
      * rewrite bool_decide_eq_false_2, bool_decide_eq_true_2 by lia. unfold content.
        destruct (block_off off (b - dst)) as [-> ->]; [done|lia|change BSIZE with 1024; lia|]. change BSIZE with 1024. fold a. by rewrite (proj2 (Z.eqb_neq a 0) Hb).
      * rewrite bool_decide_eq_true_2 by lia. unfold content. replace (off + k + (b - (dst + k))) with (off + (b - dst)) by lia.
        rewrite Hbeq. destruct (_ =? 0); [done|]. by rewrite Vv.
    + rewrite !bool_decide_eq_false_2 by lia. done.
Qed.

(** The count readi returns: what is asked for, cut at the end of the file. *)
Definition read_count (x : inode) (off n : Z) : Z := Z.max 0 (Z.min n (i_size x - off)).

(** The file has a block for every offset below its size. *)
Definition no_holes (v : Z -> block) (x : inode) : Prop :=
  0 <= i_size x <= MAXFILE * BSIZE /\ forall o, 0 <= o < i_size x -> baddr v x (o / BSIZE) <> 0.

Lemma readi_spec c s dst off n : let v := kview s in let x := inode_at s ip in let r := read_count x off n in
  bio_cpu c -> tx c ∅ (k_log s) -> i_dev x = ROOTDEV -> lh_n (l_log (k_log s)) < NBUF -> mem_ok (kmem s) ->
  no_holes v x -> (forall a, owns v x a -> is_blk (v a)) ->
  0 <= off -> 0 <= n -> off + n < 2 ^ 32 -> 0 <= dst -> dst + r < 2 ^ 64 -> (forall a, dst <= a < dst + r -> ~ in_buf a) ->
  exists c' l m, readi end_ buf_addr ip false dst off n c s = Done r c' (set_klog (with_mem s m) l) /\ later c c' /\ tx c' ∅ l /\
    (forall y, lview l y = kview s y) /\ same_log (k_log s) l /\ mem_ok m /\
    forall a, ~ in_buf a -> load8 m a = if bool_decide (dst <= a < dst + r) then content v x (off + (a - dst)) else load8 (kmem s) a.
Proof.
  intros v x r Hcpu HT Hdev Hlog Hm [Hsz Hall] Hblk Hoff Hn Hend Hdst Hdend Hdis. unfold readi, gi.
  rewrite (bind_done (gets (fun s => inode_at s ip)) _ c s x c s eq_refl). cbv beta. rewrite (u_small 32 (off + n)) by lia.
  rewrite (proj2 (Z.ltb_ge (off + n) off)), orb_false_r by lia. rewrite !Z.gtb_ltb. unfold r, read_count in *.
  change MAXFILE with 268 in *. change BSIZE with 1024 in *.
  destruct (Z.ltb_spec (i_size x) off) as [Hlt|Hge].
  - rewrite Z.max_l in * by lia. exists c, (k_log s), (kmem s). split; [by destruct s as [[]]|]. split; [apply later_refl|].
    split; [done|]. split; [done|]. split; [done|]. split; [done|]. intros a Ha. by rewrite bool_decide_eq_false_2 by lia.
  - rewrite Z.max_r in * by lia. set (n' := Z.min n (i_size x - off)) in *.
    assert ((if i_size x <? off + n then u32 (i_size x - off) else n) = n') as ->.
    { unfold n'. destruct (Z.ltb_spec (i_size x) (off + n)); [rewrite u_small by lia|]; lia. }
    pose proof (Z.mod_pos_bound off 1024 ltac:(lia)). pose proof (Z.div_mod n' 1024 ltac:(lia)). pose proof (Z.mod_pos_bound n' 1024 ltac:(lia)).
    assert (0 <= n' / 1024) by (apply Z.div_pos; lia).
    destruct (readi_loop_spec (Z.to_nat (n' / 1024 + 2)) c s dst off 0 n') as (c' & l & m & E & Hc & T & V & S & Hmk & Hr); try done; try lia.
    + change (MAXFILE * BSIZE) with (268 * 1024). lia.
    + intros o Ho. apply Hall. lia.
    + intros a Ha. apply Hdis. lia.
    + right. change BSIZE with 1024. lia.
    + rewrite Z.sub_0_r in Hr. exists c', l, m. change (Z.to_nat (n' / 1024 + 2)) with (Z.to_nat (n' / BSIZE + 2)) in E. kstep E.
      rewrite s_small by (unfold in_s; lia). done.
Qed.

(** ** writei *)

(** A block with a piece of memory copied into it. *)
Lemma write_piece m i d src o k : mem_ok m -> is_blk d -> 0 <= i < NBUF -> 0 <= o -> 0 <= k -> o + k <= BSIZE ->
  (forall a, src <= a < src + k -> ~ in_buf a) ->
  let m' := memmove (store_bytes m (buf_addr i) d) (buf_addr i + o) src k in
  let d' := load_bytes m' (buf_addr i) (Z.to_nat BSIZE) in
  mem_ok m' /\ is_blk d' /\ (forall a, ~ in_buf a -> load8 m' a = load8 m a) /\
  forall j, 0 <= j < BSIZE -> nth (Z.to_nat j) d' 0 = if bool_decide (o <= j < o + k) then load8 m (src + (j - o)) else nth (Z.to_nat j) d 0.
Proof.
  intros Hm [Hl HF] Hi Ho Hk Hb Ha m' d'. change (Z.to_nat BSIZE) with 1024%nat in *. change BSIZE with 1024 in *.
  assert (mem_ok m') as Hm' by by apply mem_ok_memmove, mem_ok_store_bytes.
  assert (forall a, ~ in_buf a -> load8 (store_bytes m (buf_addr i) d) a = load8 m a) as Hst.
  { intros a Hna. apply load8_store_bytes_out. rewrite Hl. intros Hin. apply Hna. exists i. split; [done|]. change BSIZE with 1024. lia. }
  assert (forall a, load8 m' a = if bool_decide (buf_addr i + o <= a < buf_addr i + o + k)
    then load8 m (src + (a - (buf_addr i + o))) else load8 (store_bytes m (buf_addr i) d) a) as Hld.
  { intros a. unfold m'. rewrite load8_memmove by (by apply mem_ok_store_bytes || (unfold in_u; lia)).
    destruct (bool_decide_reflect (buf_addr i + o <= a < buf_addr i + o + k)); [|done]. apply Hst, Ha. lia. }
  split; [done|]. split; [split; [apply length_load_bytes|by apply load_bytes_bytes]|]. split.
  - intros a Hna. rewrite Hld, bool_decide_eq_false_2; [by apply Hst|]. intros Hin. apply Hna. exists i. split; [done|]. change BSIZE with 1024. lia.
  - intros j Hj. unfold d'. rewrite nth_lookup, load_bytes_lookup by lia. simpl. rewrite Hld, Z2Nat.id by lia.
    destruct (bool_decide_reflect (o <= j < o + k)) as [Hin|Hin].
    + rewrite bool_decide_eq_true_2 by lia. f_equal. lia.
    + rewrite bool_decide_eq_false_2 by lia. destruct (lookup_lt_is_Some_2 d (Z.to_nat j) ltac:(lia)) as [y Hy].
      replace (buf_addr i + j) with (buf_addr i + Z.of_nat (Z.to_nat j)) by lia. rewrite (load8_store_bytes_in d _ _ _ y Hy).
      rewrite nth_lookup, Hy. simpl. rewrite Forall_lookup in HF. apply Z.mod_small. exact (HF _ _ Hy).
Qed.

(** A data block of the file replaced. *)
Lemma wf_write sb v v' x bn d : file_wf sb v x -> 0 <= bn < MAXFILE -> baddr v x bn <> 0 -> is_blk d ->
  v' (baddr v x bn) = d -> (forall y, y <> baddr v x bn -> v' y = v y) ->
  file_wf sb v' x /\ same_bitmap sb v v' /\ (forall k, baddr v' x k = baddr v x k) /\
  forall o, 0 <= o < MAXFILE * BSIZE -> content v' x o = if o / BSIZE =? bn then nth (Z.to_nat (o mod BSIZE)) d 0 else content v x o.
Proof.
  intros Wf Hbn Hne Hd Ha Hv. set (a := baddr v x bn) in *.
  destruct (fw_own _ _ _ Wf a (owns_block v x bn Hbn Hne)) as [(Hr & Hu & Hnb) _].
  assert (same_bitmap sb v v') as Hsb by (intros b Hb; apply Hv; intros E; by apply (Hnb b Hb)).
  assert (forall k, baddr v' x k = baddr v x k) as Hba.
  { intros k. unfold baddr. destruct (_ <? _); [done|]. destruct (_ =? 0); [done|]. f_equal. apply Hv.
    intros E. by apply (fw_ind _ _ _ Wf bn Hbn Hne). }
  assert (forall b, owns v' x b -> owns v x b) as Hown.
  { intros b [Hb0 [?|(k & Hk & E)]]; (split; [done|]); [by left|right]. exists k. by rewrite <- Hba. }
  split; [split; [apply Wf| | |]|split; [done|split; [done|]]].
  - intros b Hb. destruct (fw_own _ _ _ Wf b (Hown b Hb)) as [H1 H2]. split; [by apply (data_ext sb v v')|].
    destruct (Z.eq_dec b a) as [->|Hn]; [by rewrite Ha|by rewrite Hv].
  - intros k k'. rewrite !Hba. apply Wf.
  - intros k. rewrite Hba. apply Wf.
  - intros o Ho. unfold content. rewrite Hba. pose proof (block_range o (MAXFILE * BSIZE - o) ltac:(lia) ltac:(lia) ltac:(lia)) as Hq.
    destruct (Z.eqb_spec (o / BSIZE) bn) as [->|Hn].
    + fold a. rewrite (proj2 (Z.eqb_neq a 0) Hne). by rewrite Ha.
    + destruct (Z.eqb_spec (baddr v x (o / BSIZE)) 0); [done|]. rewrite Hv; [done|]. intros E. by apply Hn, (fw_inj _ _ _ Wf).
Qed.

(** From [s] to [s'] the [t] bytes [g 0], [g 1], ... were written at [off]. *)
Record wrote (s s' : kst) (off t : Z) (g : Z -> Z) : Prop := {
  wr_kept : exists it l m, s' = set_klog (set_kitable (with_mem s m) it) l /\ (forall j, j <> ip -> it !! j = k_itable s !! j) /\
    mem_ok m /\ forall a, ~ in_buf a -> load8 m a = load8 (kmem s) a;
  wr_meta : meta (inode_at s' ip) = meta (inode_at s ip);
  wr_bm : bitmap_ok (k_sb s) (kview s');
  wr_wf : file_wf (k_sb s) (kview s') (inode_at s' ip);
  wr_content : forall o, 0 <= o < MAXFILE * BSIZE -> content (kview s') (inode_at s' ip) o =
    if bool_decide (off <= o < off + t) then g (o - off) else content (kview s) (inode_at s ip) o;
  wr_owns : forall a, owns (kview s') (inode_at s' ip) a -> owns (kview s) (inode_at s ip) a \/ ~ data_block (k_sb s) (kview s) a;
  wr_data : forall a, data_block (k_sb s) (kview s) a -> data_block (k_sb s) (kview s') a /\
    (~ owns (kview s) (inode_at s ip) a -> kview s' a = kview s a);
  wr_used : forall b, 0 <= b < sb_size (k_sb s) -> used (k_sb s) (kview s) b = true -> used (k_sb s) (kview s') b = true;
  wr_baddr : forall k, 0 <= k < MAXFILE -> baddr (kview s) (inode_at s ip) k <> 0 ->
    baddr (kview s') (inode_at s' ip) k = baddr (kview s) (inode_at s ip) k;
  wr_there : forall o, off <= o < off + t -> baddr (kview s') (inode_at s' ip) (o / BSIZE) <> 0;
}.

Lemma wrote_sb s s' off t g : wrote s s' off t g -> k_sb s' = k_sb s.
Proof. intros Wr. by destruct (wr_kept _ _ _ _ _ Wr) as (it & l & m & -> & _). Qed.
Lemma grown_wrote s s' off g : mem_ok (kmem s) -> grown ip s s' -> wrote s s' off 0 g.
Proof.
  intros Hm [(it & l & -> & Hj) B2 B3 B4 B5 B6 B7 B8 B9]. split; try done.
  - exists it, l, (kmem s). split; [by destruct s as [[]]|done].
  - intros o Ho. rewrite bool_decide_eq_false_2 by lia. by apply B5.
  - intros o Ho. lia.
Qed.
Lemma wrote_trans s s1 s2 off k t g g' : 0 <= off -> 0 <= k -> 0 <= t -> off + k + t <= MAXFILE * BSIZE ->
  wrote s s1 off k g -> wrote s1 s2 (off + k) t g' ->
  (forall i, 0 <= i < t -> g' i = g (k + i)) -> wrote s s2 off (k + t) g.
Proof.
  intros Hoff Hk Ht Hend W1 W2 Hg. pose proof (wrote_sb _ _ _ _ _ W1) as Es. destruct W2 as [A1 A2 A3 A4 A5 A6 A7 A8 A9 A10]. rewrite Es in *.
  destruct W1 as [B1 B2 B3 B4 B5 B6 B7 B8 B9 B10]. split; [|congruence|done|done| | | | | |].
  - destruct A1 as (it' & l' & m' & -> & Hj' & Hm' & Hl'), B1 as (it & l & m & -> & Hj & Hm & Hl). exists it', l', m'.
    split; [by destruct s|]. split; [intros j Hne; rewrite Hj' by done; by apply Hj|]. split; [done|].
    intros a Ha. rewrite Hl' by done. by apply Hl.
  - intros o Ho. rewrite A5, B5 by done. destruct (bool_decide_reflect (off <= o < off + (k + t))) as [Hi|Hi].
    + destruct (decide (o < off + k)).
      * rewrite bool_decide_eq_false_2, bool_decide_eq_true_2 by lia. done.
      * rewrite bool_decide_eq_true_2 by lia. rewrite Hg by lia. f_equal. lia.
    + rewrite !bool_decide_eq_false_2 by lia. done.
  - intros a Ha. destruct (A6 a Ha) as [Ho|Hn]; [by apply B6|right]. intros Hd. by apply Hn, B7.
  - intros a Ha. destruct (B7 a Ha) as [Hd Hv]. destruct (A7 a Hd) as [Hd' Hv']. split; [done|]. intros Hne.
    rewrite Hv'; [by apply Hv|]. intros Ho. by destruct (B6 a Ho).
  - intros b Hb Hu. apply A8; [done|]. by apply B8.
  - intros j Hj Hn. rewrite A9; [by apply B9|done|by rewrite B9].
  - intros o Ho. destruct (decide (off + k <= o)); [apply A10; lia|].
    pose proof (block_range o (MAXFILE * BSIZE - o) ltac:(lia) ltac:(lia) ltac:(lia)) as Hq.
    rewrite A9; [apply B10; lia|done|apply B10; lia].
Qed.
Lemma ready_wrote c s c' s' off t g : ready ip c s -> later c c' -> wrote s s' off t g -> ready ip c' s'.
Proof.
  intros [H1 H2 H3 H4 H5 H6 H7] Hl G. pose proof (wrote_sb _ _ _ _ _ G) as Es.
  split; rewrite ?Es; [by apply (later_cpu c)|by apply (later_unlocked L_log c)|by apply (later_unlocked L_pr c)|apply G| |apply G|].
  - apply (wr_used _ _ _ _ _ G); [|done]. pose proof (bm_size _ _ H4). lia.
  - pose proof (wr_meta _ _ _ _ _ G) as E. unfold meta in E. congruence.
Qed.

(** One piece written into a block that is there. *)
Lemma piece_wrote s l m off k d (g : Z -> Z) : let v := kview s in let x := inode_at s ip in
  bitmap_ok (k_sb s) v -> file_wf (k_sb s) v x -> 0 <= off -> 0 < k -> off mod BSIZE + k <= BSIZE -> 0 <= off / BSIZE < MAXFILE ->
  baddr v x (off / BSIZE) <> 0 -> is_blk d ->
  (forall j, 0 <= j < BSIZE -> nth (Z.to_nat j) d 0 = if bool_decide (off mod BSIZE <= j < off mod BSIZE + k)
     then g (j - off mod BSIZE) else nth (Z.to_nat j) (v (baddr v x (off / BSIZE))) 0) ->
  lview l (baddr v x (off / BSIZE)) = d -> (forall y, y <> baddr v x (off / BSIZE) -> lview l y = v y) ->
  mem_ok m -> (forall a, ~ in_buf a -> load8 m a = load8 (kmem s) a) ->
  wrote s (set_klog (with_mem s m) l) off k g.
Proof.
  intros v x Hbm Wf Hoff Hk Hmk Hbn Hne Hd Hnth Ha Hv Hm Hml. set (a := baddr v x (off / BSIZE)) in *.
  destruct (wf_write (k_sb s) v (lview l) x (off / BSIZE) d Wf Hbn Hne Hd Ha Hv) as (Wf' & Hsb & Hba & Hc).
  assert (owns v x a) as Hown by by apply owns_block.
  split; change (kview (set_klog (with_mem s m) l)) with (lview l); change (inode_at (set_klog (with_mem s m) l) ip) with x; fold v x.
  - exists (k_itable s), l, m. split; [by destruct s|done].
  - done.
  - by apply (bitmap_ext (k_sb s) v).
  - done.
  - intros o Ho. rewrite Hc by done. pose proof (Z.mod_pos_bound o BSIZE ltac:(done)) as Hm1. pose proof (Z.mod_pos_bound off BSIZE ltac:(done)) as Hm2.
    pose proof (Z.div_mod o BSIZE ltac:(done)) as E1. pose proof (Z.div_mod off BSIZE ltac:(done)) as E2.
    destruct (Z.eqb_spec (o / BSIZE) (off / BSIZE)) as [E|E].
    + rewrite Hnth by lia. unfold content. rewrite E. fold a. rewrite (proj2 (Z.eqb_neq a 0) Hne). rewrite E in E1.
      destruct (bool_decide_reflect (off mod BSIZE <= o mod BSIZE < off mod BSIZE + k)).
      * rewrite bool_decide_eq_true_2 by lia. f_equal. lia.
      * rewrite bool_decide_eq_false_2 by lia. done.
    + rewrite bool_decide_eq_false_2; [done|]. intros Hi. apply E. destruct (block_off off (o - off)) as [Eq _]; [lia|lia|change BSIZE with 1024 in *; lia|].
      by replace (off + (o - off)) with o in Eq by lia.
  - intros b [Hb0 Ho]. left. split; [done|]. destruct Ho as [?|(j & Hj & E)]; [by left|right]. exists j. by rewrite <- Hba.
  - intros b Hb. split; [by apply (data_ext (k_sb s) v)|]. intros Hn. apply Hv. by intros ->.
  - intros b Hb Hu. by rewrite (used_ext (k_sb s) v).
  - intros j _ _. apply Hba.
  - intros o Ho. rewrite Hba. destruct (block_off off (o - off)) as [Eq _]; [lia|lia|lia|].
    replace (off + (o - off)) with o in Eq by lia. by rewrite Eq.
Qed.

(** A block read, changed in memory, logged and released, step by step. *)
Lemma write_steps c s a src o k : bio_cpu c -> unlocked L_log c -> tx c ∅ (k_log s) -> lh_n (l_log (k_log s)) < NBUF -> 0 <= a < 2 ^ 31 ->
  exists i l2 l5 l6 c7 l7, let m3 := memmove (store_bytes (kmem s) (buf_addr i) (kview s a)) (buf_addr i + o) src k in
    let s2 := set_klog s l2 in let s3 := with_mem s2 (store_bytes (kmem s) (buf_addr i) (kview s a)) in
    let d := load_bytes m3 (buf_addr i) (Z.to_nat BSIZE) in 0 <= i < NBUF /\
    zoom kbioA (bread ROOTDEV a) c s = Done i c s2 /\ buf_to_mem buf_addr i c s2 = Done tt c s3 /\
    either_copyin end_ (buf_addr i + o) false src k c s3 = Done 0 c (with_mem s2 m3) /\
    mem_to_buf buf_addr i c (with_mem s2 m3) = Done tt c (set_klog (with_mem s m3) l5) /\
    zoom logA (log_write i) c (set_klog (with_mem s m3) l5) = Done tt c (set_klog (with_mem s m3) l6) /\
    zoom kbioA (brelse i) c (set_klog (with_mem s m3) l6) = Done tt c7 (set_klog (with_mem s m3) l7) /\
    later c c7 /\ tx c7 ∅ l7 /\ moved 1 (k_log s) l7 /\ lview l7 a = d /\ forall y, y <> a -> lview l7 y = kview s y.
Proof.
  intros Hcpu Hul HT Hn Ha. destruct (kbread c ∅ s Hcpu HT a) as (i & l2 & E2 & T2 & S2 & V2 & C2 & Hi); [done|rewrite map_size_empty; lia|].
  set (H := <[a:=i]> ∅) in *. assert (H !! a = Some i) as HiH by apply lookup_insert_eq.
  set (m3 := memmove (store_bytes (kmem s) (buf_addr i) (kview s a)) (buf_addr i + o) src k).
  set (d := load_bytes m3 (buf_addr i) (Z.to_nat BSIZE)).
  destruct (kset c H (with_mem (set_klog s l2) m3) T2 a i d HiH) as (l5 & E5 & T5 & S5 & V5 & V5').
  destruct (klog_write c H (set_klog (with_mem s m3) l5) Hcpu T5 a i HiH Ha) as (l6 & E6 & T6 & I6 & M6 & V6); [|done|].
  { change LOGBLOCKS with NBUF. cbn [k_log set_klog]. rewrite (same_n _ _ S5). cbn [k_log with_mem set_kmem set_klog]. by rewrite (same_n _ _ S2). }
  destruct (kbrelse c H (set_klog (with_mem s m3) l6) Hcpu T6 a i HiH) as (c7 & l7 & E7 & Hl7 & T7 & S7 & V7); [by left|].
  unfold H in T7. rewrite delete_insert_id in T7 by done.
  exists i, l2, l5, l6, c7, l7. split; [done|]. split; [done|].
  split; [rewrite (buf_to_mem_held c H (set_klog s l2) a i T2 HiH); change (kview (set_klog s l2) a) with (lview l2 a); by rewrite V2|].
  split; [rewrite (copyin_kernel (buf_addr i + o) src k c _ (bp_cpu _ Hcpu)); reflexivity|].
  split; [unfold mem_to_buf; exact E5|]. split; [exact E6|]. split; [exact E7|]. split; [done|]. split; [done|]. split; [|split].
  - pose proof (moved_trans 0 0 _ _ _ (same_moved _ _ S2) (same_moved _ _ S5)) as M5. pose proof (moved_trans _ 1 _ _ _ M5 M6) as M16.
    apply (moved_trans 1 0 _ l6); [exact M16|apply same_moved; exact S7].
  - etrans; [apply V7|]. etrans; [apply V6|]. done.
  - intros y Hy. etrans; [apply V7|]. etrans; [apply V6|]. etrans; [by apply V5'|]. apply V2.
Qed.

Lemma writei_loop_spec k : forall fuel c s src off tot n, (k <= fuel)%nat -> ready ip c s -> tx c ∅ (k_log s) ->
  lh_n (l_log (k_log s)) + 6 * Z.of_nat k < NBUF -> mem_ok (kmem s) -> 0 <= tot <= n -> n < 2 ^ 32 -> 0 <= off ->
  off + (n - tot) <= MAXFILE * BSIZE -> 0 <= src -> src + (n - tot) < 2 ^ 64 -> (forall a, src <= a < src + (n - tot) -> ~ in_buf a) ->
  tot = n \/ off mod BSIZE + (n - tot) <= BSIZE * Z.of_nat k ->
  exists t c' s', writei_loop end_ buf_addr fuel ip false src off tot n c s = Done (tot + t, off + t) c' s' /\ 0 <= t <= n - tot /\
    (t < n - tot -> full s') /\ later c c' /\ tx c' ∅ (k_log s') /\ moved (6 * Z.of_nat k) (k_log s) (k_log s') /\
    wrote s s' off t (fun i => load8 (kmem s) (src + i)).
Proof.
  induction k as [|k IH]; intros fuel c s src off tot n Hkf R HT Hlog Hm Htot Hn Hoff Hend Hsrc Hsend Hdis Hfu;
    pose proof (Z.mod_pos_bound off BSIZE ltac:(done)) as Hmod.
  1: assert (tot = n) by (change BSIZE with 1024 in *; lia).
  2: destruct (decide (tot = n)) as [|Hlt].
  1, 2: subst tot; exists 0, c, s; split; [destruct fuel; cbn [writei_loop]; rewrite Z.ltb_irrefl, !Z.add_0_r; done|]; split; [lia|];
    split; [lia|]; split; [apply later_refl|]; split; [done|]; split; [apply (moved_le 0); [lia|apply moved_refl]|];
    apply grown_wrote; [done|]; replace s with (set_klog s (k_log s)) at 2 by (by destruct s); apply file_grown_refl; [apply R|apply R|done].
  destruct fuel as [|fuel]; [lia|]. cbn [writei_loop]. rewrite (proj2 (Z.ltb_lt tot n)) by lia. cbn [negb].
  pose proof (block_range off (n - tot) Hoff ltac:(lia) Hend) as Hbr.
  destruct (bmap_spec ip c s (off / BSIZE) R HT Hbr ltac:(lia)) as (c1 & s1 & r & E1 & Hc1 & T1 & G1 & M1 & Hr & Hful). kstep E1.
  pose proof (grown_wrote s s1 off (fun i => load8 (kmem s) (src + i)) Hm G1) as W1. destruct (Z.eqb_spec r 0) as [E0|E0].
  { exists 0, c1, s1. rewrite !Z.add_0_r. split; [done|]. split; [lia|]. split; [auto|]. split; [done|]. split; [done|]. split; [by apply (moved_le 5); [lia|]|done]. }
  pose proof (ready_grown ip c s c1 s1 R Hc1 G1) as R1. pose proof (kept_mem _ _ _ (gw_kept _ _ _ G1)) as Ekm.
  assert (kmem s1 = kmem s) as Em by (unfold kmem; by rewrite Ekm). pose proof (mv_n _ _ _ M1) as Hn1.
  unfold gi. rewrite (bind_done (gets (fun s => inode_at s ip)) _ c1 s1 (inode_at s1 ip) c1 s1 eq_refl). cbv beta. rewrite (rd_dev _ _ _ R1).
  set (kk := Z.min (n - tot) (BSIZE - off mod BSIZE)).
  assert (0 < kk /\ kk <= n - tot /\ off mod BSIZE + kk <= BSIZE) as (Hk1 & Hk2 & Hk3) by (unfold kk; lia).
  pose proof (rd_wf _ _ _ R1) as Wf1. assert (baddr (kview s1) (inode_at s1 ip) (off / BSIZE) <> 0) as Hb by congruence.
  destruct (fw_own _ _ _ Wf1 r) as [((Hr1 & Hr2) & _) Hblk]; [rewrite Hr; by apply owns_block|]. pose proof (bm_size _ _ (rd_bm _ _ _ R1)) as Hsz.
  destruct (write_steps c1 s1 r src (off mod BSIZE) kk (rd_cpu _ _ _ R1) (rd_log _ _ _ R1) T1 ltac:(lia) ltac:(lia))
    as (i & l2 & l5 & l6 & c7 & l7 & Hi & E2 & E3 & E4 & E5 & E6 & E7 & Hc7 & T7 & M7 & V7 & V7').
  kstep E2. kstep E3. kstep E4. kstep E5. change (0 =? -1) with false. cbv iota. kstep E6. kstep E7.
  destruct (write_piece (kmem s1) i (kview s1 r) src (off mod BSIZE) kk) as (Pm & Pb & Pk & Pn); [by rewrite Em|done|done|lia|lia|done|intros a Ha; apply Hdis; lia|].
  set (m3 := memmove _ _ _ _) in *. set (s7 := set_klog (with_mem s1 m3) l7).
  assert (wrote s1 s7 off kk (fun i => load8 (kmem s) (src + i))) as W7.
  { rewrite <- Em. eapply piece_wrote; [apply R1|done|done|done|done|done|done|exact Pb| | | |done|done]; rewrite <- Hr; done. }
  pose proof (wrote_trans s s1 s7 off 0 kk _ _ Hoff ltac:(lia) ltac:(lia) ltac:(lia) W1
    ltac:(rewrite Z.add_0_r; exact W7) ltac:(intros; by rewrite Z.add_0_l)) as W17. rewrite Z.add_0_l in W17.
  pose proof (later_trans _ _ _ Hc1 Hc7) as Hc17. pose proof (ready_wrote c s c7 s7 off kk _ R Hc17 W17) as R7.
  pose proof (moved_trans 5 1 _ _ _ M1 M7) as M17. pose proof (mv_n _ _ _ M17) as Hn7.
  destruct Hfu as [|Hfu]; [done|]. pose proof (next_piece off n tot k Hoff ltac:(lia) Hfu) as Hnext.
  assert (MAXFILE * BSIZE = 274432) as EMB by done. rewrite (u_small 64), (u_small 32 (off + kk)), (u_small 32 (tot + kk)) by lia.
  destruct (IH fuel c7 s7 (src + kk) (off + kk) (tot + kk) n) as (t & c' & s' & E8 & Ht & Hf8 & Hc8 & T8 & M8 & W8);
    [lia|done|done|change (k_log s7) with l7; lia|done|lia|lia|lia|lia|lia|lia|intros a Ha; apply Hdis; lia|done|].
  exists (kk + t), c', s'. replace (tot + (kk + t)) with (tot + kk + t) by lia. replace (off + (kk + t)) with (off + kk + t) by lia.
  split; [exact E8|]. split; [lia|]. split; [intros; apply Hf8; lia|]. split; [by eapply later_trans|]. split; [done|].
  split; [replace (6 * Z.of_nat (S k)) with (6 + 6 * Z.of_nat k) by lia; by apply (moved_trans _ _ _ l7)|].
  apply (wrote_trans s s7 s' off kk t _ (fun i => load8 (kmem s7) (src + kk + i))); [done|lia|lia|lia|done|done|].
  intros j Hj. change (kmem s7) with m3. rewrite Pk, Em; [f_equal; lia|]. apply Hdis. lia.
Qed.

(** The contents do not depend on blocks of others. *)
Lemma content_frame v v' x b : ~ owns v x b -> (forall y, y <> b -> v' y = v y) ->
  (forall k, baddr v' x k = baddr v x k) /\ (forall o, 0 <= o < MAXFILE * BSIZE -> content v' x o = content v x o) /\
  forall a, owns v' x a -> owns v x a /\ v' a = v a.
Proof.
  intros Hb Hv. assert (forall k, baddr v' x k = baddr v x k) as Hba.
  { intros k. unfold baddr. destruct (_ <? _); [done|]. destruct (Z.eqb_spec (addr_at x NDIRECT) 0) as [|Hn]; [done|]. f_equal. apply Hv.
    intros <-. apply Hb. split; [done|by left]. }
  split; [done|]. split.
  - intros o Ho. unfold content. rewrite Hba. pose proof (block_range o (MAXFILE * BSIZE - o) ltac:(lia) ltac:(lia) ltac:(lia)) as Hq.
    destruct (Z.eqb_spec (baddr v x (o / BSIZE)) 0); [done|]. rewrite Hv; [done|]. intros <-. by apply Hb, owns_block.
  - intros a [Ha Ho]. assert (owns v x a) as Ho'.
    { split; [done|]. destruct Ho as [?|(k & Hk & E)]; [by left|right]. exists k. by rewrite <- Hba. }
    split; [done|]. apply Hv. by intros ->.
Qed.

(** How many blocks a transfer touches. *)
Definition touched (off n : Z) : Z := (off mod BSIZE + n + BSIZE - 1) / BSIZE.

Lemma writei_spec c s src off n : let v := kview s in let x := inode_at s ip in let b := IBLOCK (i_inum x) (k_sb s) in
  ready ip c s -> tx c ∅ (k_log s) -> no_holes v x -> mem_ok (kmem s) -> inum_ok (k_sb s) (i_inum x) ->
  data_block (k_sb s) v b -> ~ owns v x b -> 0 <= off <= i_size x -> 0 <= n -> off + n <= MAXFILE * BSIZE ->
  0 <= src -> src + n < 2 ^ 64 -> (forall a, src <= a < src + n -> ~ in_buf a) ->
  lh_n (l_log (k_log s)) + 6 * touched off n < NBUF ->
  exists t c' s', let v' := kview s' in let x' := inode_at s' ip in
    writei end_ buf_addr ip false src off n c s = Done t c' s' /\ 0 <= t <= n /\ (t < n -> full s') /\
    i_size x' = Z.max (i_size x) (off + t) /\
    (forall o, 0 <= o < MAXFILE * BSIZE -> content v' x' o = if bool_decide (off <= o < off + t) then load8 (kmem s) (src + (o - off)) else content v x o) /\
    (forall a, data_block (k_sb s) v a -> ~ owns v x a -> a <> b -> v' a = v a) /\
    (forall a, ~ in_buf a -> load8 (kmem s') a = load8 (kmem s) a) /\ mem_ok (kmem s') /\
    no_holes v' x' /\ (forall a, owns v' x' a -> is_blk (v' a)) /\ later c c' /\ tx c' ∅ (k_log s') /\ i_dev x' = ROOTDEV /\
    lh_n (l_log (k_log s')) <= lh_n (l_log (k_log s)) + 6 * touched off n + 1 /\
    k_sb s' = k_sb s /\ meta (set_isize 0 x') = meta (set_isize 0 x) /\ forall j, j <> ip -> inode_at s' j = inode_at s j.
Proof.
  intros v x b R HT [Hsz Hholes] Hm Hin Hbd Hbn Hoff Hn Hend Hsrc Hsend Hdis Hlog.
  assert (MAXFILE * BSIZE = 274432) as EMB by done. pose proof (Z.mod_pos_bound off BSIZE ltac:(done)) as Hmod.
  assert (0 <= touched off n) as Ht0 by (apply Z.div_pos; [change BSIZE with 1024 in *; lia|done]).
  assert (off mod BSIZE + n <= BSIZE * touched off n) as Htou.
  { unfold touched. pose proof (Z.div_mod (off mod BSIZE + n + BSIZE - 1) BSIZE ltac:(done)).
    pose proof (Z.mod_pos_bound (off mod BSIZE + n + BSIZE - 1) BSIZE ltac:(done)). lia. }
  assert (touched off n <= n / BSIZE + 2) as Hfuel.
  { apply Z.lt_succ_r, Z.div_lt_upper_bound; [done|]. pose proof (Z.div_mod n BSIZE ltac:(done)). pose proof (Z.mod_pos_bound n BSIZE ltac:(done)).
    change BSIZE with 1024 in *. lia. }
  unfold writei, gi. rewrite (bind_done (gets (fun s => inode_at s ip)) _ c s x c s eq_refl). cbv beta. rewrite !Z.gtb_ltb.
  rewrite (u_small 32 (off + n)) by lia. rewrite (proj2 (Z.ltb_ge (i_size x) off)), (proj2 (Z.ltb_ge (off + n) off)) by lia. cbn [orb].
  rewrite (proj2 (Z.ltb_ge (MAXFILE * BSIZE) (off + n))) by lia.
  destruct (writei_loop_spec (Z.to_nat (touched off n)) (Z.to_nat (n / BSIZE + 2)) c s src off 0 n)
    as (t & c1 & s1 & E1 & Ht & Hf1 & Hc1 & T1 & M1 & W1); [lia|done|done|lia|done|lia|lia|lia|lia|lia|lia|intros a Ha; apply Hdis; lia|right; rewrite Z2Nat.id by done; lia|].
  rewrite Z.sub_0_r in *. rewrite Z.add_0_l in E1. kstep E1. set (x1 := inode_at s1 ip).
  rewrite (bind_done (gets (fun s => inode_at s ip)) _ c1 s1 x1 c1 s1 eq_refl). cbv beta. rewrite Z.gtb_ltb.
  assert (i_dev x1 = i_dev x /\ i_inum x1 = i_inum x /\ i_size x1 = i_size x) as (Ed & En & Es).
  { pose proof (wr_meta _ _ _ _ _ W1) as E. unfold meta in E. fold x x1 in E. split_and!; congruence. }
  pose proof (wrote_sb _ _ _ _ _ W1) as Esb.
  set (s2 := if i_size x1 <? off + t then upd_inode ip (set_isize (off + t)) s1 else s1).
  assert ((if i_size x1 <? off + t then ui ip (set_isize (off + t)) else mret tt) c1 s1 = Done tt c1 s2) as E2 by (unfold s2; by destruct (_ <? _)).
  kstep E2. set (x2 := inode_at s2 ip).
  assert (k_log s2 = k_log s1 /\ k_sb s2 = k_sb s /\ kmem s2 = kmem s1) as (El2 & Esb2 & Em2) by (unfold s2; destruct (_ <? _); done).
  assert (kview s2 = kview s1) as Ev2 by (unfold kview; by rewrite El2).
  assert (i_addrs x2 = i_addrs x1 /\ i_dev x2 = i_dev x1 /\ i_inum x2 = i_inum x1 /\ i_size x2 = Z.max (i_size x) (off + t)) as (Ea2 & Ed2 & En2 & Ez2).
  { unfold x2, s2. destruct (Z.ltb_spec (i_size x1) (off + t)); [rewrite inode_at_same; fold x1|fold x1]; cbn [i_addrs i_dev i_inum i_size set_isize]; split_and!; done || lia. }
  pose proof (mv_n _ _ _ M1) as Hn1.
  destruct (iupdate_spec c1 ∅ s2 ip) as (c3 & l3 & E3 & Hc3 & T3 & M3 & _ & V3).
  { by apply (later_cpu c), R. } { by apply (later_unlocked L_log c), R. } { by rewrite El2. }
  { fold x2. rewrite Ed2, Ed. exact (rd_dev _ _ _ R). } { fold x2. by rewrite En2, En, Esb2. } { done. } { rewrite El2, map_size_empty. lia. }
  fold x2 in V3. rewrite En2, En, Esb2 in V3. fold b in V3. rewrite Ev2 in V3. kstep E3.
  rewrite s_small by (unfold in_s; lia). exists t, c3, (set_klog s2 l3). change (inode_at (set_klog s2 l3) ip) with x2.
  change (kview (set_klog s2 l3)) with (lview l3). change (kmem (set_klog s2 l3)) with (kmem s2). change (k_log (set_klog s2 l3)) with l3. rewrite Em2.
  destruct (wr_data _ _ _ _ _ W1 b Hbd) as [Hbd1 _].
  assert (~ owns (kview s1) x1 b) as Hbn1 by (intros Ho; by destruct (wr_owns _ _ _ _ _ W1 b Ho)).
  destruct (content_frame (kview s1) (lview l3) x1 b Hbn1 V3) as (Hba & Hco & How).
  assert (forall k, addr_at x2 k = addr_at x1 k) as Haa by (intros; unfold addr_at; by rewrite Ea2).
  assert (forall w k, baddr w x2 k = baddr w x1 k) as Hb2 by (intros; unfold baddr; by rewrite !Haa).
  assert (forall w o, content w x2 o = content w x1 o) as Hc2 by (intros; unfold content; by rewrite Hb2).
  destruct (wr_kept _ _ _ _ _ W1) as (it & lk & mk & Ek & _ & Hmk & Hload). assert (kmem s1 = mk) as Emk by by rewrite Ek.
  split; [done|]. split; [lia|]. split.
  { intros Hlt bb Hbb. change (k_sb (set_klog s2 l3)) with (k_sb s2) in *. change (kview (set_klog s2 l3)) with (lview l3). rewrite Esb2 in *.
    rewrite (used_ext (k_sb s) (kview s1)); [|intros b' Hb'; apply V3; destruct Hbd as (_ & _ & Hne); intros E; by apply (Hne b' Hb')|done].
    specialize (Hf1 Hlt bb). rewrite Esb in Hf1. by apply Hf1. }
  split; [done|]. split; [intros o Ho; rewrite Hc2, Hco by done; by apply (wr_content _ _ _ _ _ W1)|].
  split; [intros a Ha Hna Hnb; rewrite V3 by done; by apply (wr_data _ _ _ _ _ W1)|].
  split; [intros a Ha; rewrite Emk; by apply Hload|]. split; [by rewrite Emk|]. split; [split|].
  - rewrite Ez2. lia.
  - rewrite Ez2. intros o Ho. rewrite Hb2, Hba. destruct (decide (off <= o < off + t)) as [Hi|Hi]; [by apply (wr_there _ _ _ _ _ W1)|].
    pose proof (block_range o (MAXFILE * BSIZE - o) ltac:(lia) ltac:(lia) ltac:(lia)) as Hq.
    unfold x1. rewrite (wr_baddr _ _ _ _ _ W1) by (done || apply Hholes; lia). apply Hholes. lia.
  - split.
    + intros a Ha. assert (owns (lview l3) x1 a) as Ha1.
      { destruct Ha as [Ha0 Ha]. split; [done|]. rewrite Haa in Ha. setoid_rewrite Hb2 in Ha. done. }
      destruct (How a Ha1) as [Ho ->]. by apply (fw_own _ _ _ (wr_wf _ _ _ _ _ W1)).
    + split; [by eapply later_trans|]. split; [done|]. split; [rewrite Ed2, Ed; exact (rd_dev _ _ _ R)|].
      pose proof (mv_n _ _ _ M3) as Hn3. rewrite El2 in Hn3. split; [lia|]. split; [done|]. split.
      * unfold x2, s2. pose proof (wr_meta _ _ _ _ _ W1) as E. fold x x1 in E. unfold meta in E |- *.
        destruct (_ <? _); [rewrite inode_at_same|]; fold x1; simpl; congruence.
      * intros j Hj. change (inode_at (set_klog s2 l3) j) with (inode_at s2 j). transitivity (inode_at s1 j).
        -- unfold s2. destruct (_ <? _); [|done]. by rewrite inode_at_upd, (proj2 (Z.eqb_neq ip j)) by congruence.
        -- destruct (wr_kept _ _ _ _ _ W1) as (it' & ? & ? & Es1 & Hit & _). rewrite Es1. unfold inode_at. simpl. by rewrite Hit.
Qed.

(** C36: writei of n bytes of kernel memory at an offset up to the size of a
    well-formed file returns the number t of bytes written, fewer than n only
    when the disk is full.  The contents of the file are then those bytes at the
    offset and what they were elsewhere, its size has grown to cover them, and
    no block in use outside the file changes but the one with the inode.  A
    readi that follows returns the bytes up to the end of the file, and exactly
    those contents are in memory. *)
Theorem writei_readi_contents c s src off n : let v := kview s in let x := inode_at s ip in let b := IBLOCK (i_inum x) (k_sb s) in
  ready ip c s -> tx c ∅ (k_log s) -> no_holes v x -> mem_ok (kmem s) -> inum_ok (k_sb s) (i_inum x) ->
  data_block (k_sb s) v b -> ~ owns v x b -> 0 <= off <= i_size x -> 0 <= n -> off + n <= MAXFILE * BSIZE ->
  0 <= src -> src + n < 2 ^ 64 -> (forall a, src <= a < src + n -> ~ in_buf a) ->
  lh_n (l_log (k_log s)) + 6 * touched off n + 1 < NBUF ->
  exists t c1 s1, let x1 := inode_at s1 ip in
    writei end_ buf_addr ip false src off n c s = Done t c1 s1 /\ 0 <= t <= n /\ (t < n -> full s1) /\
    i_size x1 = Z.max (i_size x) (off + t) /\
    (forall a, data_block (k_sb s) v a -> ~ owns v x a -> a <> b -> kview s1 a = v a) /\
    forall dst off2 n2, 0 <= off2 -> 0 <= n2 -> off2 + n2 < 2 ^ 32 -> 0 <= dst -> dst + n2 < 2 ^ 64 ->
      (forall a, dst <= a < dst + n2 -> ~ in_buf a) ->
      exists c2 s2, readi end_ buf_addr ip false dst off2 n2 c1 s1 = Done (read_count x1 off2 n2) c2 s2 /\
        forall i, 0 <= i < read_count x1 off2 n2 -> load8 (kmem s2) (dst + i) =
          if bool_decide (off <= off2 + i < off + t) then load8 (kmem s) (src + (off2 + i - off)) else content v x (off2 + i).
Proof.
  intros v x b R HT Hh Hm Hin Hbd Hbn Hoff Hn Hend Hsrc Hsend Hdis Hlog.
  destruct (writei_spec c s src off n R HT Hh Hm Hin Hbd Hbn Hoff Hn Hend Hsrc Hsend Hdis ltac:(lia))
    as (t & c1 & s1 & E1 & Ht & Hf & Hz & Hc & Hd & Hmem & Hm1 & Hh1 & Hb1 & Hl1 & T1 & Hdev1 & Hlog1 & _).
  exists t, c1, s1. split; [done|]. split; [done|]. split; [done|]. split; [done|]. split; [done|].
  intros dst off2 n2 H1 H2 H3 H4 H5 H6. set (x1 := inode_at s1 ip) in *.
  assert (0 <= read_count x1 off2 n2 <= n2) as Hr by (unfold read_count; lia).
  destruct (readi_spec c1 s1 dst off2 n2) as (c2 & l & m & E2 & _ & _ & _ & _ & _ & Hld); try done; fold x1.
  - apply (later_cpu c); [done|]. apply (rd_cpu _ _ _ R).
  - lia.
  - lia.
  - intros a Ha. apply H6. lia.
  - exists c2, (set_klog (with_mem s1 m) l). split; [done|]. intros i Hi. change (kmem (set_klog (with_mem s1 m) l)) with m.
    fold x1 in Hld. rewrite Hld by (apply H6; lia). rewrite bool_decide_eq_true_2 by lia. replace (off2 + (dst + i - dst)) with (off2 + i) by lia.
    apply Hc. destruct Hh1 as [Hs1 _]. fold x1 in Hs1. unfold read_count in *. lia.
Qed.
End Rdwr.

(** ** An empty file in the small file system, and five bytes for it *)

Definition empty_inode (ty : Z) : inode := Inode ROOTDEV 1 1 (Sleeplock 1 1) true ty 0 0 1 0 (replicate 13 0).
Definition hello : list Z := [104; 101; 108; 108; 111].
Definition buffers (i : Z) : Z := 100000 + 1024 * i.
Definition fs_hello (ty : Z) : kst := with_mem (set_kitable fs100 {[ 0 := empty_inode ty ]}) (store_bytes ∅ 5000 hello).

Lemma hello_ready ty : ready 0 op_ctx (fs_hello ty).
Proof.
  destruct op_ctx_cpu as (H1 & H2 & H3 & _ & _). split; [done|done|done|exact fs100_bitmap|exact (fs100_used 0 ltac:(lia))| |done].
  change (inode_at (fs_hello ty) 0) with (empty_inode ty). destruct (zero_addrs (kview (fs_hello ty)) (empty_inode ty) eq_refl) as (_ & Hb & Ho).
  split; [done| | |].
  - intros a Ha. by destruct (Ho a Ha).
  - intros k k' _ _ _ Hn. by rewrite Hb in Hn.
  - intros k _ Hn. by rewrite Hb in Hn.
Qed.
Lemma hello_inode_block ty : data_block sb100 (kview (fs_hello ty)) (IBLOCK 1 sb100).
Proof.
  change (IBLOCK 1 sb100) with 4. split; [change (sb_size sb100) with 100; lia|]. split; [exact (fs100_used 4 ltac:(lia))|].
  intros b Hb. unfold BBLOCK. rewrite Z.div_small by (change BPB with 8192; change (sb_size sb100) with 100 in Hb; lia). discriminate.
Qed.
Lemma below_buffers a : 0 <= a < 100000 -> ~ in_buf buffers a.
Proof. intros Ha (i & Hi & Hb). unfold buffers in Hb. lia. Qed.

Lemma writei_readi_contents_witness : exists t c1 s1 r c2 s2,
  @writei ram_disk 0 buffers 0 false 5000 0 5 op_ctx (fs_hello T_FILE) = Done t c1 s1 /\
  @readi ram_disk 0 buffers 0 false 6000 0 100 c1 s1 = Done r c2 s2 /\ i_size (inode_at s1 0) = t /\
  forall i, 0 <= i < t -> load8 (kmem s2) (6000 + i) = load8 (kmem (fs_hello T_FILE)) (5000 + i).
Proof.
  destruct (@writei_readi_contents ram_disk ram_disk_ok 0 buffers 0 op_ctx (fs_hello T_FILE) 5000 0 5) as (t & c1 & s1 & E1 & Ht & _ & Hz & _ & Hr).
  - exact (hello_ready T_FILE).
  - exact (proj1 (op_tx _ _)).
  - split; [change (i_size (inode_at (fs_hello T_FILE) 0)) with 0; split; [lia|discriminate]|]. change (i_size (inode_at (fs_hello T_FILE) 0)) with 0. lia.
  - apply mem_ok_store_bytes, mem_ok_empty.
  - split; split; reflexivity || (intro; discriminate).
  - exact (hello_inode_block T_FILE).
  - exact (proj2 (proj2 (zero_addrs (kview (fs_hello T_FILE)) (empty_inode T_FILE) eq_refl)) _).
  - change (i_size (inode_at (fs_hello T_FILE) 0)) with 0. lia.
  - lia.
  - discriminate.
  - lia.
  - lia.
  - intros a Ha. apply below_buffers. lia.
  - reflexivity.
  - destruct (Hr 6000 0 100) as (c2 & s2 & E2 & Hc); [lia|lia|lia|lia|lia|intros a Ha; apply below_buffers; lia|].
    change (i_size (inode_at (fs_hello T_FILE) 0)) with 0 in Hz. rewrite Z.max_r in Hz by lia. rewrite Z.add_0_l in Hz.
    exists t, c1, s1, (read_count (inode_at s1 0) 0 100), c2, s2. split; [exact E1|]. split; [exact E2|]. split; [done|].
    intros i Hi. rewrite Hc by (unfold read_count; lia). rewrite bool_decide_eq_true_2 by lia. f_equal. lia.
Defined.
