(* ===== verification/DirMap.v ===== *)
(** * Directories as maps (theorems on dirlookup and dirlink of Dir.v)

    A directory file is a list of entries; as a map it takes a name to the first
    entry that has the name and is in use.  dirlookup reads the map and dirlink
    extends it. *)
From stdpp Require Import base numbers list gmap strings.
From S2P Require Import Prelude Kernel Spinlock Sleeplock Bio Bcache Printf Log Redo LogOps Str Riscv Kalloc Vm Kstate Proc Fs Dir Txn Alloc Inode Content Rdwr.

(** ** Entries *)

Lemma find_ext_in {A} (f g : A -> bool) l : (forall j, j ∈ l -> f j = g j) -> List.find f l = List.find g l.
Proof.
  induction l as [|a l IH]; intros He; cbn [List.find]; [done|]. rewrite (He a) by (by left). destruct (g a); [done|].
  apply IH. intros j Hj. apply He. by right.
Qed.

(** The first [n] values of [f], up to the first zero. *)
Fixpoint upto0 (n : nat) (f : Z -> Z) : list Z :=
  match n with
  | O => []
  | S n => if f 0 =? 0 then [] else f 0 :: upto0 n (fun i => f (i + 1))
  end.
Lemma upto0_ext n : forall f g, (forall i, 0 <= i < Z.of_nat n -> f i = g i) -> upto0 n f = upto0 n g.
Proof.
  induction n as [|n IH]; intros f g He; cbn [upto0]; [done|]. rewrite (He 0) by lia. destruct (_ =? 0); [done|]. f_equal.
  apply IH. intros i Hi. apply He. lia.
Qed.
Lemma cstr_upto0 n : forall m p, cstr n m p = upto0 n (fun i => load8 m (p + i)).
Proof.
  induction n as [|n IH]; intros m p; cbn [cstr upto0]; [done|]. rewrite Z.add_0_r, IH. destruct (_ =? 0); [done|]. f_equal.
  apply upto0_ext. intros i _. f_equal. lia.
Qed.

(** Entry [k] of the directory in inode [x]. *)
Definition ent_inum (v : Z -> block) (x : inode) (k : Z) : Z := content v x (16 * k) + 256 * content v x (16 * k + 1).
Definition ent_name (v : Z -> block) (x : inode) (k : Z) : list Z := upto0 14 (fun i => content v x (16 * k + 2 + i)).
Definition ent_is (v : Z -> block) (x : inode) (nm : list Z) (k : Z) : bool :=
  negb (ent_inum v x k =? 0) && bool_decide (ent_name v x k = nm).
(** The entry a name stands for. *)
Definition dir_find (v : Z -> block) (x : inode) (nm : list Z) : option Z :=
  List.find (ent_is v x nm) (seqZ 0 (i_size x / 16)).

Lemma content_ext v v' x o : (forall y, v' y = v y) -> content v' x o = content v x o.
Proof.
  intros He. assert (forall k, baddr v' x k = baddr v x k) as Hb by (intros k; unfold baddr; by rewrite He).
  unfold content. by rewrite Hb, He.
Qed.
Lemma ent_is_ext v v' x nm k : (forall y, v' y = v y) -> ent_is v' x nm k = ent_is v x nm k /\ ent_inum v' x k = ent_inum v x k.
Proof.
  intros He. assert (ent_inum v' x k = ent_inum v x k) as Hi by (unfold ent_inum; by rewrite !(content_ext v v')).
  assert (ent_name v' x k = ent_name v x k) as En by (apply upto0_ext; intros i _; by rewrite (content_ext v v')).
  split; [|done]. unfold ent_is. by rewrite Hi, En.
Qed.

Section DirMap.
Context {D : DiskDriver} {DOK : DiskDriverOk D}.
Variables (end_ : Z) (buf_addr : Z -> Z) (dp : Z).

(** What reading a directory needs. *)
Record readable (c : ctx) (s : kst) : Prop := {
  rb_cpu : bio_cpu c;
  rb_tx : tx c ∅ (k_log s);
  rb_dev : i_dev (inode_at s dp) = ROOTDEV;
  rb_log : lh_n (l_log (k_log s)) < NBUF;
  rb_mem : mem_ok (kmem s);
  rb_holes : no_holes (kview s) (inode_at s dp);
  rb_blk : forall a, owns (kview s) (inode_at s dp) a -> is_blk (kview s a);
}.
(** The local [de] is apart from the buffers. *)
Definition de_ok (de : Z) : Prop := 0 <= de /\ de + 16 < 2 ^ 64 /\ forall a, de <= a < de + 16 -> ~ in_buf buf_addr a.
(** From [s] to [s'] blocks were read, and memory changed in the buffers and in [de]. *)
Definition peeked (de : Z) (s s' : kst) : Prop :=
  exists l m, s' = set_klog (with_mem s m) l /\ (forall y, lview l y = kview s y) /\ same_log (k_log s) l /\ mem_ok m /\
    forall a, ~ in_buf buf_addr a -> ~ (de <= a < de + 16) -> load8 m a = load8 (kmem s) a.

Lemma peeked_refl de s : mem_ok (kmem s) -> peeked de s s.
Proof. intros Hm. exists (k_log s), (kmem s). split; [by destruct s as [[]]|]. done. Qed.
Lemma peeked_trans de s s1 s2 : peeked de s s1 -> peeked de s1 s2 -> peeked de s s2.
Proof.
  intros (l & m & -> & V & [S1 S2] & Hm & Ho) (l' & m' & -> & V' & [S1' S2'] & Hm' & Ho'). exists l', m'. split; [by destruct s as [[]]|].
  split; [intros y; by rewrite V', <- V|]. split; [split; etransitivity; [exact S1'|exact S1|exact S2'|exact S2]|]. split; [done|].
  intros a Ha Hd. rewrite Ho' by done. by apply Ho.
Qed.
Lemma readable_peeked de c s c' s' : readable c s -> later c c' -> tx c' ∅ (k_log s') -> peeked de s s' -> readable c' s'.
Proof.
  intros [R1 R2 R3 R4 R5 R6 R7] Hl HT (l & m & -> & V & S & Hm & _).
  change (inode_at (set_klog (with_mem s m) l) dp) with (inode_at s dp) in *. set (x := inode_at s dp) in *.
  assert (forall k, baddr (lview l) x k = baddr (kview s) x k) as Hb by (intros k; unfold baddr; by rewrite V).
  split; try done; change (inode_at (set_klog (with_mem s m) l) dp) with x; change (kview (set_klog (with_mem s m) l)) with (lview l).
  - by apply (later_cpu c).
  - change (k_log (set_klog (with_mem s m) l)) with l. by rewrite (same_n _ _ S).
  - destruct R6 as [H1 H2]. split; [done|]. intros o Ho. rewrite Hb. by apply H2.
  - intros a [Ha Ho]. rewrite V. apply R7. split; [done|]. setoid_rewrite Hb in Ho. done.
Qed.

Lemma read_entry de c s k : let x := inode_at s dp in readable c s -> de_ok de -> 0 <= k < i_size x / 16 ->
  exists c' s', readi end_ buf_addr dp false de (16 * k) 16 c s = Done 16 c' s' /\ later c c' /\ readable c' s' /\ peeked de s s' /\
    load16 (kmem s') de = ent_inum (kview s) x k /\ cstr 14 (kmem s') (de + 2) = ent_name (kview s) x k.
Proof.
  intros x R (Hd0 & Hd1 & Hd2) Hk. pose proof R as [R1 R2 R3 R4 R5 R6 R7]. pose proof R6 as [Hsz _]. fold x in Hsz.
  change (MAXFILE * BSIZE) with 274432 in Hsz. pose proof (Z.div_mod (i_size x) 16 ltac:(lia)) as Hdm. pose proof (Z.mod_pos_bound (i_size x) 16 ltac:(lia)) as Hmb.
  assert (read_count x (16 * k) 16 = 16) as Hrc by (unfold read_count; lia).
  destruct (readi_spec end_ buf_addr dp c s de (16 * k) 16) as (c' & l & m & E & Hl & T & V & S & Hm & Hld); fold x; rewrite ?Hrc; try done; try lia.
  fold x in E, Hld. rewrite Hrc in E, Hld.
  assert (peeked de s (set_klog (with_mem s m) l)) as Hp.
  { exists l, m. split; [done|]. split; [done|]. split; [done|]. split; [done|]. intros a Ha Hn. rewrite Hld by done. by rewrite bool_decide_eq_false_2. }
  assert (forall i, 0 <= i < 16 -> load8 m (de + i) = content (kview s) x (16 * k + i)) as Hb.
  { intros i Hi. rewrite Hld by (apply Hd2; lia). rewrite bool_decide_eq_true_2 by lia. f_equal. lia. }
  exists c', (set_klog (with_mem s m) l). split; [done|]. split; [done|]. split; [by apply (readable_peeked de c s)|]. split; [done|].
  change (kmem (set_klog (with_mem s m) l)) with m. split.
  - unfold load16. cbn [load_bytes le_combine]. rewrite Hb by lia. pose proof (Hb 0 ltac:(lia)) as H0. rewrite Z.add_0_r in H0. rewrite H0. unfold ent_inum. rewrite Z.add_0_r. lia.
  - rewrite cstr_upto0. apply upto0_ext. intros i Hi. replace (de + 2 + i) with (de + (2 + i)) by lia. rewrite Hb by lia. f_equal. lia.
Qed.

(** The name to look for is in memory that the reads do not touch. *)
Definition name_at (de : Z) (m : mem) (name : Z) (nm : list Z) : Prop :=
  cstr 14 m name = nm /\ forall i, 0 <= i < 14 -> ~ in_buf buf_addr (name + i) /\ ~ (de <= name + i < de + 16).
Lemma name_peeked de s s' name nm : peeked de s s' -> name_at de (kmem s) name nm -> name_at de (kmem s') name nm.
Proof.
  intros (l & m & -> & _ & _ & _ & Ho) [Hn Ha]. split; [|done]. rewrite <- Hn. apply cstr_ext. intros i Hi. change (Z.of_nat 14) with 14 in Hi.
  by apply Ho; apply Ha.
Qed.
Lemma namecmp_zero m p q : mem_ok m -> (namecmp m p q =? 0) = bool_decide (cstr 14 m p = cstr 14 m q).
Proof.
  intros Hm. pose proof (strncmp_loop_spec 14 m p q Hm) as E. change (namecmp m p q) with (strncmp_loop 14 m p q).
  case_bool_decide as Hc; [apply Z.eqb_eq|apply Z.eqb_neq]; tauto.
Qed.

Lemma kmem_eq c s : Dir.kmem c s = Done (kmem s) c s.
Proof. by destruct s. Qed.
Lemma dirlookup_loop_spec de name nm fuel : forall k c s, let x := inode_at s dp in let n := i_size x / 16 in
  readable c s -> de_ok de -> name_at de (kmem s) name nm -> i_size x = 16 * n -> 0 <= k <= n -> n - k <= Z.of_nat fuel ->
  exists c' s', later c c' /\ readable c' s' /\ peeked de s s' /\
    dirlookup_loop end_ buf_addr de fuel dp name (16 * k) c s =
    match List.find (ent_is (kview s) x nm) (seqZ k (n - k)) with
    | Some j => (ip ← iget ROOTDEV (ent_inum (kview s) x j); mret (Some (ip, 16 * j))) c' s'
    | None => Done None c' s'
    end.
Proof.
  induction fuel as [|fuel IH]; intros k c s x n R Hde Hnm Hsz Hk Hf; cbn [dirlookup_loop]; unfold gi;
    rewrite (bind_done (gets (fun s => inode_at s dp)) _ c s x c s eq_refl); cbv beta.
  { replace k with n by lia. rewrite Z.sub_diag, Hsz, Z.ltb_irrefl. cbn [negb]. exists c, s.
    split; [apply later_refl|]. split; [done|]. split; [apply peeked_refl, R|done]. }
  destruct (Z.ltb_spec (16 * k) (i_size x)) as [Hlt|Hge]; cbn [negb].
  2:{ replace k with n by lia. rewrite Z.sub_diag. exists c, s. split; [apply later_refl|]. split; [done|]. split; [apply peeked_refl, R|done]. }
  destruct (read_entry de c s k R Hde) as (c1 & s1 & E & Hl & R1 & Hp & Ei & En); [fold x; fold n; lia|]. fold x in Ei, En.
  change DIRENT with 16. kstep E. change (16 =? 16) with true. cbn [negb].
  rewrite (bind_done (mret tt) _ c1 s1 tt c1 s1 eq_refl). cbv beta. kstep (kmem_eq c1 s1). rewrite Ei. rewrite seqZ_cons by lia. cbn [List.find]. unfold ent_is at 1.
  pose proof (name_peeked _ _ _ _ _ Hp Hnm) as Hnm1. pose proof (rb_holes _ _ R) as [Hmax _]. fold x in Hmax. change (MAXFILE * BSIZE) with 274432 in Hmax.
  assert (u32 (16 * k + 16) = 16 * (k + 1)) as Eu by (rewrite u_small by lia; lia).
  assert (exists c' s', later c c' /\ readable c' s' /\ peeked de s s' /\ dirlookup_loop end_ buf_addr de fuel dp name (16 * (k + 1)) c1 s1 =
    match List.find (ent_is (kview s) x nm) (seqZ (Z.succ k) (Z.pred (n - k))) with
    | Some j => (ip ← iget ROOTDEV (ent_inum (kview s) x j); mret (Some (ip, 16 * j))) c' s'
    | None => Done None c' s' end) as (c2 & s2 & H1 & H2 & H3 & H4).
  { pose proof Hp as (l & m & Es & V & _). assert (inode_at s1 dp = x) as Ex by by rewrite Es.
    destruct (IH (k + 1) c1 s1) as (c2 & s2 & H1 & H2 & H3 & H4); rewrite ?Ex; fold n; try done; [lia|lia|].
    exists c2, s2. split; [by eapply later_trans|]. split; [done|]. split; [by eapply peeked_trans|]. rewrite H4, Ex. fold n.
    replace (Z.pred (n - k)) with (n - (k + 1)) by lia. replace (Z.succ k) with (k + 1) by lia.
    assert (forall y, kview s1 y = kview s y) as Vk by (intros y; rewrite Es; exact (V y)).
    assert (List.find (ent_is (kview s1) x nm) (seqZ (k + 1) (n - (k + 1))) = List.find (ent_is (kview s) x nm) (seqZ (k + 1) (n - (k + 1)))) as ->.
    { apply find_ext_in. intros j _. by apply ent_is_ext. }
    destruct (List.find (ent_is (kview s) x nm) (seqZ (k + 1) (n - (k + 1)))) as [j|]; [|reflexivity]. destruct (ent_is_ext (kview s) (kview s1) x nm j Vk) as [_ ->]. reflexivity. }
  destruct (Z.eqb_spec (ent_inum (kview s) x k) 0) as [Hz|Hz]; cbn [negb andb].
  { exists c2, s2. rewrite Eu. exact (conj H1 (conj H2 (conj H3 H4))). }
  rewrite (namecmp_zero (kmem s1)) by apply R1. rewrite (proj1 Hnm1), En.
  replace (bool_decide (nm = ent_name (kview s) x k)) with (bool_decide (ent_name (kview s) x k = nm)) by (apply bool_decide_ext; split; congruence).
  case_bool_decide; [|exists c2, s2; rewrite Eu; exact (conj H1 (conj H2 (conj H3 H4)))].
  exists c1, s1. change (i_dev x) with (i_dev (inode_at s dp)). rewrite (rb_dev _ _ R). split; [exact Hl|]. split; [exact R1|]. split; [exact Hp|reflexivity].
Qed.

Lemma dirlookup_spec de name nm c s : let x := inode_at s dp in
  readable c s -> de_ok de -> name_at de (kmem s) name nm -> i_type x = T_DIR -> i_size x mod 16 = 0 ->
  exists c' s', later c c' /\ readable c' s' /\ peeked de s s' /\
    dirlookup end_ buf_addr de dp name c s =
    match dir_find (kview s) x nm with
    | Some j => (ip ← iget ROOTDEV (ent_inum (kview s) x j); mret (Some (ip, 16 * j))) c' s'
    | None => Done None c' s'
    end.
Proof.
  intros x R Hde Hnm Hty Hsz. pose proof (rb_holes _ _ R) as [[H0 _] _]. fold x in H0. pose proof (Z.div_mod (i_size x) 16 ltac:(lia)) as Hdm.
  assert (0 <= i_size x / 16) by (apply Z.div_pos; lia).
  destruct (dirlookup_loop_spec de name nm (Z.to_nat (i_size x / DIRENT + 1)) 0 c s R Hde Hnm) as (c' & s' & H1 & H2 & H3 & H4); fold x; change DIRENT with 16; [lia|lia|lia|].
  exists c', s'. split; [done|]. split; [done|]. split; [done|]. unfold dirlookup, gi.
  rewrite (bind_done (gets (fun s => inode_at s dp)) _ c s x c s eq_refl). cbv beta. rewrite Hty. change (T_DIR =? T_DIR) with true. cbn [negb].
  unfold dir_find. fold x in H4. rewrite Z.sub_0_r in H4. exact H4.
Qed.

(** ** dirlink *)

(** The first entry that is not in use, or the one after the last. *)
Definition free_slot (v : Z -> block) (x : inode) (k : Z) : Z :=
  default (i_size x / 16) (List.find (fun j => ent_inum v x j =? 0) (seqZ k (i_size x / 16 - k))).

Lemma dirlink_loop_spec de fuel : forall k c s, let x := inode_at s dp in let n := i_size x / 16 in
  readable c s -> de_ok de -> i_size x = 16 * n -> 0 <= k <= n -> n - k <= Z.of_nat fuel ->
  exists c' s', later c c' /\ readable c' s' /\ peeked de s s' /\
    dirlink_loop end_ buf_addr de fuel dp (16 * k) c s = Done (16 * free_slot (kview s) x k) c' s'.
Proof.
  induction fuel as [|fuel IH]; intros k c s x n R Hde Hsz Hk Hf; cbn [dirlink_loop]; unfold gi;
    rewrite (bind_done (gets (fun s => inode_at s dp)) _ c s x c s eq_refl); cbv beta; unfold free_slot; fold n.
  { replace k with n by lia. rewrite Z.sub_diag, Hsz, Z.ltb_irrefl. cbn [negb]. exists c, s.
    split; [apply later_refl|]. split; [done|]. split; [apply peeked_refl, R|done]. }
  destruct (Z.ltb_spec (16 * k) (i_size x)) as [Hlt|Hge]; cbn [negb].
  2:{ replace k with n by lia. rewrite Z.sub_diag. exists c, s. split; [apply later_refl|]. split; [done|]. split; [apply peeked_refl, R|done]. }
  destruct (read_entry de c s k R Hde) as (c1 & s1 & E & Hl & R1 & Hp & Ei & _); [fold x; fold n; lia|]. fold x in Ei.
  change DIRENT with 16. kstep E. change (16 =? 16) with true. cbn [negb].
  rewrite (bind_done (mret tt) _ c1 s1 tt c1 s1 eq_refl). cbv beta. kstep (kmem_eq c1 s1). rewrite Ei. rewrite seqZ_cons by lia. cbn [List.find].
  destruct (ent_inum (kview s) x k =? 0).
  { exists c1, s1. split; [exact Hl|]. split; [exact R1|]. split; [exact Hp|reflexivity]. }
  pose proof Hp as (l & m & Es & V & _). assert (inode_at s1 dp = x) as Ex by by rewrite Es.
  destruct (IH (k + 1) c1 s1) as (c2 & s2 & H1 & H2 & H3 & H4); rewrite ?Ex; fold n; try done; [lia|lia|].
  exists c2, s2. split; [by eapply later_trans|]. split; [done|]. split; [by eapply peeked_trans|].
  replace (16 * k + 16) with (16 * (k + 1)) by lia. rewrite H4, Ex. unfold free_slot. fold n.
  replace (Z.pred (n - k)) with (n - (k + 1)) by lia. replace (Z.succ k) with (k + 1) by lia. do 3 f_equal.
  apply find_ext_in. intros j _. destruct (ent_is_ext (kview s) (kview s1) x [] j) as [_ ->]; [|reflexivity]. intros y. rewrite Es. exact (V y).
Qed.

Lemma cstr_exact n : forall m p bs, (forall i x, bs !! i = Some x -> load8 m (p + Z.of_nat i) = x /\ x <> 0) ->
  length bs = n \/ (length bs < n)%nat /\ load8 m (p + Z.of_nat (length bs)) = 0 -> cstr n m p = bs.
Proof.
  induction n as [|n IH]; intros m p [|b bs] Hb Hl; cbn [cstr length] in *; [done|lia| |].
  - destruct Hl as [|[_ Hz]]; [lia|]. rewrite Z.add_0_r in Hz. by rewrite Hz.
  - destruct (Hb O b eq_refl) as [H0 Hne]. rewrite Z.add_0_r in H0. rewrite H0, (proj2 (Z.eqb_neq b 0) Hne). f_equal. apply IH.
    + intros i x Hx. destruct (Hb (S i) x Hx) as [H1 H2]. split; [|done]. rewrite <- H1. f_equal. lia.
    + destruct Hl as [Hl|[Hl Hz]]; [left; lia|right]. split; [lia|]. rewrite <- Hz. f_equal. lia.
Qed.
(** A copied name is the name, padded with zeroes. *)
Lemma strncpy_name m a b : mem_ok m -> a + 14 <= b \/ b + 14 <= a -> let m' := strncpy m a b 14 in
  mem_ok m' /\ cstr 14 m' a = cstr 14 m b /\ forall p, ~ (a <= p < a + 14) -> load8 m' p = load8 m p.
Proof.
  intros Hm Hd. unfold strncpy. change (Z.to_nat 14) with 14%nat. destruct (strncpy_copy 14 m a b) as [[m1 a1] r] eqn:E.
  destruct (strncpy_copy_spec 14 m a b m1 a1 r Hm E Hd) as (-> & Hr & Hm1 & Hout & Hlen & Hin & Hnul). cbv zeta.
  split; [by apply mem_ok_memset_loop|]. set (bs := cstr 14 m b) in *. split.
  - apply cstr_exact.
    + intros i y Hy. pose proof (lookup_lt_Some _ _ _ Hy). split; [|by apply (cstr_nonzero 14 m b y), (list_elem_of_lookup_2 _ i)].
      rewrite load8_memset_loop, bool_decide_eq_false_2 by lia. by apply Hin.
    + destruct Hlen as [[H1 _]|[H1 H2]]; [by left|right]. split; [done|]. rewrite load8_memset_loop, bool_decide_eq_false_2 by lia. by apply Hnul.
  - intros p Hp. rewrite load8_memset_loop, bool_decide_eq_false_2 by lia. apply Hout. lia.
Qed.

(** ** The map *)

Definition dir_inum (v : Z -> block) (x : inode) (nm : list Z) : option Z := ent_inum v x <$> dir_find v x nm.

Lemma find_app {A} (f : A -> bool) l l' : List.find f (l ++ l') = match List.find f l with Some a => Some a | None => List.find f l' end.
Proof. induction l as [|a l IH]; cbn [List.find app]; [done|]. destruct (f a); [done|exact IH]. Qed.

Section Added.
Variables (v v' : Z -> block) (x x' : inode) (k inum : Z) (nm : list Z).
Let n := i_size x / 16.
Hypotheses (Hk : 0 <= k <= n) (Hsize : i_size x' / 16 = Z.max n (k + 1)) (Hi : inum <> 0) (Hfree : k < n -> ent_inum v x k = 0)
  (Hsame : forall j, 0 <= j < n -> j <> k -> ent_inum v' x' j = ent_inum v x j /\ ent_name v' x' j = ent_name v x j)
  (Hnew : ent_inum v' x' k = inum /\ ent_name v' x' k = nm) (Habs : dir_find v x nm = None).

Lemma added_find nm' : dir_find v' x' nm' = if decide (nm' = nm) then Some k else dir_find v x nm'.
Proof.
  destruct Hnew as [E1 E2]. unfold dir_find. rewrite Hsize. fold n. destruct (decide (nm' = nm)) as [->|Hne].
  - apply find_seq_uniq; [lia| |].
    + unfold ent_is. rewrite E1, E2, (proj2 (Z.eqb_neq _ 0) Hi). by rewrite bool_decide_eq_true_2.
    + intros j Hj Hm. destruct (decide (j = k)) as [|Hjk]; [done|]. exfalso.
      assert (0 <= j < n) as Hjn by lia. destruct (Hsame j Hjn Hjk) as [E3 E4]. unfold ent_is in Hm. rewrite E3, E4 in Hm.
      fold (ent_is v x nm j) in Hm. unfold dir_find in Habs. fold n in Habs. by rewrite (find_seq_none _ _ j Habs Hjn) in Hm.
  - assert (ent_is v' x' nm' k = false) as Hk' by (unfold ent_is; rewrite E2, bool_decide_eq_false_2 by done; apply andb_false_r).
    assert (List.find (ent_is v' x' nm') (seqZ 0 n) = List.find (ent_is v x nm') (seqZ 0 n)) as Heq.
    { apply find_ext_in. intros j Hj. apply elem_of_seqZ in Hj. destruct (decide (j = k)) as [->|Hjk].
      - rewrite Hk'. unfold ent_is. by rewrite Hfree by lia.
      - unfold ent_is. by destruct (Hsame j ltac:(lia) Hjk) as [-> ->]. }
    destruct (decide (k = n)) as [->|].
    + rewrite Z.max_r by lia. rewrite (seqZ_app 0 n 1) by lia. rewrite find_app, Heq, (seqZ_cons (0 + n)) by lia. change (Z.pred 1) with 0.
      rewrite (seqZ_nil _ 0) by lia. cbn [List.find]. rewrite Z.add_0_l, Hk'. destruct (List.find (ent_is v x nm') (seqZ 0 n)); reflexivity.
    + rewrite Z.max_l by lia. exact Heq.
Qed.
Lemma added_inum nm' : dir_inum v' x' nm' = if decide (nm' = nm) then Some inum else dir_inum v x nm'.
Proof.
  unfold dir_inum. rewrite added_find. destruct (decide (nm' = nm)); [simpl; f_equal; apply Hnew|].
  destruct (dir_find v x nm') as [j|] eqn:E; [|done]. simpl. f_equal. unfold dir_find in E. fold n in E. apply find_seq in E as [Hj Hm].
  destruct (decide (j = k)) as [->|Hjk]; [unfold ent_is in Hm; rewrite Hfree in Hm by lia; done|]. by apply Hsame.
Qed.
End Added.

(** What adding an entry needs. *)
Record linkable (c : ctx) (s : kst) : Prop := {
  lk_ready : ready dp c s;
  lk_tx : tx c ∅ (k_log s);
  lk_holes : no_holes (kview s) (inode_at s dp);
  lk_mem : mem_ok (kmem s);
  lk_inum : inum_ok (k_sb s) (i_inum (inode_at s dp));
  lk_iblk : data_block (k_sb s) (kview s) (IBLOCK (i_inum (inode_at s dp)) (k_sb s));
  lk_own : ~ owns (kview s) (inode_at s dp) (IBLOCK (i_inum (inode_at s dp)) (k_sb s));
  lk_dir : i_type (inode_at s dp) = T_DIR;
  lk_size : i_size (inode_at s dp) mod 16 = 0;
  lk_room : i_size (inode_at s dp) + 16 <= MAXFILE * BSIZE;
  lk_log : lh_n (l_log (k_log s)) + 7 < NBUF;
}.
Lemma linkable_readable c s : linkable c s -> readable c s.
Proof.
  intros [R H2 H3 H4 _ _ _ _ _ _ H]. split; [apply R|done|apply (rd_dev _ _ _ R)|lia|done|done|].
  intros a Ha. by apply (fw_own _ _ _ (rd_wf _ _ _ R)).
Qed.
Lemma owns_ext v v' x a : (forall y, v' y = v y) -> owns v' x a <-> owns v x a.
Proof.
  intros He. assert (forall k, baddr v' x k = baddr v x k) as Hb by (intros k; unfold baddr; by rewrite He).
  unfold owns. by setoid_rewrite Hb.
Qed.
Lemma linkable_peeked de c s c' s' : linkable c s -> later c c' -> readable c' s' -> peeked de s s' -> linkable c' s'.
Proof.
  intros [R H2 H3 H4 H5 H6 H7 H8 H9 H10 H11] Hl R' (l & m & -> & V & S & Hm & _).
  pose proof (file_grown_refl dp s l (rd_bm _ _ _ R) (rd_wf _ _ _ R) V) as G. pose proof (ready_grown dp c s c' _ R Hl G) as Rg.
  change (inode_at (set_klog (with_mem s m) l) dp) with (inode_at s dp) in *. set (x := inode_at s dp) in *.
  split; try done; change (inode_at (set_klog (with_mem s m) l) dp) with x; change (kview (set_klog (with_mem s m) l)) with (lview l);
    change (k_sb (set_klog (with_mem s m) l)) with (k_sb s).
  - destruct Rg. by split.
  - apply R'.
  - apply R'.
  - apply (data_ext _ (kview s)); [|done]. intros b _. apply V.
  - by rewrite (owns_ext (kview s)).
  - change (k_log (set_klog (with_mem s m) l)) with l. by rewrite (same_n _ _ S).
Qed.
Lemma linkable_mem c s m : linkable c s -> mem_ok m -> linkable c (with_mem s m).
Proof. intros [[] ? ? ? ? ? ? ? ? ? ?] Hm. split; try done. Qed.

(** The entry as dirlink puts it together. *)
Lemma new_entry m de name nm inum : mem_ok m -> name_at de m name nm -> 0 < inum < 65536 ->
  let m' := store_bytes (strncpy m (de + 2) name 14) de (le_split 2 inum) in
  mem_ok m' /\ load8 m' de + 256 * load8 m' (de + 1) = inum /\ upto0 14 (fun i => load8 m' (de + 2 + i)) = nm /\
  forall a, ~ (de <= a < de + 16) -> load8 m' a = load8 m a.
Proof.
  intros Hm [Hn Ha] Hi m'. assert (de + 2 + 14 <= name \/ name + 14 <= de + 2) as Hd.
  { destruct (Ha 0 ltac:(lia)) as [_ H0]. destruct (Ha 13 ltac:(lia)) as [_ H1].
    destruct (decide (de + 16 <= name)); [left; lia|]. destruct (decide (name < de)); [|lia].
    right. destruct (decide (name + 14 <= de + 2)); [done|]. destruct (Ha (de - name) ltac:(lia)) as [_ H2]. lia. }
  destruct (strncpy_name m (de + 2) name Hm Hd) as (Hm1 & Hc & Ho). set (m1 := strncpy m (de + 2) name 14) in *.
  assert (length (le_split 2 inum) = 2%nat) as Hl by reflexivity.
  split; [by apply mem_ok_store_bytes|]. split; [|split].
  - pose proof (load8_store_bytes_in (le_split 2 inum) m1 de 0 (inum mod 256) eq_refl) as E0. rewrite Z.add_0_r in E0.
    pose proof (load8_store_bytes_in (le_split 2 inum) m1 de 1 (inum / 256 mod 256) eq_refl) as E1. change (Z.of_nat 1) with 1 in E1.
    unfold m'. rewrite E0, E1, !Zmod_mod. rewrite (Z.mod_small (inum / 256)) by (split; [apply Z.div_pos; lia|apply Z.div_lt_upper_bound; lia]).
    pose proof (Z.div_mod inum 256 ltac:(lia)). lia.
  - rewrite <- Hn, <- Hc, cstr_upto0. apply upto0_ext. intros i Hi'. apply load8_store_bytes_out. rewrite Hl. lia.
  - intros a Hna. unfold m'. rewrite load8_store_bytes_out by (rewrite Hl; lia). apply Ho. lia.
Qed.
Lemma touched_entry k : 0 <= k -> touched (16 * k) 16 = 1.
Proof.
  intros Hk. unfold touched. change BSIZE with 1024. pose proof (Z.mod_pos_bound (16 * k) 1024 ltac:(lia)). symmetry.
  assert ((16 * k) mod 1024 <= 1008) by (Z.to_euclidean_division_equations; lia).
  apply (Z.div_unique _ _ _ ((16 * k) mod 1024 + 15)); lia.
Qed.

(** What identifies an entry of the inode table. *)
Definition ident (x : inode) : Z * Z * Z := (i_dev x, i_inum x, i_ref x).

Lemma free_slot_free v x : 0 <= i_size x -> let k := free_slot v x 0 in 0 <= k <= i_size x / 16 /\ (k < i_size x / 16 -> ent_inum v x k = 0).
Proof.
  intros H0. pose proof (Z.div_pos (i_size x) 16 ltac:(lia) ltac:(lia)). unfold free_slot. rewrite Z.sub_0_r.
  destruct (List.find (fun j => ent_inum v x j =? 0) (seqZ 0 (i_size x / 16))) as [j|] eqn:E; simpl; [|lia].
  apply find_seq in E as [Hj Hz]. split; [lia|]. intros _. by apply Z.eqb_eq.
Qed.
(** The directory after an entry was written at slot [k]. *)
Lemma entry_added v x v' x' k inum nm (g : Z -> Z) : let n := i_size x / 16 in
  k = free_slot v x 0 -> 0 <= i_size x -> i_size x mod 16 = 0 -> i_size x + 16 <= MAXFILE * BSIZE -> 0 < inum -> dir_find v x nm = None ->
  i_size x' = Z.max (i_size x) (16 * k + 16) ->
  (forall o, 0 <= o < MAXFILE * BSIZE -> content v' x' o = if bool_decide (16 * k <= o < 16 * k + 16) then g (o - 16 * k) else content v x o) ->
  g 0 + 256 * g 1 = inum -> upto0 14 (fun i => g (2 + i)) = nm ->
  i_size x' mod 16 = 0 /\ forall nm', dir_inum v' x' nm' = if decide (nm' = nm) then Some inum else dir_inum v x nm'.
Proof.
  intros n Hk H0 Hmod Hroom Hi Habs Hsz Hc G1 G2. pose proof (Z.div_mod (i_size x) 16 ltac:(lia)) as Hdm. fold n in Hdm.
  destruct (free_slot_free v x H0) as [Hkn Hfree]. rewrite <- Hk in Hkn, Hfree. fold n in Hkn, Hfree.
  assert (i_size x' = 16 * Z.max n (k + 1)) as Hsz' by lia.
  split; [rewrite Hsz', Z.mul_comm; apply Z.mod_mul; lia|].
  apply (added_inum v v' x x' k); [done| |lia|done| | |done].
  - rewrite Hsz', Z.mul_comm. apply Z.div_mul. lia.
  - intros j Hj Hne. fold n in Hj. split.
    + unfold ent_inum. rewrite !Hc, !bool_decide_eq_false_2 by lia. done.
    + apply upto0_ext. intros i Hi'. by rewrite Hc, bool_decide_eq_false_2 by lia.
  - split.
    + unfold ent_inum. rewrite !Hc, !bool_decide_eq_true_2 by lia. rewrite Z.sub_diag. replace (16 * k + 1 - 16 * k) with 1 by lia. done.
    + rewrite <- G2. apply upto0_ext. intros i Hi'. rewrite Hc, bool_decide_eq_true_2 by lia. f_equal. lia.
Qed.

Lemma dirlink_spec de de2 name nm inum c s : let v := kview s in let x := inode_at s dp in
  linkable c s -> de_ok de -> de_ok de2 -> name_at de (kmem s) name nm -> name_at de2 (kmem s) name nm -> 0 < inum < 65536 ->
  de + 16 <= de2 \/ de2 + 16 <= de -> dir_find v x nm = None ->
  exists r c' s', let v' := kview s' in let x' := inode_at s' dp in
    dirlink end_ buf_addr de de2 dp name inum c s = Done r c' s' /\ later c c' /\ (r = 0 \/ r = -1 /\ full s') /\
    (r = 0 -> readable c' s' /\ i_type x' = T_DIR /\ i_size x' mod 16 = 0 /\
       forall nm', dir_inum v' x' nm' = if decide (nm' = nm) then Some inum else dir_inum v x nm') /\
    (forall j, ident (inode_at s' j) = ident (inode_at s j)) /\
    (forall a, data_block (k_sb s) v a -> ~ owns v x a -> a <> IBLOCK (i_inum x) (k_sb s) -> v' a = v a) /\
    forall a, ~ in_buf buf_addr a -> ~ (de <= a < de + 16) -> ~ (de2 <= a < de2 + 16) -> load8 (kmem s') a = load8 (kmem s) a.
Proof.
  intros v x L Hde Hde2 Hn1 Hn2 Hi Hdis Habs. pose proof (linkable_readable c s L) as R. pose proof (lk_size _ _ L) as Hsz. fold x in Hsz.
  pose proof (lk_holes _ _ L) as [[Hs0 _] _]. fold x in Hs0. pose proof (lk_room _ _ L) as Hroom. fold x in Hroom.
  destruct (dirlookup_spec de name nm c s R Hde Hn1 (lk_dir _ _ L) Hsz) as (c1 & s1 & L1 & R1 & P1 & E1). fold v x in E1. rewrite Habs in E1.
  pose proof (linkable_peeked de c s c1 s1 L L1 R1 P1) as K1. pose proof P1 as (l1 & m1 & Es1 & V1 & _ & _ & Ho1). assert (inode_at s1 dp = x) as Ex1 by by rewrite Es1.
  pose proof (Z.div_mod (i_size x) 16 ltac:(lia)) as Hdm. assert (0 <= i_size x / 16) as Hn0 by (apply Z.div_pos; lia).
  destruct (dirlink_loop_spec de2 (Z.to_nat (i_size x / DIRENT + 1)) 0 c1 s1 R1 Hde2) as (c2 & s2 & L2 & R2 & P2 & E2); rewrite ?Ex1; change DIRENT with 16; [lia|lia|lia|].
  pose proof (linkable_peeked de2 c1 s1 c2 s2 K1 L2 R2 P2) as K2. pose proof P2 as (l2 & m2 & Es2 & V2 & _ & _ & Ho2).
  assert (inode_at s2 dp = x) as Ex2 by (rewrite Es2; exact Ex1). assert (k_sb s2 = k_sb s) as Esb2 by (rewrite Es2, Es1; done).
  assert (forall y, kview s1 y = v y) as Vs1 by (intros y; rewrite Es1; exact (V1 y)).
  assert (forall y, kview s2 y = v y) as V by (intros y; rewrite <- (Vs1 y), Es2; exact (V2 y)).
  assert (name_at de2 (kmem s2) name nm) as Hn.
  { apply (name_peeked de2 s1 s2 name nm P2). split; [|apply Hn2]. rewrite <- (proj1 Hn1). apply cstr_ext. intros i Hi'. rewrite Es1. by apply Ho1; apply (proj2 Hn1). }
  assert (free_slot (kview s1) x 0 = free_slot v x 0) as Ek.
  { unfold free_slot. f_equal. apply find_ext_in. intros j _. destruct (ent_is_ext v (kview s1) x [] j Vs1) as [_ ->]. reflexivity. }
  rewrite Ex1, Ek in E2. set (k := free_slot v x 0) in *.
  destruct (new_entry (kmem s2) de2 name nm inum (lk_mem _ _ K2) Hn Hi) as (Hm3 & G1 & G2 & Ho3). set (m3 := store_bytes _ de2 _) in *.
  pose proof (linkable_mem c2 s2 m3 K2 Hm3) as K3. set (s3 := with_mem s2 m3) in *. change (kview s3) with (kview s2) in *.
  destruct (free_slot_free v x Hs0) as [Hk _]. fold k in Hk. assert (inode_at s3 dp = x) as Ex3 by exact Ex2.
  destruct (writei_spec end_ buf_addr dp c2 s3 de2 (16 * k) 16 (lk_ready _ _ K3) (lk_tx _ _ K3) (lk_holes _ _ K3) (lk_mem _ _ K3) (lk_inum _ _ K3) (lk_iblk _ _ K3) (lk_own _ _ K3))
    as (t & c4 & s4 & E4 & Ht & Hf & Hz & Hc & Hd & Hmem & Hm4 & Hh4 & Hb4 & L4 & T4 & Hdev4 & Hlog4 & Hsb4 & Hmeta4 & Hoth4);
    [rewrite Ex3; lia|lia|lia|apply Hde2|apply Hde2|apply Hde2|rewrite touched_entry by lia; pose proof (lk_log _ _ K3); lia|].
  rewrite Ex3 in *. change (k_sb s3) with (k_sb s2) in *. change (kmem s3) with m3 in *. rewrite Esb2 in *. change (kview s3) with (kview s2) in *.
  exists (if t =? 16 then 0 else -1), c4, s4. cbv zeta. split; [|split; [|split; [|split; [|split; [|split]]]]].
  - unfold dirlink. kstep E1. unfold gi. rewrite (bind_done (gets (fun s => inode_at s dp)) _ c1 s1 x c1 s1) by (rewrite <- Ex1; reflexivity). cbv beta.
    kstep E2. kstep (kmem_eq c2 s2). rewrite (bind_done (put_kmem _) _ c2 s2 tt c2 s3) by (destruct s2; reflexivity). cbv beta.
    rewrite (u_small 32 (16 * k)) by (change (MAXFILE * BSIZE) with 274432 in Hroom; lia). change DIRENT with 16. kstep E4. by destruct (t =? 16).
  - exact (later_trans _ _ _ (later_trans _ _ _ L1 L2) L4).
  - destruct (Z.eqb_spec t 16); [by left|right]. split; [done|]. apply Hf. lia.
  - destruct (Z.eqb_spec t 16) as [->|]; [|discriminate]. intros _.
    unfold meta in Hmeta4. cbn [set_isize i_dev i_inum i_ref i_lock i_valid i_type i_major i_minor i_nlink i_size] in Hmeta4.
    assert (i_type (inode_at s4 dp) = T_DIR) as Hty by (pose proof (lk_dir _ _ L) as Hdir; fold x in Hdir; congruence).
    destruct (entry_added v x (kview s4) (inode_at s4 dp) k inum nm (fun i => load8 m3 (de2 + i)) eq_refl Hs0 Hsz Hroom ltac:(lia) Habs) as [Z1 Z2].
    + lia.
    + intros o Ho. rewrite Hc by done. by rewrite (content_ext v (kview s2) x o V).
    + rewrite Z.add_0_r. exact G1.
    + rewrite <- G2. apply upto0_ext. intros i _. f_equal. lia.
    + split; [|done]. split; try done; [apply (later_cpu c2); [done|apply R2]|]. pose proof (lk_log _ _ K3). rewrite touched_entry in Hlog4 by lia.
      change (k_log s3) with (k_log s2) in *. lia.
  - intros j. destruct (decide (j = dp)) as [->|Hj]; [|rewrite Hoth4 by done; unfold s3; rewrite Es2, Es1; reflexivity].
    unfold meta in Hmeta4. cbn [set_isize i_dev i_inum i_ref] in Hmeta4. unfold ident. fold x. congruence.
  - intros a Ha Hno Hne. rewrite Hd; [apply V| | |exact Hne].
    + apply (data_ext _ v); [|done]. intros b _. apply V.
    + by rewrite (owns_ext v).
  - intros a Ha Hna Hna2. rewrite Hmem by done. rewrite Ho3 by done. rewrite Es2. change (kmem (set_klog (with_mem s1 m2) l2)) with m2. rewrite Ho2 by done.
    rewrite Es1. by apply Ho1.
Qed.

(** ** Properties *)

Lemma find_empty_ident s s' : (forall j, ident (inode_at s' j) = ident (inode_at s j)) -> find_empty s' = find_empty s.
Proof. intros Hj. apply find_ext_in. intros j _. unfold is_empty. specialize (Hj j). unfold ident in Hj. congruence. Qed.

(** iget with an entry left. *)
Lemma iget_done inum c s : cpu_ok c -> unlocked L_itable c -> find_empty s <> None ->
  exists ip s', iget ROOTDEV inum c s = Done ip c s' /\ 0 <= ip < NINODE /\ i_dev (inode_at s' ip) = ROOTDEV /\ i_inum (inode_at s' ip) = inum.
Proof.
  intros Hcpu Hul He. pose proof (iget_eq ROOTDEV inum c s Hcpu Hul) as E. destruct (find_inode s ROOTDEV inum) as [ip|] eqn:F.
  - eexists ip, _. split; [exact E|]. apply find_seq in F as [Hip Hm]. split; [done|]. unfold is_inode in Hm. rewrite !andb_true_iff, !Z.eqb_eq in Hm.
    rewrite inode_at_same. cbn [i_dev i_inum set_iref]. tauto.
  - destruct (find_empty s) as [ip|] eqn:G; [|done]. eexists ip, _. split; [exact E|]. apply find_seq in G as [Hip _]. split; [done|].
    rewrite inode_at_same. done.
Qed.
Lemma dirlookup_reads de name nm c s : let x := inode_at s dp in
  readable c s -> de_ok de -> name_at de (kmem s) name nm -> i_type x = T_DIR -> i_size x mod 16 = 0 ->
  unlocked L_itable c -> find_empty s <> None ->
  match dir_inum (kview s) x nm with
  | None => exists c' s', dirlookup end_ buf_addr de dp name c s = Done None c' s'
  | Some i => exists ip off c' s', dirlookup end_ buf_addr de dp name c s = Done (Some (ip, off)) c' s' /\
      0 <= ip < NINODE /\ i_dev (inode_at s' ip) = ROOTDEV /\ i_inum (inode_at s' ip) = i
  end.
Proof.
  intros x R Hde Hnm Hty Hsz Hul He. destruct (dirlookup_spec de name nm c s R Hde Hnm Hty Hsz) as (c1 & s1 & L1 & R1 & (l & m & Es & _) & E). fold x in E.
  unfold dir_inum. destruct (dir_find (kview s) x nm) as [j|]; simpl; [|by exists c1, s1].
  destruct (iget_done (ent_inum (kview s) x j) c1 s1) as (ip & s2 & E2 & H1 & H2 & H3).
  - apply (later_cpu_ok c); [done|]. apply (bp_cpu _ (rb_cpu _ _ R)).
  - by apply (later_unlocked _ c).
  - by rewrite Es.
  - exists ip, (16 * j), c1, s2. split; [|done]. rewrite E. by kstep E2.
Qed.

(** C37: a directory is a map from names to inode numbers.  Where the name has no
    entry, dirlink of a nonzero inode number adds it to the map and returns 0,
    or returns -1 with the disk full; it leaves the other inodes in use and the
    identities in the inode table as they are.  After that dirlookup of any name
    returns an inode table entry for the inode that the extended map gives, or
    the null pointer where it gives none. *)
Theorem dirlink_dirlookup de de2 name nm inum c s : let v := kview s in let x := inode_at s dp in
  linkable c s -> de_ok de -> de_ok de2 -> de + 16 <= de2 \/ de2 + 16 <= de ->
  name_at de (kmem s) name nm -> name_at de2 (kmem s) name nm -> 0 < inum < 65536 -> dir_inum v x nm = None ->
  unlocked L_itable c -> find_empty s <> None ->
  exists r c1 s1, dirlink end_ buf_addr de de2 dp name inum c s = Done r c1 s1 /\ (r = 0 \/ r = -1 /\ full s1) /\
    (forall a, data_block (k_sb s) v a -> ~ owns v x a -> a <> IBLOCK (i_inum x) (k_sb s) -> kview s1 a = v a) /\
    (forall j, ident (inode_at s1 j) = ident (inode_at s j)) /\
    (r = 0 -> forall name' nm', name_at de (kmem s1) name' nm' ->
      match (if decide (nm' = nm) then Some inum else dir_inum v x nm') with
      | None => exists c2 s2, dirlookup end_ buf_addr de dp name' c1 s1 = Done None c2 s2
      | Some i => exists ip off c2 s2, dirlookup end_ buf_addr de dp name' c1 s1 = Done (Some (ip, off)) c2 s2 /\
          0 <= ip < NINODE /\ i_dev (inode_at s2 ip) = ROOTDEV /\ i_inum (inode_at s2 ip) = i
      end).
Proof.
  intros v x L Hde Hde2 Hdis Hn1 Hn2 Hi Habs Hul He. assert (dir_find v x nm = None) as Habs' by (unfold dir_inum in Habs; by destruct (dir_find v x nm)).
  destruct (dirlink_spec de de2 name nm inum c s L Hde Hde2 Hn1 Hn2 Hi Hdis Habs') as (r & c1 & s1 & E & L1 & Hr & Hok & Hid & Hd & _).
  exists r, c1, s1. split; [exact E|]. split; [exact Hr|]. split; [exact Hd|]. split; [exact Hid|]. intros Hr0 name' nm' Hn'.
  destruct (Hok Hr0) as (R1 & Hty & Hsz & Hmap). rewrite <- Hmap.
  apply dirlookup_reads; [exact R1|exact Hde|exact Hn'|exact Hty|exact Hsz|by apply (later_unlocked _ c)|]. by rewrite (find_empty_ident s s1 Hid).
Qed.
End DirMap.

(** An empty directory, with a name in memory. *)
Lemma hello_linkable : linkable 0 op_ctx (fs_hello T_DIR).
Proof.
  split.
  - exact (hello_ready T_DIR).
  - exact (proj1 (op_tx _ _)).
  - split; [split; [apply Z.le_refl|discriminate]|]. intros o Ho. change (i_size (inode_at (fs_hello T_DIR) 0)) with 0 in Ho. lia.
  - apply mem_ok_store_bytes, mem_ok_empty.
  - split; split; reflexivity || (intro; discriminate).
  - exact (hello_inode_block T_DIR).
  - exact (proj2 (proj2 (zero_addrs (kview (fs_hello T_DIR)) (empty_inode T_DIR) eq_refl)) _).
  - reflexivity.
  - reflexivity.
  - discriminate.
  - reflexivity.
Qed.
Lemma hello_name de : 7000 <= de < 90000 -> name_at buffers de (kmem (fs_hello T_DIR)) 5000 hello.
Proof.
  intros Hde. split; [vm_compute; reflexivity|]. intros i Hi. split; [apply below_buffers; lia|lia].
Qed.
Lemma low_de de : 7000 <= de < 90000 -> de_ok buffers de.
Proof. intros Hde. split; [lia|]. split; [lia|]. intros a Ha. apply below_buffers. lia. Qed.

Lemma dirlink_dirlookup_witness : exists r c1 s1,
  @dirlink ram_disk 0 buffers 7000 8000 0 5000 9 op_ctx (fs_hello T_DIR) = Done r c1 s1 /\ (r = 0 \/ r = -1) /\
  (r = 0 -> forall p, name_at buffers 7000 (kmem s1) p hello ->
    exists ip off c2 s2, @dirlookup ram_disk 0 buffers 7000 0 p c1 s1 = Done (Some (ip, off)) c2 s2 /\ i_inum (inode_at s2 ip) = 9).
Proof.
  destruct op_ctx_cpu as (_ & _ & _ & Hul & _).
  destruct (@dirlink_dirlookup ram_disk ram_disk_ok 0 buffers 0 7000 8000 5000 hello 9 op_ctx (fs_hello T_DIR) hello_linkable
    (low_de 7000 ltac:(lia)) (low_de 8000 ltac:(lia)) ltac:(lia) (hello_name 7000 ltac:(lia)) (hello_name 8000 ltac:(lia)) ltac:(lia))
    as (r & c1 & s1 & E & Hr & _ & _ & Hl).
  - reflexivity.
  - exact Hul.
  - vm_compute. discriminate.
  - exists r, c1, s1. split; [exact E|]. split; [destruct Hr as [?|[? _]]; auto|]. intros H0 p Hp. specialize (Hl H0 p hello Hp).
    rewrite decide_True in Hl by reflexivity. destruct Hl as (ip & off & c2 & s2 & E2 & _ & _ & Hi). exists ip, off, c2, s2. split; [exact E2|exact Hi].
Defined.
