(* ===== verification/Namei.v ===== *)
(** * Path resolution (theorem on namei of Dir.v)

    On a file system whose directories are well formed, namei walks the maps of
    the directories from the root: through the inode table, reading inodes and
    directory entries from disk. *)
From stdpp Require Import base numbers list gmap strings.
From S2P Require Import Prelude Kernel Spinlock Sleeplock Bio Bcache Printf Log Redo LogOps Str Riscv Kalloc Vm Kstate Proc Fs Dir Txn Alloc Inode Path Content Rdwr DirMap.

(** ** The tree on disk *)

Definition disk_inode (sb : superblock) (v : Z -> block) (i : Z) : inode := get_dinode (i mod IPB) (v (IBLOCK i sb)) inode0.

Section Tree.
Variables (sb : superblock) (v : Z -> block).
Let din (i : Z) : inode := disk_inode sb v i.

Definition live (i : Z) : Prop := 0 < i < sb_ninodes sb /\ i_type (din i) <> 0.
(** Every inode in use has a link, and every directory can be read and leads to
    inodes in use. *)
Record tree_ok : Prop := {
  to_nlink : forall i, live i -> i_nlink (din i) <> 0;
  to_holes : forall i, live i -> i_type (din i) = T_DIR -> no_holes v (din i);
  to_blk : forall i a, live i -> i_type (din i) = T_DIR -> owns v (din i) a -> is_blk (v a);
  to_size : forall i, live i -> i_type (din i) = T_DIR -> i_size (din i) mod 16 = 0;
  to_live : forall i nm j, live i -> i_type (din i) = T_DIR -> dir_inum v (din i) nm = Some j -> live j;
}.
(** The inode the elements of a path lead to. *)
Fixpoint walk_path (i : Z) (es : list (list Z)) : option Z :=
  match es with
  | [] => Some i
  | e :: es =>
      if i_type (din i) =? T_DIR then
        match dir_inum v (din i) (take 14 e) with Some j => walk_path j es | None => None end
      else None
  end.
End Tree.

(** Inodes with the same disk part have the same contents. *)
Lemma part_ext v x y : disk_part x = disk_part y ->
  (forall k, baddr v x k = baddr v y k) /\ (forall o, content v x o = content v y o) /\ (forall a, owns v x a <-> owns v y a) /\
  (forall nm, dir_inum v x nm = dir_inum v y nm) /\ (no_holes v x <-> no_holes v y).
Proof.
  unfold disk_part. intros E. injection E as _ _ _ _ Es Ea.
  assert (forall k, addr_at x k = addr_at y k) as Ha by (intros k; unfold addr_at; by rewrite Ea).
  assert (forall k, baddr v x k = baddr v y k) as Hb by (intros k; unfold baddr; by rewrite !Ha).
  assert (forall o, content v x o = content v y o) as Hc by (intros o; unfold content; by rewrite Hb).
  assert (forall j, ent_inum v x j = ent_inum v y j) as Hi by (intros j; unfold ent_inum; by rewrite !Hc).
  split; [done|]. split; [done|]. split; [|split].
  - intros a. unfold owns. rewrite Ha. by setoid_rewrite Hb.
  - intros nm. unfold dir_inum, dir_find. rewrite Es.
    rewrite (find_ext_in (ent_is v x nm) (ent_is v y nm)); [destruct (List.find (ent_is v y nm) (seqZ 0 (i_size y / 16))); [simpl; by rewrite Hi|reflexivity]|].
    intros j _. assert (ent_name v x j = ent_name v y j) as En by (apply upto0_ext; intros i _; by rewrite Hc).
    unfold ent_is. by rewrite Hi, En.
  - unfold no_holes. rewrite Es. by setoid_rewrite Hb.
Qed.

(** ** Slots of the inode table *)

(** An entry is free, and a second one is free or only used by the walk. *)
Definition slots (r : Z -> Z) (ip : Z) : Prop :=
  exists e1 e2, 0 <= e1 < NINODE /\ 0 <= e2 < NINODE /\ e1 <> e2 /\ r e1 = 0 /\ (r e2 = 0 \/ e2 = ip /\ r ip = 1).
Lemma slots_one r e ip : 0 <= e < NINODE -> 0 <= ip < NINODE -> e <> ip -> r e = 0 -> r ip = 1 -> slots r ip.
Proof. intros H1 H2 H3 H4 H5. exists e, ip. split; [done|]. split; [done|]. split; [done|]. split; [done|]. by right. Qed.
(** The counts after the walk got [next] and put [ip]. *)
Lemma slots_step (r r' : Z -> Z) ip next : 0 <= ip < NINODE -> 0 <= next < NINODE -> 1 <= r ip -> slots r ip ->
  (forall j, 0 <= j < NINODE -> r' j = r j + (if j =? next then 1 else 0) - (if j =? ip then 1 else 0)) -> 0 <= r next -> slots r' next.
Proof.
  intros Hip Hnx Hr (e1 & e2 & H1 & H2 & Hne & Z1 & Z2) Hr' Hn0.
  assert (forall j, 0 <= j < NINODE -> j <> next -> j <> ip -> r' j = r j) as Ho.
  { intros j Hj Hn Hi. rewrite Hr' by done. rewrite (proj2 (Z.eqb_neq j next) Hn), (proj2 (Z.eqb_neq j ip) Hi). lia. }
  assert (next <> ip -> r' next = r next + 1 /\ r' ip = r ip - 1) as Hd.
  { intros Hn. rewrite !Hr' by done. rewrite !Z.eqb_refl, (proj2 (Z.eqb_neq next ip)), (proj2 (Z.eqb_neq ip next)) by congruence. lia. }
  assert (next = ip -> r' next = r next) as Hs by (intros ->; rewrite Hr' by done; rewrite Z.eqb_refl; lia).
  assert (e1 <> ip) as Hi1 by (intros ->; lia). destruct (Z.eq_dec (r next) 0) as [Zn|Zn].
  - assert (next <> ip) as Hni by (intros ->; lia). destruct (Hd Hni) as [D1 D2]. destruct Z2 as [Z2|[-> Z2]].
    + assert (e2 <> ip) by (intros ->; lia). destruct (Z.eq_dec e1 next) as [->|].
      * apply (slots_one r' e2 next); [done|done|congruence|rewrite Ho by congruence; lia|lia].
      * apply (slots_one r' e1 next); [done|done|congruence|rewrite Ho by congruence; lia|lia].
    + apply (slots_one r' ip next); [done|done|congruence|lia|lia].
  - assert (e1 <> next) by (intros ->; lia). exists e1, e2. rewrite (Ho e1) by done. split; [done|]. split; [done|]. split; [done|]. split; [done|].
    destruct Z2 as [Z2|[-> Z2]].
    + left. rewrite Ho; [done|done|intros ->; lia|intros ->; lia].
    + destruct (Z.eq_dec next ip) as [->|Hni]; [right; split; [done|]; rewrite Hs by done; done|left]. destruct (Hd Hni). lia.
Qed.

(** ** The state of a walk *)

Section Walk.
Context {D : DiskDriver} {DOK : DiskDriverOk D}.
Variables (end_ : Z) (buf_addr : Z -> Z) (de nm : Z) (sb : superblock) (v : Z -> block).
Let din (i : Z) : inode := disk_inode sb v i.
Hypothesis tree : tree_ok sb v.

(** An entry of the table agrees with the disk, and takes [k] more references. *)
Record coherent (k : Z) (x : inode) : Prop := {
  ch_ref : 0 <= i_ref x;
  ch_max : i_ref x + k < 2 ^ 31;
  ch_valid : 0 < i_ref x -> i_valid x = true -> disk_part x = disk_part (din (i_inum x));
}.
(** No inode is locked but [lk], which this process holds. *)
Record quiet (c : ctx) (s : kst) (k : Z) (lk : option Z) : Prop := {
  qt_cpu : bio_cpu c;
  qt_llog : unlocked L_log c;
  qt_lit : unlocked L_itable c;
  qt_lin : forall j, 0 <= j < NINODE -> unlocked (L_inode j) c;
  qt_tx : tx c ∅ (k_log s);
  qt_log : lh_n (l_log (k_log s)) < NBUF;
  qt_mem : mem_ok (kmem s);
  qt_view : forall b, kview s b = v b;
  qt_sb : k_sb s = sb;
  qt_ent : forall j, 0 <= j < NINODE -> coherent k (inode_at s j);
  qt_lock : forall j, 0 <= j < NINODE ->
    if bool_decide (lk = Some j) then i_lock (inode_at s j) = Sleeplock 1 (curpid c) /\ i_valid (inode_at s j) = true
    else sl_locked (i_lock (inode_at s j)) = 0;
}.
(** The walk has a reference to inode [i], in entry [ip]. *)
Definition held (s : kst) (ip i : Z) : Prop :=
  0 <= ip < NINODE /\ 1 <= i_ref (inode_at s ip) /\ i_dev (inode_at s ip) = ROOTDEV /\ i_inum (inode_at s ip) = i.

Lemma coherent_le k k' x : k' <= k -> coherent k x -> coherent k' x.
Proof. intros Hk [H1 H2 H3]. split; [done|lia|done]. Qed.

Lemma quiet_le k k' c s lk : k' <= k -> quiet c s k lk -> quiet c s k' lk.
Proof.
  intros Hk [? ? ? ? ? ? ? ? ? He ?]. split; try done. intros j Hj. apply (coherent_le k); [done|by apply He].
Qed.
(** A state with the same disk, table and locks. *)
Lemma quiet_same c s k lk c' s' : quiet c s k lk -> later c c' -> tx c' ∅ (k_log s') -> lh_n (l_log (k_log s')) <= lh_n (l_log (k_log s)) ->
  mem_ok (kmem s') -> (forall b, kview s' b = kview s b) -> k_sb s' = k_sb s -> (forall j, inode_at s' j = inode_at s j) -> quiet c' s' k lk.
Proof.
  intros [H1 H2 H3 H4 H5 H6 H7 H8 H9 H10 H11] Hl HT Hn Hm Hv Hsb Hin.
  assert (curpid c' = curpid c) as Hpid by (by destruct Hl as [e ->]).
  split; try done.
  - by apply (later_cpu c).
  - by apply (later_unlocked _ c).
  - by apply (later_unlocked _ c).
  - intros j Hj. apply (later_unlocked _ c); [done|by apply H4].
  - lia.
  - intros b. by rewrite Hv.
  - congruence.
  - intros j Hj. rewrite Hin. by apply H10.
  - intros j Hj. rewrite Hin, Hpid. by apply H11.
Qed.
(** One entry of the table changes. *)
Lemma quiet_upd c s k lk c' k' lk' ip f : quiet c s k lk -> later c c' -> tx c' ∅ (k_log s) -> k' <= k -> 0 <= ip < NINODE ->
  coherent k' (f (inode_at s ip)) ->
  (forall j, j <> ip -> bool_decide (lk' = Some j) = bool_decide (lk = Some j)) ->
  (if bool_decide (lk' = Some ip) then i_lock (f (inode_at s ip)) = Sleeplock 1 (curpid c) /\ i_valid (f (inode_at s ip)) = true
   else sl_locked (i_lock (f (inode_at s ip))) = 0) ->
  quiet c' (upd_inode ip f s) k' lk'.
Proof.
  intros [H1 H2 H3 H4 H5 H6 H7 H8 H9 H10 H11] Hl HT Hk Hip Hc Hlk Hself.
  assert (curpid c' = curpid c) as Hpid by (by destruct Hl as [e ->]). split; try done.
  - by apply (later_cpu c).
  - by apply (later_unlocked _ c).
  - by apply (later_unlocked _ c).
  - intros j Hj. apply (later_unlocked _ c); [done|by apply H4].
  - intros j Hj. rewrite inode_at_upd. destruct (Z.eqb_spec ip j); [done|]. apply (coherent_le k); [done|by apply H10].
  - intros j Hj. rewrite inode_at_upd, Hpid. destruct (Z.eqb_spec ip j) as [<-|Hne]; [done|]. rewrite Hlk by congruence. by apply H11.
Qed.

(** ** The calls of a walk *)

(** iget of inode [i] with an entry free. *)
Lemma iget_quiet c s k lk i : quiet c s (k + 1) lk -> 0 <= k -> (exists e, 0 <= e < NINODE /\ i_ref (inode_at s e) = 0) ->
  (forall j, lk = Some j -> 0 <= j < NINODE -> 1 <= i_ref (inode_at s j)) ->
  exists ip s', iget ROOTDEV i c s = Done ip c s' /\ quiet c s' k lk /\ held s' ip i /\ kmem s' = kmem s /\
    (forall j, 0 <= j < NINODE -> i_ref (inode_at s' j) = i_ref (inode_at s j) + (if j =? ip then 1 else 0)) /\
    forall j, 1 <= i_ref (inode_at s j) -> 
      (i_dev (inode_at s' j), i_inum (inode_at s' j), i_valid (inode_at s' j), disk_part (inode_at s' j)) =
      (i_dev (inode_at s j), i_inum (inode_at s j), i_valid (inode_at s j), disk_part (inode_at s j)).
Proof.
  intros Q Hk (e & He & Hz) Hlk. pose proof (iget_eq ROOTDEV i c s (bp_cpu _ (qt_cpu _ _ _ _ Q)) (qt_lit _ _ _ _ Q)) as E.
  assert (find_empty s <> None) as Hfe.
  { intros F. pose proof (find_seq_none _ _ e F He) as Hf. unfold is_empty in Hf. by apply Z.eqb_neq in Hf. }
  destruct (find_inode s ROOTDEV i) as [ip|] eqn:F.
  - apply find_seq in F as [Hip Hm]. unfold is_inode in Hm. rewrite !andb_true_iff, !Z.eqb_eq, Z.gtb_lt in Hm. destruct Hm as [[Hr Hd] Hi].
    pose proof (qt_ent _ _ _ _ Q ip Hip) as [C1 C2 C3].
    assert (i32 (i_ref (inode_at s ip) + 1) = i_ref (inode_at s ip) + 1) as Ei by (apply i32_small; lia).
    set (f := fun x => set_iref (i32 (i_ref x + 1)) x) in *. eexists ip, _. split; [exact E|]. split; [|split; [|split; [done|split]]].
    + apply (quiet_upd c s (k + 1) lk); [done|apply later_refl|apply Q|lia|done| |done|].
      * split; cbn [f set_iref i_ref]; rewrite ?Ei; [lia|lia|]. intros _ Hv. by apply C3.
      * pose proof (qt_lock _ _ _ _ Q ip Hip) as Hl. cbn [f set_iref i_lock i_valid]. exact Hl.
    + split; [done|]. rewrite inode_at_same. cbn [f set_iref i_ref i_dev i_inum]. rewrite Ei. split; [lia|done].
    + intros j Hj. rewrite inode_at_upd, (Z.eqb_sym j ip). destruct (Z.eqb_spec ip j) as [<-|]; cbn [f set_iref i_ref]; rewrite ?Ei; lia.
    + intros j _. rewrite inode_at_upd. by destruct (Z.eqb_spec ip j) as [<-|].
  - destruct (find_empty s) as [ip|] eqn:G; [|done]. apply find_seq in G as [Hip Hm]. unfold is_empty in Hm. apply Z.eqb_eq in Hm.
    eexists ip, _. split; [exact E|]. split; [|split; [|split; [done|split]]].
    + apply (quiet_upd c s (k + 1) lk); [done|apply later_refl|apply Q|lia|done| |done|].
      * split; cbn [set_iid i_ref i_valid]; [lia|pose proof (ch_max _ _ (qt_ent _ _ _ _ Q ip Hip)); lia|done].
      * pose proof (qt_lock _ _ _ _ Q ip Hip) as Hl. cbn [set_iid i_lock]. case_bool_decide as Hlk'; [|done]. specialize (Hlk ip Hlk' Hip). lia.
    + split; [done|]. rewrite inode_at_same. cbn [set_iid i_ref i_dev i_inum]. split; [lia|done].
    + intros j Hj. rewrite inode_at_upd, (Z.eqb_sym j ip). destruct (Z.eqb_spec ip j) as [<-|]; cbn [set_iid i_ref]; lia.
    + intros j Hj. rewrite inode_at_upd. destruct (Z.eqb_spec ip j) as [<-|]; [lia|done].
Qed.

Lemma ilock_valid c s ip : cpu_ok c -> unlocked (L_inode ip) c -> 1 <= i_ref (inode_at s ip) -> sl_locked (i_lock (inode_at s ip)) = 0 ->
  i_valid (inode_at s ip) = true -> ilock (Some ip) c s = Done tt c (upd_inode ip (set_ilock (Sleeplock 1 (curpid c))) s).
Proof.
  intros Hcpu Hul Hr Hl Hv. unfold ilock, gi. krun. rewrite (proj2 (Z.ltb_ge (i_ref (inode_at s ip)) 1)) by lia. cbv beta iota.
  rewrite (acquiresleep_free (L_inode ip) (ilk ip) c Hcpu Hul s Hl). cbv beta iota. cbn [ilk aset].
  rewrite inode_at_same. cbn [i_valid set_ilock]. by rewrite Hv.
Qed.

Lemma ilock_quiet c s k ip i : quiet c s k None -> held s ip i -> live sb v i ->
  exists c' s', ilock (Some ip) c s = Done tt c' s' /\ later c c' /\ quiet c' s' k (Some ip) /\ held s' ip i /\ kmem s' = kmem s /\
    disk_part (inode_at s' ip) = disk_part (din i) /\ forall j, i_ref (inode_at s' j) = i_ref (inode_at s j).
Proof.
  intros Q (Hip & Hr & Hd & Hi) [Hir Hty]. pose proof (qt_lock _ _ _ _ Q ip Hip) as Hl. rewrite bool_decide_eq_false_2 in Hl by done.
  pose proof (qt_ent _ _ _ _ Q ip Hip) as [C1 C2 C3].
  assert (forall f, (forall j, i_ref (inode_at (upd_inode ip f s) j) = i_ref (inode_at s j)) <-> i_ref (f (inode_at s ip)) = i_ref (inode_at s ip)) as Href.
  { intros f. split; [intros H; specialize (H ip); by rewrite inode_at_same in H|]. intros H j. rewrite inode_at_upd. by destruct (Z.eqb_spec ip j) as [<-|]. }
  assert (forall j, j <> ip -> bool_decide (Some ip = Some j) = bool_decide (@None Z = Some j)) as Hdec.
  { intros j Hj. rewrite !bool_decide_eq_false_2 by congruence. done. }
  destruct (i_valid (inode_at s ip)) eqn:Hv.
  - rewrite (ilock_valid c s ip (bp_cpu _ (qt_cpu _ _ _ _ Q)) (qt_lin _ _ _ _ Q ip Hip) Hr Hl Hv). eexists c, _. split; [done|]. split; [apply later_refl|].
    split; [|split; [|split; [done|split; [|by apply Href]]]].
    + apply (quiet_upd c s k None); [done|apply later_refl|apply Q|lia|done| |exact Hdec|].
      * split; [done|done|]. intros Hp _. by apply C3.
      * rewrite bool_decide_eq_true_2 by done. done.
    + split; [done|]. by rewrite inode_at_same.
    + rewrite inode_at_same, <- Hi. apply C3; [lia|done].
  - destruct (ilock_spec c ∅ s ip) as (c' & s' & E & Hc & T & V & Ex & Ho & it & l & Es & M); try done.
    { apply Q. } { apply Q. } { by apply (qt_lin _ _ _ _ Q). } { apply Q. } { rewrite map_size_empty. pose proof (qt_log _ _ _ _ Q). lia. }
    { rewrite Hi, (qt_view _ _ _ _ Q), (qt_sb _ _ _ _ Q). exact Hty. }
    rewrite Hi, (qt_view _ _ _ _ Q), (qt_sb _ _ _ _ Q) in Ex. set (y := set_ivalid true _) in Ex.
    assert (disk_part y = disk_part (din i)) as Hp by reflexivity.
    exists c', s'. split; [done|]. split; [done|]. split; [|split; [|split; [by rewrite Es|split; [by rewrite Ex|]]]].
    + apply (quiet_same c (upd_inode ip (fun _ => y) s)); [|done|done| | | | |].
      * apply (quiet_upd c s k None); [done|apply later_refl|apply Q|lia|done| |exact Hdec|].
        -- split; [done|done|]. intros _ _. change (i_inum y) with (i_inum (inode_at s ip)). by rewrite Hi.
        -- rewrite bool_decide_eq_true_2 by done. done.
      * rewrite Es. change (k_log (upd_inode ip (fun _ => y) s)) with (k_log s). change (k_log (set_klog (set_kitable s it) l)) with l. pose proof (mv_n _ _ _ M). lia.
      * rewrite Es. apply Q.
      * intros b. by rewrite V.
      * by rewrite Es.
      * intros j. rewrite inode_at_upd. destruct (Z.eqb_spec ip j) as [<-|]; [done|by apply Ho].
    + split; [done|]. by rewrite Ex.
    + intros j. destruct (Z.eq_dec j ip) as [->|Hne]; [by rewrite Ex|by rewrite Ho].
Qed.

Lemma iunlock_eq c s ip : cpu_ok c -> unlocked (L_inode ip) c -> 1 <= i_ref (inode_at s ip) -> i_lock (inode_at s ip) = Sleeplock 1 (curpid c) ->
  iunlock (Some ip) c s = Done tt (set_evs (Wakeup (C_sleeplock (L_inode ip)) :: evs c) c) (upd_inode ip (set_ilock (Sleeplock 0 0)) s).
Proof.
  intros Hcpu Hul Hr Hl. unfold iunlock. rewrite (bind_done _ _ _ _ _ _ _ (holdingsleep_eq (L_inode ip) (ilk ip) c Hcpu Hul s)).
  cbn [ilk aget]. rewrite Hl. cbn [sl_locked sl_pid]. rewrite Z.eqb_refl. cbn [z2b negb andb Z.eqb]. unfold gi. krun.
  rewrite (proj2 (Z.ltb_ge (i_ref (inode_at s ip)) 1)) by lia. cbv beta iota.
  exact (releasesleep_eq (L_inode ip) (ilk ip) c Hcpu Hul s).
Qed.
Lemma iput_eq c s ip : cpu_ok c -> unlocked L_itable c -> i_nlink (inode_at s ip) <> 0 ->
  iput ip c s = Done tt c (upd_inode ip (fun x => set_iref (i32 (i_ref x - 1)) x) s).
Proof.
  intros Hcpu Hul Hn. unfold iput, gi. rewrite (bind_done _ _ _ _ _ _ _ (acquire_eq L_itable c s Hul)). krun.
  rewrite (proj2 (Z.eqb_neq _ 0) Hn), andb_false_r. cbv beta iota. unfold ui. krun. by rewrite (release_eq L_itable c _ Hcpu Hul).
Qed.

Lemma iunlockput_quiet c s k ip i : quiet c s k (Some ip) -> held s ip i -> live sb v i -> 0 <= k ->
  exists c' s', iunlockput ip c s = Done tt c' s' /\ later c c' /\ quiet c' s' k None /\ kmem s' = kmem s /\
    (forall j, i_ref (inode_at s' j) = i_ref (inode_at s j) - (if j =? ip then 1 else 0)) /\
    forall j, i_dev (inode_at s' j) = i_dev (inode_at s j) /\ i_inum (inode_at s' j) = i_inum (inode_at s j).
Proof.
  intros Q (Hip & Hr & Hd & Hi) Hlive Hk. pose proof (qt_lock _ _ _ _ Q ip Hip) as Hl. rewrite bool_decide_eq_true_2 in Hl by done. destruct Hl as [Hl Hv].
  pose proof (qt_ent _ _ _ _ Q ip Hip) as [C1 C2 C3]. pose proof (C3 ltac:(lia) Hv) as Hp. rewrite Hi in Hp.
  pose proof (bp_cpu _ (qt_cpu _ _ _ _ Q)) as Hcpu. set (x := inode_at s ip) in *.
  assert (i_nlink x <> 0) as Hn by (unfold disk_part in Hp; injection Hp as _ _ _ -> _ _; by apply (to_nlink _ _ tree)).
  set (c1 := set_evs (Wakeup (C_sleeplock (L_inode ip)) :: evs c) c). set (s1 := upd_inode ip (set_ilock (Sleeplock 0 0)) s).
  assert (later c c1) as L1 by (by exists (Wakeup (C_sleeplock (L_inode ip)) :: evs c)).
  pose proof (iunlock_eq c s ip Hcpu (qt_lin _ _ _ _ Q ip Hip) Hr Hl) as E1. fold c1 s1 in E1.
  assert (inode_at s1 ip = set_ilock (Sleeplock 0 0) x) as Ex1 by (unfold s1; by rewrite inode_at_same).
  assert (quiet c1 s1 k None) as Q1.
  { apply (quiet_upd c s k (Some ip)); [done|done|apply (tx_later c); [done|apply Q]|lia|done|by split| |].
    - intros j Hj. rewrite !bool_decide_eq_false_2 by congruence. done.
    - rewrite bool_decide_eq_false_2 by done. done. }
  pose proof (iput_eq c1 s1 ip (bp_cpu _ (qt_cpu _ _ _ _ Q1)) (qt_lit _ _ _ _ Q1) ltac:(by rewrite Ex1)) as E2.
  set (f := fun y => set_iref (i32 (i_ref y - 1)) y) in E2. exists c1, (upd_inode ip f s1).
  assert (i32 (i_ref x - 1) = i_ref x - 1) as Ei by (apply i32_small; lia).
  split; [unfold iunlockput; kstep E1; exact E2|]. split; [done|]. split; [|split; [done|split]].
  - apply (quiet_upd c1 s1 k None); [done|apply later_refl|apply Q1|lia|done| |done|].
    + rewrite Ex1. split; cbn [f set_iref set_ilock i_ref]; rewrite ?Ei; [lia|lia|]. intros _ _. transitivity (disk_part x); [done|]. rewrite Hp, <- Hi. done.
    + rewrite bool_decide_eq_false_2 by done. by rewrite Ex1.
  - intros j. rewrite inode_at_upd, (Z.eqb_sym j ip). destruct (Z.eqb_spec ip j) as [<-|Hne].
    + rewrite Ex1. cbn [f set_iref set_ilock i_ref]. fold x. lia.
    + unfold s1. rewrite inode_at_upd, (proj2 (Z.eqb_neq ip j) Hne). lia.
  - intros j. rewrite inode_at_upd. destruct (Z.eqb_spec ip j) as [<-|Hne]; [by rewrite Ex1|].
    unfold s1. by rewrite inode_at_upd, (proj2 (Z.eqb_neq ip j) Hne).
Qed.

(** ** One element *)

Hypotheses (Hde : de_ok buf_addr de) (Hnm : forall i, 0 <= i < 14 -> ~ in_buf buf_addr (nm + i) /\ ~ (de <= nm + i < de + 16)).

Definition refs_of (s : kst) (j : Z) : Z := i_ref (inode_at s j).
(** Memory outside the buffers and [de] stays. *)
Definition frame (s s' : kst) : Prop :=
  forall a, ~ in_buf buf_addr a -> ~ (de <= a < de + 16) -> load8 (kmem s') a = load8 (kmem s) a.

Lemma view_ext u u' x : (forall y, u' y = u y) -> (no_holes u x -> no_holes u' x) /\ forall n, dir_inum u' x n = dir_inum u x n.
Proof.
  intros He. assert (forall k, baddr u' x k = baddr u x k) as Hb by (intros k; unfold baddr; by rewrite He). split.
  - intros [H1 H2]. split; [done|]. intros o Ho. rewrite Hb. by apply H2.
  - intros n. unfold dir_inum, dir_find. rewrite (find_ext_in (ent_is u' x n) (ent_is u x n)) by (intros j _; by apply ent_is_ext).
    destruct (List.find (ent_is u x n) (seqZ 0 (i_size x / 16))) as [j|]; [|reflexivity]. simpl. f_equal. by apply (ent_is_ext u u' x n).
Qed.
Lemma quiet_readable c s k ip i : quiet c s k (Some ip) -> held s ip i -> live sb v i -> i_type (din i) = T_DIR ->
  disk_part (inode_at s ip) = disk_part (din i) -> readable ip c s.
Proof.
  intros Q (Hip & Hr & Hd & Hi) Hlive Hty Hp. destruct (part_ext v _ _ Hp) as (_ & _ & Ho & _ & Hn).
  split; [apply Q|apply Q|done|apply (qt_log _ _ _ _ Q)|apply Q| |].
  - apply (view_ext v); [apply (qt_view _ _ _ _ Q)|]. apply Hn. by apply (to_holes _ _ tree).
  - intros a Ha. rewrite (qt_view _ _ _ _ Q). apply (to_blk _ _ tree i a); [done|done|]. apply Ho. by apply (owns_ext v (kview s) _ a (qt_view _ _ _ _ Q)).
Qed.

(** The body of namex's loop after skipelem, for namei. *)
Definition elem_body (ip path : Z) (cont : Z -> K kst (option Z)) : K kst (option Z) :=
  ilock (Some ip);;
  x ← gi ip;
  if negb (i_type x =? T_DIR) then iunlockput ip;; mret None
  else
    m ← Dir.kmem;
    if false && (load8 m path =? 0) then iunlock (Some ip);; mret (Some ip)
    else
      r ← dirlookup end_ buf_addr de ip nm;
      match r with
      | None => iunlockput ip;; mret None
      | Some (next, _) => iunlockput ip;; cont next
      end.

Lemma elem_spec c s k ip i n path cont : quiet c s (k + 1) None -> held s ip i -> live sb v i -> slots (refs_of s) ip -> 0 <= k ->
  cstr 14 (kmem s) nm = n ->
  match (if i_type (din i) =? T_DIR then dir_inum v (din i) n else None) with
  | Some j => exists next c' s', elem_body ip path cont c s = cont next c' s' /\ later c c' /\ quiet c' s' k None /\ held s' next j /\
      slots (refs_of s') next /\ frame s s' /\
      forall j, 0 <= j < NINODE -> refs_of s' j = refs_of s j + (if j =? next then 1 else 0) - (if j =? ip then 1 else 0)
  | None => exists c' s', elem_body ip path cont c s = Done None c' s' /\ later c c' /\ quiet c' s' k None /\
      forall j, refs_of s' j = refs_of s j - (if j =? ip then 1 else 0)
  end.
Proof.
  intros Q Hh Hlive Hsl Hk Hn. pose proof Hh as (Hip & Hr & _).
  destruct (ilock_quiet c s (k + 1) ip i Q Hh Hlive) as (c1 & s1 & E1 & L1 & Q1 & Hh1 & Hm1 & Hp1 & Hr1).
  pose proof (quiet_le (k + 1) k c1 s1 _ ltac:(lia) Q1) as Q1'.
  assert (i_type (inode_at s1 ip) = i_type (din i) /\ i_size (inode_at s1 ip) = i_size (din i)) as [Ety Esz] by (unfold disk_part in Hp1; by injection Hp1).
  assert (elem_body ip path cont c s = if negb (i_type (din i) =? T_DIR) then (iunlockput ip;; mret None) c1 s1 else
      (r ← dirlookup end_ buf_addr de ip nm; match r with None => iunlockput ip;; mret None | Some (next, _) => iunlockput ip;; cont next end) c1 s1) as ->.
  { unfold elem_body. kstep E1. unfold gi. rewrite (bind_done (gets (fun s => inode_at s ip)) _ c1 s1 _ c1 s1 eq_refl). cbv beta. rewrite Ety.
    destruct (i_type (din i) =? T_DIR); cbn [negb]; [|reflexivity]. kstep (kmem_eq c1 s1). reflexivity. }
  destruct (Z.eqb_spec (i_type (din i)) T_DIR) as [Hty|Hty]; cbn [negb].
  2:{ destruct (iunlockput_quiet c1 s1 k ip i Q1' Hh1 Hlive Hk) as (c2 & s2 & E2 & L2 & Q2 & _ & Hr2 & _). exists c2, s2. split; [by kstep E2|].
      split; [by eapply later_trans|]. split; [done|]. intros j. unfold refs_of. by rewrite Hr2, Hr1. }
  pose proof (quiet_readable c1 s1 k ip i Q1' Hh1 Hlive Hty Hp1) as R1.
  assert (name_at buf_addr de (kmem s1) nm n) as Hna by (split; [by rewrite Hm1|done]).
  destruct (dirlookup_spec end_ buf_addr ip de nm n c1 s1 R1 Hde Hna) as (c2 & s2 & L2 & R2 & P2 & E2); [congruence|rewrite Esz; by apply (to_size _ _ tree)|].
  destruct P2 as (l & m & Es2 & V2 & S2 & Hm2 & Ho2). set (x1 := inode_at s1 ip) in *.
  assert (dir_inum (kview s1) x1 n = dir_inum v (din i) n) as Ed.
  { destruct (part_ext v x1 (din i) Hp1) as (_ & _ & _ & Hd & _). rewrite <- Hd. by apply (view_ext v (kview s1) x1 (qt_view _ _ _ _ Q1)). }
  assert (quiet c2 s2 (k + 1) (Some ip)) as Q2.
  { apply (quiet_same c1 s1); [done|done|apply R2| |by rewrite Es2| |by rewrite Es2|by rewrite Es2].
    - rewrite Es2. change (k_log (set_klog (with_mem s1 m) l)) with l. rewrite (same_n _ _ S2). lia.
    - intros b. rewrite Es2. apply V2. }
  assert (held s2 ip i) as Hh2 by (rewrite Es2; exact Hh1).
  assert (forall j, refs_of s2 j = refs_of s j) as Hr2 by (intros j; rewrite Es2; exact (Hr1 j)).
  rewrite <- Ed. unfold dir_inum in Ed |- *. destruct (dir_find (kview s1) x1 n) as [q|]; cbn [fmap option_fmap option_map].
  - symmetry in Ed. set (j := ent_inum (kview s1) x1 q) in *.
    assert (exists e, 0 <= e < NINODE /\ i_ref (inode_at s2 e) = 0) as Hfree by (destruct Hsl as (e & _ & He & _ & _ & Hz & _); exists e; split; [done|]; by rewrite <- Hz, <- Hr2).
    destruct (iget_quiet c2 s2 k (Some ip) j Q2 Hk Hfree) as (next & s3 & E3 & Q3 & Hh3 & Hm3 & Hr3 & Hk3).
    { intros j' [= <-] _. apply Hh2. }
    assert (held s3 ip i) as Hh3'. 
    { destruct Hh2 as (H1 & H2 & H3 & H4). specialize (Hk3 ip H2). injection Hk3 as K1 K2 _ _. split; [done|]. rewrite (Hr3 ip Hip), K1, K2.
      split; [destruct (ip =? next); lia|done]. }
    destruct (iunlockput_quiet c2 s3 k ip i Q3 Hh3' Hlive Hk) as (c4 & s4 & E4 & L4 & Q4 & Hm4 & Hr4 & Hd4). pose proof Hh3 as (Hnx & Hn1 & Hn2 & Hn3).
    assert (dirlookup end_ buf_addr de ip nm c1 s1 = Done (Some (next, 16 * q)) c2 s3) as E23 by (rewrite E2; kstep E3; reflexivity).
    exists next, c4, s4. split; [kstep E23; kstep E4; reflexivity|]. split; [exact (later_trans _ _ _ L1 (later_trans _ _ _ L2 L4))|]. split; [done|].
    assert (forall j', 0 <= j' < NINODE -> refs_of s4 j' = refs_of s j' + (if j' =? next then 1 else 0) - (if j' =? ip then 1 else 0)) as Hrr.
    { intros j' Hj'. unfold refs_of. rewrite Hr4, Hr3 by done. fold (refs_of s2 j'). by rewrite Hr2. }
    assert (0 <= refs_of s next) as Hn0 by (apply (ch_ref _ _ (qt_ent _ _ _ _ Q next Hnx))).
    split; [|split; [|split; [|exact Hrr]]].
    + split; [done|]. destruct (Hd4 next) as [-> ->]. split; [|done]. change (1 <= refs_of s4 next). rewrite Hrr by done. rewrite Z.eqb_refl.
      destruct (Z.eqb_spec next ip) as [->|]; [unfold refs_of; lia|lia].
    + apply (slots_step (refs_of s) (refs_of s4) ip next); done.
    + intros a Ha Hna'. rewrite Hm4, Hm3, Es2. change (kmem (set_klog (with_mem s1 m) l)) with m. rewrite Ho2 by done. by rewrite Hm1.
  - destruct (iunlockput_quiet c2 s2 (k + 1) ip i Q2 Hh2 Hlive ltac:(lia)) as (c3 & s3 & E3 & L3 & Q3 & _ & Hr3 & _). exists c3, s3.
    split; [kstep E2; kstep E3; reflexivity|]. split; [exact (later_trans _ _ _ L1 (later_trans _ _ _ L2 L3))|].
    split; [by apply (quiet_le (k + 1)); [lia|]|]. intros j. unfold refs_of. rewrite Hr3. fold (refs_of s2 j). by rewrite Hr2.
Qed.

(** ** Whole paths *)

Lemma elems_length cur l : (length (elems cur l) <= length l + 1)%nat.
Proof.
  revert cur. induction l as [|c l IH]; intros cur; cbn [elems length]; [destruct cur; simpl; lia|].
  destruct (c =? 47); [|by apply (Nat.le_trans _ _ _ (IH _)); lia]. specialize (IH []). destruct cur; cbn [length]; lia.
Qed.

(** The path is a C string apart from the buffers, [de] and [name]. *)
Definition path_at (m : mem) (p : Z) (cs : list Z) : Prop :=
  str_at m p cs /\ (forall i, 0 <= i <= Z.of_nat (length cs) -> ~ in_buf buf_addr (p + i) /\ ~ (de <= p + i < de + 16)) /\
  (p + Z.of_nat (length cs) < nm \/ nm + 14 <= p).
(** What a walk comes to: [r0] are the references without those of the walk. *)
Definition resolves (r0 : Z -> Z) (r : option Z) (c : ctx) (o : outcome kst (option Z)) : Prop :=
  match r with
  | Some j => exists ip c' s', o = Done (Some ip) c' s' /\ later c c' /\ quiet c' s' 0 None /\ held s' ip j /\ live sb v j /\
      forall q, 0 <= q < NINODE -> refs_of s' q = r0 q + (if q =? ip then 1 else 0)
  | None => exists c' s', o = Done None c' s' /\ later c c' /\ quiet c' s' 0 None /\ forall q, 0 <= q < NINODE -> refs_of s' q = r0 q
  end.
Lemma resolves_later r0 r c c' o : later c c' -> resolves r0 r c' o -> resolves r0 r c o.
Proof.
  intros Hl. destruct r as [j|]; simpl.
  - intros (ip & c2 & s2 & E & L & H). exists ip, c2, s2. split; [done|]. split; [by eapply later_trans|done].
  - intros (c2 & s2 & E & L & H). exists c2, s2. split; [done|]. split; [by eapply later_trans|done].
Qed.

Lemma namex_loop_spec r0 fuel : forall cs c s ip path i, (length (elems [] cs) <= fuel)%nat -> (length cs < 128)%nat ->
  quiet c s (Z.of_nat fuel) None -> held s ip i -> live sb v i -> slots (refs_of s) ip -> path_at (kmem s) path cs ->
  (forall q, 0 <= q < NINODE -> refs_of s q = r0 q + (if q =? ip then 1 else 0)) ->
  resolves r0 (walk_path sb v i (elems [] cs)) c (namex_loop end_ buf_addr de fuel ip path false nm c s).
Proof.
  induction fuel as [|fuel IH]; intros cs c s ip path i Hf Hlen Q Hh Hlive Hsl (Hs & Hfar & Hsep) Hr0; cbn [namex_loop];
    rewrite (bind_done _ _ _ _ _ _ _ (kmem_eq c s)); cbv beta;
    (destruct (skipelem_takes_first (kmem s) path nm cs (Z.to_nat MAXPATH)) as (m & r & E & Hm & Hout & Hr); [apply Q|done|exact Hlen|done|exact Hsep|]);
    rewrite E; (destruct (elems [] cs) as [|e es] eqn:Ees; (destruct r as [path'|]; [try done|try done])).
  - exists ip, c, s. split; [reflexivity|]. split; [apply later_refl|]. split; [by apply (quiet_le (Z.of_nat 0))|done].
  - simpl in Hf. lia.
  - exists ip, c, s. split; [reflexivity|]. split; [apply later_refl|]. split; [apply (quiet_le (Z.of_nat (S fuel))); [lia|done]|done].
  - destruct Hr as (Hn & cs' & Hs' & Ees' & _ & Hp1 & Hp2). rewrite (bind_done (put_kmem m) _ c s tt c (with_mem s m)) by (by destruct s). cbv beta.
    set (o := elem_body ip path' (fun next => namex_loop end_ buf_addr de fuel next path' false nm) c (with_mem s m)).
    change (resolves r0 (walk_path sb v i (e :: es)) c o).
    assert (quiet c (with_mem s m) (Z.of_nat fuel + 1) None) as Q1.
    { apply (quiet_same c s); [|apply later_refl|apply Q|done|done|done|done|done]. apply (quiet_le (Z.of_nat (S fuel))); [lia|done]. }
    pose proof (elem_spec c (with_mem s m) (Z.of_nat fuel) ip i (take 14 e) path' (fun next => namex_loop end_ buf_addr de fuel next path' false nm)
      Q1 Hh Hlive Hsl ltac:(lia) Hn) as He. fold o in He. change (refs_of (with_mem s m)) with (refs_of s) in He.
    cbn [walk_path]. change (disk_inode sb v i) with (din i).
    assert ((exists c' s', o = Done None c' s' /\ later c c' /\ quiet c' s' (Z.of_nat fuel) None /\
      forall j, refs_of s' j = refs_of s j - (if j =? ip then 1 else 0)) -> resolves r0 None c o) as Hnone.
    { intros (c' & s' & E' & L & Q' & Hr'). exists c', s'. split; [exact E'|]. split; [exact L|]. split; [apply (quiet_le (Z.of_nat fuel)); [lia|exact Q']|].
      intros q Hq. rewrite Hr', Hr0 by done. lia. }
    destruct (Z.eqb_spec (i_type (din i)) T_DIR) as [Hty|Hty]; [|by apply Hnone].
    destruct (dir_inum v (din i) (take 14 e)) as [j|] eqn:Ej; [|by apply Hnone].
    destruct He as (next & c' & s' & E' & L & Q' & Hh' & Hsl' & Hfr & Hr'). rewrite E'. apply (resolves_later _ _ c c'); [done|]. rewrite <- Ees'.
    assert (Z.of_nat (length cs') <= Z.of_nat (length cs)) as Hl' by lia.
    assert (forall q, 0 <= q <= Z.of_nat (length cs') -> ~ in_buf buf_addr (path' + q) /\ ~ (de <= path' + q < de + 16)) as Hfar'.
    { intros q Hq. replace (path' + q) with (path + (path' - path + q)) by lia. apply Hfar. lia. }
    apply IH; [rewrite Ees'; cbn [length] in Hf; lia|lia|done|done| |done| |].
    + by apply (to_live _ _ tree i (take 14 e) j).
    + split; [|split; [done|lia]]. apply (str_at_ext m); [|done]. intros q Hq. by apply Hfr; apply Hfar'.
    + intros q Hq. rewrite Hr', Hr0 by done. lia.
Qed.

Lemma namei_spec c s path cs : quiet c s (MAXPATH + 1) None -> live sb v ROOTINO ->
  (exists e1 e2, 0 <= e1 < NINODE /\ 0 <= e2 < NINODE /\ e1 <> e2 /\ refs_of s e1 = 0 /\ refs_of s e2 = 0) ->
  path_at (kmem s) path (47 :: cs) -> (length cs < 127)%nat ->
  resolves (refs_of s) (walk_path sb v ROOTINO (elems [] (47 :: cs))) c (namei end_ buf_addr de nm path c s).
Proof.
  intros Q Hlive (e1 & e2 & H1 & H2 & Hne & Z1 & Z2) Hp Hlen.
  destruct (iget_quiet c s MAXPATH None ROOTINO Q ltac:(done)) as (ip & s1 & E1 & Q1 & Hh1 & Hm1 & Hr1 & _); [by exists e1|done|].
  pose proof Hh1 as (Hip & _). unfold namei, namex. rewrite (bind_done _ _ _ _ _ _ _ (kmem_eq c s)). cbv beta.
  destruct (Hp) as ((-> & _ & _) & _ & _). change (47 =? 47) with true. cbv iota. kstep E1.
  assert (le (length (elems [] (47 :: cs))) (Z.to_nat MAXPATH)) as Hel by (pose proof (elems_length [] (47 :: cs)); cbn [length] in *; change (Z.to_nat MAXPATH) with 128%nat; lia).
  apply namex_loop_spec; [exact Hel|cbn [length]; lia|exact Q1|exact Hh1|exact Hlive| |by rewrite Hm1|exact Hr1].
  assert (forall q, 0 <= q < NINODE -> refs_of s1 q = refs_of s q + (if q =? ip then 1 else 0)) as Hr by exact Hr1.
  destruct (Z.eq_dec (refs_of s ip) 0) as [Hz|Hz].
  - assert (exists e, 0 <= e < NINODE /\ e <> ip /\ refs_of s e = 0) as (e & He & Hei & Hez) by (destruct (Z.eq_dec e1 ip) as [->|]; [by exists e2|by exists e1]).
    apply (slots_one _ e ip); [done|done|done|rewrite Hr, (proj2 (Z.eqb_neq e ip) Hei) by done; lia|rewrite Hr, Z.eqb_refl by done; lia].
  - exists e1, e2. rewrite !Hr by done. rewrite (proj2 (Z.eqb_neq e1 ip)), (proj2 (Z.eqb_neq e2 ip)) by congruence.
    split; [done|]. split; [done|]. split; [done|]. split; [lia|left; lia].
Qed.
(** C38: namei of an absolute path, on a file system whose directories are well
    formed, with two entries of the inode table free and no inode locked,
    returns: the path's elements, each cut at DIRSIZ bytes, are looked up in
    turn in the maps of the directories from the root; the result is a table
    entry for the inode they lead to, with one more reference, or the null
    pointer when an element is missing or its parent is not a directory.  All
    other references taken on the way are given back, no inode stays locked, and
    the disk is as before. *)
Theorem namei_resolves c s path cs : quiet c s (MAXPATH + 1) None -> live sb v ROOTINO ->
  (exists e1 e2, 0 <= e1 < NINODE /\ 0 <= e2 < NINODE /\ e1 <> e2 /\ refs_of s e1 = 0 /\ refs_of s e2 = 0) ->
  path_at (kmem s) path (47 :: cs) -> (length cs < 127)%nat ->
  resolves (refs_of s) (walk_path sb v ROOTINO (elems [] (47 :: cs))) c (namei end_ buf_addr de nm path c s).
Proof. exact (namei_spec c s path cs). Qed.
End Walk.
