(* ===== verification/Mkfs.v ===== *)
(** * The image builder (mkfs/mkfs.c)

    mkfs runs on the host and writes a file system image: boot block, super
    block, log, inodes, bitmap, data.  The image is a list of blocks; the host's
    files are the parameter [host], which gives the pieces that reads of a file
    return, and the host is little-endian. *)
From stdpp Require Import base numbers list gmap strings.
From Stdlib Require Import Ascii.
From S2P Require Import Prelude Kernel Bio Log Kstate Fs.

Definition NINODES : Z := 200.
Definition FSSIZE : Z := 2000.
Definition DIRSIZ : Z := 14.
Definition nbitmap : Z := FSSIZE / BPB + 1.
Definition ninodeblocks : Z := NINODES / IPB + 1.
Definition nlog : Z := LOGBLOCKS + 1.
Definition nmeta : Z := 2 + nlog + ninodeblocks + nbitmap.
Definition nblocks : Z := FSSIZE - nmeta.

(** The bytes a[0], a[1], ... of y, read as an integer of the host. *)
Definition xshort (x : Z) : Z := le_combine [u_ 8 x; u_ 8 (Z.shiftr x 8)].
Definition xint (x : Z) : Z := le_combine [u_ 8 x; u_ 8 (Z.shiftr x 8); u_ 8 (Z.shiftr x 16); u_ 8 (Z.shiftr x 24)].

Definition sb : superblock :=
  SuperBlock FSMAGIC (xint FSSIZE) (xint nblocks) (xint NINODES) (xint nlog) (xint 2) (xint (2 + nlog))
    (xint (2 + nlog + ninodeblocks)).

(** The image, freeinode and freeblock. *)
Record mkst := Mkst { m_img : list block; m_freeinode : Z; m_freeblock : Z }.
(** mkfs goes on, dies with a message, or fails an assertion; [MFuel] is the
    outcome of a loop whose bound ran out. *)
Inductive mres (A : Type) := MDone (a : A) (s : mkst) | MDie (msg : string) | MAssert | MFuel.
Arguments MDone {A} _ _.
Arguments MDie {A} _.
Arguments MAssert {A}.
Arguments MFuel {A}.
Definition M (A : Type) : Type := mkst -> mres A.
#[global] Instance M_ret : MRet M := fun A a s => MDone a s.
#[global] Instance M_bind : MBind M := fun A B k p s =>
  match p s with MDone a s' => k a s' | MDie msg => MDie msg | MAssert => MAssert | MFuel => MFuel end.
Definition die {A} (msg : string) : M A := fun _ => MDie msg.
Definition assert_ (b : bool) : M unit := fun s => if b then MDone tt s else MAssert.
Definition set_img (img : list block) (s : mkst) : mkst := Mkst img (m_freeinode s) (m_freeblock s).
(** freeinode++ and freeblock++ *)
Definition next_inode : M Z := fun s => MDone (m_freeinode s) (Mkst (m_img s) (u32 (m_freeinode s + 1)) (m_freeblock s)).
Definition next_block : M Z := fun s => MDone (m_freeblock s) (Mkst (m_img s) (m_freeinode s) (u32 (m_freeblock s + 1))).

(** lseek(fsfd, sec * BSIZE, 0): the sector the file offset is at. *)
Definition seek (sec : Z) : nat := Z.to_nat (u32 (sec * BSIZE) / BSIZE).
(** A write after the end of the image leaves zeroes before it. *)
Definition wsect (sec : Z) (buf : block) : M unit := fun s =>
  let i := seek sec in
  let img := m_img s ++ replicate (S i - length (m_img s)) zero_block in
  MDone tt (set_img (<[i := buf]> img) s).
Definition rsect (sec : Z) : M block := fun s =>
  match m_img s !! seek sec with Some b => MDone b s | None => MDie "read" end.

(** A [struct dinode] is an inode of which only the fields on disk are used. *)
Definition winode (inum : Z) (ip : inode) : M unit :=
  let bn := IBLOCK inum sb in
  buf ← rsect bn;
  wsect bn (put_dinode (inum mod IPB) ip buf).
Definition rinode (inum : Z) : M inode :=
  let bn := IBLOCK inum sb in
  buf ← rsect bn;
  mret (get_dinode (inum mod IPB) buf inode0).

Definition ialloc (type : Z) : M Z :=
  inum ← next_inode;
  let din := set_isize (xint 0) (set_imeta 0 0 (i16 (xshort 1)) (set_itype (i16 (xshort type)) inode0)) in
  winode inum din;;
  mret inum.

(** for(i = 0; i < used; i++) buf[i/8] = buf[i/8] | (0x1 << (i%8)) *)
Fixpoint mark_bits (n : nat) (i : Z) (buf : block) : block :=
  match n with
  | O => buf
  | S n => mark_bits n (i + 1) (bit_set i buf)
  end.
Definition balloc (used : Z) : M unit :=
  assert_ (used <? BPB);;
  wsect (sb_bmapstart sb) (mark_bits (Z.to_nat used) 0 zero_block).

(** The block of the file that holds offset fbn * BSIZE, allocated when there is none. *)
Definition append_block (din : inode) (fbn : Z) : M (inode * Z) :=
  if fbn <? NDIRECT then
    din ← (if addr_at din fbn =? 0 then b ← next_block; mret (set_iaddr fbn (xint b) din) else mret din);
    mret (din, addr_at din fbn)
  else
    din ← (if addr_at din NDIRECT =? 0 then b ← next_block; mret (set_iaddr NDIRECT (xint b) din) else mret din);
    indirect ← rsect (addr_at din NDIRECT);
    indirect ← (if get32 (4 * (fbn - NDIRECT)) indirect =? 0 then
                  b ← next_block;
                  let indirect := put32 (4 * (fbn - NDIRECT)) (xint b) indirect in
                  wsect (addr_at din NDIRECT) indirect;;
                  mret indirect
                else mret indirect);
    mret (din, get32 (4 * (fbn - NDIRECT)) indirect).

(** while(n > 0): the inode and the offset at the end. *)
Fixpoint append_loop (fuel : nat) (din : inode) (off : Z) (p : list Z) : M (inode * Z) :=
  match p with
  | [] => mret (din, off)
  | _ =>
      match fuel with
      | O => fun _ => MFuel
      | S fuel =>
          let fbn := off / BSIZE in
          assert_ (fbn <? MAXFILE);;
          '(din, x) ← append_block din fbn;
          let n1 := Z.min (Z.of_nat (length p)) (u32 ((fbn + 1) * BSIZE - off)) in
          buf ← rsect x;
          wsect x (wr_bytes (off - fbn * BSIZE) (take (Z.to_nat n1) p) buf);;
          append_loop fuel din (u32 (off + n1)) (drop (Z.to_nat n1) p)
      end
  end.
Definition iappend (inum : Z) (p : list Z) : M unit :=
  din ← rinode inum;
  let off := xint (i_size din) in
  '(din, off) ← append_loop (S (length p)) din off p;
  winode inum (set_isize (xint off) din).

(** strcpy or strncpy of a name into a zeroed entry. *)
Definition dirent (inum : Z) (name : list Z) : list Z :=
  le_split 2 (xshort inum) ++ name ++ replicate (Z.to_nat DIRSIZ - length name) 0.

Section Main.
(** What open and then read give for a file of the host: [None] when it cannot
    be opened, or the pieces the reads return. *)
Variable host : list Z -> option (list (list Z)).

(** argv[i] without the leading user/ *)
Definition shortname (arg : list Z) : list Z :=
  if bool_decide (take 5 arg = chars "user/") then drop 5 arg else arg.
(** and without the leading _ *)
Definition skip_underscore (name : list Z) : list Z :=
  match name with c :: rest => if c =? chr "_" then rest else name | [] => [] end.

Fixpoint append_pieces (inum : Z) (pieces : list (list Z)) : M unit :=
  match pieces with
  | [] => mret tt
  | p :: pieces => iappend inum p;; append_pieces inum pieces
  end.
(** The loop over the files of the command line. *)
Fixpoint add_files (rootino : Z) (args : list (list Z)) : M unit :=
  match args with
  | [] => mret tt
  | arg :: args =>
      let short := shortname arg in
      assert_ (negb (bool_decide (chr "/" ∈ short)));;
      match host arg with
      | None => die "open"
      | Some pieces =>
          let short := skip_underscore short in
          assert_ (Z.of_nat (length short) <=? DIRSIZ);;
          inum ← ialloc T_FILE;
          iappend rootino (dirent inum (take (Z.to_nat DIRSIZ) short));;
          append_pieces inum pieces;;
          add_files rootino args
      end
  end.

Fixpoint zero_sectors (n : nat) (i : Z) : M unit :=
  match n with O => mret tt | S n => wsect i zero_block;; zero_sectors n (i + 1) end.
Definition sb_block : block :=
  let w x := le_split 4 x in
  wr_bytes 0 (w (sb_magic sb) ++ w (sb_size sb) ++ w (sb_nblocks sb) ++ w (sb_ninodes sb) ++ w (sb_nlog sb) ++
              w (sb_logstart sb) ++ w (sb_inodestart sb) ++ w (sb_bmapstart sb)) zero_block.

(** main, with the files of the command line, from the opened empty image *)
Definition mkfs_main (args : list (list Z)) : M unit :=
  zero_sectors (Z.to_nat FSSIZE) 0;;
  wsect 1 sb_block;;
  rootino ← ialloc T_DIR;
  assert_ (rootino =? ROOTINO);;
  iappend rootino (dirent rootino (chars "."));;
  iappend rootino (dirent rootino (chars ".."));;
  add_files rootino args;;
  din ← rinode rootino;
  let off := xint (i_size din) in
  let off := u32 ((off / BSIZE + 1) * BSIZE) in
  winode rootino (set_isize (xint off) din);;
  s ← (fun s => MDone s s);
  balloc (m_freeblock s).
(** main with its arguments; [opened] says whether the image could be created. *)
Definition mkfs (opened : bool) (argv : list (list Z)) : M unit :=
  match argv with
  | _ :: _ :: files => if opened then mkfs_main files else die "open"
  | _ => die "Usage: mkfs fs.img files..."
  end.
Definition mkfs_start : mkst := Mkst [] 1 nmeta.
End Main.
