(* ===== verification/Append.v ===== *)
(** * Appending to files of an image (theorems on iappend of Mkfs.v)

    The sectors of the image, the blocks of a file that mkfs is writing, and the
    loop of iappend: the file's contents grow by the bytes appended, in blocks
    that were free, and no other file's blocks are touched. *)
From stdpp Require Import base numbers list gmap strings.
From Stdlib Require Import Ascii.
From S2P Require Import Prelude Kernel Bio Log Kstate Fs Txn Alloc Inode Content Rdwr Mkfs.

Lemma mbind_done {A B} (p : M A) (k : A -> M B) s a s' : p s = MDone a s' -> (p ≫= k) s = k a s'.
Proof. intros E. unfold mbind, M_bind. by rewrite E. Qed.
Ltac mstep E := rewrite (mbind_done _ _ _ _ _ E); cbn beta iota.

(** xint and xshort keep a value and only cut it to its width. *)
Lemma xint_eq z : xint z = u32 z.
Proof.
  unfold xint. change (u32 z) with (z mod 2 ^ (8 * Z.of_nat 4)). rewrite <- le_combine_split. cbn [le_split].
  rewrite !Z.shiftr_div_pow2, !Z.div_div by lia. reflexivity.
Qed.
Lemma xshort_eq z : xshort z = u16 z.
Proof.
  unfold xshort. change (u16 z) with (z mod 2 ^ (8 * Z.of_nat 2)). rewrite <- le_combine_split. cbn [le_split].
  rewrite !Z.shiftr_div_pow2 by lia. reflexivity.
Qed.
Lemma xint_small z : 0 <= z < 2 ^ 32 -> xint z = z.
Proof. rewrite xint_eq. apply u_small. Qed.
Lemma xshort_small z : 0 <= z < 2 ^ 16 -> xshort z = z.
Proof. rewrite xshort_eq. apply u_small. Qed.

(** ** Sectors *)

(** Block [b] of the image. *)
Definition vw (s : mkst) (b : Z) : block := if b <? 0 then zero_block else nth (Z.to_nat b) (m_img s) zero_block.
Definition img_ok (s : mkst) : Prop := length (m_img s) = Z.to_nat FSSIZE /\ Forall is_blk (m_img s).

Lemma zero_is_blk : is_blk zero_block.
Proof. split; [done|]. apply Forall_replicate. done. Qed.
Lemma vw_blk s b : img_ok s -> is_blk (vw s b).
Proof.
  intros [_ HF]. unfold vw. destruct (b <? 0); [exact zero_is_blk|]. rewrite nth_lookup. destruct (m_img s !! Z.to_nat b) eqn:E; [|exact zero_is_blk].
  rewrite Forall_lookup in HF. by apply (HF _ _ E).
Qed.
Lemma seek_eq b : 0 <= b < FSSIZE -> seek b = Z.to_nat b.
Proof.
  intros Hb. unfold seek. change BSIZE with 1024. change FSSIZE with 2000 in Hb. rewrite u_small by lia. by rewrite Z.div_mul.
Qed.
Lemma rsect_ok s b : img_ok s -> 0 <= b < FSSIZE -> rsect b s = MDone (vw s b) s.
Proof.
  intros [Hl _] Hb. unfold rsect, vw. rewrite seek_eq by done. rewrite (proj2 (Z.ltb_ge b 0)), nth_lookup by lia. change FSSIZE with 2000 in *.
  destruct (lookup_lt_is_Some_2 (m_img s) (Z.to_nat b) ltac:(lia)) as [d ->]. done.
Qed.
Definition put_sect (b : Z) (d : block) (s : mkst) : mkst := set_img (<[Z.to_nat b := d]> (m_img s)) s.
Lemma wsect_ok s b d : img_ok s -> 0 <= b < FSSIZE -> is_blk d ->
  wsect b d s = MDone tt (put_sect b d s) /\ img_ok (put_sect b d s) /\
  forall b', 0 <= b' -> vw (put_sect b d s) b' = if b' =? b then d else vw s b'.
Proof.
  intros [Hl HF] Hb Hd. unfold wsect, put_sect. rewrite seek_eq by done. change (Z.to_nat FSSIZE) with 2000%nat in *. change FSSIZE with 2000 in *.
  replace (S (Z.to_nat b) - length (m_img s))%nat with O by lia. rewrite app_nil_r. split; [done|]. split.
  - split; cbn [m_img set_img]; [by rewrite length_insert|by apply Forall_insert].
  - intros b' Hb'. unfold vw. cbn [m_img set_img]. rewrite (proj2 (Z.ltb_ge b' 0)), !nth_lookup by lia. destruct (Z.eqb_spec b' b) as [->|Hne].
    + rewrite list_lookup_insert_eq by lia. done.
    + rewrite list_lookup_insert_ne by lia. done.
Qed.

(** ** Files while they are written *)

(** How many blocks hold [n] bytes, without and with the indirect block. *)
Definition ndata (n : Z) : Z := (n + 1023) / 1024.
Definition with_ind (n : Z) : Z := n + (if 12 <? n then 1 else 0).
Definition nblk (n : Z) : Z := with_ind (ndata n).

(** Inode [x] holds the bytes [bs], and zeroes after them, in [n] blocks from
    [lo] to [hi]; [i] says whether it has its indirect block. *)
Record has_blocks (v : Z -> block) (x : inode) (bs : list Z) (n : Z) (i : bool) (lo hi : Z) : Prop := {
  hb_inode : inode_ok x;
  hb_there : forall k, 0 <= k < MAXFILE -> if k <? n then lo <= baddr v x k < hi else baddr v x k = 0;
  hb_ind : if i then lo <= addr_at x NDIRECT < hi else addr_at x NDIRECT = 0;
  hb_inj : forall k k', 0 <= k < MAXFILE -> 0 <= k' < MAXFILE -> baddr v x k = baddr v x k' -> baddr v x k <> 0 -> k = k';
  hb_ne : forall k, 0 <= k < MAXFILE -> baddr v x k <> 0 -> baddr v x k <> addr_at x NDIRECT;
  hb_bytes : forall o, 0 <= o < MAXFILE * BSIZE -> content v x o = nth (Z.to_nat o) bs 0;
}.
Definition holds_file (v : Z -> block) (x : inode) (bs : list Z) (lo hi : Z) : Prop :=
  Z.of_nat (length bs) <= MAXFILE * BSIZE /\
  has_blocks v x bs (ndata (Z.of_nat (length bs))) (12 <? ndata (Z.of_nat (length bs))) lo hi.

(** From [v] to [v'] an inode that grows from [x] to [x'] may write to its own
    blocks and to the fresh ones from [hi] to [hi']. *)
Record grows (v : Z -> block) (x : inode) (hi : Z) (v' : Z -> block) (x' : inode) (hi' : Z) : Prop := {
  gr_le : hi <= hi';
  gr_owns : forall a, owns v' x' a -> owns v x a \/ hi <= a < hi';
  gr_frame : forall b, 0 <= b < hi -> ~ owns v x b -> v' b = v b;
  gr_fresh : forall b, hi' <= b -> v' b = v b;
  gr_meta : meta x' = meta x;
}.
Lemma grows_trans v x hi v1 x1 hi1 v2 x2 hi2 : grows v x hi v1 x1 hi1 -> grows v1 x1 hi1 v2 x2 hi2 -> grows v x hi v2 x2 hi2.
Proof.
  intros [A0 A1 A2 A3 A4] [B0 B1 B2 B3 B4]. split; [lia| | | |congruence].
  - intros a Ha. destruct (B1 a Ha) as [Ho|]; [|right; lia]. destruct (A1 a Ho); [by left|right; lia].
  - intros b Hb Hn. rewrite B2; [by apply A2|lia|]. intros Ho. destruct (A1 b Ho); [done|lia].
  - intros b Hb. rewrite B3 by done. apply A3. lia.
Qed.
Lemma grows_refl v x hi : grows v x hi v x hi.
Proof. split; try done. by left. Qed.

Lemma has_owns v x bs n i lo hi a : 0 < lo -> has_blocks v x bs n i lo hi -> owns v x a -> lo <= a < hi.
Proof.
  intros Hlo [_ Ht Hi _ _ _] [Ha [->|(k & Hk & <-)]]; [by destruct i|].
  specialize (Ht k Hk). by destruct (k <? n).
Qed.

(** A fresh zero block becomes data block [n]. *)
Lemma has_add v x v' x' bs n i lo hi : 0 < lo -> lo <= hi -> has_blocks v x bs n i lo hi -> inode_ok x' -> 0 <= n < MAXFILE ->
  (forall k, 0 <= k < MAXFILE -> baddr v' x' k = if k =? n then hi else baddr v x k) ->
  addr_at x' NDIRECT = addr_at x NDIRECT -> v' hi = zero_block ->
  (forall k, 0 <= k < MAXFILE -> baddr v x k <> 0 -> v' (baddr v x k) = v (baddr v x k)) ->
  has_blocks v' x' bs (n + 1) i lo (hi + 1).
Proof.
  intros Hlo Hhi Hb Hok Hn Hba Hind Hz Hsame.
  assert (forall k, 0 <= k < MAXFILE -> baddr v x k < hi) as Hlt.
  { intros k Hk. pose proof (hb_there _ _ _ _ _ _ _ Hb k Hk) as Ht. destruct (k <? n); lia. }
  split; [done|..].
  - intros k Hk. rewrite Hba by done. pose proof (hb_there _ _ _ _ _ _ _ Hb k Hk) as Ht.
    destruct (Z.eqb_spec k n), (Z.ltb_spec k n), (Z.ltb_spec k (n + 1)); lia.
  - rewrite Hind. pose proof (hb_ind _ _ _ _ _ _ _ Hb). destruct i; [lia|done].
  - intros k k' Hk Hk'. rewrite !Hba by done. pose proof (Hlt k Hk). pose proof (Hlt k' Hk').
    destruct (Z.eqb_spec k n), (Z.eqb_spec k' n); [lia|lia|lia|by apply (hb_inj _ _ _ _ _ _ _ Hb)].
  - intros k Hk. rewrite Hba, Hind by done. destruct (Z.eqb_spec k n); [|by apply (hb_ne _ _ _ _ _ _ _ Hb)].
    pose proof (hb_ind _ _ _ _ _ _ _ Hb). destruct i; lia.
  - intros o Ho. rewrite <- (hb_bytes _ _ _ _ _ _ _ Hb o Ho). unfold content.
    pose proof (block_range o (MAXFILE * BSIZE - o) ltac:(lia) ltac:(lia) ltac:(lia)) as Hq. rewrite Hba by done.
    destruct (Z.eqb_spec (o / BSIZE) n) as [E|Hne].
    + pose proof (hb_there _ _ _ _ _ _ _ Hb (o / BSIZE) Hq) as Ht. rewrite (proj2 (Z.ltb_ge _ _)) in Ht by lia.
      rewrite Ht, (proj2 (Z.eqb_neq hi 0)), Hz by lia. apply nth_zero.
    + destruct (Z.eqb_spec (baddr v x (o / BSIZE)) 0); [done|]. by rewrite Hsame.
Qed.
Lemma inode_ok_addr k a x : inode_ok x -> 0 <= k <= 12 -> 0 <= a < 2 ^ 32 -> inode_ok (set_iaddr k a x).
Proof.
  intros [H1 H2 H3 H4 H5 Hl H6] Hk Ha. split; try done; cbn [i_addrs set_iaddr]; [by rewrite length_insert|].
  by apply Forall_insert.
Qed.

Section Steps.
Variables (v : Z -> block) (x : inode) (bs : list Z) (n lo hi : Z) (i : bool).
Hypotheses (Hlo : 0 < lo) (Hhi : lo <= hi < FSSIZE) (Hb : has_blocks v x bs n i lo hi) (Hz : v hi = zero_block).

Lemma fresh_addr : 0 <= hi < 2 ^ 32.
Proof. change FSSIZE with 2000 in Hhi. lia. Qed.
Lemma ok_len : length (i_addrs x) = 13%nat.
Proof. apply (hb_inode _ _ _ _ _ _ _ Hb). Qed.

(** The next block is one of the inode's own addresses. *)
Lemma has_direct : 0 <= n < NDIRECT -> let x' := set_iaddr n hi x in
  has_blocks v x' bs (n + 1) i lo (hi + 1) /\ grows v x hi v x' (hi + 1) /\ baddr v x' n = hi.
Proof.
  change NDIRECT with 12. intros Hn x'. pose proof ok_len as Hlen. pose proof fresh_addr as Hf.
  assert (addr_at x' 12 = addr_at x 12) as Hi by (unfold x'; rewrite addr_at_set by lia; destruct (Z.eqb_spec 12 n); [lia|done]).
  assert (forall k, 0 <= k < MAXFILE -> baddr v x' k = if k =? n then hi else baddr v x k) as Hba.
  { intros k Hk. unfold baddr. change NDIRECT with 12. rewrite Hi. destruct (Z.ltb_spec k 12); [unfold x'; by rewrite addr_at_set by lia|].
    by destruct (Z.eqb_spec k n); [lia|]. }
  split; [|split].
  - apply (has_add v x); [done|lia|done| |change MAXFILE with 268; lia|done|done|done|done].
    apply inode_ok_addr; [apply Hb|lia|done].
  - split; [lia| |done|done|done]. intros a [Ha [E|(k & Hk & E)]].
    + left. split; [done|]. left. rewrite E. exact Hi.
    + rewrite Hba in E by done. destruct (Z.eqb_spec k n); [right; lia|left]. subst a. by apply owns_block.
  - rewrite Hba, Z.eqb_refl by (change MAXFILE with 268; lia). done.
Qed.

(** The inode gets a zero indirect block. *)
Lemma has_indirect : i = false -> n <= NDIRECT -> let x' := set_iaddr NDIRECT hi x in
  has_blocks v x' bs n true lo (hi + 1) /\ grows v x hi v x' (hi + 1) /\ addr_at x' NDIRECT = hi.
Proof.
  change NDIRECT with 12. intros Hif Hn x'. pose proof ok_len as Hlen. pose proof fresh_addr as Hf.
  pose proof (hb_ind _ _ _ _ _ _ _ Hb) as Hi0. rewrite Hif in Hi0. change NDIRECT with 12 in Hi0.
  assert (addr_at x' 12 = hi) as Hi by (unfold x'; rewrite addr_at_set by lia; done).
  assert (forall k, 0 <= k < MAXFILE -> baddr v x' k = baddr v x k) as Hba.
  { intros k Hk. unfold baddr. change NDIRECT with 12. rewrite Hi, Hi0, (proj2 (Z.eqb_neq hi 0)), Hz by lia. destruct (Z.ltb_spec k 12).
    - unfold x'. rewrite addr_at_set by lia. by destruct (Z.eqb_spec k 12); [lia|].
    - apply get_le_zero. }
  assert (forall k, 0 <= k < MAXFILE -> baddr v x k < hi) as Hlt.
  { intros k Hk. pose proof (hb_there _ _ _ _ _ _ _ Hb k Hk) as Ht. destruct (k <? n); lia. }
  split; [split|split; [split|done]].
  - apply inode_ok_addr; [apply Hb|lia|done].
  - intros k Hk. rewrite Hba by done. pose proof (hb_there _ _ _ _ _ _ _ Hb k Hk). destruct (k <? n); lia.
  - change NDIRECT with 12. lia.
  - intros k k' Hk Hk'. rewrite !Hba by done. by apply (hb_inj _ _ _ _ _ _ _ Hb).
  - intros k Hk. rewrite Hba by done. intros _. change NDIRECT with 12. pose proof (Hlt k Hk). lia.
  - intros o Ho. rewrite <- (hb_bytes _ _ _ _ _ _ _ Hb o Ho). unfold content.
    rewrite Hba by (by apply (block_range o (MAXFILE * BSIZE - o)); lia). done.
  - lia.
  - intros a [Ha [->|(k & Hk & E)]]; [right; change NDIRECT with 12; lia|left]. rewrite Hba in E by done. subst a. by apply owns_block.
  - done.
  - done.
  - done.
Qed.

(** The next block is an entry of the indirect block. *)
Lemma has_entry v' : let ind := addr_at x NDIRECT in i = true -> NDIRECT <= n < MAXFILE -> is_blk (v ind) ->
  v' ind = put32 (4 * (n - NDIRECT)) hi (v ind) -> (forall b, 0 <= b -> b <> ind -> v' b = v b) ->
  has_blocks v' x bs (n + 1) i lo (hi + 1) /\ grows v x hi v' x (hi + 1) /\ baddr v' x n = hi.
Proof.
  intros ind Hit Hn [Hl _] Hi Hv. change NDIRECT with 12 in *. change MAXFILE with 268 in *. change (Z.to_nat BSIZE) with 1024%nat in Hl.
  pose proof (hb_ind _ _ _ _ _ _ _ Hb) as Hi0. rewrite Hit in Hi0. change NDIRECT with 12 in Hi0. fold ind in Hi0. pose proof fresh_addr as Hf.
  assert (forall k, 0 <= k < 268 -> baddr v' x k = if k =? n then hi else baddr v x k) as Hba.
  { intros k Hk. unfold baddr. change NDIRECT with 12. fold ind. rewrite Hi, (proj2 (Z.eqb_neq ind 0)) by lia.
    destruct (Z.ltb_spec k 12), (Z.eqb_spec k n); [lia|done| |].
    - subst k. rewrite get_put_same by lia. apply Z.mod_small. done.
    - apply get_put_other; lia. }
  split; [|split].
  - apply (has_add v x); [done|lia|done|apply Hb|change MAXFILE with 268; lia|done|done| |].
    + rewrite Hv by lia. done.
    + intros k Hk Hne. pose proof (hb_there _ _ _ _ _ _ _ Hb k Hk) as Ht. apply Hv; [destruct (k <? n); lia|by apply (hb_ne _ _ _ _ _ _ _ Hb)].
  - split; [lia| | | |done].
    + intros a [Ha [->|(k & Hk & E)]]; [left; split; [done|by left]|]. rewrite Hba in E by done.
      destruct (Z.eqb_spec k n); [right; lia|left]. subst a. by apply owns_block.
    + intros b Hb' Hno. apply Hv; [lia|]. intros ->. apply Hno. split; [lia|by left].
    + intros b Hb'. apply Hv; lia.
  - rewrite Hba, Z.eqb_refl by lia. done.
Qed.
End Steps.

(** A data block of the file replaced. *)
Lemma has_write v v' x bs bs' n i lo hi k d : 0 < lo -> has_blocks v x bs n i lo hi -> 0 <= k < MAXFILE -> k < n ->
  v' (baddr v x k) = d -> (forall b, 0 <= b -> b <> baddr v x k -> v' b = v b) ->
  (forall o, 0 <= o < MAXFILE * BSIZE -> (if o / BSIZE =? k then nth (Z.to_nat (o mod BSIZE)) d 0 else nth (Z.to_nat o) bs 0) = nth (Z.to_nat o) bs' 0) ->
  has_blocks v' x bs' n i lo hi /\ grows v x hi v' x hi.
Proof.
  intros Hlo Hb Hk Hkn Hd Hv Hbs. pose proof (hb_there _ _ _ _ _ _ _ Hb) as Ht. pose proof (Ht k Hk) as Htk.
  rewrite (proj2 (Z.ltb_lt k n)) in Htk by done. pose proof (hb_ind _ _ _ _ _ _ _ Hb) as Hi.
  assert (forall j, baddr v' x j = baddr v x j) as Hba.
  { intros j. unfold baddr. destruct (_ <? _); [done|]. destruct (Z.eqb_spec (addr_at x NDIRECT) 0); [done|]. f_equal.
    destruct i; [|done]. apply Hv; [lia|]. intros E. apply (hb_ne _ _ _ _ _ _ _ Hb k Hk); [lia|done]. }
  split; [split|split].
  - apply Hb.
  - intros j Hj. rewrite Hba. by apply Ht.
  - done.
  - intros j j'. rewrite !Hba. apply Hb.
  - intros j. rewrite Hba. apply Hb.
  - intros o Ho. rewrite <- Hbs by done. rewrite <- (hb_bytes _ _ _ _ _ _ _ Hb o Ho). unfold content. rewrite Hba.
    pose proof (block_range o (MAXFILE * BSIZE - o) ltac:(lia) ltac:(lia) ltac:(lia)) as Hq.
    destruct (Z.eqb_spec (o / BSIZE) k) as [->|Hne].
    + rewrite (proj2 (Z.eqb_neq _ 0)) by lia. by rewrite Hd.
    + destruct (Z.eqb_spec (baddr v x (o / BSIZE)) 0) as [|Hz]; [done|]. rewrite Hv; [done| |].
      * specialize (Ht _ Hq). destruct (o / BSIZE <? n); lia.
      * intros E. by apply Hne, (hb_inj _ _ _ _ _ _ _ Hb).
  - lia.
  - intros a [Ha Ho]. left. split; [done|]. destruct Ho as [?|(j & Hj & E)]; [by left|right]. exists j. by rewrite <- Hba.
  - intros b Hb' Hno. apply Hv; [lia|]. intros ->. apply Hno, owns_block; [done|lia].
  - intros b Hb'. apply Hv; lia.
  - done.
Qed.

(** ** iappend *)

(** The blocks not handed out yet are zero. *)
Record base (s : mkst) : Prop := {
  bs_img : img_ok s;
  bs_free : nmeta <= m_freeblock s <= FSSIZE;
  bs_zero : forall b, m_freeblock s <= b < FSSIZE -> vw s b = zero_block;
}.
Definition bump (s : mkst) : mkst := Mkst (m_img s) (m_freeinode s) (m_freeblock s + 1).
Lemma next_block_ok s : base s -> m_freeblock s < FSSIZE ->
  next_block s = MDone (m_freeblock s) (bump s) /\ base (bump s) /\ xint (m_freeblock s) = m_freeblock s.
Proof.
  intros [H1 H2 H3] Hlt. change FSSIZE with 2000 in *. change nmeta with 47 in *. unfold next_block, bump.
  rewrite xint_small, u_small by lia. split; [done|]. split; [|done]. split; [done|change FSSIZE with 2000; change nmeta with 47; cbn [m_freeblock]; lia|].
  cbn [m_freeblock]. change FSSIZE with 2000. intros b Hb. exact (H3 b ltac:(lia)).
Qed.

Lemma base_put s b d : base s -> 0 <= b < m_freeblock s -> is_blk d ->
  wsect b d s = MDone tt (put_sect b d s) /\ base (put_sect b d s) /\
  vw (put_sect b d s) b = d /\ forall b', 0 <= b' -> b' <> b -> vw (put_sect b d s) b' = vw s b'.
Proof.
  intros [H1 H2 H3] Hb Hd. destruct (wsect_ok s b d H1 ltac:(lia) Hd) as (E & Hok & Hv). split; [done|]. split; [|split].
  - split; [done|done|]. cbn [m_freeblock put_sect set_img]. intros b' Hb'. rewrite Hv by lia. destruct (Z.eqb_spec b' b); [lia|by apply H3].
  - rewrite Hv by lia. by rewrite Z.eqb_refl.
  - intros b' Hb' Hne. rewrite Hv by lia. by destruct (Z.eqb_spec b' b).
Qed.

(** Entry [n] of the indirect block, which was empty. *)
Lemma entry_step s x bs n : base s -> has_blocks (vw s) x bs n true nmeta (m_freeblock s) -> NDIRECT <= n < MAXFILE ->
  m_freeblock s < FSSIZE -> let ind := addr_at x NDIRECT in let d := put32 (4 * (n - NDIRECT)) (m_freeblock s) (vw s ind) in
  let s' := put_sect ind d (bump s) in
  rsect ind s = MDone (vw s ind) s /\ get32 (4 * (n - NDIRECT)) (vw s ind) = 0 /\ wsect ind d (bump s) = MDone tt s' /\
  get32 (4 * (n - NDIRECT)) d = m_freeblock s /\ base s' /\
  has_blocks (vw s') x bs (n + 1) true nmeta (m_freeblock s') /\ baddr (vw s') x n = m_freeblock s /\
  grows (vw s) x (m_freeblock s) (vw s') x (m_freeblock s').
Proof.
  intros B Hb Hn Hlt ind d s'. destruct (next_block_ok s B Hlt) as (_ & B' & _). pose proof (bs_free s B) as Hf.
  pose proof (hb_ind _ _ _ _ _ _ _ Hb) as Hi. cbv iota in Hi. fold ind in Hi. pose proof (vw_blk s ind (bs_img s B)) as Hib. pose proof Hib as [Hil _].
  change FSSIZE with 2000 in *. change nmeta with 47 in *. change NDIRECT with 12 in *. change MAXFILE with 268 in *. change (Z.to_nat BSIZE) with 1024%nat in Hil.
  assert (is_blk d) as Hd by (apply is_blk_put32; [done|lia|change BSIZE with 1024; lia]).
  destruct (base_put (bump s) ind d B' ltac:(cbn [m_freeblock bump]; lia) Hd) as (E & B2 & Vi & Vo).
  destruct (has_entry (vw s) x bs n 47 (m_freeblock s) true ltac:(lia) ltac:(change FSSIZE with 2000; lia) Hb
    (bs_zero s B (m_freeblock s) ltac:(change FSSIZE with 2000; lia)) (vw s')) as (A1 & A2 & A3); try done.
  split; [apply rsect_ok; [apply B|change FSSIZE with 2000; lia]|]. split.
  - pose proof (hb_there _ _ _ _ _ _ _ Hb n ltac:(change MAXFILE with 268; lia)) as Ht. rewrite Z.ltb_irrefl in Ht. unfold baddr in Ht. change NDIRECT with 12 in Ht.
    fold ind in Ht. rewrite (proj2 (Z.ltb_ge n 12)), (proj2 (Z.eqb_neq ind 0)) in Ht by lia. done.
  - split; [done|]. split; [|done]. unfold d. rewrite get_put_same by lia. apply Z.mod_small. lia.
Qed.

Lemma append_block_there s x bs n k : base s -> has_blocks (vw s) x bs n (12 <? n) nmeta (m_freeblock s) -> 0 <= k < MAXFILE -> k < n ->
  append_block x k s = MDone (x, baddr (vw s) x k) s.
Proof.
  intros B Hb Hk Hkn. pose proof (bs_free s B) as Hf. pose proof (hb_there _ _ _ _ _ _ _ Hb k Hk) as Ht. pose proof (hb_ind _ _ _ _ _ _ _ Hb) as Hi.
  rewrite (proj2 (Z.ltb_lt k n)) in Ht by lia. unfold append_block, baddr in *. change nmeta with 47 in *. change NDIRECT with 12 in *.
  destruct (Z.ltb_spec k 12) as [Hk'|Hk'].
  - rewrite (proj2 (Z.eqb_neq _ 0)) by lia. done.
  - rewrite (proj2 (Z.ltb_lt 12 n)) in Hi by lia. rewrite (proj2 (Z.eqb_neq (addr_at x 12) 0)) in * by lia.
    rewrite (mbind_done _ _ _ x s) by done. mstep (rsect_ok s (addr_at x 12) (bs_img s B) ltac:(change FSSIZE with 2000 in *; lia)).
    rewrite (proj2 (Z.eqb_neq _ 0)) by lia. done.
Qed.
Lemma indirect_step s x bs n : base s -> has_blocks (vw s) x bs n (12 <? n) nmeta (m_freeblock s) -> 12 <= n ->
  m_freeblock s + (if 12 <? n then 0 else 1) <= FSSIZE ->
  exists x1 s1, (if addr_at x NDIRECT =? 0 then b ← next_block; mret (set_iaddr NDIRECT (xint b) x) else mret x) s = MDone x1 s1 /\ base s1 /\
    has_blocks (vw s1) x1 bs n true nmeta (m_freeblock s1) /\ grows (vw s) x (m_freeblock s) (vw s1) x1 (m_freeblock s1) /\
    m_freeblock s1 = m_freeblock s + (if 12 <? n then 0 else 1) /\ m_freeinode s1 = m_freeinode s.
Proof.
  intros B Hb Hn Hroom. pose proof (bs_free s B) as Hf. pose proof (hb_ind _ _ _ _ _ _ _ Hb) as Hi.
  change nmeta with 47 in *. change NDIRECT with 12 in *. destruct (Z.ltb_spec 12 n) as [Hn'|Hn'].
  - exists x, s. rewrite (proj2 (Z.eqb_neq _ 0)) by lia. split; [done|]. split; [done|]. split; [done|]. split; [apply grows_refl|]. split; [lia|done].
  - rewrite Hi. destruct (next_block_ok s B ltac:(lia)) as (E & B' & Ex).
    destruct (has_indirect (vw s) x bs n 47 (m_freeblock s) false ltac:(lia) ltac:(lia) Hb (bs_zero s B (m_freeblock s) ltac:(lia)) eq_refl ltac:(change NDIRECT with 12; lia)) as (A1 & A2 & _).
    exists (set_iaddr 12 (m_freeblock s) x), (bump s). split; [|done]. change (0 =? 0) with true. cbv iota. mstep E. by rewrite Ex.
Qed.

Lemma append_block_spec s x bs n k : base s -> has_blocks (vw s) x bs n (12 <? n) nmeta (m_freeblock s) -> 0 <= k < MAXFILE ->
  k + 1 = n \/ k = n -> m_freeblock s + with_ind (k + 1) - with_ind n <= FSSIZE ->
  exists x' s', append_block x k s = MDone (x', baddr (vw s') x' k) s' /\ base s' /\
    has_blocks (vw s') x' bs (k + 1) (12 <? k + 1) nmeta (m_freeblock s') /\
    grows (vw s) x (m_freeblock s) (vw s') x' (m_freeblock s') /\
    m_freeblock s' = m_freeblock s + with_ind (k + 1) - with_ind n /\ m_freeinode s' = m_freeinode s.
Proof.
  intros B Hb Hk Hkn Hroom. pose proof (bs_free s B) as Hf. destruct Hkn as [Hkn|Hkn].
  { exists x, s. rewrite (append_block_there s x bs n k B Hb Hk) by lia. rewrite Hkn.
    split; [done|split; [done|split; [done|split; [apply grows_refl|split; [lia|done]]]]]. }
  subst k. pose proof (hb_there _ _ _ _ _ _ _ Hb n Hk) as Ht. rewrite Z.ltb_irrefl in Ht. unfold append_block, with_ind in *.
  change nmeta with 47 in *. change NDIRECT with 12 in *. change MAXFILE with 268 in *. destruct (Z.ltb_spec n 12) as [Hn|Hn].
  { (* a direct block *)
    rewrite (proj2 (Z.ltb_ge 12 n)) in * by lia. rewrite (proj2 (Z.ltb_ge 12 (n + 1))) in * by lia.
    destruct (next_block_ok s B ltac:(lia)) as (E & B' & Ex). unfold baddr in Ht at 1. change NDIRECT with 12 in Ht. rewrite (proj2 (Z.ltb_lt n 12)) in Ht by done.
    destruct (has_direct (vw s) x bs n 47 (m_freeblock s) false ltac:(lia) ltac:(lia) Hb (bs_zero s B (m_freeblock s) ltac:(lia)) ltac:(change NDIRECT with 12; lia)) as (A1 & A2 & A3).
    exists (set_iaddr n (m_freeblock s) x), (bump s). split; [|split; [done|split; [done|split; [done|split; [cbn [m_freeblock bump]; lia|done]]]]].
    rewrite Ht. change (0 =? 0) with true. cbv iota. rewrite (mbind_done _ _ s (set_iaddr n (m_freeblock s) x) (bump s)).
    - change (vw (bump s)) with (vw s). rewrite A3. unfold baddr in A3. change NDIRECT with 12 in A3. rewrite (proj2 (Z.ltb_lt n 12)) in A3 by done. by rewrite A3.
    - mstep E. by rewrite Ex. }
  rewrite (proj2 (Z.ltb_lt 12 (n + 1))) in * by lia.
  destruct (indirect_step s x bs n B Hb Hn ltac:(destruct (12 <? n); lia)) as (x1 & s1 & E1 & B1 & Hb1 & G1 & F1 & I1).
  assert (m_freeblock s1 < FSSIZE) as Hlt by (destruct (12 <? n); lia).
  destruct (entry_step s1 x1 bs n B1 Hb1 ltac:(change NDIRECT with 12; change MAXFILE with 268; lia) Hlt) as (R1 & R2 & R3 & R4 & R5 & R6 & R7 & R8).
  change NDIRECT with 12 in *. destruct (next_block_ok s1 B1 Hlt) as (E & _ & Ex).
  eexists x1, _. split; [|split; [exact R5|split; [exact R6|split; [by apply (grows_trans _ _ _ _ _ _ _ _ _ G1 R8)|]]]].
  - mstep E1. mstep R1. rewrite R2. change (0 =? 0) with true. cbv iota.
    erewrite (mbind_done (next_block ≫= _) _ s1); [rewrite R4, R7; reflexivity|]. mstep E. rewrite Ex. mstep R3. reflexivity.
  - cbn [m_freeblock m_freeinode put_sect set_img bump]. split; [destruct (12 <? n); lia|done].
Qed.

(** What appending to a file does. *)
Record appended (s : mkst) (x : inode) (bs : list Z) (s' : mkst) (x' : inode) (bs' : list Z) : Prop := {
  ap_base : base s';
  ap_file : holds_file (vw s') x' bs' nmeta (m_freeblock s');
  ap_grows : grows (vw s) x (m_freeblock s) (vw s') x' (m_freeblock s');
  ap_free : m_freeblock s' = m_freeblock s + nblk (Z.of_nat (length bs')) - nblk (Z.of_nat (length bs));
  ap_inode : m_freeinode s' = m_freeinode s;
}.
Lemma appended_trans s x bs s1 x1 bs1 s2 x2 bs2 : appended s x bs s1 x1 bs1 -> appended s1 x1 bs1 s2 x2 bs2 -> appended s x bs s2 x2 bs2.
Proof. intros [A1 A2 A3 A4 A5] [B1 B2 B3 B4 B5]. split; try done; [by eapply grows_trans|lia|congruence]. Qed.

Lemma nth_wr_bytes off b d j : 0 <= off -> 0 <= j -> off + Z.of_nat (length b) <= Z.of_nat (length d) ->
  nth (Z.to_nat j) (wr_bytes off b d) 0 = if bool_decide (off <= j < off + Z.of_nat (length b)) then nth (Z.to_nat (j - off)) b 0 else nth (Z.to_nat j) d 0.
Proof.
  intros H0 Hj Hl. unfold wr_bytes. rewrite !nth_lookup. case_bool_decide as Hin.
  - rewrite lookup_app_r by (rewrite length_take; lia). rewrite lookup_app_l by (rewrite length_take; lia).
    rewrite length_take. do 2 f_equal. lia.
  - destruct (decide (j < off)).
    + rewrite lookup_app_l by (rewrite length_take; lia). by rewrite lookup_take_lt by lia.
    + rewrite lookup_app_r by (rewrite length_take; lia). rewrite lookup_app_r by (rewrite length_take; lia).
      rewrite lookup_drop, !length_take. do 2 f_equal. lia.
Qed.

Lemma piece_blocks off m : 0 <= off -> 0 < m -> off mod 1024 + m <= 1024 ->
  ndata (off + m) = off / 1024 + 1 /\ (off / 1024 + 1 = ndata off \/ off / 1024 = ndata off).
Proof. intros. unfold ndata. Z.to_euclidean_division_equations. lia. Qed.
Lemma nblk_mono n m : 0 <= n <= m -> nblk n <= nblk m.
Proof.
  intros H. assert (ndata n <= ndata m) by (apply Z.div_le_mono; lia). unfold nblk, with_ind.
  destruct (Z.ltb_spec 12 (ndata n)), (Z.ltb_spec 12 (ndata m)); lia.
Qed.
Lemma is_blk_wr d off b : is_blk d -> 0 <= off -> off + Z.of_nat (length b) <= 1024 -> Forall is_byte b -> is_blk (wr_bytes off b d).
Proof.
  intros [Hl HF] H0 Ho Hb. change (Z.to_nat BSIZE) with 1024%nat in Hl. split; [rewrite length_wr_bytes; [done|lia|lia]|].
  unfold wr_bytes. apply Forall_app. split; [by apply Forall_take|]. apply Forall_app. split; [done|by apply Forall_drop].
Qed.

(** The contents after a piece was written to the last block. *)
Lemma piece_bytes v x bs n i lo hi b : let off := Z.of_nat (length bs) in let k := off / 1024 in
  has_blocks v x bs n i lo hi -> 0 < lo -> 0 <= k < MAXFILE -> k < n -> is_blk (v (baddr v x k)) ->
  off mod 1024 + Z.of_nat (length b) <= 1024 ->
  forall o, 0 <= o < MAXFILE * BSIZE ->
    (if o / BSIZE =? k then nth (Z.to_nat (o mod BSIZE)) (wr_bytes (off mod 1024) b (v (baddr v x k))) 0 else nth (Z.to_nat o) bs 0) =
    nth (Z.to_nat o) (bs ++ b) 0.
Proof.
  intros off k Hb Hlo Hk Hkn [Hl _] Hfit o Ho. change (Z.to_nat BSIZE) with 1024%nat in Hl. change BSIZE with 1024 in *.
  pose proof (Z.mod_pos_bound off 1024 ltac:(lia)). pose proof (Z.mod_pos_bound o 1024 ltac:(lia)).
  pose proof (Z.div_mod off 1024 ltac:(lia)) as Eoff. fold k in Eoff. pose proof (Z.div_mod o 1024 ltac:(lia)) as Eo.
  destruct (Z.eqb_spec (o / 1024) k) as [E|Hne].
  - rewrite nth_wr_bytes by lia. rewrite E in Eo. case_bool_decide as Hin.
    + rewrite app_nth2 by lia. f_equal. lia.
    + pose proof (hb_bytes _ _ _ _ _ _ _ Hb o Ho) as Ec. unfold content in Ec. change BSIZE with 1024 in Ec. rewrite E in Ec.
      pose proof (hb_there _ _ _ _ _ _ _ Hb k Hk) as Ht. rewrite (proj2 (Z.ltb_lt k n)) in Ht by done. rewrite (proj2 (Z.eqb_neq _ 0)) in Ec by lia.
      rewrite Ec. destruct (decide (o < off)); [by rewrite app_nth1 by lia|]. rewrite !nth_overflow; [done|rewrite length_app; lia|lia].
  - destruct (decide (o / 1024 < k)); [by rewrite app_nth1 by lia|]. rewrite !nth_overflow; [done|rewrite length_app; lia|lia].
Qed.

Section Append.
Variables (s : mkst) (x : inode) (bs p : list Z).
Hypotheses (B : base s) (HF : holds_file (vw s) x bs nmeta (m_freeblock s)) (Hp : Forall is_byte p).
Let off : Z := Z.of_nat (length bs).
Let k : Z := off / BSIZE.
Let n1 : Z := Z.min (Z.of_nat (length p)) (1024 - off mod 1024).
Hypotheses (Hne : p <> []) (Hfit : off + Z.of_nat (length p) <= MAXFILE * BSIZE)
  (Hroom : m_freeblock s + nblk (off + Z.of_nat (length p)) - nblk off <= FSSIZE).

(** One turn of the loop. *)
Lemma append_turn : exists x' s', let a := baddr (vw s') x' k in let b := take (Z.to_nat n1) p in
  let s'' := put_sect a (wr_bytes (off - k * BSIZE) b (vw s' a)) s' in
  0 <= k < MAXFILE /\ append_block x k s = MDone (x', a) s' /\ rsect a s' = MDone (vw s' a) s' /\
  wsect a (wr_bytes (off - k * BSIZE) b (vw s' a)) s' = MDone tt s'' /\ appended s x bs s'' x' (bs ++ b) /\
  Z.of_nat (length b) = n1 /\ 0 < n1 <= Z.of_nat (length p).
Proof.
  assert (0 < Z.of_nat (length p)) as Hpos by (destruct p; [done|simpl; lia]). destruct HF as [_ Hb].
  change MAXFILE with 268 in *. change BSIZE with 1024 in *.
  pose proof (Z.mod_pos_bound off 1024 ltac:(lia)) as Hm. pose proof (Z.div_mod off 1024 ltac:(lia)) as Eoff. fold k in Eoff.
  assert (0 < n1 <= Z.of_nat (length p)) as Hn1 by lia. assert (Z.of_nat (length (take (Z.to_nat n1) p)) = n1) as Hln by (rewrite length_take; lia).
  destruct (piece_blocks off n1 ltac:(lia) ltac:(lia) ltac:(lia)) as [Hd Hkn]. fold k in Hd, Hkn.
  assert (0 <= k < 268) as Hk by lia.
  assert (m_freeblock s + with_ind (k + 1) - with_ind (ndata off) <= FSSIZE) as Hr.
  { pose proof (nblk_mono (off + n1) (off + Z.of_nat (length p)) ltac:(lia)) as Hmo. unfold nblk at 1 in Hmo. rewrite Hd in Hmo. unfold nblk in *. lia. }
  destruct (append_block_spec s x bs (ndata off) k B Hb Hk Hkn Hr) as (x' & s' & E & B' & Hb' & G & F & I).
  exists x', s'. replace (off - k * 1024) with (off mod 1024) by lia. intros a b s''. pose proof (bs_free s' B') as Hf'. pose proof (vw_blk s' a (bs_img s' B')) as Hblk.
  pose proof (hb_there _ _ _ _ _ _ _ Hb' k Hk) as Ht. rewrite (proj2 (Z.ltb_lt k (k + 1))) in Ht by lia. fold a in Ht.
  change nmeta with 47 in *.
  assert (is_blk (wr_bytes (off mod 1024) b (vw s' a))) as Hw by (apply is_blk_wr; [done|lia|unfold b; lia|by apply Forall_take]).
  destruct (base_put s' a _ B' ltac:(lia) Hw) as (Ew & B'' & Vi & Vo).
  destruct (has_write (vw s') (vw s'') x' bs (bs ++ b) (k + 1) (12 <? k + 1) 47 (m_freeblock s') k _ ltac:(lia) Hb' Hk ltac:(lia) Vi Vo) as [Hb'' G''].
  { apply (piece_bytes (vw s') x' bs (k + 1) _ 47 (m_freeblock s') b Hb'); [lia|exact Hk|fold off; fold k; lia|exact Hblk|fold off; unfold b; lia]. }
  split; [done|]. split; [done|]. split; [apply rsect_ok; [apply B'|lia]|]. split; [done|]. split; [|done].
  assert (ndata (Z.of_nat (length (bs ++ b))) = k + 1) as Hnd by (rewrite length_app, Nat2Z.inj_add; fold off; unfold b; rewrite Hln; exact Hd).
  split; [done| |by apply (grows_trans _ _ _ _ _ _ _ _ _ G G'')| |done].
  - split; [rewrite length_app; fold off; unfold b; change MAXFILE with 268; change BSIZE with 1024; lia|]. by rewrite Hnd.
  - unfold nblk. rewrite Hnd. exact F.
Qed.
End Append.

Lemma append_loop_spec fuel : forall p s x bs, (length p <= fuel)%nat -> base s -> holds_file (vw s) x bs nmeta (m_freeblock s) ->
  Forall is_byte p -> let off := Z.of_nat (length bs) in off + Z.of_nat (length p) <= MAXFILE * BSIZE ->
  m_freeblock s + nblk (off + Z.of_nat (length p)) - nblk off <= FSSIZE ->
  exists x' s', append_loop fuel x off p s = MDone (x', off + Z.of_nat (length p)) s' /\ appended s x bs s' x' (bs ++ p).
Proof.
  induction fuel as [|fuel IH]; intros p s x bs Hfuel B HF Hp off Hfit Hroom; (destruct (decide (p = [])) as [->|Hne];
    [exists x, s; rewrite app_nil_r, Z.add_0_r; split; [done|split; [done|done|apply grows_refl|lia|done]]|]); [by destruct p; [|simpl in Hfuel; lia]|].
  destruct (append_turn s x bs p B HF Hp Hne Hfit Hroom) as (x1 & s1 & Hk & E1 & R1 & W1 & A1 & Hlen & Hn1).
  set (n1 := Z.min _ _) in *. set (b := take (Z.to_nat n1) p) in *. set (s2 := put_sect _ _ s1) in *.
  pose proof (length_drop p (Z.to_nat n1)) as Hld. assert (Z.of_nat (length (bs ++ b)) = off + n1) as Hlb by (rewrite length_app; lia).
  destruct (IH (drop (Z.to_nat n1) p) s2 x1 (bs ++ b) ltac:(lia) (ap_base _ _ _ _ _ _ A1) (ap_file _ _ _ _ _ _ A1) ltac:(by apply Forall_drop)) as (x' & s' & E & A).
  - rewrite Hlb, Hld. lia.
  - rewrite (ap_free _ _ _ _ _ _ A1), Hlb, Hld. replace (off + n1 + _) with (off + Z.of_nat (length p)) by lia. fold off. lia.
  - rewrite Hlb, Hld in E. exists x', s'. split.
    + destruct p as [|c p']; [done|]. cbn [append_loop]. unfold assert_. fold off. rewrite (proj2 (Z.ltb_lt (off / BSIZE) MAXFILE)) by apply Hk.
      rewrite (mbind_done _ _ s tt s) by done. fold off in E1, R1, W1. mstep E1.
      change BSIZE with 1024 in *. change MAXFILE with 268 in *. pose proof (Z.mod_pos_bound off 1024 ltac:(lia)) as Hm. pose proof (Z.div_mod off 1024 ltac:(lia)) as Eoff.
      rewrite (u_small 32 ((off / 1024 + 1) * 1024 - off)) by lia.
      replace (Z.min (Z.of_nat (length (c :: p'))) _) with n1 by (unfold n1; fold off; lia).
      mstep R1. mstep W1. rewrite u_small by lia. rewrite E. do 2 f_equal. lia.
    + rewrite <- app_assoc in A. unfold b at 2 in A. rewrite take_drop in A. by apply (appended_trans _ _ _ _ _ _ _ _ _ A1).
Qed.
