(* ===== verification/Image.v ===== *)
(** * What mkfs writes, the kernel reads (theorem on Mkfs.v)

    The image mkfs builds, seen through the kernel's own definitions: the
    superblock, the bitmap, the inodes and the contents of files. *)
From stdpp Require Import base numbers list gmap strings.
From Stdlib Require Import Ascii.
From S2P Require Import Prelude Kernel Sleeplock Bio Log Kstate Fs Txn Alloc Inode Content Rdwr Mkfs Append.

(** ** Inodes of the image *)

Definition dinode_at (v : Z -> block) (n : Z) : inode := get_dinode (n mod IPB) (v (IBLOCK n sb)) inode0.
(** The part of an inode that mkfs does not use. *)
Definition bare (x : inode) : Prop := (i_dev x, i_inum x, i_ref x, i_lock x, i_valid x) = (0, 0, 0, Sleeplock 0 0, false).

Lemma iblock_eq n : 0 <= n < NINODES -> IBLOCK n sb = n / 16 + 33 /\ 33 <= IBLOCK n sb < 46 /\ 0 <= n mod IPB < IPB.
Proof.
  intros Hn. change NINODES with 200 in Hn. unfold IBLOCK. change (sb_inodestart sb) with 33. change IPB with 16.
  pose proof (Z.div_pos n 16 ltac:(lia) ltac:(lia)). assert (n / 16 < 13) by (apply Z.div_lt_upper_bound; lia).
  rewrite u_small by lia. split; [done|]. split; [lia|]. apply Z.mod_pos_bound. lia.
Qed.
Lemma bare_eq x y : bare x -> bare y -> disk_part x = disk_part y -> x = y.
Proof. destruct x, y. unfold bare, disk_part. simpl. intros. simplify_eq. done. Qed.
Lemma dinode_bare v n : bare (dinode_at v n).
Proof. done. Qed.
Lemma rinode_ok s n : img_ok s -> 0 <= n < NINODES -> rinode n s = MDone (dinode_at (vw s) n) s.
Proof.
  intros Hok Hn. destruct (iblock_eq n Hn) as (_ & Hb & _). unfold rinode. mstep (rsect_ok s (IBLOCK n sb) Hok ltac:(change FSSIZE with 2000; lia)). done.
Qed.

Lemma put_dinode_blk k x d : 0 <= k < IPB -> inode_ok x -> is_blk d -> is_blk (put_dinode k x d).
Proof.
  intros Hk Hx [Hl HF]. split; [rewrite length_put_dinode; [done|done|done|apply Hx]|]. unfold put_dinode.
  assert (forall n off y e, Forall is_byte e -> Forall is_byte (put_le n off y e)) as Hp.
  { intros n off y e He. unfold put_le, wr_bytes. apply Forall_app. split; [by apply Forall_take|]. apply Forall_app.
    split; [apply le_split_bytes|by apply Forall_drop]. }
  assert (forall l off e, Forall is_byte e -> Forall is_byte (put_addrs off l e)) as Ha.
  { induction l as [|a l IH]; intros off e He; cbn [put_addrs]; [done|]. by apply IH, Hp. }
  by apply Ha, Hp, Hp, Hp, Hp, Hp.
Qed.

Lemma winode_ok s n x : base s -> 0 <= n < NINODES -> inode_ok x -> bare x ->
  exists s', winode n x s = MDone tt s' /\ base s' /\ m_freeinode s' = m_freeinode s /\ m_freeblock s' = m_freeblock s /\
    dinode_at (vw s') n = x /\ (forall n', 0 <= n' < NINODES -> n' <> n -> dinode_at (vw s') n' = dinode_at (vw s) n') /\
    forall b, 0 <= b -> b < 33 \/ 46 <= b -> vw s' b = vw s b.
Proof.
  intros B Hn Hx Hbare. destruct (iblock_eq n Hn) as (Hib & Hb & Hk). pose proof (bs_free s B) as Hf. change nmeta with 47 in Hf. change FSSIZE with 2000 in Hf.
  pose proof (vw_blk s (IBLOCK n sb) (bs_img s B)) as Hblk. pose proof Hblk as [Hlen _].
  destruct (base_put s (IBLOCK n sb) (put_dinode (n mod IPB) x (vw s (IBLOCK n sb))) B ltac:(lia) (put_dinode_blk _ _ _ Hk Hx Hblk)) as (E & B' & Vi & Vo).
  eexists. split; [|split; [exact B'|split; [done|split; [done|split; [|split]]]]].
  - unfold winode. mstep (rsect_ok s (IBLOCK n sb) (bs_img s B) ltac:(change FSSIZE with 2000; lia)). exact E.
  - unfold dinode_at. rewrite Vi. apply bare_eq; [done|done|]. by apply get_put_dinode.
  - intros n' Hn' Hne. destruct (iblock_eq n' Hn') as (Hib' & Hb' & Hk'). unfold dinode_at.
    destruct (decide (IBLOCK n' sb = IBLOCK n sb)) as [Eb|Nb]; [|rewrite Vo by lia; done]. rewrite Eb, Vi.
    apply get_put_dinode_other; [done|done| |done|apply Hx]. change IPB with 16 in *.
    pose proof (Z.div_mod n 16 ltac:(lia)). pose proof (Z.div_mod n' 16 ltac:(lia)). lia.
  - intros b Hb0 Hbr. apply Vo; lia.
Qed.

(** ** The image as a list of files *)

(** How many blocks files take: each is a type and its bytes. *)
Fixpoint total (fs : list (Z * list Z)) : Z :=
  match fs with [] => 0 | f :: fs => nblk (Z.of_nat (length f.2)) + total fs end.
Lemma nblk_nonneg n : 0 <= n -> 0 <= nblk n.
Proof. intros H. apply (nblk_mono 0 n). lia. Qed.
Lemma total_nonneg fs : 0 <= total fs.
Proof. induction fs as [|f fs IH]; cbn [total]; [done|]. pose proof (nblk_nonneg (Z.of_nat (length f.2)) ltac:(lia)). lia. Qed.
Lemma total_app fs fs' : total (fs ++ fs') = total fs + total fs'.
Proof. induction fs as [|f fs IH]; cbn [total app]; [done|lia]. Qed.
Lemma total_insert fs j f f' : fs !! j = Some f ->
  total (<[j := f']> fs) = total fs + nblk (Z.of_nat (length f'.2)) - nblk (Z.of_nat (length f.2)).
Proof.
  revert j. induction fs as [|g fs IH]; intros [|j] Hj; simpl in Hj |- *; [done|done|simplify_eq; lia|]. rewrite (IH j Hj). lia.
Qed.

(** Inode [x] of the image is a file of type [ty] with the bytes [bs]. *)
Record is_file (v : Z -> block) (x : inode) (ty : Z) (bs : list Z) (hi : Z) : Prop := {
  if_meta : (i_type x, i_major x, i_minor x, i_nlink x, i_size x) = (ty, 0, 0, 1, Z.of_nat (length bs));
  if_bare : bare x;
  if_holds : holds_file v x bs nmeta hi;
}.
(** The image holds the files [fs], the first as inode 1. *)
Record image (s : mkst) (fs : list (Z * list Z)) : Prop := {
  im_base : base s;
  im_inodes : m_freeinode s = 1 + Z.of_nat (length fs);
  im_max : m_freeinode s <= NINODES;
  im_blocks : m_freeblock s = nmeta + total fs;
  im_file : forall j ty bs, fs !! j = Some (ty, bs) -> is_file (vw s) (dinode_at (vw s) (1 + Z.of_nat j)) ty bs (m_freeblock s);
  im_apart : forall j j' a, (j < length fs)%nat -> (j' < length fs)%nat -> j <> j' ->
    owns (vw s) (dinode_at (vw s) (1 + Z.of_nat j)) a -> ~ owns (vw s) (dinode_at (vw s) (1 + Z.of_nat j')) a;
  im_free : forall n, m_freeinode s <= n < NINODES -> i_type (dinode_at (vw s) n) = 0;
  im_sb : vw s 1 = sb_block;
  im_log : forall b, 2 <= b < 33 -> vw s b = zero_block;
}.

(** A file's blocks are what matters for it. *)
Lemma holds_frame v v' x bs lo hi hi' : 0 < lo -> holds_file v x bs lo hi -> hi <= hi' -> (forall a, owns v x a -> v' a = v a) ->
  holds_file v' x bs lo hi' /\ forall a, owns v' x a <-> owns v x a.
Proof.
  intros Hlo [Hm Hb] Hhi Hv.
  assert (forall k, baddr v' x k = baddr v x k) as Hba.
  { intros k. unfold baddr. destruct (k <? NDIRECT); [done|]. destruct (Z.eqb_spec (addr_at x NDIRECT) 0); [done|]. f_equal. apply Hv. split; [done|by left]. }
  split; [split; [done|split]|].
  - apply Hb.
  - intros k Hk. rewrite Hba. pose proof (hb_there _ _ _ _ _ _ _ Hb k Hk). destruct (k <? ndata _); lia.
  - pose proof (hb_ind _ _ _ _ _ _ _ Hb) as Hi. destruct (12 <? ndata _); lia.
  - intros k k'. rewrite !Hba. apply Hb.
  - intros k. rewrite Hba. apply Hb.
  - intros o Ho. rewrite <- (hb_bytes _ _ _ _ _ _ _ Hb o Ho). unfold content. rewrite Hba.
    pose proof (block_range o (MAXFILE * BSIZE - o) ltac:(lia) ltac:(lia) ltac:(lia)) as Hq.
    destruct (Z.eqb_spec (baddr v x (o / BSIZE)) 0); [done|]. by rewrite Hv by (by apply owns_block).
  - intros a. unfold owns. split; (intros [Ha Ho]; split; [done|]; destruct Ho as [?|(k & Hk & E)]; [by left|right; exists k; split; [done|]; congruence]).
Qed.
Lemma holds_size v x bs lo hi m : in_u 32 m -> holds_file v x bs lo hi -> holds_file v (set_isize m x) bs lo hi.
Proof. intros Hu [Hm [[] ? ? ? ? ?]]. split; [done|]. by split. Qed.
Lemma owns_meta v fs s j a : image s fs -> (j < length fs)%nat -> v = vw s -> owns v (dinode_at v (1 + Z.of_nat j)) a -> nmeta <= a < m_freeblock s.
Proof.
  intros I Hj -> Ho. destruct (lookup_lt_is_Some_2 fs j Hj) as [[ty bs] E].
  destruct (if_holds _ _ _ _ _ (im_file s fs I j ty bs E)) as [_ Hb]. by apply (has_owns _ _ _ _ _ nmeta _ a eq_refl Hb).
Qed.
(** A file whose blocks are as before. *)
Lemma image_kept s fs s2 j ty bs : let y := dinode_at (vw s) (1 + Z.of_nat j) in image s fs -> fs !! j = Some (ty, bs) ->
  m_freeblock s <= m_freeblock s2 -> (forall a, nmeta <= a < m_freeblock s -> owns (vw s) y a -> vw s2 a = vw s a) ->
  is_file (vw s2) y ty bs (m_freeblock s2) /\ forall a, owns (vw s2) y a <-> owns (vw s) y a.
Proof.
  intros y I Hj Hle Hv. destruct (im_file _ _ I j ty bs Hj) as [F1 F2 F3]. fold y in F1, F2, F3.
  destruct (holds_frame (vw s) (vw s2) y bs nmeta (m_freeblock s) (m_freeblock s2) eq_refl F3 Hle) as [H1 H2]; [|by split].
  intros a Ha. apply Hv; [|done]. by apply (owns_meta (vw s) fs s j a I (lookup_lt_Some _ _ _ Hj)).
Qed.

Section Grow.
Variables (s s1 s2 : mkst) (fs : list (Z * list Z)) (j : nat) (ty : Z) (bs bs' : list Z) (x' : inode).
Let n : Z := 1 + Z.of_nat j.
Let x : inode := dinode_at (vw s) n.
Let x2 : inode := set_isize (Z.of_nat (length bs')) x'.
Hypotheses (I : image s fs) (Hj : fs !! j = Some (ty, bs)) (A : appended s x bs s1 x' bs')
  (Hi2 : m_freeinode s2 = m_freeinode s1) (Hb2 : m_freeblock s2 = m_freeblock s1) (B2 : base s2) (Hx2 : dinode_at (vw s2) n = x2)
  (Ho2 : forall n', 0 <= n' < NINODES -> n' <> n -> dinode_at (vw s2) n' = dinode_at (vw s1) n')
  (Hv2 : forall b, 0 <= b -> b < 33 \/ 46 <= b -> vw s2 b = vw s1 b).

Lemma grow_meta b : 0 <= b < nmeta -> vw s1 b = vw s b.
Proof.
  intros Hb. pose proof (bs_free s (im_base s fs I)). apply (gr_frame _ _ _ _ _ _ (ap_grows _ _ _ _ _ _ A)); [lia|].
  intros Ho. pose proof (owns_meta _ fs s j b I (lookup_lt_Some _ _ _ Hj) eq_refl Ho). lia.
Qed.
Lemma grow_other n' : 0 <= n' < NINODES -> n' <> n -> dinode_at (vw s2) n' = dinode_at (vw s) n'.
Proof.
  intros Hn Hne. rewrite Ho2 by done. destruct (iblock_eq n' Hn) as (_ & Hb & _). unfold dinode_at. rewrite grow_meta by (change nmeta with 47; lia). done.
Qed.
(** Another file keeps its contents and its blocks. *)
Lemma grow_kept j' ty' bs1 : fs !! j' = Some (ty', bs1) -> j' <> j -> let y := dinode_at (vw s) (1 + Z.of_nat j') in
  dinode_at (vw s2) (1 + Z.of_nat j') = y /\ is_file (vw s2) y ty' bs1 (m_freeblock s2) /\ forall a, owns (vw s2) y a <-> owns (vw s) y a.
Proof.
  intros Hj' Hne y. pose proof (lookup_lt_Some _ _ _ Hj') as Hlt. pose proof (im_max _ _ I) as Hmax. rewrite (im_inodes _ _ I) in Hmax.
  split; [apply grow_other; [lia|unfold n; lia]|]. apply (image_kept s fs); [done|done| |].
  - rewrite Hb2. apply (gr_le _ _ _ _ _ _ (ap_grows _ _ _ _ _ _ A)).
  - intros a Hr Ha. change nmeta with 47 in Hr. rewrite Hv2 by lia.
    apply (gr_frame _ _ _ _ _ _ (ap_grows _ _ _ _ _ _ A)); [lia|]. apply (im_apart _ _ I j' j a); [done|by eapply lookup_lt_Some|done|done].
Qed.
Lemma grow_file : is_file (vw s2) x2 ty bs' (m_freeblock s2) /\
  forall a, owns (vw s2) x2 a -> owns (vw s) x a \/ m_freeblock s <= a < m_freeblock s2.
Proof.
  pose proof (gr_meta _ _ _ _ _ _ (ap_grows _ _ _ _ _ _ A)) as Hm. destruct (im_file _ _ I j ty bs Hj) as [F1 F2 F3]. fold n x in F1, F2, F3.
  pose proof (ap_file _ _ _ _ _ _ A) as Hf. pose proof Hf as [Hmax Hb].
  destruct (holds_frame (vw s1) (vw s2) x' bs' nmeta (m_freeblock s1) (m_freeblock s2) ltac:(done) Hf ltac:(lia)) as [H1 H2].
  { intros a Ha. pose proof (has_owns _ _ _ _ _ nmeta _ a eq_refl Hb Ha) as Hr. change nmeta with 47 in Hr. apply Hv2; lia. }
  unfold meta in Hm. injection Hm as M1 M2 M3 M4 M5 M6 M7 M8 M9 M10. injection F1 as F11 F12 F13 F14 _. split; [split|].
  - unfold x2. cbn [i_type i_major i_minor i_nlink i_size set_isize]. congruence.
  - unfold x2, bare. cbn [i_dev i_inum i_ref i_lock i_valid set_isize]. by rewrite M1, M2, M3, M4, M5.
  - apply holds_size; [|done]. change MAXFILE with 268 in Hmax. change BSIZE with 1024 in Hmax. unfold in_u. lia.
  - intros a Ha. rewrite Hb2. apply (gr_owns _ _ _ _ _ _ (ap_grows _ _ _ _ _ _ A)), H2. exact Ha.
Qed.
Lemma image_grow : image s2 (<[j := (ty, bs')]> fs).
Proof.
  pose proof (im_max _ _ I) as Hmax. pose proof (im_inodes _ _ I) as Hin. pose proof (lookup_lt_Some _ _ _ Hj) as Hlt.
  pose proof (ap_inode _ _ _ _ _ _ A) as Ai. destruct grow_file as [Hf Hown].
  assert (forall j', (j' < length fs)%nat -> j' <> j -> exists ty' bs1, fs !! j' = Some (ty', bs1)) as Hsome.
  { intros j' Hl _. destruct (lookup_lt_is_Some_2 fs j' Hl) as [[ty' bs1] E]. by exists ty', bs1. }
  assert (forall j' a, (j' < length fs)%nat -> j' <> j -> owns (vw s2) (dinode_at (vw s2) (1 + Z.of_nat j')) a -> ~ owns (vw s2) x2 a) as Hap.
  { intros j' a Hl Hne Ho Ho2'. destruct (Hsome j' Hl Hne) as (ty' & bs1 & E). destruct (grow_kept j' ty' bs1 E Hne) as (Ed & _ & Hw).
    rewrite Ed in Ho. apply Hw in Ho. destruct (Hown a Ho2') as [Hx|Hx]; [by apply (im_apart _ _ I j' j a)|].
    pose proof (owns_meta _ fs s j' a I Hl eq_refl Ho). lia. }
  split.
  - done.
  - rewrite length_insert. congruence.
  - congruence.
  - rewrite (total_insert _ _ _ _ Hj), Hb2, (ap_free _ _ _ _ _ _ A), (im_blocks _ _ I). cbn [snd]. lia.
  - intros j' ty' bs1 E. destruct (decide (j' = j)) as [->|Hne].
    + rewrite list_lookup_insert_eq in E by done. simplify_eq. fold n. by rewrite Hx2.
    + rewrite list_lookup_insert_ne in E by done. by destruct (grow_kept j' ty' bs1 E Hne) as (-> & ? & _).
  - rewrite length_insert. intros j1 j2 a H1 H2 Hne Ho1 Ho2'. destruct (decide (j1 = j)) as [->|N1], (decide (j2 = j)) as [->|N2].
    + done.
    + fold n in Ho1. rewrite Hx2 in Ho1. by apply (Hap j2 a H2 N2).
    + fold n in Ho2'. rewrite Hx2 in Ho2'. by apply (Hap j1 a H1 N1).
    + destruct (Hsome j1 H1 N1) as (t1 & b1 & E1). destruct (Hsome j2 H2 N2) as (t2 & b2 & E2).
      destruct (grow_kept j1 t1 b1 E1 N1) as (D1 & _ & W1). destruct (grow_kept j2 t2 b2 E2 N2) as (D2 & _ & W2). rewrite D1 in Ho1. rewrite D2 in Ho2'.
      apply W1 in Ho1. apply W2 in Ho2'. by apply (im_apart _ _ I j1 j2 a).
  - rewrite Hi2, Ai. intros n' Hn'. rewrite grow_other; [by apply (im_free _ _ I)|lia|unfold n; lia].
  - rewrite Hv2, grow_meta by (done || lia). apply I.
  - intros b Hb. rewrite Hv2, grow_meta by (change nmeta with 47; lia). by apply (im_log _ _ I).
Qed.
End Grow.

Lemma iappend_spec s fs j ty bs p : image s fs -> fs !! j = Some (ty, bs) -> Forall is_byte p ->
  Z.of_nat (length bs) + Z.of_nat (length p) <= MAXFILE * BSIZE -> nmeta + total (<[j := (ty, bs ++ p)]> fs) <= FSSIZE ->
  exists s', iappend (1 + Z.of_nat j) p s = MDone tt s' /\ image s' (<[j := (ty, bs ++ p)]> fs).
Proof.
  intros I Hj Hp Hfit Hroom. pose proof (lookup_lt_Some _ _ _ Hj) as Hlt. pose proof (im_max _ _ I) as Hmax. rewrite (im_inodes _ _ I) in Hmax.
  destruct (im_file _ _ I j ty bs Hj) as [F1 F2 F3]. set (x := dinode_at (vw s) (1 + Z.of_nat j)) in *. pose proof (f_equal snd F1) as Fs. cbn [snd] in Fs.
  rewrite (total_insert _ _ _ _ Hj) in Hroom. cbn [snd] in Hroom. rewrite length_app, Nat2Z.inj_add in Hroom. pose proof (im_blocks _ _ I) as Hbl.
  destruct (append_loop_spec (S (length p)) p s x bs ltac:(lia) (im_base _ _ I) F3 Hp Hfit ltac:(lia)) as (x' & s1 & E & A).
  change MAXFILE with 268 in Hfit. change BSIZE with 1024 in Hfit. pose proof (gr_meta _ _ _ _ _ _ (ap_grows _ _ _ _ _ _ A)) as Hm.
  assert (holds_file (vw s1) (set_isize (Z.of_nat (length (bs ++ p))) x') (bs ++ p) nmeta (m_freeblock s1)) as [_ Hh].
  { apply holds_size; [rewrite length_app; unfold in_u; lia|apply (ap_file _ _ _ _ _ _ A)]. }
  unfold meta in Hm. injection Hm as M1 M2 M3 M4 M5 _ _ _ _ _.
  destruct (winode_ok s1 (1 + Z.of_nat j) (set_isize (Z.of_nat (length (bs ++ p))) x') (ap_base _ _ _ _ _ _ A) ltac:(lia) (hb_inode _ _ _ _ _ _ _ Hh)) as
    (s2 & E2 & B2 & Hi2 & Hb2 & Hx2 & Ho2 & Hv2); [unfold bare; cbn [i_dev i_inum i_ref i_lock i_valid set_isize]; by rewrite M1, M2, M3, M4, M5|].
  exists s2. split; [|by apply (image_grow s s1 s2 fs j ty bs (bs ++ p) x')].
  unfold iappend. mstep (rinode_ok s (1 + Z.of_nat j) (bs_img s (im_base _ _ I)) ltac:(lia)). fold x. rewrite Fs, xint_small by lia.
  mstep E. rewrite xint_small by lia. rewrite length_app, Nat2Z.inj_add in E2. exact E2.
Qed.

(** ** ialloc *)

Lemma holds_empty v x lo hi : inode_ok x -> i_addrs x = replicate 13 0 -> holds_file v x [] lo hi.
Proof.
  intros Hok Ha. destruct (zero_addrs v x Ha) as (Hk & Hb & _). split; [done|]. change (ndata _) with 0. change (12 <? 0) with false.
  split; [done| |apply Hk|intros; by rewrite Hb in *|intros; by rewrite Hb in *|].
  - intros k Hr. rewrite (proj2 (Z.ltb_ge k 0)) by lia. apply Hb.
  - intros o Ho. unfold content. rewrite Hb. by destruct (Z.to_nat o).
Qed.

Lemma ialloc_spec s fs ty : image s fs -> 0 < ty < 2 ^ 15 -> 1 + Z.of_nat (length fs) < NINODES ->
  exists s', ialloc ty s = MDone (1 + Z.of_nat (length fs)) s' /\ image s' (fs ++ [(ty, [])]).
Proof.
  intros I Hty Hn. pose proof (im_inodes _ _ I) as Hin. change NINODES with 200 in Hn. set (n := 1 + Z.of_nat (length fs)) in *.
  set (s1 := Mkst (m_img s) (n + 1) (m_freeblock s)). assert (base s1) as B1 by (destruct (im_base _ _ I); by split).
  set (din := Inode 0 0 0 (Sleeplock 0 0) false ty 0 0 1 0 (replicate 13 0)).
  assert (inode_ok din) as Hok by (split; cbn [din i_type i_major i_minor i_nlink i_size i_addrs]; [unfold in_s; lia..|unfold in_u; lia|done|by apply Forall_replicate]).
  destruct (winode_ok s1 n din B1 ltac:(change NINODES with 200; lia) Hok eq_refl) as (s2 & E & B2 & Hi2 & Hb2 & Hx2 & Ho2 & Hv2).
  cbn [s1 m_freeinode m_freeblock] in Hi2, Hb2. change (vw s1) with (vw s) in *. destruct (zero_addrs (vw s2) din eq_refl) as (_ & _ & Hno).
  exists s2. split.
  { unfold ialloc. rewrite (mbind_done _ _ s n s1) by (unfold next_inode; rewrite Hin, u_small by lia; done).
    assert (i16 (xshort ty) = ty) as Et by (rewrite xshort_small by lia; apply s_small; [lia|unfold in_s; lia]).
    rewrite Et. change (set_isize _ _) with din. by mstep E. }
  assert (forall j ty' bs, fs !! j = Some (ty', bs) -> let y := dinode_at (vw s) (1 + Z.of_nat j) in
    dinode_at (vw s2) (1 + Z.of_nat j) = y /\ is_file (vw s2) y ty' bs (m_freeblock s2) /\ forall a, owns (vw s2) y a <-> owns (vw s) y a) as Hkept.
  { intros j ty' bs Hj y. pose proof (lookup_lt_Some _ _ _ Hj) as Hl. split; [apply Ho2; [change NINODES with 200|]; lia|].
    apply (image_kept s fs); [done|done|lia|]. intros a Hr _. change nmeta with 47 in Hr. apply Hv2; lia. }
  assert (forall j a, (j < length fs)%nat -> owns (vw s2) (dinode_at (vw s2) (1 + Z.of_nat j)) a -> owns (vw s) (dinode_at (vw s) (1 + Z.of_nat j)) a) as Hown.
  { intros j a Hl. destruct (lookup_lt_is_Some_2 fs j Hl) as [[ty' bs] Ej]. destruct (Hkept j ty' bs Ej) as (-> & _ & Hw). apply Hw. }
  split.
  - done.
  - rewrite length_app. cbn [length]. lia.
  - change NINODES with 200. lia.
  - rewrite total_app, Hb2. cbn [total snd length]. change (nblk _) with 0. rewrite (im_blocks _ _ I). lia.
  - intros j ty' bs Ej. apply lookup_app_Some in Ej as [Ej|[Hge Ej]]; [by destruct (Hkept j ty' bs Ej) as (-> & ? & _)|].
    apply list_lookup_singleton_Some in Ej as [Hz Ej]. injection Ej as <- <-. replace (1 + Z.of_nat j) with n by lia. rewrite Hx2. split; [done|done|by apply holds_empty].
  - rewrite length_app. cbn [length]. intros j j' a H1 H2 Hne Ha Ha'.
    destruct (decide (j = length fs)) as [->|]; [fold n in Ha; rewrite Hx2 in Ha; by apply (Hno a)|].
    destruct (decide (j' = length fs)) as [->|]; [fold n in Ha'; rewrite Hx2 in Ha'; by apply (Hno a)|].
    apply (im_apart _ _ I j j' a); [lia|lia|done|apply Hown; [lia|done]|apply Hown; [lia|done]].
  - rewrite Hi2. intros n' Hn'. rewrite Ho2 by lia. apply (im_free _ _ I). lia.
  - rewrite Hv2 by lia. apply I.
  - intros b Hb. rewrite Hv2 by lia. by apply (im_log _ _ I).
Qed.

(** ** The files of the command line *)

Lemma append_pieces_spec pieces : forall s fs j ty bs, image s fs -> fs !! j = Some (ty, bs) -> Forall (Forall is_byte) pieces ->
  Z.of_nat (length (bs ++ concat pieces)) <= MAXFILE * BSIZE -> nmeta + total (<[j := (ty, bs ++ concat pieces)]> fs) <= FSSIZE ->
  exists s', append_pieces (1 + Z.of_nat j) pieces s = MDone tt s' /\ image s' (<[j := (ty, bs ++ concat pieces)]> fs).
Proof.
  induction pieces as [|p pieces IH]; intros s fs j ty bs I Hj HB Hfit Hroom; cbn [append_pieces concat] in *.
  - exists s. rewrite app_nil_r. by rewrite list_insert_id.
  - apply Forall_cons in HB as [Hp HB]. rewrite app_assoc in *. rewrite length_app in Hfit.
    destruct (iappend_spec s fs j ty bs p I Hj Hp) as (s1 & E1 & I1).
    + rewrite length_app in Hfit. lia.
    + pose proof (nblk_mono (Z.of_nat (length (bs ++ p))) (Z.of_nat (length ((bs ++ p) ++ concat pieces))) ltac:(rewrite (length_app (bs ++ p)); lia)) as Hm.
      rewrite (total_insert _ _ _ _ Hj) in Hroom. rewrite (total_insert _ _ _ _ Hj). cbn [snd] in *. lia.
    + destruct (IH s1 _ j ty (bs ++ p) I1) as (s2 & E2 & I2); [by rewrite list_lookup_insert_eq by (by eapply lookup_lt_Some)|done| | |].
      * rewrite length_app. lia.
      * by rewrite list_insert_insert_eq.
      * exists s2. mstep E1. rewrite list_insert_insert_eq in I2. done.
Qed.

Section Host.
Variable host : list Z -> option (list (list Z)).

(** The name a file gets and its bytes. *)
Definition file_name (arg : list Z) : list Z := skip_underscore (shortname arg).
Definition file_data (arg : list Z) : list Z := match host arg with Some pieces => concat pieces | None => [] end.
(** mkfs can take the file: its name has no slash and fits in a directory entry,
    the host can read it, and its contents fit in the blocks an inode can hold
    (iappend asserts it). *)
Definition file_ok (arg : list Z) : Prop :=
  chr "/" ∉ shortname arg /\ Z.of_nat (length (file_name arg)) <= DIRSIZ /\ Forall is_byte (file_name arg) /\
  (exists pieces, host arg = Some pieces /\ Forall (Forall is_byte) pieces) /\ Z.of_nat (length (file_data arg)) <= MAXFILE * BSIZE.
(** An inode that has all its blocks takes no more bytes. *)
Lemma iappend_full inum p s din : rinode inum s = MDone din s -> p <> [] -> MAXFILE * BSIZE <= xint (i_size din) ->
  iappend inum p s = MAssert.
Proof.
  intros E Hp Hs. unfold iappend, mbind, M_bind. rewrite E. destruct p as [|c p]; [done|]. cbn [append_loop length].
  unfold mbind, M_bind, assert_. rewrite (proj2 (Z.ltb_ge _ _)); [done|]. by apply Z.div_le_lower_bound.
Qed.
(** The directory entries of the files, the first being inode [n]. *)
Fixpoint entries (n : Z) (args : list (list Z)) : list Z :=
  match args with [] => [] | arg :: args => dirent n (file_name arg) ++ entries (n + 1) args end.

Lemma dirent_ok n name : Z.of_nat (length name) <= DIRSIZ -> Forall is_byte name ->
  Z.of_nat (length (dirent n name)) = 16 /\ Forall is_byte (dirent n name).
Proof.
  change DIRSIZ with 14. intros Hl HF. unfold dirent. change (Z.to_nat DIRSIZ) with 14%nat. split.
  - rewrite !length_app, length_le_split, length_replicate. lia.
  - apply Forall_app. split; [apply le_split_bytes|]. apply Forall_app. split; [done|by apply Forall_replicate].
Qed.

Lemma entries_length args : forall n, Forall file_ok args -> Z.of_nat (length (entries n args)) = 16 * Z.of_nat (length args).
Proof.
  induction args as [|arg args IH]; intros n HA; cbn [entries length]; [done|]. apply Forall_cons in HA as [(_ & H2 & H3 & _) HA].
  destruct (dirent_ok n (file_name arg) H2 H3) as [Hl _]. rewrite length_app. specialize (IH (n + 1) HA). lia.
Qed.
Lemma add_files_spec args : forall s e fl, image s ((T_DIR, e) :: fl) -> Forall file_ok args ->
  Z.of_nat (length fl) + Z.of_nat (length args) + 2 <= NINODES ->
  Z.of_nat (length e) + 16 * Z.of_nat (length args) <= MAXFILE * BSIZE ->
  nmeta + nblk (Z.of_nat (length e) + 16 * Z.of_nat (length args)) + total fl + total (map (fun a => (T_FILE, file_data a)) args) <= FSSIZE ->
  exists s', add_files host 1 args s = MDone tt s' /\
    image s' ((T_DIR, e ++ entries (2 + Z.of_nat (length fl)) args) :: fl ++ map (fun a => (T_FILE, file_data a)) args).
Proof.
  induction args as [|arg args IH]; intros s e fl I HA Hn Hfit Hroom; cbn [add_files entries map total snd length] in *.
  { exists s. by rewrite !app_nil_r. }
  apply Forall_cons in HA as [(H1 & H2 & H3 & (pieces & Hh & H4) & H5) HA].
  assert (file_data arg = concat pieces) as Hd by (unfold file_data; by rewrite Hh). rewrite Hd in *.
  destruct (dirent_ok (2 + Z.of_nat (length fl)) (file_name arg) H2 H3) as [Hl HF].
  pose proof (nblk_mono (Z.of_nat (length (e ++ dirent (2 + Z.of_nat (length fl)) (file_name arg)))) (Z.of_nat (length e) + 16 * Z.of_nat (S (length args)))
    ltac:(rewrite length_app; lia)) as Hm.
  pose proof (total_nonneg (map (fun a => (T_FILE, file_data a)) args)) as Hnn. pose proof (nblk_nonneg (Z.of_nat (length (concat pieces))) ltac:(lia)) as Hnn'.
  destruct (ialloc_spec s _ T_FILE I ltac:(done) ltac:(cbn [length]; lia)) as (s1 & E1 & I1). cbn [length] in E1. rewrite <- app_comm_cons in I1.
  replace (1 + Z.of_nat (S (length fl))) with (2 + Z.of_nat (length fl)) in E1 by lia.
  destruct (iappend_spec s1 _ 0 T_DIR e _ I1 eq_refl HF ltac:(lia)) as (s2 & E2 & I2).
  { cbn [list_insert insert total snd]. rewrite total_app. cbn [total snd length]. change (nblk (Z.of_nat 0)) with 0. lia. }
  cbn [list_insert insert] in I2. set (e' := e ++ _) in *.
  assert (((T_DIR, e') :: fl ++ [(T_FILE, [])]) !! S (length fl) = Some (T_FILE, [])) as Hj by (simpl; by rewrite lookup_app_r, Nat.sub_diag by lia).
  assert (<[S (length fl) := (T_FILE, concat pieces)]> ((T_DIR, e') :: fl ++ [(T_FILE, [])]) = (T_DIR, e') :: fl ++ [(T_FILE, concat pieces)]) as Hins.
  { simpl. f_equal. rewrite insert_app_r_alt, Nat.sub_diag by lia. done. }
  assert (nblk (Z.of_nat (length e')) <= nblk (Z.of_nat (length e) + 16 * Z.of_nat (S (length args)))) as Hm' by done.
  destruct (append_pieces_spec pieces s2 _ (S (length fl)) T_FILE [] I2 Hj H4 H5) as (s3 & E3 & I3).
  { simpl app. rewrite Hins. cbn [total snd]. rewrite total_app. cbn [total snd]. lia. }
  simpl app in I3. rewrite Hins in I3. assert (Z.of_nat (length e') = Z.of_nat (length e) + 16) as Hle by (unfold e'; rewrite length_app; lia).
  destruct (IH s3 e' (fl ++ [(T_FILE, concat pieces)]) I3 HA) as (s4 & E4 & I4).
  - rewrite length_app. cbn [length]. lia.
  - lia.
  - rewrite total_app, Hle. cbn [total snd]. replace (Z.of_nat (length e) + 16 + 16 * Z.of_nat (length args)) with (Z.of_nat (length e) + 16 * Z.of_nat (S (length args))) by lia. lia.
  - exists s4. split.
    + unfold assert_. rewrite bool_decide_eq_false_2 by done. rewrite (mbind_done _ _ s tt s) by done. rewrite Hh. fold (file_name arg).
      rewrite (proj2 (Z.leb_le _ _) H2). rewrite (mbind_done _ _ s tt s) by done. mstep E1.
      rewrite (take_ge (file_name arg)) by (change DIRSIZ with 14 in *; change (Z.to_nat 14) with 14%nat; lia). mstep E2.
      replace (1 + Z.of_nat (S (length fl))) with (2 + Z.of_nat (length fl)) in E3 by lia. mstep E3. exact E4.
    + rewrite length_app, <- !app_assoc in I4. cbn [length app] in I4. replace (2 + Z.of_nat (length fl + 1)) with (2 + Z.of_nat (length fl) + 1) in I4 by lia.
      unfold e' in I4. rewrite <- app_assoc in I4. exact I4.
Qed.
End Host.

(** ** The whole image *)

Lemma zero_sectors_spec k : forall i s, Z.of_nat i + Z.of_nat k <= FSSIZE -> m_img s = replicate i zero_block ->
  zero_sectors k (Z.of_nat i) s = MDone tt (set_img (replicate (i + k) zero_block) s).
Proof.
  induction k as [|k IH]; intros i s Hle Hi; cbn [zero_sectors].
  - rewrite Nat.add_0_r, <- Hi. by destruct s.
  - rewrite (mbind_done _ _ s tt (set_img (replicate (S i) zero_block) s)).
    + replace (Z.of_nat i + 1) with (Z.of_nat (S i)) by lia. rewrite IH by (lia || done). by rewrite Nat.add_succ_comm.
    + unfold wsect. rewrite seek_eq, Nat2Z.id by lia. rewrite Hi, length_replicate. replace (S i - i)%nat with 1%nat by lia.
      rewrite <- replicate_add. replace (i + 1)%nat with (S i) by lia. do 2 f_equal. rewrite insert_replicate. done.
Qed.
Lemma sb_block_blk : is_blk sb_block.
Proof. apply is_blk_wr; [exact zero_is_blk|done|vm_compute; discriminate|]. repeat apply Forall_app_2; apply le_split_bytes. Qed.
Lemma vw_zero i s b : m_img s = replicate i zero_block -> vw s b = zero_block.
Proof. intros E. unfold vw. destruct (b <? 0); [done|]. rewrite E, nth_lookup. destruct (_ !! _) eqn:H; [|done]. by apply lookup_replicate in H as [-> _]. Qed.

(** The image with its superblock and no files. *)
Lemma image_start : exists s0 s, zero_sectors (Z.to_nat FSSIZE) 0 mkfs_start = MDone tt s0 /\ wsect 1 sb_block s0 = MDone tt s /\ image s [].
Proof.
  set (s0 := set_img (replicate (Z.to_nat FSSIZE) zero_block) mkfs_start).
  assert (zero_sectors (Z.to_nat FSSIZE) 0 mkfs_start = MDone tt s0) as E0 by (apply (zero_sectors_spec (Z.to_nat FSSIZE) 0 mkfs_start); done).
  assert (img_ok s0) as Hok by (split; [apply length_replicate|apply Forall_replicate, zero_is_blk]).
  assert (m_img s0 = replicate (Z.to_nat FSSIZE) zero_block) as Hi0 by reflexivity. assert (m_freeblock s0 = 47) as Hb0 by reflexivity.
  assert (m_freeinode s0 = 1) as Hn0 by reflexivity. clearbody s0. change FSSIZE with 2000 in Hi0.
  destruct (wsect_ok s0 1 sb_block Hok ltac:(change FSSIZE with 2000; lia) sb_block_blk) as (E & Hok1 & Hv).
  assert (forall b, 0 <= b -> b <> 1 -> vw (put_sect 1 sb_block s0) b = zero_block) as Hz.
  { intros b H0 Hne. rewrite (Hv b H0), (proj2 (Z.eqb_neq b 1) Hne). exact (vw_zero _ s0 b Hi0). }
  exists s0, (put_sect 1 sb_block s0). split; [exact E0|]. split; [exact E|]. split.
  - split; [exact Hok1|cbn [m_freeblock put_sect set_img]; rewrite Hb0; change nmeta with 47; change FSSIZE with 2000; lia|]. cbn [m_freeblock put_sect set_img]. rewrite Hb0. intros b Hb. apply Hz; lia.
  - cbn [m_freeinode put_sect set_img length]. lia.
  - cbn [m_freeinode put_sect set_img length]. change NINODES with 200. lia.
  - cbn [m_freeblock put_sect set_img total]. change nmeta with 47. lia.
  - intros j ty bs Hj. rewrite lookup_nil in Hj. discriminate Hj.
  - intros j j' a Hj. simpl in Hj. lia.
  - cbn [m_freeinode put_sect set_img]. rewrite Hn0. intros n Hn. destruct (iblock_eq n ltac:(lia)) as (_ & Hb & _). unfold dinode_at. rewrite Hz by lia.
    cbn [i_type get_dinode]. unfold di_type. rewrite get_le_zero. reflexivity.
  - exact (Hv 1 ltac:(lia)).
  - intros b Hb. apply Hz; lia.
Qed.

Lemma mark_bits_spec n : forall i d, is_blk d -> 0 <= i -> i + Z.of_nat n <= BPB ->
  is_blk (mark_bits n i d) /\ forall bj, 0 <= bj < BPB ->
    bit_free (mark_bits n i d) bj = if bool_decide (i <= bj < i + Z.of_nat n) then false else bit_free d bj.
Proof.
  induction n as [|n IH]; intros i d Hd Hi Hn; cbn [mark_bits].
  - split; [done|]. intros bj Hb. by rewrite bool_decide_eq_false_2 by lia.
  - destruct (bit_set_spec d i Hd ltac:(lia)) as [Hd' Hs]. destruct (IH (i + 1) (bit_set i d) Hd' ltac:(lia) ltac:(lia)) as [H1 H2].
    split; [done|]. intros bj Hb. rewrite H2, Hs by done. destruct (Z.eqb_spec i bj); repeat case_bool_decide; (done || lia).
Qed.

(** The kernel finds a file of type [ty] with the bytes [bs] in inode [x]. *)
Record reads_as (v : Z -> block) (x : inode) (ty : Z) (bs : list Z) : Prop := {
  ra_type : i_type x = ty;
  ra_nlink : i_nlink x = 1;
  ra_wf : file_wf sb v x;
  ra_bytes : forall o, 0 <= o < MAXFILE * BSIZE -> content v x o = nth (Z.to_nat o) bs 0;
}.

Lemma bblock_eq b : 0 <= b < FSSIZE -> BBLOCK b sb = 46.
Proof. intros Hb. change FSSIZE with 2000 in Hb. unfold BBLOCK. rewrite Z.div_small by (change BPB with 8192; lia). done. Qed.

Section Final.
Variables (s : mkst) (fs : list (Z * list Z)) (e : list Z) (s1 s2 : mkst).
Let v := vw s2.
Let fb := m_freeblock s.
Let size := (Z.of_nat (length e) / 1024 + 1) * 1024.
Hypotheses (I : image s ((T_DIR, e) :: fs)) (B2 : base s2) (Hfb : m_freeblock s2 = fb)
  (Hroot : dinode_at v 1 = set_isize size (dinode_at (vw s) 1))
  (Hother : forall n, 0 <= n < NINODES -> n <> 1 -> dinode_at v n = dinode_at (vw s) n)
  (Hbm : v 46 = mark_bits (Z.to_nat fb) 0 zero_block) (Hv : forall b, 0 <= b -> b < 33 \/ 47 <= b -> v b = vw s b).

Lemma final_bitmap : bitmap_ok sb v /\ forall b, 0 <= b < FSSIZE -> used sb v b = (b <? fb).
Proof.
  pose proof (bs_free s (im_base _ _ I)) as Hf. fold fb in Hf. change nmeta with 47 in Hf. change FSSIZE with 2000 in Hf.
  destruct (mark_bits_spec (Z.to_nat fb) 0 zero_block zero_is_blk ltac:(lia) ltac:(change BPB with 8192; lia)) as [Hblk Hbit]. rewrite <- Hbm in Hblk, Hbit.
  assert (forall b, 0 <= b < FSSIZE -> used sb v b = (b <? fb)) as Hu.
  { intros b Hb. unfold used. rewrite bblock_eq by done. change FSSIZE with 2000 in Hb. rewrite (Z.mod_small b BPB) by (change BPB with 8192; lia).
    rewrite Hbit by (change BPB with 8192; lia). destruct (Z.ltb_spec b fb); [by rewrite bool_decide_eq_true_2 by lia|].
    rewrite bool_decide_eq_false_2 by lia. unfold bit_free. rewrite nth_zero, Z.land_0_l. done. }
  split; [|done]. change (sb_size sb) with 2000 in *. split; change (sb_size sb) with 2000.
  - lia.
  - done.
  - intros b Hb. rewrite bblock_eq by done. exact Hblk.
  - intros b b' Hb Hb' Hf'. rewrite Hu in Hf' by done. apply Z.ltb_ge in Hf'. rewrite bblock_eq by done. lia.
Qed.

Lemma final_wf x bs : holds_file v x bs nmeta fb -> file_wf sb v x /\
  (i_size x = Z.of_nat (length bs) \/ i_size x = size /\ bs = e /\ Z.of_nat (length e) mod 1024 <> 0 -> no_holes v x).
Proof.
  intros [Hm Hb]. pose proof (bs_free s (im_base _ _ I)) as Hf. fold fb in Hf. change nmeta with 47 in *. destruct final_bitmap as [_ Hu]. split.
  - split; [apply (io_len _ (hb_inode _ _ _ _ _ _ _ Hb))| |apply (hb_inj _ _ _ _ _ _ _ Hb)|apply (hb_ne _ _ _ _ _ _ _ Hb)].
    intros a Ha. pose proof (has_owns _ _ _ _ _ 47 _ a eq_refl Hb Ha) as Hr. split; [|by apply vw_blk, bs_img].
    split; [change (sb_size sb) with FSSIZE; lia|]. split; [rewrite Hu by lia; apply Z.ltb_lt; lia|]. change (sb_size sb) with FSSIZE.
    intros b Hb'. rewrite bblock_eq by done. lia.
  - intros Hs. change MAXFILE with 268 in *. change BSIZE with 1024 in *.
    assert (0 <= i_size x <= 268 * 1024 /\ (i_size x + 1023) / 1024 = ndata (Z.of_nat (length bs))) as [Hr Hd].
    { destruct Hs as [->|(-> & -> & Hne)]; unfold size, ndata; [split; [lia|done]|]. Z.to_euclidean_division_equations. lia. }
    split; [exact Hr|]. intros o Ho. change BSIZE with 1024. assert (0 <= o / 1024 < ndata (Z.of_nat (length bs))) as Hq.
    { rewrite <- Hd. Z.to_euclidean_division_equations. lia. }
    pose proof (hb_there _ _ _ _ _ _ _ Hb (o / 1024)) as Ht. rewrite (proj2 (Z.ltb_lt _ _) (proj2 Hq)) in Ht.
    assert (o / 1024 < 268) by (apply Z.div_lt_upper_bound; lia). specialize (Ht ltac:(change MAXFILE with 268; lia)). lia.
Qed.

(** The rounded size of a directory that ends with a block covers a block more. *)
Lemma size_hole x bs i hi : i_size x = (Z.of_nat (length bs) / 1024 + 1) * 1024 -> Z.of_nat (length bs) mod 1024 = 0 ->
  has_blocks v x bs (ndata (Z.of_nat (length bs))) i nmeta hi -> ~ no_holes v x.
Proof.
  intros Hs E Hb [Hr Ho]. change MAXFILE with 268 in Hr. change BSIZE with 1024 in *. set (len := Z.of_nat (length bs)) in *.
  pose proof (Z.div_mod len 1024 ltac:(lia)) as Hd. apply (Ho len ltac:(lia)). pose proof (hb_there _ _ _ _ _ _ _ Hb (len / 1024)) as Ht.
  assert (ndata len = len / 1024) as En by (unfold ndata; Z.to_euclidean_division_equations; lia). rewrite En, Z.ltb_irrefl in Ht.
  apply Ht. change MAXFILE with 268. lia.
Qed.
Lemma final_file j ty bs : fs !! j = Some (ty, bs) -> let x := dinode_at v (2 + Z.of_nat j) in
  reads_as v x ty bs /\ i_size x = Z.of_nat (length bs) /\ no_holes v x /\ forall a, owns v x a <-> owns (vw s) (dinode_at (vw s) (2 + Z.of_nat j)) a.
Proof.
  intros Hj. pose proof (lookup_lt_Some _ _ _ Hj) as Hl. pose proof (im_inodes _ _ I) as Hn. pose proof (im_max _ _ I) as Hmx. cbn [length] in Hn.
  rewrite Hother by lia. destruct (image_kept s _ s2 (S j) ty bs I Hj ltac:(lia)) as [Hf Hw].
  { intros a Hr _. change nmeta with 47 in Hr. apply Hv; lia. }
  replace (1 + Z.of_nat (S j)) with (2 + Z.of_nat j) in * by lia. cbv zeta. set (x := dinode_at (vw s) (2 + Z.of_nat j)) in *. destruct Hf as [F1 _ F3]. fold v in F3, Hw. rewrite Hfb in F3.
  destruct (final_wf x bs F3) as [W1 W2]. pose proof (f_equal snd F1) as Fs. pose proof (f_equal (fun y => snd (fst y)) F1) as Fn.
  pose proof (f_equal (fun y => fst (fst (fst (fst y)))) F1) as Ft. cbn [fst snd] in Fs, Fn, Ft. destruct F3 as [_ Hb].
  split; [split; [done|done|done|apply (hb_bytes _ _ _ _ _ _ _ Hb)]|]. split; [done|]. split; [apply W2; by left|done].
Qed.
Lemma final_root : let x := dinode_at v 1 in
  reads_as v x T_DIR e /\ i_size x = size /\ (no_holes v x <-> Z.of_nat (length e) mod 1024 <> 0) /\ forall a, owns v x a <-> owns (vw s) (dinode_at (vw s) 1) a.
Proof.
  destruct (image_kept s _ s2 0 T_DIR e I eq_refl ltac:(lia)) as [Hf Hw].
  { intros a Hr _. change nmeta with 47 in Hr. apply Hv; lia. }
  change (1 + Z.of_nat 0) with 1 in *. rewrite Hroot. cbv zeta. set (x := dinode_at (vw s) 1) in *. destruct Hf as [F1 _ F3]. fold v in F3, Hw. rewrite Hfb in F3.
  assert (in_u 32 size) as Hs.
  { destruct F3 as [Hm _]. change MAXFILE with 268 in Hm. change BSIZE with 1024 in Hm. unfold size, in_u. Z.to_euclidean_division_equations. lia. }
  destruct (final_wf (set_isize size x) e (holds_size _ _ _ _ _ _ Hs F3)) as [W1 W2]. pose proof (f_equal (fun y => snd (fst y)) F1) as Fn.
  pose proof (f_equal (fun y => fst (fst (fst (fst y)))) F1) as Ft. cbn [fst snd] in Fn, Ft. pose proof F3 as [_ Hb].
  split; [split; [done|done|done|apply (hb_bytes _ _ _ _ _ _ _ Hb)]|]. split; [done|]. split; [|done]. split; [|intros Hne; apply W2; by right].
  intros Hn E. destruct (holds_size _ _ _ _ _ _ Hs F3) as [_ Hb2]. exact (size_hole (set_isize size x) e _ fb eq_refl E Hb2 Hn).
Qed.
Lemma final_owns n a : 1 <= n < 2 + Z.of_nat (length fs) -> owns v (dinode_at v n) a -> owns (vw s) (dinode_at (vw s) n) a.
Proof.
  intros Hr. destruct (decide (n = 1)) as [->|Hne]; [apply final_root|].
  destruct (lookup_lt_is_Some_2 fs (Z.to_nat (n - 2)) ltac:(lia)) as [[ty bs] Hj]. destruct (final_file _ ty bs Hj) as (_ & _ & _ & Gw).
  replace (2 + Z.of_nat (Z.to_nat (n - 2))) with n in Gw by lia. apply Gw.
Qed.
Lemma final_apart n n' a : 1 <= n < 2 + Z.of_nat (length fs) -> 1 <= n' < 2 + Z.of_nat (length fs) -> n <> n' ->
  owns v (dinode_at v n) a -> ~ owns v (dinode_at v n') a.
Proof.
  intros Hr Hr' Hne Ha Ha'. apply final_owns in Ha; [|done]. apply final_owns in Ha'; [|done].
  pose proof (im_apart _ _ I (Z.to_nat (n - 1)) (Z.to_nat (n' - 1)) a) as Hap. cbn [length] in Hap.
  replace (1 + Z.of_nat (Z.to_nat (n - 1))) with n in Hap by lia. replace (1 + Z.of_nat (Z.to_nat (n' - 1))) with n' in Hap by lia.
  by apply Hap; [lia|lia|lia|done|done].
Qed.
End Final.

(** The last steps of main. *)
Lemma mkfs_finish s fs e : image s ((T_DIR, e) :: fs) -> exists s1 s2,
  let size := (Z.of_nat (length e) / 1024 + 1) * 1024 in let fb := m_freeblock s in
  rinode 1 s = MDone (dinode_at (vw s) 1) s /\ u32 ((xint (i_size (dinode_at (vw s) 1)) / BSIZE + 1) * BSIZE) = size /\ xint size = size /\
  winode 1 (set_isize size (dinode_at (vw s) 1)) s = MDone tt s1 /\ balloc (m_freeblock s1) s1 = MDone tt s2 /\
  base s2 /\ m_freeblock s2 = fb /\ dinode_at (vw s2) 1 = set_isize size (dinode_at (vw s) 1) /\
  (forall n, 0 <= n < NINODES -> n <> 1 -> dinode_at (vw s2) n = dinode_at (vw s) n) /\
  vw s2 46 = mark_bits (Z.to_nat fb) 0 zero_block /\ forall b, 0 <= b -> b < 33 \/ 47 <= b -> vw s2 b = vw s b.
Proof.
  intros I. pose proof (bs_free s (im_base _ _ I)) as Hf. change nmeta with 47 in Hf. change FSSIZE with 2000 in Hf.
  destruct (im_file _ _ I 0 T_DIR e eq_refl) as [F1 F2 F3]. change (1 + Z.of_nat 0) with 1 in *. set (x := dinode_at (vw s) 1) in *.
  set (size := (Z.of_nat (length e) / 1024 + 1) * 1024). pose proof (f_equal snd F1) as Fs. cbn [snd] in Fs.
  assert (0 <= Z.of_nat (length e) < 2 ^ 32 /\ in_u 32 size) as [He Hs].
  { destruct F3 as [Hm _]. change MAXFILE with 268 in Hm. change BSIZE with 1024 in Hm. unfold size, in_u. split; [lia|]. Z.to_euclidean_division_equations. lia. }
  destruct (holds_size _ _ _ _ _ _ Hs F3) as [_ Hh].
  destruct (winode_ok s 1 (set_isize size x) (im_base _ _ I) ltac:(done) (hb_inode _ _ _ _ _ _ _ Hh) F2) as (s1 & E1 & B1 & _ & Hb1 & Hx1 & Ho1 & Hv1).
  destruct (mark_bits_spec (Z.to_nat (m_freeblock s)) 0 zero_block zero_is_blk ltac:(lia) ltac:(change BPB with 8192; lia)) as [Hblk _].
  destruct (base_put s1 46 _ B1 ltac:(lia) Hblk) as (E2 & B2 & Vi & Vo).
  assert (forall n, 0 <= n < NINODES -> dinode_at (vw (put_sect 46 (mark_bits (Z.to_nat (m_freeblock s)) 0 zero_block) s1)) n = dinode_at (vw s1) n) as Hd.
  { intros n Hn. destruct (iblock_eq n Hn) as (_ & Hb & _). unfold dinode_at. rewrite Vo by lia. reflexivity. }
  exists s1, (put_sect 46 (mark_bits (Z.to_nat (m_freeblock s)) 0 zero_block) s1). cbv zeta.
  split; [apply rinode_ok; [apply (im_base _ _ I)|done]|]. split; [rewrite Fs, (xint_small (Z.of_nat (length e)) He); apply u_small; exact Hs|]. split; [by apply xint_small|].
  split; [exact E1|]. split.
  { unfold balloc, assert_. rewrite Hb1, (proj2 (Z.ltb_lt (m_freeblock s) BPB)) by (change BPB with 8192; lia). rewrite (mbind_done _ _ s1 tt s1) by reflexivity. exact E2. }
  split; [exact B2|]. split; [exact Hb1|]. split; [rewrite Hd by done; exact Hx1|]. split; [|split; [exact Vi|]].
  - intros n Hn Hne. rewrite Hd by exact Hn. by apply Ho1.
  - intros b Hb Hr. rewrite Vo by lia. apply Hv1; lia.
Qed.
(** main up to the files. *)
Lemma start_spec : exists s0 s1 s2 s3 s4, let dots := dirent 1 (chars ".") ++ dirent 1 (chars "..") in
  zero_sectors (Z.to_nat FSSIZE) 0 mkfs_start = MDone tt s0 /\ wsect 1 sb_block s0 = MDone tt s1 /\ ialloc T_DIR s1 = MDone 1 s2 /\
  iappend 1 (dirent 1 (chars ".")) s2 = MDone tt s3 /\ iappend 1 (dirent 1 (chars "..")) s3 = MDone tt s4 /\ image s4 [(T_DIR, dots)].
Proof.
  assert (Forall is_byte (dirent 1 (chars ".")) /\ Forall is_byte (dirent 1 (chars ".."))) as [H1 H2] by (split; apply dirent_ok; try done; repeat constructor; done).
  destruct image_start as (s0 & s1 & E0 & E1 & I1).
  destruct (ialloc_spec s1 [] T_DIR I1 ltac:(split; reflexivity) ltac:(reflexivity)) as (s2 & E2 & I2). cbn [app] in I2.
  destruct (iappend_spec s2 _ 0 T_DIR [] _ I2 eq_refl H1 ltac:(vm_compute; discriminate) ltac:(vm_compute; discriminate)) as (s3 & E3 & I3).
  destruct (iappend_spec s3 _ 0 T_DIR _ _ I3 eq_refl H2 ltac:(vm_compute; discriminate) ltac:(vm_compute; discriminate)) as (s4 & E4 & I4).
  exact (ex_intro _ s0 (ex_intro _ s1 (ex_intro _ s2 (ex_intro _ s3 (ex_intro _ s4 (conj E0 (conj E1 (conj E2 (conj E3 (conj E4 I4)))))))))).
Qed.

(** The directory that mkfs makes of the files. *)
Definition root_bytes (args : list (list Z)) : list Z := dirent 1 (chars ".") ++ dirent 1 (chars "..") ++ entries 2 args.
(** The first block not handed out. *)
Definition end_block (host : list Z -> option (list (list Z))) (args : list (list Z)) : Z :=
  nmeta + nblk (Z.of_nat (length (root_bytes args))) + total (map (fun a => (T_FILE, file_data host a)) args).

(** What the kernel finds in the image of the files [args]. *)
Record built (host : list Z -> option (list (list Z))) (args : list (list Z)) (s : mkst) : Prop := {
  bt_len : Z.of_nat (length (m_img s)) = FSSIZE;
  bt_sb : get_sb (vw s 1) = sb;
  bt_log : forall b, 2 <= b < 33 -> vw s b = zero_block;
  bt_bitmap : bitmap_ok sb (vw s);
  bt_used : forall b, 0 <= b < FSSIZE -> used sb (vw s) b = (b <? end_block host args);
  bt_root : reads_as (vw s) (dinode_at (vw s) 1) T_DIR (root_bytes args);
  bt_root_size : i_size (dinode_at (vw s) 1) = (Z.of_nat (length (root_bytes args)) / 1024 + 1) * 1024;
  bt_root_holes : no_holes (vw s) (dinode_at (vw s) 1) <-> Z.of_nat (length (root_bytes args)) mod 1024 <> 0;
  bt_file : forall j arg, args !! j = Some arg -> let x := dinode_at (vw s) (2 + Z.of_nat j) in
    reads_as (vw s) x T_FILE (file_data host arg) /\ i_size x = Z.of_nat (length (file_data host arg)) /\ no_holes (vw s) x;
  bt_apart : forall n n' a, 1 <= n < 2 + Z.of_nat (length args) -> 1 <= n' < 2 + Z.of_nat (length args) -> n <> n' ->
    owns (vw s) (dinode_at (vw s) n) a -> ~ owns (vw s) (dinode_at (vw s) n') a;
  bt_free : forall n, 2 + Z.of_nat (length args) <= n < NINODES -> i_type (dinode_at (vw s) n) = 0;
}.
Lemma mkfs_builds host prog img args : Forall (file_ok host) args -> Z.of_nat (length args) + 2 <= NINODES -> end_block host args <= FSSIZE ->
  exists s, mkfs host true (prog :: img :: args) mkfs_start = MDone tt s /\ built host args s.
Proof.
  intros HA Hn Hhi. set (root := root_bytes args) in *. set (hi := end_block host args) in *. unfold mkfs. set (dots := dirent 1 (chars ".") ++ dirent 1 (chars "..")).
  assert (root = dots ++ entries 2 args) as Hroot by (unfold root, root_bytes, dots; by rewrite <- app_assoc).
  assert (Z.of_nat (length root) = Z.of_nat (length dots) + 16 * Z.of_nat (length args)) as Hlen.
  { rewrite Hroot, length_app, Nat2Z.inj_add. by rewrite (entries_length host). }
  change NINODES with 200 in Hn. assert (Z.of_nat (length dots) = 32) as Hd by reflexivity.
  destruct start_spec as (s0 & s1 & s2 & s3 & s4 & E0 & E1 & E2 & E3 & E4 & I4). fold dots in I4.
  destruct (add_files_spec host args s4 dots [] I4 HA ltac:(change NINODES with 200; cbn [length]; lia) ltac:(change MAXFILE with 268; change BSIZE with 1024; lia)) as (s5 & E5 & I5).
  { rewrite <- Hlen. cbn [total]. unfold hi, end_block in Hhi. fold root in Hhi. lia. }
  change (2 + Z.of_nat (length [])) with 2 in I5. cbn [app] in I5. rewrite <- Hroot in I5.
  destruct (mkfs_finish s5 _ root I5) as (s6 & s7 & R1 & R2 & R3 & R4 & R5 & B7 & Hb & Hx & Ho & Hm & Hv).
  assert (mkfs_main host args mkfs_start = MDone tt s7) as Run.
  { unfold mkfs_main. mstep E0. mstep E1. mstep E2. rewrite (mbind_done _ _ s2 tt s2) by reflexivity. mstep E3. mstep E4. mstep E5.
    mstep R1. rewrite R2, R3. mstep R4. rewrite (mbind_done _ _ s6 s6 s6) by reflexivity. exact R5. }
  exists s7. split; [exact Run|]. clear Run E0 E1 E2 E3 E4 E5 R1 R2 R3 R4 R5 I4.
  assert (m_freeblock s5 = hi) as Hfb by (rewrite (im_blocks _ _ I5); cbn [total snd]; unfold hi, end_block; fold root; lia).
  pose proof (im_inodes _ _ I5) as Hni. cbn [length] in Hni. rewrite length_map in Hni.
  destruct (final_bitmap s5 _ root s7 I5 Hm) as [Bm Bu]. destruct (final_root s5 _ root s7 I5 B7 Hb Hx Hm Hv) as (Fr1 & Fr2 & Fr3 & Fr4).
  pose proof (final_file s5 _ root s7 I5 B7 Hb Ho Hm Hv) as Ff. split.
  - destruct (bs_img s7 B7) as [-> _]. reflexivity.
  - rewrite Hv, (im_sb _ _ I5) by lia. vm_compute. reflexivity.
  - intros b Hb'. rewrite Hv by lia. by apply (im_log _ _ I5).
  - done.
  - fold hi. by rewrite <- Hfb.
  - done.
  - done.
  - done.
  - intros j arg Hj. destruct (Ff j T_FILE (file_data host arg)) as (G1 & G2 & G3 & _); [|done]. by rewrite list_lookup_fmap, Hj.
  - pose proof (final_apart s5 _ root s7 I5 B7 Hb Hx Ho Hm Hv) as Hap. by rewrite length_map in Hap.
  - intros n Hr. rewrite Ho by lia. apply (im_free _ _ I5). lia.
Qed.

(** C40: mkfs, given files it can read, whose names have no slash and at most
    DIRSIZ bytes and whose contents fit in MAXFILE blocks, and given at most 198
    files and enough blocks in all, builds the whole image without dying; in
    the image the kernel's decoders find the superblock, an empty log, a bitmap
    that marks exactly the blocks handed out, the root directory with an entry
    per file (its size rounded up past its last block when it fills that one),
    every file with its own bytes in well formed blocks without holes, no block
    shared by two inodes, and the other inodes free.  (More than MAXFILE blocks
    in one file fail the assertion of iappend: [iappend_full].) *)
Theorem mkfs_image host prog img args : Forall (file_ok host) args -> Z.of_nat (length args) + 2 <= NINODES ->
  let root := root_bytes args in let hi := end_block host args in hi <= FSSIZE ->
  exists s, mkfs host true (prog :: img :: args) mkfs_start = MDone tt s /\ let v := vw s in
    Z.of_nat (length (m_img s)) = FSSIZE /\ get_sb (v 1) = sb /\ (forall b, 2 <= b < 33 -> v b = zero_block) /\
    bitmap_ok sb v /\ (forall b, 0 <= b < FSSIZE -> used sb v b = (b <? hi)) /\
    (let x := dinode_at v 1 in reads_as v x T_DIR root /\ i_size x = (Z.of_nat (length root) / 1024 + 1) * 1024 /\
       (no_holes v x <-> Z.of_nat (length root) mod 1024 <> 0)) /\
    (forall j arg, args !! j = Some arg -> let x := dinode_at v (2 + Z.of_nat j) in
       reads_as v x T_FILE (file_data host arg) /\ i_size x = Z.of_nat (length (file_data host arg)) /\ no_holes v x) /\
    (forall n n' a, 1 <= n < 2 + Z.of_nat (length args) -> 1 <= n' < 2 + Z.of_nat (length args) -> n <> n' ->
       owns v (dinode_at v n) a -> ~ owns v (dinode_at v n') a) /\
    (forall n, 2 + Z.of_nat (length args) <= n < NINODES -> i_type (dinode_at v n) = 0).
Proof.
  intros HA Hn root hi Hhi. destruct (mkfs_builds host prog img args HA Hn Hhi) as (s & E & [H1 H2 H3 H4 H5 H6 H7 H8 H9 H10 H11]).
  exists s. exact (conj E (conj H1 (conj H2 (conj H3 (conj H4 (conj H5 (conj (conj H6 (conj H7 H8)) (conj H9 (conj H10 H11))))))))).
Qed.

(** Two files of a host. *)
Definition two_files (arg : list Z) : option (list (list Z)) :=
  if bool_decide (arg = chars "README") then Some [chars "xv6 is"; chars " a teaching system"]
  else if bool_decide (arg = chars "user/_cat") then Some [[127; 69; 76; 70]] else None.
Lemma mkfs_image_witness : exists s, mkfs two_files true [chars "mkfs"; chars "fs.img"; chars "README"; chars "user/_cat"] mkfs_start = MDone tt s /\
  reads_as (vw s) (dinode_at (vw s) 2) T_FILE (chars "xv6 is a teaching system") /\ i_size (dinode_at (vw s) 3) = 4 /\
  used sb (vw s) 49 = true /\ used sb (vw s) 50 = false.
Proof.
  assert (Forall (file_ok two_files) [chars "README"; chars "user/_cat"]) as HA.
  { repeat constructor; try (apply (bool_decide_unpack _); vm_compute; exact I); try (vm_compute; discriminate).
    - exists [chars "xv6 is"; chars " a teaching system"]. split; [reflexivity|]. repeat constructor; vm_compute; (discriminate || reflexivity).
    - exists [[127; 69; 76; 70]]. split; [reflexivity|]. repeat constructor; vm_compute; (discriminate || reflexivity). }
  destruct (mkfs_image two_files (chars "mkfs") (chars "fs.img") _ HA ltac:(vm_compute; discriminate) ltac:(vm_compute; discriminate)) as (s & E & _ & _ & _ & _ & U & _ & F & _).
  exists s. split; [exact E|]. destruct (F 0%nat _ eq_refl) as [F1 _]. destruct (F 1%nat _ eq_refl) as (_ & F2 & _).
  split; [exact F1|]. split; [exact F2|]. rewrite !U by (vm_compute; split; congruence). split; vm_compute; reflexivity.
Defined.
