(* ===== verification/ImageTree.v ===== *)
(** * From mkfs to a file of the kernel (theorem on Mkfs.v, Dir.v and Fs.v)

    The image of mkfs is a tree as namei needs it: the kernel resolves the name
    of every file mkfs was given and reads the bytes the host's file had. *)
From stdpp Require Import base numbers list gmap strings.
From Stdlib Require Import Ascii.
From S2P Require Import Prelude Kernel Spinlock Sleeplock Bio Bcache Printf Log Redo LogOps Str Riscv Kalloc Vm Kstate Proc Mkfs Fs Dir Txn Alloc Inode Path Content Rdwr DirMap Namei Append Image.

(** ** Directory entries as mkfs writes them *)

Lemma upto0_list n : forall l, Forall (fun c => c <> 0) l -> (length l <= n)%nat ->
  upto0 n (fun i => nth (Z.to_nat i) (l ++ replicate (n - length l) 0) 0) = l.
Proof.
  induction n as [|n IH]; intros [|a l] HF Hl; cbn [upto0 length app] in *; [done|lia|done|].
  apply Forall_cons in HF as [Ha HF]. change (Z.to_nat 0) with O. cbn [nth]. rewrite (proj2 (Z.eqb_neq a 0) Ha). f_equal.
  etransitivity; [|apply (IH l HF); lia]. apply upto0_ext. intros i Hi. by rewrite Z2Nat.inj_add, Nat.add_comm by lia.
Qed.

Fixpoint recs (L : list (Z * list Z)) : list Z := match L with [] => [] | r :: L => dirent r.1 r.2 ++ recs L end.
Definition rec_ok (r : Z * list Z) : Prop := 0 < r.1 < 65536 /\ (length r.2 <= 14)%nat /\ Forall (fun c => c <> 0) r.2.

Lemma length_dirent n nm : (length nm <= 14)%nat -> length (dirent n nm) = 16%nat.
Proof. intros Hl. unfold dirent. rewrite !length_app, length_le_split, length_replicate. change (Z.to_nat Mkfs.DIRSIZ) with 14%nat. lia. Qed.
Lemma nth_recs L : Forall rec_ok L -> forall k i, 0 <= k -> 0 <= i < 16 -> nth (Z.to_nat (16 * k + i)) (recs L) 0 =
  match L !! Z.to_nat k with Some r => nth (Z.to_nat i) (dirent r.1 r.2) 0 | None => 0 end.
Proof.
  induction 1 as [|r L (_ & Hr & _) HL IH]; intros k i Hk Hi; cbn [recs]; [by destruct (Z.to_nat (16 * k + i)), (Z.to_nat k)|].
  pose proof (length_dirent r.1 r.2 Hr) as Hl. destruct (decide (k = 0)) as [->|Hk0].
  - change (Z.to_nat 0) with O. cbn [lookup list_lookup]. rewrite app_nth1 by lia. f_equal.
  - rewrite app_nth2 by lia. replace (Z.to_nat k) with (S (Z.to_nat (k - 1))) by lia. cbn [lookup list_lookup]. rewrite <- IH by lia. f_equal. lia.
Qed.

Section Entries.
Variables (v : Z -> block) (x : inode) (L : list (Z * list Z)).
Hypotheses (HL : Forall rec_ok L) (Hc : forall o, 0 <= o < MAXFILE * BSIZE -> content v x o = nth (Z.to_nat o) (recs L) 0).

Lemma rec_entry k : 0 <= k < 17152 ->
  (ent_inum v x k, ent_name v x k) = match L !! Z.to_nat k with Some r => r | None => (0, []) end.
Proof.
  intros Hk. change (MAXFILE * BSIZE) with 274432 in Hc.
  assert (forall i, 0 <= i < 16 -> content v x (16 * k + i) = match L !! Z.to_nat k with Some r => nth (Z.to_nat i) (dirent r.1 r.2) 0 | None => 0 end) as Hi.
  { intros i Hi. rewrite Hc by lia. apply nth_recs; [done|lia|lia]. }
  assert (ent_name v x k = upto0 14 (fun i => match L !! Z.to_nat k with Some r => nth (Z.to_nat (2 + i)) (dirent r.1 r.2) 0 | None => 0 end)) as En.
  { apply upto0_ext. intros i Hi'. rewrite <- Z.add_assoc. apply Hi. lia. }
  unfold ent_inum. rewrite (Hi 1) by lia. pose proof (Hi 0 ltac:(lia)) as H0. rewrite Z.add_0_r in H0. rewrite H0, En.
  destruct (L !! Z.to_nat k) as [[n nm]|] eqn:E; [|done]. cbn [fst snd]. destruct (Forall_lookup_1 _ _ _ _ HL E) as (Hn & Hl & Hz). cbn [fst snd] in Hn, Hl, Hz. f_equal.
  - unfold dirent. rewrite xshort_small by lia. change (Z.to_nat 0) with O. change (Z.to_nat 1) with 1%nat. cbn [le_split app nth].
    rewrite (Z.mod_small (n / 256)) by (split; [apply Z.div_pos; lia|apply Z.div_lt_upper_bound; lia]). pose proof (Z.div_mod n 256 ltac:(lia)). lia.
  - etransitivity; [|apply (upto0_list 14 nm Hz Hl)]. apply upto0_ext. intros i Hi'. unfold dirent. change (Z.to_nat Mkfs.DIRSIZ) with 14%nat.
    replace (Z.to_nat (2 + i)) with (2 + Z.to_nat i)%nat by lia. rewrite app_nth2 by (rewrite length_le_split; lia). by rewrite length_le_split, Nat.add_comm, Nat.add_sub.
Qed.
Hypotheses (Hsize : 16 * Z.of_nat (length L) <= i_size x <= MAXFILE * BSIZE).

Lemma rec_range k r : L !! k = Some r -> 0 <= Z.of_nat k < i_size x / 16 /\ i_size x / 16 <= 17152.
Proof.
  intros E. apply lookup_lt_Some in E. change (MAXFILE * BSIZE) with 274432 in Hsize. split; [split; [lia|]|].
  - apply Z.lt_le_trans with (Z.of_nat (length L)); [lia|]. apply Z.div_le_lower_bound; lia.
  - apply Z.div_le_upper_bound; lia.
Qed.
(** The map of the directory is the list. *)
Lemma rec_find k n nm : NoDup (map snd L) -> L !! k = Some (n, nm) -> dir_inum v x nm = Some n.
Proof.
  intros HN E. destruct (rec_range k _ E) as [Hr Hmax]. destruct (Forall_lookup_1 _ _ _ _ HL E) as ((Hn & _) & _). cbn [fst] in Hn.
  assert (forall j, 0 <= j < i_size x / 16 -> ent_is v x nm j = true -> L !! Z.to_nat j = Some (ent_inum v x j, nm)) as Hj.
  { intros j Hj Hm. pose proof (rec_entry j ltac:(lia)) as He. unfold ent_is in Hm. apply andb_true_iff in Hm as [Hm1 Hm2]. apply bool_decide_eq_true in Hm2.
    rewrite <- Hm2. destruct (L !! Z.to_nat j) as [r|]; [by rewrite He|]. injection He as He _. by rewrite He in Hm1. }
  pose proof (rec_entry (Z.of_nat k) ltac:(lia)) as Hk. rewrite Nat2Z.id, E in Hk. injection Hk as Hk1 Hk2.
  assert (dir_find v x nm = Some (Z.of_nat k)) as Hf.
  { apply find_seq_uniq; [done| |].
    - unfold ent_is. rewrite Hk1, Hk2, (proj2 (Z.eqb_neq n 0)) by lia. by rewrite bool_decide_eq_true_2.
    - intros j Hr' Hm. apply (Hj j Hr') in Hm. apply (f_equal (fmap snd)) in Hm. apply (f_equal (fmap snd)) in E. rewrite <- list_lookup_fmap in Hm, E. cbn in Hm, E.
      pose proof (NoDup_lookup _ _ _ _ HN Hm E). lia. }
  unfold dir_inum. rewrite Hf. simpl. by rewrite Hk1.
Qed.
Lemma rec_found nm n : dir_inum v x nm = Some n -> exists k, L !! k = Some (n, nm).
Proof.
  unfold dir_inum. destruct (dir_find v x nm) as [j|] eqn:E; [|done]. simpl. intros [= <-]. apply find_seq in E as [Hj Hm].
  assert (j < 17152) as Hlt.
  { change (MAXFILE * BSIZE) with 274432 in Hsize. assert (i_size x / 16 <= 17152) by (apply Z.div_le_upper_bound; lia). lia. }
  exists (Z.to_nat j). pose proof (rec_entry j ltac:(lia)) as He. unfold ent_is in Hm. apply andb_true_iff in Hm as [Hm1 Hm2]. apply bool_decide_eq_true in Hm2.
  destruct (L !! Z.to_nat j) as [r|]; [by rewrite <- He, Hm2|]. injection He as He _. by rewrite He in Hm1.
Qed.
End Entries.

(** ** The tree of an image *)

Fixpoint numbered (n : Z) (args : list (list Z)) : list (Z * list Z) :=
  match args with [] => [] | arg :: args => (n, file_name arg) :: numbered (n + 1) args end.
Definition root_list (args : list (list Z)) : list (Z * list Z) := (1, chars ".") :: (1, chars "..") :: numbered 2 args.

Lemma entries_recs args : forall n, entries n args = recs (numbered n args).
Proof. induction args as [|a args IH]; intros n; cbn [entries numbered recs fst snd]; [done|]. by rewrite IH. Qed.
Lemma numbered_lookup args : forall n k, numbered n args !! k = (fun a => (n + Z.of_nat k, file_name a)) <$> args !! k.
Proof.
  induction args as [|a args IH]; intros n [|k]; cbn [numbered lookup list_lookup]; [done|done|simpl; by rewrite Z.add_0_r|].
  change (numbered (n + 1) args !! k = (fun a => (n + Z.of_nat (S k), file_name a)) <$> args !! k). rewrite IH. destruct (args !! k); [|done]. simpl. do 2 f_equal. lia.
Qed.
Lemma length_numbered args : forall n, length (numbered n args) = length args.
Proof. induction args as [|a args IH]; intros n; simpl; [done|by rewrite IH]. Qed.
Lemma root_recs args : root_bytes args = recs (root_list args).
Proof. unfold root_bytes, root_list. cbn [recs fst snd]. by rewrite entries_recs. Qed.

Section Image.
Variables (host : list Z -> option (list (list Z))) (args : list (list Z)) (s : mkst).
Let v := vw s.
Hypotheses (B : built host args s) (HA : Forall (file_ok host) args) (HZ : Forall (fun a => Forall (fun c => c <> 0) (file_name a)) args)
  (Hn : Z.of_nat (length args) + 2 <= NINODES) (Hh : Z.of_nat (length (root_bytes args)) mod 1024 <> 0).

Lemma root_ok : Forall rec_ok (root_list args).
Proof.
  apply Forall_cons; split; [split; [done|split; [simpl; lia|by repeat constructor]]|].
  apply Forall_cons; split; [split; [done|split; [simpl; lia|by repeat constructor]]|].
  apply Forall_lookup. intros k r Hk. rewrite numbered_lookup in Hk. destruct (args !! k) as [a|] eqn:E; [|done]. injection Hk as <-.
  pose proof (lookup_lt_Some _ _ _ E). destruct (Forall_lookup_1 _ _ _ _ HA E) as (_ & Hl & _). change NINODES with 200 in Hn. change Mkfs.DIRSIZ with 14 in Hl.
  split; cbn [fst snd]; [lia|]. split; [lia|by apply (Forall_lookup_1 _ _ _ _ HZ E)].
Qed.
Lemma root_length : Z.of_nat (length (root_bytes args)) = 16 * Z.of_nat (length (root_list args)).
Proof.
  unfold root_bytes, root_list. rewrite !length_app, !Nat2Z.inj_add, (entries_length host) by done. cbn [length].
  rewrite length_numbered.
  change (length (dirent 1 (chars "."))) with 16%nat. change (length (dirent 1 (chars ".."))) with 16%nat. lia.
Qed.
Lemma root_size : 16 * Z.of_nat (length (root_list args)) <= i_size (dinode_at v 1) <= MAXFILE * BSIZE.
Proof.
  unfold v. rewrite (bt_root_size _ _ _ B), <- root_length. pose proof root_length as Hl. unfold root_list in Hl. cbn [length] in Hl.
  rewrite length_numbered in Hl. change NINODES with 200 in Hn. change (MAXFILE * BSIZE) with 274432. Z.to_euclidean_division_equations. lia.
Qed.
Lemma image_live i : live Mkfs.sb v i <-> 1 <= i < 2 + Z.of_nat (length args).
Proof.
  unfold live. change (disk_inode Mkfs.sb v i) with (dinode_at v i). change (sb_ninodes Mkfs.sb) with NINODES. split.
  - intros [Hi Hty]. destruct (decide (i < 2 + Z.of_nat (length args))); [lia|]. by rewrite (bt_free _ _ _ B) in Hty by lia.
  - intros Hi. split; [change NINODES with 200 in *; lia|]. destruct (decide (i = 1)) as [->|].
    + unfold v. rewrite (ra_type _ _ _ _ (bt_root _ _ _ B)). done.
    + destruct (lookup_lt_is_Some_2 args (Z.to_nat (i - 2)) ltac:(lia)) as [arg Hj]. destruct (bt_file _ _ _ B _ _ Hj) as [Hr _].
      replace (2 + Z.of_nat (Z.to_nat (i - 2))) with i in Hr by lia. unfold v. rewrite (ra_type _ _ _ _ Hr). done.
Qed.
Lemma image_dir i : 1 <= i < 2 + Z.of_nat (length args) -> i_nlink (dinode_at v i) = 1 /\ (i_type (dinode_at v i) = T_DIR -> i = 1).
Proof.
  intros Hi. destruct (decide (i = 1)) as [->|].
  - split; [apply (ra_nlink _ _ _ _ (bt_root _ _ _ B))|done].
  - destruct (lookup_lt_is_Some_2 args (Z.to_nat (i - 2)) ltac:(lia)) as [arg Hj]. destruct (bt_file _ _ _ B _ _ Hj) as [Hr _].
    replace (2 + Z.of_nat (Z.to_nat (i - 2))) with i in Hr by lia. split; [apply (ra_nlink _ _ _ _ Hr)|]. unfold v. by rewrite (ra_type _ _ _ _ Hr).
Qed.
Lemma image_tree : tree_ok Mkfs.sb v.
Proof.
  assert (forall i, live Mkfs.sb v i -> i_type (disk_inode Mkfs.sb v i) = T_DIR -> i = 1) as H1 by (intros i Hl; apply image_live in Hl; by apply image_dir).
  split.
  - intros i Hl. apply image_live in Hl. change (disk_inode Mkfs.sb v i) with (dinode_at v i). destruct (image_dir i Hl) as [-> _]. done.
  - intros i Hl Ht. rewrite (H1 i Hl Ht). by apply (bt_root_holes _ _ _ B).
  - intros i a Hl Ht. rewrite (H1 i Hl Ht). intros Ha. by apply (fw_own _ _ _ (ra_wf _ _ _ _ (bt_root _ _ _ B))).
  - intros i Hl Ht. rewrite (H1 i Hl Ht). change (disk_inode Mkfs.sb v 1) with (dinode_at v 1). unfold v. rewrite (bt_root_size _ _ _ B).
    replace ((_ / 1024 + 1) * 1024) with (((Z.of_nat (length (root_bytes args)) / 1024 + 1) * 64) * 16) by lia. apply Z.mod_mul. lia.
  - intros i n j Hl Ht. rewrite (H1 i Hl Ht). change (disk_inode Mkfs.sb v 1) with (dinode_at v 1). intros Hd. apply image_live.
    pose proof (ra_bytes _ _ _ _ (bt_root _ _ _ B)) as Hc. rewrite root_recs in Hc.
    destruct (rec_found v (dinode_at v 1) (root_list args) root_ok Hc root_size n j Hd) as [[|[|k]] Hk]; [injection Hk as <- _; lia|injection Hk as <- _; lia|].
    change (numbered 2 args !! k = Some (j, n)) in Hk. rewrite numbered_lookup in Hk. destruct (args !! k) eqn:E; [|done]. injection Hk as <- _.
    apply lookup_lt_Some in E. lia.
Qed.
(** The path of a file leads to its inode. *)
Lemma image_walk j arg : NoDup (map snd (root_list args)) -> args !! j = Some arg -> file_name arg <> [] -> chr "/" ∉ file_name arg ->
  walk_path Mkfs.sb v ROOTINO (elems [] (47 :: file_name arg)) = Some (2 + Z.of_nat j).
Proof.
  intros HN Hj Hne Hs. destruct (Forall_lookup_1 _ _ _ _ HA Hj) as (_ & Hl & _). change Mkfs.DIRSIZ with 14 in Hl.
  assert (elems [] (47 :: file_name arg) = [file_name arg]) as ->.
  { cbn [elems]. change (47 =? 47) with true. cbv iota. assert (run (file_name arg) = file_name arg) as Hr.
    { clear - Hs. induction (file_name arg) as [|c l IH]; cbn [run]; [done|]. rewrite not_elem_of_cons in Hs. destruct Hs as [H1 H2].
      destruct (Z.eqb_spec c 47) as [->|]; [by destruct H1|]. by rewrite IH. }
    rewrite elems_run by (by rewrite Hr). rewrite Hr. cbn [app]. by rewrite drop_all. }
  cbn [walk_path]. change (disk_inode Mkfs.sb v ROOTINO) with (dinode_at v 1). unfold v at 1. rewrite (ra_type _ _ _ _ (bt_root _ _ _ B)).
  change (T_DIR =? T_DIR) with true. cbv iota. rewrite take_ge by lia.
  pose proof (ra_bytes _ _ _ _ (bt_root _ _ _ B)) as Hc. rewrite root_recs in Hc.
  rewrite (rec_find v (dinode_at v 1) (root_list args) root_ok Hc root_size (S (S j)) (2 + Z.of_nat j) (file_name arg) HN); [done|].
  change (numbered 2 args !! j = Some (2 + Z.of_nat j, file_name arg)). by rewrite numbered_lookup, Hj.
Qed.
End Image.

(** readi of a file with known bytes from its start. *)
Lemma readi_data {D : DiskDriver} {DOK : DiskDriverOk D} end_ buf_addr ip c s dst n data : let x := inode_at s ip in let r := Z.min n (Z.of_nat (length data)) in
  bio_cpu c -> tx c ∅ (k_log s) -> i_dev x = ROOTDEV -> lh_n (l_log (k_log s)) < NBUF -> mem_ok (kmem s) ->
  no_holes (kview s) x -> (forall a, owns (kview s) x a -> is_blk (kview s a)) -> i_size x = Z.of_nat (length data) ->
  (forall o, 0 <= o < MAXFILE * BSIZE -> content (kview s) x o = nth (Z.to_nat o) data 0) ->
  0 <= dst -> 0 <= n < 2 ^ 31 -> dst + n < 2 ^ 64 -> (forall a, dst <= a < dst + n -> ~ in_buf buf_addr a) ->
  exists c' s', readi end_ buf_addr ip false dst 0 n c s = Done r c' s' /\ load_bytes (kmem s') dst (Z.to_nat r) = take (Z.to_nat r) data.
Proof.
  intros x r Hcpu HT Hdev Hlog Hm Hh Hblk Hs Hc Hdst Hn Hdn Hdis. assert (read_count x 0 n = r) as Hrc by (unfold read_count, r; lia).
  destruct (readi_spec end_ buf_addr ip c s dst 0 n) as (c' & l & m & E & _ & _ & _ & _ & _ & Hld); fold x; rewrite ?Hrc; try done; try lia.
  { intros a Ha. apply Hdis. lia. }
  fold x in E, Hld. rewrite Hrc in E, Hld. exists c', (set_klog (with_mem s m) l). split; [done|]. change (kmem (set_klog (with_mem s m) l)) with m.
  apply list_eq. intros i. destruct (decide (i < Z.to_nat r)%nat) as [Hi|Hi].
  - rewrite load_bytes_lookup, lookup_take_lt by done. rewrite Hld by (apply Hdis; lia). rewrite bool_decide_eq_true_2 by lia. destruct Hh as [Hmx _]. fold x in Hmx.
    rewrite Hc by lia. replace (Z.to_nat (0 + (dst + Z.of_nat i - dst))) with i by lia. rewrite nth_lookup. destruct (lookup_lt_is_Some_2 data i ltac:(lia)) as [b ->]. done.
  - rewrite lookup_ge_None_2 by (rewrite length_load_bytes; lia). rewrite lookup_ge_None_2 by (rewrite length_take; lia). done.
Qed.

(** ** Properties *)

(** What mkfs needs of the files on its command line for the kernel to find
    them: names of C strings without slashes, all different and none . or .. *)
Definition names_ok (args : list (list Z)) : Prop :=
  Forall (fun a => Forall (fun c => c <> 0) (file_name a) /\ file_name a <> [] /\ chr "/" ∉ file_name a) args /\
  NoDup (map snd (root_list args)).

(** C39: the image that mkfs builds, on the disk of the kernel: namei of a slash
    and the name of any file of the command line returns a table entry, ilock
    reads the inode, whose size is that of the host's file, and readi copies the
    bytes of that file to memory.  The files are those mkfs can take (C40), their
    names are not empty, are all different and are not . or .. ([names_ok]), and
    the directory must not fill its last block. *)
Theorem mkfs_file_read {D : DiskDriver} {DOK : DiskDriverOk D} host prog img args j arg end_ buf_addr de nm c path dst n :
  Forall (file_ok host) args -> names_ok args -> Z.of_nat (length args) + 2 <= NINODES -> end_block host args <= FSSIZE ->
  Z.of_nat (length (root_bytes args)) mod 1024 <> 0 -> args !! j = Some arg ->
  de_ok buf_addr de -> (forall i, 0 <= i < 14 -> ~ in_buf buf_addr (nm + i) /\ ~ (de <= nm + i < de + 16)) ->
  0 <= dst -> 0 <= n < 2 ^ 31 -> dst + n < 2 ^ 64 -> (forall a, dst <= a < dst + n -> ~ in_buf buf_addr a) ->
  exists m, mkfs host true (prog :: img :: args) mkfs_start = MDone tt m /\ forall s,
    quiet Mkfs.sb (vw m) c s (MAXPATH + 1) None ->
    (exists e1 e2, 0 <= e1 < NINODE /\ 0 <= e2 < NINODE /\ e1 <> e2 /\ refs_of s e1 = 0 /\ refs_of s e2 = 0) ->
    path_at buf_addr de nm (kmem s) path (47 :: file_name arg) ->
    exists ip c1 s1 c2 s2 c3 s3 r, let data := file_data host arg in
      namei end_ buf_addr de nm path c s = Done (Some ip) c1 s1 /\ ilock (Some ip) c1 s1 = Done tt c2 s2 /\
      i_inum (inode_at s2 ip) = 2 + Z.of_nat j /\ i_type (inode_at s2 ip) = T_FILE /\ i_size (inode_at s2 ip) = Z.of_nat (length data) /\
      readi end_ buf_addr ip false dst 0 n c2 s2 = Done r c3 s3 /\ r = Z.min n (Z.of_nat (length data)) /\
      load_bytes (kmem s3) dst (Z.to_nat r) = take (Z.to_nat r) data.
Proof.
  intros HA [HN1 HN2] Hn Hend Hhole Hj Hde Hnm Hdst Hn0 Hdn Hdis.
  destruct (mkfs_builds host prog img args HA Hn Hend) as (m & E & B). exists m. split; [exact E|]. clear E. intros s Q Hfree Hp.
  assert (Forall (fun a => Forall (fun c => c <> 0) (file_name a)) args) as HZ by (eapply Forall_impl; [exact HN1|]; simpl; tauto).
  destruct (Forall_lookup_1 _ _ _ _ HN1 Hj) as (_ & Hne & Hsl). destruct (Forall_lookup_1 _ _ _ _ HA Hj) as (_ & Hl & _). change Mkfs.DIRSIZ with 14 in Hl.
  pose proof (image_tree host args m B HA HZ Hn Hhole) as T. pose proof (lookup_lt_Some _ _ _ Hj) as Hlt.
  assert (live Mkfs.sb (vw m) ROOTINO) as Hroot by (apply (image_live host args m B Hn); change ROOTINO with 1; lia).
  pose proof (namei_spec end_ buf_addr de nm Mkfs.sb (vw m) T Hde Hnm c s path (file_name arg) Q Hroot Hfree Hp ltac:(lia)) as HR.
  rewrite (image_walk host args m B HA HZ Hn Hhole j arg HN2 Hj Hne Hsl) in HR.
  destruct HR as (ip & c1 & s1 & E1 & L1 & Q1 & Hh1 & Hlive & _).
  destruct (ilock_quiet Mkfs.sb (vw m) c1 s1 0 ip _ Q1 Hh1 Hlive) as (c2 & s2 & E2 & L2 & Q2 & Hh2 & Hm2 & Hp2 & _).
  destruct (bt_file _ _ _ B j arg Hj) as (Hr & Hs & Hho). change (disk_inode Mkfs.sb (vw m) (2 + Z.of_nat j)) with (dinode_at (vw m) (2 + Z.of_nat j)) in Hp2.
  set (x := inode_at s2 ip) in *. set (y := dinode_at (vw m) (2 + Z.of_nat j)) in *. set (data := file_data host arg) in *.
  destruct (part_ext (vw m) x y Hp2) as (_ & Hcx & Hox & _ & Hnx). assert (i_type x = i_type y /\ i_size x = i_size y) as [Ety Esz] by (unfold disk_part in Hp2; by injection Hp2).
  assert (no_holes (kview s2) x) as Hh by (apply (view_ext (vw m)); [apply (qt_view _ _ _ _ _ _ Q2)|by apply Hnx]).
  destruct (readi_data end_ buf_addr ip c2 s2 dst n data) as (c3 & s3 & E3 & Hld); fold x; try done.
  { apply Q2. } { apply Q2. } { apply Hh2. } { apply (qt_log _ _ _ _ _ _ Q2). } { apply Q2. }
  { intros a Ha. rewrite (qt_view _ _ _ _ _ _ Q2). apply (fw_own _ _ _ (ra_wf _ _ _ _ Hr)). apply Hox. by apply (owns_ext (vw m) (kview s2) x a (qt_view _ _ _ _ _ _ Q2)). }
  { by rewrite Esz. } { intros o Ho. rewrite (content_ext (vw m) (kview s2) x _ (qt_view _ _ _ _ _ _ Q2)), Hcx. by apply (ra_bytes _ _ _ _ Hr). }
  exists ip, c1, s1, c2, s2, c3, s3, (Z.min n (Z.of_nat (length data))).
  split; [exact E1|]. split; [exact E2|]. split; [apply Hh2|]. split; [fold x; rewrite Ety; apply (ra_type _ _ _ _ Hr)|]. split; [fold x; rewrite Esz; exact Hs|].
  split; [exact E3|]. split; [reflexivity|exact Hld].
Qed.

(** ** The kernel over the image of two files *)

Fixpoint img_disk (i : Z) (l : list block) : disk := match l with [] => [] | d :: l => (i, d) :: img_disk (i + 1) l end.
Lemma dget_img l : forall i b, dget (img_disk i l) b = if b <? i then zero_block else nth (Z.to_nat (b - i)) l zero_block.
Proof.
  induction l as [|d l IH]; intros i b; cbn [img_disk dget].
  - destruct (b <? i); [done|]. by destruct (Z.to_nat (b - i)).
  - destruct (Z.eqb_spec i b) as [<-|Hne]; [rewrite Z.ltb_irrefl, Z.sub_diag; done|]. rewrite IH.
    destruct (Z.ltb_spec b i), (Z.ltb_spec b (i + 1)); try lia; [done|]. replace (Z.to_nat (b - i)) with (S (Z.to_nat (b - (i + 1)))) by lia. done.
Qed.

Fixpoint inode_locks (n : nat) (c : ctx) : ctx :=
  match n with O => c | S n => with_lock (L_inode (Z.of_nat n)) "sleep lock" (inode_locks n c) end.
Lemma with_lock_unlocked l lk nm c : l = lk \/ unlocked l c -> unlocked l (with_lock lk nm c).
Proof.
  intros H. unfold unlocked, with_lock. cbn [locks set_locks]. destruct (decide (l = lk)) as [->|Hne]; [exists nm; apply lookup_insert_eq|].
  destruct H as [|[x Hx]]; [done|]. exists x. by rewrite lookup_insert_ne by congruence.
Qed.
Lemma inode_locks_ok n c : bio_cpu c -> bio_cpu (inode_locks n c) /\ (forall l, unlocked l c -> unlocked l (inode_locks n c)) /\
  forall j, 0 <= j < Z.of_nat n -> unlocked (L_inode j) (inode_locks n c).
Proof.
  intros Hc. induction n as [|n (H1 & H2 & H3)]; cbn [inode_locks]; [split; [done|]; split; [done|lia]|].
  split; [by apply bio_cpu_with_lock|]. split; [intros l Hl; apply with_lock_unlocked; right; by apply H2|].
  intros j Hj. apply with_lock_unlocked. destruct (Z.eq_dec j (Z.of_nat n)) as [->|]; [by left|right; apply H3; lia].
Qed.
Definition walk_ctx : ctx := inode_locks 50 op_ctx.

(** A process in an operation, with an empty inode table and a path in memory. *)
Definition boot_state (m : mkst) (path : list Z) : kst :=
  with_mem (op_state (img_disk 0 (m_img m)) Mkfs.sb) (store_bytes ∅ 5000 (path ++ [0])).
Lemma boot_quiet m path : quiet Mkfs.sb (vw m) walk_ctx (boot_state m path) (MAXPATH + 1) None.
Proof.
  destruct op_ctx_cpu as (H1 & H2 & _ & H4 & _). destruct (inode_locks_ok 50 op_ctx H1) as (W1 & W2 & W3).
  destruct (op_tx (img_disk 0 (m_img m)) Mkfs.sb) as [[T1 _ T3 T4 T5 T6 T7 T8] V].
  split.
  - exact W1.
  - by apply W2.
  - by apply W2.
  - exact W3.
  - by split.
  - reflexivity.
  - apply mem_ok_store_bytes, mem_ok_empty.
  - intros b. etransitivity; [exact (V b)|]. rewrite dget_img, Z.sub_0_r. reflexivity.
  - reflexivity.
  - intros j Hj. split; [done|done|]. intros Hz. change (0 < 0) in Hz. lia.
  - intros j Hj. reflexivity.
Qed.
Lemma boot_free m path : exists e1 e2, 0 <= e1 < NINODE /\ 0 <= e2 < NINODE /\ e1 <> e2 /\
  refs_of (boot_state m path) e1 = 0 /\ refs_of (boot_state m path) e2 = 0.
Proof. exists 0, 1. done. Qed.
Lemma boot_path m cs : Forall (fun c => 0 < c < 256) cs -> (length cs < 126)%nat -> path_at buffers 7000 8000 (kmem (boot_state m (47 :: cs))) 5000 (47 :: cs).
Proof.
  intros HF Hl. split; [|split; [|left; cbn [length]; lia]].
  - apply str_holds. change (kmem (boot_state m (47 :: cs))) with (store_bytes ∅ 5000 ((47 :: cs) ++ [0])).
    assert (holds (store_bytes ∅ 5000 ((47 :: cs) ++ [0])) 5000 ((47 :: cs) ++ [0])) as Hh.
    { apply holds_store, Forall_app. split; [|by repeat constructor]. apply Forall_cons. split; [done|]. eapply Forall_impl; [exact HF|]. simpl. unfold is_byte. lia. }
    apply holds_app in Hh as [H1 H2]. split; [exact H1|]. split; [|exact (H2 O 0 eq_refl)].
    apply Forall_cons. split; [done|]. eapply Forall_impl; [exact HF|]. simpl. lia.
  - cbn [length]. intros i Hi. split; [apply below_buffers; lia|lia].
Qed.

Definition two_args : list (list Z) := [chars "README"; chars "user/_cat"].
Lemma two_ok : Forall (file_ok two_files) two_args.
Proof.
  repeat constructor; try (apply (bool_decide_unpack _); vm_compute; exact I); try (vm_compute; discriminate).
  - exists [chars "xv6 is"; chars " a teaching system"]. split; [reflexivity|]. repeat constructor; vm_compute; (discriminate || reflexivity).
  - exists [[127; 69; 76; 70]]. split; [reflexivity|]. repeat constructor; vm_compute; (discriminate || reflexivity).
Qed.
Lemma two_names : names_ok two_args.
Proof.
  split; [|apply (bool_decide_unpack _); vm_compute; exact I].
  repeat constructor; try (vm_compute; discriminate); apply (bool_decide_unpack _); vm_compute; exact I.
Qed.
Lemma low_name i : 0 <= i < 14 -> ~ in_buf buffers (8000 + i) /\ ~ (7000 <= 8000 + i < 7000 + 16).
Proof. intros Hi. split; [apply below_buffers; lia|lia]. Qed.

Lemma mkfs_file_read_witness : exists m ip c1 s1 c2 s2 c3 s3,
  mkfs two_files true (chars "mkfs" :: chars "fs.img" :: two_args) mkfs_start = MDone tt m /\
  @namei ram_disk 0 buffers 7000 8000 5000 walk_ctx (boot_state m (chars "/README")) = Done (Some ip) c1 s1 /\
  @ilock ram_disk (Some ip) c1 s1 = Done tt c2 s2 /\ @readi ram_disk 0 buffers ip false 9000 0 6 c2 s2 = Done 6 c3 s3 /\
  load_bytes (kmem s3) 9000 6 = chars "xv6 is".
Proof.
  destruct (@mkfs_file_read ram_disk ram_disk_ok two_files (chars "mkfs") (chars "fs.img") two_args 0 (chars "README") 0 buffers 7000 8000 walk_ctx 5000 9000 6
    two_ok two_names ltac:(vm_compute; discriminate) ltac:(vm_compute; discriminate) ltac:(vm_compute; discriminate) eq_refl (low_de 7000 ltac:(lia)) low_name
    ltac:(lia) ltac:(lia) ltac:(lia) ltac:(intros a Ha; apply below_buffers; lia)) as (m & E & H).
  destruct (H (boot_state m (chars "/README")) (boot_quiet m _) (boot_free m _) (boot_path m (chars "README") ltac:(repeat constructor) ltac:(apply Nat.ltb_lt; reflexivity)))
    as (ip & c1 & s1 & c2 & s2 & c3 & s3 & r & E1 & E2 & _ & _ & _ & E3 & Hr & Hd).
  subst r. exists m, ip, c1, s1, c2, s2, c3, s3. split; [exact E|]. split; [exact E1|]. split; [exact E2|]. split; [exact E3|exact Hd].
Defined.

Lemma namei_resolves_witness : exists m, built two_files two_args m /\
  (exists ip c1 s1, @namei ram_disk 0 buffers 7000 8000 5000 walk_ctx (boot_state m (chars "/cat")) = Done (Some ip) c1 s1 /\ i_inum (inode_at s1 ip) = 3) /\
  exists c1 s1, @namei ram_disk 0 buffers 7000 8000 5000 walk_ctx (boot_state m (chars "/cat/x")) = Done None c1 s1.
Proof.
  destruct (mkfs_builds two_files (chars "mkfs") (chars "fs.img") two_args two_ok ltac:(vm_compute; discriminate) ltac:(vm_compute; discriminate)) as (m & _ & B).
  assert (Forall (fun a => Forall (fun c => c <> 0) (file_name a)) two_args) as HZ by (repeat constructor; discriminate).
  assert (Z.of_nat (length two_args) + 2 <= NINODES) as Hn by (vm_compute; discriminate).
  assert (Z.of_nat (length (root_bytes two_args)) mod 1024 <> 0) as Hh by (vm_compute; discriminate).
  pose proof (image_tree two_files two_args m B two_ok HZ Hn Hh) as T.
  assert (live Mkfs.sb (vw m) ROOTINO) as Hroot by (apply (image_live two_files two_args m B Hn); vm_compute; split; congruence).
  pose proof (@namei_resolves ram_disk ram_disk_ok 0 buffers 7000 8000 Mkfs.sb (vw m) T (low_de 7000 ltac:(lia)) low_name walk_ctx) as R.
  exists m. split; [exact B|]. pose proof (image_walk two_files two_args m B two_ok HZ Hn Hh 1 (chars "user/_cat") (proj2 two_names) eq_refl ltac:(discriminate)
    ltac:(apply (bool_decide_unpack _); vm_compute; exact I)) as W. change (file_name (chars "user/_cat")) with (chars "cat") in W. split.
  - pose proof (R (boot_state m (chars "/cat")) 5000 (chars "cat") (boot_quiet m _) Hroot (boot_free m _) (boot_path m (chars "cat") ltac:(repeat constructor) ltac:(apply Nat.ltb_lt; reflexivity))
      ltac:(apply Nat.ltb_lt; reflexivity)) as R1. rewrite W in R1. destruct R1 as (ip & c1 & s1 & E & _ & _ & (_ & _ & _ & Hi) & _).
    exists ip, c1, s1. split; [exact E|exact Hi].
  - pose proof (R (boot_state m (chars "/cat/x")) 5000 (chars "cat/x") (boot_quiet m _) Hroot (boot_free m _) (boot_path m (chars "cat/x") ltac:(repeat constructor) ltac:(apply Nat.ltb_lt; reflexivity))
      ltac:(apply Nat.ltb_lt; reflexivity)) as R2.
    assert (walk_path Mkfs.sb (vw m) ROOTINO (elems [] (47 :: chars "cat/x")) = None) as W2.
    { change (elems [] (47 :: chars "cat/x")) with [chars "cat"; chars "x"]. change (elems [] (47 :: chars "cat")) with [chars "cat"] in W.
      cbn [walk_path] in W |- *. destruct (_ =? T_DIR); [|reflexivity]. destruct (dir_inum _ _ _) as [j|]; [|reflexivity]. injection W as ->.
      pose proof (bt_file _ _ _ B 1 (chars "user/_cat") eq_refl) as [Hr _]. change (disk_inode Mkfs.sb (vw m) (2 + Z.of_nat 1)) with (dinode_at (vw m) (2 + Z.of_nat 1)).
      rewrite (ra_type _ _ _ _ Hr). reflexivity. }
    rewrite W2 in R2. destruct R2 as (c1 & s1 & E & _). exists c1, s1. exact E.
Defined.
