(* ===== verification/Virtio.v ===== *)
(** * Disk driver (kernel/virtio_disk.c, kernel/virtio.h)

    The driver hands requests to the device through three structures in memory:
    a table of descriptors, the ring of requests made available and the ring of
    requests used up.  They are kept here as the C structures they are; the
    addresses the driver stores in descriptors are names of the objects they
    point to.  Device registers are written by [MMIO] events and read from the
    device by [rd]. *)
From stdpp Require Import base numbers list gmap strings.
From S2P Require Import Prelude Kernel Spinlock Sleeplock Bio Str Riscv Kalloc.

Definition VIRTIO_MMIO_MAGIC_VALUE : Z := 0x000.
Definition VIRTIO_MMIO_VERSION : Z := 0x004.
Definition VIRTIO_MMIO_DEVICE_ID : Z := 0x008.
Definition VIRTIO_MMIO_VENDOR_ID : Z := 0x00c.
Definition VIRTIO_MMIO_DEVICE_FEATURES : Z := 0x010.
Definition VIRTIO_MMIO_DRIVER_FEATURES : Z := 0x020.
Definition VIRTIO_MMIO_QUEUE_SEL : Z := 0x030.
Definition VIRTIO_MMIO_QUEUE_NUM_MAX : Z := 0x034.
Definition VIRTIO_MMIO_QUEUE_NUM : Z := 0x038.
Definition VIRTIO_MMIO_QUEUE_READY : Z := 0x044.
Definition VIRTIO_MMIO_QUEUE_NOTIFY : Z := 0x050.
Definition VIRTIO_MMIO_INTERRUPT_STATUS : Z := 0x060.
Definition VIRTIO_MMIO_INTERRUPT_ACK : Z := 0x064.
Definition VIRTIO_MMIO_STATUS : Z := 0x070.
Definition VIRTIO_MMIO_QUEUE_DESC_LOW : Z := 0x080.
Definition VIRTIO_MMIO_QUEUE_DESC_HIGH : Z := 0x084.
Definition VIRTIO_MMIO_DRIVER_DESC_LOW : Z := 0x090.
Definition VIRTIO_MMIO_DRIVER_DESC_HIGH : Z := 0x094.
Definition VIRTIO_MMIO_DEVICE_DESC_LOW : Z := 0x0a0.
Definition VIRTIO_MMIO_DEVICE_DESC_HIGH : Z := 0x0a4.

Definition VIRTIO_CONFIG_S_ACKNOWLEDGE : Z := 1.
Definition VIRTIO_CONFIG_S_DRIVER : Z := 2.
Definition VIRTIO_CONFIG_S_DRIVER_OK : Z := 4.
Definition VIRTIO_CONFIG_S_FEATURES_OK : Z := 8.

Definition VIRTIO_BLK_F_RO : Z := 5.
Definition VIRTIO_BLK_F_SCSI : Z := 7.
Definition VIRTIO_BLK_F_CONFIG_WCE : Z := 11.
Definition VIRTIO_BLK_F_MQ : Z := 12.
Definition VIRTIO_F_ANY_LAYOUT : Z := 27.
Definition VIRTIO_RING_F_INDIRECT_DESC : Z := 28.
Definition VIRTIO_RING_F_EVENT_IDX : Z := 29.

Definition NUM : Z := 8.
Definition VRING_DESC_F_NEXT : Z := 1.
Definition VRING_DESC_F_WRITE : Z := 2.
Definition VIRTIO_BLK_T_IN : Z := 0.
Definition VIRTIO_BLK_T_OUT : Z := 1.

(** What a descriptor's address field can point to. *)
Inductive vptr := P_null | P_op (i : Z) | P_data (b : Z) | P_status (i : Z).

Record virtq_desc := Desc { d_addr : vptr; d_len : Z; d_flags : Z; d_next : Z }.
Definition desc0 : virtq_desc := Desc P_null 0 0 0.
Record virtio_blk_req := Req { r_type : Z; r_reserved : Z; r_sector : Z }.

(** Arrays of the C code as functions of the index. *)
Definition upd {A} (f : Z -> A) (i : Z) (x : A) : Z -> A := fun j => if j =? i then x else f j.

(** [struct disk]: the fields of *desc, *avail and *used inlined, info[] as two
    arrays; the spinlock is in the context.  [v_pages] holds the addresses of the
    three pages. *)
Record vdisk := Vdisk {
  v_pages : Z * Z * Z;
  v_desc : Z -> virtq_desc;
  v_avail_idx : Z;
  v_avail_ring : Z -> Z;
  v_used_dev : Z;              (* used->idx, written by the device *)
  v_used_ring : Z -> Z;        (* used->ring[].id, written by the device *)
  v_free : Z -> bool;
  v_used_idx : Z;
  v_info_b : Z -> option Z;
  v_status : Z -> Z;           (* info[].status, written by the device *)
  v_ops : Z -> virtio_blk_req;
}.

(** The driver with the buffers it moves: the buffer cache's part of the kernel,
    and the field [disk] of every struct buf. *)
Record vst := Vst { vd : vdisk; vbio : bio; v_bdisk : Z -> bool }.

Definition with_vd (f : vdisk -> vdisk) (s : vst) : vst := Vst (f (vd s)) (vbio s) (v_bdisk s).
Definition set_desc (i : Z) (d : virtq_desc) (v : vdisk) : vdisk :=
  Vdisk (v_pages v) (upd (v_desc v) i d) (v_avail_idx v) (v_avail_ring v) (v_used_dev v) (v_used_ring v)
    (v_free v) (v_used_idx v) (v_info_b v) (v_status v) (v_ops v).
Definition set_free (i : Z) (x : bool) (v : vdisk) : vdisk :=
  Vdisk (v_pages v) (v_desc v) (v_avail_idx v) (v_avail_ring v) (v_used_dev v) (v_used_ring v)
    (upd (v_free v) i x) (v_used_idx v) (v_info_b v) (v_status v) (v_ops v).
Definition set_op (i : Z) (r : virtio_blk_req) (v : vdisk) : vdisk :=
  Vdisk (v_pages v) (v_desc v) (v_avail_idx v) (v_avail_ring v) (v_used_dev v) (v_used_ring v)
    (v_free v) (v_used_idx v) (v_info_b v) (v_status v) (upd (v_ops v) i r).
Definition set_info_b (i : Z) (b : option Z) (v : vdisk) : vdisk :=
  Vdisk (v_pages v) (v_desc v) (v_avail_idx v) (v_avail_ring v) (v_used_dev v) (v_used_ring v)
    (v_free v) (v_used_idx v) (upd (v_info_b v) i b) (v_status v) (v_ops v).
Definition set_status (i : Z) (x : Z) (v : vdisk) : vdisk :=
  Vdisk (v_pages v) (v_desc v) (v_avail_idx v) (v_avail_ring v) (v_used_dev v) (v_used_ring v)
    (v_free v) (v_used_idx v) (v_info_b v) (upd (v_status v) i x) (v_ops v).
Definition set_avail (idx : Z) (ring : Z -> Z) (v : vdisk) : vdisk :=
  Vdisk (v_pages v) (v_desc v) idx ring (v_used_dev v) (v_used_ring v)
    (v_free v) (v_used_idx v) (v_info_b v) (v_status v) (v_ops v).
Definition set_used (idx : Z) (ring : Z -> Z) (v : vdisk) : vdisk :=
  Vdisk (v_pages v) (v_desc v) (v_avail_idx v) (v_avail_ring v) idx ring
    (v_free v) (v_used_idx v) (v_info_b v) (v_status v) (v_ops v).
Definition set_used_idx (idx : Z) (v : vdisk) : vdisk :=
  Vdisk (v_pages v) (v_desc v) (v_avail_idx v) (v_avail_ring v) (v_used_dev v) (v_used_ring v)
    (v_free v) idx (v_info_b v) (v_status v) (v_ops v).
Definition set_bdisk (b : Z) (x : bool) (s : vst) : vst := Vst (vd s) (vbio s) (upd (v_bdisk s) b x).

Definition gv {A} (f : vdisk -> A) : K vst A := gets (fun s => f (vd s)).
Definition uv (f : vdisk -> vdisk) : K vst unit := modify (with_vd f).

(** *R(r) = v *)
Definition WriteR {S} (r v : Z) : K S unit := emit (MMIO (VIRTIO0 + r) v).

(** for(int i = 0; i < NUM; i++) from [i], [n] descriptors left. *)
Fixpoint alloc_desc_loop (n : nat) (i : Z) : K vst Z :=
  match n with
  | O => mret (-1)
  | S n =>
      f ← gv (fun v => v_free v i);
      if (f : bool) then uv (set_free i false);; mret i else alloc_desc_loop n (i + 1)
  end.
Definition alloc_desc : K vst Z := alloc_desc_loop (Z.to_nat NUM) 0.

Definition free_desc (i : Z) : K vst unit :=
  (if NUM <=? i then panic "free_desc 1" else mret tt);;
  f ← gv (fun v => v_free v i);
  (if (f : bool) then panic "free_desc 2" else mret tt);;
  uv (set_desc i desc0);;
  uv (set_free i true);;
  wakeup C_disk_free.

(** while(1): every round frees a descriptor that was not free, so there are at
    most NUM rounds before the chain ends or free_desc panics. *)
Fixpoint free_chain_loop (n : nat) (i : Z) : K vst unit :=
  match n with
  | O => nofuel
  | S n =>
      flag ← gv (fun v => d_flags (v_desc v i));
      nxt ← gv (fun v => d_next (v_desc v i));
      free_desc i;;
      if z2b (Z.land flag VRING_DESC_F_NEXT) then free_chain_loop n nxt else mret tt
  end.
Definition free_chain (i : Z) : K vst unit := free_chain_loop (S (Z.to_nat NUM)) i.

(** for(int j = 0; j < i; j++) free_desc(idx[j]) *)
Fixpoint free_descs (idx : list Z) : K vst unit :=
  match idx with
  | [] => mret tt
  | j :: idx => free_desc j;; free_descs idx
  end.

(** The loop of alloc3_desc with [n] descriptors to go and [idx] already taken:
    the three indices, or [None] for the result -1. *)
Fixpoint alloc3_loop (n : nat) (idx : list Z) : K vst (option (list Z)) :=
  match n with
  | O => mret (Some idx)
  | S n =>
      i ← alloc_desc;
      if i <? 0 then free_descs idx;; mret None else alloc3_loop n (idx ++ [i])
  end.
Definition alloc3_desc : K vst (option (list Z)) := alloc3_loop 3 [].

(** From the allocated descriptors to the notification of the device. *)
Definition rw_submit (b : Z) (write : bool) (i0 i1 i2 : Z) : K vst unit :=
  s ← get;
  let sector := u32 (b_blockno (buf_at (vbio s) b) * (BSIZE / 512)) in
  uv (set_op i0 (Req (if write then VIRTIO_BLK_T_OUT else VIRTIO_BLK_T_IN) 0 sector));;
  uv (set_desc i0 (Desc (P_op i0) 16 VRING_DESC_F_NEXT i1));;
  uv (set_desc i1 (Desc (P_data b) BSIZE
       (Z.lor (if write then 0 else VRING_DESC_F_WRITE) VRING_DESC_F_NEXT) i2));;
  uv (set_status i0 0xff);;
  uv (set_desc i2 (Desc (P_status i0) 1 VRING_DESC_F_WRITE 0));;
  modify (set_bdisk b true);;
  uv (set_info_b i0 (Some b));;
  uv (fun v => set_avail (v_avail_idx v) (upd (v_avail_ring v) (v_avail_idx v mod NUM) i0) v);;
  uv (fun v => set_avail (u16 (v_avail_idx v + 1)) (v_avail_ring v) v);;
  WriteR VIRTIO_MMIO_QUEUE_NOTIFY 0.

(** while(b->disk == 1) sleep(b, &disk.vdisk_lock): the process comes back here,
    with the lock held, when it is woken up. *)
Definition rw_wait (b i0 : Z) : K vst unit :=
  s ← get;
  (if v_bdisk s b then sleep (C_buf b) L_vdisk else mret tt);;
  uv (set_info_b i0 None);;
  free_chain i0;;
  release L_vdisk.

Definition virtio_disk_rw (b : Z) (write : bool) : K vst unit :=
  acquire L_vdisk;;
  idx ← alloc3_desc;
  match idx with
  | Some [i0; i1; i2] => rw_submit b write i0 i1 i2;; rw_wait b i0
  | _ => sleep C_disk_free L_vdisk
  end.

(** The counters have 16 bits, so the loop ends within 2^16 rounds. *)
Definition INTR_FUEL : nat := Z.to_nat (2 ^ 16).
Lemma intr_fuel_val : Z.of_nat INTR_FUEL = 65536.
Proof. unfold INTR_FUEL. by rewrite Z2Nat.id. Qed.
#[global] Opaque INTR_FUEL.

(** while(disk.used_idx != disk.used->idx): both are 16-bit counters. *)
Fixpoint intr_loop (n : nat) : K vst unit :=
  match n with
  | O => nofuel
  | S n =>
      v ← gv id;
      if v_used_idx v =? v_used_dev v then mret tt
      else
        let i := v_used_ring v (v_used_idx v mod NUM) in
        (if v_status v i =? 0 then mret tt else panic "virtio_disk_intr status");;
        match v_info_b v i with
        | Some b => modify (set_bdisk b false);; wakeup (C_buf b)
        | None => panic "null pointer"
        end;;
        uv (set_used_idx (u16 (v_used_idx v + 1)));;
        intr_loop n
  end.

Section Device.
(** The value of a device register when it is read. *)
Variable rd : Z -> Z.

Definition virtio_disk_intr : K vst unit :=
  acquire L_vdisk;;
  WriteR VIRTIO_MMIO_INTERRUPT_ACK (Z.land (rd VIRTIO_MMIO_INTERRUPT_STATUS) 3);;
  intr_loop INTR_FUEL;;
  release L_vdisk.

(** features &= ~(1 << bit), one after the other *)
Fixpoint clear_bits (bits : list Z) (x : Z) : Z :=
  match bits with
  | [] => x
  | b :: bits => clear_bits bits (Z.ldiff x (2 ^ b))
  end.
Definition off_features : list Z :=
  [VIRTIO_BLK_F_RO; VIRTIO_BLK_F_SCSI; VIRTIO_BLK_F_CONFIG_WCE; VIRTIO_BLK_F_MQ;
   VIRTIO_F_ANY_LAYOUT; VIRTIO_RING_F_EVENT_IDX; VIRTIO_RING_F_INDIRECT_DESC].

(** The state of the driver is [V] and the page allocator's is [M]. *)
Context {S : Type} (V : acc S vst) (M : acc S pmem).

Definition set_pages (p : Z * Z * Z) (v : vdisk) : vdisk :=
  Vdisk p (fun _ => desc0) 0 (fun _ => 0) 0 (fun _ => 0) (v_free v) (v_used_idx v) (v_info_b v) (v_status v) (v_ops v).
Definition zero_page (p : Z) : K S unit :=
  zoom M (modify (fun m => set_memory (memset (memory m) p 0 PGSIZE) m)).

Definition virtio_disk_init : K S unit :=
  initlock L_vdisk "virtio_disk";;
  (if negb (rd VIRTIO_MMIO_MAGIC_VALUE =? 0x74726976) || negb (rd VIRTIO_MMIO_VERSION =? 2) ||
      negb (rd VIRTIO_MMIO_DEVICE_ID =? 2) || negb (rd VIRTIO_MMIO_VENDOR_ID =? 0x554d4551)
   then panic "could not find virtio disk" else mret tt);;
  WriteR VIRTIO_MMIO_STATUS 0;;
  let status := VIRTIO_CONFIG_S_ACKNOWLEDGE in
  WriteR VIRTIO_MMIO_STATUS status;;
  let status := Z.lor status VIRTIO_CONFIG_S_DRIVER in
  WriteR VIRTIO_MMIO_STATUS status;;
  WriteR VIRTIO_MMIO_DRIVER_FEATURES (u32 (clear_bits off_features (rd VIRTIO_MMIO_DEVICE_FEATURES)));;
  let status := Z.lor status VIRTIO_CONFIG_S_FEATURES_OK in
  WriteR VIRTIO_MMIO_STATUS status;;
  let status := rd VIRTIO_MMIO_STATUS in
  (if z2b (Z.land status VIRTIO_CONFIG_S_FEATURES_OK) then mret tt else panic "virtio disk FEATURES_OK unset");;
  WriteR VIRTIO_MMIO_QUEUE_SEL 0;;
  (if z2b (rd VIRTIO_MMIO_QUEUE_READY) then panic "virtio disk should not be ready" else mret tt);;
  let max := rd VIRTIO_MMIO_QUEUE_NUM_MAX in
  (if max =? 0 then panic "virtio disk has no queue 0" else mret tt);;
  (if max <? NUM then panic "virtio disk max queue too short" else mret tt);;
  desc ← zoom M kalloc;
  avail ← zoom M kalloc;
  used ← zoom M kalloc;
  (if (desc =? 0) || (avail =? 0) || (used =? 0) then panic "virtio disk kalloc" else mret tt);;
  zero_page desc;; zero_page avail;; zero_page used;;
  zoom V (uv (set_pages (desc, avail, used)));;
  WriteR VIRTIO_MMIO_QUEUE_NUM NUM;;
  WriteR VIRTIO_MMIO_QUEUE_DESC_LOW (u32 desc);;
  WriteR VIRTIO_MMIO_QUEUE_DESC_HIGH (Z.shiftr desc 32);;
  WriteR VIRTIO_MMIO_DRIVER_DESC_LOW (u32 avail);;
  WriteR VIRTIO_MMIO_DRIVER_DESC_HIGH (Z.shiftr avail 32);;
  WriteR VIRTIO_MMIO_DEVICE_DESC_LOW (u32 used);;
  WriteR VIRTIO_MMIO_DEVICE_DESC_HIGH (Z.shiftr used 32);;
  WriteR VIRTIO_MMIO_QUEUE_READY 1;;
  zoom V (uv (fun v => Vdisk (v_pages v) (v_desc v) (v_avail_idx v) (v_avail_ring v) (v_used_dev v) (v_used_ring v)
    (fun i => if (0 <=? i) && (i <? NUM) then true else v_free v i) (v_used_idx v) (v_info_b v) (v_status v) (v_ops v)));;
  WriteR VIRTIO_MMIO_STATUS (Z.lor status VIRTIO_CONFIG_S_DRIVER_OK).
End Device.
