(* ===== verification/Vqueue.v ===== *)
(** * The disk driver against the device (theorems on Virtio.v)

    Processes that submit requests, the device that works on them in any order,
    interrupts, and processes that collect their result, interleaved in any
    way.  The device is a relation that follows the virtio specification: it
    takes entries off the available ring, and for a chain formatted as a block
    request it moves the block and writes status 0, or fails and writes one of
    the other two statuses, and puts the head on the used ring. *)
From stdpp Require Import base numbers list gmap strings.
From S2P Require Import Prelude Kernel Spinlock Sleeplock Bio Riscv Virtio.

(** ** Rings with 16-bit counters *)

Definition ring_list (f : Z -> Z) (start : Z) (n : nat) : list Z :=
  (fun k => f ((start + Z.of_nat k) mod NUM)) <$> seq 0 n.

Lemma length_ring_list f start n : length (ring_list f start n) = n.
Proof. unfold ring_list. by rewrite length_fmap, length_seq. Qed.
Lemma u16_mod x : u16 x mod NUM = x mod NUM.
Proof. apply Z.mod_mod_divide. by exists 8192. Qed.
Lemma u16_add_mod x y : (u16 x + y) mod NUM = (x + y) mod NUM.
Proof. by rewrite <- Zplus_mod_idemp_l, u16_mod, Zplus_mod_idemp_l. Qed.
Lemma u16_u16_add x y : u16 (u16 x + y) = u16 (x + y).
Proof. unfold u_. by rewrite Zplus_mod_idemp_l. Qed.

Lemma ring_list_cons f start n : ring_list f start (S n) = f (start mod NUM) :: ring_list f (u16 (start + 1)) n.
Proof.
  unfold ring_list. rewrite <- cons_seq. simpl. rewrite Z.add_0_r. f_equal. rewrite <- fmap_S_seq, <- list_fmap_compose.
  apply list_fmap_ext. intros ? k _. simpl. rewrite u16_add_mod. do 2 f_equal. lia.
Qed.
(** An entry added behind at most NUM - 1 others overwrites none of them. *)
Lemma ring_list_snoc f start idx n x : (Z.of_nat n < NUM) -> idx = u16 (start + Z.of_nat n) ->
  ring_list (upd f (idx mod NUM) x) start (S n) = ring_list f start n ++ [x].
Proof.
  intros Hn ->. rewrite u16_mod. unfold ring_list. rewrite seq_S, fmap_app. simpl. f_equal.
  - apply list_fmap_ext. intros i k Hk. apply lookup_seq in Hk as [-> Hk]. unfold upd.
    destruct (Z.eqb_spec ((start + Z.of_nat (0 + i)) mod NUM) ((start + Z.of_nat n) mod NUM)) as [E|]; [|done].
    exfalso. unfold NUM in *. apply (f_equal (fun z => (z - start) mod 8)) in E.
    rewrite !Zminus_mod_idemp_l in E. replace (start + Z.of_nat (0 + i) - start) with (Z.of_nat i) in E by lia.
    replace (start + Z.of_nat n - start) with (Z.of_nat n) in E by lia. rewrite !Z.mod_small in E by lia. lia.
  - unfold upd. by rewrite Z.eqb_refl.
Qed.
(** The distance of two counters tells how many entries are between them. *)
Lemma u16_count start n : 0 <= start < 2 ^ 16 -> Z.of_nat n < 2 ^ 16 ->
  (start = u16 (start + Z.of_nat n)) <-> n = O.
Proof.
  intros Hs Hn. split; [|intros ->; rewrite Z.add_0_r; symmetry; by apply u_small]. intros E. unfold u_ in E.
  change (2 ^ 16) with 65536 in *.
  destruct (Z.lt_ge_cases (start + Z.of_nat n) 65536); [rewrite Z.mod_small in E; lia|].
  rewrite <- (Z.mod_add _ (-1)), Z.mod_small in E; lia.
Qed.

(** ** Requests and the device *)

(** A process in virtio_disk_rw: its buffer, its direction and its idx[3]. *)
Record vreq := VReq { q_b : Z; q_w : bool; q0 : Z; q1 : Z; q2 : Z }.
Definition q_idx (r : vreq) : list Z := [q0 r; q1 r; q2 r].

(** The whole system: the driver, the processes inside virtio_disk_rw, and the
    device's place in the available ring with the heads it is working on. *)
Record vsys := VSys { y_st : vst; y_reqs : list vreq; y_seen : Z; y_taken : list Z }.

(** The chain at [h] is a block request of the virtio specification, section
    5.2, for buffer [b] and the sector in ops[h]. *)
Definition formatted (v : vdisk) (h b i1 i2 : Z) (w : bool) : Prop :=
  v_desc v h = Desc (P_op h) 16 VRING_DESC_F_NEXT i1 /\
  v_desc v i1 = Desc (P_data b) BSIZE (Z.lor (if w then 0 else VRING_DESC_F_WRITE) VRING_DESC_F_NEXT) i2 /\
  v_desc v i2 = Desc (P_status h) 1 VRING_DESC_F_WRITE 0 /\
  r_type (v_ops v h) = if w then VIRTIO_BLK_T_OUT else VIRTIO_BLK_T_IN.

(** The transfer of 1024 bytes at a 512-byte sector of the disk. *)
Definition move (b sector : Z) (w : bool) (s : bio) : bio :=
  if w then Bio (bufs s) ((sector / 2, b_data (buf_at s b)) :: dsk s)
  else upd_buf b (set_data (dget (dsk s) (sector / 2))) s.

(** A transfer that failed: what it was to overwrite may hold anything. *)
Definition spoil (b sector : Z) (w : bool) (d : block) (s : bio) : bio :=
  if w then Bio (bufs s) ((sector / 2, d) :: dsk s) else upd_buf b (set_data d) s.

(** The statuses of the specification. *)
Definition VIRTIO_BLK_S_OK : Z := 0.
Definition VIRTIO_BLK_S_IOERR : Z := 1.
Definition VIRTIO_BLK_S_UNSUPP : Z := 2.
Definition a_status (st : Z) : Prop := st = VIRTIO_BLK_S_OK \/ st = VIRTIO_BLK_S_IOERR \/ st = VIRTIO_BLK_S_UNSUPP.

(** The device ends the request at [h] with status [st]; [d] is what a failed
    transfer leaves. *)
Definition complete (h b : Z) (w : bool) (st : Z) (d : block) (s : vst) : vst :=
  Vst (set_used (u16 (v_used_dev (vd s) + 1)) (upd (v_used_ring (vd s)) (v_used_dev (vd s) mod NUM) h)
        (set_status h st (vd s)))
    (let sector := r_sector (v_ops (vd s) h) in
     if st =? VIRTIO_BLK_S_OK then move b sector w (vbio s) else spoil b sector w d (vbio s)) (v_bdisk s).

(** What the specification says of a step of a device that only reports the
    statuses of [reports]. *)
Inductive dev_spec (reports : Z -> Prop) (y : vsys) : vsys -> Prop :=
  | dev_take : y_seen y <> v_avail_idx (vd (y_st y)) ->
      dev_spec reports y (VSys (y_st y) (y_reqs y) (u16 (y_seen y + 1))
                    (y_taken y ++ [v_avail_ring (vd (y_st y)) (y_seen y mod NUM)]))
  | dev_done h b i1 i2 w st d l : y_taken y ≡ₚ h :: l -> formatted (vd (y_st y)) h b i1 i2 w ->
      a_status st -> reports st ->
      dev_spec reports y (VSys (complete h b w st d (y_st y)) (y_reqs y) (y_seen y) l)
  | dev_undefined h y' : h ∈ y_taken y -> (forall b i1 i2 w, ~ formatted (vd (y_st y)) h b i1 i2 w) ->
      dev_spec reports y y'.

Section System.
Variable rd : Z -> Z.
Variable dev : vsys -> vsys -> Prop.

Inductive vstep (y : vsys) : vsys -> Prop :=
  (** A process calls virtio_disk_rw on a buffer whose lock it holds, gets its
      descriptors, submits the request and waits. *)
  | VS_start b w i0 i1 i2 c c1 s1 c2 s2 :
      b ∉ q_b <$> y_reqs y -> 0 <= b_blockno (buf_at (vbio (y_st y)) b) < 2 ^ 31 ->
      alloc3_desc c (y_st y) = Done (Some [i0; i1; i2]) c1 s1 ->
      rw_submit b w i0 i1 i2 c1 s1 = Done tt c2 s2 ->
      vstep y (VSys s2 (VReq b w i0 i1 i2 :: y_reqs y) (y_seen y) (y_taken y))
  (** It finds too few descriptors and sleeps. *)
  | VS_full c c1 s1 : alloc3_desc c (y_st y) = Done None c1 s1 ->
      vstep y (VSys s1 (y_reqs y) (y_seen y) (y_taken y))
  | VS_intr c c1 s1 : cpu_ok c -> unlocked L_vdisk c -> virtio_disk_intr rd c (y_st y) = Done tt c1 s1 ->
      vstep y (VSys s1 (y_reqs y) (y_seen y) (y_taken y))
  (** A waiting process is woken up and finds its request finished. *)
  | VS_finish r l c c1 s1 : cpu_ok c -> unlocked L_vdisk c ->
      y_reqs y ≡ₚ r :: l -> v_bdisk (y_st y) (q_b r) = false ->
      rw_wait (q_b r) (q0 r) (inside L_vdisk c) (y_st y) = Done tt c1 s1 ->
      vstep y (VSys s1 l (y_seen y) (y_taken y))
  (** The rest of the kernel changes buffers that are not under way. *)
  | VS_other bio' : (forall r, r ∈ y_reqs y -> buf_at bio' (q_b r) = buf_at (vbio (y_st y)) (q_b r)) ->
      vstep y (VSys (Vst (vd (y_st y)) bio' (v_bdisk (y_st y))) (y_reqs y) (y_seen y) (y_taken y))
  | VS_dev y' : dev y y' -> vstep y y'.
End System.

(** After virtio_disk_init: all descriptors free, all counters 0. *)
Definition vinit (y : vsys) : Prop :=
  (forall i, 0 <= i < NUM -> v_free (vd (y_st y)) i = true) /\
  v_avail_idx (vd (y_st y)) = 0 /\ v_used_dev (vd (y_st y)) = 0 /\ v_used_idx (vd (y_st y)) = 0 /\
  y_reqs y = [] /\ y_seen y = 0 /\ y_taken y = [].

(** ** The operations *)

Lemma upd_same {A} (f : Z -> A) i x : upd f i x i = x.
Proof. unfold upd. by rewrite Z.eqb_refl. Qed.
Lemma upd_ne {A} (f : Z -> A) i x j : j <> i -> upd f i x j = f j.
Proof. intros. unfold upd. by rewrite (proj2 (Z.eqb_neq j i)). Qed.

Lemma alloc_desc_loop_spec n : forall i c s,
  (exists j, i <= j < i + Z.of_nat n /\ v_free (vd s) j = true /\
     alloc_desc_loop n i c s = Done j c (with_vd (set_free j false) s)) \/
  ((forall j, i <= j < i + Z.of_nat n -> v_free (vd s) j = false) /\ alloc_desc_loop n i c s = Done (-1) c s).
Proof.
  induction n as [|n IH]; intros i c s; cbn [alloc_desc_loop].
  - right. split; [lia|done].
  - unfold gv, uv. krun. destruct (v_free (vd s) i) eqn:E.
    + left. exists i. split; [lia|done].
    + destruct (IH (i + 1) c s) as [(j & Hj & Hf & ->)|[Hj ->]]; [left; exists j; split; [lia|done]|right].
      split; [|done]. intros j Hr. destruct (decide (j = i)) as [->|]; [done|]. apply Hj. lia.
Qed.
Lemma alloc_desc_spec c s :
  (exists j, 0 <= j < NUM /\ v_free (vd s) j = true /\ alloc_desc c s = Done j c (with_vd (set_free j false) s)) \/
  ((forall j, 0 <= j < NUM -> v_free (vd s) j = false) /\ alloc_desc c s = Done (-1) c s).
Proof. apply (alloc_desc_loop_spec (Z.to_nat NUM) 0 c s). Qed.

Definition freed (i : Z) (s : vst) : vst := with_vd (fun v => set_free i true (set_desc i desc0 v)) s.
Definition woken (ch : chan) (c : ctx) : ctx := set_evs (Wakeup ch :: evs c) c.

Lemma free_desc_spec i c s : i < NUM -> v_free (vd s) i = false ->
  free_desc i c s = Done tt (woken C_disk_free c) (freed i s).
Proof.
  intros Hi Hf. unfold free_desc. rewrite (proj2 (Z.leb_gt NUM i)) by done. unfold gv, uv. krun. rewrite Hf. done.
Qed.

Lemma free_descs_spec l : forall c s, NoDup l -> Forall (fun i => i < NUM /\ v_free (vd s) i = false) l ->
  exists c', free_descs l c s = Done tt c' (foldl (fun s i => freed i s) s l).
Proof.
  induction l as [|i l IH]; intros c s Hn HF; cbn [free_descs foldl]; [by eexists|].
  apply NoDup_cons in Hn as [Hi Hn]. apply Forall_cons in HF as [[H1 H2] HF].
  kstep (free_desc_spec i c s H1 H2). apply IH; [done|]. rewrite Forall_forall in *.
  intros j Hj. destruct (HF j Hj) as [Hj1 Hj2]. split; [done|]. simpl. rewrite upd_ne; [done|]. intros ->. done.
Qed.

(** alloc3_desc takes three free descriptors, or, when there are at most two,
    returns -1 and leaves the same ones free. *)
Lemma alloc3_spec c s :
  (exists i0 i1 i2, Forall (fun i => 0 <= i < NUM /\ v_free (vd s) i = true) [i0; i1; i2] /\ NoDup [i0; i1; i2] /\
     alloc3_desc c s = Done (Some [i0; i1; i2]) c
       (with_vd (set_free i2 false) (with_vd (set_free i1 false) (with_vd (set_free i0 false) s)))) \/
  (exists l c' s', (length l <= 2)%nat /\ (forall i, 0 <= i < NUM -> v_free (vd s) i = true -> i ∈ l) /\
     Forall (fun i => 0 <= i < NUM /\ v_free (vd s) i = true) l /\ NoDup l /\
     alloc3_desc c s = Done None c' s' /\ s' = foldl (fun s i => freed i s) (foldl (fun s i => with_vd (set_free i false) s) s l) l).
Proof.
  unfold alloc3_desc. cbn [alloc3_loop].
  assert (forall s i x j, v_free (vd (with_vd (set_free i x) s)) j = upd (v_free (vd s)) i x j) as Ef by done.
  assert (forall s i j, v_free (vd (freed i s)) j = upd (v_free (vd s)) i true j) as Eg by done.
  assert (forall s i j, v_free (vd (with_vd (set_free i false) s)) j = true -> v_free (vd s) j = true /\ j <> i) as Hfr.
  { intros s' i j. rewrite Ef. unfold upd. destruct (Z.eqb_spec j i); done. }
  assert (forall s i j, v_free (vd (with_vd (set_free i false) s)) j = false -> v_free (vd s) j = true -> j = i) as Hnf.
  { intros s' i j. rewrite Ef. unfold upd. destruct (Z.eqb_spec j i); congruence. }
  destruct (alloc_desc_spec c s) as [(i0 & R0 & F0 & E0)|[F0 E0]]; kstep E0; [rewrite (proj2 (Z.ltb_ge i0 0)) by lia|].
  2:{ right. exists [], c, s. split; [simpl; lia|]. split; [|split; [constructor|split; [constructor|done]]].
      intros i Hi Hf. rewrite F0 in Hf by done. done. }
  set (s1 := with_vd (set_free i0 false) s) in *.
  destruct (alloc_desc_spec c s1) as [(i1 & R1 & F1 & E1)|[F1 E1]]; kstep E1; [rewrite (proj2 (Z.ltb_ge i1 0)) by lia|].
  2:{ right. destruct (free_descs_spec [i0] c s1 (NoDup_singleton _)) as [c' E];
        [rewrite Forall_cons, Forall_nil; split_and!; [lia|apply upd_same|done]|].
      exists [i0], c', (foldl (fun s i => freed i s) s1 [i0]).
      split; [simpl; lia|]. split; [|split; [by rewrite !Forall_cons, Forall_nil|split; [apply NoDup_singleton|split; [|done]]]].
      - intros i Hi Hf. apply list_elem_of_singleton. apply (Hnf s); [by apply F1|done].
      - change (-1 <? 0) with true. cbn [app]. kstep E. reflexivity. }
  destruct (Hfr s i0 i1 F1) as [F1' N1]. set (s2 := with_vd (set_free i1 false) s1) in *.
  destruct (alloc_desc_spec c s2) as [(i2 & R2 & F2 & E2)|[F2 E2]]; kstep E2; [rewrite (proj2 (Z.ltb_ge i2 0)) by lia|].
  2:{ right. assert (NoDup [i0; i1]) as Hnd by (apply NoDup_cons; split; [set_solver|apply NoDup_singleton]).
      destruct (free_descs_spec [i0; i1] c s2 Hnd) as [c' E].
      { rewrite !Forall_cons, Forall_nil. split_and!; [lia| |lia|apply upd_same|done].
        unfold s2. rewrite Ef, upd_ne by congruence. apply upd_same. }
      exists [i0; i1], c', (foldl (fun s i => freed i s) s2 [i0; i1]).
      split; [simpl; lia|]. split; [|split; [by rewrite !Forall_cons, Forall_nil|split; [done|split; [|done]]]].
      - intros i Hi Hf. specialize (F2 i Hi). destruct (decide (i = i1)); [set_solver|]. enough (i = i0) by set_solver.
        apply (Hnf s); [|done]. fold s1. destruct (v_free (vd s1) i) eqn:Ei; [|done]. destruct n. by apply (Hnf s1).
      - change (-1 <? 0) with true. cbn [app]. kstep E. reflexivity. }
  left. destruct (Hfr s1 i1 i2 F2) as [F2' N2]. destruct (Hfr s i0 i2 F2') as [F2'' N2'].
  exists i0, i1, i2. split; [by rewrite !Forall_cons, Forall_nil|]. split; [|done].
  repeat (apply NoDup_cons; split; [set_solver|]). constructor.
Qed.

(** The state rw_submit leaves. *)
Definition submitted (b : Z) (w : bool) (i0 i1 i2 : Z) (s : vst) : vst :=
  let v := vd s in
  let sector := u32 (b_blockno (buf_at (vbio s) b) * (BSIZE / 512)) in
  Vst (Vdisk (v_pages v)
         (upd (upd (upd (v_desc v) i0 (Desc (P_op i0) 16 VRING_DESC_F_NEXT i1))
            i1 (Desc (P_data b) BSIZE (Z.lor (if w then 0 else VRING_DESC_F_WRITE) VRING_DESC_F_NEXT) i2))
            i2 (Desc (P_status i0) 1 VRING_DESC_F_WRITE 0))
         (u16 (v_avail_idx v + 1)) (upd (v_avail_ring v) (v_avail_idx v mod NUM) i0)
         (v_used_dev v) (v_used_ring v) (v_free v) (v_used_idx v) (upd (v_info_b v) i0 (Some b))
         (upd (v_status v) i0 0xff) (upd (v_ops v) i0 (Req (if w then VIRTIO_BLK_T_OUT else VIRTIO_BLK_T_IN) 0 sector)))
    (vbio s) (upd (v_bdisk s) b true).
Lemma rw_submit_eq b w i0 i1 i2 c s : exists c', rw_submit b w i0 i1 i2 c s = Done tt c' (submitted b w i0 i1 i2 s).
Proof.
  exists (set_evs (MMIO (VIRTIO0 + VIRTIO_MMIO_QUEUE_NOTIFY) 0 :: evs c) c). unfold rw_submit, uv, WriteR. krun. reflexivity.
Qed.

(** One round of free_chain. *)
Lemma free_chain_step n i c s d : v_desc (vd s) i = d -> i < NUM -> v_free (vd s) i = false ->
  free_chain_loop (S n) i c s =
  (if z2b (Z.land (d_flags d) VRING_DESC_F_NEXT) then free_chain_loop n (d_next d) else mret tt) (woken C_disk_free c) (freed i s).
Proof. intros E Hi Hf. cbn [free_chain_loop]. unfold gv. krun. by rewrite E, (free_desc_spec i c s). Qed.

(** free_chain on a formatted chain frees its three descriptors. *)
Lemma free_chain_spec h b i1 i2 w c s : formatted (vd s) h b i1 i2 w -> NoDup [h; i1; i2] ->
  Forall (fun i => i < NUM /\ v_free (vd s) i = false) [h; i1; i2] ->
  free_chain h c s = Done tt (woken C_disk_free (woken C_disk_free (woken C_disk_free c))) (freed i2 (freed i1 (freed h s))).
Proof.
  intros (E0 & E1 & E2 & _) Hnd HF. rewrite !Forall_cons in HF. destruct HF as ((L0 & F0) & (L1 & F1) & (L2 & F2) & _).
  apply NoDup_cons in Hnd as [N0 Hnd]. apply NoDup_cons in Hnd as [N1 _].
  assert (i1 <> h /\ i2 <> h /\ i2 <> i1) as (Ha & Hb & Hc) by (split_and!; set_solver).
  assert (forall i j s, j <> i -> v_desc (vd (freed i s)) j = v_desc (vd s) j) as Gd by (intros; by apply upd_ne).
  assert (forall i j s, j <> i -> v_free (vd (freed i s)) j = v_free (vd s) j) as Gf by (intros; by apply upd_ne).
  assert (v_desc (vd (freed h s)) i1 = v_desc (vd s) i1) as D1 by by apply Gd. rewrite E1 in D1.
  assert (v_desc (vd (freed i1 (freed h s))) i2 = v_desc (vd s) i2) as D2 by (rewrite Gd by done; by apply Gd). rewrite E2 in D2.
  unfold free_chain. change (S (Z.to_nat NUM)) with 9%nat.
  rewrite (free_chain_step 8 h c s _ E0 L0 F0). cbn [d_next d_flags]. change (z2b (Z.land VRING_DESC_F_NEXT VRING_DESC_F_NEXT)) with true.
  rewrite (free_chain_step 7 i1 _ (freed h s) _ D1 L1) by by rewrite Gf. cbn [d_next d_flags].
  assert (z2b (Z.land (Z.lor (if w then 0 else VRING_DESC_F_WRITE) VRING_DESC_F_NEXT) VRING_DESC_F_NEXT) = true) as -> by by destruct w.
  rewrite (free_chain_step 6 i2 _ (freed i1 (freed h s)) _ D2 L2) by by rewrite !Gf. reflexivity.
Qed.

(** The interrupt handler acknowledges every finished request. *)
Lemma intr_loop_spec n : forall c s, 0 <= v_used_idx (vd s) < 2 ^ 16 ->
  forall k, v_used_dev (vd s) = u16 (v_used_idx (vd s) + Z.of_nat k) -> (k < n)%nat -> Z.of_nat k < 2 ^ 16 ->
  Forall (fun h => v_status (vd s) h = 0 /\ is_Some (v_info_b (vd s) h)) (ring_list (v_used_ring (vd s)) (v_used_idx (vd s)) k) ->
  exists e bd, intr_loop n c s = Done tt (set_evs e c) (Vst (set_used_idx (v_used_dev (vd s)) (vd s)) (vbio s) bd) /\
    forall b, bd b = if bool_decide (Some b ∈ v_info_b (vd s) <$> ring_list (v_used_ring (vd s)) (v_used_idx (vd s)) k)
                     then false else v_bdisk s b.
Proof.
  induction n as [|n IH]; intros c s Hi k Ek Hk Hk' HF; [lia|]. cbn [intr_loop]. unfold gv, uv. krun. unfold id.
  pose proof (u16_count _ k Hi Hk') as Hc. rewrite <- Ek in Hc. destruct (Z.eqb_spec (v_used_idx (vd s)) (v_used_dev (vd s))) as [E|E].
  - rewrite (proj1 Hc E). exists (evs c), (v_bdisk s). rewrite <- E. destruct c, s as [v ? ?], v. done.
  - destruct k as [|k]; [tauto|]. rewrite ring_list_cons in *. apply Forall_cons in HF as [[Hs [b Hb]] HF].
    rewrite Hs, Z.eqb_refl, Hb.
    set (s' := with_vd (set_used_idx (u16 (v_used_idx (vd s) + 1))) (set_bdisk b false s)).
    assert (v_used_dev (vd s') = u16 (v_used_idx (vd s') + Z.of_nat k)) as Ek'.
    { simpl. rewrite u16_u16_add, Ek. f_equal. lia. }
    destruct (IH (set_evs (Wakeup (C_buf b) :: evs c) c) s' ltac:(by apply u_range) k Ek' ltac:(lia) ltac:(lia) HF)
      as (e & bd & Ei & Hbd).
    unfold wakeup, emit, modc. cbn beta iota. fold s'. rewrite Ei.
    exists e, bd. split; [done|]. intros b'. rewrite Hbd. simpl. unfold upd. rewrite Hb.
    destruct (decide (b' = b)) as [->|Hne].
    + rewrite (bool_decide_eq_true_2 (Some b ∈ Some b :: _)) by set_solver. rewrite Z.eqb_refl. by case_bool_decide.
    + rewrite (proj2 (Z.eqb_neq b' b)) by done. repeat case_bool_decide; set_solver.
Qed.

(** A failed request stops it. *)
Lemma intr_loop_panics n : forall c s, 0 <= v_used_idx (vd s) < 2 ^ 16 ->
  forall k, v_used_dev (vd s) = u16 (v_used_idx (vd s) + Z.of_nat k) -> (k < n)%nat -> Z.of_nat k < 2 ^ 16 ->
  let l := ring_list (v_used_ring (vd s)) (v_used_idx (vd s)) k in
  Forall (fun h => is_Some (v_info_b (vd s) h)) l -> Exists (fun h => v_status (vd s) h <> 0) l ->
  intr_loop n c s = Panic "virtio_disk_intr status".
Proof.
  induction n as [|n IH]; intros c s Hi k Ek Hk Hk' l HF HE; [lia|]. subst l. cbn [intr_loop]. unfold gv, uv. krun. unfold id.
  pose proof (u16_count _ k Hi Hk') as Hc. rewrite <- Ek in Hc. destruct k as [|k]; [by apply Exists_nil in HE|].
  destruct (Z.eqb_spec (v_used_idx (vd s)) (v_used_dev (vd s))) as [E|E]; [by apply Hc in E|].
  rewrite ring_list_cons in HF, HE. apply Forall_cons in HF as [[b Hb] HF].
  destruct (Z.eqb_spec (v_status (vd s) (v_used_ring (vd s) (v_used_idx (vd s) mod NUM))) 0) as [Hs|Hs]; [|done].
  apply Exists_cons in HE as [?|HE]; [done|]. rewrite Hb.
  set (s' := with_vd (set_used_idx (u16 (v_used_idx (vd s) + 1))) (set_bdisk b false s)).
  unfold wakeup, emit, modc. cbn beta iota. fold s'.
  apply (IH _ s' ltac:(by apply u_range) k); [|lia|lia|exact HF|exact HE].
  simpl. rewrite u16_u16_add, Ek. f_equal. lia.
Qed.

(** What the device has finished and the driver has not looked at. *)
Definition pending (v : vdisk) : list Z :=
  ring_list (v_used_ring v) (v_used_idx v) (Z.to_nat (u16 (v_used_dev v - v_used_idx v))).
Lemma pending_eq v k : 0 <= v_used_idx v < 2 ^ 16 -> Z.of_nat k < 2 ^ 16 -> v_used_dev v = u16 (v_used_idx v + Z.of_nat k) ->
  pending v = ring_list (v_used_ring v) (v_used_idx v) k.
Proof.
  intros Hi Hk E. unfold pending. rewrite E. replace (u16 (u16 (v_used_idx v + Z.of_nat k) - v_used_idx v)) with (Z.of_nat k); [by rewrite Nat2Z.id|].
  unfold u_. rewrite Zminus_mod_idemp_l. replace (v_used_idx v + Z.of_nat k - v_used_idx v) with (Z.of_nat k) by lia. symmetry. apply Z.mod_small. lia.
Qed.

(** ** The invariant *)

Section Invariant.
Variable reports : Z -> Prop.

(** A request whose descriptors, header and bookkeeping are in place. *)
Record req_ok (s : vst) (r : vreq) : Prop := {
  ro_chain : formatted (vd s) (q0 r) (q_b r) (q1 r) (q2 r) (q_w r);
  ro_info : v_info_b (vd s) (q0 r) = Some (q_b r);
  ro_sector : r_sector (v_ops (vd s) (q0 r)) = b_blockno (buf_at (vbio s) (q_b r)) * 2;
}.

(** The descriptors in use. *)
Definition in_use (l : list vreq) : list Z := concat (q_idx <$> l).

(** [Q] are the heads the device has not taken, [U] the ones it has finished and
    the driver has not looked at, [A] the ones acknowledged. *)
Record vinv (y : vsys) (Q U A : list Z) : Prop := {
  vi_heads : q0 <$> y_reqs y ≡ₚ Q ++ y_taken y ++ U ++ A;
  vi_nodup : NoDup (in_use (y_reqs y));
  vi_free : forall i, 0 <= i < NUM -> v_free (vd (y_st y)) i = false <-> i ∈ in_use (y_reqs y);
  vi_range : forall i, i ∈ in_use (y_reqs y) -> 0 <= i < NUM;
  vi_bufs : NoDup (q_b <$> y_reqs y);
  vi_reqs : forall r, r ∈ y_reqs y -> req_ok (y_st y) r;
  vi_seen : 0 <= y_seen y < 2 ^ 16;
  vi_avail : Q = ring_list (v_avail_ring (vd (y_st y))) (y_seen y) (length Q);
  vi_avail_idx : v_avail_idx (vd (y_st y)) = u16 (y_seen y + Z.of_nat (length Q));
  vi_used_idx : 0 <= v_used_idx (vd (y_st y)) < 2 ^ 16;
  vi_used : U = ring_list (v_used_ring (vd (y_st y))) (v_used_idx (vd (y_st y))) (length U);
  vi_used_dev : v_used_dev (vd (y_st y)) = u16 (v_used_idx (vd (y_st y)) + Z.of_nat (length U));
  vi_busy : forall r, r ∈ y_reqs y -> v_bdisk (y_st y) (q_b r) = false <-> q0 r ∈ A;
  vi_status : forall h, h ∈ U -> reports (v_status (vd (y_st y)) h);
}.

Lemma in_q0 r : q0 r ∈ q_idx r.
Proof. apply elem_of_cons. by left. Qed.
Lemma in_q1 r : q1 r ∈ q_idx r.
Proof. apply elem_of_cons. right. apply elem_of_cons. by left. Qed.
Lemma in_q2 r : q2 r ∈ q_idx r.
Proof. apply elem_of_cons. right. apply elem_of_cons. right. apply elem_of_cons. by left. Qed.
#[local] Hint Resolve in_q0 in_q1 in_q2 : xv6.
Lemma elem3 (i a b c : Z) : i ∈ [a; b; c] <-> i = a \/ i = b \/ i = c.
Proof. rewrite !elem_of_cons, elem_of_nil. tauto. Qed.
Lemma in_use_cons r l : in_use (r :: l) = q_idx r ++ in_use l.
Proof. done. Qed.
Lemma in_use_elem r l i : r ∈ l -> i ∈ q_idx r -> i ∈ in_use l.
Proof. clear reports. induction 1 as [r l|r r' l _ IH]; intros Hi; rewrite in_use_cons; set_solver. Qed.
Lemma in_use_perm l l' : l ≡ₚ l' -> in_use l ≡ₚ in_use l'.
Proof. intros H. unfold in_use. by rewrite H. Qed.
Lemma length_in_use l : length (in_use l) = (3 * length l)%nat.
Proof. induction l; [done|]. rewrite in_use_cons, length_app, IHl. simpl. lia. Qed.
Lemma heads_in_use l h : h ∈ q0 <$> l -> h ∈ in_use l.
Proof. intros (r & -> & Hr)%list_elem_of_fmap. apply (in_use_elem r); [done|auto with xv6]. Qed.
Lemma nodup_heads l : NoDup (in_use l) -> NoDup (q0 <$> l).
Proof.
  induction l as [|r l IH]; [constructor|]. rewrite in_use_cons. intros (H1 & H2 & H3)%NoDup_app. simpl.
  apply NoDup_cons. split; [|by apply IH]. intros Hin%heads_in_use. apply (H2 (q0 r)); [auto with xv6|done].
Qed.
Lemma nodup_fmap_inj {B} (f : vreq -> B) l r r' : NoDup (f <$> l) -> r ∈ l -> r' ∈ l -> f r = f r' -> r = r'.
Proof.
  induction l as [|x l IH]; [set_solver|]. simpl.
  intros [Hx Hn]%NoDup_cons [->|Hr]%elem_of_cons [->|Hr']%elem_of_cons E; [done| | |by apply IH].
  - destruct Hx. rewrite E. by apply list_elem_of_fmap_2.
  - destruct Hx. rewrite <- E. by apply list_elem_of_fmap_2.
Qed.
Lemma q0_inj l r r' : NoDup (in_use l) -> r ∈ l -> r' ∈ l -> q0 r = q0 r' -> r = r'.
Proof. intros Hn%nodup_heads. by apply nodup_fmap_inj. Qed.

Lemma nums_bound l : NoDup l -> (forall i, i ∈ l -> 0 <= i < NUM) -> (length l <= 8)%nat.
Proof.
  intros Hn Hr. assert (l ⊆+ seqZ 0 8) as Hs.
  { apply NoDup_submseteq; [done|]. intros i Hi. apply elem_of_seqZ. specialize (Hr i Hi). unfold NUM in Hr. lia. }
  apply submseteq_length in Hs. by rewrite length_seqZ in Hs.
Qed.
(** With three descriptors each, at most two requests are under way. *)
Lemma two_requests y Q U A : vinv y Q U A -> (length (y_reqs y) <= 2)%nat.
Proof.
  intros I. pose proof (nums_bound _ (vi_nodup _ _ _ _ I) (vi_range _ _ _ _ I)) as H. rewrite length_in_use in H. lia.
Qed.
Lemma queue_lengths y Q U A : vinv y Q U A -> (length Q + length (y_taken y) + length U + length A <= 2)%nat.
Proof.
  intros I. pose proof (two_requests _ _ _ _ I) as H. pose proof (vi_heads _ _ _ _ I) as Hp.
  apply Permutation_length in Hp. rewrite length_fmap, !length_app in Hp. lia.
Qed.

Lemma formatted_fun v h b i1 i2 w b' i1' i2' w' :
  formatted v h b i1 i2 w -> formatted v h b' i1' i2' w' -> b' = b /\ w' = w.
Proof.
  intros (E0 & E1 & _ & E3) (E0' & E1' & _ & E3'). rewrite E0 in E0'. injection E0' as <-. rewrite E1 in E1'.
  injection E1' as <- _ _. split; [done|]. rewrite E3 in E3'. by destruct w, w'.
Qed.

(** The request of a head. *)
Lemma head_request y Q U A h : vinv y Q U A -> h ∈ Q ++ y_taken y ++ U ++ A -> exists r, r ∈ y_reqs y /\ q0 r = h.
Proof.
  intros I Hh. rewrite <- (vi_heads _ _ _ _ I) in Hh. apply list_elem_of_fmap in Hh as (r & -> & Hr). by exists r.
Qed.
Lemma heads_nodup y Q U A : vinv y Q U A -> NoDup (Q ++ y_taken y ++ U ++ A).
Proof. intros I. rewrite <- (vi_heads _ _ _ _ I). apply nodup_heads, (vi_nodup _ _ _ _ I). Qed.

Lemma vinit_inv y : vinit y -> vinv y [] [] [].
Proof.
  intros (Hf & Ha & Hu & Hi & Hr & Hs & Ht). split; rewrite ?Hr, ?Hs, ?Ht, ?Ha, ?Hu, ?Hi; try done; try set_solver.
  - constructor.
  - intros i Hi'. rewrite Hf by done. split; [done|]. by intros ?%elem_of_nil.
  - constructor.
Qed.

(** ** Every step keeps the invariant *)

(** What a request relies on is in the fields of its own descriptors. *)
Lemma req_ok_ext s s' r : req_ok s r ->
  (forall i, i ∈ q_idx r -> v_desc (vd s') i = v_desc (vd s) i) ->
  v_ops (vd s') (q0 r) = v_ops (vd s) (q0 r) -> v_info_b (vd s') (q0 r) = v_info_b (vd s) (q0 r) ->
  b_blockno (buf_at (vbio s') (q_b r)) = b_blockno (buf_at (vbio s) (q_b r)) -> req_ok s' r.
Proof.
  intros [(E0 & E1 & E2 & E3) Hi Hs] Hd Ho Hi' Hb. unfold q_idx in Hd.
  split; [|by rewrite Hi'|by rewrite Ho, Hb]. split_and!; rewrite ?Ho; rewrite ?Hd by set_solver; done.
Qed.

Lemma start_inv y Q U A b w i0 i1 i2 c c1 s1 c2 s2 : vinv y Q U A ->
  b ∉ q_b <$> y_reqs y -> 0 <= b_blockno (buf_at (vbio (y_st y)) b) < 2 ^ 31 ->
  alloc3_desc c (y_st y) = Done (Some [i0; i1; i2]) c1 s1 ->
  rw_submit b w i0 i1 i2 c1 s1 = Done tt c2 s2 ->
  vinv (VSys s2 (VReq b w i0 i1 i2 :: y_reqs y) (y_seen y) (y_taken y)) (Q ++ [i0]) U A.
Proof.
  intros I Hb Hbn Ea Es. destruct (rw_submit_eq b w i0 i1 i2 c1 s1) as [c3 Es']. rewrite Es' in Es. injection Es as _ <-.
  destruct (alloc3_spec c (y_st y)) as [(j0 & j1 & j2 & HF & Hnd & E)|(l & c' & s' & _ & _ & _ & _ & E & _)];
    rewrite E in Ea; [|done]. injection Ea as -> -> -> -> <-.
  set (s := y_st y) in *. rewrite !Forall_cons in HF. destruct HF as ((R0 & F0) & (R1 & F1) & (R2 & F2) & _).
  assert (forall i, 0 <= i < NUM -> v_free (vd s) i = true -> i ∉ in_use (y_reqs y)) as Hfree.
  { intros i Hi Hf Hin. apply (vi_free _ _ _ _ I) in Hin; [|done]. fold s in Hin. congruence. }
  pose proof (Hfree i0 R0 F0) as N0. pose proof (Hfree i1 R1 F1) as N1. pose proof (Hfree i2 R2 F2) as N2.
  assert (i0 <> i1 /\ i0 <> i2 /\ i1 <> i2) as (D1 & D2 & D3).
  { apply NoDup_cons in Hnd as [H1 H2]. apply NoDup_cons in H2 as [H2 _]. set_solver. }
  assert (forall i, i ∈ in_use (y_reqs y) -> i <> i0 /\ i <> i1 /\ i <> i2) as Hold by (intros i Hi; split_and!; congruence).
  assert (forall h, h ∈ Q ++ y_taken y ++ U ++ A -> h <> i0) as Hh.
  { intros h Hin ->. apply N0, heads_in_use. by rewrite (vi_heads _ _ _ _ I). }
  pose proof (queue_lengths _ _ _ _ I) as Hq.
  split; simpl.
  - rewrite (vi_heads _ _ _ _ I). solve_Permutation.
  - rewrite in_use_cons. apply NoDup_app. split; [done|]. split; [|apply (vi_nodup _ _ _ _ I)].
    unfold q_idx. simpl. intros i Hi%elem3 Hi'%Hold. tauto.
  - intros i Hi. rewrite in_use_cons. rewrite elem_of_app. unfold q_idx, upd. simpl. rewrite elem3.
    pose proof (vi_free _ _ _ _ I i Hi) as Hf. fold s in Hf. pose proof (Hold i).
    destruct (Z.eqb_spec i i2); [tauto|]. destruct (Z.eqb_spec i i1); [tauto|]. destruct (Z.eqb_spec i i0); [tauto|]. tauto.
  - intros i. rewrite in_use_cons, elem_of_app. unfold q_idx. simpl. rewrite elem3.
    intros [[->|[->| ->]]|Hi]; [done..|by apply (vi_range _ _ _ _ I)].
  - apply NoDup_cons. split; [done|apply (vi_bufs _ _ _ _ I)].
  - intros r [->|Hr]%elem_of_cons.
    + split; [split_and!; simpl| |]; simpl; unfold upd.
      * by rewrite (proj2 (Z.eqb_neq i0 i2)), (proj2 (Z.eqb_neq i0 i1)), Z.eqb_refl by done.
      * by rewrite (proj2 (Z.eqb_neq i1 i2)), Z.eqb_refl by done.
      * by rewrite Z.eqb_refl.
      * by rewrite Z.eqb_refl.
      * by rewrite Z.eqb_refl.
      * rewrite Z.eqb_refl. simpl. apply u_small. change (BSIZE / 512) with 2. lia.
    + apply (req_ok_ext s); [by apply (vi_reqs _ _ _ _ I)| | | |done]; simpl.
      * intros i Hi. pose proof (Hold i (in_use_elem _ _ _ Hr Hi)). rewrite !upd_ne by tauto. done.
      * pose proof (Hold _ (in_use_elem _ _ _ Hr (in_q0 r))). rewrite upd_ne by tauto. done.
      * pose proof (Hold _ (in_use_elem _ _ _ Hr (in_q0 r))). rewrite upd_ne by tauto. done.
  - apply (vi_seen _ _ _ _ I).
  - rewrite length_app, Nat.add_1_r. rewrite ring_list_snoc with (start := y_seen y); [|unfold NUM; lia|apply (vi_avail_idx _ _ _ _ I)].
    f_equal. apply (vi_avail _ _ _ _ I).
  - unfold s. rewrite (vi_avail_idx _ _ _ _ I), u16_u16_add, length_app. f_equal. simpl. lia.
  - apply (vi_used_idx _ _ _ _ I).
  - apply (vi_used _ _ _ _ I).
  - apply (vi_used_dev _ _ _ _ I).
  - intros r [->|Hr]%elem_of_cons; simpl.
    + rewrite upd_same. split; [done|]. intros Hin. destruct (Hh i0); [set_solver|done].
    + rewrite upd_ne; [by apply (vi_busy _ _ _ _ I)|]. intros <-. apply Hb. by apply list_elem_of_fmap_2.
  - intros h Hin. rewrite upd_ne; [by apply (vi_status _ _ _ _ I)|]. apply Hh. set_solver.
Qed.

(** The driver with other values of free[] and of the descriptor table. *)
Definition refit (fr : Z -> bool) (ds : Z -> virtq_desc) (s : vst) : vst :=
  with_vd (fun v => Vdisk (v_pages v) ds (v_avail_idx v) (v_avail_ring v) (v_used_dev v) (v_used_ring v)
    fr (v_used_idx v) (v_info_b v) (v_status v) (v_ops v)) s.
Lemma refit_same s : refit (v_free (vd s)) (v_desc (vd s)) s = s.
Proof. by destruct s as [[] ? ?]. Qed.
Lemma foldl_freed l : forall s, exists fr ds, foldl (fun s i => freed i s) s l = refit fr ds s /\
  (forall i, fr i = bool_decide (i ∈ l) || v_free (vd s) i) /\ (forall i, i ∉ l -> ds i = v_desc (vd s) i).
Proof.
  induction l as [|j l IH]; intros s; cbn [foldl].
  - exists (v_free (vd s)), (v_desc (vd s)). by rewrite refit_same.
  - destruct (IH (freed j s)) as (fr & ds & -> & Hf & Hd). exists fr, ds. split; [done|]. simpl in *. split.
    + intros i. rewrite Hf. unfold upd. destruct (Z.eqb_spec i j) as [->|].
      * rewrite orb_true_r, bool_decide_eq_true_2 by set_solver. done.
      * f_equal. apply bool_decide_ext. set_solver.
    + intros i Hi. rewrite Hd, upd_ne by set_solver. done.
Qed.
Lemma foldl_taken l : forall s, exists fr, foldl (fun s i => with_vd (set_free i false) s) s l = refit fr (v_desc (vd s)) s /\
  (forall i, i ∉ l -> fr i = v_free (vd s) i).
Proof.
  induction l as [|j l IH]; intros s; cbn [foldl].
  - exists (v_free (vd s)). by rewrite refit_same.
  - destruct (IH (with_vd (set_free j false) s)) as (fr & -> & Hf). exists fr. split; [done|]. intros i Hi. simpl in *.
    rewrite Hf, upd_ne by set_solver. done.
Qed.

Lemma full_inv y Q U A c c1 s1 : vinv y Q U A -> alloc3_desc c (y_st y) = Done None c1 s1 ->
  vinv (VSys s1 (y_reqs y) (y_seen y) (y_taken y)) Q U A /\ (2 <= length (y_reqs y))%nat.
Proof.
  intros I Ea. destruct (alloc3_spec c (y_st y)) as [(j0 & j1 & j2 & _ & _ & E)|(l & c' & s' & Hl & Hall & HF & Hnd & E & Es)];
    rewrite E in Ea; [done|]. injection Ea as _ <-. set (s := y_st y) in *.
  destruct (foldl_taken l s) as (fr1 & E1 & Hf1). rewrite E1 in Es.
  destruct (foldl_freed l (refit fr1 (v_desc (vd s)) s)) as (fr & ds & E2 & Hf & Hd). rewrite E2 in Es. simpl in Hf, Hd.
  rewrite Forall_forall in HF.
  assert (forall i, fr i = v_free (vd s) i) as Efr.
  { intros i. rewrite Hf. destruct (decide (i ∈ l)) as [Hi|Hi].
    - rewrite bool_decide_eq_true_2 by done. symmetry. apply (HF i Hi).
    - rewrite bool_decide_eq_false_2 by done. by apply Hf1. }
  assert (forall i, i ∈ l -> i ∉ in_use (y_reqs y)) as Hout.
  { intros i Hi Hin. destruct (HF i Hi) as [Hr Hfr]. apply (vi_free _ _ _ _ I) in Hin; [|done]. fold s in Hin. congruence. }
  split.
  - subst s'. split; simpl; try apply I.
    + intros i Hi. rewrite Efr. by apply (vi_free _ _ _ _ I).
    + intros r Hr. apply (req_ok_ext s); [by apply (vi_reqs _ _ _ _ I)| |done..]. intros i Hi. simpl. apply Hd.
      intros Hin. by apply (Hout i Hin), (in_use_elem r).
  - assert (seqZ 0 8 ⊆+ in_use (y_reqs y) ++ l) as Hs.
    { apply NoDup_submseteq; [apply NoDup_seqZ|]. intros i Hi%elem_of_seqZ. apply elem_of_app.
      destruct (v_free (vd s) i) eqn:Ei; [right; apply Hall; [unfold NUM; lia|done]|left; apply (vi_free _ _ _ _ I); [unfold NUM; lia|done]]. }
    apply submseteq_length in Hs. rewrite length_seqZ, length_app, length_in_use in Hs. change (Z.to_nat 8) with 8%nat in Hs. lia.
Qed.

Lemma pending_inv y Q U A : vinv y Q U A -> pending (vd (y_st y)) = U.
Proof.
  intros I. pose proof (queue_lengths _ _ _ _ I) as Hq. pose proof (vi_used _ _ _ _ I) as Hus.
  rewrite (pending_eq _ (length U) (vi_used_idx _ _ _ _ I)); [done|lia|apply (vi_used_dev _ _ _ _ I)].
Qed.
(** The interrupt handler returns, and moves what is finished to what is
    acknowledged, when no request has failed. *)
Lemma intr_spec rd y Q U A c : vinv y Q U A -> cpu_ok c -> unlocked L_vdisk c ->
  Forall (fun h => v_status (vd (y_st y)) h = 0) U ->
  exists c' s', virtio_disk_intr rd c (y_st y) = Done tt c' s' /\
    vinv (VSys s' (y_reqs y) (y_seen y) (y_taken y)) Q [] (A ++ U).
Proof.
  intros I Hc Hu HS. set (s := y_st y) in *. unfold virtio_disk_intr. kstep (acquire_eq L_vdisk c s Hu).
  set (c1 := set_evs (MMIO (VIRTIO0 + VIRTIO_MMIO_INTERRUPT_ACK) (Z.land (rd VIRTIO_MMIO_INTERRUPT_STATUS) 3) :: evs (inside L_vdisk c)) (inside L_vdisk c)).
  rewrite (bind_done (WriteR _ _) _ _ _ tt c1 s eq_refl). pose proof (queue_lengths _ _ _ _ I) as Hq.
  pose proof (vi_used _ _ _ _ I) as Hus.
  assert (forall h, h ∈ U -> exists r, r ∈ y_reqs y /\ q0 r = h /\ v_info_b (vd s) h = Some (q_b r)) as HU.
  { intros h Hh. destruct (head_request _ _ _ _ h I) as (r & Hr & <-); [set_solver|]. exists r.
    split; [done|]. split; [done|]. apply (vi_reqs _ _ _ _ I r Hr). }
  destruct (intr_loop_spec INTR_FUEL c1 s (vi_used_idx _ _ _ _ I) (length U) (vi_used_dev _ _ _ _ I)) as (e & bd & Ei & Hbd).
  { pose proof intr_fuel_val. lia. }
  { lia. }
  { fold s in Hus. rewrite <- Hus, Forall_forall. intros h Hh. split; [by apply (proj1 (Forall_forall _ _) HS)|].
    destruct (HU h Hh) as (r & _ & _ & ->). by eexists. }
  fold s in Hus. rewrite <- Hus in Hbd. kstep Ei. change (set_evs e c1) with (set_evs e (inside L_vdisk c)). rewrite inside_evs.
  rewrite release_eq by (by apply cpu_ok_evs || by apply unlocked_evs). eexists _, _. split; [done|].
  split; simpl; try apply I.
  - rewrite (vi_heads _ _ _ _ I). solve_Permutation.
  - intros r Hr. apply (req_ok_ext s); [by apply (vi_reqs _ _ _ _ I)|done..].
  - unfold s. rewrite (vi_used_dev _ _ _ _ I). by apply u_range.
  - done.
  - unfold s. rewrite Z.add_0_r. symmetry. apply u_small. rewrite (vi_used_dev _ _ _ _ I). by apply u_range.
  - intros r Hr. rewrite Hbd. rewrite elem_of_app, <- (vi_busy _ _ _ _ I r Hr). fold s.
    case_bool_decide as Hin.
    + split; [|done]. intros _. right. apply list_elem_of_fmap in Hin as (h & Eh & Hh).
      destruct (HU h Hh) as (r' & Hr' & <- & Eh'). rewrite Eh' in Eh. injection Eh as Eb.
      by rewrite (nodup_fmap_inj q_b _ r r' (vi_bufs _ _ _ _ I) Hr Hr' Eb).
    + split; [by left|]. intros [?|Hh]; [done|]. destruct Hin. apply list_elem_of_fmap. exists (q0 r). split; [|done].
      symmetry. apply (vi_reqs _ _ _ _ I r Hr).
  - set_solver.
Qed.

(** It panics when one has. *)
Lemma intr_panics rd y Q U A c : vinv y Q U A -> unlocked L_vdisk c ->
  Exists (fun h => v_status (vd (y_st y)) h <> 0) U -> virtio_disk_intr rd c (y_st y) = Panic "virtio_disk_intr status".
Proof.
  intros I Hu HE. unfold virtio_disk_intr. kstep (acquire_eq L_vdisk c (y_st y) Hu). pose proof (queue_lengths _ _ _ _ I) as Hq.
  pose proof (vi_used _ _ _ _ I) as Hus. unfold WriteR. krun.
  rewrite (intr_loop_panics INTR_FUEL _ (y_st y) (vi_used_idx _ _ _ _ I) (length U) (vi_used_dev _ _ _ _ I)); [done| |lia| |].
  - pose proof intr_fuel_val. lia.
  - rewrite <- Hus, Forall_forall. intros h Hh. destruct (head_request _ _ _ _ h I) as (r & Hr & <-); [set_solver|].
    rewrite (ro_info _ _ (vi_reqs _ _ _ _ I r Hr)). by eexists.
  - by rewrite <- Hus.
Qed.

(** A finished request gives its descriptors back. *)
Lemma finish_spec y Q U A r l c : vinv y Q U A -> cpu_ok c -> unlocked L_vdisk c ->
  y_reqs y ≡ₚ r :: l -> v_bdisk (y_st y) (q_b r) = false ->
  exists c' s' A', rw_wait (q_b r) (q0 r) (inside L_vdisk c) (y_st y) = Done tt c' s' /\
    vinv (VSys s' l (y_seen y) (y_taken y)) Q U A' /\ vbio s' = vbio (y_st y).
Proof.
  intros I Hc Hu Hp Hb. set (s := y_st y) in *. assert (r ∈ y_reqs y) as Hr by (rewrite Hp; set_solver).
  assert (q0 r ∈ A) as HA by by apply (vi_busy _ _ _ _ I). apply elem_of_Permutation in HA as [A' HA].
  pose proof (vi_nodup _ _ _ _ I) as Hnd. rewrite (in_use_perm _ _ Hp), in_use_cons in Hnd.
  apply NoDup_app in Hnd as (Hnd1 & Hnd2 & Hnd3).
  assert (forall i, i ∈ in_use (y_reqs y) <-> i ∈ q_idx r \/ i ∈ in_use l) as Hin.
  { intros i. rewrite (in_use_perm _ _ Hp), in_use_cons. apply elem_of_app. }
  assert (NoDup (q_b r :: (q_b <$> l))) as Hnb by (rewrite <- fmap_cons, <- Hp; apply (vi_bufs _ _ _ _ I)).
  apply NoDup_cons in Hnb as [Hnb1 Hnb2].
  set (s0 := with_vd (set_info_b (q0 r) None) s).
  destruct (vi_reqs _ _ _ _ I r Hr) as [Hform _ _]. fold s in Hform.
  pose proof (free_chain_spec (q0 r) (q_b r) (q1 r) (q2 r) (q_w r) (inside L_vdisk c) s0 Hform Hnd1) as Ef.
  unfold rw_wait. rewrite (bind_done get _ _ _ s (inside L_vdisk c) s eq_refl). rewrite Hb.
  rewrite (bind_done (mret tt) _ _ _ tt (inside L_vdisk c) s eq_refl).
  rewrite (bind_done (uv _) _ _ _ tt (inside L_vdisk c) s0 eq_refl).
  kstep (Ef ltac:(apply Forall_forall; intros i Hi; assert (i ∈ in_use (y_reqs y)) as Hi' by (apply Hin; by left);
    pose proof (vi_range _ _ _ _ I i Hi'); split; [lia|by apply (vi_free _ _ _ _ I)])).
  unfold woken. rewrite !inside_evs. simpl evs. rewrite release_eq by (by repeat apply cpu_ok_evs || by repeat apply unlocked_evs).
  eexists _, _, A'. split; [done|]. split; [|done].
  assert (forall r', r' ∈ l -> q0 r' <> q0 r) as Hne.
  { intros r' Hr' E. apply (Hnd2 (q0 r)); [auto with xv6|]. rewrite <- E. apply heads_in_use. by apply list_elem_of_fmap_2. }
  assert (forall r', r' ∈ l -> r' ∈ y_reqs y) as Hsub by (intros r' Hr'; rewrite Hp; set_solver).
  split; simpl; try apply I; try done.
  - apply (Permutation_cons_inv (a := q0 r)). rewrite <- fmap_cons, <- Hp, (vi_heads _ _ _ _ I), HA. solve_Permutation.
  - intros i Hi. pose proof (vi_free _ _ _ _ I i Hi) as Hf. rewrite Hin in Hf. fold s in Hf. specialize (Hnd2 i).
    pose proof (elem3 i (q0 r) (q1 r) (q2 r)) as Hq. fold (q_idx r) in Hq.
    unfold upd. destruct (Z.eqb_spec i (q2 r)); [split; [done|tauto]|].
    destruct (Z.eqb_spec i (q1 r)); [split; [done|tauto]|]. destruct (Z.eqb_spec i (q0 r)); [split; [done|tauto]|]. tauto.
  - intros i Hi. apply (vi_range _ _ _ _ I), Hin. by right.
  - intros r' Hr'. apply (req_ok_ext s); [by apply (vi_reqs _ _ _ _ I), Hsub| |done| |done]; simpl.
    + intros i Hi. pose proof (in_use_elem _ _ _ Hr' Hi) as Hi'. rewrite !upd_ne; [done|..]; intros ->; refine (Hnd2 _ _ Hi'); auto with xv6.
    + apply upd_ne. by apply Hne.
  - intros r' Hr'. unfold s. rewrite (vi_busy _ _ _ _ I r' (Hsub _ Hr')), HA, elem_of_cons. pose proof (Hne _ Hr'). tauto.
Qed.

Lemma take_inv y Q U A : vinv y Q U A -> y_seen y <> v_avail_idx (vd (y_st y)) ->
  exists Q', vinv (VSys (y_st y) (y_reqs y) (u16 (y_seen y + 1))
                     (y_taken y ++ [v_avail_ring (vd (y_st y)) (y_seen y mod NUM)])) Q' U A.
Proof.
  intros I Hne. pose proof (queue_lengths _ _ _ _ I) as Hq. pose proof (vi_avail_idx _ _ _ _ I) as Ei.
  destruct Q as [|h Q]; [simpl in Ei; rewrite Z.add_0_r, (u_small 16) in Ei by apply (vi_seen _ _ _ _ I); congruence|].
  pose proof (vi_avail _ _ _ _ I) as Ea. cbn [length] in Ea. rewrite ring_list_cons in Ea. injection Ea as Eh Ea.
  exists Q. split; simpl; try apply I.
  - rewrite (vi_heads _ _ _ _ I), <- Eh. solve_Permutation.
  - by apply u_range.
  - done.
  - rewrite Ei, u16_u16_add. f_equal. cbn [length]. lia.
Qed.

(** The effect of a completed request on buffers and disk: what the buffer cache
    expects of virtio_disk_rw. *)
Definition rw_effect (r : vreq) (s : bio) : bio :=
  let b := q_b r in
  if q_w r then Bio (bufs s) ((b_blockno (buf_at s b), b_data (buf_at s b)) :: dsk s)
  else upd_buf b (set_data (dget (dsk s) (b_blockno (buf_at s b)))) s.

Lemma blockno_effect r s b : b_blockno (buf_at (rw_effect r s) b) = b_blockno (buf_at s b).
Proof.
  unfold rw_effect. destruct (q_w r); [done|]. unfold upd_buf, buf_at. simpl. destruct (decide (b = q_b r)) as [->|].
  - by rewrite lookup_insert_eq.
  - by rewrite lookup_insert_ne.
Qed.

(** The effect of one that failed. *)
Definition rw_spoiled (r : vreq) (d : block) (s : bio) : bio :=
  if q_w r then Bio (bufs s) ((b_blockno (buf_at s (q_b r)), d) :: dsk s) else upd_buf (q_b r) (set_data d) s.
Lemma blockno_spoiled r d s b : b_blockno (buf_at (rw_spoiled r d s) b) = b_blockno (buf_at s b).
Proof.
  unfold rw_spoiled. destruct (q_w r); [done|]. unfold upd_buf, buf_at. simpl. destruct (decide (b = q_b r)) as [->|].
  - by rewrite lookup_insert_eq.
  - by rewrite lookup_insert_ne.
Qed.

Lemma done_inv y Q U A h b i1 i2 w st d l : vinv y Q U A -> y_taken y ≡ₚ h :: l -> formatted (vd (y_st y)) h b i1 i2 w ->
  reports st ->
  vinv (VSys (complete h b w st d (y_st y)) (y_reqs y) (y_seen y) l) Q (U ++ [h]) A /\
  exists r, r ∈ y_reqs y /\ q0 r = h /\
    vbio (complete h b w st d (y_st y)) = if st =? 0 then rw_effect r (vbio (y_st y)) else rw_spoiled r d (vbio (y_st y)).
Proof.
  intros I Ht Hf Hst. pose proof (queue_lengths _ _ _ _ I) as Hq.
  destruct (head_request _ _ _ _ h I) as (r & Hr & Eh); [rewrite Ht; set_solver|].
  destruct (vi_reqs _ _ _ _ I r Hr) as [Hform Hinfo Hsec]. rewrite Eh in Hform, Hsec.
  destruct (formatted_fun _ _ _ _ _ _ _ _ _ _ Hform Hf) as [-> ->].
  assert (vbio (complete h (q_b r) (q_w r) st d (y_st y)) =
    if st =? 0 then rw_effect r (vbio (y_st y)) else rw_spoiled r d (vbio (y_st y))) as Eb.
  { unfold complete, move, spoil, rw_effect, rw_spoiled. simpl. rewrite Hsec, Z.div_mul by done. done. }
  split; [|by exists r]. split; simpl; try apply I.
  - rewrite (vi_heads _ _ _ _ I), Ht. solve_Permutation.
  - intros r' Hr'. apply (req_ok_ext (y_st y)); [by apply (vi_reqs _ _ _ _ I)|done..|]. rewrite Eb. destruct (st =? 0); [apply blockno_effect|apply blockno_spoiled].
  - rewrite length_app, Nat.add_1_r. rewrite ring_list_snoc with (start := v_used_idx (vd (y_st y)));
      [|unfold NUM; lia|apply (vi_used_dev _ _ _ _ I)]. f_equal. apply (vi_used _ _ _ _ I).
  - rewrite (vi_used_dev _ _ _ _ I), u16_u16_add, length_app. f_equal. simpl. lia.
  - intros h' [Hh| ->%list_elem_of_singleton]%elem_of_app; [|by rewrite upd_same]. unfold upd.
    destruct (h' =? h); [done|by apply (vi_status _ _ _ _ I)].
Qed.

(** What a step of the device does to buffers and disk. *)
Definition dev_moves (y y' : vsys) : Prop :=
  vbio (y_st y') = vbio (y_st y) \/
  exists r, r ∈ y_reqs y /\ q0 r ∈ y_taken y /\
    (v_status (vd (y_st y')) (q0 r) = 0 /\ vbio (y_st y') = rw_effect r (vbio (y_st y)) \/
     v_status (vd (y_st y')) (q0 r) <> 0 /\ exists d, vbio (y_st y') = rw_spoiled r d (vbio (y_st y))).
Lemma dev_inv y y' Q U A : vinv y Q U A -> dev_spec reports y y' ->
  (exists Q' U' A', vinv y' Q' U' A') /\ dev_moves y y'.
Proof.
  intros I [Hne|h b i1 i2 w st d l Ht Hf _ Hst|h z Hh Hnf].
  - destruct (take_inv _ _ _ _ I Hne) as [Q' I']. split; [by exists Q', U, A|by left].
  - destruct (done_inv _ _ _ _ _ _ _ _ _ _ d _ I Ht Hf Hst) as (I' & r & Hr & <- & E). split; [by eexists _, _, _|].
    right. exists r. split; [done|]. split; [rewrite Ht; set_solver|]. cbn [y_st].
    change (v_status (vd (complete (q0 r) b w st d (y_st y))) (q0 r)) with (upd (v_status (vd (y_st y))) (q0 r) st (q0 r)). rewrite upd_same.
    rewrite E. destruct (Z.eqb_spec st 0) as [->|]; [by left|right]. split; [done|]. by exists d.
  - destruct (head_request _ _ _ _ h I) as (r & Hr & <-); [set_solver|]. exfalso.
    exact (Hnf _ _ _ _ (ro_chain _ _ (vi_reqs _ _ _ _ I r Hr))).
Qed.

Section Reach.
Variable rd : Z -> Z.
Variable dev : vsys -> vsys -> Prop.
Hypothesis dev_follows : forall y y', dev y y' -> dev_spec reports y y'.

Lemma vstep_inv y y' : vstep rd dev y y' -> (exists Q U A, vinv y Q U A) -> exists Q U A, vinv y' Q U A.
Proof.
  intros Hs (Q & U & A & I). destruct Hs as [b w i0 i1 i2 c c1 s1 c2 s2 Hb Hn Ea Es|c c1 s1 Ea|c c1 s1 Hc Hu Ei|r l c c1 s1 Hc Hu Hp Hb Ew|bio' Hsame|y' Hd].
  - eexists _, _, _. by eapply start_inv.
  - eexists _, _, _. by eapply full_inv.
  - destruct (decide (Forall (fun h => v_status (vd (y_st y)) h = 0) U)) as [HS|HS%not_Forall_Exists]; [| |apply _].
    + destruct (intr_spec rd y Q U A c I Hc Hu HS) as (c' & s' & E & I'). rewrite E in Ei. injection Ei as _ <-. by eexists _, _, _.
    + by rewrite (intr_panics rd y Q U A c I Hu HS) in Ei.
  - destruct (finish_spec y Q U A r l c I Hc Hu Hp Hb) as (c' & s' & A' & E & I' & _). rewrite E in Ew. injection Ew as _ <-. by eexists _, _, _.
  - exists Q, U, A. split; simpl; try apply I. intros r Hr.
    apply (req_ok_ext (y_st y)); [by apply (vi_reqs _ _ _ _ I)|done..|]. simpl. by rewrite Hsame.
  - by apply (dev_inv y y' Q U A I), dev_follows.
Qed.
Lemma vreach_inv y y' : rtc (vstep rd dev) y y' -> vinit y -> exists Q U A, vinv y' Q U A.
Proof.
  intros Hr Hi. assert (exists Q U A, vinv y Q U A) as Hy by (exists [], [], []; by apply vinit_inv). clear Hi.
  induction Hr as [y|y1 y2 y3 Hs _ IH]; [done|]. by apply IH, (vstep_inv y1).
Qed.
End Reach.
End Invariant.

(** ** Properties *)

(** C33: the disk driver works with any device that follows the virtio
    specification, whichever statuses it reports and however requests, device
    steps, interrupts and completions interleave.  In every reachable state: a
    step of the device moves at most one block, exactly as the buffer cache
    expects of the request it belongs to, or fails and reports it, spoiling
    only what that request was to overwrite; descriptors are found exactly when
    fewer than two requests are under way; every finished request carries a
    status the device reports; an interrupt that finds only status 0 returns,
    and if the device is idle every waiting process then finds its request
    finished, while one that finds a failed request panics; and a process whose
    request is finished returns without a panic, with its descriptors free
    again. *)
Theorem virtio_requests_complete rd reports (dev : vsys -> vsys -> Prop) y0 y :
  (forall z z', dev z z' -> dev_spec reports z z') -> vinit y0 -> rtc (vstep rd dev) y0 y ->
  (forall y', dev y y' -> dev_moves y y') /\
  (forall c, exists o c' s', alloc3_desc c (y_st y) = Done o c' s' /\ (o = None <-> (2 <= length (y_reqs y))%nat)) /\
  Forall (fun h => reports (v_status (vd (y_st y)) h)) (pending (vd (y_st y))) /\
  (forall c, cpu_ok c -> unlocked L_vdisk c ->
     (Forall (fun h => v_status (vd (y_st y)) h = 0) (pending (vd (y_st y))) ->
      exists c' s', virtio_disk_intr rd c (y_st y) = Done tt c' s' /\
        (y_seen y = v_avail_idx (vd (y_st y)) -> y_taken y = [] -> forall r, r ∈ y_reqs y -> v_bdisk s' (q_b r) = false)) /\
     (Exists (fun h => v_status (vd (y_st y)) h <> 0) (pending (vd (y_st y))) ->
      virtio_disk_intr rd c (y_st y) = Panic "virtio_disk_intr status")) /\
  (forall r c, r ∈ y_reqs y -> v_bdisk (y_st y) (q_b r) = false -> cpu_ok c -> unlocked L_vdisk c ->
     exists c' s', rw_wait (q_b r) (q0 r) (inside L_vdisk c) (y_st y) = Done tt c' s' /\ vbio s' = vbio (y_st y) /\
       Forall (fun i => v_free (vd s') i = true) (q_idx r)).
Proof.
  intros Hdev Hi Hr. destruct (vreach_inv reports rd dev Hdev y0 y Hr Hi) as (Q & U & A & I).
  rewrite (pending_inv _ _ _ _ _ I). split_and!.
  - intros y' Hd. by apply (dev_inv reports y y' Q U A I), Hdev.
  - intros c. destruct (alloc3_spec c (y_st y)) as [(i0 & i1 & i2 & HF & Hnd & E)|(l & c' & s' & _ & _ & _ & _ & E & _)].
    + eexists _, _, _. split; [exact E|]. split; [done|]. intros H2. exfalso.
      assert (length (in_use (y_reqs y) ++ [i0; i1; i2]) <= 8)%nat as Hb.
      { rewrite Forall_forall in HF. apply nums_bound.
        - apply NoDup_app. split; [apply (vi_nodup _ _ _ _ _ I)|]. split; [|done]. intros i Hin Hi3.
          destruct (HF i Hi3) as [Hr3 Hf]. apply (vi_free _ _ _ _ _ I i Hr3) in Hin. congruence.
        - intros i [Hin|Hin]%elem_of_app; [by apply (vi_range _ _ _ _ _ I)|by apply HF]. }
      rewrite length_app, length_in_use in Hb. simpl in Hb. lia.
    + eexists _, _, _. split; [exact E|]. split; [|done]. intros _. by eapply full_inv.
  - apply Forall_forall, (vi_status _ _ _ _ _ I).
  - intros c Hc Hu. split; [|intros HE; by apply (intr_panics reports rd y Q U A c I Hu)].
    intros HS. destruct (intr_spec reports rd y Q U A c I Hc Hu HS) as (c' & s' & E & I'). exists c', s'. split; [done|].
    intros Hseen Ht r Hrr. apply (vi_busy _ _ _ _ _ I' r Hrr). pose proof (vi_heads _ _ _ _ _ I') as Hh. simpl in Hh.
    assert (Q = []) as ->.
    { pose proof (vi_avail_idx _ _ _ _ _ I) as Ei. rewrite <- Hseen in Ei. pose proof (queue_lengths _ _ _ _ _ I).
      apply u16_count in Ei; [by destruct Q|apply (vi_seen _ _ _ _ _ I)|lia]. }
    rewrite Ht in Hh. simpl in Hh. rewrite <- Hh. by apply list_elem_of_fmap_2.
  - intros r c Hrr Hb Hc Hu. destruct (proj1 (elem_of_Permutation _ _) Hrr) as [l Hp].
    destruct (finish_spec reports y Q U A r l c I Hc Hu Hp Hb) as (c' & s' & A' & E & I' & Eb). exists c', s'. split; [done|]. split; [done|].
    apply Forall_forall. intros i Hin. pose proof (vi_nodup _ _ _ _ _ I) as Hnd. rewrite (in_use_perm _ _ Hp), in_use_cons in Hnd.
    apply NoDup_app in Hnd as (_ & Hnd & _). destruct (v_free (vd s') i) eqn:Ef; [done|]. exfalso. apply (Hnd i Hin).
    apply (vi_free _ _ _ _ _ I' i); [|done]. apply (vi_range _ _ _ _ _ I). by apply (in_use_elem r).
Qed.

(** A read of block 7 into buffer 3, taken and finished by the device. *)
Definition demo_vst : vst :=
  Vst (Vdisk (0, 0, 0) (fun _ => desc0) 0 (fun _ => 0) 0 (fun _ => 0) (fun _ => true) 0 (fun _ => None) (fun _ => 0)
         (fun _ => Req 0 0 0)) (Bio {[3 := set_id ROOTDEV 7 buf0]} []) (fun _ => false).
Definition demo_sys : vsys := VSys demo_vst [] 0 [].
Definition demo_alloc : vst := with_vd (set_free 2 false) (with_vd (set_free 1 false) (with_vd (set_free 0 false) demo_vst)).
Definition demo_st : vst := submitted 3 false 0 1 2 demo_alloc.
Definition demo_reqs : list vreq := [VReq 3 false 0 1 2].
Definition demo_end (st : Z) : vsys := VSys (complete 0 3 false st [9] demo_st) demo_reqs 1 [].

Definition demo_cpu : ctx := Ctx 0 true 0 true 2 5 {[L_vdisk := Spinlock 0 "virtio_disk" None]} [].

Lemma demo_reach st : a_status st -> rtc (vstep (fun _ => 1) (dev_spec a_status)) demo_sys (demo_end st).
Proof.
  intros Hst. eapply rtc_l.
  { apply (VS_start _ _ demo_sys 3 false 0 1 2 ctx0 ctx0 demo_alloc (set_evs [MMIO (VIRTIO0 + VIRTIO_MMIO_QUEUE_NOTIFY) 0] ctx0) demo_st);
      [apply not_elem_of_nil|split; [discriminate|reflexivity]|reflexivity|]. unfold rw_submit, uv, WriteR. krun. reflexivity. }
  eapply rtc_l; [apply VS_dev, dev_take; discriminate|].
  eapply rtc_l; [|apply rtc_refl].
  apply VS_dev. refine (dev_done _ (VSys demo_st demo_reqs 1 [0]) 0 3 1 2 false st [9] [] (Permutation_refl _) _ Hst Hst).
  repeat split.
Qed.
(** One run in which the device serves the request and one in which it fails. *)
Lemma virtio_requests_complete_witness :
  (exists c' s', virtio_disk_intr (fun _ => 1) demo_cpu (y_st (demo_end 0)) = Done tt c' s' /\ v_bdisk s' 3 = false) /\
  virtio_disk_intr (fun _ => 1) demo_cpu (y_st (demo_end 1)) = Panic "virtio_disk_intr status".
Proof.
  assert (vinit demo_sys) as Hi by (repeat split). assert (cpu_ok demo_cpu) as Hc by (split; [discriminate|discriminate|reflexivity]).
  assert (unlocked L_vdisk demo_cpu) as Hu by (exists "virtio_disk"%string; reflexivity). split.
  - destruct (virtio_requests_complete (fun _ => 1) a_status (dev_spec a_status) demo_sys (demo_end 0) (fun z z' H => H) Hi
      (demo_reach 0 (or_introl eq_refl))) as (_ & _ & _ & H & _).
    destruct (H demo_cpu Hc Hu) as [H0 _]. destruct H0 as (c' & s' & E & Hall); [vm_compute; repeat constructor|].
    exists c', s'. split; [exact E|]. exact (Hall eq_refl eq_refl (VReq 3 false 0 1 2) (proj2 (elem_of_cons _ _ _) (or_introl eq_refl))).
  - destruct (virtio_requests_complete (fun _ => 1) a_status (dev_spec a_status) demo_sys (demo_end 1) (fun z z' H => H) Hi
      (demo_reach 1 (or_intror (or_introl eq_refl)))) as (_ & _ & _ & H & _).
    destruct (H demo_cpu Hc Hu) as [_ H1]. apply H1. vm_compute. apply Exists_cons_hd. discriminate.
Defined.
