(* ===== verification/User.v ===== *)
(** * User programs: memory, system calls and outcomes (user/user.h)

    A user process has a flat memory and talks to the kernel through the calls
    of user.h.  A call names its arguments by value: the bytes a [write] sends,
    the C string a path pointer points to, the number of bytes a [read] may
    store; the wrappers below do the loads and stores the kernel does on the
    process's behalf (copyin, copyinstr and copyout).  What the kernel answers
    is the parameter [sys], so a program is verified against every kernel that
    keeps the promises its theorem names.

    Programs that hand the kernel pointers outside their own memory on purpose
    make the call [Raw], with the call's number and the argument registers, and
    a load or store there that traps is the call [Fault]: the kernel's answer
    says whether it gave the process the page (vmfault of vm.c) or kills it. *)
From stdpp Require Import base numbers list gmap.
From S2P Require Import Prelude Str.

Inductive call :=
  | Fork | Wait | Pipe | Getpid | Uptime
  | Write (fd : Z) (bs : list Z) | Read (fd n : Z) | Close (fd : Z)
  | Kill (pid : Z) | Open (path : list Z) (mode : Z)
  | Exec (path : list Z) (argv : list (list Z))
  | Mknod (path : list Z) (major minor : Z) | Unlink (path : list Z)
  | Fstat (fd : Z) | Link (old new : list Z) | Mkdir (path : list Z)
  | Chdir (path : list Z) | Dup (fd : Z) | Sys_sbrk (n t : Z) | Pause (n : Z)
  | Raw (num : Z) (args : list Z) | Fault (addr : Z) (store : bool).

(** The kernel as a process sees it, over the rest of the world [W]: the value
    a call returns and the bytes it stores. *)
Class Os (W : Type) := sys : call -> W -> Z * list Z * W.

(** How a piece of user code ends: it returns, the process exits, the process
    image is replaced by exec, or the bound of a loop ran out. *)
Inductive ures (W A : Type) :=
  | URet (a : A) (m : mem) (w : W)
  | UExit (code : Z) (w : W)
  | UExec (path : list Z) (argv : list (list Z)) (w : W)
  | UFuel.
Arguments URet {W A} _ _ _.
Arguments UExit {W A} _ _.
Arguments UExec {W A} _ _ _.
Arguments UFuel {W A}.

Definition U (W A : Type) : Type := mem -> W -> ures W A.

#[global] Instance U_ret W : MRet (U W) := fun A a m w => URet a m w.
#[global] Instance U_bind W : MBind (U W) := fun A B k p m w =>
  match p m w with
  | URet a m' w' => k a m' w'
  | UExit n w' => UExit n w'
  | UExec path argv w' => UExec path argv w'
  | UFuel => UFuel
  end.

(** The longest path the kernel takes from a program (param.h, MAXPATH). *)
Definition PATHMAX : nat := 128.

Section Calls.
Context {W : Type} `{Os W}.

Definition ufuel {A} : U W A := fun _ _ => UFuel.
Definition umem : U W mem := fun m w => URet m m w.
Definition uset (m : mem) : U W unit := fun _ w => URet tt m w.
Definition ulift {A} (o : option A) : U W A :=
  match o with Some a => mret a | None => ufuel end.
(** A statement guarded by a C condition with no else branch. *)
Definition uwhen (b : bool) (p : U W unit) : U W unit := if b then p else mret tt.

(** A call that stores nothing. *)
Definition ucall (c : call) : U W Z := fun m w => let '(r, _, w') := sys c w in URet r m w'.
(** A call with the bytes it returns, for a variable of the caller. *)
Definition ucall_bytes (c : call) : U W (Z * list Z) := fun m w => let '(r, bs, w') := sys c w in URet (r, bs) m w'.

Definition exit {A} (n : Z) : U W A := fun _ w => UExit n w.
Definition write (fd p n : Z) : U W Z := m ← umem; ucall (Write fd (load_bytes m p (Z.to_nat n))).
(** write of a string literal *)
Definition write_lit (fd : Z) (s : list Z) : U W Z := ucall (Write fd s).
Definition read (fd p n : Z) : U W Z :=
  '(r, bs) ← ucall_bytes (Read fd n); m ← umem; uset (store_bytes m p bs);; mret r.
Definition path_at (m : mem) (p : Z) : list Z := cstr PATHMAX m p.
Definition open (p mode : Z) : U W Z := m ← umem; ucall (Open (path_at m p) mode).
Definition close (fd : Z) : U W Z := ucall (Close fd).
(** exec returns only when it fails. *)
Definition exec (path : list Z) (argv : list (list Z)) : U W Z := fun m w =>
  let '(r, _, w') := sys (Exec path argv) w in
  if r <? 0 then URet r m w' else UExec path argv w'.
End Calls.

Lemma ubind_ret {W A B} (p : U W A) (k : A -> U W B) m w a m' w' :
  p m w = URet a m' w' -> (p ≫= k) m w = k a m' w'.
Proof. intros E. unfold mbind, U_bind. by rewrite E. Qed.

(** [ustep E] runs the first computation of a sequence by its equation [E]. *)
Ltac ustep E := rewrite (ubind_ret _ _ _ _ _ _ _ E); cbn beta iota.

(** ** Byte streams

    What programs that copy or filter files rely on: a descriptor open for
    reading delivers the bytes not read yet, in any pieces, then end of file;
    one open for writing takes everything.  [Streams] is that contract. *)
Class Streams (W : Type) `{Os W} := {
  unread : Z -> W -> list Z;      (* bytes a descriptor has still to deliver *)
  written : Z -> W -> list Z;     (* bytes a descriptor has taken *)
  unread_bytes : forall fd w, Forall is_byte (unread fd w);
  read_stream : forall fd n w r bs w', 0 <= n -> sys (Read fd n) w = (r, bs, w') ->
    r = Z.of_nat (length bs) /\ r <= n /\ unread fd w = bs ++ unread fd w' /\
    (bs = [] -> n = 0 \/ unread fd w = []) /\ forall fd', written fd' w' = written fd' w;
  write_stream : forall fd bs w r bs' w', sys (Write fd bs) w = (r, bs', w') ->
    r = Z.of_nat (length bs) /\ written fd w' = written fd w ++ bs /\
    (forall fd', fd' <> fd -> written fd' w' = written fd' w) /\ forall fd', unread fd' w' = unread fd' w;
}.

(** A world that meets the contract: every descriptor has an input, delivered
    at most [chunk] bytes at a time, and the output is a transcript. *)
Record tape := Tape { t_chunk : nat; t_in : Z -> list Z; t_out : list (Z * list Z) }.

Definition tape_sys (c : call) (w : tape) : Z * list Z * tape :=
  match c with
  | Read fd n =>
      let bs := u8 <$> take (Z.to_nat n `min` Datatypes.S (t_chunk w)) (t_in w fd) in
      (Z.of_nat (length bs), bs,
       Tape (t_chunk w) (fun f => if f =? fd then drop (length bs) (t_in w fd) else t_in w f) (t_out w))
  | Write fd bs => (Z.of_nat (length bs), [], Tape (t_chunk w) (t_in w) (t_out w ++ [(fd, bs)]))
  | _ => (-1, [], w)
  end.

#[global] Instance tape_os : Os tape := tape_sys.

Definition tape_written (fd : Z) (w : tape) : list Z :=
  concat ((fun p => if fst p =? fd then snd p else []) <$> t_out w).

#[global] Program Instance tape_streams : Streams tape :=
  { unread := fun fd w => u8 <$> t_in w fd; written := tape_written }.
Next Obligation. intros fd w. apply Forall_fmap, Forall_true. intros x. apply (u_range 8). lia. Qed.
Next Obligation.
  intros fd n w r bs w' Hn E. simpl in E. injection E as <- <- <-. simpl. rewrite Z.eqb_refl, length_fmap.
  split; [done|]. split; [rewrite length_take; lia|]. split.
  - rewrite <- fmap_app. f_equal. rewrite length_take.
    generalize (Z.to_nat n `min` S (t_chunk w))%nat. intros k. destruct (Nat.le_gt_cases k (length (t_in w fd))).
    + by rewrite Nat.min_l, take_drop by lia.
    + rewrite Nat.min_r, take_ge, drop_all, app_nil_r by lia. done.
  - split; [|done]. intros E. apply (f_equal length) in E. rewrite length_fmap, length_take in E.
    destruct (t_in w fd); [by right|]. left. simpl in E. lia.
Qed.
Next Obligation.
  intros fd bs w r bs' w' E. simpl in E. injection E as <- <- <-. unfold tape_written. simpl.
  split; [done|]. split; [|split; [|done]].
  - rewrite fmap_app, concat_app. simpl. by rewrite Z.eqb_refl, app_nil_r.
  - intros fd' Hne. rewrite fmap_app, concat_app. simpl. rewrite (proj2 (Z.eqb_neq fd fd')) by done. by rewrite !app_nil_r.
Qed.

(** The wrappers over the contract. *)
Section Streams.
Context {W : Type} `{Streams W}.

Lemma read_ok fd p n m w : 0 <= n -> exists bs w',
  read fd p n m w = URet (Z.of_nat (length bs)) (store_bytes m p bs) w' /\ Z.of_nat (length bs) <= n /\
  unread fd w = bs ++ unread fd w' /\ (bs = [] -> n = 0 \/ unread fd w = []) /\
  forall fd', written fd' w' = written fd' w.
Proof.
  intros Hn. destruct (sys (Read fd n) w) as [[r bs] w'] eqn:E.
  destruct (read_stream _ _ _ _ _ _ Hn E) as (-> & Hl & Hu & He & Hw). exists bs, w'.
  split; [|done]. unfold read, ucall_bytes, mbind, U_bind. by rewrite E.
Qed.
Lemma write_lit_ok fd bs m w : exists w',
  write_lit fd bs m w = URet (Z.of_nat (length bs)) m w' /\ written fd w' = written fd w ++ bs /\
  (forall fd', fd' <> fd -> written fd' w' = written fd' w) /\ forall fd', unread fd' w' = unread fd' w.
Proof.
  unfold write_lit, ucall. destruct (sys (Write fd bs) w) as [[r bs'] w'] eqn:E.
  destruct (write_stream _ _ _ _ _ _ E) as (-> & H1 & H2 & H3). by exists w'.
Qed.
Lemma write_ok fd p n m w : exists w',
  write fd p n m w = URet (Z.of_nat (Z.to_nat n)) m w' /\ written fd w' = written fd w ++ load_bytes m p (Z.to_nat n) /\
  (forall fd', fd' <> fd -> written fd' w' = written fd' w) /\ forall fd', unread fd' w' = unread fd' w.
Proof.
  destruct (write_lit_ok fd (load_bytes m p (Z.to_nat n)) m w) as (w' & E & Hw). exists w'.
  rewrite length_load_bytes in E. by split.
Qed.
End Streams.
