(* ===== verification/Ulib.v ===== *)
(** * The user library (user/ulib.c, user/printf.c)

    String and memory routines over the memory of the process, buffered input,
    and formatted output as one-byte writes.  Loops over C strings take a
    bound [fuel] and return [None] when it runs out before the NUL.  Signed
    arithmetic is written with the wrap-around the compiled code has. *)
From stdpp Require Import base numbers list gmap strings.
From Stdlib Require Import Ascii.
From S2P Require Import Prelude.
From S2P Require Str.
From S2P Require Import User.

(** ** ulib.c *)

(** while(( *s++ = *t++ ) != 0); the memory when the loop ends. *)
Fixpoint strcpy (fuel : nat) (m : mem) (s t : Z) : option mem :=
  match fuel with
  | O => None
  | S fuel =>
      let b := load8 m t in
      let m := store8 m s b in
      if b =? 0 then Some m else strcpy fuel m (s + 1) (t + 1)
  end.

Fixpoint strcmp (fuel : nat) (m : mem) (p q : Z) : option Z :=
  match fuel with
  | O => None
  | S fuel =>
      if z2b (load8 m p) && (load8 m p =? load8 m q) then strcmp fuel m (p + 1) (q + 1)
      else Some (load8 m p - load8 m q)
  end.

Fixpoint strlen_loop (fuel : nat) (m : mem) (s n : Z) : option Z :=
  match fuel with
  | O => None
  | S fuel => if load8 m (s + n) =? 0 then Some n else strlen_loop fuel m s (i32 (n + 1))
  end.
Definition strlen (fuel : nat) (m : mem) (s : Z) : option Z := u32 <$> strlen_loop fuel m s 0.

Definition memset (m : mem) (dst c n : Z) : mem := Str.memset_loop (Z.to_nat (u32 n)) m dst c.

(** The address of the first [c] of the string; [None] is the null pointer, so
    the answer when the bound suffices is [Some None] or [Some (Some p)]. *)
Fixpoint strchr (fuel : nat) (m : mem) (s c : Z) : option (option Z) :=
  match fuel with
  | O => None
  | S fuel =>
      if load8 m s =? 0 then Some None
      else if load8 m s =? u8 c then Some (Some s)
      else strchr fuel m (s + 1) c
  end.
(** strchr on a string literal, as a truth value. *)
Definition strchr_lit (s : list Z) (c : Z) : bool := bool_decide (u8 c ∈ s).

Fixpoint atoi_loop (fuel : nat) (m : mem) (s n : Z) : option Z :=
  match fuel with
  | O => None
  | S fuel =>
      if (chr "0" <=? load8 m s) && (load8 m s <=? chr "9")
      then atoi_loop fuel m (s + 1) (i32 (n * 10 + load8 m s - chr "0"))
      else Some n
  end.
Definition atoi (fuel : nat) (m : mem) (s : Z) : option Z := atoi_loop fuel m s 0.

(** The first loop of atoi_CheckIsNumber: every character is a digit. *)
Fixpoint all_digits (fuel : nat) (m : mem) (p : Z) : option bool :=
  match fuel with
  | O => None
  | S fuel =>
      if load8 m p =? 0 then Some true
      else if (load8 m p <? chr "0") || (chr "9" <? load8 m p) then Some false
      else all_digits fuel m (p + 1)
  end.

Definition memmove (m : mem) (vdst vsrc n : Z) : mem :=
  if vdst <? vsrc then Str.memmove_up (Z.to_nat n) m vdst vsrc
  else Str.memmove_down (Z.to_nat n) m (vdst + n) (vsrc + n).

Definition memcmp (m : mem) (s1 s2 n : Z) : Z := Str.memcmp_loop (Z.to_nat (u32 n)) m s1 s2.
Definition memcpy (m : mem) (dst src n : Z) : mem := memmove m dst src (i32 n).

(** kernel/stat.h: struct stat *)
Record ustat := Ustat { us_dev : Z; us_ino : Z; us_type : Z; us_nlink : Z; us_size : Z }.
Definition get_stat (bs : list Z) : ustat :=
  Ustat (i32 (get_le 4 0 bs)) (get_le 4 4 bs) (i16 (get_le 2 8 bs)) (i16 (get_le 2 10 bs)) (get_le 8 16 bs).

Definition SBRK_EAGER : Z := 1.
Definition SBRK_LAZY : Z := 2.
Definition O_RDONLY : Z := 0.

Section Ulib.
Context {W : Type} `{Os W}.
Variable fuel : nat.

Fixpoint gets_loop (k : nat) (buf i max : Z) : U W Z :=
  match k with
  | O => ufuel
  | S k =>
      if i + 1 <? max then
        '(cc, bs) ← ucall_bytes (Read 0 1);
        if cc <? 1 then mret i
        else
          let c := nth 0 bs 0 in
          m ← umem; uset (store8 m (buf + i) c);;
          if (c =? 10) || (c =? 13) then mret (i + 1)
          else gets_loop k buf (i + 1) max
      else mret i
  end.
(** gets stores at most [max] characters, so the loop runs fewer than [max] times. *)
Definition gets (buf max : Z) : U W unit :=
  i ← gets_loop (S (Z.to_nat max)) buf 0 max;
  m ← umem; uset (store8 m (buf + i) 0).

Definition fstat (fd : Z) : U W (Z * ustat) :=
  '(r, bs) ← ucall_bytes (Fstat fd); mret (r, get_stat bs).
(** stat: the result and, when it is 0, the structure filled in. *)
Definition stat (n : Z) : U W (Z * ustat) :=
  fd ← open n O_RDONLY;
  if fd <? 0 then mret (-1, get_stat [])
  else '(r, st) ← fstat fd; close fd;; mret (r, st).

Definition atoi_CheckIsNumber (s : Z) : U W Z :=
  m ← umem;
  ok ← ulift (all_digits fuel m s);
  if (ok : bool) then ulift (atoi fuel m s)
  else
    write_lit 2 (take 51 (chars "ERROR (atoi_CheckIsNumber): Input is not a number." ++ [10]));;
    exit 1.

Definition sbrk (n : Z) : U W Z := ucall (Sys_sbrk n SBRK_EAGER).
Definition sbrklazy (n : Z) : U W Z := ucall (Sys_sbrk n SBRK_LAZY).

(** ** printf.c *)

Definition putc (fd c : Z) : U W unit := write_lit fd [u8 c];; mret tt.

Fixpoint putcs (fd : Z) (cs : list Z) : U W unit :=
  match cs with
  | [] => mret tt
  | c :: cs => putc fd c;; putcs fd cs
  end.
End Ulib.

Definition digits : list Z := chars "0123456789ABCDEF".
Definition digit (d : Z) : Z := nth (Z.to_nat d) digits 0.

(** do{ buf[i++] = digits[x % base]; } while((x /= base) != 0): the digits of a
    32-bit [x], least significant first. *)
Fixpoint printint_digits (k : nat) (x base : Z) : list Z :=
  match k with
  | O => []
  | S k => digit (x mod base) :: (if x / base =? 0 then [] else printint_digits k (x / base) base)
  end.

(** buf[] when the printing starts; [x] is a uint, so a 64-bit argument is cut
    to its low 32 bits. *)
Definition printint_buf (xx base : Z) (sgn : bool) : list Z :=
  let neg := sgn && (xx <? 0) in
  let x := if neg then u32 (- xx) else u32 xx in
  printint_digits 32 x base ++ (if neg then [chr "-"] else []).

(** Arguments of printf: an integer, a pointer to a string, a string literal. *)
Inductive uarg := AInt (x : Z) | APtr (p : Z) | ALit (s : list Z).
Definition arg_int (ap : list uarg) : Z := match ap with AInt x :: _ => x | _ => 0 end.

Section Uprintf.
Context {W : Type} `{Os W}.
Variable fuel : nat.

Definition printint (fd xx base : Z) (sgn : bool) : U W unit :=
  putcs fd (reverse (printint_buf xx base sgn)).

Fixpoint printptr_loop (k : nat) (fd x : Z) : U W unit :=
  match k with
  | O => mret tt
  | S k => putc fd (digit (Z.shiftr x 60));; printptr_loop k fd (u64 (Z.shiftl x 4))
  end.
Definition printptr (fd x : Z) : U W unit :=
  putc fd (chr "0");; putc fd (chr "x");; printptr_loop 16 fd x.

(** for(; *s; s++) putc(fd, *s); *)
Fixpoint put_string (k : nat) (fd s : Z) : U W unit :=
  match k with
  | O => ufuel
  | S k =>
      m ← umem;
      if load8 m s =? 0 then mret tt else putc fd (load8 m s);; put_string k fd (s + 1)
  end.
Definition put_arg (fd : Z) (ap : list uarg) : U W unit :=
  match ap with
  | ALit s :: _ => putcs fd s
  | APtr p :: _ => if p =? 0 then putcs fd (chars "(null)") else put_string fuel fd p
  | _ => putcs fd (chars "(null)")
  end.

(** The loop of vprintf from fmt[i], in the state after a '%' when [pct]. *)
Fixpoint vprintf_loop (k : nat) (fd : Z) (fmt : list Z) (i : nat) (pct : bool) (ap : list uarg) : U W unit :=
  match k with
  | O => ufuel
  | S k =>
    let c0 := nth i fmt 0 in
    if c0 =? 0 then mret tt
    else if negb pct then
      if c0 =? chr "%" then vprintf_loop k fd fmt (i + 1) true ap
      else putc fd c0;; vprintf_loop k fd fmt (i + 1) false ap
    else
      let c1 := nth (i + 1) fmt 0 in
      let c2 := if z2b c1 then nth (i + 2) fmt 0 else 0 in
      let next j := vprintf_loop k fd fmt (i + 1 + j) false (tail ap) in
      let same j := vprintf_loop k fd fmt (i + 1 + j) false ap in
      let l c := (c0 =? chr "l") && (c1 =? c) in
      let ll c := (c0 =? chr "l") && (c1 =? chr "l") && (c2 =? c) in
      if c0 =? chr "d" then printint fd (i32 (arg_int ap)) 10 true;; next 0%nat
      else if l (chr "d") then printint fd (i64 (arg_int ap)) 10 true;; next 1%nat
      else if ll (chr "d") then printint fd (i64 (arg_int ap)) 10 true;; next 2%nat
      else if c0 =? chr "u" then printint fd (u32 (arg_int ap)) 10 false;; next 0%nat
      else if l (chr "u") then printint fd (i64 (arg_int ap)) 10 false;; next 1%nat
      else if ll (chr "u") then printint fd (i64 (arg_int ap)) 10 false;; next 2%nat
      else if c0 =? chr "x" then printint fd (u32 (arg_int ap)) 16 false;; next 0%nat
      else if l (chr "x") then printint fd (i64 (arg_int ap)) 16 false;; next 1%nat
      else if ll (chr "x") then printint fd (i64 (arg_int ap)) 16 false;; next 2%nat
      else if c0 =? chr "p" then printptr fd (u64 (arg_int ap));; next 0%nat
      else if c0 =? chr "c" then putc fd (u32 (arg_int ap));; next 0%nat
      else if c0 =? chr "s" then put_arg fd ap;; next 0%nat
      else if c0 =? chr "%" then putc fd (chr "%");; same 0%nat
      else putc fd (chr "%");; putc fd c0;; same 0%nat
  end.
Definition vprintf (fd : Z) (fmt : list Z) (ap : list uarg) : U W unit :=
  vprintf_loop (S (length fmt)) fd fmt 0 false ap.
Definition fprintf (fd : Z) (fmt : list Z) (ap : list uarg) : U W unit := vprintf fd fmt ap.
Definition printf (fmt : list Z) (ap : list uarg) : U W unit := vprintf 1 fmt ap.
End Uprintf.
