(* ===== verification/Grep.v ===== *)
(** * grep (user/grep.c)

    The matcher of Kernighan and Pike over the memory of the process, and the
    loop that reads a file, matches it line by line and writes the lines that
    match.  The pattern's meaning is given separately, by the language of the
    regular expression it denotes. *)
From stdpp Require Import base numbers list gmap strings.
From Stdlib Require Import Ascii.
From S2P Require Import Prelude Str User Ulib.

(** ** The matcher

    [fuel] bounds the calls and iterations; [None] when it runs out. *)
Fixpoint matchhere (fuel : nat) (m : mem) (re text : Z) : option bool :=
  match fuel with
  | O => None
  | S fuel =>
      if load8 m re =? 0 then Some true
      else if load8 m (re + 1) =? chr "*" then matchstar fuel m (load8 m re) (re + 2) text
      else if (load8 m re =? chr "$") && (load8 m (re + 1) =? 0) then Some (load8 m text =? 0)
      else if negb (load8 m text =? 0) && ((load8 m re =? chr ".") || (load8 m re =? load8 m text))
      then matchhere fuel m (re + 1) (text + 1)
      else Some false
  end
with matchstar (fuel : nat) (m : mem) (c re text : Z) : option bool :=
  match fuel with
  | O => None
  | S fuel =>
      match matchhere fuel m re text with
      | Some false =>
          if negb (load8 m text =? 0) && ((load8 m text =? c) || (c =? chr "."))
          then matchstar fuel m c re (text + 1)
          else Some false
      | r => r
      end
  end.

(** do { if(matchhere(re, text)) return 1; } while( *text++ != '\0'); *)
Fixpoint match_loop (k fuel : nat) (m : mem) (re text : Z) : option bool :=
  match k with
  | O => None
  | S k =>
      match matchhere fuel m re text with
      | Some false => if load8 m text =? 0 then Some false else match_loop k fuel m re (text + 1)
      | r => r
      end
  end.
Definition match_ (fuel : nat) (m : mem) (re text : Z) : option bool :=
  if load8 m re =? chr "^" then matchhere fuel m (re + 1) text
  else match_loop fuel fuel m re text.

(** ** The program *)

Definition BUFSIZE : Z := 1024.    (* sizeof(buf) *)

Section Grep.
Context {W : Type} `{Os W}.
Variables (buf : Z) (fuel : nat).

(** The loop over the complete lines in the buffer from [p]; it returns the
    address after the last one. *)
Fixpoint grep_lines (k : nat) (pattern p : Z) : U W Z :=
  match k with
  | O => ufuel
  | S k =>
      m ← umem; q ← ulift (strchr fuel m p 10);
      match q with
      | None => mret p
      | Some q =>
          uset (store8 m q 0);; m ← umem;
          b ← ulift (match_ fuel m pattern p);
          uwhen b (uset (store8 m q 10);; write 1 p (q + 1 - p);; mret tt);;
          grep_lines k pattern (q + 1)
      end
  end.

(** while((n = read(fd, buf + m, sizeof(buf) - m - 1)) > 0), with [len] for m. *)
Fixpoint grep_loop (k : nat) (pattern fd len : Z) : U W unit :=
  match k with
  | O => ufuel
  | S k =>
      n ← read fd (buf + len) (BUFSIZE - len - 1);
      if 0 <? n then
        let len := len + n in
        m ← umem; uset (store8 m (buf + len) 0);;
        p ← grep_lines fuel pattern buf;
        let rest := len - (p - buf) in
        (if 0 <? len then m ← umem; uset (memmove m buf p rest) else mret tt);;
        grep_loop k pattern fd (if 0 <? len then rest else len)
      else mret tt
  end.
Definition grep (pattern fd : Z) : U W unit := grep_loop fuel pattern fd 0.

(** The loop of main over the file arguments. *)
Fixpoint grep_files (pattern : Z) (argv : list Z) : U W unit :=
  match argv with
  | [] => exit 0
  | a :: argv =>
      fd ← open a O_RDONLY;
      if fd <? 0 then printf fuel (chars "grep: cannot open %s" ++ [10]) [APtr a];; exit 1
      else grep pattern fd;; close fd;; grep_files pattern argv
  end.
Definition grep_main (argv : list Z) : U W unit :=
  match argv with
  | [] | [_] => fprintf fuel 2 (chars "usage: grep pattern [file ...]" ++ [10]) [];; exit 1
  | [_; pattern] => grep pattern 0;; exit 0
  | _ :: pattern :: files => grep_files pattern files
  end.
End Grep.

(** ** The meaning of a pattern *)

(** One step of a pattern: a character, any character, repetitions of either,
    or the end of the text. *)
Inductive item := One (c : Z) | Star (c : Z) | End.

(** [c] stands for itself, '.' for every character. *)
Definition stands (c x : Z) : Prop := c = chr "." \/ c = x.

(** A pattern (without its leading '^') as a sequence of steps. *)
Fixpoint items (re : list Z) : list item :=
  match re with
  | [] => []
  | c :: re' =>
      match re' with
      | d :: re'' => if d =? chr "*" then Star c :: items re'' else One c :: items re'
      | [] => if c =? chr "$" then [End] else [One c]
      end
  end.

(** [denotes its w rest]: the steps match the characters [w] when [rest] follows
    them. *)
Inductive denotes : list item -> list Z -> list Z -> Prop :=
  | d_nil rest : denotes [] [] rest
  | d_one c x its w rest : stands c x -> denotes its w rest -> denotes (One c :: its) (x :: w) rest
  | d_star c xs its w rest : Forall (stands c) xs -> denotes its w rest -> denotes (Star c :: its) (xs ++ w) rest
  | d_end : denotes [End] [] [].

(** A line matches a pattern: at its start if the pattern begins with '^', and
    anywhere otherwise. *)
Definition line_matches (re line : list Z) : Prop :=
  match re with
  | c :: re' =>
      if c =? chr "^" then exists w rest, line = w ++ rest /\ denotes (items re') w rest
      else exists pre w rest, line = pre ++ w ++ rest /\ denotes (items re) w rest
  | [] => True
  end.

Lemma items_star c re : items (c :: chr "*" :: re) = Star c :: items re.
Proof. done. Qed.
Lemma items_one c re : (forall re', re <> chr "*" :: re') -> ~ (c = chr "$" /\ re = []) ->
  items (c :: re) = One c :: items re.
Proof.
  intros H1 H2. destruct re as [|d re]; simpl.
  - destruct (Z.eqb_spec c (chr "$")); [tauto|done].
  - destruct (Z.eqb_spec d (chr "*")) as [->|]; [by destruct (H1 re)|done].
Qed.

(** A starred step matches nothing, or one character and then itself again. *)
Lemma denotes_star c its w rest :
  denotes (Star c :: its) w rest <->
  denotes its w rest \/ exists x w', w = x :: w' /\ stands c x /\ denotes (Star c :: its) w' rest.
Proof.
  split.
  - inversion 1 as [| |c' xs its' w' rest' HF Hd|]; subst. destruct xs as [|x xs]; [by left|]. right.
    inversion HF; subst. exists x, (xs ++ w'). split; [done|]. split; [done|]. by constructor.
  - intros [Hd|(x & w' & -> & Hx & Hd)].
    + apply (d_star c [] its); [constructor|done].
    + inversion Hd as [| |c' xs its' w'' rest' HF Hd'|]; subst.
      apply (d_star c (x :: xs)); [by constructor|done].
Qed.

(** The pattern's steps match some prefix of the text. *)
Definition prefix_matches (its : list item) (text : list Z) : Prop :=
  exists w rest, text = w ++ rest /\ denotes its w rest.

Lemma prefix_nil text : prefix_matches [] text.
Proof. exists [], text. split; [done|constructor]. Qed.
Lemma prefix_end text : prefix_matches [End] text <-> text = [].
Proof.
  split; [|intros ->; exists [], []; split; [done|constructor]].
  intros (w & rest & -> & Hd). by inversion Hd.
Qed.
Lemma prefix_one c its text : prefix_matches (One c :: its) text <->
  exists x t, text = x :: t /\ stands c x /\ prefix_matches its t.
Proof.
  split.
  - intros (w & rest & -> & Hd). inversion Hd; subst. eexists _, _. split; [done|]. split; [done|]. by eexists _, _.
  - intros (x & t & -> & Hs & w & rest & -> & Hd). exists (x :: w), rest. split; [done|]. by constructor.
Qed.
Lemma prefix_star c its text : prefix_matches (Star c :: its) text <->
  prefix_matches its text \/ exists x t, text = x :: t /\ stands c x /\ prefix_matches (Star c :: its) t.
Proof.
  split.
  - intros (w & rest & -> & Hd). apply denotes_star in Hd as [Hd|(x & w' & -> & Hx & Hd)].
    + left. by exists w, rest.
    + right. exists x, (w' ++ rest). split; [done|]. split; [done|]. by exists w', rest.
  - intros [(w & rest & -> & Hd)|(x & t & -> & Hx & w & rest & -> & Hd)].
    + exists w, rest. split; [done|]. apply denotes_star. by left.
    + exists (x :: w), rest. split; [done|]. apply denotes_star. right. by exists x, w.
Qed.

(** Boolean tests of the code against the propositions. *)
Lemma stands_b c x : (c =? chr ".") || (c =? x) = true <-> stands c x.
Proof. rewrite orb_true_iff, !Z.eqb_eq. done. Qed.
Lemma stands_b' c x : (x =? c) || (c =? chr ".") = true <-> stands c x.
Proof. rewrite orb_true_iff, !Z.eqb_eq. unfold stands. intuition. Qed.

(** [decides o P]: the computation [o] returned, with the truth value of [P]. *)
Definition decides (o : option bool) (P : Prop) : Prop := exists b, o = Some b /\ (b = true <-> P).
Lemma decides_iff o P Q : (P <-> Q) -> decides o P -> decides o Q.
Proof. intros HE (b & E & Hb). exists b. split; [done|]. by rewrite Hb. Qed.
Lemma decides_true P : P -> decides (Some true) P.
Proof. exists true. done. Qed.
Lemma decides_false P : ~ P -> decides (Some false) P.
Proof. exists false. by intuition. Qed.

Lemma str_head m p cs : str_at m p cs -> load8 m p = nth 0 cs 0.
Proof. destruct cs; [done|]. by intros (? & _). Qed.
Lemma str_head0 m p cs : str_at m p cs -> load8 m p = 0 -> cs = [].
Proof. destruct cs; [done|]. intros (H1 & H2 & _) H0. congruence. Qed.
Lemma str_tail m p c cs : str_at m p (c :: cs) -> str_at m (p + 1) cs.
Proof. by intros (_ & _ & ?). Qed.
Lemma str_second m p c cs : str_at m p (c :: cs) -> load8 m (p + 1) = nth 0 cs 0.
Proof. intros H%str_tail. by apply str_head. Qed.

(** The loop of matchstar, given what matchhere decides. *)
Lemma matchstar_spec m c re its : forall ts fuel text,
  str_at m text ts -> (length ts < fuel)%nat ->
  (forall k t' ts', (length ts' <= length ts)%nat -> (fuel <= k + (length ts - length ts') + 1)%nat -> str_at m t' ts' ->
     decides (matchhere k m re t') (prefix_matches its ts')) ->
  decides (matchstar fuel m c re text) (prefix_matches (Star c :: its) ts).
Proof.
  induction ts as [|x ts IH]; intros fuel text Hs Hf Hh; (destruct fuel as [|fuel]; [simpl in Hf; lia|]);
    cbn [matchstar]; destruct (Hh fuel text _ ltac:(done) ltac:(lia) Hs) as ([] & -> & Hb).
  1,3: apply decides_true, prefix_star; left; by apply Hb.
  - rewrite (str_head _ _ _ Hs). simpl. apply decides_false. rewrite prefix_star.
    intros [Hp|(x & t & [=] & _)]. by apply Hb in Hp.
  - destruct Hs as (Hx & Hnz & Hs). rewrite Hx, (proj2 (Z.eqb_neq x 0) Hnz). simpl.
    assert (~ prefix_matches its (x :: ts)) as Hno by (rewrite <- Hb; discriminate).
    destruct ((x =? c) || (c =? chr ".")) eqn:Es.
    + apply stands_b' in Es. eapply decides_iff; [|apply (IH fuel (text + 1) Hs); [simpl in Hf; lia|]].
      * rewrite (prefix_star c its (x :: ts)). split; [|intros [Hp|(y & t & [= <- <-] & _ & Hp)]; tauto].
        intros Hp. right. by exists x, ts.
      * intros k t' ts' Hl Hk. apply Hh; simpl; lia.
    + apply decides_false. rewrite prefix_star. intros [Hp|(y & t & [= <- <-] & Hst & _)]; [done|].
      apply stands_b' in Hst. congruence.
Qed.

Lemma matchhere_spec n : forall m re text res ts fuel, (length res <= n)%nat ->
  str_at m re res -> str_at m text ts -> (2 * length res + length ts < fuel)%nat ->
  decides (matchhere fuel m re text) (prefix_matches (items res) ts).
Proof.
  induction n as [|n IH]; intros m re text res ts fuel Hn Hr Ht Hf; (destruct fuel as [|fuel]; [lia|]); cbn [matchhere].
  { destruct res; [|simpl in Hn; lia]. rewrite (str_head _ _ _ Hr). apply decides_true, prefix_nil. }
  destruct res as [|c res]; [rewrite (str_head _ _ _ Hr); apply decides_true, prefix_nil|].
  simpl length in Hn, Hf. pose proof (str_second _ _ _ _ Hr) as H1. pose proof (str_tail _ _ _ _ Hr) as Hr1.
  destruct Hr as (Hc & Hnz & _). rewrite Hc, H1, (proj2 (Z.eqb_neq c 0) Hnz).
  destruct (Z.eqb_spec (nth 0 res 0) (chr "*")) as [Hst|Hst].
  { destruct res as [|d res]; [done|]. simpl in Hst. subst d. rewrite items_star.
    pose proof (str_tail _ _ _ _ Hr1) as Hr2. rewrite <- Z.add_assoc in Hr2. cbn [length] in *.
    apply matchstar_spec; [done|lia|]. intros k t' ts' Hl Hk Ht'. apply (IH m _ _ res ts'); [lia|done|done|]. lia. }
  destruct ((c =? chr "$") && (nth 0 res 0 =? 0)) eqn:Ed.
  { apply andb_prop in Ed as [->%Z.eqb_eq Ed%Z.eqb_eq]. rewrite <- H1 in Ed. apply (str_head0 _ _ _ Hr1) in Ed as ->.
    rewrite (str_head _ _ _ Ht). eapply decides_iff; [symmetry; apply prefix_end|].
    destruct ts as [|x ts]; [by apply decides_true|]. destruct Ht as (Hx & Hx0 & _). simpl.
    rewrite (proj2 (Z.eqb_neq x 0) Hx0). by apply decides_false. }
  rewrite items_one; cycle 1.
  { intros re' ->. by apply Hst. }
  { intros [-> ->]. discriminate Ed. }
  destruct ts as [|x ts].
  { rewrite (str_head _ _ _ Ht). apply decides_false. rewrite prefix_one. by intros (? & ? & [=] & _). }
  pose proof (str_tail _ _ _ _ Ht) as Ht1. destruct Ht as (-> & Hx0 & _). rewrite (proj2 (Z.eqb_neq x 0) Hx0). simpl andb.
  destruct ((c =? chr ".") || (c =? x)) eqn:Es.
  - apply stands_b in Es. eapply decides_iff; [|apply (IH m _ _ res ts); [lia|done|done|cbn [length] in *; lia]].
    rewrite prefix_one. split; [by exists x, ts|]. by intros (? & ? & [= <- <-] & _ & ?).
  - apply decides_false. rewrite prefix_one. intros (? & ? & [= <- <-] & Hst' & _). apply stands_b in Hst'. congruence.
Qed.

(** The search of match over the suffixes of the text. *)
Lemma match_loop_spec m re res fuel : str_at m re res -> forall ts k text,
  str_at m text ts -> (length ts < k)%nat -> (2 * length res + length ts < fuel)%nat ->
  decides (match_loop k fuel m re text) (exists pre w rest, ts = pre ++ w ++ rest /\ denotes (items res) w rest).
Proof.
  intros Hr. induction ts as [|x ts IH]; intros k text Ht Hk Hf; (destruct k as [|k]; [simpl in Hk; lia|]);
    cbn [match_loop]; destruct (matchhere_spec _ m re text res _ fuel (le_n _) Hr Ht Hf) as ([] & -> & Hb).
  1,3: apply decides_true; destruct (proj1 Hb eq_refl) as (w & rest & -> & Hd); by exists [], w, rest.
  - rewrite (str_head _ _ _ Ht). simpl. apply decides_false. intros ([] & w & rest & E & Hd); [|done].
    enough (false = true) by done. apply Hb. by exists w, rest.
  - destruct Ht as (-> & Hx0 & Ht). rewrite (proj2 (Z.eqb_neq x 0) Hx0).
    eapply decides_iff; [|apply (IH k (text + 1) Ht); cbn [length] in *; lia]. split.
    + intros (pre & w & rest & -> & Hd). by exists (x :: pre), w, rest.
    + intros ([|y pre] & w & rest & E & Hd).
      * enough (false = true) by done. apply Hb. by exists w, rest.
      * injection E as <- ->. by exists pre, w, rest.
Qed.

(** ** Deciding the language *)

Fixpoint prefix_b (its : list item) : list Z -> bool :=
  match its with
  | [] => fun _ => true
  | One c :: its => fun t =>
      match t with [] => false | x :: t => ((c =? chr ".") || (c =? x)) && prefix_b its t end
  | Star c :: its =>
      fix star t :=
        prefix_b its t ||
        match t with [] => false | x :: t => ((c =? chr ".") || (c =? x)) && star t end
  | End :: its => fun t => match its, t with [], [] => true | _, _ => false end
  end.

Lemma prefix_b_ok its : forall t, prefix_b its t = true <-> prefix_matches its t.
Proof.
  induction its as [|[c|c|] its IH]; cbn [prefix_b].
  - intros t. split; [intros; apply prefix_nil|done].
  - intros [|x t]; rewrite prefix_one; [split; [done|by intros (? & ? & [=] & _)]|].
    rewrite andb_true_iff, stands_b, IH. split; [by exists x, t|by intros (? & ? & [= <- <-] & ? & ?)].
  - induction t as [|x t IHt]; rewrite prefix_star, orb_true_iff, IH.
    + split; [intros [?|?]; [by left|done]|intros [?|(? & ? & [=] & _)]; by left].
    + rewrite andb_true_iff, stands_b, IHt. split; (intros [?|Hr]; [by left|right]).
      * by exists x, t.
      * by destruct Hr as (? & ? & [= <- <-] & ? & ?).
  - intros t. destruct its; [rewrite prefix_end; by destruct t|].
    split; [done|]. intros (? & ? & _ & Hd). by inversion Hd.
Qed.

Fixpoint search_b (its : list item) (t : list Z) : bool :=
  prefix_b its t || match t with [] => false | _ :: t => search_b its t end.
Lemma search_b_ok its t : search_b its t = true <-> exists pre w rest, t = pre ++ w ++ rest /\ denotes its w rest.
Proof.
  induction t as [|x t IH]; cbn [search_b]; rewrite orb_true_iff, prefix_b_ok.
  - split; [intros [(w & rest & ? & ?)|]; [by exists [], w, rest|done]|].
    intros ([] & w & rest & ? & ?); [|done]. left. by exists w, rest.
  - rewrite IH. split.
    + intros [(w & rest & ? & ?)|(pre & w & rest & -> & ?)]; [by exists [], w, rest|by exists (x :: pre), w, rest].
    + intros ([|y pre] & w & rest & E & ?); [left; by exists w, rest|right]. injection E as _ ->. by exists pre, w, rest.
Qed.

#[global] Instance line_matches_dec re line : Decision (line_matches re line).
Proof.
  destruct re as [|c re]; [by left|]. cbn [line_matches]. destruct (c =? chr "^").
  - destruct (prefix_b (items re) line) eqn:E; [left; by apply prefix_b_ok|].
    right. intros H%prefix_b_ok. congruence.
  - destruct (search_b (items (c :: re)) line) eqn:E; [left; by apply search_b_ok|].
    right. intros H%search_b_ok. congruence.
Defined.

Lemma match_spec m re text res ts fuel :
  str_at m re res -> str_at m text ts -> (2 * length res + length ts < fuel)%nat ->
  match_ fuel m re text = Some (bool_decide (line_matches res ts)).
Proof.
  intros Hr Ht Hf. enough (decides (match_ fuel m re text) (line_matches res ts)) as (b & -> & Hb).
  { f_equal. destruct b; [by rewrite bool_decide_eq_true_2 by by apply Hb|].
    rewrite bool_decide_eq_false_2; [done|]. rewrite <- Hb. done. }
  unfold match_, line_matches. rewrite (str_head _ _ _ Hr). destruct res as [|c res].
  - simpl. destruct (match_loop_spec m re [] fuel Hr ts fuel text Ht ltac:(lia) ltac:(simpl; lia)) as (b & E & Hb).
    exists b. split; [done|]. rewrite Hb. split; [done|]. intros _. exists [], [], ts. split; [done|constructor].
  - simpl nth. destruct (Z.eqb_spec c (chr "^")) as [->|].
    + apply (matchhere_spec (length res)); [done|by apply (str_tail _ _ _ _ Hr)|done|cbn [length] in *; lia].
    + apply match_loop_spec; [done|done|cbn [length] in *; lia|done].
Qed.

(** ** Properties *)

(** C31: match decides the language of the pattern.  For C strings [res] and [ts]
    in memory and enough steps, match returns, and it returns 1 exactly when
    the regular expression the pattern denotes matches the text: at its start
    when the pattern begins with '^', anywhere otherwise. *)
Theorem match_decides_language m re text res ts fuel :
  str_at m re res -> str_at m text ts -> (2 * length res + length ts < fuel)%nat ->
  exists b, match_ fuel m re text = Some b /\ (b = true <-> line_matches res ts).
Proof.
  intros Hr Ht Hf. rewrite (match_spec m re text res ts fuel Hr Ht Hf). eexists. split; [done|]. apply bool_decide_eq_true.
Qed.

(** "^ab*.$" and "abbc" in memory. *)
Definition demo_mem : mem := store_bytes (store_bytes ∅ 0 (chars "^ab*.$")) 16 (chars "abbc").

Lemma match_decides_language_witness :
  exists b, match_ 17 demo_mem 0 16 = Some b /\ (b = true <-> line_matches (chars "^ab*.$") (chars "abbc")).
Proof.
  apply (match_decides_language demo_mem 0 16 (chars "^ab*.$") (chars "abbc") 17).
  - repeat (split; [reflexivity || (intro; discriminate)|]). reflexivity.
  - repeat (split; [reflexivity || (intro; discriminate)|]). reflexivity.
  - vm_compute. lia.
Defined.
