(* ===== verification/GrepLoop.v ===== *)
(** * grep's output (theorem on the loop of Grep.v)

    Whatever pieces the reads deliver the input in, grep writes the complete
    lines that match, in order. *)
From stdpp Require Import base numbers list gmap strings.
From Stdlib Require Import Ascii.
From S2P Require Import Prelude Str User Ulib Grep.

(** strchr finds the first newline, or none. *)
Lemma strchr_found m c pre suf : is_byte c -> forall p fuel, str_at m p (pre ++ c :: suf) -> c ∉ pre ->
  (length pre < fuel)%nat -> strchr fuel m p c = Some (Some (p + Z.of_nat (length pre))).
Proof.
  intros Hc. induction pre as [|x pre IH]; intros p fuel Hs Hn Hf; (destruct fuel as [|fuel]; [simpl in Hf; lia|]);
    cbn [strchr]; rewrite (u_small 8 c) by done; destruct Hs as (-> & Hx & Hs); rewrite (proj2 (Z.eqb_neq _ 0) Hx).
  - by rewrite Z.eqb_refl, Z.add_0_r.
  - apply not_elem_of_cons in Hn as [Hn1 Hn2]. rewrite (proj2 (Z.eqb_neq x c)) by congruence.
    rewrite IH by (done || simpl in Hf; lia). simpl length. do 2 f_equal. lia.
Qed.
Lemma strchr_none m c l : is_byte c -> forall p fuel, str_at m p l -> c ∉ l ->
  (length l < fuel)%nat -> strchr fuel m p c = Some None.
Proof.
  intros Hc. induction l as [|x l IH]; intros p fuel Hs Hn Hf; (destruct fuel as [|fuel]; [simpl in Hf; lia|]);
    cbn [strchr].
  - simpl in Hs. by rewrite Hs.
  - rewrite (u_small 8 c) by done. destruct Hs as (-> & Hx & Hs). rewrite (proj2 (Z.eqb_neq _ 0) Hx).
    apply not_elem_of_cons in Hn as [Hn1 Hn2]. rewrite (proj2 (Z.eqb_neq x c)) by congruence.
    apply IH; [done|done|simpl in Hf; lia].
Qed.

(** The user library's memmove towards lower addresses. *)
Lemma load8_memmove_left m d s n a : mem_ok m -> d <= s -> 0 <= n ->
  load8 (memmove m d s n) a = if bool_decide (d <= a < d + n) then load8 m (s + (a - d)) else load8 m a.
Proof.
  intros Hm Hd Hn. unfold memmove. destruct (Z.ltb_spec d s).
  - rewrite load8_memmove_up by (done || lia). by rewrite Z2Nat.id by lia.
  - rewrite load8_memmove_down by (done || lia). rewrite Z2Nat.id by lia. replace s with d by lia.
    replace (d + n - n) with d by lia. case_bool_decide; [|done]. f_equal. lia.
Qed.
Lemma mem_ok_umemmove m d s n : mem_ok m -> mem_ok (memmove m d s n).
Proof. intros. unfold memmove. destruct (_ <? _); auto using mem_ok_memmove_up, mem_ok_memmove_down. Qed.

(** A line with its newline. *)
Definition nl (l : list Z) : list Z := l ++ [10].
Definition plain (l : list Z) : Prop := Forall (fun x => x <> 0 /\ x <> 10) l.

Lemma plain_no10 l : plain l -> 10 ∉ l.
Proof. intros Hp Hin. apply (proj1 (Forall_forall _ _) Hp) in Hin. tauto. Qed.
Lemma plain_nz l : plain l -> Forall (fun x => x <> 0) l.
Proof. intros Hp. apply (Forall_impl _ _ _ Hp). tauto. Qed.

(** A prefix of lines: either inside the first line, or the first line is
    complete in it. *)
Lemma lines_prefix t u ls rest : t ++ u = concat (nl <$> ls) ++ rest -> Forall plain ls -> plain rest ->
  (plain t) \/ exists l ls' t', ls = l :: ls' /\ t = nl l ++ t' /\ t' ++ u = concat (nl <$> ls') ++ rest.
Proof.
  intros E Hp Hr. destruct ls as [|l ls].
  - left. simpl in E. subst rest. by apply Forall_app in Hr as [? _].
  - inversion Hp; subst. simpl in E. rewrite <- app_assoc in E.
    apply app_eq_app in E as (k & [[-> E]|[E1 E]]).
    + right. exists l, ls, k. done.
    + destruct k as [|x k] using rev_ind; [rewrite app_nil_r in E1; right; exists l, ls, []; split; [done|]; rewrite app_nil_r; split; [congruence|done]|].
      left. unfold nl in E1. rewrite app_assoc in E1. apply app_inj_tail in E1 as [E1 _].
      rewrite E1 in H1. by apply Forall_app in H1 as [? _].
Qed.

Section Run.
Context {W : Type} `{Streams W}.
Variables (buf pattern fd : Z) (fuel : nat) (re : list Z).
Hypothesis fuel_ok : (2 * length re + 1024 < fuel)%nat.
(** The pattern is not in the buffer. *)
Hypothesis apart : pattern + Z.of_nat (length re) < buf \/ buf + 1024 <= pattern.

(** The lines grep selects. *)
Definition selected (ls : list (list Z)) : list Z := concat (nl <$> filter (line_matches re) ls).
Lemma selected_cons l ls : selected (l :: ls) = (if bool_decide (line_matches re l) then nl l else []) ++ selected ls.
Proof. unfold selected. rewrite filter_cons. case_decide; by rewrite ?bool_decide_eq_true_2, ?bool_decide_eq_false_2 by done. Qed.
Lemma selected_app l1 l2 : selected (l1 ++ l2) = selected l1 ++ selected l2.
Proof. unfold selected. by rewrite filter_app, fmap_app, concat_app. Qed.

(** Memories that agree outside the buffer. *)
Definition same_outside (m m' : mem) : Prop := forall a, ~ (buf <= a < buf + 1024) -> load8 m' a = load8 m a.
Lemma pattern_kept m m' : same_outside m m' -> str_at m pattern re -> str_at m' pattern re.
Proof. intros Hs. apply str_at_ext. intros i Hi. apply Hs. lia. Qed.

(** The match of one line, of which [q] is the newline: it is written if it
    matches, and the text after it is untouched. *)
Lemma grep_line p l t m w : mem_ok m -> str_at m p (nl l ++ t) -> plain l -> str_at m pattern re ->
  buf <= p -> p + Z.of_nat (length (nl l ++ t)) < buf + 1024 ->
  let q := p + Z.of_nat (length l) in
  exists m' w', (forall next : U W Z,
      (uset (store8 m q 0);; m ← umem; b ← ulift (match_ fuel m pattern p);
       uwhen b (uset (store8 m q 10);; write 1 p (q + 1 - p);; mret tt);; next) m w = next m' w') /\
    mem_ok m' /\ same_outside m m' /\ str_at m' (q + 1) t /\
    written 1 w' = written 1 w ++ (if bool_decide (line_matches re l) then nl l else []) /\
    forall fd', unread fd' w' = unread fd' w.
Proof.
  intros Hm Hs Hp Hr Hb Hl q. unfold nl in Hl. rewrite !length_app in Hl. simpl length in Hl.
  set (m1 := store8 m q 0).
  assert (forall v a, a <> q -> load8 (store8 m q v) a = load8 m a) as Hne by (intros; by apply load8_store8_ne).
  assert (str_at m pattern re -> forall v, str_at (store8 m q v) pattern re) as Hpat.
  { intros Hpm v. apply (pattern_kept m); [|done]. intros a Ha. apply Hne. unfold q. lia. }
  apply str_holds in Hs as (Hh & Hnz & Hz). unfold nl in *. rewrite <- app_assoc in *. apply holds_app in Hh as [Hh1 Hh2].
  fold q in Hh2. apply holds_app in Hh2 as [Hh2 Hh3]. simpl length in Hh3. change (Z.of_nat 1) with 1 in Hh3.
  assert (forall v, str_at (store8 m q v) (q + 1) t) as Htail.
  { intros v. apply str_holds. split; [|split].
    - eapply holds_ext; [|done]. intros i Hi. apply Hne. lia.
    - rewrite !Forall_app in Hnz. tauto.
    - rewrite Hne by lia. rewrite !length_app in Hz. simpl length in Hz. rewrite <- Hz. f_equal. unfold q. lia. }
  assert (str_at m1 p l) as Hline.
  { apply str_holds. split; [|split; [by apply plain_nz|]].
    - eapply holds_ext; [|done]. intros i Hi. apply Hne. unfold q. lia.
    - fold q. unfold m1. by rewrite load8_store8, Z.eqb_refl. }
  pose proof (match_spec m1 pattern p re l fuel (Hpat Hr 0) Hline ltac:(lia)) as Em.
  set (b := bool_decide (line_matches re l)) in *.
  assert (forall v, same_outside m (store8 m q v)) as Hout by (intros v a Ha; apply Hne; unfold q; lia).
  destruct b.
  - destruct (write_ok 1 p (q + 1 - p) (store8 m1 q 10) w) as (w' & Ew & Hw & _ & Hu).
    exists (store8 m1 q 10), w'.
    split; [intros next; cbv [uset umem mbind U_bind]; fold m1; rewrite Em; simpl; unfold U_bind; by rewrite Ew|].
    assert (mem_eqv (store8 m1 q 10) (store8 m q 10)) as Heq.
    { intros a. unfold m1. rewrite !load8_store8. by destruct (q =? a). }
    split; [unfold m1; auto with xv6|]. split; [intros a Ha; rewrite Heq; by apply Hout|].
    split; [eapply str_at_ext; [|apply (Htail 10)]; intros; apply Heq|]. split; [|done]. rewrite Hw. f_equal.
    replace (Z.to_nat (q + 1 - p)) with (length (l ++ [10])) by (rewrite length_app; simpl length; unfold q; lia).
    apply holds_bytes. apply holds_app. split; [eapply holds_ext; [|done]; intros i Hi; rewrite Heq; apply Hne; unfold q; lia|].
    intros [|i] x [= <-]. rewrite Z.add_0_r. fold q. by rewrite load8_store8, Z.eqb_refl.
  - exists m1, w. rewrite app_nil_r.
    split; [intros next; cbv [uset umem mbind U_bind]; fold m1; by rewrite Em|]. split; [unfold m1; auto with xv6|]. split; [apply Hout|]. split; [apply Htail|done].
Qed.

Lemma grep_lines_spec k : forall t p m w u ls rest,
  t ++ u = concat (nl <$> ls) ++ rest -> Forall plain ls -> plain rest -> mem_ok m ->
  str_at m p t -> str_at m pattern re -> buf <= p -> p + Z.of_nat (length t) < buf + 1024 -> (length t < k)%nat ->
  exists ls1 ls2 t' m' w', ls = ls1 ++ ls2 /\ t = concat (nl <$> ls1) ++ t' /\ plain t' /\
    t' ++ u = concat (nl <$> ls2) ++ rest /\
    grep_lines fuel k pattern p m w = URet (p + Z.of_nat (length t) - Z.of_nat (length t')) m' w' /\
    mem_ok m' /\ same_outside m m' /\ holds m' (p + Z.of_nat (length t) - Z.of_nat (length t')) t' /\
    written 1 w' = written 1 w ++ selected ls1 /\ forall fd', unread fd' w' = unread fd' w.
Proof.
  induction k as [|k IH]; intros t p m w u ls rest E Hls Hrest Hm Hs Hr Hb Hl Hk; [lia|]. cbn [grep_lines].
  rewrite (ubind_ret umem _ m w m m w eq_refl).
  destruct (lines_prefix t u ls rest E Hls Hrest) as [Hp|(l & ls' & t1 & -> & -> & E')].
  - rewrite (strchr_none m 10 t) by (done || by apply plain_no10 || lia).
    rewrite (ubind_ret (ulift (Some None)) _ m w None m w eq_refl). exists [], ls, t, m, w.
    replace (p + Z.of_nat (length t) - Z.of_nat (length t)) with p by lia. 
    apply str_holds in Hs as [Hh _].
    split; [done|]. split; [done|]. split; [done|]. split; [done|]. split; [done|]. split; [done|]. split; [by intros a _|].
    split; [done|]. by rewrite app_nil_r.
  - inversion Hls as [|? ? Hpl Hls']; subst.
    assert (forall x, length (nl l ++ x) = S (length l + length x)) as Hlen by (intros x; unfold nl; rewrite !length_app; simpl length; lia).
    rewrite Hlen in Hl, Hk.
    rewrite (strchr_found m 10 l t1); [|done|by rewrite cons_middle, app_assoc|by apply plain_no10|lia].
    rewrite (ubind_ret (ulift (Some (Some _))) _ m w _ m w eq_refl).
    destruct (grep_line p l t1 m w Hm Hs Hpl Hr Hb ltac:(rewrite Hlen; lia)) as (m1 & w1 & E1 & Hm1 & Ho1 & Hs1 & Hw1 & Hu1).
    set (q := p + Z.of_nat (length l)) in *.
    destruct (IH t1 (q + 1) m1 w1 u ls' rest E' Hls' Hrest Hm1 Hs1 (pattern_kept _ _ Ho1 Hr) ltac:(lia) ltac:(lia) ltac:(lia))
      as (ls1 & ls2 & t' & m' & w' & -> & -> & Hp' & E2 & E3 & Hm' & Ho' & Hh' & Hw' & Hu').
    exists (l :: ls1), ls2, t', m', w'. split; [done|]. split; [simpl; by rewrite app_assoc|]. split; [done|]. split; [done|].
    replace (p + Z.of_nat (length (nl l ++ concat (nl <$> ls1) ++ t')) - Z.of_nat (length t'))
      with (q + 1 + Z.of_nat (length (concat (nl <$> ls1) ++ t')) - Z.of_nat (length t')) by (rewrite Hlen; lia).
    split; [|split; [done|]].
    + rewrite <- E3. apply E1.
    + split; [intros a Ha; rewrite Ho', Ho1 by done; done|]. split; [done|]. split; [|congruence].
      by rewrite Hw', Hw1, selected_cons, <- app_assoc.
Qed.
Lemma lines_nz ls rest : Forall plain ls -> plain rest -> Forall (fun x => x <> 0) (concat (nl <$> ls) ++ rest).
Proof.
  intros Hl Hr. apply Forall_app. split; [|by apply plain_nz]. induction Hl as [|l ls Hp _ IH]; [constructor|].
  simpl. unfold nl. rewrite !Forall_app. split; [split; [by apply plain_nz|by repeat constructor]|done].
Qed.
(** Text without a newline is at most the first line. *)
Lemma plain_short cur u l ls rest : plain cur -> cur ++ u = concat (nl <$> l :: ls) ++ rest -> (length cur <= length l)%nat.
Proof.
  intros Hp E. destruct (Nat.le_gt_cases (length cur) (length l)) as [?|Hlt]; [done|].
  assert (cur !! length l = Some 10) as Hx.
  { rewrite <- (lookup_app_l cur u) by done. rewrite E. simpl. unfold nl. rewrite <- !app_assoc.
    rewrite lookup_app_r by lia. by rewrite Nat.sub_diag. }
  apply list_elem_of_lookup_2 in Hx. by apply plain_no10 in Hp.
Qed.

Lemma grep_loop_spec k : forall cur m w ls rest,
  mem_ok m -> holds m buf cur -> plain cur -> str_at m pattern re -> (length cur <= 1023)%nat ->
  cur ++ unread fd w = concat (nl <$> ls) ++ rest -> Forall plain ls -> plain rest ->
  Forall (fun l => length l <= 1022)%nat ls -> (length (unread fd w) < k)%nat ->
  exists m' w', grep_loop buf fuel k pattern fd (Z.of_nat (length cur)) m w = URet tt m' w' /\
    written 1 w' = written 1 w ++ selected ls.
Proof.
  induction k as [|k IH]; intros cur m w ls rest Hm Hh Hp Hr Hc E Hls Hrest Hlen Hk; [lia|]. cbn [grep_loop].
  destruct (read_ok fd (buf + Z.of_nat (length cur)) (BUFSIZE - Z.of_nat (length cur) - 1) m w ltac:(unfold BUFSIZE; lia))
    as (bs & w1 & Er & Hn & Hu & He & Hw1).
  ustep Er. unfold BUFSIZE in Hn, He. destruct bs as [|b bs'].
  { simpl. exists m, w1. split; [done|]. rewrite Hw1. destruct ls as [|l ls]; [by rewrite app_nil_r|]. exfalso.
    pose proof (plain_short _ _ _ _ _ Hp E). inversion Hlen; subst. destruct (He eq_refl) as [Hz|Hz]; [lia|].
    rewrite Hz, app_nil_r in E. rewrite E in Hp. unfold plain, nl in Hp. simpl in Hp. rewrite !Forall_app in Hp.
    destruct Hp as [[[_ Hp] _] _]. inversion Hp; tauto. }
  set (bs := b :: bs') in *. rewrite (proj2 (Z.ltb_lt 0 (Z.of_nat (length bs)))) by (simpl; lia).
  set (m1 := store_bytes m (buf + Z.of_nat (length cur)) bs). rewrite (ubind_ret umem _ m1 w1 m1 m1 w1 eq_refl).
  set (m2 := store8 m1 _ 0). rewrite (ubind_ret (uset m2) _ m1 w1 tt m2 w1 eq_refl).
  assert (Z.of_nat (length cur) + Z.of_nat (length bs) = Z.of_nat (length (cur ++ bs))) as El by (rewrite length_app; lia).
  rewrite El. rewrite Hu, app_assoc in E.
  assert (Forall (fun x => x <> 0) (cur ++ bs)) as Hnz.
  { pose proof (lines_nz ls rest Hls Hrest) as Hz. rewrite <- E in Hz. by apply Forall_app in Hz as [? _]. }
  assert (Forall is_byte bs) as Hby by (pose proof (unread_bytes fd w) as Hz; rewrite Hu in Hz; by apply Forall_app in Hz as [? _]).
  assert (str_at m2 buf (cur ++ bs)) as Hs2.
  { apply str_holds. split; [|split; [done|]].
    - apply holds_app. split; (eapply holds_ext; [intros i Hi; unfold m2; rewrite load8_store8_ne by lia; reflexivity|]).
      + eapply holds_ext; [|done]. intros i Hi. apply load8_store_bytes_out. lia.
      + by apply holds_store.
    - unfold m2. by rewrite El, load8_store8, Z.eqb_refl. }
  assert (same_outside m m2) as Ho2.
  { intros a Ha. unfold m2, m1. rewrite load8_store8_ne by lia. apply load8_store_bytes_out. lia. }
  destruct (grep_lines_spec fuel (cur ++ bs) buf m2 w1 (unread fd w1) ls rest E Hls Hrest) as
    (ls1 & ls2 & t' & m3 & w2 & -> & Et & Hp' & E' & Eg & Hm3 & Ho3 & Hh3 & Hw2 & Hu2);
    [unfold m2, m1; auto with xv6|done|by apply (pattern_kept _ _ Ho2)|lia|lia|lia|].
  ustep Eg. rewrite (proj2 (Z.ltb_lt 0 (Z.of_nat (length (cur ++ bs))))) by (simpl in *; lia).
  rewrite (ubind_ret (umem ≫= _) _ m3 w2 tt _ w2 eq_refl).
  set (p := buf + Z.of_nat (length (cur ++ bs)) - Z.of_nat (length t')) in *.
  replace (Z.of_nat (length (cur ++ bs)) - (p - buf)) with (Z.of_nat (length t')) by (unfold p; lia).
  assert (length (cur ++ bs) = length (concat (nl <$> ls1)) + length t')%nat as Elt by (by rewrite <- length_app, <- Et).
  assert (same_outside m3 (memmove m3 buf p (Z.of_nat (length t')))) as Ho4.
  { intros a Ha. rewrite load8_memmove_left by (done || unfold p; lia). rewrite bool_decide_eq_false_2 by lia. done. }
  apply Forall_app in Hls as [_ Hls2]. apply Forall_app in Hlen as [_ Hlen2].
  destruct (IH t' (memmove m3 buf p (Z.of_nat (length t'))) w2 ls2 rest) as (m' & w' & Ef & Hw');
    [by apply mem_ok_umemmove| |done| |lia|by rewrite Hu2|done|done|done| |].
  - intros i x Hx. pose proof (lookup_lt_Some _ _ _ Hx). rewrite load8_memmove_left by (done || unfold p; lia).
    rewrite bool_decide_eq_true_2 by lia. rewrite <- (Hh3 i x Hx). f_equal. lia.
  - apply (pattern_kept _ _ Ho4), (pattern_kept _ _ Ho3), (pattern_kept _ _ Ho2), Hr.
  - rewrite Hu2. rewrite Hu, length_app in Hk. simpl in Hk. lia.
  - exists m', w'. split; [done|]. by rewrite Hw', Hw2, Hw1, selected_app, app_assoc.
Qed.
End Run.

(** ** Properties *)

(** C32: grep prints the lines that match.  For an input of lines without NUL
    bytes that fit in the buffer with their newlines, and whatever pieces the
    reads deliver it in, grep returns having written to standard output exactly
    the complete lines that match the pattern, in order; characters after the
    last newline are not a line. *)
Theorem grep_prints_matching_lines {W} `{Streams W} buf pattern fd re ls rest fuel m w :
  mem_ok m -> str_at m pattern re ->
  (pattern + Z.of_nat (length re) < buf \/ buf + BUFSIZE <= pattern) ->
  unread fd w = concat (nl <$> ls) ++ rest ->
  Forall (fun l => plain l /\ Z.of_nat (length l) + 2 <= BUFSIZE) ls -> plain rest ->
  (2 * length re + 1024 + length (unread fd w) < fuel)%nat ->
  exists m' w', grep buf fuel pattern fd m w = URet tt m' w' /\
    written 1 w' = written 1 w ++ concat (nl <$> filter (line_matches re) ls).
Proof.
  intros Hm Hs Hd Hu Hls Hr Hf. apply Forall_and in Hls as [Hp Hl].
  apply (grep_loop_spec buf pattern fd fuel re ltac:(lia) Hd fuel [] m w ls rest); try done.
  - constructor.
  - simpl. lia.
  - eapply Forall_impl; [exact Hl|]. unfold BUFSIZE. simpl. lia.
  - lia.
Qed.

(** Two lines and a half, read five bytes at a time, searched for "b$". *)
Definition demo_lines : list (list Z) := [chars "xyz"; chars "ab"].
Definition demo_tape : tape := Tape 4 (fun _ => concat (nl <$> demo_lines) ++ chars "b") [].

Lemma grep_prints_matching_lines_witness :
  exists m' w', grep 4096 2000 0 0 (store_bytes ∅ 0 (chars "b$")) demo_tape = URet tt m' w' /\
    written 1 w' = written 1 demo_tape ++ concat (nl <$> filter (line_matches (chars "b$")) demo_lines).
Proof.
  apply (grep_prints_matching_lines 4096 0 0 (chars "b$") demo_lines (chars "b") 2000).
  - auto with xv6.
  - repeat (split; [reflexivity || (intro; discriminate)|]). reflexivity.
  - left. reflexivity.
  - reflexivity.
  - repeat constructor; intro; discriminate.
  - repeat constructor; intro; discriminate.
  - vm_compute. lia.
Defined.
