(* ===== verification/Sh.v ===== *)
(** * The shell (user/sh.c)

    A command line is parsed into a tree of commands whose strings are pointers
    into the line; nulterminate then ends every string in place, and runcmd
    walks the tree in forked processes.  The nodes malloc returns are values of
    an inductive type: the parser only ever adds arguments to the execcmd it
    has just created, through the redirections it wrapped around it.  A malloc
    that fails is not modelled. *)
From stdpp Require Import base numbers list gmap strings.
From Stdlib Require Import Ascii.
From S2P Require Import Prelude Str User Ulib.

Definition MAXARGS : nat := 10.
Definition O_WRONLY : Z := 0x001.
Definition O_RDWR : Z := 0x002.
Definition O_CREATE : Z := 0x200.
Definition O_TRUNC : Z := 0x400.

(** struct cmd and its five variants; an argument is the pair argv[i], eargv[i]. *)
Inductive cmd :=
  | execcmd (argv : list (Z * Z))
  | redircmd (c : cmd) (file efile mode fd : Z)
  | pipecmd (left right : cmd)
  | listcmd (left right : cmd)
  | backcmd (c : cmd).

Definition whitespace : list Z := [32; 9; 13; 10; 11].     (* " \t\r\n\v" *)
Definition symbols : list Z := chars "<|>&;()".

(** ** Parsing

    The parser returns a value and the new *ps, or panics. *)
Inductive pres (A : Type) := POk (a : A) | PPanic (msg : string) | PFuel.
Arguments POk {A} _.
Arguments PPanic {A} _.
Arguments PFuel {A}.
#[global] Instance pres_ret : MRet pres := @POk.
#[global] Instance pres_bind : MBind pres := fun A B k p =>
  match p with POk a => k a | PPanic msg => PPanic msg | PFuel => PFuel end.

Section Parse.
Variable m : mem.

(** while(s < es && strchr(whitespace, *s)) s++, with [n] = es - s. *)
Fixpoint skip_ws (n : nat) (s : Z) : Z :=
  match n with
  | O => s
  | S n => if strchr_lit whitespace (load8 m s) then skip_ws n (s + 1) else s
  end.
(** while(s < es && !strchr(whitespace, *s) && !strchr(symbols, *s)) s++ *)
Fixpoint skip_word (n : nat) (s : Z) : Z :=
  match n with
  | O => s
  | S n =>
      if negb (strchr_lit whitespace (load8 m s)) && negb (strchr_lit symbols (load8 m s))
      then skip_word n (s + 1) else s
  end.
Definition left_to (s es : Z) : nat := Z.to_nat (es - s).

(** gettoken: the token, its bounds *q and *eq, and the new *ps. *)
Definition gettoken (ps es : Z) : Z * Z * Z * Z :=
  let s := skip_ws (left_to ps es) ps in
  let q := s in
  let c := load8 m s in
  let '(ret, s) :=
    if c =? 0 then (c, s)
    else if (c =? chr "|") || (c =? chr "(") || (c =? chr ")") || (c =? chr ";") || (c =? chr "&") || (c =? chr "<")
    then (c, s + 1)
    else if c =? chr ">" then
      if load8 m (s + 1) =? chr ">" then (chr "+", s + 2) else (c, s + 1)
    else (chr "a", skip_word (left_to s es) s) in
  (ret, q, s, skip_ws (left_to s es) s).

(** peek: whether the next token starts with a character of [toks], and the new
    *ps. *)
Definition peek (ps es : Z) (toks : list Z) : bool * Z :=
  let s := skip_ws (left_to ps es) ps in
  (z2b (load8 m s) && strchr_lit toks (load8 m s), s).

(** while(peek(ps, es, "<>")) *)
Fixpoint parseredirs (k : nat) (c : cmd) (ps es : Z) : pres (cmd * Z) :=
  match k with
  | O => PFuel
  | S k =>
      let '(b, s) := peek ps es (chars "<>") in
      if b then
        let '(tok, _, _, s) := gettoken s es in
        let '(t, q, eq, s) := gettoken s es in
        if negb (t =? chr "a") then PPanic "missing file for redirection"
        else
          let c :=
            if tok =? chr "<" then redircmd c q eq O_RDONLY 0
            else if tok =? chr ">" then redircmd c q eq (Z.lor (Z.lor O_WRONLY O_CREATE) O_TRUNC) 1
            else if tok =? chr "+" then redircmd c q eq (Z.lor O_WRONLY O_CREATE) 1
            else c in
          parseredirs k c s es
      else POk (c, s)
  end.

(** cmd->argv[argc] = q; cmd->eargv[argc] = eq, where cmd is the execcmd under
    the redirections of [ret]. *)
Fixpoint add_arg (ret : cmd) (q eq : Z) : cmd :=
  match ret with
  | execcmd argv => execcmd (argv ++ [(q, eq)])
  | redircmd c file efile mode fd => redircmd (add_arg c q eq) file efile mode fd
  | c => c
  end.

(** while(!peek(ps, es, "|)&;")) of parseexec *)
Fixpoint parseargs (k : nat) (ret : cmd) (argc : nat) (ps es : Z) : pres (cmd * Z) :=
  match k with
  | O => PFuel
  | S k =>
      let '(b, s) := peek ps es (chars "|)&;") in
      if b then POk (ret, s)
      else
        let '(tok, q, eq, s) := gettoken s es in
        if tok =? 0 then POk (ret, s)
        else if negb (tok =? chr "a") then PPanic "syntax"
        else if (MAXARGS <=? argc + 1)%nat then PPanic "too many args"
        else
          '(ret, s) ← parseredirs k (add_arg ret q eq) s es;
          parseargs k ret (argc + 1) s es
  end.

(** while(peek(ps, es, "&")) of parseline *)
Fixpoint parseback (k : nat) (c : cmd) (ps es : Z) : pres (cmd * Z) :=
  match k with
  | O => PFuel
  | S k =>
      let '(b, s) := peek ps es (chars "&") in
      if b then let '(_, _, _, s) := gettoken s es in parseback k (backcmd c) s es
      else POk (c, s)
  end.

Fixpoint parseline (fuel : nat) (ps es : Z) : pres (cmd * Z) :=
  match fuel with
  | O => PFuel
  | S fuel =>
      '(c, s) ← parsepipe fuel ps es;
      '(c, s) ← parseback fuel c s es;
      let '(b, s) := peek s es (chars ";") in
      if b then
        let '(_, _, _, s) := gettoken s es in
        '(c', s) ← parseline fuel s es;
        POk (listcmd c c', s)
      else POk (c, s)
  end
with parsepipe (fuel : nat) (ps es : Z) : pres (cmd * Z) :=
  match fuel with
  | O => PFuel
  | S fuel =>
      '(c, s) ← parseexec fuel ps es;
      let '(b, s) := peek s es (chars "|") in
      if b then
        let '(_, _, _, s) := gettoken s es in
        '(c', s) ← parsepipe fuel s es;
        POk (pipecmd c c', s)
      else POk (c, s)
  end
with parseexec (fuel : nat) (ps es : Z) : pres (cmd * Z) :=
  match fuel with
  | O => PFuel
  | S fuel =>
      let '(b, s) := peek ps es (chars "(") in
      if b then parseblock fuel s es
      else
        '(ret, s) ← parseredirs fuel (execcmd []) s es;
        parseargs fuel ret 0 s es
  end
with parseblock (fuel : nat) (ps es : Z) : pres (cmd * Z) :=
  match fuel with
  | O => PFuel
  | S fuel =>
      let '(b, s) := peek ps es (chars "(") in
      if negb b then PPanic "parseblock"
      else
        let '(_, _, _, s) := gettoken s es in
        '(c, s) ← parseline fuel s es;
        let '(b, s) := peek s es (chars ")") in
        if negb b then PPanic "syntax - missing )"
        else
          let '(_, _, _, s) := gettoken s es in
          parseredirs fuel c s es
  end.
End Parse.

(** NUL-terminate all the counted strings. *)
Fixpoint nulterminate (c : cmd) (m : mem) : mem :=
  match c with
  | execcmd argv => foldl (fun m a => store8 m (snd a) 0) m argv
  | redircmd c file efile mode fd => store8 (nulterminate c m) efile 0
  | pipecmd l r | listcmd l r => nulterminate r (nulterminate l m)
  | backcmd c => nulterminate c m
  end.

(** ** Running *)

(** The kernel takes arguments of up to a page. *)
Definition ARGSIZE : nat := 4096.

Section Run.
Context {W : Type} `{Os W}.
Variable fuel : nat.

Definition panic {A} (s : list Z) : U W A := fprintf fuel 2 (chars "%s" ++ [10]) [ALit s];; exit 1.

Definition fork1 : U W Z :=
  pid ← ucall Fork;
  if pid =? -1 then panic (chars "fork") else mret pid.

(** parsecmd; the bound of the parser grows with the length of the line. *)
Definition parse_fuel (n : Z) : nat := Z.to_nat (4 * n + 6).
Definition parsecmd (s : Z) : U W cmd :=
  m ← umem; n ← ulift (strlen fuel m s);
  let es := s + n in
  match parseline m (parse_fuel n) s es with
  | PFuel => ufuel
  | PPanic msg => panic (chars msg)
  | POk (c, s) =>
      let '(_, s) := peek m s es [] in
      if negb (s =? es) then
        fprintf fuel 2 (chars "leftovers: %s" ++ [10]) [APtr s];;
        panic (chars "syntax")
      else uset (nulterminate c m);; mret c
  end.

(** runcmd never returns. *)
Fixpoint runcmd (c : cmd) : U W unit :=
  match c with
  | execcmd argv =>
      match argv with
      | [] => exit 1
      | (a, _) :: _ =>
          m ← umem;
          exec (path_at m a) ((fun x => cstr ARGSIZE m (fst x)) <$> argv);;
          fprintf fuel 2 (chars "exec %s failed" ++ [10]) [APtr a];;
          exit 0
      end
  | redircmd c file efile mode fd =>
      close fd;;
      r ← open file mode;
      if r <? 0 then fprintf fuel 2 (chars "open %s failed" ++ [10]) [APtr file];; exit 1
      else runcmd c;; exit 0
  | listcmd l r =>
      pid ← fork1;
      (if pid =? 0 then runcmd l else mret tt);;
      ucall Wait;;
      runcmd r;;
      exit 0
  | pipecmd l r =>
      '(res, bs) ← ucall_bytes Pipe;
      if res <? 0 then panic (chars "pipe")
      else
        let p0 := i32 (get_le 4 0 bs) in
        let p1 := i32 (get_le 4 4 bs) in
        pid ← fork1;
        (if pid =? 0 then
           close 1;; ucall (Dup p1);; close p0;; close p1;; runcmd l
         else mret tt);;
        pid ← fork1;
        (if pid =? 0 then
           close 0;; ucall (Dup p0);; close p0;; close p1;; runcmd r
         else mret tt);;
        close p0;; close p1;; ucall Wait;; ucall Wait;;
        exit 0
  | backcmd c =>
      pid ← fork1;
      (if pid =? 0 then runcmd c else mret tt);;
      exit 0
  end.

Definition getcmd (buf nbuf : Z) : U W Z :=
  write_lit 2 (chars "$ ");;
  m ← umem; uset (memset m buf 0 nbuf);;
  gets buf nbuf;;
  m ← umem;
  mret (if load8 m buf =? 0 then -1 else 0).

(** while((fd = open("console", O_RDWR)) >= 0) *)
Fixpoint open_console (k : nat) : U W unit :=
  match k with
  | O => ufuel
  | S k =>
      fd ← ucall (Open (chars "console") O_RDWR);
      if 0 <=? fd then (if 3 <=? fd then close fd;; mret tt else open_console k) else mret tt
  end.

(** while( *cmd == ' ' || *cmd == '\t') cmd++ *)
Fixpoint skip_blanks (k : nat) (m : mem) (p : Z) : option Z :=
  match k with
  | O => None
  | S k => if (load8 m p =? chr " ") || (load8 m p =? 9) then skip_blanks k m (p + 1) else Some p
  end.

(** The loop of main, with [buf] the address of its static buffer. *)
Fixpoint main_loop (k : nat) (buf : Z) : U W unit :=
  match k with
  | O => ufuel
  | S k =>
      r ← getcmd buf 100;
      if r <? 0 then exit 0
      else
        m ← umem; cmd ← ulift (skip_blanks fuel m buf);
        if load8 m cmd =? 10 then main_loop k buf
        else if (load8 m cmd =? chr "c") && (load8 m (cmd + 1) =? chr "d") && (load8 m (cmd + 2) =? chr " ") then
          n ← ulift (strlen fuel m cmd);
          let m := store8 m (cmd + n - 1) 0 in
          uset m;;
          r ← ucall (Chdir (path_at m (cmd + 3)));
          (if r <? 0 then fprintf fuel 2 (chars "cannot cd %s" ++ [10]) [APtr (cmd + 3)] else mret tt);;
          main_loop k buf
        else
          pid ← fork1;
          (if pid =? 0 then c ← parsecmd cmd; runcmd c else mret tt);;
          ucall Wait;;
          main_loop k buf
  end.
Definition sh_main (buf : Z) : U W unit := open_console fuel;; main_loop fuel buf.
End Run.
