(* ===== verification/ShParse.v ===== *)
(** * The shell's parser (theorem on Sh.v)

    Every command tree can be written as a line of text and parsed back: the
    parser returns the tree, and after nulterminate its strings are the words
    of the tree. *)
From stdpp Require Import base numbers list gmap strings.
From Stdlib Require Import Ascii.
From S2P Require Import Prelude Str User Ulib Sh.

(** ** Command trees and their text *)

Inductive rkind := RIn | ROut | RApp.
Inductive tree :=
  | TExec (ws : list (list Z))
  | TRedir (t : tree) (k : rkind) (f : list Z)
  | TPipe (a b : tree)
  | TList (a b : tree)
  | TBack (a : tree).

Definition rmode (k : rkind) : Z :=
  match k with
  | RIn => O_RDONLY
  | ROut => Z.lor (Z.lor O_WRONLY O_CREATE) O_TRUNC
  | RApp => Z.lor O_WRONLY O_CREATE
  end.
Definition rfd (k : rkind) : Z := match k with RIn => 0 | _ => 1 end.

Definition isws (c : Z) : bool := strchr_lit whitespace c.
Definition issym (c : Z) : bool := strchr_lit symbols c.
Definition wordchar (c : Z) : Prop := c <> 0 /\ isws c = false /\ issym c = false.
Definition wf_word (w : list Z) : Prop := w <> [] /\ Forall wordchar w.

(** Words of characters that are neither blank nor operators, and at most
    MAXARGS - 1 arguments to a command. *)
Fixpoint wf_tree (t : tree) : Prop :=
  match t with
  | TExec ws => Forall wf_word ws /\ (length ws < MAXARGS)%nat
  | TRedir t _ f => wf_tree t /\ wf_word f
  | TPipe a b | TList a b => wf_tree a /\ wf_tree b
  | TBack a => wf_tree a
  end.

Definition sp (w : list Z) : list Z := chr " " :: w.
Definition rsym (k : rkind) : list Z := match k with RIn => chars "<" | ROut => chars ">" | RApp => chars ">>" end.
Definition pr_redir (r : rkind * list Z) : list Z := sp (rsym (fst r)) ++ sp (snd r).
Definition paren (b : bool) (x : list Z) : list Z := if b then chr "(" :: x ++ chars ")" else x.

(** The text of a tree where a line (0), a line without ';' (1), a pipeline (2)
    or a single command (3) is expected; the rest is parenthesised. *)
Fixpoint pr (l : nat) (t : tree) : list Z :=
  match t with
  | TExec ws => concat (sp <$> ws)
  | TRedir t k f => pr 3 t ++ pr_redir (k, f)
  | TPipe a b => paren (2 <? l)%nat (pr 3 a ++ chr "|" :: pr 2 b)
  | TBack a => paren (1 <? l)%nat (pr 1 a ++ chars "&")
  | TList a b => paren (0 <? l)%nat (pr 1 a ++ chr ";" :: pr 0 b)
  end.

(** [tree_at m c t]: the command [c] in memory [m] is the tree [t], with every
    string NUL-terminated. *)
Fixpoint tree_at (m : mem) (c : cmd) (t : tree) : Prop :=
  match c, t with
  | execcmd argv, TExec ws => Forall2 (fun a w => str_at m (fst a) w) argv ws
  | redircmd c file _ mode fd, TRedir t k f => tree_at m c t /\ str_at m file f /\ mode = rmode k /\ fd = rfd k
  | pipecmd l r, TPipe a b | listcmd l r, TList a b => tree_at m l a /\ tree_at m r b
  | backcmd c, TBack t => tree_at m c t
  | _, _ => False
  end.

Fixpoint trim (l : list Z) : list Z :=
  match l with
  | [] => []
  | c :: r => if isws c then trim r else l
  end.
Lemma trim_trim l : trim (trim l) = trim l.
Proof. induction l as [|c l IH]; [done|]. simpl. destruct (isws c) eqn:E; [done|]. simpl. by rewrite E. Qed.
Lemma trim_head l c r : trim l = c :: r -> isws c = false.
Proof. induction l as [|d l IH]; [done|]. simpl. destruct (isws d) eqn:E; [done|]. by intros [= <- <-]. Qed.
Lemma trim_suffix l : trim l `suffix_of` l.
Proof. induction l as [|c l IH]; simpl; [done|]. destruct (isws c); [|done]. by apply suffix_cons_r. Qed.
Lemma trim_cons c l : isws c = false -> trim (c :: l) = c :: l.
Proof. intros E. simpl. by rewrite E. Qed.
Lemma trim_sp w l : trim (sp w ++ l) = trim (w ++ l).
Proof. done. Qed.
Lemma trim_word w l : wf_word w -> trim (w ++ l) = w ++ l.
Proof. intros [Hne HF]. destruct w as [|c w]; [done|]. inversion HF as [|? ? (_ & E & _)]; subst. by apply trim_cons. Qed.

(** The text [k] does not continue a word. *)
Definition brk (k : list Z) : Prop := match k with [] => True | c :: _ => ~ wordchar c end.

(** The addresses nulterminate writes to. *)
Fixpoint ends (c : cmd) : list Z :=
  match c with
  | execcmd argv => snd <$> argv
  | redircmd c _ efile _ _ => efile :: ends c
  | pipecmd l r | listcmd l r => ends l ++ ends r
  | backcmd c => ends c
  end.
Lemma foldl_nul argv : forall m1 a, load8 (foldl (fun m (x : Z * Z) => store8 m (snd x) 0) m1 argv) a =
  if bool_decide (a ∈ snd <$> argv) then 0 else load8 m1 a.
Proof.
  induction argv as [|[q e] argv IH]; intros m1 a; [done|]. cbn [foldl]. rewrite IH, load8_store8. simpl.
  destruct (Z.eqb_spec e a) as [->|Hne]; repeat case_bool_decide; set_solver.
Qed.
Lemma nul_spec c : forall m1 a, load8 (nulterminate c m1) a = if bool_decide (a ∈ ends c) then 0 else load8 m1 a.
Proof.
  induction c as [argv|c IH q e mode fd|l IHl r IHr|l IHl r IHr|c IH]; intros m1 a; cbn [nulterminate ends].
  - apply foldl_nul.
  - rewrite load8_store8, IH. destruct (Z.eqb_spec e a) as [->|Hne]; repeat case_bool_decide; set_solver.
  - rewrite IHr, IHl. repeat case_bool_decide; set_solver.
  - rewrite IHr, IHl. repeat case_bool_decide; set_solver.
  - apply IH.
Qed.

(** Decide comparisons of character literals. *)
Ltac lit_eqb :=
  repeat match goal with
    | |- context [chr ?a =? chr ?b] => let v := eval vm_compute in (chr a =? chr b) in change (chr a =? chr b) with v
    | |- context [chr ?a =? 0] => let v := eval vm_compute in (chr a =? 0) in change (chr a =? 0) with v
    end;
  cbn [orb andb negb].

Section Line.
Variables (m : mem) (txt : list Z) (s0 : Z).
Hypothesis whole : str_at m s0 txt.

(** The end of the line, and where a suffix of it starts. *)
Definition es : Z := s0 + Z.of_nat (length txt).
Definition pt (tl : list Z) : Z := es - Z.of_nat (length tl).
Definition here (tl : list Z) : Prop := tl `suffix_of` txt.

Lemma here_app x k : here (x ++ k) -> here k.
Proof. unfold here. intros H. etrans; [|exact H]. by apply suffix_app_r. Qed.
Lemma here_cons c k : here (c :: k) -> here k.
Proof. apply (here_app [c]). Qed.
Lemma here_trim k : here k -> here (trim k).
Proof. unfold here. intros H. etrans; [apply trim_suffix|exact H]. Qed.
Lemma str_here tl : here tl -> str_at m (pt tl) tl.
Proof.
  intros [k E]. pose proof whole as Hw. rewrite E in Hw. apply (str_at_drop m (length k) s0) in Hw; [|rewrite length_app; lia].
  rewrite drop_app_length in Hw. replace (pt tl) with (s0 + Z.of_nat (length k)); [done|].
  unfold pt, es. rewrite E, length_app. lia.
Qed.
Lemma pt_cons c k : pt (c :: k) + 1 = pt k.
Proof. unfold pt. cbn [length]. lia. Qed.
Lemma left_pt tl : left_to (pt tl) es = length tl.
Proof. unfold left_to, pt. lia. Qed.
Lemma here_char c k : here (c :: k) -> load8 m (pt (c :: k)) = c /\ c <> 0.
Proof. intros H%str_here. by destruct H as (H1 & H2 & _). Qed.
Lemma here_nil : here [].
Proof. apply suffix_nil. Qed.
Lemma nil_char : load8 m (pt []) = 0.
Proof. exact (str_here [] here_nil). Qed.

(** ** Tokens *)

Lemma skip_ws_eq tl : here tl -> skip_ws m (length tl) (pt tl) = pt (trim tl).
Proof.
  induction tl as [|c tl IH]; intros H; [done|]. cbn [skip_ws length trim]. rewrite (proj1 (here_char _ _ H)).
  fold (isws c). destruct (isws c); [|done]. rewrite pt_cons. apply IH. by apply (here_cons c).
Qed.
Lemma skip_word_eq w k : Forall wordchar w -> brk k -> here (w ++ k) -> skip_word m (length (w ++ k)) (pt (w ++ k)) = pt k.
Proof.
  intros Hw Hk. induction Hw as [|c w (Hc0 & Hc1 & Hc2) Hw IH]; intros H; cbn [app] in *.
  - destruct k as [|c k]; [done|]. cbn [skip_word length]. destruct (here_char _ _ H) as [-> Hnz].
    fold (isws c) (issym c). unfold brk, wordchar in Hk. destruct (isws c) eqn:E1, (issym c) eqn:E2; simpl; [done..|tauto].
  - cbn [skip_word length]. rewrite (proj1 (here_char _ _ H)). fold (isws c) (issym c). rewrite Hc1, Hc2. simpl.
    rewrite pt_cons. apply IH. by apply (here_cons c).
Qed.

Definition single : list Z := chars "|();&<".
Lemma single_ws c : c ∈ single -> isws c = false.
Proof. intros H. unfold single in H. vm_compute in H. repeat (apply elem_of_cons in H as [->|H]; [reflexivity|]). by apply elem_of_nil in H. Qed.

(** What gettoken does on the text [c :: r] after blanks. *)
Lemma gettoken_single tl c r : here tl -> trim tl = c :: r -> c ∈ single ->
  gettoken m (pt tl) es = (c, pt (c :: r), pt r, pt (trim r)).
Proof.
  intros H E Hc. unfold gettoken. rewrite left_pt, skip_ws_eq, E by done.
  assert (here (c :: r)) as H' by (rewrite <- E; by apply here_trim). destruct (here_char _ _ H') as [-> Hnz].
  rewrite (proj2 (Z.eqb_neq c 0) Hnz).
  assert ((c =? chr "|") || (c =? chr "(") || (c =? chr ")") || (c =? chr ";") || (c =? chr "&") || (c =? chr "<") = true) as ->.
  { unfold single in Hc. vm_compute in Hc. repeat (apply elem_of_cons in Hc as [->|Hc]; [reflexivity|]). by apply elem_of_nil in Hc. }
  rewrite pt_cons, left_pt, skip_ws_eq by (by apply (here_cons c)). done.
Qed.
Lemma gettoken_gt tl r : here tl -> trim tl = chr ">" :: r -> (forall r', r <> chr ">" :: r') ->
  gettoken m (pt tl) es = (chr ">", pt (chr ">" :: r), pt r, pt (trim r)).
Proof.
  intros H E Hr. unfold gettoken. rewrite left_pt, skip_ws_eq, E by done.
  assert (here (chr ">" :: r)) as H' by (rewrite <- E; by apply here_trim). destruct (here_char _ _ H') as [-> _].
  rewrite pt_cons. assert (load8 m (pt r) =? chr ">" = false) as Hn.
  { apply Z.eqb_neq. destruct r as [|d r]; [by rewrite nil_char|]. rewrite (proj1 (here_char _ _ (here_cons _ _ H'))).
    intros ->. by apply (Hr r). }
  lit_eqb. rewrite Hn. rewrite left_pt, skip_ws_eq by (by apply (here_cons (chr ">"))). done.
Qed.
Lemma gettoken_gtgt tl r : here tl -> trim tl = chr ">" :: chr ">" :: r ->
  gettoken m (pt tl) es = (chr "+", pt (chr ">" :: chr ">" :: r), pt r, pt (trim r)).
Proof.
  intros H E. unfold gettoken. rewrite left_pt, skip_ws_eq, E by done.
  assert (here (chr ">" :: chr ">" :: r)) as H' by (rewrite <- E; by apply here_trim). destruct (here_char _ _ H') as [-> _].
  replace (pt (chr ">" :: chr ">" :: r) + 2) with (pt r) by (rewrite <- (pt_cons (chr ">") r), <- (pt_cons (chr ">") (chr ">" :: r)); lia).
  rewrite pt_cons. rewrite (proj1 (here_char _ _ (here_cons _ _ H'))).
  lit_eqb. rewrite left_pt, skip_ws_eq by (by apply (here_cons (chr ">")), (here_cons (chr ">"))). done.
Qed.
Lemma gettoken_word tl w k : here tl -> trim tl = w ++ k -> wf_word w -> brk k ->
  gettoken m (pt tl) es = (chr "a", pt (w ++ k), pt k, pt (trim k)).
Proof.
  intros H E [Hne Hw] Hk. unfold gettoken. rewrite left_pt, skip_ws_eq, E by done.
  assert (here (w ++ k)) as H' by (rewrite <- E; by apply here_trim). rewrite left_pt, (skip_word_eq w k) by done.
  destruct w as [|c w]; [done|]. cbn [app] in *. destruct (here_char _ _ H') as [-> Hnz].
  inversion Hw as [|? ? (Hc0 & Hc1 & Hc2) _]; subst. rewrite (proj2 (Z.eqb_neq c 0) Hnz).
  assert (forall a, issym (chr a) = true -> c =? chr a = false) as Ha.
  { intros a Ht. apply Z.eqb_neq. intros ->. congruence. }
  rewrite !Ha by reflexivity. cbn [orb]. rewrite left_pt, skip_ws_eq by (by apply (here_app (c :: w))). done.
Qed.
Lemma gettoken_end tl : here tl -> trim tl = [] -> gettoken m (pt tl) es = (0, pt [], pt [], pt []).
Proof.
  intros H E. unfold gettoken. rewrite left_pt, skip_ws_eq, E by done. rewrite nil_char. change (0 =? 0) with true. cbv iota beta.
  by rewrite left_pt.
Qed.
Lemma peek_eq tl toks : here tl ->
  peek m (pt tl) es toks = (match trim tl with [] => false | c :: _ => strchr_lit toks c end, pt (trim tl)).
Proof.
  intros H. unfold peek. rewrite left_pt, skip_ws_eq by done. apply here_trim in H. destruct (trim tl) as [|c r].
  - by rewrite nil_char.
  - destruct (here_char _ _ H) as [-> Hnz]. unfold z2b. by rewrite (proj2 (Z.eqb_neq c 0) Hnz).
Qed.
(** ** Commands with counted strings *)

(** The pair of pointers of a string in the line. *)
Definition spans (a : Z * Z) (w : list Z) : Prop :=
  exists k, here (w ++ k) /\ brk k /\ a = (pt (w ++ k), pt k).

Fixpoint rep (c : cmd) (t : tree) : Prop :=
  match c, t with
  | execcmd argv, TExec ws => Forall2 spans argv ws /\ Forall wf_word ws
  | redircmd c file efile mode fd, TRedir t k f => rep c t /\ spans (file, efile) f /\ wf_word f /\ mode = rmode k /\ fd = rfd k
  | pipecmd l r, TPipe a b | listcmd l r, TList a b => rep l a /\ rep r b
  | backcmd c, TBack t => rep c t
  | _, _ => False
  end.

Definition redirs (rs : list (rkind * list Z)) : list Z := concat (pr_redir <$> rs).
Definition wrap (t : tree) (rs : list (rkind * list Z)) : tree := foldl (fun t r => TRedir t (fst r) (snd r)) t rs.
Definition wf_redirs (rs : list (rkind * list Z)) : Prop := Forall (fun r => wf_word (snd r)) rs.

(** The next token of [k] starts with a character of [set], or there is none. *)
Definition follow (set k : list Z) : Prop := match trim k with [] => True | c :: _ => c ∈ set end.
Definition stop3 : list Z := chars "|)&;".
Definition stop2 : list Z := chars ")&;".
Definition stop0 : list Z := chars ")".

Lemma follow_mono set set' k : set ⊆ set' -> follow set k -> follow set' k.
Proof. unfold follow. destruct (trim k); [done|]. auto. Qed.
Lemma stop3_sym c : c ∈ stop3 -> isws c = false /\ issym c = true /\ c ∈ single.
Proof.
  intros H. unfold stop3 in H. vm_compute in H.
  repeat (apply elem_of_cons in H as [->|H]; [split; [reflexivity|split; [reflexivity|unfold single; vm_compute; set_solver]]|]).
  by apply elem_of_nil in H.
Qed.
Lemma follow_brk k : follow stop3 k -> brk k.
Proof.
  unfold follow, brk. destruct k as [|c k]; [done|]. simpl. unfold wordchar. destruct (isws c) eqn:E; [intros _ (_ & ? & _); congruence|].
  intros (_ & E2 & _)%stop3_sym (_ & _ & ?). congruence.
Qed.
(** What peek answers before a text that may follow. *)
Lemma peek_follow tl k set toks : here tl -> trim tl = trim k -> follow set k ->
  (forall c, c ∈ set -> strchr_lit toks c = false) -> peek m (pt tl) es toks = (false, pt (trim k)).
Proof.
  intros H E Hf Ht. rewrite (peek_eq tl toks H), E. unfold follow in Hf. destruct (trim k) as [|c r]; [done|]. by rewrite Ht.
Qed.
Lemma peek_here tl c r toks : here tl -> trim tl = c :: r -> strchr_lit toks c = true ->
  peek m (pt tl) es toks = (true, pt (c :: r)).
Proof. intros H E Ht. by rewrite (peek_eq tl toks H), E, Ht. Qed.

Lemma brk_sp l : brk (sp l).
Proof. intros (_ & H & _). discriminate. Qed.
Lemma brk_app x k : brk x -> brk k -> brk (x ++ k).
Proof. by destruct x. Qed.
Lemma brk_redirs rs k : brk k -> brk (redirs rs ++ k).
Proof. intros. destruct rs as [|r rs]; [done|]. unfold redirs. simpl. intros (_ & H' & _). discriminate. Qed.

(** One redirection. *)
Lemma parse_redir tl k f rest : here tl -> here (pr_redir (k, f) ++ rest) -> trim tl = trim (pr_redir (k, f) ++ rest) ->
  wf_word f -> brk rest ->
  exists tok q s1, peek m (pt tl) es (chars "<>") = (true, q) /\
    gettoken m q es = (tok, q, s1, pt (f ++ rest)) /\
    gettoken m (pt (f ++ rest)) es = (chr "a", pt (f ++ rest), pt rest, pt (trim rest)) /\
    tok = match k with RIn => chr "<" | ROut => chr ">" | RApp => chr "+" end /\ spans (pt (f ++ rest), pt rest) f.
Proof.
  intros H Hh E Hf Hb. unfold pr_redir in Hh, E. rewrite <- app_assoc in Hh, E. rewrite trim_sp in E. cbn [fst snd] in *.
  assert (trim (rsym k ++ sp f ++ rest) = rsym k ++ sp f ++ rest) as E' by by destruct k. rewrite E' in E.
  pose proof (here_cons _ _ Hh) as Hh1. change (here (rsym k ++ sp f ++ rest)) in Hh1. pose proof (here_app _ _ Hh1) as Hh2.
  assert (here (f ++ rest)) as Hh3 by (apply (here_cons (chr " ")); exact Hh2).
  assert (trim (sp f ++ rest) = f ++ rest) as Es by (rewrite trim_sp; by apply trim_word).
  assert (gettoken m (pt (f ++ rest)) es = (chr "a", pt (f ++ rest), pt rest, pt (trim rest))) as Ew.
  { apply gettoken_word; [done|by apply trim_word|done|done]. }
  assert (spans (pt (f ++ rest), pt rest) f) as Hsp by (exists rest; done).
  destruct k.
  - pose proof (gettoken_single (rsym RIn ++ sp f ++ rest) (chr "<") (sp f ++ rest) Hh1 E') as Eg. rewrite Es in Eg.
    eexists _, _, _. split; [exact (peek_here tl (chr "<") (sp f ++ rest) (chars "<>") H E eq_refl)|].
    split; [|done]. apply Eg. vm_compute. set_solver.
  - pose proof (gettoken_gt (rsym ROut ++ sp f ++ rest) (sp f ++ rest) Hh1 E') as Eg. rewrite Es in Eg.
    eexists _, _, _. split; [exact (peek_here tl (chr ">") (sp f ++ rest) (chars "<>") H E eq_refl)|].
    split; [|done]. apply Eg. intros r' [=].
  - pose proof (gettoken_gtgt (rsym RApp ++ sp f ++ rest) (sp f ++ rest) Hh1 E') as Eg. rewrite Es in Eg.
    eexists _, _, _. split; [exact (peek_here tl (chr ">") (chr ">" :: sp f ++ rest) (chars "<>") H E eq_refl)|].
    split; [|done]. apply Eg.
Qed.
(** The next token of [k] is not a redirection. *)
Definition no_redir (k : list Z) : Prop := match trim k with [] => True | c :: _ => strchr_lit (chars "<>") c = false end.
Lemma follow_no_redir k : follow stop3 k -> no_redir k.
Proof.
  unfold follow, no_redir. destruct (trim k) as [|c r]; [done|]. intros H. unfold stop3 in H. vm_compute in H.
  repeat (apply elem_of_cons in H as [->|H]; [reflexivity|]). by apply elem_of_nil in H.
Qed.
Lemma wrap_cons t r rs : wrap t (r :: rs) = wrap (TRedir t (fst r) (snd r)) rs.
Proof. done. Qed.

Lemma parse_no_redirs n c tl k : here tl -> trim tl = trim k -> no_redir k ->
  parseredirs m (S n) c (pt tl) es = POk (c, pt (trim k)).
Proof.
  intros H E Hr. cbn [parseredirs]. rewrite (peek_eq tl _ H), E. unfold no_redir in Hr.
  destruct (trim k) as [|d r]; [done|]. by rewrite Hr.
Qed.
Lemma parse_redirs rs : forall n c t tl k, (length rs < n)%nat -> here tl -> here (redirs rs ++ k) ->
  trim tl = trim (redirs rs ++ k) -> wf_redirs rs -> brk k -> no_redir k -> rep c t ->
  exists c', parseredirs m n c (pt tl) es = POk (c', pt (trim k)) /\ rep c' (wrap t rs).
Proof.
  induction rs as [|[rk f] rs IH]; intros n c t tl k Hn H Hh E Hwf Hb Hr Hc; (destruct n as [|n]; [simpl in Hn; lia|]).
  - exists c. split; [by apply parse_no_redirs|done].
  - cbn [parseredirs]. change (redirs ((rk, f) :: rs)) with (pr_redir (rk, f) ++ redirs rs) in *. rewrite <- app_assoc in Hh, E.
    inversion Hwf as [|? ? Hf Hwf']; subst. cbn [snd] in Hf. pose proof (here_app _ _ Hh) as Hh'.
    destruct (parse_redir tl rk f (redirs rs ++ k) H Hh E Hf (brk_redirs rs k Hb)) as (tok & q & s1 & -> & -> & -> & -> & Hsp).
    change (negb (chr "a" =? chr "a")) with false. cbv iota beta.
    destruct (IH n (redircmd c (pt (f ++ redirs rs ++ k)) (pt (redirs rs ++ k)) (rmode rk) (rfd rk)) (TRedir t rk f)
                (trim (redirs rs ++ k)) k) as (c' & E' & Hc'); [simpl in Hn; lia|by apply here_trim|done|by apply trim_trim|done..| |].
    { simpl. done. }
    exists c'. split; [|by rewrite wrap_cons]. rewrite <- E'. by destruct rk.
Qed.

(** parseargs at the end of a command. *)
Lemma parse_stop n ret argc tl k : here tl -> trim tl = trim k -> follow stop3 k ->
  parseargs m (S n) ret argc (pt tl) es = POk (ret, pt (trim k)).
Proof.
  intros H E Hf. cbn [parseargs]. rewrite (peek_eq tl _ H), E. unfold follow in Hf.
  pose proof (here_trim _ H) as H'. rewrite E in H'.
  destruct (trim k) as [|c r] eqn:Ek.
  - by rewrite (gettoken_end _ here_nil eq_refl).
  - assert (strchr_lit (chars "|)&;") c = true) as ->; [|done]. unfold stop3 in Hf. vm_compute in Hf.
    repeat (apply elem_of_cons in Hf as [->|Hf]; [reflexivity|]). by apply elem_of_nil in Hf.
Qed.

(** A word in the place of an argument. *)
Lemma peek_word tl w k toks : here tl -> here (w ++ k) -> trim tl = w ++ k -> wf_word w ->
  (forall c, strchr_lit toks c = true -> issym c = true) ->
  peek m (pt tl) es toks = (false, pt (w ++ k)).
Proof.
  intros H Hh E [Hne Hw] Ht. rewrite (peek_eq tl _ H), E. destruct w as [|c w]; [done|]. cbn [app].
  inversion Hw as [|? ? (_ & _ & Hs) _]; subst. destruct (strchr_lit toks c) eqn:Ec; [|done]. apply Ht in Ec. congruence.
Qed.
Lemma lit_sub (toks : list Z) : toks ⊆ symbols -> forall c, strchr_lit toks c = true -> issym c = true.
Proof. unfold strchr_lit, issym. intros Hs c Hc%bool_decide_eq_true. apply bool_decide_eq_true. auto. Qed.

Lemma word_no_redir w k : wf_word w -> match w ++ k with [] => True | c :: _ => strchr_lit (chars "<>") c = false end.
Proof.
  intros [Hx Hy]. destruct w as [|c w]; [done|]. cbn [app]. inversion Hy as [|? ? (_ & _ & Hs) _]; subst.
  destruct (strchr_lit (chars "<>") c) eqn:Ec; [|done]. apply (lit_sub (chars "<>")) in Ec; [congruence|]. vm_compute. set_solver.
Qed.

Lemma parse_args ws : forall n argv dws rs tl k, (length ws + length rs + 2 <= n)%nat -> ws <> [] ->
  here tl -> here (concat (sp <$> ws) ++ redirs rs ++ k) -> trim tl = trim (concat (sp <$> ws) ++ redirs rs ++ k) ->
  Forall wf_word ws -> wf_redirs rs -> follow stop3 k -> Forall2 spans argv dws -> Forall wf_word dws ->
  (length dws + length ws < MAXARGS)%nat ->
  exists c', parseargs m n (execcmd argv) (length argv) (pt tl) es = POk (c', pt (trim k)) /\
    rep c' (wrap (TExec (dws ++ ws)) rs).
Proof.
  induction ws as [|w ws IH]; intros n argv dws rs tl k Hn Hne H Hh E Hw Hrs Hk Ha Hd Hl; [done|].
  destruct n as [|n]; [simpl in Hn; lia|]. inversion Hw as [|? ? Hw1 Hw2]; subst. cbn [fmap list_fmap concat] in Hh, E.
  rewrite <- app_assoc in Hh, E. set (rest := concat (sp <$> ws) ++ redirs rs ++ k) in *.
  rewrite trim_sp, trim_word in E by done. assert (here (w ++ rest)) as Hh1 by (by apply (here_cons (chr " "))).
  pose proof (here_app _ _ Hh1) as Hh2.
  assert (brk rest) as Hb.
  { unfold rest. destruct ws as [|w' ws']; [by apply brk_redirs, follow_brk|]. intros (_ & Hx & _). discriminate. }
  cbn [parseargs]. rewrite (peek_word tl w rest) by (done || apply lit_sub; vm_compute; set_solver).
  rewrite (gettoken_word (w ++ rest) w rest Hh1) by (done || by apply trim_word).
  change (chr "a" =? 0) with false. change (negb (chr "a" =? chr "a")) with false. cbv iota beta.
  pose proof (Forall2_length _ _ _ Ha) as Hlen. simpl length in Hl.
  rewrite (proj2 (Nat.leb_gt MAXARGS (length argv + 1))) by lia. cbn [add_arg].
  assert (Forall2 spans (argv ++ [(pt (w ++ rest), pt rest)]) (dws ++ [w])) as Ha'.
  { apply Forall2_app; [done|]. constructor; [|constructor]. by exists rest. }
  assert (Forall wf_word (dws ++ [w])) as Hd' by (apply Forall_app; split; [done|by constructor]).
  destruct ws as [|w' ws'].
  - destruct (parse_redirs rs n (execcmd (argv ++ [(pt (w ++ rest), pt rest)])) (TExec (dws ++ [w])) (trim rest) k)
      as (c' & E' & Hc'); [simpl in Hn; lia|by apply here_trim|done|by apply trim_trim|done|by apply follow_brk|by apply follow_no_redir|done|].
    rewrite E'. destruct n as [|n]; [simpl in Hn; lia|]. exists c'. split; [|done].
    apply (parse_stop n c' _ (trim k) k); [|apply trim_trim|done]. apply here_trim. by apply (here_app (redirs rs)).
  - destruct n as [|n]; [simpl in Hn; lia|]. rewrite (parse_no_redirs n _ (trim rest) rest);
      [|by apply here_trim|by apply trim_trim|].
    2:{ unfold no_redir, rest. cbn [fmap list_fmap concat]. rewrite <- app_assoc, trim_sp. inversion Hw2 as [|? ? Hw3 _]; subst.
        rewrite trim_word by done. by apply word_no_redir. }
    cbn [mbind pres_bind].
    destruct (IH (S n) (argv ++ [(pt (w ++ rest), pt rest)]) (dws ++ [w]) rs (trim rest) k) as (c2 & E2 & Hc2);
      [simpl in *; lia|done|by apply here_trim|done|by apply trim_trim|done|done|done|done|done| |].
    { rewrite length_app. simpl in *. lia. }
    rewrite length_app in E2. exists c2. split; [exact E2|]. by rewrite <- app_assoc in Hc2.
Qed.
(** ** The four levels of the grammar *)

Definition QE (t : tree) : Prop := forall rs k fuel tl,
  wf_redirs rs -> follow stop3 k -> here tl -> here (pr 3 t ++ redirs rs ++ k) -> trim tl = trim (pr 3 t ++ redirs rs ++ k) ->
  (4 * length (pr 3 t ++ redirs rs ++ k) + 4 <= fuel)%nat ->
  exists c, parseexec m fuel (pt tl) es = POk (c, pt (trim k)) /\ rep c (wrap t rs).
Definition QP (t : tree) : Prop := forall k fuel tl,
  follow stop2 k -> here tl -> here (pr 2 t ++ k) -> trim tl = trim (pr 2 t ++ k) -> (4 * length (pr 2 t ++ k) + 5 <= fuel)%nat ->
  exists c, parsepipe m fuel (pt tl) es = POk (c, pt (trim k)) /\ rep c t.
(** A command and the '&'s after it: the pipeline, then [j] rounds of the loop. *)
Definition QB (t : tree) : Prop := forall k fuel tl,
  follow stop2 k -> here tl -> here (pr 1 t ++ k) -> trim tl = trim (pr 1 t ++ k) -> (4 * length (pr 1 t ++ k) + 5 <= fuel)%nat ->
  exists c0 s c j, parsepipe m fuel (pt tl) es = POk (c0, s) /\ rep c t /\ (j <= length (pr 1 t))%nat /\
    forall n, parseback m (n + j) c0 s es = parseback m n c (pt (trim k)) es.
Definition QL (t : tree) : Prop := forall k fuel tl,
  follow stop0 k -> here tl -> here (pr 0 t ++ k) -> trim tl = trim (pr 0 t ++ k) -> (4 * length (pr 0 t ++ k) + 6 <= fuel)%nat ->
  exists c, parseline m fuel (pt tl) es = POk (c, pt (trim k)) /\ rep c t.

Lemma stop_sub2 : stop2 ⊆ stop3. Proof. vm_compute. set_solver. Qed.
Lemma stop_sub0 : stop0 ⊆ stop2. Proof. vm_compute. set_solver. Qed.
Lemma in_single a : chr a ∈ single -> forall k tl, here tl -> trim tl = chr a :: k ->
  gettoken m (pt tl) es = (chr a, pt (chr a :: k), pt k, pt (trim k)).
Proof. intros Ha k tl H E. by apply gettoken_single. Qed.

Lemma length_redirs rs : (length rs <= length (redirs rs))%nat.
Proof.
  induction rs as [|r rs IH]; [done|]. change (redirs (r :: rs)) with (pr_redir r ++ redirs rs).
  rewrite length_app. unfold pr_redir, sp. simpl. lia.
Qed.
Lemma length_words ws : (length ws <= length (concat (sp <$> ws)))%nat.
Proof. 
  induction ws as [|w ws IH]; [done|]. change (concat (sp <$> w :: ws)) with (sp w ++ concat (sp <$> ws)).
  rewrite length_app. unfold sp at 1. cbn [length]. lia.
Qed.

Lemma simple_QE ws : wf_tree (TExec ws) -> QE (TExec ws).
Proof.
  intros [Hw Hl] rs k fuel tl Hrs Hk H Hh E Hf. destruct fuel as [|fuel]; [lia|]. cbn [pr] in *. cbn [parseexec].
  rewrite !length_app in Hf. pose proof (length_redirs rs). pose proof (length_words ws). destruct ws as [|w ws].
  - change (concat (sp <$> []) ++ redirs rs ++ k) with (redirs rs ++ k) in *.
    assert (peek m (pt tl) es (chars "(") = (false, pt (trim (redirs rs ++ k)))) as ->.
    { rewrite (peek_eq tl _ H), E. destruct rs as [|[[] f] rs]; [|done..]. change (redirs [] ++ k) with k. unfold follow in Hk.
      destruct (trim k) as [|c r]; [done|]. unfold stop3 in Hk. vm_compute in Hk.
      repeat (apply elem_of_cons in Hk as [->|Hk]; [reflexivity|]). by apply elem_of_nil in Hk. }
    destruct (parse_redirs rs fuel (execcmd []) (TExec []) (trim (redirs rs ++ k)) k) as (c & -> & Hc);
      [lia|by apply here_trim|done|apply trim_trim|done|by apply follow_brk|by apply follow_no_redir|split; constructor|].
    exists c. split; [|done]. destruct fuel as [|fuel]; [lia|]. apply (parse_stop fuel c 0 (trim k) k); [|apply trim_trim|done].
    by apply here_trim, (here_app (redirs rs)).
  - inversion Hw as [|? ? Hw1 Hw2]; subst. set (rest := concat (sp <$> ws) ++ redirs rs ++ k).
    assert (concat (sp <$> w :: ws) ++ redirs rs ++ k = sp w ++ rest) as Et by (unfold rest; simpl; by rewrite <- app_assoc).
    assert (trim (sp w ++ rest) = w ++ rest) as Etr by (rewrite trim_sp; by apply trim_word).
    rewrite Et, Etr in E. rewrite Et in Hh. assert (here (w ++ rest)) as Hh1 by (by apply (here_cons (chr " "))).
    rewrite (peek_word tl w rest) by (done || apply lit_sub; vm_compute; set_solver).
    destruct fuel as [|fuel]; [lia|]. rewrite (parse_no_redirs fuel (execcmd []) (w ++ rest) (w ++ rest));
      [|done|done|unfold no_redir; rewrite trim_word by done; by apply word_no_redir].
    cbn [mbind pres_bind]. rewrite trim_word by done.
    destruct (parse_args (w :: ws) (S fuel) [] [] rs (w ++ rest) k) as (c & Ec & Hc);
      [lia|done|done|by rewrite Et|by rewrite Et, Etr, trim_word|done..|constructor|constructor|done|].
    exists c. split; [exact Ec|exact Hc].
Qed.

(** A parenthesised line. *)
Lemma block_QE t : QL t -> forall rs k fuel tl,
  wf_redirs rs -> follow stop3 k -> here tl -> here ((chr "(" :: pr 0 t ++ chars ")") ++ redirs rs ++ k) ->
  trim tl = trim ((chr "(" :: pr 0 t ++ chars ")") ++ redirs rs ++ k) ->
  (4 * length ((chr "(" :: pr 0 t ++ chars ")") ++ redirs rs ++ k) + 4 <= fuel)%nat ->
  exists c, parseexec m fuel (pt tl) es = POk (c, pt (trim k)) /\ rep c (wrap t rs).
Proof.
  intros HL rs k fuel tl Hrs Hk H Hh E Hf. cbn [app] in *. rewrite <- app_assoc in *. cbn [app chars] in *.
  change (chars ")" ++ redirs rs ++ k) with (chr ")" :: redirs rs ++ k) in *.
  set (rest := redirs rs ++ k) in *. set (body := pr 0 t ++ chr ")" :: rest) in *. rewrite trim_cons in E by done.
  pose proof (here_cons _ _ Hh) as Hb. assert (here (chr ")" :: rest)) as Hc by (by apply (here_app (pr 0 t))).
  destruct fuel as [|[|fuel]]; [lia..|]. cbn [parseexec]. rewrite (peek_here tl (chr "(") body) by done.
  cbn [parseblock]. rewrite (peek_here (chr "(" :: body) (chr "(") body) by done. cbn [negb].
  rewrite (in_single "(" ltac:(vm_compute; set_solver) body (chr "(" :: body) Hh eq_refl).
  destruct (HL (chr ")" :: rest) fuel (trim body)) as (c & -> & Hcr);
    [vm_compute; set_solver|by apply here_trim|done|by apply trim_trim|simpl in Hf; fold body in Hf |- *; lia|].
  cbn [mbind pres_bind]. rewrite (peek_here (trim (chr ")" :: rest)) (chr ")") rest) by done. cbn [negb].
  rewrite (in_single ")" ltac:(vm_compute; set_solver) rest (chr ")" :: rest) Hc eq_refl).
  pose proof (here_cons _ _ Hc) as Hr. apply (parse_redirs rs fuel c t (trim rest) k);
    [|by apply here_trim|done|by apply trim_trim|done|by apply follow_brk|by apply follow_no_redir|done].
  pose proof (length_redirs rs). unfold body, rest in Hf. simpl in Hf. rewrite !length_app in Hf. simpl in Hf. rewrite length_app in Hf. lia.
Qed.
Lemma exec_QP t : pr 2 t = pr 3 t -> QE t -> QP t.
Proof.
  intros Ep HE k fuel tl Hk H Hh E Hf. rewrite Ep in *. destruct fuel as [|fuel]; [lia|]. cbn [parsepipe].
  destruct (HE [] k fuel tl) as (c & -> & Hc); [constructor|by apply (follow_mono _ _ _ stop_sub2)|done..|simpl; lia|].
  cbn [mbind pres_bind]. rewrite (peek_follow (trim k) k stop2); [by exists c| |apply trim_trim|done|].
  - by apply here_trim, (here_app (pr 3 t)).
  - intros d Hd. vm_compute in Hd. repeat (apply elem_of_cons in Hd as [->|Hd]; [reflexivity|]). by apply elem_of_nil in Hd.
Qed.
Lemma pipe_QP a b : QE a -> QP b -> QP (TPipe a b).
Proof.
  intros Ha Hb k fuel tl Hk H Hh E Hf. cbn [pr paren Nat.ltb Nat.leb] in *. rewrite <- app_assoc in *. cbn [app] in *.
  set (rest := pr 2 b ++ k) in *. destruct fuel as [|fuel]; [lia|]. cbn [parsepipe].
  destruct (Ha [] (chr "|" :: rest) fuel tl) as (c & -> & Hc); [constructor|vm_compute; set_solver|done..|change (redirs []) with (@nil Z); cbn [app]; lia|].
  cbn [mbind pres_bind]. pose proof (here_app _ _ Hh) as Hr. rewrite (peek_here (trim (chr "|" :: rest)) (chr "|") rest) by done.
  rewrite (in_single "|" ltac:(vm_compute; set_solver) rest (chr "|" :: rest) Hr eq_refl).
  pose proof (here_cons _ _ Hr) as Hr'. rewrite length_app in Hf. cbn [length] in Hf.
  destruct (Hb k fuel (trim rest)) as (c' & -> & Hc'); [done|by apply here_trim|done|apply trim_trim|fold rest; lia|].
  by exists (pipecmd c c').
Qed.
Lemma pipe_QB t : pr 1 t = pr 2 t -> QP t -> QB t.
Proof.
  intros Ep HP k fuel tl Hk H Hh E Hf. rewrite Ep in *. destruct (HP k fuel tl Hk H Hh E Hf) as (c & Ec & Hc).
  exists c, (pt (trim k)), c, O. split; [done|]. split; [done|]. split; [lia|]. intros n. by rewrite Nat.add_0_r.
Qed.
Lemma back_QB a : QB a -> QB (TBack a).
Proof.
  intros Ha k fuel tl Hk H Hh E Hf. cbn [pr paren Nat.ltb Nat.leb] in *. rewrite <- app_assoc in *.
  change (chars "&" ++ k) with (chr "&" :: k) in *. pose proof (here_app _ _ Hh) as Hr.
  destruct (Ha (chr "&" :: k) fuel tl) as (c0 & s & c & j & E0 & Hc & Hj & Hn); [vm_compute; set_solver|done..|].
  exists c0, s, (backcmd c), (S j). split; [done|]. split; [done|]. split; [rewrite length_app; simpl; lia|].
  intros n. replace (n + S j)%nat with (S n + j)%nat by lia. rewrite Hn. cbn [parseback].
  rewrite (peek_here (trim (chr "&" :: k)) (chr "&") k) by done.
  by rewrite (in_single "&" ltac:(vm_compute; set_solver) k (chr "&" :: k) Hr eq_refl).
Qed.
Lemma back_QL t : pr 0 t = pr 1 t -> QB t -> QL t.
Proof.
  intros Ep HB k fuel tl Hk H Hh E Hf. rewrite Ep in *. destruct fuel as [|fuel]; [lia|]. cbn [parseline].
  destruct (HB k fuel tl) as (c0 & s & c & j & -> & Hc & Hj & Hn); [by apply (follow_mono _ _ _ stop_sub0)|done..|lia|].
  cbn [mbind pres_bind]. rewrite length_app in Hf. replace fuel with (S (fuel - j - 1) + j)%nat by lia. rewrite Hn.
  pose proof (here_trim _ (here_app _ _ Hh)) as Hk'. cbn [parseback].
  rewrite (peek_follow (trim k) k stop0) by (done || apply trim_trim || by intros d ->%list_elem_of_singleton).
  cbn [mbind pres_bind]. rewrite (peek_follow (trim k) k stop0) by (done || apply trim_trim || by intros d ->%list_elem_of_singleton).
  by exists c.
Qed.
Lemma list_QL a b : QB a -> QL b -> QL (TList a b).
Proof.
  intros Ha Hb k fuel tl Hk H Hh E Hf. cbn [pr paren Nat.ltb Nat.leb] in *. rewrite <- app_assoc in *. cbn [app] in *.
  set (rest := pr 0 b ++ k) in *. destruct fuel as [|fuel]; [lia|]. cbn [parseline].
  destruct (Ha (chr ";" :: rest) fuel tl) as (c0 & s & c & j & -> & Hc & Hj & Hn); [vm_compute; set_solver|done..|lia|].
  cbn [mbind pres_bind]. rewrite length_app in Hf. cbn [length] in Hf. 
  assert (parseback m fuel c0 s es = parseback m (S (fuel - j - 1)) c (pt (trim (chr ";" :: rest))) es) as ->
    by (rewrite <- Hn; f_equal; lia).
  pose proof (here_app _ _ Hh) as Hr. pose proof (here_cons _ _ Hr) as Hr'. cbn [parseback].
  rewrite (peek_follow (trim (chr ";" :: rest)) (chr ";" :: rest) (chars ";")); [|done|done|vm_compute; set_solver|by intros d ->%list_elem_of_singleton].
  cbn [mbind pres_bind]. rewrite (peek_here (trim (chr ";" :: rest)) (chr ";") rest) by done.
  rewrite (in_single ";" ltac:(vm_compute; set_solver) rest (chr ";" :: rest) Hr eq_refl).
  destruct (Hb k fuel (trim rest)) as (c' & -> & Hc'); [done|by apply here_trim|done|apply trim_trim|fold rest; lia|].
  by exists (listcmd c c').
Qed.

Lemma parse_tree t : wf_tree t -> QE t /\ QP t /\ QB t /\ QL t.
Proof.
  induction t as [ws|t IH rk f|a IHa b IHb|a IHa b IHb|a IHa]; intros Hwf.
  - assert (QE (TExec ws)) as HE by by apply simple_QE. assert (QP (TExec ws)) by by apply exec_QP.
    assert (QB (TExec ws)) by by apply pipe_QB. split_and!; [done..|by apply back_QL].
  - destruct Hwf as [Hwf Hf]. destruct (IH Hwf) as (HE & _).
    assert (QE (TRedir t rk f)) as HE'.
    { intros rs k fuel tl Hrs Hk H Hh E Hfu. cbn [pr] in *. rewrite <- app_assoc in *.
      destruct (HE ((rk, f) :: rs) k fuel tl) as (c & Ec & Hc); [by constructor|done|done| | | |by exists c].
      all: change (redirs ((rk, f) :: rs)) with (pr_redir (rk, f) ++ redirs rs); rewrite <- ?app_assoc; done. }
    assert (QP (TRedir t rk f)) by by apply exec_QP. assert (QB (TRedir t rk f)) by by apply pipe_QB.
    split_and!; [done..|by apply back_QL].
  - destruct Hwf as [Hwa Hwb]. destruct (IHa Hwa) as (HEa & _). destruct (IHb Hwb) as (_ & HPb & _).
    assert (QP (TPipe a b)) as HP by by apply pipe_QP. assert (QB (TPipe a b)) as HB by by apply pipe_QB.
    assert (QL (TPipe a b)) as HL by by apply back_QL. split_and!; [|done..]. intros rs k fuel tl. apply (block_QE _ HL).
  - destruct Hwf as [Hwa Hwb]. destruct (IHa Hwa) as (_ & _ & HBa & _). destruct (IHb Hwb) as (_ & _ & _ & HLb).
    assert (QL (TList a b)) as HL by by apply list_QL.
    assert (QE (TList a b)) as HE by (intros rs k fuel tl; apply (block_QE _ HL)).
    assert (QP (TList a b)) by by apply exec_QP. split_and!; [done|done|by apply pipe_QB|done].
  - destruct (IHa Hwf) as (_ & _ & HBa & _). assert (QB (TBack a)) as HB by by apply back_QB.
    assert (QL (TBack a)) as HL by by apply back_QL.
    assert (QE (TBack a)) as HE by (intros rs k fuel tl; apply (block_QE _ HL)).
    split_and!; [done|by apply exec_QP|done|done].
Qed.
(** ** Terminating the strings *)

Definition is_break (a : Z) : Prop := exists k, here k /\ brk k /\ a = pt k.

Lemma spans_break a w : spans a w -> is_break (snd a).
Proof. intros (k & Hh & Hb & ->). exists k. split; [by apply (here_app w)|done]. Qed.
Lemma rep_ends c : forall t, rep c t -> Forall is_break (ends c).
Proof.
  induction c as [argv|c IH q e mode fd|l IHl r IHr|l IHl r IHr|c IH]; intros [ws|t k f|a b|a b|a] Hc; try done; cbn [rep ends] in *.
  - destruct Hc as [Hc _]. apply Forall_fmap. induction Hc; constructor; [by eapply spans_break|done].
  - destruct Hc as (Hc & Hs & _). constructor; [by apply (spans_break (q, e) f)|by eapply IH].
  - destruct Hc. apply Forall_app. eauto.
  - destruct Hc. apply Forall_app. eauto.
  - by eapply IH.
Qed.

(** A word is not hit by the NULs after words, and ends in one. *)
Lemma word_kept m' a w : wf_word w -> spans a w -> (forall x, ~ is_break x -> load8 m' x = load8 m x) ->
  load8 m' (snd a) = 0 -> str_at m' (fst a) w.
Proof.
  intros [_ Hw] (k & Hh & Hb & ->) Hk Hz. cbn [fst snd] in *. pose proof (str_here _ Hh) as Hs.
  apply str_holds in Hs as (Hs & Hnz & _). apply holds_app in Hs as [Hs _]. apply Forall_app in Hnz as [Hnz _].
  assert (pt (w ++ k) + Z.of_nat (length w) = pt k) as Ee by (unfold pt; rewrite length_app; lia).
  apply str_holds. split; [|split; [done|by rewrite Ee]]. intros i c Hc. rewrite Hk; [by apply Hs|].
  intros (k' & Hh' & Hb' & Ek). pose proof (lookup_lt_Some _ _ _ Hc) as Hi.
  assert (k' = drop i w ++ k) as ->.
  { assert (here (drop i w ++ k)) as Hd by (rewrite <- (drop_app_le w k i) by lia; apply (here_app (take i (w ++ k))); by rewrite take_drop).
    destruct Hh' as [p1 E1], Hd as [p2 E2]. rewrite E1 in E2. apply app_inj_2 in E2 as [_ E2]; [done|].
    unfold pt in Ek. rewrite length_app in Ek. rewrite length_app, length_drop. lia. }
  rewrite (drop_S w c i Hc) in Hb'. cbn [app brk] in Hb'. apply Hb'. by apply (Forall_lookup_1 _ _ _ _ Hw Hc).
Qed.
Lemma rep_tree m' : (forall x, ~ is_break x -> load8 m' x = load8 m x) -> forall c t, rep c t ->
  (forall e, e ∈ ends c -> load8 m' e = 0) -> tree_at m' c t.
Proof.
  intros Hk. induction c as [argv|c IH q e mode fd|l IHl r IHr|l IHl r IHr|c IH]; intros [ws|t k f|a b|a b|a] Hc He; try done; cbn [rep ends tree_at] in *.
  - destruct Hc as [Hc Hw]. induction Hc as [|x w argv ws Hx Hc IH]; constructor.
    + inversion Hw; subst. apply word_kept; [done|done|done|]. apply He. simpl. set_solver.
    + inversion Hw; subst. apply IH; [done|]. intros e Hin. apply He. simpl. set_solver.
  - destruct Hc as (Hc & Hs & Hw & -> & ->). split; [apply IH; [done|]; intros; apply He; set_solver|]. split; [|done].
    apply (word_kept m' (q, e) f); [done..|]. apply He. simpl. set_solver.
  - destruct Hc as [H1 H2]. split; [apply IHl|apply IHr]; try done; intros; apply He; set_solver.
  - destruct Hc as [H1 H2]. split; [apply IHl|apply IHr]; try done; intros; apply He; set_solver.
  - by apply IH.
Qed.
End Line.

Lemma strlen_ok m s cs fuel : str_at m s cs -> (length cs < fuel)%nat -> Z.of_nat (length cs) < 2 ^ 31 ->
  strlen fuel m s = Some (Z.of_nat (length cs)).
Proof.
  intros Hs Hf Hl. unfold strlen. enough (forall k f, (k <= length cs)%nat -> (length cs - k < f)%nat ->
    strlen_loop f m s (Z.of_nat k) = Some (Z.of_nat (length cs))) as H.
  { pose proof (H O fuel ltac:(lia) ltac:(lia)) as E. change (Z.of_nat 0) with 0 in E. rewrite E. simpl. f_equal. apply u_small. lia. }
  apply str_holds in Hs as (Hh & Hnz & Hz). intros k f. revert k. induction f as [|f IH]; intros k Hk Hkf; [lia|]. cbn [strlen_loop].
  destruct (decide (k = length cs)) as [->|Hne]; [by rewrite Hz|].
  destruct (lookup_lt_is_Some_2 cs k ltac:(lia)) as [c Hc]. rewrite (Hh k c Hc).
  rewrite (proj2 (Z.eqb_neq c 0)) by (by apply (Forall_lookup_1 _ _ _ _ Hnz Hc)).
  rewrite (s_small 32) by (unfold in_s; lia). replace (Z.of_nat k + 1) with (Z.of_nat (S k)) by lia. apply IH; lia.
Qed.
Lemma trim_blank l : Forall (fun c => isws c = true) l -> trim l = [].
Proof. induction 1 as [|c l Hc _ IH]; simpl; [done|]. by rewrite Hc. Qed.

(** ** Properties *)

(** C34: the shell parses what is written.  Every command tree with well-formed
    words and fewer than MAXARGS arguments per command, written as a line in the
    grammar of the shell (with parentheses where precedence asks for them, and
    blanks after it), is parsed by parsecmd into that tree: the same pipes,
    lists, background jobs and redirections with their modes and descriptors,
    and every argument and file name is a NUL-terminated string in the line.
    Nothing outside the line is written. *)
Theorem parsecmd_roundtrip {W} `{Os W} t blanks m s fuel w :
  wf_tree t -> Forall (fun c => isws c = true) blanks -> str_at m s (pr 0 t ++ blanks) ->
  (length (pr 0 t ++ blanks) < fuel)%nat -> Z.of_nat (length (pr 0 t ++ blanks)) < 2 ^ 31 ->
  exists c m', parsecmd fuel s m w = URet c m' w /\ tree_at m' c t /\
    forall a, ~ (s <= a <= s + Z.of_nat (length (pr 0 t ++ blanks))) -> load8 m' a = load8 m a.
Proof.
  intros Hwf Hb Hs Hf Hl. set (txt := pr 0 t ++ blanks) in *. pose proof (trim_blank _ Hb) as Et.
  unfold parsecmd. rewrite (ubind_ret umem _ m w m m w eq_refl), (strlen_ok m s txt) by done.
  rewrite (ubind_ret (ulift (Some _)) _ m w _ m w eq_refl).
  destruct (parse_tree m txt s Hs t Hwf) as (_ & _ & _ & HL).
  assert (here txt txt) as Hh by (unfold here; done).
  destruct (HL blanks (parse_fuel (Z.of_nat (length txt))) txt) as (c & Ec & Hc);
    [unfold follow; by rewrite Et|done|done|done|unfold parse_fuel; fold txt; lia|].
  rewrite Et in Ec. assert (pt txt s txt = s) as Ep by (unfold pt, es; lia). rewrite Ep in Ec. unfold es in Ec. rewrite Ec.
  fold (es txt s). rewrite (peek_eq m txt s Hs [] [] (here_nil txt)). cbn [trim].
  assert (pt txt s [] =? es txt s = true) as -> by (apply Z.eqb_eq; unfold pt; cbn [length]; lia). cbn [negb].
  exists c, (nulterminate c m). split; [done|]. pose proof (rep_ends txt s c t Hc) as He. rewrite Forall_forall in He. split.
  - apply (rep_tree m txt s Hs); [|done|].
    + intros x Hx. rewrite (nul_spec c m). rewrite bool_decide_eq_false_2; [done|]. intros Hin%He. done.
    + intros e Hin. rewrite (nul_spec c m). by rewrite bool_decide_eq_true_2.
  - intros a Ha. rewrite (nul_spec c m). rewrite bool_decide_eq_false_2; [done|]. intros (k & [p E] & _ & ->)%He. apply Ha.
    unfold pt, es. rewrite E, length_app. lia.
Qed.

(** "(a; b) < f | c > g &" and a newline. *)
Definition demo_tree : tree :=
  TBack (TPipe (TRedir (TList (TExec [chars "a"]) (TExec [chars "b"])) RIn (chars "f"))
               (TRedir (TExec [chars "c"; chars "-x"]) ROut (chars "g"))).
Definition demo_line : list Z := pr 0 demo_tree ++ [10].

Lemma parsecmd_roundtrip_witness :
  exists c m', parsecmd 100 4096 (store_bytes ∅ 4096 demo_line) (Tape 0 (fun _ => []) []) =
      URet c m' (Tape 0 (fun _ => []) []) /\ tree_at m' c demo_tree.
Proof.
  destruct (parsecmd_roundtrip demo_tree [10] (store_bytes ∅ 4096 demo_line) 4096 100 (Tape 0 (fun _ => []) []))
    as (c & m' & E & Ht & _).
  - repeat split; try (intro; discriminate); repeat constructor; intro; discriminate.
  - repeat constructor.
  - repeat (split; [reflexivity || (intro; discriminate)|]). reflexivity.
  - apply Nat.ltb_lt. reflexivity.
  - reflexivity.
  - exists c, m'. split; [exact E|exact Ht].
Defined.
