(* ===== verification/Umalloc.v ===== *)
(** * The user memory allocator (user/umalloc.c)

    Kernighan and Ritchie's allocator: a circular list of free blocks in order
    of address, threaded through the headers of the blocks in the memory of the
    process.  A header is a pointer (8 bytes) and a size in units of 16 bytes
    (4 bytes, then 4 of padding). *)
From stdpp Require Import base numbers list gmap.
From S2P Require Import Prelude Str User Ulib.

Definition HDR : Z := 16.     (* sizeof(Header) *)

Definition h_ptr (m : mem) (p : Z) : Z := load64 m p.
Definition h_size (m : mem) (p : Z) : Z := le_combine (load_bytes m (p + 8) 4).
Definition set_ptr (m : mem) (p v : Z) : mem := store64 m p v.
Definition set_size (m : mem) (p v : Z) : mem := store_bytes m (p + 8) (le_split 4 v).

Section Umalloc.
(** &base and &freep *)
Variables base freep : Z.

(** for(p = freep; !(bp > p && bp < p->s.ptr); p = p->s.ptr) with its break *)
Fixpoint free_scan (k : nat) (m : mem) (bp p : Z) : option Z :=
  match k with
  | O => None
  | S k =>
      let nx := h_ptr m p in
      if (p <? bp) && (bp <? nx) then Some p
      else if (nx <=? p) && ((p <? bp) || (bp <? nx)) then Some p
      else free_scan k m bp nx
  end.

Definition free (fuel : nat) (m : mem) (ap : Z) : option mem :=
  let bp := ap - HDR in
  p ← free_scan fuel m bp (load64 m freep);
  let nx := h_ptr m p in
  let m :=
    if bp + HDR * h_size m bp =? nx then
      let m := set_size m bp (u32 (h_size m bp + h_size m nx)) in
      set_ptr m bp (h_ptr m nx)
    else set_ptr m bp nx in
  let m :=
    if p + HDR * h_size m p =? bp then
      let m := set_size m p (u32 (h_size m p + h_size m bp)) in
      set_ptr m p (h_ptr m bp)
    else set_ptr m p bp in
  Some (store64 m freep p).

Section Calls.
Context {W : Type} `{Os W}.
Variable fuel : nat.

Definition morecore (nu : Z) : U W Z :=
  let nu := if nu <? 4096 then 4096 else nu in
  p ← sbrk (i32 (nu * HDR));
  if p =? -1 then mret 0
  else
    m ← umem;
    m ← ulift (free fuel (set_size m p nu) (p + HDR));
    uset m;;
    mret (load64 m freep).

(** for(p = prevp->s.ptr; ; prevp = p, p = p->s.ptr) *)
Fixpoint malloc_loop (k : nat) (nunits prevp p : Z) : U W Z :=
  match k with
  | O => ufuel
  | S k =>
      m ← umem;
      if nunits <=? h_size m p then
        let '(m, p) :=
          if h_size m p =? nunits then (set_ptr m prevp (h_ptr m p), p)
          else
            let m := set_size m p (u32 (h_size m p - nunits)) in
            let p := p + HDR * h_size m p in
            (set_size m p nunits, p) in
        uset (store64 m freep prevp);;
        mret (p + HDR)
      else if p =? load64 m freep then
        p ← morecore nunits;
        if p =? 0 then mret 0
        else m ← umem; malloc_loop k nunits p (h_ptr m p)
      else malloc_loop k nunits p (h_ptr m p)
  end.

Definition malloc (nbytes : Z) : U W Z :=
  let nunits := u32 ((nbytes + HDR - 1) / HDR + 1) in
  m ← umem;
  let prevp := load64 m freep in
  let '(m, prevp) :=
    if prevp =? 0 then
      let m := store64 m freep base in
      let m := set_ptr m base base in
      (set_size m base 0, base)
    else (m, prevp) in
  uset m;;
  malloc_loop fuel nunits prevp (h_ptr m prevp).
End Calls.
End Umalloc.

(** ** Headers in memory *)

Definition apart (p q : Z) : Prop := p + 16 <= q \/ q + 16 <= p.

Lemma ptr_set_ptr m p v : in_u 64 v -> h_ptr (set_ptr m p v) p = v.
Proof. intros Hv. unfold h_ptr, set_ptr. rewrite load64_store64. by apply Z.mod_small. Qed.
Lemma size_set_size m p v : in_u 32 v -> h_size (set_size m p v) p = v.
Proof.
  intros Hv. unfold h_size, set_size. replace 4%nat with (length (le_split 4 v)) at 1 by apply length_le_split.
  rewrite load_store_bytes by apply le_split_bytes. rewrite le_combine_split. by apply Z.mod_small.
Qed.
(** A header depends on its own 12 bytes. *)
Lemma header_ext m m' p : (forall i, p <= i < p + 12 -> load8 m' i = load8 m i) -> h_ptr m' p = h_ptr m p /\ h_size m' p = h_size m p.
Proof.
  intros H. split; [apply load64_ext; intros; apply H; lia|]. unfold h_size. f_equal. apply load_bytes_ext. intros. apply H. lia.
Qed.
Lemma load8_set_ptr m p v a : a < p \/ p + 8 <= a -> load8 (set_ptr m p v) a = load8 m a.
Proof. intros. apply load8_store64_out. lia. Qed.
Lemma load8_set_size m p v a : a < p + 8 \/ p + 12 <= a -> load8 (set_size m p v) a = load8 m a.
Proof. intros. apply load8_store_bytes_out. rewrite length_le_split. lia. Qed.
Lemma ptr_set_size m p v q : p = q \/ apart p q -> h_ptr (set_size m p v) q = h_ptr m q.
Proof. unfold apart. intros. apply load64_ext. intros i Hi. apply load8_set_size. lia. Qed.
Lemma size_set_ptr m p v q : p = q \/ apart p q -> h_size (set_ptr m p v) q = h_size m q.
Proof. unfold apart. intros. unfold h_size. f_equal. apply load_bytes_ext. intros i Hi. apply load8_set_ptr. lia. Qed.
Lemma ptr_set_ptr_ne m p v q : apart p q -> h_ptr (set_ptr m p v) q = h_ptr m q.
Proof. unfold apart. intros. apply header_ext. intros i Hi. apply load8_set_ptr. lia. Qed.
Lemma size_set_size_ne m p v q : apart p q -> h_size (set_size m p v) q = h_size m q.
Proof. unfold apart. intros. apply header_ext. intros i Hi. apply load8_set_size. lia. Qed.
