(* ===== verification/Heap.v ===== *)
(** * The allocator's contract (theorems on Umalloc.v)

    The free list is the list of free blocks in order of address, starting
    with the empty block &base; no two free blocks touch.  malloc and free move
    cells between the free and the allocated blocks and never write to an
    allocated block. *)
From stdpp Require Import base numbers list gmap sorting.
From S2P Require Import Prelude Str User Ulib Umalloc.

(** A block: its address and its size in units, header included. *)
Abbreviation blk := (Z * Z)%type.
Definition cell (x : blk) (a : Z) : Prop := fst x <= a < fst x + 16 * snd x.
Definition covered (l : list blk) (a : Z) : Prop := exists x, x ∈ l /\ cell x a.
(** [x] is before [y], with a gap between them. *)
Definition gap (x y : blk) : Prop := fst x + 16 * snd x < fst y /\ fst x + 16 <= fst y.

(** The headers from [p] to [q] hold the blocks [l]. *)
Fixpoint seg (m : mem) (p : Z) (l : list blk) (q : Z) : Prop :=
  match l with
  | [] => p = q
  | x :: l => p = fst x /\ h_size m (fst x) = snd x /\ seg m (h_ptr m (fst x)) l q
  end.

Lemma seg_app m l1 l2 : forall p q, seg m p (l1 ++ l2) q <-> exists r, seg m p l1 r /\ seg m r l2 q.
Proof.
  induction l1 as [|x l1 IH]; intros p q; simpl.
  - split; [by exists p|]. by intros (r & <- & ?).
  - rewrite IH. split.
    + intros (H1 & H2 & r & H3 & H4). by exists r.
    + intros (r & (H1 & H2 & H3) & H4). split; [done|]. split; [done|]. by exists r.
Qed.
Lemma seg_frame m m' l : (forall x, x ∈ l -> h_ptr m' (fst x) = h_ptr m (fst x) /\ h_size m' (fst x) = h_size m (fst x)) ->
  forall p q, seg m p l q -> seg m' p l q.
Proof.
  induction l as [|x l IH]; intros He p q; [done|]. intros (-> & H2 & H3). destruct (He x ltac:(set_solver)) as [E1 E2].
  split; [done|]. split; [congruence|]. rewrite E1. apply IH; [|done]. intros y Hy. apply He. set_solver.
Qed.

Lemma covered_app l1 l2 a : covered (l1 ++ l2) a <-> covered l1 a \/ covered l2 a.
Proof.
  unfold covered. split.
  - intros (x & [Hx|Hx]%elem_of_app & Hc); [left|right]; by exists x.
  - intros [(x & Hx & Hc)|(x & Hx & Hc)]; exists x; (split; [apply elem_of_app; tauto|done]).
Qed.
Lemma covered_cons x l a : covered (x :: l) a <-> cell x a \/ covered l a.
Proof.
  unfold covered. split.
  - intros (y & [->|Hy]%elem_of_cons & Hc); [by left|right; by exists y].
  - intros [Hc|(y & Hy & Hc)]; [exists x|exists y]; (split; [apply elem_of_cons; tauto|done]).
Qed.
Lemma covered_nil a : ~ covered [] a.
Proof. intros (x & Hx & _). by apply elem_of_nil in Hx. Qed.

Section Heap.
Variables base freep lo : Z.
(** The variables of the allocator are below the heap. *)
Record statics : Prop := {
  st_base : 0 < base /\ base + 16 <= lo;
  st_freep : 0 <= freep /\ freep + 8 <= lo;
  st_apart : freep + 8 <= base \/ base + 16 <= freep;
}.
Hypothesis ST : statics.

(** The free list: [&base], then blocks of the heap below [brk]. *)
Record frees (m : mem) (bs : list blk) (brk : Z) : Prop := {
  fr_base : exists rest, bs = (base, 0) :: rest /\ Forall (fun x => lo <= fst x /\ 1 <= snd x /\ fst x + 16 * snd x <= brk) rest;
  fr_seg : seg m base bs base;
  fr_sorted : StronglySorted gap bs;
  fr_freep : load64 m freep ∈ fst <$> bs;
  fr_brk : lo <= brk <= 2 ^ 35;
}.

(** A block that is disjoint from the free ones. *)
Definition fresh (bs : list blk) (x : blk) : Prop := forall a, cell x a -> ~ covered bs a.

Lemma fr_in m bs brk y : frees m bs brk -> y ∈ bs ->
  y = (base, 0) \/ (lo <= fst y /\ 1 <= snd y /\ fst y + 16 * snd y <= brk).
Proof.
  intros I Hy. destruct (fr_base _ _ _ I) as (rest & -> & HF). apply elem_of_cons in Hy as [->|Hy]; [by left|right].
  rewrite Forall_forall in HF. by apply HF.
Qed.
(** A fresh block of the heap lies before or after every free block. *)
Lemma fresh_sep m bs brk bp n y : frees m bs brk -> fresh bs (bp, n) -> lo <= bp -> 1 <= n -> y ∈ bs ->
  (fst y + 16 * snd y <= bp /\ fst y + 16 <= bp) \/ bp + 16 * n <= fst y.
Proof.
  intros I Hf Hlo Hn Hy. pose proof (st_base ST) as Hst. destruct (fr_in _ _ _ _ I Hy) as [->|(Hy1 & Hy2 & _)]; [simpl; lia|].
  destruct (decide (bp + 16 * n <= fst y)) as [|H1]; [by right|left].
  destruct (decide (fst y + 16 * snd y <= bp)) as [|H2]; [lia|]. exfalso.
  apply (Hf (Z.max bp (fst y))).
  - unfold cell. simpl. lia.
  - exists y. split; [done|]. unfold cell. lia.
Qed.

(** ** The search of free *)

(** Where free stops: between [q] and the next free block. *)
Definition between (bp : Z) (bs : list blk) (q : Z) : Prop :=
  exists l1 x l2, bs = l1 ++ x :: l2 /\ fst x = q /\ q < bp /\ forall y, y ∈ l2 -> bp < fst y.

Lemma scan_up m bp post : forall l1 x k, seg m (fst x) (x :: post) base -> StronglySorted gap (x :: post) ->
  fst x < bp -> base <= fst x -> (forall y, y ∈ x :: post -> fst y <> bp) -> (length post < k)%nat ->
  exists q, free_scan k m bp (fst x) = Some q /\ between bp (l1 ++ x :: post) q.
Proof.
  induction post as [|y post IH]; intros l1 x k Hs Hso Hx Hb Hne Hk; (destruct k as [|k]; [simpl in Hk; lia|]); cbn [free_scan].
  - destruct Hs as (_ & _ & Hs). simpl in Hs. rewrite Hs. rewrite (proj2 (Z.ltb_lt (fst x) bp)) by done.
    rewrite (proj2 (Z.ltb_ge bp base)), (proj2 (Z.leb_le base (fst x))) by lia. simpl.
    exists (fst x). split; [done|]. exists l1, x, []. split; [done|]. split; [done|]. split; [done|]. intros y Hy. by apply elem_of_nil in Hy.
  - destruct Hs as (_ & _ & Hs). pose proof Hs as (Hp & _). rewrite Hp. apply StronglySorted_cons in Hso as [HF Hso].
    pose proof (proj1 (Forall_cons _ _ _) HF) as [[_ Hg] HF']. rewrite (proj2 (Z.ltb_lt (fst x) bp)) by done. simpl.
    destruct (Z.ltb_spec bp (fst y)) as [Hlt|Hge].
    + exists (fst x). split; [done|]. exists l1, x, (y :: post). split; [done|]. split; [done|]. split; [done|].
      intros z [->|Hz]%elem_of_cons; [done|]. apply StronglySorted_cons in Hso as [HF2 _]. rewrite Forall_forall in HF2.
      destruct (HF2 z Hz). lia.
    + rewrite (proj2 (Z.leb_gt (fst y) (fst x))) by lia. simpl. rewrite Hp in Hs.
      assert (fst y <> bp) by (apply Hne; set_solver).
      destruct (IH (l1 ++ [x]) y k Hs Hso ltac:(lia) ltac:(lia) ltac:(intros z Hz; apply Hne; set_solver) ltac:(simpl in Hk; lia)) as (q & E & Hq).
      exists q. split; [done|]. by rewrite <- app_assoc in Hq.
Qed.
(** Past the block, the search goes on to the end of the list and to [&base]. *)
Lemma scan_wrap m bp post : forall x k, seg m (fst x) (x :: post) base -> StronglySorted gap (x :: post) ->
  bp < fst x -> base < bp -> (S (length post) <= k)%nat ->
  free_scan k m bp (fst x) = free_scan (k - S (length post)) m bp base.
Proof.
  induction post as [|y post IH]; intros x k Hs Hso Hx Hb Hk; (destruct k as [|k]; [simpl in Hk; lia|]); cbn [free_scan length].
  - destruct Hs as (_ & _ & Hs). simpl in Hs. rewrite Hs. rewrite (proj2 (Z.ltb_ge (fst x) bp)), (proj2 (Z.ltb_ge bp base)) by lia.
    cbn [andb orb]. rewrite andb_false_r. replace (S k - 1)%nat with k by lia. done.
  - destruct Hs as (_ & _ & Hs). pose proof Hs as (Hp & _). rewrite Hp. apply StronglySorted_cons in Hso as [HF Hso].
    pose proof (proj1 (Forall_cons _ _ _) HF) as [[_ Hg] _]. rewrite (proj2 (Z.ltb_ge (fst x) bp)) by lia.
    rewrite (proj2 (Z.leb_gt (fst y) (fst x))) by lia. simpl. rewrite Hp in Hs.
    rewrite (IH y k Hs Hso ltac:(lia) Hb ltac:(simpl in Hk; lia)). done.
Qed.
Lemma free_scan_spec m bs brk bp n fuel : frees m bs brk -> fresh bs (bp, n) -> lo <= bp -> 1 <= n -> (2 * length bs < fuel)%nat ->
  exists q, free_scan fuel m bp (load64 m freep) = Some q /\ between bp bs q.
Proof.
  intros I Hf Hlo Hn Hfu. pose proof (st_base ST) as Hst.
  assert (forall y, y ∈ bs -> fst y <> bp) as Hne.
  { intros y Hy. destruct (fresh_sep m bs brk bp n y I Hf Hlo Hn Hy); lia. }
  destruct (fr_base _ _ _ I) as (rest & Eb & HF). pose proof (fr_freep _ _ _ I) as Hp.
  apply list_elem_of_fmap in Hp as (x & Ex & Hx). rewrite Ex. apply list_elem_of_split in Hx as (l1 & l2 & El).
  pose proof (fr_seg _ _ _ I) as Hs. rewrite El, seg_app in Hs. destruct Hs as (r & _ & Hs). pose proof Hs as (-> & _).
  pose proof (fr_sorted _ _ _ I) as Hso. rewrite El in Hso. apply StronglySorted_app in Hso as (_ & _ & Hso).
  assert (length l2 < length bs)%nat as Hl by (rewrite El, length_app; simpl; lia).
  destruct (Z.lt_trichotomy (fst x) bp) as [Hlt|[Heq|Hgt]].
  - rewrite El. apply scan_up; [done|done|done| |intros y Hy; apply Hne; rewrite El; set_solver|lia].
    destruct (fr_in _ _ _ x I ltac:(rewrite El; set_solver)) as [->|?]; simpl; lia.
  - exfalso. apply (Hne x); [rewrite El; set_solver|done].
  - rewrite (scan_wrap m bp l2 x fuel Hs Hso Hgt ltac:(lia) ltac:(lia)). rewrite Eb.
    pose proof (fr_seg _ _ _ I) as Hs0. rewrite Eb in Hs0. pose proof (fr_sorted _ _ _ I) as Hso0. rewrite Eb in Hso0.
    apply (scan_up m bp rest [] (base, 0) _ Hs0 Hso0); [simpl; lia|simpl; lia|intros y Hy; apply Hne; by rewrite Eb|].
    assert (length bs = S (length rest)) by by rewrite Eb. lia.
Qed.
(** ** Joining with the neighbours *)

(** The first conditional of free. *)
Definition join_next (m : mem) (bp nx : Z) : mem :=
  if bp + HDR * h_size m bp =? nx then
    let m := set_size m bp (u32 (h_size m bp + h_size m nx)) in
    set_ptr m bp (h_ptr m nx)
  else set_ptr m bp nx.
Definition join_prev (m : mem) (bp p : Z) : mem :=
  if p + HDR * h_size m p =? bp then
    let m := set_size m p (u32 (h_size m p + h_size m bp)) in
    set_ptr m p (h_ptr m bp)
  else set_ptr m p bp.
Lemma free_eq fuel m ap q : free_scan fuel m (ap - HDR) (load64 m freep) = Some q ->
  free freep fuel m ap = Some (store64 (join_prev (join_next m (ap - HDR) (h_ptr m q)) (ap - HDR) q) freep q).
Proof. intros E. unfold free. rewrite E. reflexivity. Qed.

Lemma seg_start m p l q : seg m p l q -> p = match l with [] => q | x :: _ => fst x end.
Proof. destruct l; [done|]. by intros (-> & _). Qed.

(** Blocks at 35-bit addresses: sizes fit in 32 bits, addresses in 64. *)
Definition fits (x : blk) : Prop := 0 <= fst x /\ 0 <= snd x /\ fst x + 16 * snd x <= 2 ^ 35.

Lemma join_next_spec m bp n nx l2 : seg m nx l2 base -> StronglySorted gap l2 -> Forall fits ((bp, n) :: l2) ->
  (forall y, y ∈ l2 -> bp + 16 * n <= fst y) -> h_size m bp = n -> 1 <= n -> base < bp ->
  exists n1 l2', n <= n1 /\ h_size (join_next m bp nx) bp = n1 /\ seg (join_next m bp nx) (h_ptr (join_next m bp nx) bp) l2' base /\
    StronglySorted gap ((bp, n1) :: l2') /\ Forall fits ((bp, n1) :: l2') /\ (forall y, y ∈ l2' -> y ∈ l2) /\ (length l2' <= length l2)%nat /\
    (forall a, covered ((bp, n1) :: l2') a <-> cell (bp, n) a \/ covered l2 a) /\
    (forall a, ~ (bp <= a < bp + 12) -> load8 (join_next m bp nx) a = load8 m a).
Proof.
  intros Hs Hso Hfit Hl Hn Hn1 Hb. pose proof (st_base ST) as Hst. pose proof (seg_start _ _ _ _ Hs) as Enx.
  apply Forall_cons in Hfit as [(_ & _ & Hf) Hfit]. simpl in Hf. unfold join_next, HDR. rewrite Hn.
  assert (forall y, y ∈ l2 -> apart bp (fst y)) as Hap by (intros y Hy; specialize (Hl y Hy); unfold apart; lia).
  destruct (Z.eqb_spec (bp + 16 * n) nx) as [Ej|Ej].
  - destruct l2 as [|[b j] l2]; [lia|]. cbn [fst] in Enx. subst nx. destruct Hs as (_ & Hj & Hs). cbn [fst snd] in *.
    apply Forall_cons in Hfit as [Hfb Hfit]. unfold fits in Hfb. simpl in Hfb.
    assert (apart bp b) as Hab by (apply (Hap (b, j)); set_solver).
    cbv zeta. rewrite Hj, (u_small 32 (n + j)) by lia. set (m1 := set_size m bp (n + j)).
    assert (h_ptr m1 b = h_ptr m b) as Ep by (apply ptr_set_size; by right). rewrite Ep.
    apply StronglySorted_cons in Hso as [HF Hso]. rewrite Forall_forall in HF.
    assert (in_u 64 (h_ptr m b)) as Hin.
    { pose proof (seg_start _ _ _ _ Hs) as ->. unfold in_u. destruct l2 as [|z l2]; [lia|].
      apply Forall_cons in Hfit as [Hz _]. destruct Hz as (? & ? & ?). lia. }
    exists (n + j), l2. split; [lia|]. split; [rewrite size_set_ptr by (by left); apply size_set_size; unfold in_u; lia|].
    split; [rewrite ptr_set_ptr by done|].
    { eapply seg_frame; [|exact Hs]. intros y Hy. assert (apart bp (fst y)) as Ha by (apply Hap; set_solver).
      rewrite ptr_set_ptr_ne, size_set_ptr by (done || by right). split; [apply ptr_set_size; by right|by apply size_set_size_ne]. }
    split; [apply StronglySorted_cons; split; [|done]; apply Forall_forall; intros y Hy; destruct (HF y Hy); unfold gap in *; simpl in *; lia|].
    split; [constructor; [unfold fits; simpl; lia|done]|]. split; [set_solver|]. split; [simpl; lia|]. split.
    + intros a. rewrite !covered_cons. unfold cell. simpl. split; [|intuition lia].
      intros [Hc|Hc]; [|by right; right]. destruct (decide (a < b)); [left; lia|right; left; lia].
    + intros a Ha. unfold m1. rewrite load8_set_ptr, load8_set_size by lia. done.
  - assert (forall y, y ∈ l2 -> bp + 16 * n < fst y) as Hlt.
    { intros y Hy. pose proof (Hl y Hy). destruct l2 as [|z l2]; [by apply elem_of_nil in Hy|]. simpl in Enx. subst nx.
      pose proof (Hl z ltac:(set_solver)). apply elem_of_cons in Hy as [->|Hy]; [lia|].
      apply StronglySorted_cons in Hso as [HF _]. rewrite Forall_forall in HF. destruct (HF y Hy). lia. }
    assert (in_u 64 nx) as Hin.
    { rewrite Enx. unfold in_u. destruct l2 as [|z l2]; [lia|]. apply Forall_cons in Hfit as [(? & ? & ?) _]. lia. }
    exists n, l2. split; [lia|]. split; [by rewrite size_set_ptr by (by left)|]. split.
    { rewrite ptr_set_ptr by done. eapply seg_frame; [|exact Hs]. intros y Hy. split; [apply ptr_set_ptr_ne|apply size_set_ptr; right]; by apply Hap. }
    split; [apply StronglySorted_cons; split; [|done]; apply Forall_forall; intros y Hy; specialize (Hlt y Hy); unfold gap; simpl; lia|].
    split; [constructor; [unfold fits; simpl; lia|done]|]. split; [done|]. split; [done|]. split; [intros a; by rewrite covered_cons|].
    intros a Ha. apply load8_set_ptr. lia.
Qed.
Lemma join_prev_spec m q k bp n l2 : seg m (h_ptr m bp) l2 base -> StronglySorted gap ((bp, n) :: l2) -> Forall fits ((q, k) :: (bp, n) :: l2) ->
  h_size m bp = n -> h_size m q = k -> q + 16 * k <= bp -> q + 16 <= bp -> 1 <= n -> base <= q ->
  exists k' r, (k' = k \/ 1 <= k' /\ q + 16 * k = bp) /\ seg (join_prev m bp q) q ((q, k') :: r) base /\ StronglySorted gap ((q, k') :: r) /\
    Forall fits ((q, k') :: r) /\ (forall y, y ∈ r -> y = (bp, n) \/ y ∈ l2) /\ (length r <= S (length l2))%nat /\ (exists y, y ∈ (q, k') :: r /\ n <= snd y) /\
    (forall a, covered ((q, k') :: r) a <-> cell (q, k) a \/ covered ((bp, n) :: l2) a) /\
    (forall a, ~ (q <= a < q + 12) -> load8 (join_prev m bp q) a = load8 m a).
Proof.
  intros Hs Hso Hfit Hn Hk Hq1 Hq2 Hn1 Hbq. pose proof (st_base ST) as Hst.
  apply Forall_cons in Hfit as [(Hf1 & Hf2 & Hf3) Hfit]. pose proof Hfit as Hfit'. apply Forall_cons in Hfit' as [(Hg1 & Hg2 & Hg3) Hfl].
  apply StronglySorted_cons in Hso as Hso'. destruct Hso' as [HF Hso2]. rewrite Forall_forall in HF. simpl in *.
  assert (apart q bp) as Hab by (unfold apart; lia).
  assert (forall y, y ∈ l2 -> apart q (fst y)) as Hap by (intros y Hy; destruct (HF y Hy) as [Hy1 Hy2]; cbn [fst snd] in Hy1, Hy2; unfold apart; idtac; lia).
  unfold join_prev, HDR. rewrite Hk. destruct (Z.eqb_spec (q + 16 * k) bp) as [Ej|Ej].
  - cbv zeta. rewrite Hn, (u_small 32 (k + n)) by lia. set (m1 := set_size m q (k + n)).
    assert (h_ptr m1 bp = h_ptr m bp) as -> by (apply ptr_set_size; by right).
    assert (in_u 64 (h_ptr m bp)) as Hin.
    { pose proof (seg_start _ _ _ _ Hs) as ->. unfold in_u. destruct l2 as [|z l2]; [lia|]. apply Forall_cons in Hfl as [(? & ? & ?) _]. lia. }
    exists (k + n), l2. split; [right; lia|]. split; [|split; [|split; [|split; [by right|split; [lia|split; [|split]]]]]].
    + split; [done|]. simpl. split; [rewrite size_set_ptr by (by left); apply size_set_size; unfold in_u; lia|].
      rewrite ptr_set_ptr by done. eapply seg_frame; [|exact Hs]. intros y Hy. specialize (Hap y Hy).
      rewrite ptr_set_ptr_ne, size_set_ptr by (done || by right). split; [apply ptr_set_size; by right|by apply size_set_size_ne].
    + apply StronglySorted_cons. split; [|done]. apply Forall_forall. intros y Hy. destruct (HF y Hy). unfold gap. simpl in *. lia.
    + constructor; [unfold fits; simpl; lia|done].
    + exists (q, k + n). split; [set_solver|simpl; lia].
    + intros a. rewrite !covered_cons. unfold cell. simpl. split; [|intuition lia].
      intros [Hc|Hc]; [|by right; right]. destruct (decide (a < bp)); [left; lia|right; left; lia].
    + intros a Ha. unfold m1. rewrite load8_set_ptr, load8_set_size by lia. done.
  - assert (in_u 64 bp) as Hin by (unfold in_u; lia).
    exists k, ((bp, n) :: l2). split; [by left|]. split; [|split; [|split; [|split; [|split; [done|split; [|split]]]]]].
    + split; [done|]. simpl. split; [by rewrite size_set_ptr by (by left)|]. rewrite ptr_set_ptr by done. split; [done|].
      split; [by rewrite size_set_ptr by (by right)|]. rewrite ptr_set_ptr_ne by done. eapply seg_frame; [|exact Hs].
      intros y Hy. split; [apply ptr_set_ptr_ne|apply size_set_ptr; right]; by apply Hap.
    + apply StronglySorted_cons. split; [|done]. apply Forall_forall. intros y [->|Hy]%elem_of_cons; [unfold gap; simpl; lia|].
      destruct (HF y Hy). unfold gap. simpl in *. lia.
    + constructor; [unfold fits; simpl; lia|done].
    + intros y [->|Hy]%elem_of_cons; [by left|by right].
    + exists (bp, n). split; [set_solver|simpl; lia].
    + intros a. by rewrite covered_cons.
    + intros a Ha. apply load8_set_ptr. lia.
Qed.

(** free adds exactly the cells of the block to the free ones, and writes only
    to free cells and to its own variables. *)
Lemma free_spec m bs brk bp n fuel : frees m bs brk -> fresh bs (bp, n) -> lo <= bp -> 1 <= n -> bp + 16 * n <= brk ->
  h_size m bp = n -> (2 * length bs < fuel)%nat ->
  exists m' bs', free freep fuel m (bp + HDR) = Some m' /\ frees m' bs' brk /\
    (forall a, covered bs' a <-> covered bs a \/ cell (bp, n) a) /\
    (forall a, lo <= a -> ~ covered bs' a -> load8 m' a = load8 m a) /\ (length bs' <= S (length bs))%nat /\
    exists y, y ∈ bs' /\ n <= snd y.
Proof.
  intros I Hfr Hlo Hn Hb Hsz Hfu. pose proof (st_base ST) as Hst. pose proof (st_freep ST) as Hst2. pose proof (st_apart ST) as Hst3.
  destruct (free_scan_spec m bs brk bp n fuel I Hfr Hlo Hn Hfu) as (q & Eq & l1 & [q' k] & l2 & El & Hq & Hlt & Hl2). cbn [fst] in Hq. subst q'.
  assert (bp + HDR - HDR = bp) as Ebp by (unfold HDR; lia). rewrite (free_eq fuel m (bp + HDR) q) by (by rewrite Ebp). rewrite Ebp.
  assert (forall y, y ∈ bs -> fits y) as Hfits.
  { intros y Hy. pose proof (fr_brk _ _ _ I). destruct (fr_in _ _ _ _ I Hy) as [->|?]; unfold fits; simpl; lia. }
  pose proof (fresh_sep m bs brk bp n) as Hsep.
  assert ((q, k) ∈ bs) as Hqin by (rewrite El; set_solver).
  assert (forall y, y ∈ l1 -> y ∈ bs) as Hin_l1 by (intros y Hy; rewrite El; apply elem_of_app; by left).
  assert (forall y, y ∈ l2 -> y ∈ bs) as Hin_l2 by (intros y Hy; rewrite El; apply elem_of_app; right; apply elem_of_cons; by right).
  assert (q + 16 * k <= bp /\ q + 16 <= bp) as [Hx1 Hx2].
  { destruct (Hsep (q, k) I Hfr Hlo Hn Hqin) as [?|?]; simpl in *; lia. }
  pose proof (fr_seg _ _ _ I) as Hs. rewrite El, seg_app in Hs. destruct Hs as (r & Hs1 & Hs2). pose proof Hs2 as (-> & Hk & Hs2').
  cbn [fst snd] in Hk, Hs1, Hs2, Hs2'.
  pose proof (fr_sorted _ _ _ I) as Hso. rewrite El in Hso. apply StronglySorted_app in Hso as (Hg & Hso1 & Hso2).
  apply StronglySorted_cons in Hso2 as [Hgx Hso2]. rewrite Forall_forall in Hgx.
  assert (base <= q) as Hbq by (destruct (fr_in _ _ _ (q, k) I Hqin) as [[= -> ->]|?]; simpl in *; lia).
  destruct (join_next_spec m bp n (h_ptr m q) l2 Hs2' Hso2) as (n1 & l2' & Hn1 & Hz1 & Hsg1 & Hss1 & Hft1 & Hin1 & Hlen1 & Hcov1 & Hfrm1);
    [constructor; [unfold fits; simpl; pose proof (fr_brk _ _ _ I); lia|apply Forall_forall; intros y Hy; by apply Hfits, Hin_l2]
    | |done|done|lia|].
  { intros y Hy. destruct (Hsep y I Hfr Hlo Hn (Hin_l2 y Hy)) as [?|?]; [specialize (Hl2 y Hy); lia|done]. }
  set (m1 := join_next m bp (h_ptr m q)) in *.
  assert (forall p, (p + 12 <= bp \/ bp + 12 <= p) -> h_ptr m1 p = h_ptr m p /\ h_size m1 p = h_size m p) as Hh1.
  { intros p Hp. apply header_ext. intros i Hi. apply Hfrm1. lia. }
  destruct (join_prev_spec m1 q k bp n1 l2' Hsg1 Hss1) as (k' & r & Hk' & Hsg2 & Hss2 & Hft2 & Hin2 & Hlen2 & (ybig & Hyb1 & Hyb2) & Hcov2 & Hfrm2);
    [constructor; [by apply Hfits|done]|done|rewrite (proj2 (Hh1 q ltac:(lia))); done|done|done|lia|done|].
  set (m2 := join_prev m1 bp q) in *. set (m3 := store64 m2 freep q). exists m3, (l1 ++ (q, k') :: r). split; [done|].
  assert (forall a, a < freep \/ freep + 8 <= a -> load8 m3 a = load8 m2 a) as Hfrm3 by (intros a Ha; by apply load8_store64_out).
  assert (forall y, y ∈ l1 -> fst y + 16 <= q /\ base <= fst y) as Hl1.
  { intros y Hy. destruct (Hg y (q, k) Hy ltac:(clear; set_solver)) as [_ Hyq]. simpl in Hyq. split; [done|].
    destruct (fr_in _ _ _ y I (Hin_l1 y Hy)) as [->|?]; simpl in *; lia. }
  assert (forall a, covered (l1 ++ (q, k') :: r) a <-> covered bs a \/ cell (bp, n) a) as Hcov.
  { intros a. rewrite El, !covered_app, (covered_cons (q, k) l2), Hcov2, Hcov1. tauto. }
  assert (forall a, covered bs a -> lo <= a < brk) as Hcb.
  { intros a (y & Hy & Hc). unfold cell in Hc. destruct (fr_in _ _ _ y I Hy) as [->|?]; simpl in *; lia. }
  assert (forall y, y ∈ (q, k') :: r -> 1 <= snd y -> lo <= fst y /\ fst y + 16 * snd y <= brk) as Hnew.
  { intros y Hy Hy1. assert (forall a, cell y a -> lo <= a < brk) as Hc.
    { intros a Ha. assert (covered bs a \/ cell (bp, n) a) as [?|Hc] by (apply Hcov, covered_app; right; by exists y); [by apply Hcb|].
      unfold cell in Hc. simpl in Hc. lia. }
    pose proof (Hc (fst y) ltac:(unfold cell; lia)). pose proof (Hc (fst y + 16 * snd y - 1) ltac:(unfold cell; lia)). lia. }
  assert (forall y, y ∈ r -> 1 <= snd y /\ q < fst y) as Hr.
  { intros y Hy. destruct (Hin2 y Hy) as [->|Hy2]; [simpl; lia|]. apply Hin1 in Hy2. specialize (Hl2 y Hy2).
    destruct (fr_in _ _ _ y I (Hin_l2 y Hy2)) as [->|?]; simpl in *; lia. }
  assert (forall y, y ∈ l1 ++ (q, k') :: r -> fst y = base \/ lo <= fst y) as Hpos.
  { intros y [Hy|[->|Hy]%elem_of_cons]%elem_of_app.
    - destruct (fr_in _ _ _ y I (Hin_l1 y Hy)) as [->|?]; simpl; lia.
    - destruct (fr_in _ _ _ (q, k) I Hqin) as [[= -> ->]|?]; simpl in *; lia.
    - destruct (Hr y Hy). destruct (Hnew y ltac:(clear -Hy; set_solver)); lia. }
  assert (forall p, (p = base \/ lo <= p) -> h_ptr m3 p = h_ptr m2 p /\ h_size m3 p = h_size m2 p) as Hh3.
  { intros p Hp. apply header_ext. intros i Hi. apply load8_store64_out. lia. }
  split; [split|split; [done|split; [|split]]].
  - destruct (fr_base _ _ _ I) as (rest & Eb & HF). destruct l1 as [|z l1].
    + simpl in El. rewrite El in Eb. injection Eb as -> -> ->. assert (k' = 0) as -> by lia. exists r. split; [done|].
      apply Forall_forall. intros y Hy. destruct (Hr y Hy). destruct (Hnew y ltac:(clear -Hy; set_solver)); [lia|]. lia.
    + simpl in El. rewrite El in Eb. injection Eb as -> <-. exists (l1 ++ (q, k') :: r). split; [done|].
      rewrite Forall_app, Forall_cons in HF. destruct HF as (HF1 & (Hq1 & Hq2 & _) & _). apply Forall_app. split; [done|].
      simpl in Hq2. apply Forall_forall. intros y Hy. assert (1 <= snd y) by (apply elem_of_cons in Hy as [->|Hy]; [simpl; lia|by apply Hr]).
      destruct (Hnew y Hy); lia.
  - apply seg_app. exists q. split.
    + eapply seg_frame; [|exact Hs1]. intros y Hy. destruct (Hl1 y Hy).
      destruct (Hh3 (fst y) (Hpos y ltac:(clear -Hy; set_solver))) as [-> ->].
      assert (h_ptr m2 (fst y) = h_ptr m1 (fst y) /\ h_size m2 (fst y) = h_size m1 (fst y)) as [-> ->] by (apply header_ext; intros; apply Hfrm2; lia).
      apply Hh1. lia.
    + eapply seg_frame; [|exact Hsg2]. intros y Hy. apply Hh3, Hpos. clear -Hy. set_solver.
  - apply StronglySorted_app. split; [|split; done]. intros y z Hy Hz. destruct (Hg y (q, k) Hy ltac:(clear; set_solver)) as [Hyq1 Hyq2].
    unfold gap. simpl in Hyq1, Hyq2. apply elem_of_cons in Hz as [->|Hz]; [simpl; lia|]. destruct (Hr z Hz). lia.
  - unfold m3. rewrite load64_store64, Z.mod_small by (destruct (Hfits (q, k) Hqin) as (? & ? & ?); simpl in *; lia).
    rewrite fmap_app. simpl. clear. set_solver.
  - apply I.
  - intros a Ha Hc. rewrite Hfrm3 by lia. unfold m2. rewrite Hfrm2.
    + apply Hfrm1. intros Hi. apply Hc, Hcov. right. unfold cell. simpl. lia.
    + intros Hi. apply Hc, covered_app. right. apply covered_cons. left. unfold cell. simpl.
      destruct (fr_in _ _ _ (q, k) I Hqin) as [[= -> ->]|?]; simpl in *; lia.
  - rewrite El, !length_app. simpl. lia.
  - exists ybig. split; [clear -Hyb1; set_solver|lia].
Qed.
(** ** Taking a block off the list *)

(** What malloc does to a block that is large enough, before it sets freep. *)
Definition take (m : mem) (prevp p nu : Z) : mem * Z :=
  if h_size m p =? nu then (set_ptr m prevp (h_ptr m p), p)
  else
    let m := set_size m p (u32 (h_size m p - nu)) in
    let p := p + HDR * h_size m p in
    (set_size m p nu, p).

(** The free list with the block [y] replaced by the blocks [mid], none or its
    lower part. *)
Lemma frees_replace m m' l1 x y mid l2 brk : frees m (l1 ++ x :: y :: l2) brk ->
  (mid = [] \/ exists k, mid = [(fst y, k)] /\ 1 <= k <= snd y) -> seg m' base (l1 ++ x :: mid ++ l2) base ->
  load64 m' freep = fst x -> frees m' (l1 ++ x :: mid ++ l2) brk.
Proof.
  intros I Hm Hs Hfp. destruct (fr_base _ _ _ I) as (rest & Eb & HF).
  assert (y <> (base, 0)) as Hy0.
  { intros ->. pose proof (fr_sorted _ _ _ I) as Hso. apply StronglySorted_app in Hso as (_ & _ & [HF0 _]%StronglySorted_cons).
    apply Forall_cons in HF0 as [[Hg _] _]. pose proof (st_base ST). simpl in Hg.
    destruct (fr_in _ _ _ x I ltac:(clear; set_solver)) as [->|?]; simpl in *; lia. }
  assert (lo <= fst y /\ 1 <= snd y /\ fst y + 16 * snd y <= brk) as Hy by (destruct (fr_in _ _ _ y I ltac:(clear; set_solver)); [done|lia]).
  assert (Forall (fun z : blk => lo <= fst z /\ 1 <= snd z /\ fst z + 16 * snd z <= brk) mid) as Hmid.
  { destruct Hm as [->|(k & -> & Hk)]; repeat constructor; simpl; lia. }
  split; [|done| |rewrite Hfp, fmap_app; simpl; clear; set_solver|apply I].
  - destruct l1 as [|z l1]; simpl in Eb; injection Eb as -> <-.
    + exists (mid ++ l2). split; [done|]. apply Forall_cons in HF as [_ HF]. by apply Forall_app.
    + exists (l1 ++ x :: mid ++ l2). split; [done|]. rewrite Forall_app, Forall_cons in HF. destruct HF as (HF1 & Hx & HF2).
      apply Forall_cons in HF2 as [_ HF2]. rewrite Forall_app, Forall_cons, Forall_app. done.
  - pose proof (fr_sorted _ _ _ I) as Hso. apply StronglySorted_app in Hso as (Hg & Hso1 & Hso2). apply StronglySorted_cons in Hso2 as [HFx Hso2].
    apply StronglySorted_cons in Hso2 as [HFy Hso2]. apply Forall_cons in HFx as [Hxy HFx].
    assert (StronglySorted gap (mid ++ l2) /\ Forall (gap x) mid /\ forall z, z ∈ l1 -> Forall (gap z) mid) as (S1 & S2 & S3).
    { destruct Hm as [->|(k & -> & Hk)]; [done|]. split; [|split].
      - simpl. apply StronglySorted_cons. split; [|done]. eapply Forall_impl; [exact HFy|]. unfold gap. simpl. intros z. lia.
      - repeat constructor; unfold gap in *; simpl; lia.
      - intros z Hz. destruct (Hg z y Hz ltac:(clear; set_solver)). repeat constructor; simpl; lia. }
    apply StronglySorted_app. split; [|split; [done|]].
    + intros z z' Hz [->|[Hz'|Hz']%elem_of_app]%elem_of_cons; [apply Hg; [done|clear; set_solver]| |apply Hg; [done|clear -Hz'; set_solver]].
      specialize (S3 z Hz). rewrite Forall_forall in S3. by apply S3.
    + apply StronglySorted_cons. split; [by apply Forall_app|done].
Qed.

(** Distinct blocks of the list have no common cell. *)
Lemma cells_disjoint m l1 y l2 brk a : frees m (l1 ++ y :: l2) brk -> cell y a -> ~ covered (l1 ++ l2) a.
Proof.
  intros I Hc Hcov. pose proof (fr_sorted _ _ _ I) as Hso. apply StronglySorted_app in Hso as (Hg & _ & [HF _]%StronglySorted_cons).
  rewrite Forall_forall in HF. unfold cell in Hc. apply covered_app in Hcov as [(z & Hz & Hcz)|(z & Hz & Hcz)]; unfold cell in Hcz.
  - destruct (Hg z y Hz ltac:(clear; set_solver)). lia.
  - destruct (HF z Hz). lia.
Qed.

(** The list with the header of [x] rewritten. *)
Lemma seg_replace m m' l1 x y mid l2 brk : frees m (l1 ++ x :: y :: l2) brk ->
  (forall z, z ∈ l1 ++ l2 -> h_ptr m' (fst z) = h_ptr m (fst z) /\ h_size m' (fst z) = h_size m (fst z)) ->
  h_size m' (fst x) = snd x -> seg m' (h_ptr m' (fst x)) mid (h_ptr m (fst y)) ->
  seg m' base (l1 ++ x :: mid ++ l2) base.
Proof.
  intros I Hfr Hx Hmid. pose proof (fr_seg _ _ _ I) as Hs. apply seg_app in Hs as (r & Hs1 & Hs2). destruct Hs2 as (-> & _ & Hs2).
  destruct Hs2 as (_ & _ & Hs2). apply seg_app. exists (fst x). split; [eapply seg_frame; [|exact Hs1]; intros z Hz; apply Hfr; clear -Hz; set_solver|].
  split; [done|]. split; [done|]. apply seg_app. exists (h_ptr m (fst y)). split; [done|].
  eapply seg_frame; [|exact Hs2]. intros z Hz. apply Hfr. clear -Hz. set_solver.
Qed.
(** Headers of the list are 16 bytes apart, and apart from freep. *)
Lemma headers_apart m l1 x l2 brk z : frees m (l1 ++ x :: l2) brk -> z ∈ l1 ++ l2 -> apart (fst x) (fst z).
Proof.
  intros I Hz. pose proof (fr_sorted _ _ _ I) as Hso. apply StronglySorted_app in Hso as (Hg & _ & [HF _]%StronglySorted_cons).
  rewrite Forall_forall in HF. unfold apart. apply elem_of_app in Hz as [Hz|Hz].
  - destruct (Hg z x Hz ltac:(clear; set_solver)). lia.
  - destruct (HF z Hz). lia.
Qed.
Lemma set_freep_header m q p : p = base \/ lo <= p -> h_ptr (store64 m freep q) p = h_ptr m p /\ h_size (store64 m freep q) p = h_size m p.
Proof.
  intros Hp. pose proof (st_freep ST). pose proof (st_apart ST). pose proof (st_base ST).
  apply header_ext. intros i Hi. apply load8_store64_out. lia.
Qed.

Lemma take_spec m l1 x y l2 brk nu m' p' : frees m (l1 ++ x :: y :: l2) brk -> 1 <= nu <= snd y ->
  take m (fst x) (fst y) nu = (m', p') ->
  exists bs', frees (store64 m' freep (fst x)) bs' brk /\ (length bs' <= length (l1 ++ x :: y :: l2))%nat /\
    (forall a, covered (l1 ++ x :: y :: l2) a <-> covered bs' a \/ cell (p', nu) a) /\ fresh bs' (p', nu) /\
    h_size (store64 m' freep (fst x)) p' = nu /\ lo <= p' /\ p' + 16 * nu <= brk /\
    (forall a, lo <= a -> ~ covered (l1 ++ x :: y :: l2) a -> load8 (store64 m' freep (fst x)) a = load8 m a).
Proof.
  intros I Hnu Ht. pose proof (st_base ST) as Hst. pose proof (st_freep ST) as Hst2. pose proof (fr_brk _ _ _ I) as Hbrk.
  assert (forall z, z ∈ l1 ++ x :: y :: l2 -> fst z = base \/ lo <= fst z) as Hpos.
  { intros z Hz. destruct (fr_in _ _ _ z I Hz) as [->|?]; [by left|right; lia]. }
  assert (lo <= fst y /\ fst y + 16 * snd y <= brk) as [Hy1 Hy2].
  { destruct (fr_in _ _ _ y I ltac:(clear; set_solver)) as [->|?]; simpl in *; lia. }
  assert (forall z, z ∈ l1 ++ x :: l2 -> apart (fst y) (fst z)) as Hapy.
  { intros z Hz. apply (headers_apart m (l1 ++ [x]) y l2 brk z); [by rewrite <- app_assoc|clear -Hz; set_solver]. }
  pose proof (fun z Hz => headers_apart m l1 x (y :: l2) brk z I Hz) as Hapx.
  pose proof (fr_seg _ _ _ I) as Hs. apply seg_app in Hs as (r & _ & Hs). destruct Hs as (-> & Hzx & Hs).
  pose proof Hs as (Hpx & Hzy & _).
  assert (0 <= fst x < 2 ^ 64) as Hxr by (destruct (fr_in _ _ _ x I ltac:(clear; set_solver)) as [->|?]; simpl in *; lia).
  assert (forall a, cell y a -> ~ covered (l1 ++ x :: l2) a) as Hdy.
  { intros a Ha Hc. apply (cells_disjoint m (l1 ++ [x]) y l2 brk a); [by rewrite <- app_assoc|done|by rewrite <- app_assoc]. }
  unfold take in Ht. rewrite Hzy in Ht. destruct (Z.eqb_spec (snd y) nu) as [En|En].
  - injection Ht as <- <-. set (m1 := set_ptr m (fst x) (h_ptr m (fst y))).
    assert (in_u 64 (h_ptr m (fst y))) as Hin.
    { destruct Hs as (_ & _ & Hs). rewrite (seg_start _ _ _ _ Hs). unfold in_u. destruct l2 as [|z l2]; [lia|].
      destruct (fr_in _ _ _ z I ltac:(clear; set_solver)) as [->|?]; simpl in *; lia. }
    exists (l1 ++ x :: [] ++ l2). split; [|split; [rewrite !length_app; simpl; lia|split; [|split; [|split; [|split; [done|split; [lia|]]]]]]].
    + apply (frees_replace m _ l1 x y [] l2 brk I); [by left| |rewrite load64_store64; apply Z.mod_small; lia].
      apply (seg_replace m _ l1 x y [] l2 brk I).
      * intros z Hz. destruct (set_freep_header m1 (fst x) (fst z)) as [-> ->]; [apply Hpos; clear -Hz; set_solver|].
        assert (apart (fst x) (fst z)) as Hap by (apply Hapx; clear -Hz; set_solver).
        split; [by apply ptr_set_ptr_ne|apply size_set_ptr; by right].
      * rewrite (proj2 (set_freep_header m1 (fst x) (fst x) ltac:(apply Hpos; clear; set_solver))). unfold m1. by rewrite size_set_ptr by (by left).
      * simpl. rewrite (proj1 (set_freep_header m1 (fst x) (fst x) ltac:(apply Hpos; clear; set_solver))). unfold m1. by rewrite ptr_set_ptr.
    + intros a. cbn [app]. rewrite !covered_app, !covered_cons. unfold cell. simpl. rewrite En. tauto.
    + intros a Ha. apply Hdy. unfold cell in *. simpl in Ha. lia.
    + rewrite (proj2 (set_freep_header m1 (fst x) (fst y) ltac:(by right))). unfold m1. rewrite size_set_ptr; [congruence|].
      right. apply Hapx. clear. set_solver.
    + intros a Ha Hc. rewrite load8_store64_out by lia. apply load8_set_ptr.
      destruct (fr_in _ _ _ x I ltac:(clear; set_solver)) as [->|(H1 & H2 & H3)]; [simpl; lia|].
      destruct (decide (fst x <= a < fst x + 8)); [|lia]. exfalso. apply Hc. exists x. split; [clear; set_solver|unfold cell; lia].
  - cbv zeta in Ht. rewrite (u_small 32) in Ht by lia. set (k := snd y - nu) in *. set (m1 := set_size m (fst y) k) in *.
    assert (h_size m1 (fst y) = k) as Hk by (apply size_set_size; unfold in_u; lia). rewrite Hk in Ht. injection Ht as <- <-.
    unfold HDR. set (bp := fst y + 16 * k). set (m2 := set_size m1 bp nu).
    assert (forall z, z ∈ l1 ++ x :: l2 -> apart bp (fst z)) as Hapb.
    { intros z Hz. unfold apart. pose proof (Hapy z Hz) as Ha. destruct (decide (fst z <= fst y)); [unfold apart in Ha; lia|].
      destruct (decide (bp + 16 <= fst z)) as [|Hlt]; [by left|]. exfalso. apply (Hdy (fst z)); [unfold cell; unfold apart in Ha; lia|].
      exists z. split; [done|]. unfold cell. destruct (fr_in _ _ _ z I ltac:(clear -Hz; set_solver)) as [->|?]; simpl in *; lia. }
    exists (l1 ++ x :: [(fst y, k)] ++ l2). split; [|split; [rewrite !length_app; simpl; lia|split; [|split; [|split; [|split; [lia|split; [lia|]]]]]]].
    + apply (frees_replace m _ l1 x y _ l2 brk I); [right; exists k; split; [done|lia]| |rewrite load64_store64; apply Z.mod_small; lia].
      apply (seg_replace m _ l1 x y _ l2 brk I).
      * intros z Hz. destruct (set_freep_header m2 (fst x) (fst z)) as [-> ->]; [apply Hpos; clear -Hz; set_solver|].
        assert (z ∈ l1 ++ x :: l2) as Hz' by (clear -Hz; set_solver). unfold m2, m1.
        rewrite ptr_set_size, ptr_set_size by (right; by auto). rewrite size_set_size_ne, size_set_size_ne by (by auto). done.
      * rewrite (proj2 (set_freep_header m2 (fst x) (fst x) ltac:(apply Hpos; clear; set_solver))). unfold m2, m1.
        assert (x ∈ l1 ++ x :: l2) by (clear; set_solver). rewrite !size_set_size_ne by auto. done.
      * rewrite (proj1 (set_freep_header m2 (fst x) (fst x) ltac:(apply Hpos; clear; set_solver))).
        assert (x ∈ l1 ++ x :: l2) as Hx by (clear; set_solver).
        assert (h_ptr m2 (fst x) = fst y) as ->.
        { unfold m2, m1. rewrite ptr_set_size by (right; by apply Hapb). rewrite ptr_set_size by (right; by apply Hapy). done. }
        simpl. split; [done|].
        destruct (set_freep_header m2 (fst x) (fst y) ltac:(by right)) as [-> ->]. unfold m2.
        assert (apart bp (fst y)) by (unfold apart, bp; lia). rewrite size_set_size_ne, ptr_set_size by (done || by right).
        split; [done|]. unfold m1. by rewrite ptr_set_size by (by left).
    + intros a. cbn [app]. rewrite !covered_app, !covered_cons. unfold cell. simpl. unfold bp, k. destruct (decide (a < fst y + 16 * (snd y - nu))); intuition lia.
    + intros a Ha. cbn [app]. rewrite covered_app, !covered_cons. unfold cell in Ha. simpl in Ha.
      assert (cell y a) as Hcy by (unfold cell; lia). pose proof (Hdy a Hcy) as Hn. rewrite covered_app, covered_cons in Hn.
      unfold cell at 2. simpl. intuition lia.
    + rewrite (proj2 (set_freep_header m2 (fst x) bp ltac:(right; lia))). apply size_set_size. unfold in_u. lia.
    + intros a Ha Hc. rewrite load8_store64_out by lia. unfold m2, m1.
      assert (~ cell y a) as Hn by (intros Hcy; apply Hc; exists y; split; [clear; set_solver|done]). unfold cell in Hn.
      rewrite load8_set_size by lia. apply load8_set_size. lia.
Qed.

(** The list depends on the variables below the heap and on the free cells. *)
Lemma frees_ext m m' bs brk brk' : frees m bs brk -> (forall a, a < lo \/ covered bs a -> load8 m' a = load8 m a) ->
  brk <= brk' <= 2 ^ 35 -> frees m' bs brk'.
Proof.
  intros I He Hb. pose proof (st_base ST) as Hst. pose proof (st_freep ST) as Hst2. destruct (fr_base _ _ _ I) as (rest & Eb & HF).
  split; [|eapply seg_frame; [|apply I]|apply I| |pose proof (fr_brk _ _ _ I); lia].
  - exists rest. split; [done|]. eapply Forall_impl; [exact HF|]. simpl. intros x. lia.
  - intros y Hy. apply header_ext. intros i Hi. apply He. destruct (fr_in _ _ _ y I Hy) as [->|?]; [left; simpl in *; lia|right].
    exists y. split; [done|]. unfold cell. lia.
  - replace (load64 m' freep) with (load64 m freep); [apply I|]. symmetry. apply load64_ext. intros i Hi. apply He. left. lia.
Qed.
Lemma covered_bounds m bs brk a : frees m bs brk -> covered bs a -> lo <= a < brk.
Proof. intros I (y & Hy & Hc). unfold cell in Hc. destruct (fr_in _ _ _ y I Hy) as [->|?]; simpl in *; lia. Qed.

(** ** The walk of malloc around the list *)

(** The blocks [vs] follow [x] in the circular list [bs]. *)
Fixpoint chain (m : mem) (bs : list blk) (x : blk) (vs : list blk) : Prop :=
  match vs with
  | [] => True
  | v :: vs => h_ptr m (fst x) = fst v /\ h_size m (fst v) = snd v /\
      (v = (base, 0) \/ exists l1 l2, bs = l1 ++ x :: v :: l2) /\ chain m bs v vs
  end.
Lemma chain_app m bs l1 l2 : forall x, chain m bs x (l1 ++ l2) <-> chain m bs x l1 /\ chain m bs (default x (last l1)) l2.
Proof.
  induction l1 as [|v l1 IH]; intros x; [simpl; tauto|]. cbn [app chain]. rewrite IH, last_cons.
  destruct (last l1); simpl; tauto.
Qed.
Lemma seg_chain m bs post : forall l1 x, bs = l1 ++ x :: post -> seg m (fst x) (x :: post) base ->
  chain m bs x post /\ h_ptr m (fst (default x (last post))) = base.
Proof.
  induction post as [|v post IH]; intros l1 x E Hs; destruct Hs as (_ & _ & Hs); [by split|].
  pose proof Hs as (Hp & Hz & _). rewrite Hp in Hs.
  destruct (IH (l1 ++ [x]) v ltac:(by rewrite <- app_assoc) Hs) as [IH1 IH2]. split.
  - cbn [chain]. split; [done|]. split; [done|]. split; [right; by exists l1, post|done].
  - rewrite last_cons. destruct (last post); done.
Qed.
(** All the blocks, from the one after freep around to freep. *)
Lemma circle m bs brk : frees m bs brk -> exists f vs, fst f = load64 m freep /\ chain m bs f (vs ++ [f]) /\
  (forall v, v ∈ vs -> fst v <> load64 m freep) /\ bs ≡ₚ f :: vs.
Proof.
  intros I. pose proof (fr_freep _ _ _ I) as Hp. apply list_elem_of_fmap in Hp as (f & Ef & Hf).
  apply list_elem_of_split in Hf as (pre & post & El). exists f, (post ++ pre). split; [done|].
  pose proof (fr_seg _ _ _ I) as Hs. pose proof Hs as Hs0. rewrite El, seg_app in Hs. destruct Hs as (r & _ & Hs). pose proof Hs as (-> & _).
  destruct (seg_chain m bs post pre f El Hs) as [C1 E1]. destruct (fr_base _ _ _ I) as (rest & Eb & _).
  split; [|split].
  - rewrite <- app_assoc. apply chain_app. split; [done|].
    assert (exists t, pre ++ [f] = (base, 0) :: t /\ rest = t ++ post) as (t & -> & Er).
    { destruct pre as [|z pre]; simpl in El; rewrite El in Eb; injection Eb as -> <-; [by exists []|].
      exists (pre ++ [f]). split; [done|]. by rewrite <- app_assoc. }
    rewrite Eb in Hs0. destruct (seg_chain m bs rest [] (base, 0) Eb Hs0) as [C2 _]. rewrite Er in C2. apply chain_app in C2 as [C2 _].
    cbn [chain]. split; [done|]. split; [apply Hs0|]. split; [by left|done].
  - intros v Hv. rewrite Ef. pose proof (headers_apart m pre f post brk v) as Ha. rewrite <- El in Ha.
    destruct (Ha I ltac:(clear -Hv; set_solver)); lia.
  - rewrite El. rewrite <- Permutation_middle. by rewrite (Permutation_app_comm pre post).
Qed.

(** ** malloc *)
Section Malloc.
Context {W : Type} `{OW : Os W}.
Variable fuel : nat.

(** What sbrk promises: nothing happens, or the break moves up by [n] and the
    old break is returned.  The limit is far above the memory of the machine. *)
Class Breaks := {
  brk : W -> Z;
  sbrk_ok : forall n w r bs w', 0 < n -> sys (Sys_sbrk n SBRK_EAGER) w = (r, bs, w') ->
    (r = -1 /\ brk w' = brk w) \/ (r = brk w /\ brk w' = brk w + n /\ brk w' <= 2 ^ 35);
}.
Context `{BW : Breaks}.

(** morecore, and the search again from the new freep *)
Definition grow (k : nat) (nu : Z) : U W Z :=
  p ← morecore freep fuel nu;
  if p =? 0 then mret 0 else m ← umem; malloc_loop freep fuel k nu p (h_ptr m p).

(** The search found a block. *)
Definition found (m : mem) (bs : list blk) (nu : Z) (w : W) (r : ures W Z) : Prop :=
  exists l1 x y l2 m' p, bs = l1 ++ x :: y :: l2 /\ nu <= snd y /\ take m (fst x) (fst y) nu = (m', p) /\
    r = URet (p + HDR) (store64 m' freep (fst x)) w.

Lemma loop_fits m bs nu w x y k : h_ptr m (fst x) = fst y -> h_size m (fst y) = snd y ->
  (y = (base, 0) \/ exists l1 l2, bs = l1 ++ x :: y :: l2) -> 1 <= nu -> nu <= snd y ->
  found m bs nu w (malloc_loop freep fuel (S k) nu (fst x) (h_ptr m (fst x)) m w).
Proof.
  intros Hp Hz [->|(l1 & l2 & El)] Hnu Hle; [simpl in Hle; lia|]. rewrite Hp.
  destruct (take m (fst x) (fst y) nu) as [m' p] eqn:Et. exists l1, x, y, l2, m', p. split; [done|]. split; [done|]. split; [done|].
  cbn [malloc_loop]. rewrite (ubind_ret umem _ m w m m w eq_refl). rewrite (proj2 (Z.leb_le nu (h_size m (fst y)))) by lia.
  unfold take in Et. cbv zeta in *. destruct (h_size m (fst y) =? nu); injection Et as <- <-; reflexivity.
Qed.
(** One turn: a block that fits is taken; otherwise the search goes on until it
    is back at freep. *)
Lemma loop_chain m bs nu w f vs : forall x k, chain m bs x (vs ++ [f]) -> fst f = load64 m freep ->
  (forall v, v ∈ vs -> fst v <> load64 m freep) -> 1 <= nu -> (length vs < k)%nat ->
  found m bs nu w (malloc_loop freep fuel k nu (fst x) (h_ptr m (fst x)) m w) \/
  (forall v, v ∈ f :: vs -> snd v < nu) /\
  malloc_loop freep fuel k nu (fst x) (h_ptr m (fst x)) m w = grow (k - S (length vs)) nu m w.
Proof.
  induction vs as [|v vs IH]; intros x k Hc Ef Hv Hnu Hk; (destruct k as [|k]; [simpl in Hk; lia|]); destruct Hc as (Hp & Hz & Hin & Hc).
  - destruct (decide (nu <= snd f)) as [Hle|Hgt]; [left; by apply (loop_fits m bs nu w x f k)|right]. split.
    { intros v [->|Hx]%elem_of_cons; [lia|by apply elem_of_nil in Hx]. }
    rewrite Hp. cbn [malloc_loop length]. rewrite (ubind_ret umem _ m w m m w eq_refl).
    rewrite (proj2 (Z.leb_gt nu (h_size m (fst f)))), Ef, Z.eqb_refl by lia. by rewrite Nat.sub_succ, Nat.sub_0_r.
  - destruct (decide (nu <= snd v)) as [Hle|Hgt]; [left; by apply (loop_fits m bs nu w x v k)|].
    assert (malloc_loop freep fuel (S k) nu (fst x) (h_ptr m (fst x)) m w = malloc_loop freep fuel k nu (fst v) (h_ptr m (fst v)) m w) as ->.
    { rewrite Hp. cbn [malloc_loop]. rewrite (ubind_ret umem _ m w m m w eq_refl).
      rewrite (proj2 (Z.leb_gt nu (h_size m (fst v)))) by lia. rewrite (proj2 (Z.eqb_neq (fst v) (load64 m freep))); [done|].
      apply Hv. clear; set_solver. }
    destruct (IH v k Hc Ef ltac:(intros z Hz'; apply Hv; clear -Hz'; set_solver) Hnu ltac:(simpl in Hk; lia)) as [?|[Hs E]]; [by left|right].
    split; [|done]. intros z Hz'. destruct (decide (z = v)) as [->|Hne]; [lia|]. apply Hs. clear -Hz' Hne. set_solver.
Qed.
Lemma search m bs b nu w k : frees m bs b -> 1 <= nu -> (length bs <= k)%nat ->
  let r := malloc_loop freep fuel k nu (load64 m freep) (h_ptr m (load64 m freep)) m w in
  found m bs nu w r \/ (forall v, v ∈ bs -> snd v < nu) /\ r = grow (k - length bs) nu m w.
Proof.
  intros I Hnu Hk. destruct (circle m bs b I) as (f & vs & Ef & Hc & Hv & Hp). rewrite <- Ef in *.
  pose proof (Permutation_length Hp) as Hl. simpl in Hl. destruct (loop_chain m bs nu w f vs f k Hc Ef) as [?|[Hs E]]; [by rewrite <- Ef|done|lia|by left|right].
  split; [|by rewrite Hl]. intros v. rewrite Hp. apply Hs.
Qed.

(** More memory: the free list gets the new cells, with a block that fits. *)
Lemma morecore_spec m bs w nu : frees m bs (brk w) -> 1 <= nu < 2 ^ 27 -> (2 * length bs < fuel)%nat ->
  exists p m' w' bs', morecore freep fuel nu m w = URet p m' w' /\ frees m' bs' (brk w') /\ brk w <= brk w' /\
    (forall a, covered bs' a <-> covered bs a \/ brk w <= a < brk w') /\ (length bs' <= S (length bs))%nat /\
    (forall a, lo <= a -> ~ covered bs' a -> load8 m' a = load8 m a) /\
    (p = 0 \/ p = load64 m' freep /\ p <> 0 /\ exists y, y ∈ bs' /\ nu <= snd y).
Proof.
  intros I Hnu Hfu. pose proof (st_base ST) as Hst. unfold morecore. cbv zeta. set (n := if nu <? 4096 then 4096 else nu).
  assert (nu <= n /\ 1 <= n < 2 ^ 27) as [Hn1 Hn2] by (unfold n; destruct (Z.ltb_spec nu 4096); lia).
  assert (i32 (n * HDR) = 16 * n) as -> by (unfold HDR; rewrite s_small by (unfold in_s; lia); lia).
  unfold sbrk, ucall. unfold mbind at 1, U_bind at 1. destruct (sys _ w) as [[r rb] w'] eqn:E.
  destruct (sbrk_ok (16 * n) w r rb w' ltac:(lia) E) as [[-> Hb]|(-> & Hb & Hlim)].
  - exists 0, m, w', bs. split; [done|]. rewrite Hb. split; [done|]. split; [lia|]. split; [intros a; intuition lia|]. split; [lia|]. split; [done|by left].
  - pose proof (fr_brk _ _ _ I) as Hbk. rewrite (proj2 (Z.eqb_neq (brk w) (-1))) by lia. rewrite (ubind_ret umem _ m w' m m w' eq_refl).
    set (m1 := set_size m (brk w) n).
    assert (frees m1 bs (brk w')) as I1.
    { apply (frees_ext m m1 bs (brk w)); [done| |lia]. intros a Ha. apply load8_set_size.
      destruct Ha as [Ha|Ha]; [lia|]. apply (covered_bounds m bs (brk w)) in Ha; [lia|done]. }
    destruct (free_spec m1 bs (brk w') (brk w) n fuel I1) as (m2 & bs' & Ef & I2 & Hcov & Hfrm & Hlen & y & Hy & Hny); [|lia|lia|lia| |done|].
    { intros a Ha Hc. apply (covered_bounds m bs (brk w)) in Hc; [|done]. unfold cell in Ha. simpl in Ha. lia. }
    { apply size_set_size. unfold in_u. lia. }
    exists (load64 m2 freep), m2, w', bs'. split; [by rewrite Ef|]. split; [done|]. split; [lia|]. split.
    { intros a. rewrite Hcov. unfold cell. simpl. intuition lia. }
    split; [done|]. split.
    + intros a Ha Hc. rewrite Hfrm by done. apply load8_set_size.
      destruct (decide (brk w + 8 <= a < brk w + 12)); [|lia]. exfalso. apply Hc, Hcov. right. unfold cell. simpl. lia.
    + right. split; [done|]. split; [|exists y; split; [done|lia]]. pose proof (fr_freep _ _ _ I2) as Hp.
      apply list_elem_of_fmap in Hp as (f & -> & Hf). destruct (fr_in _ _ _ f I2 Hf) as [->|?]; simpl; lia.
Qed.

(** The allocated blocks, by address, with their sizes in units. *)
Record held (m : mem) (bs : list blk) (al : gmap Z Z) (b : Z) : Prop := {
  hd_block : forall p n, al !! p = Some n -> lo <= p /\ 1 <= n /\ p + 16 * n <= b /\ h_size m p = n /\ fresh bs (p, n);
  hd_disjoint : forall p n q j a, al !! p = Some n -> al !! q = Some j -> cell (p, n) a -> cell (q, j) a -> p = q;
}.
(** No cell of an allocated block changed. *)
Definition unchanged (al : gmap Z Z) (m m' : mem) : Prop := forall p n a, al !! p = Some n -> cell (p, n) a -> load8 m' a = load8 m a.

(** Before the first malloc, or with a free list of at most [k] blocks. *)
Definition heap (k : nat) (m : mem) (al : gmap Z Z) (w : W) : Prop :=
  (1 <= k)%nat /\
  (load64 m freep = 0 /\ al = ∅ /\ lo <= brk w <= 2 ^ 35 \/
   exists bs, frees m bs (brk w) /\ (length bs <= k)%nat /\ held m bs al (brk w)).

Lemma held_mono m bs al b m' bs' b' : held m bs al b -> (forall a, covered bs' a -> covered bs a \/ b <= a) -> b <= b' ->
  unchanged al m m' -> held m' bs' al b'.
Proof.
  intros D Hc Hb Hu. split; [|apply D]. intros p n Hp. destruct (hd_block _ _ _ _ D p n Hp) as (H1 & H2 & H3 & H4 & H5).
  split; [done|]. split; [done|]. split; [lia|]. split.
  - rewrite <- H4. apply header_ext. intros i Hi. apply (Hu p n i Hp). unfold cell. simpl. lia.
  - intros a Ha Hcov. destruct (Hc a Hcov) as [?|?]; [by apply (H5 a)|]. unfold cell in Ha. simpl in Ha. lia.
Qed.
(** What is written to free cells leaves the allocated blocks alone. *)
Lemma held_unchanged m bs al b m' bs' : held m bs al b -> (forall a, covered bs' a -> covered bs a \/ b <= a) ->
  (forall a, lo <= a -> ~ covered bs' a -> load8 m' a = load8 m a) -> unchanged al m m'.
Proof.
  intros D Hc Hf p n a Hp Ha. destruct (hd_block _ _ _ _ D p n Hp) as (H1 & H2 & H3 & H4 & H5). apply Hf.
  - unfold cell in Ha. simpl in Ha. lia.
  - intros Hcov. destruct (Hc a Hcov) as [?|?]; [by apply (H5 a)|]. unfold cell in Ha. simpl in Ha. lia.
Qed.
Lemma found_spec m bs al nu w r k : frees m bs (brk w) -> held m bs al (brk w) -> found m bs nu w r -> 1 <= nu -> (length bs <= k)%nat ->
  (1 <= k)%nat ->
  exists q m', r = URet (q + HDR) m' w /\ lo <= q /\ al !! q = None /\ h_size m' q = nu /\ unchanged al m m' /\ heap k m' (<[q := nu]> al) w.
Proof.
  intros I D (l1 & x & y & l2 & m' & q & El & Hle & Ht & ->) Hnu Hlen Hk. subst bs.
  destruct (take_spec m l1 x y l2 (brk w) nu m' q I ltac:(lia) Ht) as (bs' & I' & Hl' & Hcov & Hfr & Hsz & Hlo & Hhi & Hfrm).
  set (m2 := store64 m' freep (fst x)) in *. exists q, m2. split; [done|]. split; [done|].
  assert (unchanged al m m2) as Hu by (apply (held_unchanged m _ al (brk w) m2 (l1 ++ x :: y :: l2) D); [by left|done]).
  assert (forall p n a, al !! p = Some n -> cell (p, n) a -> ~ cell (q, nu) a) as Hap.
  { intros p n a Hp Hc Hc'. apply (hd_block _ _ _ _ D p n Hp) in Hc as Hn. apply Hn, Hcov. by right. }
  assert (al !! q = None) as Hnone.
  { destruct (al !! q) as [n|] eqn:E; [exfalso|done]. destruct (hd_block _ _ _ _ D q n E) as (_ & Hn & _).
    apply (Hap q n q E); unfold cell; simpl; lia. }
  assert (held m2 bs' al (brk w)) as D2 by (apply (held_mono m _ al (brk w) m2 bs' (brk w) D); [intros a Ha; left; apply Hcov; by left|lia|done]).
  split; [done|]. split; [done|]. split; [done|]. split; [done|]. right. exists bs'. split; [done|]. split; [lia|]. split.
  - intros p n [[<- <-]|[_ Hp]]%lookup_insert_Some; [done|by apply D2].
  - intros p n p' n' a [[<- <-]|[_ Hp]]%lookup_insert_Some [[<- <-]|[_ Hp']]%lookup_insert_Some Hc Hc'; [done| | |by apply (hd_disjoint _ _ _ _ D p n p' n' a)].
    + exfalso. by apply (Hap p' n' a).
    + exfalso. by apply (Hap p n a).
Qed.

Lemma init_spec m w : load64 m freep = 0 -> lo <= brk w <= 2 ^ 35 ->
  let m' := set_size (set_ptr (store64 m freep base) base base) base 0 in frees m' [(base, 0)] (brk w) /\ load64 m' freep = base.
Proof.
  intros Hf Hb. pose proof (st_base ST) as Hst. pose proof (st_freep ST) as Hst2. pose proof (st_apart ST) as Hst3. cbv zeta.
  set (m1 := store64 m freep base). assert (load64 (set_size (set_ptr m1 base base) base 0) freep = base) as E.
  { transitivity (load64 m1 freep).
    - apply load64_ext. intros i Hi. rewrite load8_set_size, load8_set_ptr by lia. done.
    - unfold m1. rewrite load64_store64. apply Z.mod_small. lia. }
  split; [|done]. split; [by exists []| |repeat constructor|rewrite E; simpl; clear; set_solver|done].
  split; [done|]. split; [by apply size_set_size|]. simpl. rewrite ptr_set_size by (by left). apply ptr_set_ptr. unfold in_u. lia.
Qed.

(** The units malloc asks for: the bytes, rounded up, and a header. *)
Lemma units_spec nbytes : 0 <= nbytes < 2 ^ 31 - 64 ->
  let nu := u32 ((nbytes + HDR - 1) / HDR + 1) in 1 <= nu < 2 ^ 27 /\ nbytes + 16 <= 16 * nu.
Proof.
  intros Hn. cbv zeta. unfold HDR. pose proof (Z.div_mod (nbytes + 16 - 1) 16 ltac:(lia)). pose proof (Z.mod_pos_bound (nbytes + 16 - 1) 16 ltac:(lia)).
  rewrite u_small by lia. lia.
Qed.

(** The search, with more memory when it is needed. *)
Lemma search_spec m bs al w nu k : frees m bs (brk w) -> held m bs al (brk w) -> 1 <= nu < 2 ^ 27 ->
  (1 <= length bs <= k)%nat -> (2 * k + 2 <= fuel)%nat ->
  exists p m' w', malloc_loop freep fuel fuel nu (load64 m freep) (h_ptr m (load64 m freep)) m w = URet p m' w' /\ unchanged al m m' /\
    (p = 0 /\ heap (S k) m' al w' \/
     exists q, p = q + HDR /\ lo <= q /\ al !! q = None /\ h_size m' q = nu /\ heap (S k) m' (<[q := nu]> al) w').
Proof.
  intros I D Hnu Hk Hfu. destruct (search m bs (brk w) nu w fuel I ltac:(lia) ltac:(lia)) as [Hf|[_ E]].
  - destruct (found_spec m bs al nu w _ (S k) I D Hf ltac:(lia) ltac:(lia) ltac:(lia)) as (q & m' & -> & H1 & H2 & H3 & H4 & H5).
    exists (q + HDR), m', w. split; [done|]. split; [done|]. right. by exists q.
  - destruct (morecore_spec m bs w nu I Hnu ltac:(lia)) as (p & m' & w' & bs' & Em & I' & Hb & Hcov & Hlen & Hfrm & Hp).
    rewrite E. unfold grow. ustep Em.
    assert (forall a, covered bs' a -> covered bs a \/ brk w <= a) as Hc by (intros a Ha; apply Hcov in Ha as [?|?]; [by left|right; lia]).
    assert (unchanged al m m') as Hu by by apply (held_unchanged m bs al (brk w) m' bs' D).
    assert (held m' bs' al (brk w')) as D' by by apply (held_mono m bs al (brk w) m' bs' (brk w') D).
    destruct Hp as [->|(Hp & Hp0 & y & Hy & Hny)].
    + exists 0, m', w'. split; [done|]. split; [done|]. left. split; [done|]. split; [lia|]. right. exists bs'. split; [done|]. split; [lia|done].
    + rewrite (proj2 (Z.eqb_neq p 0)) by done. rewrite (ubind_ret umem _ m' w' m' m' w' eq_refl), Hp.
      destruct (search m' bs' (brk w') nu w' (fuel - length bs) I' ltac:(lia) ltac:(lia)) as [Hf|[Hs _]]; [|specialize (Hs y Hy); lia].
      destruct (found_spec m' bs' al nu w' _ (S k) I' D' Hf ltac:(lia) ltac:(lia) ltac:(lia)) as (q & m2 & -> & H1 & H2 & H3 & H4 & H5).
      exists (q + HDR), m2, w'. split; [done|]. split; [|right; by exists q].
      intros p' n' a Hp' Ha. rewrite (H4 p' n' a Hp' Ha). by apply (Hu p' n').
Qed.
Lemma malloc_spec k m al w nbytes : heap k m al w -> 0 <= nbytes < 2 ^ 31 - 64 -> (2 * k + 2 <= fuel)%nat ->
  exists p m' w', malloc base freep fuel nbytes m w = URet p m' w' /\ unchanged al m m' /\
    (p = 0 /\ heap (S k) m' al w' \/
     exists q n, p = q + HDR /\ lo <= q /\ nbytes + 16 <= 16 * n /\ al !! q = None /\ h_size m' q = n /\ heap (S k) m' (<[q := n]> al) w').
Proof.
  intros [Hk Hh] Hn Hfu. destruct (units_spec nbytes Hn) as [Hnu Hsz]. unfold malloc. cbv zeta.
  set (nu := u32 ((nbytes + HDR - 1) / HDR + 1)) in *. rewrite (ubind_ret umem _ m w m m w eq_refl).
  destruct Hh as [(Hz & -> & Hb)|(bs & I & Hl & D)].
  - rewrite Hz, Z.eqb_refl. destruct (init_spec m w Hz Hb) as [I Hf]. set (m1 := set_size _ base 0) in *.
    rewrite (ubind_ret (uset m1) _ m w tt m1 w eq_refl).
    destruct (search_spec m1 [(base, 0)] ∅ w nu k I) as (p & m' & w' & E & _ & Hr); [by split|done|simpl; lia|done|].
    rewrite Hf in E. exists p, m', w'. split; [done|]. split; [done|].
    destruct Hr as [?|(q & ? & ? & ? & ? & ?)]; [by left|right]. by exists q, nu.
  - assert (load64 m freep <> 0) as Hnz.
    { pose proof (fr_freep _ _ _ I) as Hp. pose proof (st_base ST). apply list_elem_of_fmap in Hp as (f & -> & Hf).
      destruct (fr_in _ _ _ f I Hf) as [->|?]; simpl; lia. }
    rewrite (proj2 (Z.eqb_neq _ _) Hnz). rewrite (ubind_ret (uset m) _ m w tt m w eq_refl).
    assert (1 <= length bs)%nat by (destruct (fr_base _ _ _ I) as (? & -> & _); simpl; lia).
    destruct (search_spec m bs al w nu k I D Hnu ltac:(lia) Hfu) as (p & m' & w' & E & Hu & Hr).
    exists p, m', w'. split; [done|]. split; [done|]. destruct Hr as [?|(q & ? & ? & ? & ? & ?)]; [by left|right]. by exists q, nu.
Qed.
Lemma free_heap k m al w q n : heap k m al w -> al !! q = Some n -> (2 * k < fuel)%nat ->
  exists m', free freep fuel m (q + HDR) = Some m' /\ unchanged (delete q al) m m' /\ heap (S k) m' (delete q al) w.
Proof.
  intros [Hk Hh] Hq Hfu. destruct Hh as [(_ & -> & _)|(bs & I & Hl & D)]; [done|].
  destruct (hd_block _ _ _ _ D q n Hq) as (H1 & H2 & H3 & H4 & H5).
  destruct (free_spec m bs (brk w) q n fuel I H5 H1 H2 H3 H4 ltac:(lia)) as (m' & bs' & E & I' & Hcov & Hfrm & Hlen & _).
  assert (forall p j a, delete q al !! p = Some j -> cell (p, j) a -> lo <= a /\ ~ covered bs' a) as Hap.
  { intros p j a [Hne Hp]%lookup_delete_Some Ha. destruct (hd_block _ _ _ _ D p j Hp) as (G1 & G2 & G3 & G4 & G5).
    split; [unfold cell in Ha; simpl in Ha; lia|]. intros [Hc|Hc]%Hcov; [by apply (G5 a)|].
    by apply Hne, (hd_disjoint _ _ _ _ D q n p j a). }
  assert (unchanged (delete q al) m m') as Hu by (intros p j a Hp Ha; destruct (Hap p j a Hp Ha); by apply Hfrm).
  exists m'. split; [done|]. split; [done|]. split; [lia|]. right. exists bs'. split; [done|]. split; [lia|]. split.
  - intros p j Hp. pose proof Hp as [Hne Hp']%lookup_delete_Some. destruct (hd_block _ _ _ _ D p j Hp') as (G1 & G2 & G3 & G4 & _).
    split; [done|]. split; [done|]. split; [done|]. split; [|intros a Ha; by apply (Hap p j a)].
    rewrite <- G4. apply header_ext. intros i Hi. apply (Hu p j i Hp). unfold cell. simpl. lia.
  - intros p j p' j' a [_ Hp]%lookup_delete_Some [_ Hp']%lookup_delete_Some. by apply (hd_disjoint _ _ _ _ D p j p' j' a).
Qed.
(** A program may write where it may: after the header of its blocks. *)
Lemma store_heap k m al w q n a v : heap k m al w -> al !! q = Some n -> q + 16 <= a < q + 16 * n -> heap k (store8 m a v) al w.
Proof.
  intros [Hk Hh] Hq Ha. destruct Hh as [(_ & -> & _)|(bs & I & Hl & D)]; [done|].
  destruct (hd_block _ _ _ _ D q n Hq) as (H1 & H2 & H3 & H4 & H5).
  split; [done|]. right. exists bs. split; [|split; [done|split; [|apply D]]].
  - apply (frees_ext m _ bs (brk w)); [done| |pose proof (fr_brk _ _ _ I); lia]. intros i Hi. apply load8_store8_ne.
    intros <-. destruct Hi as [Hi|Hi]; [lia|]. apply (H5 a); [unfold cell; simpl; lia|done].
  - intros p j Hp. destruct (hd_block _ _ _ _ D p j Hp) as (G1 & G2 & G3 & G4 & G5).
    split; [done|]. split; [done|]. split; [done|]. split; [|done]. rewrite <- G4. apply header_ext. intros i Hi. apply load8_store8_ne.
    intros <-. assert (p = q) as -> by (apply (hd_disjoint _ _ _ _ D p j q n a Hp Hq); unfold cell; simpl; lia). lia.
Qed.

(** ** Programs that use the allocator *)

(** The states of a process that calls malloc and free, asks for less than
    2^31 - 64 bytes at a time, frees only what it was given, and writes only
    inside the blocks it holds; [k] counts its calls. *)
Inductive uses : nat -> mem -> W -> gmap Z Z -> Prop :=
  | uses_start m w : load64 m freep = 0 -> lo <= brk w <= 2 ^ 35 -> uses 1 m w ∅
  | uses_null k m w al nbytes m' w' : uses k m w al -> 0 <= nbytes < 2 ^ 31 - 64 ->
      malloc base freep fuel nbytes m w = URet 0 m' w' -> uses (S k) m' w' al
  | uses_malloc k m w al nbytes q m' w' : uses k m w al -> 0 <= nbytes < 2 ^ 31 - 64 ->
      malloc base freep fuel nbytes m w = URet (q + HDR) m' w' -> q + HDR <> 0 ->
      uses (S k) m' w' (<[q := h_size m' q]> al)
  | uses_free k m w al q n m' : uses k m w al -> al !! q = Some n ->
      free freep fuel m (q + HDR) = Some m' -> uses (S k) m' w (delete q al)
  | uses_store k m w al q n a v : uses k m w al -> al !! q = Some n -> q + 16 <= a < q + 16 * n -> uses k (store8 m a v) w al.

Lemma uses_heap k m w al : uses k m w al -> (2 * k <= fuel)%nat -> heap k m al w.
Proof.
  induction 1 as [m w Hf Hb|k m w al nb m' w' Hus IH Hn E|k m w al nb q m' w' Hus IH Hn E Hq|k m w al q n m' Hus IH Hq E|k m w al q n a v Hus IH Hq Ha];
    intros Hfu.
  - split; [lia|]. by left.
  - destruct (malloc_spec k m al w nb (IH ltac:(lia)) Hn ltac:(lia)) as (p & m2 & w2 & E2 & _ & Hr). rewrite E in E2. injection E2 as <- <- <-.
    destruct Hr as [[_ ?]|(q & n & Hp & Hlo & _)]; [done|]. pose proof (st_base ST). unfold HDR in Hp. lia.
  - destruct (malloc_spec k m al w nb (IH ltac:(lia)) Hn ltac:(lia)) as (p & m2 & w2 & E2 & _ & Hr). rewrite E in E2. injection E2 as <- <- <-.
    destruct Hr as [[? _]|(q' & n & Hp & _ & _ & _ & Hz & Hh)]; [done|]. assert (q' = q) as -> by lia. by rewrite Hz.
  - destruct (free_heap k m al w q n (IH ltac:(lia)) Hq ltac:(lia)) as (m2 & E2 & _ & Hh). congruence.
  - by apply (store_heap k m al w q n a v (IH Hfu)).
Qed.

(** C35: In every state a program reaches by calls of malloc, each for less than
    2^31 - 64 bytes, calls of free, and writes inside the blocks it holds, the
    blocks it holds lie in the heap and have no byte in common; malloc of less
    than 2^31 - 64 bytes returns, either 0 or a block of at least the size asked
    for that shares no byte with the others; free returns; and neither changes
    a byte of a block that the program keeps.  The bound is what the int
    argument of sbrk can carry: [malloc_beyond_heap] shows what happens above
    it. *)
Theorem malloc_free_contract k m w al : uses k m w al -> (2 * k + 2 <= fuel)%nat ->
  (forall p n, al !! p = Some n -> lo <= p /\ p + 16 * n <= brk w) /\
  (forall p n q j a, al !! p = Some n -> al !! q = Some j -> cell (p, n) a -> cell (q, j) a -> p = q) /\
  (forall nbytes, 0 <= nbytes < 2 ^ 31 - 64 -> exists p m' w', malloc base freep fuel nbytes m w = URet p m' w' /\ unchanged al m m' /\
     (p = 0 \/ let n := h_size m' (p - HDR) in nbytes + 16 <= 16 * n /\ lo <= p - HDR /\ p - HDR + 16 * n <= brk w' /\
        forall q j a, al !! q = Some j -> cell (q, j) a -> ~ cell (p - HDR, n) a)) /\
  (forall q n, al !! q = Some n -> exists m', free freep fuel m (q + HDR) = Some m' /\ unchanged (delete q al) m m').
Proof.
  intros Hus Hfu. pose proof (uses_heap k m w al Hus ltac:(lia)) as Hh.
  assert (forall k m w al, heap k m al w -> exists bs, held m bs al (brk w)) as Hheld.
  { intros k0 m0 w0 al0 (_ & [(_ & -> & _)|(bs & _ & _ & D)]); [exists []; by split|by exists bs]. }
  destruct (Hheld _ _ _ _ Hh) as (bs & D). split; [|split; [|split]].
  - intros p n Hp. by destruct (hd_block _ _ _ _ D p n Hp) as (? & ? & ? & _).
  - apply D.
  - intros nb Hnb. destruct (malloc_spec k m al w nb Hh Hnb Hfu) as (p & m' & w' & E & Hu & Hr). exists p, m', w'. split; [done|]. split; [done|].
    destruct Hr as [[? _]|(q & n & -> & Hlo & Hsz & Hnone & Hz & Hh')]; [by left|right]. rewrite Z.add_simpl_r. cbv zeta. rewrite Hz.
    destruct (Hheld _ _ _ _ Hh') as (bs' & D'). destruct (hd_block _ _ _ _ D' q n ltac:(apply lookup_insert_eq)) as (_ & _ & Hend & _).
    split; [done|]. split; [done|]. split; [done|]. intros q' j a Hq' Hc Hc'.
    assert (q <> q') by congruence. enough (q' = q) by congruence.
    apply (hd_disjoint _ _ _ _ D' q' j q n a); [by rewrite lookup_insert_ne|apply lookup_insert_eq|done|done].
  - intros q n Hq. destruct (free_heap k m al w q n Hh Hq ltac:(lia)) as (m' & E & Hu & _). by exists m'.
Qed.
End Malloc.
End Heap.

(** A kernel with one megabyte for the heap: the world is the break. *)
Definition one_meg (c : call) (w : Z) : Z * list Z * Z :=
  match c with
  | Sys_sbrk n _ => if (0 <? n) && (w + n <=? 2 ^ 20) then (w, [], w + n) else (-1, [], w)
  | _ => (-1, [], w)
  end.
#[global] Instance one_meg_os : Os Z := one_meg.
#[global] Program Instance one_meg_breaks : Breaks (W := Z) := { brk := fun w => w }.
Next Obligation.
  intros n w r bs w' Hn E. cbn in E. destruct ((0 <? n) && (w + n <=? 2 ^ 20)) eqn:Eb; injection E as <- <- <-; [right|by left].
  apply andb_prop in Eb as [_ Hb]. apply Z.leb_le in Hb. lia.
Qed.


(** A run: two blocks of 100 and 7 bytes, and the first of them freed. *)
Definition mem_after (r : ures Z Z) : mem := match r with URet _ m _ => m | _ => ∅ end.
Definition demo_1 : mem := mem_after (malloc 16 0 20 100 ∅ 4096).
Definition demo_2 : mem := mem_after (malloc 16 0 20 7 demo_1 69632).
Definition demo_3 : mem := default ∅ (free 0 20 demo_2 69520).

Lemma demo_statics : statics 16 0 32.
Proof. split; lia. Qed.
Lemma demo_uses : uses (W := Z) 16 0 32 20 4 demo_3 69632 (delete 69504 (<[69472 := 2]> (<[69504 := 8]> ∅))).
Proof.
  assert (uses (W := Z) 16 0 32 20 2 demo_1 69632 (<[69504 := 8]> ∅)) as U1.
  { apply (uses_malloc 16 0 32 20 1 ∅ 4096 ∅ 100 69504 demo_1 69632); [|lia|vm_compute; reflexivity|done].
    apply uses_start; [vm_compute; reflexivity|simpl; lia]. }
  assert (uses (W := Z) 16 0 32 20 3 demo_2 69632 (<[69472 := 2]> (<[69504 := 8]> ∅))) as U2.
  { apply (uses_malloc 16 0 32 20 2 demo_1 69632 (<[69504 := 8]> ∅) 7 69472 demo_2 69632 U1); [lia|vm_compute; reflexivity|done]. }
  apply (uses_free 16 0 32 20 3 demo_2 69632 _ 69504 8 demo_3 U2); vm_compute; reflexivity.
Qed.
Lemma malloc_free_contract_witness :
  h_size demo_3 69472 = 2 /\
  exists p m' w', malloc 16 0 20 1000 demo_3 69632 = URet p m' w' /\
    unchanged (delete 69504 (<[69472 := 2]> (<[69504 := 8]> ∅))) demo_3 m'.
Proof.
  split; [vm_compute; reflexivity|].
  destruct (malloc_free_contract 16 0 32 demo_statics 20 4 demo_3 69632 _ demo_uses ltac:(lia)) as (_ & _ & Hm & _).
  destruct (Hm 1000 ltac:(lia)) as (p & m' & w' & E & Hu & _). exists p, m', w'. by split.
Defined.

(** malloc takes an unsigned size, morecore multiplies it by 16 and sbrk takes an
    int.  For nbytes = 2^32 - 1 the product 2^32 + 16 is truncated to 16: the heap
    grows by one header, and malloc returns a block that ends 4 gigabytes
    after the break. *)
Example malloc_beyond_heap : exists m', malloc 16 0 20 (2 ^ 32 - 1) ∅ 4096 = URet (4096 + HDR) m' 4112 /\
  HDR * h_size m' 4096 = 2 ^ 32 + 16.
Proof.
  exists (mem_after (malloc 16 0 20 (2 ^ 32 - 1) ∅ 4096)). split; vm_compute; reflexivity.
Qed.
(** Half of that is a negative int: nbytes = 2^31 makes malloc ask sbrk to give
    memory back. *)
Example malloc_negative_sbrk : i32 (u32 ((2 ^ 31 + HDR - 1) / HDR + 1) * HDR) = - (2 ^ 31 - 16).
Proof. reflexivity. Qed.
