(* ===== verification/Utils.v ===== *)
(** * Small user programs

    cat, wc, echo, kill, ln, mkdir, rm, sleep, uptime, zombie, init, sixfive,
    memdump, pingpong, dorphan and forphan, each over the memory of its process
    and the system calls of User.v.  [argv] is the list of the argument
    pointers, the program's name first; static and stack arrays are addresses
    that each program's section names. *)
From stdpp Require Import base numbers list gmap strings.
From Stdlib Require Import Ascii.
From S2P Require Import Prelude Str User Ulib.

Definition O_WRONLY : Z := 1.
Definition O_RDWR : Z := 2.
Definition O_CREATE : Z := 512.
Definition CONSOLE : Z := 1.

Section Utils.
Context {W : Type} `{Os W}.
Variable fuel : nat.

(** printf and fprintf of a line *)
Definition sayln (fd : Z) (fmt : string) (ap : list uarg) : U W unit := fprintf fuel fd (chars fmt ++ [10]) ap.

(** Calls that take a path. *)
Definition with_path (c : list Z -> call) (p : Z) : U W Z := m ← umem; ucall (c (path_at m p)).
Definition mkdir (p : Z) : U W Z := with_path Mkdir p.
Definition unlink (p : Z) : U W Z := with_path Unlink p.
Definition link (old new : Z) : U W Z := m ← umem; ucall (Link (path_at m old) (path_at m new)).
(** pipe fills in two descriptors at [p]. *)
Definition pipe (p : Z) : U W Z := '(r, bs) ← ucall_bytes Pipe; m ← umem; uset (store_bytes m p bs);; mret r.
Definition int_at (m : mem) (p : Z) : Z := i32 (le_combine (load_bytes m p 4)).

(** ** cat.c *)
Section Cat.
Variable buf : Z.
Fixpoint cat_loop (k : nat) (fd : Z) : U W unit :=
  match k with
  | O => ufuel
  | S k =>
      n ← read fd buf 512;
      if 0 <? n then
        r ← write 1 buf n;
        if negb (r =? n) then sayln 2 "cat: write error" [];; exit 1 else cat_loop k fd
      else if n <? 0 then sayln 2 "cat: read error" [];; exit 1
      else mret tt
  end.
Definition cat (fd : Z) : U W unit := cat_loop fuel fd.
Fixpoint cat_files (argv : list Z) : U W unit :=
  match argv with
  | [] => exit 0
  | a :: argv =>
      fd ← open a O_RDONLY;
      if fd <? 0 then sayln 2 "cat: cannot open %s" [APtr a];; exit 1
      else cat fd;; close fd;; cat_files argv
  end.
Definition cat_main (argv : list Z) : U W unit :=
  match argv with
  | [] | [_] => cat 0;; exit 0
  | _ :: files => cat_files files
  end.
End Cat.

(** ** wc.c *)

(** The counters l, w, c and the flag inword. *)
Record counts := Counts { c_l : Z; c_w : Z; c_c : Z; c_in : bool }.
Definition wc_space : list Z := [32; 13; 9; 10; 11].     (* " \r\t\n\v" *)
Definition wc_char (x : counts) (ch : Z) : counts :=
  let c := i32 (c_c x + 1) in
  let l := if ch =? 10 then i32 (c_l x + 1) else c_l x in
  if strchr_lit wc_space ch then Counts l (c_w x) c false
  else if negb (c_in x) then Counts l (i32 (c_w x + 1)) c true
  else Counts l (c_w x) c (c_in x).

Section Wc.
Variable buf : Z.
Fixpoint wc_loop (k : nat) (fd : Z) (x : counts) : U W (Z * counts) :=
  match k with
  | O => ufuel
  | S k =>
      n ← read fd buf 512;
      if 0 <? n then m ← umem; wc_loop k fd (foldl wc_char x (load_bytes m buf (Z.to_nat n)))
      else mret (n, x)
  end.
Definition wc (fd : Z) (name : uarg) : U W unit :=
  '(n, x) ← wc_loop fuel fd (Counts 0 0 0 false);
  if n <? 0 then sayln 1 "wc: read error" [];; exit 1
  else sayln 1 "%d %d %d %s" [AInt (c_l x); AInt (c_w x); AInt (c_c x); name].
Fixpoint wc_files (argv : list Z) : U W unit :=
  match argv with
  | [] => exit 0
  | a :: argv =>
      fd ← open a O_RDONLY;
      if fd <? 0 then sayln 1 "wc: cannot open %s" [APtr a];; exit 1
      else wc fd (APtr a);; close fd;; wc_files argv
  end.
Definition wc_main (argv : list Z) : U W unit :=
  match argv with
  | [] | [_] => wc 0 (ALit []);; exit 0
  | _ :: files => wc_files files
  end.
End Wc.

(** ** echo.c *)
Fixpoint echo_args (argv : list Z) : U W unit :=
  match argv with
  | [] => exit 0
  | a :: rest =>
      m ← umem; n ← ulift (strlen fuel m a);
      write 1 a n;;
      write_lit 1 (match rest with [] => [10] | _ => chars " " end);;
      echo_args rest
  end.
Definition echo_main (argv : list Z) : U W unit := echo_args (tail argv).

(** ** kill.c, ln.c, mkdir.c, rm.c, sleep.c, uptime.c, zombie.c *)
Fixpoint kill_args (argv : list Z) : U W unit :=
  match argv with
  | [] => exit 0
  | a :: argv => m ← umem; pid ← ulift (atoi fuel m a); ucall (Kill pid);; kill_args argv
  end.
Definition kill_main (argv : list Z) : U W unit :=
  match argv with
  | [] | [_] => sayln 2 "usage: kill pid..." [];; exit 1
  | _ :: pids => kill_args pids
  end.

Definition ln_main (argv : list Z) : U W unit :=
  match argv with
  | [_; old; new] =>
      r ← link old new;
      (if r <? 0 then sayln 2 "link %s %s: failed" [APtr old; APtr new] else mret tt);;
      exit 0
  | _ => sayln 2 "Usage: ln old new" [];; exit 1
  end.

Fixpoint mkdir_args (argv : list Z) : U W unit :=
  match argv with
  | [] => exit 0
  | a :: argv =>
      r ← mkdir a;
      if r <? 0 then sayln 2 "mkdir: %s failed to create" [APtr a];; exit 0 else mkdir_args argv
  end.
Definition mkdir_main (argv : list Z) : U W unit :=
  match argv with
  | [] | [_] => sayln 2 "Usage: mkdir files..." [];; exit 1
  | _ :: dirs => mkdir_args dirs
  end.

Fixpoint rm_args (argv : list Z) : U W unit :=
  match argv with
  | [] => exit 0
  | a :: argv =>
      r ← unlink a;
      if r <? 0 then sayln 2 "rm: %s failed to delete" [APtr a];; exit 0 else rm_args argv
  end.
Definition rm_main (argv : list Z) : U W unit :=
  match argv with
  | [] | [_] => sayln 2 "Usage: rm files..." [];; exit 1
  | _ :: files => rm_args files
  end.

Definition sleep_main (argv : list Z) : U W unit :=
  let a := nth 1 argv 0 in
  if a =? 0 then sayln 2 "Missing arguments." [];; exit 1
  else n ← atoi_CheckIsNumber fuel a; ucall (Pause n);; exit 0.

Definition uptime_main : U W unit := time ← ucall Uptime; sayln 1 "%d" [AInt time];; exit 0.
Definition zombie_main : U W unit :=
  pid ← ucall Fork; (if 0 <? pid then ucall (Pause 5) else mret 0);; exit 0.

(** ** init.c *)

(** The loop around wait: it ends when the shell with that pid has exited. *)
Fixpoint init_wait (k : nat) (pid : Z) : U W unit :=
  match k with
  | O => ufuel
  | S k =>
      wpid ← ucall Wait;
      if wpid =? pid then mret tt
      else if wpid <? 0 then sayln 1 "init: wait returned an error" [];; exit 1
      else init_wait k pid
  end.
Fixpoint init_loop (k : nat) : U W unit :=
  match k with
  | O => ufuel
  | S k =>
      sayln 1 "init: starting sh" [];;
      pid ← ucall Fork;
      if pid <? 0 then sayln 1 "init: fork failed" [];; exit 1
      else if pid =? 0 then exec (chars "sh") [chars "sh"];; sayln 1 "init: exec sh failed" [];; exit 1
      else init_wait fuel pid;; init_loop k
  end.
Definition init_main : U W unit :=
  fd ← ucall (Open (chars "console") O_RDWR);
  (if fd <? 0 then ucall (Mknod (chars "console") CONSOLE 0);; ucall (Open (chars "console") O_RDWR) else mret 0);;
  ucall (Dup 0);; ucall (Dup 0);;
  init_loop fuel.

(** ** dorphan.c, forphan.c *)

(** for(;;) pause(1000); *)
Fixpoint pause_forever (k : nat) : U W unit :=
  match k with O => ufuel | S k => ucall (Pause 1000);; pause_forever k end.
Definition dorphan_main (s : Z) : U W unit :=
  r ← ucall (Mkdir (chars "dd"));
  if negb (r =? 0) then sayln 1 "%s: mkdir dd failed" [APtr s];; exit 1 else
  r ← ucall (Chdir (chars "dd"));
  if negb (r =? 0) then sayln 1 "%s: chdir dd failed" [APtr s];; exit 1 else
  r ← ucall (Unlink (chars "../dd"));
  if r <? 0 then sayln 1 "%s: unlink failed" [APtr s];; exit 1 else
  sayln 1 "wait for kill and reclaim" [];;
  pause_forever fuel.
Definition forphan_main (s : Z) : U W unit :=
  fd ← ucall (Open (chars "file0") (Z.lor O_CREATE O_WRONLY));
  if fd <? 0 then sayln 1 "%s: open failed" [APtr s];; exit 1 else
  '(r, st) ← fstat fd;
  if r <? 0 then sayln 2 "%s: cannot stat %s" [APtr s; ALit (chars "ff")];; exit 1 else
  r ← ucall (Unlink (chars "file0"));
  if r <? 0 then sayln 1 "%s: unlink failed" [APtr s];; exit 1 else
  r ← ucall (Open (chars "file0") O_RDONLY);
  if negb (r =? -1) then sayln 1 "%s: open successed" [APtr s];; exit 1 else
  sayln 1 "wait for kill and reclaim %d" [AInt (us_ino st)];;
  pause_forever fuel.

(** ** sixfive.c *)
Definition six_seps : list Z := [32; 45; 13; 9; 10; 46; 47; 44].     (* " -\r\t\n./," *)

Section Sixfive.
Variable num_buf : Z.
(** int num = atoi(num_buf); if(num % 5 == 0 || num % 6 == 0) fprintf(1, "%d\n", num); *)
Definition six_number : U W unit :=
  m ← umem; num ← ulift (atoi fuel m num_buf);
  if (Z.rem num 5 =? 0) || (Z.rem num 6 =? 0) then sayln 1 "%d" [AInt num] else mret tt.
(** The loop over the characters of a file: num_index and errorflag at its end. *)
Fixpoint six_loop (k : nat) (fd file num_index : Z) : U W (Z * bool) :=
  match k with
  | O => ufuel
  | S k =>
      '(r, bs) ← ucall_bytes (Read fd 1);
      if r =? 1 then
        let c := nth 0 bs 0 in
        if strchr_lit six_seps c then
          if 0 <? num_index then
            six_number;;
            m ← umem; uset (memset m num_buf 0 16);;
            six_loop k fd file 0
          else six_loop k fd file num_index
        else if num_index <? 15 then
          m ← umem; uset (store8 m (num_buf + num_index) c);;
          six_loop k fd file (num_index + 1)
        else
          sayln 2 "Number too large in file %s" [APtr file];;
          mret (num_index, true)
      else mret (num_index, false)
  end.
Fixpoint six_files (argv : list Z) : U W unit :=
  match argv with
  | [] => exit 0
  | a :: argv =>
      m ← umem; uset (memset m num_buf 0 16);;
      fd ← open a O_RDONLY;
      if fd <? 0 then sayln 2 "sixfive: cannot open %s" [APtr a];; exit 1
      else
        '(num_index, errorflag) ← six_loop fuel fd a 0;
        (if negb errorflag && (0 <? num_index) then six_number else mret tt);;
        close fd;;
        six_files argv
  end.
Definition sixfive_main (argv : list Z) : U W unit :=
  match argv with
  | [_] => sayln 2 "Usage: sixfive <file1> [file2] ..." [];; exit 1
  | _ => six_files (tail argv)
  end.
End Sixfive.

(** ** memdump.c *)

(** memdump with the characters of fmt. *)
Fixpoint memdump (fmt : list Z) (data : Z) : U W unit :=
  match fmt with
  | [] => mret tt
  | f :: fmt =>
      m ← umem;
      if f =? chr "i" then sayln 1 "%d" [AInt (int_at m data)];; memdump fmt (data + 4)
      else if f =? chr "p" then sayln 1 "%lx" [AInt (load64 m data)];; memdump fmt (data + 8)
      else if f =? chr "h" then sayln 1 "%d" [AInt (i16 (le_combine (load_bytes m data 2)))];; memdump fmt (data + 2)
      else if f =? chr "c" then sayln 1 "%c" [AInt (load8 m data)];; memdump fmt (data + 1)
      else if f =? chr "s" then sayln 1 "%s" [APtr (load64 m data)];; memdump fmt (data + 8)
      else if f =? chr "S" then sayln 1 "%s" [APtr data]
      else sayln 2 "memdump: unknown format character %c." [AInt f];; memdump fmt data
  end.
Section Memdump.
(** Arrays of main, and the addresses of its string literals. *)
Variables a s example data a_string another hello xyzzy : Z.
Fixpoint memdump_read (k : nat) (n : Z) : U W unit :=
  match k with
  | O => ufuel
  | S k =>
      if n <? 512 then
        nn ← read 0 (data + n) (512 - n);
        if nn <=? 0 then mret tt else memdump_read k (n + nn)
      else mret tt
  end.
Definition memdump_main (argv : list Z) : U W unit :=
  match argv with
  | [_] =>
      sayln 1 "Example 1:" [];;
      m ← umem; uset (store_bytes m a (le_split 4 61810 ++ le_split 4 2025));;
      memdump (chars "ii") a;;
      sayln 1 "Example 2:" [];;
      memdump (chars "S") a_string;;
      sayln 1 "Example 3:" [];;
      m ← umem; uset (store64 m s another);;
      memdump (chars "s") s;;
      m ← umem;
      let m := store64 m example hello in
      let m := store_bytes m (example + 8) (le_split 4 1819438967 ++ le_split 2 100 ++ [chr "z"]) in
      m ← ulift (strcpy fuel m (example + 15) xyzzy);
      uset m;;
      sayln 1 "Example 4:" [];;
      memdump (chars "pihcS") example;;
      sayln 1 "Example 5:" [];;
      memdump (chars "sccccc") example;;
      exit 0
  | [_; fmt] =>
      m ← umem; uset (memset m data 0 512);;
      memdump_read fuel 0;;
      m ← umem;
      memdump (cstr fuel m fmt) data;;
      exit 0
  | _ => sayln 1 "Usage: memdump [format]" [];; exit 1
  end.
End Memdump.

(** ** pingpong.c *)
Section Pingpong.
Variables pipeParent pipeChild : Z.
Definition fd_at (p i : Z) : U W Z := m ← umem; mret (int_at m (p + 4 * i)).
(** read(fd, b, 1) != 1 || b[0] != c *)
Definition not_received (fd c : Z) : U W bool :=
  '(r, bs) ← ucall_bytes (Read fd 1); mret (negb (r =? 1) || negb (nth 0 bs 0 =? c)).
(** fprintf(1, "%d: received ...\n", getpid()) in the loud version. *)
Definition received (loud : bool) (what : string) : U W unit :=
  uwhen loud (pid ← ucall Getpid; sayln 1 ("%d: received " +:+ what) [AInt pid]).
(** pingpong and, without the messages, pingpong_quiet *)
Definition pingpong_with (loud : bool) : U W unit :=
  pipe pipeParent;; pipe pipeChild;;
  pid ← ucall Fork;
  pp0 ← fd_at pipeParent 0; pp1 ← fd_at pipeParent 1;
  pc0 ← fd_at pipeChild 0; pc1 ← fd_at pipeChild 1;
  if pid =? 0 then
    close pp1;; close pc0;;
    bad ← not_received pp0 (chr "A");
    if (bad : bool) then sayln 2 "Read from parent process error." [];; exit 1
    else
      received loud "ping.";;
      write_lit pc1 (chars "B");;
      exit 0
  else
    close pp0;; close pc1;;
    write_lit pp1 (chars "A");;
    bad ← not_received pc0 (chr "B");
    if (bad : bool) then sayln 2 "Read from child process error." [];; exit 1
    else
      ucall Wait;;
      received loud "pong.";;
      close pp1;; close pc0;; mret tt.
Definition pingpong : U W unit := pingpong_with true.
Definition pingpong_quiet : U W unit := pingpong_with false.

(** for(int i = 9; i > 0; i--) of the examinations *)
Fixpoint countdown (i : nat) : U W unit :=
  match i with
  | O => mret tt
  | S i' =>
      sayln 1 "Examining program starting in %d..." [AInt (Z.of_nat i)];;
      ucall (Pause 10);;
      (if Z.of_nat i =? 1 then sayln 1 "Examining program starting NOW." [];; ucall (Pause 10) else mret 0);;
      countdown i'
  end.
Fixpoint repeat_u (n : nat) (p : U W unit) : U W unit :=
  match n with O => mret tt | S n => p;; repeat_u n p end.
(** Signed 32-bit division; RISC-V gives -1 for a zero divisor. *)
Definition div32 (x y : Z) : Z := if y =? 0 then -1 else i32 (Z.quot x y).
(** The two examinations, with what they print first, run and print last. *)
Definition examine (title : string) (p : U W unit) (gap : list Z) : U W unit :=
  fprintf fuel 1 (chars title ++ [10; 10]) [];;
  countdown 9;;
  startTime ← ucall Uptime;
  repeat_u 1000 p;;
  endTime ← ucall Uptime;
  let d := i32 (endTime - startTime) in
  fprintf fuel 1 (chars "Exchange amount: 1000" ++ [10] ++ chars "Time spent: %d" ++ [10]) [AInt d];;
  fprintf fuel 1 (chars "Exchange rate (rounded towards zero): %d exchanges per second" ++ gap) [AInt (div32 (1000 * 10) d)].
Definition examinePerformance : U W unit := examine "VERBOSE EXAMINATION-------------" pingpong [10; 10].
Definition examinePerformance_quiet : U W unit := examine "QUIET EXAMINATION-------------" pingpong_quiet [10].
Definition pingpong_main : U W unit :=
  pingpong;;
  fprintf fuel 1 (chars "---------------------------------" ++ [10] ++ chars "Examination is enabled!" ++ [10]) [];;
  fprintf fuel 1 (chars "View source code line 54 to see the disabling method." ++ [10] ++ chars "---------------------------------" ++ [10]) [];;
  ucall (Pause 15);;
  examinePerformance;;
  examinePerformance_quiet;;
  exit 0.
End Pingpong.
End Utils.
