(* ===== verification/Stress.v ===== *)
(** * The stress programs: forktest, stressfs, logstress and grind

    They exercise fork, the file system and the log.  forktest counts what fork
    gives it and waits for every child; grind draws system calls from a
    Park-Miller generator whose state is a static variable. *)
From stdpp Require Import base numbers list gmap strings.
From Stdlib Require Import Ascii Znumtheory.
From S2P Require Import Prelude Str User Ulib Utils.

Section Stress.
Context {W : Type} `{Os W}.
Variable fuel : nat.

(** wait(&status): the kernel stores the status at [p]. *)
Definition wait_at (p : Z) : U W Z := '(r, bs) ← ucall_bytes Wait; m ← umem; uset (store_bytes m p bs);; mret r.
(** printf(...); exit(code); *)
Definition fail {A} (code : Z) (msg : string) (ap : list uarg) : U W A := sayln fuel 1 msg ap;; exit code.

(** ** forktest.c *)

(** print(s): write(1, s, strlen(s)) *)
Definition print (s : string) : U W unit := write_lit 1 (chars s ++ [10]);; mret tt.

(** N of forktest.c *)
Definition forktest_N : Z := 1000.

(** for(n=0; n<N; n++) { pid = fork(); ... }: the value of n after the loop. *)
Fixpoint fork_loop (k : nat) (n : Z) : U W Z :=
  match k with
  | O => mret n
  | S k =>
      pid ← ucall Fork;
      if pid <? 0 then mret n
      else if pid =? 0 then exit 0
      else fork_loop k (i32 (n + 1))
  end.
(** for(; n > 0; n--) *)
Fixpoint wait_loop (n : nat) : U W unit :=
  match n with
  | O => mret tt
  | S n =>
      r ← ucall Wait;
      if r <? 0 then print "wait stopped early";; exit 1 else wait_loop n
  end.
Definition forktest : U W unit :=
  print "fork test";;
  n ← fork_loop (Z.to_nat forktest_N) 0;
  if n =? forktest_N then print "fork claimed to work N times!";; exit 1
  else
    wait_loop (Z.to_nat n);;
    r ← ucall Wait;
    if negb (r =? -1) then print "wait got too many";; exit 1
    else print "fork test OK".
Definition forktest_main : U W unit := forktest;; exit 0.

(** ** stressfs.c *)

(** for(i = 0; i < 4; i++) if(fork() > 0) break; *)
Fixpoint stress_forks (k : nat) (i : Z) : U W Z :=
  match k with
  | O => mret i
  | S k => pid ← ucall Fork; if 0 <? pid then mret i else stress_forks k (i + 1)
  end.
Definition stressfs_main (data : Z) : U W unit :=
  sayln fuel 1 "stressfs starting" [];;
  m ← umem; uset (Ulib.memset m data (chr "a") 512);;
  i ← stress_forks 4 0;
  sayln fuel 1 "write %d" [AInt i];;
  let path := chars "stressfs" ++ [u8 (chr "0" + i)] in
  fd ← ucall (Open path (Z.lor O_CREATE O_RDWR));
  repeat_u 20 (write fd data 512;; mret tt);;
  close fd;;
  sayln fuel 1 "read" [];;
  fd ← ucall (Open path O_RDONLY);
  repeat_u 20 (read fd data 512;; mret tt);;
  close fd;;
  ucall Wait;;
  exit 0.

(** ** logstress.c *)

Section Logstress.
(** [buf] has BUFSZ = 500 bytes in the program; the calls use SZ = 2000. *)
Variables (buf xstatus : Z).
Definition SZ : Z := 2000.
(** for(i = 0; i < N; i++) in the child *)
Fixpoint log_writes (k : nat) (fd : Z) : U W unit :=
  match k with
  | O => exit 0
  | S k =>
      n ← write fd buf SZ;
      if negb (n =? SZ) then fail 1 "write failed %d" [AInt n] else log_writes k fd
  end.
Definition log_child (argv0 arg i : Z) : U W unit :=
  fd ← open arg (Z.lor O_CREATE O_RDWR);
  if fd <? 0 then fail 1 "%s: create %s failed" [APtr argv0; APtr arg]
  else
    m ← umem; uset (Ulib.memset m buf (chr "0" + i) SZ);;
    log_writes 250 fd.
Fixpoint log_forks (args : list Z) (argv0 i : Z) : U W unit :=
  match args with
  | [] => mret tt
  | arg :: args =>
      pid1 ← ucall Fork;
      if pid1 <? 0 then fail 1 "%s: fork failed" [APtr argv0]
      else if pid1 =? 0 then log_child argv0 arg i
      else log_forks args argv0 (i + 1)
  end.
(** for(int i = 1; i < argc; i++) { wait(&xstatus); if(xstatus != 0) exit(xstatus); } *)
Fixpoint log_waits (args : list Z) : U W unit :=
  match args with
  | [] => mret tt
  | _ :: args =>
      wait_at xstatus;;
      m ← umem; let x := int_at m xstatus in
      if negb (x =? 0) then exit x else log_waits args
  end.
Definition logstress_main (argv : list Z) : U W unit :=
  log_forks (tail argv) (nth 0 argv 0) 1;; log_waits (tail argv).
End Logstress.

(** ** grind.c *)

Section Grind.
(** The static variable rand_next, the buffers of go and its local arrays. *)
Variables (rand_next buf fds aa bb st1 st2 : Z).

Definition do_rand (ctx : Z) : U W Z :=
  m ← umem;
  let x := i64 (u64 (load64 m ctx mod 0x7ffffffe + 1)) in
  let hi := Z.quot x 127773 in
  let lo := Z.rem x 127773 in
  let x := i64 (i64 (16807 * lo) - i64 (2836 * hi)) in
  let x := if x <? 0 then i64 (x + 0x7fffffff) else x in
  let x := i64 (x - 1) in
  uset (store64 m ctx (u64 x));;
  mret (i32 x).
Definition rand : U W Z := do_rand rand_next.

(** Calls with literal paths, results dropped. *)
Definition drop_ (c : call) : U W unit := ucall c;; mret tt.
(** close(open(path, O_CREATE|O_RDWR)); *)
Definition touch (path : string) : U W unit :=
  fd ← ucall (Open (chars path) (Z.lor O_CREATE O_RDWR)); drop_ (Close fd).
(** int pid = fork(); if(pid == 0) child; else if(pid < 0) fail; rest *)
Definition forked {A} (child : U W A) (rest : Z -> U W A) : U W A :=
  pid ← ucall Fork;
  if pid =? 0 then child
  else if pid <? 0 then fail 1 "grind: fork failed" []
  else rest pid.
(** fprintf(2, ...); exit(code); *)
Definition fail2 {A} (code : Z) (msg : string) : U W A := sayln fuel 2 msg [];; exit code.

(** what == 19: a pipe shared by several processes *)
Definition go_pipe : U W unit :=
  r ← pipe fds;
  if r <? 0 then fail 1 "grind: pipe failed" []
  else
    f0 ← fd_at fds 0; f1 ← fd_at fds 1;
    forked
      (drop_ Fork;; drop_ Fork;;
       r ← write_lit f1 (chars "x");
       uwhen (negb (r =? 1)) (sayln fuel 1 "grind: pipe write failed" []);;
       '(r, _) ← ucall_bytes (Read f0 1);
       uwhen (negb (r =? 1)) (sayln fuel 1 "grind: pipe read failed" []);;
       exit 0)
      (fun _ => drop_ (Close f0);; drop_ (Close f1);; drop_ Wait).

(** what == 21: create, write and stat a file *)
Definition go_stat : U W unit :=
  drop_ (Unlink (chars "c"));;
  fd1 ← ucall (Open (chars "c") (Z.lor O_CREATE O_RDWR));
  if fd1 <? 0 then fail 1 "grind: create c failed" [] else
  r ← write_lit fd1 (chars "x");
  if negb (r =? 1) then fail 1 "grind: write c failed" [] else
  '(r, st) ← fstat fd1;
  if negb (r =? 0) then fail 1 "grind: fstat failed" [] else
  if negb (us_size st =? 1) then fail 1 "grind: fstat reports wrong size %d" [AInt (i32 (us_size st))] else
  if 200 <? us_ino st then fail 1 "grind: fstat reports crazy i-number %d" [AInt (us_ino st)] else
  drop_ (Close fd1);; drop_ (Unlink (chars "c")).

(** what == 22: echo hi | cat *)
Definition go_echo (a0 a1 b0 b1 : Z) : U W unit :=
  drop_ (Close b0);; drop_ (Close b1);; drop_ (Close a0);; drop_ (Close 1);;
  r ← ucall (Dup a1);
  if negb (r =? 1) then fail2 1 "grind: dup failed"
  else
    drop_ (Close a1);;
    exec (chars "grindir/../echo") [chars "echo"; chars "hi"];;
    fail2 2 "grind: echo: not found".
Definition go_cat (a0 a1 b0 b1 : Z) : U W unit :=
  drop_ (Close a1);; drop_ (Close b0);; drop_ (Close 0);;
  r ← ucall (Dup a0);
  if negb (r =? 0) then fail2 4 "grind: dup failed"
  else
    drop_ (Close a0);; drop_ (Close 1);;
    r ← ucall (Dup b1);
    if negb (r =? 1) then fail2 5 "grind: dup failed"
    else
      drop_ (Close b1);;
      exec (chars "/cat") [chars "cat"];;
      fail2 6 "grind: cat: not found".
(** char buf[4]: the three reads, one byte each, of what is in the array *)
Fixpoint go_reads (k : nat) (fd : Z) : U W (list Z) :=
  match k with
  | O => mret []
  | S k => '(_, bs) ← ucall_bytes (Read fd 1); l ← go_reads k fd; mret (nth 0 bs 0 :: l)
  end.
(** The bytes of buf up to the NUL. *)
Fixpoint to_nul (l : list Z) : list Z :=
  match l with
  | [] => []
  | b :: l => if b =? 0 then [] else b :: to_nul l
  end.
Definition go_pipeline : U W unit :=
  r ← pipe aa;
  if r <? 0 then fail2 1 "grind: pipe failed" else
  r ← pipe bb;
  if r <? 0 then fail2 1 "grind: pipe failed" else
  a0 ← fd_at aa 0; a1 ← fd_at aa 1; b0 ← fd_at bb 0; b1 ← fd_at bb 1;
  pid1 ← ucall Fork;
  if pid1 =? 0 then go_echo a0 a1 b0 b1
  else if pid1 <? 0 then fail2 3 "grind: fork failed"
  else
    pid2 ← ucall Fork;
    if pid2 =? 0 then go_cat a0 a1 b0 b1
    else if pid2 <? 0 then fail2 7 "grind: fork failed"
    else
      drop_ (Close a0);; drop_ (Close a1);; drop_ (Close b1);;
      l ← go_reads 3 b0;
      drop_ (Close b0);;
      wait_at st1;; wait_at st2;;
      m ← umem;
      let x1 := int_at m st1 in
      let x2 := int_at m st2 in
      if negb (x1 =? 0) || negb (x2 =? 0) || negb (bool_decide (to_nul l = chars "hi" ++ [10]))
      then
        fprintf fuel 1 (chars "grind: exec pipeline failed %d %d " ++ [34] ++ chars "%s" ++ [34; 10])
          [AInt x1; AInt x2; ALit (to_nul l)];;
        exit 1
      else mret tt.

(** One round of the loop of go after the draw; the result is the new fd. *)
Definition go_one (what break0 fd : Z) : U W Z :=
  if what =? 1 then touch "grindir/../a";; mret fd
  else if what =? 2 then touch "grindir/../grindir/../b";; mret fd
  else if what =? 3 then drop_ (Unlink (chars "grindir/../a"));; mret fd
  else if what =? 4 then
    r ← ucall (Chdir (chars "grindir"));
    if negb (r =? 0) then fail 1 "grind: chdir grindir failed" []
    else drop_ (Unlink (chars "../b"));; drop_ (Chdir (chars "/"));; mret fd
  else if what =? 5 then drop_ (Close fd);; ucall (Open (chars "/grindir/../a") (Z.lor O_CREATE O_RDWR))
  else if what =? 6 then drop_ (Close fd);; ucall (Open (chars "/./grindir/./../b") (Z.lor O_CREATE O_RDWR))
  else if what =? 7 then write fd buf 999;; mret fd
  else if what =? 8 then read fd buf 999;; mret fd
  else if what =? 9 then
    drop_ (Mkdir (chars "grindir/../a"));; touch "a/../a/./a";; drop_ (Unlink (chars "a/a"));; mret fd
  else if what =? 10 then
    drop_ (Mkdir (chars "/../b"));; touch "grindir/../b/b";; drop_ (Unlink (chars "b/b"));; mret fd
  else if what =? 11 then
    drop_ (Unlink (chars "b"));; drop_ (Link (chars "../grindir/./../a") (chars "../b"));; mret fd
  else if what =? 12 then
    drop_ (Unlink (chars "../grindir/../a"));; drop_ (Link (chars ".././b") (chars "/grindir/../a"));; mret fd
  else if what =? 13 then forked (exit 0) (fun _ => drop_ Wait;; mret fd)
  else if what =? 14 then forked (drop_ Fork;; drop_ Fork;; exit 0) (fun _ => drop_ Wait;; mret fd)
  else if what =? 15 then sbrk 6011;; mret fd
  else if what =? 16 then
    p ← sbrk 0;
    (if break0 <? p then q ← sbrk 0; sbrk (i32 (- (q - break0))) else mret 0);;
    mret fd
  else if what =? 17 then
    forked (touch "a";; exit 0) (fun pid =>
      r ← ucall (Chdir (chars "../grindir/.."));
      if negb (r =? 0) then fail 1 "grind: chdir failed" []
      else drop_ (Kill pid);; drop_ Wait;; mret fd)
  else if what =? 18 then
    forked (pid ← ucall Getpid; drop_ (Kill pid);; exit 0) (fun _ => drop_ Wait;; mret fd)
  else if what =? 19 then go_pipe;; mret fd
  else if what =? 20 then
    forked
      (drop_ (Unlink (chars "a"));; drop_ (Mkdir (chars "a"));; drop_ (Chdir (chars "a"));;
       drop_ (Unlink (chars "../a"));; drop_ (Open (chars "x") (Z.lor O_CREATE O_RDWR));;
       drop_ (Unlink (chars "x"));; exit 0)
      (fun _ => drop_ Wait;; mret fd)
  else if what =? 21 then go_stat;; mret fd
  else if what =? 22 then go_pipeline;; mret fd
  else mret fd.

(** while(1) *)
Fixpoint go_loop (k : nat) (which_child break0 fd iters : Z) : U W unit :=
  match k with
  | O => ufuel
  | S k =>
      let iters := u64 (iters + 1) in
      (if iters mod 500 =? 0 then drop_ (Write 1 (chars (if z2b which_child then "B" else "A"))) else mret tt);;
      r ← rand;
      fd ← go_one (Z.rem r 23) break0 fd;
      go_loop k which_child break0 fd iters
  end.
Definition go (which_child : Z) : U W unit :=
  break0 ← sbrk 0;
  drop_ (Mkdir (chars "grindir"));;
  r ← ucall (Chdir (chars "grindir"));
  if negb (r =? 0) then fail 1 "grind: chdir grindir failed" []
  else
    drop_ (Chdir (chars "/"));;
    go_loop fuel which_child break0 (-1) 0.

(** rand_next ^= x; *)
Definition stir (x : Z) : U W unit := m ← umem; uset (store64 m rand_next (Z.lxor (load64 m rand_next) x)).
Definition iter : U W unit :=
  drop_ (Unlink (chars "a"));; drop_ (Unlink (chars "b"));;
  pid1 ← ucall Fork;
  if pid1 <? 0 then fail 1 "grind: fork failed" []
  else if pid1 =? 0 then stir 31;; go 0;; exit 0
  else
    pid2 ← ucall Fork;
    if pid2 <? 0 then fail 1 "grind: fork failed" []
    else if pid2 =? 0 then stir 7177;; go 1;; exit 0
    else
      m ← umem; uset (store_bytes m st1 (le_split 4 (-1)));;
      wait_at st1;;
      m ← umem;
      (if negb (int_at m st1 =? 0) then drop_ (Kill pid1);; drop_ (Kill pid2) else mret tt);;
      m ← umem; uset (store_bytes m st2 (le_split 4 (-1)));;
      wait_at st2;;
      exit 0.
Fixpoint grind_loop (k : nat) : U W unit :=
  match k with
  | O => ufuel
  | S k =>
      pid ← ucall Fork;
      if pid =? 0 then iter;; exit 0
      else
        (if 0 <? pid then drop_ Wait else mret tt);;
        drop_ (Pause 20);;
        m ← umem; uset (store64 m rand_next (u64 (load64 m rand_next + 1)));;
        grind_loop k
  end.
Definition grind_main : U W unit := grind_loop fuel.
End Grind.
End Stress.

(** ** The generator of grind *)

(** 16807 has an inverse modulo the prime 2^31 - 1, so no product of it with a
    smaller positive number is a multiple. *)
Lemma rand_unit x : 0 < x < 0x7fffffff -> (16807 * x) mod 0x7fffffff <> 0.
Proof.
  intros Hx E. apply Z.mod_divide in E; [|lia].
  apply Z.gauss in E; [|reflexivity]. apply Z.divide_pos_le in E; lia.
Qed.

(** Schrage's way to compute the product without leaving 32 bits. *)
Lemma schrage x : 0 < x < 0x7fffffff ->
  let y := 16807 * (x mod 127773) - 2836 * (x / 127773) in
  - 0x7fffffff < y < 0x7fffffff /\ (16807 * x) mod 0x7fffffff = (if y <? 0 then y + 0x7fffffff else y).
Proof.
  intros Hx y. pose proof (Z.div_mod x 127773 ltac:(lia)). pose proof (Z.mod_pos_bound x 127773 ltac:(lia)).
  assert (0 <= x / 127773 < 16808) as Hq.
  { split; [apply Z.div_pos; lia|]. apply Z.div_lt_upper_bound; lia. }
  split; [lia|]. symmetry. destruct (Z.ltb_spec y 0).
  - apply Z.mod_unique with (x / 127773 - 1); lia.
  - apply Z.mod_unique with (x / 127773); lia.
Qed.

(** [do_rand] is one step of the minimal standard generator of Park and Miller
    on [1, 2^31 - 2], shifted down by one: no intermediate value overflows, the
    result is a nonnegative int and is the new state. *)
Theorem do_rand_park_miller {W} `{Os W} ctx m (w : W) :
  let x := load64 m ctx mod (2 ^ 31 - 2) + 1 in
  let r := (16807 * x) mod (2 ^ 31 - 1) - 1 in
  do_rand ctx m w = URet r (store64 m ctx r) w /\ 0 <= r <= 2 ^ 31 - 3 /\ load64 (store64 m ctx r) ctx = r.
Proof.
  intros x r. change (2 ^ 31 - 2) with 0x7ffffffe in *. change (2 ^ 31 - 1) with 0x7fffffff in r.
  pose proof (Z.mod_pos_bound (load64 m ctx) 0x7ffffffe ltac:(lia)) as Hm.
  assert (0 < x < 0x7fffffff) as Hx by lia.
  pose proof (rand_unit x Hx) as Hu. destruct (schrage x Hx) as [Hy Es].
  pose proof (Z.mod_pos_bound (16807 * x) 0x7fffffff ltac:(lia)) as Hr0.
  assert (0 <= r <= 0x7ffffffd) as Hr by lia.
  assert (0 <= x mod 127773 < 127773) as Hlo by (apply Z.mod_pos_bound; lia).
  assert (0 <= x / 127773 < 16808) as Hhi.
  { split; [apply Z.div_pos; lia|]. apply Z.div_lt_upper_bound; lia. }
  split; [|split; [lia|rewrite load64_store64; apply Z.mod_small; lia]].
  unfold do_rand, umem, uset, mret, U_ret, mbind, U_bind. fold x.
  rewrite (u_small 64 x), (s_small 64 x) by (unfold in_s; lia).
  rewrite Z.quot_div_nonneg, Z.rem_mod_nonneg by lia.
  rewrite (s_small 64 (16807 * (x mod 127773))), (s_small 64 (2836 * (x / 127773))) by (unfold in_s; lia).
  rewrite (s_small 64 (16807 * (x mod 127773) - 2836 * (x / 127773))) by (unfold in_s; lia).
  set (y := 16807 * (x mod 127773) - 2836 * (x / 127773)) in *.
  assert ((if y <? 0 then i64 (y + 0x7fffffff) else y) = r + 1) as ->.
  { unfold r. rewrite Es. destruct (Z.ltb_spec y 0); [|lia]. rewrite s_small by (unfold in_s; lia). lia. }
  replace (r + 1 - 1) with r by lia.
  by rewrite (s_small 64 r), (u_small 64 r), (s_small 32 r) by (unfold in_s; lia).
Qed.

(** Different states have different successors: the generator runs through
    a cycle from every state in its range and never falls into a shorter one. *)
Theorem do_rand_injective {W} `{Os W} ctx m m' (w : W) :
  0 <= load64 m ctx <= 2 ^ 31 - 3 -> 0 <= load64 m' ctx <= 2 ^ 31 - 3 ->
  forall r m1 m1', do_rand ctx m w = URet r m1 w -> do_rand ctx m' w = URet r m1' w -> load64 m ctx = load64 m' ctx.
Proof.
  intros Ha Hb r m1 m1' E E'. destruct (do_rand_park_miller ctx m w) as (F & _). destruct (do_rand_park_miller ctx m' w) as (F' & _).
  rewrite E in F. rewrite E' in F'. injection F as Er _. injection F' as Er' _. clear E E'.
  change (2 ^ 31 - 2) with 0x7ffffffe in *. change (2 ^ 31 - 1) with 0x7fffffff in *.
  rewrite (Z.mod_small (load64 m ctx)) in Er by lia. rewrite (Z.mod_small (load64 m' ctx)) in Er' by lia.
  set (a := load64 m ctx) in *. set (b := load64 m' ctx) in *.
  assert ((16807 * (a + 1)) mod 0x7fffffff = (16807 * (b + 1)) mod 0x7fffffff) as Em by lia.
  assert ((0x7fffffff | 16807 * (a - b))) as Hd.
  { apply Z.mod_divide; [lia|]. replace (16807 * (a - b)) with (16807 * (a + 1) - 16807 * (b + 1)) by lia.
    rewrite Zminus_mod, Em, Z.sub_diag. done. }
  apply Z.gauss in Hd; [|reflexivity]. destruct Hd as [q Hq]. lia.
Qed.

(** ** forktest against the contract of fork and wait

    What a parent relies on: a fork that succeeds gives it one more child and
    happens only while there is room, and wait takes one child or, with none
    left, returns -1. *)
Class Procs (W : Type) `{Os W} := {
  kids : W -> Z;
  room : Z;
  said : W -> list Z;
  fork_parent : forall w r bs w', sys Fork w = (r, bs, w') -> r <> 0 /\ said w' = said w /\
    (r < 0 -> kids w' = kids w) /\ (0 < r -> kids w' = kids w + 1 /\ kids w < room);
  wait_child : forall w r bs w', sys Wait w = (r, bs, w') -> said w' = said w /\
    (kids w <= 0 -> r = -1 /\ kids w' = kids w) /\ (0 < kids w -> 0 < r /\ kids w' = kids w - 1);
  write_said : forall w bs r bs' w', sys (Write 1 bs) w = (r, bs', w') ->
    kids w' = kids w /\ said w' = said w ++ bs;
}.

Section Forktest.
Context {W : Type} `{Procs W}.

Lemma ucall_eq c m w r bs w' : sys c w = (r, bs, w') -> ucall c m w = URet r m w'.
Proof. unfold ucall. by intros ->. Qed.

Lemma print_ok s m w : exists w', print s m w = URet tt m w' /\ kids w' = kids w /\ said w' = said w ++ chars s ++ [10].
Proof.
  unfold print, write_lit. destruct (sys (Write 1 (chars s ++ [10])) w) as [[r bs] w'] eqn:E.
  destruct (write_said _ _ _ _ _ E) as [Hk Hs]. exists w'. by rewrite (ubind_ret _ _ _ _ _ _ _ (ucall_eq _ m _ _ _ _ E)).
Qed.

Lemma fork_loop_ok k : forall n m w, n + Z.of_nat k = forktest_N -> kids w = n -> 0 <= n <= Z.max 0 room -> room < forktest_N ->
  exists n' w', fork_loop k n m w = URet n' m w' /\ kids w' = n' /\ 0 <= n' < forktest_N /\ said w' = said w.
Proof.
  unfold forktest_N. induction k as [|k IH]; intros n m w Hn Hk Hr Hroom; cbn [fork_loop].
  { exists n, w. split; [done|]. split; [done|]. split; [lia|done]. }
  destruct (sys Fork w) as [[r bs] w1] eqn:E. ustep (ucall_eq _ m _ _ _ _ E).
  destruct (fork_parent _ _ _ _ E) as (Hr0 & Hs & Hneg & Hpos).
  destruct (Z.ltb_spec r 0) as [Hlt|Hge].
  { exists n, w1. split; [done|]. rewrite Hneg by done. split; [done|]. split; [lia|done]. }
  rewrite (proj2 (Z.eqb_neq r 0)) by done. destruct (Hpos ltac:(lia)) as [Hk1 Hlt].
  rewrite s_small by (unfold in_s; lia).
  destruct (IH (n + 1) m w1) as (n' & w2 & E2 & Hk2 & Hn2 & Hs2); [lia|lia|lia|done|].
  exists n', w2. split; [done|]. split; [done|]. split; [done|congruence].
Qed.

Lemma wait_loop_ok n : forall m w, kids w = Z.of_nat n ->
  exists w', wait_loop n m w = URet tt m w' /\ kids w' = 0 /\ said w' = said w.
Proof.
  induction n as [|n IH]; intros m w Hk; cbn [wait_loop]; [by exists w|].
  destruct (sys Wait w) as [[r bs] w1] eqn:E. ustep (ucall_eq _ m _ _ _ _ E).
  destruct (wait_child _ _ _ _ E) as (Hs & _ & Hpos). destruct (Hpos ltac:(lia)) as [Hr Hk1].
  rewrite (proj2 (Z.ltb_ge r 0)) by lia. destruct (IH m w1) as (w2 & E2 & Hk2 & Hs2); [lia|].
  exists w2. split; [done|]. split; [done|congruence].
Qed.
End Forktest.

(** forktest passes on every kernel that keeps the contract and cannot run 1000
    children: it forks until the kernel refuses, waits for every child, finds
    none left, says so and exits with 0. *)
Theorem forktest_passes {W} `{Procs W} m (w : W) : room < forktest_N -> kids w = 0 ->
  exists w', forktest_main m w = UExit 0 w' /\ kids w' = 0 /\
    said w' = said w ++ (chars "fork test" ++ [10]) ++ chars "fork test OK" ++ [10].
Proof.
  intros Hroom Hk. unfold forktest_main, forktest.
  destruct (print_ok "fork test" m w) as (w1 & E1 & K1 & S1).
  destruct (fork_loop_ok (Z.to_nat forktest_N) 0 m w1) as (n & w2 & E2 & K2 & Hn & S2); [done|congruence|lia|done|].
  destruct (wait_loop_ok (Z.to_nat n) m w2) as (w3 & E3 & K3 & S3); [lia|].
  destruct (sys Wait w3) as [[r bs] w4] eqn:E4. destruct (wait_child _ _ _ _ E4) as (S4 & Hnone & _).
  destruct (Hnone ltac:(lia)) as [-> K4].
  destruct (print_ok "fork test OK" m w4) as (w5 & E5 & K5 & S5).
  exists w5. split; [|split; [congruence|rewrite S5, S4, S3, S2, S1; by rewrite <- app_assoc]].
  unfold mbind, U_bind. rewrite E1, E2, (proj2 (Z.eqb_neq n forktest_N)) by lia.
  rewrite E3, (ucall_eq _ m _ _ _ _ E4), Z.eqb_refl. cbn [negb]. by rewrite E5.
Qed.

(** A world that meets the contract, with room for 61 children. *)
Record crowd := Crowd { cr_kids : Z; cr_said : list Z }.
Definition crowd_sys (c : call) (w : crowd) : Z * list Z * crowd :=
  match c with
  | Fork => if cr_kids w <? 61 then (4 + Z.abs (cr_kids w), [], Crowd (cr_kids w + 1) (cr_said w)) else (-1, [], w)
  | Wait => if 0 <? cr_kids w then (4, [], Crowd (cr_kids w - 1) (cr_said w)) else (-1, [], w)
  | Write _ bs => (Z.of_nat (length bs), [], Crowd (cr_kids w) (cr_said w ++ bs))
  | _ => (-1, [], w)
  end.
#[global] Instance crowd_os : Os crowd := crowd_sys.
#[global] Program Instance crowd_procs : Procs crowd := { kids := cr_kids; room := 61; said := cr_said }.
Next Obligation.
  intros w r bs w' E. unfold sys, crowd_os, crowd_sys in E. destruct (Z.ltb_spec (cr_kids w) 61); injection E as <- <- <-; simpl.
  - split; [lia|]. split; [done|]. split; [lia|done].
  - done.
Qed.
Next Obligation.
  intros w r bs w' E. unfold sys, crowd_os, crowd_sys in E. destruct (Z.ltb_spec 0 (cr_kids w)); injection E as <- <- <-; simpl.
  - split; [done|]. split; [lia|done].
  - split; [done|]. split; [done|lia].
Qed.
Next Obligation. intros w bs r bs' w' E. injection E as <- <- <-. done. Qed.

Lemma forktest_passes_witness : exists w', forktest_main ∅ (Crowd 0 []) = UExit 0 w' /\
  cr_said w' = chars "fork test" ++ [10] ++ chars "fork test OK" ++ [10].
Proof.
  assert (@room crowd _ _ < forktest_N) as Hr by reflexivity.
  destruct (forktest_passes ∅ (Crowd 0 []) Hr eq_refl) as (w' & E & _ & Hs). exists w'. split; [exact E|exact Hs].
Defined.

Lemma do_rand_injective_witness : exists m m' : mem, load64 m 0 = 1 /\ load64 m' 0 = 2 /\
  do_rand 0 m (Crowd 0 []) <> do_rand 0 m' (Crowd 0 []).
Proof.
  exists (store64 ∅ 0 1), (store64 ∅ 0 2). split; [reflexivity|]. split; [reflexivity|]. intros E.
  assert (load64 (store64 ∅ 0 1) 0 = load64 (store64 ∅ 0 2) 0) as E'; [|discriminate E'].
  destruct (do_rand_park_miller 0 (store64 ∅ 0 1) (Crowd 0 [])) as [E1 _].
  refine (do_rand_injective 0 _ _ (Crowd 0 []) _ _ _ _ _ E1 _); [split; discriminate|split; discriminate|].
  rewrite <- E. exact E1.
Defined.
