(* ===== verification/TestBase.v ===== *)
(** * The test suite (user/usertests.c): what the tests share

    A test is a function of its name, which it prints when it fails.  The
    arrays and variables of usertests.c, and the stack variables whose address
    a test passes to the kernel, are addresses; TestArgs.v, TestFs.v, TestProc.v
    and TestMem.v hold the tests, TestDrive.v the driver. *)
From stdpp Require Import base numbers list gmap strings.
From Stdlib Require Import Ascii.
From S2P Require Import Prelude.
From S2P Require Bio Fs Dir Exec.
From S2P Require Import Str Riscv User Ulib Utils Stress.

Definition O_TRUNC : Z := 0x400.
(** kernel/syscall.h *)
Definition SYS_pipe : Z := 4.
Definition SYS_read : Z := 5.
Definition SYS_exec : Z := 7.
Definition SYS_open : Z := 15.
Definition SYS_write : Z := 16.
Definition SYS_unlink : Z := 18.
Definition SYS_link : Z := 19.
(** BUFSZ, the size of buf *)
Definition BUFSZ : Z := (Bio.MAXOPBLOCKS + 2) * Bio.BSIZE.

Section TestBase.
Context {W : Type} `{Os W}.
Variable fuel : nat.

(** printf of a message that ends its line, or does not *)
Definition say (fmt : string) (ap : list uarg) : U W unit := sayln fuel 1 fmt ap.
Definition say_ (fmt : string) (ap : list uarg) : U W unit := printf fuel (chars fmt) ap.
(** if(b){ printf(fmt, ...); exit(1); } *)
Definition failif (b : bool) (fmt : string) (ap : list uarg) : U W unit := uwhen b (say fmt ap;; exit 1).
Definition failif_ (b : bool) (fmt : string) (ap : list uarg) : U W unit := uwhen b (say_ fmt ap;; exit 1).

(** Calls with literal paths. *)
Definition open_lit (path : string) (mode : Z) : U W Z := ucall (Open (chars path) mode).
Definition unlink_lit (path : string) : U W Z := ucall (Unlink (chars path)).
Definition mkdir_lit (path : string) : U W Z := ucall (Mkdir (chars path)).
Definition chdir_lit (path : string) : U W Z := ucall (Chdir (chars path)).
Definition link_lit (old new : string) : U W Z := ucall (Link (chars old) (chars new)).
Definition ignore {A} (p : U W A) : U W unit := p;; mret tt.
(** wait(&x): the result and the value of x after it *)
Definition wait_int (p : Z) : U W (Z * Z) := r ← wait_at p; m ← umem; mret (r, int_at m p).
(** memset(p, c, n); *)
Definition umemset (p c n : Z) : U W unit := m ← umem; uset (memset m p c n).
Definition load_char (p : Z) : U W Z := m ← umem; mret (load8 m p).
Definition store_char (p c : Z) : U W unit := m ← umem; uset (store8 m p c).

(** A call whose arguments are these registers. *)
Definition raw (num : Z) (args : list Z) : U W Z := ucall (Raw num args).
(** exec with these registers; [args] are the strings the second one leads to *)
Definition raw_exec (path argv : Z) (args : mem -> list (list Z)) : U W Z := fun m w =>
  let '(r, _, w') := sys (Raw SYS_exec [path; argv]) w in
  if r <? 0 then URet r m w' else UExec (path_at m path) (args m) w'.
(** A load or store at an address that may trap: the kernel maps a page there
    or kills the process. *)
Definition probe (addr : Z) (store : bool) : U W unit :=
  r ← ucall (Fault addr store); if r <? 0 then exit (-1) else mret tt.

(** for(i = 0; i < n; i++) body *)
Fixpoint upto (n : nat) (i : Z) (body : Z -> U W unit) : U W unit :=
  match n with
  | O => mret tt
  | S n => body i;; upto n (i + 1) body
  end.
Definition for_ (n : Z) (body : Z -> U W unit) : U W unit := upto (Z.to_nat n) 0 body.
(** for each element of an array *)
Fixpoint each {A} (l : list A) (body : A -> U W unit) : U W unit :=
  match l with
  | [] => mret tt
  | a :: l => body a;; each l body
  end.
(** while(1) *)
Fixpoint forever (k : nat) (body : U W unit) : U W unit :=
  match k with
  | O => ufuel
  | S k => body;; forever k body
  end.
(** pid = fork(); if(pid < 0){ printf(fmt); exit(1); } if(pid == 0) child; rest:
    the child's code exits, or goes on with [rest] as the C code does. *)
Definition fork_or (fmt : string) (ap : list uarg) (child : U W unit) : U W Z :=
  pid ← ucall Fork;
  failif (pid <? 0) fmt ap;;
  uwhen (pid =? 0) child;;
  mret pid.
End TestBase.
