(* ===== verification/TestArgs.v ===== *)
(** * The test suite: bad arguments (user/usertests.c)

    Pointers outside the process's memory and strings that are too long, in
    every call that takes them; and truncation and iput of files in use. *)
From stdpp Require Import base numbers list gmap strings.
From Stdlib Require Import Ascii.
From S2P Require Import Prelude Str Riscv User Ulib Utils Stress TestBase.
From S2P Require Bio Fs Dir Exec.

Section TestArgs.
Context {W : Type} `{Os W}.
Variable fuel : nat.
(** The address of a string literal, and of the variables fds, xstatus, and the
    local arrays of a test. *)
Variables (lit : string -> Z) (fds xstatus lbuf : Z).
Local Abbreviation say := (say fuel).
Local Abbreviation failif := (failif fuel).
Local Abbreviation CREAT_WR := (Z.lor O_CREATE O_WRONLY).

(** addrs[] of copyin and copyinstr1; copyout has 0 before them. *)
Definition bad_addrs : list Z := [0x80000000; 0x3fffffe000; 0x3ffffff000; 0x4000000000; 0xffffffffffffffff].

Definition copyin (s : list Z) : U W unit :=
  each bad_addrs (fun addr =>
    fd ← open_lit "copyin1" CREAT_WR;
    failif (fd <? 0) "open(copyin1) failed" [];;
    n ← raw SYS_write [fd; addr; 8192];
    failif (0 <=? n) "write(fd, %p, 8192) returned %d, not -1" [AInt addr; AInt n];;
    close fd;;
    unlink_lit "copyin1";;
    n ← raw SYS_write [1; addr; 8192];
    failif (0 <? n) "write(1, %p, 8192) returned %d, not -1 or 0" [AInt addr; AInt n];;
    r ← pipe fds;
    failif (r <? 0) "pipe() failed" [];;
    f1 ← fd_at fds 1;
    n ← raw SYS_write [f1; addr; 8192];
    failif (0 <? n) "write(pipe, %p, 8192) returned %d, not -1 or 0" [AInt addr; AInt n];;
    f0 ← fd_at fds 0;
    drop_ (Close f0);; drop_ (Close f1)).

Definition copyout (s : list Z) : U W unit :=
  each (0 :: bad_addrs) (fun addr =>
    fd ← open_lit "README" 0;
    failif (fd <? 0) "open(README) failed" [];;
    n ← raw SYS_read [fd; addr; 8192];
    failif (0 <? n) "read(fd, %p, 8192) returned %d, not -1 or 0" [AInt addr; AInt n];;
    close fd;;
    r ← pipe fds;
    failif (r <? 0) "pipe() failed" [];;
    f1 ← fd_at fds 1;
    n ← write_lit f1 (chars "x");
    failif (negb (n =? 1)) "pipe write failed" [];;
    f0 ← fd_at fds 0;
    n ← raw SYS_read [f0; addr; 8192];
    failif (0 <? n) "read(pipe, %p, 8192) returned %d, not -1 or 0" [AInt addr; AInt n];;
    drop_ (Close f0);; drop_ (Close f1)).

Definition copyinstr1 (s : list Z) : U W unit :=
  each bad_addrs (fun addr =>
    fd ← raw SYS_open [addr; CREAT_WR];
    failif (0 <=? fd) "open(%p) returned %d, not -1" [AInt addr; AInt fd]).

(** A path of MAXPATH characters [b], and three arguments of a page each; the
    last two messages print fd, not ret. *)
Definition copyinstr2 (s : list Z) : U W unit :=
  let b := replicate (Z.to_nat Dir.MAXPATH) (chr "x") in
  ret ← ucall (Unlink b);
  failif (negb (ret =? -1)) "unlink(%s) returned %d, not -1" [ALit b; AInt ret];;
  fd ← ucall (Open b CREAT_WR);
  failif (negb (fd =? -1)) "open(%s) returned %d, not -1" [ALit b; AInt fd];;
  ret ← ucall (Link b b);
  failif (negb (ret =? -1)) "link(%s, %s) returned %d, not -1" [ALit b; ALit b; AInt ret];;
  ret ← exec b [chars "xx"];
  failif (negb (ret =? -1)) "exec(%s) returned %d, not -1" [ALit b; AInt fd];;
  fork_or fuel "fork failed" []
    (let big := replicate (Z.to_nat PGSIZE) (chr "x") in
     ret ← exec (chars "echo") [big; big; big];
     failif (negb (ret =? -1)) "exec(echo, BIG) returned %d, not -1" [AInt fd];;
     exit 747);;
  m ← umem; uset (store_bytes m xstatus (le_split 4 0));;
  '(_, st) ← wait_int xstatus;
  failif (negb (st =? 747)) "exec(echo, BIG) succeeded, should have failed" [].

Definition copyinstr3 (s : list Z) : U W unit :=
  sbrk 8192;;
  top ← sbrk 0;
  uwhen (negb (u64 top mod PGSIZE =? 0)) (ignore (sbrk (i32 (PGSIZE - u64 top mod PGSIZE))));;
  top ← sbrk 0;
  failif (negb (u64 top mod PGSIZE =? 0)) "oops" [];;
  let b := u64 (u64 top - 1) in
  store_char b (chr "x");;
  ret ← raw SYS_unlink [b];
  failif (negb (ret =? -1)) "unlink(%s) returned %d, not -1" [APtr b; AInt ret];;
  fd ← raw SYS_open [b; CREAT_WR];
  failif (negb (fd =? -1)) "open(%s) returned %d, not -1" [APtr b; AInt fd];;
  ret ← raw SYS_link [b; b];
  failif (negb (ret =? -1)) "link(%s, %s) returned %d, not -1" [APtr b; APtr b; AInt ret];;
  m ← umem; uset (store64 (store64 m lbuf (lit "xx")) (lbuf + 8) 0);;
  ret ← raw_exec b lbuf (fun _ => [chars "xx"]);
  failif (negb (ret =? -1)) "exec(%s) returned %d, not -1" [APtr b; AInt fd].

Definition rwsbrk (s : list Z) : U W unit :=
  r ← sbrk 8192;
  let a := u64 r in
  failif (a =? u64 (-1)) "sbrk(rwsbrk) failed" [];;
  r ← sbrk (-8192);
  failif (r =? -1) "sbrk(rwsbrk) shrink failed" [];;
  fd ← open_lit "rwsbrk" CREAT_WR;
  failif (fd <? 0) "open(rwsbrk) failed" [];;
  n ← raw SYS_write [fd; u64 (a + PGSIZE); 1024];
  failif (0 <=? n) "write(fd, %p, 1024) returned %d, not -1" [AInt (u64 (a + PGSIZE)); AInt n];;
  close fd;;
  unlink_lit "rwsbrk";;
  fd ← open_lit "README" O_RDONLY;
  failif (fd <? 0) "open(README) failed" [];;
  n ← raw SYS_read [fd; u64 (a + PGSIZE); 10];
  failif (0 <=? n) "read(fd, %p, 10) returned %d, not -1" [AInt (u64 (a + PGSIZE)); AInt n];;
  close fd;;
  exit 0.

(** ** Truncation *)

Definition truncate1 (s : list Z) : U W unit :=
  unlink_lit "truncfile";;
  fd1 ← open_lit "truncfile" (Z.lor CREAT_WR O_TRUNC);
  write_lit fd1 (chars "abcd");;
  close fd1;;
  fd2 ← open_lit "truncfile" O_RDONLY;
  n ← read fd2 lbuf 32;
  failif (negb (n =? 4)) "%s: read %d bytes, wanted 4" [ALit s; AInt n];;
  fd1 ← open_lit "truncfile" (Z.lor O_WRONLY O_TRUNC);
  fd3 ← open_lit "truncfile" O_RDONLY;
  n ← read fd3 lbuf 32;
  uwhen (negb (n =? 0))
    (say "aaa fd3=%d" [AInt fd3];; say "%s: read %d bytes, wanted 0" [ALit s; AInt n];; exit 1);;
  n ← read fd2 lbuf 32;
  uwhen (negb (n =? 0))
    (say "bbb fd2=%d" [AInt fd2];; say "%s: read %d bytes, wanted 0" [ALit s; AInt n];; exit 1);;
  write_lit fd1 (chars "abcdef");;
  n ← read fd3 lbuf 32;
  failif (negb (n =? 6)) "%s: read %d bytes, wanted 6" [ALit s; AInt n];;
  n ← read fd2 lbuf 32;
  failif (negb (n =? 2)) "%s: read %d bytes, wanted 2" [ALit s; AInt n];;
  unlink_lit "truncfile";;
  drop_ (Close fd1);; drop_ (Close fd2);; drop_ (Close fd3).

Definition truncate2 (s : list Z) : U W unit :=
  unlink_lit "truncfile";;
  fd1 ← open_lit "truncfile" (Z.lor (Z.lor O_CREATE O_TRUNC) O_WRONLY);
  write_lit fd1 (chars "abcd");;
  fd2 ← open_lit "truncfile" (Z.lor O_TRUNC O_WRONLY);
  n ← write_lit fd1 (chars "x");
  failif (negb (n =? -1)) "%s: write returned %d, expected -1" [ALit s; AInt n];;
  unlink_lit "truncfile";;
  drop_ (Close fd1);; drop_ (Close fd2).

Definition truncate3 (s : list Z) : U W unit :=
  fd ← open_lit "truncfile" (Z.lor (Z.lor O_CREATE O_TRUNC) O_WRONLY);
  close fd;;
  fork_or fuel "%s: fork failed" [ALit s]
    (for_ 100 (fun _ =>
       fd ← open_lit "truncfile" O_WRONLY;
       failif (fd <? 0) "%s: open failed" [ALit s];;
       n ← write_lit fd (chars "1234567890");
       failif (negb (n =? 10)) "%s: write got %d, expected 10" [ALit s; AInt n];;
       close fd;;
       fd ← open_lit "truncfile" O_RDONLY;
       read fd lbuf 32;;
       drop_ (Close fd));;
     exit 0);;
  for_ 150 (fun _ =>
    fd ← open_lit "truncfile" (Z.lor CREAT_WR O_TRUNC);
    failif (fd <? 0) "%s: open failed" [ALit s];;
    n ← write_lit fd (chars "xxx");
    failif (negb (n =? 3)) "%s: write got %d, expected 3" [ALit s; AInt n];;
    drop_ (Close fd));;
  '(_, x) ← wait_int xstatus;
  unlink_lit "truncfile";;
  exit x.

(** ** iput inside transactions *)

Definition iputtest (s : list Z) : U W unit :=
  r ← mkdir_lit "iputdir"; failif (r <? 0) "%s: mkdir failed" [ALit s];;
  r ← chdir_lit "iputdir"; failif (r <? 0) "%s: chdir iputdir failed" [ALit s];;
  r ← unlink_lit "../iputdir"; failif (r <? 0) "%s: unlink ../iputdir failed" [ALit s];;
  r ← chdir_lit "/"; failif (r <? 0) "%s: chdir / failed" [ALit s].

Definition exitiputtest (s : list Z) : U W unit :=
  fork_or fuel "%s: fork failed" [ALit s]
    (r ← mkdir_lit "iputdir"; failif (r <? 0) "%s: mkdir failed" [ALit s];;
     r ← chdir_lit "iputdir"; failif (r <? 0) "%s: child chdir failed" [ALit s];;
     r ← unlink_lit "../iputdir"; failif (r <? 0) "%s: unlink ../iputdir failed" [ALit s];;
     exit 0);;
  '(_, x) ← wait_int xstatus;
  exit x.

Definition openiputtest (s : list Z) : U W unit :=
  r ← mkdir_lit "oidir"; failif (r <? 0) "%s: mkdir oidir failed" [ALit s];;
  fork_or fuel "%s: fork failed" [ALit s]
    (fd ← open_lit "oidir" O_RDWR;
     failif (0 <=? fd) "%s: open directory for write succeeded" [ALit s];;
     exit 0);;
  drop_ (Pause 1);;
  r ← unlink_lit "oidir"; failif (negb (r =? 0)) "%s: unlink failed" [ALit s];;
  '(_, x) ← wait_int xstatus;
  exit x.
End TestArgs.
