(* ===== verification/TestFs.v ===== *)
(** * The test suite: files and directories (user/usertests.c)

    Reading, writing, linking and removing files, in one process and in
    several at once. *)
From stdpp Require Import base numbers list gmap strings.
From Stdlib Require Import Ascii.
From S2P Require Import Prelude Str Riscv User Ulib Utils Stress TestBase.
From S2P Require Bio Fs Dir Exec.

Section TestFs.
Context {W : Type} `{Os W}.
Variable fuel : nat.
(** The global buf, a local array or structure, the array fa, and xstatus. *)
Variables (buf lbuf fa xstatus : Z).
Local Abbreviation say := (say fuel).
Local Abbreviation failif := (failif fuel).
Local Abbreviation failif_ := (failif_ fuel).
Local Abbreviation CREAT := (Z.lor O_CREATE O_RDWR).

(** A character of a name: '0' + i. *)
Definition dig (i : Z) : Z := u8 (chr "0" + i).
(** close(open(path, mode)); *)
Definition open_close (path : list Z) (mode : Z) : U W unit := fd ← ucall (Open path mode); drop_ (Close fd).

Definition opentest (s : list Z) : U W unit :=
  fd ← open_lit "echo" 0;
  failif (fd <? 0) "%s: open echo failed!" [ALit s];;
  close fd;;
  fd ← open_lit "doesnotexist" 0;
  failif (0 <=? fd) "%s: open doesnotexist succeeded!" [ALit s].

Definition writetest (s : list Z) : U W unit :=
  fd ← open_lit "small" CREAT;
  failif (fd <? 0) "%s: error: creat small failed!" [ALit s];;
  for_ 100 (fun i =>
    r ← write_lit fd (chars "aaaaaaaaaa");
    failif (negb (r =? 10)) "%s: error: write aa %d new file failed" [ALit s; AInt i];;
    r ← write_lit fd (chars "bbbbbbbbbb");
    failif (negb (r =? 10)) "%s: error: write bb %d new file failed" [ALit s; AInt i]);;
  close fd;;
  fd ← open_lit "small" O_RDONLY;
  failif (fd <? 0) "%s: error: open small failed!" [ALit s];;
  i ← read fd buf (100 * 10 * 2);
  failif (negb (i =? 100 * 10 * 2)) "%s: read failed" [ALit s];;
  close fd;;
  r ← unlink_lit "small";
  failif (r <? 0) "%s: unlink small failed" [ALit s].

(** for(;;) of writebig *)
Fixpoint writebig_loop (k : nat) (s : list Z) (fd n : Z) : U W unit :=
  match k with
  | O => ufuel
  | S k =>
      i ← read fd buf Bio.BSIZE;
      if i =? 0 then failif_ (negb (n =? Fs.MAXFILE)) "%s: read only %d blocks from big" [ALit s; AInt n]
      else
        failif (negb (i =? Bio.BSIZE)) "%s: read failed %d" [ALit s; AInt i];;
        m ← umem;
        failif (negb (int_at m buf =? n)) "%s: read content of block %d is %d" [ALit s; AInt n; AInt (int_at m buf)];;
        writebig_loop k s fd (n + 1)
  end.
Definition writebig (s : list Z) : U W unit :=
  fd ← open_lit "big" CREAT;
  failif (fd <? 0) "%s: error: creat big failed!" [ALit s];;
  for_ Fs.MAXFILE (fun i =>
    m ← umem; uset (store_bytes m buf (le_split 4 i));;
    r ← write fd buf Bio.BSIZE;
    failif (negb (r =? Bio.BSIZE)) "%s: error: write big file failed i=%d" [ALit s; AInt i]);;
  close fd;;
  fd ← open_lit "big" O_RDONLY;
  failif (fd <? 0) "%s: error: open big failed!" [ALit s];;
  writebig_loop fuel s fd 0;;
  close fd;;
  r ← unlink_lit "big";
  failif (r <? 0) "%s: unlink big failed" [ALit s].

Definition createtest (s : list Z) : U W unit :=
  for_ 52 (fun i => open_close [chr "a"; dig i] CREAT);;
  for_ 52 (fun i => drop_ (Unlink [chr "a"; dig i])).

Definition dirtest (s : list Z) : U W unit :=
  r ← mkdir_lit "dir0"; failif (r <? 0) "%s: mkdir failed" [ALit s];;
  r ← chdir_lit "dir0"; failif (r <? 0) "%s: chdir dir0 failed" [ALit s];;
  r ← chdir_lit ".."; failif (r <? 0) "%s: chdir .. failed" [ALit s];;
  r ← unlink_lit "dir0"; failif (r <? 0) "%s: unlink dir0 failed" [ALit s].

Definition exectest (s : list Z) : U W unit :=
  unlink_lit "echo-ok";;
  pid ← fork_or fuel "%s: fork failed" [ALit s]
    (close 1;;
     fd ← open_lit "echo-ok" (Z.lor O_CREATE O_WRONLY);
     failif (fd <? 0) "%s: create failed" [ALit s];;
     failif (negb (fd =? 1)) "%s: wrong fd" [ALit s];;
     r ← exec (chars "echo") [chars "echo"; chars "OK"];
     failif (r <? 0) "%s: exec echo failed" [ALit s]);
  '(r, x) ← wait_int xstatus;
  uwhen (negb (r =? pid)) (say "%s: wait failed!" [ALit s]);;
  uwhen (negb (x =? 0)) (exit x);;
  fd ← open_lit "echo-ok" O_RDONLY;
  failif (fd <? 0) "%s: open failed" [ALit s];;
  r ← read fd lbuf 2;
  failif (negb (r =? 2)) "%s: read failed" [ALit s];;
  unlink_lit "echo-ok";;
  b0 ← load_char lbuf; b1 ← load_char (lbuf + 1);
  if (b0 =? chr "O") && (b1 =? chr "K") then exit 0
  else say "%s: wrong output" [ALit s];; exit 1.

(** ** Several processes *)

(** while((n = read(fd, buf, sizeof(buf))) > 0): the counters nc and np *)
Fixpoint sharedfd_loop (k : nat) (fd nc np : Z) : U W (Z * Z) :=
  match k with
  | O => ufuel
  | S k =>
      n ← read fd lbuf 10;
      if 0 <? n then
        m ← umem;
        let bs := load_bytes m lbuf 10 in
        let count c := Z.of_nat (length (filter (fun b => b = c) bs)) in
        sharedfd_loop k fd (i32 (nc + count (chr "c"))) (i32 (np + count (chr "p")))
      else mret (nc, np)
  end.
Definition sharedfd (s : list Z) : U W unit :=
  unlink_lit "sharedfd";;
  fd ← open_lit "sharedfd" CREAT;
  failif_ (fd <? 0) "%s: cannot open sharedfd for writing" [ALit s];;
  pid ← ucall Fork;
  umemset lbuf (if pid =? 0 then chr "c" else chr "p") 10;;
  for_ 1000 (fun _ =>
    r ← write fd lbuf 10;
    failif (negb (r =? 10)) "%s: write sharedfd failed" [ALit s]);;
  (if pid =? 0 then exit 0
   else '(_, x) ← wait_int xstatus; uwhen (negb (x =? 0)) (exit x));;
  close fd;;
  fd ← open_lit "sharedfd" 0;
  failif (fd <? 0) "%s: cannot open sharedfd for reading" [ALit s];;
  '(nc, np) ← sharedfd_loop fuel fd 0 0;
  close fd;;
  unlink_lit "sharedfd";;
  if (nc =? 1000 * 10) && (np =? 1000 * 10) then exit 0
  else say "%s: nc/np test fails" [ALit s];; exit 1.

(** while((n = read(fd, buf, sizeof(buf))) > 0): the total *)
Fixpoint fourfiles_loop (k : nat) (s : list Z) (fd i total : Z) : U W Z :=
  match k with
  | O => ufuel
  | S k =>
      n ← read fd buf BUFSZ;
      if 0 <? n then
        m ← umem;
        failif (negb (forallb (fun b => b =? chr "0" + i) (load_bytes m buf (Z.to_nat n)))) "%s: wrong char" [ALit s];;
        fourfiles_loop k s fd i (i32 (total + n))
      else mret total
  end.
Definition fourfiles (s : list Z) : U W unit :=
  let name i := [chr "f"; dig i] in
  for_ 4 (fun pi =>
    ucall (Unlink (name pi));;
    ignore (fork_or fuel "%s: fork failed" [ALit s]
      (fd ← ucall (Open (name pi) CREAT);
       failif (fd <? 0) "%s: create failed" [ALit s];;
       umemset buf (chr "0" + pi) 500;;
       for_ 12 (fun _ =>
         n ← write fd buf 500;
         failif (negb (n =? 500)) "write failed %d" [AInt n]);;
       exit 0)));;
  for_ 4 (fun _ => '(_, x) ← wait_int xstatus; uwhen (negb (x =? 0)) (exit x));;
  for_ 4 (fun i =>
    fd ← ucall (Open (name i) 0);
    total ← fourfiles_loop fuel s fd i 0;
    close fd;;
    failif (negb (total =? 12 * 500)) "wrong length %d" [AInt total];;
    drop_ (Unlink (name i))).

Definition createdelete (s : list Z) : U W unit :=
  let name pi i := [u8 (chr "p" + pi); dig i] in
  for_ 4 (fun pi =>
    ignore (fork_or fuel "%s: fork failed" [ALit s]
      (for_ 20 (fun i =>
         fd ← ucall (Open (name pi i) CREAT);
         failif (fd <? 0) "%s: create failed" [ALit s];;
         close fd;;
         uwhen ((0 <? i) && (i mod 2 =? 0))
           (r ← ucall (Unlink (name pi (i / 2)));
            failif (r <? 0) "%s: unlink failed" [ALit s]));;
       exit 0)));;
  for_ 4 (fun _ => '(_, x) ← wait_int xstatus; uwhen (negb (x =? 0)) (exit 1));;
  for_ 20 (fun i => for_ 4 (fun pi =>
    fd ← ucall (Open (name pi i) 0);
    (if ((i =? 0) || (10 <=? i)) && (fd <? 0) then
       say "%s: oops createdelete %s didn't exist" [ALit s; ALit (name pi i)];; exit 1
     else if ((1 <=? i) && (i <? 10)) && (0 <=? fd) then
       say "%s: oops createdelete %s did exist" [ALit s; ALit (name pi i)];; exit 1
     else mret tt);;
    uwhen (0 <=? fd) (drop_ (Close fd))));;
  for_ 20 (fun i => for_ 4 (fun pi => drop_ (Unlink (name pi i)))).

Definition unlinkread (s : list Z) : U W unit :=
  fd ← open_lit "unlinkread" CREAT;
  failif (fd <? 0) "%s: create unlinkread failed" [ALit s];;
  write_lit fd (chars "hello");;
  close fd;;
  fd ← open_lit "unlinkread" O_RDWR;
  failif (fd <? 0) "%s: open unlinkread failed" [ALit s];;
  r ← unlink_lit "unlinkread";
  failif (negb (r =? 0)) "%s: unlink unlinkread failed" [ALit s];;
  fd1 ← open_lit "unlinkread" CREAT;
  write_lit fd1 (chars "yyy");;
  close fd1;;
  r ← read fd buf BUFSZ;
  failif_ (negb (r =? 5)) "%s: unlinkread read failed" [ALit s];;
  b0 ← load_char buf;
  failif (negb (b0 =? chr "h")) "%s: unlinkread wrong data" [ALit s];;
  r ← write fd buf 10;
  failif (negb (r =? 10)) "%s: unlinkread write failed" [ALit s];;
  close fd;;
  drop_ (Unlink (chars "unlinkread")).

Definition linktest (s : list Z) : U W unit :=
  unlink_lit "lf1";;
  unlink_lit "lf2";;
  fd ← open_lit "lf1" CREAT;
  failif (fd <? 0) "%s: create lf1 failed" [ALit s];;
  r ← write_lit fd (chars "hello");
  failif (negb (r =? 5)) "%s: write lf1 failed" [ALit s];;
  close fd;;
  r ← link_lit "lf1" "lf2";
  failif (r <? 0) "%s: link lf1 lf2 failed" [ALit s];;
  unlink_lit "lf1";;
  r ← open_lit "lf1" 0;
  failif (0 <=? r) "%s: unlinked lf1 but it is still there!" [ALit s];;
  fd ← open_lit "lf2" 0;
  failif (fd <? 0) "%s: open lf2 failed" [ALit s];;
  r ← read fd buf BUFSZ;
  failif (negb (r =? 5)) "%s: read lf2 failed" [ALit s];;
  close fd;;
  r ← link_lit "lf2" "lf2";
  failif (0 <=? r) "%s: link lf2 lf2 succeeded! oops" [ALit s];;
  unlink_lit "lf2";;
  r ← link_lit "lf2" "lf1";
  failif (0 <=? r) "%s: link non-existent succeeded! oops" [ALit s];;
  r ← link_lit "." "lf1";
  failif (0 <=? r) "%s: link . lf1 succeeded! oops" [ALit s].

(** while(read(fd, &de, sizeof(de)) > 0), with de at [lbuf] and fa at [fa]: the
    number of files whose name is C and a character *)
Fixpoint concreate_loop (k : nat) (s : list Z) (fd n : Z) : U W Z :=
  match k with
  | O => ufuel
  | S k =>
      r ← read fd lbuf 16;
      if 0 <? r then
        m ← umem;
        if le_combine (load_bytes m lbuf 2) =? 0 then concreate_loop k s fd n
        else if (load8 m (lbuf + 2) =? chr "C") && (load8 m (lbuf + 4) =? 0) then
          let i := load8 m (lbuf + 3) - chr "0" in
          failif ((i <? 0) || (40 <=? i)) "%s: concreate weird file %s" [ALit s; APtr (lbuf + 2)];;
          x ← load_char (fa + i);
          failif (z2b x) "%s: concreate duplicate file %s" [ALit s; APtr (lbuf + 2)];;
          store_char (fa + i) 1;;
          concreate_loop k s fd (i32 (n + 1))
        else concreate_loop k s fd n
      else mret n
  end.
Definition concreate (s : list Z) : U W unit :=
  let file i := [chr "C"; dig i] in
  for_ 40 (fun i =>
    ucall (Unlink (file i));;
    pid ← ucall Fork;
    (if z2b pid && (i mod 3 =? 1) then drop_ (Link (chars "C0") (file i))
     else if (pid =? 0) && (i mod 5 =? 1) then drop_ (Link (chars "C0") (file i))
     else
       fd ← ucall (Open (file i) CREAT);
       failif (fd <? 0) "concreate create %s failed" [ALit (file i)];;
       drop_ (Close fd));;
    if pid =? 0 then exit 0
    else '(_, x) ← wait_int xstatus; uwhen (negb (x =? 0)) (exit 1));;
  umemset fa 0 40;;
  fd ← open_lit "." 0;
  n ← concreate_loop fuel s fd 0;
  close fd;;
  failif (negb (n =? 40)) "%s: concreate not enough files in directory listing" [ALit s];;
  for_ 40 (fun i =>
    pid ← ucall Fork;
    failif (pid <? 0) "%s: fork failed" [ALit s];;
    (if ((i mod 3 =? 0) && (pid =? 0)) || ((i mod 3 =? 1) && negb (pid =? 0))
     then for_ 6 (fun _ => open_close (file i) 0)
     else for_ 6 (fun _ => drop_ (Unlink (file i))));;
    if pid =? 0 then exit 0 else drop_ Wait).

(** x = x * 1103515245 + 12345; one of three calls *)
Fixpoint linkunlink_loop (k : nat) (x : Z) : U W unit :=
  match k with
  | O => mret tt
  | S k =>
      let x := u32 (x * 1103515245 + 12345) in
      (if x mod 3 =? 0 then open_close (chars "x") (Z.lor O_RDWR O_CREATE)
       else if x mod 3 =? 1 then drop_ (Link (chars "cat") (chars "x"))
       else drop_ (Unlink (chars "x")));;
      linkunlink_loop k x
  end.
Definition linkunlink (s : list Z) : U W unit :=
  unlink_lit "x";;
  pid ← ucall Fork;
  failif (pid <? 0) "%s: fork failed" [ALit s];;
  linkunlink_loop 100 (if z2b pid then 1 else 97);;
  if z2b pid then drop_ Wait else exit 0.

(** ** Directories *)

Definition subdir (s : list Z) : U W unit :=
  (** if(call op 0){ printf(msg); exit(1); } *)
  let fails (call : U W Z) (bad : Z -> bool) (msg : string) := r ← call; failif (bad r) msg [ALit s] in
  let nonzero r := negb (r =? 0) in
  let zero r := r =? 0 in
  let neg r := r <? 0 in
  let nonneg r := 0 <=? r in
  unlink_lit "ff";;
  fails (mkdir_lit "dd") nonzero "%s: mkdir dd failed";;
  fd ← open_lit "dd/ff" CREAT;
  failif (fd <? 0) "%s: create dd/ff failed" [ALit s];;
  write_lit fd (chars "ff");;
  close fd;;
  fails (unlink_lit "dd") nonneg "%s: unlink dd (non-empty dir) succeeded!";;
  fails (mkdir_lit "/dd/dd") nonzero "%s: subdir mkdir dd/dd failed";;
  fd ← open_lit "dd/dd/ff" CREAT;
  failif (fd <? 0) "%s: create dd/dd/ff failed" [ALit s];;
  write_lit fd (chars "FF");;
  close fd;;
  fd ← open_lit "dd/dd/../ff" 0;
  failif (fd <? 0) "%s: open dd/dd/../ff failed" [ALit s];;
  cc ← read fd buf BUFSZ;
  b0 ← load_char buf;
  failif (negb (cc =? 2) || negb (b0 =? chr "f")) "%s: dd/dd/../ff wrong content" [ALit s];;
  close fd;;
  fails (link_lit "dd/dd/ff" "dd/dd/ffff") nonzero "%s: link dd/dd/ff dd/dd/ffff failed";;
  fails (unlink_lit "dd/dd/ff") nonzero "%s: unlink dd/dd/ff failed";;
  fails (open_lit "dd/dd/ff" O_RDONLY) nonneg "%s: open (unlinked) dd/dd/ff succeeded";;
  fails (chdir_lit "dd") nonzero "%s: chdir dd failed";;
  fails (chdir_lit "dd/../../dd") nonzero "%s: chdir dd/../../dd failed";;
  fails (chdir_lit "dd/../../../dd") nonzero "%s: chdir dd/../../../dd failed";;
  fails (chdir_lit "./..") nonzero "%s: chdir ./.. failed";;
  fd ← open_lit "dd/dd/ffff" 0;
  failif (fd <? 0) "%s: open dd/dd/ffff failed" [ALit s];;
  fails (read fd buf BUFSZ) (fun r => negb (r =? 2)) "%s: read dd/dd/ffff wrong len";;
  close fd;;
  fails (open_lit "dd/dd/ff" O_RDONLY) nonneg "%s: open (unlinked) dd/dd/ff succeeded!";;
  fails (open_lit "dd/ff/ff" CREAT) nonneg "%s: create dd/ff/ff succeeded!";;
  fails (open_lit "dd/xx/ff" CREAT) nonneg "%s: create dd/xx/ff succeeded!";;
  fails (open_lit "dd" O_CREATE) nonneg "%s: create dd succeeded!";;
  fails (open_lit "dd" O_RDWR) nonneg "%s: open dd rdwr succeeded!";;
  fails (open_lit "dd" O_WRONLY) nonneg "%s: open dd wronly succeeded!";;
  fails (link_lit "dd/ff/ff" "dd/dd/xx") zero "%s: link dd/ff/ff dd/dd/xx succeeded!";;
  fails (link_lit "dd/xx/ff" "dd/dd/xx") zero "%s: link dd/xx/ff dd/dd/xx succeeded!";;
  fails (link_lit "dd/ff" "dd/dd/ffff") zero "%s: link dd/ff dd/dd/ffff succeeded!";;
  fails (mkdir_lit "dd/ff/ff") zero "%s: mkdir dd/ff/ff succeeded!";;
  fails (mkdir_lit "dd/xx/ff") zero "%s: mkdir dd/xx/ff succeeded!";;
  fails (mkdir_lit "dd/dd/ffff") zero "%s: mkdir dd/dd/ffff succeeded!";;
  fails (unlink_lit "dd/xx/ff") zero "%s: unlink dd/xx/ff succeeded!";;
  fails (unlink_lit "dd/ff/ff") zero "%s: unlink dd/ff/ff succeeded!";;
  fails (chdir_lit "dd/ff") zero "%s: chdir dd/ff succeeded!";;
  fails (chdir_lit "dd/xx") zero "%s: chdir dd/xx succeeded!";;
  fails (unlink_lit "dd/dd/ffff") nonzero "%s: unlink dd/dd/ff failed";;
  fails (unlink_lit "dd/ff") nonzero "%s: unlink dd/ff failed";;
  fails (unlink_lit "dd") zero "%s: unlink non-empty dd succeeded!";;
  fails (unlink_lit "dd/dd") neg "%s: unlink dd/dd failed";;
  fails (unlink_lit "dd") neg "%s: unlink dd failed".

(** for(sz = 499; sz < (MAXOPBLOCKS+2)*BSIZE; sz += 471) *)
Fixpoint bigwrite_loop (k : nat) (s : list Z) (sz : Z) : U W unit :=
  match k with
  | O => ufuel
  | S k =>
      if sz <? (Bio.MAXOPBLOCKS + 2) * Bio.BSIZE then
        fd ← open_lit "bigwrite" CREAT;
        failif (fd <? 0) "%s: cannot create bigwrite" [ALit s];;
        for_ 2 (fun _ =>
          cc ← write fd buf sz;
          failif (negb (cc =? sz)) "%s: write(%d) ret %d" [ALit s; AInt sz; AInt cc]);;
        close fd;;
        unlink_lit "bigwrite";;
        bigwrite_loop k s (sz + 471)
      else mret tt
  end.
Definition bigwrite (s : list Z) : U W unit := unlink_lit "bigwrite";; bigwrite_loop 27 s 499.

(** for(i = 0; ; i++) of bigfile: the total *)
Fixpoint bigfile_loop (k : nat) (s : list Z) (fd i total : Z) : U W Z :=
  match k with
  | O => ufuel
  | S k =>
      cc ← read fd buf 300;
      failif (cc <? 0) "%s: read bigfile failed" [ALit s];;
      if cc =? 0 then mret total
      else
        failif (negb (cc =? 300)) "%s: short read bigfile" [ALit s];;
        b0 ← load_char buf; b1 ← load_char (buf + 299);
        failif (negb (b0 =? i / 2) || negb (b1 =? i / 2)) "%s: read bigfile wrong data" [ALit s];;
        bigfile_loop k s fd (i + 1) (total + cc)
  end.
Definition bigfile (s : list Z) : U W unit :=
  unlink_lit "bigfile.dat";;
  fd ← open_lit "bigfile.dat" CREAT;
  failif_ (fd <? 0) "%s: cannot create bigfile" [ALit s];;
  for_ 20 (fun i =>
    umemset buf i 600;;
    r ← write fd buf 600;
    failif (negb (r =? 600)) "%s: write bigfile failed" [ALit s]);;
  close fd;;
  fd ← open_lit "bigfile.dat" 0;
  failif (fd <? 0) "%s: cannot open bigfile" [ALit s];;
  total ← bigfile_loop fuel s fd 0 0;
  close fd;;
  failif (negb (total =? 20 * 600)) "%s: read bigfile wrong total" [ALit s];;
  drop_ (Unlink (chars "bigfile.dat")).

Definition fourteen (s : list Z) : U W unit :=
  r ← mkdir_lit "12345678901234";
  failif (negb (r =? 0)) "%s: mkdir 12345678901234 failed" [ALit s];;
  r ← mkdir_lit "12345678901234/123456789012345";
  failif (negb (r =? 0)) "%s: mkdir 12345678901234/123456789012345 failed" [ALit s];;
  fd ← open_lit "123456789012345/123456789012345/123456789012345" O_CREATE;
  failif (fd <? 0) "%s: create 123456789012345/123456789012345/123456789012345 failed" [ALit s];;
  close fd;;
  fd ← open_lit "12345678901234/12345678901234/12345678901234" 0;
  failif (fd <? 0) "%s: open 12345678901234/12345678901234/12345678901234 failed" [ALit s];;
  close fd;;
  r ← mkdir_lit "12345678901234/12345678901234";
  failif (r =? 0) "%s: mkdir 12345678901234/12345678901234 succeeded!" [ALit s];;
  r ← mkdir_lit "123456789012345/12345678901234";
  failif (r =? 0) "%s: mkdir 12345678901234/123456789012345 succeeded!" [ALit s];;
  unlink_lit "123456789012345/12345678901234";;
  unlink_lit "12345678901234/12345678901234";;
  unlink_lit "12345678901234/12345678901234/12345678901234";;
  unlink_lit "123456789012345/123456789012345/123456789012345";;
  unlink_lit "12345678901234/123456789012345";;
  ignore (unlink_lit "12345678901234").

Definition rmdot (s : list Z) : U W unit :=
  r ← mkdir_lit "dots"; failif (negb (r =? 0)) "%s: mkdir dots failed" [ALit s];;
  r ← chdir_lit "dots"; failif (negb (r =? 0)) "%s: chdir dots failed" [ALit s];;
  r ← unlink_lit "."; failif (r =? 0) "%s: rm . worked!" [ALit s];;
  r ← unlink_lit ".."; failif (r =? 0) "%s: rm .. worked!" [ALit s];;
  r ← chdir_lit "/"; failif (negb (r =? 0)) "%s: chdir / failed" [ALit s];;
  r ← unlink_lit "dots/."; failif (r =? 0) "%s: unlink dots/. worked!" [ALit s];;
  r ← unlink_lit "dots/.."; failif (r =? 0) "%s: unlink dots/.. worked!" [ALit s];;
  r ← unlink_lit "dots"; failif (negb (r =? 0)) "%s: unlink dots failed!" [ALit s].

Definition dirfile (s : list Z) : U W unit :=
  fd ← open_lit "dirfile" O_CREATE; failif (fd <? 0) "%s: create dirfile failed" [ALit s];;
  close fd;;
  r ← chdir_lit "dirfile"; failif (r =? 0) "%s: chdir dirfile succeeded!" [ALit s];;
  fd ← open_lit "dirfile/xx" 0; failif (0 <=? fd) "%s: create dirfile/xx succeeded!" [ALit s];;
  fd ← open_lit "dirfile/xx" O_CREATE; failif (0 <=? fd) "%s: create dirfile/xx succeeded!" [ALit s];;
  r ← mkdir_lit "dirfile/xx"; failif (r =? 0) "%s: mkdir dirfile/xx succeeded!" [ALit s];;
  r ← unlink_lit "dirfile/xx"; failif (r =? 0) "%s: unlink dirfile/xx succeeded!" [ALit s];;
  r ← link_lit "README" "dirfile/xx"; failif (r =? 0) "%s: link to dirfile/xx succeeded!" [ALit s];;
  r ← unlink_lit "dirfile"; failif (negb (r =? 0)) "%s: unlink dirfile failed!" [ALit s];;
  fd ← open_lit "." O_RDWR; failif (0 <=? fd) "%s: open . for writing succeeded!" [ALit s];;
  fd ← open_lit "." 0;
  r ← write_lit fd (chars "x"); failif (0 <? r) "%s: write . succeeded!" [ALit s];;
  drop_ (Close fd).

Definition iref (s : list Z) : U W unit :=
  for_ (Fs.NINODE + 1) (fun _ =>
    r ← mkdir_lit "irefd"; failif (negb (r =? 0)) "%s: mkdir irefd failed" [ALit s];;
    r ← chdir_lit "irefd"; failif (negb (r =? 0)) "%s: chdir irefd failed" [ALit s];;
    mkdir_lit "";;
    link_lit "README" "";;
    fd ← open_lit "" O_CREATE; uwhen (0 <=? fd) (drop_ (Close fd));;
    fd ← open_lit "xx" O_CREATE; uwhen (0 <=? fd) (drop_ (Close fd));;
    drop_ (Unlink (chars "xx")));;
  for_ (Fs.NINODE + 1) (fun _ => chdir_lit "..";; drop_ (Unlink (chars "irefd")));;
  drop_ (Chdir (chars "/")).

(** ** Full disks and large directories *)

(** while(1) of fsfull: total and fsblocks *)
Fixpoint fsfull_fill (k : nat) (fd total fsblocks : Z) : U W (Z * Z) :=
  match k with
  | O => ufuel
  | S k =>
      cc ← write fd buf Bio.BSIZE;
      if cc <? Bio.BSIZE then mret (total, fsblocks)
      else fsfull_fill k fd (i32 (total + cc)) (i32 (fsblocks + 1))
  end.
Definition fsfull_name (n : Z) : list Z :=
  [chr "f"; dig (Z.quot n 1000); dig (Z.quot (Z.rem n 1000) 100); dig (Z.quot (Z.rem n 100) 10); dig (Z.rem n 10)].
(** for(nfiles = 0; ; nfiles++): nfiles at the break *)
Fixpoint fsfull_loop (k : nat) (nfiles fsblocks : Z) : U W Z :=
  match k with
  | O => ufuel
  | S k =>
      let name := fsfull_name nfiles in
      say "writing %s" [ALit name];;
      fd ← ucall (Open name CREAT);
      if fd <? 0 then say "open %s failed" [ALit name];; mret nfiles
      else
        '(total, fsblocks) ← fsfull_fill fuel fd 0 fsblocks;
        say "wrote %d bytes" [AInt total];;
        close fd;;
        if total =? 0 then mret nfiles else fsfull_loop k (i32 (nfiles + 1)) fsblocks
  end.
(** while(nfiles >= 0) *)
Fixpoint fsfull_clean (k : nat) (nfiles : Z) : U W unit :=
  match k with
  | O => ufuel
  | S k => if 0 <=? nfiles then ucall (Unlink (fsfull_name nfiles));; fsfull_clean k (nfiles - 1) else mret tt
  end.
Definition fsfull : U W unit :=
  say "fsfull test" [];;
  nfiles ← fsfull_loop fuel 0 0;
  fsfull_clean fuel nfiles;;
  say "fsfull test finished" [].

Definition bigdir (s : list Z) : U W unit :=
  let name i := [chr "x"; dig (i / 64); dig (i mod 64)] in
  unlink_lit "bd";;
  fd ← open_lit "bd" O_CREATE;
  failif (fd <? 0) "%s: bigdir create failed" [ALit s];;
  close fd;;
  for_ 500 (fun i =>
    r ← ucall (Link (chars "bd") (name i));
    failif (negb (r =? 0)) "%s: bigdir i=%d link(bd, %s) failed" [ALit s; AInt i; ALit (name i)]);;
  unlink_lit "bd";;
  for_ 500 (fun i =>
    r ← ucall (Unlink (name i));
    failif_ (negb (r =? 0)) "%s: bigdir unlink failed" [ALit s]).

Definition manywrites (s : list Z) : U W unit :=
  for_ 4 (fun ci =>
    let name := [chr "b"; u8 (chr "a" + ci)] in
    ignore (fork_or fuel "fork failed" []
      (ucall (Unlink name);;
       for_ 30 (fun _ =>
         for_ (ci + 1) (fun _ =>
           fd ← ucall (Open name CREAT);
           failif (fd <? 0) "%s: cannot create %s" [ALit s; ALit name];;
           cc ← write fd buf BUFSZ;
           failif (negb (cc =? BUFSZ)) "%s: write(%d) ret %d" [ALit s; AInt BUFSZ; AInt cc];;
           drop_ (Close fd));;
         drop_ (Unlink name));;
       ucall (Unlink name);;
       exit 0)));;
  for_ 4 (fun _ =>
    m ← umem; uset (store_bytes m xstatus (le_split 4 0));;
    '(_, st) ← wait_int xstatus;
    uwhen (negb (st =? 0)) (exit st));;
  exit 0.

Definition badwrite (s : list Z) : U W unit :=
  unlink_lit "junk";;
  for_ 600 (fun _ =>
    fd ← open_lit "junk" (Z.lor O_CREATE O_WRONLY);
    failif (fd <? 0) "open junk failed" [];;
    raw SYS_write [fd; 0xffffffffff; 1];;
    close fd;;
    drop_ (Unlink (chars "junk")));;
  fd ← open_lit "junk" (Z.lor O_CREATE O_WRONLY);
  failif (fd <? 0) "open junk failed" [];;
  r ← write_lit fd (chars "x");
  failif (negb (r =? 1)) "write failed" [];;
  close fd;;
  unlink_lit "junk";;
  exit 0.

Definition CREAT_TRUNC : Z := Z.lor (Z.lor O_CREATE O_RDWR) O_TRUNC.
Definition big_name (fi : Z) : list Z := [chr "b"; chr "i"; chr "g"; dig fi].
Definition zz_name (i : Z) : list Z := [chr "z"; chr "z"; dig (i / 32); dig (i mod 32)].
(** for(int i = 0; i < MAXFILE; i++) of diskfull, with the array buf at [lbuf]:
    the value of done *)
Fixpoint diskfull_fill (k : nat) (fd : Z) : U W Z :=
  match k with
  | O => mret 0
  | S k =>
      r ← write fd lbuf Bio.BSIZE;
      if negb (r =? Bio.BSIZE) then close fd;; mret 1 else diskfull_fill k fd
  end.
(** for(fi = 0; done == 0 && '0' + fi < 0177; fi++) *)
Fixpoint diskfull_loop (k : nat) (s : list Z) (fi done : Z) : U W unit :=
  match k with
  | O => ufuel
  | S k =>
      if (done =? 0) && (chr "0" + fi <? 127) then
        let name := big_name fi in
        ucall (Unlink name);;
        fd ← ucall (Open name CREAT_TRUNC);
        if fd <? 0 then say "%s: could not create file %s" [ALit s; ALit name]
        else
          done ← diskfull_fill (Z.to_nat Fs.MAXFILE) fd;
          close fd;;
          diskfull_loop k s (fi + 1) done
      else mret tt
  end.
(** for(int i = 0; i < nzz; i++) with its break when open fails *)
Fixpoint zz_loop (n : nat) (i : Z) : U W unit :=
  match n with
  | O => mret tt
  | S n =>
      ucall (Unlink (zz_name i));;
      fd ← ucall (Open (zz_name i) CREAT_TRUNC);
      if fd <? 0 then mret tt else close fd;; zz_loop n (i + 1)
  end.
Definition diskfull (s : list Z) : U W unit :=
  unlink_lit "diskfulldir";;
  diskfull_loop 80 s 0 0;;
  zz_loop 128 0;;
  r ← mkdir_lit "diskfulldir";
  uwhen (r =? 0) (say "%s: mkdir(diskfulldir) unexpectedly succeeded!" [ALit s]);;
  unlink_lit "diskfulldir";;
  for_ 128 (fun i => drop_ (Unlink (zz_name i)));;
  for_ (127 - chr "0") (fun i => drop_ (Unlink (big_name i))).

Definition outofinodes (s : list Z) : U W unit :=
  zz_loop (32 * 32) 0;;
  for_ (32 * 32) (fun i => drop_ (Unlink (zz_name i))).
End TestFs.
