(* ===== verification/TestProc.v ===== *)
(** * The test suite: processes and pipes (user/usertests.c)

    fork, exit, wait, kill and pipes; tests of races run a call many times. *)
From stdpp Require Import base numbers list gmap strings.
From Stdlib Require Import Ascii.
From S2P Require Import Prelude Str Riscv User Ulib Utils Stress TestBase.
From S2P Require Bio Fs Dir Exec.

Section TestProc.
Context {W : Type} `{Os W}.
Variable fuel : nat.
(** The global buf, a local fds, and xstatus. *)
Variables (buf fds xstatus : Z).
Local Abbreviation say := (say fuel).
Local Abbreviation failif := (failif fuel).
Local Abbreviation failif_ := (failif_ fuel).

(** for(i = 0; i < n; i++) if((buf[i] & 0xff) != (seq++ & 0xff)): whether all
    characters are as expected *)
Definition in_sequence (bs : list Z) (seq : Z) : bool :=
  forallb (fun p => fst p =? snd p mod 256) (zip bs (seqZ seq (Z.of_nat (length bs)))).
(** while((n = read(fds[0], buf, cc)) > 0): the total, or [None] after oops 2 *)
Fixpoint pipe1_loop (k : nat) (s : list Z) (fd cc seq total : Z) : U W (option Z) :=
  match k with
  | O => ufuel
  | S k =>
      n ← read fd buf cc;
      if 0 <? n then
        m ← umem;
        if in_sequence (load_bytes m buf (Z.to_nat n)) seq then
          pipe1_loop k s fd (if BUFSZ <? cc * 2 then BUFSZ else cc * 2) (seq + n) (total + n)
        else say "%s: pipe1 oops 2" [ALit s];; mret None
      else mret (Some total)
  end.
Definition pipe1 (s : list Z) : U W unit :=
  r ← pipe fds;
  failif (negb (r =? 0)) "%s: pipe() failed" [ALit s];;
  pid ← ucall Fork;
  if pid =? 0 then
    f0 ← fd_at fds 0; close f0;;
    f1 ← fd_at fds 1;
    for_ 5 (fun n =>
      m ← umem; uset (store_bytes m buf (seqZ (n * 1033) 1033));;
      r ← write f1 buf 1033;
      failif (negb (r =? 1033)) "%s: pipe1 oops 1" [ALit s]);;
    exit 0
  else if 0 <? pid then
    f1 ← fd_at fds 1; close f1;;
    f0 ← fd_at fds 0;
    r ← pipe1_loop fuel s f0 1 0 0;
    match r with
    | None => mret tt
    | Some total =>
        failif (negb (total =? 5 * 1033)) "%s: pipe1 oops 3 total %d" [ALit s; AInt total];;
        close f0;;
        '(_, x) ← wait_int xstatus;
        exit x
    end
  else say "%s: fork() failed" [ALit s];; exit 1.

Definition killstatus (s : list Z) : U W unit :=
  for_ 100 (fun _ =>
    pid1 ← fork_or fuel "%s: fork failed" [ALit s] (forever fuel (drop_ Getpid);; exit 0);
    drop_ (Pause 1);;
    drop_ (Kill pid1);;
    '(_, xst) ← wait_int xstatus;
    failif (negb (xst =? -1)) "%s: status should be -1" [ALit s]);;
  exit 0.

Definition preempt (s : list Z) : U W unit :=
  pid1 ← ucall Fork;
  failif_ (pid1 <? 0) "%s: fork failed" [ALit s];;
  uwhen (pid1 =? 0) (forever fuel (mret tt));;
  pid2 ← fork_or fuel "%s: fork failed" [ALit s] (forever fuel (mret tt));
  pipe fds;;
  pid3 ← fork_or fuel "%s: fork failed" [ALit s]
    (f0 ← fd_at fds 0; close f0;;
     f1 ← fd_at fds 1;
     r ← write_lit f1 (chars "x");
     uwhen (negb (r =? 1)) (say_ fuel "%s: preempt write error" [ALit s]);;
     close f1;;
     forever fuel (mret tt));
  f1 ← fd_at fds 1; close f1;;
  f0 ← fd_at fds 0;
  r ← read f0 buf BUFSZ;
  if negb (r =? 1) then say_ fuel "%s: preempt read error" [ALit s]
  else
    close f0;;
    say_ fuel "kill... " [];;
    drop_ (Kill pid1);; drop_ (Kill pid2);; drop_ (Kill pid3);;
    say_ fuel "wait... " [];;
    drop_ Wait;; drop_ Wait;; drop_ Wait.

Definition exitwait (s : list Z) : U W unit :=
  for_ 100 (fun i =>
    pid ← ucall Fork;
    failif (pid <? 0) "%s: fork failed" [ALit s];;
    if z2b pid then
      '(r, xstate) ← wait_int xstatus;
      failif (negb (r =? pid)) "%s: wait wrong pid" [ALit s];;
      failif (negb (i =? xstate)) "%s: wait wrong exit status" [ALit s]
    else exit i).

Definition reparent (s : list Z) : U W unit :=
  master_pid ← ucall Getpid;
  for_ 200 (fun _ =>
    pid ← ucall Fork;
    failif (pid <? 0) "%s: fork failed" [ALit s];;
    if z2b pid then
      r ← ucall Wait;
      failif (negb (r =? pid)) "%s: wait wrong pid" [ALit s]
    else
      pid2 ← ucall Fork;
      uwhen (pid2 <? 0) (drop_ (Kill master_pid);; exit 1);;
      exit 0);;
  exit 0.

Definition twochildren (s : list Z) : U W unit :=
  for_ 1000 (fun _ =>
    pid1 ← ucall Fork;
    failif (pid1 <? 0) "%s: fork failed" [ALit s];;
    if pid1 =? 0 then exit 0
    else
      pid2 ← ucall Fork;
      failif (pid2 <? 0) "%s: fork failed" [ALit s];;
      if pid2 =? 0 then exit 0 else drop_ Wait;; drop_ Wait).

Definition forkfork (s : list Z) : U W unit :=
  for_ 2 (fun _ =>
    pid ← ucall Fork;
    failif_ (pid <? 0) "%s: fork failed" [ALit s];;
    uwhen (pid =? 0)
      (for_ 200 (fun _ =>
         pid1 ← ucall Fork;
         uwhen (pid1 <? 0) (exit 1);;
         uwhen (pid1 =? 0) (exit 0);;
         drop_ Wait);;
       exit 0));;
  for_ 2 (fun _ =>
    '(_, x) ← wait_int xstatus;
    failif_ (negb (x =? 0)) "%s: fork in child failed" [ALit s]).

Definition forkforkfork (s : list Z) : U W unit :=
  unlink_lit "stopforking";;
  pid ← ucall Fork;
  failif_ (pid <? 0) "%s: fork failed" [ALit s];;
  uwhen (pid =? 0)
    (forever fuel
       (fd ← open_lit "stopforking" 0;
        uwhen (0 <=? fd) (exit 0);;
        r ← ucall Fork;
        uwhen (r <? 0) (touch "stopforking")));;
  drop_ (Pause 20);;
  touch "stopforking";;
  drop_ Wait;;
  drop_ (Pause 10).

Definition reparent2 (s : list Z) : U W unit :=
  for_ 800 (fun _ =>
    fork_or fuel "fork failed" [] (drop_ Fork;; drop_ Fork;; exit 0);;
    drop_ Wait);;
  exit 0.

(** for(n=0; n<N; n++) of forktest: the number of children *)
Fixpoint ut_fork_loop (k : nat) (n : Z) : U W Z :=
  match k with
  | O => mret n
  | S k =>
      pid ← ucall Fork;
      if pid <? 0 then mret n else if pid =? 0 then exit 0 else ut_fork_loop k (n + 1)
  end.
Definition ut_forktest (s : list Z) : U W unit :=
  n ← ut_fork_loop 1000 0;
  failif (n =? 0) "%s: no fork at all!" [ALit s];;
  failif (n =? 1000) "%s: fork claimed to work 1000 times!" [ALit s];;
  for_ n (fun _ =>
    r ← ucall Wait;
    failif (r <? 0) "%s: wait stopped early" [ALit s]);;
  r ← ucall Wait;
  failif (negb (r =? -1)) "%s: wait got too many" [ALit s].

(** 31 arguments of 399 spaces each do not fit the stack. *)
Definition bigargtest (s : list Z) : U W unit :=
  unlink_lit "bigarg-ok";;
  pid ← ucall Fork;
  (if pid =? 0 then
     let big := replicate 399 (chr " ") in
     exec (chars "echo") (replicate (Z.to_nat (Exec.MAXARG - 1)) big);;
     fd ← open_lit "bigarg-ok" O_CREATE;
     close fd;;
     exit 0
   else failif (pid <? 0) "%s: bigargtest: fork failed" [ALit s]);;
  '(_, x) ← wait_int xstatus;
  uwhen (negb (x =? 0)) (exit x);;
  fd ← open_lit "bigarg-ok" 0;
  failif (fd <? 0) "%s: bigarg test failed!" [ALit s];;
  drop_ (Close fd).
End TestProc.
