(* ===== verification/TestMem.v ===== *)
(** * The test suite: memory (user/usertests.c)

    sbrk in both its forms, the heap, and loads, stores and calls at addresses
    the process must not reach. *)
From stdpp Require Import base numbers list gmap strings.
From Stdlib Require Import Ascii.
From S2P Require Import Prelude Str Riscv User Ulib Umalloc Utils Stress TestBase.
From S2P Require Bio Fs Dir Exec.

Definition BIG : Z := 100 * 1024 * 1024.
Definition REGION_SZ : Z := 1024 * 1024 * 1024.
(** SBRK_ERROR is (char * )-1; sbrk's result is compared as the signed number. *)
Definition is_error (p : Z) : bool := p =? -1.

Section TestMem.
Context {W : Type} `{Os W}.
Variable fuel : nat.
(** malloc's base and freep; the static array uninit; xstatus, a local fds and
    a local array; the stack pointer; the address of a string literal. *)
Variables (base freep uninit xstatus fds lbuf sp : Z) (lit : string -> Z).
Local Abbreviation say := (say fuel).
Local Abbreviation failif := (failif fuel).
Local Abbreviation failif_ := (failif_ fuel).

(** sbrk, with the bytes of the pages the kernel added. *)
Definition sbrk_fresh (n : Z) : U W Z :=
  '(r, bs) ← ucall_bytes (Sys_sbrk n SBRK_EAGER); m ← umem; uset (store_bytes m r bs);; mret r.
(** for(i = from; i < to; i += step) body *)
Fixpoint steps (k : nat) (i to step : Z) (body : Z -> U W unit) : U W unit :=
  match k with
  | O => ufuel
  | S k => if i <? to then body i;; steps k (i + step) to step body else mret tt
  end.
(** A load of a character and stores of a character and a pointer that may trap. *)
Definition peek_at (a : Z) : U W Z := probe a false;; load_char a.
Definition poke (a c : Z) : U W unit := probe a true;; store_char a c.
Definition poke64 (a x : Z) : U W unit := probe a true;; m ← umem; uset (store64 m a x).

(** while((m2 = malloc(10001)) != 0) *)
Fixpoint mem_fill (k : nat) (m1 : Z) : U W Z :=
  match k with
  | O => ufuel
  | S k =>
      m2 ← malloc base freep fuel 10001;
      if m2 =? 0 then mret m1
      else m ← umem; uset (store64 m m2 m1);; mem_fill k m2
  end.
Definition ufree (p : Z) : U W unit := m ← umem; m ← ulift (free freep fuel m p); uset m.
(** while(m1) *)
Fixpoint mem_free (k : nat) (m1 : Z) : U W unit :=
  match k with
  | O => ufuel
  | S k =>
      if m1 =? 0 then mret tt
      else m ← umem; let m2 := load64 m m1 in ufree m1;; mem_free k m2
  end.
Definition mem_test (s : list Z) : U W unit :=
  pid ← ucall Fork;
  if pid =? 0 then
    m1 ← mem_fill fuel 0;
    mem_free fuel m1;;
    m1 ← malloc base freep fuel (1024 * 20);
    failif (m1 =? 0) "%s: couldn't allocate mem?!!" [ALit s];;
    ufree m1;;
    exit 0
  else
    '(_, x) ← wait_int xstatus;
    uwhen (x =? -1) (exit 0);;
    exit x.

Definition TOOMUCH : Z := 1024 * 1024 * 1024.
(** for(i = 0; i < 5000; i++): the value of a *)
Fixpoint sbrkbasic_loop (n : nat) (s : list Z) (i a : Z) : U W Z :=
  match n with
  | O => mret a
  | S n =>
      b ← sbrk 1;
      failif (negb (b =? a)) "%s: sbrk test failed %d %p %p" [ALit s; AInt i; AInt a; AInt b];;
      store_char b 1;;
      sbrkbasic_loop n s (i + 1) (b + 1)
  end.
Definition sbrkbasic (s : list Z) : U W unit :=
  fork_or fuel "fork failed in sbrkbasic" []
    (a ← sbrk TOOMUCH;
     uwhen (is_error a) (exit 0);;
     steps fuel a (a + TOOMUCH) PGSIZE (fun b => poke b 99);;
     exit 1);;
  '(_, x) ← wait_int xstatus;
  failif (x =? 1) "%s: too much memory allocated!" [ALit s];;
  a ← sbrk 0;
  a ← sbrkbasic_loop 5000 s 0 a;
  pid ← ucall Fork;
  failif (pid <? 0) "%s: sbrk test fork failed" [ALit s];;
  sbrk 1;;
  c ← sbrk 1;
  failif (negb (c =? a + 1)) "%s: sbrk test failed post-fork" [ALit s];;
  uwhen (pid =? 0) (exit 0);;
  '(_, x) ← wait_int xstatus;
  exit x.

Definition sbrkmuch (s : list Z) : U W unit :=
  oldbrk ← sbrk 0;
  a ← sbrk 0;
  p ← sbrk (i32 (BIG - a));
  failif (negb (p =? a)) "%s: sbrk test failed to grow big address space; enough phys mem?" [ALit s];;
  let lastaddr := BIG - 1 in
  store_char lastaddr 99;;
  a ← sbrk 0;
  c ← sbrk (- PGSIZE);
  failif (is_error c) "%s: sbrk could not deallocate" [ALit s];;
  c ← sbrk 0;
  failif (negb (c =? a - PGSIZE)) "%s: sbrk deallocation produced wrong address, a %p c %p" [ALit s; AInt a; AInt c];;
  a ← sbrk 0;
  c ← sbrk_fresh PGSIZE;
  (if negb (c =? a) then say "%s: sbrk re-allocation failed, a %p c %p" [ALit s; AInt a; AInt c];; exit 1
   else
     top ← sbrk 0;
     failif (negb (top =? a + PGSIZE)) "%s: sbrk re-allocation failed, a %p c %p" [ALit s; AInt a; AInt c]);;
  x ← load_char lastaddr;
  failif (x =? 99) "%s: sbrk de-allocation didn't really deallocate" [ALit s];;
  a ← sbrk 0;
  top ← sbrk 0;
  c ← sbrk (i32 (- (top - oldbrk)));
  failif (negb (c =? a)) "%s: sbrk downsize failed, a %p c %p" [ALit s; AInt a; AInt c].

(** ** Forbidden addresses *)

Definition kernmem (s : list Z) : U W unit :=
  for_ 40 (fun i =>
    let a := KERNBASE + 50000 * i in
    fork_or fuel "%s: fork failed" [ALit s]
      (x ← peek_at a; say "%s: oops could read %p = %x" [ALit s; AInt a; AInt x];; exit 1);;
    '(_, x) ← wait_int xstatus;
    uwhen (negb (x =? -1)) (exit 1)).

(** for( ; a != 0; a <<= 1) *)
Fixpoint MAXVAplus_loop (k : nat) (s : list Z) (a : Z) : U W unit :=
  match k with
  | O => ufuel
  | S k =>
      if a =? 0 then mret tt
      else
        fork_or fuel "%s: fork failed" [ALit s]
          (poke a 99;; say "%s: oops wrote %p" [ALit s; AInt a];; exit 1);;
        '(_, x) ← wait_int xstatus;
        uwhen (negb (x =? -1)) (exit 1);;
        MAXVAplus_loop k s (u64 (Z.shiftl a 1))
  end.
Definition MAXVAplus (s : list Z) : U W unit := MAXVAplus_loop 27 s MAXVA.

(** The children of sbrkfail: their pids, and failed *)
Fixpoint sbrkfail_forks (n : nat) (failed : bool) : U W (list Z * bool) :=
  match n with
  | O => mret ([], failed)
  | S n =>
      pid ← ucall Fork;
      f1 ← fd_at fds 1;
      (if pid =? 0 then
         top ← sbrk 0;
         r ← sbrk (i32 (BIG - u64 top));
         (if is_error r then ignore (write_lit f1 (chars "0")) else ignore (write_lit f1 (chars "1")));;
         forever fuel (drop_ (Pause 1000))
       else mret tt);;
      failed ← (if negb (pid =? -1) then
                  f0 ← fd_at fds 0;
                  read f0 lbuf 1;;
                  x ← load_char lbuf;
                  mret (failed || (x =? chr "0"))
                else mret failed);
      '(pids, failed) ← sbrkfail_forks n failed;
      mret (pid :: pids, failed)
  end.
Definition sbrkfail (s : list Z) : U W unit :=
  r ← pipe fds;
  failif (negb (r =? 0)) "%s: pipe() failed" [ALit s];;
  '(pids, failed) ← sbrkfail_forks 10 false;
  uwhen (negb failed) (say "%s: no allocation failed; allocate more?" [ALit s]);;
  c ← sbrk PGSIZE;
  each pids (fun pid => uwhen (negb (pid =? -1)) (drop_ (Kill pid);; drop_ Wait));;
  failif (is_error c) "%s: failed sbrk leaked memory" [ALit s];;
  fork_or fuel "%s: fork failed" [ALit s]
    (a ← sbrk (10 * BIG);
     uwhen (is_error a) (exit 0);;
     say "%s: allocate a lot of memory succeeded %d" [ALit s; AInt (10 * BIG)];;
     exit 1);;
  '(_, x) ← wait_int xstatus;
  uwhen (negb (x =? 0)) (exit 1).

Definition sbrkarg (s : list Z) : U W unit :=
  a ← sbrk PGSIZE;
  fd ← open_lit "sbrk" (Z.lor O_CREATE O_WRONLY);
  unlink_lit "sbrk";;
  failif (fd <? 0) "%s: open sbrk failed" [ALit s];;
  n ← write fd a PGSIZE;
  failif (n <? 0) "%s: write sbrk failed" [ALit s];;
  close fd;;
  a ← sbrk PGSIZE;
  r ← pipe a;
  failif (negb (r =? 0)) "%s: pipe() failed" [ALit s].

(** for(p = 0; p <= (uint)hi; p += PGSIZE), hi being 275 pages *)
Definition validatetest (s : list Z) : U W unit :=
  for_ (1100 * 1024 / PGSIZE + 1) (fun i =>
    r ← raw SYS_link [lit "nosuchfile"; PGSIZE * i];
    failif (negb (r =? -1)) "%s: link should not succeed" [ALit s]).

Definition bsstest (s : list Z) : U W unit :=
  m ← umem;
  failif (negb (forallb (fun b => b =? 0) (load_bytes m uninit 10000))) "%s: bss test failed" [ALit s].

Definition argptest (s : list Z) : U W unit :=
  fd ← open_lit "init" O_RDONLY;
  failif (fd <? 0) "%s: open failed" [ALit s];;
  top ← sbrk 0;
  raw SYS_read [fd; top - 1; -1];;
  drop_ (Close fd).

Definition stacktest (s : list Z) : U W unit :=
  pid ← ucall Fork;
  (if pid =? 0 then
     let p := sp - Exec.USERSTACK * PGSIZE in
     x ← peek_at p;
     say "%s: stacktest: read below stack %d" [ALit s; AInt x];;
     exit 1
   else failif (pid <? 0) "%s: fork failed" [ALit s]);;
  '(_, x) ← wait_int xstatus;
  if x =? -1 then exit 0 else exit x.

Definition nowrite (s : list Z) : U W unit :=
  each [0; 0x80000000; 0x3fffffe000; 0x3ffffff000; 0x4000000000; 0xffffffffffffffff] (fun addr =>
    pid ← ucall Fork;
    (if pid =? 0 then
       probe addr true;;
       m ← umem; uset (store_bytes m addr (le_split 4 10));;
       say "%s: write to %p did not fail!" [ALit s; AInt addr];;
       exit 0
     else failif (pid <? 0) "%s: fork failed" [ALit s]);;
    '(_, x) ← wait_int xstatus;
    uwhen (x =? 0) (exit 1));;
  exit 0.

(** The pointer big, and argv with a null pointer at [lbuf]. *)
Definition wild : Z := 0xeaeb0b5b00002f5e.
Definition pgbug (s : list Z) : U W unit :=
  m ← umem; uset (store64 m lbuf 0);;
  raw_exec wild lbuf (fun _ => []);;
  raw SYS_pipe [wild];;
  exit 0.

(** After the first sbrk the process has no memory: the next instruction traps. *)
Definition sbrkbugs (s : list Z) : U W unit :=
  fork_or fuel "fork failed" []
    (top ← sbrk 0;
     let sz := i32 (u64 top) in
     sbrk (i32 (- sz));;
     probe 0 false;;
     exit 0);;
  drop_ Wait;;
  fork_or fuel "fork failed" []
    (top ← sbrk 0;
     let sz := i32 (u64 top) in
     sbrk (i32 (- (sz - 3500)));;
     exit 0);;
  drop_ Wait;;
  fork_or fuel "fork failed" []
    (top ← sbrk 0;
     sbrk (i32 (10 * PGSIZE + 2048 - u64 top));;
     sbrk (-10);;
     exit 0);;
  drop_ Wait;;
  exit 0.

Definition sbrklast (s : list Z) : U W unit :=
  top ← sbrk 0;
  uwhen (negb (u64 top mod PGSIZE =? 0)) (ignore (sbrk (i32 (PGSIZE - u64 top mod PGSIZE))));;
  sbrk PGSIZE;;
  sbrk 10;;
  sbrk (-20);;
  top ← sbrk 0;
  let p := u64 (u64 top - 64) in
  store_char p (chr "x");;
  store_char (p + 1) 0;;
  fd ← open p (Z.lor O_RDWR O_CREATE);
  write fd p 1;;
  close fd;;
  fd ← open p O_RDWR;
  store_char p 0;;
  read fd p 1;;
  x ← load_char p;
  uwhen (negb (x =? chr "x")) (exit 1).

Definition sbrk8000 (s : list Z) : U W unit :=
  sbrk (i32 0x80000004);;
  top ← sbrk 0;
  x ← peek_at (top - 1);
  poke (top - 1) (u8 (x + 1)).

Definition badarg (s : list Z) : U W unit :=
  for_ 50000 (fun _ =>
    m ← umem; uset (store64 (store64 m lbuf 0xffffffff) (lbuf + 8) 0);;
    ignore (raw_exec (lit "echo") lbuf (fun m => [path_at m 0xffffffff])));;
  exit 0.

(** ** Lazy allocation *)

Definition lazy_alloc (s : list Z) : U W unit :=
  prev_end ← sbrklazy REGION_SZ;
  failif (is_error prev_end) "sbrklazy() failed" [];;
  let new_end := prev_end + REGION_SZ in
  steps fuel (prev_end + PGSIZE) new_end (64 * PGSIZE) (fun i => poke64 i i);;
  steps fuel (prev_end + PGSIZE) new_end (64 * PGSIZE) (fun i =>
    probe i false;;
    m ← umem;
    failif (negb (load64 m i =? i)) "failed to read value from memory" []);;
  exit 0.

Definition lazy_unmap (s : list Z) : U W unit :=
  prev_end ← sbrklazy REGION_SZ;
  failif (is_error prev_end) "sbrklazy() failed" [];;
  let new_end := prev_end + REGION_SZ in
  steps fuel (prev_end + PGSIZE) new_end (PGSIZE * PGSIZE) (fun i => poke64 i i);;
  steps fuel (prev_end + PGSIZE) new_end (PGSIZE * PGSIZE) (fun i =>
    pid ← ucall Fork;
    if pid <? 0 then say "error forking" [];; exit 1
    else if pid =? 0 then
      sbrklazy (i32 (- REGION_SZ));;
      poke64 i i;;
      exit 0
    else
      '(_, status) ← wait_int xstatus;
      failif (status =? 0) "memory not unmapped" []);;
  exit 0.

Definition lazy_bad : list Z :=
  [0x3fffffc000; 0x3fffffd000; 0x3fffffe000; 0x3ffffff000; 0x4000000000; 0x8000000000].
Definition lazy_copy (s : list Z) : U W unit :=
  p ← sbrk 0;
  sbrklazy (4 * PGSIZE);;
  raw SYS_open [p + 8192; 0];;
  xx ← sbrk 0;
  ret ← sbrk (i32 (- (u64 xx + 1)));
  failif (negb (ret =? xx)) "sbrk(sbrk(0)+1) returned %p, not old sz" [AInt ret];;
  each lazy_bad (fun a =>
    fd ← open_lit "README" 0;
    failif (fd <? 0) "cannot open README" [];;
    r ← raw SYS_read [fd; a; 512];
    failif (0 <=? r) "read succeeded" [];;
    close fd;;
    fd ← open_lit "junk" (Z.lor (Z.lor O_CREATE O_RDWR) O_TRUNC);
    failif (fd <? 0) "cannot open junk" [];;
    r ← raw SYS_write [fd; a; 512];
    failif (0 <=? r) "write succeeded" [];;
    drop_ (Close fd));;
  exit 0.

(** while(1) of execout: take pages until sbrk fails *)
Fixpoint execout_fill (k : nat) : U W unit :=
  match k with
  | O => ufuel
  | S k =>
      a ← sbrk PGSIZE;
      if is_error a then mret tt else store_char (a + PGSIZE - 1) 1;; execout_fill k
  end.
Definition execout (s : list Z) : U W unit :=
  for_ 15 (fun avail =>
    pid ← ucall Fork;
    if pid <? 0 then say "fork failed" [];; exit 1
    else if pid =? 0 then
      execout_fill fuel;;
      for_ avail (fun _ => ignore (sbrk (- PGSIZE)));;
      close 1;;
      exec (chars "echo") [chars "echo"; chars "x"];;
      exit 0
    else drop_ Wait);;
  exit 0.
End TestMem.
