(* ===== verification/TestDrive.v ===== *)
(** * The test suite: the driver (user/usertests.c)

    Each test runs in a process of its own, whose exit status decides; before
    and after, the driver counts the free pages of the machine. *)
From stdpp Require Import base numbers list gmap strings.
From Stdlib Require Import Ascii.
From S2P Require Import Prelude Str Riscv User Ulib Umalloc Utils Stress TestBase TestArgs TestFs TestProc TestMem.

Section Driver.
Context {W : Type} `{Os W}.
Variable fuel : nat.
Variable xstatus : Z.

(** struct test *)
Record test := Test { t_f : list Z -> U W unit; t_s : list Z }.

Definition run (f : list Z -> U W unit) (s : list Z) : U W bool :=
  say_ fuel "test %s: " [ALit s];;
  pid ← ucall Fork;
  failif fuel (pid <? 0) "runtest: fork error" [];;
  if pid =? 0 then f s;; exit 0
  else
    '(_, x) ← wait_int xstatus;
    (if negb (x =? 0) then say fuel "FAILED" [] else say fuel "OK" []);;
    mret (x =? 0).

(** justone == 0 || strcmp(t->s, justone) == 0 *)
Definition wanted (m : mem) (justone : option Z) (t : test) : bool :=
  match justone with
  | None => true
  | Some p => bool_decide (cstr (S (length (t_s t))) m p = t_s t)
  end.
Fixpoint runtests_loop (tests : list test) (justone : option Z) (continuous ntests : Z) : U W Z :=
  match tests with
  | [] => mret ntests
  | t :: tests =>
      m ← umem;
      if wanted m justone t then
        ok ← run (t_f t) (t_s t);
        if negb ok && negb (continuous =? 2) then say fuel "SOME TESTS FAILED" [];; mret (-1)
        else runtests_loop tests justone continuous (ntests + 1)
      else runtests_loop tests justone continuous ntests
  end.
Definition runtests (tests : list test) (justone : option Z) (continuous : Z) : U W Z :=
  runtests_loop tests justone continuous 0.

(** while(1) of countfree *)
Fixpoint countfree_loop (k : nat) (n : Z) : U W Z :=
  match k with
  | O => ufuel
  | S k => a ← sbrk PGSIZE; if is_error a then mret n else countfree_loop k (n + 1)
  end.
Definition countfree : U W Z :=
  sz0 ← sbrk 0;
  n ← countfree_loop fuel 0;
  top ← sbrk 0;
  sbrk (i32 (- (u64 top - u64 sz0)));;
  mret n.

Section Suites.
Variables (quicktests slowtests : list test).

(** The slow tests of a round, after [ntests] quick ones; [None] when
    drivetests returns 1. *)
Definition drive_slow (quick : bool) (continuous : Z) (justone : option Z) (ntests : Z) : U W (option Z) :=
  if quick then mret (Some ntests)
  else
    uwhen (bool_decide (justone = None)) (say fuel "usertests slow tests starting" []);;
    n ← runtests slowtests justone continuous;
    if (n <? 0) && negb (continuous =? 2) then mret None
    else mret (Some (if n <? 0 then ntests else ntests + n)).
(** if((free1 = countfree()) < free0): whether drivetests returns 1 *)
Definition drive_lost (continuous free0 : Z) : U W bool :=
  free1 ← countfree;
  if free1 <? free0 then
    say fuel "FAILED -- lost some free pages %d (out of %d)" [AInt free1; AInt free0];;
    mret (negb (continuous =? 2))
  else mret false.
(** One round of the loop of drivetests: the result it returns, if it does. *)
Definition drive_round (quick : bool) (continuous : Z) (justone : option Z) : U W (option Z) :=
  say fuel "usertests starting" [];;
  free0 ← countfree;
  n ← runtests quicktests justone continuous;
  if (n <? 0) && negb (continuous =? 2) then mret (Some 1)
  else
    r ← drive_slow quick continuous justone (if n <? 0 then 0 else n);
    match r with
    | None => mret (Some 1)
    | Some ntests =>
        lost ← drive_lost continuous free0;
        if (lost : bool) then mret (Some 1)
        else if bool_decide (justone <> None) && (ntests =? 0) then say fuel "NO TESTS EXECUTED" [];; mret (Some 1)
        else mret None
    end.
(** do { ... } while(continuous) *)
Fixpoint drivetests_loop (k : nat) (quick : bool) (continuous : Z) (justone : option Z) : U W Z :=
  match k with
  | O => ufuel
  | S k =>
      r ← drive_round quick continuous justone;
      match r with
      | Some r => mret r
      | None => if z2b continuous then drivetests_loop k quick continuous justone else mret 0
      end
  end.
Definition drivetests : bool -> Z -> option Z -> U W Z := drivetests_loop fuel.

(** strcmp(argv[1], lit) == 0 *)
Definition arg_is (m : mem) (p : Z) (s : string) : bool := bool_decide (cstr (S (String.length s)) m p = chars s).
(** quick, continuous and justone from the arguments *)
Definition usertests_args (argv : list Z) : U W (bool * Z * option Z) :=
  m ← umem;
  match argv with
  | [] | [_] => mret (false, 0, None)
  | [_; p] =>
      if arg_is m p "-q" then mret (true, 0, None)
      else if arg_is m p "-c" then mret (false, 1, None)
      else if arg_is m p "-C" then mret (false, 2, None)
      else if negb (load8 m p =? chr "-") then mret (false, 0, Some p)
      else say fuel "Usage: usertests [-c] [-C] [-q] [testname]" [];; exit 1
  | _ => say fuel "Usage: usertests [-c] [-C] [-q] [testname]" [];; exit 1
  end.
Definition usertests_main (argv : list Z) : U W unit :=
  '(quick, continuous, justone) ← usertests_args argv;
  r ← drivetests quick continuous justone;
  uwhen (z2b r) (exit 1);;
  say fuel "ALL TESTS PASSED" [];;
  exit 0.
End Suites.

(** ** The two suites *)

Section Tables.
Variables (lit : string -> Z) (fds lbuf buf fa uninit base freep sp : Z).
Local Abbreviation T := (fun f s => Test f (chars s)).
Definition quicktests : list test := [
  T (copyin fuel fds) "copyin"; T (copyout fuel fds) "copyout"; T (copyinstr1 fuel) "copyinstr1";
  T (copyinstr2 fuel xstatus) "copyinstr2"; T (copyinstr3 fuel lit lbuf) "copyinstr3"; T (rwsbrk fuel) "rwsbrk";
  T (truncate1 fuel lbuf) "truncate1"; T (truncate2 fuel) "truncate2"; T (truncate3 fuel xstatus lbuf) "truncate3";
  T (openiputtest fuel xstatus) "openiput"; T (exitiputtest fuel xstatus) "exitiput"; T (iputtest fuel) "iput";
  T (opentest fuel) "opentest"; T (writetest fuel buf) "writetest"; T (writebig fuel buf) "writebig";
  T createtest "createtest"; T (dirtest fuel) "dirtest"; T (exectest fuel lbuf xstatus) "exectest";
  T (pipe1 fuel buf fds xstatus) "pipe1"; T (killstatus fuel xstatus) "killstatus"; T (preempt fuel buf fds) "preempt";
  T (exitwait fuel xstatus) "exitwait"; T (reparent fuel) "reparent"; T (twochildren fuel) "twochildren";
  T (forkfork fuel xstatus) "forkfork"; T (forkforkfork fuel) "forkforkfork"; T (reparent2 fuel) "reparent2";
  T (mem_test fuel base freep xstatus) "mem"; T (sharedfd fuel lbuf xstatus) "sharedfd"; T (fourfiles fuel buf xstatus) "fourfiles";
  T (createdelete fuel xstatus) "createdelete"; T (unlinkread fuel buf) "unlinkread"; T (linktest fuel buf) "linktest";
  T (concreate fuel lbuf fa xstatus) "concreate"; T (linkunlink fuel) "linkunlink"; T (subdir fuel buf) "subdir";
  T (bigwrite fuel buf) "bigwrite"; T (bigfile fuel buf) "bigfile"; T (fourteen fuel) "fourteen"; T (rmdot fuel) "rmdot";
  T (dirfile fuel) "dirfile"; T (iref fuel) "iref"; T (ut_forktest fuel) "forktest"; T (sbrkbasic fuel xstatus) "sbrkbasic";
  T (sbrkmuch fuel) "sbrkmuch"; T (kernmem fuel xstatus) "kernmem"; T (MAXVAplus fuel xstatus) "MAXVAplus";
  T (sbrkfail fuel xstatus fds lbuf) "sbrkfail"; T (sbrkarg fuel) "sbrkarg"; T (validatetest fuel lit) "validatetest";
  T (bsstest fuel uninit) "bsstest"; T (bigargtest fuel xstatus) "bigargtest"; T (argptest fuel) "argptest";
  T (stacktest fuel xstatus sp) "stacktest"; T (nowrite fuel xstatus) "nowrite"; T (pgbug lbuf) "pgbug";
  T (sbrkbugs fuel) "sbrkbugs"; T sbrklast "sbrklast"; T sbrk8000 "sbrk8000"; T (badarg lbuf lit) "badarg";
  T (lazy_alloc fuel) "lazy_alloc"; T (lazy_unmap fuel xstatus) "lazy_unmap"; T (lazy_copy fuel) "lazy_copy" ].
Definition slowtests : list test := [
  T (bigdir fuel) "bigdir"; T (manywrites fuel buf xstatus) "manywrites"; T (badwrite fuel) "badwrite";
  T (execout fuel) "execout"; T (diskfull fuel lbuf) "diskfull"; T outofinodes "outofinodes" ].
End Tables.
End Driver.

(** ** The verdict against a contract of the kernel

    What the driver relies on as the parent of the tests: fork gives it a
    child, wait reaps it and stores its status, sbrk of a page succeeds while
    there is a free one, and a negative sbrk gives pages back.  [reaped] is the
    history of statuses, [said] that of the output. *)
Class Bench (W : Type) `{Os W} := {
  reaped : W -> list Z;
  said : W -> list Z;
  pages : W -> Z;     (* free pages *)
  brk : W -> Z;
  total : Z;          (* pages of the machine *)
  pages_bound : forall w, 0 <= pages w <= total;
  fork_bench : forall w r bs w', sys Fork w = (r, bs, w') -> 0 < r /\ reaped w' = reaped w /\ said w' = said w /\ brk w' = brk w;
  wait_bench : forall w r bs w', sys Wait w = (r, bs, w') -> exists st, in_s 32 st /\ bs = le_split 4 st /\
    reaped w' = reaped w ++ [st] /\ said w' = said w /\ brk w' = brk w;
  write_bench : forall bs w r bs' w', sys (Write 1 bs) w = (r, bs', w') ->
    reaped w' = reaped w /\ said w' = said w ++ bs /\ pages w' = pages w /\ brk w' = brk w;
  sbrk_bench : forall n w r bs w', sys (Sys_sbrk n SBRK_EAGER) w = (r, bs, w') -> n mod PGSIZE = 0 -> 0 <= brk w + n ->
    PGSIZE * pages w - n <= PGSIZE * total ->
    reaped w' = reaped w /\ said w' = said w /\
    if n <=? PGSIZE * pages w then r = brk w /\ brk w' = brk w + n /\ PGSIZE * pages w' = PGSIZE * pages w - n
    else r = -1 /\ brk w' = brk w /\ pages w' = pages w;
}.

Section Bench.
Context {W : Type} `{Bench W}.

(** A computation that prints [bs] and does nothing else. *)
Definition prints {A} (p : U W A) (a : A) (bs : list Z) : Prop := forall m w, exists w', p m w = URet a m w' /\
  said w' = said w ++ bs /\ reaped w' = reaped w /\ pages w' = pages w /\ brk w' = brk w.
Lemma shows_ret {A} (a : A) : prints (mret a) a [].
Proof. intros m w. exists w. by rewrite app_nil_r. Qed.
Lemma shows_bind {A B} (p : U W A) (k : A -> U W B) a b bs bs' : prints p a bs -> prints (k a) b bs' -> prints (p ≫= k) b (bs ++ bs').
Proof.
  intros Hp Hk m w. destruct (Hp m w) as (w1 & E1 & S1 & R1 & P1 & B1). destruct (Hk m w1) as (w2 & E2 & S2 & R2 & P2 & B2).
  exists w2. split; [by rewrite (ubind_ret _ _ _ _ _ _ _ E1)|]. split; [by rewrite S2, S1, app_assoc|]. split_and!; congruence.
Qed.
Lemma shows_putc c : prints (putc 1 c) tt [u8 c].
Proof.
  intros m w. unfold putc, write_lit, ucall. destruct (sys (Write 1 [u8 c]) w) as [[r bs'] w'] eqn:E.
  destruct (write_bench _ _ _ _ _ E) as (H1 & H2 & H3 & H4). exists w'. unfold mbind, U_bind. by rewrite E.
Qed.
Lemma shows_putcs cs : prints (putcs 1 cs) tt (u8 <$> cs).
Proof.
  induction cs as [|c cs IH]; [apply shows_ret|]. cbn [putcs fmap list_fmap].
  apply (shows_bind (putc 1 c) (fun _ => putcs 1 cs) tt tt [u8 c] (u8 <$> cs)); [apply shows_putc|exact IH].
Qed.
(** printf of a format whose conversions are %s with literals and %d. *)
Fixpoint shown (fmt : list Z) (ap : list uarg) : list Z :=
  match fmt with
  | [] => []
  | c :: fmt =>
      if c =? chr "%" then
        match fmt, ap with
        | c1 :: fmt, ALit s :: ap => if c1 =? chr "s" then (u8 <$> s) ++ shown fmt ap else []
        | c1 :: fmt, AInt x :: ap => if c1 =? chr "d" then (u8 <$> reverse (printint_buf (i32 x) 10 true)) ++ shown fmt ap else []
        | _, _ => []
        end
      else c :: shown fmt ap
  end.
Fixpoint plain (fmt : list Z) (ap : list uarg) : bool :=
  match fmt with
  | [] => true
  | c :: fmt =>
      if c =? chr "%" then
        match fmt, ap with
        | c1 :: fmt, ALit s :: ap => (c1 =? chr "s") && plain fmt ap
        | c1 :: fmt, AInt x :: ap => (c1 =? chr "d") && plain fmt ap
        | _, _ => false
        end
      else (0 <? c) && (c <? 256) && plain fmt ap
  end.
Lemma vprintf_plain fuel k : forall pre fmt ap, (length fmt < k)%nat -> plain fmt ap = true ->
  prints (vprintf_loop fuel k 1 (pre ++ fmt) (length pre) false ap) tt (shown fmt ap).
Proof.
  induction k as [k IH] using lt_wf_ind. intros pre fmt ap Hk Hp. destruct k as [|k]; [lia|]. cbn [vprintf_loop].
  destruct fmt as [|c fmt].
  { rewrite app_nil_r, nth_overflow by lia. apply shows_ret. }
  rewrite (nth_middle pre fmt c 0 : nth (length pre) (pre ++ c :: fmt) 0 = c). cbn [plain shown length] in Hp, Hk |- *.
  assert (forall c1 fmt', pre ++ c :: c1 :: fmt' = (pre ++ [c; c1]) ++ fmt') as Hsplit by (intros; by rewrite <- app_assoc).
  destruct (Z.eqb_spec c (chr "%")) as [->|Hc].
  - change (chr "%" =? 0) with false. cbn [negb]. destruct fmt as [|c1 fmt]; [done|].
    destruct k as [|k]; [simpl in Hk; lia|]. cbn [vprintf_loop]. cbn [length] in Hk.
    assert (nth (length pre + 1) (pre ++ chr "%" :: c1 :: fmt) 0 = c1) as ->.
    { rewrite app_nth2 by lia. by replace (length pre + 1 - length pre)%nat with 1%nat by lia. }
    assert (length (pre ++ [chr "%"; c1]) = (length pre + 1 + 1 + 0)%nat) as Hl by (rewrite length_app; simpl; lia).
    destruct ap as [|[x|p|s] ap]; try done; apply andb_true_iff in Hp as [E1 Hp]; rewrite E1; apply Z.eqb_eq in E1 as ->; cbn [negb].
    + change (chr "d" =? 0) with false. cbv beta iota zeta. cbn [tail arg_int].
      apply (shows_bind _ _ tt tt); [apply shows_putcs|]. rewrite Hsplit, <- Hl. apply IH; [lia|lia|done].
    + change (chr "s" =? 0) with false. change (chr "s" =? chr "d") with false. change (chr "s" =? chr "l") with false.
      change (chr "s" =? chr "u") with false. change (chr "s" =? chr "x") with false. change (chr "s" =? chr "p") with false.
      change (chr "s" =? chr "c") with false. cbv beta iota zeta delta [andb]. cbn [tail put_arg].
      apply (shows_bind _ _ tt tt); [apply shows_putcs|]. rewrite Hsplit, <- Hl. apply IH; [lia|lia|done].
  - apply andb_true_iff in Hp as [Hp Hp']. apply andb_true_iff in Hp as [H1%Z.ltb_lt H2%Z.ltb_lt].
    rewrite (proj2 (Z.eqb_neq c 0)) by lia. cbn [negb].
    replace (c :: shown fmt ap) with ([u8 c] ++ shown fmt ap) by (by rewrite u_small by lia).
    apply (shows_bind _ _ tt tt); [apply shows_putc|].
    replace (pre ++ c :: fmt) with ((pre ++ [c]) ++ fmt) by (by rewrite <- app_assoc).
    replace (length pre + 1)%nat with (length (pre ++ [c])) by (rewrite length_app; simpl; lia).
    apply IH; [lia|lia|done].
Qed.
Lemma say_prints fuel fmt ap : plain (chars fmt ++ [10]) ap = true -> prints (say fuel fmt ap) tt (shown (chars fmt ++ [10]) ap).
Proof. intros Hp. apply (vprintf_plain fuel _ []); [lia|exact Hp]. Qed.
Lemma say_prints_ fuel fmt ap : plain (chars fmt) ap = true -> prints (say_ fuel fmt ap) tt (shown (chars fmt) ap).
Proof. intros Hp. apply (vprintf_plain fuel _ []); [lia|exact Hp]. Qed.

(** *** A test, and a suite *)

Section Verdict.
Variables (fuel : nat) (xstatus : Z).

(** Only the driver's status variable may have changed. *)
Definition but_status (m m' : mem) : Prop := forall a, a < xstatus \/ xstatus + 4 <= a -> load8 m' a = load8 m a.
Definition report (s : list Z) (x : Z) : list Z :=
  chars "test " ++ (u8 <$> s) ++ chars ": " ++ (if x =? 0 then chars "OK" else chars "FAILED") ++ [10].

Lemma wait_status m w : exists r st w', wait_int xstatus m w = URet (r, st) (store_bytes m xstatus (le_split 4 st)) w' /\
  reaped w' = reaped w ++ [st] /\ said w' = said w /\ brk w' = brk w.
Proof.
  destruct (sys Wait w) as [[r bs] w'] eqn:E. destruct (wait_bench _ _ _ _ E) as (st & Hst & -> & Hw).
  exists r, st, w'. split; [|done]. unfold wait_int, wait_at, ucall_bytes, umem, uset, mret, U_ret, mbind, U_bind. rewrite E.
  do 2 f_equal. unfold int_at. rewrite <- (length_le_split 4 st) at 2. rewrite load_store_bytes by apply le_split_bytes.
  rewrite le_combine_split. change (8 * Z.of_nat 4) with 32. unfold s_. rewrite Zmod_mod. fold (s_ 32 st). by apply s_small.
Qed.

Lemma run_spec f s m w : exists x m' w', run fuel xstatus f s m w = URet (x =? 0) m' w' /\ but_status m m' /\
  reaped w' = reaped w ++ [x] /\ said w' = said w ++ report s x /\ brk w' = brk w.
Proof.
  unfold run. destruct (say_prints_ fuel "test %s: " [ALit s] eq_refl m w) as (w1 & E1 & S1 & R1 & _ & B1). ustep E1.
  destruct (sys Fork w1) as [[pid bs] w2] eqn:E2. destruct (fork_bench _ _ _ _ E2) as (Hpid & R2 & S2 & B2).
  ustep (ucall_eq _ m _ _ _ _ E2). rewrite (proj2 (Z.ltb_ge pid 0)), (proj2 (Z.eqb_neq pid 0)) by lia.
  destruct (wait_status m w2) as (r & x & w3 & E3 & R3 & S3 & B3).
  rewrite (ubind_ret _ _ _ _ _ _ _ (eq_refl : failif fuel false "runtest: fork error" [] m w2 = URet tt m w2)). ustep E3.
  set (m3 := store_bytes m xstatus (le_split 4 x)).
  assert (exists w4, (if negb (x =? 0) then say fuel "FAILED" [] else say fuel "OK" []) m3 w3 = URet tt m3 w4 /\
    said w4 = said w3 ++ (if x =? 0 then chars "OK" else chars "FAILED") ++ [10] /\ reaped w4 = reaped w3 /\ brk w4 = brk w3) as (w4 & E4 & S4 & R4 & B4).
  { destruct (x =? 0); cbn [negb].
    - destruct (say_prints fuel "OK" [] eq_refl m3 w3) as (w4 & E4 & S4 & R4 & _ & B4). by exists w4.
    - destruct (say_prints fuel "FAILED" [] eq_refl m3 w3) as (w4 & E4 & S4 & R4 & _ & B4). by exists w4. }
  exists x, m3, w4. split; [by ustep E4|]. split.
  { intros a Ha. unfold m3. apply load8_store_bytes_out. rewrite length_le_split. lia. }
  split; [congruence|]. split; [|congruence]. rewrite S4, S3, S2, S1.
  change (shown (chars "test %s: ") [ALit s]) with (chars "test " ++ (u8 <$> s) ++ chars ": "). unfold report. by rewrite <- !app_assoc.
Qed.

(** The name given on the command line is not where the statuses go. *)
Definition aside (justone : option Z) (tests : list (test (W := W))) : Prop :=
  match justone with
  | None => True
  | Some p => Forall (fun t => p + Z.of_nat (length (t_s t)) + 1 <= xstatus \/ xstatus + 4 <= p) tests
  end.
Lemma aside_tail justone t tests : aside justone (t :: tests) -> aside justone tests.
Proof. destruct justone as [p|]; [|done]. by intros [_ Ha]%Forall_cons. Qed.
Lemma wanted_status m m' justone t tests : but_status m m' -> aside justone (t :: tests) -> wanted m' justone t = wanted m justone t.
Proof.
  intros Hm Ha. destruct justone as [p|]; [|done]. apply Forall_cons in Ha as [Ha _]. unfold wanted.
  rewrite (cstr_ext _ m' m p p); [done|]. intros i Hi. apply Hm. lia.
Qed.
Definition chosen (m : mem) (justone : option Z) (tests : list (test (W := W))) : list (test (W := W)) :=
  filter (fun t => wanted m justone t = true) tests.
Lemma chosen_status m m' justone tests : but_status m m' -> aside justone tests -> chosen m' justone tests = chosen m justone tests.
Proof.
  induction tests as [|t tests IH]; intros Hm Ha; [done|]. unfold chosen in *. rewrite !filter_cons.
  rewrite (wanted_status m m' justone t tests Hm Ha). rewrite IH; [done|done|]. by apply (aside_tail justone t).
Qed.

(** The result of a suite whose tests are [ts] when they exit with [xs]: all of
    them ran, or the last one that ran is the first that failed. *)
Definition suite_result (continuous : Z) (ts : list (test (W := W))) (xs : list Z) (ntests r : Z) : Prop :=
  (length xs = length ts /\ (continuous = 2 \/ Forall (fun x => x = 0) xs) /\ r = ntests + Z.of_nat (length ts)) \/
  (continuous <> 2 /\ r = -1 /\ exists k x, (k < length ts)%nat /\ x <> 0 /\ xs = replicate k 0 ++ [x]).

Lemma runtests_loop_spec tests : forall justone continuous ntests m w, aside justone tests -> 0 <= ntests ->
  exists xs r m' w', runtests_loop fuel xstatus tests justone continuous ntests m w = URet r m' w' /\ but_status m m' /\
    suite_result continuous (chosen m justone tests) xs ntests r /\ reaped w' = reaped w ++ xs /\ brk w' = brk w /\
    said w' = said w ++ concat (zip_with (fun t x => report (t_s t) x) (chosen m justone tests) xs) ++
      (if r <? 0 then chars "SOME TESTS FAILED" ++ [10] else []).
Proof.
  induction tests as [|t tests IH]; intros justone continuous ntests m w Ha Hn; cbn [runtests_loop].
  { exists [], ntests, m, w. split; [done|]. split; [done|]. split; [left; split; [done|]; split; [by right|simpl; lia]|].
    rewrite (proj2 (Z.ltb_ge ntests 0)), !app_nil_r by lia. done. }
  pose proof (aside_tail _ _ _ Ha) as Ha'.
  rewrite (ubind_ret _ _ _ _ _ _ _ (eq_refl : umem m w = URet m m w)). unfold chosen. rewrite filter_cons. fold (chosen m justone tests).
  destruct (wanted m justone t) eqn:Ew; [rewrite decide_True by done|rewrite decide_False by done; by apply IH].
  destruct (run_spec (t_f t) (t_s t) m w) as (x & m1 & w1 & E1 & M1 & R1 & S1 & B1). ustep E1.
  destruct (negb (x =? 0) && negb (continuous =? 2)) eqn:Eb.
  - apply andb_true_iff in Eb as [Hx%negb_true_iff%Z.eqb_neq Hc%negb_true_iff%Z.eqb_neq].
    destruct (say_prints fuel "SOME TESTS FAILED" [] eq_refl m1 w1) as (w2 & E2 & S2 & R2 & _ & B2). ustep E2.
    exists [x], (-1), m1, w2. split; [done|]. split; [done|]. split.
    { right. split; [done|]. split; [done|]. exists O, x. split; [simpl; lia|done]. }
    split; [congruence|]. split; [congruence|]. rewrite S2, S1, <- app_assoc. cbn [zip_with]. rewrite zip_with_nil_r. cbn [concat]. by rewrite app_nil_r.
  - destruct (IH justone continuous (ntests + 1) m1 w1 Ha' ltac:(lia)) as (xs & r & m2 & w2 & E2 & M2 & SR & R2 & B2 & S2).
    exists (x :: xs), r, m2, w2. split; [exact E2|]. rewrite (chosen_status m m1) in SR, S2 by done.
    split; [intros a Hin; rewrite M2, M1 by done; done|]. split.
    { destruct SR as [(Hl & Hz & Hr)|(Hc & Hr & k & y & Hk & Hy & ->)].
      - left. split; [simpl; lia|]. split; [|cbn [length]; lia]. destruct Hz as [Hz|Hz]; [by left|].
        destruct (Z.eq_dec continuous 2); [by left|right]. apply Forall_cons. split; [|done].
        apply andb_false_iff in Eb as [Eb|Eb]; [by apply negb_false_iff, Z.eqb_eq in Eb|by apply negb_false_iff, Z.eqb_eq in Eb].
      - right. split; [done|]. split; [done|]. exists (S k), y. split; [simpl; lia|]. split; [done|].
        apply andb_false_iff in Eb as [Eb|Eb]; [apply negb_false_iff, Z.eqb_eq in Eb as ->; done|by apply negb_false_iff, Z.eqb_eq in Eb]. }
    split; [by rewrite R2, R1, <- app_assoc|]. split; [congruence|]. rewrite S2, S1. cbn [zip_with concat]. by rewrite <- !app_assoc.
Qed.

(** *** The free pages *)

Lemma countfree_loop_spec k : forall n m w, Z.of_nat k > pages w -> 0 <= brk w ->
  exists w', countfree_loop k n m w = URet (n + pages w) m w' /\ reaped w' = reaped w /\ said w' = said w /\
    pages w' = 0 /\ brk w' = brk w + PGSIZE * pages w.
Proof.
  change PGSIZE with 4096. induction k as [|k IH]; intros n m w Hk Hb; pose proof (pages_bound w) as Hp; [lia|]. cbn [countfree_loop].
  destruct (sys (Sys_sbrk PGSIZE SBRK_EAGER) w) as [[r bs] w1] eqn:E. ustep (ucall_eq _ m _ _ _ _ E).
  destruct (sbrk_bench _ _ _ _ _ E eq_refl) as (R1 & S1 & Hc); [change PGSIZE with 4096; lia|change PGSIZE with 4096; lia|]. change PGSIZE with 4096 in Hc. unfold is_error.
  destruct (Z.leb_spec 4096 (4096 * pages w)).
  - destruct Hc as (-> & B1 & P1). rewrite (proj2 (Z.eqb_neq (brk w) (-1))) by lia.
    destruct (IH (n + 1) m w1) as (w2 & E2 & R2 & S2 & P2 & B2); [lia|lia|].
    exists w2. rewrite E2. replace (n + 1 + pages w1) with (n + pages w) by lia. split; [done|]. split_and!; try congruence. lia.
  - destruct Hc as (-> & B1 & P1). rewrite Z.eqb_refl. assert (pages w = 0) as E0 by lia. exists w1. rewrite E0, Z.add_0_r.
    split; [done|]. split_and!; try congruence. lia.
Qed.

(** countfree counts the free pages and gives them back. *)
Lemma countfree_spec m w : Z.of_nat fuel > pages w -> 0 <= brk w < 2 ^ 38 -> brk w mod PGSIZE = 0 -> pages w <= 2 ^ 18 ->
  exists w', countfree fuel m w = URet (pages w) m w' /\ reaped w' = reaped w /\ said w' = said w /\
    pages w' = pages w /\ brk w' = brk w.
Proof.
  intros Hf Hb Hm Hp. change PGSIZE with 4096 in *. pose proof (pages_bound w) as Hp0. unfold countfree.
  destruct (sys (Sys_sbrk 0 SBRK_EAGER) w) as [[r bs] w1] eqn:E1. ustep (ucall_eq _ m _ _ _ _ E1).
  destruct (sbrk_bench _ _ _ _ _ E1 eq_refl) as (R1 & S1 & C1); [lia|change PGSIZE with 4096; lia|]. change PGSIZE with 4096 in C1.
  rewrite (proj2 (Z.leb_le 0 (4096 * pages w))) in C1 by lia. destruct C1 as (-> & B1 & P1).
  destruct (countfree_loop_spec fuel 0 m w1) as (w2 & E2 & R2 & S2 & P2 & B2); [lia|lia|]. ustep E2. change PGSIZE with 4096 in B2.
  destruct (sys (Sys_sbrk 0 SBRK_EAGER) w2) as [[r3 bs3] w3] eqn:E3. ustep (ucall_eq _ m _ _ _ _ E3).
  destruct (sbrk_bench _ _ _ _ _ E3 eq_refl) as (R3 & S3 & C3); [lia|change PGSIZE with 4096; lia|]. change PGSIZE with 4096 in C3.
  rewrite (proj2 (Z.leb_le 0 (4096 * pages w2))) in C3 by lia. destruct C3 as (-> & B3 & P3).
  assert (i32 (- (u64 (brk w2) - u64 (brk w))) = - (4096 * pages w)) as ->.
  { rewrite (u_small 64 (brk w2)), (u_small 64 (brk w)) by lia. rewrite s_small by (unfold in_s; lia). lia. }
  destruct (sys (Sys_sbrk (- (4096 * pages w)) SBRK_EAGER) w3) as [[r4 bs4] w4] eqn:E4. ustep (ucall_eq _ m _ _ _ _ E4).
  destruct (sbrk_bench _ _ _ _ _ E4) as (R4 & S4 & C4); [change PGSIZE with 4096; rewrite <- Z.mul_opp_r, Z.mul_comm; apply Z.mod_mul; lia|lia|change PGSIZE with 4096; lia|].
  change PGSIZE with 4096 in C4. rewrite (proj2 (Z.leb_le (- (4096 * pages w)) (4096 * pages w3))) in C4 by lia. destruct C4 as (_ & B4 & P4).
  exists w4. rewrite Z.add_0_l. replace (pages w1) with (pages w) by lia. split; [done|]. split_and!; try congruence; lia.
Qed.

(** *** The whole program *)

Lemma all_zero (xs : list Z) n : length xs = n -> Forall (fun x => x = 0) xs -> xs = replicate n 0.
Proof. intros Hl HF. symmetry. apply replicate_as_elem_of. rewrite Forall_forall in HF. done. Qed.
Lemma failed_not_zero k x n : x <> 0 -> replicate k 0 ++ [x] <> replicate n 0.
Proof.
  intros Hx E. assert (x ∈ replicate n 0) as Hin by (rewrite <- E; set_solver). apply elem_of_replicate in Hin as [-> _]. done.
Qed.
Lemma suite_passed ts xs r : suite_result 0 ts xs 0 r -> (r <? 0) = false -> xs = replicate (length ts) 0.
Proof.
  intros [(Hl & [Hc|Hz] & Hr)|(_ & -> & _)]; [done| |done]. intros _. by apply all_zero.
Qed.
Lemma suite_failed ts xs r n : suite_result 0 ts xs 0 r -> (r <? 0) = true -> xs <> replicate n 0.
Proof.
  intros [(Hl & _ & Hr)|(_ & _ & k & x & _ & Hx & ->)]; [|by intros; apply failed_not_zero].
  intros Hlt. apply Z.ltb_lt in Hlt. lia.
Qed.

Section Main.
Variables (quicktests slowtests : list (test (W := W))).
Hypotheses (Htotal : total <= 2 ^ 18) (Hfuel : total < Z.of_nat fuel).

Lemma chosen_all m ts : chosen m None ts = ts.
Proof. induction ts as [|t ts IH]; [done|]. unfold chosen in *. rewrite filter_cons, decide_True by done. by rewrite IH. Qed.
Lemma count_pages m w : 0 <= brk w < 2 ^ 38 -> brk w mod PGSIZE = 0 ->
  exists w', countfree fuel m w = URet (pages w) m w' /\ reaped w' = reaped w /\ pages w' = pages w /\ brk w' = brk w.
Proof.
  intros Hb Hm. pose proof (pages_bound w). destruct (countfree_spec m w) as (w' & E & R & _ & P & B); [lia|done|done|lia|]. by exists w'.
Qed.
Lemma run_suite ts m w : exists xs r m' w', runtests fuel xstatus ts None 0 m w = URet r m' w' /\
  suite_result 0 ts xs 0 r /\ reaped w' = reaped w ++ xs /\ brk w' = brk w.
Proof.
  destruct (runtests_loop_spec ts None 0 0 m w I ltac:(lia)) as (xs & r & m' & w' & E & _ & SR & R & B & _).
  rewrite chosen_all in SR. by exists xs, r, m', w'.
Qed.

Lemma drive_slow_spec n m w : 0 <= n -> exists xs r m' w', drive_slow fuel xstatus slowtests false 0 None n m w = URet r m' w' /\
  reaped w' = reaped w ++ xs /\ brk w' = brk w /\
  match r with Some _ => xs = replicate (length slowtests) 0 | None => forall n, xs <> replicate n 0 end.
Proof.
  intros Hn. unfold drive_slow. rewrite (bool_decide_eq_true_2 (@None Z = None)) by done. cbn [uwhen].
  destruct (say_prints fuel "usertests slow tests starting" [] eq_refl m w) as (w1 & E1 & _ & R1 & _ & B1). ustep E1.
  destruct (run_suite slowtests m w1) as (xs & r & m2 & w2 & E2 & SR & R2 & B2). ustep E2. cbn [negb Z.eqb]. rewrite andb_true_r.
  destruct (r <? 0) eqn:Er; exists xs; [exists None|exists (Some (n + r))]; exists m2, w2;
    (split; [done|]; split; [congruence|]; split; [congruence|]); [by intros k; apply (suite_failed slowtests xs r)|by apply (suite_passed _ _ r)].
Qed.
Lemma drive_lost_spec free0 m w : 0 <= brk w < 2 ^ 38 -> brk w mod PGSIZE = 0 ->
  exists w', drive_lost fuel 0 free0 m w = URet (pages w <? free0) m w' /\ reaped w' = reaped w /\ pages w' = pages w.
Proof.
  intros Hb Hm. unfold drive_lost. destruct (count_pages m w Hb Hm) as (w1 & E1 & R1 & P1 & _). ustep E1.
  destruct (pages w <? free0); [|by exists w1].
  destruct (say_prints fuel "FAILED -- lost some free pages %d (out of %d)" [AInt (pages w); AInt free0] eq_refl m w1) as (w2 & E2 & _ & R2 & P2 & _).
  exists w2. split; [by ustep E2|]. split; congruence.
Qed.
Lemma drive_round_spec m w : 0 <= brk w < 2 ^ 38 -> brk w mod PGSIZE = 0 ->
  exists xs r m' w', drive_round fuel xstatus quicktests slowtests false 0 None m w = URet r m' w' /\
    reaped w' = reaped w ++ xs /\ (r = None \/ r = Some 1) /\
    (r = None <-> xs = replicate (length quicktests + length slowtests) 0 /\ pages w <= pages w').
Proof.
  intros Hb Hm. unfold drive_round.
  destruct (say_prints fuel "usertests starting" [] eq_refl m w) as (w1 & E1 & _ & R1 & P1 & B1). ustep E1.
  destruct (count_pages m w1) as (w2 & E2 & R2 & P2 & B2); [by rewrite B1|by rewrite B1|]. ustep E2.
  destruct (run_suite quicktests m w2) as (xs & n & m3 & w3 & E3 & SR & R3 & B3). ustep E3. cbn [negb Z.eqb]. rewrite andb_true_r.
  destruct (n <? 0) eqn:En.
  { exists xs, (Some 1), m3, w3. split; [done|]. split; [congruence|]. split; [by right|]. split; [done|].
    intros [Hx _]. by destruct (suite_failed _ _ _ _ SR En Hx). }
  destruct (drive_slow_spec n m3 w3) as (ys & r & m4 & w4 & E4 & R4 & B4 & Hy); [by apply Z.ltb_ge|]. ustep E4.
  assert (reaped w4 = reaped w ++ xs ++ ys) as R by (rewrite R4, R3, R2, R1; by rewrite app_assoc).
  rewrite (suite_passed _ _ _ SR En) in *. destruct r as [k|].
  - destruct (drive_lost_spec (pages w1) m4 w4) as (w5 & E5 & R5 & P5); [by rewrite B4, B3, B2, B1|by rewrite B4, B3, B2, B1|]. ustep E5.
    rewrite P1, Hy, <- replicate_add in *. exists (replicate (length quicktests + length slowtests) 0).
    destruct (Z.ltb_spec (pages w4) (pages w)); [exists (Some 1)|exists None]; exists m4, w5; (split; [done|]; split; [congruence|]).
    + split; [by right|]. split; [done|]. intros [_ Hp]. lia.
    + split; [by left|]. split; [|done]. intros _. split; [done|lia].
  - exists (replicate (length quicktests) 0 ++ ys), (Some 1), m4, w4. split; [done|]. split; [done|]. split; [by right|]. split; [done|].
    intros [Hx _]. rewrite replicate_add in Hx. apply app_inv_head in Hx. by apply Hy in Hx.
Qed.

(** usertests without options exits, with 0 or 1, on every kernel that keeps
    the contract: with 0 exactly when each test of the two suites ran in a
    process that exited with 0 and the machine has at least as many free pages
    as before. *)
Theorem usertests_verdict argv m w : (length argv <= 1)%nat -> 0 <= brk w < 2 ^ 38 -> brk w mod PGSIZE = 0 ->
  exists code xs w', usertests_main fuel xstatus quicktests slowtests argv m w = UExit code w' /\
    reaped w' = reaped w ++ xs /\ (code = 0 \/ code = 1) /\
    (code = 0 <-> xs = replicate (length quicktests + length slowtests) 0 /\ pages w <= pages w').
Proof.
  intros Ha Hb Hm. destruct (drive_round_spec m w Hb Hm) as (xs & r & m1 & w1 & E & R & Hr & Hiff).
  assert (forall k, (0 < k)%nat -> drivetests_loop fuel xstatus quicktests slowtests k false 0 None m w =
    URet (match r with Some r => r | None => 0 end) m1 w1) as Ed.
  { intros [|k] Hk; [lia|]. cbn [drivetests_loop]. ustep E. by destruct r. }
  assert (0 < fuel)%nat as Hf by (pose proof (pages_bound w); lia). apply Ed in Hf as Ed'.
  assert (usertests_args fuel argv m w = URet (false, 0, None) m w) as Ep by (destruct argv as [|a0 [|]]; [done|done|simpl in Ha; lia]).
  unfold usertests_main, drivetests. ustep Ep. ustep Ed'. destruct Hr as [-> | ->]; cbn [z2b Z.eqb negb uwhen].
  - destruct (say_prints fuel "ALL TESTS PASSED" [] eq_refl m1 w1) as (w2 & E2 & _ & R2 & P2 & _).
    exists 0, xs, w2. split; [rewrite (ubind_ret _ _ _ _ _ _ _ (eq_refl : (mret tt : U W unit) m1 w1 = URet tt m1 w1)); by ustep E2|].
    split; [congruence|]. split; [by left|]. rewrite P2. split; [intros _; by apply Hiff|done].
  - exists 1, xs, w1. split; [done|]. split; [done|]. split; [by right|]. split; [done|]. intros Hx. by apply Hiff in Hx.
Qed.
End Main.
End Verdict.
End Bench.

(** A kernel that meets the contract, on a machine of eight pages: the children
    exit with the given statuses, then with 0. *)
Record rig := Rig { g_fates : list Z; g_reaped : list Z; g_said : list Z; g_pages : Z; g_brk : Z }.
Definition rig_pages (w : rig) : Z := Z.max 0 (Z.min 8 (g_pages w)).
Definition rig_sys (c : call) (w : rig) : Z * list Z * rig :=
  match c with
  | Fork => (4, [], w)
  | Wait =>
      let st := i32 (hd 0 (g_fates w)) in
      (4, le_split 4 st, Rig (tail (g_fates w)) (g_reaped w ++ [st]) (g_said w) (g_pages w) (g_brk w))
  | Write _ bs => (Z.of_nat (length bs), [], Rig (g_fates w) (g_reaped w) (g_said w ++ bs) (g_pages w) (g_brk w))
  | Sys_sbrk n _ =>
      if n <=? PGSIZE * rig_pages w
      then (g_brk w, [], Rig (g_fates w) (g_reaped w) (g_said w) (rig_pages w - n / PGSIZE) (g_brk w + n))
      else (-1, [], w)
  | _ => (-1, [], w)
  end.
#[global] Instance rig_os : Os rig := rig_sys.
#[global] Program Instance rig_bench : Bench rig :=
  { reaped := g_reaped; said := g_said; pages := rig_pages; brk := g_brk; total := 8 }.
Next Obligation. intros w. unfold rig_pages. lia. Qed.
Next Obligation. intros w r bs w' E. injection E as <- <- <-. split; [lia|done]. Qed.
Next Obligation.
  intros w r bs w' E. injection E as <- <- <-. exists (i32 (hd 0 (g_fates w))). split; [|done].
  apply (s_range 32). lia.
Qed.
Next Obligation. intros bs w r bs' w' E. injection E as <- <- <-. done. Qed.
Next Obligation.
  intros n w r bs w' E Hn Hb Ht. unfold sys, rig_os, rig_sys in E. change PGSIZE with 4096 in *.
  destruct (Z.leb_spec n (4096 * rig_pages w)); injection E as <- <- <-; simpl; [|done].
  split; [done|]. split; [done|]. split; [done|]. split; [done|]. pose proof (Z.div_mod n 4096 ltac:(lia)).
  unfold rig_pages at 1. cbn [g_pages]. lia.
Qed.

Lemma usertests_verdict_witness : exists code xs w',
  usertests_main 9 1000 [Test (fun _ => mret tt) (chars "a")] [Test (fun _ => mret tt) (chars "b")] [0] ∅ (Rig [0; 1] [] [] 5 4096) = UExit code w' /\
  g_reaped w' = xs /\ (code = 0 \/ code = 1).
Proof.
  assert (@total rig _ _ <= 2 ^ 18) as H1 by (intro; discriminate). assert (@total rig _ _ < Z.of_nat 9) as H2 by reflexivity.
  destruct (usertests_verdict 9 1000 [Test (fun _ => mret tt) (chars "a")] [Test (fun _ => mret tt) (chars "b")] H1 H2 [0] ∅ (Rig [0; 1] [] [] 5 4096))
    as (code & xs & w' & E & R & Hc & _); [simpl; lia|split; [discriminate|reflexivity]|reflexivity|].
  exists code, xs, w'. split; [exact E|]. split; [exact R|exact Hc].
Defined.
