(* ===== verification/Find.v ===== *)
(** * find and ls (user/find.c, user/ls.c)

    The two programs that walk directories.  The arrays of find's activations
    are on the stack: one activation has [buf] at its stack address [sp] and
    the directory entry [de] after it, and the next one is [frame] bytes lower. *)
From stdpp Require Import base numbers list gmap strings.
From Stdlib Require Import Ascii.
From S2P Require Import Prelude Str User Ulib Utils.

Definition T_DIR : Z := 1.
Definition T_FILE : Z := 2.
Definition T_DEVICE : Z := 3.
Definition DIRSIZ : Z := 14.
Definition MAXARG : Z := 32.
Definition BUFSZ : Z := 512.
Definition DE_SIZE : Z := 16.     (* sizeof(struct dirent) *)

Definition de_inum (m : mem) (de : Z) : Z := le_combine (load_bytes m de 2).
Definition de_name (de : Z) : Z := de + 2.

(** strcmp(p, literal) == 0 *)
Fixpoint streq_lit (m : mem) (p : Z) (lit : list Z) : bool :=
  match lit with
  | [] => load8 m p =? 0
  | c :: lit => (load8 m p =? c) && streq_lit m (p + 1) lit
  end.

(** for(p = path + strlen(path); p >= path && *p != '/'; p--); p++ *)
Fixpoint last_slash (k : nat) (m : mem) (path p : Z) : option Z :=
  match k with
  | O => None
  | S k => if (path <=? p) && negb (load8 m p =? chr "/") then last_slash k m path (p - 1) else Some p
  end.
Definition base_name (fuel : nat) (m : mem) (path : Z) : option Z :=
  n ← strlen fuel m path; p ← last_slash fuel m path (path + n); Some (p + 1).

Section Find.
Context {W : Type} `{Os W}.
Variable fuel : nat.

(** fmtname of find.c *)
Definition fmtname (path : Z) : U W Z := m ← umem; ulift (base_name fuel m path).

Section Recursion.
Variables frame name exec_argv : Z.
Variable exec_flag : bool.

(** int i = 0; while(exec_argv[i] != 0) i++; *)
Fixpoint count_args (k : nat) (m : mem) (i : Z) : option Z :=
  match k with
  | O => None
  | S k => if load64 m (exec_argv + 8 * i) =? 0 then Some i else count_args k m (i + 1)
  end.
(** The child of -exec: exec returns only when it fails. *)
Definition find_exec (path : Z) : U W unit :=
  m ← umem; i ← ulift (count_args fuel m 0);
  (if MAXARG <? i then sayln fuel 1 "find: too many arguments after -exec." [] else mret tt);;
  let new_argv := ((fun j => load64 m (exec_argv + 8 * Z.of_nat j)) <$> seq 0 (Z.to_nat i)) ++ [path] in
  let cmd := nth 0 new_argv 0 in
  exec (path_at m cmd) (cstr 4096 m <$> new_argv);;
  sayln fuel 1 "find: exec %s failed." [APtr cmd].
(** The cases T_DEVICE and T_FILE *)
Definition find_file (path : Z) : U W unit :=
  p ← fmtname path; m ← umem; r ← ulift (strcmp fuel m p name);
  if r =? 0 then
    if exec_flag then
      pid ← ucall Fork;
      (if pid =? 0 then find_exec path else mret tt);;
      ucall Wait;; mret tt
    else sayln fuel 1 "%s" [APtr path]
  else mret tt.

(** while(read(fd, &de, sizeof(de)) == sizeof(de)), with [visit] the recursive call on buf *)
Fixpoint find_dir (visit : U W unit) (k : nat) (fd de p : Z) : U W unit :=
  match k with
  | O => ufuel
  | S k =>
      r ← read fd de DE_SIZE;
      if r =? DE_SIZE then
        m ← umem;
        if (de_inum m de =? 0) || streq_lit m (de_name de) (chars ".") || streq_lit m (de_name de) (chars "..")
        then find_dir visit k fd de p
        else
          let m := memmove m p (de_name de) DIRSIZ in
          uset (store8 m (p + DIRSIZ) 0);;
          visit;;
          find_dir visit k fd de p
      else mret tt
  end.

Fixpoint find (depth : nat) (sp path : Z) : U W unit :=
  match depth with
  | O => ufuel
  | S depth =>
      m ← umem; len ← ulift (strlen fuel m name);
      if DIRSIZ <? len then sayln fuel 1 "find: target name longer than file name limit." [];; exit 1
      else
        fd ← open path O_RDONLY;
        if fd <? 0 then sayln fuel 1 "find: failed to open %s" [APtr path]
        else
          '(r, st) ← fstat fd;
          if r <? 0 then sayln fuel 1 "find: failed to stat %s" [APtr path]
          else if (us_type st =? T_DEVICE) || (us_type st =? T_FILE) then find_file path;; close fd;; mret tt
          else if us_type st =? T_DIR then
            m ← umem; len ← ulift (strlen fuel m path);
            if BUFSZ <? len + 1 + DIRSIZ + 1 then sayln fuel 1 "find: path too long: %s" [APtr path]
            else
              let buf := sp in
              m ← ulift (strcpy fuel m buf path);
              len ← ulift (strlen fuel m buf);
              uset (store8 m (buf + len) (chr "/"));;
              find_dir (find depth (sp - frame) buf) fuel fd (sp + BUFSZ) (buf + len + 1);;
              close fd;; mret tt
          else sayln fuel 1 "find: failed to identify st.type in %s." [APtr path]
  end.
End Recursion.

(** main, with argv as an array of pointers in memory *)
Definition find_main (frame sp argc argv : Z) : U W unit :=
  let usage := sayln fuel 1 "Usage: find <directory> <target name> [-exec <command> [argument]...] " [] in
  m ← umem;
  let arg i := load64 m (argv + 8 * i) in
  (if argc <? 3 then usage else mret tt);;
  exec_flag ← (if 3 <? argc then
                 if streq_lit m (arg 3) (chars "-exec") then mret true else usage;; mret false
               else mret false);
  find frame (arg 2) (argv + 8 * 4) exec_flag fuel sp (arg 1);;
  exit 0.

(** ** ls.c *)
Section Ls.
(** The static buffer of fmtname; buf and de of ls. *)
Variables nbuf buf de : Z.

Definition ls_fmtname (path : Z) : U W Z :=
  p ← fmtname path;
  m ← umem; len ← ulift (strlen fuel m p);
  if DIRSIZ <=? len then mret p
  else
    let m := memmove m nbuf p len in
    len ← ulift (strlen fuel m p);
    let m := memset m (nbuf + len) (chr " ") (DIRSIZ - len) in
    uset (store8 m (nbuf + DIRSIZ) 0);;
    mret nbuf.
(** printf("%s %d %d %d\n", fmtname(path), st.type, st.ino, (int) st.size) *)
Definition ls_entry (path : Z) (st : ustat) : U W unit :=
  name ← ls_fmtname path;
  sayln fuel 1 "%s %d %d %d" [APtr name; AInt (us_type st); AInt (us_ino st); AInt (i32 (us_size st))].
Fixpoint ls_dir (k : nat) (fd p : Z) : U W unit :=
  match k with
  | O => ufuel
  | S k =>
      r ← read fd de DE_SIZE;
      if r =? DE_SIZE then
        m ← umem;
        if de_inum m de =? 0 then ls_dir k fd p
        else
          let m := memmove m p (de_name de) DIRSIZ in
          uset (store8 m (p + DIRSIZ) 0);;
          '(r, st) ← stat buf;
          if r <? 0 then sayln fuel 1 "ls: cannot stat %s" [APtr buf];; ls_dir k fd p
          else ls_entry buf st;; ls_dir k fd p
      else mret tt
  end.
Definition ls (path : Z) : U W unit :=
  fd ← open path O_RDONLY;
  if fd <? 0 then sayln fuel 2 "ls: cannot open %s" [APtr path]
  else
    '(r, st) ← fstat fd;
    if r <? 0 then sayln fuel 2 "ls: cannot stat %s" [APtr path];; close fd;; mret tt
    else
      (if (us_type st =? T_DEVICE) || (us_type st =? T_FILE) then ls_entry path st
       else if us_type st =? T_DIR then
         m ← umem; len ← ulift (strlen fuel m path);
         if BUFSZ <? len + 1 + DIRSIZ + 1 then sayln fuel 1 "ls: path too long" []
         else
           m ← ulift (strcpy fuel m buf path);
           len ← ulift (strlen fuel m buf);
           uset (store8 m (buf + len) (chr "/"));;
           ls_dir fuel fd (buf + len + 1)
       else mret tt);;
      close fd;; mret tt.
Fixpoint ls_args (argv : list Z) : U W unit :=
  match argv with
  | [] => exit 0
  | a :: argv => ls a;; ls_args argv
  end.
(** [dot] is the address of the literal "." *)
Definition ls_main (dot : Z) (argv : list Z) : U W unit :=
  match argv with
  | [] | [_] => ls dot;; exit 0
  | _ :: files => ls_args files
  end.
End Ls.
End Find.
