(* ===== verification/Boot.v ===== *)
(** * Boot (kernel/start.c, kernel/main.c, and kvminit and kvminithart of
    kernel/vm.c)

    start sets up the machine-mode registers of a hart and leaves for main in
    supervisor mode; main of hart 0 initialises every component, and the other
    harts wait for it.  Both end in the scheduler. *)
From stdpp Require Import base numbers list gmap strings.
From S2P Require Import Prelude Kernel Spinlock Sleeplock Str Riscv Kalloc Vm Bio Log Printf Kstate Proc Pipe Console Fs Dir File Fork Exec Sysfile Trap Virtio.

(** ** start.c *)

(** The registers start reads or writes. *)
Record mregs := Mregs {
  mstatus : Z; mepc : Z; satp : Z; medeleg : Z; mideleg : Z; sie_reg : Z; pmpaddr0 : Z; pmpcfg0 : Z;
  mie : Z; menvcfg : Z; mcounteren : Z; stimecmp : Z; mhartid : Z; tp : Z;
}.
Definition MSTATUS_MPP_MASK : Z := Z.shiftl 3 11.
Definition MSTATUS_MPP_S : Z := Z.shiftl 1 11.
Definition SIE_SEIE : Z := Z.shiftl 1 9.
Definition SIE_STIE : Z := Z.shiftl 1 5.
Definition MIE_STIE : Z := Z.shiftl 1 5.

Definition timerinit (time : Z) (r : mregs) : mregs :=
  Mregs (mstatus r) (mepc r) (satp r) (medeleg r) (mideleg r) (sie_reg r) (pmpaddr0 r) (pmpcfg0 r)
    (Z.lor (mie r) MIE_STIE) (Z.lor (menvcfg r) (Z.shiftl 1 63)) (Z.lor (mcounteren r) 2) (u64 (time + 1000000))
    (mhartid r) (tp r).
(** start up to its mret; [main] is the address of main. *)
Definition start (main time : Z) (r : mregs) : mregs :=
  let x := Z.ldiff (mstatus r) MSTATUS_MPP_MASK in
  let x := Z.lor x MSTATUS_MPP_S in
  let r := Mregs x main 0 0xffff 0xffff (Z.lor (Z.lor (sie_reg r) SIE_SEIE) SIE_STIE) 0x3fffffffffffff 0xf
    (mie r) (menvcfg r) (mcounteren r) (stimecmp r) (mhartid r) (tp r) in
  let r := timerinit time r in
  let id := i32 (mhartid r) in
  Mregs (mstatus r) (mepc r) (satp r) (medeleg r) (mideleg r) (sie_reg r) (pmpaddr0 r) (pmpcfg0 r)
    (mie r) (menvcfg r) (mcounteren r) (stimecmp r) (mhartid r) (u64 id).

(** ** main.c *)

(** The kernel's state with the disk driver's, kernel_pagetable and started. *)
Record boot := Boot { b_k : kst; b_v : vst; b_pagetable : Z; b_started : Z }.
Definition kA : acc boot kst := Acc b_k (fun x s => Boot x (b_v s) (b_pagetable s) (b_started s)).
Definition vA : acc boot vst := Acc b_v (fun x s => Boot (b_k s) x (b_pagetable s) (b_started s)).
Definition bmemA : acc boot pmem := Acc (fun s => k_mem (b_k s)) (fun x s => Boot (set_kmem (b_k s) x) (b_v s) (b_pagetable s) (b_started s)).
Definition bbioA : acc boot bio := Acc (fun s => aget kbioA (b_k s)) (fun x s => Boot (aset kbioA x (b_k s)) (b_v s) (b_pagetable s) (b_started s)).

Section Boot.
Context {D : DiskDriver} (L : layout).
(** etext of kernel.ld, and the values the virtio device's registers read as. *)
Variables (etext : Z) (rd : Z -> Z).

Definition kvminit : K boot unit :=
  pt ← zoom bmemA (kvmmake etext (l_trampoline L));
  modify (fun s => Boot (b_k s) (b_v s) pt (b_started s)).
(** The fences order the page-table writes before and after. *)
Definition kvminithart : K boot unit :=
  pt ← gets b_pagetable;
  emit (Csr SATP (MAKE_SATP pt)).

Definition say (fmt : list Z) (args : list varg) : K boot unit := _ ← printf false fmt args; mret tt.

(** main up to its call of scheduler *)
Definition main : K boot unit :=
  c ← getc;
  if hart c =? 0 then
    zoom kA consoleinit;;
    printfinit;;
    say [10] [];;
    say (chars "xv6 kernel is booting" ++ [10]) [];;
    say [10] [];;
    zoom bmemA (kinit (l_end L));;
    kvminit;;
    kvminithart;;
    zoom kA procinit;;
    zoom kA trapinit;;
    zoom kA (trapinithart L);;
    zoom kA plicinit;;
    zoom kA plicinithart;;
    zoom bbioA binit;;
    zoom kA iinit;;
    zoom kA fileinit;;
    virtio_disk_init rd vA bmemA;;
    zoom kA (userinit L);;
    modify (fun s => Boot (b_k s) (b_v s) (b_pagetable s) 1)
  else
    started ← gets b_started;
    (* while(started == 0): it does not end before hart 0 gets there *)
    (if started =? 0 then nofuel else mret tt);;
    say (chars "hart %d starting" ++ [10]) [VInt (hart c)];;
    kvminithart;;
    zoom kA (trapinithart L);;
    zoom kA plicinithart.
End Boot.
